(* ===== verification/_CoqProject ===== *)
-Q . S2P
Prelude.v
Crypto.v
Codec.v
Protocol.v
Control.v
System.v
Bus.v
Memory.v
Trace.v
Device.v
Data.v
Firmware.v
Station.v
Runtime.v
Wpa2.v
Handshake.v
Wpa2Runtime.v
Production.v
Embassy.v
EmbassyTasks.v
TestSupport.v
Primitives.v
CodecTests.v
BusTests.v
MemoryTests.v
ProtocolTests.v
ControlTests.v
DeviceTests.v
DataTests.v
FirmwareTests.v
StationTests.v
RuntimeTests.v
Wpa2Tests.v
EmbassyTests.v
Wpa2RuntimeTests.v
ProductionTests.v
