(* ===== verification/Prelude.v ===== *)
(** * A verification of the nRF7002 Wi-Fi driver (src/src)

    The repository is a Rust driver for the nRF7002 radio: it boots the firmware
    of the chip over SPI, runs an 802.11 station with WPA2-Personal, moves
    Ethernet frames through packet RAM, and offers them to embassy-net.  This
    library models every module of the crate that runs on the target, operation
    by operation, and proves what each layer promises to the next.

    ** The parts

    From the wire up; a file requires only files above it.
    - Prelude: results with errors and panics ([res]), the state-and-error monad
      [M S E A] in which the methods are written, little-endian bytes, machine
      integers as [Z] with their wrap-around ([u16], [u32], [u64]), the lemmas
      and tactics the components share.
    - Crypto: the external crates sha2, hmac, pbkdf2 and aes as classes.
    - Codec (codec.rs): the bounded writer and the fixed-offset readers.
    - Protocol (protocol.rs), Control (control.rs), System (system.rs): the
      packed messages of the firmware: every encoder with its limits, every
      event parser with its length checks.
    - Bus (bus.rs): the trait [Bus] as the class [BusOps] with the laws
      [BusLaws], and the SPI transport, proved to satisfy them over any SPI
      device ([SpiDevice]).
    - Memory (memory.rs): addresses of the chip and the accesses to its memory.
      Everything above it is proved against [BusLaws], not against SPI.
    - Trace: the accesses of a bus as a log, and a logic of what a computation
      adds to it.  Device and Data use it to say what reaches the firmware: which
      bytes are written where, and which address is put on which queue.
    - Device (device.rs): the queues the firmware publishes, the fragmented
      commands, and the events with their reassembly.
    - Data (data.rs): packet RAM, transmit tokens and receive descriptors, and
      the conversion of received frames to Ethernet.
    - Firmware (firmware.rs): the bundle, its digests, and the loader.
    - Station (station.rs): the connection state machine.  Commands run on the
      pair of the controller and the device; events only on the controller.
    - Runtime (runtime.rs): [NativeDriver], which owns the device, the data path
      and the station, dispatches the events, and decides when all of them start
      over ([enter_recovery], [recover]).
    - Wpa2 (wpa2.rs): frames, key derivation, key unwrapping and the handlers of
      the supplicant; Handshake: its rules as an abstract state machine, the
      proof that the handlers refine it, and the invariants of whole runs.
    - Wpa2Runtime (wpa2_runtime.rs): the coordinator that carries the actions of
      the supplicant to the driver, on the pair of both states.
    - Production (production.rs): [MissionCriticalDriver], which starts over on
      every error that leaves a resource uncertain, and [Wpa2StationDriver],
      which joins it with the coordinator.
    - Embassy (embassy.rs): the two-slot queue shared with embassy-net, lock-free
      between any number of tasks; EmbassyTasks runs its methods under the
      memory model of Rust.
    - Primitives: SHA-256, HMAC-SHA1, PBKDF2 and AES-128 from their standards,
      as instances of the classes of Crypto, whose laws they are proved to obey.
    - TestSupport (test_support.rs) and a file of tests per module (CodecTests,
      with those of system.rs, to ProductionTests and EmbassyTests): each test
      of the crate is a proposition of the same name over the model, with the
      fakes and helpers of its module; the lemma [<test>_passes] evaluates it.

    A definition has the name of its method; where two types have methods of
    the same name, the type comes first ([MissionCriticalDriver_recover]).  A
    struct is a record, an enum an inductive type in a module of its name
    ([StationState.t]), an array or slice a list.  A method with [&mut self] is
    a computation on the record; two borrowed objects, or an object and the
    buffer a caller lends, are a pair.  An early return by [?] is the bind of
    the monad: the state keeps what was done before, as in Rust.  An index out
    of range, a failed [expect] and a failed assertion, [debug_assert!] included,
    are [Panic].

    ** What the theorems show

    - Keys and the handshake (Handshake, Wpa2): no key is installed twice, every
      installed key was authenticated under the pairwise key of one first
      message, the handlers refine the rules, an honest access point is served,
      an error closes the supplicant or refuses the frame.  The parsers accept
      exactly their grammars and never panic; key unwrapping inverts RFC 3394
      wrapping; key derivation is the PRF of the standard and ends.
    - The controlled port (Station, Runtime, Wpa2Runtime, Production, Embassy):
      in every run, a frame crosses the driver only in Ready, on the own
      interface, with the port open, and never as an EAPOL frame on the data
      path; a secure port is open only after the last association was followed
      by an accepted authorization, which the coordinator submits last; outside
      Ready everything is closed; the link of embassy-net follows the port.
    - Errors (Device, Data, Runtime, Production): every failure of an operation
      leaves ownership of tokens, descriptors, events and buffers as the error
      says, and the production driver starts over on exactly those that say too
      little, which a specification of its own lists ([unaccounted]); every other
      error leaves all tokens and descriptors where they were.
    - Hand-over to the firmware (Device, Data, over Trace): a command that
      succeeds has put every one of its fragments on the command queue, a
      transmission its frame and its command, a reception has read its packet and
      put the descriptor back on the queue of free buffers; and these are all
      the accesses there were.  Nothing the firmware declares makes a parser panic or writes
      outside the caller's buffer.
    - No waiting state lasts (Station, Wpa2Runtime): deadlines fire.
    - Conformance: 193 of the 195 tests of the crate hold of the model, among
      them whole handshakes with the real primitives over the fake bus.
    - Layers below: memory round trips, bounds of the SPI frames, packet-RAM
      layout, message layouts, authenticated firmware.
    - The shared queue (Embassy, EmbassyTasks): with the orderings the source
      gives its atomics, no two accesses of a buffer race, every frame arrives
      whole, and the queue is wait free; every interleaving over one memory is
      among the runs, and one that stalls the queue is shown step by step.

    ** Parameters and their laws

    [BusLaws] (a call does not panic, a status register is a byte, a lent buffer
    keeps its length; for reads of at most 4096 bytes, which is what Memory asks
    for), [BusTrace] (each call is one access of the log, a read whose answer is
    what the buffer holds) and [BufferKept], both discharged for any bus that is
    wrapped in a log ([logged]), [DelayLaws] (a delay leaves the bus usable), [MemoryBus]
    (a memory behind the bus, for the round trip only) and [PlatformLaws] (an
    action of the board returns and leaves the bus usable) state what the Rust
    types and the data sheet promise.  Crypto states the sizes of digests and
    that AES decryption inverts encryption; nothing is assumed of their
    strength, so that authentication is stated as equality of codes and digests.
    Instances discharge them in the witnesses, small stand-ins where a proof
    evaluates them, and Primitives shows that the real algorithms obey them.

    ** Bounds and fuel

    Arithmetic on machine integers wraps where the source uses plain operators
    (a release build) and fails where it uses checked ones; debug assertions are
    checked all the same; [usize] is a
    non-negative [Z], except for the epoch of the queue, which wraps at 32 bits.
    Loops over chunks are bounded by the length of their list.  The loops that
    poll the chip take the number of attempts of the call, as the source does.
    The loop that drains fragments takes the number of fragments still missing,
    which every round decreases; the loop of the key derivation one round per
    byte of the key, of which it uses three; the loop over key data one more
    than the length of the data.  In each
    case a lemma or theorem shows that the fuel is never exhausted.  Runs of a
    component are lists of calls of any length.

    ** Where the code does not do what it says

    Each is shown by a theorem of its file: the settings with a fixed latency,
    under which every read of more than four bytes fails a debug assertion (Bus),
    the pool sizes that wrap (Protocol), the accepted access across a gap (Memory), the misplaced
    fragment after a failed drain (Device), the panic on a one-byte MPDU and the
    leaked token before initialization (Data), the truncated MLME result and the
    port that a carrier event reopens (Station), the port left open by a failed
    watchdog check (Runtime), errors that do not close the supplicant (Wpa2),
    the unchecked interface address and the bytes of a consumed EAPOL frame that
    are not wiped (Production), and the stale transmit slot (Embassy).

    ** Not modelled

    The clearing of dropped secrets (the zeroize crate), which has no effect on
    values; the executor: wakers are notifications without effect; lib.rs
    (module declarations) and the polling loop of test_support.rs.  Two tests
    are left out: the known key of 4096 iterations of PBKDF2, which is too long
    to evaluate, and one that only names a type.  Assertions on what the model
    does not have (the alignment of a buffer, the address of the queue, lengths
    above the range of a 32-bit [usize]) are left out of their tests.  Left for
    later: a simulation of the firmware's side of the queues, against which the
    liveness of the whole driver could be stated. *)

From Stdlib Require Export ZArith Lia.
From stdpp Require Export base list numbers option decidable.

#[global] Open Scope Z_scope.

(** ** Rust results

    [res E A] is the outcome of a Rust computation of type [Result<A, E>]:
    a value, an error value, or a panic (an index out of range, a failed
    [expect]).  [?] is [mbind]. *)

Inductive res (E A : Type) : Type :=
  | Ok (a : A)
  | Err (e : E)
  | Panic.
Arguments Ok {E A} a.
Arguments Err {E A} e.
Arguments Panic {E A}.

#[export] Instance res_ret E : MRet (res E) := fun A a => Ok a.
#[export] Instance res_bind E : MBind (res E) := fun A B f m =>
  match m with
  | Ok a => f a
  | Err e => Err e
  | Panic => Panic
  end.

#[export] Instance res_eq_dec E A `{EqDecision E, EqDecision A} :
  EqDecision (res E A).
Proof. solve_decision. Defined.

(** [Option::ok_or] *)
Definition ok_or {E A} (o : option A) (e : E) : res E A :=
  match o with Some a => Ok a | None => Err e end.

(** [Option::expect] and slice indexing: [None] is a panic. *)
Definition expect {E A} (o : option A) : res E A :=
  match o with Some a => Ok a | None => Panic end.

(** [Result::map_err] and the conversion done by [?] through [From]. *)
Definition map_err {E F A} (f : E -> F) (r : res E A) : res F A :=
  match r with Ok a => Ok a | Err e => Err (f e) | Panic => Panic end.

(** [Option::is_some] *)
Definition is_some {A} (o : option A) : bool :=
  match o with Some _ => true | None => false end.

(** [assert!] and [debug_assert!]: a failed assertion is a panic. *)
Definition assertion {E} (c : bool) : res E unit :=
  if c then Ok tt else Panic.

(** Early return: [if c { return Err(e) }]. *)
Definition ensure {E} (c : bool) (e : E) : res E unit :=
  if c then Ok tt else Err e.

(** ** Stateful computations

    [M S E A] is a Rust method on [&mut S] that returns [Result<A, E>].  The
    state is returned in every case: an error does not roll it back. *)

Definition M (S E A : Type) : Type := S -> res E A * S.

#[export] Instance M_ret S E : MRet (M S E) := fun A a s => (Ok a, s).
#[export] Instance M_bind S E : MBind (M S E) := fun A B f m s =>
  match m s with
  | (Ok a, s') => f a s'
  | (Err e, s') => (Err e, s')
  | (Panic, s') => (Panic, s')
  end.

Section monad_ops.
Context {S T E F A : Type}.

Definition get : M S E S := fun s => (Ok s, s).
Definition gets (f : S -> A) : M S E A := fun s => (Ok (f s), s).
Definition modify (f : S -> S) : M S E unit := fun s => (Ok tt, f s).
Definition throw (e : E) : M S E A := fun s => (Err e, s).
Definition lift (r : res E A) : M S E A := fun s => (r, s).
Definition mapM_err (f : E -> F) (m : M S E A) : M S F A := fun s =>
  let '(r, s') := m s in (map_err f r, s').

(** A match on the [Result] of a call: the error becomes a value. *)
Definition attempt (m : M S E A) : M S F (A + E) := fun s =>
  match m s with
  | (Ok a, s') => (Ok (inl a), s')
  | (Err e, s') => (Ok (inr e), s')
  | (Panic, s') => (Panic, s')
  end.

(** A method call on a field of the state. *)
Definition zoom (get : S -> T) (put : T -> S -> S) (m : M T E A) : M S E A :=
  fun s => let '(r, t) := m (get s) in (r, put t s).
End monad_ops.

(** A counted loop whose body may stop it with a value: [Some b] is the
    value returned early, [None] is the normal end of the loop. *)
Fixpoint loop {S E B} (fuel : nat) (body : M S E (option B)) : M S E (option B) :=
  match fuel with
  | O => mret None
  | Datatypes.S n =>
      o ← body;
      match o with Some b => mret (Some b) | None => loop n body end
  end.

(** [for x in l { body(x)?; }] *)
Fixpoint for_each {S E X} (l : list X) (body : X -> M S E unit) : M S E unit :=
  match l with
  | [] => mret tt
  | x :: l => body x;; for_each l body
  end.

(** ** Machine integers

    An unsigned [w]-bit integer is a [Z] in [0, 2^w).  [usize] has the 32 bits
    of the crate's embedded target (thumbv8m). *)

Definition u8 (x : Z) : Z := x mod 2 ^ 8.
Definition u16 (x : Z) : Z := x mod 2 ^ 16.
Definition u32 (x : Z) : Z := x mod 2 ^ 32.
Definition u64 (x : Z) : Z := x mod 2 ^ 64.

(** [from_le_bytes] of a signed type reads two's complement. *)
Definition signed (w x : Z) : Z := if x <? 2 ^ (w - 1) then x else x - 2 ^ w.
Definition i32 (x : Z) : Z := signed 32 (u32 x).
Definition i16 (x : Z) : Z := signed 16 (u16 x).

Definition in_u (w x : Z) : Prop := 0 <= x < 2 ^ w.
Definition in_i (w x : Z) : Prop := - 2 ^ (w - 1) <= x < 2 ^ (w - 1).

Definition USIZE_MAX : Z := 2 ^ 32 - 1.
(** Rust objects never exceed [isize::MAX] bytes. *)
Definition ISIZE_MAX : Z := 2 ^ 31 - 1.

Definition checked_add (a b : Z) : option Z :=
  if a + b <=? USIZE_MAX then Some (a + b) else None.
Definition checked_mul (a b : Z) : option Z :=
  if a * b <=? USIZE_MAX then Some (a * b) else None.

Definition bit (n : Z) : Z := Z.shiftl 1 n.
Definition b2z (b : bool) : Z := if b then 1 else 0.
(** [value & mask != 0] *)
Definition has (value mask : Z) : bool := negb (Z.land value mask =? 0).

(** ** Byte slices *)

Definition len {A} (l : list A) : Z := Z.of_nat (length l).
Definition is_byte (b : Z) : Prop := 0 <= b < 256.
Definition bytes_ok (l : list Z) : Prop := Forall is_byte l.
Definition zeros (n : Z) : list Z := replicate (Z.to_nat n) 0.

(** [l.get(i)] *)
Definition nthZ {A} (l : list A) (i : Z) : option A :=
  if 0 <=? i then l !! Z.to_nat i else None.
(** [l.get(a..b)] *)
Definition slice {A} (l : list A) (a b : Z) : option (list A) :=
  if (0 <=? a) && (a <=? b) && (b <=? len l)
  then Some (take (Z.to_nat (b - a)) (drop (Z.to_nat a) l))
  else None.
(** The list after [l[a..a+len v].copy_from_slice(v)]. *)
Definition splice {A} (l : list A) (a : Z) (v : list A) : list A :=
  take (Z.to_nat a) l ++ v ++ drop (Z.to_nat a + length v) l.

(** Little-endian byte lists: [to_le_bytes] and [from_le_bytes]. *)
Fixpoint to_le (n : nat) (v : Z) : list Z :=
  match n with
  | O => []
  | Datatypes.S n => v mod 256 :: to_le n (v / 256)
  end.
Fixpoint from_le (l : list Z) : Z :=
  match l with
  | [] => 0
  | b :: l => b + 256 * from_le l
  end.
(** [from_be_bytes] and [to_be_bytes]. *)
Definition from_be (l : list Z) : Z := from_le (rev l).
Definition to_be (n : nat) (v : Z) : list Z := rev (to_le n v).

(** [chunks(n)]: [fuel] bounds the number of chunks; the length of the list
    is always enough. *)
Fixpoint chunks_fuel {A} (fuel n : nat) (l : list A) : list (list A) :=
  match fuel, l with
  | O, _ | _, [] => []
  | Datatypes.S f, _ => take n l :: chunks_fuel f n (drop n l)
  end.
Definition chunks {A} (n : Z) (l : list A) : list (list A) :=
  chunks_fuel (length l) (Z.to_nat n) l.

(** ** Buffers lent to a call

    A Rust [&mut [u8]] argument is the second component of the state. *)

Section buffers.
Context {S E A : Type}.

(** A call on a local buffer, which the caller reads afterwards. *)
Definition with_local (init : list Z) (m : M (S * list Z) E A) : M S E (A * list Z) :=
  fun s =>
    match m (s, init) with
    | (Ok a, (s', l)) => (Ok (a, l), s')
    | (Err e, (s', _)) => (Err e, s')
    | (Panic, (s', _)) => (Panic, s')
    end.

(** A call that is lent [&mut buffer[a..b]]. *)
Definition on_slice (a b : Z) (m : M (S * list Z) E A) : M (S * list Z) E A :=
  fun '(s, l) =>
    match slice l a b with
    | None => (Panic, (s, l))
    | Some c => let '(r, (s', c')) := m (s, c) in (r, (s', splice l a c'))
    end.

(** A call that does not touch the buffer. *)
Definition on_fst (m : M S E A) : M (S * list Z) E A :=
  fun '(s, l) => let '(r, s') := m s in (r, (s', l)).
End buffers.

(** [for (index, chunk) in l.chunks_mut(n).enumerate() { body(index, chunk)? }];
    the length of the buffer is enough fuel. *)
Fixpoint chunks_mut_from {S E} (fuel : nat) (n index : Z)
    (body : Z -> M (S * list Z) E unit) (s : S) (l : list Z) : res E unit * (S * list Z) :=
  match fuel, l with
  | O, _ | _, [] => (Ok tt, (s, l))
  | Datatypes.S f, _ =>
      let rest := drop (Z.to_nat n) l in
      match body index (s, take (Z.to_nat n) l) with
      | (Ok _, (s', c)) =>
          let '(r, (s'', k)) := chunks_mut_from f n (index + 1) body s' rest in
          (r, (s'', c ++ k))
      | (r, (s', c)) => (r, (s', c ++ rest))
      end
  end.
Definition for_chunks_mut {S E} (n : Z) (body : Z -> M (S * list Z) E unit)
    : M (S * list Z) E unit :=
  fun '(s, l) => chunks_mut_from (length l) n 0 body s l.

(** [for (index, chunk) in l.chunks(n).enumerate()] *)
Definition enumerate {A} (l : list A) : list (Z * A) :=
  imap (fun i x => (Z.of_nat i, x)) l.

(** ** A program logic for [M]

    [triple P m Q R]: from a state in [P], [m] does not panic, a value is
    returned in [Q], an error in [R]. *)
Definition triple {S E A} (P : S -> Prop) (m : M S E A)
    (Q : A -> S -> Prop) (R : E -> S -> Prop) : Prop :=
  forall s, P s ->
    match m s with
    | (Ok a, s') => Q a s'
    | (Err e, s') => R e s'
    | (Panic, _) => False
    end.

(** * Lemmas *)

Lemma len_nonneg {A} (l : list A) : 0 <= len l.
Proof. unfold len. lia. Qed.

Lemma len_nil {A} : len (@nil A) = 0.
Proof. reflexivity. Qed.

Lemma len_cons {A} (x : A) l : len (x :: l) = 1 + len l.
Proof. unfold len. cbn [length]. lia. Qed.

Lemma len_app {A} (l k : list A) : len (l ++ k) = len l + len k.
Proof. unfold len. rewrite length_app. lia. Qed.

Lemma len_replicate {A} n (x : A) : len (replicate n x) = Z.of_nat n.
Proof. unfold len. by rewrite length_replicate. Qed.

Lemma len_zeros n : 0 <= n -> len (zeros n) = n.
Proof. intros. unfold zeros. rewrite len_replicate. lia. Qed.

Lemma len_take {A} n (l : list A) :
  len (take n l) = Z.min (Z.of_nat n) (len l).
Proof. unfold len. rewrite length_take. lia. Qed.

Lemma len_drop {A} n (l : list A) :
  len (drop n l) = Z.max 0 (len l - Z.of_nat n).
Proof. unfold len. rewrite length_drop. lia. Qed.

Lemma length_len {A} (l : list A) : length l = Z.to_nat (len l).
Proof. unfold len. lia. Qed.

Lemma len_0_nil {A} (l : list A) : len l = 0 -> l = [].
Proof. destruct l; [done|]. rewrite len_cons. pose proof (len_nonneg l). lia. Qed.

Create Rewrite HintDb len.
#[export] Hint Rewrite @len_app @len_nil @len_cons @len_take @len_drop
  @len_replicate : len.
#[export] Hint Rewrite @len_zeros using lia : len.

(** Normalises lengths, then linear arithmetic. *)
Ltac len_pose :=
  repeat match goal with
  | |- context [len ?l] =>
      lazymatch goal with
      | _ : 0 <= len l |- _ => fail
      | _ => pose proof (len_nonneg l)
      end
  | _ : context [len ?l] |- _ =>
      lazymatch goal with
      | _ : 0 <= len l |- _ => fail
      | _ => pose proof (len_nonneg l)
      end
  end.
Ltac len_solve := autorewrite with len in *; len_pose; lia.

Lemma slice_Some {A} (l : list A) a b v :
  slice l a b = Some v ->
  0 <= a <= b /\ b <= len l /\ v = take (Z.to_nat (b - a)) (drop (Z.to_nat a) l).
Proof. unfold slice. destruct (_ && _) eqn:E; naive_solver lia. Qed.

Lemma slice_in {A} (l : list A) a b :
  0 <= a <= b -> b <= len l ->
  slice l a b = Some (take (Z.to_nat (b - a)) (drop (Z.to_nat a) l)).
Proof. intros. unfold slice. rewrite !(proj2 (Z.leb_le _ _)) by lia. done. Qed.

Lemma slice_len {A} (l : list A) a b v : slice l a b = Some v -> len v = b - a.
Proof. intros (? & ? & ->)%slice_Some. len_solve. Qed.

Lemma slice_split {A} (l : list A) a b v :
  slice l a b = Some v ->
  l = take (Z.to_nat a) l ++ v ++ drop (Z.to_nat b) l.
Proof.
  intros (? & ? & ->)%slice_Some.
  rewrite <-(take_drop (Z.to_nat a) l) at 1. f_equal.
  rewrite <-(take_drop (Z.to_nat (b - a)) (drop (Z.to_nat a) l)) at 1. f_equal.
  rewrite drop_drop. f_equal. lia.
Qed.

Lemma slice_mid {A} (l k r : list A) :
  slice (l ++ k ++ r) (len l) (len l + len k) = Some k.
Proof.
  rewrite slice_in by len_solve. f_equal.
  replace (Z.to_nat (len l + len k - len l)) with (length k) by (unfold len; lia).
  replace (Z.to_nat (len l)) with (length l) by (unfold len; lia).
  rewrite drop_app_length. apply take_app_length.
Qed.

Lemma slice_app_l {A} (l k : list A) a b :
  b <= len l -> slice (l ++ k) a b = slice l a b.
Proof.
  intros. unfold slice. rewrite len_app. pose proof (len_nonneg k).
  destruct (0 <=? a) eqn:?, (a <=? b) eqn:?; cbn [andb]; [|done..].
  rewrite !(proj2 (Z.leb_le _ _)) by lia. f_equal.
  rewrite drop_app_le by (unfold len in *; lia).
  rewrite take_app_le; [done|]. rewrite length_drop. unfold len in *; lia.
Qed.

Lemma slice_full {A} (l : list A) : slice l 0 (len l) = Some l.
Proof.
  pose proof (slice_mid (@nil A) l []) as E. rewrite app_nil_r in E. apply E.
Qed.

Lemma bytes_ok_slice l a b v : bytes_ok l -> slice l a b = Some v -> bytes_ok v.
Proof.
  intros ? (? & ? & ->)%slice_Some. by apply Forall_take, Forall_drop.
Qed.

Lemma splice_mid {A} (l k r v : list A) :
  length v = length k -> splice (l ++ k ++ r) (len l) v = l ++ v ++ r.
Proof.
  intros E. unfold splice.
  replace (Z.to_nat (len l)) with (length l) by (unfold len; lia).
  rewrite take_app_length, <-drop_drop, drop_app_length, E, drop_app_length. done.
Qed.

Lemma len_splice {A} (l v : list A) a :
  0 <= a -> a + len v <= len l -> len (splice l a v) = len l.
Proof.
  intros. pose proof (len_nonneg v). unfold splice.
  rewrite !len_app, len_take, len_drop. unfold len in *. lia.
Qed.

Lemma nthZ_in {A} (l : list A) i : 0 <= i < len l -> is_Some (nthZ l i).
Proof.
  intros. unfold nthZ. rewrite (proj2 (Z.leb_le _ _)) by lia.
  apply lookup_lt_is_Some. unfold len in *. lia.
Qed.

Lemma nthZ_out {A} (l : list A) i : i < 0 \/ len l <= i -> nthZ l i = None.
Proof.
  intros. unfold nthZ. destruct (0 <=? i) eqn:E; [|done].
  apply lookup_ge_None. unfold len in *. lia.
Qed.

(** Deciding that a concrete list holds bytes. *)
Definition bytes_okb (l : list Z) : bool := forallb (fun b => (0 <=? b) && (b <? 256)) l.
Lemma bytes_okb_ok l : bytes_okb l = true -> bytes_ok l.
Proof.
  unfold bytes_okb, bytes_ok. induction l as [|b l IH]; cbn; [by intros; apply Forall_nil|].
  intros [Hb Hl]%andb_true_iff. apply Forall_cons_2; [unfold is_byte; lia|auto].
Qed.

Lemma nthZ_byte l i b : bytes_ok l -> nthZ l i = Some b -> is_byte b.
Proof.
  unfold nthZ. intros Hl H. destruct (0 <=? i); [|done]. by eapply Forall_lookup_1 in H.
Qed.

(** *** Little-endian bytes *)

Lemma length_to_le n v : length (to_le n v) = n.
Proof. revert v. induction n; intros; cbn; auto. Qed.

Lemma len_to_le n v : len (to_le n v) = Z.of_nat n.
Proof. unfold len. by rewrite length_to_le. Qed.
#[export] Hint Rewrite @len_to_le : len.

Lemma to_le_bytes n v : bytes_ok (to_le n v).
Proof.
  revert v. induction n; intros; constructor; [|apply IHn].
  apply Z.mod_pos_bound. lia.
Qed.

Lemma from_le_bound l : bytes_ok l -> 0 <= from_le l < 2 ^ (8 * len l).
Proof.
  induction 1 as [|b l Hb ? IH]; [by vm_compute|].
  cbn [from_le]. rewrite len_cons. pose proof (len_nonneg l).
  replace (8 * (1 + len l)) with (8 + 8 * len l) by lia.
  rewrite Z.pow_add_r by lia. unfold is_byte in *. nia.
Qed.

Lemma from_le_to_le n v : from_le (to_le n v) = v mod 2 ^ (8 * Z.of_nat n).
Proof.
  revert v. induction n as [|n IH]; intros v; cbn [to_le from_le].
  - by rewrite Z.mod_1_r.
  - rewrite IH.
    replace (8 * Z.of_nat (S n)) with (8 + 8 * Z.of_nat n) by lia.
    rewrite Z.pow_add_r by lia. change (2 ^ 8) with 256.
    pose proof (Z.pow_pos_nonneg 2 (8 * Z.of_nat n)).
    rewrite Z.rem_mul_r by lia. lia.
Qed.

Lemma to_le_from_le l : bytes_ok l -> to_le (length l) (from_le l) = l.
Proof.
  induction 1 as [|b l Hb ? IH]; [done|]. cbn [length to_le from_le].
  unfold is_byte in Hb. rewrite (Z.mul_comm 256). f_equal.
  - rewrite Z.mod_add by lia. apply Z.mod_small. lia.
  - by rewrite Z.div_add, Z.div_small by lia.
Qed.

Lemma from_le_to_le_id n v : in_u (8 * Z.of_nat n) v -> from_le (to_le n v) = v.
Proof. intros. rewrite from_le_to_le. by apply Z.mod_small. Qed.

(** A signed value survives the trip through its unsigned image. *)
Lemma signed_wrap w v : 0 < w -> in_i w v -> signed w (v mod 2 ^ w) = v.
Proof.
  intros Hw [? ?]. unfold signed.
  assert (2 ^ w = 2 * 2 ^ (w - 1)) as E.
  { rewrite <-Z.pow_succ_r by lia. f_equal. lia. }
  destruct (Z_lt_le_dec v 0).
  - replace (v mod 2 ^ w) with (v + 2 ^ w).
    + destruct (_ <? _) eqn:?; lia.
    + symmetry. rewrite <-(Z.mod_add v 1) by lia. rewrite Z.mul_1_l.
      apply Z.mod_small. lia.
  - rewrite Z.mod_small by lia. destruct (_ <? _) eqn:?; lia.
Qed.

(** *** The monads *)

Lemma bind_Ok_inv {E A B} (m : res E A) (f : A -> res E B) b :
  m ≫= f = Ok b -> exists a, m = Ok a /\ f a = Ok b.
Proof. destruct m; cbn; naive_solver. Qed.

Lemma bind_Err_inv {E A B} (m : res E A) (f : A -> res E B) e :
  m ≫= f = Err e -> m = Err e \/ exists a, m = Ok a /\ f a = Err e.
Proof. destruct m; cbn; naive_solver. Qed.

Lemma bind_no_panic {E A B} (m : res E A) (f : A -> res E B) :
  m <> Panic -> (forall a, m = Ok a -> f a <> Panic) -> m ≫= f <> Panic.
Proof. destruct m; cbn; naive_solver. Qed.

Lemma map_err_no_panic {E F A} (f : E -> F) (r : res E A) :
  r <> Panic -> map_err f r <> Panic.
Proof. destruct r; cbn; naive_solver. Qed.

Lemma ok_or_no_panic {E A} (o : option A) (e : E) : ok_or o e <> Panic.
Proof. by destruct o. Qed.

Lemma ensure_no_panic {E} c (e : E) : ensure c e <> Panic.
Proof. by destruct c. Qed.

(** Inverts a successful computation in [res]. *)
Ltac res_inv :=
  repeat match goal with
  | H : mbind _ _ = Ok _ |- _ => apply bind_Ok_inv in H as (? & ? & H)
  | H : ensure ?c _ = Ok _ |- _ =>
      unfold ensure in H; destruct c eqn:?; [|discriminate]
  | H : ok_or ?o _ = Ok _ |- _ =>
      destruct o eqn:?; cbn [ok_or] in H; [|discriminate]
  | H : expect ?o = Ok _ |- _ =>
      destruct o eqn:?; cbn [expect] in H; [|discriminate]
  | H : Ok _ = Ok _ |- _ => injection H as H; subst
  | H : Err _ = Ok _ |- _ => discriminate H
  | H : Panic = Ok _ |- _ => discriminate H
  | H : (if ?c then _ else _) = Ok _ |- _ => destruct c eqn:?
  end.

Section triples.
Context {S E : Type}.
Implicit Types P : S -> Prop.

Lemma triple_ret {A} P (a : A) (Q : A -> S -> Prop) (R : E -> S -> Prop) :
  (forall s, P s -> Q a s) -> triple P (mret a) Q R.
Proof. intros H s Hs. by apply H. Qed.

Lemma triple_bind {A B} P (m : M S E A) (f : A -> M S E B) Q' Q R :
  triple P m Q' R -> (forall a, triple (Q' a) (f a) Q R) ->
  triple P (m ≫= f) Q R.
Proof.
  intros Hm Hf s Hs. specialize (Hm s Hs).
  unfold mbind, M_bind. destruct (m s) as [[a|e|] s']; [|done..].
  by apply Hf.
Qed.

Lemma triple_consequence {A} P P' (m : M S E A) Q Q' R R' :
  triple P' m Q' R' -> (forall s, P s -> P' s) ->
  (forall a s, Q' a s -> Q a s) -> (forall e s, R' e s -> R e s) ->
  triple P m Q R.
Proof.
  intros Hm HP HQ HR s Hs. specialize (Hm s (HP s Hs)).
  destruct (m s) as [[a|e|] s']; auto.
Qed.

Lemma triple_throw {A} P (e : E) (Q : A -> S -> Prop) (R : E -> S -> Prop) :
  (forall s, P s -> R e s) -> triple P (throw e) Q R.
Proof. intros H s Hs. by apply H. Qed.

Lemma triple_gets {A} P (f : S -> A) (Q : A -> S -> Prop) (R : E -> S -> Prop) :
  (forall s, P s -> Q (f s) s) -> triple P (gets f) Q R.
Proof. intros H s Hs. by apply H. Qed.

Lemma triple_modify P f (Q : unit -> S -> Prop) (R : E -> S -> Prop) :
  (forall s, P s -> Q tt (f s)) -> triple P (modify f) Q R.
Proof. intros H s Hs. by apply H. Qed.

Lemma triple_lift {A} P (r : res E A) (Q : A -> S -> Prop) (R : E -> S -> Prop) :
  r <> Panic ->
  (forall a s, P s -> r = Ok a -> Q a s) ->
  (forall e s, P s -> r = Err e -> R e s) ->
  triple P (lift r) Q R.
Proof. intros Hp HQ HR s Hs. unfold lift. destruct r; auto. Qed.

Lemma triple_if {A} P (c : bool) (m1 m2 : M S E A) Q R :
  triple (fun s => P s /\ c = true) m1 Q R ->
  triple (fun s => P s /\ c = false) m2 Q R ->
  triple P (if c then m1 else m2) Q R.
Proof. intros H1 H2 s Hs. destruct c; [apply H1|apply H2]; done. Qed.

Lemma triple_mapM_err {A F} P (f : F -> E) (m : M S F A) Q R R' :
  triple P m Q R' -> (forall e s, R' e s -> R (f e) s) ->
  triple P (mapM_err f m) Q R.
Proof.
  intros Hm HR s Hs. specialize (Hm s Hs). unfold mapM_err.
  destruct (m s) as [[a|e|] s']; cbn; auto.
Qed.

Lemma triple_attempt {A F} P (m : M S F A) Q R' (Q' : A + F -> S -> Prop) R :
  triple P m Q R' ->
  (forall a s, Q a s -> Q' (inl a) s) -> (forall e s, R' e s -> Q' (inr e) s) ->
  triple P (attempt (F:=E) m) Q' R.
Proof.
  intros Hm H1 H2 s Hs. specialize (Hm s Hs). unfold attempt.
  destruct (m s) as [[a|e|] s']; cbn; auto.
Qed.

(** The loop rule: [I] is the invariant. *)
Lemma triple_loop {B} (I : S -> Prop) n (body : M S E (option B)) Q R :
  triple I body (fun o s => match o with Some b => Q b s | None => I s end) R ->
  triple I (loop n body)
    (fun o s => match o with Some b => Q b s | None => I s end) R.
Proof.
  intros Hb. induction n as [|n IH]; cbn [loop].
  - by apply triple_ret.
  - eapply triple_bind; [apply Hb|]. intros [b|]; [by apply triple_ret|apply IH].
Qed.

Lemma triple_for_each {X} (I : S -> Prop) (l : list X) (body : X -> M S E unit) R :
  (forall x, x ∈ l -> triple I (body x) (fun _ => I) R) ->
  triple I (for_each l body) (fun _ => I) R.
Proof.
  induction l as [|x l IH]; intros Hb; cbn [for_each]; [by apply triple_ret|].
  eapply triple_bind; [apply Hb; left|]. intros ?.
  apply IH. intros y Hy. apply Hb. by right.
Qed.
End triples.

Lemma triple_zoom {S T E A} (g : S -> T) (p : T -> S -> S) (m : M T E A) P Q R Q' R' :
  triple (fun t => exists s, P s /\ t = g s) m Q' R' ->
  (forall a s t, P s -> Q' a t -> Q a (p t s)) ->
  (forall e s t, P s -> R' e t -> R e (p t s)) ->
  triple P (zoom g p m) Q R.
Proof.
  intros Hm HQ HR s Hs. specialize (Hm (g s) (ex_intro _ s (conj Hs eq_refl))).
  unfold zoom. destruct (m (g s)) as [[a|e|] t]; eauto.
Qed.

(** *** Two-state invariants

    [keeps R m]: whatever the outcome of [m], a panic included, the final state
    is related to the initial one by the preorder [R]. *)

Section keeps.
Context {S E : Type} (R : S -> S -> Prop) `{!PreOrder R}.

Definition keeps {A} (m : M S E A) : Prop := forall s, R s (m s).2.

Lemma keeps_ret {A} (a : A) : keeps (mret a).
Proof. intros s. reflexivity. Qed.

Lemma keeps_throw {A} (e : E) : keeps (throw (A:=A) e).
Proof. intros s. reflexivity. Qed.

Lemma keeps_lift {A} (r : res E A) : keeps (lift r).
Proof. intros s. reflexivity. Qed.

Lemma keeps_get : keeps get.
Proof. intros s. reflexivity. Qed.

Lemma keeps_gets {A} (f : S -> A) : keeps (gets f).
Proof. intros s. reflexivity. Qed.

Lemma keeps_modify (f : S -> S) : (forall s, R s (f s)) -> keeps (modify f).
Proof. intros Hf s. apply Hf. Qed.

Lemma keeps_bind {A B} (m : M S E A) (f : A -> M S E B) :
  keeps m -> (forall a, keeps (f a)) -> keeps (m ≫= f).
Proof.
  intros Hm Hf s. specialize (Hm s). unfold mbind, M_bind.
  destruct (m s) as [[a|e|] s']; cbn in *; [|done..].
  specialize (Hf a s'). by transitivity s'.
Qed.

Lemma keeps_if {A} (c : bool) (m1 m2 : M S E A) :
  keeps m1 -> keeps m2 -> keeps (if c then m1 else m2).
Proof. by destruct c. Qed.
End keeps.

Lemma keeps_zoom {S T E A} (R : S -> S -> Prop) (g : S -> T) (p : T -> S -> S) (m : M T E A) :
  (forall s, R s (p (m (g s)).2 s)) -> keeps R (zoom g p m).
Proof. intros Hm s. unfold zoom. specialize (Hm s). by destruct (m (g s)). Qed.

Lemma keeps_mapM_err {S E F A} (R : S -> S -> Prop) (f : E -> F) (m : M S E A) :
  keeps R m -> keeps R (mapM_err f m).
Proof. intros Hm s. specialize (Hm s). unfold mapM_err. by destruct (m s). Qed.

Lemma keeps_attempt {S E F A} (R : S -> S -> Prop) (m : M S E A) :
  keeps R m -> keeps R (attempt (F:=F) m).
Proof. intros Hm s. specialize (Hm s). unfold attempt. by destruct (m s) as [[a|e|] s']. Qed.

Create HintDb keeps.
#[export] Hint Resolve keeps_ret keeps_throw keeps_lift keeps_get keeps_gets keeps_bind
  keeps_if keeps_mapM_err keeps_attempt : keeps.

(** *** Buffers *)

(** A lent buffer keeps its length and holds bytes. *)
Definition buf_ok (n : Z) (l : list Z) : Prop := len l = n /\ bytes_ok l.

Lemma buf_ok_zeros n : 0 <= n -> buf_ok n (zeros n).
Proof. intros. split; [by apply len_zeros|]. by apply Forall_replicate. Qed.

Lemma buf_ok_slice n a b l :
  buf_ok n l -> 0 <= a <= b -> b <= n ->
  buf_ok (b - a) (take (Z.to_nat (b - a)) (drop (Z.to_nat a) l)).
Proof.
  intros [Hl Hb] ? ?. split; [|by apply Forall_take, Forall_drop].
  rewrite len_take, len_drop. lia.
Qed.

Lemma buf_ok_splice n a b l v :
  buf_ok n l -> 0 <= a <= b -> b <= n -> buf_ok (b - a) v -> buf_ok n (splice l a v).
Proof.
  intros [Hl Hb] ? ? [Hv Hvb]. split; [rewrite len_splice; lia|]. unfold splice.
  apply Forall_app_2; [by apply Forall_take|].
  apply Forall_app_2; [done|by apply Forall_drop].
Qed.

Lemma buf_ok_app n m l k : buf_ok n l -> buf_ok m k -> buf_ok (n + m) (l ++ k).
Proof. intros [? ?] [? ?]. split; [rewrite len_app; lia|by apply Forall_app_2]. Qed.

Section buffer_triples.
Context {S E : Type}.
Implicit Types P : S -> Prop.

(** The effect of a call that is lent a buffer of length [n]. *)
Definition lends {A} (n : Z) (P : S -> Prop) (m : M (S * list Z) E A)
    (Q : A -> S -> Prop) (R : E -> S -> Prop) : Prop :=
  triple (fun sl => P sl.1 /\ buf_ok n sl.2) m
    (fun a sl => Q a sl.1 /\ buf_ok n sl.2) (fun e sl => R e sl.1 /\ buf_ok n sl.2).

Lemma triple_with_local {A} P n (init : list Z) (m : M (S * list Z) E A) Q R :
  buf_ok n init -> lends n P m Q R ->
  triple P (with_local init m) (fun al s => Q al.1 s /\ buf_ok n al.2) R.
Proof.
  intros Hl Hm s Hs. specialize (Hm (s, init) (conj Hs Hl)).
  unfold with_local. destruct (m (s, init)) as [[a|e|] [s' l]]; cbn in *; tauto.
Qed.

Lemma lends_on_fst {A} n P (m : M S E A) Q R :
  triple P m Q R -> lends n P (on_fst m) Q R.
Proof.
  intros Hm [s l] [Hs Hl]. specialize (Hm s Hs). unfold on_fst. cbn in *.
  destruct (m s) as [[a|e|] s']; cbn; auto.
Qed.

Lemma lends_bind {A B} n P (m : M (S * list Z) E A) (f : A -> M (S * list Z) E B) Q' Q R :
  lends n P m Q' R -> (forall a, lends n (Q' a) (f a) Q R) -> lends n P (m ≫= f) Q R.
Proof. intros Hm Hf. eapply triple_bind; [apply Hm|]. intros a. apply Hf. Qed.

Lemma lends_ret {A} n P (a : A) (Q : A -> S -> Prop) (R : E -> S -> Prop) :
  (forall s, P s -> Q a s) -> lends n P (mret a) Q R.
Proof. intros H [s l] [Hs Hl]. cbn in *. auto. Qed.

Lemma lends_lift {A} n P (r : res E A) (Q : A -> S -> Prop) (R : E -> S -> Prop) :
  r <> Panic -> (forall a s, P s -> r = Ok a -> Q a s) ->
  (forall e s, P s -> r = Err e -> R e s) -> lends n P (lift r) Q R.
Proof. intros Hp HQ HR [s l] [Hs Hl]. cbn in *. destruct r; auto. Qed.

Lemma lends_on_slice {A} n a b P (m : M (S * list Z) E A) Q R :
  0 <= a <= b -> b <= n -> lends (b - a) P m Q R -> lends n P (on_slice a b m) Q R.
Proof.
  intros Hab Hbn Hm [s l] [Hs Hl]. cbn [fst snd] in *. unfold on_slice.
  rewrite slice_in by (destruct Hl; lia).
  specialize (Hm (s, _) (conj Hs (buf_ok_slice _ _ _ _ Hl Hab Hbn))).
  destruct (m _) as [[v|e|] [s' c]]; cbn in *; [|..|done];
    (split; [tauto|]; eapply buf_ok_splice; [exact Hl|exact Hab|done|tauto]).
Qed.

(** The chunk loop: every chunk but the last has [k] bytes. *)
Lemma lends_chunks_mut n P k (body : Z -> M (S * list Z) E unit) R :
  0 < k -> (forall i c, 0 < c <= k -> lends c P (body i) (fun _ => P) R) ->
  lends n P (for_chunks_mut k body) (fun _ => P) R.
Proof.
  intros Hk Hb [s l] [Hs Hl]. cbn [fst snd] in *. unfold for_chunks_mut.
  generalize (length l) as fuel, 0 as i. intros fuel. revert n s l Hs Hl.
  induction fuel as [|fuel IH]; intros n s [|x l] Hs Hl i; try (cbn; done).
  cbn [chunks_mut_from]. set (l0 := x :: l) in *. destruct Hl as [Hl Hok].
  assert (0 < len l0) by (unfold l0; rewrite len_cons; pose proof (len_nonneg l); lia).
  assert (0 < len (take (Z.to_nat k) l0) <= k) as Hc by (rewrite len_take; lia).
  assert (buf_ok (len (drop (Z.to_nat k) l0)) (drop (Z.to_nat k) l0)) as Hrest
    by (split; [done|by apply Forall_drop]).
  assert (n = len (take (Z.to_nat k) l0) + len (drop (Z.to_nat k) l0)) as ->
    by (rewrite <-len_app, take_drop; done).
  assert (buf_ok (len (take (Z.to_nat k) l0)) (take (Z.to_nat k) l0)) as Htake
    by (split; [done|by apply Forall_take]).
  specialize (Hb i _ Hc (s, take (Z.to_nat k) l0) (conj Hs Htake)).
  destruct (body i _) as [[a|e|] [s' c]]; cbn [fst snd] in Hb; [| |done].
  - destruct Hb as [Hs' Hcok]. specialize (IH _ s' _ Hs' Hrest (i + 1)).
    destruct (chunks_mut_from fuel k (i + 1) body s' _) as [[u|e|] [s'' l'']]; cbn in *;
      [|..|done]; (split; [tauto|apply buf_ok_app; tauto]).
  - destruct Hb as [Hs' Hcok]. split; [done|]. by apply buf_ok_app.
Qed.
End buffer_triples.

(** *** Automation

    [mstep] executes the head of a stateful computation on a concrete state
    expression; [mgo] repeats it. *)

Create HintDb prelude.
#[export] Hint Resolve len_nonneg to_le_bytes ok_or_no_panic ensure_no_panic : prelude.

Ltac munfold :=
  unfold mbind, M_bind, mret, M_ret, gets, get, modify, throw, lift, zoom,
    mapM_err, attempt, res_bind, res_ret in *.

(** Splits the innermost [match] of the goal or a hypothesis. *)
Ltac case_head t :=
  lazymatch t with
  | context [match ?x with _ => _ end] => case_head x
  | _ => destruct t eqn:?
  end.
Ltac case_goal := match goal with |- context [match ?x with _ => _ end] => case_head x end.
Ltac case_in H :=
  match type of H with context [match ?x with _ => _ end] => case_head x end.
