(* ===== verification/Crypto.v ===== *)
(** * Crypto: the cryptographic crates (parameters)

    The driver takes its primitives from external crates: sha2, hmac and sha1,
    pbkdf2 and aes.  Each is a class: the functions the driver calls, with what
    it relies on (the sizes of the results, and that AES decryption inverts
    encryption).  Stand-in instances for concrete runs are at the end. *)

From S2P Require Import Prelude.

(** [Sha256::digest] of the sha2 crate: 32 bytes for every input. *)
Class Sha256 : Type := {
  sha256 : list Z -> list Z;
  sha256_len : forall l, len (sha256 l) = 32;
  sha256_bytes : forall l, bytes_ok (sha256 l) }.

(** [Hmac<Sha1>] of the hmac crate: the tag of the concatenated updates. *)
Class HmacSha1 : Type := {
  hmac_sha1 : list Z -> list Z -> list Z;
  hmac_sha1_len : forall key data, len (hmac_sha1 key data) = 20;
  hmac_sha1_bytes : forall key data, bytes_ok (hmac_sha1 key data) }.

(** [pbkdf2_hmac::<Sha1>] of the pbkdf2 crate, filling [n] bytes. *)
Class Pbkdf2 : Type := {
  pbkdf2_hmac_sha1 : list Z -> list Z -> Z -> Z -> list Z;
  pbkdf2_len : forall password salt rounds n, 0 <= n ->
    len (pbkdf2_hmac_sha1 password salt rounds n) = n }.

(** [Aes128] of the aes crate, on blocks of 16 bytes.  The driver only
    decrypts; [aes128_encrypt] is the inverse the cipher has. *)
Class Aes128 : Type := {
  aes128_decrypt : list Z -> list Z -> list Z;
  aes128_encrypt : list Z -> list Z -> list Z;
  aes128_decrypt_len : forall key block, len block = 16 -> len (aes128_decrypt key block) = 16;
  aes128_decrypt_bytes : forall key block,
    bytes_ok key -> bytes_ok block -> bytes_ok (aes128_decrypt key block);
  aes128_encrypt_len : forall key block, len block = 16 -> len (aes128_encrypt key block) = 16;
  aes128_encrypt_bytes : forall key block,
    bytes_ok key -> bytes_ok block -> bytes_ok (aes128_encrypt key block);
  aes128_decrypt_encrypt : forall key block,
    len key = 16 -> len block = 16 -> bytes_ok block ->
    aes128_decrypt key (aes128_encrypt key block) = block;
  aes128_encrypt_decrypt : forall key block,
    len key = 16 -> len block = 16 -> bytes_ok block ->
    aes128_encrypt key (aes128_decrypt key block) = block }.

(** * Stand-ins for concrete runs *)

Definition sum_digest (l : list Z) : list Z := to_le 32 (foldl (fun acc x => 257 * acc + x) 0 l).
Definition sum_sha256 : Sha256.
Proof.
  refine {| sha256 := sum_digest |}; intros l; [reflexivity|apply to_le_bytes].
Defined.

Definition sum_mac (key data : list Z) : list Z :=
  to_le 20 (foldl (fun acc x => 263 * acc + x + 1) (from_le key) data).
Definition sum_hmac : HmacSha1.
Proof.
  refine {| hmac_sha1 := sum_mac |}; intros key data; [reflexivity|apply to_le_bytes].
Defined.

Definition sum_pbkdf2 : Pbkdf2.
Proof.
  refine {| pbkdf2_hmac_sha1 password salt rounds n :=
    to_le (Z.to_nat n) (foldl (fun acc x => 269 * acc + x) rounds (password ++ salt)) |}.
  intros password salt rounds n Hn. rewrite len_to_le. lia.
Defined.

(** The cipher that leaves a block as it is. *)
Definition null_cipher : Aes128.
Proof. by refine {| aes128_decrypt _ block := block; aes128_encrypt _ block := block |}. Defined.
