(* ===== verification/Codec.v ===== *)
(** * Codec: bounded little-endian primitives (src/src/codec.rs)

    The [Writer] over a borrowed byte buffer, and the fixed-offset readers.
    [ProtocolError] of src/src/protocol.rs is declared here because the writer
    returns it.  A slice index out of range is [Panic]; a [get_mut] out of
    range is the error value the code returns. *)

From S2P Require Import Prelude.

Module ProtocolError.
Inductive t : Type :=
  | BufferTooSmall
  | InvalidLength
  | InvalidValue (value : Z)
  | LimitExceeded
  | WrongMessageType.
#[global] Instance eq_dec : EqDecision t.
Proof. solve_decision. Defined.
End ProtocolError.

(** ** Writer *)

Module Writer.
Record t : Type := mk { bytes_of : list Z; position : Z }.

Definition new (bytes : list Z) : t := mk bytes 0.
Definition len (w : t) : Z := position w.

(** [target.copy_from_slice(value)] and [target.fill(0)] on
    [self.bytes.get_mut(self.position..end)]. *)
Definition bytes (value : list Z) : M t ProtocolError.t unit :=
  w ← get;
  end_ ← lift (ok_or (checked_add (position w) (Prelude.len value))
                 ProtocolError.BufferTooSmall);
  _ ← lift (ok_or (slice (bytes_of w) (position w) end_)
              ProtocolError.BufferTooSmall);
  modify (fun w => mk (splice (bytes_of w) (position w) value) end_).

Definition zeros (count : Z) : M t ProtocolError.t unit :=
  w ← get;
  end_ ← lift (ok_or (checked_add (position w) count)
                 ProtocolError.BufferTooSmall);
  _ ← lift (ok_or (slice (bytes_of w) (position w) end_)
              ProtocolError.BufferTooSmall);
  modify (fun w => mk (splice (bytes_of w) (position w) (Prelude.zeros count)) end_).

Definition u8 (value : Z) : M t ProtocolError.t unit := bytes [value].
Definition u16 (value : Z) : M t ProtocolError.t unit := bytes (to_le 2 value).
Definition u32 (value : Z) : M t ProtocolError.t unit := bytes (to_le 4 value).
Definition i32 (value : Z) : M t ProtocolError.t unit := bytes (to_le 4 value).
Definition u64 (value : Z) : M t ProtocolError.t unit := bytes (to_le 8 value).

Definition fixed (value : list Z) (width : Z) : M t ProtocolError.t unit :=
  if width <? Prelude.len value then throw ProtocolError.LimitExceeded
  else bytes value;; zeros (width - Prelude.len value).

Definition fixed_u32 (value : list Z) (count : Z) : M t ProtocolError.t unit :=
  if count <? Prelude.len value then throw ProtocolError.LimitExceeded
  else
    for_each value u32;;
    zeros ((count - Prelude.len value) * 4).
End Writer.

(** ** Readers *)

(** [bytes[offset]] *)
Definition index {E} (bytes : list Z) (offset : Z) : res E Z :=
  expect (nthZ bytes offset).

Definition read_u16 {E} (bytes : list Z) (offset : Z) : res E Z :=
  b0 ← index bytes offset;
  b1 ← index bytes (offset + 1);
  Ok (from_le [b0; b1]).

Definition read_u32 {E} (bytes : list Z) (offset : Z) : res E Z :=
  b0 ← index bytes offset;
  b1 ← index bytes (offset + 1);
  b2 ← index bytes (offset + 2);
  b3 ← index bytes (offset + 3);
  Ok (from_le [b0; b1; b2; b3]).

Definition read_i32 {E} (bytes : list Z) (offset : Z) : res E Z :=
  b0 ← index bytes offset;
  b1 ← index bytes (offset + 1);
  b2 ← index bytes (offset + 2);
  b3 ← index bytes (offset + 3);
  Ok (signed 32 (from_le [b0; b1; b2; b3])).

Definition read_u64 {E} (bytes : list Z) (offset : Z) : res E Z :=
  b0 ← index bytes offset;
  b1 ← index bytes (offset + 1);
  b2 ← index bytes (offset + 2);
  b3 ← index bytes (offset + 3);
  b4 ← index bytes (offset + 4);
  b5 ← index bytes (offset + 5);
  b6 ← index bytes (offset + 6);
  b7 ← index bytes (offset + 7);
  Ok (from_le [b0; b1; b2; b3; b4; b5; b6; b7]).

(** [&bytes[a..b]] *)
Definition subslice {E} (bytes : list Z) (a b : Z) : res E (list Z) :=
  expect (slice bytes a b).

(** ** Specification of a writer program

    [writes m bs]: at any position with room for [bs], [m] succeeds, puts
    exactly [bs] there, and leaves every other byte alone. *)
Definition writes (m : M Writer.t ProtocolError.t unit) (bs : list Z) : Prop :=
  forall pre mid post, length mid = length bs ->
    len (pre ++ mid ++ post) <= USIZE_MAX ->
    m (Writer.mk (pre ++ mid ++ post) (len pre))
    = (Ok tt, Writer.mk (pre ++ bs ++ post) (len pre + len bs)).

(** ** Lemmas: the writer *)

Lemma writes_ret : writes (mret tt) [].
Proof.
  intros pre mid post Hm _. destruct mid; [|done].
  unfold mret, M_ret. rewrite len_nil, Z.add_0_r. done.
Qed.

Lemma writes_bind m1 m2 b1 b2 :
  writes m1 b1 -> writes m2 b2 -> writes (m1;; m2) (b1 ++ b2).
Proof.
  intros H1 H2 pre mid post Hm Hs. rewrite length_app in Hm.
  assert (exists k1 k2, mid = k1 ++ k2 /\ length k1 = length b1
                        /\ length k2 = length b2) as (k1 & k2 & -> & ? & ?).
  { exists (take (length b1) mid), (drop (length b1) mid).
    rewrite take_drop, length_take, length_drop. split_and!; [done|lia..]. }
  rewrite <-(app_assoc k1) in *.
  unfold mbind, M_bind. rewrite H1 by done.
  rewrite app_assoc, <-len_app, H2; [|done|unfold len in *; rewrite !length_app in *; lia].
  by rewrite !len_app, <-!app_assoc, Z.add_assoc.
Qed.

Lemma writes_bytes bs : writes (Writer.bytes bs) bs.
Proof.
  intros pre mid post Hm Hs. unfold Writer.bytes.
  assert (len mid = len bs) as Hl by (unfold len; lia).
  munfold. cbn [Writer.position Writer.bytes_of]. unfold checked_add.
  rewrite (proj2 (Z.leb_le _ _)) by (rewrite !len_app in Hs; len_pose; lia).
  cbn [ok_or Writer.position Writer.bytes_of]. rewrite <-Hl, slice_mid. cbn.
  rewrite splice_mid by lia. done.
Qed.

Lemma writes_zeros n : 0 <= n -> writes (Writer.zeros n) (zeros n).
Proof.
  intros Hn pre mid post Hm Hs. pose proof (writes_bytes (zeros n) pre mid post Hm Hs) as E.
  unfold Writer.bytes in E. rewrite len_zeros in * by done. exact E.
Qed.

Lemma writes_fixed bs w :
  len bs <= w -> writes (Writer.fixed bs w) (bs ++ zeros (w - len bs)).
Proof.
  intros. unfold Writer.fixed. destruct (_ <? _) eqn:?; [lia|].
  apply writes_bind; [apply writes_bytes|apply writes_zeros; lia].
Qed.

Lemma writes_for_each (f : Z -> list Z) g l :
  (forall x, writes (g x) (f x)) -> writes (for_each l g) (concat (map f l)).
Proof.
  intros Hg. induction l as [|x l IH]; cbn; [apply writes_ret|].
  by apply writes_bind.
Qed.

(** The wire form of a [u32] array. *)
Definition words_le (l : list Z) : list Z := concat (map (to_le 4) l).

Lemma writes_fixed_u32 l n :
  len l <= n -> writes (Writer.fixed_u32 l n) (words_le l ++ zeros ((n - len l) * 4)).
Proof.
  intros. unfold Writer.fixed_u32. destruct (_ <? _) eqn:?; [lia|].
  apply writes_bind; [|apply writes_zeros; lia].
  apply writes_for_each. intros. apply writes_bytes.
Qed.

Lemma len_words_le l : len (words_le l) = 4 * len l.
Proof.
  unfold words_le. induction l as [|x l IH]; [done|].
  cbn [map concat]. len_solve.
Qed.
#[export] Hint Rewrite len_words_le : len.

Lemma writes_lift {A} (r : res ProtocolError.t A) a f bs :
  r = Ok a -> writes (f a) bs -> writes (lift r ≫= f) bs.
Proof. intros -> H pre mid post Hm Hs. by apply H. Qed.

Lemma writes_ext m b1 b2 : writes m b1 -> b1 = b2 -> writes m b2.
Proof. by intros ? <-. Qed.

(** A writer over a whole fresh buffer of the right size. *)
Lemma writes_new m bs buf :
  writes m bs -> len buf = len bs -> len buf <= USIZE_MAX ->
  m (Writer.new buf) = (Ok tt, Writer.mk bs (len bs)).
Proof.
  intros Hm Hl Hs. specialize (Hm [] buf []). cbn [app] in Hm.
  rewrite !app_nil_r in Hm. unfold Writer.new. rewrite len_nil in Hm.
  rewrite Z.add_0_l in Hm. apply Hm; [unfold len in *; lia|done].
Qed.

Create HintDb writes.
#[export] Hint Resolve writes_ret writes_bytes : writes.
#[export] Hint Extern 1 (writes (mbind _ _) _) => (eapply writes_bind) : writes.
#[export] Hint Extern 1 (writes (Writer.u8 _) _) => (eapply writes_bytes) : writes.
#[export] Hint Extern 1 (writes (Writer.u16 _) _) => (eapply writes_bytes) : writes.
#[export] Hint Extern 1 (writes (Writer.u32 _) _) => (eapply writes_bytes) : writes.
#[export] Hint Extern 1 (writes (Writer.i32 _) _) => (eapply writes_bytes) : writes.
#[export] Hint Extern 1 (writes (Writer.u64 _) _) => (eapply writes_bytes) : writes.
#[export] Hint Extern 1 (writes (Writer.zeros _) _) => (eapply writes_zeros; lia) : writes.
#[export] Hint Extern 1 (writes (Writer.fixed _ _) _) =>
  (eapply writes_fixed; first [done|lia]) : writes.
#[export] Hint Extern 1 (writes (Writer.fixed_u32 _ _) _) =>
  (eapply writes_fixed_u32; first [done|lia]) : writes.

(** ** Lemmas: the readers *)

Lemma index_in {E} l i : 0 <= i < len l -> exists b, @index E l i = Ok b.
Proof.
  intros H. destruct (nthZ_in l i H) as [b Hb]. exists b.
  unfold index. by rewrite Hb.
Qed.

Lemma index_ok {E} l i b : @index E l i = Ok b -> 0 <= i < len l.
Proof.
  unfold index. intros H. destruct (Z_lt_le_dec i 0) as [?|?].
  { by rewrite nthZ_out in H by lia. }
  destruct (Z_lt_le_dec i (len l)); [lia|]. by rewrite nthZ_out in H by lia.
Qed.

Lemma index_app {E} pre b post : @index E (pre ++ b :: post) (len pre) = Ok b.
Proof.
  unfold index, nthZ. rewrite (proj2 (Z.leb_le _ _)) by apply len_nonneg.
  replace (Z.to_nat (len pre)) with (length pre) by (unfold len; lia).
  by rewrite list_lookup_middle.
Qed.

Lemma index_app_at {E} pre b post i :
  i = len pre -> @index E (pre ++ b :: post) i = Ok b.
Proof. intros ->. apply index_app. Qed.

Lemma read_u32_ok {E} l i : 0 <= i -> i + 4 <= len l -> exists v, @read_u32 E l i = Ok v.
Proof.
  intros. unfold read_u32.
  destruct (@index_in E l i) as [? ->]; [lia|].
  destruct (@index_in E l (i + 1)) as [? ->]; [lia|].
  destruct (@index_in E l (i + 2)) as [? ->]; [lia|].
  destruct (@index_in E l (i + 3)) as [? ->]; [lia|]. cbn. eauto.
Qed.

Lemma read_u16_ok {E} l i : 0 <= i -> i + 2 <= len l -> exists v, @read_u16 E l i = Ok v.
Proof.
  intros. unfold read_u16.
  destruct (@index_in E l i) as [? ->]; [lia|].
  destruct (@index_in E l (i + 1)) as [? ->]; [lia|]. cbn. eauto.
Qed.

Lemma read_i32_ok {E} l i : 0 <= i -> i + 4 <= len l -> exists v, @read_i32 E l i = Ok v.
Proof.
  intros H1 H2. unfold read_i32.
  destruct (@index_in E l i) as [? ->]; [lia|].
  destruct (@index_in E l (i + 1)) as [? ->]; [lia|].
  destruct (@index_in E l (i + 2)) as [? ->]; [lia|].
  destruct (@index_in E l (i + 3)) as [? ->]; [lia|]. cbn. eauto.
Qed.

Lemma read_u64_ok {E} l i : 0 <= i -> i + 8 <= len l -> exists v, @read_u64 E l i = Ok v.
Proof.
  intros H1 H2. unfold read_u64.
  destruct (@index_in E l i) as [? ->]; [lia|].
  destruct (@index_in E l (i + 1)) as [? ->]; [lia|].
  destruct (@index_in E l (i + 2)) as [? ->]; [lia|].
  destruct (@index_in E l (i + 3)) as [? ->]; [lia|].
  destruct (@index_in E l (i + 4)) as [? ->]; [lia|].
  destruct (@index_in E l (i + 5)) as [? ->]; [lia|].
  destruct (@index_in E l (i + 6)) as [? ->]; [lia|].
  destruct (@index_in E l (i + 7)) as [? ->]; [lia|]. cbn. eauto.
Qed.

Lemma subslice_ok {E} l a b :
  0 <= a <= b -> b <= len l -> exists v, @subslice E l a b = Ok v /\ len v = b - a.
Proof.
  intros. unfold subslice. rewrite slice_in by lia. eexists. split; [done|].
  rewrite len_take, len_drop. lia.
Qed.

Lemma index_slice {E} l a b s i :
  slice l a b = Some s -> 0 <= i < len s -> @index E l (a + i) = @index E s i.
Proof.
  intros (? & ? & ->)%slice_Some Hi. unfold index, nthZ.
  rewrite !(proj2 (Z.leb_le _ _)) by lia.
  rewrite lookup_take_lt by (rewrite len_take, len_drop in Hi; lia).
  rewrite lookup_drop. do 2 f_equal. lia.
Qed.

Lemma read_u16_slice {E} l a s :
  slice l a (a + 2) = Some s -> @read_u16 E l a = Ok (from_le s).
Proof.
  intros Hs. pose proof (slice_len _ _ _ _ Hs).
  destruct s as [|b0 [|b1 [|]]]; try (rewrite ?len_cons, ?len_nil in *; len_pose; lia).
  unfold read_u16. rewrite <-(Z.add_0_r a) at 1.
  rewrite (index_slice _ _ _ _ 0 Hs),
    (index_slice _ _ _ _ 1 Hs)
    by (unfold len; cbn; lia). done.
Qed.

Lemma read_u32_slice {E} l a s :
  slice l a (a + 4) = Some s -> @read_u32 E l a = Ok (from_le s).
Proof.
  intros Hs. pose proof (slice_len _ _ _ _ Hs).
  destruct s as [|b0 [|b1 [|b2 [|b3 [|]]]]];
    try (rewrite ?len_cons, ?len_nil in *; len_pose; lia).
  unfold read_u32. rewrite <-(Z.add_0_r a) at 1.
  rewrite (index_slice _ _ _ _ 0 Hs),
    (index_slice _ _ _ _ 1 Hs),
    (index_slice _ _ _ _ 2 Hs),
    (index_slice _ _ _ _ 3 Hs)
    by (unfold len; cbn; lia). done.
Qed.

Lemma read_i32_slice {E} l a s :
  slice l a (a + 4) = Some s -> @read_i32 E l a = Ok (signed 32 (from_le s)).
Proof.
  intros Hs. pose proof (slice_len _ _ _ _ Hs).
  destruct s as [|b0 [|b1 [|b2 [|b3 [|]]]]];
    try (rewrite ?len_cons, ?len_nil in *; len_pose; lia).
  unfold read_i32. rewrite <-(Z.add_0_r a) at 1.
  rewrite (index_slice _ _ _ _ 0 Hs),
    (index_slice _ _ _ _ 1 Hs),
    (index_slice _ _ _ _ 2 Hs),
    (index_slice _ _ _ _ 3 Hs)
    by (unfold len; cbn; lia). done.
Qed.

Lemma read_u64_slice {E} l a s :
  slice l a (a + 8) = Some s -> @read_u64 E l a = Ok (from_le s).
Proof.
  intros Hs. pose proof (slice_len _ _ _ _ Hs).
  destruct s as [|b0 [|b1 [|b2 [|b3 [|b4 [|b5 [|b6 [|b7 [|]]]]]]]]];
    try (rewrite ?len_cons, ?len_nil in *; len_pose; lia).
  unfold read_u64. rewrite <-(Z.add_0_r a) at 1.
  rewrite (index_slice _ _ _ _ 0 Hs),
    (index_slice _ _ _ _ 1 Hs),
    (index_slice _ _ _ _ 2 Hs),
    (index_slice _ _ _ _ 3 Hs),
    (index_slice _ _ _ _ 4 Hs),
    (index_slice _ _ _ _ 5 Hs),
    (index_slice _ _ _ _ 6 Hs),
    (index_slice _ _ _ _ 7 Hs)
    by (unfold len; cbn; lia). done.
Qed.

(** Reading back what was written at the same offset. *)
Lemma read_u32_app {E} pre v post i :
  i = len pre -> in_u 32 v -> @read_u32 E (pre ++ to_le 4 v ++ post) i = Ok v.
Proof.
  intros -> Hv. rewrite (read_u32_slice _ _ (to_le 4 v)) by apply slice_mid.
  by rewrite (from_le_to_le_id 4).
Qed.

Lemma read_i32_app {E} pre v post i :
  i = len pre -> in_i 32 v -> @read_i32 E (pre ++ to_le 4 v ++ post) i = Ok v.
Proof.
  intros -> Hv. rewrite (read_i32_slice _ _ (to_le 4 v)) by apply slice_mid.
  rewrite from_le_to_le. by rewrite signed_wrap.
Qed.

Lemma read_u64_app {E} pre v post i :
  i = len pre -> in_u 64 v -> @read_u64 E (pre ++ to_le 8 v ++ post) i = Ok v.
Proof.
  intros -> Hv. rewrite (read_u64_slice _ _ (to_le 8 v)) by apply slice_mid.
  by rewrite (from_le_to_le_id 8).
Qed.

Lemma subslice_app {E} pre k post i j :
  i = len pre -> j = len pre + len k ->
  @subslice E (pre ++ k ++ post) i j = Ok k.
Proof. intros -> ->. unfold subslice. by rewrite slice_mid. Qed.

Lemma subslice_suffix {E} k r i j :
  i = len k -> j = len k + len r -> @subslice E (k ++ r) i j = Ok r.
Proof.
  intros. pose proof (@subslice_app E k r [] i j) as H'.
  rewrite app_nil_r in H'. auto.
Qed.

(** Skipping a written prefix, and reading the field at the front. *)
Lemma index_skip {E} k r i :
  len k <= i -> @index E (k ++ r) i = @index E r (i - len k).
Proof.
  intros. pose proof (len_nonneg k). unfold index, nthZ.
  rewrite !(proj2 (Z.leb_le _ _)) by lia.
  rewrite lookup_app_r by (unfold len in *; lia).
  do 2 f_equal. unfold len in *. lia.
Qed.

Lemma read_u16_skip {E} k r i :
  len k <= i -> @read_u16 E (k ++ r) i = @read_u16 E r (i - len k).
Proof.
  intros. unfold read_u16. rewrite !index_skip by lia.
  by replace (i + 1 - len k) with (i - len k + 1) by lia.
Qed.

Lemma read_u32_skip {E} k r i :
  len k <= i -> @read_u32 E (k ++ r) i = @read_u32 E r (i - len k).
Proof.
  intros. unfold read_u32. rewrite !index_skip by lia.
  by replace (i + 1 - len k) with (i - len k + 1) by lia;
  replace (i + 2 - len k) with (i - len k + 2) by lia;
  replace (i + 3 - len k) with (i - len k + 3) by lia.
Qed.

Lemma read_i32_skip {E} k r i :
  len k <= i -> @read_i32 E (k ++ r) i = @read_i32 E r (i - len k).
Proof.
  intros. unfold read_i32. rewrite !index_skip by lia.
  by replace (i + 1 - len k) with (i - len k + 1) by lia;
  replace (i + 2 - len k) with (i - len k + 2) by lia;
  replace (i + 3 - len k) with (i - len k + 3) by lia.
Qed.

Lemma read_u64_skip {E} k r i :
  len k <= i -> @read_u64 E (k ++ r) i = @read_u64 E r (i - len k).
Proof.
  intros. unfold read_u64. rewrite !index_skip by lia.
  by replace (i + 1 - len k) with (i - len k + 1) by lia;
  replace (i + 2 - len k) with (i - len k + 2) by lia;
  replace (i + 3 - len k) with (i - len k + 3) by lia;
  replace (i + 4 - len k) with (i - len k + 4) by lia;
  replace (i + 5 - len k) with (i - len k + 5) by lia;
  replace (i + 6 - len k) with (i - len k + 6) by lia;
  replace (i + 7 - len k) with (i - len k + 7) by lia.
Qed.

Lemma subslice_skip {E} k r a b :
  len k <= a -> @subslice E (k ++ r) a b = @subslice E r (a - len k) (b - len k).
Proof.
  intros. pose proof (len_nonneg k). unfold subslice, slice.
  rewrite !(proj2 (Z.leb_le 0 _)), len_app by lia.
  replace (a - len k <=? b - len k) with (a <=? b) by (destruct (a <=? b) eqn:?; lia).
  replace (b - len k <=? len r) with (b <=? len k + len r)
    by (destruct (b <=? len k + len r) eqn:?; lia).
  destruct (a <=? b); [|done]. destruct (b <=? len k + len r); [|done]. cbn.
  replace (b - len k - (a - len k)) with (b - a) by lia. do 2 f_equal.
  rewrite drop_app_ge by (unfold len in *; lia). f_equal. unfold len in *. lia.
Qed.

Lemma read_u16_here {E} v r : in_u 16 v -> @read_u16 E (to_le 2 v ++ r) 0 = Ok v.
Proof.
  intros. rewrite (read_u16_slice _ _ (to_le 2 v)) by apply (slice_mid []).
  by rewrite (from_le_to_le_id 2).
Qed.

Lemma read_u32_here {E} v r : in_u 32 v -> @read_u32 E (to_le 4 v ++ r) 0 = Ok v.
Proof. by apply (read_u32_app []). Qed.

Lemma read_i32_here {E} v r : in_i 32 v -> @read_i32 E (to_le 4 v ++ r) 0 = Ok v.
Proof. by apply (read_i32_app []). Qed.

Lemma read_u64_here {E} v r : in_u 64 v -> @read_u64 E (to_le 8 v ++ r) 0 = Ok v.
Proof. by apply (read_u64_app []). Qed.

Lemma subslice_here {E} k r a b :
  a = 0 -> b = len k -> @subslice E (k ++ r) a b = Ok k.
Proof. intros -> ->. by apply (subslice_app []). Qed.

(** [in_u w v] and [in_i w v] for literals, and by assumption. *)
Ltac in_range :=
  first [ assumption
        | split; by vm_compute
        | unfold in_u, in_i, USIZE_MAX, ISIZE_MAX in *; lia ].

(** [read_fields] evaluates fixed-offset reads of a concatenation of fields
    with known widths. *)
Ltac fold_offset :=
  repeat match goal with
  | |- context [?i - len ?k] =>
      let n := fresh in
      eassert (i - len k = _) as n
        by (autorewrite with len;
            match goal with |- ?t = ?e =>
              let v := eval vm_compute in t in unify e v; reflexivity end);
      rewrite n; clear n
  end.
Ltac read_skip :=
  first [ rewrite read_u32_skip by len_solve
        | rewrite read_i32_skip by len_solve
        | rewrite read_u16_skip by len_solve
        | rewrite read_u64_skip by len_solve ]; fold_offset.
Ltac read_fields :=
  repeat first
    [ rewrite read_u32_here by in_range
    | rewrite read_i32_here by in_range
    | rewrite read_u16_here by in_range
    | rewrite read_u64_here by in_range
    | read_skip
    | progress cbn [mbind res_bind] ].

(** *** Ranges of what the readers return *)

Lemma index_byte {E} l i b : bytes_ok l -> @index E l i = Ok b -> is_byte b.
Proof.
  intros Hl Hi. pose proof (index_ok _ _ _ Hi). unfold index, nthZ in Hi.
  rewrite (proj2 (Z.leb_le _ _)) in Hi by lia.
  destruct (l !! _) eqn:E'; [|done]. injection Hi as ->.
  by eapply Forall_lookup_1 in E'.
Qed.

Lemma read_u32_range {E} l i :
  bytes_ok l -> 0 <= i -> i + 4 <= len l ->
  exists v, @read_u32 E l i = Ok v /\ in_u 32 v.
Proof.
  intros Hl ? ?. pose proof (slice_in l i (i + 4) ltac:(lia) ltac:(lia)) as Hs.
  pose proof (bytes_ok_slice _ _ _ _ Hl Hs) as Hb.
  pose proof (slice_len _ _ _ _ Hs) as Hlen.
  rewrite (read_u32_slice _ _ _ Hs). eexists. split; [done|].
  pose proof (from_le_bound _ Hb) as Hf. rewrite Hlen in Hf.
  replace (8 * (i + 4 - i)) with 32 in Hf by lia. exact Hf.
Qed.

Lemma read_i32_range {E} l i :
  bytes_ok l -> 0 <= i -> i + 4 <= len l ->
  exists v, @read_i32 E l i = Ok v /\ in_i 32 v.
Proof.
  intros Hl ? ?. pose proof (slice_in l i (i + 4) ltac:(lia) ltac:(lia)) as Hs.
  pose proof (bytes_ok_slice _ _ _ _ Hl Hs) as Hb.
  pose proof (slice_len _ _ _ _ Hs) as Hlen.
  rewrite (read_i32_slice _ _ _ Hs). eexists. split; [done|].
  pose proof (from_le_bound _ Hb) as Hf. rewrite Hlen in Hf.
  replace (8 * (i + 4 - i)) with 32 in Hf by lia.
  unfold signed, in_i. destruct (_ <? _) eqn:?; lia.
Qed.

Lemma read_u16_range {E} l i :
  bytes_ok l -> 0 <= i -> i + 2 <= len l ->
  exists v, @read_u16 E l i = Ok v /\ in_u 16 v.
Proof.
  intros Hl ? ?. pose proof (slice_in l i (i + 2) ltac:(lia) ltac:(lia)) as Hs.
  pose proof (bytes_ok_slice _ _ _ _ Hl Hs) as Hb.
  pose proof (slice_len _ _ _ _ Hs) as Hlen.
  rewrite (read_u16_slice _ _ _ Hs). eexists. split; [done|].
  pose proof (from_le_bound _ Hb) as Hf. rewrite Hlen in Hf.
  replace (8 * (i + 2 - i)) with 16 in Hf by lia. exact Hf.
Qed.

(** Evaluates the in-range reads at the head of a parser. *)
Ltac reads_ok :=
  repeat match goal with
  | |- context [@read_u32 ?E ?l ?i] =>
      let v := fresh "v" in let H := fresh "Hv" in
      destruct (@read_u32_range E l i) as (v & -> & H); [assumption|lia|lia|];
      cbn [mbind res_bind]
  | |- context [@read_i32 ?E ?l ?i] =>
      let v := fresh "v" in let H := fresh "Hv" in
      destruct (@read_i32_range E l i) as (v & -> & H); [assumption|lia|lia|];
      cbn [mbind res_bind]
  | |- context [@read_u16 ?E ?l ?i] =>
      let v := fresh "v" in let H := fresh "Hv" in
      destruct (@read_u16_range E l i) as (v & -> & H); [assumption|lia|lia|];
      cbn [mbind res_bind]
  | |- context [@read_u64 ?E ?l ?i] =>
      let v := fresh "v" in
      destruct (@read_u64_ok E l i) as (v & ->); [lia|lia|];
      cbn [mbind res_bind]
  | |- context [@subslice ?E ?l ?a ?b] =>
      let v := fresh "s" in let H := fresh "Hs" in
      destruct (@subslice_ok E l a b) as (v & -> & H);
        [unfold in_u, in_i in *; lia|unfold in_u, in_i in *; lia|];
      cbn [mbind res_bind]
  | |- context [@index ?E ?l ?i] =>
      let v := fresh "b" in
      destruct (@index_in E l i) as (v & ->); [lia|]; cbn [mbind res_bind]
  end.

(** The outcomes a parser may have: never a panic, only [P] values and only
    [R] errors. *)
Definition outcomes {E A} (P : A -> Prop) (R : E -> Prop) (r : res E A) : Prop :=
  match r with Ok a => P a | Err e => R e | Panic => False end.

Lemma outcomes_bind {E A B} (P : A -> Prop) (Q : B -> Prop) (R : E -> Prop) m f :
  outcomes P R m -> (forall a, P a -> outcomes Q R (f a)) -> outcomes Q R (m ≫= f).
Proof. destruct m; cbn; auto. Qed.

Lemma outcomes_impl {E A} (P Q : A -> Prop) (R R' : E -> Prop) (m : res E A) :
  outcomes P R m -> (forall a, P a -> Q a) -> (forall e, R e -> R' e) -> outcomes Q R' m.
Proof. destruct m; cbn; auto. Qed.
