(* ===== verification/Protocol.v ===== *)
(** * Protocol: the packed host/RPU messages (src/src/protocol.rs)

    Message framing, the queue map, UMAC headers, and the system-init, scan,
    interface and deauthentication encoders.  An encoder works on the caller's
    output buffer: it is a computation on [list Z] that returns the length.
    Fixed-size arrays ([[u8; 6]]) are lists; a statement that needs their
    length says so. *)

From S2P Require Import Prelude Codec.

Definition HOST_MESSAGE_HEADER_LEN : Z := 12.
Definition UMAC_HEADER_LEN : Z := 36.
Definition SYSTEM_INIT_LEN : Z := 366.
Definition MAX_CONTROL_MESSAGE_LEN : Z := 1024.
Definition HPQM_INFO_LEN : Z := 56.
Definition MAX_SSID_LEN : Z := 32.
Definition MAX_SCAN_IE_LEN : Z := 400.
Definition MAX_SCAN_SSIDS : Z := 2.
Definition MAX_SCAN_FREQUENCIES : Z := 64.
Definition RF_PARAMS_LEN : Z := 200.
Definition RX_POOL_COUNT : Z := 3.
Definition MAX_UMAC_INNER_LEN : Z := MAX_CONTROL_MESSAGE_LEN - HOST_MESSAGE_HEADER_LEN.
Definition MAX_SCAN_BODY_LEN : Z := MAX_UMAC_INNER_LEN - UMAC_HEADER_LEN.

(** ** Buffers *)

(** [let mut writer = Writer::new(out); m] *)
Definition with_writer {A} (m : M Writer.t ProtocolError.t A)
    : M (list Z) ProtocolError.t A :=
  zoom Writer.new (fun w _ => Writer.bytes_of w) m.

(** [m] on [&mut out[..n]] *)
Definition on_prefix {E A} (n : Z) (m : M (list Z) E A) : M (list Z) E A :=
  fun out =>
    match slice out 0 n with
    | Some p => let '(r, p') := m p in (r, p' ++ drop (Z.to_nat n) out)
    | None => (Panic, out)
    end.

(** [m] on a local buffer; the result carries its final contents. *)
Definition run_local {E A} (init : list Z) (m : M (list Z) E A) : res E (A * list Z) :=
  let '(r, b) := m init in a ← r; Ok (a, b).

Module HostMessageType.
Inductive t : Type :=
  | System
  | Supplicant
  | Data
  | Umac.
#[global] Instance eq_dec : EqDecision t.
Proof. solve_decision. Defined.
(** [as i32] *)
Definition to_i32 (x : t) : Z :=
  match x with
  | System => 0
  | Supplicant => 1
  | Data => 2
  | Umac => 3
  end.
Definition from_i32 (value : Z) : res ProtocolError.t t :=
  if value =? 0 then Ok System
  else if value =? 1 then Ok Supplicant
  else if value =? 2 then Ok Data
  else if value =? 3 then Ok Umac
  else Err (ProtocolError.InvalidValue (Prelude.u32 value)).
End HostMessageType.

Definition bool_u16 (value : bool) : Z := if value then 1 else 0.
Definition bool_u32 (value : bool) : Z := if value then 1 else 0.
Definition u8_from (value : bool) : Z := if value then 1 else 0.

(** ** Host messages *)

Record HostMessageRef : Type := mkHostMessageRef {
  resubmit : bool;
  message_type : HostMessageType.t;
  payload : list Z }.

Definition validated_host_message_len (out_len payload_len : Z)
    : res ProtocolError.t Z :=
  total ← ok_or (checked_add HOST_MESSAGE_HEADER_LEN payload_len)
            ProtocolError.InvalidLength;
  ensure (negb (out_len <? total)) ProtocolError.BufferTooSmall;;
  ensure (negb (2 ^ 32 - 1 <? total)) ProtocolError.BufferTooSmall;;
  Ok total.

Definition encode_host_message (message_type : HostMessageType.t)
    (resubmit : bool) (payload : list Z) : M (list Z) ProtocolError.t Z :=
  out_len ← gets len;
  total ← lift (validated_host_message_len out_len (len payload));
  with_writer
    ((Writer.u32 (u32 total);;
      Writer.u32 (bool_u32 resubmit);;
      Writer.i32 (HostMessageType.to_i32 message_type);;
      Writer.bytes payload);;
     gets Writer.len).

Definition parse_host_message (bytes : list Z) : res ProtocolError.t HostMessageRef :=
  if len bytes <? HOST_MESSAGE_HEADER_LEN then Err ProtocolError.InvalidLength
  else
    declared ← read_u32 bytes 0;
    if (declared <? HOST_MESSAGE_HEADER_LEN) || (len bytes <? declared)
    then Err ProtocolError.InvalidLength
    else
      resubmit ← read_u32 bytes 4;
      raw_type ← read_i32 bytes 8;
      message_type ← HostMessageType.from_i32 raw_type;
      payload ← subslice bytes HOST_MESSAGE_HEADER_LEN declared;
      Ok (mkHostMessageRef (negb (resubmit =? 0)) message_type payload).

(** ** Queue map *)

Record Hpq : Type := mkHpq { enqueue_address : Z; dequeue_address : Z }.
#[export] Instance Hpq_eq_dec : EqDecision Hpq.
Proof. solve_decision. Defined.

Record HpqmInfo : Type := mkHpqmInfo {
  event_busy : Hpq;
  event_available : Hpq;
  command_busy : Hpq;
  command_available : Hpq;
  rx_buffer_busy : list Hpq }.

Module Reader.
Record t : Type := mk { bytes : list Z; position : Z }.
Definition new (bytes : list Z) : t := mk bytes 0.

Definition u32 : M t ProtocolError.t Z :=
  r ← get;
  let end_ := position r + 4 in
  b ← lift (ok_or (slice (bytes r) (position r) end_) ProtocolError.InvalidLength);
  modify (fun r => mk (bytes r) end_);;
  b0 ← lift (index b 0);
  b1 ← lift (index b 1);
  b2 ← lift (index b 2);
  b3 ← lift (index b 3);
  mret (from_le [b0; b1; b2; b3]).

Definition hpq : M t ProtocolError.t Hpq :=
  enqueue_address ← u32;
  dequeue_address ← u32;
  mret (mkHpq enqueue_address dequeue_address).
End Reader.

Definition read_primary_queues : M Reader.t ProtocolError.t (Hpq * Hpq * Hpq * Hpq) :=
  a ← Reader.hpq;
  b ← Reader.hpq;
  c ← Reader.hpq;
  d ← Reader.hpq;
  mret (a, b, c, d).

Definition read_rx_queues : M Reader.t ProtocolError.t (list Hpq) :=
  a ← Reader.hpq;
  b ← Reader.hpq;
  c ← Reader.hpq;
  mret [a; b; c].

Definition HpqmInfo_parse (bytes : list Z) : res ProtocolError.t HpqmInfo :=
  if len bytes <? HPQM_INFO_LEN then Err ProtocolError.InvalidLength
  else
    fst
      ((q ← read_primary_queues;
        let '(event_busy, event_available, command_busy, command_available) := q in
        rx ← read_rx_queues;
        mret (mkHpqmInfo event_busy event_available command_busy
                command_available rx)) (Reader.new bytes)).

(** ** UMAC headers and commands *)

Record InterfaceIds : Type := mkInterfaceIds {
  ids_ifaceindex : option Z;
  ids_wiphy_index : option Z;
  ids_wdev_id : option Z }.

Definition InterfaceIds_default : InterfaceIds := mkInterfaceIds None None None.

Definition WDEV_VALID : Z := bit 0.
Definition IFINDEX_VALID : Z := bit 1.
Definition WIPHY_VALID : Z := bit 2.

Definition valid_mask (ids : InterfaceIds) : Z :=
  let valid := 0 in
  let valid := if is_some (ids_wdev_id ids) then Z.lor valid WDEV_VALID else valid in
  let valid := if is_some (ids_ifaceindex ids) then Z.lor valid IFINDEX_VALID else valid in
  let valid := if is_some (ids_wiphy_index ids) then Z.lor valid WIPHY_VALID else valid in
  valid.

Definition InterfaceIds_encode (ids : InterfaceIds) : M Writer.t ProtocolError.t unit :=
  Writer.u32 (valid_mask ids);;
  Writer.i32 (default 0 (ids_ifaceindex ids));;
  Writer.i32 (default 0 (ids_wiphy_index ids));;
  Writer.u64 (default 0 (ids_wdev_id ids)).

Record UmacHeader : Type := mkUmacHeader {
  port_id : Z;
  sequence : Z;
  command_event : Z;
  result : Z;
  valid_ids : Z;
  ifaceindex : Z;
  wiphy_index : Z;
  wdev_id : Z }.

Definition UmacHeader_parse (bytes : list Z) : res ProtocolError.t UmacHeader :=
  if len bytes <? UMAC_HEADER_LEN then Err ProtocolError.InvalidLength
  else
    port_id ← read_u32 bytes 0;
    sequence ← read_u32 bytes 4;
    command_event ← read_u32 bytes 8;
    result ← read_i32 bytes 12;
    valid_ids ← read_u32 bytes 16;
    ifaceindex ← read_i32 bytes 20;
    wiphy_index ← read_i32 bytes 24;
    wdev_id ← read_u64 bytes 28;
    Ok (mkUmacHeader port_id sequence command_event result valid_ids
          ifaceindex wiphy_index wdev_id).

Module UmacCommand.
Inductive t : Type :=
  | TriggerScan
  | GetScanResults
  | Authenticate
  | Associate
  | Deauthenticate
  | SetWiphy
  | NewKey
  | DeleteKey
  | SetKey
  | NewInterface
  | SetInterface
  | DeleteInterface
  | SetInterfaceFlags
  | NewStation
  | DeleteStation
  | SetStation
  | GetStation
  | RegisterFrame
  | Frame
  | SetPowerSave
  | GetChannel
  | GetTxPower
  | GetInterface
  | GetWiphy
  | GetInterfaceHardwareAddress
  | SetInterfaceHardwareAddress
  | GetRegulatory
  | RequestSetRegulatory
  | ConfigureUapsd
  | ConfigureTwt
  | TeardownTwt
  | AbortScan
  | MulticastFilter
  | ChangeMacAddress
  | SetPowerSaveTimeout
  | GetConnectionInfo
  | GetPowerSaveInfo
  | SetListenInterval
  | ConfigureExtendedPowerSave
  | ConfigureQuietPeriod
  | PowerSaveExitStrategy.
#[global] Instance eq_dec : EqDecision t.
Proof. solve_decision. Defined.
(** [as u32] *)
Definition to_u32 (x : t) : Z :=
  match x with
  | TriggerScan => 0
  | GetScanResults => 1
  | Authenticate => 2
  | Associate => 3
  | Deauthenticate => 4
  | SetWiphy => 5
  | NewKey => 6
  | DeleteKey => 7
  | SetKey => 8
  | NewInterface => 15
  | SetInterface => 16
  | DeleteInterface => 17
  | SetInterfaceFlags => 18
  | NewStation => 19
  | DeleteStation => 20
  | SetStation => 21
  | GetStation => 22
  | RegisterFrame => 29
  | Frame => 30
  | SetPowerSave => 33
  | GetChannel => 38
  | GetTxPower => 39
  | GetInterface => 40
  | GetWiphy => 41
  | GetInterfaceHardwareAddress => 42
  | SetInterfaceHardwareAddress => 43
  | GetRegulatory => 44
  | RequestSetRegulatory => 46
  | ConfigureUapsd => 47
  | ConfigureTwt => 48
  | TeardownTwt => 49
  | AbortScan => 50
  | MulticastFilter => 51
  | ChangeMacAddress => 52
  | SetPowerSaveTimeout => 53
  | GetConnectionInfo => 54
  | GetPowerSaveInfo => 55
  | SetListenInterval => 56
  | ConfigureExtendedPowerSave => 57
  | ConfigureQuietPeriod => 58
  | PowerSaveExitStrategy => 59
  end.
End UmacCommand.

Module UmacEvent.
Inductive t : Type :=
  | Unspecified
  | ScanStarted
  | ScanAborted
  | ScanDone
  | ScanResult
  | Authenticate
  | Associate
  | Connect
  | Deauthenticate
  | Disassociate
  | NewStation
  | DeleteStation
  | GetStation
  | Disconnect
  | Frame
  | FrameCookie
  | FrameTxStatus
  | InterfaceFlagsStatus
  | NewInterface
  | GetInterfaceHardwareAddress
  | GetRegulatory
  | ScanDisplayResult
  | CommandStatus
  | BssInfo
  | TwtConfigured
  | TwtTornDown
  | TwtSleep.
#[global] Instance eq_dec : EqDecision t.
Proof. solve_decision. Defined.
(** [as u32] *)
Definition to_u32 (x : t) : Z :=
  match x with
  | Unspecified => 256
  | ScanStarted => 257
  | ScanAborted => 258
  | ScanDone => 259
  | ScanResult => 260
  | Authenticate => 261
  | Associate => 262
  | Connect => 263
  | Deauthenticate => 264
  | Disassociate => 265
  | NewStation => 266
  | DeleteStation => 267
  | GetStation => 268
  | Disconnect => 271
  | Frame => 272
  | FrameCookie => 273
  | FrameTxStatus => 274
  | InterfaceFlagsStatus => 275
  | NewInterface => 281
  | GetInterfaceHardwareAddress => 283
  | GetRegulatory => 284
  | ScanDisplayResult => 291
  | CommandStatus => 292
  | BssInfo => 293
  | TwtConfigured => 294
  | TwtTornDown => 295
  | TwtSleep => 296
  end.
End UmacEvent.

Definition validated_umac_inner_len (body_len : Z) : res ProtocolError.t Z :=
  inner_len ← ok_or (checked_add UMAC_HEADER_LEN body_len)
                ProtocolError.InvalidLength;
  ensure (negb (MAX_UMAC_INNER_LEN <? inner_len)) ProtocolError.LimitExceeded;;
  Ok inner_len.

Definition write_umac_header (command : UmacCommand.t) (ids : InterfaceIds)
    : M Writer.t ProtocolError.t unit :=
  Writer.u32 0;;
  Writer.u32 0;;
  Writer.u32 (UmacCommand.to_u32 command);;
  Writer.i32 0;;
  InterfaceIds_encode ids.

Definition encode_umac_command (command : UmacCommand.t) (ids : InterfaceIds)
    (body : list Z) : M (list Z) ProtocolError.t Z :=
  inner_len ← lift (validated_umac_inner_len (len body));
  inner ← lift (run_local (zeros MAX_UMAC_INNER_LEN)
            (on_prefix inner_len
               (with_writer
                  (write_umac_header command ids;;
                   Writer.bytes body))));
  inner_payload ← lift (subslice inner.2 0 inner_len);
  encode_host_message HostMessageType.Umac false inner_payload.

Definition parse_umac_event (message : HostMessageRef)
    : res ProtocolError.t (UmacHeader * list Z) :=
  if decide (message_type message = HostMessageType.Umac) then
    header ← UmacHeader_parse (payload message);
    body ← subslice (payload message) UMAC_HEADER_LEN (len (payload message));
    Ok (header, body)
  else Err ProtocolError.WrongMessageType.

(** [InterfaceIds { wdev_id: Some(wdev_id as u64), ..default() }] *)
Definition wdev_ids (wdev_id : Z) : InterfaceIds :=
  mkInterfaceIds None None (Some wdev_id).

(** ** System initialization *)

Record RxPoolConfig : Type := mkRxPoolConfig {
  buffer_size : Z;
  buffer_count : Z }.

Record DataConfig : Type := mkDataConfig {
  rate_protection_type : Z;
  aggregation : bool;
  wmm : bool;
  max_tx_aggregation_sessions : Z;
  max_rx_aggregation_sessions : Z;
  max_tx_aggregation : Z;
  reorder_buffer_size : Z;
  max_rx_ampdu_size : Z }.

Record TemperatureBatteryConfig : Type := mkTemperatureBatteryConfig {
  temperature_calibration_enabled : Z;
  temperature_calibration_bitmap : Z;
  battery_calibration_bitmap : Z;
  monitor_period_us : Z;
  very_low_voltage_threshold : Z;
  low_voltage_threshold : Z;
  high_voltage_threshold : Z;
  temperature_threshold : Z;
  battery_threshold : Z }.

(** The [Default] implementations. *)
Definition RxPoolConfig_default : RxPoolConfig := mkRxPoolConfig 0 0.
Definition DataConfig_default : DataConfig := mkDataConfig 0 true true 4 4 16 16 3.
Definition TemperatureBatteryConfig_default : TemperatureBatteryConfig :=
  mkTemperatureBatteryConfig 1 0x7b (bit 5) (1024 * 1024) 8 12 14 40 0.

Record SystemInitConfig : Type := mkSystemInitConfig {
  cfg_wdev_id : Z;
  cfg_sleep_enable : Z;
  cfg_hardware_bringup_time : Z;
  cfg_software_bringup_time : Z;
  cfg_beacon_timeout : Z;
  cfg_calibrate_sleep_clock : Z;
  cfg_phy_calibration_bitmap : Z;
  cfg_mac_address : list Z;
  cfg_rf_params : list Z;
  cfg_rf_params_valid : bool;
  cfg_rx_pools : list RxPoolConfig;
  cfg_data : DataConfig;
  cfg_temperature_battery : TemperatureBatteryConfig;
  cfg_tcp_ip_checksum_offload : bool;
  cfg_country_code : list Z;
  cfg_operating_band : Z;
  cfg_management_buffer_offload : bool;
  cfg_feature_flags : Z;
  cfg_disable_beamforming : bool;
  cfg_disconnect_timeout : Z;
  cfg_power_save_exit_strategy : Z;
  cfg_watchdog_timer : Z;
  cfg_keep_alive_enabled : bool;
  cfg_keep_alive_period_s : Z;
  cfg_display_scan_bss_limit : Z;
  cfg_disable_coexistence_priority_window_for_scan : Z;
  cfg_raw_scan_enabled : bool;
  cfg_max_ps_poll_fail_count : Z;
  cfg_stbc_enabled_in_ht : Z;
  cfg_dynamic_bandwidth_signalling : Z;
  cfg_dynamic_energy_detection : Z;
  cfg_bluetooth_slot_time_ms : Z;
  cfg_bluetooth_coexistence_disabled : Z;
  cfg_abort_scan_on_bss_limit : bool }.

(** [SystemInitConfig::new] *)
Definition SystemInitConfig_new (mac_address rf_params : list Z) : SystemInitConfig := {|
  cfg_wdev_id := 0;
  cfg_sleep_enable := 0;
  cfg_hardware_bringup_time := 7300;
  cfg_software_bringup_time := 5000;
  cfg_beacon_timeout := 20000;
  cfg_calibrate_sleep_clock := 1;
  cfg_phy_calibration_bitmap := 0x0003007b;
  cfg_mac_address := mac_address;
  cfg_rf_params := rf_params;
  cfg_rf_params_valid := true;
  cfg_rx_pools := [mkRxPoolConfig 1600 8; RxPoolConfig_default; RxPoolConfig_default];
  cfg_data := DataConfig_default;
  cfg_temperature_battery := TemperatureBatteryConfig_default;
  cfg_tcp_ip_checksum_offload := false;
  cfg_country_code := [48; 48];
  cfg_operating_band := 0;
  cfg_management_buffer_offload := true;
  cfg_feature_flags := 0;
  cfg_disable_beamforming := false;
  cfg_disconnect_timeout := 0;
  cfg_power_save_exit_strategy := 1;
  cfg_watchdog_timer := 0x00ffffff;
  cfg_keep_alive_enabled := false;
  cfg_keep_alive_period_s := 0;
  cfg_display_scan_bss_limit := 150;
  cfg_disable_coexistence_priority_window_for_scan := 0;
  cfg_raw_scan_enabled := false;
  cfg_max_ps_poll_fail_count := 10;
  cfg_stbc_enabled_in_ht := 0;
  cfg_dynamic_bandwidth_signalling := 0;
  cfg_dynamic_energy_detection := 0;
  cfg_bluetooth_slot_time_ms := 0;
  cfg_bluetooth_coexistence_disabled := 1;
  cfg_abort_scan_on_bss_limit := false |}.

(** [SystemInitConfig::validate]; [sum] on [u32] wraps in a release build. *)
Definition validate (config : SystemInitConfig) : res ProtocolError.t unit :=
  let total_rx :=
    u32 (foldr Z.add 0
           (map (fun pool => u32 (buffer_size pool * buffer_count pool))
              (cfg_rx_pools config))) in
  if (128 * 1024 <? total_rx)
     || (reorder_buffer_size (cfg_data config) =? 0)
     || (64 <? reorder_buffer_size (cfg_data config))
     || negb ((0 <=? max_rx_ampdu_size (cfg_data config))
              && (max_rx_ampdu_size (cfg_data config) <=? 3))
  then Err ProtocolError.LimitExceeded
  else Ok tt.

Definition write_system_init_identity (config : SystemInitConfig) : M Writer.t ProtocolError.t unit :=
  Writer.u32 0;;
  Writer.u32 SYSTEM_INIT_LEN;;
  Writer.u32 (cfg_wdev_id config);;
  Writer.u32 (cfg_sleep_enable config).

Definition write_system_init_timing (config : SystemInitConfig) : M Writer.t ProtocolError.t unit :=
  Writer.u32 (cfg_hardware_bringup_time config);;
  Writer.u32 (cfg_software_bringup_time config);;
  Writer.u32 (cfg_beacon_timeout config);;
  Writer.u32 (cfg_calibrate_sleep_clock config).

Definition write_system_init_radio (config : SystemInitConfig) : M Writer.t ProtocolError.t unit :=
  Writer.u32 (cfg_phy_calibration_bitmap config);;
  Writer.bytes (cfg_mac_address config);;
  Writer.bytes (cfg_rf_params config);;
  Writer.u8 (u8_from (cfg_rf_params_valid config)).

Definition write_system_init_rx_pools (config : SystemInitConfig)
    : M Writer.t ProtocolError.t unit :=
  for_each (cfg_rx_pools config) (fun pool =>
    Writer.u16 (buffer_size pool);;
    Writer.u16 (buffer_count pool)).

Definition write_system_init_front (config : SystemInitConfig) : M Writer.t ProtocolError.t unit :=
  write_system_init_identity config;;
  write_system_init_timing config;;
  write_system_init_radio config;;
  write_system_init_rx_pools config.

Definition write_system_init_data_rates (data : DataConfig) : M Writer.t ProtocolError.t unit :=
  Writer.u8 (rate_protection_type data);;
  Writer.u8 (u8_from (aggregation data));;
  Writer.u8 (u8_from (wmm data));;
  Writer.u8 (max_tx_aggregation_sessions data).

Definition write_system_init_data_limits (data : DataConfig) : M Writer.t ProtocolError.t unit :=
  Writer.u8 (max_rx_aggregation_sessions data);;
  Writer.u8 (max_tx_aggregation data);;
  Writer.u8 (reorder_buffer_size data);;
  Writer.i32 (max_rx_ampdu_size data).

Definition write_system_init_temperature_calibration (temp : TemperatureBatteryConfig) : M Writer.t ProtocolError.t unit :=
  Writer.u32 (temperature_calibration_enabled temp);;
  Writer.u32 (temperature_calibration_bitmap temp);;
  Writer.u32 (battery_calibration_bitmap temp);;
  Writer.u32 (monitor_period_us temp).

Definition write_system_init_environment_thresholds (temp : TemperatureBatteryConfig) : M Writer.t ProtocolError.t unit :=
  Writer.i32 (very_low_voltage_threshold temp);;
  Writer.i32 (low_voltage_threshold temp);;
  Writer.i32 (high_voltage_threshold temp);;
  Writer.i32 (temperature_threshold temp);;
  Writer.i32 (battery_threshold temp).

Definition write_system_init_middle (config : SystemInitConfig) : M Writer.t ProtocolError.t unit :=
  write_system_init_data_rates (cfg_data config);;
  write_system_init_data_limits (cfg_data config);;
  write_system_init_temperature_calibration (cfg_temperature_battery config);;
  write_system_init_environment_thresholds (cfg_temperature_battery config).

Definition write_system_init_network (config : SystemInitConfig) : M Writer.t ProtocolError.t unit :=
  Writer.u8 (u8_from (cfg_tcp_ip_checksum_offload config));;
  Writer.bytes (cfg_country_code config);;
  Writer.u32 (cfg_operating_band config);;
  Writer.u8 (u8_from (cfg_management_buffer_offload config));;
  Writer.u32 (cfg_feature_flags config).

Definition write_system_init_power (config : SystemInitConfig) : M Writer.t ProtocolError.t unit :=
  Writer.u32 (bool_u32 (cfg_disable_beamforming config));;
  Writer.u32 (cfg_disconnect_timeout config);;
  Writer.u8 (cfg_power_save_exit_strategy config);;
  Writer.u32 (cfg_watchdog_timer config).

Definition write_system_init_scan_policy (config : SystemInitConfig) : M Writer.t ProtocolError.t unit :=
  Writer.u8 (u8_from (cfg_keep_alive_enabled config));;
  Writer.u32 (cfg_keep_alive_period_s config);;
  Writer.u32 (cfg_display_scan_bss_limit config);;
  Writer.u32 (cfg_disable_coexistence_priority_window_for_scan config);;
  Writer.u8 (u8_from (cfg_raw_scan_enabled config));;
  Writer.u32 (cfg_max_ps_poll_fail_count config).

Definition write_system_init_coexistence (config : SystemInitConfig) : M Writer.t ProtocolError.t unit :=
  Writer.u32 (cfg_stbc_enabled_in_ht config);;
  Writer.u32 (cfg_dynamic_bandwidth_signalling config);;
  Writer.u32 (cfg_dynamic_energy_detection config);;
  Writer.u32 (cfg_bluetooth_slot_time_ms config);;
  Writer.u32 (cfg_bluetooth_coexistence_disabled config);;
  Writer.u8 (u8_from (cfg_abort_scan_on_bss_limit config)).

Definition write_system_init_back (config : SystemInitConfig) : M Writer.t ProtocolError.t unit :=
  write_system_init_network config;;
  write_system_init_power config;;
  write_system_init_scan_policy config;;
  write_system_init_coexistence config.

Definition write_system_init_body (config : SystemInitConfig) : M Writer.t ProtocolError.t unit :=
  write_system_init_front config;;
  write_system_init_middle config;;
  write_system_init_back config.

Definition encode_system_init (config : SystemInitConfig) : M (list Z) ProtocolError.t Z :=
  lift (validate config);;
  written ← lift (run_local (zeros SYSTEM_INIT_LEN)
              (with_writer (write_system_init_body config;; gets Writer.len)));
  if negb (written.1 =? SYSTEM_INIT_LEN) then throw ProtocolError.InvalidLength
  else encode_host_message HostMessageType.System false written.2.

(** ** Interface, scan and deauthentication commands *)

Module InterfaceType.
Inductive t : Type :=
  | Unspecified
  | AdHoc
  | Station
  | AccessPoint
  | ApVlan
  | Wds
  | Monitor
  | Mesh
  | P2pClient
  | P2pGroupOwner
  | P2pDevice.
#[global] Instance eq_dec : EqDecision t.
Proof. solve_decision. Defined.
(** [as i32] *)
Definition to_i32 (x : t) : Z :=
  match x with
  | Unspecified => 0
  | AdHoc => 1
  | Station => 2
  | AccessPoint => 3
  | ApVlan => 4
  | Wds => 5
  | Monitor => 6
  | Mesh => 7
  | P2pClient => 8
  | P2pGroupOwner => 9
  | P2pDevice => 10
  end.
End InterfaceType.

Definition write_new_interface_metadata (interface_type : InterfaceType.t)
    : M Writer.t ProtocolError.t unit :=
  Writer.u32 (Z.lor (Z.lor (bit 1) (bit 2)) (bit 3));;
  Writer.i32 (InterfaceType.to_i32 interface_type);;
  Writer.i32 0;;
  Writer.u32 0.

Definition write_new_interface_identity (mac_address interface_name : list Z)
    : M Writer.t ProtocolError.t unit :=
  Writer.bytes mac_address;;
  Writer.fixed interface_name 16.

Definition encode_new_interface (wdev_id : Z) (interface_type : InterfaceType.t)
    (mac_address interface_name : list Z) : M (list Z) ProtocolError.t Z :=
  if 16 <? len interface_name then throw ProtocolError.LimitExceeded
  else
    body ← lift (run_local (zeros 38)
             (with_writer
                (write_new_interface_metadata interface_type;;
                 write_new_interface_identity mac_address interface_name)));
    encode_umac_command UmacCommand.NewInterface (wdev_ids wdev_id) body.2.

Module ScanReason.
Inductive t : Type :=
  | Display
  | Connect.
#[global] Instance eq_dec : EqDecision t.
Proof. solve_decision. Defined.
(** [as i32] *)
Definition to_i32 (x : t) : Z :=
  match x with
  | Display => 0
  | Connect => 1
  end.
End ScanReason.

Record ScanRequest : Type := mkScanRequest {
  scan_reason : ScanReason.t;
  scan_passive : bool;
  scan_ssids : list (list Z);
  scan_ssid_count : Z;
  scan_bands : Z;
  scan_no_cck : bool;
  scan_information_elements : list Z;
  scan_mac_address : list Z;
  scan_active_dwell_ms : Z;
  scan_passive_dwell_ms : Z;
  scan_skip_local_admin_macs : bool;
  scan_center_frequencies_mhz : list Z }.

(** [ScanRequest::all_bands] *)
Definition all_bands : ScanRequest :=
  mkScanRequest ScanReason.Display false [[]; []] 0 0 false [] (zeros 6) 0 0 false [].

Definition validate_scan_capacities (request : ScanRequest) : res ProtocolError.t unit :=
  ensure (negb (MAX_SCAN_SSIDS <? scan_ssid_count request)) ProtocolError.LimitExceeded;;
  ensure (negb (MAX_SCAN_FREQUENCIES <? len (scan_center_frequencies_mhz request)))
    ProtocolError.LimitExceeded;;
  ensure (negb (MAX_SCAN_IE_LEN <? len (scan_information_elements request)))
    ProtocolError.LimitExceeded.

Definition validate_scan_ssids (request : ScanRequest) : res ProtocolError.t unit :=
  ensure (forallb (fun ssid => negb (MAX_SSID_LEN <? len ssid))
            (take (Z.to_nat (scan_ssid_count request)) (scan_ssids request)))
    ProtocolError.LimitExceeded.

Definition validate_scan_request (request : ScanRequest) : res ProtocolError.t unit :=
  validate_scan_capacities request;;
  validate_scan_ssids request.

Definition scan_body_len (frequency_count : Z) : res ProtocolError.t Z :=
  let FIXED := 4 + 486 in
  frequencies_len ← ok_or (checked_mul frequency_count 4) ProtocolError.InvalidLength;
  body_len ← ok_or (checked_add FIXED frequencies_len) ProtocolError.InvalidLength;
  ensure (negb (MAX_SCAN_BODY_LEN <? body_len)) ProtocolError.LimitExceeded;;
  Ok body_len.

Definition write_scan_header (request : ScanRequest) : M Writer.t ProtocolError.t unit :=
  Writer.i32 (ScanReason.to_i32 (scan_reason request));;
  Writer.u16 (bool_u16 (scan_passive request));;
  Writer.u8 (scan_ssid_count request).

Definition write_scan_ssids (request : ScanRequest) : M Writer.t ProtocolError.t unit :=
  for_each (seqZ 0 MAX_SCAN_SSIDS) (fun index =>
    ssid ← lift (if index <? scan_ssid_count request
                 then expect (nthZ (scan_ssids request) index) else Ok []);
    Writer.u8 (u8 (len ssid));;
    Writer.fixed ssid MAX_SSID_LEN).

Definition write_scan_timing (request : ScanRequest) : M Writer.t ProtocolError.t unit :=
  Writer.u16 (scan_active_dwell_ms request);;
  Writer.u16 (scan_passive_dwell_ms request);;
  Writer.u16 (u16 (len (scan_center_frequencies_mhz request)));;
  Writer.u8 (u8_from (scan_skip_local_admin_macs request)).

Definition write_scan_options (request : ScanRequest) : M Writer.t ProtocolError.t unit :=
  Writer.u8 (u8_from (scan_no_cck request));;
  Writer.u8 (scan_bands request);;
  Writer.u16 (u16 (len (scan_information_elements request)));;
  Writer.fixed (scan_information_elements request) MAX_SCAN_IE_LEN;;
  Writer.bytes (scan_mac_address request);;
  write_scan_timing request.

Definition write_scan_frequencies (frequencies : list Z) : M Writer.t ProtocolError.t unit :=
  for_each frequencies Writer.u32.

Definition write_scan_body (request : ScanRequest) : M Writer.t ProtocolError.t unit :=
  write_scan_header request;;
  write_scan_ssids request;;
  write_scan_options request;;
  write_scan_frequencies (scan_center_frequencies_mhz request).

Definition encode_scan (wdev_id : Z) (request : ScanRequest) : M (list Z) ProtocolError.t Z :=
  lift (validate_scan_request request);;
  body_len ← lift (scan_body_len (len (scan_center_frequencies_mhz request)));
  written ← lift (run_local (zeros MAX_SCAN_BODY_LEN)
              (on_prefix body_len
                 (with_writer (write_scan_body request;; gets Writer.len))));
  if negb (written.1 =? body_len) then throw ProtocolError.InvalidLength
  else
    body ← lift (subslice written.2 0 body_len);
    encode_umac_command UmacCommand.TriggerScan (wdev_ids wdev_id) body.

Definition encode_get_scan_results (wdev_id : Z) (reason : ScanReason.t)
    : M (list Z) ProtocolError.t Z :=
  encode_umac_command UmacCommand.GetScanResults (wdev_ids wdev_id)
    (to_le 4 (ScanReason.to_i32 reason)).

Definition write_deauthenticate_body (bssid : list Z) (reason_code : Z)
    (local_state_change : bool) : M Writer.t ProtocolError.t unit :=
  Writer.u32 1;;
  Writer.u16 (bool_u16 local_state_change);;
  Writer.u16 reason_code;;
  Writer.bytes bssid.

Definition encode_deauthenticate (wdev_id : Z) (bssid : list Z) (reason_code : Z)
    (local_state_change : bool) : M (list Z) ProtocolError.t Z :=
  body ← lift (run_local (zeros 14)
           (with_writer
              (write_deauthenticate_body bssid reason_code local_state_change)));
  encode_umac_command UmacCommand.Deauthenticate (wdev_ids wdev_id) body.2.

(** ** Data header *)

Module DataCommand.
Inductive t : Type :=
  | ManagementBufferConfig
  | TransmitBuffer
  | TransmitDone
  | ReceiveBuffer
  | CarrierOn
  | CarrierOff
  | PowerManagementMode
  | PowerSaveGetFrames.
#[global] Instance eq_dec : EqDecision t.
Proof. solve_decision. Defined.
(** [as u32] *)
Definition to_u32 (x : t) : Z :=
  match x with
  | ManagementBufferConfig => 0
  | TransmitBuffer => 1
  | TransmitDone => 2
  | ReceiveBuffer => 3
  | CarrierOn => 4
  | CarrierOff => 5
  | PowerManagementMode => 6
  | PowerSaveGetFrames => 7
  end.
End DataCommand.

Record DataHeader : Type := mkDataHeader { dh_command : Z; dh_length : Z }.

Definition DataHeader_parse (bytes : list Z) : res ProtocolError.t DataHeader :=
  if len bytes <? 8 then Err ProtocolError.InvalidLength
  else
    command ← read_u32 bytes 0;
    length ← read_u32 bytes 4;
    Ok (mkDataHeader command length).

(** ** Wire formats

    The bytes of a host message and of a UMAC command, as the layout of the
    pinned interface lists them. *)

Definition host_message_bytes (ty : HostMessageType.t) (rs : bool) (p : list Z) : list Z :=
  to_le 4 (12 + len p) ++ to_le 4 (bool_u32 rs)
    ++ to_le 4 (HostMessageType.to_i32 ty) ++ p.

Definition umac_payload_bytes (command : Z) (ids : InterfaceIds) (body : list Z) : list Z :=
  to_le 4 0 ++ to_le 4 0 ++ to_le 4 command ++ to_le 4 0
    ++ to_le 4 (valid_mask ids) ++ to_le 4 (default 0 (ids_ifaceindex ids))
    ++ to_le 4 (default 0 (ids_wiphy_index ids))
    ++ to_le 8 (default 0 (ids_wdev_id ids)) ++ body.

(** A whole UMAC command message. *)
Definition umac_message (command : Z) (ids : InterfaceIds) (body : list Z) : list Z :=
  host_message_bytes HostMessageType.Umac false (umac_payload_bytes command ids body).

(** The widths of the identifiers. *)
Definition ids_ok (ids : InterfaceIds) : Prop :=
  in_i 32 (default 0 (ids_ifaceindex ids)) /\
  in_i 32 (default 0 (ids_wiphy_index ids)) /\
  in_u 64 (default 0 (ids_wdev_id ids)).

(** ** Lemmas *)

Lemma with_writer_spec m bs out :
  writes m bs -> len bs <= len out -> len out <= USIZE_MAX ->
  with_writer (m;; gets Writer.len) out = (Ok (len bs), bs ++ drop (length bs) out).
Proof.
  intros Hw Hl Hs. unfold with_writer, zoom, Writer.new.
  pose proof (Hw [] (take (length bs) out) (drop (length bs) out)) as E.
  cbn [app] in E. rewrite take_drop, len_nil, Z.add_0_l in E.
  unfold mbind, M_bind. rewrite E; [done| |done].
  rewrite length_take. unfold len in *. lia.
Qed.

Lemma with_writer_unit m bs out :
  writes m bs -> len bs <= len out -> len out <= USIZE_MAX ->
  with_writer m out = (Ok tt, bs ++ drop (length bs) out).
Proof.
  intros Hw Hl Hs. pose proof (with_writer_spec m bs out Hw Hl Hs) as E.
  unfold with_writer, zoom, mbind, M_bind in *.
  destruct (m (Writer.new out)) as [[[]|e|] w]; cbn in *; [|congruence..].
  by injection E as _ ->.
Qed.

Lemma drop_all_len {A} n (l : list A) : len l <= Z.of_nat n -> drop n l = [].
Proof. intros. apply drop_ge. unfold len in *. lia. Qed.

Lemma run_local_writes m bs n :
  writes m bs -> len bs = n -> n <= USIZE_MAX ->
  run_local (zeros n) (with_writer m) = Ok (tt, bs).
Proof.
  intros Hw Hl Hs. pose proof (len_nonneg bs). unfold run_local.
  rewrite (with_writer_unit m bs) by (rewrite ?len_zeros by lia; done || lia).
  cbn. rewrite drop_all_len, app_nil_r; [done|]. rewrite len_zeros by lia.
  unfold len in *. lia.
Qed.

Lemma run_local_writes_len m bs n :
  writes m bs -> len bs = n -> n <= USIZE_MAX ->
  run_local (zeros n) (with_writer (m;; gets Writer.len)) = Ok (n, bs).
Proof.
  intros Hw Hl Hs. pose proof (len_nonneg bs). unfold run_local.
  rewrite (with_writer_spec m bs) by (rewrite ?len_zeros by lia; done || lia).
  cbn. rewrite Hl, drop_all_len, app_nil_r; [done|]. rewrite len_zeros by lia.
  unfold len in *. lia.
Qed.

(** The same on [&mut buf[..n]] of a larger zeroed buffer. *)
Lemma run_local_prefix {A} (m : M (list Z) ProtocolError.t A) a bs n N :
  run_local (zeros n) m = Ok (a, bs) -> 0 <= n <= N -> len bs = n ->
  run_local (zeros N) (on_prefix n m) = Ok (a, bs ++ zeros (N - n)).
Proof.
  intros Hm Hn Hl. unfold run_local, on_prefix in *.
  rewrite slice_in by (rewrite ?len_zeros by lia; lia).
  assert (take (Z.to_nat (n - 0)) (drop (Z.to_nat 0) (zeros N)) = zeros n) as ->.
  { change (Z.to_nat 0) with 0%nat. rewrite drop_0. unfold zeros. rewrite take_replicate. f_equal. lia. }
  assert (drop (Z.to_nat n) (zeros N) = zeros (N - n)) as ->.
  { unfold zeros. rewrite drop_replicate. f_equal. lia. }
  destruct (m (zeros n)) as [[x|e|] b]; cbn in *; congruence.
Qed.

Lemma subslice_prefix {E} (bs : list Z) rest n :
  len bs = n -> @subslice E (bs ++ rest) 0 n = Ok bs.
Proof.
  intros <-. apply (subslice_app [] bs rest); [done|]. by rewrite len_nil.
Qed.

(** *** Host messages *)

Lemma len_host_message_bytes ty rs p : len (host_message_bytes ty rs p) = 12 + len p.
Proof. unfold host_message_bytes. len_solve. Qed.
#[export] Hint Rewrite len_host_message_bytes : len.

Lemma validated_host_message_len_spec o p :
  0 <= p -> o <= USIZE_MAX ->
  validated_host_message_len o p
  = if 12 + p <=? o then Ok (12 + p)
    else if USIZE_MAX <? 12 + p then Err ProtocolError.InvalidLength
    else Err ProtocolError.BufferTooSmall.
Proof.
  intros. unfold validated_host_message_len, checked_add, ensure, HOST_MESSAGE_HEADER_LEN.
  unfold USIZE_MAX in *.
  repeat case_match; cbn; try lia; try done; repeat (case_match; cbn); try lia; done.
Qed.

Lemma encode_host_message_spec ty rs p out :
  12 + len p <= len out -> len out <= USIZE_MAX ->
  encode_host_message ty rs p out
  = (Ok (12 + len p), host_message_bytes ty rs p ++ drop (Z.to_nat (12 + len p)) out).
Proof.
  intros Hl Hs. pose proof (len_nonneg p). unfold encode_host_message.
  unfold mbind at 1, M_bind at 1, gets at 1. unfold mbind at 1, M_bind at 1, lift.
  rewrite validated_host_message_len_spec by lia.
  rewrite (proj2 (Z.leb_le _ _)) by lia.
  assert (u32 (12 + len p) = 12 + len p) as ->.
  { unfold u32. apply Z.mod_small. unfold USIZE_MAX in *. lia. }
  assert (writes (Writer.u32 (12 + len p);; Writer.u32 (bool_u32 rs);;
                  Writer.i32 (HostMessageType.to_i32 ty);; Writer.bytes p)
            (host_message_bytes ty rs p)) as Hw.
  { unfold host_message_bytes. eauto 10 with writes. }
  rewrite (with_writer_spec _ _ out Hw) by (rewrite ?len_host_message_bytes; lia).
  by rewrite (length_len (host_message_bytes _ _ _)), len_host_message_bytes.
Qed.

Lemma encode_host_message_small ty rs p out :
  len out < 12 + len p -> len out <= USIZE_MAX -> 12 + len p <= USIZE_MAX ->
  encode_host_message ty rs p out = (Err ProtocolError.BufferTooSmall, out).
Proof.
  intros Hl Hs Hp. pose proof (len_nonneg p). unfold encode_host_message.
  unfold mbind at 1, M_bind at 1, gets at 1. unfold mbind at 1, M_bind at 1, lift.
  rewrite validated_host_message_len_spec by lia.
  by rewrite (proj2 (Z.leb_gt _ _)), (proj2 (Z.ltb_ge _ _)) by lia.
Qed.

Lemma from_to_i32 ty :
  HostMessageType.from_i32 (HostMessageType.to_i32 ty) = Ok ty.
Proof. by destruct ty. Qed.

Lemma to_i32_in_i ty : in_i 32 (HostMessageType.to_i32 ty).
Proof. destruct ty; cbn; unfold in_i; lia. Qed.

Lemma parse_host_message_bytes ty rs p rest :
  12 + len p <= USIZE_MAX ->
  parse_host_message (host_message_bytes ty rs p ++ rest) = Ok (mkHostMessageRef rs ty p).
Proof.
  intros Hp. unfold parse_host_message, HOST_MESSAGE_HEADER_LEN.
  pose proof (len_nonneg p). pose proof (len_nonneg rest).
  rewrite len_app, len_host_message_bytes.
  destruct (_ <? _) eqn:?; [lia|].
  assert (@read_u32 ProtocolError.t (host_message_bytes ty rs p ++ rest) 0
          = Ok (12 + len p)) as ->.
  { unfold host_message_bytes. rewrite <-app_assoc. apply (read_u32_app []); [done|].
    unfold in_u, USIZE_MAX in *. lia. }
  cbn [mbind res_bind].
  destruct (_ || _) eqn:Hc; [apply orb_true_iff in Hc; lia|].
  assert (@read_u32 ProtocolError.t (host_message_bytes ty rs p ++ rest) 4
          = Ok (bool_u32 rs)) as ->.
  { unfold host_message_bytes. rewrite <-!app_assoc.
    apply read_u32_app; [len_solve|]. destruct rs; unfold in_u; cbn; lia. }
  cbn [mbind res_bind].
  assert (@read_i32 ProtocolError.t (host_message_bytes ty rs p ++ rest) 8
          = Ok (HostMessageType.to_i32 ty)) as ->.
  { unfold host_message_bytes. rewrite <-!app_assoc.
    rewrite (app_assoc (to_le 4 _)). apply read_i32_app; [len_solve|].
    apply to_i32_in_i. }
  cbn [mbind res_bind]. rewrite from_to_i32. cbn [mbind res_bind].
  assert (@subslice ProtocolError.t (host_message_bytes ty rs p ++ rest) 12 (12 + len p)
          = Ok p) as ->.
  { unfold host_message_bytes. rewrite <-!app_assoc.
    rewrite (app_assoc (to_le 4 _)), (app_assoc (to_le 4 _ ++ _)).
    apply subslice_app; len_solve. }
  cbn. destruct rs; done.
Qed.

(** *** UMAC commands *)

Lemma len_umac_payload_bytes c ids body :
  len (umac_payload_bytes c ids body) = 36 + len body.
Proof. unfold umac_payload_bytes. len_solve. Qed.
#[export] Hint Rewrite len_umac_payload_bytes : len.

Lemma len_umac_message c ids body : len (umac_message c ids body) = 48 + len body.
Proof. unfold umac_message. len_solve. Qed.
#[export] Hint Rewrite len_umac_message : len.

Lemma writes_umac_header c ids body :
  writes (write_umac_header c ids;; Writer.bytes body)
    (umac_payload_bytes (UmacCommand.to_u32 c) ids body).
Proof.
  eapply writes_ext;
    [unfold write_umac_header, InterfaceIds_encode; eauto 20 with writes|].
  unfold umac_payload_bytes. by rewrite <-!app_assoc.
Qed.

Lemma validated_umac_inner_len_spec n :
  0 <= n ->
  validated_umac_inner_len n
  = if n <=? 976 then Ok (36 + n)
    else if 36 + n <=? USIZE_MAX then Err ProtocolError.LimitExceeded
    else Err ProtocolError.InvalidLength.
Proof.
  intros. unfold validated_umac_inner_len, checked_add, ensure.
  unfold UMAC_HEADER_LEN, MAX_UMAC_INNER_LEN, MAX_CONTROL_MESSAGE_LEN,
    HOST_MESSAGE_HEADER_LEN, USIZE_MAX.
  repeat (case_match; cbn); try lia; done.
Qed.

(** A body that fits gives exactly the command's wire form at the start of
    the output; the rest of the output is untouched. *)
Lemma encode_umac_command_spec c ids body out :
  len body <= 976 -> 48 + len body <= len out -> len out <= USIZE_MAX ->
  encode_umac_command c ids body out
  = (Ok (48 + len body),
     umac_message (UmacCommand.to_u32 c) ids body ++ drop (Z.to_nat (48 + len body)) out).
Proof.
  intros Hb Hl Hs. pose proof (len_nonneg body). unfold encode_umac_command.
  unfold mbind at 1, M_bind at 1, lift at 1.
  rewrite validated_umac_inner_len_spec, (proj2 (Z.leb_le _ _)) by lia.
  unfold mbind at 1, M_bind at 1, lift at 1.
  pose proof (len_umac_payload_bytes (UmacCommand.to_u32 c) ids body) as Hlen.
  rewrite (run_local_prefix _ tt (umac_payload_bytes (UmacCommand.to_u32 c) ids body) (36 + len body)).
  2: { apply run_local_writes; [apply writes_umac_header|lia|unfold USIZE_MAX; lia]. }
  2: { unfold MAX_UMAC_INNER_LEN, MAX_CONTROL_MESSAGE_LEN, HOST_MESSAGE_HEADER_LEN. lia. }
  2: lia.
  unfold mbind at 1, M_bind at 1, lift at 1. cbn [snd].
  rewrite subslice_prefix by lia.
  rewrite encode_host_message_spec by lia. rewrite Hlen.
  by replace (12 + (36 + len body)) with (48 + len body) by lia.
Qed.

Lemma encode_umac_command_small c ids body out :
  len body <= 976 -> len out < 48 + len body ->
  encode_umac_command c ids body out = (Err ProtocolError.BufferTooSmall, out).
Proof.
  intros Hb Hl. pose proof (len_nonneg body). unfold encode_umac_command.
  unfold mbind at 1, M_bind at 1, lift at 1.
  rewrite validated_umac_inner_len_spec, (proj2 (Z.leb_le _ _)) by lia.
  unfold mbind at 1, M_bind at 1, lift at 1.
  pose proof (len_umac_payload_bytes (UmacCommand.to_u32 c) ids body) as Hlen.
  rewrite (run_local_prefix _ tt (umac_payload_bytes (UmacCommand.to_u32 c) ids body) (36 + len body)).
  2: { apply run_local_writes; [apply writes_umac_header|lia|unfold USIZE_MAX; lia]. }
  2: { unfold MAX_UMAC_INNER_LEN, MAX_CONTROL_MESSAGE_LEN, HOST_MESSAGE_HEADER_LEN. lia. }
  2: lia.
  unfold mbind at 1, M_bind at 1, lift at 1. cbn [snd].
  rewrite subslice_prefix by lia.
  rewrite encode_host_message_small; [done|unfold USIZE_MAX; lia..].
Qed.

Lemma valid_mask_in_u ids : in_u 32 (valid_mask ids).
Proof.
  unfold valid_mask, in_u.
  destruct (is_some _), (is_some _), (is_some _); (split; by vm_compute).
Qed.

(** The header the firmware reads back from a command. *)
Definition command_header (command : Z) (ids : InterfaceIds) : UmacHeader :=
  mkUmacHeader 0 0 command 0 (valid_mask ids) (default 0 (ids_ifaceindex ids))
    (default 0 (ids_wiphy_index ids)) (default 0 (ids_wdev_id ids)).

Lemma to_u32_in_u c : in_u 32 (UmacCommand.to_u32 c).
Proof. destruct c; cbn; unfold in_u; lia. Qed.

Lemma UmacHeader_parse_bytes c ids body :
  in_u 32 c -> ids_ok ids ->
  UmacHeader_parse (umac_payload_bytes c ids body) = Ok (command_header c ids).
Proof.
  intros Hc (Hi & Hw & Hd). unfold UmacHeader_parse, UMAC_HEADER_LEN.
  rewrite len_umac_payload_bytes. pose proof (len_nonneg body).
  destruct (_ <? _) eqn:?; [lia|]. unfold umac_payload_bytes.
  pose proof (valid_mask_in_u ids). read_fields. done.
Qed.

Lemma parse_umac_event_bytes c ids body rs :
  in_u 32 c -> ids_ok ids ->
  parse_umac_event
    (mkHostMessageRef rs HostMessageType.Umac (umac_payload_bytes c ids body))
  = Ok (command_header c ids, body).
Proof.
  intros Hc Hi. unfold parse_umac_event. cbn [message_type payload].
  rewrite decide_True by done. rewrite UmacHeader_parse_bytes by done.
  cbn [mbind res_bind]. rewrite len_umac_payload_bytes.
  unfold umac_payload_bytes, UMAC_HEADER_LEN.
  rewrite !app_assoc, subslice_suffix; [done|len_solve..].
Qed.

(** What the firmware decodes from a whole command message. *)
Lemma umac_message_decodes c ids body rest :
  in_u 32 c -> ids_ok ids -> len body <= 2000 ->
  (m ← parse_host_message (umac_message c ids body ++ rest); parse_umac_event m)
  = Ok (command_header c ids, body).
Proof.
  intros. unfold umac_message. rewrite parse_host_message_bytes.
  - cbn [mbind res_bind]. by apply parse_umac_event_bytes.
  - rewrite len_umac_payload_bytes. unfold USIZE_MAX. lia.
Qed.

Lemma wdev_ids_ok w : in_u 32 w -> ids_ok (wdev_ids w).
Proof. unfold ids_ok, in_i, in_u. cbn. lia. Qed.

(** *** The bodies of the individual commands *)

Definition new_interface_body (ty : InterfaceType.t) (mac name : list Z) : list Z :=
  to_le 4 14 ++ to_le 4 (InterfaceType.to_i32 ty) ++ to_le 4 0 ++ to_le 4 0
    ++ mac ++ name ++ zeros (16 - len name).

Definition deauthenticate_body (bssid : list Z) (reason : Z) (local : bool) : list Z :=
  to_le 4 1 ++ to_le 2 (bool_u16 local) ++ to_le 2 reason ++ bssid.

(** The directed SSID in slot [i]; an unused slot is empty. *)
Definition scan_ssid (request : ScanRequest) (i : Z) : list Z :=
  if i <? scan_ssid_count request then default [] (nthZ (scan_ssids request) i) else [].

Definition ssid_slot (s : list Z) : list Z :=
  [len s] ++ s ++ zeros (MAX_SSID_LEN - len s).

Definition scan_body (r : ScanRequest) : list Z :=
  to_le 4 (ScanReason.to_i32 (scan_reason r)) ++ to_le 2 (bool_u16 (scan_passive r))
    ++ [scan_ssid_count r] ++ ssid_slot (scan_ssid r 0) ++ ssid_slot (scan_ssid r 1)
    ++ [u8_from (scan_no_cck r)] ++ [scan_bands r]
    ++ to_le 2 (len (scan_information_elements r)) ++ scan_information_elements r
    ++ zeros (MAX_SCAN_IE_LEN - len (scan_information_elements r))
    ++ scan_mac_address r ++ to_le 2 (scan_active_dwell_ms r)
    ++ to_le 2 (scan_passive_dwell_ms r)
    ++ to_le 2 (len (scan_center_frequencies_mhz r))
    ++ [u8_from (scan_skip_local_admin_macs r)]
    ++ words_le (scan_center_frequencies_mhz r).

(** The Rust types of a scan request: a two-element SSID array, a [u8] count
    and a six-byte address. *)
Definition scan_typed (r : ScanRequest) : Prop :=
  length (scan_ssids r) = 2%nat /\ 0 <= scan_ssid_count r < 256
  /\ len (scan_mac_address r) = 6.

(** The limits [validate_scan_request] checks. *)
Definition scan_valid (r : ScanRequest) : Prop :=
  scan_ssid_count r <= 2 /\ len (scan_center_frequencies_mhz r) <= 64
  /\ len (scan_information_elements r) <= 400
  /\ (forall i, 0 <= i < scan_ssid_count r -> len (scan_ssid r i) <= 32).

Lemma len_zeros_sub n m : m <= n -> len (zeros (n - m)) = n - m.
Proof. intros. apply len_zeros. lia. Qed.

Lemma scan_typed_ssid r i :
  scan_typed r -> 0 <= i < 2 -> nthZ (scan_ssids r) i = Some (default [] (nthZ (scan_ssids r) i)).
Proof.
  intros (Hl & _) Hi. destruct (nthZ_in (scan_ssids r) i) as [x Hx].
  { unfold len. lia. }
  by rewrite Hx.
Qed.

Lemma scan_ssid_bound r i : scan_typed r -> scan_valid r -> 0 <= i < 2 -> len (scan_ssid r i) <= 32.
Proof.
  intros Ht (Hc & _ & _ & Hs) Hi. destruct (decide (i < scan_ssid_count r)).
  - apply Hs. lia.
  - unfold scan_ssid. rewrite (proj2 (Z.ltb_ge _ _)) by lia. by vm_compute.
Qed.

Lemma validate_scan_request_spec r :
  scan_typed r ->
  (validate_scan_request r = Ok tt /\ scan_valid r)
  \/ (validate_scan_request r = Err ProtocolError.LimitExceeded /\ ~ scan_valid r).
Proof.
  intros Ht. pose proof Ht as (Hl & Hc & _).
  unfold validate_scan_request, validate_scan_capacities, validate_scan_ssids,
    MAX_SCAN_SSIDS, MAX_SCAN_FREQUENCIES, MAX_SCAN_IE_LEN, MAX_SSID_LEN, ensure.
  destruct (2 <? scan_ssid_count r) eqn:E1; cbn.
  { right. split; [done|]. intros (? & _). lia. }
  destruct (64 <? len (scan_center_frequencies_mhz r)) eqn:E2; cbn.
  { right. split; [done|]. intros (_ & ? & _). lia. }
  destruct (400 <? len (scan_information_elements r)) eqn:E3; cbn.
  { right. split; [done|]. intros (_ & _ & ? & _). lia. }
  destruct (scan_ssids r) as [|s0 [|s1 [|]]] eqn:Es; try done.
  assert (0 < scan_ssid_count r -> scan_ssid r 0 = s0) as H0.
  { intros. unfold scan_ssid. by rewrite Es, (proj2 (Z.ltb_lt _ _)) by lia. }
  assert (1 < scan_ssid_count r -> scan_ssid r 1 = s1) as H1.
  { intros. unfold scan_ssid. by rewrite Es, (proj2 (Z.ltb_lt _ _)) by lia. }
  assert (scan_ssid_count r = 0 \/ scan_ssid_count r = 1 \/ scan_ssid_count r = 2)
    as [En|[En|En]] by lia; rewrite En in *;
    [ change (take _ _) with (@nil (list Z))
    | change (take _ _) with [s0] | change (take _ _) with [s0; s1] ]; cbn;
    (destruct (32 <? len s0) eqn:?; destruct (32 <? len s1) eqn:?); cbn;
    first
      [ left; split; [done|]; unfold scan_valid; rewrite En; split_and!; [lia..|];
        intros i Hr; assert (i = 0 \/ i = 1) as [-> | ->] by lia;
        rewrite ?H0, ?H1 by lia; lia
      | right; split; [done|]; unfold scan_valid; rewrite En; intros (_ & _ & _ & Hv);
        first [specialize (Hv 0 ltac:(lia)); rewrite H0 in Hv; lia
              |specialize (Hv 1 ltac:(lia)); rewrite H1 in Hv; lia] ].
Qed.

Lemma writes_ssid_slot r i :
  scan_typed r -> scan_valid r -> 0 <= i < 2 ->
  writes (ssid ← lift (if i <? scan_ssid_count r
                       then expect (nthZ (scan_ssids r) i) else Ok []);
          Writer.u8 (u8 (len ssid));;
          Writer.fixed ssid MAX_SSID_LEN) (ssid_slot (scan_ssid r i)).
Proof.
  intros Ht Hv Hi. pose proof (scan_ssid_bound r i Ht Hv Hi) as Hb.
  pose proof (len_nonneg (scan_ssid r i)).
  apply (writes_lift _ (scan_ssid r i)).
  - unfold scan_ssid. destruct (_ <? _); [|done]. by rewrite (scan_typed_ssid r i).
  - eapply writes_ext; [apply writes_bind; [apply writes_bytes|]|].
    + apply writes_fixed. unfold MAX_SSID_LEN. lia.
    + unfold ssid_slot, u8. by rewrite Z.mod_small by lia.
Qed.

Lemma writes_scan_body r :
  scan_typed r -> scan_valid r -> writes (write_scan_body r) (scan_body r).
Proof.
  intros Ht Hv. pose proof Hv as (_ & Hf & Hie & _).
  pose proof (len_nonneg (scan_center_frequencies_mhz r)).
  pose proof (len_nonneg (scan_information_elements r)).
  eapply writes_ext.
  - unfold write_scan_body, write_scan_header, write_scan_ssids, write_scan_options,
      write_scan_timing, write_scan_frequencies.
    change (seqZ 0 MAX_SCAN_SSIDS) with [0; 1]. cbn [for_each].
    repeat first
      [ apply writes_ssid_slot; [done..|lia]
      | apply writes_ret | apply writes_bytes
      | apply writes_fixed; unfold MAX_SCAN_IE_LEN; lia
      | apply (writes_for_each (to_le 4)); intros; apply writes_bytes
      | eapply writes_bind ].
  - unfold scan_body, words_le, u16. rewrite !(Z.mod_small _ (2 ^ 16)) by lia.
    by rewrite <-!app_assoc.
Qed.

Lemma len_ssid_slot s : len s <= 32 -> len (ssid_slot s) = 33.
Proof.
  intros. unfold ssid_slot, MAX_SSID_LEN. rewrite !len_app, len_zeros_sub by lia.
  rewrite len_cons, len_nil. lia.
Qed.

Lemma len_scan_body r :
  scan_typed r -> scan_valid r ->
  len (scan_body r) = 490 + 4 * len (scan_center_frequencies_mhz r).
Proof.
  intros Ht Hv. pose proof Hv as (_ & Hf & Hie & _). pose proof Ht as (_ & _ & Hm).
  unfold scan_body, MAX_SCAN_IE_LEN.
  rewrite !len_app, !len_ssid_slot by (apply scan_ssid_bound; done || lia).
  rewrite len_zeros_sub, len_words_le, !len_to_le, !len_cons, !len_nil by lia. lia.
Qed.

Lemma scan_body_len_spec n :
  0 <= n <= 64 -> scan_body_len n = Ok (490 + 4 * n).
Proof.
  intros. unfold scan_body_len, checked_mul, checked_add.
  rewrite (proj2 (Z.leb_le _ _)) by (unfold USIZE_MAX; lia). cbn [ok_or mbind res_bind].
  rewrite (proj2 (Z.leb_le _ _)) by (unfold USIZE_MAX; lia). cbn [ok_or mbind res_bind].
  unfold ensure, MAX_SCAN_BODY_LEN, MAX_UMAC_INNER_LEN, MAX_CONTROL_MESSAGE_LEN,
    HOST_MESSAGE_HEADER_LEN, UMAC_HEADER_LEN.
  rewrite (proj2 (Z.ltb_ge _ _)) by lia. cbn. f_equal. lia.
Qed.

Lemma encode_scan_spec w r out :
  scan_typed r -> scan_valid r ->
  let n := 538 + 4 * len (scan_center_frequencies_mhz r) in
  n <= len out -> len out <= USIZE_MAX ->
  encode_scan w r out
  = (Ok n, umac_message 0 (wdev_ids w) (scan_body r) ++ drop (Z.to_nat n) out).
Proof.
  intros Ht Hv n Hn Hs. pose proof Hv as (_ & Hf & _).
  pose proof (len_nonneg (scan_center_frequencies_mhz r)).
  pose proof (len_scan_body r Ht Hv) as Hl. unfold encode_scan.
  unfold mbind at 1, M_bind at 1, lift at 1.
  destruct (validate_scan_request_spec r Ht) as [[-> _]|[_ ?]]; [|done].
  unfold mbind at 1, M_bind at 1, lift at 1. rewrite scan_body_len_spec by lia.
  unfold mbind at 1, M_bind at 1, lift at 1.
  rewrite (run_local_prefix _ (490 + 4 * len (scan_center_frequencies_mhz r)) (scan_body r)).
  2: { apply run_local_writes_len; [by apply writes_scan_body|done|unfold USIZE_MAX; lia]. }
  2: { unfold MAX_SCAN_BODY_LEN, MAX_UMAC_INNER_LEN, MAX_CONTROL_MESSAGE_LEN,
         HOST_MESSAGE_HEADER_LEN, UMAC_HEADER_LEN. lia. }
  2: done.
  cbn [fst snd]. rewrite Z.eqb_refl. cbn [negb].
  unfold mbind at 1, M_bind at 1, lift at 1. rewrite subslice_prefix by done.
  rewrite encode_umac_command_spec by lia. rewrite Hl. unfold n.
  by replace (48 + (490 + 4 * len (scan_center_frequencies_mhz r)))
    with (538 + 4 * len (scan_center_frequencies_mhz r)) by lia.
Qed.

(** *** System initialization *)

Definition system_init_typed (c : SystemInitConfig) : Prop :=
  len (cfg_mac_address c) = 6 /\ len (cfg_rf_params c) = 200
  /\ len (cfg_country_code c) = 2 /\ length (cfg_rx_pools c) = 3%nat.

(** Fields 0 to 241 of the command, which hold the board identity, and what
    follows them. *)
Lemma writes_system_init_body c :
  system_init_typed c ->
  exists tail,
    let bs := to_le 4 0 ++ to_le 4 SYSTEM_INIT_LEN ++ to_le 4 (cfg_wdev_id c)
      ++ to_le 4 (cfg_sleep_enable c) ++ to_le 4 (cfg_hardware_bringup_time c)
      ++ to_le 4 (cfg_software_bringup_time c) ++ to_le 4 (cfg_beacon_timeout c)
      ++ to_le 4 (cfg_calibrate_sleep_clock c) ++ to_le 4 (cfg_phy_calibration_bitmap c)
      ++ cfg_mac_address c ++ cfg_rf_params c
      ++ [u8_from (cfg_rf_params_valid c)]
      ++ concat (map (fun p => to_le 2 (buffer_size p) ++ to_le 2 (buffer_count p))
                   (cfg_rx_pools c)) ++ tail in
    writes (write_system_init_body c) bs /\ len bs = SYSTEM_INIT_LEN.
Proof.
  intros (Hm & Hr & Hc & Hp).
  destruct (cfg_rx_pools c) as [|p0 [|p1 [|p2 [|]]]] eqn:Ep; try done.
  eexists. cbn zeta. split.
  - eapply writes_ext.
    + unfold write_system_init_body, write_system_init_front, write_system_init_middle,
        write_system_init_back, write_system_init_identity, write_system_init_timing,
        write_system_init_radio, write_system_init_rx_pools, write_system_init_data_rates,
        write_system_init_data_limits, write_system_init_temperature_calibration,
        write_system_init_environment_thresholds, write_system_init_network,
        write_system_init_power, write_system_init_scan_policy,
        write_system_init_coexistence.
      rewrite Ep. cbn [for_each].
      repeat first [apply writes_ret | apply writes_bytes | eapply writes_bind].
    + cbn [map concat]. rewrite <-!app_assoc, ?app_nil_l. reflexivity.
  - cbn [map concat]. rewrite !len_app, !len_to_le, !len_cons, !len_nil.
    unfold SYSTEM_INIT_LEN. lia.
Qed.

Lemma encode_system_init_spec c out :
  system_init_typed c -> validate c = Ok tt -> 378 <= len out -> len out <= USIZE_MAX ->
  exists tail,
    let body := to_le 4 0 ++ to_le 4 SYSTEM_INIT_LEN ++ to_le 4 (cfg_wdev_id c)
      ++ to_le 4 (cfg_sleep_enable c) ++ to_le 4 (cfg_hardware_bringup_time c)
      ++ to_le 4 (cfg_software_bringup_time c) ++ to_le 4 (cfg_beacon_timeout c)
      ++ to_le 4 (cfg_calibrate_sleep_clock c) ++ to_le 4 (cfg_phy_calibration_bitmap c)
      ++ cfg_mac_address c ++ cfg_rf_params c
      ++ [u8_from (cfg_rf_params_valid c)]
      ++ concat (map (fun p => to_le 2 (buffer_size p) ++ to_le 2 (buffer_count p))
                   (cfg_rx_pools c)) ++ tail in
    len body = SYSTEM_INIT_LEN /\
    encode_system_init c out
    = (Ok 378, host_message_bytes HostMessageType.System false body
                 ++ drop (Z.to_nat 378) out).
Proof.
  intros Ht Hv Hl Hs. destruct (writes_system_init_body c Ht) as [tail Hb].
  exists tail. cbn zeta in *. set (body := to_le 4 0 ++ _) in *.
  destruct Hb as [Hw Hlen]. split; [done|]. unfold encode_system_init.
  unfold mbind at 1, M_bind at 1, lift at 1. rewrite Hv.
  unfold mbind at 1, M_bind at 1, lift at 1.
  rewrite (run_local_writes_len _ body) by (done || unfold SYSTEM_INIT_LEN, USIZE_MAX; lia).
  cbn [fst snd]. rewrite Z.eqb_refl. cbn [negb].
  unfold SYSTEM_INIT_LEN in Hlen. rewrite encode_host_message_spec by lia.
  rewrite Hlen. done.
Qed.

(** *** The queue map *)

Definition hpq_bytes (q : Hpq) : list Z :=
  to_le 4 (enqueue_address q) ++ to_le 4 (dequeue_address q).
#[global] Arguments hpq_bytes : simpl never.
Definition hpq_ok (q : Hpq) : Prop :=
  in_u 32 (enqueue_address q) /\ in_u 32 (dequeue_address q).
Definition hpqm_queues (i : HpqmInfo) : list Hpq :=
  [event_busy i; event_available i; command_busy i; command_available i]
    ++ rx_buffer_busy i.
Definition hpqm_bytes (i : HpqmInfo) : list Z := concat (map hpq_bytes (hpqm_queues i)).

Lemma Reader_u32_app pre v post :
  in_u 32 v ->
  Reader.u32 (Reader.mk (pre ++ to_le 4 v ++ post) (len pre))
  = (Ok v, Reader.mk ((pre ++ to_le 4 v) ++ post) (len (pre ++ to_le 4 v))).
Proof.
  intros Hv. pose proof (from_le_to_le_id 4 v Hv) as E.
  pose proof (length_to_le 4 v) as L.
  destruct (to_le 4 v) as [|b0 [|b1 [|b2 [|b3 [|]]]]]; try done.
  unfold Reader.u32. munfold. cbn [Reader.position Reader.bytes].
  change (len pre + 4) with (len pre + len [b0; b1; b2; b3]).
  rewrite slice_mid. cbn [ok_or Reader.bytes].
  rewrite len_app, <-app_assoc, <-E. reflexivity.
Qed.

Lemma Reader_hpq_app pre q post :
  hpq_ok q ->
  Reader.hpq (Reader.mk (pre ++ hpq_bytes q ++ post) (len pre))
  = (Ok q, Reader.mk ((pre ++ hpq_bytes q) ++ post) (len (pre ++ hpq_bytes q))).
Proof.
  intros [H1 H2]. unfold Reader.hpq, hpq_bytes. rewrite <-!app_assoc.
  unfold mbind, M_bind. rewrite Reader_u32_app by done.
  rewrite <-!app_assoc, (app_assoc pre). rewrite Reader_u32_app by done.
  rewrite <-!app_assoc. by destruct q.
Qed.

Lemma len_hpqm_bytes i :
  length (rx_buffer_busy i) = 3%nat -> len (hpqm_bytes i) = 56.
Proof.
  by destruct i as [a b c d [|r0 [|r1 [|r2 [|]]]]].
Qed.

Lemma HpqmInfo_parse_bytes i rest :
  length (rx_buffer_busy i) = 3%nat -> Forall hpq_ok (hpqm_queues i) ->
  HpqmInfo_parse (hpqm_bytes i ++ rest) = Ok i.
Proof.
  intros Hl Hq. unfold HpqmInfo_parse, HPQM_INFO_LEN.
  rewrite len_app, len_hpqm_bytes by done. pose proof (len_nonneg rest).
  rewrite (proj2 (Z.ltb_ge _ _)) by lia.
  destruct i as [a b c d [|r0 [|r1 [|r2 [|]]]]]; try done.
  unfold hpqm_queues in Hq. cbn in Hq.
  repeat (apply Forall_cons_1 in Hq as [? Hq]).
  assert (hpqm_bytes (mkHpqmInfo a b c d [r0; r1; r2]) ++ rest
          = [] ++ hpq_bytes a ++ hpq_bytes b ++ hpq_bytes c ++ hpq_bytes d
              ++ hpq_bytes r0 ++ hpq_bytes r1 ++ hpq_bytes r2 ++ rest) as ->.
  { change (hpqm_bytes _)
      with (hpq_bytes a ++ hpq_bytes b ++ hpq_bytes c ++ hpq_bytes d
            ++ hpq_bytes r0 ++ hpq_bytes r1 ++ hpq_bytes r2 ++ []).
    rewrite <-!app_assoc. reflexivity. }
  unfold read_primary_queues, read_rx_queues, Reader.new.
  change (Reader.mk ?l 0) with (Reader.mk l (len (@nil Z))).
  unfold mbind, M_bind, mret, M_ret.
  do 7 (rewrite Reader_hpq_app by assumption; cbv beta iota zeta).
  reflexivity.
Qed.

(** The reader never panics, whatever the bytes. *)
Definition reads {A} (m : M Reader.t ProtocolError.t A) : Prop :=
  triple (fun _ => True) m (fun _ _ => True) (fun _ _ => True).

Lemma reads_bind {A B} (m : M Reader.t ProtocolError.t A) (f : A -> M Reader.t ProtocolError.t B) :
  reads m -> (forall a, reads (f a)) -> reads (m ≫= f).
Proof. intros Hm Hf. eapply triple_bind; [exact Hm|]. intros a. apply Hf. Qed.

Lemma reads_ret {A} (a : A) : reads (mret a).
Proof. by intros r _. Qed.

Lemma reads_u32 : reads Reader.u32.
Proof.
  intros [b p] _. unfold Reader.u32. munfold. cbn [Reader.bytes Reader.position].
  destruct (slice b p (p + 4)) as [s|] eqn:Hs; cbn [ok_or]; [|done].
  apply slice_len in Hs.
  destruct (@index_in ProtocolError.t s 0) as [? ->]; [lia|].
  destruct (@index_in ProtocolError.t s 1) as [? ->]; [lia|].
  destruct (@index_in ProtocolError.t s 2) as [? ->]; [lia|].
  by destruct (@index_in ProtocolError.t s 3) as [? ->]; [lia|].
Qed.

Lemma reads_hpq : reads Reader.hpq.
Proof. repeat (apply reads_bind; [apply reads_u32|intros ?]). apply reads_ret. Qed.

Lemma HpqmInfo_parse_no_panic bytes : HpqmInfo_parse bytes <> Panic.
Proof.
  unfold HpqmInfo_parse. destruct (_ <? _); [done|].
  set (m := mbind _ _). assert (reads m) as Hm.
  { apply reads_bind.
    - repeat (apply reads_bind; [apply reads_hpq|intros ?]). apply reads_ret.
    - intros [[[? ?] ?] ?]. apply reads_bind; [|intros; apply reads_ret].
      repeat (apply reads_bind; [apply reads_hpq|intros ?]). apply reads_ret. }
  specialize (Hm (Reader.new bytes) I).
  by destruct (m (Reader.new bytes)) as [[a|e|] s].
Qed.

(** *** Parsing arbitrary input *)

(** Exactly when a host message parses, and what is returned: the payload is
    the declared part of the buffer, whatever follows it. *)
Lemma parse_host_message_spec bytes :
  bytes_ok bytes ->
  outcomes
    (fun m => exists declared,
       12 <= declared <= len bytes
       /\ @read_u32 ProtocolError.t bytes 0 = Ok declared
       /\ slice bytes 12 declared = Some (payload m)
       /\ len (payload m) = declared - 12)
    (fun e => e = ProtocolError.InvalidLength
              \/ exists v, e = ProtocolError.InvalidValue v /\ 4 <= v < 2 ^ 32)
    (parse_host_message bytes).
Proof.
  intros Hb. unfold parse_host_message, HOST_MESSAGE_HEADER_LEN.
  destruct (len bytes <? 12) eqn:?; [cbn; auto|].
  destruct (@read_u32_range ProtocolError.t bytes 0) as (d & Hd & Hdr); [done|lia|lia|].
  rewrite Hd. cbn [mbind res_bind].
  destruct (_ || _) eqn:Hc; [cbn; auto|]. apply orb_false_iff in Hc as [? ?].
  destruct (@read_u32_range ProtocolError.t bytes 4) as (r & -> & _); [done|lia|lia|].
  destruct (@read_i32_range ProtocolError.t bytes 8) as (t & -> & Ht); [done|lia|lia|].
  cbn [mbind res_bind]. unfold HostMessageType.from_i32.
  assert (@subslice ProtocolError.t bytes 12 d
          = Ok (take (Z.to_nat (d - 12)) (drop (Z.to_nat 12) bytes))) as Hsl.
  { unfold subslice. rewrite slice_in by lia. done. }
  pose proof (slice_in bytes 12 d ltac:(lia) ltac:(lia)) as Hsi.
  pose proof (slice_len _ _ _ _ Hsi) as Hsl'.
  destruct (t =? 0) eqn:?; [|destruct (t =? 1) eqn:?;
    [|destruct (t =? 2) eqn:?; [|destruct (t =? 3) eqn:?]]].
  1-4: cbn [mbind res_bind]; rewrite Hsl; cbn [mbind res_bind outcomes payload];
    exists d; split_and!; first [lia|done].
  cbn. right. exists (u32 t). split; [done|]. unfold u32.
  pose proof (Z.mod_pos_bound t (2 ^ 32) ltac:(lia)).
  unfold in_i in Ht. destruct (Z_lt_le_dec t 0).
  - rewrite <-(Z.mod_add t 1), Z.mod_small by lia. lia.
  - rewrite Z.mod_small by lia. lia.
Qed.

Lemma UmacHeader_parse_spec bytes :
  bytes_ok bytes ->
  outcomes (fun h => in_u 32 (command_event h) /\ 36 <= len bytes)
    (fun e => e = ProtocolError.InvalidLength) (UmacHeader_parse bytes).
Proof.
  intros Hb. unfold UmacHeader_parse, UMAC_HEADER_LEN.
  destruct (len bytes <? 36) eqn:?; [done|]. reads_ok. cbn. split; [done|lia].
Qed.

Lemma parse_umac_event_spec m :
  bytes_ok (payload m) ->
  outcomes (fun hb => slice (payload m) 36 (len (payload m)) = Some hb.2 /\ bytes_ok hb.2)
    (fun e => e = ProtocolError.InvalidLength \/ e = ProtocolError.WrongMessageType)
    (parse_umac_event m).
Proof.
  intros Hb. unfold parse_umac_event. case_decide; [|cbn; auto].
  eapply outcomes_bind.
  - eapply outcomes_impl; [by apply UmacHeader_parse_spec|intros h H'; exact H'|cbn; auto].
  - intros h [_ Hl]. unfold subslice, UMAC_HEADER_LEN. rewrite slice_in by lia.
    cbn. split; [done|]. by apply Forall_take, Forall_drop.
Qed.

(** * Properties *)

(** a host message that fits the output buffer is written at its start,
    the bytes after it are untouched, and [parse_host_message] on that buffer
    returns the type, the resubmit flag and the payload that were encoded. *)
Theorem host_message_round_trip ty rs p out :
  12 + len p <= len out -> len out <= USIZE_MAX ->
  exists out',
    encode_host_message ty rs p out = (Ok (12 + len p), out')
    /\ drop (Z.to_nat (12 + len p)) out' = drop (Z.to_nat (12 + len p)) out
    /\ parse_host_message out' = Ok (mkHostMessageRef rs ty p).
Proof.
  intros Hl Hs. eexists. rewrite encode_host_message_spec by done.
  split; [done|]. split.
  - rewrite drop_app_length'; [done|].
    by rewrite (length_len (host_message_bytes _ _ _)), len_host_message_bytes.
  - apply parse_host_message_bytes. lia.
Qed.

Example host_message_round_trip_witness :
  exists out',
    encode_host_message HostMessageType.Data true [7; 8; 9] (zeros 20) = (Ok 15, out')
    /\ drop 15 out' = drop 15 (zeros 20)
    /\ parse_host_message out' = Ok (mkHostMessageRef true HostMessageType.Data [7; 8; 9]).
Proof.
  apply (host_message_round_trip HostMessageType.Data true [7; 8; 9] (zeros 20));
    by vm_compute.
Defined.

(** [parse_host_message] on any buffer never panics; it returns a message
    exactly for a declared length between 12 and the buffer length and a known
    type, with the payload equal to bytes 12..declared; every other input is
    [InvalidLength] or [InvalidValue] with the offending type number. *)
Theorem parse_host_message_total bytes :
  bytes_ok bytes ->
  outcomes
    (fun m => exists declared,
       12 <= declared <= len bytes
       /\ @read_u32 ProtocolError.t bytes 0 = Ok declared
       /\ slice bytes 12 declared = Some (payload m)
       /\ len (payload m) = declared - 12)
    (fun e => e = ProtocolError.InvalidLength
              \/ exists v, e = ProtocolError.InvalidValue v /\ 4 <= v < 2 ^ 32)
    (parse_host_message bytes).
Proof. apply parse_host_message_spec. Qed.

Example parse_host_message_total_witness :
  outcomes
    (fun m => exists declared,
       12 <= declared <= 14
       /\ @read_u32 ProtocolError.t [13;0;0;0; 1;0;0;0; 2;0;0;0; 77; 99] 0 = Ok declared
       /\ slice [13;0;0;0; 1;0;0;0; 2;0;0;0; 77; 99] 12 declared = Some (payload m)
       /\ len (payload m) = declared - 12)
    (fun e => e = ProtocolError.InvalidLength
              \/ exists v, e = ProtocolError.InvalidValue v /\ 4 <= v < 2 ^ 32)
    (parse_host_message [13;0;0;0; 1;0;0;0; 2;0;0;0; 77; 99]).
Proof.
  apply (parse_host_message_total [13;0;0;0; 1;0;0;0; 2;0;0;0; 77; 99]).
  repeat constructor; by vm_compute.
Defined.

(** a UMAC command whose body fits is encoded so that parsing the message
    and then the UMAC header gives back the command number, a zero result, the
    interface identifiers with their validity mask, and the body; a body over
    976 bytes is refused and a short output buffer is left unchanged. *)
Theorem umac_command_round_trip command ids body out :
  ids_ok ids -> len out <= USIZE_MAX -> len body <= USIZE_MAX - 36 ->
  match encode_umac_command command ids body out with
  | (Ok n, out') =>
      n = 48 + len body /\ len out' = len out
      /\ (m ← parse_host_message out'; parse_umac_event m)
         = Ok (command_header (UmacCommand.to_u32 command) ids, body)
  | (Err e, out') =>
      out' = out
      /\ (e = ProtocolError.LimitExceeded /\ 976 < len body
          \/ e = ProtocolError.BufferTooSmall /\ len out < 48 + len body)
  | (Panic, _) => False
  end.
Proof.
  intros Hi Ho Hb. pose proof (len_nonneg body).
  destruct (Z_le_gt_dec (len body) 976).
  - destruct (Z_le_gt_dec (48 + len body) (len out)).
    + rewrite encode_umac_command_spec by lia. split; [done|]. split.
      * rewrite len_app, len_umac_message, len_drop. lia.
      * apply umac_message_decodes; [apply to_u32_in_u|done|lia].
    + rewrite encode_umac_command_small by lia. split; [done|]. right. split; [done|lia].
  - unfold encode_umac_command, mbind at 1, M_bind at 1, lift at 1.
    rewrite validated_umac_inner_len_spec, (proj2 (Z.leb_gt _ _)) by lia.
    rewrite (proj2 (Z.leb_le _ _)) by (unfold USIZE_MAX in *; lia).
    split; [done|]. left. split; [done|lia].
Qed.

Example umac_command_round_trip_witness :
  match encode_umac_command UmacCommand.SetKey (wdev_ids 3) [1; 2] (zeros 60) with
  | (Ok n, out') =>
      n = 50 /\ len out' = 60
      /\ (m ← parse_host_message out'; parse_umac_event m)
         = Ok (command_header 8 (wdev_ids 3), [1; 2])
  | (Err e, out') =>
      out' = zeros 60
      /\ (e = ProtocolError.LimitExceeded /\ 976 < 2
          \/ e = ProtocolError.BufferTooSmall /\ 60 < 50)
  | (Panic, _) => False
  end.
Proof.
  apply (umac_command_round_trip UmacCommand.SetKey (wdev_ids 3) [1; 2] (zeros 60));
    [apply wdev_ids_ok; split|..]; by vm_compute.
Defined.

(** a scan request is encoded exactly when its SSID count, SSID lengths,
    frequency count and information elements are within the wire limits, and
    then as the packed 490-byte parameter block followed by the frequencies;
    otherwise the result is [LimitExceeded] and nothing is written. *)
Theorem encode_scan_correct w r out :
  scan_typed r -> 794 <= len out -> len out <= USIZE_MAX ->
  let n := 538 + 4 * len (scan_center_frequencies_mhz r) in
  (scan_valid r
   /\ encode_scan w r out
      = (Ok n, umac_message 0 (wdev_ids w) (scan_body r) ++ drop (Z.to_nat n) out)
   /\ len (scan_body r) = n - 48)
  \/ (~ scan_valid r /\ encode_scan w r out = (Err ProtocolError.LimitExceeded, out)).
Proof.
  intros Ht Hl Hs n.
  destruct (validate_scan_request_spec r Ht) as [[Hr Hv]|[Hr Hv]].
  - left. pose proof Hv as (_ & Hf & _). split; [done|]. split.
    + apply encode_scan_spec; [done..|lia|done].
    + rewrite len_scan_body by done. lia.
  - right. split; [done|]. unfold encode_scan, mbind at 1, M_bind at 1, lift at 1.
    by rewrite Hr.
Qed.

Example encode_scan_correct_witness :
  scan_typed all_bands /\
  ((scan_valid all_bands
    /\ encode_scan 0 all_bands (zeros 1024)
       = (Ok 538, umac_message 0 (wdev_ids 0) (scan_body all_bands)
                    ++ drop (Z.to_nat 538) (zeros 1024))
    /\ len (scan_body all_bands) = 490)
   \/ (~ scan_valid all_bands
       /\ encode_scan 0 all_bands (zeros 1024)
          = (Err ProtocolError.LimitExceeded, zeros 1024))).
Proof.
  assert (scan_typed all_bands) as Ht by (split_and!; by vm_compute).
  split; [exact Ht|].
  apply (encode_scan_correct 0 all_bands (zeros 1024) Ht); by vm_compute.
Defined.

(** for a valid configuration the system-init command is the 378-byte
    system message with the 366-byte body whose identity block, MAC address,
    RF parameters and pool table sit at the offsets of the pinned interface;
    the length check after encoding can never fail. *)
Theorem encode_system_init_layout c out :
  system_init_typed c -> validate c = Ok tt -> 378 <= len out -> len out <= USIZE_MAX ->
  exists body out',
    encode_system_init c out = (Ok 378, out')
    /\ parse_host_message out' = Ok (mkHostMessageRef false HostMessageType.System body)
    /\ len body = 366
    /\ @subslice ProtocolError.t body 36 42 = Ok (cfg_mac_address c)
    /\ @subslice ProtocolError.t body 42 242 = Ok (cfg_rf_params c)
    /\ @subslice ProtocolError.t body 243 255
       = Ok (concat (map (fun p => to_le 2 (buffer_size p) ++ to_le 2 (buffer_count p))
                       (cfg_rx_pools c))).
Proof.
  intros Ht Hv Hl Hs.
  destruct (encode_system_init_spec c out Ht Hv Hl Hs) as (tail & Hlen & Henc).
  cbn zeta in *. do 2 eexists. rewrite Henc. split; [done|].
  destruct Ht as (Hm & Hr & _ & Hp).
  assert (len (concat (map (fun p => to_le 2 (buffer_size p) ++ to_le 2 (buffer_count p))
            (cfg_rx_pools c))) = 12) as Hpool.
  { by destruct (cfg_rx_pools c) as [|p0 [|p1 [|p2 [|]]]]. }
  rewrite parse_host_message_bytes by (rewrite Hlen; by vm_compute).
  split; [done|]. split; [done|].
  split_and!;
    repeat rewrite subslice_skip by (rewrite ?len_to_le, ?Hm, ?Hr, ?len_cons, ?len_nil; lia);
    apply subslice_here; rewrite ?len_to_le, ?Hm, ?Hr, ?Hpool, ?len_cons; change (len (@nil Z)) with 0; lia.
Qed.

Example encode_system_init_layout_witness :
  exists body out',
    encode_system_init (SystemInitConfig_new [2; 0; 0; 0; 0; 1] (zeros 200)) (zeros 378)
    = (Ok 378, out')
    /\ parse_host_message out' = Ok (mkHostMessageRef false HostMessageType.System body)
    /\ len body = 366
    /\ @subslice ProtocolError.t body 36 42 = Ok [2; 0; 0; 0; 0; 1]
    /\ @subslice ProtocolError.t body 42 242 = Ok (zeros 200)
    /\ @subslice ProtocolError.t body 243 255 = Ok [64; 6; 8; 0; 0; 0; 0; 0; 0; 0; 0; 0].
Proof.
  apply (encode_system_init_layout
           (SystemInitConfig_new [2; 0; 0; 0; 0; 1] (zeros 200)) (zeros 378));
    [split_and!; by vm_compute|by vm_compute..].
Defined.

(** the queue map the firmware publishes is decoded field by field from
    its 56 packed bytes, whatever follows them, and a shorter block is
    [InvalidLength]. *)
Theorem queue_map_round_trip :
  (forall i rest, length (rx_buffer_busy i) = 3%nat -> Forall hpq_ok (hpqm_queues i) ->
     HpqmInfo_parse (hpqm_bytes i ++ rest) = Ok i)
  /\ (forall bytes, len bytes < 56 -> HpqmInfo_parse bytes = Err ProtocolError.InvalidLength).
Proof.
  split; [apply HpqmInfo_parse_bytes|]. intros bytes Hb.
  unfold HpqmInfo_parse, HPQM_INFO_LEN. by rewrite (proj2 (Z.ltb_lt _ _)).
Qed.

(** [SystemInitConfig::validate] does not bound the receive-pool bytes: the
    [u32] sum wraps in a release build, so two pools of more than 4 GiB in
    total pass the 128 KiB check and the command is encoded. *)
Theorem validate_pool_sum_wraps :
  exists c,
    system_init_typed c
    /\ Forall (fun p => in_u 16 (buffer_size p) /\ in_u 16 (buffer_count p)) (cfg_rx_pools c)
    /\ 128 * 1024
       < foldr Z.add 0 (map (fun p => buffer_size p * buffer_count p) (cfg_rx_pools c))
    /\ validate c = Ok tt.
Proof.
  exists (let c := SystemInitConfig_new (zeros 6) (zeros 200) in
          mkSystemInitConfig (cfg_wdev_id c) 0 0 0 0 0 0 (zeros 6) (zeros 200) true
            [mkRxPoolConfig 65535 65535; mkRxPoolConfig 65535 3; mkRxPoolConfig 0 0]
            (cfg_data c) (cfg_temperature_battery c) false [48; 48] 0 true 0 false 0 1 0
            false 0 0 0 false 0 0 0 0 0 0 false).
  split_and!; [by vm_compute..| |by vm_compute|by vm_compute].
  cbn [cfg_rx_pools]. repeat (apply Forall_cons_2; [unfold in_u; cbn; lia|]).
  by apply Forall_nil.
Qed.
