(* ===== verification/Control.v ===== *)
(** * Control: station command encoders and event parser (src/src/control.rs)

    Every encoder goes through [encode_umac], which writes headers and body
    directly into the caller's storage and checks the final length. *)

From S2P Require Import Prelude Codec Protocol.

Definition MAX_STATION_MESSAGE_LEN : Z := 2048.
Definition MAX_KEY_LEN : Z := 256.
Definition MAX_KEY_SEQUENCE_LEN : Z := 256.
Definition MAX_IE_LEN : Z := 400.
Definition MAX_SAE_LEN : Z := 256.
Definition MAX_PAIRWISE_CIPHERS : Z := 7.
Definition MAX_AKM_SUITES : Z := 2.
Definition RSN_CIPHER_CCMP_128 : Z := 0x000fac04.
Definition RSN_CIPHER_GCMP_128 : Z := 0x000fac08.
Definition RSN_CIPHER_BIP_CMAC_128 : Z := 0x000fac06.
Definition RSN_AKM_PSK : Z := 0x000fac02.
Definition RSN_AKM_SAE : Z := 0x000fac08.
Definition RSN_AKM_PSK_SHA256 : Z := 0x000fac06.
Definition EAPOL_ETHERTYPE : Z := 0x888e.
Definition HOST_HEADER_LEN : Z := 12.
Definition KEY_INFO_LEN : Z := 535.
Definition AUTH_INFO_LEN : Z := 1672.
Definition AUTH_BODY_LEN : Z := 4 + AUTH_INFO_LEN.
Definition CONNECT_COMMON_INFO_LEN : Z := 1563.
Definition ASSOC_BODY_LEN : Z := 4 + CONNECT_COMMON_INFO_LEN + 6.
Definition AUTH_MESSAGE_LEN : Z := HOST_HEADER_LEN + UMAC_HEADER_LEN + AUTH_BODY_LEN.
Definition ASSOC_MESSAGE_LEN : Z := HOST_HEADER_LEN + UMAC_HEADER_LEN + ASSOC_BODY_LEN.
Definition KEY_MESSAGE_LEN : Z := HOST_HEADER_LEN + UMAC_HEADER_LEN + 4 + KEY_INFO_LEN + 6.
Definition MLME_FIXED_BODY_LEN : Z := 439.
Definition SCAN_RESULT_FIXED_BODY_LEN : Z := 70.
Definition CHANGE_STATION_INFO_LEN : Z := 789.

Definition INDEX_WDEV_VALID : Z := bit 0.
Definition AUTH_KEY_INFO_VALID : Z := bit 0.
Definition AUTH_FREQUENCY_VALID : Z := bit 2.
Definition AUTH_SSID_VALID : Z := bit 3.
Definition AUTH_SAE_VALID : Z := bit 5.
Definition AUTH_LOCAL_STATE_CHANGE : Z := bit 0.
Definition ASSOC_PREVIOUS_BSSID_VALID : Z := bit 0.
Definition CONNECT_MAC_VALID : Z := bit 0.
Definition CONNECT_FREQUENCY_VALID : Z := bit 2.
Definition CONNECT_BG_SCAN_VALID : Z := bit 4.
Definition CONNECT_SSID_VALID : Z := bit 5.
Definition CONNECT_WPA_IE_VALID : Z := bit 6.
Definition CONNECT_WPA_VERSIONS_VALID : Z := bit 7.
Definition CONNECT_PAIRWISE_VALID : Z := bit 8.
Definition CONNECT_GROUP_VALID : Z := bit 9.
Definition CONNECT_AKM_VALID : Z := bit 10.
Definition CONNECT_MFP_VALID : Z := bit 11.
Definition CONNECT_CONTROL_PORT_ETHERTYPE_VALID : Z := bit 12.
Definition CONNECT_CONTROL_PORT_NO_ENCRYPT_VALID : Z := bit 13.
Definition CONNECT_PREVIOUS_BSSID_VALID : Z := bit 15.
Definition CONNECT_SECURITY_VALID : Z := bit 16.
Definition WPA_VERSION_2 : Z := bit 1.
Definition KEY_DATA_VALID : Z := bit 0.
Definition KEY_TYPE_VALID : Z := bit 1.
Definition KEY_INDEX_VALID : Z := bit 2.
Definition KEY_SEQUENCE_VALID : Z := bit 3.
Definition KEY_CIPHER_VALID : Z := bit 4.
Definition KEY_MAC_VALID : Z := bit 0.
Definition SET_STATION_FLAGS_VALID : Z := bit 12.
Definition STATION_FLAG_AUTHORIZED : Z := bit 1.
Definition EVENT_REGULATORY_CHANGE : Z := 289.

(** ** Command inputs *)

Module AuthenticationType.
Inductive t : Type :=
  | OpenSystem | SharedKey | FastTransition | NetworkEap | Sae | Automatic.
Definition to_i32 (x : t) : Z :=
  match x with
  | OpenSystem => 0 | SharedKey => 1 | FastTransition => 2
  | NetworkEap => 3 | Sae => 4 | Automatic => 6
  end.
End AuthenticationType.

Module KeyType.
Inductive t : Type := Group | Pairwise | Peer.
Definition to_i32 (x : t) : Z :=
  match x with Group => 0 | Pairwise => 1 | Peer => 2 end.
End KeyType.

Module MfpMode.
Inductive t : Type := Disabled | Required.
Definition to_i32 (x : t) : Z :=
  match x with Disabled => 0 | Required => 1 end.
End MfpMode.

Module PowerSaveState.
Inductive t : Type := Disabled | Enabled.
Definition to_i32 (x : t) : Z :=
  match x with Disabled => 0 | Enabled => 1 end.
End PowerSaveState.

Record KeyConfig : Type := mkKeyConfig {
  cipher_suite : Z;
  key_type : KeyType.t;
  key_index : Z;
  key_bytes : list Z;
  key_sequence : list Z;
  key_flags : Z }.

(** [KeyConfig::pairwise] *)
Definition KeyConfig_pairwise (cipher_suite key_index : Z) (key : list Z) : KeyConfig :=
  mkKeyConfig cipher_suite KeyType.Pairwise key_index key [] 0.

Record BssContext : Type := mkBssContext {
  bss_scan_width : Z;
  bss_signal_dbm : Z;
  bss_from_beacon : bool;
  bss_information_elements : list Z;
  bss_capability : Z;
  bss_beacon_interval : Z;
  bss_tsf : Z }.

(** [BssContext::default] *)
Definition BssContext_default : BssContext := mkBssContext 0 0 false [] 0 0 0.

Record AuthenticationRequest : Type := mkAuthenticationRequest {
  auth_frequency_mhz : Z;
  auth_bssid : list Z;
  auth_ssid : list Z;
  auth_type : AuthenticationType.t;
  auth_local_state_change : bool;
  auth_information_elements : list Z;
  auth_sae_data : list Z;
  auth_key : option KeyConfig;
  auth_bss : BssContext }.

Record AssociationSecurity : Type := mkAssociationSecurity {
  pairwise_ciphers : list Z;
  group_cipher : Z;
  akm_suites : list Z;
  mfp : MfpMode.t;
  rsn_information_element : list Z }.

Record AssociationRequest : Type := mkAssociationRequest {
  assoc_frequency_mhz : Z;
  assoc_bssid : list Z;
  assoc_ssid : list Z;
  security : option AssociationSecurity;
  background_scan_period_s : Z;
  previous_bssid : option (list Z);
  bss_max_idle_s : Z }.

(** ** Framing *)

Definition require_len (bytes : list Z) (n : Z) : res ProtocolError.t unit :=
  if len bytes <? n then Err ProtocolError.InvalidLength else Ok tt.

Definition validate_ssid (ssid : list Z) : res ProtocolError.t unit :=
  if 32 <? len ssid then Err ProtocolError.LimitExceeded else Ok tt.

Definition validate_ie (ie : list Z) : res ProtocolError.t unit :=
  if MAX_IE_LEN <? len ie then Err ProtocolError.LimitExceeded else Ok tt.

Definition validate_key (key : KeyConfig) : res ProtocolError.t unit :=
  ensure (negb (MAX_KEY_LEN <? len (key_bytes key))) ProtocolError.LimitExceeded;;
  ensure (negb (MAX_KEY_SEQUENCE_LEN <? len (key_sequence key))) ProtocolError.LimitExceeded;;
  ensure (negb (3 <? key_index key)) ProtocolError.LimitExceeded.

Definition validated_station_message_len (out_len body_len : Z) : res ProtocolError.t Z :=
  total ← ok_or (headers ← checked_add HOST_HEADER_LEN UMAC_HEADER_LEN;
                 checked_add headers body_len)
            ProtocolError.InvalidLength;
  ensure (negb (out_len <? total)) ProtocolError.BufferTooSmall;;
  ensure (negb (MAX_STATION_MESSAGE_LEN <? total)) ProtocolError.BufferTooSmall;;
  Ok total.

Definition write_station_host_header (total : Z) : M Writer.t ProtocolError.t unit :=
  Writer.u32 (u32 total);;
  Writer.u32 0;;
  Writer.i32 (HostMessageType.to_i32 HostMessageType.Umac).

Definition write_station_command_header (command : UmacCommand.t)
    : M Writer.t ProtocolError.t unit :=
  Writer.u32 0;;
  Writer.u32 0;;
  Writer.u32 (UmacCommand.to_u32 command);;
  Writer.i32 0.

Definition write_station_index_header (wdev_id : option Z) : M Writer.t ProtocolError.t unit :=
  Writer.u32 (if is_some wdev_id then INDEX_WDEV_VALID else 0);;
  Writer.i32 0;;
  Writer.i32 0;;
  Writer.u64 (default 0 wdev_id).

Definition write_station_headers (total : Z) (command : UmacCommand.t)
    (wdev_id : option Z) : M Writer.t ProtocolError.t unit :=
  write_station_host_header total;;
  write_station_command_header command;;
  write_station_index_header wdev_id.

Definition encode_umac (command : UmacCommand.t) (wdev_id : option Z) (body_len : Z)
    (encode_body : M Writer.t ProtocolError.t unit) : M (list Z) ProtocolError.t Z :=
  out_len ← gets len;
  total ← lift (validated_station_message_len out_len body_len);
  written ← on_prefix total
              (with_writer
                 ((write_station_headers total command wdev_id;;
                   encode_body);;
                  gets Writer.len));
  if negb (written =? total) then throw ProtocolError.InvalidLength
  else mret total.

(** [Writer::ssid] and [Writer::ie] *)
Definition writer_ssid (value : list Z) : M Writer.t ProtocolError.t unit :=
  lift (validate_ssid value);;
  Writer.u8 (u8 (len value));;
  Writer.fixed value 32.

Definition writer_ie (value : list Z) : M Writer.t ProtocolError.t unit :=
  lift (validate_ie value);;
  Writer.u16 (u16 (len value));;
  Writer.fixed value MAX_IE_LEN.

(** ** Keys *)

Definition write_key_info_header (key : KeyConfig) (valid : Z)
    : M Writer.t ProtocolError.t unit :=
  Writer.u32 valid;;
  Writer.u32 (cipher_suite key);;
  Writer.u16 (key_flags key);;
  Writer.i32 (KeyType.to_i32 (key_type key)).

Definition write_key_info_material (key : KeyConfig) : M Writer.t ProtocolError.t unit :=
  Writer.u32 (u32 (len (key_bytes key)));;
  Writer.fixed (key_bytes key) MAX_KEY_LEN;;
  Writer.i32 (len (key_sequence key));;
  Writer.fixed (key_sequence key) MAX_KEY_SEQUENCE_LEN;;
  Writer.u8 (key_index key).

Definition is_empty (l : list Z) : bool := match l with [] => true | _ => false end.

Definition key_valid_fields (key : KeyConfig) : Z :=
  let valid := Z.lor (Z.lor KEY_TYPE_VALID KEY_INDEX_VALID) KEY_CIPHER_VALID in
  let valid := if negb (is_empty (key_bytes key)) then Z.lor valid KEY_DATA_VALID else valid in
  let valid := if negb (is_empty (key_sequence key))
               then Z.lor valid KEY_SEQUENCE_VALID else valid in
  valid.

Definition write_key_info (key : option KeyConfig) : M Writer.t ProtocolError.t unit :=
  match key with
  | None => Writer.zeros KEY_INFO_LEN
  | Some key =>
      write_key_info_header key (key_valid_fields key);;
      write_key_info_material key
  end.

Definition write_default_key_header (key : KeyConfig) : M Writer.t ProtocolError.t unit :=
  Writer.u32 KEY_INDEX_VALID;;
  Writer.u32 0;;
  Writer.u16 (key_flags key);;
  Writer.i32 0.

Definition write_default_key_material (key : KeyConfig) : M Writer.t ProtocolError.t unit :=
  Writer.u32 0;;
  Writer.zeros MAX_KEY_LEN;;
  Writer.i32 0;;
  Writer.zeros MAX_KEY_SEQUENCE_LEN;;
  Writer.u8 (key_index key).

Definition write_default_key_info (key : KeyConfig) : M Writer.t ProtocolError.t unit :=
  write_default_key_header key;;
  write_default_key_material key.

Definition validate_key_command (command : UmacCommand.t) : res ProtocolError.t unit :=
  if negb (bool_decide (command = UmacCommand.NewKey))
     && negb (bool_decide (command = UmacCommand.DeleteKey))
  then Err (ProtocolError.InvalidValue (UmacCommand.to_u32 command))
  else Ok tt.

Definition encode_key_command (wdev_id : Z) (command : UmacCommand.t)
    (peer : option (list Z)) (key : KeyConfig) : M (list Z) ProtocolError.t Z :=
  lift (validate_key_command command);;
  lift (validate_key key);;
  encode_umac command (Some wdev_id) (4 + KEY_INFO_LEN + 6)
    (Writer.u32 (if is_some peer then KEY_MAC_VALID else 0);;
     write_key_info (Some key);;
     Writer.bytes (default (zeros 6) peer)).

Definition encode_set_key (wdev_id : Z) (key : KeyConfig) : M (list Z) ProtocolError.t Z :=
  lift (validate_key key);;
  encode_umac UmacCommand.SetKey (Some wdev_id) KEY_INFO_LEN
    (write_default_key_info key).

(** ** Authentication *)

Definition validate_optional_key (key : option KeyConfig) : res ProtocolError.t unit :=
  match key with Some key => validate_key key | None => Ok tt end.

Definition validate_authentication_request (request : AuthenticationRequest)
    : res ProtocolError.t unit :=
  validate_ssid (auth_ssid request);;
  validate_ie (auth_information_elements request);;
  validate_ie (bss_information_elements (auth_bss request));;
  ensure (negb (MAX_SAE_LEN <? len (auth_sae_data request))) ProtocolError.LimitExceeded;;
  validate_optional_key (auth_key request).

Definition authentication_valid_fields (request : AuthenticationRequest) : Z :=
  let valid := Z.lor AUTH_FREQUENCY_VALID AUTH_SSID_VALID in
  let valid := if is_some (auth_key request) then Z.lor valid AUTH_KEY_INFO_VALID else valid in
  let valid := if negb (is_empty (auth_sae_data request))
               then Z.lor valid AUTH_SAE_VALID else valid in
  valid.

Definition write_authentication_header (request : AuthenticationRequest)
    : M Writer.t ProtocolError.t unit :=
  Writer.u32 (authentication_valid_fields request);;
  Writer.u32 (auth_frequency_mhz request);;
  Writer.u16 (if auth_local_state_change request then AUTH_LOCAL_STATE_CHANGE else 0);;
  Writer.i32 (AuthenticationType.to_i32 (auth_type request)).

Definition write_authentication_security (request : AuthenticationRequest)
    : M Writer.t ProtocolError.t unit :=
  write_key_info (auth_key request);;
  writer_ssid (auth_ssid request);;
  writer_ie (auth_information_elements request).

Definition write_authentication_sae (request : AuthenticationRequest)
    : M Writer.t ProtocolError.t unit :=
  Writer.i32 (len (auth_sae_data request));;
  Writer.fixed (auth_sae_data request) MAX_SAE_LEN;;
  Writer.bytes (auth_bssid request).

Definition write_authentication_bss_observation (bss : BssContext)
    : M Writer.t ProtocolError.t unit :=
  Writer.i32 (bss_scan_width bss);;
  Writer.i32 (bss_signal_dbm bss);;
  Writer.i32 (if bss_from_beacon bss then 1 else 0);;
  writer_ie (bss_information_elements bss).

Definition write_authentication_bss_timing (bss : BssContext)
    : M Writer.t ProtocolError.t unit :=
  Writer.u16 (bss_capability bss);;
  Writer.u16 (bss_beacon_interval bss);;
  Writer.u64 (bss_tsf bss).

Definition write_authentication_bss (request : AuthenticationRequest)
    : M Writer.t ProtocolError.t unit :=
  write_authentication_bss_observation (auth_bss request);;
  write_authentication_bss_timing (auth_bss request).

Definition write_authentication_body (request : AuthenticationRequest)
    : M Writer.t ProtocolError.t unit :=
  write_authentication_header request;;
  write_authentication_security request;;
  write_authentication_sae request;;
  write_authentication_bss request.

Definition encode_authenticate (wdev_id : Z) (request : AuthenticationRequest)
    : M (list Z) ProtocolError.t Z :=
  lift (validate_authentication_request request);;
  encode_umac UmacCommand.Authenticate (Some wdev_id) AUTH_BODY_LEN
    (write_authentication_body request).

(** ** Association *)

Definition validate_association_security_counts (security : AssociationSecurity)
    : res ProtocolError.t unit :=
  ensure (negb (is_empty (pairwise_ciphers security)
                || (MAX_PAIRWISE_CIPHERS <? len (pairwise_ciphers security))))
    ProtocolError.LimitExceeded;;
  ensure (negb (is_empty (akm_suites security)
                || (MAX_AKM_SUITES <? len (akm_suites security))))
    ProtocolError.LimitExceeded.

Definition validate_association_request (request : AssociationRequest)
    : res ProtocolError.t unit :=
  validate_ssid (assoc_ssid request);;
  match security request with
  | Some security =>
      validate_ie (rsn_information_element security);;
      validate_association_security_counts security
  | None => Ok tt
  end.

Definition association_valid_fields (request : AssociationRequest) : Z :=
  let valid := Z.lor (Z.lor (Z.lor (Z.lor CONNECT_MAC_VALID CONNECT_FREQUENCY_VALID)
                 CONNECT_SSID_VALID) CONNECT_CONTROL_PORT_ETHERTYPE_VALID)
                 CONNECT_CONTROL_PORT_NO_ENCRYPT_VALID in
  let valid := if negb (background_scan_period_s request =? 0)
               then Z.lor valid CONNECT_BG_SCAN_VALID else valid in
  let valid := if is_some (previous_bssid request)
               then Z.lor valid CONNECT_PREVIOUS_BSSID_VALID else valid in
  let valid := if is_some (security request)
               then Z.lor valid
                 (Z.lor (Z.lor (Z.lor (Z.lor (Z.lor (Z.lor CONNECT_WPA_IE_VALID
                   CONNECT_WPA_VERSIONS_VALID) CONNECT_PAIRWISE_VALID)
                   CONNECT_GROUP_VALID) CONNECT_AKM_VALID) CONNECT_MFP_VALID)
                   CONNECT_SECURITY_VALID)
               else valid in
  valid.

Definition write_association_validity (request : AssociationRequest)
    : M Writer.t ProtocolError.t unit :=
  Writer.u32 (if is_some (previous_bssid request) then ASSOC_PREVIOUS_BSSID_VALID else 0);;
  Writer.u32 (association_valid_fields request).

Definition write_association_frequency (request : AssociationRequest)
    : M Writer.t ProtocolError.t unit :=
  Writer.u32 (assoc_frequency_mhz request);;
  Writer.u32 0;;
  Writer.u32 (if is_some (security request) then WPA_VERSION_2 else 0).

Definition write_association_header (request : AssociationRequest)
    : M Writer.t ProtocolError.t unit :=
  write_association_validity request;;
  write_association_frequency request.

Definition write_association_group_and_akm (security : option AssociationSecurity)
    : M Writer.t ProtocolError.t unit :=
  Writer.u32 (default 0 (group_cipher <$> security));;
  let akm := default [] (akm_suites <$> security) in
  Writer.u32 (u32 (len akm));;
  Writer.fixed_u32 akm MAX_AKM_SUITES;;
  Writer.i32 (default (MfpMode.to_i32 MfpMode.Disabled)
                ((fun value => MfpMode.to_i32 (mfp value)) <$> security)).

Definition write_association_ciphers (security : option AssociationSecurity)
    : M Writer.t ProtocolError.t unit :=
  let pairwise := default [] (pairwise_ciphers <$> security) in
  Writer.i32 (len pairwise);;
  Writer.fixed_u32 pairwise MAX_PAIRWISE_CIPHERS;;
  write_association_group_and_akm security.

Definition write_association_network_names (request : AssociationRequest)
    : M Writer.t ProtocolError.t unit :=
  writer_ssid (assoc_ssid request);;
  writer_ie (default [] (rsn_information_element <$> security request)).

Definition write_association_network (request : AssociationRequest)
    : M Writer.t ProtocolError.t unit :=
  Writer.u32 0;;
  Writer.u16 (background_scan_period_s request);;
  Writer.bytes (assoc_bssid request);;
  Writer.bytes (zeros 6);;
  write_association_network_names request.

Definition write_association_control_port : M Writer.t ProtocolError.t unit :=
  Writer.u32 0;;
  Writer.u16 0;;
  Writer.zeros (4 * 256);;
  Writer.u16 EAPOL_ETHERTYPE;;
  Writer.u8 1;;
  Writer.u8 1.

Definition write_association_previous_bssid (request : AssociationRequest)
    : M Writer.t ProtocolError.t unit :=
  let previous := default (zeros 6) (previous_bssid request) in
  Writer.bytes previous;;
  Writer.u16 (bss_max_idle_s request);;
  Writer.bytes previous.

Definition write_association_body (request : AssociationRequest)
    : M Writer.t ProtocolError.t unit :=
  write_association_header request;;
  write_association_ciphers (security request);;
  write_association_network request;;
  write_association_control_port;;
  write_association_previous_bssid request.

Definition encode_associate (wdev_id : Z) (request : AssociationRequest)
    : M (list Z) ProtocolError.t Z :=
  lift (validate_association_request request);;
  encode_umac UmacCommand.Associate (Some wdev_id) ASSOC_BODY_LEN
    (write_association_body request).

(** ** Interface, regulatory, power-save and authorization commands *)

Definition encode_interface_state (wdev_id : Z) (up : bool) (firmware_index : Z)
    : M (list Z) ProtocolError.t Z :=
  encode_umac UmacCommand.SetInterfaceFlags (Some wdev_id) 5
    (Writer.i32 (if up then 1 else 0);;
     Writer.u8 (u8 firmware_index)).

Definition is_ascii_alphabetic (b : Z) : bool :=
  ((65 <=? b) && (b <=? 90)) || ((97 <=? b) && (b <=? 122)).

Definition encode_set_regulatory (_wdev_id : Z) (country : list Z) (user_hint_type : Z) (force : bool)
    : M (list Z) ProtocolError.t Z :=
  if negb (bool_decide (country = [48; 48])) && negb (forallb is_ascii_alphabetic country)
  then throw (ProtocolError.InvalidValue (from_be country))
  else
    encode_umac UmacCommand.RequestSetRegulatory None 10
      (let valid := Z.lor 1 (bit 1) in
       let valid := if force then Z.lor valid (bit 2) else valid in
       Writer.u32 valid;;
       Writer.u32 user_hint_type;;
       Writer.bytes country).

Definition encode_power_save (wdev_id : Z) (state : PowerSaveState.t)
    : M (list Z) ProtocolError.t Z :=
  encode_umac UmacCommand.SetPowerSave (Some wdev_id) 4
    (Writer.i32 (PowerSaveState.to_i32 state)).

Definition encode_power_save_timeout (wdev_id timeout_ms : Z) : M (list Z) ProtocolError.t Z :=
  encode_umac UmacCommand.SetPowerSaveTimeout (Some wdev_id) 4
    (Writer.i32 timeout_ms).

Definition write_station_authorized_flags (authorized : bool)
    : M Writer.t ProtocolError.t unit :=
  Writer.u32 SET_STATION_FLAGS_VALID;;
  Writer.zeros 260;;
  Writer.u32 STATION_FLAG_AUTHORIZED;;
  Writer.u32 (if authorized then STATION_FLAG_AUTHORIZED else 0).

Definition write_station_authorized_body (peer : list Z) (authorized : bool)
    : M Writer.t ProtocolError.t unit :=
  write_station_authorized_flags authorized;;
  Writer.zeros 512;;
  Writer.bytes peer;;
  Writer.zeros 3.

Definition encode_station_authorized (wdev_id : Z) (peer : list Z) (authorized : bool)
    : M (list Z) ProtocolError.t Z :=
  encode_umac UmacCommand.SetStation (Some wdev_id) (4 + CHANGE_STATION_INFO_LEN)
    (write_station_authorized_body peer authorized).

(** ** Events *)

Record MlmeEvent : Type := mkMlmeEvent {
  mlme_header : UmacHeader;
  mlme_valid_fields : Z;
  mlme_frequency_mhz : Z;
  mlme_signal_dbm : Z;
  mlme_flags : Z;
  mlme_cookie : Z;
  mlme_bssid : list Z;
  mlme_frame : list Z;
  mlme_request_information_elements : list Z }.

Record ScanResultEvent : Type := mkScanResultEvent {
  sr_header : UmacHeader;
  sr_valid_fields : Z;
  sr_frequency_mhz : Z;
  sr_channel_width : Z;
  sr_seen_ms_ago : Z;
  sr_status : Z;
  sr_signal : Z;
  sr_bssid : list Z;
  sr_beacon_interval : Z;
  sr_capability : Z;
  sr_information_elements : list Z;
  sr_beacon_information_elements : list Z }.

Module ControlEvent.
Inductive t : Type :=
  | ScanDone (header : UmacHeader) (status scan_type : Z)
  | ScanResult (event : ScanResultEvent)
  | Authentication (event : MlmeEvent)
  | Association (event : MlmeEvent)
  | Deauthentication (event : MlmeEvent)
  | Disassociation (event : MlmeEvent)
  | CommandStatus (header : UmacHeader) (command status : Z)
  | InterfaceState (header : UmacHeader) (status : Z)
  | RegulatoryChange (header : UmacHeader) (country : list Z)
  | Other (header : UmacHeader) (body : list Z).
End ControlEvent.

Definition mlme_variable_extents (body : list Z) : res ProtocolError.t (Z * Z) :=
  frame_len ← read_i32 body 24;
  ensure (negb ((frame_len <? 0) || (400 <? frame_len))) ProtocolError.InvalidLength;;
  request_ie_len ← read_u32 body 435;
  required ← ok_or (checked_add MLME_FIXED_BODY_LEN request_ie_len)
               ProtocolError.InvalidLength;
  require_len body required;;
  Ok (28 + frame_len, required).

Definition parse_mlme (header : UmacHeader) (body : list Z) : res ProtocolError.t MlmeEvent :=
  require_len body MLME_FIXED_BODY_LEN;;
  extents ← mlme_variable_extents body;
  let '(frame_end, required) := extents in
  valid_fields ← read_u32 body 0;
  frequency_mhz ← read_u32 body 4;
  signal_dbm ← read_i32 body 8;
  flags ← read_u32 body 12;
  cookie ← read_u64 body 16;
  bssid ← subslice body 428 434;
  frame ← subslice body 28 frame_end;
  request_information_elements ← subslice body MLME_FIXED_BODY_LEN required;
  Ok (mkMlmeEvent header valid_fields frequency_mhz signal_dbm flags cookie
        bssid frame request_information_elements).

Definition normalized_scan_signal (signal_type signal : Z) : Z :=
  if signal_type =? 2 then Z.quot signal 100 else signal.

Definition scan_result_variable_extents (body : list Z) : res ProtocolError.t (Z * Z) :=
  ies_len ← read_u32 body 62;
  beacon_len ← read_u32 body 66;
  ies_end ← ok_or (checked_add SCAN_RESULT_FIXED_BODY_LEN ies_len)
              ProtocolError.InvalidLength;
  beacon_end ← ok_or (checked_add ies_end beacon_len) ProtocolError.InvalidLength;
  require_len body beacon_end;;
  Ok (ies_end, beacon_end).

Definition parse_scan_result (header : UmacHeader) (body : list Z)
    : res ProtocolError.t ScanResultEvent :=
  require_len body SCAN_RESULT_FIXED_BODY_LEN;;
  extents ← scan_result_variable_extents body;
  let '(ies_end, beacon_end) := extents in
  signal_type ← read_u32 body 48;
  raw_signal ← read_i32 body 52;
  let signal := normalized_scan_signal signal_type raw_signal in
  valid_fields ← read_u32 body 0;
  frequency_mhz ← read_u32 body 8;
  channel_width ← read_u32 body 12;
  seen_ms_ago ← read_u32 body 16;
  status ← read_i32 body 24;
  bssid ← subslice body 56 62;
  beacon_interval ← read_u16 body 44;
  capability ← read_u16 body 46;
  information_elements ← subslice body SCAN_RESULT_FIXED_BODY_LEN ies_end;
  beacon_information_elements ← subslice body ies_end beacon_end;
  Ok (mkScanResultEvent header valid_fields frequency_mhz channel_width
        seen_ms_ago status signal bssid beacon_interval capability
        information_elements beacon_information_elements).

Definition parse_scan_done_event (header : UmacHeader) (body : list Z)
    : res ProtocolError.t ControlEvent.t :=
  require_len body 8;;
  status ← read_i32 body 0;
  scan_type ← read_u32 body 4;
  Ok (ControlEvent.ScanDone header status scan_type).

Definition parse_scan_result_event (header : UmacHeader) (body : list Z)
    : res ProtocolError.t ControlEvent.t :=
  event ← parse_scan_result header body; Ok (ControlEvent.ScanResult event).

Definition parse_authentication_event (header : UmacHeader) (body : list Z)
    : res ProtocolError.t ControlEvent.t :=
  event ← parse_mlme header body; Ok (ControlEvent.Authentication event).

Definition parse_association_event (header : UmacHeader) (body : list Z)
    : res ProtocolError.t ControlEvent.t :=
  event ← parse_mlme header body; Ok (ControlEvent.Association event).

Definition is_scan_or_connection_event (event : Z) : bool :=
  (259 <=? event) && (event <=? 263).

Definition is_disconnect_event (event : Z) : bool :=
  (event =? UmacEvent.to_u32 UmacEvent.Deauthenticate)
  || (event =? UmacEvent.to_u32 UmacEvent.Disassociate).

Definition parse_scan_or_connection_event (header : UmacHeader) (body : list Z)
    : res ProtocolError.t ControlEvent.t :=
  let event := command_event header in
  if event =? UmacEvent.to_u32 UmacEvent.ScanDone then parse_scan_done_event header body
  else if event =? UmacEvent.to_u32 UmacEvent.ScanResult then parse_scan_result_event header body
  else if event =? UmacEvent.to_u32 UmacEvent.Authenticate then parse_authentication_event header body
  else if event =? UmacEvent.to_u32 UmacEvent.Associate then parse_association_event header body
  else Ok (ControlEvent.Other header body).

Definition parse_disconnect_event (header : UmacHeader) (body : list Z)
    : res ProtocolError.t ControlEvent.t :=
  if command_event header =? UmacEvent.to_u32 UmacEvent.Deauthenticate
  then event ← parse_mlme header body; Ok (ControlEvent.Deauthentication event)
  else event ← parse_mlme header body; Ok (ControlEvent.Disassociation event).

Definition parse_command_status_event (header : UmacHeader) (body : list Z)
    : res ProtocolError.t ControlEvent.t :=
  require_len body 8;;
  command ← read_u32 body 0;
  status ← read_u32 body 4;
  Ok (ControlEvent.CommandStatus header command status).

Definition parse_interface_status_event (header : UmacHeader) (body : list Z)
    : res ProtocolError.t ControlEvent.t :=
  require_len body 4;;
  status ← read_i32 body 0;
  Ok (ControlEvent.InterfaceState header status).

Definition parse_regulatory_change_event (header : UmacHeader) (body : list Z)
    : res ProtocolError.t ControlEvent.t :=
  require_len body 9;;
  b7 ← index body 7;
  b8 ← index body 8;
  Ok (ControlEvent.RegulatoryChange header [b7; b8]).

Definition parse_status_event (header : UmacHeader) (body : list Z)
    : res ProtocolError.t ControlEvent.t :=
  let event := command_event header in
  if event =? UmacEvent.to_u32 UmacEvent.CommandStatus then parse_command_status_event header body
  else if event =? UmacEvent.to_u32 UmacEvent.InterfaceFlagsStatus
  then parse_interface_status_event header body
  else if event =? EVENT_REGULATORY_CHANGE then parse_regulatory_change_event header body
  else Ok (ControlEvent.Other header body).

Definition parse_control_event (message : HostMessageRef)
    : res ProtocolError.t ControlEvent.t :=
  parsed ← parse_umac_event message;
  let '(header, body) := parsed in
  if is_scan_or_connection_event (command_event header)
  then parse_scan_or_connection_event header body
  else if is_disconnect_event (command_event header)
  then parse_disconnect_event header body
  else parse_status_event header body.

(** ** Lemmas: encoders *)

(** The headers [encode_umac] writes are those of [umac_message]. *)
Definition station_ids (wdev_id : option Z) : InterfaceIds :=
  mkInterfaceIds None None wdev_id.

Lemma writes_station_headers total command wdev_id body bs :
  writes body bs -> len bs = total - 48 -> 48 <= total <= USIZE_MAX ->
  writes (write_station_headers total command wdev_id;; body)
    (umac_message (UmacCommand.to_u32 command) (station_ids wdev_id) bs).
Proof.
  intros Hb Hl Ht. eapply writes_ext.
  - unfold write_station_headers, write_station_host_header,
      write_station_command_header, write_station_index_header.
    apply writes_bind; [|exact Hb]. eauto 20 with writes.
  - unfold umac_message, host_message_bytes. rewrite len_umac_payload_bytes, Hl.
    replace (12 + (36 + (total - 48))) with (u32 total).
    2: { unfold u32. rewrite Z.mod_small; [lia|]. unfold USIZE_MAX in *. lia. }
    unfold umac_payload_bytes, station_ids, valid_mask. cbn.
    by destruct wdev_id; rewrite <-?app_assoc.
Qed.

Lemma validated_station_message_len_spec o b :
  0 <= b <= 2000 ->
  (validated_station_message_len o b = Ok (48 + b) /\ 48 + b <= o)
  \/ (validated_station_message_len o b = Err ProtocolError.BufferTooSmall
      /\ o < 48 + b).
Proof.
  intros. unfold validated_station_message_len, checked_add, ensure, HOST_HEADER_LEN,
    UMAC_HEADER_LEN, MAX_STATION_MESSAGE_LEN.
  cbn [mbind option_bind].
  change (12 + 36 <=? USIZE_MAX) with true. cbn [mbind option_bind].
  rewrite (proj2 (Z.leb_le _ _)) by (unfold USIZE_MAX; lia). cbn [ok_or mbind res_bind].
  destruct (o <? 12 + 36 + b) eqn:?; cbn [negb mbind res_bind].
  - right. split; [done|]. lia.
  - left. rewrite (proj2 (Z.ltb_ge _ _)) by lia. split; [done|lia].
Qed.

(** [encode_umac] with a body program of the announced length. *)
Lemma encode_umac_spec command wdev_id n body bs out :
  writes body bs -> len bs = n -> n <= 2000 -> 48 + n <= len out -> len out <= USIZE_MAX ->
  encode_umac command wdev_id n body out
  = (Ok (48 + n),
     umac_message (UmacCommand.to_u32 command) (station_ids wdev_id) bs
       ++ drop (Z.to_nat (48 + n)) out).
Proof.
  intros Hb Hl Hn Ho Hs. pose proof (len_nonneg bs).
  unfold encode_umac. unfold mbind at 1, M_bind at 1, gets at 1.
  unfold mbind at 1, M_bind at 1, lift at 1.
  destruct (validated_station_message_len_spec (len out) n ltac:(lia)) as [[-> _]|[_ ?]]; [|lia].
  pose proof (writes_station_headers (48 + n) command wdev_id body bs Hb
                ltac:(lia) ltac:(lia)) as Hw.
  pose proof (len_umac_message (UmacCommand.to_u32 command) (station_ids wdev_id) bs) as Hlen.
  unfold mbind at 1, M_bind at 1, on_prefix. rewrite slice_in by lia.
  rewrite (with_writer_spec _ _ _ Hw).
  2, 3: rewrite len_take, len_drop; lia.
  rewrite Hlen, Hl, Z.eqb_refl. cbn [negb]. unfold mret, M_ret. do 2 f_equal.
  rewrite drop_all_len; [by rewrite app_nil_r|].
  rewrite len_take, len_drop. unfold len in *. lia.
Qed.

Lemma writes_ssid s :
  len s <= 32 -> writes (writer_ssid s) (ssid_slot s).
Proof.
  intros. pose proof (len_nonneg s). unfold writer_ssid, validate_ssid.
  rewrite (proj2 (Z.ltb_ge _ _)) by lia.
  apply (writes_lift _ tt); [done|]. unfold ssid_slot, u8, MAX_SSID_LEN.
  rewrite Z.mod_small by lia. apply writes_bind; [apply writes_bytes|].
  by apply writes_fixed.
Qed.

Definition ie_slot (ie : list Z) : list Z :=
  to_le 2 (len ie) ++ ie ++ zeros (MAX_IE_LEN - len ie).

Lemma writes_ie ie : len ie <= MAX_IE_LEN -> writes (writer_ie ie) (ie_slot ie).
Proof.
  intros. pose proof (len_nonneg ie). unfold writer_ie, validate_ie.
  rewrite (proj2 (Z.ltb_ge _ _)) by lia.
  apply (writes_lift _ tt); [done|]. unfold ie_slot, u16, MAX_IE_LEN in *.
  rewrite Z.mod_small by lia. apply writes_bind; [apply writes_bytes|].
  by apply writes_fixed.
Qed.

Lemma len_ie_slot ie : len ie <= MAX_IE_LEN -> len (ie_slot ie) = 402.
Proof.
  intros. unfold ie_slot, MAX_IE_LEN in *.
  rewrite !len_app, len_to_le, len_zeros_sub by lia. lia.
Qed.

#[export] Hint Extern 1 (writes (writer_ssid _) _) => (apply writes_ssid; lia) : writes.
#[export] Hint Extern 1 (writes (writer_ie _) _) =>
  (apply writes_ie; unfold MAX_IE_LEN in *; lia) : writes.

(** The limits of a key. *)
Definition key_valid (key : KeyConfig) : Prop :=
  len (key_bytes key) <= 256 /\ len (key_sequence key) <= 256 /\ key_index key <= 3.

Lemma validate_key_spec key :
  validate_key key = Ok tt /\ key_valid key
  \/ validate_key key = Err ProtocolError.LimitExceeded /\ ~ key_valid key.
Proof.
  unfold validate_key, key_valid, ensure, MAX_KEY_LEN, MAX_KEY_SEQUENCE_LEN.
  destruct (256 <? len (key_bytes key)) eqn:?; cbn; [right; split; [done|lia]|].
  destruct (256 <? len (key_sequence key)) eqn:?; cbn; [right; split; [done|lia]|].
  destruct (3 <? key_index key) eqn:?; cbn; [right; split; [done|lia]|].
  left. split; [done|lia].
Qed.

(** *** Body layouts *)

Definition key_info_bytes (key : option KeyConfig) : list Z :=
  match key with
  | None => zeros KEY_INFO_LEN
  | Some k =>
      to_le 4 (key_valid_fields k) ++ to_le 4 (cipher_suite k) ++ to_le 2 (key_flags k)
        ++ to_le 4 (KeyType.to_i32 (key_type k)) ++ to_le 4 (len (key_bytes k))
        ++ key_bytes k ++ zeros (MAX_KEY_LEN - len (key_bytes k))
        ++ to_le 4 (len (key_sequence k)) ++ key_sequence k
        ++ zeros (MAX_KEY_SEQUENCE_LEN - len (key_sequence k)) ++ [key_index k]
  end.

Definition opt_key_valid (key : option KeyConfig) : Prop :=
  match key with Some k => key_valid k | None => True end.

Lemma writes_key_info key :
  opt_key_valid key -> writes (write_key_info key) (key_info_bytes key).
Proof.
  destruct key as [k|]; [|intros _; apply writes_zeros; by vm_compute].
  intros (Hk & Hs & _). pose proof (len_nonneg (key_bytes k)).
  eapply writes_ext.
  - unfold write_key_info, write_key_info_header, write_key_info_material.
    unfold MAX_KEY_LEN, MAX_KEY_SEQUENCE_LEN. eauto 20 with writes.
  - unfold key_info_bytes, MAX_KEY_LEN, MAX_KEY_SEQUENCE_LEN, u32.
    rewrite Z.mod_small by lia. by rewrite <-!app_assoc.
Qed.

Lemma len_key_info_bytes key :
  opt_key_valid key -> len (key_info_bytes key) = KEY_INFO_LEN.
Proof.
  destruct key as [k|]; [|by intros _; vm_compute]. intros (Hk & Hs & _).
  unfold key_info_bytes, MAX_KEY_LEN, MAX_KEY_SEQUENCE_LEN, KEY_INFO_LEN.
  rewrite !len_app, !len_to_le, !len_zeros_sub, len_cons, len_nil by lia. lia.
Qed.

Definition auth_body (r : AuthenticationRequest) : list Z :=
  to_le 4 (authentication_valid_fields r) ++ to_le 4 (auth_frequency_mhz r)
    ++ to_le 2 (b2z (auth_local_state_change r))
    ++ to_le 4 (AuthenticationType.to_i32 (auth_type r))
    ++ key_info_bytes (auth_key r) ++ ssid_slot (auth_ssid r)
    ++ ie_slot (auth_information_elements r)
    ++ to_le 4 (len (auth_sae_data r)) ++ auth_sae_data r
    ++ zeros (MAX_SAE_LEN - len (auth_sae_data r)) ++ auth_bssid r
    ++ to_le 4 (bss_scan_width (auth_bss r)) ++ to_le 4 (bss_signal_dbm (auth_bss r))
    ++ to_le 4 (b2z (bss_from_beacon (auth_bss r)))
    ++ ie_slot (bss_information_elements (auth_bss r))
    ++ to_le 2 (bss_capability (auth_bss r)) ++ to_le 2 (bss_beacon_interval (auth_bss r))
    ++ to_le 8 (bss_tsf (auth_bss r)).

Definition auth_valid (r : AuthenticationRequest) : Prop :=
  len (auth_ssid r) <= 32 /\ len (auth_information_elements r) <= 400
  /\ len (bss_information_elements (auth_bss r)) <= 400
  /\ len (auth_sae_data r) <= 256 /\ opt_key_valid (auth_key r).

Lemma validate_auth_spec r :
  validate_authentication_request r = Ok tt /\ auth_valid r
  \/ validate_authentication_request r = Err ProtocolError.LimitExceeded /\ ~ auth_valid r.
Proof.
  unfold validate_authentication_request, auth_valid, validate_ssid, validate_ie,
    ensure, MAX_IE_LEN, MAX_SAE_LEN.
  destruct (32 <? _) eqn:?; cbn; [right; split; [done|lia]|].
  destruct (400 <? len (auth_information_elements r)) eqn:?; cbn; [right; split; [done|lia]|].
  destruct (400 <? len (bss_information_elements (auth_bss r))) eqn:?; cbn;
    [right; split; [done|lia]|].
  destruct (256 <? _) eqn:?; cbn; [right; split; [done|lia]|].
  unfold validate_optional_key. destruct (auth_key r) as [k|]; cbn.
  - destruct (validate_key_spec k) as [[-> ?]|[-> ?]]; [left|right];
      (split; [done|]); [split_and!; lia || done|].
    by intros (_ & _ & _ & _ & ?).
  - left. split; [done|]. split_and!; lia || done.
Qed.

Lemma writes_auth_body r :
  auth_valid r -> writes (write_authentication_body r) (auth_body r).
Proof.
  intros (Hs & Hi & Hb & Ha & Hk). pose proof (writes_key_info _ Hk).
  eapply writes_ext.
  - unfold write_authentication_body, write_authentication_header,
      write_authentication_security, write_authentication_sae, write_authentication_bss,
      write_authentication_bss_observation, write_authentication_bss_timing, MAX_SAE_LEN.
    eauto 30 with writes.
  - unfold auth_body, MAX_SAE_LEN. rewrite <-!app_assoc.
    by destruct (auth_local_state_change r), (bss_from_beacon (auth_bss r)).
Qed.

Lemma len_auth_body r :
  auth_valid r -> len (auth_bssid r) = 6 -> len (auth_body r) = AUTH_BODY_LEN.
Proof.
  intros (Hs & Hi & Hb & Ha & Hk) H6. unfold auth_body, MAX_SAE_LEN, AUTH_BODY_LEN.
  rewrite !len_app, !len_to_le, len_key_info_bytes, len_ssid_slot, !len_ie_slot,
    len_zeros_sub by (done || (unfold MAX_IE_LEN; lia)).
  unfold KEY_INFO_LEN, AUTH_INFO_LEN. lia.
Qed.

Definition assoc_body (r : AssociationRequest) : list Z :=
  let pairwise := default [] (pairwise_ciphers <$> security r) in
  let akm := default [] (akm_suites <$> security r) in
  let previous := default (zeros 6) (previous_bssid r) in
  to_le 4 (b2z (is_some (previous_bssid r))) ++ to_le 4 (association_valid_fields r)
    ++ to_le 4 (assoc_frequency_mhz r) ++ to_le 4 0
    ++ to_le 4 (if is_some (security r) then 2 else 0)
    ++ to_le 4 (len pairwise) ++ words_le pairwise ++ zeros ((7 - len pairwise) * 4)
    ++ to_le 4 (default 0 (group_cipher <$> security r))
    ++ to_le 4 (len akm) ++ words_le akm ++ zeros ((2 - len akm) * 4)
    ++ to_le 4 (default 0 ((fun v => MfpMode.to_i32 (mfp v)) <$> security r))
    ++ to_le 4 0 ++ to_le 2 (background_scan_period_s r) ++ assoc_bssid r ++ zeros 6
    ++ ssid_slot (assoc_ssid r)
    ++ ie_slot (default [] (rsn_information_element <$> security r))
    ++ to_le 4 0 ++ to_le 2 0 ++ zeros 1024 ++ to_le 2 EAPOL_ETHERTYPE ++ [1] ++ [1]
    ++ previous ++ to_le 2 (bss_max_idle_s r) ++ previous.

Definition security_valid (s : AssociationSecurity) : Prop :=
  len (rsn_information_element s) <= 400
  /\ 1 <= len (pairwise_ciphers s) <= 7 /\ 1 <= len (akm_suites s) <= 2.

Definition assoc_valid (r : AssociationRequest) : Prop :=
  len (assoc_ssid r) <= 32
  /\ match security r with Some s => security_valid s | None => True end.

Lemma is_empty_len l : is_empty l = true <-> len l = 0.
Proof.
  destruct l; cbn; [by vm_compute|]. rewrite len_cons. pose proof (len_nonneg l).
  split; [done|lia].
Qed.

Lemma validate_assoc_spec r :
  validate_association_request r = Ok tt /\ assoc_valid r
  \/ validate_association_request r = Err ProtocolError.LimitExceeded /\ ~ assoc_valid r.
Proof.
  unfold validate_association_request, assoc_valid, validate_ssid, security_valid.
  destruct (32 <? _) eqn:?; cbn [mbind res_bind]; [right; split; [done|lia]|].
  destruct (security r) as [s|]; [|left; split; [done|split; [lia|done]]].
  unfold validate_ie, validate_association_security_counts, ensure, MAX_IE_LEN,
    MAX_PAIRWISE_CIPHERS, MAX_AKM_SUITES.
  destruct (400 <? _) eqn:?; cbn [mbind res_bind]; [right; split; [done|lia]|].
  pose proof (is_empty_len (pairwise_ciphers s)) as [He _].
  pose proof (is_empty_len (akm_suites s)) as [Ha _].
  pose proof (is_empty_len (pairwise_ciphers s)) as [_ He'].
  pose proof (is_empty_len (akm_suites s)) as [_ Ha']. len_pose.
  destruct (is_empty (pairwise_ciphers s)) eqn:E1; cbn [orb negb mbind res_bind];
    [right; split; [done|]; specialize (He eq_refl); lia|].
  destruct (7 <? _) eqn:?; cbn [negb mbind res_bind]; [right; split; [done|lia]|].
  destruct (is_empty (akm_suites s)) eqn:E2; cbn [orb negb mbind res_bind];
    [right; split; [done|]; specialize (Ha eq_refl); lia|].
  destruct (2 <? _) eqn:?; cbn [negb mbind res_bind]; [right; split; [done|lia]|].
  left. split; [done|].
  destruct (Z.eq_dec (len (pairwise_ciphers s)) 0) as [E|?]; [by specialize (He' E)|].
  destruct (Z.eq_dec (len (akm_suites s)) 0) as [E|?]; [by specialize (Ha' E)|]. lia.
Qed.

(** The list fields of a request, whether or not security is requested. *)
Lemma assoc_valid_lists r :
  assoc_valid r ->
  len (default [] (pairwise_ciphers <$> security r)) <= 7
  /\ len (default [] (akm_suites <$> security r)) <= 2
  /\ len (default [] (rsn_information_element <$> security r)) <= 400.
Proof.
  intros [_ Hs]. destruct (security r) as [s|]; cbn.
  - unfold security_valid in Hs. lia.
  - by vm_compute.
Qed.

Lemma writes_assoc_body r :
  assoc_valid r -> writes (write_association_body r) (assoc_body r).
Proof.
  intros Hv. pose proof Hv as [Hs _].
  pose proof (assoc_valid_lists r Hv) as (Hp & Ha & Hi).
  eapply writes_ext.
  - unfold write_association_body, write_association_header, write_association_validity,
      write_association_frequency, write_association_ciphers,
      write_association_group_and_akm, write_association_network,
      write_association_network_names, write_association_control_port,
      write_association_previous_bssid, MAX_PAIRWISE_CIPHERS, MAX_AKM_SUITES.
    eauto 50 with writes.
  - unfold assoc_body, u32.
    rewrite (Z.mod_small (len (default [] (akm_suites <$> security r)))) by len_solve.
    rewrite <-!app_assoc. by destruct (previous_bssid r), (security r).
Qed.

Lemma len_assoc_body r :
  assoc_valid r -> len (assoc_bssid r) = 6 ->
  len (default (zeros 6) (previous_bssid r)) = 6 ->
  len (assoc_body r) = ASSOC_BODY_LEN.
Proof.
  intros Hv Hb Hp. pose proof Hv as [Hs _].
  pose proof (assoc_valid_lists r Hv) as (Hl & Ha & Hi). unfold assoc_body.
  cbn zeta. rewrite !len_app, !len_to_le, len_ssid_slot, len_ie_slot, !len_words_le,
    !len_zeros by (done || (unfold MAX_IE_LEN; lia)).
  rewrite !len_cons, len_nil, Hb, Hp.
  unfold ASSOC_BODY_LEN, CONNECT_COMMON_INFO_LEN. lia.
Qed.

(** ** Lemmas: events *)

Lemma require_len_spec bytes n :
  require_len bytes n = Ok tt /\ n <= len bytes
  \/ require_len bytes n = Err ProtocolError.InvalidLength /\ len bytes < n.
Proof. unfold require_len. destruct (_ <? _) eqn:?; [right|left]; split; [done|lia| done|lia]. Qed.

Lemma checked_add_some a b c : checked_add a b = Some c -> c = a + b /\ c <= USIZE_MAX.
Proof. unfold checked_add. destruct (_ <=? _) eqn:?; intros [= <-]. lia. Qed.

(** An MLME event is either rejected for its length or every field of it is
    inside the message. *)
Lemma parse_mlme_spec h body :
  bytes_ok body ->
  outcomes (fun e => mlme_header e = h /\ len (mlme_bssid e) = 6
                     /\ len (mlme_frame e) <= 400
                     /\ 439 + len (mlme_request_information_elements e) <= len body)
    (fun e => e = ProtocolError.InvalidLength) (parse_mlme h body).
Proof.
  intros Hb. unfold parse_mlme, MLME_FIXED_BODY_LEN.
  destruct (require_len_spec body 439) as [[-> ?]|[-> ?]]; cbn [mbind res_bind]; [|done].
  unfold mlme_variable_extents, MLME_FIXED_BODY_LEN.
  destruct (@read_i32_range ProtocolError.t body 24) as (fl & -> & Hfl); [done|lia|lia|].
  cbn [mbind res_bind]. unfold ensure.
  destruct (_ || _) eqn:Hc; cbn [negb mbind res_bind]; [done|].
  apply orb_false_iff in Hc as [? ?].
  destruct (@read_u32_range ProtocolError.t body 435) as (n & -> & Hn); [done|lia|lia|].
  cbn [mbind res_bind]. destruct (checked_add 439 n) as [r|] eqn:Hr; [|done].
  apply checked_add_some in Hr as [-> _]. cbn [ok_or mbind res_bind].
  destruct (require_len_spec body (439 + n)) as [[-> ?]|[-> ?]]; cbn [mbind res_bind]; [|done].
  unfold in_u in Hn. reads_ok. cbn. split_and!; [done|lia..].
Qed.

Lemma parse_scan_result_spec h body :
  bytes_ok body ->
  outcomes (fun e => sr_header e = h /\ len (sr_bssid e) = 6
                     /\ 70 + len (sr_information_elements e)
                        + len (sr_beacon_information_elements e) <= len body)
    (fun e => e = ProtocolError.InvalidLength) (parse_scan_result h body).
Proof.
  intros Hb. unfold parse_scan_result, SCAN_RESULT_FIXED_BODY_LEN.
  destruct (require_len_spec body 70) as [[-> ?]|[-> ?]]; cbn [mbind res_bind]; [|done].
  unfold scan_result_variable_extents, SCAN_RESULT_FIXED_BODY_LEN.
  destruct (@read_u32_range ProtocolError.t body 62) as (n & -> & Hn); [done|lia|lia|].
  destruct (@read_u32_range ProtocolError.t body 66) as (k & -> & Hk); [done|lia|lia|].
  cbn [mbind res_bind]. destruct (checked_add 70 n) as [r|] eqn:Hr; [|done].
  apply checked_add_some in Hr as [-> _]. cbn [ok_or mbind res_bind].
  destruct (checked_add (70 + n) k) as [r|] eqn:Hr; [|done].
  apply checked_add_some in Hr as [-> _]. cbn [ok_or mbind res_bind].
  destruct (require_len_spec body (70 + n + k)) as [[-> ?]|[-> ?]];
    cbn [mbind res_bind]; [|done].
  unfold in_u in Hn, Hk. reads_ok. cbn. split_and!; [done|lia..].
Qed.

(** What a parsed event guarantees to the station controller. *)
Definition event_ok (e : ControlEvent.t) : Prop :=
  match e with
  | ControlEvent.Authentication m | ControlEvent.Association m
  | ControlEvent.Deauthentication m | ControlEvent.Disassociation m =>
      len (mlme_bssid m) = 6 /\ len (mlme_frame m) <= 400
  | ControlEvent.ScanResult r => len (sr_bssid r) = 6
  | ControlEvent.RegulatoryChange _ c => len c = 2
  | _ => True
  end.

Lemma parse_control_event_spec m :
  bytes_ok (payload m) ->
  outcomes event_ok
    (fun e => e = ProtocolError.InvalidLength \/ e = ProtocolError.WrongMessageType)
    (parse_control_event m).
Proof.
  intros Hb. unfold parse_control_event. eapply outcomes_bind.
  { by apply parse_umac_event_spec. }
  intros [h body] [_ Hbody]. cbn [snd] in Hbody.
  assert (forall f : MlmeEvent -> ControlEvent.t,
    (forall e, event_ok (f e) = (len (mlme_bssid e) = 6 /\ len (mlme_frame e) <= 400)) ->
    outcomes event_ok
      (fun e => e = ProtocolError.InvalidLength \/ e = ProtocolError.WrongMessageType)
      (event ← parse_mlme h body; Ok (f event))) as Hmlme.
  { intros f Hf. eapply outcomes_bind.
    - eapply outcomes_impl; [by apply parse_mlme_spec|intros e He; exact He|cbn; auto].
    - intros e (_ & ? & ? & _). cbn. by rewrite Hf. }
  unfold parse_scan_or_connection_event, parse_disconnect_event, parse_status_event,
    parse_scan_done_event, parse_scan_result_event, parse_authentication_event,
    parse_association_event, parse_command_status_event, parse_interface_status_event,
    parse_regulatory_change_event.
  repeat case_match; try done; try (by apply Hmlme).
  all: try (match goal with |- context [require_len ?b ?n] =>
    destruct (require_len_spec b n) as [[-> ?]|[-> ?]] end;
    cbn [mbind res_bind]; [reads_ok; done|cbn; auto]).
  eapply outcomes_bind.
  - eapply outcomes_impl; [by apply parse_scan_result_spec|intros e He; exact He|cbn; auto].
  - intros e (_ & ? & _). done.
Qed.

(** ** Lemmas: the command encoders *)

(** What a station command leaves in the buffer, and what the peer reads in it. *)
Definition command_written (command : UmacCommand.t) (wdev_id : option Z)
    (body out out' : list Z) : Prop :=
  len out' = len out
  /\ drop (Z.to_nat (48 + len body)) out' = drop (Z.to_nat (48 + len body)) out
  /\ (m ← parse_host_message out'; parse_umac_event m)
     = Ok (command_header (UmacCommand.to_u32 command) (station_ids wdev_id), body).

Lemma command_written_spec command wdev_id body out :
  in_u 64 (default 0 wdev_id) -> len body <= 2000 -> 48 + len body <= len out ->
  command_written command wdev_id body out
    (umac_message (UmacCommand.to_u32 command) (station_ids wdev_id) body
       ++ drop (Z.to_nat (48 + len body)) out).
Proof.
  intros Hw Hb Ho. pose proof (len_nonneg body). split_and!.
  - rewrite len_app, len_umac_message, len_drop. lia.
  - rewrite drop_app_length'; [done|]. rewrite length_len, len_umac_message. done.
  - apply umac_message_decodes; [apply to_u32_in_u|split_and!; [by vm_compute..|done]|done].
Qed.

Lemma encode_umac_written command w n body bs out :
  writes body bs -> len bs = n -> n <= 2000 -> in_u 64 (default 0 w) ->
  48 + n <= len out -> len out <= USIZE_MAX ->
  exists out', encode_umac command w n body out = (Ok (48 + n), out')
               /\ command_written command w bs out out'.
Proof.
  intros Hb Hl Hn Hw Ho Hs. eexists. split; [by apply (encode_umac_spec _ _ _ _ bs)|].
  rewrite <-Hl. apply command_written_spec; lia || done.
Qed.

(** A short buffer is refused before anything is written. *)
Lemma encode_umac_small command w n body out :
  0 <= n <= 2000 -> len out < 48 + n ->
  encode_umac command w n body out = (Err ProtocolError.BufferTooSmall, out).
Proof.
  intros Hn Ho. unfold encode_umac. unfold mbind at 1, M_bind at 1, gets at 1.
  unfold mbind at 1, M_bind at 1, lift at 1.
  by destruct (validated_station_message_len_spec (len out) n ltac:(lia)) as [[_ ?]|[-> _]]; [lia|].
Qed.

Definition key_body (peer : option (list Z)) (key : KeyConfig) : list Z :=
  to_le 4 (if is_some peer then 1 else 0) ++ key_info_bytes (Some key)
    ++ default (zeros 6) peer.

Lemma writes_key_body peer key :
  key_valid key ->
  writes (Writer.u32 (if is_some peer then KEY_MAC_VALID else 0);;
          write_key_info (Some key);; Writer.bytes (default (zeros 6) peer))
    (key_body peer key).
Proof.
  intros Hk. pose proof (writes_key_info (Some key) Hk). unfold key_body.
  change KEY_MAC_VALID with 1. eauto 20 with writes.
Qed.

Definition station_authorized_body (peer : list Z) (authorized : bool) : list Z :=
  to_le 4 (2 ^ 12) ++ zeros 260 ++ to_le 4 2 ++ to_le 4 (if authorized then 2 else 0)
    ++ zeros 512 ++ peer ++ zeros 3.

Lemma writes_station_authorized peer authorized :
  writes (write_station_authorized_body peer authorized)
    (station_authorized_body peer authorized).
Proof.
  eapply writes_ext.
  - unfold write_station_authorized_body, write_station_authorized_flags.
    eauto 20 with writes.
  - unfold station_authorized_body. rewrite <-!app_assoc. by destruct authorized.
Qed.

(** * Properties *)

(** an authentication request is encoded exactly when its SSID, information
    elements, SAE data and key are within their limits: the 1724-byte message
    then decodes to the authenticate command for this interface with the packed
    body; otherwise [LimitExceeded] is returned and nothing is written. *)
Theorem encode_authenticate_correct w r out :
  in_u 64 w -> len (auth_bssid r) = 6 -> 1724 <= len out -> len out <= USIZE_MAX ->
  (auth_valid r
   /\ exists out', encode_authenticate w r out = (Ok 1724, out')
                   /\ command_written UmacCommand.Authenticate (Some w) (auth_body r) out out')
  \/ (~ auth_valid r
      /\ encode_authenticate w r out = (Err ProtocolError.LimitExceeded, out)).
Proof.
  intros Hw H6 Ho Hs. unfold encode_authenticate, mbind, M_bind, lift.
  destruct (validate_auth_spec r) as [[-> Hv]|[-> Hv]]; [left|by right].
  split; [done|]. pose proof (len_auth_body r Hv H6).
  apply encode_umac_written; [by apply writes_auth_body|done|by vm_compute|done|done|done].
Qed.

(** C40: an association request is encoded exactly when its SSID and its
    security lists are within their limits: the 1621-byte message then decodes
    to the associate command with the packed body (ciphers, AKMs and RSN
    element in their fixed-width slots); otherwise nothing is written. *)
Theorem encode_associate_correct w r out :
  in_u 64 w -> len (assoc_bssid r) = 6 -> len (default (zeros 6) (previous_bssid r)) = 6 ->
  1621 <= len out -> len out <= USIZE_MAX ->
  (assoc_valid r
   /\ exists out', encode_associate w r out = (Ok 1621, out')
                   /\ command_written UmacCommand.Associate (Some w) (assoc_body r) out out')
  \/ (~ assoc_valid r
      /\ encode_associate w r out = (Err ProtocolError.LimitExceeded, out)).
Proof.
  intros Hw H6 Hp Ho Hs. unfold encode_associate, mbind, M_bind, lift.
  destruct (validate_assoc_spec r) as [[-> Hv]|[-> Hv]]; [left|by right].
  split; [done|]. pose proof (len_assoc_body r Hv H6 Hp).
  apply encode_umac_written; [by apply writes_assoc_body|done|by vm_compute|done|done|done].
Qed.

(** A sample WPA2 join. *)
Definition sample_authentication : AuthenticationRequest :=
  mkAuthenticationRequest 2412 [2; 0; 0; 0; 0; 1] [104; 105] AuthenticationType.OpenSystem
    false [] [] None (mkBssContext 0 (-40) true [0; 2; 104; 105] 17 100 7).
Definition sample_association : AssociationRequest :=
  mkAssociationRequest 2412 [2; 0; 0; 0; 0; 1] [104; 105]
    (Some (mkAssociationSecurity [0x000fac04] 0x000fac04 [0x000fac02] MfpMode.Disabled
             [48; 20]))
    0 None 0.

Example encode_authenticate_correct_witness :
  (auth_valid sample_authentication
   /\ exists out', encode_authenticate 1 sample_authentication (zeros 1800) = (Ok 1724, out')
        /\ command_written UmacCommand.Authenticate (Some 1)
             (auth_body sample_authentication) (zeros 1800) out')
  \/ (~ auth_valid sample_authentication
      /\ encode_authenticate 1 sample_authentication (zeros 1800)
         = (Err ProtocolError.LimitExceeded, zeros 1800)).
Proof.
  apply (encode_authenticate_correct 1 sample_authentication (zeros 1800));
    [split|..]; by vm_compute.
Defined.

Example encode_associate_correct_witness :
  (assoc_valid sample_association
   /\ exists out', encode_associate 1 sample_association (zeros 1800) = (Ok 1621, out')
        /\ command_written UmacCommand.Associate (Some 1)
             (assoc_body sample_association) (zeros 1800) out')
  \/ (~ assoc_valid sample_association
      /\ encode_associate 1 sample_association (zeros 1800)
         = (Err ProtocolError.LimitExceeded, zeros 1800)).
Proof.
  apply (encode_associate_correct 1 sample_association (zeros 1800));
    [split|..]; by vm_compute.
Defined.

(** installing or deleting a key accepts only the NEW_KEY and DELETE_KEY
    commands and keys within their limits; the message then decodes to that
    command with the packed key and the peer address, absent peers marked as
    such; every refusal leaves the buffer unchanged. *)
Theorem encode_key_command_correct w command peer key out :
  in_u 64 w -> len (default (zeros 6) peer) = 6 -> len out <= USIZE_MAX ->
  match encode_key_command w command peer key out with
  | (Ok n, out') =>
      n = 593 /\ key_valid key
      /\ (command = UmacCommand.NewKey \/ command = UmacCommand.DeleteKey)
      /\ command_written command (Some w) (key_body peer key) out out'
  | (Err e, out') =>
      out' = out /\
      ((command <> UmacCommand.NewKey /\ command <> UmacCommand.DeleteKey
        /\ e = ProtocolError.InvalidValue (UmacCommand.to_u32 command))
       \/ (~ key_valid key /\ e = ProtocolError.LimitExceeded)
       \/ (len out < 593 /\ e = ProtocolError.BufferTooSmall))
  | (Panic, _) => False
  end.
Proof.
  intros Hw H6 Hs. unfold encode_key_command, mbind at 1 2, M_bind at 1 2, lift at 1 2.
  unfold validate_key_command.
  destruct (_ && _) eqn:Hc; [apply andb_true_iff in Hc as [?%negb_true_iff ?%negb_true_iff]|].
  { split; [done|]. left. split_and!; [by eapply bool_decide_eq_false..|done]. }
  destruct (validate_key_spec key) as [[-> Hv]|[-> Hv]]; [|auto].
  assert (len (key_body peer key) = 545) as Hl.
  { unfold key_body. rewrite !len_app, H6, len_key_info_bytes, len_to_le by done. done. }
  destruct (Z_lt_le_dec (len out) 593).
  - rewrite encode_umac_small by (unfold KEY_INFO_LEN; lia). auto 10.
  - destruct (encode_umac_written command (Some w) 545 _ _ out
                (writes_key_body peer key Hv) Hl) as (out' & E & Hw'); [lia|done|lia|done|].
    change (4 + KEY_INFO_LEN + 6) with 545. rewrite E. split_and!; [done..| |done].
    apply andb_false_iff in Hc as [Hc%negb_false_iff|Hc%negb_false_iff];
      apply bool_decide_eq_true in Hc; auto.
Qed.

Example encode_key_command_correct_witness :
  match encode_key_command 1 UmacCommand.NewKey None
          (KeyConfig_pairwise 0x000fac04 0 (zeros 16)) (zeros 600) with
  | (Ok n, out') =>
      n = 593 /\ key_valid (KeyConfig_pairwise 0x000fac04 0 (zeros 16))
      /\ (UmacCommand.NewKey = UmacCommand.NewKey \/ UmacCommand.NewKey = UmacCommand.DeleteKey)
      /\ command_written UmacCommand.NewKey (Some 1)
           (key_body None (KeyConfig_pairwise 0x000fac04 0 (zeros 16))) (zeros 600) out'
  | (Err e, out') =>
      out' = zeros 600 /\
      ((UmacCommand.NewKey <> UmacCommand.NewKey /\ UmacCommand.NewKey <> UmacCommand.DeleteKey
        /\ e = ProtocolError.InvalidValue (UmacCommand.to_u32 UmacCommand.NewKey))
       \/ (~ key_valid (KeyConfig_pairwise 0x000fac04 0 (zeros 16))
           /\ e = ProtocolError.LimitExceeded)
       \/ (600 < 593 /\ e = ProtocolError.BufferTooSmall))
  | (Panic, _) => False
  end.
Proof.
  apply (encode_key_command_correct 1 UmacCommand.NewKey None
           (KeyConfig_pairwise 0x000fac04 0 (zeros 16)) (zeros 600));
    [split|..]; by vm_compute.
Defined.

(** opening or closing the controlled port sends the set-station command
    whose 793-byte body selects the authorized flag, sets it exactly when the
    port opens, and names the peer. *)
Theorem encode_station_authorized_correct w peer authorized out :
  in_u 64 w -> len peer = 6 -> 841 <= len out -> len out <= USIZE_MAX ->
  exists out',
    encode_station_authorized w peer authorized out = (Ok 841, out')
    /\ command_written UmacCommand.SetStation (Some w)
         (station_authorized_body peer authorized) out out'
    /\ @read_u32 ProtocolError.t (station_authorized_body peer authorized) 264 = Ok 2
    /\ @read_u32 ProtocolError.t (station_authorized_body peer authorized) 268
       = Ok (if authorized then 2 else 0)
    /\ @subslice ProtocolError.t (station_authorized_body peer authorized) 784 790 = Ok peer.
Proof.
  intros Hw H6 Ho Hs.
  destruct (encode_umac_written UmacCommand.SetStation (Some w) 793 _ _ out
    (writes_station_authorized peer authorized)) as (out' & E & Hc); [|done..|].
  { unfold station_authorized_body. rewrite !len_app, H6. done. }
  exists out'. split; [exact E|]. split; [done|]. unfold station_authorized_body.
  split_and!.
  - by read_fields.
  - by destruct authorized; read_fields.
  - repeat rewrite subslice_skip by len_solve. apply subslice_here; len_solve.
Qed.

Example encode_station_authorized_correct_witness :
  exists out',
    encode_station_authorized 0 [2; 0; 0; 0; 0; 1] true (zeros 900) = (Ok 841, out')
    /\ command_written UmacCommand.SetStation (Some 0)
         (station_authorized_body [2; 0; 0; 0; 0; 1] true) (zeros 900) out'
    /\ @read_u32 ProtocolError.t (station_authorized_body [2; 0; 0; 0; 0; 1] true) 264 = Ok 2
    /\ @read_u32 ProtocolError.t (station_authorized_body [2; 0; 0; 0; 0; 1] true) 268 = Ok 2
    /\ @subslice ProtocolError.t (station_authorized_body [2; 0; 0; 0; 0; 1] true) 784 790
       = Ok [2; 0; 0; 0; 0; 1].
Proof.
  apply (encode_station_authorized_correct 0 [2; 0; 0; 0; 0; 1] true (zeros 900));
    [split|..]; by vm_compute.
Defined.

(** parsing a control event from any UMAC message never panics and never
    reads past the message: the result is an event whose variable parts lie
    inside it, or one of the two length/type errors. *)
Theorem parse_control_event_total m :
  bytes_ok (payload m) ->
  outcomes event_ok
    (fun e => e = ProtocolError.InvalidLength \/ e = ProtocolError.WrongMessageType)
    (parse_control_event m).
Proof. apply parse_control_event_spec. Qed.

Example parse_control_event_total_witness :
  outcomes event_ok
    (fun e => e = ProtocolError.InvalidLength \/ e = ProtocolError.WrongMessageType)
    (parse_control_event (mkHostMessageRef false HostMessageType.Umac (zeros 500))).
Proof.
  apply (parse_control_event_total (mkHostMessageRef false HostMessageType.Umac (zeros 500))).
  cbn [payload]. apply Forall_replicate. by vm_compute.
Defined.
