(* ===== verification/System.v ===== *)
(** * System: system event parsing (src/src/system.rs)

    The four event shapes the driver tells apart, the declared-length check of
    the body, and a theorem that classifies every input. *)

From S2P Require Import Prelude Codec Protocol.

Definition SYSTEM_HEADER_LEN : Z := 8.

Module SystemEventId.
Inductive t : Type :=
  | PowerData | InitDone | Statistics | DeinitDone | RadioTest | CoexistenceConfig
  | InternalUmacStatistics | RadioCommandStatus | ChannelSetDone | ModeSetDone
  | FilterSetDone | RawTransmitDone | OffloadedRawTransmitStatus.
Definition to_u32 (x : t) : Z :=
  match x with
  | PowerData => 0 | InitDone => 1 | Statistics => 2 | DeinitDone => 3
  | RadioTest => 4 | CoexistenceConfig => 5 | InternalUmacStatistics => 6
  | RadioCommandStatus => 7 | ChannelSetDone => 8 | ModeSetDone => 9
  | FilterSetDone => 10 | RawTransmitDone => 11 | OffloadedRawTransmitStatus => 12
  end.
End SystemEventId.

Module SystemEvent.
Inductive t : Type :=
  | InitDone
  | DeinitDone
  | PowerData (body : list Z)
  | Statistics (body : list Z)
  | Other (id : Z) (body : list Z).
#[global] Instance eq_dec : EqDecision t.
Proof. solve_decision. Defined.
End SystemEvent.

Definition empty_body_event (body : list Z) (event : SystemEvent.t)
    : res ProtocolError.t SystemEvent.t :=
  if negb (len body =? 0) then Err ProtocolError.InvalidLength else Ok event.

Definition decode_system_event (id : Z) (body : list Z)
    : res ProtocolError.t SystemEvent.t :=
  if id =? SystemEventId.to_u32 SystemEventId.PowerData then Ok (SystemEvent.PowerData body)
  else if id =? SystemEventId.to_u32 SystemEventId.InitDone
  then empty_body_event body SystemEvent.InitDone
  else if id =? SystemEventId.to_u32 SystemEventId.Statistics
  then Ok (SystemEvent.Statistics body)
  else if id =? SystemEventId.to_u32 SystemEventId.DeinitDone
  then empty_body_event body SystemEvent.DeinitDone
  else Ok (SystemEvent.Other id body).

Definition validated_event_body (payload : list Z) : res ProtocolError.t (Z * list Z) :=
  if len payload <? SYSTEM_HEADER_LEN then Err ProtocolError.InvalidLength
  else
    id ← read_u32 payload 0;
    declared ← read_u32 payload 4;
    if (declared <? SYSTEM_HEADER_LEN) || (len payload <? declared)
    then Err ProtocolError.InvalidLength
    else
      body ← subslice payload SYSTEM_HEADER_LEN declared;
      Ok (id, body).

Definition parse_system_event (message : HostMessageRef)
    : res ProtocolError.t SystemEvent.t :=
  if negb (bool_decide (message_type message = HostMessageType.System))
  then Err ProtocolError.WrongMessageType
  else
    '(id, body) ← validated_event_body (payload message);
    decode_system_event id body.

(** ** Lemmas *)

(** The wire form of an event: identifier, total length, body. *)
Definition system_event_bytes (id : Z) (body : list Z) : list Z :=
  to_le 4 id ++ to_le 4 (8 + len body) ++ body.

Lemma validated_event_body_bytes id body rest :
  in_u 32 id -> in_u 32 (8 + len body) ->
  validated_event_body (system_event_bytes id body ++ rest) = Ok (id, body).
Proof.
  intros Hi Hb. unfold validated_event_body, system_event_bytes, SYSTEM_HEADER_LEN.
  rewrite <-!app_assoc. pose proof (len_nonneg body). pose proof (len_nonneg rest).
  rewrite (proj2 (Z.ltb_ge _ _)) by len_solve. read_fields.
  rewrite (proj2 (Z.ltb_ge _ _)) by lia. rewrite (proj2 (Z.ltb_ge _ _)) by len_solve.
  cbn [orb]. rewrite !subslice_skip by len_solve. by rewrite subslice_here by len_solve.
Qed.

Lemma decode_system_event_spec id body :
  outcomes
    (fun e => match e with
              | SystemEvent.InitDone => id = 1 /\ body = []
              | SystemEvent.DeinitDone => id = 3 /\ body = []
              | SystemEvent.PowerData b => id = 0 /\ b = body
              | SystemEvent.Statistics b => id = 2 /\ b = body
              | SystemEvent.Other i b => i = id /\ b = body /\ (id < 0 \/ 4 <= id)
              end)
    (fun e => e = ProtocolError.InvalidLength /\ (id = 1 \/ id = 3) /\ body <> [])
    (decode_system_event id body).
Proof.
  unfold decode_system_event, empty_body_event. cbn [SystemEventId.to_u32].
  destruct (id =? 0) eqn:?; [cbn; split; [lia|done]|].
  destruct (len body =? 0) eqn:Hl; cbn [negb].
  - apply Z.eqb_eq, len_0_nil in Hl as ->.
    repeat (case_goal; [cbn; split_and!; first [lia|done]|]).
    cbn. split_and!; first [lia|done].
  - assert (body <> []) by (intros ->; by vm_compute in Hl).
    repeat (case_goal; [cbn; split_and!; first [lia|done]|]).
    cbn. split_and!; first [lia|done].
Qed.

(** The body is the declared part of the payload. *)
Lemma validated_event_body_spec p :
  bytes_ok p ->
  outcomes (fun ib => @read_u32 ProtocolError.t p 0 = Ok ib.1
                      /\ slice p 8 (8 + len ib.2) = Some ib.2
                      /\ @read_u32 ProtocolError.t p 4 = Ok (8 + len ib.2))
    (fun e => e = ProtocolError.InvalidLength) (validated_event_body p).
Proof.
  intros Hb. unfold validated_event_body, SYSTEM_HEADER_LEN.
  destruct (len p <? 8) eqn:?; [done|].
  destruct (@read_u32_range ProtocolError.t p 0) as (i & Hi & _); [done|lia|lia|].
  destruct (@read_u32_range ProtocolError.t p 4) as (d & Hd & _); [done|lia|lia|].
  rewrite Hi, Hd. cbn [mbind res_bind].
  destruct (_ || _) eqn:Hc; [done|]. apply orb_false_iff in Hc as [? ?].
  unfold subslice. rewrite slice_in by lia. cbn.
  pose proof (slice_in p 8 d ltac:(lia) ltac:(lia)) as Hs.
  pose proof (slice_len _ _ _ _ Hs) as Hl. rewrite Hl.
  by replace (8 + (d - 8)) with d by lia.
Qed.

Lemma parse_system_event_spec m :
  bytes_ok (payload m) ->
  match parse_system_event m with
  | Ok e =>
      message_type m = HostMessageType.System
      /\ exists id body,
           @read_u32 ProtocolError.t (payload m) 0 = Ok id
           /\ @read_u32 ProtocolError.t (payload m) 4 = Ok (8 + len body)
           /\ slice (payload m) 8 (8 + len body) = Some body
           /\ decode_system_event id body = Ok e
  | Err e => e = ProtocolError.InvalidLength
             \/ e = ProtocolError.WrongMessageType /\ message_type m <> HostMessageType.System
  | Panic => False
  end.
Proof.
  intros Hb. unfold parse_system_event.
  destruct (bool_decide _) eqn:Hd; cbn [negb].
  - apply bool_decide_eq_true in Hd. pose proof (validated_event_body_spec _ Hb) as Hv.
    destruct (validated_event_body (payload m)) as [[id body]|e|]; cbn in *; [|auto..].
    destruct Hv as (H1 & H2 & H3). pose proof (decode_system_event_spec id body) as Hs.
    destruct (decode_system_event id body) eqn:E; cbn in *; [|tauto..].
    split; [done|]. by exists id, body.
  - apply bool_decide_eq_false in Hd. auto.
Qed.

(** * Properties *)

(** parsing a system event never panics: a value is the decoding of the
    identifier word and of exactly the bytes between the header and the
    declared length; the only errors are a bad length and a message that is
    not a system message. *)
Theorem parse_system_event_total m :
  bytes_ok (payload m) ->
  match parse_system_event m with
  | Ok e =>
      message_type m = HostMessageType.System
      /\ exists id body,
           @read_u32 ProtocolError.t (payload m) 0 = Ok id
           /\ @read_u32 ProtocolError.t (payload m) 4 = Ok (8 + len body)
           /\ slice (payload m) 8 (8 + len body) = Some body
           /\ decode_system_event id body = Ok e
  | Err e => e = ProtocolError.InvalidLength
             \/ e = ProtocolError.WrongMessageType /\ message_type m <> HostMessageType.System
  | Panic => False
  end.
Proof. apply parse_system_event_spec. Qed.

Example parse_system_event_total_witness :
  match parse_system_event
          (mkHostMessageRef false HostMessageType.System [2;0;0;0; 10;0;0;0; 5;6;7]) with
  | Ok e =>
      HostMessageType.System = HostMessageType.System
      /\ exists id body,
           @read_u32 ProtocolError.t [2;0;0;0; 10;0;0;0; 5;6;7] 0 = Ok id
           /\ @read_u32 ProtocolError.t [2;0;0;0; 10;0;0;0; 5;6;7] 4 = Ok (8 + len body)
           /\ slice [2;0;0;0; 10;0;0;0; 5;6;7] 8 (8 + len body) = Some body
           /\ decode_system_event id body = Ok e
  | Err e => e = ProtocolError.InvalidLength
             \/ e = ProtocolError.WrongMessageType
                /\ HostMessageType.System <> HostMessageType.System
  | Panic => False
  end.
Proof.
  apply (parse_system_event_total
           (mkHostMessageRef false HostMessageType.System [2;0;0;0; 10;0;0;0; 5;6;7])).
  repeat constructor; by vm_compute.
Defined.
