(* ===== verification/Bus.v ===== *)
(** * Bus: the host bus and the SPI transport (src/src/bus.rs)

    [BusOps] is the [Bus] trait: the operations every layer above uses.  [W] is
    the state of the host side (bus and delay provider), [E] the bus error.
    [BusLaws] states what the trait's types already promise: no panic, a status
    register is a byte, a lent buffer keeps its length and holds bytes.  The
    SPI device of the embedded-hal crate is the parameter [SpiDevice], and the
    transport is proved to implement [BusLaws] over any device.  The arithmetic
    on addresses wraps as in a release build. *)

From S2P Require Import Prelude.

Definition OPCODE_FAST_READ : Z := 0x0b.
Definition OPCODE_WRITE : Z := 0x02.
Definition OPCODE_READ_STATUS_1 : Z := 0x1f.
Definition OPCODE_READ_STATUS_2 : Z := 0x2f.
Definition OPCODE_WRITE_STATUS_2 : Z := 0x3f.
Definition INCREMENTING_ADDRESS_MASK : Z := 0x800000.
Definition RPU_WAKE_REQUEST : Z := bit 0.
Definition RPU_AWAKE : Z := bit 1.
Definition RPU_READY : Z := bit 2.
Definition MAX_SLAVE_LATENCY_WORDS : Z := 8.
Definition MAX_SLAVE_LATENCY_BYTES : Z := MAX_SLAVE_LATENCY_WORDS * 4.
Definition READ_HEADER_LEN : Z := 5.
Definition HIGH_LATENCY_READ_WORD_LEN : Z := 4.
Definition MAX_SPI_DATA_LEN : Z := 4096.
Definition SPI_IO_BUFFER_LEN : Z := READ_HEADER_LEN + MAX_SLAVE_LATENCY_BYTES + MAX_SPI_DATA_LEN.

(** ** The [Bus] trait *)

Class BusOps (W E : Type) : Type := {
  bus_read_status : Z -> M W E Z;
  bus_write_status : Z -> Z -> M W E unit;
  bus_read : Z -> M (W * list Z) E unit;
  bus_write : Z -> list Z -> M W E unit }.

(** What the types of the trait promise its clients; a read of more than
    [MAX_SPI_DATA_LEN] bytes, which they never ask for, is left open.
    [bus_inv] is an invariant of the implementation's own state. *)
Class BusLaws (W E : Type) `{BusOps W E} : Type := {
  bus_inv : W -> Prop;
  bus_read_status_law opcode :
    is_byte opcode ->
    triple bus_inv (bus_read_status opcode)
      (fun v w => is_byte v /\ bus_inv w) (fun _ => bus_inv);
  bus_write_status_law opcode value :
    triple bus_inv (bus_write_status opcode value) (fun _ => bus_inv) (fun _ => bus_inv);
  bus_read_law address n :
    in_u 32 address -> n <= MAX_SPI_DATA_LEN ->
    lends n bus_inv (bus_read address) (fun _ => bus_inv) (fun _ => bus_inv);
  bus_write_law address data :
    triple bus_inv (bus_write address data) (fun _ => bus_inv) (fun _ => bus_inv) }.

(** [DelayNs::delay_ms] of the embedded-hal crate: time passes on the host. *)
Class DelayOps (W : Type) : Type := { delay_ms : Z -> W -> W }.
Class DelayLaws (W E : Type) `{BusLaws W E} `{DelayOps W} : Type := {
  delay_inv ms w : bus_inv w -> bus_inv (delay_ms ms w) }.

Definition delay {W E} `{DelayOps W} (ms : Z) : M W E unit := modify (delay_ms ms).

(** The [Bus] implementation for [()] of src/src/test_support.rs. *)
#[export] Instance unit_bus : BusOps unit unit := {
  bus_read_status _ := mret 0;
  bus_write_status _ _ := mret tt;
  bus_read _ := modify (fun wl => (wl.1, zeros (len wl.2)));
  bus_write _ _ := mret tt }.
#[export] Instance unit_delay : DelayOps unit := { delay_ms _ w := w }.
#[export, refine] Instance unit_bus_laws : BusLaws unit unit := { bus_inv _ := True }.
Proof.
  - intros opcode _ w _. cbn. split; [by vm_compute|done].
  - done.
  - intros address n _ _ [w l] [_ [<- _]]. cbn in *. split; [done|].
    apply buf_ok_zeros, len_nonneg.
  - done.
Defined.
#[export] Instance unit_delay_laws : DelayLaws unit unit := { delay_inv _ _ _ := I }.

(** ** A scripted bus

    The bus of the examples: it answers each read from a list of replies (a
    [None] is a bus error, the end of the list reads as zeros) and records
    every write. *)

Record script : Type := mkScript {
  replies : list (option (list Z));
  written : list (Z * list Z) }.

Definition next_reply : M script unit (list Z) := fun s =>
  match replies s with
  | [] => (Ok [], s)
  | Some bytes :: rest => (Ok bytes, mkScript rest (written s))
  | None :: rest => (Err tt, mkScript rest (written s))
  end.

#[export] Instance script_bus : BusOps script unit := {
  bus_read_status _ := bytes ← next_reply; mret (default 0 (head bytes));
  bus_write_status _ _ := mret tt;
  bus_read _ :=
    bytes ← on_fst next_reply;
    modify (fun sl => (sl.1, take (length sl.2) (bytes ++ zeros (len sl.2))));
  bus_write address data :=
    modify (fun s => mkScript (replies s) (written s ++ [(address, data)])) }.
#[export] Instance script_delay : DelayOps script := { delay_ms _ s := s }.

Definition reply_ok (o : option (list Z)) : Prop :=
  match o with Some bytes => bytes_ok bytes | None => True end.

Definition reply_okb (o : option (list Z)) : bool :=
  match o with Some bytes => bytes_okb bytes | None => true end.
Lemma replies_okb_ok l : forallb reply_okb l = true -> Forall reply_ok l.
Proof.
  induction l as [|o l IH]; cbn; [by intros; apply Forall_nil|].
  intros [Ho Hl]%andb_true_iff. apply Forall_cons_2; [|auto].
  destruct o; [by apply bytes_okb_ok|done].
Qed.

#[export, refine] Instance script_bus_laws : BusLaws script unit :=
  { bus_inv s := Forall reply_ok (replies s) }.
Proof.
  - intros opcode _ [r w] Hs. cbn in *. unfold mbind, M_bind, next_reply. cbn.
    destruct r as [|[bytes|] rest]; cbn; [by split|..]; inversion Hs as [|? ? Hb Hr]; subst.
    + split; [|done]. by destruct Hb.
    + done.
  - by intros opcode value s Hs.
  - intros address n _ _ [[r w] l] [Hs [<- Hl]]. cbn in *. unfold mbind, M_bind, on_fst, next_reply.
    assert (forall bytes, bytes_ok bytes -> buf_ok (len l) (take (length l) (bytes ++ zeros (len l)))) as Ht.
    { intros bytes Hb. split.
      - rewrite len_take, len_app, len_zeros by apply len_nonneg.
        pose proof (len_nonneg bytes). unfold len in *. lia.
      - apply Forall_take, Forall_app_2; [done|]. by apply Forall_replicate. }
    cbn. destruct r as [|[bytes|] rest]; cbn.
    + split; [done|]. apply (Ht []). by apply Forall_nil.
    + inversion Hs; subst. split; [done|]. by apply Ht.
    + inversion Hs; subst. by split.
  - by intros address data s Hs.
Defined.
#[export] Instance script_delay_laws : DelayLaws script unit := { delay_inv _ _ H := H }.

(** ** SPI framing settings *)

Record SpiConfig : Type := mkSpiConfig {
  address_mask : Z;
  slave_latency_words : Z;
  nordic_memory_map_latency : bool }.

Definition NORDIC_DEFAULT : SpiConfig := mkSpiConfig INCREMENTING_ADDRESS_MASK 0 false.
Definition NORDIC_MEMORY_MAP : SpiConfig := mkSpiConfig INCREMENTING_ADDRESS_MASK 0 true.

Definition SpiConfig_new (mask words : Z) : option SpiConfig :=
  if (0x00ffffff <? mask) || (MAX_SLAVE_LATENCY_WORDS <? words) then None
  else Some (mkSpiConfig mask words false).

(** [low..=high] *)
Definition within (low high x : Z) : bool := (low <=? x) && (x <=? high).

Definition lowest_memory_latency_words (address : Z) : Z :=
  if within 0x000000 0x008fff address then 1
  else if within 0x009000 0x03ffff address then 2
  else if within 0x040000 0x07ffff address then 1
  else 0.

Definition upper_low_memory_latency_words (address : Z) : Z :=
  if within 0x080000 0x092000 address then 2
  else if within 0x0c0000 0x0f0fff address then 0
  else 0.

Definition low_memory_latency_words (address : Z) : Z :=
  if address <=? 0x07ffff then lowest_memory_latency_words address
  else upper_low_memory_latency_words address.

Definition is_first_high_one_word_region (address : Z) : bool :=
  within 0x100000 0x134000 address || within 0x140000 0x14c000 address
  || within 0x180000 0x190000 address.

Definition is_second_high_one_word_region (address : Z) : bool :=
  within 0x200000 0x261800 address || within 0x280000 0x2a4000 address
  || within 0x300000 0x338000 address.

Definition is_high_one_word_region (address : Z) : bool :=
  is_first_high_one_word_region address || is_second_high_one_word_region address.

Definition memory_map_latency_words (address : Z) : Z :=
  if address <=? 0x0f0fff then low_memory_latency_words address
  else if is_high_one_word_region address then 1
  else 0.

Definition read_latency_words (config : SpiConfig) (address : Z) : Z :=
  if negb (nordic_memory_map_latency config) then slave_latency_words config
  else memory_map_latency_words (Z.ldiff address (address_mask config)).

(** ** The transport *)

(** The embedded-hal SPI device: a write, and a transfer in place of a lent
    buffer.  Chip select covers each call. *)
Class SpiDevice (S E : Type) : Type := {
  spi_write : list Z -> M S E unit;
  spi_transfer_in_place : M (S * list Z) E unit }.
Class SpiDeviceLaws (S E : Type) `{SpiDevice S E} : Type := {
  spi_write_law bytes : triple (fun _ => True) (spi_write bytes) (fun _ _ => True) (fun _ _ => True);
  spi_transfer_law n :
    lends n (fun _ => True) spi_transfer_in_place (fun _ _ => True) (fun _ _ => True) }.

Record SpiTransport (S : Type) : Type := mkSpiTransport {
  spi : S;
  config : SpiConfig;
  io_buffer : list Z }.
Arguments mkSpiTransport {S}.
Arguments spi {S}.
Arguments config {S}.
Arguments io_buffer {S}.

Section transport.
Context {S E : Type} `{SpiDevice S E}.

Definition SpiTransport_with_config (spi : S) (config : SpiConfig) : SpiTransport S :=
  mkSpiTransport spi config (zeros SPI_IO_BUFFER_LEN).
Definition SpiTransport_new (spi : S) : SpiTransport S :=
  SpiTransport_with_config spi NORDIC_DEFAULT.

Definition wire_address (t : SpiTransport S) (address : Z) : Z :=
  Z.land (Z.lor address (address_mask (config t))) 0x00ffffff.

Definition on_spi {A} (m : M S E A) : M (SpiTransport S) E A :=
  zoom spi (fun s t => mkSpiTransport s (config t) (io_buffer t)) m.

(** [self.io_buffer.bytes[at..at + len].copy_from_slice(bytes)] *)
Definition io_put (at_ : Z) (bytes : list Z) : M (SpiTransport S) E unit :=
  t ← get;
  lift (expect (slice (io_buffer t) at_ (at_ + len bytes)));;
  modify (fun t => mkSpiTransport (spi t) (config t) (splice (io_buffer t) at_ bytes)).

(** [self.spi.transfer_in_place(&mut self.io_buffer.bytes[..n])] *)
Definition io_transfer (n : Z) : M (SpiTransport S) E unit := fun t =>
  match on_slice 0 n spi_transfer_in_place (spi t, io_buffer t) with
  | (r, (s, l)) => (r, mkSpiTransport s (config t) l)
  end.

Definition SpiTransport_read_status (opcode : Z) : M (SpiTransport S) E Z :=
  on_spi ('(_, transfer) ← with_local [opcode; 0; 0; 0; 0; 0] spi_transfer_in_place;
          lift (expect (nthZ transfer 1))).

Definition SpiTransport_write_status (opcode value : Z) : M (SpiTransport S) E unit :=
  on_spi (spi_write [opcode; value]).

(** The transfer of one frame; the second component of the state is the lent
    [data] buffer. *)
Definition read_one (address : Z) (incrementing : bool)
    : M (SpiTransport S * list Z) E unit :=
  '(t, data) ← get;
  let latency_len := read_latency_words (config t) address * 4 in
  let address :=
    if incrementing then wire_address t address else Z.land address 0x00ffffff in
  lift (assertion ((latency_len =? 0) || (len data <=? HIGH_LATENCY_READ_WORD_LEN)));;
  lift (assertion (len data <=? MAX_SPI_DATA_LEN));;
  on_fst (io_put 0 [OPCODE_FAST_READ]);;
  on_fst (io_put 1 [u8 (Z.shiftr address 16)]);;
  on_fst (io_put 2 [u8 (Z.shiftr address 8)]);;
  on_fst (io_put 3 [u8 address]);;
  on_fst (io_put 4 [0]);;
  let data_start := READ_HEADER_LEN + latency_len in
  let transfer_len := data_start + len data in
  on_fst (io_put READ_HEADER_LEN (zeros (data_start - READ_HEADER_LEN)));;
  on_fst (io_put data_start (replicate (Z.to_nat (transfer_len - data_start)) 0xff));;
  on_fst (io_transfer transfer_len);;
  t ← gets fst;
  received ← lift (expect (slice (io_buffer t) data_start transfer_len));
  modify (fun tl => (tl.1, received));;
  on_fst (io_put 0 (zeros transfer_len)).

(** [while done < data.len()]: running out of [fuel] is a panic, and the
    length of the data is enough fuel. *)
Fixpoint read_incrementing_loop (fuel : nat) (address done : Z)
    : M (SpiTransport S * list Z) E unit :=
  n ← gets (fun tl => len tl.2);
  if negb (done <? n) then mret tt
  else
    match fuel with
    | O => lift Panic
    | Datatypes.S fuel =>
        let count := Z.min MAX_SPI_DATA_LEN (n - done) in
        on_slice done (done + count) (read_one (u32 (address + u32 done)) true);;
        read_incrementing_loop fuel address (done + count)
    end.

Definition read_incrementing (address : Z) : M (SpiTransport S * list Z) E unit :=
  fun tl => read_incrementing_loop (length tl.2) address 0 tl.

Definition read_word_at_a_time (address : Z) : M (SpiTransport S * list Z) E unit :=
  for_chunks_mut HIGH_LATENCY_READ_WORD_LEN (fun index =>
    read_one (u32 (address + u32 (u32 index * HIGH_LATENCY_READ_WORD_LEN))) false).

Definition SpiTransport_read (address : Z) : M (SpiTransport S * list Z) E unit :=
  '(t, data) ← get;
  if len data =? 0 then mret tt
  else if nordic_memory_map_latency (config t)
          && negb (read_latency_words (config t) address =? 0)
  then read_word_at_a_time address
  else read_incrementing address.

(** One iteration of the write loop: frame, send, scrub. *)
Definition write_one (address : Z) (chunk : list Z) : M (SpiTransport S) E unit :=
  t ← get;
  let address := wire_address t address in
  let count := len chunk in
  io_put 0 [OPCODE_WRITE];;
  io_put 1 [u8 (Z.shiftr address 16)];;
  io_put 2 [u8 (Z.shiftr address 8)];;
  io_put 3 [u8 address];;
  io_put 4 chunk;;
  t ← get;
  frame ← lift (expect (slice (io_buffer t) 0 (4 + count)));
  on_spi (spi_write frame);;
  io_put 0 (zeros (4 + count)).

Fixpoint write_loop (fuel : nat) (address : Z) (data : list Z) (done : Z)
    : M (SpiTransport S) E unit :=
  if negb (done <? len data) then mret tt
  else
    match fuel with
    | O => lift Panic
    | Datatypes.S fuel =>
        let count := Z.min MAX_SPI_DATA_LEN (len data - done) in
        chunk ← lift (expect (slice data done (done + count)));
        write_one (u32 (address + u32 done)) chunk;;
        write_loop fuel address data (done + count)
    end.

Definition SpiTransport_write (address : Z) (data : list Z) : M (SpiTransport S) E unit :=
  if len data =? 0 then mret tt else write_loop (length data) address data 0.

#[export] Instance SpiTransport_bus : BusOps (SpiTransport S) E := {
  bus_read_status := SpiTransport_read_status;
  bus_write_status := SpiTransport_write_status;
  bus_read := SpiTransport_read;
  bus_write := SpiTransport_write }.
End transport.

(** ** Specification: frames on the wire *)

(** The three address bytes of a frame, most significant first. *)
Definition address_bytes (a : Z) : list Z := [u8 (Z.shiftr a 16); u8 (Z.shiftr a 8); u8 a].
Definition write_frame (a : Z) (chunk : list Z) : list Z :=
  OPCODE_WRITE :: address_bytes a ++ chunk.
(** A fast read of [n] bytes after [latency] dummy bytes. *)
Definition read_frame (a latency n : Z) : list Z :=
  OPCODE_FAST_READ :: address_bytes a ++ [0] ++ zeros latency
    ++ replicate (Z.to_nat n) 0xff.

(** The frames of a bus write: one per chunk of 4096 bytes, at consecutive
    addresses. *)
Fixpoint write_frames (fuel : nat) (mask address : Z) (data : list Z) : list (list Z) :=
  match fuel, data with
  | O, _ | _, [] => []
  | Datatypes.S fuel, _ =>
      write_frame (Z.land (Z.lor (u32 address) mask) 0x00ffffff) (take 4096 data)
        :: write_frames fuel mask (address + 4096) (drop 4096 data)
  end.

(** ** Lemmas *)

(** The three address bytes name a 24-bit address. *)
Lemma address_bytes_be a : 0 <= a < 2 ^ 24 -> from_be (address_bytes a) = a.
Proof.
  intros Ha. unfold from_be, address_bytes, u8. cbn [rev app from_le].
  rewrite !Z.shiftr_div_pow2 by lia. change (2 ^ 16) with 65536.
  change (2 ^ 8) with 256. change (2 ^ 24) with 16777216 in Ha.
  Z.div_mod_to_equations. lia.
Qed.

Lemma wire_bound a : 0 <= Z.land a 0x00ffffff < 2 ^ 24.
Proof. change 0x00ffffff with (Z.ones 24). rewrite Z.land_ones by lia.
  by apply Z.mod_pos_bound. Qed.

Lemma len_address_bytes a : len (address_bytes a) = 3.
Proof. reflexivity. Qed.

Lemma len_write_frame a c : len (write_frame a c) = 4 + len c.
Proof. unfold write_frame. rewrite len_cons, len_app, len_address_bytes. lia. Qed.

Lemma len_read_frame a l n : 0 <= l -> 0 <= n -> len (read_frame a l n) = 5 + l + n.
Proof.
  intros. unfold read_frame.
  rewrite len_cons, !len_app, len_address_bytes, len_zeros, len_replicate, len_cons by done.
  change (len (@nil Z)) with 0. lia.
Qed.

(** Settings a client can obtain. *)
Definition config_ok (c : SpiConfig) : Prop := 0 <= slave_latency_words c <= 8.

Lemma SpiConfig_new_ok mask words c :
  0 <= words -> SpiConfig_new mask words = Some c -> config_ok c.
Proof.
  unfold SpiConfig_new, MAX_SLAVE_LATENCY_WORDS.
  destruct (_ || _) eqn:Hc; [done|]. apply orb_false_iff in Hc as [? ?].
  intros ? [= <-]. unfold config_ok. cbn. lia.
Qed.

Lemma SpiConfig_new_fields mask words c :
  SpiConfig_new mask words = Some c ->
  nordic_memory_map_latency c = false /\ slave_latency_words c = words.
Proof. unfold SpiConfig_new. destruct (_ || _); [done|]. by intros [= <-]. Qed.

Lemma memory_map_latency_bound a : 0 <= memory_map_latency_words a <= 2.
Proof.
  unfold memory_map_latency_words, low_memory_latency_words, lowest_memory_latency_words,
    upper_low_memory_latency_words.
  repeat case_match; lia.
Qed.

Lemma read_latency_bound c a : config_ok c -> 0 <= read_latency_words c a <= 8.
Proof.
  intros Hc. unfold read_latency_words. destruct (negb _); [exact Hc|].
  pose proof (memory_map_latency_bound (Z.ldiff a (address_mask c))). lia.
Qed.

(** *** The I/O buffer *)

Section transport_lemmas.
Context {S E : Type} `{SpiDevice S E}.
Implicit Types t : SpiTransport S.

(** The buffer is as large as the transport made it. *)
Definition transport_ok t : Prop :=
  config_ok (config t) /\ len (io_buffer t) = SPI_IO_BUFFER_LEN.
(** No byte of an earlier transfer is left in the buffer. *)
Definition scrubbed t : Prop := io_buffer t = zeros SPI_IO_BUFFER_LEN.

Definition set_io t (l : list Z) : SpiTransport S := mkSpiTransport (spi t) (config t) l.

Lemma io_put_app t pre mid post v a :
  a = len pre -> len mid = len v ->
  io_put (E:=E) a v (set_io t (pre ++ mid ++ post))
  = (Ok tt, set_io t (pre ++ v ++ post)).
Proof.
  intros -> Hl. unfold io_put, set_io. munfold. cbn [io_buffer spi config].
  rewrite <-Hl, slice_mid. cbn [expect].
  rewrite splice_mid by (unfold len in Hl; lia). done.
Qed.

(** Splits the buffer into the part a frame of [n] bytes uses and the rest. *)
Lemma io_split t n :
  transport_ok t -> 0 <= n <= SPI_IO_BUFFER_LEN ->
  exists mid post, t = set_io t (mid ++ post) /\ len mid = n
                   /\ post = drop (Z.to_nat n) (io_buffer t).
Proof.
  intros [_ Hl] Hn. exists (take (Z.to_nat n) (io_buffer t)), (drop (Z.to_nat n) (io_buffer t)).
  rewrite take_drop. split; [by destruct t|]. split; [|done]. rewrite len_take. lia.
Qed.

Lemma io_step {A} t pre b mid post v (f : unit -> M (SpiTransport S) E A) a :
  a = len pre ->
  (io_put a [v] ≫= f) (set_io t (pre ++ (b :: mid) ++ post))
  = f tt (set_io t ((pre ++ [v]) ++ mid ++ post)).
Proof.
  intros Ha. change (b :: mid) with ([b] ++ mid). rewrite <-(app_assoc [b]).
  unfold mbind, M_bind. rewrite (io_put_app t pre [b] (mid ++ post) [v] a Ha eq_refl).
  by rewrite <-(app_assoc pre).
Qed.

Lemma len_cons_inv {A} (l : list A) n :
  0 < n -> len l = n -> exists x k, l = x :: k /\ len k = n - 1.
Proof.
  intros Hn Hl. destruct l as [|x k]; [unfold len in *; cbn in *; lia|].
  rewrite len_cons in Hl. exists x, k. split; [done|lia].
Qed.

(** One write frame: what goes to the device, and what is left behind. *)
Lemma write_one_spec t address chunk :
  transport_ok t -> len chunk <= 4096 ->
  let frame := write_frame (wire_address t address) chunk in
  let rest := drop (Z.to_nat (4 + len chunk)) (io_buffer t) in
  write_one (E:=E) address chunk t
  = match spi_write frame (spi t) with
    | (Ok _, s) => (Ok tt, mkSpiTransport s (config t) (zeros (4 + len chunk) ++ rest))
    | (Err e, s) => (Err e, mkSpiTransport s (config t) (frame ++ rest))
    | (Panic, s) => (Panic, mkSpiTransport s (config t) (frame ++ rest))
    end.
Proof.
  intros Hok Hc frame rest. pose proof (len_nonneg chunk).
  destruct (io_split t (4 + len chunk) Hok) as (mid & post & Ht & Hm & Hp).
  { unfold SPI_IO_BUFFER_LEN, READ_HEADER_LEN, MAX_SLAVE_LATENCY_BYTES,
      MAX_SLAVE_LATENCY_WORDS, MAX_SPI_DATA_LEN. lia. }
  fold rest in Hp. subst post.
  apply len_cons_inv in Hm as (b0 & m0 & -> & Hm); [|lia].
  apply len_cons_inv in Hm as (b1 & m1 & -> & Hm); [|lia].
  apply len_cons_inv in Hm as (b2 & m2 & -> & Hm); [|lia].
  apply len_cons_inv in Hm as (b3 & m3 & -> & Hm); [|lia].
  unfold write_one. unfold mbind at 1, M_bind at 1, get at 1. cbv zeta.
  set (a := wire_address t address) in *. rewrite Ht.
  change ((b0 :: b1 :: b2 :: b3 :: m3) ++ rest)
    with ([] ++ (b0 :: b1 :: b2 :: b3 :: m3) ++ rest).
  rewrite !io_step by done. cbn [app].
  unfold mbind at 1, M_bind at 1.
  rewrite <-(app_nil_l (OPCODE_WRITE :: _)).
  set (hd := [OPCODE_WRITE; u8 (Z.shiftr a 16); u8 (Z.shiftr a 8); u8 a]).
  change (set_io t ([] ++ OPCODE_WRITE :: _)) with (set_io t (hd ++ m3 ++ rest)).
  rewrite io_put_app by (done || lia).
  change hd with (OPCODE_WRITE :: address_bytes a).
  unfold mbind at 1, M_bind at 1, get at 1. unfold mbind at 1, M_bind at 1, lift at 1.
  assert (io_buffer (set_io t ((OPCODE_WRITE :: address_bytes a) ++ chunk ++ rest))
          = [] ++ frame ++ rest) as ->.
  { unfold frame, write_frame. cbn [set_io io_buffer app]. by rewrite <-app_assoc. }
  replace (4 + len chunk) with (len (@nil Z) + len frame)
    by (unfold frame; rewrite len_write_frame; done).
  change 0 with (len (@nil Z)) at 1.
  rewrite slice_mid. cbn [expect].
  unfold mbind at 1, M_bind at 1, on_spi at 1, zoom at 1. cbn [set_io spi config io_buffer].
  destruct (spi_write frame (spi t)) as [[u|e|] s].
  2-3: do 2 f_equal; unfold frame, write_frame; cbn [app]; by rewrite <-app_assoc.
  change (mkSpiTransport s (config t) ((OPCODE_WRITE :: address_bytes a) ++ chunk ++ rest))
    with (set_io (mkSpiTransport s (config t) []) (([] ++ OPCODE_WRITE :: address_bytes a) ++ chunk ++ rest)).
  rewrite <-app_assoc, (app_assoc _ chunk).
  rewrite (io_put_app _ []); [done|done|]. fold (write_frame a chunk). fold frame.
  rewrite len_zeros by apply len_nonneg. cbn. done.
Qed.

Lemma on_fst_put {A} t pre mid post v (f : unit -> M (SpiTransport S * list Z) E A) a
    (data : list Z) :
  a = len pre -> len mid = len v ->
  (on_fst (io_put a v) ≫= f) (set_io t (pre ++ mid ++ post), data)
  = f tt (set_io t (pre ++ v ++ post), data).
Proof.
  intros H1 H2. unfold mbind, M_bind, on_fst. by rewrite (io_put_app t pre mid post v a H1 H2).
Qed.

Lemma on_fst_step {A} t pre b mid post v (f : unit -> M (SpiTransport S * list Z) E A) a
    (data : list Z) :
  a = len pre ->
  (on_fst (io_put a [v]) ≫= f) (set_io t (pre ++ (b :: mid) ++ post), data)
  = f tt (set_io t ((pre ++ [v]) ++ mid ++ post), data).
Proof.
  intros Ha. change (b :: mid) with ([b] ++ mid).
  by rewrite <-(app_assoc [b]), on_fst_put, <-(app_assoc pre).
Qed.

(** What [read_one] does once the frame is in the buffer. *)
Definition read_finish (data_start transfer_len : Z) : M (SpiTransport S * list Z) E unit :=
  on_fst (io_transfer transfer_len);;
  t ← gets fst;
  received ← lift (expect (slice (io_buffer t) data_start transfer_len));
  modify (fun tl => (tl.1, received));;
  on_fst (io_put 0 (zeros transfer_len)).

Lemma read_one_frame t address (incrementing : bool) data :
  transport_ok t -> len data <= 4096 ->
  read_latency_words (config t) address = 0 \/ len data <= 4 ->
  let latency := read_latency_words (config t) address * 4 in
  let a := if incrementing then wire_address t address else Z.land address 0x00ffffff in
  let n := 5 + latency + len data in
  read_one (E:=E) address incrementing (t, data)
  = read_finish (5 + latency) n
      (set_io t (read_frame a latency (len data) ++ drop (Z.to_nat n) (io_buffer t)), data).
Proof.
  intros Hok Hd Hq latency a n. pose proof (len_nonneg data).
  pose proof (read_latency_bound (config t) address (proj1 Hok)) as Hlat.
  destruct (io_split t n Hok) as (mid & post & Ht & Hm & Hp).
  { unfold SPI_IO_BUFFER_LEN, READ_HEADER_LEN, MAX_SLAVE_LATENCY_BYTES,
      MAX_SLAVE_LATENCY_WORDS, MAX_SPI_DATA_LEN, latency, n in *. lia. }
  set (rest := drop _ _) in *. subst post. unfold n in Hm.
  apply len_cons_inv in Hm as (b0 & m0 & -> & Hm); [|lia].
  apply len_cons_inv in Hm as (b1 & m1 & -> & Hm); [|lia].
  apply len_cons_inv in Hm as (b2 & m2 & -> & Hm); [|lia].
  apply len_cons_inv in Hm as (b3 & m3 & -> & Hm); [|lia].
  apply len_cons_inv in Hm as (b4 & m4 & -> & Hm); [|lia].
  rewrite <-(take_drop (Z.to_nat latency) m4) in Ht.
  set (k1 := take _ m4) in Ht. set (k2 := drop _ m4) in Ht.
  assert (len k1 = latency) as Hk1 by (unfold k1; rewrite len_take; lia).
  assert (len k2 = len data) as Hk2 by (unfold k2; rewrite len_drop; lia).
  unfold read_one. unfold mbind at 1, M_bind at 1, get at 1. cbv zeta. fold latency. fold a.
  rewrite (proj2 (orb_true_iff _ _)) by (unfold HIGH_LATENCY_READ_WORD_LEN, latency; lia).
  rewrite (proj2 (Z.leb_le (len data) _)) by (unfold MAX_SPI_DATA_LEN; lia).
  do 2 (unfold mbind at 1, M_bind at 1, lift at 1; cbn [assertion]).
  rewrite Ht at 1. rewrite <-(app_nil_l ((b0 :: _) ++ _)).
  rewrite !on_fst_step by done. rewrite <-(app_assoc k1).
  rewrite on_fst_put by
    (rewrite ?len_zeros by (unfold READ_HEADER_LEN; lia); unfold READ_HEADER_LEN; lia || done).
  rewrite (app_assoc _ (zeros _)), on_fst_put by
    (unfold READ_HEADER_LEN; rewrite ?len_app, ?len_zeros, ?len_replicate by lia;
     rewrite ?len_cons; change (len (@nil Z)) with 0; lia).
  replace (READ_HEADER_LEN + latency - READ_HEADER_LEN) with latency by lia.
  replace (READ_HEADER_LEN + latency + len data - (READ_HEADER_LEN + latency))
    with (len data) by lia.
  unfold read_finish, n. unfold READ_HEADER_LEN. do 3 f_equal.
  unfold read_frame, address_bytes. cbn [app]. by rewrite <-!app_assoc.
Qed.

(** One read frame, for a device that keeps the length of the buffer it is lent. *)
Lemma read_one_spec t address (incrementing : bool) data :
  transport_ok t -> len data <= 4096 ->
  read_latency_words (config t) address = 0 \/ len data <= 4 ->
  let latency := read_latency_words (config t) address * 4 in
  let a := if incrementing then wire_address t address else Z.land address 0x00ffffff in
  let frame := read_frame a latency (len data) in
  let rest := drop (Z.to_nat (len frame)) (io_buffer t) in
  (forall (r : res E unit) s l, spi_transfer_in_place (spi t, frame) = (r, (s, l)) ->
     len l = len frame) ->
  read_one (E:=E) address incrementing (t, data)
  = match spi_transfer_in_place (spi t, frame) with
    | (Ok _, (s, l)) =>
        (Ok tt, (mkSpiTransport s (config t) (zeros (len frame) ++ rest),
                 drop (Z.to_nat (5 + latency)) l))
    | (Err e, (s, l)) => (Err e, (mkSpiTransport s (config t) (l ++ rest), data))
    | (Panic, (s, l)) => (Panic, (mkSpiTransport s (config t) (l ++ rest), data))
    end.
Proof.
  intros Hok Hd Hq latency a frame rest Hlen. pose proof (len_nonneg data).
  pose proof (read_latency_bound (config t) address (proj1 Hok)) as Hlat.
  assert (len frame = 5 + latency + len data) as Hf
    by (unfold frame, latency; apply len_read_frame; lia).
  rewrite read_one_frame by done. cbv zeta. fold latency. fold a. fold frame.
  rewrite <-Hf. fold rest. unfold read_finish.
  unfold mbind at 1, M_bind at 1, on_fst at 1, io_transfer, on_slice at 1.
  cbn [set_io io_buffer spi config]. rewrite <-(app_nil_l (frame ++ rest)).
  change (len frame) with (len (@nil Z) + len frame) at 1.
  change 0 with (len (@nil Z)) at 1. rewrite slice_mid.
  destruct (spi_transfer_in_place (spi t, frame)) as [r [s l]] eqn:Hr.
  specialize (Hlen r s l eq_refl).
  change 0 with (len (@nil Z)) at 1. rewrite splice_mid by (unfold len in Hlen; lia).
  destruct r as [u|e|]; [|done..].
  unfold mbind at 1, M_bind at 1, gets at 1, fst at 1. unfold mbind at 1, M_bind at 1, lift at 1.
  cbn [fst snd io_buffer app]. rewrite slice_app_l by lia.
  rewrite slice_in by lia. cbn [expect].
  unfold mbind at 1, M_bind at 1, modify at 1. cbn [fst snd].
  change (mkSpiTransport s (config t) (l ++ rest))
    with (set_io (mkSpiTransport s (config t) []) ([] ++ l ++ rest)).
  unfold on_fst. rewrite (io_put_app _ [] l) by (rewrite ?len_zeros; first [done|lia]).
  cbn [app set_io spi config]. do 3 f_equal.
  rewrite firstn_all2; [done|]. rewrite length_drop. unfold len in *. lia.
Qed.

(** *** The write loop *)

Lemma u32_add_r a b : u32 (a + u32 b) = u32 (a + b).
Proof. unfold u32. by rewrite Z.add_mod_idemp_r. Qed.

Lemma len_zeros_rest n (l : list Z) :
  0 <= n <= len l -> len (zeros n ++ drop (Z.to_nat n) l) = len l.
Proof. intros. rewrite len_app, len_zeros, len_drop by lia. lia. Qed.

Lemma zeros_rest n m : 0 <= n <= m -> zeros n ++ drop (Z.to_nat n) (zeros m) = zeros m.
Proof.
  intros. unfold zeros. rewrite drop_replicate, <-replicate_add. f_equal. lia.
Qed.

Lemma frame_rest_len f (l : list Z) : len f <= len l ->
  len (f ++ drop (Z.to_nat (len f)) l) = len l.
Proof. intros. rewrite len_app, len_drop. pose proof (len_nonneg f). lia. Qed.

Lemma write_one_step t address chunk :
  transport_ok t -> len chunk <= 4096 ->
  exists io, len io = SPI_IO_BUFFER_LEN
    /\ write_one (E:=E) address chunk t
       = (let '(r, s) := spi_write (write_frame (wire_address t address) chunk) (spi t) in
          (r, mkSpiTransport s (config t) io))
    /\ (fst (spi_write (E:=E) (write_frame (wire_address t address) chunk) (spi t)) = Ok tt ->
        scrubbed t -> io = zeros SPI_IO_BUFFER_LEN).
Proof.
  intros Hok Hc. rewrite write_one_spec by done. destruct Hok as [_ Hl].
  pose proof (len_nonneg chunk).
  assert (4 + len chunk <= SPI_IO_BUFFER_LEN)
    by (unfold SPI_IO_BUFFER_LEN, READ_HEADER_LEN, MAX_SLAVE_LATENCY_BYTES,
          MAX_SLAVE_LATENCY_WORDS, MAX_SPI_DATA_LEN; lia).
  pose proof (len_write_frame (wire_address t address) chunk) as Hf.
  set (f := write_frame _ _) in *.
  destruct (spi_write f (spi t)) as [[[]|e|] s].
  - exists (zeros (4 + len chunk) ++ drop (Z.to_nat (4 + len chunk)) (io_buffer t)).
    rewrite len_zeros_rest by lia. split_and!; [done..|]. intros _ ->. apply zeros_rest. lia.
  - exists (f ++ drop (Z.to_nat (4 + len chunk)) (io_buffer t)).
    rewrite <-Hf, frame_rest_len by lia. by split_and!.
  - exists (f ++ drop (Z.to_nat (4 + len chunk)) (io_buffer t)).
    rewrite <-Hf, frame_rest_len by lia. by split_and!.
Qed.

Lemma write_frames_payload fuel mask address data :
  len data <= Z.of_nat fuel ->
  concat (map (drop 4) (write_frames fuel mask address data)) = data
  /\ Forall (fun f => len f <= 4100) (write_frames fuel mask address data).
Proof.
  revert address data. induction fuel as [|fuel IH]; intros address [|x l] Hf;
    try (split; [done|by apply Forall_nil]).
  cbn [write_frames map concat]. set (data := x :: l) in *.
  destruct (IH (address + 4096) (drop 4096 data)) as [IHc IHl].
  { rewrite len_drop. lia. }
  rewrite IHc. split.
  - transitivity (take 4096 data ++ drop 4096 data); [done|apply take_drop].
  - apply Forall_cons_2; [|done]. rewrite len_write_frame, len_take. lia.
Qed.

Lemma write_loop_spec fuel address data done t :
  transport_ok t -> 0 <= done <= len data -> len data - done <= Z.of_nat fuel ->
  let X := for_each (E:=E) (write_frames fuel (address_mask (config t)) (address + done)
                       (drop (Z.to_nat done) data)) spi_write (spi t) in
  exists io, len io = SPI_IO_BUFFER_LEN
    /\ write_loop fuel address data done t = (fst X, mkSpiTransport (snd X) (config t) io)
    /\ (fst X = Ok tt -> scrubbed t -> io = zeros SPI_IO_BUFFER_LEN).
Proof.
  revert done t. induction fuel as [|fuel IH]; intros done t Hok Hd Hf X.
  - exists (io_buffer t). destruct Hok as [_ Hl]. cbn [write_loop].
    rewrite (proj2 (Z.ltb_ge _ _)) by lia. subst X. cbn.
    split_and!; [done|by destruct t|done].
  - cbn [write_loop]. destruct (done <? len data) eqn:Hlt; cbn [negb].
    2: { assert (drop (Z.to_nat done) data = []) as Hnil
           by (apply drop_ge; unfold len in *; lia).
         subst X. rewrite Hnil. exists (io_buffer t). destruct Hok as [_ Hl].
         split_and!; [done|by destruct t|done]. }
    set (count := Z.min MAX_SPI_DATA_LEN (len data - done)).
    assert (0 < count <= 4096) by (unfold count, MAX_SPI_DATA_LEN; lia).
    rewrite slice_in by lia. cbn [expect].
    unfold mbind at 1, M_bind at 1, lift at 1.
    replace (Z.to_nat (done + count - done)) with (Z.to_nat count) by lia.
    assert (take (Z.to_nat count) (drop (Z.to_nat done) data)
            = take 4096 (drop (Z.to_nat done) data)) as ->.
    { unfold count, MAX_SPI_DATA_LEN. destruct (Z.min_spec 4096 (len data - done)) as [[? ->]|[? ->]];
        [done|]. rewrite !firstn_all2; [done|..]; rewrite length_drop; unfold len in *; lia. }
    set (chunk := take 4096 _). set (rest := drop (Z.to_nat done) data) in *.
    assert (len chunk = count) as Hcl
      by (unfold chunk, rest, count, MAX_SPI_DATA_LEN; rewrite len_take, len_drop; lia).
    assert (exists x k, rest = x :: k) as (x & k & Hr).
    { destruct rest as [|x k] eqn:Hr; [|eauto]. exfalso. unfold chunk, len in Hcl. cbn in Hcl. lia. }
    assert (X = for_each (E:=E) (write_frame (wire_address t (u32 (address + done))) chunk
              :: write_frames fuel (address_mask (config t)) (address + done + 4096)
                   (drop 4096 rest)) spi_write (spi t)) as HX.
    { subst X. rewrite Hr at 1. cbn [write_frames]. rewrite <-Hr. done. }
    clearbody X. subst X. cbn [for_each].
    destruct (write_one_step t (u32 (address + u32 done)) chunk Hok) as (io & Hio & Hw & Hs); [lia|].
    rewrite u32_add_r in *. unfold mbind, M_bind. rewrite Hw.
    destruct (spi_write _ (spi t)) as [[[]|e|] s] eqn:Hsp; cbn [fst snd] in Hs.
    2-3: by exists io.
    destruct (IH (done + count) (mkSpiTransport s (config t) io)) as (io' & ? & Hw' & Hs');
      [split; [apply Hok|done]|lia|lia|].
    exists io'. split; [done|]. rewrite Hw'. cbn [config spi].
    destruct (Z.le_gt_cases 4096 (len data - done)).
    + assert (count = 4096) as -> by (unfold count, MAX_SPI_DATA_LEN; lia).
      unfold rest. rewrite drop_drop.
      replace (Z.to_nat (done + 4096)) with (Z.to_nat done + 4096)%nat by lia.
      rewrite <-(Z.add_assoc address).
      replace (drop (Z.to_nat (done + 4096)) data) with (drop (Z.to_nat done + 4096) data)
        in Hs' by (f_equal; lia).
      split; [done|]. intros He Hsc. apply Hs'; [done|]. by apply Hs.
    + assert (done + count = len data) as Hdc by (unfold count, MAX_SPI_DATA_LEN; lia).
      rewrite Hdc in *.
      rewrite !drop_ge in * by (unfold rest; rewrite ?length_drop; unfold len in *; lia).
      destruct fuel; cbn in *; (split; [done|]); intros _ Hsc; apply Hs'; first [done|by apply Hs].
Qed.
End transport_lemmas.

(** *** The transport implements the bus interface *)

Section transport_laws.
Context {S E : Type} `{HL : SpiDeviceLaws S E}.
Implicit Types t : SpiTransport S.

Lemma read_frame_bytes a l n : bytes_ok (read_frame a l n).
Proof.
  unfold read_frame, address_bytes, zeros.
  repeat (apply Forall_cons_2; [first [by vm_compute|by apply Z.mod_pos_bound]|]).
  apply Forall_app_2; by apply Forall_replicate.
Qed.

(** The transport with its settings, which no operation changes. *)
Definition set_up (c : SpiConfig) t : Prop := transport_ok t /\ config t = c.

Lemma lends_read_one c address incrementing n :
  n <= 4096 -> read_latency_words c address = 0 \/ n <= 4 ->
  lends n (set_up c) (read_one (E:=E) address incrementing)
    (fun _ => set_up c) (fun _ => set_up c).
Proof.
  intros Hn Hq [t data] [[Hok <-] [Hl Hb]]. cbn [fst snd] in *. pose proof (len_nonneg data).
  pose proof (read_latency_bound (config t) address (proj1 Hok)) as Hlat.
  set (a := if incrementing then wire_address t address else Z.land address 0x00ffffff).
  set (latency := read_latency_words (config t) address * 4).
  pose proof (spi_transfer_law (E:=E) _
    (spi t, read_frame a latency (len data)) (conj I (conj eq_refl (read_frame_bytes _ _ _)))) as Hx.
  pose proof (len_read_frame a latency (len data) ltac:(lia) ltac:(lia)) as Hf.
  rewrite read_one_spec; [|done|lia|lia|].
  2: { cbv zeta. fold a. fold latency. intros r s l Hr. rewrite Hr in Hx.
       destruct r as [u|e|]; cbn in Hx; [apply Hx..|done]. }
  cbv zeta. fold a. fold latency.
  assert (len (read_frame a latency (len data)) <= SPI_IO_BUFFER_LEN).
  { rewrite Hf. unfold SPI_IO_BUFFER_LEN, READ_HEADER_LEN, MAX_SLAVE_LATENCY_BYTES,
      MAX_SLAVE_LATENCY_WORDS, MAX_SPI_DATA_LEN. lia. }
  destruct (spi_transfer_in_place _) as [[u|e|] [s l]]; cbn in Hx; [..|done].
  - destruct Hx as (_ & Hxl & Hxb). split; cbn [fst snd].
    + split; [|done]. split; [apply Hok|]. cbn [io_buffer].
      rewrite len_zeros_rest by (destruct Hok; lia). apply Hok.
    + split; [rewrite len_drop; lia|by apply Forall_drop].
  - destruct Hx as (_ & Hxl & Hxb). split; cbn [fst snd]; [|done].
    split; [|done]. split; [apply Hok|]. cbn [io_buffer]. rewrite <-Hxl at 1.
    rewrite frame_rest_len by (destruct Hok; lia). apply Hok.
Qed.

(** A read that fails the first assertion has touched nothing. *)
Lemma read_one_refused t address (incrementing : bool) data :
  read_latency_words (config t) address <> 0 -> 4 < len data ->
  read_one (E:=E) address incrementing (t, data) = (Panic, (t, data)).
Proof.
  intros Hl Hd. unfold read_one. unfold mbind at 1, M_bind at 1, get at 1. cbv zeta.
  rewrite (proj2 (orb_false_iff _ _)) by (unfold HIGH_LATENCY_READ_WORD_LEN; lia). done.
Qed.

(** From [done] on, the pieces of an incrementing read pass the assertions. *)
Definition pieces_pass (c : SpiConfig) (address done n : Z) : Prop :=
  forall k, done <= 4096 * k -> 4096 * k + 4 < n ->
    read_latency_words c (u32 (address + 4096 * k)) = 0.

Lemma lends_read_loop c fuel n address j :
  0 <= j -> n - 4096 * j <= Z.of_nat fuel -> pieces_pass c address (4096 * j) n ->
  lends n (set_up c) (read_incrementing_loop (E:=E) fuel address (Z.min (4096 * j) n))
    (fun _ => set_up c) (fun _ => set_up c).
Proof.
  revert j. induction fuel as [|fuel IH]; intros j Hj Hf Hp [t l] [Hok Hl];
    cbn [read_incrementing_loop]; unfold mbind at 1, M_bind at 1, gets at 1; cbn [fst snd] in *;
    pose proof Hl as [-> _]; pose proof (len_nonneg l) as Hn0.
  - rewrite (proj2 (Z.ltb_ge _ _)) by lia. done.
  - destruct (Z.min (4096 * j) n <? n) eqn:Hlt; cbn [negb]; [|done].
    replace (Z.min (4096 * j) n) with (4096 * j) in * by lia.
    assert (0 < Z.min MAX_SPI_DATA_LEN (n - 4096 * j) <= 4096) by (unfold MAX_SPI_DATA_LEN; lia).
    refine (lends_bind n (set_up c) _ _ (fun _ => set_up c) (fun _ => set_up c)
      (fun _ => set_up c) _ _ (t, l) (conj Hok Hl)).
    + apply lends_on_slice; [lia|lia|]. rewrite Z.add_simpl_l. apply lends_read_one; [lia|].
      rewrite u32_add_r. specialize (Hp j ltac:(lia)). unfold MAX_SPI_DATA_LEN. lia.
    + intros _. replace (4096 * j + Z.min MAX_SPI_DATA_LEN (n - 4096 * j))
        with (Z.min (4096 * (j + 1)) n) by (unfold MAX_SPI_DATA_LEN; lia).
      apply IH; [lia..|]. intros k Hk. apply Hp. lia.
Qed.

(** The reads that pass the assertions of [read_one]: split into words, or
    meeting no latency where a piece has more than a word. *)
Definition read_allowed (c : SpiConfig) (address n : Z) : Prop :=
  (nordic_memory_map_latency c = true /\ read_latency_words c address <> 0)
  \/ pieces_pass c address 0 n.

Lemma lends_SpiTransport_read c address n :
  read_allowed c address n ->
  lends n (set_up c) (SpiTransport_read (E:=E) address) (fun _ => set_up c) (fun _ => set_up c).
Proof.
  intros Ha [t l] Hp. unfold SpiTransport_read, mbind at 1, M_bind at 1, get at 1.
  destruct (len l =? 0); [by destruct Hp|].
  assert (config t = c) as -> by apply Hp.
  destruct (_ && _) eqn:Hc.
  - refine (lends_chunks_mut n (set_up c) _ _ (fun _ => set_up c) _ _ (t, l) Hp); [done|].
    intros i k Hk. unfold HIGH_LATENCY_READ_WORD_LEN in *. apply lends_read_one; lia.
  - destruct Ha as [[Hm Hw]|Ha]; [apply Z.eqb_neq in Hw; by rewrite Hm, Hw in Hc|].
    pose proof (len_nonneg l). assert (len l = n) as Hn by apply Hp.
    pose proof (lends_read_loop c (length l) n address 0) as Hx.
    replace (Z.min (4096 * 0) n) with 0 in Hx by lia.
    apply Hx; [done|unfold len in Hn; lia|done|exact Hp].
Qed.

(** Conversely, a loop that ends well has passed every assertion. *)
Lemma read_loop_passes c fuel address j t l t' l' :
  0 <= j -> set_up c t -> bytes_ok l ->
  read_incrementing_loop (E:=E) fuel address (Z.min (4096 * j) (len l)) (t, l) = (Ok tt, (t', l')) ->
  pieces_pass c address (4096 * j) (len l).
Proof.
  revert j t l. induction fuel as [|fuel IH]; intros j t l Hj Hok Hb;
    cbn [read_incrementing_loop]; unfold mbind at 1, M_bind at 1, gets at 1; cbn [fst snd];
    pose proof (len_nonneg l) as Hn0;
    (destruct (Z.min (4096 * j) (len l) <? len l) eqn:Hlt; cbn [negb];
     [|intros _ k Hk Hk'; lia]); [done|].
  replace (Z.min (4096 * j) (len l)) with (4096 * j) in * by lia.
  set (count := Z.min MAX_SPI_DATA_LEN (len l - 4096 * j)).
  assert (0 < count <= 4096 /\ count <= len l - 4096 * j) as [? ?]
    by (unfold count, MAX_SPI_DATA_LEN; lia).
  rewrite u32_add_r. unfold mbind at 1, M_bind at 1.
  destruct (decide (read_latency_words c (u32 (address + 4096 * j)) = 0 \/ count <= 4)) as [Hq|Hq].
  - pose proof (lends_on_slice (len l) (4096 * j) (4096 * j + count) (set_up c)
      (read_one (E:=E) (u32 (address + 4096 * j)) true) (fun _ => set_up c) (fun _ => set_up c)
      ltac:(lia) ltac:(lia)) as Hs.
    rewrite Z.add_simpl_l in Hs.
    specialize (Hs (lends_read_one c _ true count ltac:(lia) Hq) (t, l) (conj Hok (conj eq_refl Hb))).
    destruct (on_slice _ _ _ (t, l)) as [[[]|e|] [t1 l1]]; [|done..].
    destruct Hs as [Hok1 [Hl1 Hb1]]. cbn [fst snd] in *. rewrite <-Hl1. intros Hr.
    assert (4096 * j + count = Z.min (4096 * (j + 1)) (len l1)) as Hd
      by (unfold count, MAX_SPI_DATA_LEN; lia).
    rewrite Hd in Hr. apply IH in Hr; [|lia|done..]. intros k Hk Hk'.
    destruct (Z.eq_dec k j) as [->|]; [|apply Hr; lia].
    unfold count, MAX_SPI_DATA_LEN in Hq. lia.
  - unfold on_slice. rewrite slice_in by lia.
    rewrite read_one_refused; [done|destruct Hok as [_ ->]; lia|].
    rewrite len_take, len_drop. unfold MAX_SPI_DATA_LEN in *. lia.
Qed.

Lemma SpiTransport_read_allowed t address data t' data' :
  transport_ok t -> bytes_ok data ->
  SpiTransport_read (E:=E) address (t, data) = (Ok tt, (t', data')) ->
  read_allowed (config t) address (len data).
Proof.
  intros Hok Hb. unfold SpiTransport_read, mbind at 1, M_bind at 1, get at 1.
  pose proof (len_nonneg data). destruct (len data =? 0) eqn:Hz.
  { intros _. right. intros k Hk Hk'. lia. }
  destruct (_ && _) eqn:Hc.
  - intros _. left. apply andb_true_iff in Hc as [-> Hw]. split; [done|].
    apply negb_true_iff, Z.eqb_neq in Hw. exact Hw.
  - intros Hr. right.
    apply (read_loop_passes (config t) (length data) address 0 t data t' data'); [done..|].
    replace (Z.min (4096 * 0) (len data)) with 0 by lia. exact Hr.
Qed.

(** Which reads the settings allow. *)
Lemma no_latency_allowed c address n :
  nordic_memory_map_latency c = false -> slave_latency_words c = 0 -> read_allowed c address n.
Proof. intros Hm Hl. right. intros k _ _. unfold read_latency_words. by rewrite Hm. Qed.

Lemma memory_map_allowed c address n :
  in_u 32 address -> nordic_memory_map_latency c = true -> n <= 4096 -> read_allowed c address n.
Proof.
  intros Ha Hm Hn. destruct (decide (read_latency_words c address = 0)) as [Hl|Hl]; [|by left].
  right. intros k Hk Hk'. assert (k = 0) as -> by lia.
  rewrite Z.mul_0_r, Z.add_0_r. unfold u32. by rewrite Z.mod_small.
Qed.

Lemma fixed_latency_allowed c address n :
  nordic_memory_map_latency c = false -> slave_latency_words c <> 0 ->
  read_allowed c address n <-> n <= 4.
Proof.
  intros Hm Hl. unfold read_allowed, pieces_pass, read_latency_words. rewrite Hm. cbn [negb].
  split; [|right; lia]. intros [[? _]|Hp]; [done|].
  destruct (Z.le_gt_cases n 4); [done|]. destruct Hl. apply (Hp 0); lia.
Qed.

Lemma fixed_latency_panics t address data :
  nordic_memory_map_latency (config t) = false -> slave_latency_words (config t) <> 0 ->
  4 < len data ->
  SpiTransport_read (E:=E) address (t, data) = (Panic, (t, data)).
Proof.
  intros Hm Hl Hd. unfold SpiTransport_read, mbind at 1, M_bind at 1, get at 1.
  rewrite (proj2 (Z.eqb_neq _ _)) by lia. rewrite Hm. cbn [andb]. unfold read_incrementing. cbn [snd].
  destruct data as [|b data']; [rewrite len_nil in Hd; lia|]. set (data := b :: data') in *.
  change (length data) with (Datatypes.S (length data')). cbn [read_incrementing_loop].
  unfold mbind at 1, M_bind at 1, gets at 1. cbn [snd]. rewrite (proj2 (Z.ltb_lt _ _)) by lia.
  cbn [negb]. unfold mbind at 1, M_bind at 1, on_slice.
  set (count := Z.min MAX_SPI_DATA_LEN (len data - 0)).
  assert (4 < count <= len data) by (unfold count, MAX_SPI_DATA_LEN; lia).
  rewrite slice_in by lia. rewrite read_one_refused.
  - do 2 f_equal. unfold splice. change (drop (Z.to_nat 0) data) with data.
    change (take (Z.to_nat 0) data) with (@nil Z). rewrite app_nil_l, length_take.
    replace (Z.to_nat 0 + _)%nat with (Z.to_nat (0 + count - 0))
      by (clearbody data; unfold len in *; lia).
    apply take_drop.
  - unfold read_latency_words. by rewrite Hm.
  - change (drop (Z.to_nat 0) data) with data. rewrite len_take. lia.
Qed.

Lemma triple_SpiTransport_read_status c opcode :
  is_byte opcode ->
  triple (set_up c) (SpiTransport_read_status (E:=E) opcode)
    (fun v t => is_byte v /\ set_up c t) (fun _ => set_up c).
Proof.
  intros Hop. unfold SpiTransport_read_status, on_spi.
  apply (triple_zoom _ _ _ _ _ _ (fun v _ => is_byte v) (fun _ _ => True)); [|done..].
  apply (triple_bind _ _ _ (fun al _ => buf_ok 6 al.2)).
  - eapply triple_consequence;
      [apply (triple_with_local (fun _ => True) 6 _ _ (fun _ _ => True) (fun _ _ => True))
      |done|by intros ? ? [_ ?]|done].
    + split; [done|]. repeat (apply Forall_cons_2; [done || by vm_compute|]). by apply Forall_nil.
    + apply spi_transfer_law.
  - intros [u l] s [Hl Hb]. cbn [snd] in *. unfold lift.
    destruct (nthZ_in l 1 ltac:(lia)) as [b Hn]. rewrite Hn. cbn.
    by eapply nthZ_byte.
Qed.

Lemma triple_SpiTransport_write_status c opcode value :
  triple (set_up c) (SpiTransport_write_status (E:=E) opcode value)
    (fun _ => set_up c) (fun _ => set_up c).
Proof.
  apply (triple_zoom _ _ _ _ _ _ (fun _ _ => True) (fun _ _ => True)); [|done..].
  eapply triple_consequence; [apply spi_write_law|done..].
Qed.

Lemma triple_SpiTransport_write c address data :
  triple (set_up c) (SpiTransport_write (E:=E) address data)
    (fun _ => set_up c) (fun _ => set_up c).
Proof.
  intros t [Hok Hc]. unfold SpiTransport_write. destruct (len data =? 0); [done|].
  pose proof (len_nonneg data).
  destruct (write_loop_spec (E:=E) (length data) address data 0 t Hok) as (io & Hio & Hw & _);
    [lia|unfold len; lia|].
  rewrite Hw. destruct (for_each _ _ _) as [[u|e|] s] eqn:Hfe; cbn.
  1-2: split; [split; [apply Hok|exact Hio]|exact Hc].
  pose proof (triple_for_each (fun _ => True) (write_frames (length data)
    (address_mask (config t)) (address + 0) (drop (Z.to_nat 0) data))
    (spi_write (E:=E)) (fun _ _ => True)) as Hp.
  specialize (Hp (fun f _ => spi_write_law f) (spi t) I). by rewrite Hfe in Hp.
Qed.

(** The settings under which the transport serves the driver: no latency, or
    the latency of Nordic's memory map. *)
Definition serves (c : SpiConfig) : Prop :=
  nordic_memory_map_latency c = true \/ slave_latency_words c = 0.

#[export, refine] Instance SpiTransport_laws : BusLaws (SpiTransport S) E :=
  { bus_inv t := transport_ok t /\ serves (config t) }.
Proof.
  - intros opcode Hop t [Hok Hs].
    pose proof (triple_SpiTransport_read_status (config t) opcode Hop t (conj Hok eq_refl)) as Hx.
    cbn. destruct (SpiTransport_read_status opcode t) as [[v|e|] t']; [|..|done].
    + destruct Hx as (? & ? & ->). done.
    + by destruct Hx as [? ->].
  - intros opcode value t [Hok Hs].
    pose proof (triple_SpiTransport_write_status (config t) opcode value t (conj Hok eq_refl)) as Hx.
    cbn. destruct (SpiTransport_write_status opcode value t) as [[v|e|] t']; [..|done];
      by destruct Hx as [? ->].
  - intros address n Ha Hn [t l] [[Hok Hs] Hl]. cbn [fst snd] in *.
    assert (read_allowed (config t) address n) as Hr.
    { destruct (nordic_memory_map_latency (config t)) eqn:Hm; [by apply memory_map_allowed|].
      apply no_latency_allowed; [done|]. destruct Hs as [Hs|Hs]; [by rewrite Hs in Hm|done]. }
    pose proof (lends_SpiTransport_read _ _ _ Hr (t, l) (conj (conj Hok eq_refl) Hl)) as Hx.
    cbn. destruct (SpiTransport_read address (t, l)) as [[v|e|] [t' l']]; cbn in *; [..|done];
      by destruct Hx as [[? ->] ?].
  - intros address data t [Hok Hs].
    pose proof (triple_SpiTransport_write (config t) address data t (conj Hok eq_refl)) as Hx.
    cbn. destruct (SpiTransport_write address data t) as [[v|e|] t']; [..|done];
      by destruct Hx as [? ->].
Defined.
End transport_laws.

(** An SPI device that records what it is sent and answers with zeros. *)
#[export] Instance recording_spi : SpiDevice (list (list Z)) unit := {
  spi_write bytes := modify (fun log => log ++ [bytes]);
  spi_transfer_in_place := modify (fun sl => (sl.1 ++ [sl.2], zeros (len sl.2))) }.
#[export, refine] Instance recording_spi_laws : SpiDeviceLaws (list (list Z)) unit := {}.
Proof.
  - done.
  - intros n [s l] [_ [<- _]]. split; [done|]. apply buf_ok_zeros, len_nonneg.
Defined.

(** * Properties *)

(** C39: with any settings a client can build and whatever the SPI device
    answers, an access of the transport never overruns its 4133-byte I/O buffer
    and never panics, apart from the block reads that fail the debug assertion
    of [read_one] (additions of addresses wrap, as in a release build); a lent buffer keeps its length, and the transport stays
    usable, its settings unchanged, after an SPI error.  A block read can return
    successfully only if it passes the assertion, and then it does not panic.
    Without latency every read passes.  With the latency of Nordic's memory map
    every read of at most 4096 bytes passes, and a longer one unless it starts
    where there is no latency and a later piece of more than a word meets some.
    With a fixed latency a read passes if and only if it has at most 4 bytes,
    and a longer one panics before anything is sent. *)
Theorem transport_never_overruns {S E} `{SpiDeviceLaws S E} mask words cfg (spi : S) :
  0 <= words -> SpiConfig_new mask words = Some cfg \/ cfg = NORDIC_DEFAULT \/ cfg = NORDIC_MEMORY_MAP ->
  set_up cfg (SpiTransport_with_config spi cfg)
  /\ (forall address n, read_allowed cfg address n ->
        lends n (set_up cfg) (SpiTransport_read (E:=E) address)
          (fun _ => set_up cfg) (fun _ => set_up cfg))
  /\ (forall address data, triple (set_up cfg) (SpiTransport_write (E:=E) address data)
                             (fun _ => set_up cfg) (fun _ => set_up cfg))
  /\ (forall opcode, is_byte opcode ->
        triple (set_up cfg) (SpiTransport_read_status (E:=E) opcode)
          (fun v t => is_byte v /\ set_up cfg t) (fun _ => set_up cfg))
  /\ (forall opcode value, triple (set_up cfg) (SpiTransport_write_status (E:=E) opcode value)
                             (fun _ => set_up cfg) (fun _ => set_up cfg))
  /\ (forall address (t : SpiTransport S) data, set_up cfg t -> bytes_ok data ->
        fst (SpiTransport_read (E:=E) address (t, data)) = Ok tt ->
        read_allowed cfg address (len data))
  /\ (SpiConfig_new mask words = Some cfg -> words = 0 \/ cfg = NORDIC_DEFAULT ->
        forall address n, read_allowed cfg address n)
  /\ (cfg = NORDIC_MEMORY_MAP -> forall address n, in_u 32 address -> n <= 4096 ->
        read_allowed cfg address n)
  /\ (SpiConfig_new mask words = Some cfg -> 0 < words ->
        (forall address n, read_allowed cfg address n <-> n <= 4)
        /\ forall address (t : SpiTransport S) data, config t = cfg -> 4 < len data ->
             SpiTransport_read (E:=E) address (t, data) = (Panic, (t, data))).
Proof.
  intros Hw Hc. assert (config_ok cfg) as Hcfg.
  { destruct Hc as [Hc|[->| ->]]; [by eapply SpiConfig_new_ok|by vm_compute..]. }
  split_and!.
  - by split.
  - apply lends_SpiTransport_read.
  - apply triple_SpiTransport_write.
  - apply triple_SpiTransport_read_status.
  - apply triple_SpiTransport_write_status.
  - intros address t data [Hok <-] Hb Hr.
    destruct (SpiTransport_read address (t, data)) as [r [t' d']] eqn:Hx. cbn in Hr. subst r.
    by eapply SpiTransport_read_allowed.
  - intros Hn [->| ->] address n; [|by apply no_latency_allowed].
    apply SpiConfig_new_fields in Hn as [? ?]. by apply no_latency_allowed.
  - intros -> address n Ha Hn. by apply memory_map_allowed.
  - intros Hn Hpos. apply SpiConfig_new_fields in Hn as [Hm Hl]. split.
    + intros address n. apply fixed_latency_allowed; [done|lia].
    + intros address t data <- Hd. apply fixed_latency_panics; [done|lia|done].
Qed.

Example transport_never_overruns_witness :
  let cfg := mkSpiConfig 0x800000 8 false in
  set_up cfg (SpiTransport_with_config ([] : list (list Z)) cfg)
  /\ (forall address n, read_allowed cfg address n ->
        lends n (set_up cfg) (SpiTransport_read (S:=list (list Z)) (E:=unit) address)
          (fun _ => set_up cfg) (fun _ => set_up cfg))
  /\ (forall address n, read_allowed cfg address n <-> n <= 4)
  /\ forall address (t : SpiTransport (list (list Z))) data, config t = cfg -> 4 < len data ->
       SpiTransport_read (E:=unit) address (t, data) = (Panic, (t, data)).
Proof.
  destruct (transport_never_overruns (E:=unit) 0x800000 8 (mkSpiConfig 0x800000 8 false)
    ([] : list (list Z))) as (H1 & H2 & _ & _ & _ & _ & _ & _ & H3); [lia|left; by vm_compute|].
  destruct (H3 eq_refl eq_refl) as [H4 H5]. by split_and!.
Defined.

(** a bus write of any number of bytes performs exactly one SPI write per
    4096-byte chunk, in order, each framed with the write opcode and the
    24-bit incrementing address of its first byte; it stops at the first SPI
    error; and when it succeeds no payload byte is left in the I/O buffer. *)
Theorem bus_write_refines_frames {S E} `{SpiDevice S E} (t : SpiTransport S) address data :
  transport_ok t ->
  let frames := write_frames (length data) (address_mask (config t)) address data in
  let '(r, t') := SpiTransport_write (E:=E) address data t in
  for_each frames spi_write (spi t) = (r, spi t')
  /\ config t' = config t
  /\ concat (map (drop 4) frames) = data
  /\ Forall (fun f => len f <= 4100) frames
  /\ (r = Ok tt -> scrubbed t -> scrubbed t').
Proof.
  intros Hok frames.
  assert (concat (map (drop 4) frames) = data /\ Forall (fun f => len f <= 4100) frames)
    as [Hcat Hlen] by (apply write_frames_payload; unfold len; lia).
  unfold SpiTransport_write. destruct (len data =? 0) eqn:Hz.
  { apply Z.eqb_eq, len_0_nil in Hz as ->. done. }
  destruct (write_loop_spec (E:=E) (length data) address data 0 t Hok) as (io & Hio & Hw & Hs);
    [pose proof (len_nonneg data); lia|unfold len; lia|].
  rewrite Z.add_0_r in *. change (drop (Z.to_nat 0) data) with data in *. fold frames in Hw, Hs.
  rewrite Hw. destruct (for_each frames spi_write (spi t)) as [r s]. by split_and!.
Qed.

Example bus_write_refines_frames_witness :
  let t := SpiTransport_new ([] : list (list Z)) in
  let frames := write_frames 3 (address_mask (config t)) 0x0c0000 [1; 2; 3] in
  let '(r, t') := SpiTransport_write (E:=unit) 0x0c0000 [1; 2; 3] t in
  for_each frames spi_write (spi t) = (r, spi t')
  /\ config t' = config t
  /\ concat (map (drop 4) frames) = [1; 2; 3]
  /\ Forall (fun f => len f <= 4100) frames
  /\ (r = Ok tt -> scrubbed t -> scrubbed t').
Proof.
  apply (bus_write_refines_frames (SpiTransport_new ([] : list (list Z))) 0x0c0000 [1; 2; 3]).
  split; by vm_compute.
Defined.
