(* ===== verification/Memory.v ===== *)
(** * Memory: RPU addresses and memory access (src/src/memory.rs)

    Translation of RPU addresses into the 24-bit host window, validation of an
    access, and the word-wise transfers over any [BusOps].  [W] is the state of
    the host side; [Rpu<B>] adds nothing to it.  Arithmetic on [u32] addresses
    wraps as in a release build where the source uses [+]. *)

From S2P Require Import Prelude Codec Bus.

Definition MAX_BUS_CHUNK : Z := MAX_SPI_DATA_LEN.

Definition RPU_ADDR_GRAM_START : Z := 0xb7000000.
Definition RPU_ADDR_GRAM_END : Z := 0xb70101ff.
Definition RPU_ADDR_SBUS_START : Z := 0xa4000000.
Definition RPU_ADDR_SBUS_END : Z := 0xa4007fff.
Definition RPU_ADDR_PBUS_START : Z := 0xa5000000.
Definition RPU_ADDR_PBUS_END : Z := 0xa503ffff.
Definition RPU_ADDR_PKTRAM_START : Z := 0xb0000000.
Definition RPU_ADDR_PKTRAM_END : Z := 0xb0030fff.
Definition RPU_ADDR_LMAC_ROM_START : Z := 0x80000000.
Definition RPU_ADDR_LMAC_ROM_END : Z := 0x80033fff.
Definition RPU_ADDR_LMAC_RET_START : Z := 0x80040000.
Definition RPU_ADDR_LMAC_RET_END : Z := 0x8004bfff.
Definition RPU_ADDR_LMAC_SCRATCH_START : Z := 0x80080000.
Definition RPU_ADDR_LMAC_SCRATCH_END : Z := 0x8008ffff.
Definition RPU_ADDR_UMAC_ROM_START : Z := 0x80000000.
Definition RPU_ADDR_UMAC_ROM_END : Z := 0x800617ff.
Definition RPU_ADDR_UMAC_RET_START : Z := 0x80080000.
Definition RPU_ADDR_UMAC_RET_END : Z := 0x800a3fff.
Definition RPU_ADDR_UMAC_SCRATCH_START : Z := 0x80100000.
Definition RPU_ADDR_UMAC_SCRATCH_END : Z := 0x80137fff.
Definition HOST_SBUS_BASE : Z := 0x00000000.
Definition HOST_PBUS_BASE : Z := 0x00040000.
Definition HOST_GRAM_BASE : Z := 0x00080000.
Definition HOST_PKTRAM_BASE : Z := 0x000c0000.
Definition HOST_LMAC_DIRECT_BASE : Z := 0x00100000.
Definition HOST_UMAC_DIRECT_BASE : Z := 0x00200000.
Definition RPU_ADDR_MASK_OFFSET : Z := 0x00ffffff.
Definition RPU_MCU_CORE_INDIRECT_BASE : Z := 0xc0000000.
Definition RPU_REG_MIPS_MCU_CONTROL : Z := 0xa4000000.
Definition RPU_REG_MIPS_MCU2_CONTROL : Z := 0xa4000100.
Definition RPU_REG_MIPS_MCU_SYS_CORE_MEM_CTRL : Z := 0xa4000030.
Definition RPU_REG_MIPS_MCU_SYS_CORE_MEM_WDATA : Z := 0xa4000034.
Definition RPU_REG_MIPS_MCU2_SYS_CORE_MEM_CTRL : Z := 0xa4000130.
Definition RPU_REG_MIPS_MCU2_SYS_CORE_MEM_WDATA : Z := 0xa4000134.
Definition RPU_REG_MIPS_MCU_WAIT_STATUS : Z := 0xa4000018.
Definition RPU_REG_MIPS_MCU2_WAIT_STATUS : Z := 0xa4000118.
Definition RPU_REG_CLOCK_ENABLE : Z := 0xa5008c20.
Definition RPU_CLOCK_ENABLE : Z := 0x100.

Module Processor.
Inductive t : Type := Lmac | Umac.
#[global] Instance eq_dec : EqDecision t.
Proof. solve_decision. Defined.
Definition control_register (p : t) : Z :=
  match p with Lmac => RPU_REG_MIPS_MCU_CONTROL | Umac => RPU_REG_MIPS_MCU2_CONTROL end.
Definition wait_register (p : t) : Z :=
  match p with Lmac => RPU_REG_MIPS_MCU_WAIT_STATUS | Umac => RPU_REG_MIPS_MCU2_WAIT_STATUS end.
Definition indirect_control_register (p : t) : Z :=
  match p with
  | Lmac => RPU_REG_MIPS_MCU_SYS_CORE_MEM_CTRL
  | Umac => RPU_REG_MIPS_MCU2_SYS_CORE_MEM_CTRL
  end.
Definition indirect_data_register (p : t) : Z :=
  match p with
  | Lmac => RPU_REG_MIPS_MCU_SYS_CORE_MEM_WDATA
  | Umac => RPU_REG_MIPS_MCU2_SYS_CORE_MEM_WDATA
  end.
End Processor.

Module AddressError.
Inductive t : Type := Unsupported (address : Z) | Range.
#[global] Instance eq_dec : EqDecision t.
Proof. solve_decision. Defined.
End AddressError.

Module RpuError.
Inductive t (E : Type) : Type :=
  | Bus (e : E)
  | Address (e : AddressError.t)
  | Unaligned
  | Timeout
  | PollTimeout (address mask expected last : Z)
  | InvalidArgument.
Arguments Bus {E} e.
Arguments Address {E} e.
Arguments Unaligned {E}.
Arguments Timeout {E}.
Arguments PollTimeout {E} address mask expected last.
Arguments InvalidArgument {E}.
End RpuError.

(** ** Address translation *)

Definition shared_region_base (address : Z) : option Z :=
  if within RPU_ADDR_SBUS_START RPU_ADDR_SBUS_END address then Some HOST_SBUS_BASE
  else if within RPU_ADDR_PBUS_START RPU_ADDR_PBUS_END address then Some HOST_PBUS_BASE
  else if within RPU_ADDR_GRAM_START RPU_ADDR_GRAM_END address then Some HOST_GRAM_BASE
  else if within RPU_ADDR_PKTRAM_START RPU_ADDR_PKTRAM_END address
  then Some HOST_PKTRAM_BASE
  else None.

Definition lmac_region_base (address : Z) : option Z :=
  if within RPU_ADDR_LMAC_ROM_START RPU_ADDR_LMAC_ROM_END address
     || within RPU_ADDR_LMAC_RET_START RPU_ADDR_LMAC_RET_END address
     || within RPU_ADDR_LMAC_SCRATCH_START RPU_ADDR_LMAC_SCRATCH_END address
  then Some HOST_LMAC_DIRECT_BASE
  else None.

Definition umac_region_base (address : Z) : option Z :=
  if within RPU_ADDR_UMAC_ROM_START RPU_ADDR_UMAC_ROM_END address
     || within RPU_ADDR_UMAC_RET_START RPU_ADDR_UMAC_RET_END address
     || within RPU_ADDR_UMAC_SCRATCH_START RPU_ADDR_UMAC_SCRATCH_END address
  then Some HOST_UMAC_DIRECT_BASE
  else None.

Definition processor_region_base (processor : Processor.t) (address : Z) : option Z :=
  match processor with
  | Processor.Lmac => lmac_region_base address
  | Processor.Umac => umac_region_base address
  end.

Definition host_offset (processor : Processor.t) (address : Z) : res AddressError.t Z :=
  let low := Z.land address RPU_ADDR_MASK_OFFSET in
  match shared_region_base address with
  | Some base => Ok (base + low)
  | None =>
      match processor_region_base processor address with
      | Some base => Ok (base + low)
      | None => Err (AddressError.Unsupported address)
      end
  end.

(** ** Validation of an access *)

Section validation.
Context {E : Type}.

Definition align4 (n : Z) : option Z :=
  match checked_add n 3 with Some value => Some (Z.ldiff value 3) | None => None end.

(** [u32::try_from(len - 1)] *)
Definition checked_span (n : Z) : res (RpuError.t E) Z :=
  if (0 <=? n - 1) && (n - 1 <? 2 ^ 32) then Ok (n - 1)
  else Err (RpuError.Address AddressError.Range).

Definition checked_access_end (address n : Z) : res (RpuError.t E) (Z * Z) :=
  span ← checked_span n;
  end_ ← ok_or (checked_add address span) (RpuError.Address AddressError.Range);
  Ok (span, end_).

Definition mapped_access_bounds (processor : Processor.t) (address end_ : Z)
    : res (RpuError.t E) (Z * Z) :=
  first ← map_err RpuError.Address (host_offset processor address);
  last ← map_err RpuError.Address (host_offset processor end_);
  Ok (first, last).

Definition checked_range (processor : Processor.t) (address n : Z)
    : res (RpuError.t E) unit :=
  if n =? 0
  then _ ← map_err RpuError.Address (host_offset processor address); Ok tt
  else
    '(span, end_) ← checked_access_end address n;
    '(first, last) ← mapped_access_bounds processor address end_;
    if negb (bool_decide ((if first <=? last then Some (last - first) else None) = Some span))
    then Err (RpuError.Address AddressError.Range)
    else Ok tt.

Definition validate_access (processor : Processor.t) (address n : Z)
    : res (RpuError.t E) unit :=
  if negb (Z.land address 3 =? 0) then Err RpuError.Unaligned
  else
    padded_len ← ok_or (align4 n) RpuError.InvalidArgument;
    checked_range processor address padded_len.

Definition validate_indirect_access (encoded_address n : Z) : res (RpuError.t E) unit :=
  if negb (Z.land encoded_address 0xff000000 =? RPU_MCU_CORE_INDIRECT_BASE)
  then Err RpuError.Unaligned
  else if negb (Z.land encoded_address 3 =? 0) || negb (Z.land n 3 =? 0)
  then Err RpuError.Unaligned
  else Ok tt.

Definition chunk_host_offset (processor : Processor.t) (address index : Z)
    : res (RpuError.t E) Z :=
  byte_offset ← ok_or (v ← checked_mul index MAX_BUS_CHUNK;
                       if v <? 2 ^ 32 then Some v else None) RpuError.InvalidArgument;
  address ← ok_or (checked_add address byte_offset) RpuError.InvalidArgument;
  map_err RpuError.Address (host_offset processor address).
End validation.

(** ** Transfers *)

Section rpu.
Context {W E : Type} `{BusOps W E} `{DelayOps W}.
Local Notation "'MR' A" := (M W (RpuError.t E) A) (at level 10, A at next level).
Local Notation "'MRB' A" := (M (W * list Z) (RpuError.t E) A) (at level 10, A at next level).

(** [for _ in 0..attempts] *)
Fixpoint wait_status_bit (opcode mask : Z) (attempts : nat) : MR unit :=
  match attempts with
  | O => throw RpuError.Timeout
  | Datatypes.S attempts =>
      status ← mapM_err RpuError.Bus (bus_read_status opcode);
      if has status mask then mret tt
      else delay 1;; wait_status_bit opcode mask attempts
  end.

Definition wake (attempts : Z) : MR unit :=
  mapM_err RpuError.Bus (bus_write_status OPCODE_WRITE_STATUS_2 RPU_WAKE_REQUEST);;
  wait_status_bit OPCODE_READ_STATUS_2 RPU_WAKE_REQUEST (Z.to_nat attempts);;
  wait_status_bit OPCODE_READ_STATUS_1 RPU_AWAKE (Z.to_nat attempts).

Definition firmware_ready : MR bool :=
  state ← mapM_err RpuError.Bus (bus_read_status OPCODE_READ_STATUS_1);
  mret (has state RPU_READY).

(** The second component of the state is the caller's buffer. *)
Definition read_aligned (processor : Processor.t) (address : Z) : MRB unit :=
  for_chunks_mut MAX_BUS_CHUNK (fun index =>
    offset ← lift (chunk_host_offset processor address index);
    mapM_err RpuError.Bus (bus_read offset)).

Definition read_tail (processor : Processor.t) (address aligned_len : Z) : MRB unit :=
  n ← gets (fun wl => len wl.2);
  let tail_len := n - aligned_len in
  if tail_len =? 0 then mret tt
  else
    offset ← lift (map_err RpuError.Address
                     (host_offset processor (u32 (address + u32 aligned_len))));
    '(_, tail) ← on_fst (with_local (zeros 4) (mapM_err RpuError.Bus (bus_read offset)));
    part ← lift (expect (slice tail 0 tail_len));
    modify (fun wl => (wl.1, splice wl.2 aligned_len part)).

Definition read (processor : Processor.t) (address : Z) : MRB unit :=
  n ← gets (fun wl => len wl.2);
  lift (validate_access processor address n);;
  let aligned_len := Z.ldiff n 3 in
  on_slice 0 aligned_len (read_aligned processor address);;
  read_tail processor address aligned_len.

Definition write_aligned (processor : Processor.t) (address : Z) (data : list Z) : MR unit :=
  for_each (enumerate (chunks MAX_BUS_CHUNK data)) (fun ic =>
    offset ← lift (chunk_host_offset processor address ic.1);
    mapM_err RpuError.Bus (bus_write offset ic.2)).

Definition write_tail (processor : Processor.t) (address aligned_len : Z) (data : list Z)
    : MR unit :=
  let tail_len := len data - aligned_len in
  if tail_len =? 0 then mret tt
  else
    rest ← lift (expect (slice data aligned_len (len data)));
    let tail := splice (zeros 4) 0 rest in
    offset ← lift (map_err RpuError.Address
                     (host_offset processor (u32 (address + u32 aligned_len))));
    mapM_err RpuError.Bus (bus_write offset tail).

Definition write (processor : Processor.t) (address : Z) (data : list Z) : MR unit :=
  lift (validate_access processor address (len data));;
  let aligned_len := Z.ldiff (len data) 3 in
  aligned ← lift (expect (slice data 0 aligned_len));
  write_aligned processor address aligned;;
  write_tail processor address aligned_len data.

Definition read_u32 (processor : Processor.t) (address : Z) : MR Z :=
  if negb (Z.land address 3 =? 0) then throw RpuError.Unaligned
  else
    '(_, bytes) ← with_local (zeros 4) (read processor address);
    mret (from_le bytes).

Definition write_u32 (processor : Processor.t) (address value : Z) : MR unit :=
  if negb (Z.land address 3 =? 0) then throw RpuError.Unaligned
  else write processor address (to_le 4 value).

Definition read_register (address : Z) : MR Z := read_u32 Processor.Lmac address.
Definition write_register (address value : Z) : MR unit :=
  write_u32 Processor.Lmac address value.

(** [chunks_exact(4)] leaves out a short last chunk. *)
Definition write_indirect_words (processor : Processor.t) (data : list Z) : MR unit :=
  for_each (filter (fun word => len word = 4) (chunks 4 data)) (fun word =>
    write_register (Processor.indirect_data_register processor) (from_le word)).

Definition write_indirect (processor : Processor.t) (encoded_address : Z) (data : list Z)
    : MR unit :=
  lift (validate_indirect_access encoded_address (len data));;
  let word_address := Z.shiftr (Z.land encoded_address RPU_ADDR_MASK_OFFSET) 2 in
  write_register (Processor.indirect_control_register processor) word_address;;
  write_indirect_words processor data.

Definition enable_clocks : MR unit := write_register RPU_REG_CLOCK_ENABLE RPU_CLOCK_ENABLE.

Fixpoint poll_loop (address mask expected : Z) (delay_ms : Z) (attempts : nat) (last : Z)
    : MR unit :=
  match attempts with
  | O => throw (RpuError.PollTimeout address mask expected last)
  | Datatypes.S attempts =>
      last ← read_register address;
      if Z.land last mask =? expected then mret tt
      else delay delay_ms;; poll_loop address mask expected delay_ms attempts last
  end.

Definition poll_register (address mask expected attempts delay_ms : Z) : MR unit :=
  poll_loop address mask expected delay_ms (Z.to_nat attempts) 0.

Definition reset_processor (processor : Processor.t) : MR unit :=
  write_register (Processor.control_register processor) 1;;
  poll_register (Processor.control_register processor) 1 0 50 10;;
  poll_register (Processor.wait_register processor) 1 1 50 10.
End rpu.

(** ** The region table

    What [host_offset] promises: an RPU address lies in at most one region and
    its host offset is its displacement from the region's host base. *)

Record region : Type := mkRegion { r_start : Z; r_end : Z; r_host : Z }.

Definition shared_regions : list region :=
  [mkRegion 0xa4000000 0xa4007fff 0x000000; mkRegion 0xa5000000 0xa503ffff 0x040000;
   mkRegion 0xb7000000 0xb70101ff 0x080000; mkRegion 0xb0000000 0xb0030fff 0x0c0000].
Definition core_regions (p : Processor.t) : list region :=
  match p with
  | Processor.Lmac =>
      [mkRegion 0x80000000 0x80033fff 0x100000; mkRegion 0x80040000 0x8004bfff 0x140000;
       mkRegion 0x80080000 0x8008ffff 0x180000]
  | Processor.Umac =>
      [mkRegion 0x80000000 0x800617ff 0x200000; mkRegion 0x80080000 0x800a3fff 0x280000;
       mkRegion 0x80100000 0x80137fff 0x300000]
  end.
Definition regions (p : Processor.t) : list region := shared_regions ++ core_regions p.
Definition in_region (r : region) (a : Z) : Prop := r_start r <= a <= r_end r.

(** ** Lemmas *)

Lemma withinP low high x : within low high x = true <-> low <= x <= high.
Proof. unfold within. lia. Qed.

Lemma land_mask24 a : Z.land a RPU_ADDR_MASK_OFFSET = a mod 2 ^ 24.
Proof. unfold RPU_ADDR_MASK_OFFSET. change 0x00ffffff with (Z.ones 24). by apply Z.land_ones. Qed.

Lemma land_3 a : Z.land a 3 = a mod 4.
Proof. change 3 with (Z.ones 2). by rewrite Z.land_ones. Qed.

Lemma ldiff_3 a : Z.ldiff a 3 = 4 * (a / 4).
Proof.
  change 3 with (Z.ones 2). rewrite Z.ldiff_ones_r by lia.
  rewrite Z.shiftl_mul_pow2, Z.shiftr_div_pow2 by lia. change (2 ^ 2) with 4. lia.
Qed.

Lemma mod24 k a :
  k * 16777216 <= a < (k + 1) * 16777216 -> a mod 16777216 = a - k * 16777216.
Proof. intros. symmetry. apply (Z.mod_unique _ _ k); lia. Qed.

(** A base found for an address, and none for an address outside the table. *)
Definition base_spec (rs : list region) (a : Z) (o : option Z) : Prop :=
  match o with
  | Some b => exists r, r ∈ rs /\ in_region r a /\ b + a mod 16777216 = r_host r + (a - r_start r)
  | None => Forall (fun r => ~ in_region r a) rs
  end.

Ltac in_list := repeat first [apply list_elem_of_here | apply list_elem_of_further].
(** The region with start [s] is the one found. *)
Ltac found r k :=
  exists r; split; [in_list|split; [unfold in_region; cbn; lia|rewrite (mod24 k) by lia; cbn; lia]].
Ltac outside := repeat (apply Forall_cons_2; [unfold in_region; cbn; lia|]); by apply Forall_nil.

Lemma shared_region_base_spec a : base_spec shared_regions a (shared_region_base a).
Proof.
  unfold shared_region_base, HOST_SBUS_BASE, HOST_PBUS_BASE, HOST_GRAM_BASE, HOST_PKTRAM_BASE.
  destruct (within RPU_ADDR_SBUS_START _ a) eqn:H1; [apply withinP in H1|].
  { unfold RPU_ADDR_SBUS_START, RPU_ADDR_SBUS_END in H1.
    found (mkRegion 0xa4000000 0xa4007fff 0x000000) 0xa4. }
  destruct (within RPU_ADDR_PBUS_START _ a) eqn:H2; [apply withinP in H2|].
  { unfold RPU_ADDR_PBUS_START, RPU_ADDR_PBUS_END in H2.
    found (mkRegion 0xa5000000 0xa503ffff 0x040000) 0xa5. }
  destruct (within RPU_ADDR_GRAM_START _ a) eqn:H3; [apply withinP in H3|].
  { unfold RPU_ADDR_GRAM_START, RPU_ADDR_GRAM_END in H3.
    found (mkRegion 0xb7000000 0xb70101ff 0x080000) 0xb7. }
  destruct (within RPU_ADDR_PKTRAM_START _ a) eqn:H4; [apply withinP in H4|].
  { unfold RPU_ADDR_PKTRAM_START, RPU_ADDR_PKTRAM_END in H4.
    found (mkRegion 0xb0000000 0xb0030fff 0x0c0000) 0xb0. }
  unfold within, RPU_ADDR_SBUS_START, RPU_ADDR_SBUS_END, RPU_ADDR_PBUS_START, RPU_ADDR_PBUS_END,
    RPU_ADDR_GRAM_START, RPU_ADDR_GRAM_END, RPU_ADDR_PKTRAM_START, RPU_ADDR_PKTRAM_END in *.
  cbn [base_spec]. unfold shared_regions. outside.
Qed.

Lemma lmac_region_base_spec a : base_spec (core_regions Processor.Lmac) a (lmac_region_base a).
Proof.
  unfold lmac_region_base, within, RPU_ADDR_LMAC_ROM_START, RPU_ADDR_LMAC_ROM_END,
    RPU_ADDR_LMAC_RET_START, RPU_ADDR_LMAC_RET_END, RPU_ADDR_LMAC_SCRATCH_START,
    RPU_ADDR_LMAC_SCRATCH_END, HOST_LMAC_DIRECT_BASE.
  destruct (_ || _) eqn:H; [|cbn; outside].
  destruct (Z.le_gt_cases a 0x80033fff).
  { found (mkRegion 0x80000000 0x80033fff 0x100000) 0x80. }
  destruct (Z.le_gt_cases a 0x8004bfff).
  { found (mkRegion 0x80040000 0x8004bfff 0x140000) 0x80. }
  found (mkRegion 0x80080000 0x8008ffff 0x180000) 0x80.
Qed.

Lemma umac_region_base_spec a : base_spec (core_regions Processor.Umac) a (umac_region_base a).
Proof.
  unfold umac_region_base, within, RPU_ADDR_UMAC_ROM_START, RPU_ADDR_UMAC_ROM_END,
    RPU_ADDR_UMAC_RET_START, RPU_ADDR_UMAC_RET_END, RPU_ADDR_UMAC_SCRATCH_START,
    RPU_ADDR_UMAC_SCRATCH_END, HOST_UMAC_DIRECT_BASE.
  destruct (_ || _) eqn:H; [|cbn; outside].
  destruct (Z.le_gt_cases a 0x800617ff).
  { found (mkRegion 0x80000000 0x800617ff 0x200000) 0x80. }
  destruct (Z.le_gt_cases a 0x800a3fff).
  { found (mkRegion 0x80080000 0x800a3fff 0x280000) 0x80. }
  found (mkRegion 0x80100000 0x80137fff 0x300000) 0x80.
Qed.

(** [host_offset] is the region table. *)
Lemma host_offset_spec p a :
  match host_offset p a with
  | Ok x => exists r, r ∈ regions p /\ in_region r a /\ x = r_host r + (a - r_start r)
  | Err e => e = AddressError.Unsupported a /\ Forall (fun r => ~ in_region r a) (regions p)
  | Panic => False
  end.
Proof.
  unfold host_offset, regions. rewrite land_mask24. change (2 ^ 24) with 16777216.
  pose proof (shared_region_base_spec a) as Hs.
  destruct (shared_region_base a) as [b|]; cbn in Hs.
  { destruct Hs as (r & ? & ? & Hx). exists r. rewrite Hx. split_and!; [|done..].
    apply elem_of_app. by left. }
  assert (base_spec (core_regions p) a (processor_region_base p a)) as Hc
    by (destruct p; [apply lmac_region_base_spec|apply umac_region_base_spec]).
  destruct (processor_region_base p a) as [b|]; cbn in Hc.
  - destruct Hc as (r & ? & ? & Hx). exists r. rewrite Hx. split_and!; [|done..].
    apply elem_of_app. by right.
  - split; [done|]. by apply Forall_app_2.
Qed.

(** The regions of a processor are disjoint, on both sides. *)
Lemma regions_cases p (P : region -> Prop) :
  (forall r, r ∈ regions p -> P r) <-> Forall P (regions p).
Proof. by rewrite list.Forall_forall. Qed.

Lemma host_offset_fun p r a :
  r ∈ regions p -> in_region r a -> host_offset p a = Ok (r_host r + (a - r_start r)).
Proof.
  intros Hr Ha. pose proof (host_offset_spec p a) as Hs.
  destruct (host_offset p a) as [x|e|]; [| |done].
  2: { destruct Hs as [_ Hn]. rewrite list.Forall_forall in Hn. by destruct (Hn r Hr). }
  destruct Hs as (r' & Hr' & Ha' & ->). f_equal. revert r Hr Ha r' Hr' Ha'.
  assert (forall r, r ∈ regions p -> in_region r a -> r_start r - r_host r
            = if a <? 0xa4000000 then (match p with Processor.Lmac => 0x7ff00000 | Processor.Umac => 0x7fe00000 end)
              else if a <? 0xa5000000 then 0xa4000000
              else if a <? 0xb0000000 then 0xa4fc0000
              else if a <? 0xb7000000 then 0xaff40000 else 0xb6f80000) as Hd.
  { refine (proj2 (regions_cases _ _) _). destruct p; cbn; repeat (apply Forall_cons_2;
      [unfold in_region; cbn; intros; repeat case_match; lia|]); by apply Forall_nil. }
  intros r Hr Ha r' Hr' Ha'. pose proof (Hd r Hr Ha). pose proof (Hd r' Hr' Ha'). lia.
Qed.

(** A host offset determines the displacement it came from. *)
Definition displacement (x : Z) : Z :=
  if x <? 0x040000 then 0xa4000000 else if x <? 0x080000 then 0xa4fc0000
  else if x <? 0x0c0000 then 0xb6f80000 else if x <? 0x100000 then 0xaff40000
  else if x <? 0x200000 then 0x7ff00000 else 0x7fe00000.

Lemma host_offset_inv p a x :
  host_offset p a = Ok x ->
  a = x + displacement x /\ 0 <= x < 2 ^ 24
  /\ (x < 0x100000 <-> exists r, r ∈ shared_regions /\ in_region r a)
  /\ (0x100000 <= x -> p = if x <? 0x200000 then Processor.Lmac else Processor.Umac).
Proof.
  intros Hx. pose proof (host_offset_spec p a) as Hs. rewrite Hx in Hs.
  clear Hx. destruct Hs as (r & Hr & Ha & ->). revert r Hr Ha.
  refine (proj2 (regions_cases _ _) _). unfold displacement.
  destruct p; cbn [regions shared_regions core_regions app];
    repeat (apply Forall_cons_2; [unfold in_region at 1; cbn [r_start r_end r_host]; intros Ha;
      split_and!; [repeat case_match; lia|lia|lia|split; intros Hlt|
                   repeat case_match; first [done|lia]]|]);
    try by apply Forall_nil.
  all: try (exfalso; lia).
  all: try (destruct Hlt as (r & Hr & Hin); unfold in_region in Hin;
    repeat (apply elem_of_cons in Hr as [->|Hr]; [cbn in Hin; lia|]); by apply elem_of_nil in Hr).
  all: try lia.
  all: unfold in_region;
    first [ exists (mkRegion 0xa4000000 0xa4007fff 0x000000); split; [in_list|cbn; lia]
          | exists (mkRegion 0xa5000000 0xa503ffff 0x040000); split; [in_list|cbn; lia]
          | exists (mkRegion 0xb7000000 0xb70101ff 0x080000); split; [in_list|cbn; lia]
          | exists (mkRegion 0xb0000000 0xb0030fff 0x0c0000); split; [in_list|cbn; lia] ].
Qed.

(** *** Validation *)

(** Accesses are padded to whole words. *)
Definition padded (n : Z) : Z := 4 * ((n + 3) / 4).

Lemma padded_bounds n : 0 <= n -> n <= padded n < n + 4 /\ padded n mod 4 = 0.
Proof. intros. unfold padded. Z.div_mod_to_equations. lia. Qed.

Lemma align4_spec n :
  0 <= n -> align4 n = if n + 3 <=? USIZE_MAX then Some (padded n) else None.
Proof.
  intros. unfold align4, checked_add, padded. destruct (_ <=? _); [|done]. by rewrite ldiff_3.
Qed.

Section access.
Context {E : Type}.

(** What a validated access guarantees: its first and last byte are mapped,
    with the same displacement. *)
Definition access_ok (p : Processor.t) (a n : Z) : Prop :=
  a mod 4 = 0 /\ n + 3 <= USIZE_MAX /\
  exists r r', r ∈ regions p /\ in_region r a
    /\ r' ∈ regions p /\ in_region r' (a + Z.max 1 (padded n) - 1)
    /\ r_start r - r_host r = r_start r' - r_host r'.

Lemma region_bound p r a : r ∈ regions p -> in_region r a -> 0 <= a < 2 ^ 32.
Proof.
  revert r. refine (proj2 (regions_cases _ _) _).
  destruct p; cbn; repeat (apply Forall_cons_2; [unfold in_region; cbn; lia|]);
    by apply Forall_nil.
Qed.

Lemma validate_access_spec p a n :
  in_u 32 a -> 0 <= n <= ISIZE_MAX ->
  match validate_access (E:=E) p a n with
  | Ok _ => access_ok p a n
  | Err e => ~ access_ok p a n
             /\ (e = RpuError.Unaligned \/ exists x, e = RpuError.Address x)
  | Panic => False
  end.
Proof.
  intros Ha Hn. unfold validate_access, access_ok. rewrite land_3.
  destruct (a mod 4 =? 0) eqn:Hal; cbn [negb]; [apply Z.eqb_eq in Hal|split; [lia|auto]].
  rewrite align4_spec by lia.
  rewrite (proj2 (Z.leb_le _ _)) by (unfold ISIZE_MAX, USIZE_MAX in *; lia).
  cbn [ok_or mbind res_bind]. unfold checked_range. pose proof (padded_bounds n ltac:(lia)).
  assert (forall b e, host_offset p b = Err e ->
    forall r, r ∈ regions p -> ~ in_region r b) as Hnone.
  { intros b e Hb r Hr. pose proof (host_offset_spec p b) as Hs. rewrite Hb in Hs.
    destruct Hs as [_ Hs]. rewrite list.Forall_forall in Hs. by apply Hs. }
  assert (forall b, host_offset p b <> Panic) as Hnp.
  { intros b Hb. pose proof (host_offset_spec p b) as Hs. by rewrite Hb in Hs. }
  destruct (padded n =? 0) eqn:Hz.
  { apply Z.eqb_eq in Hz. rewrite Hz. replace (a + Z.max 1 0 - 1) with a by lia.
    pose proof (host_offset_spec p a) as Hs.
    destruct (host_offset p a) as [x|e|] eqn:Hx; [| |by destruct (Hnp a)]; cbn.
    - destruct Hs as (r & Hr & Hin & _). split_and!; [done|unfold ISIZE_MAX, USIZE_MAX in *; lia|].
      by exists r, r.
    - split; [|eauto]. intros (_ & _ & r & _ & Hr & Hin & _). by eapply Hnone. }
  apply Z.eqb_neq in Hz. replace (Z.max 1 (padded n)) with (padded n) by lia.
  unfold checked_access_end, checked_span.
  rewrite (proj2 (andb_true_iff _ _)) by (unfold ISIZE_MAX in *; lia).
  cbn [mbind res_bind]. unfold checked_add.
  replace (a + padded n - 1) with (a + (padded n - 1)) by lia.
  destruct (a + (padded n - 1) <=? USIZE_MAX) eqn:Hend; cbn [ok_or mbind res_bind].
  2: { split; [|eauto]. intros (_ & _ & r & r' & _ & _ & Hr' & Hin' & _).
       pose proof (region_bound _ _ _ Hr' Hin'). unfold USIZE_MAX in *. lia. }
  unfold mapped_access_bounds. pose proof (host_offset_spec p a) as Hs.
  destruct (host_offset p a) as [x|e|] eqn:Hx; [| |by destruct (Hnp a)]; cbn [map_err mbind res_bind].
  2: { split; [|eauto]. intros (_ & _ & r & _ & Hr & Hin & _). by eapply Hnone. }
  set (e := a + (padded n - 1)) in *. pose proof (host_offset_spec p e) as Hs'.
  destruct (host_offset p e) as [y|err|] eqn:Hy; [| |by destruct (Hnp e)]; cbn [map_err mbind res_bind].
  2: { split; [|eauto]. intros (_ & _ & r & r' & _ & _ & Hr & Hin & _). by eapply Hnone. }
  destruct Hs as (r & Hr & Hin & Hxr), Hs' as (r' & Hr' & Hin' & Hyr).
  destruct (bool_decide _) eqn:Hb; cbn [negb].
  - apply bool_decide_eq_true in Hb. destruct (x <=? y) eqn:?; [|done]. injection Hb as Hb.
    split_and!; [done|unfold ISIZE_MAX, USIZE_MAX in *; lia|]. exists r, r'. split_and!; [done..|lia].
  - apply bool_decide_eq_false in Hb. split; [|eauto].
    intros (_ & _ & q & q' & Hq & Hqin & Hq' & Hqin' & Hd). apply Hb.
    pose proof (host_offset_fun _ _ _ Hq Hqin) as H1. pose proof (host_offset_fun _ _ _ Hq' Hqin') as H2.
    rewrite Hx in H1. rewrite Hy in H2. injection H1 as ->. injection H2 as ->.
    rewrite (proj2 (Z.leb_le _ _)) by lia. f_equal. lia.
Qed.
End access.

(** *** No RPU operation panics, and each keeps the bus usable *)

Lemma host_offset_no_panic {E} p a : map_err (@RpuError.Address E) (host_offset p a) <> Panic.
Proof.
  apply map_err_no_panic. intros H. pose proof (host_offset_spec p a) as Hs. by rewrite H in Hs.
Qed.

Lemma chunk_host_offset_no_panic {E} p a i : chunk_host_offset (E:=E) p a i <> Panic.
Proof.
  unfold chunk_host_offset. repeat (apply bind_no_panic; [apply ok_or_no_panic|intros ? _]).
  apply host_offset_no_panic.
Qed.

Lemma host_offset_bound {E} p a x : map_err (@RpuError.Address E) (host_offset p a) = Ok x -> in_u 32 x.
Proof.
  destruct (host_offset p a) as [y|e|] eqn:Hy; [|done..]. intros [= <-].
  destruct (host_offset_inv _ _ _ Hy) as (_ & ? & _). unfold in_u. lia.
Qed.

Lemma chunk_host_offset_bound {E} p a i x : chunk_host_offset (E:=E) p a i = Ok x -> in_u 32 x.
Proof.
  unfold chunk_host_offset. intros Hx. apply bind_Ok_inv in Hx as (? & _ & Hx).
  apply bind_Ok_inv in Hx as (? & _ & Hx). by eapply host_offset_bound.
Qed.

Lemma validate_access_no_panic {E} p a n : validate_access (E:=E) p a n <> Panic.
Proof.
  unfold validate_access, checked_range, checked_access_end, checked_span, mapped_access_bounds.
  destruct (negb _); [done|]. apply bind_no_panic; [apply ok_or_no_panic|intros m _].
  destruct (m =? 0).
  - apply bind_no_panic; [apply host_offset_no_panic|done].
  - apply bind_no_panic.
    + apply bind_no_panic; [by destruct (_ && _)|intros ? _].
      apply bind_no_panic; [apply ok_or_no_panic|done].
    + intros [span end_] _. apply bind_no_panic.
      * repeat (apply bind_no_panic; [apply host_offset_no_panic|intros ? _]). done.
      * intros [? ?] _. by destruct (negb _).
Qed.

Lemma lends_mapM_err {S E F A} n P (f : F -> E) (m : M (S * list Z) F A) Q R R' :
  lends n P m Q R' -> (forall e s, R' e s -> R (f e) s) -> lends n P (mapM_err f m) Q R.
Proof. intros Hm HR. eapply triple_mapM_err; [exact Hm|]. intros e [s l] []. split; auto. Qed.

(** A known fact about the state. *)
Lemma lends_known {S E A} n (phi : Prop) P (m : M (S * list Z) E A) Q R :
  (phi -> lends n P m Q R) -> lends n (fun s => phi /\ P s) m Q R.
Proof. intros Hm s [[Hphi HP] Hl]. by apply (Hm Hphi s (conj HP Hl)). Qed.

Section rpu_laws.
Context {W E : Type} `{HL : BusLaws W E} `{!DelayOps W} `{!DelayLaws W E}.

(** [safe m Q]: from a usable bus, no panic, and a usable bus in every case. *)
Definition safe {A E'} (m : M W E' A) (Q : A -> Prop) : Prop :=
  triple bus_inv m (fun a w => Q a /\ bus_inv w) (fun _ => bus_inv).

Lemma safe_bind {A B E'} (m : M W E' A) (f : A -> M W E' B) Q' Q :
  safe m Q' -> (forall a, Q' a -> safe (f a) Q) -> safe (m ≫= f) Q.
Proof. intros Hm Hf. eapply triple_bind; [apply Hm|]. intros a s [Ha Hs]. by apply Hf. Qed.

Lemma safe_ret {A E'} (a : A) (Q : A -> Prop) : Q a -> safe (E':=E') (mret a) Q.
Proof. intros Ha s Hs. done. Qed.

Lemma safe_throw {A E'} (e : E') (Q : A -> Prop) : safe (throw e) Q.
Proof. intros s Hs. done. Qed.

Lemma safe_lift {A E'} (r : res E' A) (Q : A -> Prop) :
  r <> Panic -> (forall a, r = Ok a -> Q a) -> safe (lift r) Q.
Proof. intros Hr HQ s Hs. unfold lift. destruct r; auto. Qed.

Lemma safe_mapM_err {A E' F} (f : F -> E') (m : M W F A) Q : safe m Q -> safe (mapM_err f m) Q.
Proof. intros Hm. by eapply triple_mapM_err. Qed.

Lemma safe_weaken {A E'} (m : M W E' A) (Q Q' : A -> Prop) :
  safe m Q -> (forall a, Q a -> Q' a) -> safe m Q'.
Proof.
  intros Hm HQ. eapply triple_consequence; [exact Hm|done| |done]. intros a s []. auto.
Qed.

Lemma safe_delay {E'} ms : safe (E':=E') (delay ms) (fun _ => True).
Proof. intros s Hs. split; [done|]. by apply delay_inv. Qed.

Lemma safe_for_each {X E'} (l : list X) (body : X -> M W E' unit) :
  (forall x, x ∈ l -> safe (body x) (fun _ => True)) -> safe (for_each l body) (fun _ => True).
Proof.
  intros Hb. eapply triple_consequence;
    [apply (triple_for_each bus_inv _ _ (fun _ => bus_inv))|done|done|done].
  intros x Hx. eapply triple_consequence; [by apply Hb|done| |done]. by intros a s [].
Qed.

Lemma safe_with_local {A E'} n init (m : M (W * list Z) E' A) (Q : A -> Prop) :
  buf_ok n init -> lends n bus_inv m (fun a w => Q a /\ bus_inv w) (fun _ => bus_inv) ->
  safe (with_local init m) (fun al => Q al.1 /\ buf_ok n al.2).
Proof.
  intros Hi Hm. eapply triple_consequence; [by apply (triple_with_local bus_inv n)|done| |done].
  intros [a l] s [[] ?]. done.
Qed.

Lemma lends_inv {A E'} n (m : M (W * list Z) E' A) :
  lends n bus_inv m (fun _ => bus_inv) (fun _ => bus_inv) ->
  lends n bus_inv m (fun _ w => True /\ bus_inv w) (fun _ => bus_inv).
Proof. intros Hm. eapply triple_consequence; [exact Hm|done| |done]. intros a s []. done. Qed.

Lemma lends_rpu_read n p a :
  lends n bus_inv (read (E:=E) p a) (fun _ => bus_inv) (fun _ => bus_inv).
Proof.
  intros [w l] Hp. destruct Hp as [Hw Hl]. pose proof Hl as [Hlen _]. cbn [fst snd] in *.
  unfold read. unfold mbind at 1, M_bind at 1, gets at 1. cbn [fst snd].
  assert (0 <= n) by (rewrite <-Hlen; apply len_nonneg). rewrite Hlen.
  pose proof (ldiff_3 n) as Hld. set (al := Z.ldiff n 3) in *.
  assert (0 <= al <= n /\ n - al < 4) by (rewrite Hld; Z.div_mod_to_equations; lia).
  refine (lends_bind n bus_inv _ _ (fun _ => bus_inv) (fun _ => bus_inv) (fun _ => bus_inv)
            _ _ (w, l) (conj Hw Hl)).
  { by apply lends_lift; [apply validate_access_no_panic|..]. }
  intros _. eapply (lends_bind _ _ _ _ (fun _ => bus_inv)).
  { apply lends_on_slice; [lia..|]. apply lends_chunks_mut; [done|]. intros i c Hc.
    apply (lends_bind _ _ _ _ (fun off w => in_u 32 off /\ bus_inv w)).
    - apply lends_lift; [apply chunk_host_offset_no_panic| |done].
      intros off s Hs Hoff. split; [by eapply chunk_host_offset_bound|done].
    - intros off [s k] [[Hoff Hs] Hk]. refine (lends_mapM_err c bus_inv _ _ (fun _ => bus_inv)
        (fun _ => bus_inv) (fun _ => bus_inv) _ _ (s, k) (conj Hs Hk)); [|done].
      apply bus_read_law; [done|]. unfold MAX_BUS_CHUNK in *. lia. }
  intros _ [w' l'] [Hw' Hl']. pose proof Hl' as [Hlen' _]. cbn [fst snd] in *.
  unfold read_tail, mbind at 1, M_bind at 1, gets at 1. cbn [fst snd]. rewrite Hlen'.
  destruct (n - al =? 0) eqn:Hz; [done|]. apply Z.eqb_neq in Hz.
  refine (lends_bind n bus_inv _ _ (fun off w => in_u 32 off /\ bus_inv w) (fun _ => bus_inv)
            (fun _ => bus_inv) _ _ (w', l') (conj Hw' Hl')).
  { apply lends_lift; [apply host_offset_no_panic| |done].
    intros off s Hs Hoff. split; [by eapply host_offset_bound|done]. }
  intros off. apply lends_known. intros Hoff.
  apply (lends_bind _ _ _ _ (fun at_ w => buf_ok 4 at_.2 /\ bus_inv w)).
  { apply lends_on_fst. eapply triple_consequence;
      [apply (triple_with_local bus_inv 4 _ _ (fun _ => bus_inv) (fun _ => bus_inv))|done| |done].
    - by apply buf_ok_zeros.
    - eapply lends_mapM_err; [by apply bus_read_law|done].
    - by intros [? ?] ? []. }
  intros [[] tail] [w'' l''] [[[Ht Htb] Hw''] Hl'']. cbn [fst snd] in *.
  unfold lift. rewrite slice_in by lia. cbn. split; [done|].
  apply (buf_ok_splice n al n); [done|lia..|]. split; [rewrite len_take, len_drop; lia|].
  by apply Forall_take, Forall_drop.
Qed.

Lemma safe_bus_write a d : safe (mapM_err (@RpuError.Bus E) (bus_write a d)) (fun _ => True).
Proof.
  apply safe_mapM_err. eapply triple_consequence; [apply bus_write_law|done..].
Qed.

Lemma safe_write p a d : safe (write (E:=E) p a d) (fun _ => True).
Proof.
  pose proof (len_nonneg d). pose proof (ldiff_3 (len d)) as Hld.
  assert (0 <= Z.ldiff (len d) 3 <= len d /\ len d - Z.ldiff (len d) 3 < 4)
    by (rewrite Hld; Z.div_mod_to_equations; lia).
  unfold write. apply (safe_bind _ _ (fun _ => True)).
  { apply safe_lift; [apply validate_access_no_panic|done]. }
  intros _ _. rewrite slice_in by lia. apply (safe_bind _ _ (fun _ => True)); [by apply safe_lift|].
  intros al _. apply (safe_bind _ _ (fun _ => True)).
  { apply safe_for_each. intros [i c] _. apply (safe_bind _ _ (fun _ => True)).
    - apply safe_lift; [apply chunk_host_offset_no_panic|done].
    - intros. apply safe_bus_write. }
  intros _ _. unfold write_tail. destruct (_ =? 0); [by apply safe_ret|].
  rewrite slice_in by lia. apply (safe_bind _ _ (fun _ => True)); [by apply safe_lift|].
  intros rest _. apply (safe_bind _ _ (fun _ => True)).
  - apply safe_lift; [apply host_offset_no_panic|done].
  - intros. apply safe_bus_write.
Qed.

Lemma safe_read_u32 p a : safe (read_u32 (E:=E) p a) (fun v => in_u 32 v).
Proof.
  unfold read_u32. destruct (negb _); [apply safe_throw|].
  eapply safe_bind.
  { apply (safe_with_local 4 _ _ (fun _ => True)); [by apply buf_ok_zeros|].
    apply lends_inv, lends_rpu_read. }
  intros [[] b] [_ [Hl Hb]]. apply safe_ret. cbn in *.
  pose proof (from_le_bound b Hb) as Hf. by rewrite Hl in Hf.
Qed.

Lemma safe_write_u32 p a v : safe (write_u32 (E:=E) p a v) (fun _ => True).
Proof. unfold write_u32. destruct (negb _); [apply safe_throw|apply safe_write]. Qed.

Lemma safe_read_register a : safe (read_register (E:=E) a) (fun v => in_u 32 v).
Proof. apply safe_read_u32. Qed.

Lemma safe_write_register a v : safe (write_register (E:=E) a v) (fun _ => True).
Proof. apply safe_write_u32. Qed.

Lemma safe_write_indirect p a d : safe (write_indirect (E:=E) p a d) (fun _ => True).
Proof.
  unfold write_indirect, write_indirect_words. apply (safe_bind _ _ (fun _ => True)).
  { apply safe_lift; [|done]. unfold validate_indirect_access. by repeat case_match. }
  intros _ _. apply (safe_bind _ _ (fun _ => True)); [apply safe_write_register|].
  intros _ _. apply safe_for_each. intros w _. apply safe_write_register.
Qed.

Lemma safe_poll_register a m e n d : safe (poll_register (E:=E) a m e n d) (fun _ => True).
Proof.
  unfold poll_register. generalize 0 as last. induction (Z.to_nat n) as [|k IH]; intros last; cbn.
  - apply safe_throw.
  - eapply safe_bind; [apply safe_read_register|]. intros v _.
    destruct (_ =? _); [by apply safe_ret|].
    apply (safe_bind _ _ (fun _ => True)); [apply safe_delay|]. intros _ _. apply IH.
Qed.

Lemma safe_wait_status_bit o m n : is_byte o ->
  safe (wait_status_bit (E:=E) o m n) (fun _ => True).
Proof.
  intros Ho. induction n as [|n IH]; cbn; [apply safe_throw|].
  apply (safe_bind _ _ is_byte).
  { apply safe_mapM_err. by apply bus_read_status_law. }
  intros v _. destruct (has v m); [by apply safe_ret|].
  apply (safe_bind _ _ (fun _ => True)); [apply safe_delay|]. by intros _ _.
Qed.

Lemma safe_wake n : safe (wake (E:=E) n) (fun _ => True).
Proof.
  unfold wake. apply (safe_bind _ _ (fun _ => True)).
  { apply safe_mapM_err. eapply triple_consequence; [apply bus_write_status_law|done..]. }
  intros _ _. apply (safe_bind _ _ (fun _ => True)).
  - apply safe_wait_status_bit. by vm_compute.
  - intros _ _. apply safe_wait_status_bit. by vm_compute.
Qed.

Lemma safe_reset_processor p : safe (reset_processor (E:=E) p) (fun _ => True).
Proof.
  unfold reset_processor. apply (safe_bind _ _ (fun _ => True)); [apply safe_write_register|].
  intros _ _. apply (safe_bind _ _ (fun _ => True)); [apply safe_poll_register|].
  intros _ _. apply safe_poll_register.
Qed.
End rpu_laws.

Create HintDb safe.
#[export] Hint Resolve safe_write safe_write_u32 safe_write_register safe_write_indirect
  safe_poll_register safe_delay safe_throw safe_reset_processor safe_wake : safe.

(** ** Reference semantics: a bus that stores bytes

    The contract of a working bus: a block write stores the bytes at
    consecutive host addresses, a block read returns them. *)

Definition store (m : Z -> Z) (o : Z) (d : list Z) : Z -> Z := fun x =>
  if (o <=? x) && (x <? o + len d) then default 0 (d !! Z.to_nat (x - o)) else m x.
Definition fetch (m : Z -> Z) (o : Z) (n : nat) : list Z :=
  map (fun i => m (o + Z.of_nat i)) (seq 0 n).

Class MemoryBus (W E : Type) `{BusOps W E} : Type := {
  mem : W -> Z -> Z;
  mem_write o d w : exists w', bus_write o d w = (Ok tt, w')
                               /\ forall x, mem w' x = store (mem w) o d x;
  mem_read o w l : exists w', bus_read o (w, l) = (Ok tt, (w', fetch (mem w) o (length l)))
                              /\ forall x, mem w' x = mem w x }.

Lemma length_fetch m o n : length (fetch m o n) = n.
Proof. unfold fetch. by rewrite length_map, length_seq. Qed.

Lemma lookup_fetch m o n i : (i < n)%nat -> fetch m o n !! i = Some (m (o + Z.of_nat i)).
Proof.
  intros. unfold fetch. rewrite list_lookup_fmap, lookup_seq_lt by done. done.
Qed.

Lemma fetch_ext m m' o n : (forall x, m x = m' x) -> fetch m o n = fetch m' o n.
Proof. intros Hm. apply map_ext. auto. Qed.

Lemma fetch_split m o n k : fetch m o (n + k) = fetch m o n ++ fetch m (o + Z.of_nat n) k.
Proof.
  apply list_eq. intros i. destruct (decide (i < n)%nat).
  { rewrite lookup_app_l by (rewrite length_fetch; lia). by rewrite !lookup_fetch by lia. }
  rewrite lookup_app_r, length_fetch by (rewrite length_fetch; lia).
  destruct (decide (i < n + k)%nat).
  - rewrite !lookup_fetch by lia. do 2 f_equal. lia.
  - rewrite !lookup_ge_None_2 by (rewrite length_fetch; lia). done.
Qed.

Lemma fetch_store m o d : fetch (store m o d) o (length d) = d.
Proof.
  apply list_eq. intros i. destruct (decide (i < length d)%nat).
  - rewrite lookup_fetch by done. unfold store.
    rewrite (proj2 (andb_true_iff _ _)) by (unfold len; lia).
    replace (Z.to_nat (o + Z.of_nat i - o)) with i by lia.
    by destruct (lookup_lt_is_Some_2 d i ltac:(done)) as [x ->].
  - rewrite !lookup_ge_None_2 by (rewrite ?length_fetch; lia). done.
Qed.

Lemma store_app m o d e x : store (store m o d) (o + len d) e x = store m o (d ++ e) x.
Proof.
  unfold store. rewrite len_app. pose proof (len_nonneg d). pose proof (len_nonneg e).
  destruct ((o + len d <=? x) && (x <? o + len d + len e)) eqn:H1.
  - rewrite (proj2 (andb_true_iff _ _)) by lia.
    rewrite lookup_app_r by (unfold len in *; lia). do 2 f_equal. unfold len in *. lia.
  - destruct ((o <=? x) && (x <? o + len d)) eqn:H2.
    + rewrite (proj2 (andb_true_iff _ _)) by lia.
      rewrite lookup_app_l by (unfold len in *; lia). done.
    + rewrite (proj2 (andb_false_iff _ _)); [done|]. lia.
Qed.

Lemma store_nil m o x : store m o [] x = m x.
Proof. unfold store. rewrite len_nil. by rewrite (proj2 (andb_false_iff _ _)) by lia. Qed.

Lemma store_ext m m' o d x : (forall y, m y = m' y) -> store m o d x = store m' o d x.
Proof. intros Hm. unfold store. by rewrite Hm. Qed.

(** An access of [n > 0] bytes inside one region. *)
Definition inside (p : Processor.t) (r : region) (a n : Z) : Prop :=
  r ∈ regions p /\ a mod 4 = 0 /\ in_region r a /\ in_region r (a + padded n - 1).
Definition host_of (r : region) (a : Z) : Z := r_host r + (a - r_start r).

Lemma inside_between p r a n b :
  inside p r a n -> a <= b < a + padded n -> host_offset p b = Ok (host_of r b).
Proof.
  intros (Hr & _ & Ha & He) Hb. apply host_offset_fun; [done|]. unfold in_region in *. lia.
Qed.

Lemma inside_valid {E} p r a n :
  inside p r a n -> 0 < n <= ISIZE_MAX -> validate_access (E:=E) p a n = Ok tt.
Proof.
  intros (Hr & Hal & Ha & He) Hn. pose proof (padded_bounds n ltac:(lia)).
  pose proof (validate_access_spec (E:=E) p a n (region_bound _ _ _ Hr Ha) ltac:(lia)) as Hs.
  destruct (validate_access p a n) as [[]|e|]; [done|exfalso|done].
  destruct Hs as [Hs _]. apply Hs. split_and!; [done|unfold ISIZE_MAX, USIZE_MAX in *; lia|].
  exists r, r. replace (Z.max 1 (padded n)) with (padded n) by lia. done.
Qed.

Lemma inside_chunk {E} p r a n j :
  inside p r a n -> 0 < n <= ISIZE_MAX -> 0 <= j -> 4096 * j < n ->
  chunk_host_offset (E:=E) p a j = Ok (host_of r a + 4096 * j).
Proof.
  intros Hi Hn Hj Hlt. pose proof (padded_bounds n ltac:(lia)).
  pose proof Hi as (Hr & _ & Ha & He). pose proof (region_bound _ _ _ Hr He).
  pose proof (region_bound _ _ _ Hr Ha). unfold ISIZE_MAX in *.
  unfold chunk_host_offset, checked_mul, checked_add, MAX_BUS_CHUNK, MAX_SPI_DATA_LEN, USIZE_MAX.
  rewrite (proj2 (Z.leb_le (j * 4096) _)) by lia. cbn [mbind option_bind].
  rewrite (proj2 (Z.ltb_lt _ _)) by lia. cbn [ok_or mbind res_bind].
  rewrite (proj2 (Z.leb_le _ _)) by lia. cbn [ok_or mbind res_bind].
  rewrite (inside_between _ _ _ _ _ Hi) by lia. cbn. f_equal. unfold host_of. lia.
Qed.

Section memory_bus.
Context {W E : Type} `{HM : MemoryBus W E} `{!DelayOps W}.
Implicit Types w : W.

Lemma write_chunks_mem p r a n K fuel : Z.of_nat K = 4096 -> forall data i w,
  inside p r a n -> 0 < n <= ISIZE_MAX -> (length data <= fuel)%nat ->
  (0 < len data -> 4096 * Z.of_nat i + len data <= n) ->
  exists w',
    for_each (imap (fun k c => (Z.of_nat (i + k), c)) (chunks_fuel fuel K data))
      (fun ic => offset ← lift (chunk_host_offset p a ic.1);
                 mapM_err (@RpuError.Bus E) (bus_write offset ic.2)) w = (Ok tt, w')
    /\ forall x, mem w' x = store (mem w) (host_of r a + 4096 * Z.of_nat i) data x.
Proof.
  intros HK. induction fuel as [|fuel IH]; intros data i w Hi Hn Hf Hl.
  { destruct data; [|cbn in Hf; lia]. exists w. split; [done|]. intros. by rewrite store_nil. }
  destruct data as [|b data']. { exists w. split; [done|]. intros. by rewrite store_nil. }
  set (data := b :: data') in *.
  change (chunks_fuel (Datatypes.S fuel) K data)
    with (take K data :: chunks_fuel fuel K (drop K data)).
  rewrite imap_cons. cbn [for_each fst snd]. rewrite Nat.add_0_r.
  assert (0 < len data) by (unfold data; rewrite len_cons; pose proof (len_nonneg data'); lia).
  unfold mbind at 1, M_bind at 1. unfold mbind at 1, M_bind at 1, lift at 1.
  rewrite (inside_chunk p r a n (Z.of_nat i)) by (done || lia).
  unfold mapM_err. destruct (mem_write (host_of r a + 4096 * Z.of_nat i) (take K data) w)
    as (w1 & -> & Hw1). cbn [map_err].
  destruct (IH (drop K data) (Datatypes.S i) w1 Hi Hn) as (w' & Hw' & Hm).
  { rewrite length_drop. lia. }
  { rewrite len_drop. lia. }
  exists w'. split.
  - rewrite <-Hw'. erewrite imap_ext; [reflexivity|]. intros k c _. cbn. f_equal. lia.
  - intros x. rewrite Hm, (store_ext _ _ _ _ _ Hw1).
    destruct (Z.le_gt_cases (len data) 4096).
    + rewrite drop_ge, store_nil by (unfold len in *; lia).
      by rewrite firstn_all2 by (unfold len in *; lia).
    + replace (host_of r a + 4096 * Z.of_nat (Datatypes.S i))
        with (host_of r a + 4096 * Z.of_nat i + len (take K data))
        by (rewrite len_take; lia).
      by rewrite store_app, take_drop.
Qed.

Lemma read_chunks_mem p r a n fuel : forall l i w,
  inside p r a n -> 0 < n <= ISIZE_MAX -> (length l <= fuel)%nat ->
  (0 < len l -> 4096 * Z.of_nat i + len l <= n) ->
  exists w',
    chunks_mut_from fuel MAX_BUS_CHUNK (Z.of_nat i)
      (fun index => offset ← lift (chunk_host_offset p a index);
                    mapM_err (@RpuError.Bus E) (bus_read offset)) w l
    = (Ok tt, (w', fetch (mem w) (host_of r a + 4096 * Z.of_nat i) (length l)))
    /\ forall x, mem w' x = mem w x.
Proof.
  induction fuel as [|fuel IH]; intros l i w Hi Hn Hf Hl.
  { destruct l; [|cbn in Hf; lia]. by exists w. }
  destruct l as [|b l']. { by exists w. }
  set (l := b :: l') in *. cbn [chunks_mut_from].
  change (match l with [] => (Ok tt, (w, l)) | _ :: _ => ?e end) with e.
  assert (0 < len l) by (unfold l; rewrite len_cons; pose proof (len_nonneg l'); lia).
  assert (Z.of_nat (Z.to_nat MAX_BUS_CHUNK) = 4096) as HK by done.
  set (K := Z.to_nat MAX_BUS_CHUNK) in *. clearbody K.
  unfold mbind at 1, M_bind at 1, lift at 1.
  rewrite (inside_chunk p r a n (Z.of_nat i)) by (done || lia).
  unfold mapM_err at 1.
  destruct (mem_read (host_of r a + 4096 * Z.of_nat i) w (take K l)) as (w1 & -> & Hw1).
  cbn [map_err]. replace (Z.of_nat i + 1) with (Z.of_nat (Datatypes.S i)) by lia.
  destruct (IH (drop K l) (Datatypes.S i) w1 Hi Hn) as (w' & -> & Hm).
  { rewrite length_drop. lia. }
  { rewrite len_drop. lia. }
  exists w'. split; [|intros x; by rewrite Hm].
  do 3 f_equal. rewrite (fetch_ext (mem w1) (mem w)) by done.
  replace (length l) with (length (take K l) + length (drop K l))%nat
    by (rewrite <-length_app, take_drop; done).
  rewrite fetch_split. f_equal.
  destruct (decide (length l <= K)%nat).
  - by rewrite (length_drop l), (proj2 (Nat.sub_0_le _ _)).
  - f_equal. rewrite length_take. lia.
Qed.

(** A transfer splits into the word-aligned part and at most one tail word. *)
Lemma aligned_split n :
  0 <= n -> let al := Z.ldiff n 3 in
  0 <= al <= n /\ n - al < 4 /\ padded n = (if n - al =? 0 then al else al + 4).
Proof.
  intros Hn al. unfold al. rewrite ldiff_3. unfold padded.
  destruct (_ =? _) eqn:?; Z.div_mod_to_equations; lia.
Qed.

Lemma tail_offset p r a n al :
  inside p r a n -> 0 <= al < n -> n <= ISIZE_MAX ->
  map_err (@RpuError.Address E) (host_offset p (u32 (a + u32 al))) = Ok (host_of r a + al).
Proof.
  intros Hi Hal Hn. pose proof (padded_bounds n ltac:(lia)).
  pose proof Hi as (Hr & _ & Ha & He).
  pose proof (region_bound _ _ _ Hr He). pose proof (region_bound _ _ _ Hr Ha).
  unfold u32, ISIZE_MAX in *. rewrite (Z.mod_small al), Z.mod_small by lia.
  rewrite (inside_between _ _ _ _ _ Hi) by lia. cbn. unfold host_of. f_equal. lia.
Qed.

(** A write of a region stores the bytes, zero-padded to whole words. *)
Lemma write_mem p r a data w :
  inside p r a (len data) -> 0 < len data <= ISIZE_MAX ->
  exists w', write (E:=E) p a data w = (Ok tt, w')
    /\ forall x, mem w' x
                 = store (mem w) (host_of r a) (data ++ zeros (padded (len data) - len data)) x.
Proof.
  intros Hi Hn. destruct (aligned_split (len data)) as (Hal & Ht & Hp); [lia|].
  set (al := Z.ldiff (len data) 3) in *. unfold write.
  unfold mbind at 1, M_bind at 1, lift at 1. rewrite (inside_valid p r) by done. fold al.
  unfold mbind at 1, M_bind at 1, lift at 1. rewrite slice_in by lia. cbn [expect].
  change (drop (Z.to_nat 0) data) with data. rewrite Z.sub_0_r.
  set (d1 := take (Z.to_nat al) data). unfold mbind at 1, M_bind at 1.
  assert (len d1 = al) as Hd1 by (unfold d1; rewrite len_take; lia).
  destruct (write_chunks_mem p r a (len data) (Z.to_nat MAX_BUS_CHUNK) (length d1) eq_refl
              d1 0%nat w Hi Hn) as (w1 & Hw1 & Hm1); [lia|rewrite Hd1; lia|].
  unfold write_aligned, enumerate, chunks. cbn [Nat.add] in Hw1. rewrite Hw1.
  rewrite Z.add_0_r in Hm1. unfold write_tail.
  destruct (len data - al =? 0) eqn:Hz.
  - apply Z.eqb_eq in Hz. exists w1. split; [done|]. intros x. rewrite Hm1.
    replace (padded (len data) - len data) with 0 by lia. change (zeros 0) with (@nil Z).
    rewrite app_nil_r. unfold d1. by rewrite firstn_all2 by (unfold len in *; lia).
  - apply Z.eqb_neq in Hz. unfold mbind at 1, M_bind at 1, lift at 1.
    rewrite slice_in by lia. cbn [expect].
    rewrite (firstn_all2 (drop _ data)) by (rewrite length_drop; unfold len in *; lia).
    set (d2 := drop (Z.to_nat al) data).
    assert (len d2 = len data - al) as Hd2 by (unfold d2; rewrite len_drop; lia).
    unfold mbind at 1, M_bind at 1, lift at 1.
    rewrite (tail_offset p r a (len data) al) by (done || lia). unfold mapM_err.
    destruct (mem_write (host_of r a + al) (splice (zeros 4) 0 d2) w1) as (w2 & -> & Hw2).
    exists w2. split; [done|]. intros x. rewrite Hw2, (store_ext _ _ _ _ _ Hm1).
    assert (splice (zeros 4) 0 d2 = d2 ++ zeros (padded (len data) - len data)) as ->.
    { unfold splice, zeros. rewrite drop_replicate. change (take (Z.to_nat 0) ?k) with (@nil Z).
      cbn [app Nat.add Z.to_nat]. do 2 f_equal. unfold len in *. lia. }
    rewrite <-Hd1 at 1. rewrite store_app. f_equal.
    unfold d1, d2. by rewrite app_assoc, take_drop.
Qed.

(** A read of a region returns the stored bytes. *)
Lemma read_mem p r a l w :
  inside p r a (len l) -> 0 < len l <= ISIZE_MAX ->
  exists w', read (E:=E) p a (w, l) = (Ok tt, (w', fetch (mem w) (host_of r a) (length l)))
             /\ forall x, mem w' x = mem w x.
Proof.
  intros Hi Hn. destruct (aligned_split (len l)) as (Hal & Ht & Hp); [lia|].
  set (al := Z.ldiff (len l) 3) in *. unfold read.
  unfold mbind at 1, M_bind at 1, gets at 1. cbn [fst snd].
  unfold mbind at 1, M_bind at 1, lift at 1. rewrite (inside_valid p r) by done. fold al.
  unfold mbind at 1, M_bind at 1, on_slice. rewrite slice_in by lia.
  change (drop (Z.to_nat 0) l) with l. rewrite Z.sub_0_r.
  set (l1 := take (Z.to_nat al) l).
  assert (len l1 = al) as Hl1 by (unfold l1; rewrite len_take; lia).
  destruct (read_chunks_mem p r a (len l) (length l1) l1 0%nat w Hi Hn)
    as (w1 & Hw1 & Hm1); [lia|rewrite Hl1; lia|].
  unfold read_aligned, for_chunks_mut. change (Z.of_nat 0) with 0 in Hw1. rewrite Hw1.
  rewrite Z.add_0_r. set (f1 := fetch (mem w) (host_of r a) (length l1)).
  assert (splice l 0 f1 = f1 ++ drop (length l1) l) as ->.
  { unfold splice, f1. cbn [Z.to_nat take app Nat.add]. by rewrite length_fetch. }
  assert (len (f1 ++ drop (length l1) l) = len l) as Hlen.
  { rewrite len_app. unfold f1, len. rewrite length_fetch, length_drop.
    unfold l1. rewrite length_take. unfold len in *. lia. }
  unfold read_tail, mbind at 1, M_bind at 1, gets at 1. cbn [fst snd]. rewrite Hlen.
  destruct (len l - al =? 0) eqn:Hz.
  - apply Z.eqb_eq in Hz. exists w1. split; [|done].
    rewrite drop_ge, app_nil_r by (unfold len in *; lia). unfold f1.
    by replace (length l1) with (length l) by (unfold len in *; lia).
  - apply Z.eqb_neq in Hz. unfold mbind at 1, M_bind at 1, lift at 1.
    rewrite (tail_offset p r a (len l) al) by (done || lia).
    unfold mbind at 1, M_bind at 1, on_fst, with_local, mapM_err.
    destruct (mem_read (host_of r a + al) w1 (zeros 4)) as (w2 & -> & Hw2).
    cbn [map_err]. cbv beta iota zeta. unfold mbind at 1, M_bind at 1, lift at 1.
    set (tail := fetch _ _ (length (zeros 4))).
    assert (len tail = 4) as Htl by (unfold tail, len; by rewrite length_fetch).
    rewrite slice_in by lia. cbn [expect]. unfold tail.
    exists w2. split; [|intros x; by rewrite Hw2].
    unfold modify. cbn [fst snd]. do 3 f_equal. rewrite Z.sub_0_r.
    change (drop (Z.to_nat 0) ?k) with k.
    rewrite (fetch_ext (mem w1) (mem w)) by done.
    transitivity (f1 ++ fetch (mem w) (host_of r a + al) (Z.to_nat (len l - al))).
    + unfold splice. rewrite take_app_length' by (unfold f1; rewrite length_fetch; unfold len in *; lia).
      f_equal. rewrite drop_ge, app_nil_r.
      * change (length (zeros 4)) with 4%nat.
        replace 4%nat with (Z.to_nat (len l - al) + (4 - Z.to_nat (len l - al)))%nat by lia.
        rewrite fetch_split, take_app_length'; [done|by rewrite length_fetch].
      * rewrite length_take, length_fetch. change (length (zeros 4)) with 4%nat.
        clear Hm1 Hw2. unfold len in *. lia.
    + unfold f1. unfold len in Hl1.
      replace (host_of r a + al) with (host_of r a + Z.of_nat (length l1)) by lia.
      rewrite <-fetch_split. f_equal. clear Hm1 Hw2. unfold len in *. lia.
Qed.
End memory_bus.

(** No other region has the displacement of a shared one. *)
Lemma shared_region_unique p r q :
  r ∈ shared_regions -> q ∈ regions p -> r_start r - r_host r = r_start q - r_host q -> r = q.
Proof.
  intros Hr. revert q. refine (proj2 (regions_cases _ _) _). revert r Hr.
  apply list.Forall_forall. unfold shared_regions at 1.
  destruct p; repeat apply Forall_cons_2; first [by apply Forall_nil|cbn; intros; first [done|lia]].
Qed.

(** A bus backed by a byte map, and its laws. *)
Definition flat_memory : Type := Z -> Z.
#[export] Instance flat_bus : BusOps flat_memory unit := {
  bus_read_status _ := mret 0;
  bus_write_status _ _ := mret tt;
  bus_read o := fun wl => (Ok tt, (wl.1, fetch wl.1 o (length wl.2)));
  bus_write o d := modify (fun m => store m o d) }.
#[export] Instance flat_delay : DelayOps flat_memory := { delay_ms _ m := m }.
#[export, refine] Instance flat_memory_bus : MemoryBus flat_memory unit := { mem m := m }.
Proof.
  - intros o d w. by exists (store w o d).
  - intros o w l. by exists w.
Defined.

(** * Properties *)

(** address translation never aliases: two RPU addresses (of either
    processor) with the same host offset are equal, belong to the same
    processor unless they lie in a shared region, and every offset fits the
    24-bit window. *)
Theorem host_offset_injective p q a b x :
  host_offset p a = Ok x -> host_offset q b = Ok x ->
  a = b /\ 0 <= x < 2 ^ 24
  /\ (p = q \/ exists r, r ∈ shared_regions /\ in_region r a).
Proof.
  intros Ha Hb. destruct (host_offset_inv _ _ _ Ha) as (H1 & H2 & H3 & H4).
  destruct (host_offset_inv _ _ _ Hb) as (H5 & _ & _ & H8).
  split; [lia|]. split; [done|].
  destruct (Z.lt_ge_cases x 0x100000); [right; by apply H3|left].
  by rewrite H4, H8 by lia.
Qed.

Example host_offset_injective_witness :
  host_offset Processor.Lmac 0xb0000010 = Ok 0x0c0010
  /\ host_offset Processor.Umac 0xb0000010 = Ok 0x0c0010
  /\ 0xb0000010 = 0xb0000010 /\ 0 <= 0x0c0010 < 2 ^ 24
  /\ (Processor.Lmac = Processor.Umac
      \/ exists r, r ∈ shared_regions /\ in_region r 0xb0000010).
Proof.
  split; [by vm_compute|]. split; [by vm_compute|].
  apply (host_offset_injective Processor.Lmac Processor.Umac 0xb0000010 0xb0000010 0x0c0010);
    by vm_compute.
Defined.

(** an access that passes validation is word aligned and both its ends are
    mapped; when it starts in a shared region (SBUS, PBUS, GRAM, packet RAM)
    every byte of the padded transfer lies in that region; refusals are
    [Unaligned] or an address error, never a panic. *)
Theorem validate_access_sound {E} p a n :
  in_u 32 a -> 0 < n <= ISIZE_MAX ->
  match validate_access (E:=E) p a n with
  | Ok _ =>
      access_ok p a n
      /\ forall r, r ∈ shared_regions -> in_region r a ->
                   forall i, 0 <= i < padded n -> in_region r (a + i)
  | Err e => ~ access_ok p a n /\ (e = RpuError.Unaligned \/ exists x, e = RpuError.Address x)
  | Panic => False
  end.
Proof.
  intros Ha Hn. pose proof (validate_access_spec (E:=E) p a n Ha ltac:(lia)) as Hs.
  destruct (validate_access p a n) as [u|e|]; [|done..]. split; [done|].
  intros r Hr Hin i Hi. destruct Hs as (_ & _ & q & q' & Hq & Hqin & Hq' & Hqin' & Hd).
  replace (Z.max 1 (padded n)) with (padded n) in Hqin' by lia.
  assert (r ∈ regions p) as Hrp by (apply elem_of_app; by left).
  pose proof (host_offset_fun _ _ _ Hrp Hin) as H1.
  pose proof (host_offset_fun _ _ _ Hq Hqin) as H2. rewrite H1 in H2. injection H2 as H2.
  rewrite <-(shared_region_unique p r q' Hr Hq' ltac:(lia)) in Hqin'.
  unfold in_region in *. lia.
Qed.

Example validate_access_sound_witness :
  match validate_access (E:=unit) Processor.Umac 0xb0005000 1726 with
  | Ok _ =>
      access_ok Processor.Umac 0xb0005000 1726
      /\ forall r, r ∈ shared_regions -> in_region r 0xb0005000 ->
                   forall i, 0 <= i < padded 1726 -> in_region r (0xb0005000 + i)
  | Err e => ~ access_ok Processor.Umac 0xb0005000 1726
             /\ (e = RpuError.Unaligned \/ exists x, e = RpuError.Address x)
  | Panic => False
  end.
Proof.
  apply (validate_access_sound (E:=unit) Processor.Umac 0xb0005000 1726); split; by vm_compute.
Defined.

(** C38: over a working bus, any write inside one region followed by a read of
    the same range returns exactly the bytes written, whatever the length and
    however it is cut into 4096-byte chunks and a padded tail word; and the
    write changes no host byte outside the padded range. *)
Theorem rpu_write_read_round_trip {W E} `{MemoryBus W E} p r a data buffer (w : W) :
  inside p r a (len data) -> 0 < len data <= ISIZE_MAX -> length buffer = length data ->
  exists w' w'',
    write (E:=E) p a data w = (Ok tt, w')
    /\ read (E:=E) p a (w', buffer) = (Ok tt, (w'', data))
    /\ forall x, x < host_of r a \/ host_of r a + padded (len data) <= x -> mem w'' x = mem w x.
Proof.
  intros Hi Hn Hb. pose proof (padded_bounds (len data) ltac:(lia)).
  destruct (write_mem (E:=E) p r a data w Hi Hn) as (w' & Hw' & Hm').
  assert (len buffer = len data) as Hlb by (unfold len; lia).
  destruct (read_mem (E:=E) p r a buffer w') as (w'' & Hw'' & Hm''); [by rewrite Hlb..|].
  exists w', w''. split; [done|]. split.
  - rewrite Hw''. do 3 f_equal. rewrite (fetch_ext _ _ _ _ Hm'), Hb.
    set (z := zeros _). pose proof (fetch_store (mem w) (host_of r a) (data ++ z)) as Hf.
    rewrite length_app, fetch_split in Hf. apply app_inj_1 in Hf as [Hf _]; [done|].
    by rewrite length_fetch.
  - intros x Hx. rewrite Hm'', Hm'. unfold store. rewrite len_app, len_zeros by lia.
    by rewrite (proj2 (andb_false_iff _ _)) by lia.
Qed.

Definition nines : flat_memory := fun _ => 9.

Example rpu_write_read_round_trip_witness :
  exists w' w'' : flat_memory,
    write (E:=unit) Processor.Lmac 0xb0000100 [1; 2; 3; 4; 5] nines = (Ok tt, w')
    /\ read (E:=unit) Processor.Lmac 0xb0000100 (w', zeros 5) = (Ok tt, (w'', [1; 2; 3; 4; 5]))
    /\ forall x, x < 0x0c0100 \/ 0x0c0100 + 8 <= x -> mem (E:=unit) w'' x = mem (E:=unit) nines x.
Proof.
  apply (rpu_write_read_round_trip (E:=unit) Processor.Lmac
           (mkRegion 0xb0000000 0xb0030fff 0x0c0000) 0xb0000100 [1; 2; 3; 4; 5] (zeros 5)
           nines); [|split; by vm_compute|done].
  split_and!; [in_list|done|split; by vm_compute..].
Defined.

(** [checked_range] only compares the two ends of an access, so inside a
    processor's code window, where several regions share one displacement, a
    range that runs across the unmapped gap between two regions is accepted
    although its middle cannot be translated. *)
Theorem access_gap_accepted :
  validate_access (E:=unit) Processor.Lmac 0x80033000 0xe000 = Ok tt
  /\ chunk_host_offset (E:=unit) Processor.Lmac 0x80033000 1
     = Err (RpuError.Address (AddressError.Unsupported 0x80034000)).
Proof. split; by vm_compute. Qed.
