(* ===== verification/Trace.v ===== *)
(** * Trace: what reaches the bus, and in which order

    [BusTrace] is a bus whose completed accesses can be told from its state;
    [logged] makes one of any bus.  Predicates on lists of accesses say what an
    operation does to the chip: [stored] and [fetched] for a block of chip
    memory, [word_written] and [register_read] for a register, [+++] for one
    after the other.  [runs] is the logic that proves them: unlike [triple] it
    says nothing of panics, and speaks of the accesses an operation adds. *)

From S2P Require Import Prelude Bus Memory.

Module Access.
Inductive t : Type :=
  | StatusRead (opcode value : Z)
  | StatusWritten (opcode value : Z)
  | Read (offset : Z) (bytes : list Z)
  | Written (offset : Z) (bytes : list Z).
End Access.

(** The accesses of a computation, the first one first. *)
Definition log : Type := list Access.t.

Class BusTrace (W E : Type) `{BusOps W E} `{DelayOps W} : Type := {
  trace : W -> log;
  trace_read_status opcode w :
    match bus_read_status opcode w with
    | (Ok value, w') => trace w' = trace w ++ [Access.StatusRead opcode value]
    | (_, w') => trace w' = trace w
    end;
  trace_write_status opcode value w :
    match bus_write_status opcode value w with
    | (Ok _, w') => trace w' = trace w ++ [Access.StatusWritten opcode value]
    | (_, w') => trace w' = trace w
    end;
  trace_read offset w bytes :
    match bus_read offset (w, bytes) with
    | (Ok _, (w', bytes')) =>
        trace w' = trace w ++ [Access.Read offset bytes'] /\ len bytes' = len bytes
    | (_, (w', _)) => trace w' = trace w
    end;
  trace_write offset bytes w :
    match bus_write offset bytes w with
    | (Ok _, w') => trace w' = trace w ++ [Access.Written offset bytes]
    | (_, w') => trace w' = trace w
    end;
  trace_delay ms w : trace (delay_ms ms w) = trace w }.

(** ** A log over any bus

    That a lent buffer keeps its length is what its Rust type says. *)

Class BufferKept (W E : Type) `{BusOps W E} : Prop :=
  bus_read_length offset w bytes :
    match bus_read offset (w, bytes) with
    | (Ok _, (_, bytes')) => len bytes' = len bytes
    | _ => True
    end.

#[export] Instance script_kept : BufferKept script unit.
Proof.
  intros offset [[|[b|] r] l] bytes; cbn; [..|done]; unfold mbind, M_bind, on_fst; cbn;
    rewrite len_take, ?len_app, len_zeros by apply len_nonneg;
    pose proof (len_nonneg bytes); rewrite ?len_nil; [|pose proof (len_nonneg b)]; unfold len in *; lia.
Qed.

Section logged.
Context {W E : Type} `{BusOps W E} `{DelayOps W}.

Definition logged : Type := W * log.

(** Runs [m] on the bus and appends what its value says. *)
Definition logging {A} (m : M W E A) (f : A -> Access.t) : M logged E A := fun wl =>
  match m wl.1 with
  | (Ok a, w) => (Ok a, (w, wl.2 ++ [f a]))
  | (Err e, w) => (Err e, (w, wl.2))
  | (Panic, w) => (Panic, (w, wl.2))
  end.

Definition logged_read (offset : Z) : M (logged * list Z) E unit := fun '((w, l), bytes) =>
  match bus_read offset (w, bytes) with
  | (Ok _, (w, bytes')) => (Ok tt, ((w, l ++ [Access.Read offset bytes']), bytes'))
  | (Err e, (w, bytes')) => (Err e, ((w, l), bytes'))
  | (Panic, (w, bytes')) => (Panic, ((w, l), bytes'))
  end.

#[export] Instance logged_bus : BusOps logged E := {
  bus_read_status opcode := logging (bus_read_status opcode) (Access.StatusRead opcode);
  bus_write_status opcode value :=
    logging (bus_write_status opcode value) (fun _ => Access.StatusWritten opcode value);
  bus_read := logged_read;
  bus_write offset bytes :=
    logging (bus_write offset bytes) (fun _ => Access.Written offset bytes) }.
#[export] Instance logged_delay : DelayOps logged :=
  { delay_ms ms wl := (delay_ms ms wl.1, wl.2) }.

Lemma logging_trace {A} (m : M W E A) f wl :
  match logging m f wl with
  | (Ok a, wl') => wl'.2 = wl.2 ++ [f a]
  | (_, wl') => wl'.2 = wl.2
  end.
Proof. unfold logging. by destruct (m wl.1) as [[a|e|] w]. Qed.

#[export, refine] Instance logged_trace `{!BufferKept W E} : BusTrace logged E := { trace := snd }.
Proof.
  - intros opcode w. apply (logging_trace (bus_read_status opcode)).
  - intros opcode value w. apply (logging_trace (bus_write_status opcode value) _ w).
  - intros offset [w l] bytes. cbn. pose proof (bus_read_length offset w bytes) as Hx.
    by destruct (bus_read offset (w, bytes)) as [[u|e|] [w' b]].
  - intros offset bytes w. apply (logging_trace (bus_write offset bytes) _ w).
  - done.
Defined.
End logged.
Arguments logged W : clear implicits.

(** The log is only watching: it keeps the laws of the bus below. *)
Section logged_laws.
Context {W E : Type} `{HL : BusLaws W E} `{!DelayOps W} `{HD : !DelayLaws W E}.

Lemma triple_logging {A} (m : M W E A) f Q :
  triple bus_inv m (fun a w => Q a /\ bus_inv w) (fun _ => bus_inv) ->
  triple (fun wl : logged W => bus_inv wl.1) (logging m f)
    (fun a wl => Q a /\ bus_inv wl.1) (fun _ wl => bus_inv wl.1).
Proof.
  intros Hm [w l] Hw. specialize (Hm w Hw). unfold logging. cbn in *.
  by destruct (m w) as [[a|e|] w'].
Qed.

#[export, refine] Instance logged_laws : BusLaws (logged W) E := { bus_inv wl := bus_inv wl.1 }.
Proof.
  - intros opcode Hop. by apply triple_logging, bus_read_status_law.
  - intros opcode value. eapply triple_consequence;
      [apply (triple_logging _ _ (fun _ => True))|done|by intros ? ? []|done].
    eapply triple_consequence; [apply bus_write_status_law|done..].
  - intros offset n Ho Hn [[w l] bytes] [Hw Hb].
    pose proof (bus_read_law offset n Ho Hn (w, bytes) (conj Hw Hb)) as Hx. cbn in *.
    by destruct (bus_read offset (w, bytes)) as [[u|e|] [w' b]].
  - intros offset bytes. eapply triple_consequence;
      [apply (triple_logging _ _ (fun _ => True))|done|by intros ? ? []|done].
    eapply triple_consequence; [apply bus_write_law|done..].
Defined.
#[export] Instance logged_delay_laws : DelayLaws (logged W) E :=
  { delay_inv ms wl Hw := delay_inv (E:=E) ms wl.1 Hw }.
End logged_laws.

(** ** Predicates on accesses *)

Definition follows (P Q : log -> Prop) : log -> Prop := fun t =>
  exists t1 t2, t = t1 ++ t2 /\ P t1 /\ Q t2.
Declare Scope log_scope.
Delimit Scope log_scope with log.
Notation "P +++ Q" := (follows P Q) (at level 60, right associativity) : log_scope.
#[global] Open Scope log_scope.

Definition silent : log -> Prop := fun t => t = [].
Definition anything : log -> Prop := fun _ => True.

(** Nothing of the chip is changed. *)
Definition only_reads (t : log) : Prop :=
  Forall (fun x => match x with
                   | Access.Read _ _ | Access.StatusRead _ _ => True
                   | _ => False
                   end) t.

(** The transfers of a block: chunks of whole words, then the last word. *)
Definition words (data pad : list Z) : list (list Z) :=
  let aligned := Z.to_nat (Z.ldiff (len data) 3) in
  chunks MAX_BUS_CHUNK (take aligned data)
  ++ match drop aligned data with [] => [] | rest => [rest ++ pad] end.

(** One access per transfer, at consecutive addresses. *)
Fixpoint pieces (access : Z -> list Z -> Access.t) (offset : Z) (parts : list (list Z)) : log :=
  match parts with
  | [] => []
  | part :: parts => access offset part :: pieces access (offset + len part) parts
  end.

Definition padding (data : list Z) : list Z := zeros (padded (len data) - len data).

(** [data], zero-padded to whole words, is written to the address [a]. *)
Definition stored (p : Processor.t) (a : Z) (data : list Z) : log -> Prop := fun t =>
  exists offset, host_offset p a = Ok offset
    /\ t = pieces Access.Written offset (words data (padding data)).
(** Only some of the first transfers of it took place. *)
Definition stored_part (p : Processor.t) (a : Z) (data : list Z) : log -> Prop := fun t =>
  t = [] \/ exists offset k, host_offset p a = Ok offset
    /\ t = take k (pieces Access.Written offset (words data (padding data))).
(** [data] is what the address [a] read as. *)
Definition fetched (p : Processor.t) (a : Z) (data : list Z) : log -> Prop := fun t =>
  exists offset pad, host_offset p a = Ok offset
    /\ len pad = padded (len data) - len data
    /\ t = pieces Access.Read offset (words data pad).
(** A register, or a word of chip memory, is written, or read as [v]. *)
Definition word_written (p : Processor.t) (a v : Z) : log -> Prop := fun t =>
  exists offset, host_offset p a = Ok offset /\ t = [Access.Written offset (to_le 4 v)].
Definition register_written : Z -> Z -> log -> Prop := word_written Processor.Lmac.
Definition register_read (a v : Z) : log -> Prop := fun t =>
  exists offset bytes, host_offset Processor.Lmac a = Ok offset
    /\ len bytes = 4 /\ v = from_le bytes /\ t = [Access.Read offset bytes].

Lemma follows_intro (P Q : log -> Prop) t1 t2 : P t1 -> Q t2 -> (P +++ Q) (t1 ++ t2).
Proof. intros. by exists t1, t2. Qed.

Lemma follows_nil_l (P Q : log -> Prop) t : P [] -> Q t -> (P +++ Q) t.
Proof. intros. by exists [], t. Qed.

Lemma follows_nil_r (P Q : log -> Prop) t : P t -> Q [] -> (P +++ Q) t.
Proof. intros. exists t, []. by rewrite app_nil_r. Qed.

Lemma follows_assoc (P Q R : log -> Prop) t : ((P +++ Q) +++ R) t <-> (P +++ Q +++ R) t.
Proof.
  split.
  - intros (? & t3 & -> & (t1 & t2 & -> & ? & ?) & ?). rewrite <-app_assoc.
    by apply follows_intro; [|apply follows_intro].
  - intros (t1 & ? & -> & ? & (t2 & t3 & -> & ? & ?)). rewrite app_assoc.
    by apply follows_intro; [apply follows_intro|].
Qed.

Lemma follows_mono (P P' Q Q' : log -> Prop) t :
  (forall t, P t -> P' t) -> (forall t, Q t -> Q' t) -> (P +++ Q) t -> (P' +++ Q') t.
Proof. intros HP HQ (t1 & t2 & -> & ? & ?). apply follows_intro; auto. Qed.

Lemma only_reads_app t1 t2 : only_reads t1 -> only_reads t2 -> only_reads (t1 ++ t2).
Proof. apply Forall_app_2. Qed.

Lemma pieces_app f o k1 k2 :
  pieces f o (k1 ++ k2) = pieces f o k1 ++ pieces f (o + len (concat k1)) k2.
Proof.
  revert o. induction k1 as [|c k1 IH]; intros o; cbn [pieces app concat].
  - by rewrite len_nil, Z.add_0_r.
  - rewrite IH, len_app. by rewrite Z.add_assoc.
Qed.

Lemma length_pieces f o k : length (pieces f o k) = length k.
Proof. revert o. induction k as [|c k IH]; intros o; cbn; [done|]. by rewrite IH. Qed.

Lemma pieces_reads o k : only_reads (pieces Access.Read o k).
Proof.
  revert o. induction k as [|c k IH]; intros o; [by apply Forall_nil|].
  apply Forall_cons_2; [done|apply IH].
Qed.

Lemma concat_chunks_fuel {A} fuel n (l : list A) :
  (0 < n)%nat -> (length l <= fuel)%nat -> concat (chunks_fuel fuel n l) = l.
Proof.
  intros Hn. revert l. induction fuel as [|fuel IH]; intros [|x l] Hf; try done; [cbn in Hf; lia|].
  change (take n (x :: l) ++ concat (chunks_fuel fuel n (drop n (x :: l))) = x :: l).
  rewrite IH; [apply take_drop|]. rewrite length_drop. cbn in *. lia.
Qed.

Lemma concat_chunks {A} n (l : list A) : 0 < n -> concat (chunks n l) = l.
Proof. intros. apply concat_chunks_fuel; [lia|done]. Qed.

(** The transfers carry exactly the block and its padding. *)
Lemma concat_words data pad :
  len pad = padded (len data) - len data -> concat (words data pad) = data ++ pad.
Proof.
  intros Hp. unfold words. rewrite concat_app, concat_chunks by done.
  destruct (aligned_split (len data)) as (Ha & Ht & Hpad); [apply len_nonneg|].
  set (al := Z.ldiff (len data) 3) in *.
  pose proof (take_drop (Z.to_nat al) data) as Hd.
  destruct (drop (Z.to_nat al) data) as [|x rest] eqn:Hx.
  - assert (len (drop (Z.to_nat al) data) = 0) as Hl by (rewrite Hx; done).
    rewrite len_drop in Hl. rewrite (proj2 (Z.eqb_eq _ _)) in Hpad by lia.
    rewrite app_nil_r in Hd. cbn [concat]. rewrite app_nil_r, Hd.
    assert (pad = []) as -> by (apply len_0_nil; lia). by rewrite app_nil_r.
  - cbn [concat]. rewrite app_nil_r, app_assoc. by rewrite Hd.
Qed.

(** ** The logic of accesses *)

Section runs.
Context {S V : Type} (tr : S -> log) (vw : S -> V).

(** From a state seen as [v], [m] adds accesses to the log and ends in a state
    seen as its postcondition says, which is on the added accesses. *)
Definition runs {E A} (v : V) (m : M S E A) (Q : A -> V -> log -> Prop)
    (F : E -> V -> log -> Prop) : Prop :=
  forall s, vw s = v ->
    match m s with
    | (Ok a, s') => exists t, tr s' = tr s ++ t /\ Q a (vw s') t
    | (Err e, s') => exists t, tr s' = tr s ++ t /\ F e (vw s') t
    | (Panic, _) => True
    end.

Lemma runs_conseq {E A} v (m : M S E A) Q Q' F F' :
  runs v m Q' F' -> (forall a v t, Q' a v t -> Q a v t) -> (forall e v t, F' e v t -> F e v t) ->
  runs v m Q F.
Proof.
  intros Hm HQ HF s Hs. specialize (Hm s Hs). destruct (m s) as [[a|e|] s']; [..|done];
    destruct Hm as (t & ? & ?); eauto.
Qed.

Lemma runs_ret {E A} v (a : A) (Q : A -> V -> log -> Prop) (F : E -> V -> log -> Prop) :
  Q a v [] -> runs v (mret a) Q F.
Proof. intros HQ s <-. exists []. by rewrite app_nil_r. Qed.

Lemma runs_throw {E A} v (e : E) (Q : A -> V -> log -> Prop) F : F e v [] -> runs v (throw e) Q F.
Proof. intros HF s <-. exists []. by rewrite app_nil_r. Qed.

Lemma runs_lift {E A} v (r : res E A) (Q : A -> V -> log -> Prop) F :
  (forall a, r = Ok a -> Q a v []) -> (forall e, r = Err e -> F e v []) -> runs v (lift r) Q F.
Proof.
  intros HQ HF s <-. unfold lift. destruct r; [exists []..|done]; rewrite app_nil_r; auto.
Qed.

Lemma runs_gets {E A} v (f : S -> A) (g : V -> A) (Q : A -> V -> log -> Prop)
    (F : E -> V -> log -> Prop) :
  (forall s, f s = g (vw s)) -> Q (g v) v [] -> runs v (gets f) Q F.
Proof. intros Hf HQ s <-. exists []. by rewrite app_nil_r, Hf. Qed.

Lemma runs_modify {E} v (f : S -> S) (g : V -> V) (Q : unit -> V -> log -> Prop)
    (F : E -> V -> log -> Prop) :
  (forall s, vw (f s) = g (vw s)) -> (forall s, tr (f s) = tr s) ->
  Q tt (g v) [] -> runs v (modify f) Q F.
Proof. intros Hf Ht HQ s <-. exists []. by rewrite app_nil_r, Hf, Ht. Qed.

Lemma runs_bind {E A B} v (m : M S E A) (f : A -> M S E B) Q' F' Q F :
  runs v m Q' F' ->
  (forall a u t, Q' a u t -> runs u (f a) (fun b u' t' => Q b u' (t ++ t'))
                              (fun e u' t' => F e u' (t ++ t'))) ->
  (forall e u t, F' e u t -> F e u t) ->
  runs v (m ≫= f) Q F.
Proof.
  intros Hm Hf HF s Hs. specialize (Hm s Hs). unfold mbind, M_bind.
  destruct (m s) as [[a|e|] s']; [..|done].
  - destruct Hm as (t & Ht & HQ). specialize (Hf a _ t HQ s' eq_refl).
    destruct (f a s') as [[b|e|] s'']; [..|done];
      destruct Hf as (t' & Ht' & ?); exists (t ++ t'); rewrite Ht', Ht, app_assoc; done.
  - destruct Hm as (t & Ht & ?). eauto.
Qed.

(** Steps that add nothing. *)
Lemma runs_lift_bind {E A B} v (r : res E A) (f : A -> M S E B) Q F :
  (forall a, r = Ok a -> runs v (f a) Q F) -> (forall e, r = Err e -> F e v []) ->
  runs v (lift r ≫= f) Q F.
Proof.
  intros HQ HF s Hs. unfold mbind, M_bind, lift. destruct r as [a|e|]; [..|done].
  - by apply (HQ a eq_refl s).
  - exists []. rewrite app_nil_r, Hs. auto.
Qed.

Lemma runs_gets_bind {E A B} v (h : S -> A) (g : V -> A) (f : A -> M S E B) Q F :
  (forall s, h s = g (vw s)) -> runs v (f (g v)) Q F -> runs v (gets h ≫= f) Q F.
Proof. intros Hh Hf s Hs. unfold mbind, M_bind, gets. rewrite Hh, Hs. by apply Hf. Qed.

Lemma runs_look_bind {E A B} v (h : S -> A) (f : A -> M S E B) Q F :
  (forall s, vw s = v -> runs v (f (h s)) Q F) -> runs v (gets h ≫= f) Q F.
Proof. intros Hf s Hs. by apply (Hf s Hs). Qed.

Lemma runs_modify_bind {E B} v (h : S -> S) (g : V -> V) (f : unit -> M S E B) Q F :
  (forall s, vw (h s) = g (vw s)) -> (forall s, tr (h s) = tr s) ->
  runs (g v) (f tt) Q F -> runs v (modify h ≫= f) Q F.
Proof.
  intros Hh Ht Hf s Hs. unfold mbind, M_bind, modify. specialize (Hf (h s)).
  rewrite Ht in Hf. apply Hf. by rewrite Hh, Hs.
Qed.

Lemma runs_attempt {E E' A} v (m : M S E A) Q F (Q' : A + E -> V -> log -> Prop)
    (F' : E' -> V -> log -> Prop) :
  runs v m Q F -> (forall a u t, Q a u t -> Q' (inl a) u t) ->
  (forall e u t, F e u t -> Q' (inr e) u t) -> runs v (attempt m) Q' F'.
Proof.
  intros Hm H1 H2 s Hs. specialize (Hm s Hs). unfold attempt.
  destruct (m s) as [[a|e|] s']; [..|done]; destruct Hm as (t & ? & ?); eauto.
Qed.

Lemma runs_mapM_err {E E' A} v (f : E' -> E) (m : M S E' A) Q F (F' : E -> V -> log -> Prop) :
  runs v m Q F -> (forall e u t, F e u t -> F' (f e) u t) -> runs v (mapM_err f m) Q F'.
Proof.
  intros Hm HF s Hs. specialize (Hm s Hs). unfold mapM_err.
  destruct (m s) as [[a|e|] s']; cbn; [..|done]; destruct Hm as (t & ? & ?); eauto.
Qed.
End runs.

(** The same for a state with a lent buffer, which is seen as it is. *)
Definition lent_trace {S} (tr : S -> log) (sl : S * list Z) : log := tr sl.1.
Definition lent_view {S V} (vw : S -> V) (sl : S * list Z) : V * list Z := (vw sl.1, sl.2).

Section lent.
Context {S V : Type} (tr : S -> log) (vw : S -> V).

Lemma runs_on_fst {E A} v l (m : M S E A) Q F :
  runs tr vw v m Q F ->
  runs (lent_trace tr) (lent_view vw) (v, l) (on_fst m)
    (fun a vl t => vl.2 = l /\ Q a vl.1 t) (fun e vl t => vl.2 = l /\ F e vl.1 t).
Proof.
  intros Hm [s k] [= Hs ->]. specialize (Hm s Hs). unfold on_fst, lent_trace. cbn.
  destruct (m s) as [[a|e|] s']; cbn; [..|done]; destruct Hm as (t & ? & ?); eauto.
Qed.

Lemma runs_on_slice {E A} v l c a b (m : M (S * list Z) E A) Q F :
  slice l a b = Some c ->
  runs (lent_trace tr) (lent_view vw) (v, c) m Q F ->
  runs (lent_trace tr) (lent_view vw) (v, l) (on_slice a b m)
    (fun x vl t => exists c', vl.2 = splice l a c' /\ Q x (vl.1, c') t)
    (fun e vl t => exists c', vl.2 = splice l a c' /\ F e (vl.1, c') t).
Proof.
  intros Hc Hm [s k] [= Hs ->]. specialize (Hm (s, c)). unfold lent_view, lent_trace in *. cbn in *.
  rewrite Hs in Hm. specialize (Hm eq_refl). unfold on_slice. rewrite Hc.
  destruct (m (s, c)) as [[x|e|] [s' c']]; cbn in *; [..|done]; destruct Hm as (t & ? & ?); eauto.
Qed.

Lemma runs_with_local {E A} v init (m : M (S * list Z) E A) Q F :
  runs (lent_trace tr) (lent_view vw) (v, init) m Q F ->
  runs tr vw v (with_local init m) (fun al u t => Q al.1 (u, al.2) t)
    (fun e u t => exists l, F e (u, l) t).
Proof.
  intros Hm s Hs. specialize (Hm (s, init)). unfold lent_view, lent_trace in *. cbn in *.
  rewrite Hs in Hm. specialize (Hm eq_refl). unfold with_local.
  destruct (m (s, init)) as [[x|e|] [s' c']]; cbn in *; [..|done]; destruct Hm as (t & ? & ?); eauto.
Qed.
End lent.

(** A part of the state, the rest of which does not touch the bus. *)
Lemma runs_zoom {S S' V V' E A} (tr : S -> log) (vw : S -> V) (tr' : S' -> log) (vw' : S' -> V')
    (g : S' -> S) (put : S -> S' -> S') (down : V' -> V) (up : V -> V' -> V') v m Q F :
  (forall s, tr' s = tr (g s)) -> (forall x s, tr' (put x s) = tr x) ->
  (forall s, vw (g s) = down (vw' s)) -> (forall x s, vw' (put x s) = up (vw x) (vw' s)) ->
  runs (E:=E) (A:=A) tr vw (down v) m Q F ->
  runs tr' vw' v (zoom g put m) (fun a u t => exists x, u = up x v /\ Q a x t)
    (fun e u t => exists x, u = up x v /\ F e x t).
Proof.
  intros H1 H2 H3 H4 Hm s <-. specialize (Hm (g s) (H3 s)). unfold zoom.
  destruct (m (g s)) as [[a|e|] x]; [..|done];
    destruct Hm as (t & Ht & ?); exists t; rewrite H2, H1, H4; split; eauto.
Qed.

(** ** The accesses of chip memory *)

(** A validated access is mapped: its bytes have consecutive host addresses. *)
Definition mapped (p : Processor.t) (a n x : Z) : Prop :=
  host_offset p a = Ok x /\ 0 <= a /\ a + padded n <= 2 ^ 32
  /\ forall b y, a <= b < a + padded n -> host_offset p b = Ok y -> y = x + (b - a).

(** The displacement of an address depends only on where it lies. *)
Lemma host_offset_between p a b c x y z :
  host_offset p a = Ok x -> host_offset p c = Ok z -> z - x = c - a -> a <= b <= c ->
  host_offset p b = Ok y -> y = x + (b - a).
Proof.
  intros Ha Hc Hz Hb Hy.
  assert (forall b y, host_offset p b = Ok y -> b - y
            = if b <? 0xa4000000 then (match p with Processor.Lmac => 0x7ff00000 | Processor.Umac => 0x7fe00000 end)
              else if b <? 0xa5000000 then 0xa4000000
              else if b <? 0xb0000000 then 0xa4fc0000
              else if b <? 0xb7000000 then 0xaff40000 else 0xb6f80000) as Hd.
  { clear. intros b y Hy. pose proof (host_offset_spec p b) as Hs. rewrite Hy in Hs.
    destruct Hs as (r & Hr & Hb & ->). clear Hy. revert r Hr Hb.
    refine (proj2 (regions_cases _ _) _). destruct p; cbn; repeat (apply Forall_cons_2;
      [unfold in_region; cbn; intros; repeat case_match; lia|]); by apply Forall_nil. }
  pose proof (Hd a x Ha) as Da. pose proof (Hd b y Hy) as Db. pose proof (Hd c z Hc) as Dc.
  clear Hd Ha Hc Hy. destruct p; repeat case_match; lia.
Qed.

Lemma validate_mapped {E} p a n :
  0 <= n -> validate_access (E:=E) p a n = Ok tt -> exists x, mapped p a n x.
Proof.
  intros Hn. unfold validate_access. destruct (negb _); [done|].
  rewrite align4_spec by done. destruct (_ <=? _); [|done]. cbn [ok_or mbind res_bind].
  pose proof (padded_bounds n Hn) as [Hp _]. set (k := padded n) in *. unfold checked_range.
  assert (forall b y, host_offset p b = Ok y -> 0 <= b < 2 ^ 32) as Hbound.
  { intros b y Hy. pose proof (host_offset_spec p b) as Hs. rewrite Hy in Hs.
    destruct Hs as (r & Hr & Hb & _). by eapply region_bound. }
  destruct (k =? 0) eqn:Hz.
  { destruct (host_offset p a) as [x|e|] eqn:Hx; [|done..]. intros _. exists x.
    apply Hbound in Hx as ?. split; [done|]. fold k.
    split; [lia|]. split; [lia|]. intros b y Hb. lia. }
  intros Hv. apply bind_Ok_inv in Hv as ([span end_] & He & Hv).
  unfold checked_access_end, checked_span, checked_add in He.
  destruct (_ && _); [|done]. cbn [mbind res_bind] in He.
  destruct (_ <=? _); [|done]. cbn [ok_or mbind res_bind] in He. injection He as <- <-.
  apply bind_Ok_inv in Hv as ([first last] & Hm & Hv). unfold mapped_access_bounds in Hm.
  destruct (host_offset p a) as [x|e|] eqn:Hx; [|done..]. cbn [map_err mbind res_bind] in Hm.
  destruct (host_offset p (a + (k - 1))) as [z|e|] eqn:Hz'; [|done..].
  cbn [map_err mbind res_bind] in Hm. injection Hm as <- <-.
  destruct (bool_decide _) eqn:Hb; [|done]. apply bool_decide_eq_true in Hb.
  destruct (x <=? z); [|done]. injection Hb as Hb. exists x.
  apply Hbound in Hx as ?. apply Hbound in Hz' as ?.
  split; [done|]. split; [lia|]. fold k. split; [lia|]. intros b y Hy Hoff.
  eapply (host_offset_between p a b (a + (k - 1))); [done|done|lia|lia|done].
Qed.

Lemma mapped_chunk {E} p a n x i y :
  mapped p a n x -> 0 <= i -> 4096 * i < padded n ->
  chunk_host_offset (E:=E) p a i = Ok y -> y = x + 4096 * i.
Proof.
  intros (_ & _ & _ & Hm) Hi Hlt. unfold chunk_host_offset, checked_mul, checked_add.
  change MAX_BUS_CHUNK with 4096.
  destruct (_ <=? _); [|done]. cbn [mbind option_bind].
  destruct (_ <? _); [|done]. cbn [ok_or mbind res_bind].
  destruct (_ <=? _); [|done]. cbn [ok_or mbind res_bind].
  destruct (host_offset p (a + i * 4096)) as [z|e|] eqn:Hz; [|done..]. intros [= <-].
  apply Hm in Hz; lia.
Qed.

Lemma mapped_tail {E} p a n x al y :
  mapped p a n x -> 0 <= al < padded n ->
  map_err (@RpuError.Address E) (host_offset p (u32 (a + u32 al))) = Ok y -> y = x + al.
Proof.
  intros (Hx & Ha & Hb & Hm) Hal. rewrite u32_add_r. unfold u32. rewrite Z.mod_small by lia.
  destruct (host_offset p (a + al)) as [z|e|] eqn:Hz; [|done..].
  intros [= <-]. apply Hm in Hz; lia.
Qed.

Section memory.
Context {W E : Type} `{HT : BusTrace W E}.

(** A computation of the bus alone, and one that is lent a buffer. *)
Definition bus_runs {E' A} (m : M W E' A) (Q : A -> log -> Prop) (F : E' -> log -> Prop) : Prop :=
  runs trace (fun _ => tt) tt m (fun a _ => Q a) (fun e _ => F e).
Definition lent_runs {E' A} (l : list Z) (m : M (W * list Z) E' A)
    (Q : A -> list Z -> log -> Prop) (F : E' -> log -> Prop) : Prop :=
  runs (lent_trace trace) (lent_view (fun _ => tt)) (tt, l) m
    (fun a ul => Q a ul.2) (fun e _ => F e).

Lemma bus_runs_write o b :
  bus_runs (mapM_err (@RpuError.Bus E) (bus_write o b)) (fun _ t => t = [Access.Written o b])
    (fun _ => silent).
Proof.
  intros w _. unfold mapM_err. pose proof (trace_write o b w) as Hx.
  destruct (bus_write o b w) as [[u|e|] w']; cbn; [by exists [Access.Written o b]| |done].
  exists []. by rewrite app_nil_r.
Qed.

Lemma lent_runs_read o l :
  lent_runs l (mapM_err (@RpuError.Bus E) (bus_read o))
    (fun _ l' t => t = [Access.Read o l'] /\ len l' = len l) (fun _ => silent).
Proof.
  intros [w k] [= ->]. unfold mapM_err. pose proof (trace_read o w l) as Hx.
  unfold lent_trace, lent_view. cbn [fst snd].
  destruct (bus_read o (w, l)) as [[u|e|] [w' l']]; cbn; [|by exists []; rewrite app_nil_r|done].
  destruct Hx. by exists [Access.Read o l'].
Qed.

Lemma runs_write_chunks p a n x fuel : forall parts i K,
  mapped p a n x -> (0 < len parts -> 4096 * Z.of_nat i + len parts <= padded n) -> Z.of_nat K = 4096 ->
  bus_runs (for_each (imap (fun k c => (Z.of_nat (i + k), c)) (chunks_fuel fuel K parts))
      (fun ic => offset ← lift (chunk_host_offset p a ic.1);
                 mapM_err (@RpuError.Bus E) (bus_write offset ic.2)))
    (fun _ t => t = pieces Access.Written (x + 4096 * Z.of_nat i) (chunks_fuel fuel K parts))
    (fun _ t => exists k, t = take k
       (pieces Access.Written (x + 4096 * Z.of_nat i) (chunks_fuel fuel K parts))).
Proof.
  induction fuel as [|fuel IH]; intros parts i K Hm Hl HK; [by apply runs_ret|].
  destruct parts as [|b parts']; [by apply runs_ret|]. set (parts := b :: parts') in *.
  change (chunks_fuel (Datatypes.S fuel) K parts)
    with (take K parts :: chunks_fuel fuel K (drop K parts)).
  assert (0 < len parts) by (unfold parts; rewrite len_cons; pose proof (len_nonneg parts'); lia).
  rewrite imap_cons. cbn [for_each fst snd pieces]. rewrite Nat.add_0_r. unfold bus_runs.
  eapply runs_bind.
  { eapply runs_bind.
    - apply (runs_lift _ _ _ _ (fun y u t => y = x + 4096 * Z.of_nat i /\ t = []) (fun _ _ t => t = [])).
      + intros y Hy. split; [|done]. eapply mapped_chunk; [done|lia|lia|done].
      + done.
    - intros y [] t [-> ->]. eapply runs_conseq; [apply bus_runs_write| |].
      + intros [] ? t ->. instantiate (1 := fun _ _ t => t = [Access.Written _ _]). done.
      + intros e ? t ->. instantiate (1 := fun _ _ t => t = []). done.
    - done. }
  - intros [] [] t ->. destruct (Z.le_gt_cases (len parts) 4096).
    + rewrite drop_ge by (unfold len in *; lia). destruct fuel; cbn; by apply runs_ret.
    + assert (len (take K parts) = 4096) as Hlen by (rewrite len_take; lia).
      rewrite Hlen. erewrite imap_ext.
      2: { intros k c _. instantiate (1 := fun k c => (Z.of_nat (Datatypes.S i + k), c)).
           cbn. do 2 f_equal. lia. }
      replace (x + 4096 * Z.of_nat i + 4096) with (x + 4096 * Z.of_nat (Datatypes.S i)) by lia.
      eapply runs_conseq; [apply (IH (drop K parts) (Datatypes.S i) K Hm); [|done]| |].
      * intros _. rewrite len_drop. lia.
      * by intros _ ? t ->.
      * intros e ? t (k & ->). by exists (Datatypes.S k).
  - intros e ? t ->. by exists 0%nat.
Qed.

(** [data] up to its last whole word, and the rest. *)
Lemma words_split data pad :
  let al := Z.ldiff (len data) 3 in
  words data pad = chunks MAX_BUS_CHUNK (take (Z.to_nat al) data)
    ++ (if len data - al =? 0 then [] else [drop (Z.to_nat al) data ++ pad])
  /\ len (concat (chunks MAX_BUS_CHUNK (take (Z.to_nat al) data))) = al.
Proof.
  intros al. destruct (aligned_split (len data)) as (Ha & _); [apply len_nonneg|]. fold al in Ha.
  rewrite concat_chunks by done. split; [|rewrite len_take; lia].
  unfold words. fold al. f_equal. pose proof (len_drop (Z.to_nat al) data) as Hl.
  destruct (drop (Z.to_nat al) data) as [|b rest].
  - rewrite len_nil in Hl. rewrite (proj2 (Z.eqb_eq _ _)) by lia. done.
  - rewrite len_cons in Hl. pose proof (len_nonneg rest).
    by rewrite (proj2 (Z.eqb_neq _ _)) by lia.
Qed.

Lemma bus_runs_store p a data :
  bus_runs (Memory.write (E:=E) p a data) (fun _ => stored p a data)
    (fun _ => stored_part p a data).
Proof.
  destruct (aligned_split (len data)) as (Hal & Ht & Hp); [apply len_nonneg|].
  destruct (words_split data (padding data)) as [Hw Hc].
  set (al := Z.ldiff (len data) 3) in *. unfold Memory.write.
  apply runs_lift_bind; [intros [] Hv|by left].
  apply validate_mapped in Hv as [x Hm]; [|apply len_nonneg]. pose proof Hm as (Hx & _). fold al.
  rewrite slice_in by lia. cbn [expect]. apply runs_lift_bind; [intros ? [= <-]|done].
  change (drop (Z.to_nat 0) data) with data. rewrite Z.sub_0_r.
  set (d1 := take (Z.to_nat al) data) in *.
  assert (len d1 = al) as Hd1 by (unfold d1; rewrite len_take; lia).
  eapply runs_bind.
  - unfold write_aligned, enumerate, chunks.
    apply (runs_write_chunks p a (len data) x (length d1) d1 0 (Z.to_nat MAX_BUS_CHUNK)); [done| |done].
    intros _. destruct (_ =? 0) in Hp; lia.
  - intros [] [] t ->. rewrite Z.mul_0_r, Z.add_0_r. fold (chunks MAX_BUS_CHUNK d1).
    unfold write_tail. destruct (len data - al =? 0) eqn:Hz.
    + apply runs_ret. exists x. split; [done|]. by rewrite Hw, !app_nil_r.
    + rewrite slice_in by lia. apply runs_lift_bind; [intros ? [= <-]|done].
      apply runs_lift_bind.
      2: { intros e _. right. exists x, (length (chunks MAX_BUS_CHUNK d1)). split; [done|].
           rewrite app_nil_r, Hw, pieces_app, take_app_length'; [done|by rewrite length_pieces]. }
      intros y Hy. eapply mapped_tail in Hy as ->; [|done|lia].
      eapply runs_conseq; [apply bus_runs_write|..].
      * intros _ ? t ->. exists x. split; [done|]. rewrite Hw, pieces_app, Hc. cbn [pieces].
        do 4 f_equal. unfold splice, padding, zeros. rewrite drop_replicate.
        change (take (Z.to_nat 0) ?k) with (@nil Z). cbn [app Nat.add Z.to_nat].
        rewrite (firstn_all2 (drop _ data)) by (rewrite length_drop; unfold len in *; lia).
        do 2 f_equal. rewrite length_drop. unfold len in *. lia.
      * intros e ? t ->. right. exists x, (length (chunks MAX_BUS_CHUNK d1)). split; [done|].
        rewrite app_nil_r, Hw, pieces_app, take_app_length'; [done|by rewrite length_pieces].
  - intros e ? t (k & ->). rewrite Z.mul_0_r, Z.add_0_r. fold (chunks MAX_BUS_CHUNK d1).
    right. exists x, (Nat.min k (length (chunks MAX_BUS_CHUNK d1))). split; [done|].
    rewrite Hw, pieces_app, take_app_le by (rewrite length_pieces; lia).
    destruct (Nat.min_spec k (length (chunks MAX_BUS_CHUNK d1))) as [[? ->]|[? ->]]; [done|].
    rewrite !firstn_all2 by (rewrite length_pieces; lia). done.
Qed.

(** Whole words leave no rest, and one word is one transfer. *)
Lemma words_aligned data pad :
  len data mod 4 = 0 -> words data pad = chunks MAX_BUS_CHUNK data.
Proof.
  intros Hm. assert (Z.ldiff (len data) 3 = len data) as Ha.
  { rewrite ldiff_3. pose proof (len_nonneg data). Z.div_mod_to_equations. lia. }
  destruct (words_split data pad) as [-> _]. rewrite Ha, Z.sub_diag, app_nil_r.
  by rewrite firstn_all2 by (unfold len; lia).
Qed.

Lemma words_one l pad : len l = 4 -> words l pad = [l].
Proof.
  intros Hl. rewrite words_aligned by (by rewrite Hl).
  destruct l as [|b l]; [done|]. unfold chunks. cbn [length chunks_fuel].
  change MAX_BUS_CHUNK with 4096. rewrite firstn_all2, drop_ge by (unfold len in Hl; lia).
  by destruct (length l).
Qed.

Lemma to_le_words v : words (to_le 4 v) (padding (to_le 4 v)) = [to_le 4 v].
Proof. by apply words_one. Qed.

Lemma stored_word p a v t : stored p a (to_le 4 v) t -> word_written p a v t.
Proof. intros (x & ? & ->). exists x. split; [done|]. by rewrite to_le_words. Qed.

(** A transfer of one word either took place or did not. *)
Lemma stored_part_word p a v t : stored_part p a (to_le 4 v) t -> t = [] \/ word_written p a v t.
Proof.
  intros [->|(x & [|k] & ? & ->)]; [by left|by left|]. right. exists x. split; [done|].
  rewrite to_le_words. cbn [pieces take]. by rewrite take_nil.
Qed.

Lemma bus_runs_write_u32 p a v :
  bus_runs (write_u32 (E:=E) p a v) (fun _ => word_written p a v)
    (fun _ t => t = [] \/ word_written p a v t).
Proof.
  unfold write_u32. destruct (negb _); [apply runs_throw; by left|].
  eapply runs_conseq; [apply bus_runs_store|..].
  - intros u ? t. apply stored_word.
  - intros e ? t. apply stored_part_word.
Qed.

Lemma bus_runs_write_register a v :
  bus_runs (write_register (E:=E) a v) (fun _ => register_written a v)
    (fun _ t => t = [] \/ register_written a v t).
Proof. apply bus_runs_write_u32. Qed.

(** [take] and [drop] of a chunk that kept its length. *)
Lemma chunk_kept (K : nat) (l c k : list Z) :
  len c = len (take K l) -> len k = len (drop K l) -> take K (c ++ k) = c /\ drop K (c ++ k) = k.
Proof.
  rewrite len_take, len_drop. intros Hc Hk. unfold len in *.
  destruct (Nat.le_gt_cases (length l) K).
  - assert (length k = 0)%nat by lia. destruct k; [|done]. rewrite app_nil_r.
    by rewrite firstn_all2, drop_ge by lia.
  - by rewrite take_app_length', drop_app_length' by lia.
Qed.

Lemma runs_read_chunks p a n x K fuel : forall l i w,
  mapped p a n x -> (0 < len l -> 4096 * Z.of_nat i + len l <= padded n) ->
  Z.to_nat MAX_BUS_CHUNK = K -> Z.of_nat K = 4096 ->
  match chunks_mut_from fuel MAX_BUS_CHUNK (Z.of_nat i)
      (fun index => offset ← lift (chunk_host_offset p a index);
                    mapM_err (@RpuError.Bus E) (bus_read offset)) w l with
  | (Ok _, (w', l')) =>
      trace w' = trace w ++ pieces Access.Read (x + 4096 * Z.of_nat i) (chunks_fuel fuel K l')
      /\ len l' = len l
  | (Err _, (w', _)) => exists t, trace w' = trace w ++ t /\ only_reads t
  | (Panic, _) => True
  end.
Proof.
  induction fuel as [|fuel IH]; intros l i w Hm Hl HK HK'.
  { cbn. by rewrite app_nil_r. }
  destruct l as [|b l0]; [cbn; by rewrite app_nil_r|]. set (l := b :: l0) in *.
  cbn [chunks_mut_from]. change (match l with [] => (Ok tt, (w, l)) | _ :: _ => ?e end) with e.
  assert (0 < len l) by (unfold l; rewrite len_cons; pose proof (len_nonneg l0); lia).
  rewrite HK. unfold mbind at 1, M_bind at 1, lift at 1.
  destruct (chunk_host_offset p a (Z.of_nat i)) as [y|e|] eqn:Hy; [| |done].
  2: { exists []. rewrite app_nil_r. split; [done|by apply Forall_nil]. }
  eapply mapped_chunk in Hy as ->; [|done|lia|lia]. unfold mapM_err at 1.
  pose proof (trace_read (x + 4096 * Z.of_nat i) w (take K l)) as Hx.
  destruct (bus_read _ (w, take K l)) as [[u|e|] [w1 c]]; cbn [map_err]; [| |done].
  2: { exists []. rewrite app_nil_r, Hx. split; [done|by apply Forall_nil]. }
  destruct Hx as [Hw1 Hc]. replace (Z.of_nat i + 1) with (Z.of_nat (Datatypes.S i)) by lia.
  specialize (IH (drop K l) (Datatypes.S i) w1 Hm). rewrite HK in IH.
  destruct (chunks_mut_from fuel MAX_BUS_CHUNK _ _ w1 (drop K l)) as [[u'|e|] [w2 k]]; [..|done].
  - destruct IH as [Hw2 Hk]; [rewrite len_drop; lia|done|done|].
    destruct (chunk_kept K l c k Hc Hk) as [Ht Hd]. split.
    2: { rewrite len_app, Hc, Hk, len_take, len_drop. lia. }
    rewrite Hw2, Hw1, <-app_assoc. f_equal.
    destruct (c ++ k) as [|z ck] eqn:Hck.
    { rewrite take_nil in Ht. subst c. rewrite len_take, len_nil in Hc. lia. }
    change (chunks_fuel (Datatypes.S fuel) K (z :: ck))
      with (take K (z :: ck) :: chunks_fuel fuel K (drop K (z :: ck))).
    rewrite Ht, Hd. cbn [app pieces]. f_equal. rewrite Hc.
    destruct (Z.le_gt_cases (len l) 4096).
    + assert (k = []) as -> by (apply len_0_nil; rewrite Hk, len_drop; lia). by destruct fuel.
    + f_equal. rewrite len_take. lia.
  - destruct IH as (t & Hw2 & Ht); [rewrite len_drop; lia|done|done|].
    exists (Access.Read (x + 4096 * Z.of_nat i) c :: t). rewrite Hw2, Hw1, <-app_assoc.
    split; [done|]. by apply Forall_cons_2.
Qed.

Lemma lent_runs_read_aligned p a n x l :
  mapped p a n x -> len l <= padded n ->
  lent_runs l (read_aligned (E:=E) p a)
    (fun _ l' t => t = pieces Access.Read x (chunks MAX_BUS_CHUNK l') /\ len l' = len l)
    (fun _ => only_reads).
Proof.
  intros Hm Hl [w k] [= ->]. unfold read_aligned, for_chunks_mut, lent_trace, lent_view. cbn [fst snd].
  pose proof (runs_read_chunks p a n x (Z.to_nat MAX_BUS_CHUNK) (length l) l 0 w Hm) as Hx.
  change (Z.of_nat 0) with 0 in Hx. rewrite Z.mul_0_r, Z.add_0_r in Hx.
  destruct (chunks_mut_from _ _ _ _ w l) as [[u|e|] [w' l']]; cbn; [| |done].
  - destruct Hx as [Hw Hl']; [lia|done|done|]. eexists. split; [exact Hw|]. split; [|done].
    unfold chunks. do 2 f_equal. unfold len in Hl'. lia.
  - apply Hx; [lia|done|done].
Qed.

Lemma lent_runs_fetch p a l :
  lent_runs l (Memory.read (E:=E) p a) (fun _ l' t => fetched p a l' t /\ len l' = len l)
    (fun _ => only_reads).
Proof.
  pose proof (len_nonneg l). destruct (aligned_split (len l)) as (Hal & Ht & Hp); [done|].
  set (al := Z.ldiff (len l) 3) in *. unfold Memory.read.
  eapply runs_gets_bind; [by intros [? ?]; instantiate (1 := fun ul => len ul.2)|]. cbn [snd].
  apply runs_lift_bind; [intros [] Hv|intros; by apply Forall_nil].
  apply validate_mapped in Hv as [x Hm]; [|done]. pose proof Hm as (Hx & _). fold al.
  eapply runs_bind.
  { eapply runs_on_slice; [apply slice_in; lia|]. apply (lent_runs_read_aligned p a (len l) x); [done|].
    rewrite len_take, len_drop. destruct (_ =? 0) in Hp; lia. }
  2: { by intros e [] t (c & _ & ?). }
  intros [] [[] l1] t (c & Hl1 & -> & Hc). cbn [snd] in *.
  rewrite len_take, len_drop in Hc.
  assert (len l1 = len l) as Hlen by (rewrite Hl1; apply len_splice; lia).
  assert (l1 = c ++ drop (Z.to_nat al) l) as Hl1'.
  { rewrite Hl1. unfold splice. change (take (Z.to_nat 0) l) with (@nil Z). rewrite app_nil_l.
    do 2 f_equal. clear Hl1 Hlen. unfold len in *. lia. }
  unfold read_tail. eapply runs_gets_bind; [by intros [? ?]; instantiate (1 := fun ul => len ul.2)|].
  cbn [snd]. rewrite Hlen. destruct (len l - al =? 0) eqn:Hz; [apply Z.eqb_eq in Hz as Hz'|].
  - apply runs_ret. cbn [snd]. split; [|done]. exists x, []. rewrite app_nil_r.
    split; [done|]. split; [rewrite len_nil, Hlen; lia|].
    destruct (words_split l1 []) as [-> _]. rewrite Hlen. fold al. rewrite Hz, app_nil_r.
    do 2 f_equal. rewrite Hl1', take_app_length'; [done|unfold len in *; lia].
  - apply runs_lift_bind; [|intros; rewrite app_nil_r; apply pieces_reads].
    intros y Hy. eapply mapped_tail in Hy as ->; [|done|lia].
    eapply runs_bind.
    { apply runs_on_fst, runs_with_local. apply lent_runs_read. }
    2: { intros e [] t [_ [_ ->]]. rewrite app_nil_r. apply pieces_reads. }
    intros [[] tail] [[] k] t. cbn [fst snd]. intros (-> & -> & Htail). rewrite len_zeros in Htail by done.
    rewrite slice_in by lia. cbn [expect]. apply runs_lift_bind; [intros ? [= <-]|done].
    change (drop (Z.to_nat 0) tail) with tail. rewrite Z.sub_0_r.
    set (part := take (Z.to_nat (len l - al)) tail).
    assert (len part = len l - al) as Hpart by (unfold part; rewrite len_take; lia).
    assert (splice l1 al part = c ++ part) as Hsp.
    { unfold splice. rewrite Hl1', take_app_length' by (unfold len in *; lia). f_equal.
      rewrite drop_ge, app_nil_r; [done|]. rewrite length_app, length_drop. unfold len in *. lia. }
    eapply (runs_modify _ _ _ _ (fun ul => (ul.1, splice ul.2 al part))); [done|done|].
    cbn [snd]. rewrite Hsp. split; [|rewrite len_app; lia].
    exists x, (drop (Z.to_nat (len l - al)) tail). split; [done|].
    assert (len (c ++ part) = len l) as Hcp by (rewrite len_app; lia).
    rewrite Hcp. split; [rewrite len_drop; lia|].
    destruct (words_split (c ++ part) (drop (Z.to_nat (len l - al)) tail)) as [-> Hcc].
    rewrite Hcp in *. fold al in Hcc |- *. rewrite Hz.
    rewrite take_app_length', drop_app_length' in * by (unfold len in *; lia).
    rewrite pieces_app, Hcc. unfold part. rewrite take_drop. cbn [pieces]. by rewrite app_nil_r.
Qed.

Lemma bus_runs_read_register a :
  bus_runs (read_register (E:=E) a) (fun v => register_read a v) (fun _ => only_reads).
Proof.
  unfold read_register, read_u32. destruct (negb _); [apply runs_throw; by apply Forall_nil|].
  eapply runs_bind.
  - apply runs_with_local, lent_runs_fetch.
  - intros [[] bytes] [] t. cbn [fst snd]. intros [(x & pad & Hx & Hpad & ->) Hl].
    rewrite len_zeros in Hl by done. apply runs_ret. exists x, bytes. rewrite app_nil_r.
    split_and!; [done..|]. rewrite Hl in Hpad. change (padded 4 - 4) with 0 in Hpad.
    by rewrite words_one.
  - by intros e [] t [l ?].
Qed.

Lemma word_value v : to_le 4 (from_le (to_le 4 v)) = to_le 4 v.
Proof. apply (to_le_from_le (to_le 4 v)), to_le_bytes. Qed.

Lemma bus_runs_write_indirect p encoded v :
  bus_runs (write_indirect (E:=E) p encoded (to_le 4 v))
    (fun _ => register_written (Processor.indirect_control_register p)
                (Z.shiftr (Z.land encoded RPU_ADDR_MASK_OFFSET) 2)
              +++ register_written (Processor.indirect_data_register p) v)
    (fun _ t => t = []
                \/ register_written (Processor.indirect_control_register p)
                     (Z.shiftr (Z.land encoded RPU_ADDR_MASK_OFFSET) 2) t
                \/ (register_written (Processor.indirect_control_register p)
                      (Z.shiftr (Z.land encoded RPU_ADDR_MASK_OFFSET) 2)
                    +++ register_written (Processor.indirect_data_register p) v) t).
Proof.
  unfold write_indirect. apply runs_lift_bind; [intros [] _|by left].
  eapply runs_bind; [apply bus_runs_write_register| |intros e [] t [->|?]; auto].
  intros [] [] t Ht. unfold write_indirect_words.
  assert (filter (fun word => len word = 4) (chunks 4 (to_le 4 v)) = [to_le 4 v]) as -> by done.
  cbn [for_each]. eapply runs_bind; [apply bus_runs_write_register|..].
  - intros [] [] t' Ht'. apply runs_ret. rewrite app_nil_r. exists t, t'. split_and!; [done..|].
    destruct Ht' as (x & ? & ->). exists x. split; [done|]. by rewrite word_value.
  - intros e [] t' [->|Ht']; [rewrite app_nil_r; auto|]. right; right. exists t, t'.
    split_and!; [done..|]. destruct Ht' as (x & ? & ->). exists x. split; [done|].
    by rewrite word_value.
Qed.
End memory.
