(* ===== verification/Device.v ===== *)
(** * Device: RPU queues, commands and events (src/src/device.rs)

    The controller that owns the RPU access path and the queues the firmware
    publishes.  [W] is the state of the host side below it.  A scratch buffer
    lent by the caller is the second component of the state, and its address
    (which the driver compares between calls) is the argument [scratch_ptr]. *)

From S2P Require Import Prelude Codec Protocol Control Bus Memory Trace.

Definition RPU_MEM_HPQ_INFO : Z := 0xb0000024.
Definition RPU_MEM_RX_CMD_BASE : Z := 0xb7000d58.
Definition RPU_MEM_TX_CMD_BASE : Z := 0xb00000b8.
Definition RPU_REG_INT_FROM_RPU_CTRL : Z := 0xa4000400.
Definition RPU_REG_INT_TO_MCU_CTRL : Z := 0xa4000480.
Definition RPU_REG_INT_FROM_MCU_ACK : Z := 0xa4000488.
Definition RPU_REG_INT_FROM_MCU_CTRL : Z := 0xa4000494.
Definition RPU_INTERRUPT_ROOT_BIT : Z := bit 17.
Definition RPU_INTERRUPT_MCU_BIT : Z := bit 31.
Definition RPU_COMMAND_COUNTER_START : Z := 0xdead.
Definition DEFAULT_CONTROL_FRAGMENT_LEN : Z := 400.
Definition MAX_EVENT_FRAGMENT_LEN : Z := 1000.
Definition DEFAULT_EVENT_FRAGMENT_LEN : Z := MAX_EVENT_FRAGMENT_LEN.
Definition DEFAULT_COMMAND_WAIT_ATTEMPTS : Z := 1000.
Definition DEFAULT_COMMAND_WAIT_DELAY_MS : Z := 1.

Module DeviceError.
Inductive t (E : Type) : Type :=
  | Rpu (e : RpuError.t E)
  | Protocol (e : ProtocolError.t)
  | NotInitialized
  | InvalidQueueMap
  | CommandQueueEmpty
  | CommandNeedsWait
  | CommandQueueTimeout
  | CommandDeliveryUncertain
  | RecoveryRequired
  | EventBufferChanged
  | EventTooLarge (declared capacity : Z).
Arguments Rpu {E} e.
Arguments Protocol {E} e.
Arguments NotInitialized {E}.
Arguments InvalidQueueMap {E}.
Arguments CommandQueueEmpty {E}.
Arguments CommandNeedsWait {E}.
Arguments CommandQueueTimeout {E}.
Arguments CommandDeliveryUncertain {E}.
Arguments RecoveryRequired {E}.
Arguments EventBufferChanged {E}.
Arguments EventTooLarge {E} declared capacity.
End DeviceError.

Inductive FragmentLimitError : Type := mkFragmentLimitError.

Record PendingEvent : Type := mkPendingEvent {
  pe_declared : Z;
  pe_copied : Z;
  pe_resubmit : bool;
  pe_scratch_address : Z;
  pe_discard : bool }.

Module PendingEventRead.
Inductive t : Type := Waiting | Discarded | Complete (declared : Z).
End PendingEventRead.

Record NewEvent : Type := mkNewEvent {
  ne_address : Z;
  ne_declared : Z;
  ne_first_count : Z;
  ne_resubmit : bool }.

Record Device (W : Type) : Type := mkDevice {
  dev_rpu : W;
  dev_queues : option HpqmInfo;
  dev_rx_command_base : Z;
  dev_tx_command_base : Z;
  dev_command_counter : Z;
  dev_command_fragment_len : Z;
  dev_event_fragment_len : Z;
  dev_pending_event : option PendingEvent;
  dev_recovery_required : bool }.
Arguments mkDevice {W}.
Arguments dev_rpu {W}.
Arguments dev_queues {W}.
Arguments dev_rx_command_base {W}.
Arguments dev_tx_command_base {W}.
Arguments dev_command_counter {W}.
Arguments dev_command_fragment_len {W}.
Arguments dev_event_fragment_len {W}.
Arguments dev_pending_event {W}.
Arguments dev_recovery_required {W}.

Section state.
Context {W : Type}.
Implicit Types d : Device W.

Definition Device_new (bus : W) : Device W :=
  mkDevice bus None 0 0 RPU_COMMAND_COUNTER_START DEFAULT_CONTROL_FRAGMENT_LEN
    DEFAULT_EVENT_FRAGMENT_LEN None false.

(** Assignments to single fields. *)
Definition set_rpu (w : W) d : Device W :=
  mkDevice w (dev_queues d) (dev_rx_command_base d) (dev_tx_command_base d)
    (dev_command_counter d) (dev_command_fragment_len d) (dev_event_fragment_len d)
    (dev_pending_event d) (dev_recovery_required d).
Definition set_command_counter (c : Z) d : Device W :=
  mkDevice (dev_rpu d) (dev_queues d) (dev_rx_command_base d) (dev_tx_command_base d)
    c (dev_command_fragment_len d) (dev_event_fragment_len d)
    (dev_pending_event d) (dev_recovery_required d).
Definition set_pending_event (p : option PendingEvent) d : Device W :=
  mkDevice (dev_rpu d) (dev_queues d) (dev_rx_command_base d) (dev_tx_command_base d)
    (dev_command_counter d) (dev_command_fragment_len d) (dev_event_fragment_len d)
    p (dev_recovery_required d).
Definition set_recovery_required (b : bool) d : Device W :=
  mkDevice (dev_rpu d) (dev_queues d) (dev_rx_command_base d) (dev_tx_command_base d)
    (dev_command_counter d) (dev_command_fragment_len d) (dev_event_fragment_len d)
    (dev_pending_event d) b.
(** The six assignments after a successful queue initialization or a reset. *)
Definition set_queue_state (queues : option HpqmInfo) (rx tx : Z) d : Device W :=
  mkDevice (dev_rpu d) queues rx tx RPU_COMMAND_COUNTER_START
    (dev_command_fragment_len d) (dev_event_fragment_len d) None false.

Definition rx_command_base d : option Z :=
  if dev_rx_command_base d =? 0 then None else Some (dev_rx_command_base d).
Definition tx_command_base d : option Z :=
  if dev_tx_command_base d =? 0 then None else Some (dev_tx_command_base d).

Definition reset_queue_state d : Device W := set_queue_state None 0 0 d.

Definition set_fragment_limits (command_len event_len : Z)
    : M (Device W) FragmentLimitError unit :=
  if negb (within HOST_MESSAGE_HEADER_LEN DEFAULT_CONTROL_FRAGMENT_LEN command_len)
     || negb (within HOST_MESSAGE_HEADER_LEN MAX_EVENT_FRAGMENT_LEN event_len)
  then throw mkFragmentLimitError
  else
    modify (fun d =>
      mkDevice (dev_rpu d) (dev_queues d) (dev_rx_command_base d) (dev_tx_command_base d)
        (dev_command_counter d) command_len event_len
        (dev_pending_event d) (dev_recovery_required d)).

Definition discard_pending_event d : bool * Device W :=
  match dev_pending_event d with
  | None => (false, d)
  | Some p =>
      (true, set_pending_event
               (Some (mkPendingEvent (pe_declared p) (pe_copied p) (pe_resubmit p) 0 true)) d)
  end.

Definition ensure_operational {E} : M (Device W) (DeviceError.t E) unit :=
  r ← gets dev_recovery_required;
  if r : bool then throw DeviceError.RecoveryRequired else mret tt.

(** Returns the error after setting the flag. *)
Definition mark_delivery_uncertain {E A} : M (Device W) (DeviceError.t E) A :=
  modify (set_recovery_required true);;
  throw DeviceError.CommandDeliveryUncertain.
End state.

(** ** Validation *)

Definition queue_is_valid (q : Hpq) : bool :=
  negb (enqueue_address q =? 0) && negb (dequeue_address q =? 0)
  && negb (enqueue_address q =? 0xaaaaaaaa) && negb (dequeue_address q =? 0xaaaaaaaa)
  && (Z.land (enqueue_address q) 3 =? 0) && (Z.land (dequeue_address q) 3 =? 0).

Definition queue_map_is_valid (queues : HpqmInfo) : bool :=
  forallb queue_is_valid
    ([event_busy queues; event_available queues; command_busy queues; command_available queues]
       ++ rx_buffer_busy queues).

Definition pending_buffer_changed (pending : PendingEvent) (scratch_ptr scratch_len : Z) : bool :=
  negb (pe_discard pending)
  && (negb (pe_scratch_address pending =? scratch_ptr) || (scratch_len <? pe_declared pending)).

Definition validate_queue_map {E} (queues : HpqmInfo) : res (DeviceError.t E) unit :=
  if queue_map_is_valid queues then Ok tt else Err DeviceError.InvalidQueueMap.

Definition validate_rx_command_base {E} (address : Z) : res (DeviceError.t E) unit :=
  if (address =? 0) || (address =? 0xaaaaaaaa) then Err DeviceError.InvalidQueueMap else Ok tt.

Definition validate_complete_message {E} (message : list Z) : res (DeviceError.t E) unit :=
  if (len message <? HOST_MESSAGE_HEADER_LEN) || (MAX_STATION_MESSAGE_LEN <? len message)
  then Err (DeviceError.Protocol ProtocolError.InvalidLength)
  else
    declared ← Codec.read_u32 message 0;
    if negb (declared =? len message)
    then Err (DeviceError.Protocol ProtocolError.InvalidLength)
    else Ok tt.

(** ** Operations *)

Section device.
Context {W E : Type} `{BusOps W E} `{DelayOps W}.
Local Notation "'MD' A" := (M (Device W) (DeviceError.t E) A) (at level 10, A at next level).
Local Notation "'MS' A" := (M (Device W * list Z) (DeviceError.t E) A)
  (at level 10, A at next level).

(** A call on [self.rpu]: [?] converts its error. *)
Definition rpu {A} (m : M W (RpuError.t E) A) : MD A :=
  zoom dev_rpu set_rpu (mapM_err DeviceError.Rpu m).

(** A call on [self.rpu] that is lent a buffer. *)
Definition rpu_buffer {A} (m : M (W * list Z) (RpuError.t E) A) : MS A := fun '(d, l) =>
  let '(r, (w, l')) := m (dev_rpu d, l) in (map_err DeviceError.Rpu r, (set_rpu w d, l')).

Definition device_delay (ms : Z) : MD unit := zoom dev_rpu set_rpu (delay ms).

Definition enqueue (queue : Hpq) (value : Z) : MD unit :=
  rpu (write_register (enqueue_address queue) value).

Definition dequeue (queue : Hpq) : MD (option Z) :=
  value ← rpu (read_register (dequeue_address queue));
  if value =? 0 then mret None
  else if value =? 0xaaaaaaaa then throw DeviceError.InvalidQueueMap
  else rpu (write_register (dequeue_address queue) value);; mret (Some value).

Definition trigger_command : MD unit :=
  counter ← gets dev_command_counter;
  rpu (write_register RPU_REG_INT_TO_MCU_CTRL (Z.lor counter 0x7fff0000));;
  modify (fun d => set_command_counter (u32 (dev_command_counter d + 1)) d).

(** *** Initialization and interrupts *)

Definition initialize_queues : MD HpqmInfo :=
  '(_, bytes) ← with_local (zeros HPQM_INFO_LEN)
                  (rpu_buffer (Memory.read Processor.Umac RPU_MEM_HPQ_INFO));
  queues ← lift (map_err DeviceError.Protocol (HpqmInfo_parse bytes));
  lift (validate_queue_map queues);;
  rx_command_base ← rpu (Memory.read_u32 Processor.Lmac RPU_MEM_RX_CMD_BASE);
  lift (validate_rx_command_base rx_command_base);;
  modify (set_queue_state (Some queues) rx_command_base RPU_MEM_TX_CMD_BASE);;
  mret queues.

Definition enable_interrupts : MD unit :=
  ensure_operational;;
  root ← rpu (read_register RPU_REG_INT_FROM_RPU_CTRL);
  rpu (write_register RPU_REG_INT_FROM_RPU_CTRL (Z.lor root RPU_INTERRUPT_ROOT_BIT));;
  rpu (write_register RPU_REG_INT_FROM_MCU_CTRL RPU_INTERRUPT_MCU_BIT).

Definition disable_interrupts : MD unit :=
  root ← rpu (read_register RPU_REG_INT_FROM_RPU_CTRL);
  rpu (write_register RPU_REG_INT_FROM_RPU_CTRL (Z.ldiff root RPU_INTERRUPT_ROOT_BIT));;
  rpu (write_register RPU_REG_INT_FROM_MCU_CTRL 0).

Definition acknowledge_interrupt : MD unit :=
  rpu (write_register RPU_REG_INT_FROM_MCU_ACK RPU_INTERRUPT_MCU_BIT).

(** *** Commands *)

Definition post_control_fragment (queues : HpqmInfo) (address : Z) (fragment : list Z)
    : MD unit :=
  written ← attempt (rpu (Memory.write Processor.Umac address fragment));
  match written with
  | inr _ => mark_delivery_uncertain
  | inl _ =>
      queued ← attempt (enqueue (command_busy queues) address);
      match queued with
      | inr _ => mark_delivery_uncertain
      | inl _ =>
          triggered ← attempt trigger_command;
          match triggered with
          | inr _ => mark_delivery_uncertain
          | inl _ => mret tt
          end
      end
  end.

Definition take_command_buffer (queue : Hpq) : MD Z :=
  r ← attempt (dequeue queue);
  match r with
  | inl (Some value) => mret value
  | inl None => throw DeviceError.CommandQueueEmpty
  | inr _ => mark_delivery_uncertain
  end.

Definition command_wait_timeout {A} (posted_any : bool) : MD A :=
  if posted_any then mark_delivery_uncertain else throw DeviceError.CommandQueueTimeout.

(** [for _ in 0..attempts] *)
Fixpoint wait_for_command_buffer (queue : Hpq) (attempts : nat) (delay_ms : Z)
    (posted_any : bool) : MD Z :=
  match attempts with
  | O => command_wait_timeout posted_any
  | Datatypes.S attempts =>
      r ← attempt (dequeue queue);
      match r with
      | inl (Some value) => mret value
      | inl None =>
          device_delay delay_ms;;
          wait_for_command_buffer queue attempts delay_ms posted_any
      | inr _ => mark_delivery_uncertain
      end
  end.

Definition send_control (message : list Z) : MD unit :=
  lift (validate_complete_message message);;
  ensure_operational;;
  fragment_len ← gets dev_command_fragment_len;
  if fragment_len <? len message then throw DeviceError.CommandNeedsWait
  else
    q ← gets dev_queues;
    queues ← lift (ok_or q DeviceError.NotInitialized);
    address ← take_command_buffer (command_available queues);
    post_control_fragment queues address message.

Definition prepare_reliable_send (message : list Z) (attempts : Z) : MD HpqmInfo :=
  lift (validate_complete_message message);;
  ensure_operational;;
  if attempts =? 0 then throw DeviceError.CommandQueueTimeout
  else
    q ← gets dev_queues;
    lift (ok_or q DeviceError.NotInitialized).

Fixpoint send_fragments (fragments : list (list Z)) (queues : HpqmInfo) (attempts delay_ms : Z)
    (posted_any : bool) : MD unit :=
  match fragments with
  | [] => mret tt
  | fragment :: fragments =>
      address ← wait_for_command_buffer (command_available queues) (Z.to_nat attempts)
                  delay_ms posted_any;
      post_control_fragment queues address fragment;;
      send_fragments fragments queues attempts delay_ms true
  end.

(** [chunks] panics on a chunk size of 0. *)
Definition send_fragments_with_wait (message : list Z) (queues : HpqmInfo)
    (attempts delay_ms : Z) : MD unit :=
  fragment_len ← gets dev_command_fragment_len;
  if fragment_len =? 0 then lift Panic
  else send_fragments (chunks fragment_len message) queues attempts delay_ms false.

Definition send_control_with_wait (message : list Z) (attempts delay_ms : Z) : MD unit :=
  queues ← prepare_reliable_send message attempts;
  send_fragments_with_wait message queues attempts delay_ms.

Definition send_control_reliable (message : list Z) : MD unit :=
  send_control_with_wait message DEFAULT_COMMAND_WAIT_ATTEMPTS DEFAULT_COMMAND_WAIT_DELAY_MS.

(** [let mut message = [0u8; n]; let len = encode(&mut message)?; &message[..len]] *)
Definition encoded (n : Z) (encode : M (list Z) ProtocolError.t Z)
    : res (DeviceError.t E) (list Z) :=
  match encode (zeros n) with
  | (Ok count, message) => expect (slice message 0 count)
  | (Err e, _) => Err (DeviceError.Protocol e)
  | (Panic, _) => Panic
  end.

Definition send_system_init (config : SystemInitConfig) : MD unit :=
  message ← lift (encoded (SYSTEM_INIT_LEN + HOST_MESSAGE_HEADER_LEN) (encode_system_init config));
  send_control message.

Definition add_station_interface (wdev_id : Z) (mac_address interface_name : list Z) : MD unit :=
  message ← lift (encoded 128
    (encode_new_interface wdev_id InterfaceType.Station mac_address interface_name));
  send_control message.

Definition start_scan (wdev_id : Z) (request : ScanRequest) : MD unit :=
  message ← lift (encoded MAX_CONTROL_MESSAGE_LEN (encode_scan wdev_id request));
  send_control message.

Definition start_scan_reliable (wdev_id : Z) (request : ScanRequest) : MD unit :=
  message ← lift (encoded MAX_CONTROL_MESSAGE_LEN (encode_scan wdev_id request));
  send_control_reliable message.

Definition get_scan_results (wdev_id : Z) (reason : ScanReason.t) : MD unit :=
  message ← lift (encoded 96 (encode_get_scan_results wdev_id reason));
  send_control message.

Definition deauthenticate (wdev_id : Z) (bssid : list Z) (reason_code : Z)
    (local_state_change : bool) : MD unit :=
  message ← lift (encoded 96
    (encode_deauthenticate wdev_id bssid reason_code local_state_change));
  send_control message.

(** *** Events *)

Definition release_event_fragment (queues : HpqmInfo) (event_address : Z) (resubmit : bool)
    : MD unit :=
  if resubmit then enqueue (event_available queues) event_address else mret tt.

Definition release_and_acknowledge_event (queues : HpqmInfo) (event_address : Z)
    (resubmit : bool) : MD unit :=
  release_event_fragment queues event_address resubmit;;
  acknowledge_interrupt.

Definition read_event_header (event_address : Z) : MD (Z * bool) :=
  '(_, header) ← with_local (zeros HOST_MESSAGE_HEADER_LEN)
                   (rpu_buffer (Memory.read Processor.Umac event_address));
  declared ← lift (Codec.read_u32 header 0);
  resubmit ← lift (Codec.read_u32 header 4);
  mret (declared, negb (resubmit =? 0)).

Definition begin_new_event (queues : HpqmInfo) : MD (option NewEvent) :=
  o ← dequeue (event_busy queues);
  match o with
  | None => mret None
  | Some address =>
      '(declared, resubmit) ← read_event_header address;
      fragment_len ← gets dev_event_fragment_len;
      mret (Some (mkNewEvent address declared (Z.min fragment_len declared) resubmit))
  end.

Definition reject_oversized_event (queues : HpqmInfo) (event : NewEvent) : MD unit :=
  release_and_acknowledge_event queues (ne_address event) (ne_resubmit event);;
  if ne_first_count event <? ne_declared event then
    modify (set_pending_event
      (Some (mkPendingEvent (ne_declared event) (ne_first_count event) (ne_resubmit event) 0 true)))
  else mret tt.

Definition validate_new_event (queues : HpqmInfo) (event : NewEvent) (capacity : Z) : MD unit :=
  if ne_declared event <? HOST_MESSAGE_HEADER_LEN then
    release_and_acknowledge_event queues (ne_address event) (ne_resubmit event);;
    throw (DeviceError.Protocol ProtocolError.InvalidLength)
  else if capacity <? ne_declared event then
    reject_oversized_event queues event;;
    throw (DeviceError.EventTooLarge (ne_declared event) capacity)
  else mret tt.

(** [parse_host_message(&scratch[..declared])?] *)
Definition parse_scratch (declared : Z) : MS HostMessageRef :=
  scratch ← gets snd;
  bytes ← lift (subslice scratch 0 declared);
  lift (map_err DeviceError.Protocol (parse_host_message bytes)).

Definition read_initial_event_fragment (queues : HpqmInfo) (event : NewEvent) : MS unit :=
  on_slice 0 (ne_first_count event)
    (rpu_buffer (Memory.read Processor.Umac (ne_address event)));;
  on_fst (release_and_acknowledge_event queues (ne_address event) (ne_resubmit event)).

Definition finish_new_event (event : NewEvent) (scratch_ptr : Z) : MS (option HostMessageRef) :=
  if ne_first_count event =? ne_declared event then
    m ← parse_scratch (ne_declared event); mret (Some m)
  else
    on_fst (modify (set_pending_event
      (Some (mkPendingEvent (ne_declared event) (ne_first_count event) (ne_resubmit event)
               scratch_ptr false))));;
    mret None.

Definition read_new_event (queues : HpqmInfo) (scratch_ptr : Z) : MS (option HostMessageRef) :=
  o ← on_fst (begin_new_event queues);
  match o with
  | None => mret None
  | Some event =>
      capacity ← gets (fun dl => len dl.2);
      on_fst (validate_new_event queues event capacity);;
      read_initial_event_fragment queues event;;
      finish_new_event event scratch_ptr
  end.

(** [&mut pending]: the updated value is returned; on an error the local copy
    is dropped. *)
Definition consume_pending_fragment (queues : HpqmInfo) (pending : PendingEvent)
    (event_address : Z) : MS PendingEvent :=
  fragment_len ← gets (fun dl => dev_event_fragment_len dl.1);
  let count := Z.min fragment_len (pe_declared pending - pe_copied pending) in
  (if negb (pe_discard pending)
   then on_slice (pe_copied pending) (pe_copied pending + count)
          (rpu_buffer (Memory.read Processor.Umac event_address))
   else mret tt);;
  on_fst (release_event_fragment queues event_address (pe_resubmit pending));;
  mret (mkPendingEvent (pe_declared pending) (pe_copied pending + count) (pe_resubmit pending)
          (pe_scratch_address pending) (pe_discard pending)).

(** [while pending.copied < pending.declared]: running out of [fuel] is a
    panic; [declared - copied] is enough fuel. *)
Fixpoint drain_loop (fuel : nat) (queues : HpqmInfo) (pending : PendingEvent) (removed : bool)
    : MS (PendingEvent * bool * bool) :=
  if negb (pe_copied pending <? pe_declared pending) then mret (pending, removed, true)
  else
    match fuel with
    | O => lift Panic
    | Datatypes.S fuel =>
        o ← on_fst (dequeue (event_busy queues));
        match o with
        | None => mret (pending, removed, false)
        | Some event_address =>
            pending ← consume_pending_fragment queues pending event_address;
            drain_loop fuel queues pending true
        end
    end.

Definition drain_pending_fragments (queues : HpqmInfo) (pending : PendingEvent)
    : MS (PendingEvent * bool * bool) :=
  drain_loop (Z.to_nat (pe_declared pending - pe_copied pending)) queues pending false.

Definition acknowledge_removed_fragment (removed : bool) : MD unit :=
  if removed then acknowledge_interrupt else mret tt.

Definition finish_pending_event (pending : PendingEvent) (complete : bool)
    : MD PendingEventRead.t :=
  if negb complete then
    modify (set_pending_event (Some pending));; mret PendingEventRead.Waiting
  else
    modify (set_pending_event None);;
    mret (if pe_discard pending then PendingEventRead.Discarded
          else PendingEventRead.Complete (pe_declared pending)).

Definition continue_pending_event (queues : HpqmInfo) (scratch_ptr : Z) : MS PendingEventRead.t :=
  p ← gets (fun dl => dev_pending_event dl.1);
  pending ← lift (expect p);
  n ← gets (fun dl => len dl.2);
  if pending_buffer_changed pending scratch_ptr n then
    on_fst (modify (set_pending_event
      (Some (mkPendingEvent (pe_declared pending) (pe_copied pending) (pe_resubmit pending)
               0 true))));;
    throw DeviceError.EventBufferChanged
  else
    '(pending, removed, complete) ← drain_pending_fragments queues pending;
    on_fst (acknowledge_removed_fragment removed);;
    on_fst (finish_pending_event pending complete).

Definition read_pending_or_next (queues : HpqmInfo) (scratch_ptr : Z)
    : MS (option HostMessageRef) :=
  r ← continue_pending_event queues scratch_ptr;
  match r with
  | PendingEventRead.Waiting => mret None
  | PendingEventRead.Discarded => read_new_event queues scratch_ptr
  | PendingEventRead.Complete declared =>
      m ← parse_scratch declared; mret (Some m)
  end.

Definition try_read_event (scratch_ptr : Z) : MS (option HostMessageRef) :=
  on_fst ensure_operational;;
  q ← gets (fun dl => dev_queues dl.1);
  queues ← lift (ok_or q DeviceError.NotInitialized);
  pending ← gets (fun dl => is_some (dev_pending_event dl.1));
  if pending : bool then read_pending_or_next queues scratch_ptr
  else read_new_event queues scratch_ptr.
End device.

(** Weakens a postcondition by destructing it. *)
Ltac dweak :=
  intros; cbn beta in *;
  repeat match goal with
                 | H : _ /\ _ |- _ => destruct H
                 | H : exists _, _ |- _ => destruct H
                 end; subst; cbn [fst snd] in *; try done; eauto 10.

(** ** Reasoning about the device apart from its bus

    [view d] is the driver's own state.  [dsafe R m Q F]: from a usable bus and
    a view in [R], [m] does not panic, leaves a usable bus, and ends in [Q] or
    fails in [F]. *)

Definition view {W} (d : Device W) : Device unit :=
  mkDevice tt (dev_queues d) (dev_rx_command_base d) (dev_tx_command_base d)
    (dev_command_counter d) (dev_command_fragment_len d) (dev_event_fragment_len d)
    (dev_pending_event d) (dev_recovery_required d).

Section dsafe.
Context {W E : Type} `{HL : BusLaws W E} `{!DelayOps W} `{!DelayLaws W E}.
Implicit Types v : Device unit.

Definition dinv (R : Device unit -> Prop) (d : Device W) : Prop :=
  bus_inv (dev_rpu d) /\ R (view d).

Definition dsafe {A E'} (R : Device unit -> Prop) (m : M (Device W) E' A)
    (Q : A -> Device unit -> Prop) (F : E' -> Device unit -> Prop) : Prop :=
  triple (dinv R) m (fun a => dinv (Q a)) (fun e => dinv (F e)).

Lemma dsafe_bind {A B E'} R (m : M (Device W) E' A) (f : A -> M (Device W) E' B) Q' Q F :
  dsafe R m Q' F -> (forall a, dsafe (Q' a) (f a) Q F) -> dsafe R (m ≫= f) Q F.
Proof. intros Hm Hf. eapply triple_bind; [apply Hm|]. intros a. apply Hf. Qed.

Lemma dsafe_conseq {A E'} R R' (m : M (Device W) E' A) Q Q' F F' :
  dsafe R' m Q' F' -> (forall v, R v -> R' v) -> (forall a v, Q' a v -> Q a v) ->
  (forall e v, F' e v -> F e v) -> dsafe R m Q F.
Proof.
  intros Hm H1 H2 H3. eapply triple_consequence; [exact Hm|unfold dinv; dweak..].
Qed.

Lemma dsafe_ret {A E'} R (a : A) (Q : A -> Device unit -> Prop) (F : E' -> Device unit -> Prop) :
  (forall v, R v -> Q a v) -> dsafe R (mret a) Q F.
Proof. intros HQ d [? ?]. split; auto. Qed.

Lemma dsafe_throw {A E'} R (e : E') (Q : A -> Device unit -> Prop) F :
  (forall v, R v -> F e v) -> dsafe R (throw e) Q F.
Proof. intros HF d [? ?]. split; auto. Qed.

Lemma dsafe_lift {A E'} R (r : res E' A) (Q : A -> Device unit -> Prop) F :
  r <> Panic -> (forall a v, R v -> r = Ok a -> Q a v) ->
  (forall e v, R v -> r = Err e -> F e v) -> dsafe R (lift r) Q F.
Proof. intros Hr HQ HF d [? ?]. unfold lift. destruct r; [..|done]; split; auto. Qed.

Lemma dsafe_gets {A E'} R (f : Device W -> A) (g : Device unit -> A)
    (Q : A -> Device unit -> Prop) (F : E' -> Device unit -> Prop) :
  (forall d, f d = g (view d)) -> (forall v, R v -> Q (g v) v) -> dsafe R (gets f) Q F.
Proof. intros Hf HQ d [? ?]. split; [done|]. rewrite Hf. auto. Qed.

Lemma dsafe_modify {E'} R (f : Device W -> Device W) (g : Device unit -> Device unit)
    (Q : unit -> Device unit -> Prop) (F : E' -> Device unit -> Prop) :
  (forall d, view (f d) = g (view d)) -> (forall d, dev_rpu (f d) = dev_rpu d) ->
  (forall v, R v -> Q tt (g v)) -> dsafe R (modify f) Q F.
Proof.
  intros Hf Hr HQ d [? ?]. unfold modify. split; [by rewrite Hr|]. rewrite Hf. auto.
Qed.

Lemma dsafe_set_pending {E'} p R (Q : unit -> Device unit -> Prop)
    (F : E' -> Device unit -> Prop) :
  (forall v, R v -> Q tt (set_pending_event p v)) -> dsafe R (modify (set_pending_event p)) Q F.
Proof. by apply dsafe_modify. Qed.

Lemma dsafe_attempt {A E' E''} R (m : M (Device W) E' A) Q F
    (Q' : A + E' -> Device unit -> Prop) (F' : E'' -> Device unit -> Prop) :
  dsafe R m Q F -> (forall a v, Q a v -> Q' (inl a) v) -> (forall e v, F e v -> Q' (inr e) v) ->
  dsafe R (attempt m) Q' F'.
Proof.
  intros Hm H1 H2. eapply triple_attempt; [exact Hm|unfold dinv; dweak..].
Qed.

(** A predicate on errors of the RPU layer. *)
Lemma dsafe_rpu {A} R (m : M W (RpuError.t E) A) Q0 :
  safe m Q0 ->
  dsafe R (rpu m) (fun a v => Q0 a /\ R v) (fun e v => (exists e', e = DeviceError.Rpu e') /\ R v).
Proof.
  intros Hm d [Hb HR]. specialize (Hm (dev_rpu d) Hb). unfold rpu, zoom, mapM_err.
  destruct (m (dev_rpu d)) as [[a|e|] w]; cbn.
  - destruct Hm. split; [done|]. by split.
  - split; [done|]. split; [eauto|done].
  - done.
Qed.

Lemma dsafe_delay R ms F : dsafe R (device_delay (E:=E) ms) (fun _ => R) F.
Proof.
  intros d [Hb HR]. unfold device_delay, zoom. cbn. split; [by apply delay_inv|done].
Qed.

(** A scratch-free operation lifted to the state with the caller's buffer. *)
Definition sinv (n : Z) (R : Device unit -> Prop) (dl : Device W * list Z) : Prop :=
  dinv R dl.1 /\ buf_ok n dl.2.
Definition ssafe {A E'} n (R : Device unit -> Prop) (m : M (Device W * list Z) E' A)
    (Q : A -> Device unit -> Prop) (F : E' -> Device unit -> Prop) : Prop :=
  lends n (dinv R) m (fun a => dinv (Q a)) (fun e => dinv (F e)).

Lemma ssafe_bind {A B E'} n R (m : M (Device W * list Z) E' A)
    (f : A -> M (Device W * list Z) E' B) Q' Q F :
  ssafe n R m Q' F -> (forall a, ssafe n (Q' a) (f a) Q F) -> ssafe n R (m ≫= f) Q F.
Proof. apply lends_bind. Qed.

Lemma ssafe_conseq {A E'} n R R' (m : M (Device W * list Z) E' A) Q Q' F F' :
  ssafe n R' m Q' F' -> (forall v, R v -> R' v) -> (forall a v, Q' a v -> Q a v) ->
  (forall e v, F' e v -> F e v) -> ssafe n R m Q F.
Proof.
  intros Hm H1 H2 H3. eapply triple_consequence; [exact Hm|unfold dinv; dweak..].
Qed.

(** A fact about the state that no longer mentions it. *)
Lemma ssafe_pure {A E'} n R (m : M (Device W * list Z) E' A) Q F (phi : Prop) :
  (forall v, R v -> phi) -> (phi -> ssafe n R m Q F) -> ssafe n R m Q F.
Proof. intros H1 H2 dl Hdl. eapply H2; [eapply H1; apply Hdl|exact Hdl]. Qed.

Lemma ssafe_on_fst {A E'} n R (m : M (Device W) E' A) Q F :
  dsafe R m Q F -> ssafe n R (on_fst m) Q F.
Proof. apply lends_on_fst. Qed.

Lemma ssafe_ret {A E'} n R (a : A) (Q : A -> Device unit -> Prop) (F : E' -> Device unit -> Prop) :
  (forall v, R v -> Q a v) -> ssafe n R (mret a) Q F.
Proof. intros HQ. apply lends_ret. unfold dinv. dweak. Qed.

Lemma ssafe_throw {A E'} n R (e : E') (Q : A -> Device unit -> Prop) F :
  (forall v, R v -> F e v) -> ssafe n R (throw e) Q F.
Proof. intros HF [d l] [[? ?] Hl]. split; [|exact Hl]. split; [done|]. by apply HF. Qed.

Lemma ssafe_lift {A E'} n R (r : res E' A) (Q : A -> Device unit -> Prop) F :
  r <> Panic -> (forall a v, R v -> r = Ok a -> Q a v) ->
  (forall e v, R v -> r = Err e -> F e v) -> ssafe n R (lift r) Q F.
Proof. intros Hr HQ HF. apply lends_lift; unfold dinv; dweak. Qed.

Lemma ssafe_gets {A E'} n R (f : Device W -> A) (g : Device unit -> A)
    (Q : A -> Device unit -> Prop) (F : E' -> Device unit -> Prop) :
  (forall d, f d = g (view d)) -> (forall v, R v -> Q (g v) v) ->
  ssafe n R (gets (fun dl => f dl.1)) Q F.
Proof. intros Hf HQ [d l] [[? ?] ?]. cbn in *. split; [|done]. split; [done|]. rewrite Hf. auto. Qed.

Lemma ssafe_len {E'} n R (Q : Z -> Device unit -> Prop) (F : E' -> Device unit -> Prop) :
  (forall v, R v -> Q n v) -> ssafe n R (gets (fun dl => len dl.2)) Q F.
Proof. intros HQ [d l] [[? ?] Hl]. split; [|exact Hl]. split; [done|].
  cbn in *. destruct Hl as [-> _]. by apply HQ.
Qed.

Lemma ssafe_rpu_buffer n R p a :
  ssafe n R (rpu_buffer (E:=E) (Memory.read p a)) (fun _ => R) (fun _ => R).
Proof.
  intros [d l] [[Hb HR] Hl]. cbn [fst snd] in *.
  pose proof (lends_rpu_read (E:=E) n p a (dev_rpu d, l) (conj Hb Hl)) as Hx.
  unfold rpu_buffer. destruct (Memory.read p a (dev_rpu d, l)) as [[u|e|] [w l']]; cbn in *;
    [|..|done]; (split; [split; [apply Hx|exact HR]|apply Hx]).
Qed.

Lemma dsafe_with_local {A E'} n init R (m : M (Device W * list Z) E' A) Q F :
  buf_ok n init -> ssafe n R m Q F ->
  dsafe R (with_local init m) (fun al v => Q al.1 v /\ buf_ok n al.2) F.
Proof.
  intros Hi Hm. eapply triple_consequence; [by apply (triple_with_local (dinv R) n)|done| |done].
  unfold dinv. dweak.
Qed.
End dsafe.

(** ** Commands *)

Section commands.
Context {W E : Type} `{HL : BusLaws W E} `{!DelayOps W} `{!DelayLaws W E}.
Implicit Types v : Device unit.

Lemma dsafe_enqueue R q x :
  dsafe R (enqueue (E:=E) q x) (fun _ => R) (fun _ => R).
Proof.
  eapply dsafe_conseq; [apply (dsafe_rpu R), safe_write_register|done|dweak..].
Qed.

Lemma dsafe_dequeue R q :
  dsafe R (dequeue (E:=E) q)
    (fun o v => R v /\ forall x, o = Some x -> in_u 32 x /\ x <> 0) (fun _ => R).
Proof.
  unfold dequeue. eapply dsafe_bind.
  { eapply dsafe_conseq; [apply (dsafe_rpu R), safe_read_register|done| |].
    - intros x v Hx. exact Hx.
    - dweak. }
  intros x. cbn beta. destruct (x =? 0) eqn:Hz; [apply dsafe_ret; dweak|].
  destruct (x =? 0xaaaaaaaa); [apply dsafe_throw; dweak|].
  apply (dsafe_bind _ _ _ (fun _ v => in_u 32 x /\ R v)).
  - eapply dsafe_conseq;
      [apply (dsafe_rpu (fun v => in_u 32 x /\ R v)), safe_write_register|done|dweak..].
  - intros _. apply dsafe_ret. intros v [? ?]. split; [done|]. intros y [= <-].
    split; [done|]. lia.
Qed.

Definition bump v : Device unit := set_command_counter (u32 (dev_command_counter v + 1)) v.
Definition lost v : Device unit := set_recovery_required true v.

Lemma dsafe_uncertain {A} R Q (F : DeviceError.t E -> Device unit -> Prop) :
  (forall v, R v -> F DeviceError.CommandDeliveryUncertain (lost v)) ->
  dsafe R (mark_delivery_uncertain (A:=A)) Q F.
Proof.
  intros HF. unfold mark_delivery_uncertain.
  apply (dsafe_bind _ _ _ (fun _ v => exists v', R v' /\ v = lost v')).
  - apply (dsafe_modify _ _ lost); [done|done|]. eauto.
  - intros _. apply dsafe_throw. intros v (v' & ? & ->). auto.
Qed.

Lemma dsafe_trigger v0 :
  dsafe (eq v0) (trigger_command (E:=E)) (fun _ => eq (bump v0)) (fun _ => eq v0).
Proof.
  unfold trigger_command. eapply dsafe_bind.
  { eapply (dsafe_gets _ _ dev_command_counter (fun _ => eq v0)); [done|by intros v <-]. }
  intros c. apply (dsafe_bind _ _ _ (fun _ => eq v0)).
  - eapply dsafe_conseq; [apply (dsafe_rpu (eq v0)), safe_write_register|done|dweak..].
  - intros _. apply (dsafe_modify _ _ bump); [done|done|by intros v <-].
Qed.

(** Posting a fragment either bumps the command counter or locks the device. *)
Lemma dsafe_post v0 queues address fragment :
  dsafe (eq v0) (post_control_fragment (E:=E) queues address fragment)
    (fun _ => eq (bump v0))
    (fun e v => e = DeviceError.CommandDeliveryUncertain /\ v = lost v0).
Proof.
  unfold post_control_fragment.
  apply (dsafe_bind _ _ _ (fun _ => eq v0)).
  { eapply dsafe_attempt; [apply (dsafe_rpu (eq v0)), safe_write|dweak..]. }
  intros [u|e]; [|apply dsafe_uncertain; by intros v <-].
  apply (dsafe_bind _ _ _ (fun _ => eq v0)).
  { eapply dsafe_attempt; [apply (dsafe_enqueue (eq v0))|dweak..]. }
  intros [u'|e]; [|apply dsafe_uncertain; by intros v <-].
  apply (dsafe_bind _ _ _ (fun r v => match r with inl _ => v = bump v0 | inr _ => v = v0 end)).
  { eapply dsafe_attempt; [apply (dsafe_trigger v0)|by intros ? ? <-..]. }
  intros [u''|e]; [by apply dsafe_ret|apply dsafe_uncertain; by intros v ->].
Qed.

Lemma dsafe_take v0 q :
  dsafe (eq v0) (take_command_buffer (E:=E) q) (fun _ => eq v0)
    (fun e v => (e = DeviceError.CommandQueueEmpty /\ v = v0)
                \/ (e = DeviceError.CommandDeliveryUncertain /\ v = lost v0)).
Proof.
  unfold take_command_buffer. apply (dsafe_bind _ _ _ (fun _ => eq v0)).
  { eapply dsafe_attempt; [apply (dsafe_dequeue (eq v0))|dweak..]. }
  intros [[x|]|e].
  - by apply dsafe_ret.
  - apply dsafe_throw. by intros v <-; left.
  - apply dsafe_uncertain. by intros v <-; right.
Qed.

(** The error of a bounded wait. *)
Definition wait_failed (posted : bool) v0 (e : DeviceError.t E) v : Prop :=
  (posted = false /\ e = DeviceError.CommandQueueTimeout /\ v = v0)
  \/ (e = DeviceError.CommandDeliveryUncertain /\ v = lost v0).

Lemma dsafe_wait v0 q n ms posted :
  dsafe (eq v0) (wait_for_command_buffer (E:=E) q n ms posted) (fun _ => eq v0)
    (wait_failed posted v0).
Proof.
  unfold wait_failed. induction n as [|n IH]; cbn [wait_for_command_buffer].
  - unfold command_wait_timeout. destruct posted.
    + apply dsafe_uncertain. by intros v <-; right.
    + apply dsafe_throw. by intros v <-; left.
  - apply (dsafe_bind _ _ _ (fun _ => eq v0)).
    { eapply dsafe_attempt; [apply (dsafe_dequeue (eq v0))|dweak..]. }
    intros [[x|]|e].
    + by apply dsafe_ret.
    + apply (dsafe_bind _ _ _ (fun _ => eq v0)); [apply dsafe_delay|by intros _].
    + apply dsafe_uncertain. by intros v <-; right.
Qed.

(** Sending the fragments: all of them are posted, or the device is locked,
    or (only before the first) nothing happened. *)
Lemma dsafe_send_fragments fragments queues attempts ms posted v0 :
  dsafe (eq v0) (send_fragments (E:=E) fragments queues attempts ms posted)
    (fun _ v => v = Nat.iter (length fragments) bump v0)
    (fun e v => (posted = false /\ e = DeviceError.CommandQueueTimeout /\ v = v0)
                \/ (e = DeviceError.CommandDeliveryUncertain
                    /\ exists k, (k <= length fragments)%nat /\ v = lost (Nat.iter k bump v0))).
Proof.
  revert posted v0. induction fragments as [|f fragments IH]; intros posted v0;
    cbn [send_fragments]; [by apply dsafe_ret|].
  apply (dsafe_bind _ _ _ (fun _ => eq v0)).
  { eapply dsafe_conseq; [apply dsafe_wait|done|done|].
    intros e v [?|[? ->]]; [by left|right]. split; [done|]. exists 0%nat. split; [lia|done]. }
  intros a. apply (dsafe_bind _ _ _ (fun _ => eq (bump v0))).
  { eapply dsafe_conseq; [apply dsafe_post|done|done|].
    intros e v [? ->]. right. split; [done|]. exists 0%nat. split; [lia|done]. }
  intros _. eapply dsafe_conseq; [apply (IH true (bump v0))|done|..].
  - intros _ v ->. by rewrite <-Nat.iter_succ_r.
  - intros e v [[? _]|[? (k & Hk & ->)]]; [done|]. right. split; [done|].
    exists (Datatypes.S k). split; [cbn; lia|]. by rewrite Nat.iter_succ_r.
Qed.

(** A complete control message as [validate_complete_message] accepts it. *)
Definition complete_message (m : list Z) : Prop :=
  12 <= len m <= 2048 /\ @Codec.read_u32 ProtocolError.t m 0 = Ok (len m).

Lemma validate_complete_message_spec m :
  match validate_complete_message (E:=E) m with
  | Ok _ => complete_message m
  | Err e => e = DeviceError.Protocol ProtocolError.InvalidLength /\ ~ complete_message m
  | Panic => False
  end.
Proof.
  unfold validate_complete_message, complete_message, HOST_MESSAGE_HEADER_LEN,
    MAX_STATION_MESSAGE_LEN.
  destruct (_ || _) eqn:Hc; [split; [done|lia]|]. apply orb_false_iff in Hc as [? ?].
  assert (forall E', @Codec.read_u32 E' m 0
    = match @Codec.read_u32 ProtocolError.t m 0 with
      | Ok x => Ok x | Err _ => Panic | Panic => Panic end) as Hp.
  { intros E'. unfold Codec.read_u32, index. by repeat destruct (nthZ m _). }
  destruct (@read_u32_ok ProtocolError.t m 0) as [x Hx]; [lia|lia|].
  rewrite (Hp (DeviceError.t E)), Hx. cbn [mbind res_bind].
  destruct (x =? len m) eqn:Heq; cbn [negb].
  - apply Z.eqb_eq in Heq as ->. split; [lia|done].
  - apply Z.eqb_neq in Heq. split; [done|]. intros [_ [= ?]]. done.
Qed.

Lemma dsafe_validate R m Q (F : DeviceError.t E -> Device unit -> Prop) :
  (forall v, R v -> complete_message m -> Q v) ->
  (forall v, R v -> F (DeviceError.Protocol ProtocolError.InvalidLength) v) ->
  dsafe R (lift (validate_complete_message m)) (fun _ => Q) F.
Proof.
  intros HQ HF. pose proof (validate_complete_message_spec m) as Hs.
  apply dsafe_lift; destruct (validate_complete_message m); try done.
  - intros ? v HR _. by apply HQ.
  - intros ? v HR [= <-]. destruct Hs as [-> _]. by apply HF.
Qed.

Lemma dsafe_operational R (F : DeviceError.t E -> Device unit -> Prop) :
  (forall v, R v -> dev_recovery_required v = true -> F DeviceError.RecoveryRequired v) ->
  dsafe R ensure_operational (fun _ v => R v /\ dev_recovery_required v = false) F.
Proof.
  intros HF. unfold ensure_operational.
  apply (dsafe_bind _ _ _ (fun b v => R v /\ dev_recovery_required v = b)).
  { by apply (dsafe_gets _ _ dev_recovery_required). }
  intros [].
  - apply dsafe_throw. intros v [? ?]. auto.
  - apply dsafe_ret. auto.
Qed.
End commands.

(** ** What a command does to the bus

    The view carries the driver's own state, the log what the chip was told. *)

(** The queue was empty each time it was read. *)
Definition empty_polls (q : Hpq) (t : log) : Prop :=
  Forall (fun x => register_read (dequeue_address q) 0 [x]) t.
(** The buffer [a] was taken from the queue [q]: read, and acknowledged. *)
Definition buffer_taken (q : Hpq) (a : Z) : log -> Prop :=
  empty_polls q +++ register_read (dequeue_address q) a +++ register_written (dequeue_address q) a.
(** The queue [q] was given [a], then the firmware was told of command [counter]. *)
Definition handed_over (q : Hpq) (a counter : Z) : log -> Prop :=
  register_written (enqueue_address q) a
  +++ register_written RPU_REG_INT_TO_MCU_CTRL (Z.lor counter 0x7fff0000).
Definition fragment_posted (queues : HpqmInfo) (counter a : Z) (fragment : list Z) : log -> Prop :=
  stored Processor.Umac a fragment +++ handed_over (command_busy queues) a counter.
(** One fragment after the other, each in a buffer of its own. *)
Fixpoint fragments_posted (queues : HpqmInfo) (counter : Z) (fragments : list (list Z))
    : log -> Prop :=
  match fragments with
  | [] => silent
  | fragment :: fragments => fun t => exists a, a <> 0
      /\ (buffer_taken (command_available queues) a +++ fragment_posted queues counter a fragment
          +++ fragments_posted queues (u32 (counter + 1)) fragments) t
  end.

Lemma empty_polls_reads q t : empty_polls q t -> only_reads t.
Proof.
  intros Ht. eapply list.Forall_impl; [exact Ht|]. intros x (o & b & _ & _ & _ & [= ->]). done.
Qed.

Section command_log.
Context {W E : Type} `{HT : BusTrace W E}.
Implicit Types v : Device unit.

Definition device_runs {A E'} v (m : M (Device W) E' A) (Q : A -> Device unit -> log -> Prop)
    (F : E' -> Device unit -> log -> Prop) : Prop :=
  runs (fun d => trace (dev_rpu d)) view v m Q F.

Lemma device_runs_zoom {A E'} v (m : M W E' A) Q F :
  bus_runs m Q F ->
  device_runs v (zoom dev_rpu set_rpu m) (fun a u t => u = v /\ Q a t) (fun e u t => u = v /\ F e t).
Proof.
  intros Hm. eapply runs_conseq.
  - by apply (runs_zoom trace (fun _ => tt) _ view dev_rpu set_rpu (fun _ => tt) (fun _ v => v)).
  - by intros a u t (_ & -> & ?).
  - by intros a u t (_ & -> & ?).
Qed.

Lemma device_runs_rpu {A} v (m : M W (RpuError.t E) A) Q F :
  bus_runs m Q F ->
  device_runs v (rpu m) (fun a u t => u = v /\ Q a t)
    (fun e u t => u = v /\ exists e', e = DeviceError.Rpu e' /\ F e' t).
Proof.
  intros Hm. apply device_runs_zoom. eapply runs_mapM_err; [exact Hm|]. eauto.
Qed.

Lemma device_runs_enqueue v q x :
  device_runs v (enqueue (E:=E) q x)
    (fun _ u t => u = v /\ register_written (enqueue_address q) x t) (fun _ u _ => u = v).
Proof.
  eapply runs_conseq; [apply device_runs_rpu, bus_runs_write_register|done|by intros ? ? ? []].
Qed.

Lemma device_runs_dequeue v q :
  device_runs v (dequeue (E:=E) q)
    (fun o u t => u = v /\ match o with
       | Some x => x <> 0 /\ (register_read (dequeue_address q) x
                              +++ register_written (dequeue_address q) x) t
       | None => register_read (dequeue_address q) 0 t
       end) (fun _ u _ => u = v).
Proof.
  unfold dequeue. eapply runs_bind;
    [apply device_runs_rpu, bus_runs_read_register| |by intros ? ? ? []].
  intros x u t [-> Ht]. destruct (x =? 0) eqn:Hx.
  { apply Z.eqb_eq in Hx as ->. apply runs_ret. by rewrite app_nil_r. }
  destruct (x =? 0xaaaaaaaa); [by apply runs_throw|].
  eapply runs_bind;
    [apply device_runs_rpu, bus_runs_write_register| |by intros ? ? ? []].
  intros [] u t' [-> Ht']. apply runs_ret. rewrite app_nil_r.
  split; [done|]. split; [lia|]. by exists t, t'.
Qed.

Lemma device_runs_uncertain {A} v Q (F : DeviceError.t E -> Device unit -> log -> Prop) :
  F DeviceError.CommandDeliveryUncertain (lost v) [] ->
  device_runs v (mark_delivery_uncertain (A:=A)) Q F.
Proof.
  intros HF. apply (runs_modify_bind _ _ _ _ lost); [done|done|]. by apply runs_throw.
Qed.

Lemma device_runs_trigger v :
  device_runs v (trigger_command (E:=E))
    (fun _ u t => u = bump v
       /\ register_written RPU_REG_INT_TO_MCU_CTRL (Z.lor (dev_command_counter v) 0x7fff0000) t)
    (fun _ u _ => u = v).
Proof.
  unfold trigger_command. apply (runs_gets_bind _ _ _ _ dev_command_counter); [done|].
  eapply runs_bind; [apply device_runs_rpu, bus_runs_write_register| |by intros ? ? ? []].
  intros [] u t [-> Ht]. apply (runs_modify _ _ _ _ bump); [done|done|]. by rewrite app_nil_r.
Qed.

(** A call whose error is examined: what is known of a success. *)
Lemma device_runs_attempt {A E'} v (m : M (Device W) (DeviceError.t E) A) Q F :
  device_runs v m Q F ->
  device_runs v (attempt (F:=E') m)
    (fun r u t => match r with inl a => Q a u t | inr e => F e u t end) (fun _ _ _ => False).
Proof. intros Hm. by eapply runs_attempt. Qed.

Lemma device_runs_post v queues a fragment :
  device_runs v (post_control_fragment (E:=E) queues a fragment)
    (fun _ u t => u = bump v /\ fragment_posted queues (dev_command_counter v) a fragment t)
    (fun e u _ => e = DeviceError.CommandDeliveryUncertain /\ u = lost v).
Proof.
  unfold post_control_fragment.
  eapply runs_bind; [apply device_runs_attempt, device_runs_rpu, bus_runs_store| |done].
  intros [[]|e] u t; [intros [-> Ht]|intros [-> _]; by apply device_runs_uncertain].
  eapply runs_bind; [apply device_runs_attempt, device_runs_enqueue| |done].
  intros [[]|e] u t'; [intros [-> Ht']|intros ->; by apply device_runs_uncertain].
  eapply runs_bind; [apply device_runs_attempt, device_runs_trigger| |done].
  intros [[]|e] u t''; [intros [-> Ht'']|intros ->; by apply device_runs_uncertain].
  apply runs_ret. rewrite app_nil_r. split; [done|].
  by apply follows_intro; [|apply follows_intro].
Qed.

Lemma device_runs_delay v ms :
  device_runs v (device_delay (E:=E) ms) (fun _ u t => u = v /\ t = []) (fun _ _ _ => False).
Proof.
  intros d <-. exists []. rewrite app_nil_r. split; [|done]. apply trace_delay.
Qed.

Lemma device_runs_wait v q n ms posted :
  device_runs v (wait_for_command_buffer (E:=E) q n ms posted)
    (fun a u t => u = v /\ a <> 0 /\ buffer_taken q a t)
    (fun e u t => (posted = false /\ e = DeviceError.CommandQueueTimeout /\ u = v /\ empty_polls q t)
                  \/ (e = DeviceError.CommandDeliveryUncertain /\ u = lost v)).
Proof.
  induction n as [|n IH]; cbn [wait_for_command_buffer].
  { unfold command_wait_timeout. destruct posted; [by apply device_runs_uncertain; right|].
    apply runs_throw. left. split_and!; [done..|by apply Forall_nil]. }
  eapply runs_bind; [apply device_runs_attempt, device_runs_dequeue| |done].
  intros [[x|]|e] u t; [intros [-> [Hx Ht]]|intros [-> Ht]|intros ->].
  - apply runs_ret. rewrite app_nil_r. split; [done|]. split; [done|].
    apply follows_nil_l; [by apply Forall_nil|done].
  - eapply runs_bind; [apply device_runs_delay| |done].
    intros [] u t' [-> ->]. cbn [app]. destruct Ht as (o & b & Ho & Hb & Hz & ->).
    assert (register_read (dequeue_address q) 0 [Access.Read o b]) as Hr by (by exists o, b).
    eapply runs_conseq; [apply IH|..].
    + intros a u t (-> & ? & t1 & t2 & -> & ? & ?). split_and!; [done..|].
      rewrite app_assoc. apply follows_intro; [by apply Forall_cons_2|done].
    + intros e u t [(? & ? & ? & ?)|?]; [left|by right]. split_and!; [done..|by apply Forall_cons_2].
  - apply device_runs_uncertain. by right.
Qed.

Lemma device_runs_send_fragments fragments queues attempts ms : forall posted v,
  device_runs v (send_fragments (E:=E) fragments queues attempts ms posted)
    (fun _ _ => fragments_posted queues (dev_command_counter v) fragments)
    (fun e u t => (posted = false /\ e = DeviceError.CommandQueueTimeout /\ u = v /\ only_reads t)
       \/ (e = DeviceError.CommandDeliveryUncertain
           /\ exists k, (k < length fragments)%nat /\ u = lost (Nat.iter k bump v)
              /\ (fragments_posted queues (dev_command_counter v) (take k fragments)
                  +++ anything) t)).
Proof.
  induction fragments as [|f fragments IH]; intros posted v; cbn [send_fragments].
  { by apply runs_ret. }
  assert (forall t, exists k, (k < length (f :: fragments))%nat /\ lost v = lost (Nat.iter k bump v)
      /\ (fragments_posted queues (dev_command_counter v) (take k (f :: fragments)) +++ anything) t)
    as Hlost.
  { intros t. exists 0%nat. split; [cbn; lia|]. split; [done|]. by apply follows_nil_l. }
  eapply runs_bind; [apply device_runs_wait| |].
  2: { intros e u t [(? & ? & ? & Ht)|[-> ->]]; [left|by right; split; [|apply Hlost]].
       split_and!; [done..|by eapply empty_polls_reads]. }
  intros a u t (-> & Ha & Ht). eapply runs_bind; [apply device_runs_post| |].
  2: { intros e u t' [-> ->]. right. split; [done|]. apply Hlost. }
  intros [] u t' [-> Ht']. eapply runs_conseq; [apply (IH true (bump v))|..].
  - intros [] u t'' Ht''. exists a. split; [done|].
    apply follows_intro; [done|]. by apply follows_intro.
  - intros e u t'' [[? _]|[He (k & Hk & -> & t1 & t2 & -> & Ht1 & _)]]; [done|]. right. split; [done|].
    exists (Datatypes.S k). split; [cbn; lia|]. split; [by rewrite Nat.iter_succ_r|].
    exists (t ++ t' ++ t1), t2. rewrite <-!app_assoc. split_and!; [done| |done].
    exists a. split; [done|]. apply follows_intro; [done|]. by apply follows_intro.
Qed.

Lemma device_runs_prepare v m attempts :
  device_runs v (prepare_reliable_send (E:=E) m attempts)
    (fun queues u t => u = v /\ t = [] /\ dev_queues v = Some queues)
    (fun e u t => u = v /\ t = [] /\ e <> DeviceError.CommandDeliveryUncertain).
Proof.
  unfold prepare_reliable_send. apply runs_lift_bind.
  2: { intros e He. split_and!; [done..|].
       pose proof (validate_complete_message_spec (E:=E) m) as Hs. rewrite He in Hs. by destruct Hs as [-> _]. }
  intros [] _. eapply (runs_bind _ _ _ _ _ (fun _ u t => u = v /\ t = [])).
  { unfold ensure_operational. apply (runs_gets_bind _ _ _ _ dev_recovery_required); [done|].
    destruct (dev_recovery_required v); [|by apply runs_ret].
    by apply (runs_throw _ _ _ _ _ (fun e u t => u = v /\ t = [] /\ e <> DeviceError.CommandDeliveryUncertain)). }
  2: done.
  intros [] u t [-> ->]. destruct (attempts =? 0); [by apply runs_throw|].
  apply (runs_gets_bind _ _ _ _ dev_queues); [done|].
  apply runs_lift; destruct (dev_queues v); try done; [by intros q [= <-]|by intros e [= <-]].
Qed.

Lemma device_runs_send_with_wait v m attempts ms :
  device_runs v (send_control_with_wait (E:=E) m attempts ms)
    (fun _ _ t => exists queues, dev_queues v = Some queues
       /\ fragments_posted queues (dev_command_counter v) (chunks (dev_command_fragment_len v) m) t)
    (fun e u t => (e <> DeviceError.CommandDeliveryUncertain /\ u = v /\ only_reads t)
       \/ (e = DeviceError.CommandDeliveryUncertain
           /\ exists queues k, dev_queues v = Some queues
              /\ (k < length (chunks (dev_command_fragment_len v) m))%nat
              /\ u = lost (Nat.iter k bump v)
              /\ (fragments_posted queues (dev_command_counter v)
                    (take k (chunks (dev_command_fragment_len v) m)) +++ anything) t)).
Proof.
  unfold send_control_with_wait. eapply runs_bind; [apply device_runs_prepare| |].
  - intros queues u t (-> & -> & Hq). unfold send_fragments_with_wait.
    apply (runs_gets_bind _ _ _ _ dev_command_fragment_len); [done|].
    destruct (_ =? 0); [by intros d Hd|].
    eapply runs_conseq; [apply device_runs_send_fragments|..].
    + intros [] u t Ht. eauto.
    + intros e u t [(_ & -> & -> & ?)|[-> (k & ? & ? & ?)]]; [by left|right]. eauto 10.
  - intros e u t (-> & -> & ?). left. split_and!; [done..|by apply Forall_nil].
Qed.
End command_log.

(** What the log of a bounded-wait command shows: on success every fragment,
    and on an uncertain delivery the [k] fragments the counter tells of. *)
Definition command_logged {E} (v v' : Device unit) (m : list Z) (r : res (DeviceError.t E) unit)
    (t : log) : Prop :=
  let fragments := chunks (dev_command_fragment_len v) m in
  match r with
  | Ok _ => exists queues, dev_queues v = Some queues
      /\ fragments_posted queues (dev_command_counter v) fragments t
  | Err DeviceError.CommandDeliveryUncertain =>
      exists queues k, dev_queues v = Some queues /\ (k < length fragments)%nat
        /\ v' = lost (Nat.iter k bump v)
        /\ (fragments_posted queues (dev_command_counter v) (take k fragments) +++ anything) t
  | Err _ => only_reads t
  | Panic => False
  end.

(** ** Events *)

(** Fragment limits as [set_fragment_limits] enforces them, and a pending
    event that still lacks bytes. *)
Definition pending_ok (p : option PendingEvent) : Prop :=
  match p with
  | None => True
  | Some p => 0 <= pe_copied p < pe_declared p /\ pe_declared p < 2 ^ 32
  end.
Definition fragments_ok (v : Device unit) : Prop :=
  12 <= dev_command_fragment_len v <= 400 /\ 12 <= dev_event_fragment_len v <= 1000.
Definition dev_wf (v : Device unit) : Prop := fragments_ok v /\ pending_ok (dev_pending_event v).

(** Only the pending event changed. *)
Definition pends (v0 v : Device unit) : Prop :=
  exists p, v = set_pending_event p v0 /\ pending_ok p.

Lemma pends_wf v0 v : dev_wf v0 -> pends v0 v -> dev_wf v.
Proof. intros [Hf _] (p & -> & Hp). split; [exact Hf|exact Hp]. Qed.

Lemma pends_refl v0 : dev_wf v0 -> pends v0 v0.
Proof. intros [_ Hp]. exists (dev_pending_event v0). split; [by destruct v0|done]. Qed.

Lemma pends_trans v0 v1 v2 : pends v0 v1 -> pends v1 v2 -> pends v0 v2.
Proof. intros (p & -> & _) (q & -> & ?). by exists q. Qed.

(** What an event handed to the caller guarantees. *)
Definition message_ok (n : Z) (m : HostMessageRef) : Prop :=
  bytes_ok (payload m) /\ 12 + len (payload m) <= n.

Section events.
Context {W E : Type} `{HL : BusLaws W E} `{!DelayOps W} `{!DelayLaws W E}.
Implicit Types v : Device unit.

Lemma dsafe_ack R : dsafe R (acknowledge_interrupt (E:=E)) (fun _ => R) (fun _ => R).
Proof.
  eapply dsafe_conseq; [apply (dsafe_rpu R), safe_write_register|done|dweak..].
Qed.

Lemma dsafe_release R queues a b :
  dsafe R (release_event_fragment (E:=E) queues a b) (fun _ => R) (fun _ => R).
Proof. destruct b; cbn; [apply dsafe_enqueue|by apply dsafe_ret]. Qed.

Lemma dsafe_release_ack R queues a b :
  dsafe R (release_and_acknowledge_event (E:=E) queues a b) (fun _ => R) (fun _ => R).
Proof.
  apply (dsafe_bind _ _ _ (fun _ => R)); [apply dsafe_release|intros _; apply dsafe_ack].
Qed.

Lemma dsafe_header R a :
  dsafe R (read_event_header (E:=E) a) (fun db v => R v /\ in_u 32 db.1) (fun _ => R).
Proof.
  unfold read_event_header. eapply dsafe_bind.
  { apply (dsafe_with_local 12 _ R _ (fun _ => R)); [by apply buf_ok_zeros|].
    apply ssafe_rpu_buffer. }
  intros [[] h]. cbn [fst snd].
  destruct (decide (buf_ok 12 h)) as [[Hl Hb]|Hn].
  2: { intros d [_ [_ Hh]]. done. }
  destruct (@read_u32_range (DeviceError.t E) h 0) as (x & -> & Hx); [done|lia|lia|].
  destruct (@read_u32_range (DeviceError.t E) h 4) as (y & -> & _); [done|lia|lia|].
  intros d [Hd [HR _]]. cbn. by repeat split; try apply Hx.
Qed.

Lemma ssafe_read_slice n R a b addr :
  0 <= a <= b -> b <= n ->
  ssafe n R (on_slice a b (rpu_buffer (E:=E) (Memory.read Processor.Umac addr)))
    (fun _ => R) (fun _ => R).
Proof. intros. by apply lends_on_slice, ssafe_rpu_buffer. Qed.

Lemma ssafe_parse n R declared :
  0 <= declared <= n ->
  ssafe n R (parse_scratch (W:=W) (E:=E) declared) (fun m v => R v /\ message_ok n m) (fun _ => R).
Proof.
  intros Hd [d l] [[Hb HR] [Hl Hok]]. cbn [fst snd] in *. unfold parse_scratch.
  unfold mbind at 1, M_bind at 1, gets at 1. cbn [snd].
  unfold mbind at 1, M_bind at 1, lift at 1, subslice. rewrite slice_in by lia. cbn [expect].
  set (b := take _ _). assert (bytes_ok b) as Hbb by (by apply Forall_take, Forall_drop).
  assert (len b <= n) as Hbl by (unfold b; rewrite len_take, len_drop; lia).
  pose proof (parse_host_message_spec b Hbb) as Hp. unfold lift.
  destruct (parse_host_message b) as [m|e|]; cbn in *; [|repeat split; done|done].
  destruct Hp as (x & Hx & _ & Hs & Hlen). repeat split; try done.
  - by eapply bytes_ok_slice.
  - cbn. lia.
Qed.

Lemma dsafe_begin v0 queues :
  fragments_ok v0 ->
  dsafe (eq v0) (begin_new_event (E:=E) queues)
    (fun o v => v = v0 /\ forall e, o = Some e ->
       in_u 32 (ne_declared e) /\ ne_first_count e = Z.min (dev_event_fragment_len v0) (ne_declared e))
    (fun _ => eq v0).
Proof.
  intros Hf. unfold begin_new_event. apply (dsafe_bind _ _ _ (fun _ => eq v0)).
  { eapply dsafe_conseq; [apply (dsafe_dequeue (eq v0))|done|dweak..]. }
  intros [a|]; [|apply dsafe_ret; by intros v <-].
  eapply dsafe_bind; [apply (dsafe_header (eq v0))|]. intros [declared resubmit]. cbn [fst].
  eapply dsafe_bind.
  { apply (dsafe_gets _ _ dev_event_fragment_len
             (fun f v => v = v0 /\ in_u 32 declared /\ f = dev_event_fragment_len v0)); [done|].
    by intros v [<- ?]. }
  intros f. apply dsafe_ret. intros v (-> & Hu & ->). split; [done|]. by intros e [= <-].
Qed.

Lemma dsafe_validate_event v0 queues e capacity :
  dev_wf v0 -> in_u 32 (ne_declared e) -> ne_first_count e = Z.min (dev_event_fragment_len v0) (ne_declared e) ->
  dsafe (eq v0) (validate_new_event (E:=E) queues e capacity)
    (fun _ v => v = v0 /\ 12 <= ne_declared e <= capacity) (fun _ => pends v0).
Proof.
  intros Hwf Hd Hc. pose proof (pends_refl _ Hwf). unfold validate_new_event, HOST_MESSAGE_HEADER_LEN.
  destruct (ne_declared e <? 12) eqn:?.
  { apply (dsafe_bind _ _ _ (fun _ => eq v0)).
    - eapply dsafe_conseq; [apply (dsafe_release_ack (eq v0))|done|done|by intros ? ? <-].
    - intros _. apply dsafe_throw. by intros v <-. }
  destruct (capacity <? ne_declared e) eqn:?; [|apply dsafe_ret; intros v <-; split; [done|lia]].
  apply (dsafe_bind _ _ _ (fun _ => pends v0)); [|intros _; by apply dsafe_throw].
  unfold reject_oversized_event. apply (dsafe_bind _ _ _ (fun _ => eq v0)).
  { eapply dsafe_conseq; [apply (dsafe_release_ack (eq v0))|done|done|by intros ? ? <-]. }
  intros _. destruct (ne_first_count e <? ne_declared e) eqn:?; [|apply dsafe_ret; by intros v <-].
  apply dsafe_set_pending.
  intros v <-. eexists. split; [done|]. cbn. destruct Hwf as [[_ ?] _]. unfold in_u in Hd. lia.
Qed.

Lemma ssafe_new v0 n queues ptr :
  dev_wf v0 ->
  ssafe n (eq v0) (read_new_event (E:=E) queues ptr)
    (fun r v => pends v0 v /\ forall m, r = Some m -> message_ok n m) (fun _ => pends v0).
Proof.
  intros Hwf. pose proof (pends_refl _ Hwf) as Hrefl. pose proof Hwf as [[_ Hev] _].
  unfold read_new_event. eapply ssafe_bind.
  { apply ssafe_on_fst. eapply dsafe_conseq; [apply (dsafe_begin v0), Hwf|done| |by intros ? ? <-].
    intros o v Hv. exact Hv. }
  intros [e|]; [|apply ssafe_ret; by intros v [-> _]].
  eapply ssafe_bind.
  { apply ssafe_len with (Q := fun c v => v = v0 /\ c = n /\ in_u 32 (ne_declared e)
      /\ ne_first_count e = Z.min (dev_event_fragment_len v0) (ne_declared e)).
    intros v [-> Hv]. by destruct (Hv e eq_refl). }
  intros c. eapply ssafe_pure; [intros v Hv; exact (proj2 Hv)|intros (-> & Hd & Hc)].
  apply (ssafe_bind n _ _ _ (fun _ v => v = v0 /\ 12 <= ne_declared e <= n)).
  { apply ssafe_on_fst. eapply dsafe_conseq; [by apply (dsafe_validate_event v0)|dweak..]. }
  intros _. eapply ssafe_pure; [intros v Hv; exact (proj2 Hv)|intros Hle].
  apply (ssafe_bind n _ _ _ (fun _ => eq v0)).
  { unfold read_initial_event_fragment. apply (ssafe_bind n _ _ _ (fun _ => eq v0)).
    - eapply ssafe_conseq; [apply (ssafe_read_slice n (eq v0)); lia|dweak..].
    - intros _. apply ssafe_on_fst. eapply dsafe_conseq; [apply (dsafe_release_ack (eq v0))|dweak..]. }
  intros _. unfold finish_new_event. destruct (ne_first_count e =? ne_declared e) eqn:Heq.
  - eapply ssafe_bind.
    + eapply ssafe_conseq; [apply (ssafe_parse n (eq v0) (ne_declared e)); lia|done| |by intros ? ? <-].
      intros m v Hm. exact Hm.
    + intros m. apply ssafe_ret. intros v [<- Hm]. split; [done|]. by intros ? [= <-].
  - apply (ssafe_bind n _ _ _ (fun _ => pends v0)); [|intros _; by apply ssafe_ret].
    apply ssafe_on_fst.
    apply dsafe_set_pending.
    intros v <-. eexists. split; [done|]. cbn. unfold in_u in Hd. lia.
Qed.
End events.

Section pending.
Context {W E : Type} `{HL : BusLaws W E} `{!DelayOps W} `{!DelayLaws W E}.
Implicit Types v : Device unit.

(** A pending event whose bytes fit the caller's buffer of [n] bytes. *)
Definition draining (n : Z) (p : PendingEvent) : Prop :=
  0 <= pe_copied p <= pe_declared p /\ pe_declared p < 2 ^ 32
  /\ (pe_discard p = false -> pe_declared p <= n).

Definition drained (p : PendingEvent) (r : PendingEvent * bool * bool) : Prop :=
  let '(p', _, complete) := r in
  pe_declared p' = pe_declared p /\ pe_discard p' = pe_discard p
  /\ pe_copied p <= pe_copied p'
  /\ (if complete : bool then pe_copied p' = pe_declared p' else pe_copied p' < pe_declared p').

Lemma ssafe_consume n v0 queues p addr :
  fragments_ok v0 -> draining n p -> pe_copied p < pe_declared p ->
  ssafe n (eq v0) (consume_pending_fragment (E:=E) queues p addr)
    (fun p' v => v = v0 /\ draining n p' /\ pe_declared p' = pe_declared p
                 /\ pe_discard p' = pe_discard p /\ pe_copied p < pe_copied p')
    (fun _ => eq v0).
Proof.
  intros Hf (Hc & Hd & Hn) Hlt. unfold consume_pending_fragment.
  apply (ssafe_bind n _ _ _ (fun f v => v = v0 /\ 12 <= f)).
  { eapply (ssafe_gets n (eq v0) _ dev_event_fragment_len); [done|].
    intros v <-. destruct Hf. split; [done|lia]. }
  intros f. eapply ssafe_pure; [intros v Hv; exact (proj2 Hv)|intros Hfl].
  set (count := Z.min f (pe_declared p - pe_copied p)).
  assert (0 < count <= pe_declared p - pe_copied p) by (unfold count; lia).
  apply (ssafe_bind n _ _ _ (fun _ => eq v0)).
  { destruct (pe_discard p) eqn:Hdisc; cbn [negb]; [apply ssafe_ret; by intros v [-> _]|].
    specialize (Hn eq_refl). eapply ssafe_conseq;
      [apply (ssafe_read_slice n (eq v0)); lia|by intros v [-> _]|done..]. }
  intros _. apply (ssafe_bind n _ _ _ (fun _ => eq v0)).
  { apply ssafe_on_fst, dsafe_release. }
  intros _. apply ssafe_ret. intros v <-. unfold draining. cbn. split_and!; first [done|lia].
Qed.

Lemma ssafe_drain fuel n v0 queues p removed :
  fragments_ok v0 -> draining n p -> pe_declared p - pe_copied p <= Z.of_nat fuel ->
  ssafe n (eq v0) (drain_loop (E:=E) fuel queues p removed)
    (fun r v => v = v0 /\ draining n r.1.1 /\ drained p r) (fun _ => eq v0).
Proof.
  intros Hf. revert p removed. induction fuel as [|fuel IH]; intros p removed Hp Hfuel;
    cbn [drain_loop]; destruct (pe_copied p <? pe_declared p) eqn:Hlt; cbn [negb].
  - lia.
  - apply ssafe_ret. intros v <-. destruct Hp as (? & ? & ?). unfold drained, draining. cbn.
    split_and!; try done; lia.
  - apply (ssafe_bind n _ _ _ (fun _ => eq v0)).
    { apply ssafe_on_fst. eapply dsafe_conseq; [apply (dsafe_dequeue (eq v0))|dweak..]. }
    intros [a|].
    + eapply ssafe_bind; [apply (ssafe_consume n v0); [done..|lia]|]. intros p'.
      eapply ssafe_pure; [intros v Hv; exact (proj2 Hv)|intros (Hd & He & Hdi & Hcp)].
      eapply ssafe_conseq; [apply (IH p' true Hd); lia|by intros v [-> _]| |done].
      intros [[q b] c] v (-> & ? & ?). unfold drained in *. cbn in *.
      rewrite He, Hdi in *. split_and!; try done; [tauto..|lia|tauto].
    + apply ssafe_ret. intros v <-. destruct Hp as (? & ? & ?). unfold drained, draining. cbn.
      split_and!; try done; lia.
  - apply ssafe_ret. intros v <-. destruct Hp as (? & ? & ?). unfold drained, draining. cbn.
    split_and!; try done; lia.
Qed.

Lemma ssafe_continue v0 n queues ptr p :
  dev_wf v0 -> dev_pending_event v0 = Some p ->
  ssafe n (eq v0) (continue_pending_event (E:=E) queues ptr)
    (fun r v => pends v0 v /\ match r with
                              | PendingEventRead.Complete d => 0 <= d <= n
                              | _ => True
                              end) (fun _ => pends v0).
Proof.
  intros Hwf Hp. pose proof (pends_refl _ Hwf) as Hrefl. pose proof Hwf as [Hf Hpo].
  rewrite Hp in Hpo. cbn in Hpo. unfold continue_pending_event.
  apply (ssafe_bind n _ _ _ (fun q v => v = v0 /\ q = Some p)).
  { eapply (ssafe_gets n (eq v0) _ dev_pending_event); [done|]. by intros v <-. }
  intros q. eapply ssafe_pure; [intros v Hv; exact (proj2 Hv)|intros ->]. cbn [expect].
  apply (ssafe_bind n _ _ _ (fun r v => v = v0 /\ r = p)).
  { apply ssafe_lift; [done| |done]. intros a v [-> _] [= <-]. done. }
  intros r. eapply ssafe_pure; [intros v Hv; exact (proj2 Hv)|intros ->].
  apply (ssafe_bind n _ _ _ (fun c v => v = v0 /\ c = n)).
  { apply ssafe_len. by intros v [-> _]. }
  intros c. eapply ssafe_pure; [intros v Hv; exact (proj2 Hv)|intros ->].
  destruct (pending_buffer_changed p ptr n) eqn:Hch.
  { apply (ssafe_bind n _ _ _ (fun _ => pends v0)); [|intros _; by apply ssafe_throw].
    apply ssafe_on_fst, dsafe_set_pending. intros v [-> _]. eexists. split; [done|exact Hpo]. }
  assert (draining n p) as Hd.
  { split; [lia|]. split; [lia|]. intros Hdi. unfold pending_buffer_changed in Hch.
    rewrite Hdi in Hch. cbn in Hch. lia. }
  eapply ssafe_bind.
  { eapply ssafe_conseq;
      [apply (ssafe_drain (Z.to_nat (pe_declared p - pe_copied p)) n v0 queues p false Hf Hd); lia
      |by intros v [-> _]| |by intros ? ? <-].
    intros r v Hv. exact Hv. }
  intros [[p' removed] complete].
  eapply ssafe_pure; [intros v Hv; exact (proj2 Hv)|intros [Hd' Hdr]]. cbn [fst snd] in *.
  apply (ssafe_bind n _ _ _ (fun _ => eq v0)).
  { apply ssafe_on_fst. destruct removed; cbn.
    - eapply dsafe_conseq; [apply (dsafe_ack (eq v0))|dweak..].
    - apply dsafe_ret. by intros v [-> _]. }
  intros _. apply ssafe_on_fst. destruct Hdr as (H1 & H2 & H3 & H4), Hd' as (H5 & H6 & H7).
  destruct complete; cbn [negb finish_pending_event].
  - apply (dsafe_bind _ _ _ (fun _ => pends v0)).
    + apply dsafe_set_pending. intros v <-. by exists None.
    + intros _. apply dsafe_ret. intros v Hv. split; [done|].
      destruct (pe_discard p') eqn:?; [done|]. specialize (H7 eq_refl). lia.
  - apply (dsafe_bind _ _ _ (fun _ => pends v0)).
    + apply dsafe_set_pending. intros v <-. exists (Some p'). split; [done|]. cbn. lia.
    + intros _. by apply dsafe_ret.
Qed.

(** [try_read_event]: only the pending event changes, and a message that is
    returned lies in the caller's buffer. *)
Lemma ssafe_try_read v0 n ptr :
  dev_wf v0 ->
  ssafe n (eq v0) (try_read_event (E:=E) ptr)
    (fun r v => pends v0 v /\ forall m, r = Some m -> message_ok n m) (fun _ => pends v0).
Proof.
  intros Hwf. pose proof (pends_refl _ Hwf) as Hrefl. unfold try_read_event.
  apply (ssafe_bind n _ _ _ (fun _ => eq v0)).
  { apply ssafe_on_fst. eapply dsafe_conseq; [apply (dsafe_operational (eq v0) (fun _ => eq v0)); dweak
                                             |done|dweak|by intros ? ? <-]. }
  intros _. apply (ssafe_bind n _ _ _ (fun q v => v = v0)).
  { eapply (ssafe_gets n (eq v0) _ dev_queues); [done|]. by intros v <-. }
  intros q. apply (ssafe_bind n _ _ _ (fun _ => eq v0)).
  { apply ssafe_lift; [apply ok_or_no_panic|by intros ? v -> _|by intros ? v -> _]. }
  intros queues. apply (ssafe_bind n _ _ _ (fun b v => v = v0 /\ b = is_some (dev_pending_event v0))).
  { eapply (ssafe_gets n (eq v0) (fun d => is_some (dev_pending_event d))
      (fun v => is_some (dev_pending_event v))); [done|].
    by intros v <-. }
  intros b. eapply ssafe_pure; [intros v Hv; exact (proj2 Hv)|intros ->].
  destruct (dev_pending_event v0) as [p|] eqn:Hp; cbn [is_some].
  2: { eapply ssafe_conseq; [by apply (ssafe_new v0)|by intros v [-> _]|done..]. }
  unfold read_pending_or_next. eapply ssafe_bind.
  { eapply ssafe_conseq; [by apply (ssafe_continue v0 n queues ptr p)|by intros v [-> _]| |done].
    intros r v Hv. exact Hv. }
  intros [| |d].
  - apply ssafe_ret. by intros v [? _].
  - intros [dv l] [[Hb [Hv _]] Hl]. cbn [fst snd] in *.
    pose proof (ssafe_new (E:=E) (view dv) n queues ptr (pends_wf _ _ Hwf Hv) (dv, l)
                  (conj (conj Hb eq_refl) Hl)) as Hx.
    destruct (read_new_event queues ptr (dv, l)) as [[r|e|] [dv' l']]; cbn in *; [|..|done].
    + destruct Hx as [[Hb' [Hv' Hm]] Hl']. split; [|done]. split; [done|].
      split; [by eapply pends_trans|done].
    + destruct Hx as [[Hb' Hv'] Hl']. split; [|done]. split; [done|]. by eapply pends_trans.
  - eapply ssafe_pure; [intros v Hv; exact (proj2 Hv)|intros Hd].
    eapply ssafe_bind.
    + eapply ssafe_conseq; [by apply (ssafe_parse n (pends v0) d)|by intros v [? _]| |done].
      intros m v Hm. exact Hm.
    + intros m. apply ssafe_ret. intros v [? ?]. split; [done|]. by intros ? [= <-].
Qed.
End pending.

(** ** Composite operations *)

Section composite.
Context {W E : Type} `{HL : BusLaws W E} `{!DelayOps W} `{!DelayLaws W E}.
Implicit Types v : Device unit.

(** The number of fragments of a message. *)
Lemma length_chunks_fuel {A} fuel n (l : list A) :
  (0 < n)%nat -> (length l <= fuel)%nat ->
  length (chunks_fuel fuel n l) = ((length l + n - 1) / n)%nat.
Proof.
  intros Hn. revert l. induction fuel as [|fuel IH]; intros [|x l] Hf;
    try (cbn; rewrite Nat.div_small; lia); [cbn in Hf; lia|].
  cbn [chunks_fuel]. set (k := x :: l) in *. cbn [length]. rewrite IH.
  2: { rewrite length_drop. unfold k in *. cbn in *. lia. }
  rewrite length_drop. assert (0 < length k)%nat by (unfold k; cbn; lia).
  destruct (decide (length k <= n)%nat).
  - replace (length k - n + n - 1)%nat with (n - 1)%nat by lia.
    rewrite (Nat.div_small (n - 1)) by lia.
    apply Nat.div_unique with (r := (length k - 1)%nat); lia.
  - replace (length k + n - 1)%nat with ((length k - n + n - 1) + 1 * n)%nat by lia.
    rewrite Nat.div_add by lia. lia.
Qed.

Definition fragment_count (n frag : Z) : nat := Z.to_nat ((n + frag - 1) / frag).

Lemma length_chunks (l : list Z) n :
  0 < n -> length (chunks n l) = fragment_count (len l) n.
Proof.
  intros Hn. unfold chunks, fragment_count. rewrite length_chunks_fuel by lia.
  apply Nat2Z.inj. rewrite Nat2Z.inj_div, !Z2Nat.id by
    (first [lia | apply Z.div_pos; unfold len; lia]). unfold len. f_equal; lia.
Qed.

(** Posting one fragment per chunk changes nothing but the command counter. *)
Lemma iter_bump_recovery k v : dev_recovery_required (Nat.iter k bump v) = dev_recovery_required v.
Proof. by induction k. Qed.

(** How a refused command leaves the driver. *)
Definition refused (e : DeviceError.t E) (v0 v : Device unit) : Prop :=
  (e <> DeviceError.CommandDeliveryUncertain /\ v = v0)
  \/ (e = DeviceError.CommandDeliveryUncertain /\ exists k, v = lost (Nat.iter k bump v0)).

Lemma dsafe_send_with_wait v0 m attempts ms :
  fragments_ok v0 ->
  dsafe (W:=W) (eq v0) (send_control_with_wait (E:=E) m attempts ms)
    (fun _ v => complete_message m /\ dev_recovery_required v0 = false
                /\ v = Nat.iter (fragment_count (len m) (dev_command_fragment_len v0)) bump v0)
    (fun e v => refused e v0 v).
Proof.
  intros [Hf _]. unfold send_control_with_wait, prepare_reliable_send, refused.
  apply (dsafe_bind _ _ _ (fun _ v => v = v0 /\ complete_message m /\ dev_recovery_required v0 = false)).
  - apply (dsafe_bind _ _ _ (fun _ v => v = v0 /\ complete_message m)).
    { apply dsafe_validate; [by intros v <-|]. intros v <-. by left. }
    intros _. apply (dsafe_bind _ _ _
      (fun _ v => (v = v0 /\ complete_message m) /\ dev_recovery_required v = false)).
    { apply dsafe_operational. intros v [-> _] _. by left. }
    intros _. destruct (attempts =? 0).
    { apply dsafe_throw. intros v [[-> _] _]. by left. }
    apply (dsafe_bind _ _ _ (fun _ v => v = v0 /\ complete_message m /\ dev_recovery_required v0 = false)).
    { eapply (dsafe_gets _ _ dev_queues); [done|]. by intros v [[-> ?] ?]. }
    intros q. apply dsafe_lift; [apply ok_or_no_panic|by intros|].
    intros e v (-> & _) He. left. split; [|done]. destruct q; [done|]. by injection He as <-.
  - intros queues. unfold send_fragments_with_wait.
    apply (dsafe_bind _ _ _ (fun f v => v = v0 /\ complete_message m /\ dev_recovery_required v0 = false
                                        /\ f = dev_command_fragment_len v0)).
    { eapply (dsafe_gets _ _ dev_command_fragment_len); [done|]. by intros v (-> & ? & ?). }
    intros f. destruct (Z.eq_dec f (dev_command_fragment_len v0)) as [->|Hne].
    2: { intros d [_ (_ & _ & _ & ?)]. done. }
    rewrite (proj2 (Z.eqb_neq _ _)) by lia.
    intros d [Hb (Hv & Hm & Hr & _)].
    pose proof (dsafe_send_fragments (E:=E) (chunks (dev_command_fragment_len v0) m) queues attempts
                  ms false v0 d (conj Hb (eq_sym Hv))) as Hx.
    rewrite length_chunks in Hx by lia.
    destruct (send_fragments _ _ _ _ _ d) as [[u|e|] d']; [..|done].
    + destruct Hx as [Hb' Hx]. by split.
    + destruct Hx as [Hb' Hx]. split; [done|]. destruct Hx as [(_ & -> & ->)|[-> (k & _ & ->)]].
      * by left.
      * right. split; [done|]. by exists k.
Qed.

Lemma dsafe_send_control v0 m :
  dsafe (W:=W) (eq v0) (send_control (E:=E) m)
    (fun _ v => complete_message m /\ len m <= dev_command_fragment_len v0
                /\ dev_recovery_required v0 = false /\ v = bump v0)
    (fun e v => refused e v0 v).
Proof.
  unfold send_control, refused.
  apply (dsafe_bind _ _ _ (fun _ v => v = v0 /\ complete_message m)).
  { apply dsafe_validate; [by intros v <-|]. intros v <-. by left. }
  intros _. apply (dsafe_bind _ _ _
    (fun _ v => (v = v0 /\ complete_message m) /\ dev_recovery_required v = false)).
  { apply dsafe_operational. intros v [-> _] _. by left. }
  intros _. apply (dsafe_bind _ _ _ (fun f v => v = v0 /\ complete_message m
    /\ dev_recovery_required v0 = false /\ f = dev_command_fragment_len v0)).
  { eapply (dsafe_gets _ _ dev_command_fragment_len); [done|]. by intros v [[-> ?] ?]. }
  intros f. destruct (f <? len m) eqn:Hlt.
  { apply dsafe_throw. intros v (-> & _). by left. }
  apply (dsafe_bind _ _ _ (fun _ v => v = v0 /\ complete_message m
    /\ dev_recovery_required v0 = false /\ f = dev_command_fragment_len v0)).
  { eapply (dsafe_gets _ _ dev_queues); [done|]. by intros v Hv. }
  intros q. apply (dsafe_bind _ _ _ (fun _ v => v = v0 /\ complete_message m
    /\ dev_recovery_required v0 = false /\ f = dev_command_fragment_len v0)).
  { apply dsafe_lift; [apply ok_or_no_panic|by intros|].
    intros e v (-> & _) He. left. split; [|done]. destruct q; [done|]. by injection He as <-. }
  intros queues d [Hb (Hv & Hm & Hr & ->)]. apply Z.ltb_ge in Hlt.
  assert (dsafe (W:=W) (eq v0) (address ← take_command_buffer (command_available queues);
            post_control_fragment (E:=E) queues address m) (fun _ => eq (bump v0))
            (fun e v => refused e v0 v)) as Hx.
  { apply (dsafe_bind _ _ _ (fun _ => eq v0)).
    - eapply dsafe_conseq; [apply dsafe_take|done|done|].
      intros e v [[-> ->]|[-> ->]]; [by left|right]. split; [done|]. by exists 0%nat.
    - intros a. eapply dsafe_conseq; [apply dsafe_post|done|done|].
      intros e v [-> ->]. right. split; [done|]. by exists 0%nat. }
  specialize (Hx d (conj Hb (eq_sym Hv))).
  destruct ((address ← take_command_buffer _; post_control_fragment _ address m) d)
    as [[u|e|] d']; [..|done].
  - destruct Hx as [Hb' Hv']. split; [done|]. split_and!; try done; lia.
  - exact Hx.
Qed.

Lemma dsafe_initialize v0 :
  dsafe (W:=W) (eq v0) (initialize_queues (E:=E))
    (fun q v => queue_map_is_valid q = true
       /\ exists rx, rx <> 0 /\ rx <> 0xaaaaaaaa
                     /\ v = set_queue_state (Some q) rx RPU_MEM_TX_CMD_BASE v0)
    (fun _ v => v = v0).
Proof.
  unfold initialize_queues. eapply dsafe_bind.
  { apply (dsafe_with_local 56 _ (eq v0) _ (fun _ => eq v0)); [by apply buf_ok_zeros|].
    eapply ssafe_conseq; [apply (ssafe_rpu_buffer 56 (eq v0))|done|done|done]. }
  intros [[] b]. cbn [fst snd]. apply (dsafe_bind _ _ _ (fun _ => eq v0)).
  { apply dsafe_lift; [|by intros ? v [? _]|by intros ? v [-> _]].
    apply map_err_no_panic, HpqmInfo_parse_no_panic. }
  intros q. apply (dsafe_bind _ _ _ (fun _ v => v = v0 /\ queue_map_is_valid q = true)).
  { unfold validate_queue_map. destruct (queue_map_is_valid q); apply dsafe_lift; done. }
  intros _. apply (dsafe_bind _ _ _ (fun _ v => v = v0 /\ queue_map_is_valid q = true)).
  { eapply dsafe_conseq; [apply (dsafe_rpu (fun v => v = v0 /\ queue_map_is_valid q = true)),
                          safe_read_u32|done|dweak..]. }
  intros rx. apply (dsafe_bind _ _ _ (fun _ v => v = v0 /\ queue_map_is_valid q = true
    /\ rx <> 0 /\ rx <> 0xaaaaaaaa)).
  { unfold validate_rx_command_base. destruct (_ || _) eqn:Hc; apply dsafe_lift; try done.
    - by intros ? v [-> _].
    - apply orb_false_iff in Hc. intros _ v [-> ?] _. split_and!; [done..|lia|lia]. }
  intros _. apply (dsafe_bind _ _ _ (fun _ v => queue_map_is_valid q = true
    /\ exists rx, rx <> 0 /\ rx <> 0xaaaaaaaa
                  /\ v = set_queue_state (Some q) rx RPU_MEM_TX_CMD_BASE v0)).
  - apply (dsafe_modify _ _ (set_queue_state (Some q) rx RPU_MEM_TX_CMD_BASE)); [done|done|].
    intros v (-> & ? & ? & ?). split; [done|]. by exists rx.
  - intros _. by apply dsafe_ret.
Qed.
End composite.

(** A queue map and a device for the examples. *)
Definition sample_queue (n : Z) : Hpq := mkHpq (0xa4000500 + 8 * n) (0xa4000504 + 8 * n).
Definition sample_map : HpqmInfo :=
  mkHpqmInfo (sample_queue 0) (sample_queue 1) (sample_queue 2) (sample_queue 3)
    [sample_queue 4; sample_queue 5; sample_queue 6].
Definition ready_device (replies : list (option (list Z))) : Device script :=
  set_queue_state (Some sample_map) 0xb7002000 RPU_MEM_TX_CMD_BASE
    (Device_new (mkScript replies [])).
Definition sample_message : list Z := to_le 4 12 ++ zeros 8.
(** The same over a bus with a log, and a message of three fragments. *)
Definition logged_device (replies : list (option (list Z))) : Device (logged script) :=
  set_queue_state (Some sample_map) 0xb7002000 RPU_MEM_TX_CMD_BASE
    (Device_new (mkScript replies [], [])).
Definition long_message : list Z := to_le 4 900 ++ zeros 896.
Definition three_buffers : list (option (list Z)) :=
  [Some (zeros 4); Some (to_le 4 0xb0001000); Some (to_le 4 0xb0001200); Some (to_le 4 0xb0001400)].

(** * Properties *)

(** once delivery of a command has become uncertain, the device refuses
    every complete command, event read and interrupt enable without touching
    the bus or its own state, until [reset_queue_state] or a successful queue
    initialization. *)
Theorem recovery_required_blocks {W E} `{BusOps W E} `{DelayOps W} (d : Device W) m l ptr
    attempts ms :
  dev_recovery_required d = true -> complete_message m ->
  send_control (E:=E) m d = (Err DeviceError.RecoveryRequired, d)
  /\ send_control_with_wait (E:=E) m attempts ms d = (Err DeviceError.RecoveryRequired, d)
  /\ try_read_event (E:=E) ptr (d, l) = (Err DeviceError.RecoveryRequired, (d, l))
  /\ enable_interrupts (E:=E) d = (Err DeviceError.RecoveryRequired, d).
Proof.
  intros Hr Hm. pose proof (validate_complete_message_spec (E:=E) m) as Hv.
  assert (validate_complete_message (E:=E) m = Ok tt) as Hok.
  { destruct (validate_complete_message m) as [[]|e|]; [done|by destruct Hv|done]. }
  assert (ensure_operational (E:=E) d = (Err DeviceError.RecoveryRequired, d)) as He.
  { unfold ensure_operational, mbind, M_bind, gets. by rewrite Hr. }
  unfold send_control, send_control_with_wait, prepare_reliable_send, try_read_event,
    enable_interrupts, mbind, M_bind, lift, on_fst. rewrite Hok, He. done.
Qed.

Example recovery_required_blocks_witness :
  let d := set_recovery_required true (ready_device []) in
  send_control (E:=unit) sample_message d = (Err DeviceError.RecoveryRequired, d)
  /\ send_control_with_wait (E:=unit) sample_message 5 1 d = (Err DeviceError.RecoveryRequired, d)
  /\ try_read_event (E:=unit) 0 (d, zeros 64) = (Err DeviceError.RecoveryRequired, (d, zeros 64))
  /\ enable_interrupts (E:=unit) d = (Err DeviceError.RecoveryRequired, d).
Proof.
  apply (recovery_required_blocks (E:=unit) (set_recovery_required true (ready_device []))
           sample_message (zeros 64) 0 5 1); [done|split; [split|]; by vm_compute].
Defined.

(** C32: a bounded-wait command, over any bus whose accesses are logged, has
    one of three outcomes.  It posts a complete message: for each fragment in
    turn a buffer is taken from the queue of free ones (which read as empty
    until then), the fragment is written to that buffer, the buffer is enqueued
    for the firmware and the firmware is interrupted with the next command
    counter; these are all the accesses, the fragments make up the message, and
    nothing but the counter changes.  Or it fails with the driver state exactly
    as before and without a single write to the chip.  Or it fails with
    [CommandDeliveryUncertain], the device locked for recovery, after posting
    fewer than all fragments in the same way. *)
Theorem send_control_with_wait_outcome {W E} `{BusLaws W E} `{!DelayOps W} `{!DelayLaws W E}
    `{!BusTrace W E} (d : Device W) m attempts ms :
  bus_inv (dev_rpu d) -> fragments_ok (view d) ->
  let '(r, d') := send_control_with_wait (E:=E) m attempts ms d in
  match r with
  | Ok _ =>
      complete_message m /\ dev_recovery_required d = false
      /\ view d' = Nat.iter (fragment_count (len m) (dev_command_fragment_len d)) bump (view d)
      /\ concat (chunks (dev_command_fragment_len d) m) = m
  | Err e => refused e (view d) (view d')
             /\ (dev_recovery_required d' = true
                 <-> dev_recovery_required d = true
                     \/ e = DeviceError.CommandDeliveryUncertain)
  | Panic => False
  end
  /\ exists t, trace (dev_rpu d') = trace (dev_rpu d) ++ t /\ command_logged (view d) (view d') m r t.
Proof.
  intros Hb Hf. pose proof (dsafe_send_with_wait (E:=E) (view d) m attempts ms Hf d (conj Hb eq_refl)) as Hx.
  pose proof (device_runs_send_with_wait (E:=E) (view d) m attempts ms d eq_refl) as Hl.
  destruct (send_control_with_wait m attempts ms d) as [[u|e|] d']; [| |done].
  - destruct Hl as (t & Ht & Hq). split; [|by exists t].
    destruct Hx as (_ & ? & ? & ?). split_and!; [done..|]. apply concat_chunks.
    destruct Hf as [Hf _]. cbn in Hf. lia.
  - destruct Hl as (t & Ht & Hq). destruct Hx as [_ Hr]. split.
    + split; [done|].
      assert (dev_recovery_required d' = dev_recovery_required (view d')) as -> by done.
      destruct Hr as [[He ->]|[-> [k ->]]]; [|by split; [right|]].
      split; [by left|]. by intros [?|?].
    + exists t. split; [done|]. destruct Hq as [(He & _ & Hq)|[-> Hq]]; [by destruct e|exact Hq].
Qed.

Example send_control_with_wait_outcome_witness :
  let d := logged_device three_buffers in
  let '(r, d') := send_control_with_wait (E:=unit) long_message 5 1 d in
  match r with
  | Ok _ =>
      complete_message long_message /\ dev_recovery_required d = false
      /\ view d' = Nat.iter (fragment_count 900 400) bump (view d)
      /\ concat (chunks 400 long_message) = long_message
  | Err e => refused e (view d) (view d')
             /\ (dev_recovery_required d' = true
                 <-> dev_recovery_required d = true
                     \/ e = DeviceError.CommandDeliveryUncertain)
  | Panic => False
  end
  /\ exists t, trace (E:=unit) (dev_rpu d') = trace (E:=unit) (dev_rpu d) ++ t
               /\ command_logged (view d) (view d') long_message r t.
Proof.
  apply (send_control_with_wait_outcome (E:=unit)
           (logged_device three_buffers) long_message 5 1).
  - apply replies_okb_ok. by vm_compute.
  - split; split; by vm_compute.
Defined.

(** The run of the witness: it succeeds, with 16 accesses. *)
Example sample_command_accesses :
  let '(r, d') := send_control_with_wait (E:=unit) long_message 5 1
                    (logged_device three_buffers) in
  r = Ok tt /\ length (trace (E:=unit) (dev_rpu d')) = 16%nat.
Proof. by vm_compute. Qed.

(** a single-buffer command is posted exactly once, or leaves the driver
    state exactly as it was, or locks the device for recovery. *)
Theorem send_control_outcome {W E} `{BusLaws W E} `{!DelayOps W} `{!DelayLaws W E}
    (d : Device W) m :
  bus_inv (dev_rpu d) ->
  match send_control (E:=E) m d with
  | (Ok _, d') =>
      complete_message m /\ len m <= dev_command_fragment_len d
      /\ dev_recovery_required d = false /\ view d' = bump (view d)
  | (Err e, d') => refused e (view d) (view d')
  | (Panic, _) => False
  end.
Proof.
  intros Hb. pose proof (dsafe_send_control (E:=E) (view d) m d (conj Hb eq_refl)) as Hx.
  destruct (send_control m d) as [[u|e|] d']; [apply Hx..|done].
Qed.

Example send_control_outcome_witness :
  match send_control (E:=unit) sample_message (ready_device [None]) with
  | (Ok _, d') =>
      complete_message sample_message /\ 12 <= 400
      /\ dev_recovery_required (ready_device [None]) = false
      /\ view d' = bump (view (ready_device []))
  | (Err e, d') => refused e (view (ready_device [])) (view d')
  | (Panic, _) => False
  end.
Proof.
  apply (send_control_outcome (E:=unit) (ready_device [None]) sample_message).
  apply replies_okb_ok. by vm_compute.
Defined.

(** queue initialization makes the device operational only with a
    well-formed queue map and a plausible RX command base, starting the command
    counter afresh with no pending event; on any failure the driver state is
    unchanged. *)
Theorem initialize_queues_outcome {W E} `{BusLaws W E} `{!DelayOps W} `{!DelayLaws W E}
    (d : Device W) :
  bus_inv (dev_rpu d) ->
  match initialize_queues (E:=E) d with
  | (Ok q, d') =>
      queue_map_is_valid q = true
      /\ exists rx, rx <> 0 /\ rx <> 0xaaaaaaaa
                    /\ view d' = set_queue_state (Some q) rx RPU_MEM_TX_CMD_BASE (view d)
  | (Err _, d') => view d' = view d
  | (Panic, _) => False
  end.
Proof.
  intros Hb. pose proof (dsafe_initialize (E:=E) (view d) d (conj Hb eq_refl)) as Hx.
  destruct (initialize_queues d) as [[q|e|] d']; [apply Hx..|done].
Qed.

Example initialize_queues_outcome_witness :
  match initialize_queues (E:=unit)
          (Device_new (mkScript [Some (hpqm_bytes sample_map); Some (to_le 4 0xb7002000)] [])) with
  | (Ok q, d') =>
      queue_map_is_valid q = true
      /\ exists rx, rx <> 0 /\ rx <> 0xaaaaaaaa
                    /\ view d' = set_queue_state (Some q) rx RPU_MEM_TX_CMD_BASE
                                   (view (Device_new tt))
  | (Err _, d') => view d' = view (Device_new tt)
  | (Panic, _) => False
  end.
Proof.
  apply (initialize_queues_outcome (E:=unit)
           (Device_new (mkScript [Some (hpqm_bytes sample_map); Some (to_le 4 0xb7002000)] []))).
  apply replies_okb_ok. by vm_compute.
Defined.

(** C33: reading events never panics and never writes outside the caller's
    buffer, whatever lengths the firmware declares: only the pending event
    changes, the invariant of a partly assembled event is kept, and a message
    that is returned lies inside the buffer. *)
Theorem try_read_event_safe {W E} `{BusLaws W E} `{!DelayOps W} `{!DelayLaws W E}
    (d : Device W) scratch ptr :
  bus_inv (dev_rpu d) -> dev_wf (view d) -> bytes_ok scratch ->
  let '(r, (d', scratch')) := try_read_event (E:=E) ptr (d, scratch) in
  r <> Panic /\ bus_inv (dev_rpu d') /\ dev_wf (view d') /\ pends (view d) (view d')
  /\ len scratch' = len scratch /\ bytes_ok scratch'
  /\ forall m, r = Ok (Some m) -> message_ok (len scratch) m.
Proof.
  intros Hb Hwf Hs. pose proof (ssafe_try_read (E:=E) (view d) (len scratch) ptr Hwf (d, scratch)
    (conj (conj Hb eq_refl) (conj eq_refl Hs))) as Hx.
  destruct (try_read_event ptr (d, scratch)) as [[r|e|] [d' s']]; cbn in Hx; [..|done].
  - destruct Hx as [[Hb' [Hp Hm]] [Hl Hok]]. split_and!; try done.
    + by eapply pends_wf.
    + intros m [= ->]. by apply Hm.
  - destruct Hx as [[Hb' Hp] [Hl Hok]]. split_and!; try done. by eapply pends_wf.
Qed.

Definition sample_event : list Z := to_le 4 12 ++ zeros 4 ++ to_le 4 2.

Example try_read_event_safe_witness :
  let d := ready_device [Some (to_le 4 0xb0001000); Some sample_event; Some sample_event] in
  let '(r, (d', scratch')) := try_read_event (E:=unit) 0 (d, zeros 64) in
  r <> Panic /\ bus_inv (dev_rpu d') /\ dev_wf (view d') /\ pends (view d) (view d')
  /\ len scratch' = len (zeros 64) /\ bytes_ok scratch'
  /\ forall m, r = Ok (Some m) -> message_ok (len (zeros 64)) m.
Proof.
  apply (try_read_event_safe (E:=unit)
           (ready_device [Some (to_le 4 0xb0001000); Some sample_event; Some sample_event])).
  - apply replies_okb_ok. by vm_compute.
  - split; [split; split; by vm_compute|exact I].
  - by apply Forall_replicate.
Defined.

(** A device with 12-byte event fragments that receives one 36-byte event in
    three fragments, and a bus error on the queue poll after the second. *)
Definition fragment_run : Device script :=
  snd (set_fragment_limits 400 12
         (ready_device
            [Some (to_le 4 0xb0001000); Some (to_le 4 36 ++ zeros 4 ++ to_le 4 2);
             Some (to_le 4 36 ++ zeros 4 ++ to_le 4 2);
             Some (to_le 4 0xb0002000); Some (replicate 12 1); None;
             Some (to_le 4 0xb0003000); Some (replicate 12 2)])).

(** a bus error between two fragments leaves the driver's copy of the
    pending event behind: the next call stores the following fragment over the
    previous one, and the event can no longer be completed although all its
    fragments were taken from the queue.  The error is reported as [Rpu], the
    error documented for a failure before ownership changed, and the device
    does not ask for recovery. *)
Theorem drain_error_misplaces_fragment :
  let '(r1, s1) := try_read_event (E:=unit) 0 (fragment_run, zeros 36) in
  let '(r2, s2) := try_read_event (E:=unit) 0 s1 in
  let '(r3, (d3, scratch)) := try_read_event (E:=unit) 0 s2 in
  r1 = Ok None /\ r2 = Err (DeviceError.Rpu (RpuError.Bus tt)) /\ r3 = Ok None
  /\ scratch = to_le 4 36 ++ zeros 4 ++ to_le 4 2 ++ replicate 12 2 ++ zeros 12
  /\ dev_pending_event d3 = Some (mkPendingEvent 36 24 false 0 false)
  /\ dev_recovery_required d3 = false.
Proof. vm_compute. by split_and!. Qed.
