(* ===== verification/Data.v ===== *)
(** * Data: packet RAM, descriptors and frames (src/src/data.rs)

    The packet-RAM layout, the ownership of TX tokens and RX descriptors, the
    data-event parsers and the conversion of received 802.11 frames to
    Ethernet.  The const generics of [DataPath<RX, TX>] are the parameters [RX]
    and [TX].  An operation that uses the device runs on the pair of the data
    path and the device; a caller's frame buffer is the last component. *)

From S2P Require Import Prelude Codec Protocol Bus Memory Trace Device.

Definition RPU_MEM_PACKET_BASE : Z := 0xb0005000.
Definition RPU_MEM_PACKET_END : Z := 0xb0030fff.
Definition RPU_PACKET_RAM_SIZE : Z := 180224.
Definition RX_BUFFER_HEADROOM : Z := 4.
Definition TX_BUFFER_HEADROOM : Z := 52.
Definition RX_COMMAND_SLOT_SIZE : Z := 8.
Definition TX_COMMAND_SLOT_SIZE : Z := 148.
Definition MAX_TX_TOKENS : Z := (RPU_MEM_PACKET_BASE - RPU_MEM_TX_CMD_BASE) / TX_COMMAND_SLOT_SIZE.
Definition ETHERNET_HEADER_LEN : Z := 14.
Definition RX_EVENT_FIXED_LEN : Z := 20.
Definition RX_INFO_LEN : Z := 17.
Definition TX_DONE_FIXED_LEN : Z := 22.
Definition TX_COMMAND_PAYLOAD_LEN : Z := 47.
Definition TX_COMMAND_TOTAL_LEN : Z := HOST_MESSAGE_HEADER_LEN + TX_COMMAND_PAYLOAD_LEN.

Module DataLayoutError.
Inductive t : Type := InvalidCapacity | PacketRamExhausted.
#[global] Instance eq_dec : EqDecision t.
Proof. solve_decision. Defined.
End DataLayoutError.

Module DataProtocolError.
Inductive t : Type :=
  | WrongMessageType
  | InvalidLength
  | InvalidCommand (command : Z)
  | InvalidDescriptor (descriptor : Z)
  | InvalidPacketIndex
  | InvalidRxPayloadType (value : Z)
  | FrameTooShort
  | FrameTooLarge.
#[global] Instance eq_dec : EqDecision t.
Proof. solve_decision. Defined.
End DataProtocolError.

Module DataError.
Inductive t (E : Type) : Type :=
  | Device (e : DeviceError.t E)
  | Rpu (e : RpuError.t E)
  | Protocol (e : DataProtocolError.t)
  | QueueOwnershipUncertain (e : DeviceError.t E)
  | NoTransmitToken
  | ReceiveDescriptorBusy (descriptor : Z)
  | OutputTooSmall (needed capacity : Z).
Arguments Device {E} e.
Arguments Rpu {E} e.
Arguments Protocol {E} e.
Arguments QueueOwnershipUncertain {E} e.
Arguments NoTransmitToken {E}.
Arguments ReceiveDescriptorBusy {E} descriptor.
Arguments OutputTooSmall {E} needed capacity.
End DataError.

Module RxPayloadType.
Inductive t : Type := Mpdu | MsduWithMac | Msdu.
Definition from_u8 (value : Z) : res DataProtocolError.t t :=
  if value =? 0 then Ok Mpdu
  else if value =? 1 then Ok MsduWithMac
  else if value =? 2 then Ok Msdu
  else Err (DataProtocolError.InvalidRxPayloadType value).
End RxPayloadType.

(** ** Events *)

Definition read_i16 {E} (bytes : list Z) (offset : Z) : res E Z :=
  b0 ← index bytes offset;
  b1 ← index bytes (offset + 1);
  Ok (signed 16 (from_le [b0; b1])).

(** [payload.len() < minimum_len] and the later checks, on the declared length. *)
Definition validated_data_payload (message : HostMessageRef) (expected_command : DataCommand.t)
    (minimum_len : Z) : res DataProtocolError.t (list Z * Z) :=
  if negb (bool_decide (message_type message = HostMessageType.Data))
  then Err DataProtocolError.WrongMessageType
  else
    let payload := payload message in
    if len payload <? minimum_len then Err DataProtocolError.InvalidLength
    else
      command ← Codec.read_u32 payload 0;
      if negb (command =? DataCommand.to_u32 expected_command)
      then Err (DataProtocolError.InvalidCommand command)
      else
        declared ← Codec.read_u32 payload 4;
        if (declared <? minimum_len) || (len payload <? declared)
        then Err DataProtocolError.InvalidLength
        else Ok (payload, declared).

Definition validate_rx_packet_array (declared packet_count : Z) : res DataProtocolError.t unit :=
  packet_bytes ← ok_or (checked_mul packet_count RX_INFO_LEN) DataProtocolError.InvalidLength;
  required ← ok_or (checked_add RX_EVENT_FIXED_LEN packet_bytes) DataProtocolError.InvalidLength;
  if declared <? required then Err DataProtocolError.InvalidLength else Ok tt.

Record RxPacketInfo : Type := mkRxPacketInfo {
  rp_descriptor_id : Z;
  rp_packet_len : Z;
  rp_payload_type : RxPayloadType.t }.

Record RxEventRef : Type := mkRxEventRef {
  rx_payload : list Z;
  rx_packet_type : Z;
  rx_rate_flags : Z;
  rx_rate : Z;
  rx_wdev_id : Z;
  rx_packet_count : Z;
  rx_mac_header_len : Z;
  rx_frequency_mhz : Z;
  rx_signal_dbm : Z }.

Definition RxEventRef_parse (message : HostMessageRef) : res DataProtocolError.t RxEventRef :=
  '(payload, declared) ←
    validated_data_payload message DataCommand.ReceiveBuffer RX_EVENT_FIXED_LEN;
  packet_count ← index payload 13;
  validate_rx_packet_array declared packet_count;;
  body ← subslice payload 0 declared;
  rx_packet_type ← read_i16 payload 8;
  rate_flags ← index payload 10;
  rate ← index payload 11;
  wdev_id ← index payload 12;
  mac_header_len ← index payload 15;
  frequency_mhz ← Codec.read_u16 payload 16;
  signal_dbm ← read_i16 payload 18;
  Ok (mkRxEventRef body rx_packet_type rate_flags rate wdev_id packet_count mac_header_len
        frequency_mhz signal_dbm).

Definition RxEventRef_packet (event : RxEventRef) (i : Z) : res DataProtocolError.t RxPacketInfo :=
  if rx_packet_count event <=? i then Err DataProtocolError.InvalidPacketIndex
  else
    let offset := RX_EVENT_FIXED_LEN + i * RX_INFO_LEN in
    descriptor_id ← Codec.read_u16 (rx_payload event) offset;
    packet_len ← Codec.read_u16 (rx_payload event) (offset + 2);
    t ← index (rx_payload event) (offset + 4);
    payload_type ← RxPayloadType.from_u8 t;
    Ok (mkRxPacketInfo descriptor_id packet_len payload_type).

Record TxDoneEventRef : Type := mkTxDoneEventRef { td_token : Z; td_statuses : list Z }.

Definition TxDoneEventRef_parse (message : HostMessageRef)
    : res DataProtocolError.t TxDoneEventRef :=
  '(payload, declared) ←
    validated_data_payload message DataCommand.TransmitDone TX_DONE_FIXED_LEN;
  status_count ← index payload 9;
  required ← ok_or (checked_add TX_DONE_FIXED_LEN status_count) DataProtocolError.InvalidLength;
  if negb (declared =? required) then Err DataProtocolError.InvalidLength
  else
    token ← index payload 8;
    statuses ← subslice payload TX_DONE_FIXED_LEN required;
    Ok (mkTxDoneEventRef token statuses).

Definition all_succeeded (event : TxDoneEventRef) : bool :=
  negb (len (td_statuses event) =? 0) && forallb (fun status => status =? 0) (td_statuses event).

Module DataEvent.
Inductive t : Type :=
  | TransmitDone (token status_count : Z)
  | CarrierOn (wdev_id : Z)
  | CarrierOff (wdev_id : Z)
  | Receive
  | Other (command : Z).
#[global] Instance eq_dec : EqDecision t.
Proof. solve_decision. Defined.
End DataEvent.

Definition classify_transmit_done (message : HostMessageRef)
    : res DataProtocolError.t DataEvent.t :=
  event ← TxDoneEventRef_parse message;
  Ok (DataEvent.TransmitDone (td_token event) (u8 (len (td_statuses event)))).

Definition classify_carrier (payload : list Z) (declared : Z) (on : bool)
    : res DataProtocolError.t DataEvent.t :=
  if declared <? 12 then Err DataProtocolError.InvalidLength
  else
    wdev_id ← Codec.read_u32 payload 8;
    Ok (if on then DataEvent.CarrierOn wdev_id else DataEvent.CarrierOff wdev_id).

Definition classify_data_command (message : HostMessageRef) (command declared : Z)
    : res DataProtocolError.t DataEvent.t :=
  if command =? 2 then classify_transmit_done message
  else if command =? 3 then Ok DataEvent.Receive
  else if command =? 4 then classify_carrier (payload message) declared true
  else if command =? 5 then classify_carrier (payload message) declared false
  else Ok (DataEvent.Other command).

Definition classify_data_event (message : HostMessageRef)
    : res DataProtocolError.t DataEvent.t :=
  if negb (bool_decide (message_type message = HostMessageType.Data))
  then Err DataProtocolError.WrongMessageType
  else if len (payload message) <? 8 then Err DataProtocolError.InvalidLength
  else
    command ← Codec.read_u32 (payload message) 0;
    declared ← Codec.read_u32 (payload message) 4;
    if (declared <? 8) || (len (payload message) <? declared)
    then Err DataProtocolError.InvalidLength
    else classify_data_command message command declared.

(** ** Ethernet conversion

    The state is the frame, which is converted in place. *)

Definition llc_skip (ether_type : Z) : Z := if 0x0600 <=? ether_type then 8 else 2.

Definition llc_ether_type (frame : list Z) (offset : Z) : res DataProtocolError.t Z :=
  end_ ← ok_or (checked_add offset 8) DataProtocolError.InvalidLength;
  if len frame <? end_ then Err DataProtocolError.FrameTooShort
  else
    b0 ← index frame (offset + 6);
    b1 ← index frame (offset + 7);
    Ok (from_be [b0; b1]).

Definition three_address_mapping (address1 address2 address3 : list Z) (to_ds from_ds : bool)
    : list Z * list Z :=
  if to_ds then (address3, address2)
  else if from_ds then (address1, address3)
  else (address1, address2).

Definition four_address_mapping (frame destination : list Z)
    : res DataProtocolError.t (list Z * list Z) :=
  if len frame <? 30 then Err DataProtocolError.FrameTooShort
  else
    source ← subslice frame 24 30;
    Ok (destination, source).

Definition ieee80211_addresses (frame : list Z) (frame_control : Z)
    : res DataProtocolError.t (list Z * list Z) :=
  if len frame <? 24 then Err DataProtocolError.FrameTooShort
  else
    address1 ← subslice frame 4 10;
    address2 ← subslice frame 10 16;
    address3 ← subslice frame 16 22;
    let to_ds := has frame_control 0x0100 in
    let from_ds := has frame_control 0x0200 in
    if to_ds && from_ds then four_address_mapping frame address3
    else Ok (three_address_mapping address1 address2 address3 to_ds from_ds).

Definition rebuild_ethernet (payload_offset : Z) (destination source : list Z) (ether_type : Z)
    : M (list Z) DataProtocolError.t Z :=
  frame ← get;
  if len frame <? payload_offset then throw DataProtocolError.FrameTooShort
  else
    let payload_len := len frame - payload_offset in
    new_len ← lift (ok_or (checked_add ETHERNET_HEADER_LEN payload_len)
                      DataProtocolError.InvalidLength);
    if len frame <? new_len then throw DataProtocolError.FrameTooLarge
    else
      modify (fun frame => splice frame ETHERNET_HEADER_LEN (drop (Z.to_nat payload_offset) frame));;
      modify (fun frame => splice frame 0 destination);;
      modify (fun frame => splice frame 6 source);;
      modify (fun frame => splice frame 12 (to_be 2 ether_type));;
      mret new_len.

Definition convert_mpdu (mac_header_len : Z) : M (list Z) DataProtocolError.t Z :=
  if mac_header_len <? 24 then throw DataProtocolError.FrameTooShort
  else
    frame ← get;
    fc ← lift (Codec.read_u16 frame 0);
    '(destination, source) ← lift (ieee80211_addresses frame fc);
    ether_type ← lift (llc_ether_type frame mac_header_len);
    let skip := llc_skip ether_type in
    payload_offset ← lift (ok_or (checked_add mac_header_len skip) DataProtocolError.InvalidLength);
    rebuild_ethernet payload_offset destination source ether_type.

Definition convert_msdu (mac_header_len : Z) : M (list Z) DataProtocolError.t Z :=
  let amsdu := mac_header_len in
  frame ← get;
  header_end ← lift (ok_or (checked_add amsdu 14) DataProtocolError.InvalidLength);
  if len frame <? header_end then throw DataProtocolError.FrameTooShort
  else
    destination ← lift (subslice frame amsdu (amsdu + 6));
    source ← lift (subslice frame (amsdu + 6) (amsdu + 12));
    let llc := header_end in
    ether_type ← lift (llc_ether_type frame llc);
    payload_offset ← lift (ok_or (checked_add llc (llc_skip ether_type))
                             DataProtocolError.InvalidLength);
    rebuild_ethernet payload_offset destination source ether_type.

Definition convert_to_ethernet (payload_type : RxPayloadType.t) (mac_header_len : Z)
    : M (list Z) DataProtocolError.t Z :=
  match payload_type with
  | RxPayloadType.Mpdu => convert_mpdu mac_header_len
  | RxPayloadType.MsduWithMac => convert_msdu mac_header_len
  | RxPayloadType.Msdu => convert_msdu 0
  end.

(** [put_u16], [put_u32] and [put_i32] at an offset of the local array. *)
Definition put (n : nat) (offset value : Z) (bytes : list Z) : list Z :=
  splice bytes offset (to_le n value).

(** The offsets of [payload] are those of [out] plus the 12-byte header. *)
Definition encode_tx_command {E} (wdev_id token : Z) (frame : list Z) (dscp_tos dma_pointer : Z)
    : res E (list Z) :=
  let p := HOST_MESSAGE_HEADER_LEN in
  let out := zeros TX_COMMAND_TOTAL_LEN in
  let out := put 4 0 TX_COMMAND_TOTAL_LEN out in
  let out := put 4 4 0 out in
  let out := put 4 8 (HostMessageType.to_i32 HostMessageType.Data) out in
  let out := put 4 (p + 0) (DataCommand.to_u32 DataCommand.TransmitBuffer) out in
  let out := put 4 (p + 4) TX_COMMAND_PAYLOAD_LEN out in
  let out := splice out (p + 8) [wdev_id] in
  let out := splice out (p + 9) [token] in
  let out := put 4 (p + 10) 0 out in
  let out := put 2 (p + 14) 0 out in
  destination ← subslice frame 0 6;
  let out := splice out (p + 16) destination in
  source ← subslice frame 6 12;
  let out := splice out (p + 22) source in
  b12 ← index frame 12;
  b13 ← index frame 13;
  let ether_type := from_be [b12; b13] in
  let out := put 2 (p + 28) ether_type out in
  let out := put 4 (p + 30) dscp_tos out in
  let out := splice out (p + 34) [0] in
  let out := splice out (p + 35) [0] in
  let out := put 4 (p + 36) 0 out in
  let out := splice out (p + 40) [1] in
  let out := put 2 (p + 41) (u16 (len frame)) out in
  let out := put 4 (p + 43) dma_pointer out in
  Ok out.

(** ** The data path *)

Definition data_align4 (value : Z) : Z := Z.ldiff (value + 3) 3.

Definition validate_descriptor_counts (RX TX : Z) : res DataLayoutError.t unit :=
  if (RX =? 0) || (TX =? 0) then Err DataLayoutError.InvalidCapacity
  else if (65535 <? RX) || (MAX_TX_TOKENS <? TX) then Err DataLayoutError.InvalidCapacity
  else Ok tt.

Definition validate_buffer_sizes (rx_buffer_size tx_buffer_size : Z)
    : res DataLayoutError.t unit :=
  if (rx_buffer_size =? 0) || (tx_buffer_size <? ETHERNET_HEADER_LEN)
  then Err DataLayoutError.InvalidCapacity
  else if (65535 <? rx_buffer_size) || (65535 <? tx_buffer_size)
  then Err DataLayoutError.InvalidCapacity
  else Ok tt.

Definition validate_layout_capacity (RX TX rx_buffer_size tx_buffer_size : Z)
    : res DataLayoutError.t unit :=
  validate_descriptor_counts RX TX;;
  validate_buffer_sizes rx_buffer_size tx_buffer_size.

Definition layout_strides (rx_buffer_size tx_buffer_size : Z)
    : res DataLayoutError.t (Z * Z) :=
  rx_with_headroom ← ok_or (checked_add rx_buffer_size RX_BUFFER_HEADROOM)
                       DataLayoutError.InvalidCapacity;
  tx_with_headroom ← ok_or (checked_add tx_buffer_size TX_BUFFER_HEADROOM)
                       DataLayoutError.InvalidCapacity;
  Ok (data_align4 rx_with_headroom, data_align4 tx_with_headroom).

Definition validated_layout_bytes (RX TX rx_stride tx_stride : Z) : res DataLayoutError.t Z :=
  rx_bytes ← ok_or (checked_mul rx_stride RX) DataLayoutError.PacketRamExhausted;
  tx_bytes ← ok_or (checked_mul tx_stride TX) DataLayoutError.PacketRamExhausted;
  total ← ok_or (checked_add rx_bytes tx_bytes) DataLayoutError.PacketRamExhausted;
  if RPU_PACKET_RAM_SIZE <? total then Err DataLayoutError.PacketRamExhausted
  else Ok rx_bytes.

Record DataPath : Type := mkDataPath {
  dp_rx_buffer_size : Z;
  dp_tx_buffer_size : Z;
  dp_rx_stride : Z;
  dp_tx_stride : Z;
  dp_rx_base : Z;
  dp_tx_in_flight : list bool;
  dp_rx_posted : list bool;
  dp_next_tx : Z }.

Record ReceivedFrame : Type := mkReceivedFrame {
  rf_len : Z;
  rf_ether_type : Z;
  rf_descriptor_id : Z;
  rf_signal_dbm : Z;
  rf_frequency_mhz : Z }.

Definition set_tx_in_flight (flags : list bool) (p : DataPath) : DataPath :=
  mkDataPath (dp_rx_buffer_size p) (dp_tx_buffer_size p) (dp_rx_stride p) (dp_tx_stride p)
    (dp_rx_base p) flags (dp_rx_posted p) (dp_next_tx p).
Definition set_rx_posted (flags : list bool) (p : DataPath) : DataPath :=
  mkDataPath (dp_rx_buffer_size p) (dp_tx_buffer_size p) (dp_rx_stride p) (dp_tx_stride p)
    (dp_rx_base p) (dp_tx_in_flight p) flags (dp_next_tx p).
Definition set_next_tx (n : Z) (p : DataPath) : DataPath :=
  mkDataPath (dp_rx_buffer_size p) (dp_tx_buffer_size p) (dp_rx_stride p) (dp_tx_stride p)
    (dp_rx_base p) (dp_tx_in_flight p) (dp_rx_posted p) n.

(** [flags[i] = b]; the callers have read [flags[i]] before. *)
Definition set_flag (flags : list bool) (i : Z) (b : bool) : list bool := <[Z.to_nat i := b]> flags.

Section data_path.
Variables RX TX : Z.

Definition DataPath_new (rx_buffer_size tx_buffer_size : Z) : res DataLayoutError.t DataPath :=
  validate_layout_capacity RX TX rx_buffer_size tx_buffer_size;;
  '(rx_stride, tx_stride) ← layout_strides rx_buffer_size tx_buffer_size;
  rx_bytes ← validated_layout_bytes RX TX rx_stride tx_stride;
  let rx_base := u32 (u32 (RPU_MEM_PACKET_END + 1) - u32 rx_bytes) in
  Ok (mkDataPath rx_buffer_size tx_buffer_size rx_stride tx_stride rx_base
        (replicate (Z.to_nat TX) false) (replicate (Z.to_nat RX) false) 0).

(** [(descriptor < RX).then_some(..)] *)
Definition rx_slot_address (p : DataPath) (descriptor : Z) : option Z :=
  if descriptor <? RX
  then Some (u32 (dp_rx_base p + u32 (u32 descriptor * u32 (dp_rx_stride p))))
  else None.
Definition tx_slot_address (p : DataPath) (token : Z) : option Z :=
  if token <? TX
  then Some (u32 (RPU_MEM_PACKET_BASE + u32 (u32 token * u32 (dp_tx_stride p))))
  else None.

Definition reset_after_rpu_reset (p : DataPath) : DataPath :=
  set_next_tx 0
    (set_rx_posted (replicate (Z.to_nat RX) false)
       (set_tx_in_flight (replicate (Z.to_nat TX) false) p)).

Definition complete_tx (token : Z) : M DataPath DataProtocolError.t unit :=
  p ← get;
  let index := token in
  if TX <=? index then throw (DataProtocolError.InvalidDescriptor token)
  else
    b ← lift (expect (nthZ (dp_tx_in_flight p) index));
    if negb b then throw (DataProtocolError.InvalidDescriptor token)
    else modify (fun p => set_tx_in_flight (set_flag (dp_tx_in_flight p) index false) p).

(** [for offset in 0..TX], with [offsets] the offsets still to try.  [% TX]
    with [TX = 0] is not reached, as in the code. *)
Fixpoint reserve_loop {E} (offsets : list Z) : M DataPath E (option Z) :=
  match offsets with
  | [] => mret None
  | offset :: offsets =>
      p ← get;
      let index := (dp_next_tx p + offset) mod TX in
      b ← lift (expect (nthZ (dp_tx_in_flight p) index));
      if negb b then
        modify (fun p => set_tx_in_flight (set_flag (dp_tx_in_flight p) index true) p);;
        modify (set_next_tx ((index + 1) mod TX));;
        mret (Some (u8 index))
      else reserve_loop offsets
  end.

Definition reserve_tx {E} : M DataPath E (option Z) :=
  reserve_loop (map Z.of_nat (seq 0 (Z.to_nat TX))).

Definition available_rx_index {E} (descriptor : Z) : M DataPath (DataError.t E) Z :=
  p ← get;
  let index := descriptor in
  if RX <=? index then throw (DataError.Protocol (DataProtocolError.InvalidDescriptor descriptor))
  else
    b ← lift (expect (nthZ (dp_rx_posted p) index));
    if b : bool then throw (DataError.ReceiveDescriptorBusy descriptor) else mret index.

Definition take_rx_descriptor {E} (event : RxEventRef) (packet_index : Z)
    : M DataPath (DataError.t E) (RxPacketInfo * Z * Z) :=
  info ← lift (map_err DataError.Protocol (RxEventRef_packet event packet_index));
  let descriptor := rp_descriptor_id info in
  p ← get;
  (** [descriptor >= RX || !self.rx_posted[descriptor]] *)
  posted ← (if RX <=? descriptor then mret false
            else lift (expect (nthZ (dp_rx_posted p) descriptor)));
  if negb posted
  then throw (DataError.Protocol (DataProtocolError.InvalidDescriptor (rp_descriptor_id info)))
  else
    modify (fun p => set_rx_posted (set_flag (dp_rx_posted p) descriptor false) p);;
    mret (info, descriptor, rp_packet_len info).

(** *** Device operations *)

Section device.
Context {W E : Type} `{BusOps W E} `{DelayOps W}.
Local Notation "'MP' A" := (M (DataPath * Device W) (DataError.t E) A)
  (at level 10, A at next level).
Local Notation "'MPB' A" := (M ((DataPath * Device W) * list Z) (DataError.t E) A)
  (at level 10, A at next level).

Definition on_path {F A} (m : M DataPath F A) : M (DataPath * Device W) F A :=
  zoom fst (fun p pd => (p, pd.2)) m.
Definition on_device {F A} (m : M (Device W) F A) : M (DataPath * Device W) F A :=
  zoom snd (fun d pd => (pd.1, d)) m.
(** [device.rpu_mut().m(..)] *)
Definition on_rpu {F A} (m : M W F A) : M (DataPath * Device W) F A :=
  on_device (zoom dev_rpu set_rpu m).

Definition validate_transmit_frame (frame : list Z) (capacity : Z) : res (DataError.t E) unit :=
  if len frame <? ETHERNET_HEADER_LEN
  then Err (DataError.Protocol DataProtocolError.FrameTooShort)
  else if (capacity <? len frame) || (65535 <? len frame)
  then Err (DataError.Protocol DataProtocolError.FrameTooLarge)
  else Ok tt.

Definition transmit_queue_context : MP (Z * Hpq) :=
  d ← gets snd;
  command_base ← lift (ok_or (tx_command_base d) (DataError.Device DeviceError.NotInitialized));
  queues ← lift (ok_or (dev_queues d) (DataError.Device DeviceError.NotInitialized));
  mret (command_base, command_busy queues).

Definition deliver_transmit_command (command_queue : Hpq) (command_address : Z) : MP unit :=
  mapM_err DataError.QueueOwnershipUncertain (on_device (enqueue command_queue command_address));;
  mapM_err DataError.QueueOwnershipUncertain (on_device trigger_command).

Definition write_packet (address : Z) (frame : list Z) : MP unit :=
  let aligned := Z.ldiff (len frame) 3 in
  (if negb (aligned =? 0)
   then
     head ← lift (expect (slice frame 0 aligned));
     mapM_err DataError.Rpu (on_rpu (Memory.write Processor.Umac address head))
   else mret tt);;
  if negb (aligned =? len frame)
  then
    rest ← lift (expect (slice frame aligned (len frame)));
    let tail := splice (zeros 4) 0 rest in
    mapM_err DataError.Rpu
      (on_rpu (Memory.write Processor.Umac (u32 (address + u32 aligned)) tail))
  else mret tt.

(** [self.tx_in_flight[token] = false] *)
Definition release_token (token : Z) : MP unit :=
  on_path (p ← get;
           lift (expect (nthZ (dp_tx_in_flight p) token));;
           modify (set_tx_in_flight (set_flag (dp_tx_in_flight p) token false))).

Definition prepare_transmit (frame : list Z) : MP (Z * Z) :=
  p ← gets fst;
  lift (validate_transmit_frame frame (dp_tx_buffer_size p));;
  o ← on_path reserve_tx;
  token ← lift (ok_or o DataError.NoTransmitToken);
  p ← gets fst;
  packet_address ← lift (ok_or (tx_slot_address p token)
    (DataError.Protocol (DataProtocolError.InvalidDescriptor token)));
  r ← attempt (write_packet packet_address frame);
  match r with
  | inr error => release_token token;; throw error
  | inl _ => mret (token, packet_address)
  end.

Definition submit_transmit (token packet_address wdev_id : Z) (frame : list Z) (dscp_tos : Z)
    : MP unit :=
  '(command_base, command_queue) ← transmit_queue_context;
  let command_address := u32 (command_base + u32 (TX_COMMAND_SLOT_SIZE * token)) in
  command ← lift (encode_tx_command wdev_id token frame dscp_tos
                    (Z.land packet_address RPU_ADDR_MASK_OFFSET));
  r ← attempt (on_rpu (Memory.write Processor.Umac command_address command));
  match r with
  | inr error => release_token token;; throw (DataError.Rpu error)
  | inl _ => deliver_transmit_command command_queue command_address
  end.

Definition transmit (wdev_id : Z) (frame : list Z) (dscp_tos : Z) : MP Z :=
  '(token, packet_address) ← prepare_transmit frame;
  submit_transmit token packet_address wdev_id frame dscp_tos;;
  mret token.

Definition rx_queue_context (pool_id descriptor : Z) : MP (Hpq * Z) :=
  d ← gets snd;
  queues ← lift (ok_or (dev_queues d) (DataError.Device DeviceError.NotInitialized));
  queue ← lift (ok_or (nthZ (rx_buffer_busy queues) pool_id)
                  (DataError.Protocol (DataProtocolError.InvalidDescriptor descriptor)));
  command_base ← lift (ok_or (rx_command_base d) (DataError.Device DeviceError.NotInitialized));
  mret (queue, command_base).

Definition prepare_rx_descriptor (slot command_base descriptor : Z) : MP Z :=
  mapM_err DataError.Rpu (on_rpu (Memory.write_u32 Processor.Lmac slot descriptor));;
  let dma_pointer := Z.land (u32 (slot + RX_BUFFER_HEADROOM)) RPU_ADDR_MASK_OFFSET in
  let command_address := u32 (command_base + u32 (RX_COMMAND_SLOT_SIZE * descriptor)) in
  let indirect :=
    Z.lor RPU_MCU_CORE_INDIRECT_BASE (Z.land command_address RPU_ADDR_MASK_OFFSET) in
  mapM_err DataError.Rpu
    (on_rpu (Memory.write_indirect Processor.Lmac indirect (to_le 4 dma_pointer)));;
  mret command_address.

Definition post_rx (descriptor pool_id : Z) : MP unit :=
  index ← on_path (available_rx_index descriptor);
  '(queue, command_base) ← rx_queue_context pool_id descriptor;
  p ← gets fst;
  slot ← lift (ok_or (rx_slot_address p index)
                 (DataError.Protocol (DataProtocolError.InvalidDescriptor descriptor)));
  command_address ← prepare_rx_descriptor slot command_base descriptor;
  on_path (modify (fun p => set_rx_posted (set_flag (dp_rx_posted p) index true) p));;
  mapM_err DataError.QueueOwnershipUncertain (on_device (enqueue queue command_address)).

Definition post_all_rx : MP unit :=
  for_each (map Z.of_nat (seq 0 (Z.to_nat RX))) (fun descriptor =>
    p ← gets fst;
    posted ← lift (expect (nthZ (dp_rx_posted p) descriptor));
    if negb posted then post_rx (u16 descriptor) 0 else mret tt).

Definition ensure_receive_capacity (info : RxPacketInfo) (raw_len output_len : Z) : MP unit :=
  p ← gets fst;
  if dp_rx_buffer_size p <? raw_len then
    post_rx (rp_descriptor_id info) 0;;
    throw (DataError.Protocol DataProtocolError.FrameTooLarge)
  else if output_len <? raw_len then
    post_rx (rp_descriptor_id info) 0;;
    throw (DataError.OutputTooSmall raw_len output_len)
  else mret tt.

(** [device.rpu_mut().read(.., output)], with the error kept. *)
Definition rpu_read_buffer (processor : Processor.t) (address : Z)
    : M ((DataPath * Device W) * list Z) (RpuError.t E) unit := fun '((p, d), l) =>
  let '(r, (w, l')) := Memory.read processor address (dev_rpu d, l) in
  (r, ((p, set_rpu w d), l')).

Definition read_rx_or_repost (info : RxPacketInfo) (slot : Z) : MPB unit :=
  r ← attempt (rpu_read_buffer Processor.Lmac (u32 (slot + RX_BUFFER_HEADROOM)));
  match r with
  | inr error => on_fst (post_rx (rp_descriptor_id info) 0);; throw (DataError.Rpu error)
  | inl _ => mret tt
  end.

Definition received_frame (conversion : Z + DataProtocolError.t) (output : list Z)
    (info : RxPacketInfo) (event : RxEventRef) : res (DataError.t E) ReceivedFrame :=
  match conversion with
  | inr e => Err (DataError.Protocol e)
  | inl frame_len =>
      b12 ← index output 12;
      b13 ← index output 13;
      Ok (mkReceivedFrame frame_len (from_be [b12; b13]) (rp_descriptor_id info)
            (rx_signal_dbm event) (rx_frequency_mhz event))
  end.

(** A pure operation on the lent buffer. *)
Definition on_output {F A} (m : M (list Z) F A)
    : M ((DataPath * Device W) * list Z) F A := fun '(s, l) =>
  let '(r, l') := m l in (r, (s, l')).

Definition receive_packet (event : RxEventRef) (packet_index : Z) : MPB ReceivedFrame :=
  '(info, descriptor, raw_len) ← on_fst (on_path (take_rx_descriptor event packet_index));
  output_len ← gets (fun sl => len sl.2);
  on_fst (ensure_receive_capacity info raw_len output_len);;
  p ← gets (fun sl => sl.1.1);
  slot ← lift (ok_or (rx_slot_address p descriptor)
    (DataError.Protocol (DataProtocolError.InvalidDescriptor (rp_descriptor_id info))));
  on_slice 0 raw_len (read_rx_or_repost info slot);;
  conversion ← attempt (on_slice 0 raw_len
    (on_output (convert_to_ethernet (rp_payload_type info) (rx_mac_header_len event))));
  on_fst (post_rx (rp_descriptor_id info) 0);;
  output ← gets snd;
  lift (received_frame conversion output info event).
End device.
End data_path.

(** * Lemmas *)

Lemma data_align4_spec v : 0 <= v -> data_align4 v = 4 * ((v + 3) / 4).
Proof. intros. unfold data_align4. rewrite ldiff_3. Z.div_mod_to_equations; lia. Qed.

Lemma len_set_flag l i b : len (set_flag l i b) = len l.
Proof. unfold len, set_flag. by rewrite length_insert. Qed.

Lemma nthZ_set_flag l i b : 0 <= i < len l -> nthZ (set_flag l i b) i = Some b.
Proof.
  intros. unfold nthZ, set_flag. rewrite (proj2 (Z.leb_le _ _)) by lia.
  apply list_lookup_insert_eq. unfold len in *. lia.
Qed.

Lemma nthZ_set_flag_ne l i j b : 0 <= i -> i <> j -> nthZ (set_flag l i b) j = nthZ l j.
Proof.
  intros. unfold nthZ, set_flag. destruct (0 <=? j) eqn:?; [|done].
  apply list_lookup_insert_ne. lia.
Qed.

Lemma set_flag_undo l i b c : nthZ l i = Some c -> set_flag (set_flag l i b) i c = l.
Proof.
  unfold nthZ, set_flag. destruct (0 <=? i); [|done]. intros.
  by rewrite list_insert_insert_eq, list_insert_id.
Qed.

(** A flag that is read inside the array. *)
Lemma nthZ_range {A} (l : list A) i x : nthZ l i = Some x -> 0 <= i < len l.
Proof.
  intros Hx. destruct (Z_lt_le_dec i 0); [by rewrite nthZ_out in Hx by lia|].
  destruct (Z_lt_le_dec i (len l)); [lia|]. by rewrite nthZ_out in Hx by lia.
Qed.

(** ** Layout *)

(** The invariant of a data path built by [DataPath_new]: a layout that fits
    the packet RAM, and flag arrays of the const-generic sizes. *)
Record path_wf (RX TX : Z) (p : DataPath) : Prop := {
  wf_rx : 0 < RX <= 65535;
  wf_tx : 0 < TX <= 137;
  wf_rx_size : 0 < dp_rx_buffer_size p <= 65535;
  wf_tx_size : 14 <= dp_tx_buffer_size p <= 65535;
  wf_rx_stride : dp_rx_buffer_size p + 4 <= dp_rx_stride p /\ dp_rx_stride p mod 4 = 0;
  wf_tx_stride : dp_tx_buffer_size p + 52 <= dp_tx_stride p /\ dp_tx_stride p mod 4 = 0;
  wf_fits : dp_rx_stride p * RX + dp_tx_stride p * TX <= RPU_PACKET_RAM_SIZE;
  wf_base : dp_rx_base p = RPU_MEM_PACKET_END + 1 - dp_rx_stride p * RX;
  wf_in_flight : len (dp_tx_in_flight p) = TX;
  wf_posted : len (dp_rx_posted p) = RX;
  wf_next : 0 <= dp_next_tx p < TX }.

(** The sizes [DataPath::new] accepts. *)
Definition layout_accepted (RX TX rx_size tx_size : Z) : Prop :=
  0 < RX <= 65535 /\ 0 < TX <= 137 /\ 0 < rx_size <= 65535 /\ 14 <= tx_size <= 65535
  /\ 4 * ((rx_size + 7) / 4) * RX + 4 * ((tx_size + 55) / 4) * TX <= RPU_PACKET_RAM_SIZE.

Section layout.
Variables RX TX : Z.

Lemma DataPath_new_spec rx_size tx_size :
  0 <= RX -> 0 <= TX -> 0 <= rx_size -> 0 <= tx_size ->
  match DataPath_new RX TX rx_size tx_size with
  | Ok p => layout_accepted RX TX rx_size tx_size /\ path_wf RX TX p
            /\ dp_rx_buffer_size p = rx_size /\ dp_tx_buffer_size p = tx_size
            /\ dp_tx_in_flight p = replicate (Z.to_nat TX) false
            /\ dp_rx_posted p = replicate (Z.to_nat RX) false
  | Err _ => ~ layout_accepted RX TX rx_size tx_size
  | Panic => False
  end.
Proof.
  intros HRX HTX Hr Ht. unfold DataPath_new, validate_layout_capacity, validate_descriptor_counts,
    validate_buffer_sizes, layout_accepted.
  change MAX_TX_TOKENS with 137. change ETHERNET_HEADER_LEN with 14.
  destruct ((RX =? 0) || (TX =? 0)) eqn:H1; [cbn; lia|].
  destruct ((65535 <? RX) || (137 <? TX)) eqn:H2; [cbn; lia|].
  destruct ((rx_size =? 0) || (tx_size <? 14)) eqn:H3; [cbn; lia|].
  destruct ((65535 <? rx_size) || (65535 <? tx_size)) eqn:H4; [cbn; lia|].
  apply orb_false_iff in H1 as [], H2 as [], H3 as [], H4 as []. cbn [mbind res_bind].
  unfold layout_strides, checked_add, RX_BUFFER_HEADROOM, TX_BUFFER_HEADROOM, USIZE_MAX.
  rewrite !(proj2 (Z.leb_le _ _)) by lia. cbn [ok_or mbind res_bind].
  rewrite !data_align4_spec by lia.
  replace (rx_size + 4 + 3) with (rx_size + 7) by lia.
  replace (tx_size + 52 + 3) with (tx_size + 55) by lia.
  set (rs := 4 * ((rx_size + 7) / 4)). set (ts := 4 * ((tx_size + 55) / 4)).
  assert (rx_size + 4 <= rs <= 65542 /\ rs mod 4 = 0) as [Hrs Hrs4]
    by (unfold rs; Z.div_mod_to_equations; lia).
  assert (tx_size + 52 <= ts <= 65590 /\ ts mod 4 = 0) as [Hts Hts4]
    by (unfold ts; Z.div_mod_to_equations; lia).
  assert (0 <= rs * RX /\ 0 <= ts * TX <= 65590 * 137) as [Hrb Htb] by nia.
  unfold validated_layout_bytes, checked_mul, checked_add, USIZE_MAX, RPU_PACKET_RAM_SIZE in *.
  destruct (rs * RX <=? _) eqn:E1; cbn [ok_or mbind res_bind]; [|lia].
  rewrite (proj2 (Z.leb_le (ts * TX) _)) by lia. cbn [ok_or mbind res_bind].
  destruct (rs * RX + ts * TX <=? _) eqn:E2; cbn [ok_or mbind res_bind]; [|lia].
  destruct (180224 <? rs * RX + ts * TX) eqn:E3; cbn [mbind res_bind]; [lia|].
  split; [lia|]. split; [|done].
  constructor; cbn; unfold RPU_PACKET_RAM_SIZE in *; rewrite ?len_replicate; try lia.
  unfold u32, RPU_MEM_PACKET_END. rewrite (Z.mod_small (rs * RX)) by lia.
  change ((2952990719 + 1) mod 2 ^ 32) with 2952990720. rewrite Z.mod_small by lia. lia.
Qed.

(** The slot of a valid token: the address arithmetic does not wrap. *)
Lemma tx_slot_spec p token : path_wf RX TX p -> 0 <= token < TX ->
  tx_slot_address TX p token = Some (RPU_MEM_PACKET_BASE + token * dp_tx_stride p)
  /\ RPU_MEM_PACKET_BASE + token * dp_tx_stride p + dp_tx_stride p <= dp_rx_base p.
Proof.
  intros [] Ht. unfold tx_slot_address, RPU_PACKET_RAM_SIZE, RPU_MEM_PACKET_BASE,
    RPU_MEM_PACKET_END in *. rewrite (proj2 (Z.ltb_lt _ _)) by lia.
  assert (0 <= dp_rx_stride p * RX /\ token * dp_tx_stride p + dp_tx_stride p <= dp_tx_stride p * TX)
    as [] by nia.
  split; [|lia]. f_equal. unfold u32.
  rewrite (Z.mod_small token), (Z.mod_small (dp_tx_stride p)) by nia.
  rewrite (Z.mod_small (token * _)) by nia. apply Z.mod_small. nia.
Qed.

Lemma rx_slot_spec p d : path_wf RX TX p -> 0 <= d < RX ->
  rx_slot_address RX p d = Some (dp_rx_base p + d * dp_rx_stride p)
  /\ dp_rx_base p + d * dp_rx_stride p + dp_rx_stride p <= RPU_MEM_PACKET_END + 1.
Proof.
  intros [] Hd. unfold rx_slot_address, RPU_PACKET_RAM_SIZE, RPU_MEM_PACKET_END in *.
  rewrite (proj2 (Z.ltb_lt _ _)) by lia.
  assert (0 <= dp_tx_stride p * TX /\ d * dp_rx_stride p + dp_rx_stride p <= dp_rx_stride p * RX)
    as [] by nia.
  split; [|lia]. f_equal. unfold u32.
  rewrite (Z.mod_small d), (Z.mod_small (dp_rx_stride p)) by nia.
  rewrite (Z.mod_small (d * _)) by nia. apply Z.mod_small. nia.
Qed.
End layout.

(** Two regions [a, a+n) and [b, b+m) of the address space. *)
Definition apart (a n b m : Z) : Prop := a + n <= b \/ b + m <= a.

Lemma stride_apart base stride i j :
  0 <= stride -> i <> j -> apart (base + i * stride) stride (base + j * stride) stride.
Proof. intros. unfold apart. destruct (Z_lt_le_dec i j); nia. Qed.

(** ** Transmit tokens *)

Section tokens.
Variables RX TX : Z.
Implicit Types p : DataPath.

(** [p'] is [p] with the free token [t] taken. *)
Definition reserved p (t : Z) p' : Prop :=
  nthZ (dp_tx_in_flight p) t = Some false
  /\ p' = set_next_tx ((t + 1) mod TX) (set_tx_in_flight (set_flag (dp_tx_in_flight p) t true) p).

Definition all_in_flight p : Prop :=
  forall t, 0 <= t < TX -> nthZ (dp_tx_in_flight p) t = Some true.

Lemma reserved_wf p t p' : path_wf RX TX p -> reserved p t p' -> path_wf RX TX p'.
Proof.
  intros [] [Ht ->]. constructor; cbn; try done; [by rewrite len_set_flag|].
  apply Z.mod_pos_bound. lia.
Qed.

Lemma reserve_loop_spec {E} p offsets :
  path_wf RX TX p ->
  match reserve_loop (E:=E) TX offsets p with
  | (Ok (Some t), p') => 0 <= t < TX /\ reserved p t p'
  | (Ok None, p') =>
      p' = p
      /\ forall o, o ∈ offsets -> nthZ (dp_tx_in_flight p) ((dp_next_tx p + o) mod TX) = Some true
  | _ => False
  end.
Proof.
  intros Hwf. induction offsets as [|o offsets IH]; cbn [reserve_loop].
  { split; [done|]. intros o Ho. by apply not_elem_of_nil in Ho. }
  unfold mbind at 1, M_bind at 1, get at 1. cbv zeta.
  set (i := (dp_next_tx p + o) mod TX).
  assert (0 <= i < TX) as Hi by (apply Z.mod_pos_bound; destruct Hwf; lia).
  destruct (nthZ_in (dp_tx_in_flight p) i) as [b Hb]; [destruct Hwf; lia|].
  unfold mbind at 1, M_bind at 1, lift. rewrite Hb. cbn [expect]. destruct b; cbn [negb].
  - destruct (reserve_loop TX offsets p) as [[[t|]|e|] p']; try done.
    destruct IH as [-> IH]. split; [done|]. by intros o' [->|?]%elem_of_cons; [|auto].
  - cbn. assert (u8 i = i) as -> by (apply Z.mod_small; destruct Hwf; lia).
    split; [lia|]. by split.
Qed.

Lemma reserve_tx_spec {E} p :
  path_wf RX TX p ->
  match reserve_tx (E:=E) TX p with
  | (Ok (Some t), p') => 0 <= t < TX /\ reserved p t p'
  | (Ok None, p') => p' = p /\ all_in_flight p
  | _ => False
  end.
Proof.
  intros Hwf. unfold reserve_tx.
  pose proof (reserve_loop_spec (E:=E) p (map Z.of_nat (seq 0 (Z.to_nat TX))) Hwf) as Hs.
  destruct (reserve_loop TX _ p) as [[[t|]|e|] p']; try done.
  destruct Hs as [-> Hs]. split; [done|]. intros t Ht. destruct Hwf.
  specialize (Hs ((t - dp_next_tx p) mod TX)).
  rewrite Zplus_mod_idemp_r, Zplus_minus, (Z.mod_small t) in Hs by lia.
  apply Hs. pose proof (Z.mod_pos_bound (t - dp_next_tx p) TX).
  apply list_elem_of_In, in_map_iff. exists (Z.to_nat ((t - dp_next_tx p) mod TX)).
  split; [lia|]. apply in_seq. lia.
Qed.

Lemma complete_tx_spec p token :
  path_wf RX TX p -> 0 <= token ->
  complete_tx TX token p =
    if bool_decide (nthZ (dp_tx_in_flight p) token = Some true)
    then (Ok tt, set_tx_in_flight (set_flag (dp_tx_in_flight p) token false) p)
    else (Err (DataProtocolError.InvalidDescriptor token), p).
Proof.
  intros [] Ht. unfold complete_tx, mbind at 1, M_bind at 1, get. cbv zeta.
  destruct (TX <=? token) eqn:Hr.
  { rewrite nthZ_out, bool_decide_eq_false_2 by (done || lia). done. }
  destruct (nthZ_in (dp_tx_in_flight p) token) as [b Hb]; [lia|].
  unfold mbind at 1, M_bind at 1, lift. rewrite Hb. cbn [expect]. destruct b; cbn [negb].
  - by rewrite bool_decide_eq_true_2.
  - by rewrite bool_decide_eq_false_2.
Qed.
End tokens.

(** ** Operations on the device

    [psafe R m Q F] extends [dsafe] with the data path. *)

Section psafe.
Context {W E : Type} `{HL : BusLaws W E} `{!DelayOps W} `{!DelayLaws W E}.
Implicit Types p : DataPath.
Implicit Types v : Device unit.

Definition pinv (R : DataPath -> Device unit -> Prop) (pd : DataPath * Device W) : Prop :=
  bus_inv (dev_rpu pd.2) /\ R pd.1 (view pd.2).

Definition psafe {A E'} (R : DataPath -> Device unit -> Prop) (m : M (DataPath * Device W) E' A)
    (Q : A -> DataPath -> Device unit -> Prop) (F : E' -> DataPath -> Device unit -> Prop) : Prop :=
  triple (pinv R) m (fun a => pinv (Q a)) (fun e => pinv (F e)).

Lemma psafe_bind {A B E'} R (m : M (DataPath * Device W) E' A)
    (f : A -> M (DataPath * Device W) E' B) Q' Q F :
  psafe R m Q' F -> (forall a, psafe (Q' a) (f a) Q F) -> psafe R (m ≫= f) Q F.
Proof. intros Hm Hf. eapply triple_bind; [apply Hm|]. intros a. apply Hf. Qed.

Lemma psafe_conseq {A E'} R R' (m : M (DataPath * Device W) E' A) Q Q' F F' :
  psafe R' m Q' F' -> (forall p v, R p v -> R' p v) -> (forall a p v, Q' a p v -> Q a p v) ->
  (forall e p v, F' e p v -> F e p v) -> psafe R m Q F.
Proof. intros Hm H1 H2 H3. eapply triple_consequence; [exact Hm|unfold pinv; dweak..]. Qed.

(** A fact about the state that no longer mentions it. *)
Lemma psafe_pure {A E'} R (m : M (DataPath * Device W) E' A) Q F (phi : Prop) :
  (forall p v, R p v -> phi) -> (phi -> psafe R m Q F) -> psafe R m Q F.
Proof. intros H1 H2 pd Hpd. eapply H2; [eapply H1; apply Hpd|exact Hpd]. Qed.

Lemma psafe_ret {A E'} R (a : A) (Q : A -> DataPath -> Device unit -> Prop)
    (F : E' -> DataPath -> Device unit -> Prop) :
  (forall p v, R p v -> Q a p v) -> psafe R (mret a) Q F.
Proof. intros HQ pd [? ?]. split; auto. Qed.

Lemma psafe_throw {A E'} R (e : E') (Q : A -> DataPath -> Device unit -> Prop) F :
  (forall p v, R p v -> F e p v) -> psafe R (throw e) Q F.
Proof. intros HF pd [? ?]. split; auto. Qed.

Lemma psafe_lift {A E'} R (r : res E' A) (Q : A -> DataPath -> Device unit -> Prop) F :
  r <> Panic -> (forall a p v, R p v -> r = Ok a -> Q a p v) ->
  (forall e p v, R p v -> r = Err e -> F e p v) -> psafe R (lift r) Q F.
Proof. intros Hr HQ HF pd [? ?]. unfold lift. destruct r; [..|done]; split; auto. Qed.

Lemma psafe_get_path {A E'} R (f : DataPath -> A) (Q : A -> DataPath -> Device unit -> Prop)
    (F : E' -> DataPath -> Device unit -> Prop) :
  (forall p v, R p v -> Q (f p) p v) -> psafe R (gets (fun pd => f pd.1)) Q F.
Proof. intros HQ pd [? ?]. split; auto. Qed.

Lemma psafe_on_path {A E'} R (m : M DataPath E' A) Q (F : E' -> DataPath -> Device unit -> Prop) :
  (forall p v, R p v ->
    match m p with (Ok a, p') => Q a p' v | (Err e, p') => F e p' v | (Panic, _) => False end) ->
  psafe R (on_path m) Q F.
Proof.
  intros Hm [p d] [Hb HR]. specialize (Hm _ _ HR). unfold on_path, zoom. cbn in *.
  by destruct (m p) as [[a|e|] p'].
Qed.

Lemma psafe_on_device {A E'} R (m : M (Device W) E' A) Q (F : E' -> DataPath -> Device unit -> Prop) :
  (forall p, dsafe (R p) m (fun a => Q a p) (fun e => F e p)) -> psafe R (on_device m) Q F.
Proof.
  intros Hm [p d] [Hb HR]. specialize (Hm p d (conj Hb HR)). unfold on_device, zoom. cbn in *.
  by destruct (m d) as [[a|e|] d'].
Qed.

Lemma psafe_on_rpu {A E'} R (m : M W E' A) Q0 :
  safe m Q0 -> psafe R (on_rpu m) (fun a p v => Q0 a /\ R p v) (fun _ => R).
Proof.
  intros Hm. apply psafe_on_device. intros p d [Hb HR]. specialize (Hm (dev_rpu d) Hb).
  unfold zoom. destruct (m (dev_rpu d)) as [[a|e|] w]; cbn; [|done..].
  destruct Hm. by repeat split.
Qed.

Lemma psafe_mapM_err {A E' E''} R (f : E' -> E'') (m : M (DataPath * Device W) E' A) Q F
    (F' : E'' -> DataPath -> Device unit -> Prop) :
  psafe R m Q F -> (forall e p v, F e p v -> F' (f e) p v) -> psafe R (mapM_err f m) Q F'.
Proof. intros Hm HF. eapply triple_mapM_err; [exact Hm|unfold pinv; dweak]. Qed.

Lemma psafe_attempt {A E' E''} R (m : M (DataPath * Device W) E' A) Q F Q'
    (F' : E'' -> DataPath -> Device unit -> Prop) :
  psafe R m Q F -> (forall a p v, Q a p v -> Q' (inl a) p v) ->
  (forall e p v, F e p v -> Q' (inr e) p v) -> psafe R (attempt m) Q' F'.
Proof. intros Hm H1 H2. eapply triple_attempt; [exact Hm|unfold pinv; dweak..]. Qed.

(** A device operation from a known device state; the data path is framed. *)
Lemma psafe_device {A E'} (phi : DataPath -> Prop) v0 (m : M (Device W) E' A) Q F :
  dsafe (eq v0) m Q F ->
  psafe (fun p v => phi p /\ v = v0) (on_device m)
    (fun a p v => phi p /\ Q a v) (fun e p v => phi p /\ F e v).
Proof.
  intros Hm. apply psafe_on_device. intros p d [Hb [Hp Hv]].
  specialize (Hm d (conj Hb (eq_sym Hv))).
  destruct (m d) as [[a|e|] d']; [..|done]; by destruct Hm.
Qed.

(** An RPU call whose error is only wrapped. *)
Lemma psafe_rpu {A E' E''} R (f : E' -> E'') (m : M W E' A) Q0 :
  safe m Q0 ->
  psafe R (mapM_err f (on_rpu m)) (fun a p v => Q0 a /\ R p v)
    (fun e p v => (exists e', e = f e') /\ R p v).
Proof. intros Hm. eapply psafe_mapM_err; [by apply psafe_on_rpu|]. eauto. Qed.
End psafe.

(** The 59 bytes of a TX command for [frame], field by field. *)
Definition tx_command_bytes (wdev_id token : Z) (frame : list Z) (dscp_tos dma_pointer : Z)
    : list Z :=
  to_le 4 59 ++ to_le 4 0 ++ to_le 4 (HostMessageType.to_i32 HostMessageType.Data)
  ++ to_le 4 (DataCommand.to_u32 DataCommand.TransmitBuffer) ++ to_le 4 47
  ++ [wdev_id; token] ++ to_le 4 0 ++ to_le 2 0
  ++ take 6 frame ++ take 6 (drop 6 frame) ++ to_le 2 (from_be (take 2 (drop 12 frame)))
  ++ to_le 4 dscp_tos ++ [0; 0] ++ to_le 4 0 ++ [1] ++ to_le 2 (u16 (len frame))
  ++ to_le 4 dma_pointer.

(** A list with at least [n] elements has its first ones explicit. *)
Lemma long_list_cons {A} (l : list A) n : Z.of_nat (S n) <= len l ->
  exists x k, l = x :: k /\ Z.of_nat n <= len k.
Proof. destruct l as [|x k]; [unfold len; cbn; lia|]. rewrite len_cons. exists x, k. split; [done|lia]. Qed.

Lemma encode_tx_command_spec {E} wdev_id token frame dscp_tos dma :
  14 <= len frame ->
  encode_tx_command (E:=E) wdev_id token frame dscp_tos dma
  = Ok (tx_command_bytes wdev_id token frame dscp_tos dma).
Proof.
  intros Hf. unfold encode_tx_command, tx_command_bytes, subslice.
  rewrite !slice_in by lia. generalize (u16 (len frame)). intros n.
  generalize (HostMessageType.to_i32 HostMessageType.Data). intros h.
  change 14 with (Z.of_nat 14) in Hf.
  do 14 (apply long_list_cons in Hf as (? & ? & -> & Hf)). reflexivity.
Qed.

(** ** Transmit *)

Section transmit.
Context {W E : Type} `{HL : BusLaws W E} `{!DelayOps W} `{!DelayLaws W E}.
Variables RX TX : Z.
Implicit Types p : DataPath.
Implicit Types v : Device unit.

(** [p'] is [p] with the free token [t] taken and given back. *)
Definition given_back p (t : Z) p' : Prop :=
  nthZ (dp_tx_in_flight p) t = Some false /\ p' = set_next_tx ((t + 1) mod TX) p.

(** How a failed [transmit] of [frame] leaves the data path.  The device's own
    state does not change. *)
Definition transmit_failed p0 (frame : list Z) (e : DataError.t E) p : Prop :=
  match e with
  | DataError.Protocol DataProtocolError.FrameTooShort => p = p0 /\ len frame < 14
  | DataError.Protocol DataProtocolError.FrameTooLarge => p = p0 /\ dp_tx_buffer_size p0 < len frame
  | DataError.NoTransmitToken => p = p0 /\ all_in_flight TX p0
  | DataError.Rpu _ => exists t, given_back p0 t p
  | DataError.Device DeviceError.NotInitialized
  | DataError.QueueOwnershipUncertain _ => exists t, reserved TX p0 t p
  | _ => False
  end.

Lemma psafe_write_packet R address frame :
  psafe R (write_packet (E:=E) address frame) (fun _ => R)
    (fun e p v => (exists e', e = DataError.Rpu e') /\ R p v).
Proof.
  pose proof (len_nonneg frame). pose proof (ldiff_3 (len frame)) as Hld.
  unfold write_packet. cbv zeta. set (al := Z.ldiff (len frame) 3) in *.
  assert (0 <= al <= len frame) by (rewrite Hld; Z.div_mod_to_equations; lia).
  rewrite !slice_in by lia. apply (psafe_bind _ _ _ (fun _ => R)).
  - destruct (negb (al =? 0)); [|by apply psafe_ret].
    apply (psafe_bind _ _ _ (fun _ => R)); [by apply psafe_lift|]. intros head.
    eapply psafe_conseq; [apply psafe_rpu, safe_write|done|dweak|done].
  - intros _. destruct (negb (al =? len frame)); [|by apply psafe_ret].
    apply (psafe_bind _ _ _ (fun _ => R)); [by apply psafe_lift|]. intros rest.
    eapply psafe_conseq; [apply psafe_rpu, safe_write|done|dweak|done].
Qed.

Lemma psafe_release p0 v0 t :
  path_wf RX TX p0 ->
  psafe (fun p v => reserved TX p0 t p /\ v = v0) (release_token (E:=E) t)
    (fun _ p v => given_back p0 t p /\ v = v0) (fun _ _ _ => False).
Proof.
  intros Hwf. unfold release_token. apply psafe_on_path. intros p v [[Ht ->] ->].
  pose proof (nthZ_range _ _ _ Ht) as Hr. munfold. cbn.
  rewrite nthZ_set_flag by done. cbn.
  split; [|done]. split; [done|].
  rewrite (set_flag_undo _ _ _ _ Ht). by destruct p0.
Qed.

Lemma psafe_context p0 v0 t frame :
  psafe (fun p v => reserved TX p0 t p /\ v = v0) (transmit_queue_context (E:=E))
    (fun _ p v => reserved TX p0 t p /\ v = v0)
    (fun e p v => transmit_failed p0 frame e p /\ v = v0).
Proof.
  intros [p d] [Hb [Hr Hv]]. cbn [fst snd] in *. unfold transmit_queue_context.
  unfold mbind, M_bind, gets, lift, mret, M_ret. cbn [snd].
  destruct (tx_command_base d); cbn [ok_or].
  - destruct (dev_queues d); cbn [ok_or]; split; eauto. split; [by exists t|done].
  - split; [done|]. split; [by exists t|done].
Qed.

Lemma psafe_deliver p0 v0 t frame queue address :
  psafe (fun p v => reserved TX p0 t p /\ v = v0) (deliver_transmit_command (E:=E) queue address)
    (fun _ p v => reserved TX p0 t p /\ v = bump v0)
    (fun e p v => transmit_failed p0 frame e p /\ v = v0).
Proof.
  unfold deliver_transmit_command.
  apply (psafe_bind _ _ _ (fun _ p v => reserved TX p0 t p /\ v = v0)).
  - eapply psafe_mapM_err.
    + eapply psafe_conseq;
        [apply (psafe_device (reserved TX p0 t) v0), (dsafe_enqueue (eq v0))|done| |].
      * intros _ p v [? <-]. done.
      * intros e p v Hx. exact Hx.
    + intros e p v [? <-]. split; [by exists t|done].
  - intros _. eapply psafe_mapM_err.
    + eapply psafe_conseq; [apply (psafe_device (reserved TX p0 t) v0), dsafe_trigger|done| |].
      * intros _ p v [? <-]. done.
      * intros e p v Hx. exact Hx.
    + intros e p v [? <-]. split; [by exists t|done].
Qed.

Lemma psafe_reserve p0 v0 R F :
  path_wf RX TX p0 -> (forall p v, R p v -> p = p0 /\ v = v0) ->
  psafe R (on_path (reserve_tx (E:=DataError.t E) TX))
    (fun o p v => match o with
     | Some t => (0 <= t < TX /\ reserved TX p0 t p) /\ v = v0
     | None => (p = p0 /\ all_in_flight TX p0) /\ v = v0
     end) F.
Proof.
  intros Hwf HR. apply psafe_on_path. intros p v Hp. apply HR in Hp as [-> ->].
  pose proof (reserve_tx_spec (E:=DataError.t E) RX TX p0 Hwf) as Hs.
  by destruct (reserve_tx TX p0) as [[[t|]|e|] p'].
Qed.

Lemma psafe_prepare p0 v0 frame :
  path_wf RX TX p0 ->
  psafe (fun p v => p = p0 /\ v = v0) (prepare_transmit (E:=E) TX frame)
    (fun ta p v => reserved TX p0 ta.1 p /\ v = v0 /\ 14 <= len frame)
    (fun e p v => transmit_failed p0 frame e p /\ v = v0).
Proof.
  intros Hwf. unfold prepare_transmit.
  apply (psafe_bind _ _ _ (fun q p v => q = p0 /\ p = p0 /\ v = v0)).
  { apply (psafe_get_path _ id). by intros p v [-> ->]. }
  intros q. apply (psafe_pure _ _ _ _ (q = p0)); [by intros p v []|]. intros ->.
  apply (psafe_bind _ _ _ (fun _ p v => p = p0 /\ v = v0 /\ 14 <= len frame)).
  { unfold validate_transmit_frame. change ETHERNET_HEADER_LEN with 14.
    destruct (len frame <? 14) eqn:H1; [apply psafe_lift; try done|].
    { intros ? p v (_ & -> & ->) [= <-]. split; [split; [done|lia]|done]. }
    destruct (_ || _) eqn:H2; apply psafe_lift; try done.
    - intros ? p v (_ & -> & ->) [= <-]. split; [split; [done|]|done].
      destruct Hwf. apply orb_true_iff in H2. lia.
    - intros [] p v (_ & -> & ->) _. split_and!; [done..|lia]. }
  intros _. apply (psafe_pure _ _ _ _ (14 <= len frame)); [by intros p v (? & ? & ?)|].
  intros Hlen. eapply psafe_bind; [apply (psafe_reserve p0 v0 _ _ Hwf); by intros p v (? & ? & ?)|].
  intros o. apply (psafe_bind _ _ _ (fun t p v => (0 <= t < TX /\ reserved TX p0 t p) /\ v = v0)).
  { destruct o; apply psafe_lift; try done; by intros ? p v Hx [= <-]. }
  intros t. apply (psafe_pure _ _ _ _ (0 <= t < TX)); [by intros p v [[? ?] ?]|]. intros Ht.
  apply (psafe_bind _ _ _ (fun p' p v => (path_wf RX TX p' /\ reserved TX p0 t p) /\ v = v0)).
  { apply (psafe_get_path _ id). intros p v [[_ Hr] ->]. split; [split; [|exact Hr]|done].
    by apply (reserved_wf RX TX p0 t). }
  intros p'. apply (psafe_pure _ _ _ _ (path_wf RX TX p')); [by intros p v [[? ?] ?]|]. intros Hwf'.
  destruct (tx_slot_spec RX TX p' t Hwf' Ht) as [-> _]. cbn [ok_or].
  apply (psafe_bind _ _ _ (fun _ p v => reserved TX p0 t p /\ v = v0)).
  { apply psafe_lift; [done| |done]. by intros a p v [[_ ?] ->]. }
  intros a. apply (psafe_bind _ _ _ (fun r p v => reserved TX p0 t p /\ v = v0
    /\ match r with inl _ => True | inr e => exists e', e = DataError.Rpu e' end)).
  { eapply psafe_attempt; [apply (psafe_write_packet (fun p v => reserved TX p0 t p /\ v = v0))| |].
    - by intros _ p v [? ?].
    - by intros e p v [? [? ?]]. }
  intros [u|e]; [by apply psafe_ret; intros p v (? & ? & _)|].
  apply (psafe_pure _ _ _ _ (exists e', e = DataError.Rpu e')); [by intros p v (_ & _ & ?)|].
  intros [e' ->]. apply (psafe_bind _ _ _ (fun _ p v => given_back p0 t p /\ v = v0)).
  - eapply psafe_conseq; [apply (psafe_release p0 v0 t Hwf)|by intros p v (? & ? & _)|done|done].
  - intros _. apply psafe_throw. intros p v [? ->]. split; [by exists t|done].
Qed.

Lemma psafe_submit p0 v0 t a wdev frame tos :
  path_wf RX TX p0 -> 14 <= len frame ->
  psafe (fun p v => reserved TX p0 t p /\ v = v0) (submit_transmit (E:=E) t a wdev frame tos)
    (fun _ p v => reserved TX p0 t p /\ v = bump v0)
    (fun e p v => transmit_failed p0 frame e p /\ v = v0).
Proof.
  intros Hwf Hlen. unfold submit_transmit.
  eapply psafe_bind; [apply psafe_context|]. intros [base queue].
  rewrite encode_tx_command_spec by done.
  apply (psafe_bind _ _ _ (fun _ p v => reserved TX p0 t p /\ v = v0)).
  { apply psafe_lift; [done|by intros ? p v ?|done]. }
  intros bytes. apply (psafe_bind _ _ _ (fun _ p v => reserved TX p0 t p /\ v = v0)).
  { eapply psafe_attempt; [apply psafe_on_rpu, safe_write|by intros _ p v [_ ?]|by intros]. }
  intros [u|e]; [apply psafe_deliver|].
  apply (psafe_bind _ _ _ (fun _ p v => given_back p0 t p /\ v = v0)).
  - eapply psafe_conseq; [apply (psafe_release p0 v0 t Hwf)|done|done|done].
  - intros _. apply psafe_throw. intros p v [? ->]. split; [by exists t|done].
Qed.

Lemma psafe_transmit p0 v0 wdev frame tos :
  path_wf RX TX p0 ->
  psafe (fun p v => p = p0 /\ v = v0) (transmit (E:=E) TX wdev frame tos)
    (fun t p v => (0 <= t < TX /\ reserved TX p0 t p) /\ v = bump v0)
    (fun e p v => transmit_failed p0 frame e p /\ v = v0).
Proof.
  intros Hwf. unfold transmit. eapply psafe_bind; [by apply psafe_prepare|].
  intros [t a]. cbn [fst]. apply (psafe_pure _ _ _ _ (14 <= len frame)); [by intros p v (? & ? & ?)|].
  intros Hlen. apply (psafe_bind _ _ _ (fun _ p v => reserved TX p0 t p /\ v = bump v0)).
  - eapply psafe_conseq; [by apply (psafe_submit p0 v0 t)|by intros p v (? & ? & _)|done|done].
  - intros _. apply psafe_ret. intros p v [Hr ->]. repeat split; try apply Hr.
    + apply (nthZ_range _ _ _ (proj1 Hr)).
    + rewrite <-(wf_in_flight _ _ _ Hwf). apply (nthZ_range _ _ _ (proj1 Hr)).
Qed.
Lemma transmit_failed_posted p frame (e : DataError.t E) p' :
  transmit_failed p frame e p' -> dp_rx_posted p' = dp_rx_posted p.
Proof.
  unfold transmit_failed. intros Hf. repeat case_match; try done;
    first [by destruct Hf as [-> _]|by destruct Hf as (t & _ & ->)].
Qed.
End transmit.

(** ** What a transmission does to the bus *)

(** The accesses of a transmission: the frame is written to the packet slot of
    its token and the command to the command slot, whose address then goes to
    the firmware. *)
Definition tx_command_address (v : Device unit) (token : Z) : Z :=
  u32 (default 0 (tx_command_base v) + u32 (TX_COMMAND_SLOT_SIZE * token)).
Definition frame_stored (v : Device unit) (slot wdev_id token : Z) (frame : list Z) (dscp_tos : Z) : log -> Prop :=
  stored Processor.Umac slot frame
  +++ stored Processor.Umac (tx_command_address v token)
        (tx_command_bytes wdev_id token frame dscp_tos (Z.land slot RPU_ADDR_MASK_OFFSET)).
Definition frame_stored_part (v : Device unit) (slot wdev_id token : Z) (frame : list Z) (dscp_tos : Z)
    : log -> Prop :=
  stored_part Processor.Umac slot frame
  +++ stored_part Processor.Umac (tx_command_address v token)
        (tx_command_bytes wdev_id token frame dscp_tos (Z.land slot RPU_ADDR_MASK_OFFSET)).

(** What the log of a transmission shows: on success the frame and its command
    are written, then handed over; a refused one hands nothing over. *)
Definition transmit_logged (TX : Z) (p : DataPath) (v : Device unit) (wdev_id : Z) (frame : list Z) (dscp_tos : Z) {E}
    (r : res (DataError.t E) Z) (t : log) : Prop :=
  match r with
  | Ok token => exists slot queues,
      tx_slot_address TX p token = Some slot /\ dev_queues v = Some queues
      /\ (frame_stored v slot wdev_id token frame dscp_tos
          +++ handed_over (command_busy queues) (tx_command_address v token)
                (dev_command_counter v)) t
  | Err (DataError.QueueOwnershipUncertain _) => exists token slot,
      tx_slot_address TX p token = Some slot
      /\ (frame_stored v slot wdev_id token frame dscp_tos +++ anything) t
  | Err _ => exists token slot,
      tx_slot_address TX p token = Some slot
      /\ frame_stored_part v slot wdev_id token frame dscp_tos t
  | Panic => False
  end.

(** Packet RAM has one host address for both processors. *)
Lemma packet_ram_offset q a :
  RPU_MEM_PACKET_BASE <= a <= RPU_MEM_PACKET_END ->
  host_offset q a = Ok (0x0c0000 + (a - 0xb0000000)).
Proof.
  intros Ha. apply (host_offset_fun q (mkRegion 0xb0000000 0xb0030fff 0x0c0000)).
  - unfold regions. apply elem_of_app. left. unfold shared_regions.
    repeat first [apply list_elem_of_here | apply list_elem_of_further].
  - unfold in_region, RPU_MEM_PACKET_BASE, RPU_MEM_PACKET_END in *. cbn. lia.
Qed.

Section data_log.
Context {W E : Type} `{HT : BusTrace W E}.

Definition data_runs {A E'} (u : DataPath * Device unit) (m : M (DataPath * Device W) E' A)
    (Q : A -> DataPath * Device unit -> log -> Prop)
    (F : E' -> DataPath * Device unit -> log -> Prop) : Prop :=
  runs (fun pd => trace (dev_rpu pd.2)) (fun pd => (pd.1, view pd.2)) u m Q F.

Lemma data_runs_path {A B E'} p v (m : M DataPath E' A) (f : A -> M (DataPath * Device W) E' B) Q F :
  (forall a p', m p = (Ok a, p') -> data_runs (p', v) (f a) Q F) ->
  (forall e p', m p = (Err e, p') -> F e (p', v) []) ->
  data_runs (p, v) (on_path m ≫= f) Q F.
Proof.
  intros HQ HF [q d] [= -> Hv]. unfold mbind, M_bind, on_path, zoom. cbn [fst snd].
  destruct (m p) as [[a|e|] p']; [|..|done].
  - apply (HQ a p' eq_refl (p', d)). cbn. by rewrite Hv.
  - exists []. rewrite app_nil_r. split; [done|]. cbn. rewrite Hv. by apply HF.
Qed.

Lemma data_runs_device {A E'} p v (m : M (Device W) E' A) Q F :
  device_runs v m Q F ->
  data_runs (p, v) (on_device m) (fun a u t => u.1 = p /\ Q a u.2 t) (fun e u t => u.1 = p /\ F e u.2 t).
Proof.
  intros Hm. eapply runs_conseq.
  - apply (runs_zoom (fun d => trace (dev_rpu d)) view _ (fun pd => (pd.1, view pd.2)) snd _ snd
             (fun d u => (u.1, d)) (p, v)); [done|done|done|done|]. exact Hm.
  - by intros a u t (x & -> & ?).
  - by intros a u t (x & -> & ?).
Qed.

Lemma data_runs_rpu {A E'} u (m : M W E' A) Q F :
  bus_runs m Q F ->
  data_runs u (on_rpu m) (fun a u' t => u' = u /\ Q a t) (fun e u' t => u' = u /\ F e t).
Proof.
  intros Hm. destruct u as [p v]. eapply runs_conseq.
  - unfold on_rpu. apply data_runs_device, device_runs_zoom. exact Hm.
  - intros a [q w] t. cbn. by intros (-> & -> & ?).
  - intros a [q w] t. cbn. by intros (-> & -> & ?).
Qed.

Lemma data_runs_rpu_err {A E' E''} u (f : E' -> E'') (m : M W E' A) Q F :
  bus_runs m Q F ->
  data_runs u (mapM_err f (on_rpu m)) (fun a u' t => u' = u /\ Q a t)
    (fun e u' t => u' = u /\ (exists e', e = f e') /\ exists e', F e' t).
Proof. intros Hm. eapply runs_mapM_err; [by apply data_runs_rpu|]. intros e u' t []. eauto. Qed.

(** The padded tail of a frame, as the code builds it. *)
Lemma tail_word (frame : list Z) al :
  al = Z.ldiff (len frame) 3 -> al <> len frame ->
  splice (zeros 4) 0 (take (Z.to_nat (len frame - al)) (drop (Z.to_nat al) frame))
  = drop (Z.to_nat al) frame ++ padding frame
  /\ len (drop (Z.to_nat al) frame ++ padding frame) = 4.
Proof.
  intros -> Hne. destruct (aligned_split (len frame)) as (Hal & Ht & Hp); [apply len_nonneg|].
  set (al := Z.ldiff (len frame) 3) in *. rewrite (proj2 (Z.eqb_neq _ _)) in Hp by lia.
  rewrite firstn_all2 by (rewrite length_drop; unfold len in *; lia).
  unfold padding. rewrite Hp, len_app, len_drop, len_zeros by lia. split; [|lia].
  unfold splice, zeros. rewrite drop_replicate.
  change (take (Z.to_nat 0) ?k) with (@nil Z). cbn [app Nat.add Z.to_nat]. do 2 f_equal.
  rewrite length_drop. unfold len in *. lia.
Qed.

Lemma take_pieces_app k (t : log) (t' : log) : exists k', take k t = take k' (t ++ t').
Proof.
  exists (Nat.min k (length t)). rewrite take_app_le by lia.
  destruct (Nat.min_spec k (length t)) as [[? ->]|[? ->]]; [done|]. by rewrite !firstn_all2 by lia.
Qed.

Lemma data_runs_write_packet u a frame :
  14 <= len frame -> RPU_MEM_PACKET_BASE <= a -> a + padded (len frame) <= RPU_MEM_PACKET_END + 1 ->
  data_runs u (write_packet (E:=E) a frame)
    (fun _ u' t => u' = u /\ stored Processor.Umac a frame t)
    (fun e u' t => u' = u /\ (exists e', e = DataError.Rpu e') /\ stored_part Processor.Umac a frame t).
Proof.
  intros Hlen Ha Hb. destruct (aligned_split (len frame)) as (Hal & Ht & Hp); [lia|].
  destruct (words_split frame (padding frame)) as [Hw Hc].
  unfold write_packet. cbv zeta. pose proof (tail_word frame _ eq_refl) as Htail.
  assert (Z.ldiff (len frame) 3 mod 4 = 0) as Hal4 by (rewrite ldiff_3; Z.div_mod_to_equations; lia).
  set (al := Z.ldiff (len frame) 3) in *. set (head := take (Z.to_nat al) frame) in *.
  assert (len head = al) as Hh by (unfold head; rewrite len_take; lia).
  assert (host_offset Processor.Umac a = Ok (0x0c0000 + (a - 0xb0000000))) as Hoff.
  { apply packet_ram_offset. destruct (_ =? 0) in Hp; lia. }
  set (x := 0x0c0000 + (a - 0xb0000000)) in *.
  assert (words head (padding head) = chunks MAX_BUS_CHUNK head) as Hwh
    by (apply words_aligned; by rewrite Hh).
  rewrite !slice_in by lia. rewrite (proj2 (Z.eqb_neq al 0)) by lia. cbn [negb expect].
  change (drop (Z.to_nat 0) frame) with frame. rewrite Z.sub_0_r. fold head.
  eapply runs_bind; [apply runs_lift_bind; [intros ? [= <-]; apply data_runs_rpu_err, bus_runs_store|done]| |].
  - intros [] u' t [-> (y & Hy & ->)]. rewrite Hoff in Hy. injection Hy as <-. rewrite Hwh.
    destruct (al =? len frame) eqn:Hz; cbn [negb].
    + apply runs_ret. split; [done|]. exists x. split; [done|].
      rewrite Hw, (proj2 (Z.eqb_eq _ _)) by lia. by rewrite !app_nil_r.
    + apply Z.eqb_neq in Hz. destruct (Htail Hz) as [Heq H4]. rewrite (proj2 (Z.eqb_neq _ _)) in Hw by lia.
      set (word := drop (Z.to_nat al) frame ++ padding frame) in *.
      assert (host_offset Processor.Umac (u32 (a + u32 al)) = Ok (x + al)) as Hoff'.
      { rewrite u32_add_r. rewrite (proj2 (Z.eqb_neq _ _)) in Hp by lia.
        unfold u32, RPU_MEM_PACKET_BASE, RPU_MEM_PACKET_END in *.
        rewrite Z.mod_small by lia. rewrite packet_ram_offset; [f_equal; unfold x; lia|].
        unfold RPU_MEM_PACKET_BASE, RPU_MEM_PACKET_END. lia. }
      eapply runs_conseq; [apply runs_lift_bind; [intros ? [= <-]; rewrite Heq; apply data_runs_rpu_err, bus_runs_store|done]|..].
      * intros [] u' t [-> (y & Hy & ->)]. rewrite Hoff' in Hy. injection Hy as <-.
        rewrite words_one by done. split; [done|]. exists x. split; [done|].
        by rewrite Hw, pieces_app, Hc.
      * intros e u' t (-> & He & e' & Ht'). split; [done|]. split; [done|]. right.
        destruct Ht' as [->|(y & k & Hy & ->)].
        -- rewrite app_nil_r. exists x, (length (chunks MAX_BUS_CHUNK head)). split; [done|].
           rewrite Hw, pieces_app, take_app_length'; [done|by rewrite length_pieces].
        -- rewrite Hoff' in Hy. injection Hy as <-. rewrite words_one by done.
           exists x, (length (chunks MAX_BUS_CHUNK head) + k)%nat. split; [done|].
           rewrite Hw, pieces_app, Hc.
           rewrite <-(length_pieces Access.Written x (chunks MAX_BUS_CHUNK head)).
           by rewrite take_app_add.
  - intros e u' t (-> & He & e' & Ht'). split; [done|]. split; [done|].
    destruct Ht' as [->|(y & k & Hy & ->)]; [by left|right].
    rewrite Hoff in Hy. injection Hy as <-. rewrite Hwh.
    destruct (take_pieces_app k (pieces Access.Written x (chunks MAX_BUS_CHUNK head))
      (pieces Access.Written (x + al) (if len frame - al =? 0 then [] else [drop (Z.to_nat al) frame ++ padding frame])))
      as [k' ->].
    exists x, k'. split; [done|]. by rewrite Hw, pieces_app, Hc.
Qed.

(** A call whose error is examined. *)
Lemma data_runs_attempt {A E' E''} u (m : M (DataPath * Device W) E' A) Q F :
  data_runs u m Q F ->
  data_runs u (attempt (F:=E'') m)
    (fun r u' t => match r with inl a => Q a u' t | inr e => F e u' t end) (fun _ _ _ => False).
Proof. intros Hm. by eapply runs_attempt. Qed.

Lemma stored_is_part p a data t : stored p a data t -> stored_part p a data t.
Proof.
  intros (x & Hx & ->). right. exists x. eexists. split; [done|]. symmetry. apply firstn_all2. done.
Qed.

Lemma stored_part_nil p a data : stored_part p a data [].
Proof. by left. Qed.

Lemma data_runs_release p v token :
  data_runs (p, v) (release_token (E:=E) token) (fun _ _ t => t = []) (fun _ _ _ => False).
Proof.
  unfold release_token. intros pd Hpd. unfold on_path, zoom. munfold.
  destruct (nthZ _ token); cbn; [|done]. exists []. by rewrite app_nil_r.
Qed.

Variables RX TX : Z.

Lemma data_runs_prepare p0 v0 frame :
  path_wf RX TX p0 ->
  data_runs (p0, v0) (prepare_transmit (E:=E) TX frame)
    (fun ta u t => 0 <= ta.1 < TX /\ u.2 = v0 /\ 14 <= len frame
       /\ tx_slot_address TX p0 ta.1 = Some ta.2 /\ stored Processor.Umac ta.2 frame t)
    (fun e u t => (forall e', e <> DataError.QueueOwnershipUncertain e')
       /\ exists token slot, tx_slot_address TX p0 token = Some slot
                             /\ stored_part Processor.Umac slot frame t).
Proof.
  intros Hwf. unfold prepare_transmit.
  assert (exists slot, tx_slot_address TX p0 0 = Some slot) as [slot0 Hslot0].
  { destruct (tx_slot_spec RX TX p0 0 Hwf) as [-> _]; [destruct Hwf; lia|eauto]. }
  assert (forall (e : DataError.t E), (forall e', e <> DataError.QueueOwnershipUncertain e') ->
    (forall e', e <> DataError.QueueOwnershipUncertain e')
    /\ exists token slot, tx_slot_address TX p0 token = Some slot
                          /\ stored_part Processor.Umac slot frame []) as Hnone.
  { intros e He. split; [done|]. exists 0, slot0. split; [done|apply stored_part_nil]. }
  apply (runs_gets_bind _ _ _ _ fst); [done|]. cbn [fst].
  apply runs_lift_bind.
  2: { intros e He. apply Hnone. unfold validate_transmit_frame in He.
       repeat case_match; by simplify_eq. }
  intros [] Hv. assert (14 <= len frame <= dp_tx_buffer_size p0) as Hlen.
  { unfold validate_transmit_frame in Hv. change ETHERNET_HEADER_LEN with 14 in Hv.
    destruct (len frame <? 14) eqn:?; [done|]. destruct (_ || _) eqn:?; [done|]. lia. }
  apply data_runs_path.
  2: { intros e p' He. pose proof (reserve_tx_spec (E:=DataError.t E) RX TX p0 Hwf) as Hs.
       by rewrite He in Hs. }
  intros o p1 Ho. pose proof (reserve_tx_spec (E:=DataError.t E) RX TX p0 Hwf) as Hs.
  rewrite Ho in Hs. apply runs_lift_bind.
  2: { intros e He. apply Hnone. destruct o; [done|]. by injection He as <-. }
  intros token Htok. destruct o as [token'|]; [|done]. injection Htok as ->.
  destruct Hs as [Ht Hr]. apply (runs_gets_bind _ _ _ _ fst); [done|]. cbn [fst].
  assert (tx_slot_address TX p1 token = tx_slot_address TX p0 token) as Heq
    by (by destruct Hr as [_ ->]).
  destruct (tx_slot_spec RX TX p0 token Hwf Ht) as [Hslot Hb]. rewrite Heq, Hslot. cbn [ok_or].
  set (slot := RPU_MEM_PACKET_BASE + token * dp_tx_stride p0) in *.
  apply runs_lift_bind; [intros ? [= <-]|done].
  eapply runs_bind; [apply data_runs_attempt, data_runs_write_packet| |done].
  - lia.
  - unfold slot. destruct Hwf. nia.
  - destruct Hwf. pose proof (padded_bounds (len frame) ltac:(lia)) as [? _].
    unfold RPU_MEM_PACKET_END in *. nia.
  - intros [[]|e] u t.
    + intros [-> Hst]. apply runs_ret. rewrite app_nil_r. cbn [fst snd].
      split_and!; first [done|lia].
    + intros (-> & [e' ->] & Hst). eapply runs_bind; [apply data_runs_release| |done].
      intros [] u t' ->. apply runs_throw. rewrite !app_nil_r. split; [done|].
      by exists token, slot.
Qed.

Lemma data_runs_deliver p v q a :
  data_runs (p, v) (deliver_transmit_command (E:=E) q a)
    (fun _ _ => handed_over q a (dev_command_counter v))
    (fun e _ _ => exists e', e = DataError.QueueOwnershipUncertain e').
Proof.
  unfold deliver_transmit_command.
  apply (runs_bind _ _ _ _ _ (fun _ u t => u = (p, v) /\ register_written (enqueue_address q) a t)
    (fun e _ _ => exists e', e = DataError.QueueOwnershipUncertain e')); [| |done].
  { eapply runs_mapM_err; [|by intros e u t _; exists e].
    eapply runs_conseq; [apply data_runs_device, device_runs_enqueue| |intros e u t Hx; exact Hx].
    intros [] [p1 v1] t. cbn. by intros (-> & -> & ?). }
  intros [] u t [-> Ht]. eapply runs_mapM_err; [|by intros e u t' _; exists e].
  eapply runs_conseq; [apply data_runs_device, device_runs_trigger| |].
  - intros [] u t' (_ & _ & Ht'). by apply follows_intro.
  - intros e u t' Hx. exact Hx.
Qed.

Lemma data_runs_submit p v token slot wdev_id frame dscp_tos :
  14 <= len frame ->
  let bytes := tx_command_bytes wdev_id token frame dscp_tos (Z.land slot RPU_ADDR_MASK_OFFSET) in
  data_runs (p, v) (submit_transmit (E:=E) token slot wdev_id frame dscp_tos)
    (fun _ _ t => exists queues, dev_queues v = Some queues
       /\ (stored Processor.Umac (tx_command_address v token) bytes
           +++ handed_over (command_busy queues) (tx_command_address v token)
                 (dev_command_counter v)) t)
    (fun e _ t => match e with
       | DataError.QueueOwnershipUncertain _ =>
           (stored Processor.Umac (tx_command_address v token) bytes +++ anything) t
       | _ => stored_part Processor.Umac (tx_command_address v token) bytes t
       end).
Proof.
  intros Hlen bytes. unfold submit_transmit, transmit_queue_context.
  assert (stored_part Processor.Umac (tx_command_address v token) bytes []) as Hnil by (by left).
  eapply runs_bind.
  - eapply (runs_look_bind _ _ (p, v) snd). intros [p' d] [= -> Hd]. cbn [snd].
    apply runs_lift_bind.
    2: { intros e He. instantiate (1 := fun e _ t => match e with
           | DataError.QueueOwnershipUncertain _ => False | _ => t = [] end).
         destruct (tx_command_base d); [done|]. by injection He as <-. }
    intros base Hbase. apply runs_lift_bind.
    2: { intros e He. destruct (dev_queues d); [done|]. by injection He as <-. }
    intros queues Hq. apply runs_ret.
    instantiate (1 := fun bq u t => exists queues, u = (p, v) /\ t = [] /\ dev_queues v = Some queues
      /\ tx_command_base v = Some bq.1 /\ bq.2 = command_busy queues).
    subst v. exists queues. destruct (tx_command_base d) eqn:Hb; [|done]. injection Hbase as ->.
    destruct (dev_queues d) eqn:Hdq; [|done]. injection Hq as ->. done.
  - intros [base q] u t (queues & -> & -> & Hq & Hbase & Hbq). cbn [fst snd] in *. subst q.
    rewrite encode_tx_command_spec by done. apply runs_lift_bind; [intros ? [= <-]|done]. fold bytes.
    assert (u32 (base + u32 (TX_COMMAND_SLOT_SIZE * token)) = tx_command_address v token) as ->
      by (unfold tx_command_address; by rewrite Hbase).
    eapply runs_bind; [apply data_runs_attempt, data_runs_rpu, bus_runs_store| |done].
    intros [[]|e] u t [-> Ht].
    + eapply runs_conseq; [apply data_runs_deliver|..].
      * intros [] u t' Ht'. exists queues. split; [done|]. cbn [app]. by apply follows_intro.
      * intros e u t' [e' ->]. cbn [app]. by apply follows_intro.
    + eapply runs_bind; [apply data_runs_release| |done].
      intros [] u t' ->. apply runs_throw. by rewrite !app_nil_r.
  - intros e u t He. destruct e; try done; by rewrite He.
Qed.

Lemma data_runs_transmit p v wdev_id frame dscp_tos :
  path_wf RX TX p ->
  data_runs (p, v) (transmit (E:=E) TX wdev_id frame dscp_tos)
    (fun token _ t => transmit_logged (E:=E) TX p v wdev_id frame dscp_tos (Ok token) t)
    (fun e _ t => transmit_logged TX p v wdev_id frame dscp_tos (Err e) t).
Proof.
  intros Hwf. unfold transmit. eapply runs_bind; [by apply data_runs_prepare| |].
  - intros [token slot] [p1 v1] t. cbn [fst snd]. intros (Ht & -> & Hlen & Hslot & Hst).
    eapply runs_bind; [by apply data_runs_submit| |].
    + intros [] u t' (queues & Hq & t1 & t2 & -> & H1' & H2'). apply runs_ret. rewrite app_nil_r.
      exists slot, queues. split_and!; [done..|]. rewrite app_assoc.
      by apply follows_intro; [apply follows_intro|].
    + intros e u t' He. assert (stored_part Processor.Umac slot frame t) by (by apply stored_is_part).
      destruct e as [| | | | | |]; cbn; try (exists token, slot; split; [done|]; by apply follows_intro).
      destruct He as (t1 & t2 & -> & H1' & H2'). exists token, slot. split; [done|].
      rewrite app_assoc. by apply follows_intro; [apply follows_intro|].
  - intros e u t [He (token & slot & Hslot & Hst)].
    destruct e; cbn; try (exists token, slot; split; [done|]; apply follows_nil_r; [done|by left]).
    by edestruct He.
Qed.
End data_log.

(** ** Receive descriptors *)

Section receive.
Context {W E : Type} `{HL : BusLaws W E} `{!DelayOps W} `{!DelayLaws W E}.
Variables RX TX : Z.
Implicit Types p : DataPath.
Implicit Types v : Device unit.

(** [p'] is [p] with the host-owned descriptor [i] handed to the firmware. *)
Definition posted p (i : Z) p' : Prop :=
  nthZ (dp_rx_posted p) i = Some false
  /\ p' = set_rx_posted (set_flag (dp_rx_posted p) i true) p.

Definition post_failed p0 (i : Z) (e : DataError.t E) p : Prop :=
  match e with
  | DataError.ReceiveDescriptorBusy _ => p = p0 /\ nthZ (dp_rx_posted p0) i = Some true
  | DataError.Protocol (DataProtocolError.InvalidDescriptor _)
  | DataError.Device DeviceError.NotInitialized
  | DataError.Rpu _ => p = p0
  | DataError.QueueOwnershipUncertain _ => posted p0 i p
  | _ => False
  end.

Lemma psafe_available p0 v0 i :
  path_wf RX TX p0 -> 0 <= i ->
  psafe (fun p v => p = p0 /\ v = v0) (on_path (available_rx_index (E:=E) RX i))
    (fun j p v => (j = i /\ i < RX /\ nthZ (dp_rx_posted p0) i = Some false) /\ p = p0 /\ v = v0)
    (fun e p v => post_failed p0 i e p /\ v = v0).
Proof.
  intros Hwf Hi. apply psafe_on_path. intros p v [-> ->]. unfold available_rx_index.
  munfold. cbv zeta. destruct (RX <=? i) eqn:Hr; [done|]. apply Z.leb_gt in Hr.
  destruct (nthZ_in (dp_rx_posted p0) i) as [b Hb]; [destruct Hwf; lia|].
  rewrite Hb. by destruct b.
Qed.

Lemma psafe_rx_context p0 v0 pool i :
  psafe (fun p v => p = p0 /\ v = v0) (rx_queue_context (E:=E) pool i)
    (fun _ p v => p = p0 /\ v = v0) (fun e p v => post_failed p0 i e p /\ v = v0).
Proof.
  intros [p d] [Hb [Hp Hv]]. unfold rx_queue_context. munfold. cbn [fst snd] in *.
  destruct (dev_queues d) as [q|]; cbn [ok_or]; [|done].
  destruct (nthZ _ pool); cbn [ok_or]; [|done].
  by destruct (rx_command_base d).
Qed.

Lemma psafe_prepare_rx p0 v0 slot base i :
  psafe (fun p v => p = p0 /\ v = v0) (prepare_rx_descriptor (E:=E) slot base i)
    (fun _ p v => p = p0 /\ v = v0) (fun e p v => post_failed p0 i e p /\ v = v0).
Proof.
  unfold prepare_rx_descriptor. apply (psafe_bind _ _ _ (fun _ p v => p = p0 /\ v = v0)).
  { eapply psafe_conseq; [apply (psafe_rpu (fun p v => p = p0 /\ v = v0)), safe_write_u32|done|by intros _ p v [_ ?]|].
    by intros e p v [[e' ->] [-> ->]]. }
  intros _. cbv zeta. apply (psafe_bind _ _ _ (fun _ p v => p = p0 /\ v = v0)).
  - eapply psafe_conseq; [apply (psafe_rpu (fun p v => p = p0 /\ v = v0)), safe_write_indirect|done|by intros _ p v [_ ?]|].
    by intros e p v [[e' ->] [-> ->]].
  - intros _. by apply psafe_ret.
Qed.

Lemma psafe_post p0 v0 i pool :
  path_wf RX TX p0 -> 0 <= i ->
  psafe (fun p v => p = p0 /\ v = v0) (post_rx (E:=E) RX i pool)
    (fun _ p v => posted p0 i p /\ v = v0) (fun e p v => post_failed p0 i e p /\ v = v0).
Proof.
  intros Hwf Hi. unfold post_rx. eapply psafe_bind; [by apply psafe_available|].
  intros j. apply (psafe_pure _ _ _ _ (j = i /\ i < RX /\ nthZ (dp_rx_posted p0) i = Some false));
    [by intros p v []|]. intros (-> & Hr & Hf).
  apply (psafe_bind _ _ _ (fun _ p v => p = p0 /\ v = v0)).
  { eapply psafe_conseq; [apply psafe_rx_context|by intros p v [_ ?]|done|done]. }
  intros [queue base]. apply (psafe_bind _ _ _ (fun q p v => q = p0 /\ p = p0 /\ v = v0)).
  { apply (psafe_get_path _ id). by intros p v [-> ->]. }
  intros q. apply (psafe_pure _ _ _ _ (q = p0)); [by intros p v []|]. intros ->.
  destruct (rx_slot_spec RX TX p0 i Hwf ltac:(lia)) as [-> _]. cbn [ok_or].
  apply (psafe_bind _ _ _ (fun _ p v => p = p0 /\ v = v0)).
  { apply psafe_lift; [done| |done]. by intros a p v [_ ?]. }
  intros slot. eapply psafe_bind; [apply psafe_prepare_rx|]. intros address.
  apply (psafe_bind _ _ _ (fun _ p v => posted p0 i p /\ v = v0)).
  { apply psafe_on_path. by intros p v [-> ->]. }
  intros _. eapply psafe_mapM_err.
  - eapply psafe_conseq; [apply (psafe_device (posted p0 i) v0), (dsafe_enqueue (eq v0))|done| |].
    + by intros _ p v [? <-].
    + intros e p v Hx. exact Hx.
  - by intros e p v [? <-].
Qed.

(** [p] with the first [k] descriptors posted. *)
Definition posted_upto p (k : nat) : DataPath :=
  set_rx_posted (replicate k true ++ drop k (dp_rx_posted p)) p.

Lemma posted_upto_wf p k :
  path_wf RX TX p -> (k <= Z.to_nat RX)%nat -> path_wf RX TX (posted_upto p k).
Proof.
  intros [] Hk. constructor; try done. cbn. rewrite len_app, len_replicate, len_drop. lia.
Qed.

Lemma posted_upto_next p k :
  path_wf RX TX p -> (k < Z.to_nat RX)%nat ->
  set_rx_posted (set_flag (dp_rx_posted (posted_upto p k)) (Z.of_nat k) true) (posted_upto p k)
  = posted_upto p (S k)
  /\ nthZ (dp_rx_posted (posted_upto p k)) (Z.of_nat k) = nthZ (dp_rx_posted p) (Z.of_nat k)
  /\ (nthZ (dp_rx_posted p) (Z.of_nat k) = Some true -> posted_upto p k = posted_upto p (S k)).
Proof.
  intros [] Hk. unfold posted_upto, set_flag. cbn [dp_rx_posted set_rx_posted].
  assert (k < length (dp_rx_posted p))%nat as Hlen by (unfold len in *; lia).
  destruct (lookup_lt_is_Some_2 _ _ Hlen) as [b Hb].
  rewrite (drop_S _ b k Hb), Nat2Z.id, replicate_S_end, <-app_assoc.
  split_and!.
  - unfold set_rx_posted. cbn. f_equal. rewrite insert_app_r_alt by (by rewrite length_replicate).
    by rewrite length_replicate, Nat.sub_diag.
  - unfold nthZ. rewrite (proj2 (Z.leb_le 0 _)), Nat2Z.id by lia.
    rewrite lookup_app_r by (by rewrite length_replicate).
    rewrite length_replicate, Nat.sub_diag. cbn. by rewrite Hb.
  - unfold nthZ. rewrite (proj2 (Z.leb_le 0 _)), Nat2Z.id, Hb by lia. by intros [= ->].
Qed.

(** Posting every descriptor that the host owns. *)
Lemma psafe_post_all p0 v0 :
  path_wf RX TX p0 ->
  psafe (fun p v => p = p0 /\ v = v0) (post_all_rx (E:=E) RX)
    (fun _ p v => p = set_rx_posted (replicate (Z.to_nat RX) true) p0 /\ v = v0)
    (fun _ p v => v = v0).
Proof.
  intros Hwf. unfold post_all_rx.
  assert (forall m k, (k + m = Z.to_nat RX)%nat ->
    psafe (fun p v => p = posted_upto p0 k /\ v = v0)
      (for_each (map Z.of_nat (seq k m)) (fun descriptor =>
         p ← gets fst;
         posted ← lift (expect (nthZ (dp_rx_posted p) descriptor));
         if negb posted then post_rx RX (u16 descriptor) 0 else mret tt))
      (fun _ p v => p = posted_upto p0 (k + m) /\ v = v0) (fun _ p v => v = v0)) as Hloop.
  { induction m as [|m IH]; intros k Hk; cbn [seq map for_each].
    { rewrite Nat.add_0_r. by apply psafe_ret. }
    destruct (posted_upto_next p0 k Hwf) as (Hnext & Hnth & Hskip); [lia|].
    pose proof (posted_upto_wf p0 k Hwf ltac:(lia)) as Hwfk.
    destruct (nthZ_in (dp_rx_posted p0) (Z.of_nat k)) as [b Hb]; [destruct Hwf; lia|].
    apply (psafe_bind _ _ _ (fun _ p v => p = posted_upto p0 (S k) /\ v = v0)).
    2: { intros _. rewrite <-Nat.add_succ_comm. apply IH. lia. }
    apply (psafe_bind _ _ _ (fun q p v => q = posted_upto p0 k /\ p = posted_upto p0 k /\ v = v0)).
    { apply (psafe_get_path _ id). by intros p v [-> ->]. }
    intros q. apply (psafe_pure _ _ _ _ (q = posted_upto p0 k)); [by intros p v []|]. intros ->.
    rewrite Hnth, Hb. cbn [expect].
    apply (psafe_bind _ _ _ (fun c p v => c = b /\ p = posted_upto p0 k /\ v = v0)).
    { apply psafe_lift; [done| |done]. by intros a p v [_ ?] [= ->]. }
    intros c. apply (psafe_pure _ _ _ _ (c = b)); [by intros p v []|]. intros ->.
    assert (u16 (Z.of_nat k) = Z.of_nat k) as Hu.
    { unfold u16. apply Z.mod_small. destruct Hwf. lia. }
    destruct b; cbn [negb].
    - apply psafe_ret. intros p v (_ & -> & ->). by rewrite <-Hskip.
    - rewrite Hu. eapply psafe_conseq; [apply (psafe_post (posted_upto p0 k) v0); [done|lia]| | |].
      + by intros p v [_ ?].
      + intros _ p v [[_ ->] ->]. by rewrite Hnext.
      + by intros e p v [_ ?]. }
  eapply psafe_conseq; [apply (Hloop (Z.to_nat RX) 0%nat eq_refl)| | |done].
  - intros p v [-> ->]. split; [|done]. unfold posted_upto. cbn. by destruct p0.
  - intros _ p v [-> ->]. split; [|done]. unfold posted_upto. f_equal. cbn [Nat.add].
    rewrite drop_ge; [by rewrite app_nil_r|]. destruct Hwf. unfold len in *. lia.
Qed.
End receive.

(** ** Ethernet conversion *)

(** What a received frame of each payload type means: destination, source, the
    EtherType bytes and the offset of the payload. *)
Definition llc_len (ether_type : list Z) : Z := if 0x0600 <=? from_be ether_type then 8 else 2.

Definition mpdu_addresses (frame da sa : list Z) : Prop :=
  exists fc, @Codec.read_u16 DataProtocolError.t frame 0 = Ok fc /\
  match has fc 0x0100, has fc 0x0200 with
  | false, false => slice frame 4 10 = Some da /\ slice frame 10 16 = Some sa
  | false, true => slice frame 4 10 = Some da /\ slice frame 16 22 = Some sa
  | true, false => slice frame 16 22 = Some da /\ slice frame 10 16 = Some sa
  | true, true => slice frame 16 22 = Some da /\ slice frame 24 30 = Some sa
  end.

Definition msdu_fields (start : Z) (frame da sa et : list Z) (off : Z) : Prop :=
  slice frame start (start + 6) = Some da /\ slice frame (start + 6) (start + 12) = Some sa
  /\ slice frame (start + 20) (start + 22) = Some et /\ off = start + 14 + llc_len et.

Definition frame_fields (payload_type : RxPayloadType.t) (mac_header_len : Z)
    (frame da sa et : list Z) (off : Z) : Prop :=
  match payload_type with
  | RxPayloadType.Mpdu =>
      24 <= mac_header_len /\ mpdu_addresses frame da sa
      /\ slice frame (mac_header_len + 6) (mac_header_len + 8) = Some et
      /\ off = mac_header_len + llc_len et
  | RxPayloadType.MsduWithMac => msdu_fields mac_header_len frame da sa et off
  | RxPayloadType.Msdu => msdu_fields 0 frame da sa et off
  end.

Lemma slice_pair (l : list Z) a s : slice l a (a + 2) = Some s ->
  exists b c, s = [b; c] /\ nthZ l a = Some b /\ nthZ l (a + 1) = Some c.
Proof.
  intros Hs. pose proof (slice_len _ _ _ _ Hs).
  destruct s as [|b [|c [|]]]; try (rewrite ?len_cons, ?len_nil in *; len_pose; lia).
  exists b, c. split; [done|].
  pose proof (@index_slice unit _ _ _ _ 0 Hs ltac:(done)) as H0.
  pose proof (@index_slice unit _ _ _ _ 1 Hs ltac:(done)) as H1.
  rewrite Z.add_0_r in H0. unfold index in *.
  destruct (nthZ l a), (nthZ l (a + 1)); cbn in H0, H1; naive_solver.
Qed.

Lemma llc_ether_type_spec frame off :
  0 <= off <= 65535 -> len frame <= 65535 ->
  match llc_ether_type frame off with
  | Ok t => exists et, slice frame (off + 6) (off + 8) = Some et /\ t = from_be et
                       /\ off + 8 <= len frame
  | Err _ => slice frame (off + 6) (off + 8) = None
  | Panic => False
  end.
Proof.
  intros Ho Hf. unfold llc_ether_type, checked_add, USIZE_MAX.
  rewrite (proj2 (Z.leb_le _ _)) by lia. cbn [ok_or mbind res_bind].
  destruct (len frame <? off + 8) eqn:Hl.
  { unfold slice. rewrite (proj2 (Z.leb_gt (off + 8) _)) by lia. by rewrite andb_false_r. }
  destruct (slice frame (off + 6) (off + 8)) as [et|] eqn:Hs.
  - replace (off + 8) with (off + 6 + 2) in Hs by lia.
    destruct (slice_pair _ _ _ Hs) as (b & c & -> & Hb & Hc).
    unfold index. replace (off + 7) with (off + 6 + 1) by lia. rewrite Hb, Hc. cbn.
    exists [b; c]. split_and!; [done..|lia].
  - by rewrite slice_in in Hs by lia.
Qed.

Lemma to_be_pair et : bytes_ok et -> len et = 2 -> to_be 2 (from_be et) = et.
Proof.
  intros Hb Hl. destruct et as [|b [|c [|]]]; try (rewrite ?len_cons, ?len_nil in *; len_pose; lia).
  unfold to_be, from_be. change 2%nat with (length (rev [b; c])). rewrite to_le_from_le; [done|].
  by apply Forall_rev.
Qed.

Lemma splice_app {A} (l k v : list A) :
  splice (l ++ k) (len l) v = l ++ v ++ drop (length v) k.
Proof.
  unfold splice. replace (Z.to_nat (len l)) with (length l) by (unfold len; lia).
  by rewrite take_app_length, <-drop_drop, drop_app_length.
Qed.

(** The in-place move and the four stores. *)
Lemma rebuild_ethernet_spec frame off d s t :
  14 <= off <= len frame -> len frame <= 65535 -> len d = 6 -> len s = 6 ->
  exists frame', rebuild_ethernet off d s t frame = (Ok (14 + (len frame - off)), frame')
    /\ len frame' = len frame
    /\ take (Z.to_nat (14 + (len frame - off))) frame' = d ++ s ++ to_be 2 t ++ drop (Z.to_nat off) frame.
Proof.
  intros Ho Hf Hd Hs. unfold rebuild_ethernet, checked_add, USIZE_MAX. munfold. cbv zeta.
  change ETHERNET_HEADER_LEN with 14.
  rewrite (proj2 (Z.ltb_ge (len frame) off)), (proj2 (Z.leb_le _ _)) by lia. cbn [ok_or].
  rewrite (proj2 (Z.ltb_ge (len frame) _)) by lia.
  set (X := drop (Z.to_nat off) frame).
  assert (len X = len frame - off) as HX by (unfold X; rewrite len_drop; lia).
  assert (exists a b c k, frame = a ++ b ++ c ++ k /\ len a = 6 /\ len b = 6 /\ len c = 2)
    as (a & b & c & k & Hfr & Ha & Hb & Hc).
  { exists (take 6 frame), (take 6 (drop 6 frame)), (take 2 (drop 12 frame)), (drop 14 frame).
    rewrite !len_take, !len_drop. split; [|lia].
    rewrite <-(take_drop 6 frame) at 1. f_equal. rewrite <-(take_drop 6 (drop 6 frame)) at 1.
    f_equal. rewrite drop_drop. rewrite <-(take_drop 2 (drop (6 + 6) frame)) at 1.
    by rewrite drop_drop. }
  assert (splice frame 14 X = [] ++ a ++ (b ++ c ++ X ++ drop (length X) k)) as ->.
  { replace 14 with (len (a ++ b ++ c)) by (rewrite !len_app; lia).
    rewrite Hfr. replace (a ++ b ++ c ++ k) with ((a ++ b ++ c) ++ k) by by rewrite <-!app_assoc.
    rewrite splice_app. by rewrite <-!app_assoc. }
  rewrite (splice_mid [] a) by (unfold len in *; lia). cbn [app].
  pose proof (splice_mid d b (c ++ X ++ drop (length X) k) s) as Hsp. rewrite Hd in Hsp.
  rewrite Hsp by (unfold len in *; lia). clear Hsp.
  assert (length (to_be 2 t) = length c) as Ht
    by (unfold to_be; rewrite length_rev, length_to_le; unfold len in *; lia).
  pose proof (splice_mid (d ++ s) c (X ++ drop (length X) k) (to_be 2 t) Ht) as Hsp.
  rewrite len_app, Hd, Hs, <-(app_assoc d s) in Hsp. change (6 + 6) with 12 in Hsp.
  rewrite Hsp. clear Hsp. eexists. split; [done|].
  assert (len (to_be 2 t) = 2) as Ht' by (unfold len in *; lia).
  assert (len frame = 14 + len k) as Hk by (rewrite Hfr, !len_app; lia).
  split; [rewrite !len_app, len_drop; unfold len in *; lia|].
  rewrite !app_assoc. apply take_app_length'. rewrite !length_app. unfold len in *. lia.
Qed.

Lemma ieee80211_addresses_spec frame fc :
  @Codec.read_u16 DataProtocolError.t frame 0 = Ok fc ->
  match ieee80211_addresses frame fc with
  | Ok (da, sa) => mpdu_addresses frame da sa /\ len da = 6 /\ len sa = 6
  | Err _ => len frame < 24 \/ forall da sa, ~ mpdu_addresses frame da sa
  | Panic => False
  end.
Proof.
  intros Hfc. unfold ieee80211_addresses. destruct (len frame <? 24) eqn:Hl; [lia|].
  apply Z.ltb_ge in Hl.
  destruct (@subslice_ok DataProtocolError.t frame 4 10) as (a1 & H1 & L1); [lia..|].
  destruct (@subslice_ok DataProtocolError.t frame 10 16) as (a2 & H2 & L2); [lia..|].
  destruct (@subslice_ok DataProtocolError.t frame 16 22) as (a3 & H3 & L3); [lia..|].
  rewrite H1, H2, H3. cbn [mbind res_bind]. unfold subslice in H1, H2, H3.
  destruct (slice frame 4 10) eqn:S1, (slice frame 10 16) eqn:S2, (slice frame 16 22) eqn:S3;
    try discriminate. injection H1 as ->. injection H2 as ->. injection H3 as ->.
  destruct (has fc 0x0100) eqn:Ht, (has fc 0x0200) eqn:Hf; cbn [andb three_address_mapping].
  - unfold four_address_mapping. destruct (len frame <? 30) eqn:Hl'.
    + right. intros da sa (fc' & Hfc' & Hm). rewrite Hfc in Hfc'. injection Hfc' as <-.
      rewrite Ht, Hf in Hm. destruct Hm as [_ Hm%slice_Some]. lia.
    + destruct (@subslice_ok DataProtocolError.t frame 24 30) as (a4 & H4 & L4); [lia..|].
      rewrite H4. cbn. unfold subslice in H4. destruct (slice frame 24 30) eqn:S4; [|discriminate].
      injection H4 as ->. split; [|lia]. exists fc. by rewrite Ht, Hf.
  - split; [|lia]. exists fc. by rewrite Ht, Hf.
  - split; [|lia]. exists fc. by rewrite Ht, Hf.
  - split; [|lia]. exists fc. by rewrite Ht, Hf.
Qed.

(** The result of [rebuild_ethernet] for a received frame. *)
Definition converted (payload_type : RxPayloadType.t) (h : Z) (frame : list Z)
    (r : res DataProtocolError.t Z * list Z) : Prop :=
  match r with
  | (Ok n, frame') =>
      exists da sa et off, frame_fields payload_type h frame da sa et off
        /\ 14 <= n <= len frame /\ n = 14 + (len frame - off) /\ len frame' = len frame
        /\ take (Z.to_nat n) frame' = da ++ sa ++ et ++ drop (Z.to_nat off) frame
  | (Err _, frame') =>
      frame' = frame /\ forall da sa et off, ~ frame_fields payload_type h frame da sa et off
  | (Panic, _) => payload_type = RxPayloadType.Mpdu /\ len frame < 2
  end.

Lemma llc_skip_len et : llc_skip (from_be et) = llc_len et.
Proof. done. Qed.

Lemma llc_len_range et : 2 <= llc_len et <= 8.
Proof. unfold llc_len. destruct (_ <=? _); lia. Qed.

Lemma rebuild_converted pt h frame da sa et off :
  bytes_ok frame -> len frame <= 65535 -> frame_fields pt h frame da sa et off ->
  14 <= off <= len frame -> len da = 6 -> len sa = 6 -> bytes_ok et -> len et = 2 ->
  converted pt h frame (rebuild_ethernet off da sa (from_be et) frame).
Proof.
  intros Hb Hl Hf Ho Hd Hs Hbe Hle.
  destruct (rebuild_ethernet_spec frame off da sa (from_be et)) as (frame' & -> & Hl' & Ht);
    [done..|]. cbn. exists da, sa, et, off. rewrite Ht, to_be_pair by done.
  split_and!; try done; lia.
Qed.

Lemma convert_mpdu_spec h frame :
  bytes_ok frame -> len frame <= 65535 -> 0 <= h < 256 ->
  converted RxPayloadType.Mpdu h frame (convert_mpdu h frame).
Proof.
  intros Hb Hl Hh. unfold convert_mpdu.
  destruct (h <? 24) eqn:H24; [split; [done|]; intros da sa et off [? _]; lia|].
  apply Z.ltb_ge in H24. munfold. destruct (Z_lt_le_dec (len frame) 2) as [Hs|Hs].
  { unfold Codec.read_u16, index. rewrite (nthZ_out frame (0 + 1)) by lia.
    by destruct (nthZ frame 0). }
  destruct (@read_u16_ok DataProtocolError.t frame 0) as [fc Hfc]; [lia..|]. rewrite Hfc.
  pose proof (ieee80211_addresses_spec frame fc Hfc) as Ha.
  destruct (ieee80211_addresses frame fc) as [[da sa]|e|]; [|split; [done|]|done].
  2: { intros da sa et off (_ & Hm & He%slice_Some & _). destruct Ha as [?|Ha]; [lia|].
       by eapply Ha. }
  destruct Ha as (Hm & Hd & Hsa). pose proof (llc_ether_type_spec frame h ltac:(lia) Hl) as He.
  destruct (llc_ether_type frame h) as [t|e|]; [|split; [done|]|done].
  2: { intros da' sa' et off (_ & _ & He' & _). congruence. }
  destruct He as (et & Het & -> & Hend). rewrite llc_skip_len.
  pose proof (llc_len_range et). unfold checked_add, USIZE_MAX.
  rewrite (proj2 (Z.leb_le (h + _) _)) by lia. cbn [ok_or].
  apply rebuild_converted; try done; try lia.
  - by eapply bytes_ok_slice.
  - rewrite (slice_len _ _ _ _ Het). lia.
Qed.

Lemma convert_msdu_spec pt start h frame :
  (forall da sa et off, frame_fields pt h frame da sa et off = msdu_fields start frame da sa et off) ->
  bytes_ok frame -> len frame <= 65535 -> 0 <= start < 256 ->
  converted pt h frame (convert_msdu start frame).
Proof.
  intros Hpt Hb Hl Hh. unfold convert_msdu. munfold. cbv zeta. unfold checked_add, USIZE_MAX.
  rewrite (proj2 (Z.leb_le (start + 14) _)) by lia. cbn [ok_or].
  destruct (len frame <? start + 14) eqn:Hlt.
  { split; [done|]. intros da sa et off. rewrite Hpt. intros (_ & _ & He%slice_Some & _). lia. }
  apply Z.ltb_ge in Hlt. unfold subslice.
  destruct (slice frame start (start + 6)) as [da|] eqn:Hda; [|by rewrite slice_in in Hda by lia].
  destruct (slice frame (start + 6) (start + 12)) as [sa|] eqn:Hsa;
    [|by rewrite slice_in in Hsa by lia]. cbn [expect].
  pose proof (llc_ether_type_spec frame (start + 14) ltac:(lia) Hl) as He.
  replace (start + 14 + 6) with (start + 20) in He by lia.
  replace (start + 14 + 8) with (start + 22) in He by lia.
  destruct (llc_ether_type frame (start + 14)) as [t|e|]; [|split; [done|]|done].
  2: { intros da' sa' et off. rewrite Hpt. intros (_ & _ & He' & _). congruence. }
  destruct He as (et & Het & -> & Hend). rewrite llc_skip_len. pose proof (llc_len_range et).
  rewrite (proj2 (Z.leb_le (start + 14 + _) _)) by lia. cbn [ok_or].
  apply rebuild_converted; try done; try lia.
  - by rewrite Hpt.
  - rewrite (slice_len _ _ _ _ Hda). lia.
  - rewrite (slice_len _ _ _ _ Hsa). lia.
  - by eapply bytes_ok_slice.
  - rewrite (slice_len _ _ _ _ Het). lia.
Qed.

Lemma convert_spec pt h frame :
  bytes_ok frame -> len frame <= 65535 -> 0 <= h < 256 ->
  converted pt h frame (convert_to_ethernet pt h frame).
Proof.
  intros. destruct pt; cbn [convert_to_ethernet];
    [by apply convert_mpdu_spec|by apply (convert_msdu_spec _ h)|].
  by apply (convert_msdu_spec _ 0).
Qed.

Lemma bytes_ok_splice l a v : bytes_ok l -> bytes_ok v -> bytes_ok (splice l a v).
Proof.
  intros. unfold splice. apply Forall_app_2; [by apply Forall_take|].
  apply Forall_app_2; [done|by apply Forall_drop].
Qed.

Lemma rebuild_ethernet_bytes off d s t frame :
  bytes_ok frame -> bytes_ok d -> bytes_ok s -> bytes_ok (rebuild_ethernet off d s t frame).2.
Proof.
  intros. unfold rebuild_ethernet. munfold. cbv zeta. destruct (len frame <? off); [done|].
  destruct (checked_add _ _) as [n|]; cbn [ok_or]; [|done].
  destruct (len frame <? n); [done|]. cbn [snd].
  repeat apply bytes_ok_splice; try done; [by apply Forall_drop|].
  apply Forall_rev, to_le_bytes.
Qed.

Lemma subslice_bytes {E} l a b s : bytes_ok l -> @subslice E l a b = Ok s -> bytes_ok s.
Proof.
  unfold subslice. intros Hl Hs. destruct (slice l a b) eqn:H'; [|discriminate].
  injection Hs as <-. by eapply bytes_ok_slice.
Qed.

Lemma ieee80211_addresses_bytes frame fc da sa :
  bytes_ok frame -> ieee80211_addresses frame fc = Ok (da, sa) -> bytes_ok da /\ bytes_ok sa.
Proof.
  intros Hb. pose proof (subslice_bytes (E:=DataProtocolError.t) frame) as Hs.
  unfold ieee80211_addresses, four_address_mapping. destruct (len frame <? 24); [done|].
  destruct (subslice frame 4 10) as [a1|e|] eqn:H1; [|done..].
  destruct (subslice frame 10 16) as [a2|e|] eqn:H2; [|done..].
  destruct (subslice frame 16 22) as [a3|e|] eqn:H3; [|done..]. cbn [mbind res_bind].
  destruct (has fc 0x0100), (has fc 0x0200); cbn; try (intros [= <- <-]; eauto).
  destruct (len frame <? 30); [done|].
  destruct (subslice frame 24 30) as [a4|e|] eqn:H4; [|done..]. intros [= <- <-]. eauto.
Qed.

Lemma convert_msdu_bytes h frame : bytes_ok frame -> bytes_ok (convert_msdu h frame).2.
Proof.
  intros Hb. unfold convert_msdu. munfold. cbv zeta.
  destruct (checked_add h 14) as [n|]; cbn [ok_or]; [|done]. destruct (_ <? _); [done|].
  pose proof (subslice_bytes (E:=DataProtocolError.t) frame) as Hs.
  destruct (subslice frame h (h + 6)) as [da|e|] eqn:Hda; [|done..].
  destruct (subslice frame (h + 6) (h + 12)) as [sa|e|] eqn:Hsa; [|done..].
  destruct (llc_ether_type frame n); [|done..]. destruct (ok_or _ _); [|done..].
  apply rebuild_ethernet_bytes; eauto.
Qed.

Lemma convert_bytes pt h frame : bytes_ok frame -> bytes_ok (convert_to_ethernet pt h frame).2.
Proof.
  intros Hb. destruct pt; cbn [convert_to_ethernet]; try by apply convert_msdu_bytes.
  unfold convert_mpdu. munfold. cbv zeta.
  destruct (_ <? _); [done|]. destruct (Codec.read_u16 frame 0) as [fc|e|]; [|done..].
  pose proof (ieee80211_addresses_bytes frame fc) as Ha.
  destruct (ieee80211_addresses frame fc) as [[da sa]|e|]; [|done..].
  destruct (Ha da sa Hb eq_refl). destruct (llc_ether_type frame h); [|done..].
  destruct (ok_or _ _); [|done..]. by apply rebuild_ethernet_bytes.
Qed.

(** ** Data events *)

Record event_wf (e : RxEventRef) : Prop := {
  ev_bytes : bytes_ok (rx_payload e);
  ev_packets : RX_EVENT_FIXED_LEN + rx_packet_count e * RX_INFO_LEN <= len (rx_payload e);
  ev_count : 0 <= rx_packet_count e < 256;
  ev_header : 0 <= rx_mac_header_len e < 256 }.

Lemma validated_data_payload_spec m command n :
  bytes_ok (payload m) -> 8 <= n ->
  match validated_data_payload m command n with
  | Ok (p, declared) => p = payload m /\ n <= declared <= len p
  | Err _ => True
  | Panic => False
  end.
Proof.
  intros Hb Hn. unfold validated_data_payload. destruct (negb (bool_decide _)); [done|].
  destruct (len (payload m) <? n) eqn:Hl; [done|]. apply Z.ltb_ge in Hl.
  destruct (@read_u32_ok DataProtocolError.t (payload m) 0) as [c ->]; [lia..|].
  cbn [mbind res_bind]. destruct (negb (c =? _)); [done|].
  destruct (@read_u32_ok DataProtocolError.t (payload m) 4) as [d ->]; [lia..|].
  cbn [mbind res_bind]. destruct (_ || _) eqn:Hd; [done|].
  apply orb_false_iff in Hd as []. split; [done|lia].
Qed.

Lemma read_i16_ok {E} l i : 0 <= i -> i + 2 <= len l -> exists v, @read_i16 E l i = Ok v.
Proof.
  intros. unfold read_i16. destruct (@index_in E l i) as [? ->]; [lia|].
  destruct (@index_in E l (i + 1)) as [? ->]; [lia|]. eexists. reflexivity.
Qed.

Lemma RxEventRef_parse_spec m :
  bytes_ok (payload m) ->
  match RxEventRef_parse m with Ok e => event_wf e | Err _ => True | Panic => False end.
Proof.
  intros Hb. unfold RxEventRef_parse.
  pose proof (validated_data_payload_spec m DataCommand.ReceiveBuffer RX_EVENT_FIXED_LEN Hb
    ltac:(done)) as Hv. unfold RX_EVENT_FIXED_LEN in *.
  destruct (validated_data_payload _ _ _) as [[p d]|e|]; [|done..]. destruct Hv as [-> Hd].
  cbn [mbind res_bind]. set (p := payload m) in *.
  destruct (@index_in DataProtocolError.t p 13) as [count Hc]; [lia|]. rewrite Hc.
  pose proof (index_byte _ _ _ Hb Hc) as Hcb. cbn [mbind res_bind].
  unfold is_byte, validate_rx_packet_array, checked_mul, checked_add, USIZE_MAX, RX_INFO_LEN,
    RX_EVENT_FIXED_LEN in *.
  rewrite !(proj2 (Z.leb_le _ _)) by lia. cbn [ok_or mbind res_bind].
  rewrite (proj2 (Z.leb_le _ _)) by lia. cbn [ok_or mbind res_bind].
  destruct (d <? 20 + count * 17) eqn:Hd'; [done|]. apply Z.ltb_ge in Hd'.
  cbn [mbind res_bind].
  destruct (@subslice_ok DataProtocolError.t p 0 d) as (body & Hbody & Hlen); [lia..|].
  rewrite Hbody. unfold subslice in Hbody.
  destruct (slice p 0 d) eqn:Hs; [|discriminate]. injection Hbody as ->.
  destruct (@read_i16_ok DataProtocolError.t p 8) as [? ->]; [lia..|].
  destruct (@index_in DataProtocolError.t p 10) as [? ->]; [lia..|].
  destruct (@index_in DataProtocolError.t p 11) as [? ->]; [lia..|].
  destruct (@index_in DataProtocolError.t p 12) as [? ->]; [lia..|].
  destruct (@index_in DataProtocolError.t p 15) as [h Hh]; [lia..|]. rewrite Hh.
  destruct (@read_u16_ok DataProtocolError.t p 16) as [? ->]; [lia..|].
  destruct (@read_i16_ok DataProtocolError.t p 18) as [? ->]; [lia..|].
  constructor; cbn; unfold RX_EVENT_FIXED_LEN, RX_INFO_LEN; try lia.
  - by eapply bytes_ok_slice.
  - by apply (index_byte _ _ _ Hb Hh).
Qed.

Lemma RxEventRef_packet_spec e i :
  event_wf e -> 0 <= i ->
  match RxEventRef_packet e i with
  | Ok info => in_u 16 (rp_descriptor_id info) /\ in_u 16 (rp_packet_len info)
  | Err _ => True
  | Panic => False
  end.
Proof.
  intros [Hb Hp Hc Hh] Hi. unfold RxEventRef_packet. destruct (_ <=? i) eqn:Hr; [done|].
  apply Z.leb_gt in Hr. cbv zeta. unfold RX_EVENT_FIXED_LEN, RX_INFO_LEN in *.
  destruct (@read_u16_range DataProtocolError.t (rx_payload e) (20 + i * 17)) as (d & -> & Hd);
    [done|lia..|].
  destruct (@read_u16_range DataProtocolError.t (rx_payload e) (20 + i * 17 + 2)) as (n & -> & Hn);
    [done|lia..|].
  destruct (@index_in DataProtocolError.t (rx_payload e) (20 + i * 17 + 4)) as [t ->]; [lia|].
  cbn [mbind res_bind]. unfold RxPayloadType.from_u8.
  destruct (t =? 0); [done|]. destruct (t =? 1); [done|]. by destruct (t =? 2).
Qed.

Lemma TxDoneEventRef_parse_no_panic m :
  bytes_ok (payload m) -> TxDoneEventRef_parse m <> Panic.
Proof.
  intros Hb. unfold TxDoneEventRef_parse.
  pose proof (validated_data_payload_spec m DataCommand.TransmitDone TX_DONE_FIXED_LEN Hb
    ltac:(done)) as Hv. unfold TX_DONE_FIXED_LEN in *.
  destruct (validated_data_payload _ _ _) as [[p d]|e|]; [|done..]. destruct Hv as [-> Hd].
  cbn [mbind res_bind]. set (p := payload m) in *.
  destruct (@index_in DataProtocolError.t p 9) as [count Hc]; [lia|]. rewrite Hc.
  pose proof (index_byte _ _ _ Hb Hc) as Hcb. cbn [mbind res_bind].
  unfold is_byte, checked_add, USIZE_MAX in *. rewrite (proj2 (Z.leb_le _ _)) by lia.
  cbn [ok_or mbind res_bind]. destruct (d =? 22 + count) eqn:Hq; cbn [negb]; [|done].
  apply Z.eqb_eq in Hq as ->.
  destruct (@index_in DataProtocolError.t p 8) as [t ->]; [lia|].
  by destruct (@subslice_ok DataProtocolError.t p 22 (22 + count)) as (s & -> & _); [lia..|].
Qed.

Lemma classify_data_event_no_panic m :
  bytes_ok (payload m) -> classify_data_event m <> Panic.
Proof.
  intros Hb. unfold classify_data_event. destruct (negb (bool_decide _)); [done|].
  destruct (len (payload m) <? 8) eqn:Hl; [done|]. apply Z.ltb_ge in Hl.
  destruct (@read_u32_ok DataProtocolError.t (payload m) 0) as [c ->]; [lia..|].
  destruct (@read_u32_ok DataProtocolError.t (payload m) 4) as [d ->]; [lia..|].
  cbn [mbind res_bind]. destruct (_ || _) eqn:Hd; [done|]. apply orb_false_iff in Hd as [].
  unfold classify_data_command, classify_transmit_done, classify_carrier.
  destruct (c =? 2); [by apply bind_no_panic; [apply TxDoneEventRef_parse_no_panic|]|].
  destruct (c =? 3); [done|].
  assert (forall on, classify_carrier (payload m) d on <> Panic) as Hcar.
  { intros on. unfold classify_carrier. destruct (d <? 12) eqn:?; [done|].
    destruct (@read_u32_ok DataProtocolError.t (payload m) 8) as [? ->]; [lia..|done]. }
  destruct (c =? 4); [apply (Hcar true)|]. destruct (c =? 5); [apply (Hcar false)|done].
Qed.

(** ** Receiving a packet *)

Section receive_packet.
Context {W E : Type} `{HL : BusLaws W E} `{!DelayOps W} `{!DelayLaws W E}.
Variables RX TX : Z.
Implicit Types p : DataPath.
Implicit Types v : Device unit.

(** [p'] is [p] with the posted descriptor [i] taken back by the host. *)
Definition taken p (i : Z) p' : Prop :=
  nthZ (dp_rx_posted p) i = Some true
  /\ p' = set_rx_posted (set_flag (dp_rx_posted p) i false) p.

Lemma taken_wf p i p' : path_wf RX TX p -> taken p i p' -> path_wf RX TX p'.
Proof. intros [] [Ht ->]. constructor; cbn; try done. by rewrite len_set_flag. Qed.

Lemma posted_taken p i p' p'' : taken p i p' -> posted p' i p'' -> p'' = p.
Proof.
  intros [Ht ->] [_ ->]. cbn. rewrite (set_flag_undo _ _ _ _ Ht). by destruct p.
Qed.

(** A failed reception: the descriptor is back with the firmware, or the host
    keeps it; after an uncertain queue write it counts as posted, and after a
    buffer found too small it is posted. *)
Definition receive_failed p0 (e : DataError.t E) p : Prop :=
  (p = p0 \/ exists i, taken p0 i p)
  /\ match e with
     | DataError.QueueOwnershipUncertain _ | DataError.OutputTooSmall _ _ => p = p0
     | DataError.Protocol _ | DataError.Rpu _ | DataError.Device DeviceError.NotInitialized => True
     | _ => False
     end.

Lemma psafe_repost p0 v0 i p1 :
  path_wf RX TX p0 -> 0 <= i -> taken p0 i p1 ->
  psafe (fun p v => p = p1 /\ v = v0) (post_rx (E:=E) RX i 0)
    (fun _ p v => p = p0 /\ v = v0) (fun e p v => receive_failed p0 e p /\ v = v0).
Proof.
  intros Hwf Hi Ht. eapply psafe_conseq;
    [apply (psafe_post RX TX p1 v0 i 0); [by apply (taken_wf p0 i)|done]|done| |].
  - intros _ p v [Hp ->]. split; [by eapply posted_taken|done].
  - intros e p v [Hp ->]. split; [|done].
    assert (Hf : nthZ (dp_rx_posted p1) i = Some false).
    { destruct Ht as [Ht ->]. by apply nthZ_set_flag, (nthZ_range _ _ _ Ht). }
    destruct e as [[]| |[]| | | |]; cbn in Hp; try done.
    all: try (subst p; split; [right; by exists i|done]).
    + assert (p = p0) as -> by (by eapply posted_taken). split; [by left|done].
    + destruct Hp as [_ Hp]. congruence.
Qed.

Lemma psafe_take p0 v0 event i :
  path_wf RX TX p0 -> event_wf event -> 0 <= i ->
  psafe (fun p v => p = p0 /\ v = v0) (on_path (take_rx_descriptor (E:=E) RX event i))
    (fun x p v => (RxEventRef_packet event i = Ok x.1.1 /\ x.1.2 = rp_descriptor_id x.1.1
                   /\ x.2 = rp_packet_len x.1.1 /\ 0 <= x.1.2 < RX /\ in_u 16 x.2)
                  /\ taken p0 x.1.2 p /\ v = v0)
    (fun e p v => receive_failed p0 e p /\ v = v0).
Proof.
  intros Hwf He Hi. apply psafe_on_path. intros p v [-> ->]. unfold take_rx_descriptor.
  pose proof (RxEventRef_packet_spec event i He Hi) as Hs. munfold.
  destruct (RxEventRef_packet event i) as [info|e|]; cbn [map_err]; [|by repeat split; left|done].
  destruct Hs as [[Hd _] Hn]. cbv zeta.
  destruct (RX <=? rp_descriptor_id info) eqn:Hr; cbn [negb].
  { split; [|done]. by split; [left|]. }
  apply Z.leb_gt in Hr.
  destruct (nthZ_in (dp_rx_posted p0) (rp_descriptor_id info)) as [b Hb]; [destruct Hwf; lia|].
  rewrite Hb. cbn [expect]. destruct b; cbn.
  - by split_and!.
  - split; [|done]. by split; [left|].
Qed.

Lemma psafe_capacity p0 v0 p1 info raw out :
  path_wf RX TX p0 -> 0 <= rp_descriptor_id info -> taken p0 (rp_descriptor_id info) p1 ->
  psafe (fun p v => p = p1 /\ v = v0) (ensure_receive_capacity (E:=E) RX info raw out)
    (fun _ p v => raw <= out /\ p = p1 /\ v = v0)
    (fun e p v => receive_failed p0 e p /\ v = v0).
Proof.
  intros Hwf Hi Ht. unfold ensure_receive_capacity.
  apply (psafe_bind _ _ _ (fun _ p v => p = p1 /\ v = v0)).
  { by apply (psafe_get_path _ id). }
  intros q. destruct (_ <? raw).
  { eapply psafe_bind; [by apply (psafe_repost p0 v0)|]. intros u. apply psafe_throw.
    intros p v [-> Hv]. split; [by split; [left|]|done]. }
  destruct (out <? raw) eqn:Ho.
  { eapply psafe_bind; [by apply (psafe_repost p0 v0)|]. intros u. apply psafe_throw.
    intros p v [-> Hv]. split; [by split; [left|]|done]. }
  apply psafe_ret. intros p v ?. split; [lia|done].
Qed.

(** [psafe] with a lent output buffer. *)
Definition rsafe {A E'} (n : Z) (R : DataPath -> Device unit -> Prop)
    (m : M ((DataPath * Device W) * list Z) E' A)
    (Q : A -> DataPath -> Device unit -> Prop) (F : E' -> DataPath -> Device unit -> Prop) : Prop :=
  lends n (pinv R) m (fun a => pinv (Q a)) (fun e => pinv (F e)).

Lemma rsafe_read n R (proc : Processor.t) a :
  rsafe n R (rpu_read_buffer (E:=E) proc a) (fun _ => R) (fun _ => R).
Proof.
  intros [[q d] l] [[Hb HR] Hl]. cbn [fst snd] in *.
  pose proof (lends_rpu_read (E:=E) n proc a (dev_rpu d, l) (conj Hb Hl)) as Hx.
  unfold rpu_read_buffer. destruct (Memory.read proc a (dev_rpu d, l)) as [[u|e|] [w l']]; cbn in *;
    [|..|done]; (split; [split; [apply Hx|exact HR]|apply Hx]).
Qed.

Lemma rsafe_read_or_repost n p0 v0 p1 info slot :
  path_wf RX TX p0 -> 0 <= rp_descriptor_id info -> taken p0 (rp_descriptor_id info) p1 ->
  rsafe n (fun p v => p = p1 /\ v = v0) (read_rx_or_repost (E:=E) RX info slot)
    (fun _ p v => p = p1 /\ v = v0) (fun e p v => receive_failed p0 e p /\ v = v0).
Proof.
  intros Hwf Hi Ht. unfold read_rx_or_repost.
  apply (lends_bind _ _ _ _ (fun _ => pinv (fun p v => p = p1 /\ v = v0))).
  { eapply triple_attempt;
      [apply (rsafe_read n (fun p v => p = p1 /\ v = v0))|by intros|by intros]. }
  intros [u|e]; [by apply lends_ret|].
  apply (lends_bind _ _ _ _ (fun _ => pinv (fun p v => p = p0 /\ v = v0))).
  - apply lends_on_fst. by apply (psafe_repost p0 v0).
  - intros _ [s l] [[Hb [Hp Hv]] Hl]. cbn in *. split; [|exact Hl]. split; [done|].
    split; [|done]. by split; [left|].
Qed.

(** The conversion of the received bytes; [n] is their length. *)
Lemma rsafe_convert n R pt h :
  0 <= n <= 65535 -> 0 <= h < 256 -> (pt = RxPayloadType.Mpdu -> 2 <= n) ->
  rsafe n R (on_output (convert_to_ethernet pt h))
    (fun k p v => 14 <= k <= n /\ R p v) (fun _ => R).
Proof.
  intros Hn Hh Hpt [[p d] l] [[Hb HR] [Hl Hok]]. cbn [fst snd] in *.
  pose proof (convert_spec pt h l Hok ltac:(lia) Hh) as Hc. unfold on_output.
  destruct (convert_to_ethernet pt h l) as [[k|e|] l'] eqn:Hcv.
  - destruct Hc as (da & sa & et & off & Hf & Hk & _ & Hlen & _).
    split; [split; [done|]; split; [cbn; lia|done]|]. split; [cbn; lia|].
    pose proof (convert_bytes pt h l Hok) as Hbo. by rewrite Hcv in Hbo.
  - destruct Hc as [-> _]. by repeat split.
  - destruct Hc as [? ?]. specialize (Hpt ltac:(done)). lia.
Qed.

Definition received p0 v0 event i (f : ReceivedFrame) p v : Prop :=
  p = p0 /\ v = v0 /\ exists info, RxEventRef_packet event i = Ok info
    /\ nthZ (dp_rx_posted p0) (rp_descriptor_id info) = Some true
    /\ rf_descriptor_id f = rp_descriptor_id info
    /\ 14 <= rf_len f <= rp_packet_len info.

(** The tail of [receive_packet], after the descriptor was taken. *)
Lemma rsafe_deliver n p0 v0 event i info p1 :
  path_wf RX TX p0 -> event_wf event -> RxEventRef_packet event i = Ok info ->
  0 <= rp_descriptor_id info < RX -> 0 <= rp_packet_len info <= n ->
  rp_packet_len info <= 65535 -> taken p0 (rp_descriptor_id info) p1 ->
  (rp_payload_type info = RxPayloadType.Mpdu -> 2 <= rp_packet_len info) ->
  rsafe n (fun p v => p = p1 /\ v = v0)
    (conversion ← attempt (on_slice 0 (rp_packet_len info)
       (on_output (convert_to_ethernet (rp_payload_type info) (rx_mac_header_len event))));
     on_fst (post_rx (E:=E) RX (rp_descriptor_id info) 0);;
     output ← gets snd;
     lift (received_frame conversion output info event))
    (received p0 v0 event i) (fun e p v => receive_failed p0 e p /\ v = v0).
Proof.
  intros Hwf He Hp Hd Hn Hn' Ht Hm.
  apply (lends_bind _ _ _ _ (fun c => pinv (fun p v => (p = p1 /\ v = v0)
    /\ match c with inl k => 14 <= k <= rp_packet_len info | inr _ => True end))).
  { eapply triple_attempt.
    - apply (lends_on_slice n 0 (rp_packet_len info)); [lia..|].
      apply (rsafe_convert (rp_packet_len info - 0) (fun p v => p = p1 /\ v = v0));
        [lia|by apply ev_header|intros; rewrite Z.sub_0_r; auto].
    - intros k [s l] [[Hb [Hk HR]] Hl]. split; [|exact Hl]. split; [done|].
      split; [exact HR|lia].
    - intros e [s l] [[Hb HR] Hl]. by repeat split; try apply HR; try apply Hl. }
  intros c. apply (lends_bind _ _ _ _ (fun _ => pinv (fun p v => (p = p0 /\ v = v0)
    /\ match c with inl k => 14 <= k <= rp_packet_len info | inr _ => True end))).
  { apply lends_on_fst. intros s [Hb [HR Hk]].
    pose proof (psafe_repost p0 v0 _ p1 Hwf (proj1 Hd) Ht s (conj Hb HR)) as Hx.
    destruct (post_rx RX _ 0 s) as [[u|e|] s']; [|done..].
    destruct Hx. by repeat split; try apply H1. }
  intros u [s l] [[Hb [[Hs Hv] Hk]] [Hl Hok]]. cbn [fst snd] in *. unfold mbind, M_bind, gets, lift.
  destruct c as [k|e]; cbn [received_frame snd].
  - destruct (@index_in (DataError.t E) l 12) as [b12 ->]; [lia|].
    destruct (@index_in (DataError.t E) l 13) as [b13 ->]; [lia|]. cbn.
    split; [|done]. split; [done|]. split; [done|]. split; [done|].
    exists info. cbn. split_and!; try done; try lia. apply Ht.
  - split; [|done]. split; [done|]. split; [|done]. split; [by left|done].
Qed.

Lemma rsafe_receive n p0 v0 event i :
  path_wf RX TX p0 -> event_wf event -> 0 <= i ->
  (forall info, RxEventRef_packet event i = Ok info ->
     rp_payload_type info = RxPayloadType.Mpdu -> 2 <= rp_packet_len info) ->
  rsafe n (fun p v => p = p0 /\ v = v0) (receive_packet (E:=E) RX event i)
    (received p0 v0 event i) (fun e p v => receive_failed p0 e p /\ v = v0).
Proof.
  intros Hwf He Hi Hm. unfold receive_packet.
  eapply lends_bind; [apply lends_on_fst; by apply psafe_take|].
  intros [[info d] raw]. cbn [fst snd].
  intros [[p1 dv] l] [[Hb [(Hp & Hd & Hraw & Hr & Hu) [Ht Hv]]] Hl]. cbn [fst snd] in *.
  subst d raw. pose proof Hl as [Hlen _]. unfold mbind at 1, M_bind at 1, gets at 1. cbn [snd].
  rewrite Hlen. clear Hlen.
  cut (rsafe n (fun p v => p = p1 /\ v = v0)
    (on_fst (ensure_receive_capacity (E:=E) RX info (rp_packet_len info) n);;
     p ← gets (fun sl => sl.1.1);
     slot ← lift (ok_or (rx_slot_address RX p (rp_descriptor_id info))
       (DataError.Protocol (DataProtocolError.InvalidDescriptor (rp_descriptor_id info))));
     on_slice 0 (rp_packet_len info) (read_rx_or_repost RX info slot);;
     conversion ← attempt (on_slice 0 (rp_packet_len info)
       (on_output (convert_to_ethernet (rp_payload_type info) (rx_mac_header_len event))));
     on_fst (post_rx RX (rp_descriptor_id info) 0);;
     output ← gets snd;
     lift (received_frame conversion output info event))
    (received p0 v0 event i) (fun e p v => receive_failed p0 e p /\ v = v0)).
  { intros Hx. exact (Hx (p1, dv, l) (conj (conj Hb (conj eq_refl Hv)) Hl)). }
  clear dv l Hb Hv Hl. unfold in_u in Hu.
  eapply lends_bind; [apply lends_on_fst, (psafe_capacity p0 v0 p1); try done; lia|]. intros u.
  intros [[p dv] l] [[Hb [Hcap [Hp1 Hv]]] Hl]. cbn [fst snd] in *. subst p.
  unfold mbind at 1, M_bind at 1, gets at 1. cbn [fst snd].
  destruct (rx_slot_spec RX TX p1 (rp_descriptor_id info) (taken_wf _ _ _ Hwf Ht) Hr) as [-> _].
  cbn [ok_or]. unfold mbind at 1, M_bind at 1, lift at 1.
  refine (lends_bind n (pinv (fun p v => p = p1 /\ v = v0)) _ _
            (fun _ => pinv (fun p v => p = p1 /\ v = v0)) (fun f => pinv (received p0 v0 event i f))
            (fun e => pinv (fun p v => receive_failed p0 e p /\ v = v0))
            _ _ (p1, dv, l) (conj (conj Hb (conj eq_refl Hv)) Hl)).
  - apply lends_on_slice; [lia|lia|]. apply (rsafe_read_or_repost _ p0 v0); try done. lia.
  - intros _. apply rsafe_deliver; try done; try lia. intros. by apply Hm.
Qed.
End receive_packet.

(** ** What a reception does to the bus *)

(** All of the steps, one after the other, or only the first few of them. *)
Fixpoint all_of (steps : list (log -> Prop)) : log -> Prop :=
  match steps with [] => silent | step :: steps => step +++ all_of steps end.
Fixpoint some_of (steps : list (log -> Prop)) (t : log) : Prop :=
  match steps with [] => t = [] | step :: steps => t = [] \/ (step +++ some_of steps) t end.

(** How descriptor [i] is written: its number in front of its slot, and the
    address of the slot in its command. *)
Definition rx_command_address (v : Device unit) (i : Z) : Z :=
  u32 (default 0 (rx_command_base v) + u32 (RX_COMMAND_SLOT_SIZE * i)).
Definition descriptor_steps (v : Device unit) (slot i : Z) : list (log -> Prop) :=
  [word_written Processor.Lmac slot i;
   register_written (Processor.indirect_control_register Processor.Lmac)
     (Z.shiftr (Z.land (rx_command_address v i) RPU_ADDR_MASK_OFFSET) 2);
   register_written (Processor.indirect_data_register Processor.Lmac)
     (Z.land (u32 (slot + RX_BUFFER_HEADROOM)) RPU_ADDR_MASK_OFFSET)].
(** The firmware is given it on the queue of free buffers of the pool. *)
Definition descriptor_posted (v : Device unit) (pool slot i : Z) : log -> Prop := fun t =>
  exists queues q, dev_queues v = Some queues /\ nthZ (rx_buffer_busy queues) pool = Some q
    /\ (all_of (descriptor_steps v slot i)
        +++ register_written (enqueue_address q) (rx_command_address v i)) t.

(** How a descriptor that was taken for a packet ends up after an error: given
    to the firmware again, kept by the host with nothing enqueued, or written
    but perhaps not enqueued. *)
Definition descriptor_ends (RX : Z) (p0 : DataPath) (v : Device unit) (i : Z) {E}
    (e : DataError.t E) (p : DataPath) (t : log) : Prop :=
  exists slot, rx_slot_address RX p0 i = Some slot /\
    ((p = p0 /\ (only_reads +++ descriptor_posted v 0 slot i) t)
     \/ (taken p0 i p /\ (only_reads +++ some_of (descriptor_steps v slot i)) t)
     \/ (p = p0 /\ (exists e', e = DataError.QueueOwnershipUncertain e')
         /\ (only_reads +++ all_of (descriptor_steps v slot i) +++ anything) t)).

(** What the log of a reception shows: the packet was read from the slot of its
    descriptor into the front of the caller's buffer and converted there, and
    the descriptor was posted again. *)
Definition receive_logged (RX : Z) (p0 : DataPath) (v : Device unit) (event : RxEventRef) (i : Z)
    (output : list Z) {E} (r : res (DataError.t E) ReceivedFrame) (p : DataPath) (output' : list Z)
    (t : log) : Prop :=
  match r with
  | Ok f => exists info slot packet frame,
      RxEventRef_packet event i = Ok info
      /\ rx_slot_address RX p0 (rp_descriptor_id info) = Some slot
      /\ len packet = rp_packet_len info
      /\ convert_to_ethernet (rp_payload_type info) (rx_mac_header_len event) packet
         = (Ok (rf_len f), frame)
      /\ output' = splice (splice output 0 packet) 0 frame
      /\ (exists high low, nthZ output' 12 = Some high /\ nthZ output' 13 = Some low
                           /\ rf_ether_type f = from_be [high; low])
      /\ rf_signal_dbm f = rx_signal_dbm event /\ rf_frequency_mhz f = rx_frequency_mhz event
      /\ (fetched Processor.Lmac (u32 (slot + RX_BUFFER_HEADROOM)) packet
          +++ descriptor_posted v 0 slot (rp_descriptor_id info)) t
  | Err e => (p = p0 /\ t = [])
      \/ exists info, RxEventRef_packet event i = Ok info
           /\ descriptor_ends RX p0 v (rp_descriptor_id info) e p t
  | Panic => False
  end.

Section receive_log.
Context {W E : Type} `{HT : BusTrace W E}.
Variables RX TX : Z.
Implicit Types p : DataPath.
Implicit Types v : Device unit.

Lemma land_command a :
  Z.land (Z.lor RPU_MCU_CORE_INDIRECT_BASE (Z.land a RPU_ADDR_MASK_OFFSET)) RPU_ADDR_MASK_OFFSET
  = Z.land a RPU_ADDR_MASK_OFFSET.
Proof.
  rewrite Z.land_lor_distr_l, <-Z.land_assoc, Z.land_diag.
  change (Z.land RPU_MCU_CORE_INDIRECT_BASE RPU_ADDR_MASK_OFFSET) with 0. apply Z.lor_0_l.
Qed.

Lemma data_runs_prepare_rx u v slot base i :
  rx_command_base v = Some base ->
  data_runs u (prepare_rx_descriptor (E:=E) slot base i)
    (fun a u' t => u' = u /\ a = rx_command_address v i /\ all_of (descriptor_steps v slot i) t)
    (fun e u' t => u' = u /\ (exists e', e = DataError.Rpu e') /\ some_of (descriptor_steps v slot i) t).
Proof.
  intros Hbase. unfold prepare_rx_descriptor.
  assert (u32 (base + u32 (RX_COMMAND_SLOT_SIZE * i)) = rx_command_address v i) as ->
    by (unfold rx_command_address; by rewrite Hbase).
  eapply runs_bind; [apply data_runs_rpu_err, bus_runs_write_u32| |].
  2: { intros e u' t (-> & He & e' & [->|Ht]); split_and!; [done..|by left|done|done|].
       right. apply follows_nil_r; [exact Ht|by left]. }
  intros [] u' t [-> Ht]. eapply runs_bind; [apply data_runs_rpu_err, bus_runs_write_indirect| |].
  - rewrite land_command. intros [] u' t' [-> (t1 & t2 & -> & H1 & H2)]. apply runs_ret.
    rewrite app_nil_r. split_and!; [done..|]. apply follows_intro; [done|].
    apply follows_intro; [done|]. by apply follows_nil_r.
  - rewrite land_command. intros e u' t' (-> & He & e' & Ht'). split_and!; [done..|].
    right. apply follows_intro; [done|].
    destruct Ht' as [->|[Ht'|(t1 & t2 & -> & H1 & H2)]]; [by left|right..].
    + apply follows_nil_r; [done|by left].
    + apply follows_intro; [done|]. right. by apply follows_nil_r.
Qed.

(** Posting a descriptor taken from [p0]. *)
Lemma data_runs_repost p0 p1 v i :
  path_wf RX TX p0 -> taken p0 i p1 -> 0 <= i < RX ->
  exists slot, rx_slot_address RX p0 i = Some slot /\
  data_runs (p1, v) (post_rx (E:=E) RX i 0)
    (fun _ u t => u = (p0, v) /\ descriptor_posted v 0 slot i t)
    (fun e u t => u.2 = v
      /\ ((taken p0 i u.1 /\ some_of (descriptor_steps v slot i) t)
          \/ (u.1 = p0 /\ (exists e', e = DataError.QueueOwnershipUncertain e')
              /\ (all_of (descriptor_steps v slot i) +++ anything) t))).
Proof.
  intros Hwf Ht Hi. destruct (rx_slot_spec RX TX p0 i Hwf Hi) as [Hslot _].
  eexists. split; [exact Hslot|]. set (slot := dp_rx_base p0 + i * dp_rx_stride p0) in *.
  assert (rx_slot_address RX p1 i = Some slot) as Hslot1 by (by destruct Ht as [_ ->]).
  assert (forall e : DataError.t E, v = v /\ ((taken p0 i p1 /\ some_of (descriptor_steps v slot i) [])
    \/ (p1 = p0 /\ (exists e', e = DataError.QueueOwnershipUncertain e')
        /\ (all_of (descriptor_steps v slot i) +++ anything) []))) as Hkept.
  { intros e. split; [done|]. left. split; [done|by left]. }
  unfold post_rx. apply data_runs_path.
  2: { intros e p' He. assert (p' = p1) as ->; [|apply Hkept]. revert He. unfold available_rx_index.
       munfold. destruct (RX <=? i); [by intros [= _ <-]|]. destruct (nthZ _ i) as [[]|]; cbn; by intros [= _ <-]. }
  intros j p' Hj. assert (j = i /\ p' = p1) as [-> ->].
  { revert Hj. unfold available_rx_index. munfold. destruct (RX <=? i); [done|].
    destruct (nthZ _ i) as [[]|]; cbn; by intros [= <- <-]. }
  unfold rx_queue_context.
  apply (runs_bind _ _ _ _ _ (fun qb u t => exists queues, u = (p1, v) /\ t = []
      /\ dev_queues v = Some queues /\ nthZ (rx_buffer_busy queues) 0 = Some qb.1
      /\ rx_command_base v = Some qb.2) (fun e u t => u = (p1, v) /\ t = [])).
  - eapply runs_look_bind. intros [q d] [= -> Hd]. cbn [snd].
    apply runs_lift_bind; [intros queues Hq|done]. apply runs_lift_bind; [intros b Hb|done].
    apply runs_lift_bind; [intros base Hbase|done]. apply runs_ret. subst v. exists queues.
    split_and!; [done|done| |by destruct (nthZ _ 0); [injection Hb as ->|]
                |cbn; by destruct (rx_command_base d) eqn:Hr; [injection Hbase as ->; rewrite <-Hr|]].
    cbn. destruct (dev_queues d); [by injection Hq as ->|done].
  - intros [q base] u t (queues & -> & -> & Hq & Hb & Hbase). cbn [fst snd app] in *.
    apply (runs_gets_bind _ _ _ _ fst); [done|]. cbn [fst]. rewrite Hslot1. cbn [ok_or].
    apply runs_lift_bind; [intros ? [= <-]|done].
    eapply runs_bind; [by apply data_runs_prepare_rx| |].
    2: { intros e u t (-> & He & Hs). split; [done|]. left. by split. }
    intros a u t (-> & -> & Ha). apply data_runs_path; [|done].
    intros [] p' [= <-].
    assert (set_rx_posted (set_flag (dp_rx_posted p1) i true) p1 = p0) as ->.
    { destruct Ht as [Hn ->]. cbn. rewrite (set_flag_undo _ _ _ _ Hn). by destruct p0. }
    eapply runs_mapM_err.
    + eapply runs_conseq; [apply data_runs_device, device_runs_enqueue| |].
      * intros [] [p2 v2] t'. cbn [fst snd]. intros (-> & -> & Ht'). split; [done|].
        exists queues, q. split_and!; [done..|]. by apply follows_intro.
      * intros e u t' Hx. exact Hx.
    + intros e [p2 v2] t'. cbn [fst snd]. intros [-> ->]. split; [done|]. right.
      split_and!; [done|by exists e|]. by apply follows_intro.
  - intros e u t [-> ->]. apply (Hkept e).
Qed.

(** The same when the posting follows an error that is then reported. *)
Lemma descriptor_ends_intro p0 v i slot (e : DataError.t E) u t t' :
  rx_slot_address RX p0 i = Some slot -> only_reads t' ->
  (taken p0 i u /\ some_of (descriptor_steps v slot i) t)
  \/ (u = p0 /\ (exists e', e = DataError.QueueOwnershipUncertain e')
      /\ (all_of (descriptor_steps v slot i) +++ anything) t) ->
  descriptor_ends RX p0 v i e u (t' ++ t).
Proof.
  intros Hs Ht' He. exists slot. split; [done|]. right.
  destruct He as [[? ?]|(? & ? & ?)]; [left|right]; split_and!; try done; by apply follows_intro.
Qed.

Lemma descriptor_ends_given p0 v i slot (e : DataError.t E) t t' :
  rx_slot_address RX p0 i = Some slot -> only_reads t' -> descriptor_posted v 0 slot i t ->
  descriptor_ends RX p0 v i e p0 (t' ++ t).
Proof.
  intros Hs Ht' Hp. exists slot. split; [done|]. left. split; [done|]. by apply follows_intro.
Qed.

Lemma data_runs_repost_throw {A} p0 p1 v i (e0 : DataError.t E) (Q : A -> _ -> log -> Prop) :
  path_wf RX TX p0 -> taken p0 i p1 -> 0 <= i < RX ->
  data_runs (p1, v) (post_rx (E:=E) RX i 0;; throw e0) Q
    (fun e u t => u.2 = v /\ forall t', only_reads t' -> descriptor_ends RX p0 v i e u.1 (t' ++ t)).
Proof.
  intros Hwf Ht Hi. destruct (data_runs_repost p0 p1 v i Hwf Ht Hi) as (slot & Hslot & Hr).
  eapply runs_bind; [exact Hr| |].
  - intros [] u t [-> Hp]. apply runs_throw. rewrite app_nil_r. split; [done|].
    intros t' Ht'. by eapply descriptor_ends_given.
  - intros e u t [Hu He]. split; [done|]. intros t' Ht'. by eapply descriptor_ends_intro.
Qed.

Lemma data_runs_on_path {A E'} p v (m : M DataPath E' A) :
  data_runs (p, v) (on_path m)
    (fun a u t => u.2 = v /\ t = [] /\ m p = (Ok a, u.1))
    (fun e u t => u.2 = v /\ t = [] /\ m p = (Err e, u.1)).
Proof.
  intros [q d] [= -> Hv]. unfold on_path, zoom. cbn [fst snd].
  destruct (m p) as [[a|e|] p']; [..|done]; exists []; rewrite app_nil_r; cbn; by rewrite Hv.
Qed.

(** *** With the caller's buffer *)

Definition receive_runs {A E'} (u : (DataPath * Device unit) * list Z)
    (m : M ((DataPath * Device W) * list Z) E' A) Q F : Prop :=
  runs (lent_trace (fun pd => trace (dev_rpu pd.2))) (lent_view (fun pd => (pd.1, view pd.2))) u m Q F.

Lemma receive_runs_read u l q a :
  receive_runs (u, l) (rpu_read_buffer (E:=E) q a)
    (fun _ ul t => ul.1 = u /\ fetched q a ul.2 t /\ len ul.2 = len l)
    (fun _ ul t => ul.1 = u /\ only_reads t).
Proof.
  intros [[p d] k] [= Hu ->]. pose proof (lent_runs_fetch (E:=E) q a l (dev_rpu d, l) eq_refl) as Hx.
  unfold rpu_read_buffer. unfold lent_trace, lent_view in *. cbn [fst snd] in *.
  destruct (Memory.read q a (dev_rpu d, l)) as [[x|e|] [w l']]; [..|done];
    destruct Hx as (t & Ht & Hx); exists t; cbn in *; split; done.
Qed.

Lemma receive_runs_output {A E'} u l (m : M (list Z) E' A) :
  receive_runs (u, l) (on_output m)
    (fun a ul t => t = [] /\ ul.1 = u /\ m l = (Ok a, ul.2))
    (fun e ul t => t = [] /\ ul.1 = u /\ m l = (Err e, ul.2)).
Proof.
  intros [s k] [= <- ->]. unfold on_output, lent_trace. cbn [fst].
  destruct (m l) as [[a|e|] l'] eqn:Hm; [..|done]; exists []; by rewrite app_nil_r.
Qed.

Lemma take_rx_spec p0 event i :
  path_wf RX TX p0 -> event_wf event -> 0 <= i ->
  match take_rx_descriptor (E:=E) RX event i p0 with
  | (Ok (info, d, n), p) => RxEventRef_packet event i = Ok info /\ d = rp_descriptor_id info
      /\ n = rp_packet_len info /\ 0 <= d < RX /\ 0 <= n /\ taken p0 d p
  | (Err _, p) => p = p0
  | (Panic, _) => True
  end.
Proof.
  intros Hwf He Hi. unfold take_rx_descriptor. pose proof (RxEventRef_packet_spec event i He Hi) as Hs.
  munfold. destruct (RxEventRef_packet event i) as [info|e|]; cbn [map_err]; [|done..].
  destruct Hs as [[Hd _] [Hn _]]. destruct (RX <=? rp_descriptor_id info) eqn:Hr; cbn [negb]; [done|].
  destruct (nthZ_in (dp_rx_posted p0) (rp_descriptor_id info)) as [b Hb]; [destruct Hwf; lia|].
  rewrite Hb. cbn [expect]. destruct b; cbn; [|done]. split_and!; try done; lia.
Qed.

Lemma receive_runs_capacity p0 p1 v info n k :
  path_wf RX TX p0 -> taken p0 (rp_descriptor_id info) p1 -> 0 <= rp_descriptor_id info < RX ->
  data_runs (p1, v) (ensure_receive_capacity (E:=E) RX info n k)
    (fun _ u t => u = (p1, v) /\ t = [] /\ n <= k)
    (fun e u t => descriptor_ends RX p0 v (rp_descriptor_id info) e u.1 t).
Proof.
  intros Hwf Ht Hi. unfold ensure_receive_capacity. apply (runs_gets_bind _ _ _ _ fst); [done|].
  cbn [fst].
  assert (forall e0, data_runs (p1, v) (post_rx (E:=E) RX (rp_descriptor_id info) 0;; throw e0)
    (fun (_ : unit) u t => u = (p1, v) /\ t = [] /\ n <= k)
    (fun e u t => descriptor_ends RX p0 v (rp_descriptor_id info) e u.1 t)) as Hr.
  { intros e0. eapply runs_conseq; [by apply (data_runs_repost_throw p0)|intros a u t Hx; exact Hx|].
    intros e u t [_ Hx]. apply (Hx []). by apply Forall_nil. }
  destruct (_ <? n); [apply Hr|]. destruct (k <? n) eqn:Hk; [apply Hr|].
  apply runs_ret. split_and!; [done..|lia].
Qed.

(** The tail of [receive_packet], after the packet was read. *)
Lemma receive_runs_deliver p0 p1 v event i info slot output packet t0 :
  path_wf RX TX p0 -> RxEventRef_packet event i = Ok info ->
  taken p0 (rp_descriptor_id info) p1 -> 0 <= rp_descriptor_id info < RX ->
  0 <= rp_packet_len info <= len output -> len packet = rp_packet_len info ->
  rx_slot_address RX p0 (rp_descriptor_id info) = Some slot ->
  fetched Processor.Lmac (u32 (slot + RX_BUFFER_HEADROOM)) packet t0 -> only_reads t0 ->
  receive_runs ((p1, v), splice output 0 packet)
    (conversion ← attempt (on_slice 0 (rp_packet_len info)
       (on_output (convert_to_ethernet (rp_payload_type info) (rx_mac_header_len event))));
     on_fst (post_rx (E:=E) RX (rp_descriptor_id info) 0);;
     output ← gets snd;
     lift (received_frame conversion output info event))
    (fun f ul t => receive_logged (E:=E) RX p0 v event i output (Ok f) ul.1.1 ul.2 (t0 ++ t))
    (fun e ul t => receive_logged RX p0 v event i output (Err e) ul.1.1 ul.2 (t0 ++ t)).
Proof.
  intros Hwf Hinfo Ht Hd Hn Hlen Hslot Hf Hr0.
  assert (slice (splice output 0 packet) 0 (rp_packet_len info) = Some packet) as Hsl.
  { rewrite <-Hlen. unfold splice. apply (slice_mid [] packet). }
  destruct (data_runs_repost p0 p1 v _ Hwf Ht Hd) as (slot' & Hslot' & Hpost).
  rewrite Hslot in Hslot'. injection Hslot' as <-.
  eapply runs_bind.
  { eapply (runs_attempt _ _ _ _ _ _ (fun r ul t => t = [] /\ ul.1 = (p1, v)
      /\ exists frame, ul.2 = splice (splice output 0 packet) 0 frame
        /\ convert_to_ethernet (rp_payload_type info) (rx_mac_header_len event) packet
           = (match r with inl k => Ok k | inr e => Err e end, frame)) (fun _ _ _ => False)).
    - eapply runs_on_slice; [exact Hsl|apply receive_runs_output].
    - intros k [u l] t (frame & Hl & -> & Hu & Hc). cbn in *. subst u. by repeat first [split|exists frame].
    - intros e [u l] t (frame & Hl & -> & Hu & Hc). cbn in *. subst u. by repeat first [split|exists frame]. }
  2: done.
  intros conversion [u l] t (-> & Hu & frame & Hl & Hc). cbn [fst snd] in *. subst u l.
  eapply runs_bind; [apply runs_on_fst, Hpost| |].
  2: { intros e [[p' v'] l] t. cbn [fst snd app]. intros (-> & -> & He). right. exists info.
       split; [done|]. by eapply descriptor_ends_intro. }
  intros [] [u l] t. cbn [fst snd app]. intros (-> & -> & Hp).
  apply (runs_gets_bind _ _ _ _ snd); [by intros [? ?]|]. cbn [snd]. set (out := splice _ 0 frame).
  apply runs_lift; rewrite app_nil_r.
  - intros f Hfr. unfold received_frame in Hfr. destruct conversion as [k|e]; [|done].
    unfold index in Hfr. destruct (nthZ out 12) as [high|] eqn:H12; [|done].
    destruct (nthZ out 13) as [low|] eqn:H13; [|done]. cbn [expect mbind res_bind] in Hfr. injection Hfr as <-.
    exists info, slot, packet, frame. cbn [rf_len rf_ether_type rf_signal_dbm rf_frequency_mhz].
    split_and!; try done; [by exists high, low|]. by apply follows_intro.
  - intros e _. right. exists info. split; [done|]. by eapply descriptor_ends_given.
Qed.

Lemma receive_runs_receive p0 v event i output :
  path_wf RX TX p0 -> event_wf event -> 0 <= i ->
  receive_runs ((p0, v), output) (receive_packet (E:=E) RX event i)
    (fun f ul t => receive_logged (E:=E) RX p0 v event i output (Ok f) ul.1.1 ul.2 t)
    (fun e ul t => receive_logged RX p0 v event i output (Err e) ul.1.1 ul.2 t).
Proof.
  intros Hwf He Hi. unfold receive_packet. pose proof (take_rx_spec p0 event i Hwf He Hi) as Hs.
  eapply runs_bind; [apply runs_on_fst, data_runs_on_path| |].
  2: { intros e [[p' v'] l] t. cbn [fst snd]. intros (-> & -> & -> & Hm). rewrite Hm in Hs.
       left. by subst p'. }
  intros [[info d] n] [[p1 v1] l] t. cbn [fst snd]. intros (-> & -> & -> & Hm).
  rewrite Hm in Hs. destruct Hs as (Hinfo & -> & -> & Hd & Hn & Ht). cbn [app].
  apply (runs_gets_bind _ _ _ _ (fun ul => len ul.2)); [done|]. cbn [snd].
  eapply runs_bind; [by apply runs_on_fst, (receive_runs_capacity p0)| |].
  2: { intros e [u l] t. cbn [fst snd]. intros [-> Hx]. right. by exists info. }
  intros [] [u l] t. cbn [fst snd]. intros (-> & -> & -> & Hcap). cbn [app].
  apply (runs_gets_bind _ _ _ _ (fun ul => ul.1.1)); [done|]. cbn [fst].
  destruct (data_runs_repost p0 p1 v _ Hwf Ht Hd) as (slot & Hslot & Hpost).
  assert (rx_slot_address RX p1 (rp_descriptor_id info) = Some slot) as -> by (by destruct Ht as [_ ->]).
  cbn [ok_or]. apply runs_lift_bind; [intros ? [= <-]|done].
  unfold read_rx_or_repost. eapply runs_bind.
  - eapply runs_on_slice; [by apply slice_in|].
    eapply (runs_bind _ _ _ _ _ (fun r ul t => ul.1 = (p1, v) /\ only_reads t
      /\ match r with inl _ => fetched Processor.Lmac (u32 (slot + RX_BUFFER_HEADROOM)) ul.2 t
                              /\ len ul.2 = rp_packet_len info
         | inr _ => True end)).
    + eapply runs_attempt; [apply receive_runs_read| |].
      * intros [] [u l] t. cbn [fst snd]. intros (-> & Hf & Hl). split_and!; try done.
        -- destruct Hf as (x & pad & _ & _ & ->). apply pieces_reads.
        -- rewrite Hl, len_take, len_drop. lia.
      * intros e [u l] t. cbn [fst snd]. by intros [-> ?].
    + intros [[]|e] [u l] t; cbn [fst snd].
      * intros (-> & Hr & Hf & Hl). apply runs_ret. rewrite app_nil_r.
        instantiate (1 := fun _ ul t => ul.1 = (p1, v) /\ only_reads t
          /\ fetched Processor.Lmac (u32 (slot + RX_BUFFER_HEADROOM)) ul.2 t
          /\ len ul.2 = rp_packet_len info). done.
      * intros (-> & Hr & _). eapply runs_bind; [apply runs_on_fst, Hpost| |].
        -- intros [] [u l'] t'. cbn [fst snd]. intros (-> & -> & Hp). apply runs_throw.
           rewrite app_nil_r. instantiate (1 := fun e ul t =>
             descriptor_ends RX p0 v (rp_descriptor_id info) e ul.1.1 t).
           by eapply descriptor_ends_given.
        -- intros e' [[p' v'] l'] t'. cbn [fst snd]. intros (-> & -> & Hx).
           by eapply descriptor_ends_intro.
    + done.
  - intros [] [u l] t (packet & Hl & Hu & Hr & Hf & Hlen). cbn [fst snd] in *. subst l u.
    by apply (receive_runs_deliver p0 p1 v event i info slot).
  - intros e [u l] t (c & Hl & Hx). cbn [fst snd] in *. right. by exists info.
Qed.
End receive_log.

(** * Properties *)

(** C34: [DataPath::new] accepts exactly the layouts that fit, and an accepted
    layout gives every TX token and RX descriptor a word-aligned slot of packet
    RAM with room for its buffer and headroom, all slots pairwise disjoint and
    the address arithmetic without overflow. *)
Theorem data_path_layout RX TX rx_size tx_size :
  0 <= RX -> 0 <= TX -> 0 <= rx_size -> 0 <= tx_size ->
  match DataPath_new RX TX rx_size tx_size with
  | Ok p =>
      layout_accepted RX TX rx_size tx_size /\ path_wf RX TX p
      /\ (forall t, 0 <= t < TX -> exists a, tx_slot_address TX p t = Some a
            /\ a mod 4 = 0 /\ RPU_MEM_PACKET_BASE <= a
            /\ (forall i, 0 <= i < RX -> exists b, rx_slot_address RX p i = Some b
                  /\ b mod 4 = 0 /\ a + tx_size + 52 <= b
                  /\ b + rx_size + 4 <= RPU_MEM_PACKET_END + 1
                  /\ forall j, 0 <= j < RX -> i <> j -> exists b', rx_slot_address RX p j = Some b'
                       /\ apart b (rx_size + 4) b' (rx_size + 4))
            /\ forall u, 0 <= u < TX -> t <> u -> exists a', tx_slot_address TX p u = Some a'
                 /\ apart a (tx_size + 52) a' (tx_size + 52))
  | Err _ => ~ layout_accepted RX TX rx_size tx_size
  | Panic => False
  end.
Proof.
  intros HRX HTX Hr Ht. pose proof (DataPath_new_spec RX TX rx_size tx_size HRX HTX Hr Ht) as Hs.
  destruct (DataPath_new RX TX rx_size tx_size) as [p|e|]; [|done..].
  destruct Hs as (Ha & Hwf & Hrs & Hts & _). split; [done|]. split; [done|].
  pose proof Hwf as [? ? ? ? [Hrb Hr4] [Htb Ht4] ? Hbase ? ? ?]. rewrite Hrs in Hrb. rewrite Hts in Htb.
  assert (RPU_MEM_PACKET_BASE = 4 * 738202624 /\ RPU_MEM_PACKET_END + 1 = 4 * 738247680) as [HB HE]
    by done.
  intros t Htr. destruct (tx_slot_spec RX TX p t Hwf Htr) as [-> Hend]. eexists. split; [done|].
  split; [rewrite HB; Z.div_mod_to_equations; nia|]. split; [nia|]. split.
  - intros i Hi. destruct (rx_slot_spec RX TX p i Hwf Hi) as [-> Hend']. eexists. split; [done|].
    split; [rewrite Hbase, HE; Z.div_mod_to_equations; nia|]. split_and!; [nia|lia|].
    intros j Hj Hij. destruct (rx_slot_spec RX TX p j Hwf Hj) as [-> _]. eexists. split; [done|].
    pose proof (stride_apart (dp_rx_base p) (dp_rx_stride p) i j ltac:(lia) Hij). unfold apart in *. lia.
  - intros u Hu Htu. destruct (tx_slot_spec RX TX p u Hwf Hu) as [-> _]. eexists. split; [done|].
    pose proof (stride_apart RPU_MEM_PACKET_BASE (dp_tx_stride p) t u ltac:(lia) Htu).
    unfold apart in *. lia.
Qed.

(** The driver's default sizes. *)
Definition sample_path : DataPath :=
  match DataPath_new 4 2 1600 1600 with
  | Ok p => p
  | _ => mkDataPath 0 0 0 0 0 [] [] 0
  end.

Lemma sample_path_wf : path_wf 4 2 sample_path.
Proof.
  pose proof (DataPath_new_spec 4 2 1600 1600) as Hs. unfold sample_path.
  destruct (DataPath_new 4 2 1600 1600) eqn:Hn; [|by vm_compute in Hn..].
  apply Hs; lia.
Qed.

Example data_path_layout_witness :
  match DataPath_new 4 2 1600 1600 with
  | Ok p =>
      layout_accepted 4 2 1600 1600 /\ path_wf 4 2 p
      /\ (forall t, 0 <= t < 2 -> exists a, tx_slot_address 2 p t = Some a
            /\ a mod 4 = 0 /\ RPU_MEM_PACKET_BASE <= a
            /\ (forall i, 0 <= i < 4 -> exists b, rx_slot_address 4 p i = Some b
                  /\ b mod 4 = 0 /\ a + 1600 + 52 <= b
                  /\ b + 1600 + 4 <= RPU_MEM_PACKET_END + 1
                  /\ forall j, 0 <= j < 4 -> i <> j -> exists b', rx_slot_address 4 p j = Some b'
                       /\ apart b (1600 + 4) b' (1600 + 4))
            /\ forall u, 0 <= u < 2 -> t <> u -> exists a', tx_slot_address 2 p u = Some a'
                 /\ apart a (1600 + 52) a' (1600 + 52))
  | Err _ => ~ layout_accepted 4 2 1600 1600
  | Panic => False
  end.
Proof. apply (data_path_layout 4 2 1600 1600); lia. Defined.

(** C35: [transmit], over any bus whose accesses are logged, returns a token
    that was free and is now in flight, and by then the firmware has the frame:
    the accesses are, in this order, the writes of the frame to the packet slot
    of the token and of its command to the command slot of the token, the
    enqueuing of the address of the command on the queue the firmware serves,
    and one interrupt with the command counter, which is the only change of the
    device.  Every failure names how the tokens stand.  Untouched or given
    back: nothing was enqueued, the accesses are at most parts of the frame and
    the command.  Kept in flight: the device was not initialized, with nothing
    enqueued, or both were written and enqueuing or interrupting failed, so that
    the firmware may own the command.  It never panics and never touches RX
    descriptors. *)
Theorem transmit_outcome {W E} `{BusLaws W E} `{!DelayOps W} `{!DelayLaws W E} `{!BusTrace W E}
    RX TX (p : DataPath) (d : Device W) wdev_id frame dscp_tos :
  bus_inv (dev_rpu d) -> path_wf RX TX p ->
  let '(r, (p', d')) := transmit (E:=E) TX wdev_id frame dscp_tos (p, d) in
  match r with
  | Ok t => 0 <= t < TX /\ reserved TX p t p' /\ path_wf RX TX p' /\ view d' = bump (view d)
  | Err e => transmit_failed TX p frame e p' /\ view d' = view d
  | Panic => False
  end
  /\ dp_rx_posted p' = dp_rx_posted p
  /\ exists t, trace (dev_rpu d') = trace (dev_rpu d) ++ t
               /\ transmit_logged TX p (view d) wdev_id frame dscp_tos r t.
Proof.
  intros Hb Hwf. pose proof (psafe_transmit (E:=E) RX TX p (view d) wdev_id frame dscp_tos Hwf (p, d)
    (conj Hb (conj eq_refl eq_refl))) as Hx.
  pose proof (data_runs_transmit (E:=E) RX TX p (view d) wdev_id frame dscp_tos Hwf (p, d) eq_refl) as Hl.
  destruct (transmit TX wdev_id frame dscp_tos (p, d)) as [[t|e|] [p' d']]; [..|done].
  - destruct Hx as [_ [[Ht Hr] Hv]]. cbn [fst snd] in *. split_and!; try done; try lia.
    + by apply (reserved_wf RX TX p t).
    + by destruct Hr as [_ ->].
  - destruct Hx as [_ [Hf Hv]]. cbn [fst snd] in *. split_and!; try done. by eapply transmit_failed_posted.
Qed.

Definition sample_frame : list Z := zeros 12 ++ [0x88; 0x8e] ++ zeros 50.

Example transmit_outcome_witness :
  let d := logged_device [] in
  let '(r, (p', d')) := transmit (E:=unit) 2 0 sample_frame 0 (sample_path, d) in
  match r with
  | Ok t => 0 <= t < 2 /\ reserved 2 sample_path t p' /\ path_wf 4 2 p' /\ view d' = bump (view d)
  | Err e => transmit_failed 2 sample_path sample_frame e p' /\ view d' = view d
  | Panic => False
  end
  /\ dp_rx_posted p' = dp_rx_posted sample_path
  /\ exists t, trace (E:=unit) (dev_rpu d') = trace (E:=unit) (dev_rpu d) ++ t
               /\ transmit_logged 2 sample_path (view d) 0 sample_frame 0 r t.
Proof.
  apply (transmit_outcome (E:=unit) 4 2 sample_path (logged_device []) 0 sample_frame 0).
  - apply replies_okb_ok. by vm_compute.
  - apply sample_path_wf.
Defined.

(** The run of the witness succeeds, with 5 accesses: one for the frame, two for
    its command, and those that hand it over. *)
Example sample_transmit_accesses :
  let '(r, (_, d')) := transmit (E:=unit) 2 0 sample_frame 0 (sample_path, logged_device []) in
  r = Ok 0 /\ length (trace (E:=unit) (dev_rpu d')) = 5%nat.
Proof. by vm_compute. Qed.

(** a token that [reserve_tx] hands out was free, completing it restores
    the in-flight set, and completing it again is refused; [reserve_tx] refuses
    only when every token is in flight. *)
Theorem tx_token_round_trip RX TX (p : DataPath) :
  path_wf RX TX p ->
  match reserve_tx (E:=DataProtocolError.t) TX p with
  | (Ok (Some t), p') =>
      nthZ (dp_tx_in_flight p) t = Some false /\ nthZ (dp_tx_in_flight p') t = Some true
      /\ exists p'', complete_tx TX t p' = (Ok tt, p'')
           /\ dp_tx_in_flight p'' = dp_tx_in_flight p
           /\ complete_tx TX t p'' = (Err (DataProtocolError.InvalidDescriptor t), p'')
  | (Ok None, p') => p' = p /\ all_in_flight TX p
  | _ => False
  end.
Proof.
  intros Hwf. pose proof (reserve_tx_spec (E:=DataProtocolError.t) RX TX p Hwf) as Hs.
  destruct (reserve_tx TX p) as [[[t|]|e|] p']; [|done..]. destruct Hs as [Ht Hr].
  pose proof (reserved_wf RX TX p t p' Hwf Hr) as Hwf'.
  destruct Hr as [Hf ->]. split; [done|]. cbn [dp_tx_in_flight set_next_tx set_tx_in_flight] in *.
  rewrite nthZ_set_flag by by eapply nthZ_range. split; [done|].
  rewrite (complete_tx_spec RX TX _ _ Hwf') by lia. cbn [dp_tx_in_flight set_next_tx set_tx_in_flight].
  rewrite bool_decide_eq_true_2 by (apply nthZ_set_flag; by eapply nthZ_range).
  eexists. split; [done|]. cbn [dp_tx_in_flight set_next_tx set_tx_in_flight].
  rewrite (set_flag_undo _ _ _ _ Hf). split; [done|].
  rewrite (complete_tx_spec RX TX) by
    (try lia; destruct Hwf'; constructor; cbn in *; try done; by rewrite ?len_set_flag in *).
  cbn [dp_tx_in_flight set_next_tx set_tx_in_flight]. rewrite Hf. done.
Qed.

Example tx_token_round_trip_witness :
  match reserve_tx (E:=DataProtocolError.t) 2 sample_path with
  | (Ok (Some t), p') =>
      nthZ (dp_tx_in_flight sample_path) t = Some false /\ nthZ (dp_tx_in_flight p') t = Some true
      /\ exists p'', complete_tx 2 t p' = (Ok tt, p'')
           /\ dp_tx_in_flight p'' = dp_tx_in_flight sample_path
           /\ complete_tx 2 t p'' = (Err (DataProtocolError.InvalidDescriptor t), p'')
  | (Ok None, p') => p' = sample_path /\ all_in_flight 2 sample_path
  | _ => False
  end.
Proof. apply (tx_token_round_trip 4 2 sample_path), sample_path_wf. Defined.

(** C37: the conversion of a received frame to Ethernet is correct on every
    payload type: it succeeds exactly when the frame has the fields of its type,
    and then the first [n] bytes are destination, source, EtherType and the
    payload that followed the 802.11 or A-MSDU header; otherwise the frame is
    left as received.  The only panic is an MPDU of fewer than two bytes. *)
Theorem convert_to_ethernet_correct payload_type mac_header_len frame :
  bytes_ok frame -> len frame <= 65535 -> 0 <= mac_header_len < 256 ->
  match convert_to_ethernet payload_type mac_header_len frame with
  | (Ok n, frame') =>
      exists da sa et off, frame_fields payload_type mac_header_len frame da sa et off
        /\ 14 <= n <= len frame /\ n = 14 + (len frame - off) /\ len frame' = len frame
        /\ take (Z.to_nat n) frame' = da ++ sa ++ et ++ drop (Z.to_nat off) frame
  | (Err _, frame') =>
      frame' = frame
      /\ forall da sa et off, ~ frame_fields payload_type mac_header_len frame da sa et off
  | (Panic, _) => payload_type = RxPayloadType.Mpdu /\ len frame < 2
  end.
Proof. intros. by apply convert_spec. Qed.

(** A from-DS data frame with a QoS header and an IPv4 packet. *)
Definition sample_mpdu : list Z :=
  [0x88; 0x02; 0; 0] ++ replicate 6 1 ++ replicate 6 2 ++ replicate 6 3 ++ [0; 0; 0; 0]
  ++ [0xaa; 0xaa; 3; 0; 0; 0; 8; 0] ++ replicate 20 7.

Example convert_to_ethernet_correct_witness :
  match convert_to_ethernet RxPayloadType.Mpdu 26 sample_mpdu with
  | (Ok n, frame') =>
      exists da sa et off, frame_fields RxPayloadType.Mpdu 26 sample_mpdu da sa et off
        /\ 14 <= n <= len sample_mpdu /\ n = 14 + (len sample_mpdu - off)
        /\ len frame' = len sample_mpdu
        /\ take (Z.to_nat n) frame' = da ++ sa ++ et ++ drop (Z.to_nat off) sample_mpdu
  | (Err _, frame') =>
      frame' = sample_mpdu
      /\ forall da sa et off, ~ frame_fields RxPayloadType.Mpdu 26 sample_mpdu da sa et off
  | (Panic, _) => RxPayloadType.Mpdu = RxPayloadType.Mpdu /\ len sample_mpdu < 2
  end.
Proof.
  apply (convert_to_ethernet_correct RxPayloadType.Mpdu 26 sample_mpdu).
  - apply bytes_okb_ok. by vm_compute.
  - by vm_compute.
  - lia.
Defined.

(** C36: receiving a packet of a parsed RX event, over any bus whose accesses
    are logged, delivers an Ethernet frame no longer than the packet: the bytes
    read from the slot of the packet's descriptor, converted in the front of the
    caller's buffer, with the EtherType, signal and frequency reported; and then
    the descriptor is handed back to the firmware: its number and its command
    are written, and the address of the command is enqueued on the queue of free
    buffers.  These are all the accesses.  After a failure either no descriptor
    was taken and nothing accessed, or the packet's own descriptor was handed
    back in the same way, or it is in the host's hands and nothing was enqueued,
    or only enqueuing failed and it counts as posted.  TX tokens and the
    device's own state are untouched.  There is no panic for packets other than
    MPDUs shorter than two bytes. *)
Theorem receive_packet_outcome {W E} `{BusLaws W E} `{!DelayOps W} `{!DelayLaws W E}
    `{!BusTrace W E} RX TX (p : DataPath) (d : Device W) message event i output :
  bus_inv (dev_rpu d) -> path_wf RX TX p -> bytes_ok (payload message) ->
  RxEventRef_parse message = Ok event -> 0 <= i -> bytes_ok output ->
  (forall info, RxEventRef_packet event i = Ok info ->
     rp_payload_type info = RxPayloadType.Mpdu -> 2 <= rp_packet_len info) ->
  let '(r, ((p', d'), output')) := receive_packet (E:=E) RX event i (p, d, output) in
  view d' = view d /\ len output' = len output /\ dp_tx_in_flight p' = dp_tx_in_flight p
  /\ match r with
     | Ok f => p' = p /\ exists info, RxEventRef_packet event i = Ok info
                 /\ nthZ (dp_rx_posted p) (rp_descriptor_id info) = Some true
                 /\ rf_descriptor_id f = rp_descriptor_id info
                 /\ 14 <= rf_len f <= rp_packet_len info
     | Err e => receive_failed p e p'
     | Panic => False
     end
  /\ exists t, trace (dev_rpu d') = trace (dev_rpu d) ++ t
               /\ receive_logged RX p (view d) event i output r p' output' t.
Proof.
  intros Hb Hwf Hm Hp Hi Ho Hpt. pose proof (RxEventRef_parse_spec message Hm) as He.
  rewrite Hp in He. pose proof (rsafe_receive (E:=E) RX TX (len output) p (view d) event i Hwf He Hi Hpt
    (p, d, output) (conj (conj Hb (conj eq_refl eq_refl)) (conj eq_refl Ho))) as Hx.
  pose proof (receive_runs_receive (E:=E) RX TX p (view d) event i output Hwf He Hi
    (p, d, output) eq_refl) as Hl.
  destruct (receive_packet RX event i (p, d, output)) as [[f|e|] [[p' d'] output']];
    cbn in Hx; [..|done].
  - destruct Hx as [[_ (Hq & ? & ?)] [? _]]. cbn in Hq. by subst p'.
  - destruct Hx as [[_ [Hf ?]] [? _]]. split_and!; try done.
    destruct Hf as [[Hf|(j & _ & Hf)] _]; cbn [fst] in Hf; by rewrite Hf.
Qed.

(** One packet of [n] bytes of type [t] in descriptor 1. *)
Definition sample_rx_message (n t : Z) : HostMessageRef :=
  mkHostMessageRef false HostMessageType.Data
    (to_le 4 3 ++ to_le 4 37 ++ zeros 2 ++ [0; 0; 0; 1; 0; 26] ++ to_le 2 2412 ++ to_le 2 0
     ++ to_le 2 1 ++ to_le 2 n ++ [t] ++ zeros 12).
Definition sample_rx_event (n t : Z) : RxEventRef :=
  match RxEventRef_parse (sample_rx_message n t) with
  | Ok event => event
  | _ => mkRxEventRef [] 0 0 0 0 0 0 0 0
  end.
Definition posted_path : DataPath := set_rx_posted [true; true; true; true] sample_path.

Example receive_packet_outcome_witness :
  let d := logged_device [Some sample_mpdu; Some (zeros 4)] in
  let event := sample_rx_event 54 0 in
  let '(r, ((p', d'), output')) :=
    receive_packet (E:=unit) 4 event 0 (posted_path, d, zeros 1600) in
  view d' = view d /\ len output' = len (zeros 1600)
  /\ dp_tx_in_flight p' = dp_tx_in_flight posted_path
  /\ match r with
     | Ok f => p' = posted_path /\ exists info, RxEventRef_packet event 0 = Ok info
                 /\ nthZ (dp_rx_posted posted_path) (rp_descriptor_id info) = Some true
                 /\ rf_descriptor_id f = rp_descriptor_id info
                 /\ 14 <= rf_len f <= rp_packet_len info
     | Err e => receive_failed posted_path e p'
     | Panic => False
     end
  /\ exists t, trace (E:=unit) (dev_rpu d') = trace (E:=unit) (dev_rpu d) ++ t
               /\ receive_logged 4 posted_path (view d) event 0 (zeros 1600) r p' output' t.
Proof.
  apply (receive_packet_outcome (E:=unit) 4 2 posted_path
    (logged_device [Some sample_mpdu; Some (zeros 4)]) (sample_rx_message 54 0)).
  - apply replies_okb_ok. by vm_compute.
  - destruct sample_path_wf. by constructor.
  - apply bytes_okb_ok. by vm_compute.
  - by vm_compute.
  - lia.
  - by apply Forall_replicate.
  - vm_compute. intros info [= <-] _. by vm_compute.
Defined.

(** The run of the witness succeeds, with 6 accesses: two reads of the packet,
    three writes of its descriptor, and the enqueuing. *)
Example sample_receive_accesses :
  let '(r, ((_, d'), _)) :=
    receive_packet (E:=unit) 4 (sample_rx_event 54 0) 0
      (posted_path, logged_device [Some sample_mpdu; Some (zeros 4)], zeros 1600) in
  r = Ok (mkReceivedFrame 34 0x0800 1 0 2412) /\ length (trace (E:=unit) (dev_rpu d')) = 6%nat.
Proof. by vm_compute. Qed.

(** the TX command of a valid frame is the 59-byte packed host message:
    header, command word, token, the frame's own addresses and EtherType, its
    length and the DMA address of the packet. *)
Theorem encode_tx_command_layout {E} wdev_id token frame dscp_tos dma_pointer :
  14 <= len frame ->
  encode_tx_command (E:=E) wdev_id token frame dscp_tos dma_pointer
  = Ok (tx_command_bytes wdev_id token frame dscp_tos dma_pointer)
  /\ len (tx_command_bytes wdev_id token frame dscp_tos dma_pointer) = TX_COMMAND_TOTAL_LEN.
Proof.
  intros Hf. split; [by apply encode_tx_command_spec|]. unfold tx_command_bytes.
  rewrite !len_app, !len_to_le, !len_take, !len_drop. unfold to_be. rewrite !len_cons, !len_nil.
  change TX_COMMAND_TOTAL_LEN with 59. lia.
Qed.

Example encode_tx_command_layout_witness :
  encode_tx_command (E:=unit) 0 1 sample_frame 0 0x5670
  = Ok (tx_command_bytes 0 1 sample_frame 0 0x5670)
  /\ len (tx_command_bytes 0 1 sample_frame 0 0x5670) = TX_COMMAND_TOTAL_LEN.
Proof. apply (encode_tx_command_layout (E:=unit) 0 1 sample_frame 0 0x5670). by vm_compute. Defined.

(** an RX event that announces an MPDU of one byte is accepted by the event
    parser, and receiving its packet panics: the frame control field is read
    before the length of the frame is checked.  The descriptor is not posted
    again. *)
Theorem short_mpdu_panics :
  RxEventRef_parse (sample_rx_message 1 0) = Ok (sample_rx_event 1 0)
  /\ let '(r, ((p', _), _)) := receive_packet (E:=unit) 4 (sample_rx_event 1 0) 0
       (posted_path, ready_device [Some (zeros 4)], zeros 1600) in
     r = Panic /\ dp_rx_posted p' = [true; false; true; true].
Proof. vm_compute. by split_and!. Qed.

(** transmitting before queue initialization fails with [NotInitialized]
    but keeps the reserved token in flight although the firmware never saw it:
    [TX] such calls exhaust the tokens. *)
Theorem uninitialized_transmit_leaks :
  let d := Device_new (mkScript [] []) in
  let '(r1, s1) := transmit (E:=unit) 2 0 sample_frame 0 (sample_path, d) in
  let '(r2, s2) := transmit (E:=unit) 2 0 sample_frame 0 s1 in
  let '(r3, _) := transmit (E:=unit) 2 0 sample_frame 0 s2 in
  r1 = Err (DataError.Device DeviceError.NotInitialized)
  /\ r2 = Err (DataError.Device DeviceError.NotInitialized)
  /\ dp_tx_in_flight (fst s2) = [true; true]
  /\ r3 = Err DataError.NoTransmitToken.
Proof. vm_compute. by split_and!. Qed.
