(* ===== verification/Firmware.v ===== *)
(** * Firmware: bundle parser and loader (src/src/firmware.rs)

    The combined patch bundle: its header, its four images, the two digests
    that authorize it, and the loader that resets the processors, writes the
    images and waits for the boot signatures.  SHA-256 comes from an external
    crate and is the parameter [sha256]; a trust policy is a function. *)

From S2P Require Import Prelude Crypto Codec Protocol Bus Memory.

Definition PATCH_SIGNATURE : Z := 0xdead1eaf.
Definition PATCH_IMAGE_COUNT : Z := 4.
Definition PINNED_PATCH_VERSION : Z := 0x01020e09.
Definition FEATURE_SYSTEM_MODE : Z := bit 0.
Definition FEATURE_SYSTEM_WITH_RAW : Z := bit 3.
Definition PATCH_HEADER_LEN : Z := 52.
Definition IMAGE_HEADER_LEN : Z := 8.
Definition RPU_MEM_LMAC_PATCH_BIN : Z := 0x80043a80.
Definition RPU_MEM_LMAC_PATCH_BIMG : Z := 0x8004bbc0.
Definition RPU_MEM_UMAC_PATCH_BIN : Z := 0x8008c000.
Definition RPU_MEM_UMAC_PATCH_BIMG : Z := 0x8009b800.
Definition RPU_MEM_LMAC_BOOT_SIG : Z := 0xb7000d50.
Definition RPU_MEM_UMAC_BOOT_SIG : Z := 0xb0000000.
Definition BOOT_SIGNATURE : Z := 0x5a5a5a5a.
Definition RPU_REG_UCC_SLEEP_CTRL_DATA_0 : Z := 0xa4002c2c.
Definition RPU_REG_UCC_SLEEP_CTRL_DATA_1 : Z := 0xa4002c30.
Definition RPU_REG_MIPS_MCU_CONTROL : Z := 0xa4000000.
Definition RPU_REG_MIPS_MCU2_CONTROL : Z := 0xa4000100.
Definition LMAC_BOOT_VECTOR_REGISTERS : list Z := [0xa4000050; 0xa4000054; 0xa4000058; 0xa400005c].
Definition UMAC_BOOT_VECTOR_REGISTERS : list Z := [0xa4000150; 0xa4000154; 0xa4000158; 0xa400015c].
Definition BOOT_VECTOR_VALUES : list Z := [0x3c1a8000; 0x275a0000; 0x03400008; 0].

Module FirmwareError.
Inductive t : Type :=
  | TruncatedHeader
  | BadSignature (value : Z)
  | BadImageCount (value : Z)
  | IncompatibleVersion (value : Z)
  | IncompatibleFeatures (value : Z)
  | TruncatedPayload
  | TruncatedImage
  | InvalidImageType (value : Z)
  | LengthMismatch
  | HashMismatch
  | UntrustedImage.
#[global] Instance eq_dec : EqDecision t.
Proof. solve_decision. Defined.
End FirmwareError.

Module ImageKind.
Inductive t : Type := UmacPrimary | UmacSecondary | LmacPrimary | LmacSecondary.
#[global] Instance eq_dec : EqDecision t.
Proof. solve_decision. Defined.
Definition to_u32 (x : t) : Z :=
  match x with UmacPrimary => 0 | UmacSecondary => 1 | LmacPrimary => 2 | LmacSecondary => 3 end.
Definition from_u32 (value : Z) : res FirmwareError.t t :=
  if value =? 0 then Ok UmacPrimary
  else if value =? 1 then Ok UmacSecondary
  else if value =? 2 then Ok LmacPrimary
  else if value =? 3 then Ok LmacSecondary
  else Err (FirmwareError.InvalidImageType value).
Definition destination (x : t) : Processor.t * Z :=
  match x with
  | UmacPrimary => (Processor.Umac, RPU_MEM_UMAC_PATCH_BIMG)
  | UmacSecondary => (Processor.Umac, RPU_MEM_UMAC_PATCH_BIN)
  | LmacPrimary => (Processor.Lmac, RPU_MEM_LMAC_PATCH_BIMG)
  | LmacSecondary => (Processor.Lmac, RPU_MEM_LMAC_PATCH_BIN)
  end.
End ImageKind.

Module LoadStage.
Inductive t : Type :=
  | Reset (processor : Processor.t)
  | Download (kind : ImageKind.t)
  | Boot (processor : Processor.t).
End LoadStage.

Module LoadError.
Inductive t (E : Type) : Type :=
  | Firmware (e : FirmwareError.t)
  | Rpu (stage : LoadStage.t) (error : RpuError.t E)
  | MissingImage (kind : ImageKind.t).
Arguments Firmware {E} e.
Arguments Rpu {E} stage error.
Arguments MissingImage {E} kind.
End LoadError.

Record FirmwareHeader : Type := mkFirmwareHeader {
  fh_version : Z;
  fh_feature_flags : Z;
  fh_payload_len : Z;
  fh_hash : list Z }.

Record FirmwareImage : Type := mkFirmwareImage {
  fi_kind : ImageKind.t;
  fi_data : list Z }.

Record FirmwareBundle : Type := mkFirmwareBundle {
  fb_bytes : list Z;
  fb_header : FirmwareHeader;
  fb_payload_end : Z }.

Record FirmwareReport : Type := mkFirmwareReport {
  fr_version : Z;
  fr_feature_flags : Z }.

(** ** Parsing *)

Definition word {E} (bytes : list Z) (offset : Z) : res E Z :=
  b0 ← index bytes offset;
  b1 ← index bytes (offset + 1);
  b2 ← index bytes (offset + 2);
  b3 ← index bytes (offset + 3);
  Ok (from_le [b0; b1; b2; b3]).

Definition parse_compatible_header (bytes : list Z) : res FirmwareError.t FirmwareHeader :=
  signature ← word bytes 0;
  if negb (signature =? PATCH_SIGNATURE) then Err (FirmwareError.BadSignature signature)
  else
    image_count ← word bytes 4;
    if negb (image_count =? PATCH_IMAGE_COUNT) then Err (FirmwareError.BadImageCount image_count)
    else
      version ← word bytes 8;
      if negb (version =? PINNED_PATCH_VERSION)
      then Err (FirmwareError.IncompatibleVersion version)
      else
        feature_flags ← word bytes 12;
        if negb (feature_flags =? FEATURE_SYSTEM_MODE)
        then Err (FirmwareError.IncompatibleFeatures feature_flags)
        else
          payload_len ← word bytes 16;
          hash ← subslice bytes 20 PATCH_HEADER_LEN;
          Ok (mkFirmwareHeader version feature_flags payload_len hash).

Definition exact_payload_end (bytes : list Z) (payload_len : Z) : res FirmwareError.t Z :=
  payload_end ← ok_or (checked_add PATCH_HEADER_LEN payload_len) FirmwareError.TruncatedPayload;
  if len bytes <? payload_end then Err FirmwareError.TruncatedPayload
  else if negb (payload_end =? len bytes) then Err FirmwareError.LengthMismatch
  else Ok payload_end.

Definition image_extent (b : FirmwareBundle) (offset : Z)
    : res FirmwareError.t (ImageKind.t * Z * Z) :=
  header_end ← ok_or (checked_add offset IMAGE_HEADER_LEN) FirmwareError.TruncatedImage;
  if fb_payload_end b <? header_end then Err FirmwareError.TruncatedImage
  else
    k ← word (fb_bytes b) offset;
    kind ← ImageKind.from_u32 k;
    count ← word (fb_bytes b) (offset + 4);
    end_ ← ok_or (checked_add header_end count) FirmwareError.TruncatedImage;
    if fb_payload_end b <? end_ then Err FirmwareError.TruncatedImage
    else Ok (kind, header_end, end_).

(** The loop of [validate_images], for [n] more images. *)
Fixpoint validate_images_loop (b : FirmwareBundle) (n : nat) (offset seen : Z)
    : res FirmwareError.t (Z * Z) :=
  match n with
  | O => Ok (offset, seen)
  | Datatypes.S n =>
      '(kind, _, end_) ← image_extent b offset;
      let mask := u8 (Z.shiftl 1 (ImageKind.to_u32 kind)) in
      if negb (Z.land seen mask =? 0)
      then Err (FirmwareError.InvalidImageType (ImageKind.to_u32 kind))
      else validate_images_loop b n end_ (Z.lor seen mask)
  end.

Definition validate_images (b : FirmwareBundle) : res FirmwareError.t unit :=
  '(offset, seen) ← validate_images_loop b (Z.to_nat PATCH_IMAGE_COUNT) PATCH_HEADER_LEN 0;
  if negb (seen =? 15) || negb (offset =? fb_payload_end b)
  then Err FirmwareError.LengthMismatch
  else Ok tt.

Definition FirmwareBundle_parse (bytes : list Z) : res FirmwareError.t FirmwareBundle :=
  if len bytes <? PATCH_HEADER_LEN then Err FirmwareError.TruncatedHeader
  else
    header ← parse_compatible_header bytes;
    payload_end ← exact_payload_end bytes (fh_payload_len header);
    let bundle := mkFirmwareBundle bytes header payload_end in
    validate_images bundle;;
    Ok bundle.

(** The loop of [image], for [n] more images. *)
Fixpoint image_loop (b : FirmwareBundle) (wanted : ImageKind.t) (n : nat) (offset : Z)
    : res FirmwareError.t FirmwareImage :=
  match n with
  | O => Err (FirmwareError.InvalidImageType (ImageKind.to_u32 wanted))
  | Datatypes.S n =>
      '(kind, start, end_) ← image_extent b offset;
      if bool_decide (kind = wanted) then
        data ← subslice (fb_bytes b) start end_;
        Ok (mkFirmwareImage kind data)
      else image_loop b wanted n end_
  end.

Definition image (b : FirmwareBundle) (wanted : ImageKind.t) : res FirmwareError.t FirmwareImage :=
  image_loop b wanted (Z.to_nat PATCH_IMAGE_COUNT) PATCH_HEADER_LEN.

(** ** Authorization *)

Section authorization.
Context `{Sha256}.

Definition full_sha256 (b : FirmwareBundle) : list Z := sha256 (fb_bytes b).

Definition verify_hash (b : FirmwareBundle) : res FirmwareError.t unit :=
  payload ← subslice (fb_bytes b) PATCH_HEADER_LEN (fb_payload_end b);
  if bool_decide (sha256 payload = fh_hash (fb_header b)) then Ok tt
  else Err FirmwareError.HashMismatch.

Definition PinnedFirmwareSha256_verify (expected : list Z) (b : FirmwareBundle)
    : res FirmwareError.t unit :=
  let difference :=
    foldl (fun difference '(x, y) => Z.lor difference (Z.lxor x y)) 0
      (zip (full_sha256 b) expected) in
  if difference =? 0 then Ok tt else Err FirmwareError.UntrustedImage.
End authorization.

(** ** Loading *)

Module ProcessorOperation.
Inductive t : Type := Reset | Boot.
Definition stage (x : t) (processor : Processor.t) : LoadStage.t :=
  match x with Reset => LoadStage.Reset processor | Boot => LoadStage.Boot processor end.
End ProcessorOperation.

Record BootConfig : Type := mkBootConfig {
  signature_address : Z;
  sleep_control : Z;
  patch_offset : Z;
  run_register : Z;
  boot_vectors : list Z }.

Definition boot_config (processor : Processor.t) : BootConfig :=
  match processor with
  | Processor.Lmac =>
      mkBootConfig RPU_MEM_LMAC_BOOT_SIG RPU_REG_UCC_SLEEP_CTRL_DATA_0
        (RPU_MEM_LMAC_PATCH_BIMG - 0x80040000) RPU_REG_MIPS_MCU_CONTROL LMAC_BOOT_VECTOR_REGISTERS
  | Processor.Umac =>
      mkBootConfig RPU_MEM_UMAC_BOOT_SIG RPU_REG_UCC_SLEEP_CTRL_DATA_1
        (RPU_MEM_UMAC_PATCH_BIMG - 0x80080000) RPU_REG_MIPS_MCU2_CONTROL UMAC_BOOT_VECTOR_REGISTERS
  end.

Section loading.
Context {W E : Type} `{BusOps W E} `{DelayOps W} `{Sha256}.

Definition program_boot (processor : Processor.t) (config : BootConfig)
    : M W (RpuError.t E) unit :=
  Memory.write_u32 processor (signature_address config) 0;;
  write_register (sleep_control config) (patch_offset config);;
  for_each (zip (boot_vectors config) BOOT_VECTOR_VALUES)
    (fun '(address, value) => write_register address value);;
  write_register (run_register config) 1.

(** [for _ in 0..attempts] *)
Fixpoint boot_signature_loop (attempts : nat) (processor : Processor.t) (address : Z)
    : M W (RpuError.t E) unit :=
  match attempts with
  | O => throw RpuError.Timeout
  | Datatypes.S attempts =>
      value ← Memory.read_u32 processor address;
      if value =? BOOT_SIGNATURE then mret tt
      else delay 10;; boot_signature_loop attempts processor address
  end.

Definition wait_for_boot_signature (processor : Processor.t) (address : Z)
    : M W (RpuError.t E) unit :=
  boot_signature_loop 100 processor address.

Definition boot_processor (processor : Processor.t) : M W (RpuError.t E) unit :=
  let config := boot_config processor in
  program_boot processor config;;
  wait_for_boot_signature processor (signature_address config).

Definition run_processor_operation (operation : ProcessorOperation.t)
    : M W (LoadError.t E) unit :=
  for_each [Processor.Lmac; Processor.Umac] (fun processor =>
    mapM_err (LoadError.Rpu (ProcessorOperation.stage operation processor))
      (match operation with
       | ProcessorOperation.Reset => reset_processor processor
       | ProcessorOperation.Boot => boot_processor processor
       end)).

Definition download_order : list ImageKind.t :=
  [ImageKind.UmacPrimary; ImageKind.UmacSecondary; ImageKind.LmacPrimary; ImageKind.LmacSecondary].

Definition download_images (b : FirmwareBundle) : M W (LoadError.t E) unit :=
  for_each download_order (fun kind =>
    i ← lift (map_err LoadError.Firmware (image b kind));
    let '(processor, address) := ImageKind.destination kind in
    mapM_err (LoadError.Rpu (LoadStage.Download kind))
      (Memory.write processor address (fi_data i))).

Definition load (trust : FirmwareBundle -> res FirmwareError.t unit) (b : FirmwareBundle)
    : M W (LoadError.t E) FirmwareReport :=
  lift (map_err LoadError.Firmware (trust b));;
  lift (map_err LoadError.Firmware (verify_hash b));;
  run_processor_operation ProcessorOperation.Reset;;
  download_images b;;
  run_processor_operation ProcessorOperation.Boot;;
  mret (mkFirmwareReport (fh_version (fb_header b)) (fh_feature_flags (fb_header b))).
End loading.

(** * Lemmas *)

(** ** The file format *)

Definition image_bytes (i : FirmwareImage) : list Z :=
  to_le 4 (ImageKind.to_u32 (fi_kind i)) ++ to_le 4 (len (fi_data i)) ++ fi_data i.
Definition images_bytes (images : list FirmwareImage) : list Z := concat (map image_bytes images).

(** A bundle file: the 52-byte header and the images. *)
Definition bundle_bytes (hash : list Z) (images : list FirmwareImage) : list Z :=
  to_le 4 PATCH_SIGNATURE ++ to_le 4 PATCH_IMAGE_COUNT ++ to_le 4 PINNED_PATCH_VERSION
  ++ to_le 4 FEATURE_SYSTEM_MODE ++ to_le 4 (len (images_bytes images)) ++ hash
  ++ images_bytes images.

(** Four images, one of each kind. *)
Definition images_ok (images : list FirmwareImage) : Prop :=
  length images = 4%nat /\ NoDup (map fi_kind images).

(** Any list is its first words and the rest. *)
Lemma word_take {E} l i :
  bytes_ok l -> 0 <= i -> i + 4 <= len l ->
  exists v, @word E l i = Ok v /\ take 4 (drop (Z.to_nat i) l) = to_le 4 v /\ in_u 32 v.
Proof.
  intros Hb Hi Hl. pose proof (slice_in l i (i + 4) ltac:(lia) ltac:(lia)) as Hs.
  replace (Z.to_nat (i + 4 - i)) with 4%nat in Hs by lia.
  set (s := take 4 (drop (Z.to_nat i) l)) in *.
  assert (bytes_ok s) as Hsb by (by apply Forall_take, Forall_drop).
  assert (len s = 4) as Hsl by (unfold s; rewrite len_take, len_drop; lia).
  exists (from_le s). split; [apply (read_u32_slice l i s Hs)|].
  pose proof (from_le_bound s Hsb) as Hr. rewrite Hsl in Hr. split; [|exact Hr].
  rewrite <-(to_le_from_le s Hsb) at 1. f_equal. unfold len in Hsl. lia.
Qed.

Lemma from_u32_spec v :
  match ImageKind.from_u32 v with
  | Ok k => v = ImageKind.to_u32 k
  | Err _ => forall k, v <> ImageKind.to_u32 k
  | Panic => False
  end.
Proof.
  unfold ImageKind.from_u32.
  destruct (v =? 0) eqn:H0; [cbn; lia|]. destruct (v =? 1) eqn:H1; [cbn; lia|].
  destruct (v =? 2) eqn:H2; [cbn; lia|]. destruct (v =? 3) eqn:H3; [cbn; lia|].
  intros []; cbn; lia.
Qed.

Lemma from_to_u32 k : ImageKind.from_u32 (ImageKind.to_u32 k) = Ok k.
Proof. by destruct k. Qed.

Lemma to_u32_range k : 0 <= ImageKind.to_u32 k < 4.
Proof. destruct k; cbn; lia. Qed.

Lemma len_image_bytes i : len (image_bytes i) = 8 + len (fi_data i).
Proof. unfold image_bytes. rewrite !len_app, !len_to_le. lia. Qed.

(** ** One image *)

Section bundle.
Variable b : FirmwareBundle.
Hypothesis b_end : fb_payload_end b = len (fb_bytes b).
Hypothesis b_size : len (fb_bytes b) <= ISIZE_MAX.

(** [images] are the ones between the offsets [off] and [off']. *)
Definition images_at (off : Z) (images : list FirmwareImage) (off' : Z) : Prop :=
  0 <= off /\ off' = off + len (images_bytes images) /\ off' <= len (fb_bytes b)
  /\ exists rest, drop (Z.to_nat off) (fb_bytes b) = images_bytes images ++ rest.

Lemma drop_after (l k r : list Z) off :
  0 <= off -> drop (Z.to_nat off) l = k ++ r -> drop (Z.to_nat (off + len k)) l = r.
Proof.
  intros Ho Hd. replace (Z.to_nat (off + len k)) with (Z.to_nat off + length k)%nat
    by (unfold len; lia).
  rewrite <-drop_drop, Hd. apply drop_app_length.
Qed.

Lemma images_at_cons off i images off' :
  images_at off (i :: images) off' <->
  images_at off [i] (off + len (image_bytes i)) /\ images_at (off + len (image_bytes i)) images off'.
Proof.
  unfold images_at, images_bytes. cbn [map concat]. rewrite app_nil_r, len_app.
  pose proof (len_nonneg (image_bytes i)). pose proof (len_nonneg (concat (map image_bytes images))).
  split.
  - intros (Ho & -> & Hl & rest & Hd). rewrite <-app_assoc in Hd.
    split; (split; [lia|]; split; [lia|]; split; [lia|]); [by eexists|].
    exists rest. by apply (drop_after _ (image_bytes i)).
  - intros [(Ho & _ & Hl & rest & Hd) (_ & -> & Hl' & rest' & Hd')].
    split; [done|]. split; [lia|]. split; [lia|]. exists rest'. rewrite Hd, <-app_assoc. f_equal.
    rewrite <-Hd'. symmetry. by apply (drop_after _ (image_bytes i)).
Qed.

Lemma image_extent_complete off i :
  images_at off [i] (off + len (image_bytes i)) ->
  image_extent b off = Ok (fi_kind i, off + 8, off + len (image_bytes i))
  /\ @subslice FirmwareError.t (fb_bytes b) (off + 8) (off + len (image_bytes i)) = Ok (fi_data i).
Proof.
  intros (Ho & _ & Hl & rest & Hd). rewrite len_image_bytes in *.
  unfold images_bytes in Hd. cbn [map concat] in Hd. rewrite app_nil_r in Hd.
  unfold image_bytes in Hd. rewrite <-!app_assoc in Hd.
  set (pre := take (Z.to_nat off) (fb_bytes b)).
  pose proof (len_nonneg (fi_data i)). unfold ISIZE_MAX in *.
  assert (len pre = off) as Hp by (unfold pre; rewrite len_take; lia).
  assert (fb_bytes b = pre ++ to_le 4 (ImageKind.to_u32 (fi_kind i)) ++ to_le 4 (len (fi_data i))
            ++ fi_data i ++ rest) as Hb
    by (rewrite <-Hd; symmetry; apply take_drop).
  pose proof (to_u32_range (fi_kind i)) as Hk.
  unfold image_extent, IMAGE_HEADER_LEN, checked_add, USIZE_MAX. rewrite b_end.
  rewrite (proj2 (Z.leb_le (off + 8) _)) by lia. cbn [ok_or mbind res_bind].
  rewrite (proj2 (Z.ltb_ge _ (off + 8))) by lia.
  change (@word FirmwareError.t) with (@Codec.read_u32 FirmwareError.t).
  rewrite Hb at 1. rewrite (read_u32_app pre) by (done || (unfold in_u; lia)).
  cbn [mbind res_bind]. rewrite from_to_u32. cbn [mbind res_bind].
  assert (@Codec.read_u32 FirmwareError.t (fb_bytes b) (off + 4) = Ok (len (fi_data i))) as ->.
  { rewrite Hb, app_assoc. apply read_u32_app; [rewrite len_app, len_to_le; lia|].
    unfold in_u. lia. }
  cbn [mbind res_bind]. rewrite (proj2 (Z.leb_le (off + 8 + _) _)) by lia.
  cbn [ok_or mbind res_bind]. rewrite (proj2 (Z.ltb_ge _ (off + 8 + _))) by lia.
  split; [by rewrite Z.add_assoc|].
  rewrite Hb. replace (pre ++ _) with ((pre ++ to_le 4 (ImageKind.to_u32 (fi_kind i))
    ++ to_le 4 (len (fi_data i))) ++ fi_data i ++ rest) by by rewrite <-!app_assoc.
  apply subslice_app; rewrite !len_app, !len_to_le; lia.
Qed.

Lemma image_extent_sound off :
  bytes_ok (fb_bytes b) -> 0 <= off ->
  match image_extent b off with
  | Ok (kind, start, end_) =>
      exists data, images_at off [mkFirmwareImage kind data] end_
        /\ end_ = off + len (image_bytes (mkFirmwareImage kind data))
  | Err _ => forall i off', ~ images_at off [i] off'
  | Panic => False
  end.
Proof.
  intros Hb Ho.
  assert (forall e, image_extent b off = Err e -> forall i off', ~ images_at off [i] off') as Herr.
  { intros e He i off' Hi. assert (off' = off + len (image_bytes i)) as ->.
    { destruct Hi as (_ & -> & _). unfold images_bytes. cbn. by rewrite app_nil_r. }
    apply image_extent_complete in Hi as [Hi _]. congruence. }
  destruct (image_extent b off) as [[[kind start] end_]|e|] eqn:He; [|by eapply Herr|].
  all: unfold image_extent, IMAGE_HEADER_LEN, checked_add, USIZE_MAX in He; rewrite b_end in He.
  all: destruct (off + 8 <=? 2 ^ 32 - 1); cbn [ok_or mbind res_bind] in He; [|done].
  all: destruct (len (fb_bytes b) <? off + 8) eqn:Hl; [done|]; apply Z.ltb_ge in Hl.
  all: destruct (@word_take FirmwareError.t (fb_bytes b) off) as (k & Hk & Hk4 & _); [done|lia..|].
  all: destruct (@word_take FirmwareError.t (fb_bytes b) (off + 4)) as (n & Hn & Hn4 & Hnr); [done|lia..|].
  all: rewrite Hk in He; cbn [mbind res_bind] in He.
  all: pose proof (from_u32_spec k) as Hkind.
  all: destruct (ImageKind.from_u32 k) as [kd|?|]; cbn [mbind res_bind] in He; [|done..].
  all: rewrite Hn in He; cbn [mbind res_bind] in He.
  all: destruct (off + 8 + n <=? 2 ^ 32 - 1); cbn [ok_or mbind res_bind] in He; [|done].
  all: destruct (len (fb_bytes b) <? off + 8 + n) eqn:Hl'; [done|].
  2: done.
  apply Z.ltb_ge in Hl'. injection He as <- <- <-. unfold in_u in Hnr.
  set (data := take (Z.to_nat n) (drop (Z.to_nat (off + 8)) (fb_bytes b))).
  assert (len data = n) as Hdl by (unfold data; rewrite len_take, len_drop; lia).
  exists data. rewrite len_image_bytes. cbn [fi_data]. split; [|lia].
  unfold images_at, images_bytes. cbn [map concat]. rewrite app_nil_r, len_image_bytes. cbn [fi_data].
  split; [lia|]. split; [lia|]. split; [lia|].
  exists (drop (Z.to_nat (off + 8 + n)) (fb_bytes b)). unfold image_bytes. cbn [fi_kind fi_data].
  rewrite Hdl, <-Hkind, <-Hk4, <-Hn4, <-!app_assoc.
  rewrite <-(take_drop 4 (drop (Z.to_nat off) (fb_bytes b))) at 1. f_equal.
  rewrite drop_drop. replace (Z.to_nat off + 4)%nat with (Z.to_nat (off + 4)) by lia.
  rewrite <-(take_drop 4 (drop (Z.to_nat (off + 4)) (fb_bytes b))) at 1. f_equal.
  rewrite drop_drop. replace (Z.to_nat (off + 4) + 4)%nat with (Z.to_nat (off + 8)) by lia.
  rewrite <-(take_drop (Z.to_nat n) (drop (Z.to_nat (off + 8)) (fb_bytes b))) at 1. f_equal.
  rewrite drop_drop. f_equal. lia.
Qed.
End bundle.

(** ** The loops over the images *)

(** The duplicate check of [validate_images], on the kinds alone. *)
Fixpoint seen_fold (kinds : list ImageKind.t) (seen : Z) : option Z :=
  match kinds with
  | [] => Some seen
  | kind :: kinds =>
      let mask := u8 (Z.shiftl 1 (ImageKind.to_u32 kind)) in
      if negb (Z.land seen mask =? 0) then None else seen_fold kinds (Z.lor seen mask)
  end.

(** Four kinds pass with all bits set exactly when they are distinct. *)
Lemma seen_fold_distinct kinds :
  length kinds = 4%nat -> seen_fold kinds 0 = Some 15 <-> NoDup kinds.
Proof.
  destruct kinds as [|k1 [|k2 [|k3 [|k4 [|]]]]]; try discriminate. intros _.
  assert (bool_decide (seen_fold [k1; k2; k3; k4] 0 = Some 15)
          = bool_decide (NoDup [k1; k2; k3; k4])) as Hb
    by (destruct k1, k2, k3, k4; by vm_compute).
  rewrite <-(bool_decide_eq_true (_ = _)), Hb. apply bool_decide_eq_true.
Qed.

Section bundle_loops.
Variable b : FirmwareBundle.
Hypothesis b_end : fb_payload_end b = len (fb_bytes b).
Hypothesis b_size : len (fb_bytes b) <= ISIZE_MAX.
Hypothesis b_bytes : bytes_ok (fb_bytes b).

Lemma images_at_off off i off' :
  images_at b off [i] off' -> off' = off + len (image_bytes i).
Proof. intros (_ & -> & _). unfold images_bytes. cbn. by rewrite app_nil_r. Qed.

Lemma images_at_nil off : 0 <= off <= len (fb_bytes b) -> images_at b off [] off.
Proof. intros. split; [lia|]. split; [change (len (images_bytes [])) with 0; lia|].
  split; [lia|]. by eexists. Qed.

(** The bytes determine the images. *)
Lemma images_unique images images' off e e' :
  length images = length images' -> images_at b off images e -> images_at b off images' e' ->
  map fi_kind images = map fi_kind images' /\ e = e'.
Proof using b_end b_size.
  revert images' off. induction images as [|i images IH]; intros [|j images'] off Hlen Hi Hj;
    try discriminate Hlen.
  { destruct Hi as (_ & -> & _), Hj as (_ & -> & _). done. }
  apply images_at_cons in Hi as [Hi Hi'], Hj as [Hj Hj'].
  apply (image_extent_complete b b_end b_size) in Hi as [Hi _], Hj as [Hj _].
  rewrite Hi in Hj. injection Hj as Hk Hl. rewrite <-Hl in Hj'.
  destruct (IH images' _ ltac:(by injection Hlen) Hi' Hj') as [Hks He].
  split; [|done]. cbn [map]. by rewrite Hk, Hks.
Qed.

(** The loop succeeds exactly on a sequence of images that passes the check. *)
Lemma validate_loop_spec n off seen :
  0 <= off <= len (fb_bytes b) ->
  match validate_images_loop b n off seen with
  | Ok (off', seen') =>
      exists images, length images = n /\ images_at b off images off'
        /\ seen_fold (map fi_kind images) seen = Some seen'
  | Err _ =>
      forall images off', length images = n -> images_at b off images off' ->
        seen_fold (map fi_kind images) seen = None
  | Panic => False
  end.
Proof using b_end b_size b_bytes.
  revert off seen. induction n as [|n IH]; intros off seen Ho; cbn [validate_images_loop].
  { exists []. split; [done|]. split; [by apply images_at_nil|done]. }
  pose proof (image_extent_sound b b_end b_size off b_bytes ltac:(lia)) as He.
  destruct (image_extent b off) as [[[kind start] end_]|e|]; cbn [mbind res_bind];
    [|intros [|i images] off' Hlen Hat; [done|]|done].
  2: { apply images_at_cons in Hat as [Hat _]. by destruct (He i _ Hat). }
  destruct He as (data & Hat & Hend). set (i := mkFirmwareImage kind data) in *.
  assert (forall j images off', images_at b off (j :: images) off' ->
            fi_kind j = kind /\ images_at b end_ images off') as Hfirst.
  { intros j images off' Hj. apply images_at_cons in Hj as [Hj Hrest].
    apply (image_extent_complete b b_end b_size) in Hj as [Hj _].
    rewrite Hend in Hat. apply (image_extent_complete b b_end b_size) in Hat as [Hi _].
    rewrite Hi in Hj. injection Hj as Hk Hl. split; [by rewrite <-Hk|].
    rewrite Hend, Hl. exact Hrest. }
  destruct (negb (Z.land seen _ =? 0)) eqn:Hm.
  { intros [|j images] off' Hlen Hj; [done|]. apply Hfirst in Hj as [Hk _].
    cbn [map seen_fold]. by rewrite Hk, Hm. }
  assert (0 <= end_ <= len (fb_bytes b)) as Hoe.
  { destruct Hat as (? & ? & ? & _). pose proof (len_nonneg (images_bytes [i])). lia. }
  specialize (IH end_ (Z.lor seen (u8 (Z.shiftl 1 (ImageKind.to_u32 kind)))) Hoe).
  destruct (validate_images_loop b n end_ _) as [[off' seen']|e|]; [| |done].
  - destruct IH as (images & Hlen & Hats & Hseen). exists (i :: images).
    split; [cbn; lia|]. split.
    + apply images_at_cons. rewrite <-Hend. done.
    + cbn [map seen_fold]. change (fi_kind i) with kind. by rewrite Hm.
  - intros [|j images] off' Hlen Hj; [done|]. apply Hfirst in Hj as [Hk Hj].
    cbn [map seen_fold]. rewrite Hk, Hm. eapply IH; [by injection Hlen|exact Hj].
Qed.

Lemma validate_images_spec :
  52 <= len (fb_bytes b) ->
  match validate_images b with
  | Ok _ => exists images, images_ok images /\ images_at b 52 images (len (fb_bytes b))
  | Err _ => forall images, images_ok images -> ~ images_at b 52 images (len (fb_bytes b))
  | Panic => False
  end.
Proof using b_end b_size b_bytes.
  intros Hge. unfold validate_images. change (Z.to_nat PATCH_IMAGE_COUNT) with 4%nat.
  change PATCH_HEADER_LEN with 52.
  pose proof (validate_loop_spec 4 52 0 ltac:(lia)) as Hl.
  destruct (validate_images_loop b 4 52 0) as [[off seen]|e|]; cbn [mbind res_bind]; [| |done].
  - destruct Hl as (images & Hlen & Hat & Hs). rewrite b_end.
    assert (length (map fi_kind images) = 4%nat) as Hlk by by rewrite length_map.
    destruct (negb (seen =? 15) || negb (off =? len (fb_bytes b))) eqn:Hc.
    + intros images' [Hlen' Hnd] Hat'.
      destruct (images_unique images images' 52 off _ ltac:(congruence) Hat Hat') as [Hk ->].
      rewrite <-Hk in Hnd. apply (proj2 (seen_fold_distinct _ Hlk)) in Hnd.
      rewrite Hs in Hnd. injection Hnd as ->. by rewrite !Z.eqb_refl in Hc.
    + apply orb_false_iff in Hc as [Hc1%negb_false_iff Hc2%negb_false_iff].
      apply Z.eqb_eq in Hc1 as ->. apply Z.eqb_eq in Hc2 as ->. exists images.
      split; [|exact Hat]. split; [done|]. by apply (seen_fold_distinct _ Hlk).
  - intros images [Hlen Hnd] Hat. specialize (Hl images _ Hlen Hat).
    apply (seen_fold_distinct (map fi_kind images)) in Hnd; [congruence|by rewrite length_map].
Qed.
End bundle_loops.

(** ** The header *)

Definition header_bytes (payload_len : Z) (hash : list Z) : list Z :=
  to_le 4 PATCH_SIGNATURE ++ to_le 4 PATCH_IMAGE_COUNT ++ to_le 4 PINNED_PATCH_VERSION
  ++ to_le 4 FEATURE_SYSTEM_MODE ++ to_le 4 payload_len ++ hash.

Lemma len_header_bytes payload_len hash :
  len hash = 32 -> len (header_bytes payload_len hash) = 52.
Proof. intros Hh. unfold header_bytes. rewrite !len_app, !len_to_le, Hh. lia. Qed.

Lemma bundle_bytes_header hash images :
  bundle_bytes hash images = header_bytes (len (images_bytes images)) hash ++ images_bytes images.
Proof. unfold bundle_bytes, header_bytes. by rewrite <-!app_assoc. Qed.

Lemma header_complete payload_len hash rest :
  in_u 32 payload_len -> len hash = 32 ->
  parse_compatible_header (header_bytes payload_len hash ++ rest)
  = Ok (mkFirmwareHeader PINNED_PATCH_VERSION FEATURE_SYSTEM_MODE payload_len hash).
Proof.
  intros Hp Hh. unfold header_bytes. rewrite <-!app_assoc.
  set (l := _ ++ _ ++ _). unfold parse_compatible_header.
  assert (@word FirmwareError.t l 0 = Ok PATCH_SIGNATURE) as -> by reflexivity.
  assert (@word FirmwareError.t l 4 = Ok PATCH_IMAGE_COUNT) as -> by reflexivity.
  assert (@word FirmwareError.t l 8 = Ok PINNED_PATCH_VERSION) as -> by reflexivity.
  assert (@word FirmwareError.t l 12 = Ok FEATURE_SYSTEM_MODE) as -> by reflexivity.
  cbn [mbind res_bind]. rewrite !Z.eqb_refl. cbn [negb].
  change (@word FirmwareError.t) with (@Codec.read_u32 FirmwareError.t).
  unfold l. rewrite !app_assoc. rewrite <-(app_assoc _ hash), <-(app_assoc _ (to_le 4 _)).
  rewrite read_u32_app by done. cbn [mbind res_bind]. rewrite app_assoc.
  rewrite subslice_app by (rewrite ?len_app, ?len_to_le, ?Hh; reflexivity). reflexivity.
Qed.

Lemma header_sound bytes :
  bytes_ok bytes -> 52 <= len bytes ->
  match parse_compatible_header bytes with
  | Ok h => exists payload_len hash,
      in_u 32 payload_len /\ len hash = 32
      /\ h = mkFirmwareHeader PINNED_PATCH_VERSION FEATURE_SYSTEM_MODE payload_len hash
      /\ bytes = header_bytes payload_len hash ++ drop 52 bytes
  | Err _ => True
  | Panic => False
  end.
Proof.
  intros Hb Hl. unfold parse_compatible_header.
  destruct (@word_take FirmwareError.t bytes 0) as (s & -> & Hs & _); [done|lia..|].
  destruct (@word_take FirmwareError.t bytes 4) as (c & -> & Hc & _); [done|lia..|].
  destruct (@word_take FirmwareError.t bytes 8) as (v & -> & Hv & _); [done|lia..|].
  destruct (@word_take FirmwareError.t bytes 12) as (f & -> & Hf & _); [done|lia..|].
  destruct (@word_take FirmwareError.t bytes 16) as (p & -> & Hp & Hpr); [done|lia..|].
  cbn [mbind res_bind].
  destruct (s =? PATCH_SIGNATURE) eqn:Es; [apply Z.eqb_eq in Es as ->|done].
  destruct (c =? PATCH_IMAGE_COUNT) eqn:Ec; [apply Z.eqb_eq in Ec as ->|done].
  destruct (v =? PINNED_PATCH_VERSION) eqn:Ev; [apply Z.eqb_eq in Ev as ->|done].
  destruct (f =? FEATURE_SYSTEM_MODE) eqn:Ef; [apply Z.eqb_eq in Ef as ->|done].
  cbn [negb]. unfold subslice. rewrite slice_in by (unfold PATCH_HEADER_LEN; lia). cbn [mbind res_bind].
  exists p, (take 32 (drop 20 bytes)).
  split; [done|]. split; [rewrite len_take, len_drop; lia|]. split; [done|].
  unfold header_bytes. rewrite <-Hs, <-Hc, <-Hv, <-Hf, <-Hp, <-!app_assoc.
  assert (forall i n r, r = drop (i + n) bytes -> drop i bytes = take n (drop i bytes) ++ r) as Hd.
  { intros i n r ->. by rewrite <-drop_drop, take_drop. }
  change bytes with (drop 0 bytes) at 1.
  rewrite (Hd 0%nat 4%nat (drop 4 bytes) eq_refl). f_equal. rewrite (Hd 4%nat 4%nat (drop 8 bytes) eq_refl). f_equal.
  rewrite (Hd 8%nat 4%nat (drop 12 bytes) eq_refl). f_equal. rewrite (Hd 12%nat 4%nat (drop 16 bytes) eq_refl). f_equal.
  rewrite (Hd 16%nat 4%nat (drop 20 bytes) eq_refl). f_equal. by apply Hd.
Qed.

(** ** Image lookup *)

Lemma image_loop_at b wanted images off off' :
  fb_payload_end b = len (fb_bytes b) -> len (fb_bytes b) <= ISIZE_MAX ->
  images_at b off images off' -> wanted ∈ images -> NoDup (map fi_kind images) ->
  image_loop b (fi_kind wanted) (length images) off = Ok wanted.
Proof.
  intros Hend Hsize. revert off. induction images as [|i images IH]; intros off Hat Hin Hnd.
  { by apply elem_of_nil in Hin. }
  apply images_at_cons in Hat as [Hi Hrest].
  apply (image_extent_complete b Hend Hsize) in Hi as [Hi Hdata].
  cbn [length image_loop]. rewrite Hi. cbn [mbind res_bind].
  cbn [map] in Hnd. inversion_clear Hnd as [|? ? Hnew Hnd'].
  apply elem_of_cons in Hin as [->|Hin].
  - rewrite bool_decide_eq_true_2 by done. rewrite Hdata. cbn [mbind res_bind]. by destruct i.
  - rewrite bool_decide_eq_false_2; [by apply IH|]. intros Hk. apply Hnew. rewrite Hk.
    change (map fi_kind images) with (fi_kind <$> images). by apply list_elem_of_fmap_2.
Qed.

Lemma images_in_bundle b hash images :
  fb_bytes b = bundle_bytes hash images -> len hash = 32 ->
  images_at b 52 images (len (fb_bytes b)).
Proof.
  intros Hb Hh. pose proof (len_header_bytes (len (images_bytes images)) hash Hh) as Hl.
  rewrite bundle_bytes_header in Hb. unfold images_at. rewrite Hb, len_app, Hl.
  split; [lia|]. split; [done|]. split; [lia|]. exists [].
  rewrite app_nil_r. replace (Z.to_nat 52) with (length (header_bytes (len (images_bytes images)) hash))
    by (unfold len at 1 in Hl; lia). apply drop_app_length.
Qed.

(** [bytes] holds a bundle of these parts. *)
Definition parses_as (bytes : list Z) (hash : list Z) (images : list FirmwareImage) : Prop :=
  images_ok images /\ len hash = 32 /\ bytes = bundle_bytes hash images.

Definition bundle_of (hash : list Z) (images : list FirmwareImage) : FirmwareBundle :=
  mkFirmwareBundle (bundle_bytes hash images)
    (mkFirmwareHeader PINNED_PATCH_VERSION FEATURE_SYSTEM_MODE (len (images_bytes images)) hash)
    (len (bundle_bytes hash images)).

Lemma len_bundle_bytes hash images :
  len hash = 32 -> len (bundle_bytes hash images) = 52 + len (images_bytes images).
Proof. intros. by rewrite bundle_bytes_header, len_app, len_header_bytes. Qed.

Lemma parse_complete hash images :
  images_ok images -> len hash = 32 -> bytes_ok (bundle_bytes hash images) ->
  len (bundle_bytes hash images) <= ISIZE_MAX ->
  FirmwareBundle_parse (bundle_bytes hash images) = Ok (bundle_of hash images).
Proof.
  intros Hok Hh Hb Hsize. pose proof (len_bundle_bytes hash images Hh) as Hl.
  pose proof (len_nonneg (images_bytes images)).
  unfold FirmwareBundle_parse. change PATCH_HEADER_LEN with 52.
  rewrite (proj2 (Z.ltb_ge _ 52)) by lia.
  rewrite bundle_bytes_header at 1. unfold ISIZE_MAX in Hsize.
  rewrite header_complete by (done || (unfold in_u; lia)). cbn [mbind res_bind fh_payload_len].
  unfold exact_payload_end, checked_add, USIZE_MAX. change PATCH_HEADER_LEN with 52.
  rewrite (proj2 (Z.leb_le (52 + _) _)) by lia. cbn [ok_or mbind res_bind].
  rewrite <-Hl, Z.ltb_irrefl, Z.eqb_refl. cbn [negb mbind res_bind].
  fold (bundle_of hash images).
  pose proof (validate_images_spec (bundle_of hash images) eq_refl Hsize Hb) as Hv.
  specialize (Hv ltac:(change (52 <= len (bundle_bytes hash images)); lia)).
  destruct (validate_images (bundle_of hash images)) as [[]|e|]; [done| |done].
  destruct (Hv images Hok). by apply (images_in_bundle _ hash).
Qed.

Lemma parse_bundle_spec bytes :
  bytes_ok bytes -> len bytes <= ISIZE_MAX ->
  match FirmwareBundle_parse bytes with
  | Ok b =>
      exists hash images, parses_as bytes hash images /\ b = bundle_of hash images
        /\ forall i, i ∈ images -> image b (fi_kind i) = Ok i
  | Err _ => forall hash images, ~ parses_as bytes hash images
  | Panic => False
  end.
Proof.
  intros Hb Hsize.
  assert (forall e, FirmwareBundle_parse bytes = Err e -> forall hash images, ~ parses_as bytes hash images)
    as Herr.
  { intros e He hash images (Hok & Hh & ->). rewrite (parse_complete hash images) in He by done. done. }
  destruct (FirmwareBundle_parse bytes) as [b|e|] eqn:Hp; [|by eapply Herr|].
  all: unfold FirmwareBundle_parse in Hp; change PATCH_HEADER_LEN with 52 in Hp.
  all: destruct (len bytes <? 52) eqn:Hl; [done|]; apply Z.ltb_ge in Hl.
  all: pose proof (header_sound bytes Hb Hl) as Hs.
  all: destruct (parse_compatible_header bytes) as [h|?|]; cbn [mbind res_bind] in Hp; [|done..].
  all: destruct Hs as (plen & hash & Hpr & Hh & -> & Hbytes); cbn [fh_payload_len] in Hp.
  all: unfold exact_payload_end in Hp; change PATCH_HEADER_LEN with 52 in Hp.
  all: destruct (checked_add 52 plen) as [pe|] eqn:Hpe; cbn [ok_or mbind res_bind] in Hp; [|done].
  all: destruct (len bytes <? pe); [done|]; destruct (pe =? len bytes) eqn:Heq; [|done].
  all: cbn [negb mbind res_bind] in Hp; apply Z.eqb_eq in Heq as ->.
  all: unfold checked_add in Hpe; destruct (52 + plen <=? USIZE_MAX); [|done]; injection Hpe as Hpe.
  all: match type of Hp with context [validate_images ?x] =>
         pose proof (validate_images_spec x eq_refl Hsize Hb Hl) as Hv;
         destruct (validate_images x) as [[]|?|]; cbn [mbind res_bind] in Hp; try done end.
  injection Hp as <-. destruct Hv as (images & Hok & Hat).
  destruct Hat as (_ & Hlen & _ & rest & Hrest). cbn [fb_bytes] in *.
  assert (rest = []) as ->.
  { apply nil_length_inv. apply (f_equal len) in Hrest. rewrite len_drop, len_app in Hrest by lia.
    pose proof (len_nonneg rest). unfold len in *. lia. }
  rewrite app_nil_r in Hrest. change (Z.to_nat 52) with 52%nat in Hrest.
  assert (bytes = bundle_bytes hash images) as Hall.
  { rewrite bundle_bytes_header. replace (len (images_bytes images)) with plen by lia.
    rewrite <-Hrest.
    exact Hbytes. }
  exists hash, images. split; [done|]. split.
  - unfold bundle_of. rewrite <-Hall. do 2 f_equal. lia.
  - intros i Hi. unfold image. destruct Hok as [Hlen4 Hnd].
    change (Z.to_nat PATCH_IMAGE_COUNT) with 4%nat. rewrite <-Hlen4.
    eapply image_loop_at; [..|apply (images_in_bundle _ hash)|done|done]; try done.
Qed.

Lemma parse_bundle_parts file bundle :
  bytes_ok file -> len file <= ISIZE_MAX -> FirmwareBundle_parse file = Ok bundle ->
  exists hash images, images_ok images /\ len hash = 32 /\ bundle = bundle_of hash images
    /\ file = bundle_bytes hash images.
Proof.
  intros Hb Hsize Hp. pose proof (parse_bundle_spec file Hb Hsize) as Hs. rewrite Hp in Hs.
  destruct Hs as (hash & images & (Hok & Hh & Hf) & Hbd & _). by exists hash, images.
Qed.

(** C26: the parser accepts exactly the bundle format: header constants, 32-byte
    digest, a payload length that covers the rest of the file, and four
    images, one per kind, back to back; it returns the file's digest and finds
    each of the four images, and it never panics on any bytes. *)
Theorem parse_bundle_correct bytes :
  bytes_ok bytes -> len bytes <= ISIZE_MAX ->
  match FirmwareBundle_parse bytes with
  | Ok b =>
      exists hash images, parses_as bytes hash images /\ b = bundle_of hash images
        /\ forall i, i ∈ images -> image b (fi_kind i) = Ok i
  | Err _ => forall hash images, ~ parses_as bytes hash images
  | Panic => False
  end.
Proof. apply parse_bundle_spec. Qed.

(** ** Authorization and loading *)

(** The or of the differences is zero only for equal digests. *)
Lemma difference_zero (l : list (Z * Z)) acc :
  Forall (fun xy => is_byte xy.1 /\ is_byte xy.2) l -> 0 <= acc ->
  foldl (fun difference '(x, y) => Z.lor difference (Z.lxor x y)) acc l = 0
  <-> acc = 0 /\ Forall (fun xy => xy.1 = xy.2) l.
Proof.
  revert acc. induction l as [|[x y] l IH]; intros acc Hl Ha; cbn [foldl].
  { split; [by split|by intros []]. }
  apply Forall_cons_iff in Hl as [[Hx Hy] Hl]. unfold is_byte in *. cbn in Hx, Hy.
  assert (0 <= Z.lxor x y) by (apply Z.lxor_nonneg; lia).
  rewrite IH by (done || (apply Z.lor_nonneg; lia)).
  rewrite Forall_cons_iff, Z.lor_eq_0_iff, Z.lxor_eq_0_iff. cbn [fst snd]. tauto.
Qed.

Lemma zip_equal (l k : list Z) :
  length l = length k -> Forall (fun xy => xy.1 = xy.2) (zip l k) <-> l = k.
Proof.
  revert k. induction l as [|x l IH]; intros [|y k] Hlen; try discriminate Hlen; [done|].
  cbn [zip zip_with]. rewrite Forall_cons_iff, IH by (by injection Hlen). cbn [fst snd].
  split; [by intros [-> ->]|by injection 1].
Qed.

Lemma zip_bytes (l k : list Z) :
  bytes_ok l -> bytes_ok k -> Forall (fun xy => is_byte xy.1 /\ is_byte xy.2) (zip l k).
Proof.
  intros Hl. revert k. induction Hl as [|x l Hx Hl IH]; intros k Hk; [by constructor|].
  destruct Hk as [|y k Hy Hk]; constructor; [done|by apply IH].
Qed.

Lemma pinned_verify `{Sha256} expected b :
  len expected = 32 -> bytes_ok expected ->
  PinnedFirmwareSha256_verify expected b
  = if bool_decide (full_sha256 b = expected) then Ok tt else Err FirmwareError.UntrustedImage.
Proof.
  intros Hl Hb. unfold PinnedFirmwareSha256_verify, full_sha256.
  pose proof (sha256_len (fb_bytes b)) as Hs. pose proof (sha256_bytes (fb_bytes b)) as Hsb.
  set (d := foldl _ _ _).
  assert (d = 0 <-> sha256 (fb_bytes b) = expected) as Hd.
  { unfold d. rewrite difference_zero by (done || by apply zip_bytes).
    rewrite zip_equal by (unfold len in *; lia). tauto. }
  case_bool_decide as Hc.
  - by rewrite (proj2 (Z.eqb_eq _ _) (proj2 Hd Hc)).
  - destruct (d =? 0) eqn:He; [|done]. apply Z.eqb_eq in He. by destruct Hc; apply Hd.
Qed.

Section load_laws.
Context {W E : Type} `{HL : BusLaws W E} `{!DelayOps W} `{!DelayLaws W E} `{!Sha256}.

Lemma safe_boot_signature_loop n p a :
  safe (boot_signature_loop (E:=E) n p a) (fun _ => True).
Proof.
  induction n as [|n IH]; cbn [boot_signature_loop]; [apply safe_throw|].
  eapply safe_bind; [apply safe_read_u32|]. intros v _.
  destruct (v =? BOOT_SIGNATURE); [by apply safe_ret|].
  apply (safe_bind _ _ (fun _ => True)); [apply safe_delay|]. by intros.
Qed.

Lemma safe_run_processor_operation o :
  safe (run_processor_operation (E:=E) o) (fun _ => True).
Proof.
  apply safe_for_each. intros p _. apply safe_mapM_err. destruct o; [apply safe_reset_processor|].
  unfold boot_processor, program_boot.
  apply (safe_bind _ _ (fun _ => True)); [|intros _ _; apply (safe_boot_signature_loop 100)].
  apply (safe_bind _ _ (fun _ => True)); [apply safe_write_u32|intros _ _].
  apply (safe_bind _ _ (fun _ => True)); [apply safe_write_register|intros _ _].
  apply (safe_bind _ _ (fun _ => True)); [|intros _ _; apply safe_write_register].
  apply safe_for_each. intros [a v] _. apply safe_write_register.
Qed.

(** The image of a kind. *)
Definition image_of (images : list FirmwareImage) (kind : ImageKind.t) : option FirmwareImage :=
  List.find (fun i => bool_decide (fi_kind i = kind)) images.

(** What a loaded bundle does to the RPU: both processors are reset, then the
    four images are written to their windows, then both processors boot. *)
Definition program_images (images : list FirmwareImage) : M W (LoadError.t E) FirmwareReport :=
  run_processor_operation ProcessorOperation.Reset;;
  for_each (omap (image_of images) download_order) (fun i =>
    let '(processor, address) := ImageKind.destination (fi_kind i) in
    mapM_err (LoadError.Rpu (LoadStage.Download (fi_kind i)))
      (Memory.write processor address (fi_data i)));;
  run_processor_operation ProcessorOperation.Boot;;
  mret (mkFirmwareReport PINNED_PATCH_VERSION FEATURE_SYSTEM_MODE).

Lemma safe_program_images images : safe (program_images images) (fun _ => True).
Proof.
  unfold program_images.
  apply (safe_bind _ _ (fun _ => True)); [apply safe_run_processor_operation|intros _ _].
  apply (safe_bind _ _ (fun _ => True)).
  { apply safe_for_each. intros i _. destruct (ImageKind.destination _) as [p a].
    apply safe_mapM_err, safe_write. }
  intros _ _.
  apply (safe_bind _ _ (fun _ => True)); [apply safe_run_processor_operation|intros _ _].
  by apply safe_ret.
Qed.
End load_laws.

Lemma image_of_some images kind :
  images_ok images -> exists i, image_of images kind = Some i /\ i ∈ images /\ fi_kind i = kind.
Proof.
  intros [Hlen Hnd].
  assert (map fi_kind images ≡ₚ download_order) as Hp.
  { apply submseteq_length_Permutation; [|by rewrite length_map, Hlen].
    apply NoDup_submseteq; [done|]. intros [] _; by apply (bool_decide_eq_true_1 _). }
  assert (kind ∈ map fi_kind images) as Hin.
  { rewrite Hp. by destruct kind; apply (bool_decide_eq_true_1 _). }
  change (map fi_kind images) with (fi_kind <$> images) in Hin.
  apply list_elem_of_fmap in Hin as (i & Hk & Hi). unfold image_of.
  destruct (List.find _ images) as [j|] eqn:Hf.
  - apply find_some in Hf as [Hj Hjk]. apply bool_decide_eq_true in Hjk. exists j.
    split; [done|]. split; [by apply list_elem_of_In|done].
  - apply list_elem_of_In in Hi. apply (find_none _ _ Hf) in Hi.
    by rewrite bool_decide_eq_true_2 in Hi.
Qed.

Lemma for_each_omap {S E X Y} (pick : X -> option Y) (l : list X)
    (f : X -> M S E unit) (g : Y -> M S E unit) w :
  (forall x, x ∈ l -> exists y, pick x = Some y /\ forall w, f x w = g y w) ->
  for_each l f w = for_each (omap pick l) g w.
Proof.
  revert w. induction l as [|x l IH]; intros w Hl; [done|].
  destruct (Hl x) as (y & Hy & Hf); [by left|]. cbn [omap list_omap]. rewrite Hy.
  cbn [for_each]. unfold mbind, M_bind. rewrite Hf.
  destruct (g y w) as [[[]|e|] w']; [|done..]. apply IH. intros x' Hx. apply Hl. by right.
Qed.

Lemma lift_ok_bind {S E A B} (a : A) (f : A -> M S E B) w : (lift (Ok a) ≫= f) w = f a w.
Proof. reflexivity. Qed.

Lemma bind_ext {S E A B} (m m' : M S E A) (f f' : A -> M S E B) w :
  m w = m' w -> (forall a w, f a w = f' a w) -> (m ≫= f) w = (m' ≫= f') w.
Proof. intros Hm Hf. unfold mbind, M_bind. rewrite Hm. by destruct (m' w) as [[a|e|] w']. Qed.

Lemma verify_hash_bundle `{Sha256} hash images :
  len hash = 32 ->
  verify_hash (bundle_of hash images)
  = if bool_decide (sha256 (images_bytes images) = hash) then Ok tt
    else Err FirmwareError.HashMismatch.
Proof.
  intros Hh. unfold verify_hash, bundle_of. cbn [fb_bytes fb_payload_end fb_header fh_hash].
  rewrite len_bundle_bytes, bundle_bytes_header by done.
  rewrite subslice_suffix; [done|by rewrite len_header_bytes|by rewrite len_header_bytes].
Qed.

Lemma download_bundle {W E} `{BusOps W E} `{!DelayOps W} hash images (w : W) :
  images_ok images -> len hash = 32 -> len (bundle_bytes hash images) <= ISIZE_MAX ->
  download_images (E:=E) (bundle_of hash images) w
  = for_each (omap (image_of images) download_order) (fun i =>
      let '(processor, address) := ImageKind.destination (fi_kind i) in
      mapM_err (LoadError.Rpu (LoadStage.Download (fi_kind i)))
        (Memory.write processor address (fi_data i))) w.
Proof.
  intros Hok Hh Hsize. unfold download_images. apply for_each_omap. intros kind _.
  destruct (image_of_some images kind Hok) as (i & Hi & Hin & <-). exists i. split; [done|].
  intros w'. destruct Hok as [Hlen Hnd].
  assert (image (bundle_of hash images) (fi_kind i) = Ok i) as ->; [|done].
  unfold image. change (Z.to_nat PATCH_IMAGE_COUNT) with 4%nat. rewrite <-Hlen.
  eapply image_loop_at; [..|by apply (images_in_bundle _ hash)|done|done]; done.
Qed.

(** C25: with the pinned policy, a parsed bundle is programmed only when the
    digest of the whole file is the expected one and the digest of its payload
    is the one of its header; otherwise the bus is not touched.  Programming
    resets both processors, writes every image of the file to the window of
    its kind and only then boots the processors; no step panics. *)
Theorem load_authenticated {W E} `{HL : BusLaws W E} `{!DelayOps W} `{!DelayLaws W E} `{!Sha256}
    expected hash images w :
  len expected = 32 -> bytes_ok expected -> bytes_ok (bundle_bytes hash images) ->
  len (bundle_bytes hash images) <= ISIZE_MAX -> images_ok images -> len hash = 32 -> bus_inv w ->
  exists b, FirmwareBundle_parse (bundle_bytes hash images) = Ok b
    /\ load (E:=E) (PinnedFirmwareSha256_verify expected) b w
       = (if bool_decide (sha256 (bundle_bytes hash images) = expected) then
            if bool_decide (sha256 (images_bytes images) = hash) then program_images images w
            else (Err (LoadError.Firmware FirmwareError.HashMismatch), w)
          else (Err (LoadError.Firmware FirmwareError.UntrustedImage), w))
    /\ (load (E:=E) (PinnedFirmwareSha256_verify expected) b w).1 <> Panic.
Proof.
  intros Hel Heb Hb Hsize Hok Hh Hw. exists (bundle_of hash images).
  split; [by apply parse_complete|].
  assert (load (E:=E) (PinnedFirmwareSha256_verify expected) (bundle_of hash images) w
       = (if bool_decide (sha256 (bundle_bytes hash images) = expected) then
            if bool_decide (sha256 (images_bytes images) = hash) then program_images images w
            else (Err (LoadError.Firmware FirmwareError.HashMismatch), w)
          else (Err (LoadError.Firmware FirmwareError.UntrustedImage), w))) as ->.
  - unfold load. rewrite (pinned_verify expected) by done. unfold full_sha256.
    change (fb_bytes (bundle_of hash images)) with (bundle_bytes hash images).
    case_bool_decide; [|done]. cbn [map_err]. rewrite lift_ok_bind.
    rewrite verify_hash_bundle by done. case_bool_decide; [|done]. cbn [map_err].
    rewrite lift_ok_bind. unfold program_images. apply bind_ext; [done|]. intros [] w1.
    apply bind_ext; [|done]. by apply download_bundle.
  - split; [done|]. case_bool_decide; [|done]. case_bool_decide; [|done].
    pose proof (safe_program_images (E:=E) images w Hw) as Hs.
    by destruct (program_images images w) as [[]].
Qed.

(** ** Witnesses *)

Definition witness_images : list FirmwareImage :=
  [mkFirmwareImage ImageKind.LmacSecondary [1; 2; 3; 4]; mkFirmwareImage ImageKind.UmacPrimary [5; 6; 7; 8];
   mkFirmwareImage ImageKind.UmacSecondary []; mkFirmwareImage ImageKind.LmacPrimary [9; 10; 11; 12]].
Definition witness_hash : list Z := sum_digest (images_bytes witness_images).
Definition witness_file : list Z := bundle_bytes witness_hash witness_images.

Lemma parse_bundle_correct_witness :
  FirmwareBundle_parse witness_file = Ok (bundle_of witness_hash witness_images)
  /\ match FirmwareBundle_parse witness_file with
     | Ok b =>
         exists hash images, parses_as witness_file hash images /\ b = bundle_of hash images
           /\ forall i, i ∈ images -> image b (fi_kind i) = Ok i
     | Err _ => forall hash images, ~ parses_as witness_file hash images
     | Panic => False
     end.
Proof.
  split; [by vm_compute|].
  apply (parse_bundle_correct witness_file); [by apply bytes_okb_ok|by vm_compute].
Defined.

Lemma load_authenticated_witness :
  exists b, FirmwareBundle_parse witness_file = Ok b
    /\ @load unit unit _ _ sum_sha256 (@PinnedFirmwareSha256_verify sum_sha256 (sum_digest witness_file)) b tt
       = (if bool_decide (sum_digest witness_file = sum_digest witness_file) then
            if bool_decide (sum_digest (images_bytes witness_images) = witness_hash)
            then program_images witness_images tt
            else (Err (LoadError.Firmware FirmwareError.HashMismatch), tt)
          else (Err (LoadError.Firmware FirmwareError.UntrustedImage), tt))
    /\ (@load unit unit _ _ sum_sha256 (@PinnedFirmwareSha256_verify sum_sha256 (sum_digest witness_file)) b tt).1
       <> Panic.
Proof.
  apply (@load_authenticated unit unit _ _ _ _ sum_sha256 (sum_digest witness_file) witness_hash
    witness_images tt); [reflexivity|apply to_le_bytes|by apply bytes_okb_ok|by vm_compute| |
    reflexivity|exact I].
  split; [reflexivity|]. by apply (bool_decide_eq_true_1 _).
Defined.
