(* ===== verification/Station.v ===== *)
(** * Station: the connection state machine (src/src/station.rs)

    The fail-closed station controller: its twenty states and deadlines, the
    commands it submits through the device, and the control and data events it
    accepts.  Event handlers run on the controller; commands run on the pair of
    the controller and the device. *)

From S2P Require Import Prelude Codec Protocol Control Bus Memory Device Data.

Definition MLME_FRAME_VALID : Z := bit 0.
Definition MLME_TIMED_OUT : Z := bit 0.
Definition ID_WDEV_VALID : Z := bit 0.
Definition ID_IFACE_VALID : Z := bit 1.

Module StationState.
Inductive t : Type :=
  | Down | InterfaceCreatePending | Idle | RegulatoryPending | InterfaceUpPending
  | Scanning | ScanComplete | ReadingScanResults | Authenticating | Authenticated
  | Associating | Securing | Authorizing | AwaitingCarrier | Connected
  | PowerSavePending | Disconnecting | InterfaceDownPending | Recovering | Fault.
#[global] Instance eq_dec : EqDecision t.
Proof. solve_decision. Defined.
(** [as usize] *)
Definition to_Z (x : t) : Z :=
  match x with
  | Down => 0 | InterfaceCreatePending => 1 | Idle => 2 | RegulatoryPending => 3 | InterfaceUpPending => 4
  | Scanning => 5 | ScanComplete => 6 | ReadingScanResults => 7 | Authenticating => 8 | Authenticated => 9
  | Associating => 10 | Securing => 11 | Authorizing => 12 | AwaitingCarrier => 13 | Connected => 14
  | PowerSavePending => 15 | Disconnecting => 16 | InterfaceDownPending => 17 | Recovering => 18 | Fault => 19
  end.
End StationState.

Record StationTimeouts : Type := mkStationTimeouts {
  regulatory_ms : Z;
  interface_ms : Z;
  scan_ms : Z;
  scan_complete_ms : Z;
  scan_results_ms : Z;
  authentication_ms : Z;
  authenticated_ms : Z;
  association_ms : Z;
  key_exchange_ms : Z;
  authorization_ms : Z;
  carrier_ms : Z;
  power_save_ms : Z;
  disconnect_ms : Z }.

(** [StationTimeouts::DEFAULT] *)
Definition StationTimeouts_DEFAULT : StationTimeouts :=
  mkStationTimeouts 5000 5000 30000 10000 10000 5000 10000 20000 10000 5000 5000 5000 5000.

Module StationFault.
Inductive t : Type :=
  | CommandRejected (command status : Z)
  | AuthenticationFailed (status : Z)
  | AssociationFailed (status : Z)
  | MlmeTimeout
  | PeerMismatch
  | InterfaceMismatch (valid_ids expected_ifaceindex actual_ifaceindex expected_wdev_id
                       actual_wdev_id : Z)
  | UnexpectedEvent
  | CarrierLost
  | Timeout (state : StationState.t).
#[global] Instance eq_dec : EqDecision t.
Proof. solve_decision. Defined.
End StationFault.

Module StationError.
Inductive t (E : Type) : Type :=
  | Device (e : DeviceError.t E)
  | Protocol (e : ProtocolError.t)
  | InvalidState (current required : StationState.t)
  | InterfaceAlreadyCreated
  | InterfaceNotCreated
  | Fault (fault : StationFault.t).
Arguments Device {E} e.
Arguments Protocol {E} e.
Arguments InvalidState {E} current required.
Arguments InterfaceAlreadyCreated {E}.
Arguments InterfaceNotCreated {E}.
Arguments Fault {E} fault.
End StationError.

Record StationController : Type := mkStationController {
  sc_ifaceindex : Z;
  sc_firmware_index : Z;
  sc_wdev_id : Z;
  sc_state : StationState.t;
  sc_last_fault : option StationFault.t;
  sc_interface_created : bool;
  sc_peer : option (list Z);
  sc_secure_connection : bool;
  sc_controlled_port_authorized : bool;
  sc_carrier_on : bool;
  sc_pending_command : option UmacCommand.t;
  sc_pending_return_state : option StationState.t;
  sc_timeouts : StationTimeouts;
  sc_remaining_ms : option Z;
  sc_command : list Z }.

(** [StationController::new] *)
Definition StationController_new (ifaceindex firmware_index wdev_id : Z) : StationController :=
  mkStationController ifaceindex firmware_index wdev_id StationState.Down None false None false
    false false None None StationTimeouts_DEFAULT None (zeros MAX_STATION_MESSAGE_LEN).

(** Assignments to single fields. *)
Section setters.
Implicit Types c : StationController.
Definition set_state (x : StationState.t) c : StationController :=
  mkStationController (sc_ifaceindex c) (sc_firmware_index c) (sc_wdev_id c) x (sc_last_fault c)
    (sc_interface_created c) (sc_peer c) (sc_secure_connection c)
    (sc_controlled_port_authorized c) (sc_carrier_on c) (sc_pending_command c)
    (sc_pending_return_state c) (sc_timeouts c) (sc_remaining_ms c) (sc_command c).
Definition set_last_fault (x : option StationFault.t) c : StationController :=
  mkStationController (sc_ifaceindex c) (sc_firmware_index c) (sc_wdev_id c) (sc_state c) x
    (sc_interface_created c) (sc_peer c) (sc_secure_connection c)
    (sc_controlled_port_authorized c) (sc_carrier_on c) (sc_pending_command c)
    (sc_pending_return_state c) (sc_timeouts c) (sc_remaining_ms c) (sc_command c).
Definition set_interface_created (x : bool) c : StationController :=
  mkStationController (sc_ifaceindex c) (sc_firmware_index c) (sc_wdev_id c) (sc_state c)
    (sc_last_fault c) x (sc_peer c) (sc_secure_connection c) (sc_controlled_port_authorized c)
    (sc_carrier_on c) (sc_pending_command c) (sc_pending_return_state c) (sc_timeouts c)
    (sc_remaining_ms c) (sc_command c).
Definition set_peer (x : option (list Z)) c : StationController :=
  mkStationController (sc_ifaceindex c) (sc_firmware_index c) (sc_wdev_id c) (sc_state c)
    (sc_last_fault c) (sc_interface_created c) x (sc_secure_connection c)
    (sc_controlled_port_authorized c) (sc_carrier_on c) (sc_pending_command c)
    (sc_pending_return_state c) (sc_timeouts c) (sc_remaining_ms c) (sc_command c).
Definition set_secure_connection (x : bool) c : StationController :=
  mkStationController (sc_ifaceindex c) (sc_firmware_index c) (sc_wdev_id c) (sc_state c)
    (sc_last_fault c) (sc_interface_created c) (sc_peer c) x (sc_controlled_port_authorized c)
    (sc_carrier_on c) (sc_pending_command c) (sc_pending_return_state c) (sc_timeouts c)
    (sc_remaining_ms c) (sc_command c).
Definition set_controlled_port_authorized (x : bool) c : StationController :=
  mkStationController (sc_ifaceindex c) (sc_firmware_index c) (sc_wdev_id c) (sc_state c)
    (sc_last_fault c) (sc_interface_created c) (sc_peer c) (sc_secure_connection c) x
    (sc_carrier_on c) (sc_pending_command c) (sc_pending_return_state c) (sc_timeouts c)
    (sc_remaining_ms c) (sc_command c).
Definition set_carrier_on (x : bool) c : StationController :=
  mkStationController (sc_ifaceindex c) (sc_firmware_index c) (sc_wdev_id c) (sc_state c)
    (sc_last_fault c) (sc_interface_created c) (sc_peer c) (sc_secure_connection c)
    (sc_controlled_port_authorized c) x (sc_pending_command c) (sc_pending_return_state c)
    (sc_timeouts c) (sc_remaining_ms c) (sc_command c).
Definition set_pending_command (x : option UmacCommand.t) c : StationController :=
  mkStationController (sc_ifaceindex c) (sc_firmware_index c) (sc_wdev_id c) (sc_state c)
    (sc_last_fault c) (sc_interface_created c) (sc_peer c) (sc_secure_connection c)
    (sc_controlled_port_authorized c) (sc_carrier_on c) x (sc_pending_return_state c)
    (sc_timeouts c) (sc_remaining_ms c) (sc_command c).
Definition set_pending_return_state (x : option StationState.t) c : StationController :=
  mkStationController (sc_ifaceindex c) (sc_firmware_index c) (sc_wdev_id c) (sc_state c)
    (sc_last_fault c) (sc_interface_created c) (sc_peer c) (sc_secure_connection c)
    (sc_controlled_port_authorized c) (sc_carrier_on c) (sc_pending_command c) x (sc_timeouts c)
    (sc_remaining_ms c) (sc_command c).
Definition set_timeouts (x : StationTimeouts) c : StationController :=
  mkStationController (sc_ifaceindex c) (sc_firmware_index c) (sc_wdev_id c) (sc_state c)
    (sc_last_fault c) (sc_interface_created c) (sc_peer c) (sc_secure_connection c)
    (sc_controlled_port_authorized c) (sc_carrier_on c) (sc_pending_command c)
    (sc_pending_return_state c) x (sc_remaining_ms c) (sc_command c).
Definition set_remaining_ms (x : option Z) c : StationController :=
  mkStationController (sc_ifaceindex c) (sc_firmware_index c) (sc_wdev_id c) (sc_state c)
    (sc_last_fault c) (sc_interface_created c) (sc_peer c) (sc_secure_connection c)
    (sc_controlled_port_authorized c) (sc_carrier_on c) (sc_pending_command c)
    (sc_pending_return_state c) (sc_timeouts c) x (sc_command c).
Definition set_command (x : list Z) c : StationController :=
  mkStationController (sc_ifaceindex c) (sc_firmware_index c) (sc_wdev_id c) (sc_state c)
    (sc_last_fault c) (sc_interface_created c) (sc_peer c) (sc_secure_connection c)
    (sc_controlled_port_authorized c) (sc_carrier_on c) (sc_pending_command c)
    (sc_pending_return_state c) (sc_timeouts c) (sc_remaining_ms c) x.
End setters.

(** ** State and deadlines *)

(** The array indexed by [state as usize]. *)
Definition timeout_values (t : StationTimeouts) : list (option Z) :=
  [None; Some (interface_ms t); None; Some (regulatory_ms t); Some (interface_ms t);
   Some (scan_ms t); Some (scan_complete_ms t); Some (scan_results_ms t);
   Some (authentication_ms t); Some (authenticated_ms t); Some (association_ms t);
   Some (key_exchange_ms t); Some (authorization_ms t); Some (carrier_ms t); None;
   Some (power_save_ms t); Some (disconnect_ms t); Some (interface_ms t); None; None].

Definition timeout_for (c : StationController) (state : StationState.t) : option Z :=
  option_map (fun value => Z.max value 1)
    (nth (Z.to_nat (StationState.to_Z state)) (timeout_values (sc_timeouts c)) None).

Definition transition (state : StationState.t) (c : StationController) : StationController :=
  let c := set_state state c in
  set_remaining_ms (timeout_for c state) c.

Definition state_is (c : StationController) (state : StationState.t) : bool :=
  bool_decide (sc_state c = state).

Definition controlled_port_open (c : StationController) : bool :=
  state_is c StationState.Connected && sc_controlled_port_authorized c && sc_carrier_on c.

Definition eapol_required (c : StationController) : bool :=
  sc_secure_connection c
  && match sc_state c with
     | StationState.Securing | StationState.Authorizing | StationState.AwaitingCarrier
     | StationState.Connected => true
     | _ => false
     end.

Definition controller_set_timeouts (timeouts : StationTimeouts) (c : StationController)
    : StationController :=
  let c := set_timeouts timeouts c in
  set_remaining_ms (timeout_for c (sc_state c)) c.

Definition clear_connection (c : StationController) : StationController :=
  set_carrier_on false
    (set_controlled_port_authorized false (set_secure_connection false (set_peer None c))).

Definition refresh_connected (c : StationController) : StationController :=
  if sc_carrier_on c && sc_controlled_port_authorized c
  then transition StationState.Connected c else c.

(** The assignments of [fail] and of an expired deadline. *)
Definition enter_fault (fault : StationFault.t) (c : StationController) : StationController :=
  transition StationState.Fault
    (set_pending_return_state None (set_pending_command None (set_last_fault (Some fault) c))).

Definition fail {E A} (fault : StationFault.t) : M StationController (StationError.t E) A :=
  modify (enter_fault fault);; throw (StationError.Fault fault).

Definition advance_time (elapsed_ms : Z) : M StationController StationFault.t unit :=
  r ← gets sc_remaining_ms;
  match r with
  | None => mret tt
  | Some remaining =>
      if elapsed_ms <? remaining
      then modify (set_remaining_ms (Some (remaining - elapsed_ms)))
      else
        state ← gets sc_state;
        let fault := StationFault.Timeout state in
        modify (enter_fault fault);;
        throw fault
  end.

Definition complete_group_rekey (c : StationController) : StationController :=
  if sc_secure_connection c && sc_controlled_port_authorized c
  then
    if sc_carrier_on c then transition StationState.Connected c
    else transition StationState.AwaitingCarrier c
  else transition StationState.Fault (set_last_fault (Some StationFault.UnexpectedEvent) c).

(** The common part of the two recovery functions. *)
Definition reset_firmware_state (c : StationController) : StationController :=
  set_pending_return_state None
    (set_pending_command None (clear_connection (set_interface_created false c))).

Definition begin_recovery (c : StationController) : StationController :=
  transition StationState.Recovering (reset_firmware_state c).

Definition recovery_complete (c : StationController) : StationController :=
  transition StationState.Down (set_last_fault None (reset_firmware_state c)).

Definition require {E} (required : StationState.t) : M StationController (StationError.t E) unit :=
  current ← gets sc_state;
  if bool_decide (current = required) then mret tt
  else throw (StationError.InvalidState current required).

(** [required] is not empty. *)
Definition require_one_of {E} (first : StationState.t) (rest : list StationState.t)
    : M StationController (StationError.t E) unit :=
  current ← gets sc_state;
  if existsb (fun state => bool_decide (current = state)) (first :: rest) then mret tt
  else throw (StationError.InvalidState current first).

(** ** Events *)

Definition control_event_header (event : ControlEvent.t) : UmacHeader :=
  match event with
  | ControlEvent.ScanDone header _ _
  | ControlEvent.CommandStatus header _ _
  | ControlEvent.InterfaceState header _
  | ControlEvent.RegulatoryChange header _
  | ControlEvent.Other header _ => header
  | ControlEvent.ScanResult event => sr_header event
  | ControlEvent.Authentication event
  | ControlEvent.Association event
  | ControlEvent.Deauthentication event
  | ControlEvent.Disassociation event => mlme_header event
  end.

Definition is_status_control_event (event : ControlEvent.t) : bool :=
  match event with
  | ControlEvent.CommandStatus _ _ _ | ControlEvent.InterfaceState _ _
  | ControlEvent.RegulatoryChange _ _ | ControlEvent.Other _ _ => true
  | _ => false
  end.

Definition is_scan_control_event (event : ControlEvent.t) : bool :=
  match event with
  | ControlEvent.ScanDone _ _ _ | ControlEvent.ScanResult _ => true
  | _ => false
  end.

Definition mlme_status {E} (event : MlmeEvent) (status_offset : Z) : res (StationError.t E) Z :=
  if has (mlme_flags event) MLME_TIMED_OUT
  then Err (StationError.Fault StationFault.MlmeTimeout)
  else if negb (result (mlme_header event) =? 0) then Ok (u16 (result (mlme_header event)))
  else if Z.land (mlme_valid_fields event) MLME_FRAME_VALID =? 0 then Ok 0
  else if len (mlme_frame event) <? status_offset + 2
  then Err (StationError.Fault StationFault.UnexpectedEvent)
  else
    b0 ← index (mlme_frame event) status_offset;
    b1 ← index (mlme_frame event) (status_offset + 1);
    Ok (from_le [b0; b1]).

Definition mlme_frame_address (event : MlmeEvent) (offset : Z) : option (list Z) :=
  if Z.land (mlme_valid_fields event) MLME_FRAME_VALID =? 0 then None
  else slice (mlme_frame event) offset (offset + 6).

Section events.
Context {E : Type}.
Local Notation "'MC' A" := (M StationController (StationError.t E) A) (at level 10, A at next level).

Definition check_header (header : UmacHeader) : MC unit :=
  c ← get;
  let mismatch :=
    StationFault.InterfaceMismatch (valid_ids header) (sc_ifaceindex c) (ifaceindex header)
      (sc_wdev_id c) (wdev_id header) in
  if has (valid_ids header) ID_IFACE_VALID && negb (ifaceindex header =? sc_ifaceindex c)
  then fail mismatch
  else if has (valid_ids header) ID_WDEV_VALID && negb (wdev_id header =? sc_wdev_id c)
  then fail mismatch
  else mret tt.

Definition check_peer (peer : list Z) : MC unit :=
  p ← gets sc_peer;
  if negb (bool_decide (p = Some peer)) then fail StationFault.PeerMismatch else mret tt.

Definition handle_interface_state (status : Z) : MC unit :=
  if negb (status =? 0)
  then fail (StationFault.CommandRejected (UmacCommand.to_u32 UmacCommand.SetInterfaceFlags)
               (u32 status))
  else
    state ← gets sc_state;
    match state with
    | StationState.InterfaceUpPending =>
        modify (set_pending_command None);;
        modify (transition StationState.Idle)
    | StationState.InterfaceDownPending =>
        modify clear_connection;;
        modify (set_pending_command None);;
        modify (transition StationState.Down)
    | _ => fail StationFault.UnexpectedEvent
    end.

Definition handle_scan_done (status : Z) : MC unit :=
  c ← get;
  if negb (state_is c StationState.Scanning) then fail StationFault.UnexpectedEvent
  else
    modify (set_pending_command None);;
    if status =? 0 then modify (transition StationState.ScanComplete)
    else fail (StationFault.CommandRejected (UmacCommand.to_u32 UmacCommand.TriggerScan) (u32 status)).

Definition handle_scan_result (sequence : Z) : MC unit :=
  c ← get;
  if negb (state_is c StationState.ReadingScanResults) then fail StationFault.UnexpectedEvent
  else if sequence =? 0 then
    modify (set_pending_command None);;
    modify (transition StationState.Idle)
  else modify (transition StationState.ReadingScanResults).

Definition handle_authentication (event : MlmeEvent) : MC unit :=
  c ← get;
  if negb (state_is c StationState.Authenticating) then fail StationFault.UnexpectedEvent
  else
    match mlme_frame_address event 10 with
    | None => fail StationFault.UnexpectedEvent
    | Some peer =>
        check_peer peer;;
        status ← lift (mlme_status event 28);
        if negb (status =? 0) then fail (StationFault.AuthenticationFailed status)
        else
          modify (set_pending_command None);;
          modify (transition StationState.Authenticated)
    end.

Definition handle_association (event : MlmeEvent) : MC unit :=
  c ← get;
  if negb (state_is c StationState.Associating) then fail StationFault.UnexpectedEvent
  else
    match mlme_frame_address event 16 with
    | None => fail StationFault.UnexpectedEvent
    | Some peer =>
        check_peer peer;;
        status ← lift (mlme_status event 26);
        if negb (status =? 0) then fail (StationFault.AssociationFailed status)
        else
          modify (set_pending_command None);;
          secure ← gets sc_secure_connection;
          modify (transition (if secure : bool then StationState.Securing
                              else StationState.AwaitingCarrier));;
          modify refresh_connected
    end.

Definition handle_disconnect_event (event : MlmeEvent) : MC unit :=
  p ← gets sc_peer;
  if negb (is_some p) then mret tt
  else
    match mlme_frame_address event 10 with
    | None => fail StationFault.UnexpectedEvent
    | Some peer =>
        check_peer peer;;
        modify clear_connection;;
        modify (set_pending_command None);;
        modify (set_pending_return_state None);;
        modify (transition StationState.Idle)
    end.

(** [pending_return_state.take().unwrap_or(default)] *)
Definition take_return_state (default : StationState.t) : MC StationState.t :=
  r ← gets sc_pending_return_state;
  modify (set_pending_return_state None);;
  mret (match r with Some state => state | None => default end).

Definition handle_regulatory_change : MC unit :=
  c ← get;
  if state_is c StationState.RegulatoryPending then
    modify (set_pending_command None);;
    return_state ← take_return_state StationState.Down;
    modify (transition return_state)
  else mret tt.

Definition require_data_interface (wdev_id : Z) : MC unit :=
  c ← get;
  if wdev_id =? sc_wdev_id c then mret tt
  else fail (StationFault.InterfaceMismatch ID_WDEV_VALID (sc_ifaceindex c) (sc_ifaceindex c)
               (sc_wdev_id c) wdev_id).

Definition handle_carrier_on (wdev_id : Z) : MC unit :=
  require_data_interface wdev_id;;
  modify (set_carrier_on true);;
  modify refresh_connected.

Definition handle_carrier_off (wdev_id : Z) : MC unit :=
  require_data_interface wdev_id;;
  modify (set_carrier_on false);;
  c ← get;
  if state_is c StationState.Connected then
    modify clear_connection;;
    modify (transition StationState.Idle);;
    fail StationFault.CarrierLost
  else mret tt.

Definition handle_data_event (event : DataEvent.t) : MC unit :=
  match event with
  | DataEvent.CarrierOn wdev_id => handle_carrier_on wdev_id
  | DataEvent.CarrierOff wdev_id => handle_carrier_off wdev_id
  | _ => mret tt
  end.

Definition handle_interface_created (header : UmacHeader) : MC unit :=
  if negb (result header =? 0)
  then fail (StationFault.CommandRejected (UmacCommand.to_u32 UmacCommand.NewInterface)
               (u32 (result header)))
  else
    c ← get;
    if state_is c StationState.InterfaceCreatePending
       && bool_decide (sc_pending_command c = Some UmacCommand.NewInterface)
    then
      modify (set_interface_created true);;
      modify (set_pending_command None);;
      modify (transition StationState.Down)
    else if sc_interface_created c && state_is c StationState.Down then mret tt
    else fail StationFault.UnexpectedEvent.

Definition is_default_interface_status (c : StationController) (command : Z) : bool :=
  (command =? UmacCommand.to_u32 UmacCommand.NewInterface)
  && sc_interface_created c && negb (is_some (sc_pending_command c)).

Definition validate_pending_command (command status : Z) : MC unit :=
  p ← gets sc_pending_command;
  if negb (bool_decide (option_map UmacCommand.to_u32 p = Some command))
  then fail StationFault.UnexpectedEvent
  else if negb (status =? 0) then fail (StationFault.CommandRejected command status)
  else mret tt.

Definition KEY_COMMANDS : list Z :=
  map UmacCommand.to_u32 [UmacCommand.NewKey; UmacCommand.DeleteKey; UmacCommand.SetKey].
Definition POWER_SAVE_COMMANDS : list Z :=
  map UmacCommand.to_u32 [UmacCommand.SetPowerSave; UmacCommand.SetPowerSaveTimeout].

Definition apply_successful_command (command : Z) : MC unit :=
  c ← get;
  if existsb (Z.eqb command) KEY_COMMANDS then modify (transition StationState.Securing)
  else if (command =? UmacCommand.to_u32 UmacCommand.SetStation)
          && state_is c StationState.Authorizing
  then
    modify (set_controlled_port_authorized true);;
    modify (transition StationState.AwaitingCarrier);;
    modify refresh_connected
  else if existsb (Z.eqb command) POWER_SAVE_COMMANDS && state_is c StationState.PowerSavePending
  then
    return_state ← take_return_state StationState.Fault;
    modify (transition return_state)
  else mret tt.

Definition handle_command_status (command status : Z) : MC unit :=
  c ← get;
  if is_default_interface_status c command then
    if status =? 0 then mret tt else fail (StationFault.CommandRejected command status)
  else
    validate_pending_command command status;;
    if command =? UmacCommand.to_u32 UmacCommand.NewInterface then mret tt
    else
      modify (set_pending_command None);;
      apply_successful_command command.

Definition handle_other_control_event (event : ControlEvent.t) : MC unit :=
  match event with
  | ControlEvent.Other header _ =>
      if command_event header =? UmacEvent.to_u32 UmacEvent.NewInterface
      then handle_interface_created header else mret tt
  | _ => fail StationFault.UnexpectedEvent
  end.

Definition handle_status_control_event (event : ControlEvent.t) : MC unit :=
  match event with
  | ControlEvent.Other _ _ => handle_other_control_event event
  | ControlEvent.CommandStatus _ command status => handle_command_status command status
  | ControlEvent.InterfaceState _ status => handle_interface_state status
  | ControlEvent.RegulatoryChange _ _ => handle_regulatory_change
  | _ => fail StationFault.UnexpectedEvent
  end.

Definition handle_scan_control_event (event : ControlEvent.t) : MC unit :=
  match event with
  | ControlEvent.ScanDone _ status _ => handle_scan_done status
  | ControlEvent.ScanResult event => handle_scan_result (sequence (sr_header event))
  | _ => fail StationFault.UnexpectedEvent
  end.

Definition handle_mlme_control_event (event : ControlEvent.t) : MC unit :=
  match event with
  | ControlEvent.Authentication event => handle_authentication event
  | ControlEvent.Association event => handle_association event
  | ControlEvent.Deauthentication event | ControlEvent.Disassociation event =>
      handle_disconnect_event event
  | _ => fail StationFault.UnexpectedEvent
  end.

Definition handle_progress_control_event (event : ControlEvent.t) : MC unit :=
  if is_scan_control_event event then handle_scan_control_event event
  else handle_mlme_control_event event.

Definition handle_control_event (event : ControlEvent.t) : MC unit :=
  check_header (control_event_header event);;
  if is_status_control_event event then handle_status_control_event event
  else handle_progress_control_event event.
End events.

(** ** Commands

    A command checks the state, encodes into the controller's buffer, sends it
    with a bounded wait and records what it waits for.  A refused or failed
    command leaves the state as it was. *)

Section commands.
Context {W E : Type} `{BusOps W E} `{DelayOps W}.
Local Notation "'MS' A" := (M (StationController * Device W) (StationError.t E) A)
  (at level 10, A at next level).

Definition on_controller {A} (m : M StationController (StationError.t E) A) : MS A :=
  zoom fst (fun c cd => (c, cd.2)) m.
Definition on_dev {A} (m : M (Device W) (StationError.t E) A) : MS A :=
  zoom snd (fun d cd => (cd.1, d)) m.

(** The macro [submit_station_command!]. *)
Definition submit_station_command (encode : M (list Z) ProtocolError.t Z) : MS unit :=
  count ← on_controller (zoom sc_command set_command (mapM_err StationError.Protocol encode));
  c ← gets fst;
  message ← lift (expect (slice (sc_command c) 0 count));
  on_dev (mapM_err StationError.Device (send_control_reliable message)).

Definition claim_firmware_default_interface : M StationController (StationError.t E) bool :=
  c ← get;
  if negb (sc_wdev_id c =? 0) then mret false
  else
    modify (set_interface_created true);;
    modify (set_pending_command None);;
    modify (set_pending_return_state None);;
    modify (transition StationState.Down);;
    mret true.

(** The assignments after a submitted command. *)
Definition await (command : UmacCommand.t) (state : StationState.t) : MS unit :=
  on_controller (modify (set_pending_command (Some command)));;
  on_controller (modify (transition state)).

Definition create_interface (mac_address interface_name : list Z) : MS unit :=
  on_controller (require StationState.Down);;
  c ← gets fst;
  if sc_interface_created c then throw StationError.InterfaceAlreadyCreated
  else
    claimed ← on_controller claim_firmware_default_interface;
    if claimed : bool then mret tt
    else
      submit_station_command
        (encode_new_interface (sc_wdev_id c) InterfaceType.Station mac_address interface_name);;
      await UmacCommand.NewInterface StationState.InterfaceCreatePending.

Definition set_regulatory (country : list Z) (user_hint_type : Z) (force : bool) : MS unit :=
  on_controller (require_one_of StationState.Down [StationState.Idle]);;
  c ← gets fst;
  let return_state := sc_state c in
  submit_station_command (encode_set_regulatory (sc_wdev_id c) country user_hint_type force);;
  on_controller (modify (set_pending_command (Some UmacCommand.RequestSetRegulatory)));;
  on_controller (modify (set_pending_return_state (Some return_state)));;
  on_controller (modify (transition StationState.RegulatoryPending)).

Definition bring_up : MS unit :=
  on_controller (require StationState.Down);;
  c ← gets fst;
  if negb (sc_interface_created c) then throw StationError.InterfaceNotCreated
  else
    submit_station_command (encode_interface_state (sc_wdev_id c) true (sc_firmware_index c));;
    await UmacCommand.SetInterfaceFlags StationState.InterfaceUpPending.

Definition bring_down : MS unit :=
  on_controller (require_one_of StationState.Idle [StationState.Connected; StationState.Fault]);;
  c ← gets fst;
  if negb (sc_interface_created c) then throw StationError.InterfaceNotCreated
  else
    submit_station_command (encode_interface_state (sc_wdev_id c) false (sc_firmware_index c));;
    on_controller (modify (set_pending_command (Some UmacCommand.SetInterfaceFlags)));;
    on_controller (modify (set_pending_return_state None));;
    on_controller (modify (transition StationState.InterfaceDownPending)).

Definition station_start_scan (request : ScanRequest) : MS unit :=
  on_controller (require StationState.Idle);;
  c ← gets fst;
  submit_station_command (encode_scan (sc_wdev_id c) request);;
  await UmacCommand.TriggerScan StationState.Scanning.

Definition request_scan_results (reason : ScanReason.t) : MS unit :=
  on_controller (require StationState.ScanComplete);;
  c ← gets fst;
  submit_station_command (encode_get_scan_results (sc_wdev_id c) reason);;
  await UmacCommand.GetScanResults StationState.ReadingScanResults.

Definition authenticate (request : AuthenticationRequest) : MS unit :=
  on_controller (require StationState.Idle);;
  c ← gets fst;
  submit_station_command (encode_authenticate (sc_wdev_id c) request);;
  on_controller (modify (set_peer (Some (auth_bssid request))));;
  await UmacCommand.Authenticate StationState.Authenticating.

Definition associate (request : AssociationRequest) : MS unit :=
  on_controller (require StationState.Authenticated);;
  c ← gets fst;
  if negb (bool_decide (sc_peer c = Some (assoc_bssid request)))
  then on_controller (fail StationFault.PeerMismatch)
  else
    submit_station_command (encode_associate (sc_wdev_id c) request);;
    on_controller (modify (set_secure_connection (is_some (security request))));;
    on_controller
      (modify (fun c => set_controlled_port_authorized (negb (sc_secure_connection c)) c));;
    await UmacCommand.Associate StationState.Associating.

Definition key_command (command : UmacCommand.t) (key : KeyConfig) : MS unit :=
  on_controller
    (require_one_of StationState.Securing [StationState.Authorizing; StationState.Connected]);;
  c ← gets fst;
  peer ← match key_type key with
         | KeyType.Group => mret None
         | KeyType.Pairwise | KeyType.Peer =>
             peer ← lift (ok_or (sc_peer c) (StationError.Fault StationFault.PeerMismatch));
             mret (Some peer)
         end;
  submit_station_command (encode_key_command (sc_wdev_id c) command peer key);;
  await command StationState.Securing.

Definition set_key (key : KeyConfig) : MS unit :=
  on_controller (require StationState.Securing);;
  c ← gets fst;
  submit_station_command (encode_set_key (sc_wdev_id c) key);;
  await UmacCommand.SetKey StationState.Securing.

Definition authorize : MS unit :=
  on_controller (require StationState.Securing);;
  c ← gets fst;
  peer ← lift (ok_or (sc_peer c) (StationError.Fault StationFault.PeerMismatch));
  submit_station_command (encode_station_authorized (sc_wdev_id c) peer true);;
  await UmacCommand.SetStation StationState.Authorizing.

(** Remembers the state to return to. *)
Definition await_power_save (command : UmacCommand.t) (return_state : StationState.t) : MS unit :=
  on_controller (modify (set_pending_command (Some command)));;
  on_controller (modify (set_pending_return_state (Some return_state)));;
  on_controller (modify (transition StationState.PowerSavePending)).

Definition set_power_save (state : PowerSaveState.t) : MS unit :=
  on_controller (require_one_of StationState.Idle [StationState.Connected]);;
  c ← gets fst;
  let return_state := sc_state c in
  submit_station_command (encode_power_save (sc_wdev_id c) state);;
  await_power_save UmacCommand.SetPowerSave return_state.

Definition set_power_save_timeout (timeout_ms : Z) : MS unit :=
  on_controller (require_one_of StationState.Idle [StationState.Connected]);;
  if timeout_ms <? 0
  then throw (StationError.Protocol (ProtocolError.InvalidValue (u32 timeout_ms)))
  else
    c ← gets fst;
    let return_state := sc_state c in
    submit_station_command (encode_power_save_timeout (sc_wdev_id c) timeout_ms);;
    await_power_save UmacCommand.SetPowerSaveTimeout return_state.

Definition disconnect (reason_code : Z) : MS unit :=
  on_controller
    (require_one_of StationState.Authenticated
       [StationState.Associating; StationState.Securing; StationState.Authorizing;
        StationState.AwaitingCarrier; StationState.Connected]);;
  c ← gets fst;
  peer ← lift (ok_or (sc_peer c) (StationError.Fault StationFault.PeerMismatch));
  submit_station_command (encode_deauthenticate (sc_wdev_id c) peer reason_code false);;
  on_controller (modify (set_pending_command (Some UmacCommand.Deauthenticate)));;
  on_controller (modify (set_pending_return_state None));;
  on_controller (modify (transition StationState.Disconnecting)).

(** ** Steps

    What the driver above the controller can ask of it, in any order. *)

Inductive station_op : Type :=
  | OpCreateInterface (mac_address interface_name : list Z)
  | OpSetRegulatory (country : list Z) (user_hint_type : Z) (force : bool)
  | OpBringUp
  | OpBringDown
  | OpStartScan (request : ScanRequest)
  | OpRequestScanResults (reason : ScanReason.t)
  | OpAuthenticate (request : AuthenticationRequest)
  | OpAssociate (request : AssociationRequest)
  | OpKeyCommand (command : UmacCommand.t) (key : KeyConfig)
  | OpSetKey (key : KeyConfig)
  | OpAuthorize
  | OpSetPowerSave (state : PowerSaveState.t)
  | OpSetPowerSaveTimeout (timeout_ms : Z)
  | OpDisconnect (reason_code : Z)
  | OpControlEvent (event : ControlEvent.t)
  | OpDataEvent (event : DataEvent.t)
  | OpAdvanceTime (elapsed_ms : Z)
  | OpSetTimeouts (timeouts : StationTimeouts)
  | OpCompleteGroupRekey
  | OpBeginRecovery
  | OpRecoveryComplete.

Definition station_run (op : station_op) : MS unit :=
  match op with
  | OpCreateInterface mac_address interface_name => create_interface mac_address interface_name
  | OpSetRegulatory country user_hint_type force => set_regulatory country user_hint_type force
  | OpBringUp => bring_up
  | OpBringDown => bring_down
  | OpStartScan request => station_start_scan request
  | OpRequestScanResults reason => request_scan_results reason
  | OpAuthenticate request => authenticate request
  | OpAssociate request => associate request
  | OpKeyCommand command key => key_command command key
  | OpSetKey key => set_key key
  | OpAuthorize => authorize
  | OpSetPowerSave state => set_power_save state
  | OpSetPowerSaveTimeout timeout_ms => set_power_save_timeout timeout_ms
  | OpDisconnect reason_code => disconnect reason_code
  | OpControlEvent event => on_controller (handle_control_event event)
  | OpDataEvent event => on_controller (handle_data_event event)
  | OpAdvanceTime elapsed_ms =>
      on_controller (mapM_err StationError.Fault (advance_time elapsed_ms))
  | OpSetTimeouts timeouts => on_controller (modify (controller_set_timeouts timeouts))
  | OpCompleteGroupRekey => on_controller (modify complete_group_rekey)
  | OpBeginRecovery => on_controller (modify begin_recovery)
  | OpRecoveryComplete => on_controller (modify recovery_complete)
  end.
End commands.

(** * Lemmas *)

Lemma state_is_true c state : state_is c state = true <-> sc_state c = state.
Proof. apply bool_decide_eq_true. Qed.

(** ** Commands as guarded assignments

    The specification of the device commands: [guard] is the precondition,
    [encoder] the message, [commit] the effect on the controller once the message
    was sent. *)

Definition one_of (c : StationController) (states : list StationState.t) : bool :=
  existsb (fun state => bool_decide (sc_state c = state)) states.

(** Creating VIF 0 needs no message. *)
Definition claims_default (c : StationController) : bool := sc_wdev_id c =? 0.

Definition guard (op : station_op) (c : StationController) : bool :=
  match op with
  | OpCreateInterface _ _ => state_is c StationState.Down && negb (sc_interface_created c)
  | OpSetRegulatory _ _ _ => one_of c [StationState.Down; StationState.Idle]
  | OpBringUp => state_is c StationState.Down && sc_interface_created c
  | OpBringDown =>
      one_of c [StationState.Idle; StationState.Connected; StationState.Fault]
      && sc_interface_created c
  | OpStartScan _ | OpAuthenticate _ => state_is c StationState.Idle
  | OpRequestScanResults _ => state_is c StationState.ScanComplete
  | OpAssociate request =>
      state_is c StationState.Authenticated
      && bool_decide (sc_peer c = Some (assoc_bssid request))
  | OpKeyCommand _ key =>
      one_of c [StationState.Securing; StationState.Authorizing; StationState.Connected]
      && (is_some (sc_peer c) || match key_type key with KeyType.Group => true | _ => false end)
  | OpSetKey _ => state_is c StationState.Securing
  | OpAuthorize => state_is c StationState.Securing && is_some (sc_peer c)
  | OpSetPowerSave _ => one_of c [StationState.Idle; StationState.Connected]
  | OpSetPowerSaveTimeout timeout_ms =>
      one_of c [StationState.Idle; StationState.Connected] && (0 <=? timeout_ms)
  | OpDisconnect _ =>
      one_of c [StationState.Authenticated; StationState.Associating; StationState.Securing;
                StationState.Authorizing; StationState.AwaitingCarrier; StationState.Connected]
      && is_some (sc_peer c)
  | _ => false
  end.

Definition peer_or_nil (c : StationController) : list Z :=
  match sc_peer c with Some peer => peer | None => [] end.

Definition encoder (op : station_op) (c : StationController) : M (list Z) ProtocolError.t Z :=
  let w := sc_wdev_id c in
  match op with
  | OpCreateInterface mac name => encode_new_interface w InterfaceType.Station mac name
  | OpSetRegulatory country hint force => encode_set_regulatory w country hint force
  | OpBringUp => encode_interface_state w true (sc_firmware_index c)
  | OpBringDown => encode_interface_state w false (sc_firmware_index c)
  | OpStartScan request => encode_scan w request
  | OpRequestScanResults reason => encode_get_scan_results w reason
  | OpAuthenticate request => encode_authenticate w request
  | OpAssociate request => encode_associate w request
  | OpKeyCommand command key =>
      encode_key_command w command
        (match key_type key with KeyType.Group => None | _ => sc_peer c end) key
  | OpSetKey key => encode_set_key w key
  | OpAuthorize => encode_station_authorized w (peer_or_nil c) true
  | OpSetPowerSave state => encode_power_save w state
  | OpSetPowerSaveTimeout timeout_ms => encode_power_save_timeout w timeout_ms
  | OpDisconnect reason => encode_deauthenticate w (peer_or_nil c) reason false
  | _ => lift (Ok 0)
  end.

Definition waits (command : UmacCommand.t) (state : StationState.t) (c : StationController)
    : StationController :=
  transition state (set_pending_command (Some command) c).

Definition commit (op : station_op) (c : StationController) : StationController :=
  let returns r := set_pending_return_state r in
  match op with
  | OpCreateInterface _ _ => waits UmacCommand.NewInterface StationState.InterfaceCreatePending c
  | OpSetRegulatory _ _ _ =>
      waits UmacCommand.RequestSetRegulatory StationState.RegulatoryPending
        (returns (Some (sc_state c)) c)
  | OpBringUp => waits UmacCommand.SetInterfaceFlags StationState.InterfaceUpPending c
  | OpBringDown =>
      waits UmacCommand.SetInterfaceFlags StationState.InterfaceDownPending (returns None c)
  | OpStartScan _ => waits UmacCommand.TriggerScan StationState.Scanning c
  | OpRequestScanResults _ => waits UmacCommand.GetScanResults StationState.ReadingScanResults c
  | OpAuthenticate request =>
      waits UmacCommand.Authenticate StationState.Authenticating
        (set_peer (Some (auth_bssid request)) c)
  | OpAssociate request =>
      waits UmacCommand.Associate StationState.Associating
        (set_controlled_port_authorized (negb (is_some (security request)))
           (set_secure_connection (is_some (security request)) c))
  | OpKeyCommand command _ => waits command StationState.Securing c
  | OpSetKey _ => waits UmacCommand.SetKey StationState.Securing c
  | OpAuthorize => waits UmacCommand.SetStation StationState.Authorizing c
  | OpSetPowerSave _ =>
      waits UmacCommand.SetPowerSave StationState.PowerSavePending (returns (Some (sc_state c)) c)
  | OpSetPowerSaveTimeout _ =>
      waits UmacCommand.SetPowerSaveTimeout StationState.PowerSavePending
        (returns (Some (sc_state c)) c)
  | OpDisconnect _ =>
      waits UmacCommand.Deauthenticate StationState.Disconnecting (returns None c)
  | _ => c
  end.

Definition is_command (op : station_op) : bool :=
  match op with
  | OpControlEvent _ | OpDataEvent _ | OpAdvanceTime _ | OpSetTimeouts _
  | OpCompleteGroupRekey | OpBeginRecovery | OpRecoveryComplete => false
  | _ => true
  end.

Section commands_spec.
Context {W E : Type} `{BusOps W E} `{DelayOps W}.

(** [message] is what [op] encodes, and [buffer] the controller's buffer after. *)
Definition encodes (op : station_op) (c : StationController) (message buffer : list Z) : Prop :=
  exists n, encoder op c (sc_command c) = (Ok n, buffer) /\ slice buffer 0 n = Some message.

(** The outcome of a command in state [c]. *)
Definition command_outcome (op : station_op) (c : StationController) (d : Device W)
    (x : res (StationError.t E) unit * (StationController * Device W)) : Prop :=
  match x with
  | (Ok _, (c', d')) =>
      guard op c = true /\
      match op with
      | OpCreateInterface _ _ =>
          if claims_default c
          then c' = transition StationState.Down
                      (set_pending_return_state None
                         (set_pending_command None (set_interface_created true c))) /\ d' = d
          else exists message buffer, encodes op c message buffer
                 /\ send_control_reliable (E:=E) message d = (Ok tt, d')
                 /\ c' = commit op (set_command buffer c)
      | _ => exists message buffer, encodes op c message buffer
               /\ send_control_reliable (E:=E) message d = (Ok tt, d')
               /\ c' = commit op (set_command buffer c)
      end
  | (_, (c', _)) =>
      (exists buffer, c' = set_command buffer c)
      \/ exists request, op = OpAssociate request /\ sc_peer c <> Some (assoc_bssid request)
                         /\ c' = enter_fault StationFault.PeerMismatch c
  end.

Lemma submit_spec encode c (d : Device W) :
  exists r buffer d', submit_station_command (E:=E) encode (c, d) = (r, (set_command buffer c, d'))
    /\ forall u, r = Ok u ->
       exists n message, encode (sc_command c) = (Ok n, buffer) /\ slice buffer 0 n = Some message
         /\ send_control_reliable (E:=E) message d = (Ok tt, d').
Proof.
  unfold submit_station_command, on_controller, on_dev. munfold. cbn [fst snd].
  destruct (encode (sc_command c)) as [[n|e|] buffer]; cbn [fst snd map_err];
    [|by eexists _, _, _..].
  cbn [sc_command set_command]. destruct (slice buffer 0 n) as [m|] eqn:Hs; cbn [expect];
    [|by eexists _, _, _].
  destruct (send_control_reliable m d) as [[[]|e|] d'] eqn:Hsend; cbn [map_err];
    eexists _, _, _; (split; [reflexivity|]); [|done..].
  intros _ _. by exists n, m.
Qed.

Lemma set_command_id c : set_command (sc_command c) c = c.
Proof. by destruct c. Qed.

(** A command that is refused without a message leaves the controller alone. *)
Lemma refused_outcome op c d e : command_outcome op c d (Err e, (c, d)).
Proof. left. exists (sc_command c). by rewrite set_command_id. Qed.

Lemma require_spec {F} state c :
  require (E:=F) state c
  = if state_is c state then (Ok tt, c) else (Err (StationError.InvalidState (sc_state c) state), c).
Proof. unfold require, state_is. munfold. by destruct (bool_decide _). Qed.

Lemma require_one_of_spec {F} first rest c :
  require_one_of (E:=F) first rest c
  = if one_of c (first :: rest) then (Ok tt, c)
    else (Err (StationError.InvalidState (sc_state c) first), c).
Proof. unfold require_one_of, one_of. munfold. by destruct (existsb _ _). Qed.

(** A command after its guard: submit, then assign. *)
Lemma submit_outcome op encode c d (k : M (StationController * Device W) (StationError.t E) unit) :
  guard op c = true ->
  (forall m n, op = OpCreateInterface m n -> claims_default c = false) ->
  (forall out, encode out = encoder op c out) ->
  (forall buffer d', k (set_command buffer c, d') = (Ok tt, (commit op (set_command buffer c), d'))) ->
  command_outcome op c d ((submit_station_command encode;; k) (c, d)).
Proof.
  intros Hg Hcl He Hk. destruct (submit_spec encode c d) as (r & buffer & d' & Hs & Hr).
  unfold mbind, M_bind. rewrite Hs. destruct r as [u|e|]; [|by left; exists buffer..].
  rewrite Hk. destruct (Hr u eq_refl) as (n & message & Henc & Hsl & Hsend). split; [done|].
  assert (exists message buffer0, encodes op c message buffer0
    /\ send_control_reliable (E:=E) message d = (Ok tt, d')
    /\ commit op (set_command buffer c) = commit op (set_command buffer0 c)) as Hx.
  { exists message, buffer. split_and!; [|done..]. exists n. by rewrite <-He. }
  destruct op; try exact Hx. by rewrite (Hcl _ _ eq_refl).
Qed.
End commands_spec.

Section command_ops.
Context {W E : Type} `{BusOps W E} `{DelayOps W}.

Lemma on_require {A} state (k : M (StationController * Device W) (StationError.t E) A) c d :
  (on_controller (require state);; k) (c, d)
  = if state_is c state then k (c, d)
    else (Err (StationError.InvalidState (sc_state c) state), (c, d)).
Proof.
  unfold on_controller. munfold. cbn [fst snd].
  rewrite require_spec. by destruct (state_is c state).
Qed.

Lemma on_require_one_of {A} first rest
    (k : M (StationController * Device W) (StationError.t E) A) c d :
  (on_controller (require_one_of first rest);; k) (c, d)
  = if one_of c (first :: rest) then k (c, d)
    else (Err (StationError.InvalidState (sc_state c) first), (c, d)).
Proof.
  unfold on_controller. munfold. cbn [fst snd].
  rewrite require_one_of_spec. by destruct (one_of c _).
Qed.

Lemma bind_controller {A} (f : StationController -> M (StationController * Device W) (StationError.t E) A) c d :
  (gets fst ≫= f) (c, d) = f c (c, d).
Proof. done. Qed.

Lemma bind_lift_ok {S F A B} (o : option A) (e : F) (f : A -> M S F B) s :
  (lift (ok_or o e) ≫= f) s = match o with Some a => f a s | None => (Err e, s) end.
Proof. by destruct o. Qed.

(** Runs the guards at the head of a command. *)
Ltac guards :=
  rewrite ?on_require, ?on_require_one_of;
  lazymatch goal with
  | |- context [if ?g then _ else (Err (StationError.InvalidState _ _), _)] =>
      let Hg := fresh "Hg" in destruct g eqn:Hg; [|apply refused_outcome]
  end;
  rewrite ?bind_controller.

(** The submission and its assignments; [Hg] and the rest give the guard. *)
Ltac submits :=
  apply submit_outcome; [cbn [guard]; try assumption|try done|try done|by intros].

Lemma create_interface_outcome mac name c (d : Device W) :
  command_outcome (E:=E) (OpCreateInterface mac name) c d (create_interface mac name (c, d)).
Proof.
  unfold create_interface. guards.
  destruct (sc_interface_created c) eqn:Hi; [apply refused_outcome|].
  assert (guard (OpCreateInterface mac name) c = true) as Hgd by (cbn; by rewrite Hg, Hi).
  assert ((on_controller (E:=E) claim_firmware_default_interface) (c, d)
    = if claims_default c
      then (Ok true, (transition StationState.Down
                        (set_pending_return_state None
                           (set_pending_command None (set_interface_created true c))), d))
      else (Ok false, (c, d))) as Hclaim.
  { unfold on_controller, claim_firmware_default_interface, claims_default. munfold. cbn [fst snd].
    by destruct (sc_wdev_id c =? 0). }
  unfold mbind at 1, M_bind at 1. rewrite Hclaim. destruct (claims_default c) eqn:Hw.
  - split; [done|]. by rewrite Hw.
  - apply (submit_outcome (OpCreateInterface mac name) _ c d _ Hgd); [|done|by intros].
    intros m n _. exact Hw.
Qed.

Lemma key_command_outcome command key c (d : Device W) :
  command_outcome (E:=E) (OpKeyCommand command key) c d (key_command command key (c, d)).
Proof.
  unfold key_command. guards. destruct (key_type key) eqn:Hk.
  1: { apply (submit_outcome (OpKeyCommand command key) _ c d _); [|done| |by intros].
       - cbn [guard]. by rewrite Hg, Hk, orb_true_r.
       - intros out. cbn [encoder]. by rewrite Hk. }
  all: assert (forall (k : option (list Z) -> M (StationController * Device W) (StationError.t E) unit),
    ((peer ← lift (ok_or (sc_peer c) (StationError.Fault StationFault.PeerMismatch));
      mret (Some peer)) ≫= k) (c, d)
    = match sc_peer c with
      | Some peer => k (Some peer) (c, d)
      | None => (Err (StationError.Fault StationFault.PeerMismatch), (c, d))
      end) as Hl by (intros; munfold; by destruct (sc_peer c)).
  all: rewrite Hl; destruct (sc_peer c) as [peer|] eqn:Hp; [|apply refused_outcome].
  all: apply (submit_outcome (OpKeyCommand command key)); [|done| |by intros];
    [cbn [guard]; by rewrite Hg, Hp|intros out; cbn [encoder]; by rewrite Hk, Hp].
Qed.

Lemma associate_outcome request c (d : Device W) :
  command_outcome (E:=E) (OpAssociate request) c d (associate request (c, d)).
Proof.
  unfold associate. guards. destruct (bool_decide (sc_peer c = _)) eqn:Hp; cbn [negb].
  - apply submit_outcome; [|done..]. cbn [guard]. by rewrite Hg, Hp.
  - right. exists request. apply bool_decide_eq_false in Hp. done.
Qed.

Lemma set_power_save_timeout_outcome ms c (d : Device W) :
  command_outcome (E:=E) (OpSetPowerSaveTimeout ms) c d (set_power_save_timeout ms (c, d)).
Proof.
  unfold set_power_save_timeout. guards.
  destruct (ms <? 0) eqn:Hms; [apply refused_outcome|]. rewrite bind_controller.
  apply submit_outcome; [|done..]. cbn [guard]. rewrite Hg. cbn. lia.
Qed.

Lemma station_command_spec op c (d : Device W) :
  is_command op = true -> command_outcome (E:=E) op c d (station_run op (c, d)).
Proof.
  destruct op; try done; intros _; cbn [station_run].
  - apply create_interface_outcome.
  - unfold set_regulatory. guards. submits.
  - unfold bring_up. guards. destruct (sc_interface_created c) eqn:Hi; cbn [negb];
      [|apply refused_outcome]. submits. by rewrite Hg.
  - unfold bring_down. guards. destruct (sc_interface_created c) eqn:Hi; cbn [negb];
      [|apply refused_outcome]. submits. by rewrite Hg.
  - unfold station_start_scan. guards. submits.
  - unfold request_scan_results. guards. submits.
  - unfold authenticate. guards. submits.
  - apply associate_outcome.
  - apply key_command_outcome.
  - unfold set_key. guards. submits.
  - unfold authorize. guards. rewrite bind_lift_ok.
    destruct (sc_peer c) as [peer|] eqn:Hp; [|apply refused_outcome].
    submits; [by rewrite Hg, Hp|intros out; cbn; unfold peer_or_nil; by rewrite Hp].
  - unfold set_power_save. guards. submits.
  - apply set_power_save_timeout_outcome.
  - unfold disconnect. guards. rewrite bind_lift_ok.
    destruct (sc_peer c) as [peer|] eqn:Hp; [|apply refused_outcome].
    submits; [by rewrite Hg, Hp|intros out; cbn; unfold peer_or_nil; by rewrite Hp].
Qed.
End command_ops.

(** ** Two-state invariants of the event handlers

    [R] holds of every assignment the handlers make, and of a whole command
    status; then it holds of every event. *)

Ltac keeps_go :=
  repeat first
    [ progress cbv zeta
    | lazymatch goal with
      | |- keeps _ (_ ≫= _) => apply keeps_bind; [exact _| |intros ?]
      | |- keeps _ (mret _) => apply keeps_ret; exact _
      | |- keeps _ (throw _) => apply keeps_throw; exact _
      | |- keeps _ (lift _) => apply keeps_lift; exact _
      | |- keeps _ get => apply keeps_get; exact _
      | |- keeps _ (gets _) => apply keeps_gets; exact _
      | |- keeps _ (match ?x with _ => _ end) => destruct x
      end
    | solve [eauto 3 with keeps] ].

Section handler_invariants.
Context {E : Type} (R : StationController -> StationController -> Prop) `{!PreOrder R}.
Hypothesis R_transition : forall state c, R c (transition state c).
Hypothesis R_fault : forall fault c, R c (set_last_fault fault c).
Hypothesis R_no_command : forall c, R c (set_pending_command None c).
Hypothesis R_return : forall r c, R c (set_pending_return_state r c).
Hypothesis R_clear : forall c, R c (clear_connection c).
Hypothesis R_carrier : forall b c, R c (set_carrier_on b c).
Hypothesis R_created : forall b c, R c (set_interface_created b c).

Lemma R_enter_fault fault c : R c (enter_fault fault c).
Proof using PreOrder0 R_transition R_fault R_no_command R_return.
  unfold enter_fault. etransitivity; [apply R_fault|]. etransitivity; [apply R_no_command|].
  etransitivity; [apply R_return|apply R_transition].
Qed.

Lemma R_refresh c : R c (refresh_connected c).
Proof using PreOrder0 R_transition. unfold refresh_connected. destruct (_ && _); [done|reflexivity]. Qed.

Lemma keeps_fail {A} fault : keeps R (fail (E:=E) (A:=A) fault).
Proof using PreOrder0 R_transition R_fault R_no_command R_return.
  apply keeps_bind; [done| |intros _; by apply keeps_throw].
  apply keeps_modify. intros c. apply R_enter_fault.
Qed.

#[local] Hint Resolve keeps_fail R_refresh R_enter_fault keeps_modify : keeps.

Lemma keeps_check_header header : keeps R (check_header (E:=E) header).
Proof using All. unfold check_header. keeps_go. Qed.

Lemma keeps_check_peer peer : keeps R (check_peer (E:=E) peer).
Proof using All. unfold check_peer. keeps_go. Qed.

Lemma keeps_take_return default : keeps R (take_return_state (E:=E) default).
Proof using All. unfold take_return_state. keeps_go. Qed.

Lemma keeps_require_data w : keeps R (require_data_interface (E:=E) w).
Proof using All. unfold require_data_interface. keeps_go. Qed.

#[local] Hint Resolve keeps_check_header keeps_check_peer keeps_take_return keeps_require_data : keeps.

Lemma keeps_data_event event : keeps R (handle_data_event (E:=E) event).
Proof using All.
  destruct event; cbn [handle_data_event]; unfold handle_carrier_on, handle_carrier_off; keeps_go.
Qed.

Lemma keeps_control_event event :
  (forall header command status, event = ControlEvent.CommandStatus header command status ->
     keeps R (handle_command_status (E:=E) command status)) ->
  keeps R (handle_control_event (E:=E) event).
Proof using All.
  intros R_status. unfold handle_control_event. apply keeps_bind; [done|apply keeps_check_header|]. intros _.
  destruct event; cbn [is_status_control_event handle_status_control_event
    handle_other_control_event handle_progress_control_event is_scan_control_event
    handle_scan_control_event handle_mlme_control_event];
    unfold handle_scan_done, handle_scan_result, handle_authentication, handle_association,
      handle_disconnect_event, handle_interface_state, handle_regulatory_change,
      handle_interface_created; keeps_go.
Qed.
End handler_invariants.

(** *** Deadlines

    A state with a deadline has time left, at most its configured timeout. *)
Definition deadline_ok (c : StationController) : Prop :=
  match timeout_for c (sc_state c), sc_remaining_ms c with
  | None, None => True
  | Some timeout, Some remaining => 0 < remaining <= timeout
  | _, _ => False
  end.

Lemma timeout_for_pos c state t : timeout_for c state = Some t -> 0 < t.
Proof.
  unfold timeout_for. destruct (nth _ _ _) as [v|]; [|done]. cbn. intros [= <-]. lia.
Qed.

Lemma transition_deadline state c : deadline_ok (transition state c).
Proof.
  unfold deadline_ok, transition. cbn [sc_state set_remaining_ms set_state sc_remaining_ms].
  change (timeout_for (set_remaining_ms _ _) state) with (timeout_for c state).
  change (timeout_for (set_state state c) state) with (timeout_for c state).
  destruct (timeout_for c state) as [t|] eqn:Ht; [|done].
  pose proof (timeout_for_pos _ _ _ Ht). lia.
Qed.

Definition keeps_deadline (c c' : StationController) : Prop := deadline_ok c -> deadline_ok c'.
#[export] Instance keeps_deadline_preorder : PreOrder keeps_deadline.
Proof. split; [by intros c ?|intros a b c ? ? ?; unfold keeps_deadline in *; auto]. Qed.

Lemma deadline_transition state c : keeps_deadline c (transition state c).
Proof. intros _. apply transition_deadline. Qed.

Lemma deadline_control_event {E} event : keeps keeps_deadline (handle_control_event (E:=E) event).
Proof.
  apply keeps_control_event; try exact _; try (intros; exact (fun H => H));
    [apply deadline_transition|].
  intros header command status _. unfold handle_command_status, validate_pending_command.
  assert (forall A fault, keeps keeps_deadline (fail (E:=E) (A:=A) fault)) as Hf.
  { intros. apply keeps_fail; try exact _; try (intros; exact (fun H => H)).
    apply deadline_transition. }
  assert (forall state, keeps keeps_deadline (modify (E:=StationError.t E) (transition state))) as Ht.
  { intros. apply keeps_modify, deadline_transition. }
  assert (keeps keeps_deadline (modify (E:=StationError.t E) refresh_connected)) as Hr.
  { apply keeps_modify. intros c. apply R_refresh; [exact _|apply deadline_transition]. }
  unfold apply_successful_command, take_return_state. keeps_go.
  all: apply keeps_modify; intros c Hc; exact Hc.
Qed.

Lemma deadline_data_event {E} event : keeps keeps_deadline (handle_data_event (E:=E) event).
Proof.
  apply keeps_data_event; try exact _; try (intros; exact (fun H => H)).
  apply deadline_transition.
Qed.

(** ** Runs

    A run executes any operations in any order; [h] is the history of the
    operations and whether each succeeded. *)

Section runs.
Context {W E : Type} `{BusOps W E} `{DelayOps W}.

Definition op_ok (op : station_op) : Prop :=
  match op with OpAdvanceTime elapsed_ms => 0 <= elapsed_ms | _ => True end.

Definition succeeded {F A} (r : res F A) : bool := match r with Ok _ => true | _ => false end.

Inductive station_reach (s0 : StationController * Device W)
    : list (station_op * bool) -> StationController * Device W -> Prop :=
  | reach_start : station_reach s0 [] s0
  | reach_step h s op r s' :
      station_reach s0 h s -> op_ok op -> station_run (E:=E) op s = (r, s') ->
      station_reach s0 (h ++ [(op, succeeded r)]) s'.

(** The invariant rule. *)
Lemma reach_invariant s0 (I : list (station_op * bool) -> StationController -> Prop) h s :
  I [] s0.1 ->
  (forall h op c d, I h c -> op_ok op ->
     let '(r, (c', _)) := station_run (E:=E) op (c, d) in I (h ++ [(op, succeeded r)]) c') ->
  station_reach s0 h s -> I h s.1.
Proof.
  intros Hinit Hstep. induction 1 as [|h [c d] op r [c' d'] _ IH Hop Hrun]; [done|].
  specialize (Hstep h op c d IH Hop). by rewrite Hrun in Hstep.
Qed.

(** Every command ends in its [commit], in an unchanged controller, or in the
    fault of a mismatched peer. *)
Lemma command_cases op c (d : Device W) :
  is_command op = true ->
  let '(r, (c', _)) := station_run (E:=E) op (c, d) in
  (exists message buffer, r = Ok tt /\ guard op c = true /\ encodes op c message buffer
                          /\ c' = commit op (set_command buffer c))
  \/ (r = Ok tt /\ guard op c = true /\ (exists mac name, op = OpCreateInterface mac name)
      /\ c' = transition StationState.Down
                (set_pending_return_state None
                   (set_pending_command None (set_interface_created true c))))
  \/ (succeeded r = false /\ exists buffer, c' = set_command buffer c)
  \/ (succeeded r = false /\ c' = enter_fault StationFault.PeerMismatch c).
Proof.
  intros Hop. pose proof (station_command_spec (E:=E) op c d Hop) as Hs.
  destruct (station_run op (c, d)) as [[[]|e|] [c' d']]; cbn [command_outcome] in Hs.
  - destruct Hs as [Hg Hs]. destruct op; try done;
      try (destruct Hs as (m & b & He & _ & Hc); left; by exists m, b).
    destruct (claims_default c); [right; left|].
    + split; [done|]. split; [done|]. split; [by eexists _, _|]. apply Hs.
    + destruct Hs as (m & b & He & _ & Hc). left. by exists m, b.
  - destruct Hs as [Hb|(? & _ & _ & Hb)]; [right; right; left|right; right; right]; done.
  - destruct Hs as [Hb|(? & _ & _ & Hb)]; [right; right; left|right; right; right]; done.
Qed.

Lemma deadline_step op c (d : Device W) :
  op_ok op -> keeps_deadline c (station_run (E:=E) op (c, d)).2.1.
Proof.
  intros Hop Hc. destruct (is_command op) eqn:Hcmd.
  - pose proof (command_cases op c d Hcmd) as Hs.
    destruct (station_run op (c, d)) as [r [c' d']]. cbn [fst snd].
    destruct Hs as [(m & b & _ & _ & _ & ->)|[(_ & _ & _ & ->)|[(_ & b & ->)|(_ & ->)]]].
    + destruct op; try done; apply transition_deadline.
    + apply transition_deadline.
    + exact Hc.
    + apply transition_deadline.
  - destruct op; try done; cbn [station_run]; unfold on_controller, zoom; cbn [fst snd].
    + pose proof (deadline_control_event (E:=E) event c) as Hk.
      destruct (handle_control_event event c). exact (Hk Hc).
    + pose proof (deadline_data_event (E:=E) event c) as Hk.
      destruct (handle_data_event event c). exact (Hk Hc).
    + unfold advance_time. munfold. cbn [op_ok] in Hop.
      destruct (sc_remaining_ms c) as [remaining|] eqn:Hr; [|exact Hc].
      destruct (elapsed_ms <? remaining) eqn:Hlt; [|apply transition_deadline].
      apply Z.ltb_lt in Hlt. unfold deadline_ok in *. rewrite Hr in Hc. cbn.
      change (timeout_for (set_remaining_ms _ c) (sc_state c)) with (timeout_for c (sc_state c)).
      destruct (timeout_for c (sc_state c)); [lia|done].
    + apply (transition_deadline (sc_state c) (set_timeouts timeouts c)).
    + cbn. unfold complete_group_rekey.
      destruct (sc_secure_connection c && sc_controlled_port_authorized c);
        [|apply transition_deadline].
      destruct (sc_carrier_on c); apply transition_deadline.
Qed.

Lemma deadline_reach ifaceindex firmware_index wdev_id (d : Device W) h s :
  station_reach (StationController_new ifaceindex firmware_index wdev_id, d) h s ->
  deadline_ok s.1.
Proof.
  apply (reach_invariant _ (fun _ => deadline_ok)); [done|].
  intros h' op c d' Hc Hop. pose proof (deadline_step op c d' Hop Hc) as Hs.
  by destruct (station_run op (c, d')) as [r [c' d'']].
Qed.

(** Letting time pass in steps, until a deadline fires. *)
Lemma advance_fires elapsed remaining c :
  sc_remaining_ms c = Some remaining -> 0 < remaining -> Forall (fun ms => 0 <= ms) elapsed ->
  remaining <= foldr Z.add 0 elapsed ->
  for_each elapsed advance_time c
  = (Err (StationFault.Timeout (sc_state c)), enter_fault (StationFault.Timeout (sc_state c)) c).
Proof.
  revert remaining c. induction elapsed as [|ms elapsed IH]; intros remaining c Hr Hpos Hf Hsum;
    cbn [foldr] in Hsum; [lia|].
  apply Forall_cons_1 in Hf as [Hms Hf]. cbn [for_each]. unfold mbind, M_bind.
  unfold advance_time at 1 2. munfold. rewrite Hr. destruct (ms <? remaining) eqn:Hlt.
  - apply Z.ltb_lt in Hlt.
    apply (IH (remaining - ms) (set_remaining_ms (Some (remaining - ms)) c)); done || lia.
  - done.
Qed.
End runs.

(** ** The controlled port

    [quiet c c']: the security of the connection and the port did not change,
    or both were cleared; and no station authorization started. *)

Definition quiet (c c' : StationController) : Prop :=
  ((sc_secure_connection c' = sc_secure_connection c
    /\ sc_controlled_port_authorized c' = sc_controlled_port_authorized c)
   \/ (sc_secure_connection c' = false /\ sc_controlled_port_authorized c' = false))
  /\ (sc_pending_command c' = Some UmacCommand.SetStation ->
      sc_pending_command c = Some UmacCommand.SetStation).

#[export] Instance quiet_preorder : PreOrder quiet.
Proof.
  split; [intros c; split; [by left|done]|].
  intros a b c [[[? ?]|[? ?]] ?] [[[? ?]|[? ?]] ?]; split; auto; (left; by split; congruence)
    || (right; by split; congruence).
Qed.

Ltac quiet_set := intros; split; [by left|done].

Lemma quiet_transition state c : quiet c (transition state c).
Proof. quiet_set. Qed.
Lemma quiet_clear c : quiet c (clear_connection c).
Proof. split; [by right|done]. Qed.
Lemma quiet_fault fault c : quiet c (enter_fault fault c).
Proof. split; [by left|done]. Qed.

Lemma quiet_control_event {E} event :
  (forall header command status, event <> ControlEvent.CommandStatus header command status) ->
  keeps quiet (handle_control_event (E:=E) event).
Proof.
  intros Hne. apply keeps_control_event; try exact _; try (by quiet_set);
    [intros; apply quiet_clear|]. intros h command status ->. by destruct (Hne h command status).
Qed.

Lemma quiet_data_event {E} event : keeps quiet (handle_data_event (E:=E) event).
Proof.
  apply keeps_data_event; try exact _; try (by quiet_set). intros; apply quiet_clear.
Qed.

(** A confirmed station authorization. *)
Definition confirms (c : StationController) (command status : Z) : Prop :=
  command = UmacCommand.to_u32 UmacCommand.SetStation /\ status = 0
  /\ sc_state c = StationState.Authorizing
  /\ sc_pending_command c = Some UmacCommand.SetStation.

Lemma to_u32_SetStation command :
  UmacCommand.to_u32 command = UmacCommand.to_u32 UmacCommand.SetStation ->
  command = UmacCommand.SetStation.
Proof. by destruct command. Qed.

(** A command status is quiet, or it is the confirmation that opens the port. *)
Lemma command_status_effect {E} command status c :
  let '(r, c') := handle_command_status (E:=E) command status c in
  quiet c c'
  \/ (confirms c command status /\ r = Ok tt /\ sc_controlled_port_authorized c' = true
      /\ sc_secure_connection c' = sc_secure_connection c /\ sc_pending_command c' = None).
Proof.
  unfold handle_command_status, validate_pending_command, apply_successful_command, fail,
    take_return_state. munfold.
  destruct (is_default_interface_status c command).
  { destruct (status =? 0); left; [reflexivity|apply quiet_fault]. }
  destruct (bool_decide _) eqn:Hp; cbn [negb]; [|left; apply quiet_fault].
  apply bool_decide_eq_true in Hp.
  destruct (status =? 0) eqn:Hs; cbn [negb]; [|left; apply quiet_fault].
  destruct (command =? _); [left; reflexivity|].
  destruct (existsb (Z.eqb command) KEY_COMMANDS); [left; by quiet_set|].
  destruct ((command =? UmacCommand.to_u32 UmacCommand.SetStation) && _) eqn:Hc.
  - right. apply andb_true_iff in Hc as [Hc Hst]. apply Z.eqb_eq in Hc, Hs.
    apply state_is_true in Hst. cbn in Hst.
    destruct (sc_pending_command c) as [u|] eqn:Hu; [|done]. cbn in Hp. injection Hp as Hp.
    assert (u = UmacCommand.SetStation) as -> by (apply to_u32_SetStation; congruence).
    split; [done|]. split; [done|]. unfold refresh_connected. cbn.
    by destruct (sc_carrier_on c).
  - destruct (existsb (Z.eqb command) POWER_SAVE_COMMANDS && _); left; [|by quiet_set].
    by destruct (sc_pending_return_state c); quiet_set.
Qed.

Lemma check_header_ok {E} header c c1 : check_header (E:=E) header c = (Ok tt, c1) -> c1 = c.
Proof.
  unfold check_header, fail. munfold. destruct (_ && _); [done|].
  destruct (_ && _); [done|]. by intros [= ->].
Qed.

Lemma control_event_effect {E} event c :
  let '(r, c') := handle_control_event (E:=E) event c in
  quiet c c'
  \/ (exists header command status, event = ControlEvent.CommandStatus header command status
      /\ confirms c command status /\ r = Ok tt /\ sc_controlled_port_authorized c' = true
      /\ sc_secure_connection c' = sc_secure_connection c /\ sc_pending_command c' = None).
Proof.
  destruct event as [header status scan|e|e|e|e|e|header command status|header status|header country|header body].
  7: { unfold handle_control_event. cbn [control_event_header is_status_control_event
         handle_status_control_event].
       assert (keeps quiet (check_header (E:=E) header)) as Hh.
       { apply keeps_check_header; try exact _; try (by quiet_set). intros; apply quiet_clear. }
       unfold mbind, M_bind. specialize (Hh c).
       destruct (check_header header c) as [[[]|e|] c1] eqn:Hc; cbn in Hh; [|by left..].
       assert (c1 = c) as -> by (eapply check_header_ok; exact Hc).
       pose proof (command_status_effect (E:=E) command status c) as Hx.
       destruct (handle_command_status command status c) as [r c'].
       destruct Hx as [?|(? & ? & ? & ? & ?)]; [by left|right].
       by exists header, command, status. }
  all: match goal with |- context [handle_control_event ?event ?s] =>
         pose proof (quiet_control_event (E:=E) event ltac:(discriminate) s) as Hq;
         destruct (handle_control_event event s); by left
       end.
Qed.

(** ** The history of the controlled port *)

Definition no_association (h : list (station_op * bool)) : Prop :=
  forall request, (OpAssociate request, true) ∉ h.

(** The host sent the station authorization after the last association. *)
Definition asked (h : list (station_op * bool)) : Prop :=
  exists h0 h1, h = h0 ++ (OpAuthorize, true) :: h1 /\ no_association h1.

(** And the firmware confirmed it after that. *)
Definition granted (h : list (station_op * bool)) : Prop :=
  exists h0 h1 header h2,
    h = h0 ++ (OpAuthorize, true) :: h1
        ++ (OpControlEvent (ControlEvent.CommandStatus header
              (UmacCommand.to_u32 UmacCommand.SetStation) 0), true) :: h2
    /\ no_association h1 /\ no_association h2.

Definition port_history (h : list (station_op * bool)) (c : StationController) : Prop :=
  (sc_pending_command c = Some UmacCommand.SetStation -> asked h)
  /\ (sc_secure_connection c = true -> sc_controlled_port_authorized c = true -> granted h).

Lemma no_association_snoc h x :
  no_association h -> (forall request, x <> (OpAssociate request, true)) -> no_association (h ++ [x]).
Proof.
  intros Hh Hx request [Hin|Hin%list_elem_of_singleton]%elem_of_app; [by apply (Hh request)|].
  by apply (Hx request).
Qed.

Lemma asked_snoc h x : asked h -> (forall request, x <> (OpAssociate request, true)) -> asked (h ++ [x]).
Proof.
  intros (h0 & h1 & -> & Hh) Hx. exists h0, (h1 ++ [x]). split; [by rewrite <-app_assoc|].
  by apply no_association_snoc.
Qed.

Lemma granted_snoc h x :
  granted h -> (forall request, x <> (OpAssociate request, true)) -> granted (h ++ [x]).
Proof.
  intros (h0 & h1 & header & h2 & -> & Hh1 & Hh2) Hx. exists h0, h1, header, (h2 ++ [x]).
  split; [|split; [done|by apply no_association_snoc]].
  rewrite <-app_assoc. cbn. by rewrite <-app_assoc.
Qed.

Lemma port_history_quiet h x c c' :
  port_history h c -> quiet c c' -> (forall request, x <> (OpAssociate request, true)) ->
  port_history (h ++ [x]) c'.
Proof.
  intros [Ha Hg] [Hq Hp] Hx. split.
  - intros Hs. apply asked_snoc; auto.
  - intros Hs Hau. destruct Hq as [[Hq1 Hq2]|[Hq1 _]]; [|congruence].
    apply granted_snoc; [|done]. apply Hg; congruence.
Qed.

Lemma encode_key_command_ok w command peer key out n out' :
  encode_key_command w command peer key out = (Ok n, out') -> command <> UmacCommand.SetStation.
Proof. intros He ->. by vm_compute in He. Qed.

(** Commands other than associating and authorizing are quiet. *)
Lemma quiet_commit op c (m buffer : list Z) :
  encodes op c m buffer -> (forall request, op <> OpAssociate request) -> op <> OpAuthorize ->
  quiet c (commit op (set_command buffer c)).
Proof.
  intros (n & He & _) Ha Hz. destruct op; try (by destruct (Ha request)); try done;
    split; try (by left); cbn; try discriminate; try done.
  intros [= ->]. by apply encode_key_command_ok in He.
Qed.

Section port.
Context {W E : Type} `{BusOps W E} `{DelayOps W}.

Lemma port_history_command h op c (d : Device W) :
  port_history h c -> is_command op = true ->
  let '(r, (c', _)) := station_run (E:=E) op (c, d) in port_history (h ++ [(op, succeeded r)]) c'.
Proof.
  intros Hh Hop. pose proof (command_cases (E:=E) op c d Hop) as Hs.
  destruct (station_run op (c, d)) as [r [c' d']].
  destruct Hs as [(m & b & -> & _ & He & ->)|[(-> & _ & (mac & name & ->) & ->)|[(-> & b & ->)|(-> & ->)]]].
  - cbn [succeeded]. destruct op; try (by eapply port_history_quiet;
      [exact Hh|eapply quiet_commit; [exact He|done|done]|done]).
    + split; cbn; [discriminate|]. intros Hs. rewrite Hs. discriminate.
    + destruct Hh as [_ Hg]. split; intros Hs.
      * exists h, []. split; [done|]. intros request Hin. by apply not_elem_of_nil in Hin.
      * intros Hau. apply granted_snoc; [by apply Hg|done].
  - eapply port_history_quiet; [exact Hh|by quiet_set|done].
  - eapply port_history_quiet; [exact Hh|by quiet_set|]. intros request. discriminate.
  - eapply port_history_quiet; [exact Hh|apply quiet_fault|]. intros request. discriminate.
Qed.

Lemma port_history_step h op c (d : Device W) :
  port_history h c ->
  let '(r, (c', _)) := station_run (E:=E) op (c, d) in port_history (h ++ [(op, succeeded r)]) c'.
Proof.
  intros Hh. destruct (is_command op) eqn:Hop; [by apply port_history_command|].
  destruct op; try done; cbn [station_run]; unfold on_controller, zoom, mapM_err; cbn [fst snd].
  - pose proof (control_event_effect (E:=E) event c) as He.
    destruct (handle_control_event event c) as [r c'].
    destruct He as [Hq|(header & command & status & -> & (-> & -> & _ & Hp) & -> & Hau & Hsec & Hp')].
    { by apply (port_history_quiet h _ c). }
    split; [by rewrite Hp'|]. intros _ _. destruct Hh as [Ha _].
    destruct (Ha Hp) as (h0 & h1 & -> & Hn). exists h0, h1, header, [].
    split; [by rewrite <-app_assoc|]. split; [done|]. intros request Hin.
    by apply not_elem_of_nil in Hin.
  - pose proof (quiet_data_event (E:=E) event c) as Hq.
    destruct (handle_data_event event c). by apply (port_history_quiet h _ c).
  - assert (quiet c (advance_time elapsed_ms c).2) as Hq.
    { unfold advance_time. munfold. destruct (sc_remaining_ms c); [|reflexivity].
      destruct (elapsed_ms <? z); [by quiet_set|apply quiet_fault]. }
    destruct (advance_time elapsed_ms c) as [r c']. by apply (port_history_quiet h _ c).
  - apply (port_history_quiet h _ c); [done|by quiet_set|done].
  - apply (port_history_quiet h _ c); [done| |done]. unfold complete_group_rekey.
    destruct (_ && _); [|by quiet_set]. destruct (sc_carrier_on c); by quiet_set.
Qed.
End port.

(** ** Errors of the event handlers *)

Definition faulted (fault : StationFault.t) (c : StationController) : Prop :=
  sc_state c = StationState.Fault /\ sc_last_fault c = Some fault
  /\ sc_pending_command c = None /\ sc_pending_return_state c = None /\ sc_remaining_ms c = None.

(** [m] does not panic, and an error is a fault the controller has entered. *)
Definition closes {E A} (m : M StationController (StationError.t E) A) : Prop :=
  forall c, match m c with
            | (Ok _, _) => True
            | (Err e, c') => exists fault, e = StationError.Fault fault /\ faulted fault c'
            | (Panic, _) => False
            end.

Section closes.
Context {E : Type}.

Lemma closes_bind {A B} (m : M StationController (StationError.t E) A)
    (f : A -> M StationController (StationError.t E) B) :
  closes m -> (forall a, closes (f a)) -> closes (m ≫= f).
Proof.
  intros Hm Hf c. specialize (Hm c). unfold mbind, M_bind.
  destruct (m c) as [[a|e|] c']; [apply Hf|done..].
Qed.

Lemma closes_fail {A} fault : closes (fail (E:=E) (A:=A) fault).
Proof. intros c. by exists fault. Qed.

(** The handlers are sequences of reads, assignments and [fail]s. *)
Ltac closes_go :=
  repeat first
    [ progress cbv zeta
    | lazymatch goal with
      | |- closes (_ ≫= _) => apply closes_bind; [|intros ?]
      | |- closes (fail _) => apply closes_fail
      | |- closes (match ?x with _ => _ end) => destruct x
      end
    | (intros ?; exact I) ].

Lemma closes_data_event event : closes (handle_data_event (E:=E) event).
Proof.
  unfold handle_data_event, handle_carrier_on, handle_carrier_off, require_data_interface. closes_go.
Qed.

Lemma closes_check_header header : closes (check_header (E:=E) header).
Proof. unfold check_header. closes_go. Qed.

(** The MLME handlers up to the reading of the status. *)
Definition silent (f : StationFault.t) (event : MlmeEvent) : Prop :=
  (f = StationFault.MlmeTimeout /\ has (mlme_flags event) MLME_TIMED_OUT = true)
  \/ (f = StationFault.UnexpectedEvent /\ len (mlme_frame event) < 30).

Lemma mlme_status_spec event offset :
  0 <= offset <= 28 ->
  match mlme_status (E:=E) event offset with
  | Ok _ => True
  | Err e => exists f, e = StationError.Fault f /\ silent f event
  | Panic => False
  end.
Proof.
  intros Ho. unfold mlme_status. destruct (has _ _) eqn:Ht.
  { eexists. split; [done|]. by left. }
  destruct (negb _); [done|]. destruct (Z.land _ _ =? 0); [done|].
  destruct (len (mlme_frame event) <? offset + 2) eqn:Hl.
  { apply Z.ltb_lt in Hl. eexists. split; [done|]. right. split; [done|lia]. }
  apply Z.ltb_ge in Hl.
  destruct (@index_in (StationError.t E) (mlme_frame event) offset) as [? ->]; [lia|].
  by destruct (@index_in (StationError.t E) (mlme_frame event) (offset + 1)) as [? ->]; [lia|].
Qed.

Lemma check_peer_ok peer c :
  check_peer (E:=E) peer c
  = if bool_decide (sc_peer c = Some peer) then (Ok tt, c)
    else (Err (StationError.Fault StationFault.PeerMismatch),
          enter_fault StationFault.PeerMismatch c).
Proof. unfold check_peer, fail. munfold. by destruct (bool_decide _). Qed.

(** What the two MLME response handlers have in common. *)
Lemma mlme_outcome state event offset status_offset (k : Z -> M StationController (StationError.t E) unit) c :
  0 <= status_offset <= 28 -> (forall status, closes (k status)) ->
  match (c ← get;
         if negb (state_is c state) then fail StationFault.UnexpectedEvent
         else match mlme_frame_address event offset with
              | None => fail StationFault.UnexpectedEvent
              | Some peer => check_peer peer;; status ← lift (mlme_status event status_offset); k status
              end) c with
  | (Ok _, _) => True
  | (Err e, c') =>
      exists fault, e = StationError.Fault fault
        /\ (faulted fault c' \/ ((sc_state c = state /\ silent fault event) /\ c' = c))
  | (Panic, _) => False
  end.
Proof.
  intros Ho Hk. unfold mbind at 1, M_bind at 1, get at 1.
  destruct (state_is c state) eqn:Hs; cbn [negb]; [|eexists; split; [done|left; done]].
  apply state_is_true in Hs.
  destruct (mlme_frame_address event offset) as [peer|]; [|eexists; split; [done|left; done]].
  unfold mbind at 1, M_bind at 1. rewrite check_peer_ok. destruct (bool_decide _);
    [|eexists; split; [done|left; done]].
  unfold mbind at 1, M_bind at 1, lift. pose proof (mlme_status_spec event status_offset Ho) as Hm.
  destruct (mlme_status event status_offset) as [status|e|]; [|destruct Hm as (f & -> & Hf)|done].
  - specialize (Hk status c). destruct (k status c) as [[u|e|] c']; [done| |done].
    destruct Hk as (f & -> & Hf). exists f. split; [done|by left].
  - exists f. split; [done|]. by right.
Qed.

(** The MLME responses a handler may refuse without entering the fault state. *)
Definition refused_silently (event : ControlEvent.t) (c : StationController) (f : StationFault.t)
    : Prop :=
  match event with
  | ControlEvent.Authentication e => sc_state c = StationState.Authenticating /\ silent f e
  | ControlEvent.Association e => sc_state c = StationState.Associating /\ silent f e
  | _ => False
  end.

Lemma handle_control_event_outcome event c :
  match handle_control_event (E:=E) event c with
  | (Ok _, _) => True
  | (Err e, c') =>
      exists fault, e = StationError.Fault fault
        /\ (faulted fault c' \/ (refused_silently event c fault /\ c' = c))
  | (Panic, _) => False
  end.
Proof.
  assert (closes (handle_control_event (E:=E) event)
          \/ (exists e, event = ControlEvent.Authentication e \/ event = ControlEvent.Association e))
    as [Hc|[e He]].
  { destruct event; try (by right; eexists; auto); left;
      (apply closes_bind; [apply closes_check_header|intros _]);
      cbn [is_status_control_event handle_status_control_event
        handle_other_control_event handle_progress_control_event is_scan_control_event
        handle_scan_control_event handle_mlme_control_event];
      unfold handle_scan_done, handle_scan_result, handle_disconnect_event, handle_interface_state,
        handle_regulatory_change, handle_interface_created, handle_command_status,
        validate_pending_command, apply_successful_command, check_peer, take_return_state;
      closes_go. }
  - specialize (Hc c). destruct (handle_control_event event c) as [[u|e|] c']; [done| |done].
    destruct Hc as (f & -> & Hf). exists f. split; [done|by left].
  - pose proof (closes_check_header (control_event_header event) c) as Hh.
    assert (handle_control_event (E:=E) event
      = (check_header (control_event_header event);; handle_progress_control_event event)) as ->
      by (by destruct He as [-> | ->]).
    unfold mbind, M_bind.
    destruct (check_header (control_event_header event) c) as [[[]|e'|] c1] eqn:Hch; [| |done].
    2: { destruct Hh as (f & -> & Hf). exists f. split; [done|by left]. }
    apply check_header_ok in Hch as ->.
    destruct He as [-> | ->].
    + change (handle_progress_control_event _) with (handle_authentication (E:=E) e).
      unfold handle_authentication. cbn [refused_silently]. apply mlme_outcome; [lia|].
      intros status. closes_go.
    + change (handle_progress_control_event _) with (handle_association (E:=E) e).
      unfold handle_association. cbn [refused_silently]. apply mlme_outcome; [lia|].
      intros status. closes_go.
Qed.
End closes.

(** ** A concrete run *)

(** The controller after a list of operations, whatever their results. *)
Fixpoint station_runs {W E} `{BusOps W E} `{DelayOps W} (ops : list station_op)
    (s : StationController * Device W) : StationController * Device W :=
  match ops with
  | [] => s
  | op :: ops => station_runs ops (snd (station_run (E:=E) op s))
  end.

Lemma station_runs_reach {W E} `{BusOps W E} `{DelayOps W} ops (s0 s : StationController * Device W) h :
  station_reach (E:=E) s0 h s -> Forall op_ok ops ->
  exists h', station_reach (E:=E) s0 h' (station_runs (E:=E) ops s).
Proof.
  revert h s. induction ops as [|op ops IH]; intros h s Hr Hops; [by exists h|].
  apply Forall_cons_1 in Hops as [Hop Hops]. cbn [station_runs].
  destruct (station_run op s) as [r s'] eqn:Hrun. eapply IH; [|done].
  by eapply reach_step.
Qed.

Definition sample_bssid : list Z := [1; 2; 3; 4; 5; 6].
Definition sample_header (result : Z) : UmacHeader := mkUmacHeader 0 0 0 result 0 0 0 0.
Definition sample_mlme (result : Z) (bssid frame : list Z) : MlmeEvent :=
  mkMlmeEvent (sample_header result) 1 2412 0 0 0 bssid frame [].

(** A management frame from [bssid] with status 0. *)
Definition sample_management (bssid : list Z) : list Z := zeros 10 ++ bssid ++ bssid ++ zeros 20.

Definition sample_auth_request : AuthenticationRequest :=
  mkAuthenticationRequest 2412 sample_bssid [110; 101; 116] AuthenticationType.OpenSystem false
    [] [] None (mkBssContext 0 0 false [] 0 100 0).
Definition sample_assoc_request : AssociationRequest :=
  mkAssociationRequest 2412 sample_bssid [110; 101; 116] None 0 None 0.

(** A device that always finds a free command buffer. *)
Definition station_device : Device script :=
  ready_device (replicate 20 (Some (to_le 4 0xb0001000))).
Definition station_start : StationController * Device script :=
  (StationController_new 0 0 0, station_device).

Definition to_authenticating : list station_op :=
  [OpCreateInterface sample_bssid []; OpBringUp;
   OpControlEvent (ControlEvent.InterfaceState (sample_header 0) 0);
   OpAuthenticate sample_auth_request].
Definition to_associating : list station_op :=
  to_authenticating
  ++ [OpControlEvent (ControlEvent.Authentication
                        (sample_mlme 0 sample_bssid (sample_management sample_bssid)));
      OpAssociate sample_assoc_request].
Definition to_connected : list station_op :=
  to_associating
  ++ [OpControlEvent (ControlEvent.Association
                        (sample_mlme 0 sample_bssid (sample_management sample_bssid)));
      OpDataEvent (DataEvent.CarrierOn 0)].

(** * Properties *)

(** C28: every station command is a guarded atomic step: it succeeds only in the
    states its guard names, after exactly the message of its encoder was sent
    and accepted, and then has exactly the effect [commit].  The one exception
    is the creation of the interface with identifier 0, which the firmware made
    itself: it succeeds under the same guard without sending anything, leaves
    the device as it was, and only marks the interface as created, with no
    command pending, in the state [Down].  A command that does not succeed
    (wrong state, encoding, device) leaves the controller as it was but for its
    scratch buffer, except that associating with another peer enters the fault
    state. *)
Theorem station_command_outcome {W E} `{BusOps W E} `{DelayOps W} op c (d : Device W) :
  is_command op = true -> command_outcome (E:=E) op c d (station_run op (c, d)).
Proof. apply station_command_spec. Qed.

Example station_command_outcome_witness :
  command_outcome (E:=unit) OpBringUp
    (set_interface_created true (StationController_new 0 0 0)) station_device
    (station_run OpBringUp (set_interface_created true (StationController_new 0 0 0), station_device)).
Proof.
  apply (station_command_outcome (E:=unit) OpBringUp
           (set_interface_created true (StationController_new 0 0 0)) station_device).
  reflexivity.
Defined.

(** C27: safety of the controlled port: in every run of the controller, in any
    order of commands and events, the port of a secure connection is open only
    if after the last association the host sent the station authorization and
    after that the firmware confirmed it. *)
Theorem secure_port_authorized {W E} `{BusOps W E} `{DelayOps W} ifaceindex firmware_index wdev_id
    (d : Device W) h s :
  station_reach (E:=E) (StationController_new ifaceindex firmware_index wdev_id, d) h s ->
  controlled_port_open s.1 = true -> sc_secure_connection s.1 = true -> granted h.
Proof.
  intros Hr Ho Hs. assert (port_history h s.1) as [_ Hg].
  { eapply (reach_invariant _ port_history); [|..|exact Hr]; [by split|].
    intros h' op c d' Hc _. by apply port_history_step. }
  apply Hg; [done|]. unfold controlled_port_open in Ho.
  apply andb_true_iff in Ho as [Ho _]. by apply andb_true_iff in Ho as [_ Ho].
Qed.

(** A run that secures the connection: WPA2 association, keys, authorization. *)
Definition sample_secure_request : AssociationRequest :=
  mkAssociationRequest 2412 sample_bssid [110; 101; 116]
    (Some (mkAssociationSecurity [0x000fac04] 0x000fac04 [0x000fac02] MfpMode.Disabled
             [48; 2; 1; 0])) 0 None 0.
Definition to_secured : list station_op :=
  to_authenticating
  ++ [OpControlEvent (ControlEvent.Authentication
                        (sample_mlme 0 sample_bssid (sample_management sample_bssid)));
      OpAssociate sample_secure_request;
      OpControlEvent (ControlEvent.Association
                        (sample_mlme 0 sample_bssid (sample_management sample_bssid)));
      OpAuthorize;
      OpControlEvent (ControlEvent.CommandStatus (sample_header 0)
                        (UmacCommand.to_u32 UmacCommand.SetStation) 0);
      OpDataEvent (DataEvent.CarrierOn 0)].

Example secure_port_authorized_witness :
  exists h, granted h
    /\ station_reach (E:=unit) station_start h (station_runs (E:=unit) to_secured station_start)
    /\ controlled_port_open (station_runs (E:=unit) to_secured station_start).1 = true.
Proof.
  destruct (station_runs_reach (E:=unit) to_secured station_start station_start []
    (reach_start _)) as [h Hh]; [by repeat constructor|].
  assert (controlled_port_open (station_runs (E:=unit) to_secured station_start).1 = true) as Ho
    by (by vm_compute).
  exists h. split; [|by split].
  apply (secure_port_authorized (E:=unit) 0 0 0 station_device h
           (station_runs (E:=unit) to_secured station_start) Hh Ho).
  by vm_compute.
Defined.

(** C29: no pending state can last: in every reachable state with a deadline,
    once the time reported to [advance_time] adds up to the configured timeout,
    in any number of steps, the controller is in the fault state with that
    timeout as its fault and no pending command. *)
Theorem deadline_fires {W E} `{BusOps W E} `{DelayOps W} ifaceindex firmware_index wdev_id
    (d : Device W) h s timeout elapsed :
  station_reach (E:=E) (StationController_new ifaceindex firmware_index wdev_id, d) h s ->
  timeout_for s.1 (sc_state s.1) = Some timeout ->
  Forall (fun ms => 0 <= ms) elapsed -> timeout <= foldr Z.add 0 elapsed ->
  let '(r, c') := for_each elapsed advance_time s.1 in
  r = Err (StationFault.Timeout (sc_state s.1))
  /\ faulted (StationFault.Timeout (sc_state s.1)) c' /\ controlled_port_open c' = false.
Proof.
  intros Hr Ht He Hsum. pose proof (deadline_reach (E:=E) _ _ _ _ _ _ Hr) as Hd.
  unfold deadline_ok in Hd. rewrite Ht in Hd.
  destruct (sc_remaining_ms s.1) as [remaining|] eqn:Hrem; [|done].
  rewrite (advance_fires elapsed remaining) by (done || lia). done.
Qed.

Example deadline_fires_witness :
  let s := station_runs (E:=unit) to_authenticating station_start in
  let '(r, c') := for_each [3000; 2000] advance_time s.1 in
  r = Err (StationFault.Timeout (sc_state s.1))
  /\ faulted (StationFault.Timeout (sc_state s.1)) c' /\ controlled_port_open c' = false.
Proof.
  destruct (station_runs_reach (E:=unit) to_authenticating station_start station_start []
    (reach_start _)) as [h Hh]; [by repeat constructor|].
  apply (deadline_fires (E:=unit) 0 0 0 station_device h
           (station_runs (E:=unit) to_authenticating station_start) 5000 [3000; 2000]).
  - exact Hh.
  - by vm_compute.
  - repeat constructor; lia.
  - by vm_compute.
Defined.

(** C31: control events fail closed: handling any event in any state does not
    panic, and an error is a fault the controller has entered, with no command
    pending, except for an MLME response that reports a timeout or is too short,
    which is refused without any change of state. *)
Theorem control_event_fails_closed {E} event c :
  match handle_control_event (E:=E) event c with
  | (Ok _, _) => True
  | (Err e, c') =>
      exists fault, e = StationError.Fault fault
        /\ (faulted fault c' \/ (refused_silently event c fault /\ c' = c))
  | (Panic, _) => False
  end.
Proof. apply handle_control_event_outcome. Qed.

(** the carrier event skips the checks of the other states.  After an
    association request for an open network, before any association response, a
    carrier event opens the port; and after a fault (here a disassociation from
    another peer) a carrier event leaves the fault state and opens it again. *)
Theorem carrier_event_reopens_port :
  let associating := (station_runs (E:=unit) to_associating station_start).1 in
  let connected := (station_runs (E:=unit) to_connected station_start).1 in
  let '(r, faulty) := handle_control_event (E:=unit)
    (ControlEvent.Disassociation (sample_mlme 0 sample_bssid (sample_management (zeros 6))))
    connected in
  let carrier c := (handle_data_event (E:=unit) (DataEvent.CarrierOn 0) c).2 in
  sc_state associating = StationState.Associating
  /\ controlled_port_open (carrier associating) = true
  /\ r = Err (StationError.Fault StationFault.PeerMismatch)
  /\ faulted StationFault.PeerMismatch faulty
  /\ controlled_port_open (carrier faulty) = true.
Proof. vm_compute. by split_and!. Qed.

(** the result of an MLME response is truncated to 16 bits before it is
    compared with success: a failure code that is a multiple of 65536
    authenticates the station. *)
Theorem mlme_result_truncated {E} event status_offset :
  has (mlme_flags event) MLME_TIMED_OUT = false -> result (mlme_header event) <> 0 ->
  result (mlme_header event) mod 65536 = 0 ->
  mlme_status (E:=E) event status_offset = Ok 0.
Proof.
  intros Ht Hr Hm. unfold mlme_status. rewrite Ht. rewrite (proj2 (Z.eqb_neq _ _) Hr). cbn [negb].
  unfold u16. change (2 ^ 16) with 65536. by rewrite Hm.
Qed.

Example mlme_result_truncated_witness :
  mlme_status (E:=unit) (sample_mlme 65536 sample_bssid (sample_management sample_bssid)) 28 = Ok 0.
Proof.
  apply (mlme_result_truncated (E:=unit)
           (sample_mlme 65536 sample_bssid (sample_management sample_bssid)) 28);
    by vm_compute.
Defined.
