(* ===== verification/Runtime.v ===== *)
(** * Runtime: the whole driver (src/src/runtime.rs)

    [NativeDriver] owns the device, the data path and the station controller.
    It boots the processor, dispatches every firmware event, admits frames
    through the controlled port and decides when everything starts over. *)

From S2P Require Import Prelude Crypto Codec Protocol Control System Bus Memory Device Data Firmware Station.

Definition DEFAULT_WAKE_ATTEMPTS : Z := 1000.
Definition RPU_REG_WATCHDOG_STATUS : Z := 0xa4000004.
Definition RPU_REG_WATCHDOG_CLEAR : Z := 0xa400000c.
Definition RPU_REG_WATCHDOG_TIMER : Z := 0xa400004c.
Definition RPU_WATCHDOG_BIT : Z := bit 1.
Definition RPU_WATCHDOG_RELOAD : Z := 0x00ffffff.
Definition SYSTEM_INIT_MESSAGE_LEN : Z := SYSTEM_INIT_LEN + HOST_MESSAGE_HEADER_LEN.

Module DriverState.
Inductive t : Type := Cold | Recovering | WaitingForSystemInit | Ready | Fault.
#[global] Instance eq_dec : EqDecision t.
Proof. solve_decision. Defined.
End DriverState.

Module DriverEvent.
Inductive t : Type :=
  | System (event : SystemEvent.t)
  | Control (event : ControlEvent.t)
  | Data (event : DataEvent.t)
  | TransmitDone (event : TxDoneEventRef)
  | Receive (event : RxEventRef)
  | Supplicant (bytes : list Z).
End DriverEvent.

Module DriverError.
Inductive t (E : Type) : Type :=
  | Device (e : DeviceError.t E)
  | Data (e : DataError.t E)
  | DataProtocol (e : DataProtocolError.t)
  | Firmware (e : LoadError.t E)
  | Protocol (e : ProtocolError.t)
  | Station (e : StationError.t E)
  | InvalidState (current required : DriverState.t)
  | InvalidStationState (current required : StationState.t)
  | ConfigurationMismatch
  | WrongInterface (expected received : Z)
  | FrameTooShort
  | ControlledPortClosed (state : StationState.t) (ether_type : Z)
  | UnexpectedEventForState (state : DriverState.t)
  | InvalidWatchdogStatus.
Arguments Device {E} e.
Arguments Data {E} e.
Arguments DataProtocol {E} e.
Arguments Firmware {E} e.
Arguments Protocol {E} e.
Arguments Station {E} e.
Arguments InvalidState {E} current required.
Arguments InvalidStationState {E} current required.
Arguments ConfigurationMismatch {E}.
Arguments WrongInterface {E} expected received.
Arguments FrameTooShort {E}.
Arguments ControlledPortClosed {E} state ether_type.
Arguments UnexpectedEventForState {E} state.
Arguments InvalidWatchdogStatus {E}.
End DriverError.

Module RecoveryError.
Inductive t (E P : Type) : Type :=
  | Platform (e : P)
  | Driver (e : DriverError.t E).
Arguments Platform {E P} e.
Arguments Driver {E P} e.
End RecoveryError.

(** The [Platform] trait: the board.  Its actions change the same world the
    bus talks to. *)
Class PlatformOps (W P : Type) : Type := {
  hard_reset : M W P unit;
  prepare_wake_bus : M W P unit;
  prepare_data_bus : M W P unit;
  platform_wait_for_interrupt : M W P unit }.

(** What the driver relies on: a board action returns, and leaves the bus
    usable. *)
Class PlatformLaws (W P E : Type) `{BusLaws W E} `{!PlatformOps W P} : Type := {
  hard_reset_law : triple bus_inv (hard_reset (P:=P)) (fun _ => bus_inv) (fun _ => bus_inv);
  prepare_wake_bus_law :
    triple bus_inv (prepare_wake_bus (P:=P)) (fun _ => bus_inv) (fun _ => bus_inv);
  prepare_data_bus_law :
    triple bus_inv (prepare_data_bus (P:=P)) (fun _ => bus_inv) (fun _ => bus_inv);
  platform_wait_for_interrupt_law :
    triple bus_inv (platform_wait_for_interrupt (P:=P)) (fun _ => bus_inv) (fun _ => bus_inv) }.

(** ** State *)

Record NativeDriver (W : Type) : Type := mkNativeDriver {
  nd_device : Device W;
  nd_data : DataPath;
  nd_station : StationController;
  nd_state : DriverState.t;
  nd_ifaceindex : Z;
  nd_wdev_id : Z;
  nd_configured_mac : option (list Z) }.
Arguments mkNativeDriver {W}.
Arguments nd_device {W} n : rename.
Arguments nd_data {W} n : rename.
Arguments nd_station {W} n : rename.
Arguments nd_state {W} n : rename.
Arguments nd_ifaceindex {W} n : rename.
Arguments nd_wdev_id {W} n : rename.
Arguments nd_configured_mac {W} n : rename.

Section driver_state.
Context {W : Type}.
Implicit Types n : NativeDriver W.

Definition set_device (d : Device W) n : NativeDriver W :=
  mkNativeDriver d (nd_data n) (nd_station n) (nd_state n) (nd_ifaceindex n) (nd_wdev_id n)
    (nd_configured_mac n).
Definition set_data (p : DataPath) n : NativeDriver W :=
  mkNativeDriver (nd_device n) p (nd_station n) (nd_state n) (nd_ifaceindex n) (nd_wdev_id n)
    (nd_configured_mac n).
Definition set_station (c : StationController) n : NativeDriver W :=
  mkNativeDriver (nd_device n) (nd_data n) c (nd_state n) (nd_ifaceindex n) (nd_wdev_id n)
    (nd_configured_mac n).
Definition set_driver_state (s : DriverState.t) n : NativeDriver W :=
  mkNativeDriver (nd_device n) (nd_data n) (nd_station n) s (nd_ifaceindex n) (nd_wdev_id n)
    (nd_configured_mac n).
Definition set_configured_mac (mac : option (list Z)) n : NativeDriver W :=
  mkNativeDriver (nd_device n) (nd_data n) (nd_station n) (nd_state n) (nd_ifaceindex n)
    (nd_wdev_id n) mac.

(** [NativeDriver::new]; [u8::try_from(wdev_id)] first. *)
Definition NativeDriver_new (RX TX : Z) (bus : W) (rx_buffer_size tx_buffer_size ifaceindex
    firmware_index wdev_id : Z) : res DataLayoutError.t (NativeDriver W) :=
  if negb (wdev_id <? 256) then Err DataLayoutError.InvalidCapacity
  else
    data ← DataPath_new RX TX rx_buffer_size tx_buffer_size;
    Ok (mkNativeDriver (Device_new bus) data
          (StationController_new ifaceindex firmware_index wdev_id) DriverState.Cold ifaceindex
          wdev_id None).

Definition enter_recovery n : NativeDriver W :=
  set_driver_state DriverState.Recovering
    (set_configured_mac None (set_station (begin_recovery (nd_station n)) n)).
End driver_state.

(** ** Operations *)

Section driver.
Context {W E P : Type} `{BusOps W E} `{DelayOps W} `{PlatformOps W P} `{Sha256}.
Variables RX TX : Z.
Local Notation "'MN' A" := (M (NativeDriver W) (DriverError.t E) A) (at level 10, A at next level).
Local Notation "'MNB' A" := (M (NativeDriver W * list Z) (DriverError.t E) A)
  (at level 10, A at next level).
Local Notation "'MR' A" := (M (NativeDriver W) (RecoveryError.t E P) A)
  (at level 10, A at next level).

(** Calls on the fields. *)
Definition on_nd_device {F A} (m : M (Device W) F A) : M (NativeDriver W) F A :=
  zoom nd_device set_device m.
(** [self.device.rpu_mut()] *)
Definition on_nd_rpu {F A} (m : M W F A) : M (NativeDriver W) F A :=
  on_nd_device (zoom dev_rpu set_rpu m).
Definition on_nd_data {F A} (m : M (DataPath * Device W) F A) : M (NativeDriver W) F A :=
  zoom (fun n => (nd_data n, nd_device n)) (fun pd n => set_device pd.2 (set_data pd.1 n)) m.
Definition on_nd_station {F A} (m : M (StationController * Device W) F A) : M (NativeDriver W) F A :=
  zoom (fun n => (nd_station n, nd_device n)) (fun cd n => set_device cd.2 (set_station cd.1 n)) m.

Definition require_state (required : DriverState.t) : MN unit :=
  current ← gets nd_state;
  if bool_decide (current = required) then mret tt
  else throw (DriverError.InvalidState current required).

(** *** Recovery *)

Definition validate_system_config (config : SystemInitConfig) (n : NativeDriver W)
    : res (DriverError.t E) unit :=
  let mac := cfg_mac_address config in
  mac0 ← index mac 0;
  let mac_is_valid :=
    negb (bool_decide (mac = zeros 6)) && negb (bool_decide (mac = replicate 6 0xff))
    && (Z.land mac0 1 =? 0) in
  pool0 ← expect (nthZ (cfg_rx_pools config) 0);
  let extra_pools_are_empty :=
    forallb (fun pool => Z.lor (buffer_size pool) (buffer_count pool) =? 0)
      (drop 1 (cfg_rx_pools config)) in
  if (cfg_wdev_id config =? nd_wdev_id n) && mac_is_valid
     && (buffer_size pool0 =? dp_rx_buffer_size (nd_data n)) && (buffer_count pool0 =? RX)
     && extra_pools_are_empty
  then Ok tt else Err DriverError.ConfigurationMismatch.

(** [encode_system_init] into a message buffer on the stack. *)
Definition system_init_message (config : SystemInitConfig) : res (DriverError.t E) (list Z) :=
  match encode_system_init config (zeros SYSTEM_INIT_MESSAGE_LEN) with
  | (Ok count, message) => expect (slice message 0 count)
  | (Err e, _) => Err (DriverError.Protocol e)
  | (Panic, _) => Panic
  end.

(** [recovery_step!] on a driver step and on a platform step. *)
Definition driver_step {F A} (f : F -> DriverError.t E) (m : M (NativeDriver W) F A) : MR A :=
  mapM_err (fun e => RecoveryError.Driver (f e)) m.
Definition platform_step (m : M W P unit) : MR unit :=
  mapM_err RecoveryError.Platform (on_nd_rpu m).
Definition rpu_error (e : RpuError.t E) : DriverError.t E := DriverError.Device (DeviceError.Rpu e).

(** The [async] block of [recover], after the check of the configuration. *)
Definition recover_boot (trust : FirmwareBundle -> res FirmwareError.t unit)
    (bundle : FirmwareBundle) (config : SystemInitConfig) : MR FirmwareReport :=
  _ ← attempt (on_nd_device (disable_interrupts (E:=E)));
  platform_step hard_reset;;
  modify (fun n => set_device (reset_queue_state (nd_device n)) n);;
  modify (fun n => set_data (reset_after_rpu_reset RX TX (nd_data n)) n);;
  platform_step prepare_wake_bus;;
  driver_step rpu_error (on_nd_rpu (wake DEFAULT_WAKE_ATTEMPTS));;
  platform_step prepare_data_bus;;
  driver_step rpu_error (on_nd_rpu enable_clocks);;
  report ← driver_step DriverError.Firmware (on_nd_rpu (load trust bundle));
  driver_step DriverError.Device (on_nd_device initialize_queues);;
  driver_step DriverError.Data (on_nd_data (post_all_rx RX));;
  driver_step DriverError.Device (on_nd_device enable_interrupts);;
  message ← driver_step id (lift (system_init_message config));
  driver_step DriverError.Device (on_nd_device (send_control_reliable message));;
  mret report.

Definition recover_steps (trust : FirmwareBundle -> res FirmwareError.t unit)
    (bundle : FirmwareBundle) (config : SystemInitConfig) : MR FirmwareReport :=
  n ← get;
  driver_step id (lift (validate_system_config config n));;
  recover_boot trust bundle config.

Definition recover (trust : FirmwareBundle -> res FirmwareError.t unit) (bundle : FirmwareBundle)
    (config : SystemInitConfig) : MR FirmwareReport :=
  modify (set_driver_state DriverState.Recovering);;
  modify (fun n => set_station (begin_recovery (nd_station n)) n);;
  modify (set_configured_mac None);;
  result ← attempt (recover_steps trust bundle config);
  match result with
  | inl report =>
      modify (set_configured_mac (Some (cfg_mac_address config)));;
      modify (set_driver_state DriverState.WaitingForSystemInit);;
      mret report
  | inr error =>
      modify (set_driver_state DriverState.Fault);;
      throw error
  end.

(** *** Station commands *)

(** The macro [run_native_station_command!]. *)
Definition run_native_station_command (m : M (StationController * Device W) (StationError.t E) unit)
    : MN unit :=
  require_state DriverState.Ready;;
  mapM_err DriverError.Station (on_nd_station m).

Definition create_station_interface (ifaceindex : Z) (mac_address interface_name : list Z) : MN unit :=
  require_state DriverState.Ready;;
  n ← get;
  if negb (ifaceindex =? nd_ifaceindex n)
     || negb (bool_decide (nd_configured_mac n = Some mac_address))
  then throw DriverError.ConfigurationMismatch
  else run_native_station_command (create_interface mac_address interface_name).

Definition driver_set_regulatory (country : list Z) (user_hint_type : Z) (force : bool) : MN unit :=
  run_native_station_command (set_regulatory country user_hint_type force).
Definition driver_bring_up : MN unit := run_native_station_command bring_up.
Definition driver_bring_down : MN unit := run_native_station_command bring_down.
Definition driver_start_scan (request : ScanRequest) : MN unit :=
  run_native_station_command (station_start_scan request).
Definition driver_request_scan_results (reason : ScanReason.t) : MN unit :=
  run_native_station_command (request_scan_results reason).
Definition driver_authenticate (request : AuthenticationRequest) : MN unit :=
  run_native_station_command (authenticate request).
Definition driver_associate (request : AssociationRequest) : MN unit :=
  run_native_station_command (associate request).
Definition driver_set_power_save (state : PowerSaveState.t) : MN unit :=
  run_native_station_command (set_power_save state).
Definition driver_set_power_save_timeout (timeout_ms : Z) : MN unit :=
  run_native_station_command (set_power_save_timeout timeout_ms).
Definition driver_disconnect (reason_code : Z) : MN unit :=
  run_native_station_command (disconnect reason_code).

Definition wait_for_interrupt : MR unit := platform_step platform_wait_for_interrupt.

(** *** Time and events *)

Definition driver_advance_time (elapsed_ms : Z) : MN unit :=
  result ← attempt (zoom nd_station set_station (advance_time elapsed_ms));
  match result with
  | inl _ => mret tt
  | inr fault =>
      modify enter_recovery;;
      throw (DriverError.Station (StationError.Fault fault))
  end.

Definition dispatch_system_message (message : HostMessageRef) : MN DriverEvent.t :=
  event ← lift (map_err DriverError.Protocol (parse_system_event message));
  state ← gets nd_state;
  match event with
  | SystemEvent.InitDone =>
      if bool_decide (state = DriverState.WaitingForSystemInit) then
        modify (fun n => set_station (recovery_complete (nd_station n)) n);;
        modify (set_driver_state DriverState.Ready);;
        mret (DriverEvent.System event)
      else
        modify enter_recovery;;
        throw (DriverError.UnexpectedEventForState state)
  | SystemEvent.DeinitDone =>
      modify enter_recovery;;
      throw (DriverError.UnexpectedEventForState state)
  | _ => mret (DriverEvent.System event)
  end.

(** [if let Err(error) = self.station.m(..)] *)
Definition station_handler (m : M StationController (StationError.t E) unit) (event : DriverEvent.t)
    : MN DriverEvent.t :=
  result ← attempt (zoom nd_station set_station m);
  match result with
  | inl _ => mret event
  | inr error => modify enter_recovery;; throw (DriverError.Station error)
  end.

Definition dispatch_control_message (message : HostMessageRef) : MN DriverEvent.t :=
  require_state DriverState.Ready;;
  event ← lift (map_err DriverError.Protocol (parse_control_event message));
  station_handler (handle_control_event event) (DriverEvent.Control event).

Definition dispatch_station_data (event : DataEvent.t) : MN DriverEvent.t :=
  station_handler (handle_data_event event) (DriverEvent.Data event).

Definition dispatch_transmit_done (message : HostMessageRef) : MN DriverEvent.t :=
  event ← lift (map_err DriverError.DataProtocol (TxDoneEventRef_parse message));
  mapM_err DriverError.DataProtocol (zoom nd_data set_data (complete_tx TX (td_token event)));;
  mret (DriverEvent.TransmitDone event).

Definition dispatch_receive (message : HostMessageRef) : MN DriverEvent.t :=
  event ← lift (map_err DriverError.DataProtocol (RxEventRef_parse message));
  mret (DriverEvent.Receive event).

Definition dispatch_data_message (message : HostMessageRef) : MN DriverEvent.t :=
  require_state DriverState.Ready;;
  event ← lift (map_err DriverError.DataProtocol (classify_data_event message));
  match event with
  | DataEvent.TransmitDone _ _ => dispatch_transmit_done message
  | DataEvent.Receive => dispatch_receive message
  | _ => dispatch_station_data event
  end.

Definition dispatch_supplicant_message (message : HostMessageRef) : MN DriverEvent.t :=
  require_state DriverState.Ready;;
  mret (DriverEvent.Supplicant (payload message)).

Definition dispatch_message (message : HostMessageRef) : MN DriverEvent.t :=
  match message_type message with
  | HostMessageType.System => dispatch_system_message message
  | HostMessageType.Umac => dispatch_control_message message
  | HostMessageType.Data => dispatch_data_message message
  | HostMessageType.Supplicant => dispatch_supplicant_message message
  end.

(** [self.device.try_read_event(scratch)]; [scratch_ptr] is the address of the
    buffer. *)
Definition read_event (scratch_ptr : Z) : MNB (option HostMessageRef) := fun '(n, l) =>
  let '(r, (d, l')) := try_read_event scratch_ptr (nd_device n, l) in
  (map_err DriverError.Device r, (set_device d n, l')).

Definition poll_event (scratch_ptr : Z) : MNB (option DriverEvent.t) :=
  n ← gets fst;
  if dev_recovery_required (nd_device n) then
    on_fst (modify enter_recovery);;
    throw (DriverError.Device DeviceError.RecoveryRequired)
  else
    message ← read_event scratch_ptr;
    match message with
    | None => mret None
    | Some message =>
        event ← on_fst (dispatch_message message);
        mret (Some event)
    end.

(** *** Frames *)

Definition ethernet_type (frame : list Z) : option (res (DriverError.t E) Z) :=
  if len frame <? ETHERNET_HEADER_LEN then None
  else Some (b12 ← index frame 12; b13 ← index frame 13; Ok (from_be [b12; b13])).

Definition port_allows (ether_type : Z) (c : StationController) : bool :=
  if ether_type =? EAPOL_ETHERTYPE then eapol_required c else controlled_port_open c.

Definition require_controlled_port (ether_type : Z) : MN unit :=
  c ← gets nd_station;
  let state := sc_state c in
  if port_allows ether_type c then mret tt
  else throw (DriverError.ControlledPortClosed state ether_type).

Definition validate_received_frame (event : RxEventRef) (frame : ReceivedFrame) : MN ReceivedFrame :=
  n ← get;
  if negb (rx_wdev_id event =? nd_wdev_id n) then
    let received := rx_wdev_id event in
    modify enter_recovery;;
    throw (DriverError.WrongInterface (nd_wdev_id n) received)
  else
    require_controlled_port (rf_ether_type frame);;
    mret frame.

Definition driver_receive_packet (event : RxEventRef) (packet_index : Z) : MNB ReceivedFrame :=
  frame ← (fun '(n, output) =>
    let '(r, ((p, d), output')) :=
      receive_packet RX event packet_index ((nd_data n, nd_device n), output) in
    (map_err DriverError.Data r, (set_device d (set_data p n), output')));
  on_fst (validate_received_frame event frame).

Definition driver_transmit (wdev_id : Z) (frame : list Z) (dscp_tos : Z) : MN Z :=
  n ← get;
  if negb (wdev_id =? nd_wdev_id n)
  then throw (DriverError.WrongInterface (nd_wdev_id n) wdev_id)
  else
    t ← lift (ok_or (ethernet_type frame) DriverError.FrameTooShort);
    ether_type ← lift t;
    require_controlled_port ether_type;;
    mapM_err DriverError.Data (on_nd_data (transmit TX wdev_id frame dscp_tos)).

Definition transmit_frame (frame : list Z) (dscp_tos : Z) : MN Z :=
  n ← get;
  driver_transmit (nd_wdev_id n) frame dscp_tos.

(** *** Watchdog *)

Definition watchdog_read : MN Z :=
  mapM_err rpu_error (on_nd_rpu (read_register RPU_REG_WATCHDOG_STATUS)).

Definition watchdog_pending : MN bool :=
  o ← loop 10 (
    value ← watchdog_read;
    if negb (value =? 0xaaaaaaaa)
    then mret (Some (negb (Z.land value RPU_WATCHDOG_BIT =? 0)))
    else mret None);
  match o with
  | Some pending => mret pending
  | None =>
      modify (set_driver_state DriverState.Fault);;
      throw DriverError.InvalidWatchdogStatus
  end.

Definition acknowledge_watchdog : MN unit :=
  mapM_err rpu_error (on_nd_rpu (write_register RPU_REG_WATCHDOG_CLEAR RPU_WATCHDOG_BIT));;
  mapM_err rpu_error (on_nd_rpu (write_register RPU_REG_WATCHDOG_TIMER RPU_WATCHDOG_RELOAD));;
  modify enter_recovery.
End driver.

(** ** Steps

    What the code above the driver can ask of it, in any order: the public
    operations, and the crate's own uses of the station (the security commands
    of wpa2_runtime.rs and the timeouts of production.rs). *)

Definition security_op (op : station_op) : bool :=
  match op with
  | OpKeyCommand _ _ | OpSetKey _ | OpAuthorize | OpCompleteGroupRekey | OpSetTimeouts _ => true
  | _ => false
  end.

Inductive driver_op : Type :=
  | DrvRecover (trust : FirmwareBundle -> res FirmwareError.t unit) (bundle : FirmwareBundle)
      (config : SystemInitConfig)
  | DrvCreateInterface (ifaceindex : Z) (mac_address interface_name : list Z)
  | DrvSetRegulatory (country : list Z) (user_hint_type : Z) (force : bool)
  | DrvBringUp
  | DrvBringDown
  | DrvStartScan (request : ScanRequest)
  | DrvRequestScanResults (reason : ScanReason.t)
  | DrvAuthenticate (request : AuthenticationRequest)
  | DrvAssociate (request : AssociationRequest)
  | DrvSetPowerSave (state : PowerSaveState.t)
  | DrvSetPowerSaveTimeout (timeout_ms : Z)
  | DrvDisconnect (reason_code : Z)
  | DrvWaitForInterrupt
  | DrvSecurity (op : station_op)
  | DrvAdvanceTime (elapsed_ms : Z)
  | DrvPollEvent (scratch_ptr : Z) (scratch : list Z)
  | DrvDispatch (message : HostMessageRef)
  | DrvReceive (event : RxEventRef) (packet_index : Z) (output : list Z)
  | DrvTransmit (wdev_id : Z) (frame : list Z) (dscp_tos : Z)
  | DrvWatchdogPending
  | DrvAcknowledgeWatchdog
  | DrvEnterRecovery.

Section runs.
Context {W E P : Type} `{BusOps W E} `{DelayOps W} `{PlatformOps W P} `{Sha256}.
Variables RX TX : Z.

(** Did it succeed, and the driver afterwards. *)
Definition ran {S F A} (m : M S F A) (s : S) : bool * S :=
  let '(r, s') := m s in (succeeded r, s').
(** With a buffer of the caller's. *)
Definition ran_with {S F A} (m : M (S * list Z) F A) (l : list Z) (s : S) : bool * S :=
  let '(r, (s', _)) := m (s, l) in (succeeded r, s').

Definition driver_run (op : driver_op) (n : NativeDriver W) : bool * NativeDriver W :=
  match op with
  | DrvRecover trust bundle config => ran (recover (E:=E) (P:=P) RX TX trust bundle config) n
  | DrvCreateInterface ifaceindex mac_address interface_name =>
      ran (create_station_interface (E:=E) ifaceindex mac_address interface_name) n
  | DrvSetRegulatory country user_hint_type force =>
      ran (driver_set_regulatory (E:=E) country user_hint_type force) n
  | DrvBringUp => ran (driver_bring_up (E:=E)) n
  | DrvBringDown => ran (driver_bring_down (E:=E)) n
  | DrvStartScan request => ran (driver_start_scan (E:=E) request) n
  | DrvRequestScanResults reason => ran (driver_request_scan_results (E:=E) reason) n
  | DrvAuthenticate request => ran (driver_authenticate (E:=E) request) n
  | DrvAssociate request => ran (driver_associate (E:=E) request) n
  | DrvSetPowerSave state => ran (driver_set_power_save (E:=E) state) n
  | DrvSetPowerSaveTimeout timeout_ms => ran (driver_set_power_save_timeout (E:=E) timeout_ms) n
  | DrvDisconnect reason_code => ran (driver_disconnect (E:=E) reason_code) n
  | DrvWaitForInterrupt => ran (wait_for_interrupt (E:=E) (P:=P)) n
  | DrvSecurity op =>
      if security_op op then ran (on_nd_station (station_run (E:=E) op)) n else (false, n)
  | DrvAdvanceTime elapsed_ms => ran (driver_advance_time (E:=E) elapsed_ms) n
  | DrvPollEvent scratch_ptr scratch => ran_with (poll_event (E:=E) TX scratch_ptr) scratch n
  | DrvDispatch message => ran (dispatch_message (E:=E) TX message) n
  | DrvReceive event packet_index output =>
      ran_with (driver_receive_packet (E:=E) RX event packet_index) output n
  | DrvTransmit wdev_id frame dscp_tos => ran (driver_transmit (E:=E) TX wdev_id frame dscp_tos) n
  | DrvWatchdogPending => ran (watchdog_pending (E:=E)) n
  | DrvAcknowledgeWatchdog => ran (acknowledge_watchdog (E:=E)) n
  | DrvEnterRecovery => (true, enter_recovery n)
  end.

(** The runs of a new driver, with the success of each step. *)
Inductive driver_reach (n0 : NativeDriver W) : list (driver_op * bool) -> NativeDriver W -> Prop :=
  | driver_start : driver_reach n0 [] n0
  | driver_next h n op b n' :
      driver_reach n0 h n -> driver_run op n = (b, n') -> driver_reach n0 (h ++ [(op, b)]) n'.
End runs.

(** * Lemmas *)

(** ** What an operation leaves alone *)

(** A pending connection, or one with an open port. *)
Definition no_connection (c : StationController) : Prop :=
  sc_secure_connection c = false /\ sc_controlled_port_authorized c = false.

Section frame.
Context {W : Type}.
Implicit Types n : NativeDriver W.

(** [n'] has the control state of [n]. *)
Definition same_control n n' : Prop :=
  nd_station n' = nd_station n /\ nd_state n' = nd_state n /\ nd_wdev_id n' = nd_wdev_id n
  /\ nd_ifaceindex n' = nd_ifaceindex n /\ nd_configured_mac n' = nd_configured_mac n.

#[export] Instance same_control_preorder : PreOrder same_control.
Proof.
  split; [by intros n|]. intros n1 n2 n3 (?&?&?&?&?) (?&?&?&?&?). unfold same_control.
  repeat split; congruence.
Qed.

(** Outside [Ready] there is no connection. *)
Definition shut n : Prop := nd_state n = DriverState.Ready \/ no_connection (nd_station n).
Definition stays_shut n n' : Prop := shut n -> shut n'.

#[export] Instance stays_shut_preorder : PreOrder stays_shut.
Proof. split; unfold stays_shut; [by intros n|]. auto. Qed.

Lemma same_control_shut n n' : same_control n n' -> stays_shut n n'.
Proof. intros (Hc & Hs & _). unfold stays_shut, shut. by rewrite Hc, Hs. Qed.

Lemma keeps_control_shut {E A} (m : M (NativeDriver W) E A) :
  keeps same_control m -> keeps stays_shut m.
Proof. intros Hm n. apply same_control_shut, Hm. Qed.

Lemma enter_recovery_shut n : shut (enter_recovery n).
Proof. by right. Qed.

Lemma keeps_enter_recovery {E} : keeps stays_shut (modify (E:=E) enter_recovery).
Proof. apply keeps_modify. intros n _. apply enter_recovery_shut. Qed.

Lemma keeps_on_device {E A} (m : M (Device W) E A) : keeps same_control (on_nd_device m).
Proof. apply keeps_zoom. intros n. by split. Qed.

Lemma keeps_on_rpu {E A} (m : M W E A) : keeps same_control (on_nd_rpu m).
Proof. apply keeps_on_device. Qed.

Lemma keeps_on_data {E A} (m : M (DataPath * Device W) E A) : keeps same_control (on_nd_data m).
Proof. apply keeps_zoom. intros n. by split. Qed.
End frame.

#[export] Hint Resolve keeps_on_device keeps_on_rpu keeps_on_data : keeps.

(** ** Outside [Ready] there is no connection *)

(** The security commands do not grant anything. *)
Lemma security_no_connection {W E} `{BusOps W E} `{DelayOps W} op c (d : Device W) :
  security_op op = true -> no_connection c ->
  no_connection (station_run (E:=E) op (c, d)).2.1.
Proof.
  intros Hop Hc. destruct (is_command op) eqn:Hcmd.
  - pose proof (command_cases (E:=E) op c d Hcmd) as Hs.
    destruct (station_run op (c, d)) as [r [c' d']]. cbn [fst snd].
    destruct Hs as [(m & b & _ & _ & _ & ->)|[(_ & _ & (?&?& ->) & _)|[(_ & b & ->)|(_ & ->)]]];
      [|done|exact Hc|exact Hc].
    by destruct op.
  - destruct op; try done. cbn. unfold complete_group_rekey. destruct Hc as [Hc1 Hc2].
    by rewrite Hc1.
Qed.

Section shut.
Context {W E P : Type} `{BusOps W E} `{DelayOps W} `{PlatformOps W P} `{Sha256}.
Variables RX TX : Z.

Lemma keeps_command (m : M (StationController * Device W) (StationError.t E) unit) :
  keeps stays_shut (run_native_station_command m).
Proof.
  intros n Hn. unfold run_native_station_command, require_state, on_nd_station. munfold. cbn [fst snd].
  case_bool_decide as Hr; [|exact Hn]. left.
  by destruct (m (nd_station n, nd_device n)) as [r [c d]].
Qed.

Lemma keeps_create_interface ifaceindex mac name :
  keeps stays_shut (create_station_interface (W:=W) (E:=E) ifaceindex mac name).
Proof.
  unfold create_station_interface. apply (keeps_bind _); [|intros _].
  { intros n Hn. unfold require_state. munfold. by case_bool_decide. }
  apply (keeps_bind _); [apply (keeps_get _)|intros n].
  apply keeps_if; [apply (keeps_throw _)|apply keeps_command].
Qed.

Lemma keeps_security op :
  security_op op = true -> keeps stays_shut (on_nd_station (station_run (W:=W) (E:=E) op)).
Proof.
  intros Hop. apply keeps_zoom. intros n [Hr|Hn]; [by left|right].
  by apply security_no_connection.
Qed.

Lemma keeps_advance elapsed : keeps stays_shut (driver_advance_time (W:=W) (E:=E) elapsed).
Proof.
  unfold driver_advance_time. apply (keeps_bind _).
  - apply keeps_attempt, keeps_zoom. intros n [Hr|Hn]; [by left|right].
    unfold advance_time. munfold. cbn [set_station nd_station].
    destruct (sc_remaining_ms (nd_station n)); [|exact Hn]. by destruct (_ <? _).
  - intros [u|f]; [apply (keeps_ret _)|].
    apply (keeps_bind _); [apply keeps_enter_recovery|intros _].
    apply (keeps_throw _).
Qed.

Lemma keeps_dispatch message : keeps stays_shut (dispatch_message (W:=W) (E:=E) TX message).
Proof.
  assert (forall (k : M (NativeDriver W) (DriverError.t E) DriverEvent.t),
    (forall n, nd_state n = DriverState.Ready -> shut (k n).2) ->
    keeps stays_shut (require_state DriverState.Ready;; k)) as Hready.
  { intros k Hk n Hn. unfold require_state. munfold. case_bool_decide; [by apply Hk|exact Hn]. }
  assert (forall (m : M StationController (StationError.t E) unit) ev n,
    nd_state n = DriverState.Ready -> shut (W:=W) (station_handler m ev n).2) as Hhandler.
  { intros m ev n Hn. unfold station_handler. munfold.
    destruct (m (nd_station n)) as [[u|e|] c]; [by left|apply enter_recovery_shut|by left]. }
  unfold dispatch_message. destruct (message_type message).
  - unfold dispatch_system_message. apply (keeps_bind _); [|intros ev].
    { apply (keeps_lift _). }
    intros n Hn. munfold. destruct ev; try exact Hn; [|apply enter_recovery_shut].
    case_bool_decide; [by left|apply enter_recovery_shut].
  - apply Hready. intros n Hn. by left.
  - apply Hready. intros n Hn. unfold dispatch_data_message. munfold.
    destruct (classify_data_event message) as [ev|e|]; [|by left..].
    destruct ev; try (by apply Hhandler); cbn [map_err].
    + unfold dispatch_transmit_done. munfold.
      destruct (TxDoneEventRef_parse message) as [e|e|]; [|by left..]. cbn [map_err].
      by destruct (complete_tx TX (td_token e) (nd_data n)) as [[u|e'|] p]; left.
    + unfold dispatch_receive. munfold. by destruct (RxEventRef_parse message) as [e|e|]; left.
  - apply Hready. intros n Hn. unfold dispatch_control_message. munfold.
    destruct (parse_control_event message) as [ev|e|]; [|by left..]. by apply Hhandler.
Qed.

Lemma poll_shut ptr n l : shut n -> shut (poll_event (W:=W) (E:=E) TX ptr (n, l)).2.1.
Proof.
  intros Hn. unfold poll_event, read_event. munfold. cbn [fst snd].
  destruct (dev_recovery_required (nd_device n)); [apply enter_recovery_shut|].
  destruct (try_read_event ptr (nd_device n, l)) as [[[message|]|e|] [d l']]; cbn [map_err]; try exact Hn.
  pose proof (keeps_dispatch message (set_device d n) Hn) as Hd. unfold on_fst.
  by destruct (dispatch_message TX message (set_device d n)) as [[ev|e|] n'].
Qed.

Lemma receive_shut event i n output :
  shut n -> shut (driver_receive_packet (W:=W) (E:=E) RX event i (n, output)).2.1.
Proof.
  intros Hn. unfold driver_receive_packet. munfold. cbn [fst snd].
  destruct (receive_packet RX event i _) as [[f|e|] [[p d] output']]; cbn [map_err]; try exact Hn.
  unfold on_fst, validate_received_frame, require_controlled_port. munfold. cbn [nd_wdev_id set_device set_data].
  destruct (negb _); [apply enter_recovery_shut|].
  by destruct (port_allows _ _).
Qed.

Lemma keeps_transmit wdev_id frame dscp_tos :
  keeps same_control (driver_transmit (W:=W) (E:=E) TX wdev_id frame dscp_tos).
Proof.
  unfold driver_transmit. apply (keeps_bind _); [apply (keeps_get _)|intros n].
  apply keeps_if; [apply (keeps_throw _)|].
  apply (keeps_bind _); [apply (keeps_lift _)|intros t].
  apply (keeps_bind _); [apply (keeps_lift _)|intros ether_type].
  apply (keeps_bind _); [|intros _; by apply keeps_mapM_err, keeps_on_data].
  unfold require_controlled_port. apply (keeps_bind _); [apply (keeps_gets _)|intros c].
  apply keeps_if; [apply (keeps_ret _)|apply (keeps_throw _)].
Qed.

(** The reads of the watchdog status. *)
Lemma watchdog_shut n :
  match watchdog_pending (W:=W) (E:=E) n with
  | (Ok _, n') => same_control n n'
  | (_, n') => True
  end.
Proof.
  unfold watchdog_pending. set (body := (value ← watchdog_read; _)).
  assert (keeps same_control body) as Hb.
  { unfold body. apply (keeps_bind _).
    - apply keeps_mapM_err, keeps_on_rpu.
    - intros v. apply keeps_if; apply (keeps_ret _). }
  assert (keeps same_control (loop 10 body)) as Hl.
  { generalize 10%nat as k. induction k as [|k IH]; cbn [loop]; [apply (keeps_ret _)|].
    apply (keeps_bind _); [exact Hb|]. intros [b|]; [apply (keeps_ret _)|exact IH]. }
  specialize (Hl n). unfold mbind, M_bind, mret, M_ret.
  by destruct (loop 10 body n) as [[[b|]|e|] n'].
Qed.

Lemma acknowledge_shut : keeps stays_shut (acknowledge_watchdog (W:=W) (E:=E)).
Proof.
  unfold acknowledge_watchdog.
  apply (keeps_bind _); [apply keeps_control_shut, keeps_mapM_err, keeps_on_rpu|intros _].
  apply (keeps_bind _); [apply keeps_control_shut, keeps_mapM_err, keeps_on_rpu|intros _].
  apply keeps_enter_recovery.
Qed.

(** The start of a recovery. *)
Definition recovering (n : NativeDriver W) : NativeDriver W :=
  set_configured_mac None
    (set_station (begin_recovery (nd_station n)) (set_driver_state DriverState.Recovering n)).

Lemma keeps_recover_steps trust bundle config :
  keeps same_control (recover_steps (W:=W) (E:=E) (P:=P) RX TX trust bundle config).
Proof.
  assert (forall F A (f : F -> DriverError.t E) (m : M (NativeDriver W) F A),
    keeps same_control m -> keeps same_control (driver_step (P:=P) f m)) as Hd
    by (intros; by apply keeps_mapM_err).
  assert (forall m : M W P unit, keeps same_control (platform_step (E:=E) m)) as Hp
    by (intros; apply keeps_mapM_err, keeps_on_rpu).
  unfold recover_steps, recover_boot. apply (keeps_bind _); [apply (keeps_get _)|intros n].
  repeat (apply (keeps_bind _); [first
    [apply Hp | apply Hd, (keeps_lift _) | apply Hd, keeps_on_rpu | apply Hd, keeps_on_device
    | apply Hd, keeps_on_data | apply keeps_attempt, keeps_on_device
    | apply keeps_modify; intros ?; by split]|intros ?]).
  apply (keeps_ret _).
Qed.

(** A recovery keeps the station in recovery, and ends before [Ready]. *)
Lemma recover_control trust bundle config n :
  let '(r, n') := recover (W:=W) (E:=E) (P:=P) RX TX trust bundle config n in
  nd_station n' = begin_recovery (nd_station n)
  /\ nd_wdev_id n' = nd_wdev_id n /\ nd_ifaceindex n' = nd_ifaceindex n
  /\ match r with
     | Ok _ => nd_state n' = DriverState.WaitingForSystemInit
               /\ nd_configured_mac n' = Some (cfg_mac_address config)
     | Err _ => nd_state n' = DriverState.Fault /\ nd_configured_mac n' = None
     | Panic => True
     end.
Proof.
  pose proof (keeps_recover_steps trust bundle config (recovering n)) as Hk.
  unfold recover. munfold. change (set_configured_mac None _) with (recovering n).
  destruct (recover_steps RX TX trust bundle config (recovering n)) as [[r|e|] n'];
    cbn [fst snd] in Hk; destruct Hk as (Hc & Hs & Hw & Hi & Hm);
    (split; [exact Hc|]; split; [exact Hw|]; split; [exact Hi|]); by split.
Qed.
End shut.

(** ** Runs *)

Section run_invariant.
Context {W E P : Type} `{BusOps W E} `{DelayOps W} `{PlatformOps W P} `{Sha256}.
Variables RX TX : Z.

(** No watchdog check of the history failed. *)
Definition watchdog_ok (h : list (driver_op * bool)) : Prop :=
  ~ In (DrvWatchdogPending, false) h.

Lemma driver_step_shut op n :
  shut n ->
  let '(b, n') := driver_run (E:=E) (P:=P) RX TX op n in
  (op = DrvWatchdogPending -> b = true) -> shut n'.
Proof.
  assert (forall F A (m : M (NativeDriver W) F A) op n, keeps stays_shut m -> shut n ->
    let '(b, n') := ran m n in (op = DrvWatchdogPending -> b = true) -> shut n') as Hran.
  { intros F A m o s Hm Hs. specialize (Hm s Hs). unfold ran. destruct (m s). auto. }
  assert (forall F A (m : M (NativeDriver W * list Z) F A) l op n, shut (m (n, l)).2.1 ->
    let '(b, n') := ran_with m l n in (op = DrvWatchdogPending -> b = true) -> shut n') as Hwith.
  { intros F A m l o s Hm. unfold ran_with. destruct (m (s, l)) as [r [s' l']]. auto. }
  intros Hn. destruct op; cbn [driver_run];
    lazymatch goal with
    | |- context [watchdog_pending] => idtac
    | _ => try (apply Hran; [|exact Hn])
    end.
  all: try apply keeps_command; try apply keeps_create_interface; try apply keeps_advance;
    try apply keeps_dispatch; try apply acknowledge_shut;
    try (apply keeps_control_shut, keeps_transmit).
  - intros s _. pose proof (recover_control (E:=E) (P:=P) RX TX trust bundle config s) as Hr.
    destruct (recover RX TX trust bundle config s) as [r s']. destruct Hr as (Hc & _).
    right. cbn [snd]. by rewrite Hc.
  - apply keeps_control_shut, keeps_mapM_err, keeps_on_rpu.
  - destruct (security_op op) eqn:Hop; [|by intros ?].
    apply (Hran _ _ _ (DrvSecurity op)); [by apply keeps_security|exact Hn].
  - by apply Hwith, poll_shut.
  - by apply Hwith, receive_shut.
  - pose proof (watchdog_shut (E:=E) n) as Hw. unfold ran.
    destruct (watchdog_pending n) as [[b|e|] n'].
    + intros ?. by apply (same_control_shut n).
    + intros Hb. by specialize (Hb eq_refl).
    + intros Hb. by specialize (Hb eq_refl).
  - intros ?. apply enter_recovery_shut.
Qed.

Lemma run_shut bus rx tx ifaceindex firmware_index wdev_id n0 h n :
  NativeDriver_new (W:=W) RX TX bus rx tx ifaceindex firmware_index wdev_id = Ok n0 ->
  driver_reach (E:=E) (P:=P) RX TX n0 h n -> watchdog_ok h -> shut n.
Proof.
  intros Hnew. assert (shut n0) as H0'.
  { unfold NativeDriver_new in Hnew. destruct (negb _); [done|].
    destruct (DataPath_new RX TX rx tx) as [p|e|]; [|done..]. injection Hnew as <-. by right. }
  induction 1 as [|h n op b n' _ IH Hrun]; intros Hw; [done|].
  pose proof (driver_step_shut op n) as Hs. rewrite Hrun in Hs. apply Hs.
  - apply IH. intros Hin. apply Hw. apply in_or_app. by left.
  - intros ->. destruct b; [done|]. destruct Hw. apply in_or_app. right. by left.
Qed.
End run_invariant.

(** ** Dispatch *)

Section dispatch.
Context {W E : Type}.
Implicit Types n : NativeDriver W.

(** The driver has started over: everything about the connection is gone, the
    device and the packet memory are as they were. *)
Definition restarted n n' : Prop :=
  nd_state n' = DriverState.Recovering /\ sc_state (nd_station n') = StationState.Recovering
  /\ no_connection (nd_station n') /\ sc_interface_created (nd_station n') = false
  /\ nd_configured_mac n' = None /\ nd_device n' = nd_device n /\ nd_data n' = nd_data n.

Definition restart_error (e : DriverError.t E) : bool :=
  match e with DriverError.Station _ | DriverError.UnexpectedEventForState _ => true | _ => false end.

(** What a dispatched event says of the message and does to the driver. *)
Definition dispatched (message : HostMessageRef) n (event : DriverEvent.t) n' : Prop :=
  match event with
  | DriverEvent.System e =>
      parse_system_event message = Ok e /\ e <> SystemEvent.DeinitDone
      /\ if bool_decide (e = SystemEvent.InitDone)
         then nd_state n = DriverState.WaitingForSystemInit
              /\ n' = set_driver_state DriverState.Ready
                        (set_station (recovery_complete (nd_station n)) n)
         else n' = n
  | DriverEvent.Control e =>
      nd_state n = DriverState.Ready /\ parse_control_event message = Ok e
      /\ exists c, handle_control_event (E:=E) e (nd_station n) = (Ok tt, c) /\ n' = set_station c n
  | DriverEvent.Data e =>
      nd_state n = DriverState.Ready /\ classify_data_event message = Ok e
      /\ exists c, handle_data_event (E:=E) e (nd_station n) = (Ok tt, c) /\ n' = set_station c n
  | DriverEvent.TransmitDone e =>
      nd_state n = DriverState.Ready /\ TxDoneEventRef_parse message = Ok e
      /\ nthZ (dp_tx_in_flight (nd_data n)) (td_token e) = Some true
      /\ n' = set_data (set_tx_in_flight
                          (set_flag (dp_tx_in_flight (nd_data n)) (td_token e) false) (nd_data n)) n
  | DriverEvent.Receive e =>
      nd_state n = DriverState.Ready /\ RxEventRef_parse message = Ok e /\ n' = n
  | DriverEvent.Supplicant bytes =>
      nd_state n = DriverState.Ready /\ bytes = payload message /\ n' = n
  end.

Definition dispatch_outcome message n (r : res (DriverError.t E) DriverEvent.t * NativeDriver W)
    : Prop :=
  match r with
  | (Ok event, n') => dispatched message n event n'
  | (Err e, n') => if restart_error e then restarted n n' else n' = n
  | (Panic, _) => False
  end.

Lemma dispatch_ready message n (k : M (NativeDriver W) (DriverError.t E) DriverEvent.t) :
  (nd_state n = DriverState.Ready -> dispatch_outcome message n (k n)) ->
  dispatch_outcome message n ((require_state DriverState.Ready;; k) n).
Proof. intros Hk. unfold require_state. munfold. case_bool_decide; [by apply Hk|done]. Qed.

(** A station handler that does not panic. *)
Lemma dispatch_handler message n m event :
  (m (nd_station n)).1 <> Panic ->
  (forall c, m (nd_station n) = (Ok tt, c) -> dispatched message n event (set_station c n)) ->
  dispatch_outcome message n (station_handler (W:=W) (E:=E) m event n).
Proof.
  intros Hp Ho. unfold station_handler. munfold.
  destruct (m (nd_station n)) as [[[]|e|] c]; [by apply Ho|done|done].
Qed.

Lemma control_event_no_panic event c : (handle_control_event (E:=E) event c).1 <> Panic.
Proof.
  pose proof (handle_control_event_outcome (E:=E) event c) as Ho.
  by destruct (handle_control_event event c) as [[u|e|] c'].
Qed.

Lemma data_event_no_panic event c : (handle_data_event (E:=E) event c).1 <> Panic.
Proof.
  pose proof (closes_data_event (E:=E) event c) as Ho.
  by destruct (handle_data_event event c) as [[u|e|] c'].
Qed.

Lemma td_token_range message e :
  bytes_ok (payload message) -> TxDoneEventRef_parse message = Ok e -> 0 <= td_token e.
Proof.
  intros Hb Hp. unfold TxDoneEventRef_parse in Hp.
  pose proof (validated_data_payload_spec message DataCommand.TransmitDone TX_DONE_FIXED_LEN Hb
    ltac:(done)) as Hv. destruct (validated_data_payload _ _ _) as [[p d]|?|]; [|done..].
  destruct Hv as [-> _]. cbn [mbind res_bind] in Hp.
  destruct (index (payload message) 9) as [count|?|]; cbn [mbind res_bind] in Hp; [|done..].
  destruct (ok_or _ _) as [required|?|]; cbn [mbind res_bind] in Hp; [|done..].
  destruct (negb _); [done|].
  destruct (index (payload message) 8) as [token|?|] eqn:Ht; cbn [mbind res_bind] in Hp; [|done..].
  destruct (subslice _ _ _); cbn [mbind res_bind] in Hp; [|done..]. injection Hp as <-.
  apply index_byte in Ht; [|done]. cbn. unfold is_byte in Ht. lia.
Qed.

Lemma dispatch_message_outcome RX TX message n :
  bytes_ok (payload message) -> path_wf RX TX (nd_data n) ->
  dispatch_outcome message n (dispatch_message TX message n).
Proof.
  intros Hb Hwf. unfold dispatch_message. destruct (message_type message).
  - unfold dispatch_system_message. pose proof (parse_system_event_spec message Hb) as Hp. munfold.
    destruct (parse_system_event message) as [ev|e|] eqn:Hev; [|done..]. clear Hp. cbn [map_err].
    destruct ev; try (by split). case_bool_decide as Hs; [|done].
    split; [exact Hev|]. split; [done|]. by rewrite bool_decide_eq_true_2.
  - apply dispatch_ready. by intros Hr.
  - apply dispatch_ready. intros Hr. unfold dispatch_data_message.
    pose proof (classify_data_event_no_panic message Hb) as Hp. unfold mbind, M_bind, lift.
    destruct (classify_data_event message) as [ev|e|] eqn:Hev; [|done..]. cbn [map_err].
    assert (dispatch_outcome message n (dispatch_station_data ev n)) as Hd.
    { apply dispatch_handler; [apply data_event_no_panic|]. intros c Hc.
      split; [exact Hr|]. split; [exact Hev|]. by exists c. }
    destruct ev; try exact Hd; clear Hd.
    + unfold dispatch_transmit_done. munfold. clear Hp.
      pose proof (TxDoneEventRef_parse_no_panic message Hb) as Hp.
      destruct (TxDoneEventRef_parse message) as [e|e|] eqn:He; [|done..]. cbn [map_err].
      rewrite (complete_tx_spec RX TX) by (done || by eapply td_token_range).
      case_bool_decide as Ht; [|by destruct n]. cbn [map_err]. by split_and!.
    + unfold dispatch_receive. munfold. clear Hp. pose proof (RxEventRef_parse_spec message Hb) as Hp.
      destruct (RxEventRef_parse message) as [e|e|] eqn:He; [|done..]. cbn [map_err]. by split.
  - apply dispatch_ready. intros Hr. unfold dispatch_control_message.
    pose proof (parse_control_event_spec message Hb) as Hp. unfold mbind, M_bind, lift.
    destruct (parse_control_event message) as [ev|e|] eqn:Hev; [|done..]. cbn [map_err].
    apply dispatch_handler; [apply control_event_no_panic|]. intros c Hc.
    split; [exact Hr|]. split; [exact Hev|]. by exists c.
Qed.
End dispatch.

(** ** Recovery *)

Section nsafe.
Context {W E : Type} `{HL : BusLaws W E} `{!DelayOps W} `{!DelayLaws W E}.

(** [psafe] on the driver: [R] is about the data path and the device. *)
Definition ninv (R : DataPath -> Device unit -> Prop) (n : NativeDriver W) : Prop :=
  pinv R (nd_data n, nd_device n).
Definition nsafe {A E'} (R : DataPath -> Device unit -> Prop) (m : M (NativeDriver W) E' A)
    (Q : A -> DataPath -> Device unit -> Prop) (F : DataPath -> Device unit -> Prop) : Prop :=
  triple (ninv R) m (fun a => ninv (Q a)) (fun _ => ninv F).

Lemma nsafe_bind {A B E'} R (m : M (NativeDriver W) E' A) (f : A -> M (NativeDriver W) E' B) Q' Q F :
  nsafe R m Q' F -> (forall a, nsafe (Q' a) (f a) Q F) -> nsafe R (m ≫= f) Q F.
Proof. intros Hm Hf. eapply triple_bind; [apply Hm|]. intros a. apply Hf. Qed.

Lemma nsafe_pure {A E'} R (m : M (NativeDriver W) E' A) Q F (phi : Prop) :
  (forall p v, R p v -> phi) -> (phi -> nsafe R m Q F) -> nsafe R m Q F.
Proof. intros H1 H2 n Hn. eapply H2; [eapply H1; apply Hn|exact Hn]. Qed.

Lemma nsafe_data {A E' E''} R (f : E' -> E'') (m : M (DataPath * Device W) E' A) Q F F' :
  psafe R m Q F' -> (forall e p v, F' e p v -> F p v) ->
  nsafe R (mapM_err f (on_nd_data m)) Q F.
Proof.
  intros Hm HF n Hn. specialize (Hm _ Hn). unfold mapM_err, on_nd_data, zoom.
  destruct (m (nd_data n, nd_device n)) as [[a|e|] [p d]]; [exact Hm| |done].
  destruct Hm as [Hb Hf]. split; [exact Hb|]. cbn. by apply (HF e).
Qed.

Lemma nsafe_device {A E' E''} R (f : E' -> E'') (m : M (Device W) E' A) Q F F' :
  (forall p, dsafe (R p) m (fun a => Q a p) (fun e => F' e p)) ->
  (forall e p v, F' e p v -> F p v) -> nsafe R (mapM_err f (on_nd_device m)) Q F.
Proof.
  intros Hm HF n Hn. specialize (Hm (nd_data n) (nd_device n) Hn). unfold mapM_err, on_nd_device, zoom.
  destruct (m (nd_device n)) as [[a|e|] d]; [exact Hm| |done].
  destruct Hm as [Hb Hf]. split; [exact Hb|]. cbn. by apply (HF e).
Qed.

Lemma nsafe_rpu {A E' E''} R (f : E' -> E'') (m : M W E' A) Q0 F :
  safe m Q0 -> (forall p v, R p v -> F p v) ->
  nsafe R (mapM_err f (on_nd_rpu m)) (fun a p v => Q0 a /\ R p v) F.
Proof.
  intros Hm HF. unfold on_nd_rpu.
  eapply (nsafe_device _ _ _ _ _ (fun _ => R)); [|by intros _].
  intros p d [Hb HR]. specialize (Hm (dev_rpu d) Hb). unfold zoom.
  destruct (m (dev_rpu d)) as [[a|e|] w]; [|by split|done]. destruct Hm as [? Hw].
  split; [exact Hw|]. by split.
Qed.

Lemma nsafe_lift {A E' E''} R (f : E' -> E'') (r : res E' A) Q F :
  r <> Panic -> (forall a p v, R p v -> r = Ok a -> Q a p v) -> (forall p v, R p v -> F p v) ->
  nsafe R (mapM_err f (lift r)) Q F.
Proof.
  intros Hr HQ HF n [Hb HR]. unfold mapM_err, lift.
  destruct r as [a|e|]; [..|done]; (split; [exact Hb|]); [by apply HQ|by apply HF].
Qed.

Lemma nsafe_modify {E'} R (f : NativeDriver W -> NativeDriver W) Q F :
  (forall n, ninv R n -> ninv Q (f n)) -> nsafe (E':=E') R (modify f) (fun _ => Q) F.
Proof. intros Hf n Hn. by apply Hf. Qed.
End nsafe.

Section recover.
Context {W E P : Type} `{HL : BusLaws W E} `{!DelayOps W} `{!DelayLaws W E}
  `{!PlatformOps W P} `{!PlatformLaws W P E} `{!Sha256}.
Variables RX TX : Z.

Lemma safe_of_triple {A E'} (m : M W E' A) :
  triple bus_inv m (fun _ => bus_inv) (fun _ => bus_inv) -> safe m (fun _ => True).
Proof. intros Hm. eapply triple_consequence; [exact Hm|done..]. Qed.

(** Loading a parsed bundle: success means that both digests were right. *)
Lemma safe_load trust hash images :
  images_ok images -> len hash = 32 -> len (bundle_bytes hash images) <= ISIZE_MAX ->
  trust (bundle_of hash images) <> Panic ->
  safe (load (E:=E) trust (bundle_of hash images))
    (fun _ => trust (bundle_of hash images) = Ok tt /\ sha256 (images_bytes images) = hash).
Proof.
  intros Hok Hh Hsize Ht. unfold load.
  apply (safe_bind _ _ (fun _ => trust (bundle_of hash images) = Ok tt)).
  { apply safe_lift; [by apply map_err_no_panic|]. intros [].
    by destruct (trust (bundle_of hash images)) as [[]|?|]. }
  intros _ Htr. rewrite verify_hash_bundle by done.
  apply (safe_bind _ _ (fun _ => sha256 (images_bytes images) = hash)).
  { by case_bool_decide; apply safe_lift. }
  intros _ Hd. apply (safe_bind _ _ (fun _ => True)); [apply safe_run_processor_operation|intros _ _].
  apply (safe_bind _ _ (fun _ => True)).
  { intros w Hw. rewrite download_bundle by done.
    eapply (safe_for_each (omap (image_of images) download_order)); [|exact Hw].
    intros i _. destruct (ImageKind.destination _) as [p a]. apply safe_mapM_err, safe_write. }
  intros _ _. apply (safe_bind _ _ (fun _ => True)); [apply safe_run_processor_operation|intros _ _].
  by apply safe_ret.
Qed.

Lemma dsafe_ignored R (m : M (Device W) (DeviceError.t E) unit) F :
  dsafe R m (fun _ => R) (fun _ => R) ->
  dsafe R (attempt (F:=RecoveryError.t E P) m) (fun _ => R) F.
Proof. intros Hm. by eapply dsafe_attempt; [exact Hm|..]. Qed.

Lemma dsafe_disable R : dsafe R (disable_interrupts (W:=W) (E:=E)) (fun _ => R) (fun _ => R).
Proof.
  unfold disable_interrupts. apply (dsafe_bind _ _ _ (fun _ => R)).
  { eapply dsafe_conseq; [apply (dsafe_rpu R), safe_read_register|done|by intros ? v []|by intros ? v []]. }
  intros root. apply (dsafe_bind _ _ _ (fun _ => R)); [|intros _];
    (eapply dsafe_conseq; [apply (dsafe_rpu R), safe_write_register|done|by intros ? v []|by intros ? v []]).
Qed.

Lemma dsafe_enable R : dsafe R (enable_interrupts (W:=W) (E:=E)) (fun _ => R) (fun _ => R).
Proof.
  unfold enable_interrupts. apply (dsafe_bind _ _ _ (fun _ => R)).
  { unfold ensure_operational. apply (dsafe_bind _ _ _ (fun _ => R)).
    - by apply (dsafe_gets _ _ dev_recovery_required).
    - intros []; [by apply dsafe_throw|by apply dsafe_ret]. }
  intros _. apply (dsafe_bind _ _ _ (fun _ => R)).
  { eapply dsafe_conseq; [apply (dsafe_rpu R), safe_read_register|done|by intros ? v []|by intros ? v []]. }
  intros root. apply (dsafe_bind _ _ _ (fun _ => R)); [|intros _];
    (eapply dsafe_conseq; [apply (dsafe_rpu R), safe_write_register|done|by intros ? v []|by intros ? v []]).
Qed.

Lemma system_init_message_ok config :
  system_init_typed config -> system_init_message (E:=E) config <> Panic.
Proof.
  intros Ht. unfold system_init_message.
  destruct (validate config) as [[]|e|] eqn:Hv.
  - destruct (encode_system_init_spec config (zeros SYSTEM_INIT_MESSAGE_LEN) Ht Hv) as (tail & Hl & ->);
      [by vm_compute..|].
    rewrite slice_in; [done|lia|]. rewrite len_app, len_host_message_bytes, Hl. pose proof (len_nonneg (drop (Z.to_nat 378) (zeros SYSTEM_INIT_MESSAGE_LEN))).
    change SYSTEM_INIT_LEN with 366. lia.
  - unfold encode_system_init. munfold. by rewrite Hv.
  - exfalso. revert Hv. unfold validate. by destruct (_ || _).
Qed.

(** The packet memory and the device after a successful boot. *)
Definition booted (p0 : DataPath) (trust : FirmwareBundle -> res FirmwareError.t unit)
    hash images (p : DataPath) (v : Device unit) : Prop :=
  trust (bundle_of hash images) = Ok tt /\ sha256 (images_bytes images) = hash
  /\ p = set_rx_posted (replicate (Z.to_nat RX) true) (reset_after_rpu_reset RX TX p0)
  /\ dev_recovery_required v = false /\ dev_pending_event v = None
  /\ exists q, dev_queues v = Some q /\ queue_map_is_valid q = true.

Lemma bump_iter_fields k v :
  dev_recovery_required (Nat.iter k bump v) = dev_recovery_required v
  /\ dev_pending_event (Nat.iter k bump v) = dev_pending_event v
  /\ dev_queues (Nat.iter k bump v) = dev_queues v
  /\ (fragments_ok v -> fragments_ok (Nat.iter k bump v)).
Proof. induction k as [|k IH]; [done|]. destruct IH as (? & ? & ? & ?). done. Qed.

Lemma reset_wf p : path_wf RX TX p -> path_wf RX TX (reset_after_rpu_reset RX TX p).
Proof. intros []. constructor; cbn; try done; rewrite ?len_replicate; lia. Qed.

Lemma validate_config_no_panic config n :
  system_init_typed config -> validate_system_config (E:=E) (W:=W) RX config n <> Panic.
Proof.
  intros (Hm & _ & _ & Hp). unfold validate_system_config.
  destruct (@index_in (DriverError.t E) (cfg_mac_address config) 0) as [m0 ->]; [lia|].
  destruct (cfg_rx_pools config) as [|p0 pools]; [done|].
  change (nthZ (p0 :: pools) 0) with (Some p0). cbn [expect mbind res_bind].
  by match goal with |- context [if ?b then _ else _] => destruct b end.
Qed.

(** A driver step after which nothing is known of the panic-free failure. *)
Lemma nsafe_step {A} R (f : RpuError.t E -> DriverError.t E) (m : M W (RpuError.t E) A) Q0 :
  safe m Q0 ->
  nsafe R (driver_step (P:=P) f (on_nd_rpu m)) (fun _ => R) (fun _ _ => True).
Proof.
  intros Hm. eapply triple_consequence; [by apply (nsafe_rpu R _ _ Q0 (fun _ _ => True))|done| |done].
  by intros a n (? & _ & ?).
Qed.

Lemma nsafe_platform R (m : M W P unit) :
  triple bus_inv m (fun _ => bus_inv) (fun _ => bus_inv) ->
  nsafe R (platform_step (E:=E) m) (fun _ => R) (fun _ _ => True).
Proof.
  intros Hm. apply safe_of_triple in Hm.
  eapply triple_consequence; [by apply (nsafe_rpu R _ _ (fun _ => True) (fun _ _ => True))|done| |done].
  by intros a n (? & _ & ?).
Qed.

Lemma nsafe_recover_boot p0 v0 trust hash images config :
  path_wf RX TX p0 -> fragments_ok v0 -> system_init_typed config ->
  images_ok images -> len hash = 32 -> len (bundle_bytes hash images) <= ISIZE_MAX ->
  trust (bundle_of hash images) <> Panic ->
  nsafe (fun p v => p = p0 /\ v = v0)
    (recover_boot (E:=E) (P:=P) RX TX trust (bundle_of hash images) config)
    (fun _ => booted p0 trust hash images) (fun _ _ => True).
Proof.
  intros Hwf Hfrag Hcfg Hok Hh Hsize Htrust. unfold recover_boot.
  apply (nsafe_bind _ _ _ (fun _ p v => p = p0 /\ v = v0)).
  { intros n [Hb HR]. pose proof (dsafe_disable (fun v => nd_data n = p0 /\ v = v0) (nd_device n)
      (conj Hb HR)) as Hx. unfold attempt, on_nd_device, zoom.
    by destruct (disable_interrupts (nd_device n)) as [[u|e|] d]. }
  intros _. apply (nsafe_bind _ _ _ (fun _ p v => p = p0 /\ v = v0));
    [apply nsafe_platform, hard_reset_law|intros _].
  set (v1 := set_queue_state None 0 0 v0).
  apply (nsafe_bind _ _ _ (fun _ p v => p = p0 /\ v = v1)).
  { apply nsafe_modify. intros n [Hb [? Hv]]. split; [exact Hb|]. split; [done|].
    unfold v1. rewrite <-Hv. reflexivity. }
  intros _. set (p1 := reset_after_rpu_reset RX TX p0).
  apply (nsafe_bind _ _ _ (fun _ p v => p = p1 /\ v = v1)).
  { apply nsafe_modify. intros n [Hb [Hp Hv]]. split; [exact Hb|]. split; [|done].
    unfold p1. cbn in *. by rewrite Hp. }
  intros _. apply (nsafe_bind _ _ _ (fun _ p v => p = p1 /\ v = v1));
    [apply nsafe_platform, prepare_wake_bus_law|intros _].
  apply (nsafe_bind _ _ _ (fun _ p v => p = p1 /\ v = v1));
    [eapply nsafe_step, safe_wake|intros _].
  apply (nsafe_bind _ _ _ (fun _ p v => p = p1 /\ v = v1));
    [apply nsafe_platform, prepare_data_bus_law|intros _].
  apply (nsafe_bind _ _ _ (fun _ p v => p = p1 /\ v = v1));
    [eapply nsafe_step, safe_write_register|intros _].
  eapply nsafe_bind; [by apply nsafe_rpu; [by apply safe_load|]|]. intros report.
  apply (nsafe_pure _ _ _ _ (trust (bundle_of hash images) = Ok tt
    /\ sha256 (images_bytes images) = hash)); [by intros p v [? _]|]. intros [Htr Hdig].
  set (up v := queue_map_is_valid (default sample_map (dev_queues v)) = true
               /\ is_Some (dev_queues v) /\ dev_recovery_required v = false
               /\ dev_pending_event v = None /\ fragments_ok v).
  apply (nsafe_bind _ _ _ (fun _ p v => p = p1 /\ up v)).
  { apply (nsafe_device _ _ _ _ _ (fun _ _ _ => True)); [|done]. intros p d [Hb [_ [-> Hv]]].
    pose proof (dsafe_initialize (E:=E) v1 d (conj Hb (eq_sym Hv))) as Hx.
    destruct (initialize_queues d) as [[q|e|] d']; [|by destruct Hx|done].
    destruct Hx as [Hb' (Hq & rx & _ & _ & Hv')]. split; [exact Hb'|]. split; [done|].
    rewrite Hv'. unfold up, v1. cbn. split; [done|]. split; [by eexists|].
    split; [done|]. split; [done|]. exact Hfrag. }
  intros _.
  apply (nsafe_bind _ _ _ (fun _ p v => p = set_rx_posted (replicate (Z.to_nat RX) true) p1 /\ up v)).
  { apply (nsafe_data _ _ _ _ _ (fun _ _ _ => True)); [|done]. intros [p d] [Hb [Hp Hv]].
    pose proof (psafe_post_all (E:=E) RX TX p1 (view d) (reset_wf _ Hwf) (p, d)
      (conj Hb (conj Hp eq_refl))) as Hx.
    destruct (post_all_rx RX (p, d)) as [[u|e|] [p' d']]; [|by destruct Hx|done].
    destruct Hx as [Hb' [Hp' Hv']]. split; [exact Hb'|]. split; [exact Hp'|].
    cbn in Hv', Hv |- *. by rewrite Hv'. }
  intros _. set (p2 := set_rx_posted _ p1).
  apply (nsafe_bind _ _ _ (fun _ p v => p = p2 /\ up v)).
  { apply (nsafe_device _ _ _ _ _ (fun _ _ _ => True)); [|done]. intros p.
    eapply dsafe_conseq; [apply (dsafe_enable (fun v => p = p2 /\ up v))|done..]. }
  intros _. apply (nsafe_bind _ _ _ (fun _ p v => p = p2 /\ up v)).
  { apply nsafe_lift; [by apply system_init_message_ok|done|done]. }
  intros message. apply (nsafe_bind _ _ _ (fun _ p v => p = p2 /\ up v)).
  2: { intros _ n [Hb [Hp (Hq & [q Hqs] & ? & ? & _)]]. split; [exact Hb|].
       split; [done|]. split; [done|]. split; [exact Hp|]. split; [done|]. split; [done|].
       exists q. cbn in *. rewrite Hqs in Hq |- *. done. }
  apply (nsafe_device _ _ _ _ _ (fun _ _ _ => True)); [|done]. intros p d [Hb [-> Hup]].
  pose proof (dsafe_send_with_wait (E:=E) (view d) message DEFAULT_COMMAND_WAIT_ATTEMPTS
    DEFAULT_COMMAND_WAIT_DELAY_MS (proj2 (proj2 (proj2 (proj2 Hup)))) d (conj Hb eq_refl)) as Hx.
  unfold send_control_reliable. destruct (send_control_with_wait _ _ _ d) as [[u|e|] d'];
    [|by destruct Hx|done].
  destruct Hx as [Hb' (_ & _ & Hv')]. split; [exact Hb'|]. split; [done|].
  pose proof (bump_iter_fields (fragment_count (len message) (dev_command_fragment_len (view d))) (view d))
    as (Hr & Hpe & Hqs & Hfr).
  rewrite Hv'. destruct Hup as (Hq & Hs & Hr' & Hp' & Hf). unfold up. rewrite Hr, Hpe, Hqs.
  split_and!; try done. by apply Hfr.
Qed.

(** The whole of [recover]. *)
Lemma recover_spec n trust hash images config :
  bus_inv (dev_rpu (nd_device n)) -> path_wf RX TX (nd_data n) ->
  fragments_ok (view (nd_device n)) -> system_init_typed config ->
  images_ok images -> len hash = 32 -> len (bundle_bytes hash images) <= ISIZE_MAX ->
  trust (bundle_of hash images) <> Panic ->
  match recover (E:=E) (P:=P) RX TX trust (bundle_of hash images) config n with
  | (Ok _, n') =>
      validate_system_config (E:=E) RX config n = Ok tt
      /\ booted (nd_data n) trust hash images (nd_data n') (view (nd_device n'))
  | (Err _, n') =>
      validate_system_config (E:=E) RX config n <> Ok tt ->
      nd_device n' = nd_device n /\ nd_data n' = nd_data n
  | (Panic, _) => False
  end.
Proof.
  intros Hb Hwf Hf Hcfg Hok Hh Hsize Ht. unfold recover, recover_steps. munfold.
  change (set_configured_mac None _) with (recovering n).
  change (validate_system_config RX config (recovering n))
    with (validate_system_config (E:=E) RX config n).
  pose proof (validate_config_no_panic config n Hcfg) as Hp.
  unfold driver_step at 1. munfold.
  destruct (validate_system_config RX config n) as [[]|e|]; [|done|done]. cbn [map_err].
  pose proof (nsafe_recover_boot (nd_data n) (view (nd_device n)) trust hash images config
    Hwf Hf Hcfg Hok Hh Hsize Ht (recovering n) (conj Hb (conj eq_refl eq_refl))) as Hx.
  destruct (recover_boot RX TX trust (bundle_of hash images) config (recovering n)) as [[r|e|] n'];
    [|done|done].
  split; [done|]. apply Hx.
Qed.
End recover.

(** The packet was received, with outcome [r], by the data path and the device of
    [n], and nothing else changed. *)
Definition received_into {W E} `{BusOps W E} RX event i (n : NativeDriver W) output
    (r : res (DataError.t E) ReceivedFrame) (n' : NativeDriver W) : Prop :=
  exists p d output',
    receive_packet RX event i ((nd_data n, nd_device n), output) = (r, ((p, d), output'))
    /\ n' = set_device d (set_data p n).

(** * Properties *)

(** C12: in every run of a new driver in which no watchdog check failed, a frame
    is transmitted or delivered to the caller only in the [Ready] state, on the
    configured interface, and through the controlled port: an EAPOL frame while
    the station's key exchange may run, any other frame while the port is open.
    A frame refused for transmission leaves the whole driver untouched.  A packet
    is received before its frame can be judged: what the port refuses is not
    delivered, and the driver is then as the reception of the packet left its data
    path and device, and otherwise untouched; a packet of another interface starts
    the driver over; and a failed reception changes data path and device only. *)
Theorem frames_only_when_ready {W E P} `{BusOps W E} `{DelayOps W} `{PlatformOps W P} `{Sha256}
    RX TX bus rx tx ifaceindex firmware_index wdev_id n0 h (n : NativeDriver W) :
  NativeDriver_new RX TX bus rx tx ifaceindex firmware_index wdev_id = Ok n0 ->
  driver_reach (E:=E) (P:=P) RX TX n0 h n -> watchdog_ok h ->
  (forall wdev frame dscp_tos,
     let '(r, n') := driver_transmit (E:=E) TX wdev frame dscp_tos n in
     (n' = n /\ forall token, r <> Ok token)
     \/ (nd_state n = DriverState.Ready /\ wdev = nd_wdev_id n /\ same_control n n'
         /\ exists ether_type, ethernet_type (E:=E) frame = Some (Ok ether_type)
              /\ port_allows ether_type (nd_station n) = true
         /\ forall state ty, r <> Err (DriverError.ControlledPortClosed state ty)))
  /\ (forall event i output,
     match driver_receive_packet (E:=E) RX event i (n, output) with
     | (Ok f, (n', _)) =>
         nd_state n = DriverState.Ready /\ rx_wdev_id event = nd_wdev_id n
         /\ same_control n n' /\ port_allows (rf_ether_type f) (nd_station n) = true
     | (Err (DriverError.ControlledPortClosed state ty), (n', _)) =>
         state = sc_state (nd_station n) /\ port_allows ty (nd_station n) = false
         /\ exists f, received_into RX event i n output (Ok f) n' /\ rf_ether_type f = ty
     | (Err (DriverError.WrongInterface expected got), (n', _)) =>
         got = rx_wdev_id event /\ expected = nd_wdev_id n /\ got <> expected
         /\ exists f n1, received_into RX event i n output (Ok f) n1 /\ n' = enter_recovery n1
     | (Err (DriverError.Data e), (n', _)) => received_into RX event i n output (Err e) n'
     | (Err _, _) => False
     | (Panic, _) => True
     end).
Proof.
  intros Hnew Hreach Hw. pose proof (run_shut RX TX _ _ _ _ _ _ _ _ _ Hnew Hreach Hw) as Hs.
  assert (forall ty, port_allows ty (nd_station n) = true -> nd_state n = DriverState.Ready) as Hport.
  { intros ty Hp. destruct Hs as [Hr|[Hsec Hauth]]; [done|]. unfold port_allows in Hp.
    unfold eapol_required, controlled_port_open in Hp. rewrite Hsec, Hauth, andb_false_r in Hp.
    by destruct (ty =? EAPOL_ETHERTYPE). }
  split.
  - intros wdev frame dscp_tos. pose proof (keeps_transmit (E:=E) TX wdev frame dscp_tos n) as Hk.
    unfold driver_transmit, require_controlled_port in *. munfold.
    destruct (negb (wdev =? nd_wdev_id n)) eqn:Hwd; [by left; split|].
    apply negb_false_iff, Z.eqb_eq in Hwd.
    destruct (ethernet_type frame) as [[ty|e|]|] eqn:Hty; cbn [ok_or] in *; try (by left; split).
    destruct (port_allows ty (nd_station n)) eqn:Hp; [|by left; split].
    destruct (on_nd_data _ n) as [[t|e|] n']; right;
      (split; [by eapply Hport|split; [done|split; [exact Hk|by exists ty]]]).
  - intros event i output. unfold driver_receive_packet, on_fst, validate_received_frame,
      require_controlled_port. munfold. cbn [fst snd].
    destruct (receive_packet RX event i _) as [[f|e|] [[p d] output']] eqn:Hrec; cbn [map_err];
      [| |done]; [|by exists p, d, output'].
    assert (received_into RX event i n output (Ok f) (set_device d (set_data p n))) as Hi
      by (by exists p, d, output').
    cbn [nd_wdev_id nd_station set_device set_data].
    destruct (negb (rx_wdev_id event =? nd_wdev_id n)) eqn:Hwd.
    { apply negb_true_iff, Z.eqb_neq in Hwd. split_and!; try done. by eexists f, _. }
    apply negb_false_iff, Z.eqb_eq in Hwd.
    destruct (port_allows (rf_ether_type f) _) eqn:Hp; cbn in Hp.
    + split_and!; [by eapply Hport|done..].
    + split_and!; try done. by exists f.
Qed.

(** C23: dispatching any message of bytes never panics.  An accepted event is the
    parse of the message and has exactly the effect of its handler; a fault of
    the station or a system event out of turn starts the driver over with no
    connection left; any other error changes nothing. *)
Theorem dispatch_fails_closed {W E} RX TX message (n : NativeDriver W) :
  bytes_ok (payload message) -> path_wf RX TX (nd_data n) ->
  match dispatch_message (E:=E) TX message n with
  | (Ok event, n') => dispatched (E:=E) message n event n'
  | (Err e, n') => if restart_error e then restarted n n' else n' = n
  | (Panic, _) => False
  end.
Proof. apply dispatch_message_outcome. Qed.

(** C24: recovery of any driver ends, without a panic, with the station in
    recovery and no connection.  It succeeds only with an accepted
    configuration, a trusted bundle and a right payload digest, and then leaves
    the driver waiting for the firmware with a valid queue map, no pending
    event, every receive descriptor posted and no transmission in flight.  On
    any error the driver is in its fault state; a refused configuration reaches
    neither the bus nor the board. *)
Theorem recover_outcome {W E P} `{BusLaws W E} `{!DelayOps W} `{!DelayLaws W E}
    `{!PlatformOps W P} `{!PlatformLaws W P E} `{!Sha256} RX TX (n : NativeDriver W) trust file bundle
    config :
  bus_inv (dev_rpu (nd_device n)) -> path_wf RX TX (nd_data n) ->
  fragments_ok (view (nd_device n)) -> system_init_typed config ->
  bytes_ok file -> len file <= ISIZE_MAX -> FirmwareBundle_parse file = Ok bundle ->
  trust bundle <> Panic ->
  let '(r, n') := recover (E:=E) (P:=P) RX TX trust bundle config n in
  nd_station n' = begin_recovery (nd_station n) /\ no_connection (nd_station n')
  /\ match r with
     | Ok _ =>
         nd_state n' = DriverState.WaitingForSystemInit
         /\ nd_configured_mac n' = Some (cfg_mac_address config)
         /\ validate_system_config (E:=E) RX config n = Ok tt
         /\ exists hash images, bundle = bundle_of hash images
              /\ booted RX TX (nd_data n) trust hash images (nd_data n') (view (nd_device n'))
     | Err _ =>
         nd_state n' = DriverState.Fault /\ nd_configured_mac n' = None
         /\ (validate_system_config (E:=E) RX config n <> Ok tt ->
             nd_device n' = nd_device n /\ nd_data n' = nd_data n)
     | Panic => False
     end.
Proof.
  intros Hb Hwf Hf Hcfg Hfile Hsize Hparse Ht.
  destruct (parse_bundle_parts file bundle Hfile Hsize Hparse) as (hash & images & Hok & Hh & -> & ->).
  pose proof (recover_control (E:=E) (P:=P) RX TX trust (bundle_of hash images) config n) as Hc.
  pose proof (recover_spec (P:=P) RX TX n trust hash images config Hb Hwf Hf Hcfg Hok Hh Hsize Ht) as Hs.
  destruct (recover RX TX trust (bundle_of hash images) config n) as [r n'].
  destruct Hc as (Hst & _ & _ & Hr). split; [exact Hst|]. split; [by rewrite Hst|].
  destruct r as [report|e|]; [|by destruct Hr|done].
  destruct Hr as [Hr1 Hr2], Hs as [Hs1 Hs2]. do 3 (split; [done|]). by exists hash, images.
Qed.

(** ** A concrete boot *)

(** A board whose actions always succeed. *)
#[export] Instance quiet_platform : PlatformOps script unit := {
  hard_reset := mret tt;
  prepare_wake_bus := mret tt;
  prepare_data_bus := mret tt;
  platform_wait_for_interrupt := mret tt }.
#[export] Instance quiet_platform_laws : PlatformLaws script unit unit.
Proof. by split; intros w Hw. Qed.

Definition boot_config_8 : SystemInitConfig :=
  SystemInitConfig_new [2; 0; 0; 0; 0; 1] (zeros 200).

(** The answers of a processor that boots. *)
Definition boot_replies : list (option (list Z)) :=
  [Some (to_le 4 0); Some [0xff]; Some [0xff]]
  ++ [Some (to_le 4 0); Some (to_le 4 1); Some (to_le 4 0); Some (to_le 4 1)]
  ++ [Some (to_le 4 BOOT_SIGNATURE); Some (to_le 4 BOOT_SIGNATURE)]
  ++ [Some (hpqm_bytes sample_map); Some (to_le 4 0xb7002000); Some (to_le 4 0);
      Some (to_le 4 0xb0001000)].

Definition cold_driver (replies : list (option (list Z))) : NativeDriver script :=
  match NativeDriver_new 8 2 (mkScript replies []) 1600 1600 0 0 0 with
  | Ok n => n
  | _ => mkNativeDriver (Device_new (mkScript [] [])) sample_path (StationController_new 0 0 0)
           DriverState.Cold 0 0 None
  end.
Definition witness_trust : FirmwareBundle -> res FirmwareError.t unit :=
  @PinnedFirmwareSha256_verify sum_sha256 (sum_digest witness_file).
Definition witness_bundle : FirmwareBundle := bundle_of witness_hash witness_images.

Definition boot_run : res (RecoveryError.t unit unit) FirmwareReport * NativeDriver script :=
  @recover script unit unit _ _ _ sum_sha256 8 2 witness_trust witness_bundle boot_config_8
    (cold_driver boot_replies).

Example boot_run_ok :
  boot_run.1 = Ok (mkFirmwareReport PINNED_PATCH_VERSION FEATURE_SYSTEM_MODE)
  /\ nd_state boot_run.2 = DriverState.WaitingForSystemInit.
Proof. by vm_compute. Qed.

Definition init_done_message : HostMessageRef :=
  mkHostMessageRef false HostMessageType.System
    (system_event_bytes (SystemEventId.to_u32 SystemEventId.InitDone) []).

(** The driver after a list of operations, with their successes. *)
Fixpoint driver_runs {W E P} `{BusOps W E} `{DelayOps W} `{PlatformOps W P} `{Sha256} (RX TX : Z)
    (ops : list driver_op) (h : list (driver_op * bool)) (n : NativeDriver W)
    : list (driver_op * bool) * NativeDriver W :=
  match ops with
  | [] => (h, n)
  | op :: ops =>
      let '(b, n') := driver_run (E:=E) (P:=P) RX TX op n in
      driver_runs (E:=E) (P:=P) RX TX ops (h ++ [(op, b)]) n'
  end.

Lemma driver_runs_reach {W E P} `{BusOps W E} `{DelayOps W} `{PlatformOps W P} `{Sha256} RX TX ops n0
    h (n : NativeDriver W) :
  driver_reach (E:=E) (P:=P) RX TX n0 h n ->
  driver_reach (E:=E) (P:=P) RX TX n0 (driver_runs (E:=E) (P:=P) RX TX ops h n).1
    (driver_runs (E:=E) (P:=P) RX TX ops h n).2.
Proof.
  revert h n. induction ops as [|op ops IH]; intros h n Hr; cbn [driver_runs]; [exact Hr|].
  destruct (driver_run RX TX op n) as [b n'] eqn:Hrun. apply IH. by econstructor.
Qed.

Lemma watchdog_ok_all h : forallb snd h = true -> watchdog_ok h.
Proof. intros Hf Hin. rewrite forallb_forall in Hf. by specialize (Hf _ Hin). Qed.

Definition ready_run : list (driver_op * bool) * NativeDriver script :=
  @driver_runs script unit unit _ _ _ sum_sha256 8 2
    [DrvRecover witness_trust witness_bundle boot_config_8; DrvDispatch init_done_message] []
    (cold_driver boot_replies).

(** A ready driver whose port is open, with the given answers of the bus. *)
Definition connected_driver (replies : list (option (list Z))) : NativeDriver script :=
  set_station
    (set_carrier_on true (set_controlled_port_authorized true
       (set_state StationState.Connected (StationController_new 0 0 0))))
    (set_device (ready_device replies)
       (set_driver_state DriverState.Ready (cold_driver []))).

(** a watchdog status that reads as the sentinel ten times puts the driver
    in its fault state but leaves the connection: a frame is still transmitted
    through the open port afterwards, although no event is dispatched any
    more. *)
Theorem watchdog_fault_keeps_port :
  let '(r, n) := watchdog_pending (E:=unit)
                   (connected_driver (repeat (Some (to_le 4 0xaaaaaaaa)) 10)) in
  r = Err DriverError.InvalidWatchdogStatus /\ nd_state n = DriverState.Fault
  /\ (driver_transmit (E:=unit) 2 0 (zeros 12 ++ [8; 0] ++ zeros 50) 0 n).1 = Ok 0
  /\ (dispatch_message (E:=unit) 2
        (mkHostMessageRef false HostMessageType.Supplicant []) n).1
     = Err (DriverError.InvalidState DriverState.Fault DriverState.Ready).
Proof. by vm_compute. Qed.

Example frames_only_when_ready_witness :
  let n := ready_run.2 in
  nd_state n = DriverState.Ready
  /\ ((forall wdev frame dscp_tos,
         let '(r, n') := driver_transmit (E:=unit) 2 wdev frame dscp_tos n in
         (n' = n /\ forall token, r <> Ok token)
         \/ (nd_state n = DriverState.Ready /\ wdev = nd_wdev_id n /\ same_control n n'
             /\ exists ether_type, ethernet_type (E:=unit) frame = Some (Ok ether_type)
                  /\ port_allows ether_type (nd_station n) = true
             /\ forall state ty, r <> Err (DriverError.ControlledPortClosed state ty)))
      /\ (forall event i output,
         match driver_receive_packet (E:=unit) 8 event i (n, output) with
         | (Ok f, (n', _)) =>
             nd_state n = DriverState.Ready /\ rx_wdev_id event = nd_wdev_id n
             /\ same_control n n' /\ port_allows (rf_ether_type f) (nd_station n) = true
         | (Err (DriverError.ControlledPortClosed state ty), (n', _)) =>
             state = sc_state (nd_station n) /\ port_allows ty (nd_station n) = false
             /\ exists f, received_into 8 event i n output (Ok f) n' /\ rf_ether_type f = ty
         | (Err (DriverError.WrongInterface expected got), (n', _)) =>
             got = rx_wdev_id event /\ expected = nd_wdev_id n /\ got <> expected
             /\ exists f n1, received_into 8 event i n output (Ok f) n1 /\ n' = enter_recovery n1
         | (Err (DriverError.Data e), (n', _)) => received_into 8 event i n output (Err e) n'
         | (Err _, _) => False
         | (Panic, _) => True
         end)).
Proof.
  split; [by vm_compute|].
  apply (@frames_only_when_ready script unit unit _ _ _ sum_sha256 8 2 (mkScript boot_replies [])
    1600 1600 0 0 0 (cold_driver boot_replies) ready_run.1 ready_run.2).
  - reflexivity.
  - apply driver_runs_reach. constructor.
  - apply watchdog_ok_all. by vm_compute.
Defined.

Example dispatch_fails_closed_witness :
  match dispatch_message (E:=unit) 2 init_done_message (cold_driver []) with
  | (Ok event, n') => dispatched (E:=unit) init_done_message (cold_driver []) event n'
  | (Err e, n') => if restart_error e then restarted (cold_driver []) n' else n' = cold_driver []
  | (Panic, _) => False
  end.
Proof.
  apply (dispatch_fails_closed (E:=unit) 8 2 init_done_message (cold_driver [])).
  - by apply bytes_okb_ok.
  - constructor; by vm_compute.
Defined.

Example recover_outcome_witness :
  boot_run.1 = Ok (mkFirmwareReport PINNED_PATCH_VERSION FEATURE_SYSTEM_MODE)
  /\ let '(r, n') := boot_run in
     nd_station n' = begin_recovery (nd_station (cold_driver boot_replies))
     /\ no_connection (nd_station n')
     /\ match r with
        | Ok _ =>
            nd_state n' = DriverState.WaitingForSystemInit
            /\ nd_configured_mac n' = Some (cfg_mac_address boot_config_8)
            /\ validate_system_config (E:=unit) 8 boot_config_8 (cold_driver boot_replies) = Ok tt
            /\ exists hash images, witness_bundle = bundle_of hash images
                 /\ @booted sum_sha256 8 2 (nd_data (cold_driver boot_replies)) witness_trust
                      hash images (nd_data n') (view (nd_device n'))
        | Err _ =>
            nd_state n' = DriverState.Fault /\ nd_configured_mac n' = None
            /\ (validate_system_config (E:=unit) 8 boot_config_8 (cold_driver boot_replies) <> Ok tt ->
                nd_device n' = nd_device (cold_driver boot_replies)
                /\ nd_data n' = nd_data (cold_driver boot_replies))
        | Panic => False
        end.
Proof.
  split; [by vm_compute|].
  apply (@recover_outcome script unit unit _ _ _ _ _ _ sum_sha256 8 2 (cold_driver boot_replies)
    witness_trust witness_file witness_bundle boot_config_8).
  - apply replies_okb_ok. by vm_compute.
  - constructor; by vm_compute.
  - split; by vm_compute.
  - by vm_compute.
  - by apply bytes_okb_ok.
  - by vm_compute.
  - by vm_compute.
  - by vm_compute.
Defined.
