(* ===== verification/Wpa2.v ===== *)
(** * Wpa2: the WPA2-Personal supplicant (src/src/wpa2.rs)

    The RSN four-way handshake and the group rekey for CCMP-128: parsing of
    EAPOL-Key frames, key derivation, key unwrapping, the responses, and the
    state machine with its replay counters, tickets and digests.  Secrets are
    plain byte lists; [zeroize] on a value that lives on is an assignment, and
    the clearing of dropped values has no counterpart. *)

From S2P Require Import Prelude Crypto Codec Protocol Control.

Definition MAX_EAPOL_FRAME_LEN : Z := 512.
Definition MAX_RSN_IE_LEN : Z := 256.
Definition MAX_KEY_DATA_LEN : Z := MAX_EAPOL_FRAME_LEN - 99.
Definition WPA2_PASSPHRASE_MIN_LEN : Z := 8.
Definition WPA2_PASSPHRASE_MAX_LEN : Z := 63.
Definition WPA2_PBKDF2_ITERATIONS : Z := 4096.
Definition CCMP_KEY_LEN : Z := 16.
Definition CCMP_RECEIVE_SEQUENCE_LEN : Z := 6.
Definition WPA2_PTK_LEN : Z := 48.
Definition EAPOL_HEADER_LEN : Z := 4.
Definition EAPOL_KEY_FIXED_BODY_LEN : Z := 95.
Definition EAPOL_KEY_MIN_LEN : Z := EAPOL_HEADER_LEN + EAPOL_KEY_FIXED_BODY_LEN.
Definition EAPOL_PACKET_TYPE_KEY : Z := 3.
Definition RSN_KEY_DESCRIPTOR_TYPE : Z := 2.
Definition KEY_INFO_VERSION_MASK : Z := 7.
Definition KEY_INFO_PAIRWISE : Z := bit 3.
Definition KEY_INFO_INSTALL : Z := bit 6.
Definition KEY_INFO_ACK : Z := bit 7.
Definition KEY_INFO_MIC : Z := bit 8.
Definition KEY_INFO_SECURE : Z := bit 9.
Definition KEY_INFO_ERROR : Z := bit 10.
Definition KEY_INFO_REQUEST : Z := bit 11.
Definition KEY_INFO_ENCRYPTED : Z := bit 12.
Definition KEY_INFO_SMK : Z := bit 13.
Definition KEY_DESCRIPTOR_VERSION_HMAC_SHA1_AES : Z := 2.
Definition KEY_MIC_START : Z := 81.
Definition KEY_MIC_END : Z := 97.
Definition KEY_DATA_LENGTH_OFFSET : Z := 97.
Definition KEY_DATA_OFFSET : Z := 99.
(** "Pairwise key expansion" *)
Definition WPA2_PRF_LABEL : list Z :=
  [80; 97; 105; 114; 119; 105; 115; 101; 32; 107; 101; 121; 32; 101; 120; 112; 97; 110; 115; 105;
   111; 110].
Definition AES_KEY_WRAP_IV : list Z := replicate 8 0xa6.
Definition GTK_KDE_OUI_TYPE : list Z := [0x00; 0x0f; 0xac; 0x01].
Definition RSN_CIPHER_CCMP_SUITE : list Z := [0x00; 0x0f; 0xac; 0x04].
Definition RSN_AKM_PSK_SUITE : list Z := [0x00; 0x0f; 0xac; 0x02].
Definition RSN_CAP_MFPR : Z := bit 6.
Definition RSN_CAP_MFPC : Z := bit 7.
Definition NRF_WIFI_KEY_DEFAULT : Z := bit 0.
Definition NRF_WIFI_KEY_DEFAULT_TYPES : Z := bit 1.
Definition NRF_WIFI_KEY_DEFAULT_TYPE_MULTICAST : Z := bit 4.

Module Wpa2Phase.
Inductive t : Type := AwaitingMessage1 | AwaitingMessage3 | InstallingKeys | Complete | Failed.
#[global] Instance eq_dec : EqDecision t.
Proof. solve_decision. Defined.
End Wpa2Phase.

Module EapolKeyMessage.
Inductive t : Type :=
  | PairwiseMessage1 | PairwiseMessage2 | PairwiseMessage3 | PairwiseMessage4
  | GroupMessage1 | GroupMessage2 | Other.
#[global] Instance eq_dec : EqDecision t.
Proof. solve_decision. Defined.
End EapolKeyMessage.

Module Wpa2Error.
Inductive t : Type :=
  | InvalidPassphraseLength
  | InvalidSsidLength
  | InvalidRsnInformationElement
  | UnsupportedRsnCapabilities
  | InvalidSupplicantNonce
  | FrameTooShort
  | FrameTooLarge
  | LengthMismatch
  | NotEapolKey
  | UnsupportedProtocolVersion (version : Z)
  | UnsupportedDescriptor
  | UnsupportedDescriptorVersion (version : Z)
  | InvalidPairwiseKeyLength (length : Z)
  | UnsupportedMessage
  | WrongPeer
  | InvalidPhase
  | StaleReplayCounter
  | ConflictingRetransmission
  | NewPairwiseHandshakeRequiresNonce
  | InvalidAuthenticatorNonce
  | InvalidMic
  | MissingEncryptedKeyData
  | InvalidEncryptedKeyData
  | KeyUnwrapIntegrity
  | MissingGroupKey
  | UnsupportedGroupKeyLength
  | Busy
  | StaleCompletion
  | InstallFailed
  | OutputTooSmall.
#[global] Instance eq_dec : EqDecision t.
Proof. solve_decision. Defined.
End Wpa2Error.

(** ** Keys *)

(** Rust's order on byte arrays. *)
Fixpoint bytes_leb (l k : list Z) : bool :=
  match l, k with
  | [], _ => true
  | _, [] => false
  | x :: l, y :: k => (x <? y) || ((x =? y) && bytes_leb l k)
  end.

Definition ordered (left right : list Z) : list Z * list Z :=
  if bytes_leb left right then (left, right) else (right, left).

Definition Pmk_derive `{Pbkdf2} (passphrase ssid : list Z) : res Wpa2Error.t (list Z) :=
  if negb ((WPA2_PASSPHRASE_MIN_LEN <=? len passphrase) && (len passphrase <=? WPA2_PASSPHRASE_MAX_LEN))
  then Err Wpa2Error.InvalidPassphraseLength
  else if (len ssid =? 0) || (32 <? len ssid)
  then Err Wpa2Error.InvalidSsidLength
  else Ok (pbkdf2_hmac_sha1 passphrase ssid WPA2_PBKDF2_ITERATIONS 32).

(** The 76 bytes the keys are derived from. *)
Definition ptk_context (authenticator_address supplicant_address authenticator_nonce
    supplicant_nonce : list Z) : list Z :=
  let '(first_address, second_address) := ordered authenticator_address supplicant_address in
  let '(first_nonce, second_nonce) := ordered authenticator_nonce supplicant_nonce in
  splice (splice (splice (splice (zeros 76) 0 first_address) 6 second_address) 12 first_nonce)
    44 second_nonce.

(** [while written < bytes.len()]: every round writes at least one byte, so
    the length of the output bounds the rounds. *)
Fixpoint ptk_loop `{HmacSha1} (fuel : nat) (pmk context bytes : list Z) (written counter : Z)
    : list Z :=
  match fuel with
  | O => bytes
  | Datatypes.S fuel =>
      if written <? len bytes then
        let block := hmac_sha1 pmk (WPA2_PRF_LABEL ++ [0] ++ context ++ [counter]) in
        let count := Z.min (len block) (len bytes - written) in
        let bytes := splice bytes written (take (Z.to_nat count) block) in
        ptk_loop fuel pmk context bytes (written + count) (u8 (counter + 1))
      else bytes
  end.

Definition derive_ptk `{HmacSha1} (pmk authenticator_address supplicant_address authenticator_nonce
    supplicant_nonce : list Z) : list Z :=
  ptk_loop (Z.to_nat WPA2_PTK_LEN) pmk
    (ptk_context authenticator_address supplicant_address authenticator_nonce supplicant_nonce)
    (zeros WPA2_PTK_LEN) 0 0.

(** [Ptk::kck], [Ptk::kek], [Ptk::temporal_key]; the array has 48 bytes. *)
Definition kck (ptk : list Z) : list Z := take 16 ptk.
Definition kek (ptk : list Z) : list Z := take 16 (drop 16 ptk).
Definition temporal_key (ptk : list Z) : list Z := take 16 (drop 32 ptk).

(** ** Frames and requests *)

Record EapolTxFrame : Type := mkEapolTxFrame {
  tx_peer : list Z;
  tx_len : Z;
  tx_bytes : list Z }.
(** [EapolTxFrame::as_slice] *)
Definition tx_slice (f : EapolTxFrame) : list Z := take (Z.to_nat (tx_len f)) (tx_bytes f).

Record PairwiseKeyInstall : Type := mkPairwiseKeyInstall { pk_peer : list Z; pk_key : list Z }.

Definition pairwise_key_config (i : PairwiseKeyInstall) : KeyConfig :=
  mkKeyConfig RSN_CIPHER_CCMP_128 KeyType.Pairwise 0 (pk_key i) [] 0.

Record GroupKeyInstall : Type := mkGroupKeyInstall {
  gk_key_index : Z;
  gk_key_len : Z;
  gk_key : list Z;
  gk_receive_sequence : list Z }.

Definition group_key_config (i : GroupKeyInstall) : KeyConfig :=
  mkKeyConfig RSN_CIPHER_CCMP_128 KeyType.Group (gk_key_index i)
    (take (Z.to_nat (gk_key_len i)) (gk_key i))
    (take (Z.to_nat CCMP_RECEIVE_SEQUENCE_LEN) (gk_receive_sequence i))
    NRF_WIFI_KEY_DEFAULT_TYPE_MULTICAST.
Definition default_key_config (i : GroupKeyInstall) : KeyConfig :=
  mkKeyConfig 0 KeyType.Group (gk_key_index i) [] []
    (Z.lor NRF_WIFI_KEY_DEFAULT NRF_WIFI_KEY_DEFAULT_TYPE_MULTICAST).

Record Wpa2KeyInstallRequest : Type := mkKeyInstallRequest {
  ki_ticket : Z;
  ki_replay_counter : Z;
  ki_pairwise : PairwiseKeyInstall;
  ki_group : GroupKeyInstall;
  ki_response : EapolTxFrame }.

Record Wpa2GroupKeyInstallRequest : Type := mkGroupKeyInstallRequest {
  gi_ticket : Z;
  gi_replay_counter : Z;
  gi_group : GroupKeyInstall;
  gi_response : EapolTxFrame }.

Module Wpa2Action.
Inductive t : Type :=
  | None
  | Transmit (frame : EapolTxFrame)
  | InstallKeys (request : Wpa2KeyInstallRequest)
  | InstallGroupKey (request : Wpa2GroupKeyInstallRequest).
End Wpa2Action.

(** ** EAPOL-Key frames *)

(** [u16::from_be_bytes] of two indexed bytes. *)
Definition read_be16 {E} (bytes : list Z) (offset : Z) : res E Z :=
  b0 ← index bytes offset;
  b1 ← index bytes (offset + 1);
  Ok (from_be [b0; b1]).

Definition descriptor_version (key_info : Z) : Z := u8 (Z.land key_info KEY_INFO_VERSION_MASK).
Definition encrypted_key_data (key_info : Z) : bool := has key_info KEY_INFO_ENCRYPTED.

Definition classify_pairwise (ack mic install secure : bool) : EapolKeyMessage.t :=
  match ack, mic, install, secure with
  | true, false, false, false => EapolKeyMessage.PairwiseMessage1
  | false, true, false, false => EapolKeyMessage.PairwiseMessage2
  | true, true, true, true => EapolKeyMessage.PairwiseMessage3
  | false, true, false, true => EapolKeyMessage.PairwiseMessage4
  | _, _, _, _ => EapolKeyMessage.Other
  end.

Definition classify_group (ack mic install secure : bool) : EapolKeyMessage.t :=
  match ack, mic, install, secure with
  | true, true, _, true => EapolKeyMessage.GroupMessage1
  | false, true, false, true => EapolKeyMessage.GroupMessage2
  | _, _, _, _ => EapolKeyMessage.Other
  end.

Definition classify (key_info : Z) : EapolKeyMessage.t :=
  let ack := has key_info KEY_INFO_ACK in
  let mic := has key_info KEY_INFO_MIC in
  let install := has key_info KEY_INFO_INSTALL in
  let secure := has key_info KEY_INFO_SECURE in
  if has key_info (Z.lor (Z.lor KEY_INFO_ERROR KEY_INFO_REQUEST) KEY_INFO_SMK)
  then EapolKeyMessage.Other
  else if has key_info KEY_INFO_PAIRWISE then classify_pairwise ack mic install secure
  else classify_group ack mic install secure.

Record EapolKeyFrame : Type := mkEapolKeyFrame {
  ek_bytes : list Z;
  ek_key_info : Z;
  ek_key_data : list Z }.

Definition validate_eapol_size (bytes : list Z) : res Wpa2Error.t unit :=
  if len bytes <? EAPOL_KEY_MIN_LEN then Err Wpa2Error.FrameTooShort
  else if MAX_EAPOL_FRAME_LEN <? len bytes then Err Wpa2Error.FrameTooLarge
  else Ok tt.

Definition validate_eapol_header (bytes : list Z) : res Wpa2Error.t unit :=
  version ← index bytes 0;
  if negb ((version =? 1) || (version =? 2))
  then Err (Wpa2Error.UnsupportedProtocolVersion version)
  else
    packet_type ← index bytes 1;
    if negb (packet_type =? EAPOL_PACKET_TYPE_KEY) then Err Wpa2Error.NotEapolKey
    else
      descriptor ← index bytes 4;
      if negb (descriptor =? RSN_KEY_DESCRIPTOR_TYPE) then Err Wpa2Error.UnsupportedDescriptor
      else Ok tt.

Definition eapol_total_length (bytes : list Z) : res Wpa2Error.t Z :=
  body_len ← read_be16 bytes 2;
  total ← ok_or (checked_add EAPOL_HEADER_LEN body_len) Wpa2Error.LengthMismatch;
  if negb (total =? len bytes) || (body_len <? EAPOL_KEY_FIXED_BODY_LEN)
  then Err Wpa2Error.LengthMismatch
  else Ok total.

Definition eapol_key_data_end (bytes : list Z) : res Wpa2Error.t Z :=
  key_data_len ← read_be16 bytes KEY_DATA_LENGTH_OFFSET;
  ok_or (checked_add KEY_DATA_OFFSET key_data_len) Wpa2Error.LengthMismatch.

Definition EapolKeyFrame_parse (bytes : list Z) : res Wpa2Error.t EapolKeyFrame :=
  validate_eapol_size bytes;;
  validate_eapol_header bytes;;
  total ← eapol_total_length bytes;
  key_data_end ← eapol_key_data_end bytes;
  if negb (key_data_end =? total) then Err Wpa2Error.LengthMismatch
  else
    key_info ← read_be16 bytes 5;
    key_data ← subslice bytes KEY_DATA_OFFSET key_data_end;
    Ok (mkEapolKeyFrame bytes key_info key_data).

(** The accessors of a parsed frame, which has at least 99 bytes. *)
Definition ek_slice (f : EapolKeyFrame) (a b : Z) : list Z :=
  take (Z.to_nat (b - a)) (drop (Z.to_nat a) (ek_bytes f)).
Definition protocol_version (f : EapolKeyFrame) : Z := nth 0 (ek_bytes f) 0.
Definition ek_message (f : EapolKeyFrame) : EapolKeyMessage.t := classify (ek_key_info f).
Definition key_length (f : EapolKeyFrame) : Z := from_be (ek_slice f 7 9).
Definition replay_counter (f : EapolKeyFrame) : Z := from_be (ek_slice f 9 17).
Definition ek_nonce (f : EapolKeyFrame) : list Z := ek_slice f 17 49.
Definition key_receive_sequence (f : EapolKeyFrame) : list Z := ek_slice f 65 73.
Definition ek_mic (f : EapolKeyFrame) : list Z := ek_slice f KEY_MIC_START KEY_MIC_END.
Definition ek_digest `{Sha256} (f : EapolKeyFrame) : list Z := sha256 (ek_bytes f).

(** [verify_truncated_left]: the first 16 bytes of the tag. *)
Definition verify_mic `{HmacSha1} (f : EapolKeyFrame) (ptk : list Z) : bool :=
  bool_decide
    (take 16
       (hmac_sha1 (kck ptk)
          (take (Z.to_nat KEY_MIC_START) (ek_bytes f) ++ zeros (KEY_MIC_END - KEY_MIC_START)
             ++ drop (Z.to_nat KEY_MIC_END) (ek_bytes f)))
     = ek_mic f).

(** ** Key data *)

(** [take_kde], on the offset. *)
Definition take_kde (bytes : list Z) : M Z Wpa2Error.t (option (Z * list Z)) :=
  offset ← get;
  if len bytes <=? offset then mret None
  else
    element_id ← lift (index bytes offset);
    if element_id =? 0 then mret None
    else if len bytes - offset <? 2 then throw Wpa2Error.MissingGroupKey
    else
      n ← lift (index bytes (offset + 1));
      if n =? 0 then mret None
      else
        let body_start := offset + 2 in
        if len bytes - body_start <? n then throw Wpa2Error.MissingGroupKey
        else
          let end_ := body_start + n in
          body ← lift (subslice bytes body_start end_);
          modify (fun _ => end_);;
          mret (Some (element_id, body)).

Record GtkKde : Type := mkGtkKde { gtk_key_index : Z; gtk_key : list Z }.

Definition parse_gtk_body (body : list Z) : res Wpa2Error.t GtkKde :=
  if negb (len body =? 22) then Err Wpa2Error.InvalidEncryptedKeyData
  else
    flags ← index body 4;
    reserved ← index body 5;
    if negb (Z.land flags 0xf8 =? 0) || negb (reserved =? 0)
    then Err Wpa2Error.InvalidEncryptedKeyData
    else
      key ← subslice body 6 (len body);
      Ok (mkGtkKde (Z.land flags 0x03) key).

(** [while let Some(..) = take_kde(..)?]: every round advances the offset, so
    the length of the data bounds the rounds. *)
Fixpoint parse_gtk_loop (fuel : nat) (bytes : list Z) : M Z Wpa2Error.t GtkKde :=
  match fuel with
  | O => throw Wpa2Error.MissingGroupKey
  | Datatypes.S fuel =>
      o ← take_kde bytes;
      match o with
      | None => throw Wpa2Error.MissingGroupKey
      | Some (element_id, body) =>
          if (element_id =? 0xdd) && bool_decide (take 4 body = GTK_KDE_OUI_TYPE)
          then lift (parse_gtk_body body)
          else parse_gtk_loop fuel bytes
      end
  end.

Definition parse_gtk_kde (bytes : list Z) : res Wpa2Error.t GtkKde :=
  fst (parse_gtk_loop (S (length bytes)) bytes 0).

(** ** AES key unwrap *)

Definition validate_wrapped_key_lengths (encrypted out : list Z) : res Wpa2Error.t Z :=
  if (len encrypted <? 24) || negb (Z.land (len encrypted) 7 =? 0)
  then Err Wpa2Error.InvalidEncryptedKeyData
  else
    let plain_len := len encrypted - 8 in
    if len out <? plain_len then Err Wpa2Error.OutputTooSmall else Ok plain_len.

(** One step of the loop; the state is the accumulator and the blocks. *)
Definition unwrap_step `{Aes128} (kek : list Z) (n : Z) (a_out : list Z * list Z)
    (round_index : Z * Z) : list Z * list Z :=
  let '(a, out) := a_out in
  let '(round, index) := round_index in
  let t_bytes := to_be 8 (n * round + index) in
  let start := (index - 1) * 8 in
  let block := zip_with Z.lxor a t_bytes ++ take 8 (drop (Z.to_nat start) out) in
  let block := aes128_decrypt kek block in
  (take 8 block, splice out start (drop 8 block)).

(** [for round in (0..=5).rev() { for index in (1..=n).rev() { .. } }] *)
Definition unwrap_rounds (n : Z) : list (Z * Z) :=
  flat_map (fun round => map (fun index => (round, index)) (rev (map Z.of_nat (seq 1 (Z.to_nat n)))))
    [5; 4; 3; 2; 1; 0].

Definition unwrap_key_blocks `{Aes128} (kek : list Z) (n : Z) (a out : list Z) : list Z * list Z :=
  foldl (unwrap_step kek n) (a, out) (unwrap_rounds n).

(** Works on the caller's buffer [out] and returns the length. *)
Definition aes_key_unwrap `{Aes128} (kek encrypted : list Z) : M (list Z) Wpa2Error.t Z :=
  out ← get;
  plain_len ← lift (validate_wrapped_key_lengths encrypted out);
  let n := plain_len / 8 in
  let '(a, plain) :=
    unwrap_key_blocks kek n (take 8 encrypted) (drop 8 encrypted) in
  if negb (bool_decide (a = AES_KEY_WRAP_IV)) then
    modify (fun out => splice out 0 (zeros plain_len));;
    throw Wpa2Error.KeyUnwrapIntegrity
  else
    modify (fun out => splice out 0 plain);;
    mret plain_len.

Definition group_key_install `{Aes128} (frame : EapolKeyFrame) (ptk : list Z)
    : res Wpa2Error.t GroupKeyInstall :=
  match aes_key_unwrap (kek ptk) (ek_key_data frame) (zeros MAX_KEY_DATA_LEN) with
  | (Ok plain_len, plain) =>
      data ← subslice plain 0 plain_len;
      gtk ← parse_gtk_kde data;
      Ok (mkGroupKeyInstall (gtk_key_index gtk) (len (gtk_key gtk))
            (splice (zeros 32) 0 (gtk_key gtk)) (key_receive_sequence frame))
  | (Err e, _) => Err e
  | (Panic, _) => Panic
  end.

(** ** Responses *)

Definition build_response `{HmacSha1} (peer : list Z) (protocol_version key_info key_length
    replay_counter : Z) (nonce key_data ptk : list Z) : res Wpa2Error.t EapolTxFrame :=
  body_len ← ok_or (checked_add EAPOL_KEY_FIXED_BODY_LEN (len key_data)) Wpa2Error.FrameTooLarge;
  total ← ok_or (checked_add EAPOL_HEADER_LEN body_len) Wpa2Error.FrameTooLarge;
  if (MAX_EAPOL_FRAME_LEN <? total) || (65535 <? len key_data) then Err Wpa2Error.FrameTooLarge
  else
    let bytes := zeros MAX_EAPOL_FRAME_LEN in
    let bytes := splice bytes 0 [protocol_version] in
    let bytes := splice bytes 1 [EAPOL_PACKET_TYPE_KEY] in
    let bytes := splice bytes 2 (to_be 2 body_len) in
    let bytes := splice bytes 4 [RSN_KEY_DESCRIPTOR_TYPE] in
    let bytes := splice bytes 5 (to_be 2 key_info) in
    let bytes := splice bytes 7 (to_be 2 key_length) in
    let bytes := splice bytes 9 (to_be 8 replay_counter) in
    let bytes := splice bytes 17 nonce in
    let bytes := splice bytes KEY_DATA_LENGTH_OFFSET (to_be 2 (len key_data)) in
    let bytes := splice bytes KEY_DATA_OFFSET key_data in
    let mic := hmac_sha1 (kck ptk) (take (Z.to_nat total) bytes) in
    let bytes := splice bytes KEY_MIC_START (take 16 mic) in
    Ok (mkEapolTxFrame peer total bytes).

Definition MESSAGE2_INFO : Z :=
  Z.lor (Z.lor KEY_DESCRIPTOR_VERSION_HMAC_SHA1_AES KEY_INFO_PAIRWISE) KEY_INFO_MIC.
Definition MESSAGE4_INFO : Z := Z.lor MESSAGE2_INFO KEY_INFO_SECURE.
Definition GROUP2_INFO : Z :=
  Z.lor (Z.lor KEY_DESCRIPTOR_VERSION_HMAC_SHA1_AES KEY_INFO_MIC) KEY_INFO_SECURE.

Definition build_message2 `{HmacSha1} (peer : list Z) (protocol_version key_length replay_counter : Z)
    (supplicant_nonce rsn_ie ptk : list Z) : res Wpa2Error.t EapolTxFrame :=
  build_response peer protocol_version MESSAGE2_INFO key_length replay_counter supplicant_nonce
    rsn_ie ptk.
Definition build_message4 `{HmacSha1} (peer : list Z) (protocol_version key_length replay_counter : Z)
    (ptk : list Z) : res Wpa2Error.t EapolTxFrame :=
  build_response peer protocol_version MESSAGE4_INFO key_length replay_counter (zeros 32) [] ptk.
Definition build_group_message2 `{HmacSha1} (peer : list Z)
    (protocol_version key_length replay_counter : Z) (ptk : list Z) : res Wpa2Error.t EapolTxFrame :=
  build_response peer protocol_version GROUP2_INFO key_length replay_counter (zeros 32) [] ptk.

(** ** The RSN information element

    The readers move an offset into the body of the element. *)

Section rsn.
Local Abbreviation MO := (M Z Wpa2Error.t).
Local Abbreviation bad := Wpa2Error.InvalidRsnInformationElement.

Definition take_bytes (bytes : list Z) (n : Z) : MO (list Z) :=
  offset ← get;
  end_ ← lift (ok_or (checked_add offset n) bad);
  value ← lift (ok_or (slice bytes offset end_) bad);
  modify (fun _ => end_);;
  mret value.

Definition take_u16 (bytes : list Z) : MO Z :=
  value ← take_bytes bytes 2;
  b0 ← lift (index value 0);
  b1 ← lift (index value 1);
  mret (from_le [b0; b1]).

Definition take_suite (bytes : list Z) : MO (list Z) := take_bytes bytes 4.

Definition take_suite_bytes (bytes : list Z) (count : Z) : MO (list Z) :=
  byte_len ← lift (ok_or (checked_mul count 4) bad);
  take_bytes bytes byte_len.

Definition take_nonzero_suite_count (bytes : list Z) : MO Z :=
  count ← take_u16 bytes;
  if count =? 0 then throw bad else mret count.

(** [chunks_exact(4).any(|suite| suite == required)] *)
Definition has_suite (suites required : list Z) : bool :=
  existsb (fun suite => bool_decide (suite = required))
    (List.filter (fun suite => len suite =? 4) (chunks 4 suites)).

Definition take_required_suite_list (bytes required : list Z) : MO unit :=
  count ← take_nonzero_suite_count bytes;
  suites ← take_suite_bytes bytes count;
  if negb (has_suite suites required) then throw bad else mret tt.

Definition validate_fixed_rsn_fields (bytes : list Z) : MO unit :=
  version ← take_u16 bytes;
  if negb (version =? 1) then throw bad
  else
    suite ← take_suite bytes;
    if negb (bool_decide (suite = RSN_CIPHER_CCMP_SUITE)) then throw bad else mret tt.

Definition validate_rsn_capabilities (bytes : list Z) : MO unit :=
  capabilities ← take_u16 bytes;
  if has capabilities (Z.lor RSN_CAP_MFPR RSN_CAP_MFPC)
  then throw Wpa2Error.UnsupportedRsnCapabilities else mret tt.

Definition validate_optional_pmkid (bytes : list Z) : MO unit :=
  offset ← get;
  if offset =? len bytes then mret tt
  else
    pmkid_count ← take_u16 bytes;
    if negb (pmkid_count =? 0) then throw Wpa2Error.UnsupportedRsnCapabilities
    else
      offset ← get;
      if offset =? len bytes then mret tt else throw Wpa2Error.UnsupportedRsnCapabilities.

Definition validate_optional_rsn_fields (bytes : list Z) : MO unit :=
  offset ← get;
  if offset =? len bytes then mret tt
  else
    validate_rsn_capabilities bytes;;
    validate_optional_pmkid bytes.

Definition rsn_body (rsn_ie : list Z) : res Wpa2Error.t (list Z) :=
  if negb ((4 <=? len rsn_ie) && (len rsn_ie <=? MAX_RSN_IE_LEN)) then Err bad
  else
    id ← index rsn_ie 0;
    n ← index rsn_ie 1;
    if negb (id =? 0x30) || negb (n + 2 =? len rsn_ie) then Err bad
    else subslice rsn_ie 2 (len rsn_ie).

Definition validate_rsn_ie (rsn_ie : list Z) : res Wpa2Error.t unit :=
  body ← rsn_body rsn_ie;
  fst ((validate_fixed_rsn_fields body;;
        take_required_suite_list body RSN_CIPHER_CCMP_SUITE;;
        take_required_suite_list body RSN_AKM_PSK_SUITE;;
        validate_optional_rsn_fields body) 0).
End rsn.

(** ** The supplicant *)

Record Wpa2Supplicant : Type := mkWpa2Supplicant {
  ws_local : list Z;
  ws_peer : list Z;
  ws_phase : Wpa2Phase.t;
  ws_pmk : list Z;
  ws_ptk : option (list Z);
  ws_supplicant_nonce : list Z;
  ws_authenticator_nonce : list Z;
  ws_rsn_ie_len : Z;
  ws_rsn_ie : list Z;
  ws_message1_replay : option Z;
  ws_message1_digest : option (list Z);
  ws_completed_replay : option Z;
  ws_completed_message3_digest : option (list Z);
  ws_last_group_replay : option Z;
  ws_last_group_message1_digest : option (list Z);
  ws_pending_ticket : option (Z * Z * bool);
  ws_pending_frame_digest : option (list Z);
  ws_next_ticket : Z }.

(** The handshake's own variables, for assignments to several at once. *)
Section setters.
Implicit Types s : Wpa2Supplicant.
Definition set_phase (x : Wpa2Phase.t) s : Wpa2Supplicant :=
  mkWpa2Supplicant (ws_local s) (ws_peer s) x (ws_pmk s) (ws_ptk s) (ws_supplicant_nonce s)
    (ws_authenticator_nonce s) (ws_rsn_ie_len s) (ws_rsn_ie s) (ws_message1_replay s)
    (ws_message1_digest s) (ws_completed_replay s) (ws_completed_message3_digest s)
    (ws_last_group_replay s) (ws_last_group_message1_digest s) (ws_pending_ticket s)
    (ws_pending_frame_digest s) (ws_next_ticket s).
Definition set_supplicant_nonce (x : list Z) s : Wpa2Supplicant :=
  mkWpa2Supplicant (ws_local s) (ws_peer s) (ws_phase s) (ws_pmk s) (ws_ptk s) x
    (ws_authenticator_nonce s) (ws_rsn_ie_len s) (ws_rsn_ie s) (ws_message1_replay s)
    (ws_message1_digest s) (ws_completed_replay s) (ws_completed_message3_digest s)
    (ws_last_group_replay s) (ws_last_group_message1_digest s) (ws_pending_ticket s)
    (ws_pending_frame_digest s) (ws_next_ticket s).
(** The four assignments of [begin_message1]. *)
Definition set_message1 (nonce : list Z) (replay : Z) (digest ptk : list Z) s : Wpa2Supplicant :=
  mkWpa2Supplicant (ws_local s) (ws_peer s) (ws_phase s) (ws_pmk s) (Some ptk)
    (ws_supplicant_nonce s) nonce (ws_rsn_ie_len s) (ws_rsn_ie s) (Some replay) (Some digest)
    (ws_completed_replay s) (ws_completed_message3_digest s) (ws_last_group_replay s)
    (ws_last_group_message1_digest s) (ws_pending_ticket s) (ws_pending_frame_digest s)
    (ws_next_ticket s).
Definition set_pending (ticket : option (Z * Z * bool)) (digest : option (list Z)) s
    : Wpa2Supplicant :=
  mkWpa2Supplicant (ws_local s) (ws_peer s) (ws_phase s) (ws_pmk s) (ws_ptk s)
    (ws_supplicant_nonce s) (ws_authenticator_nonce s) (ws_rsn_ie_len s) (ws_rsn_ie s)
    (ws_message1_replay s) (ws_message1_digest s) (ws_completed_replay s)
    (ws_completed_message3_digest s) (ws_last_group_replay s) (ws_last_group_message1_digest s)
    ticket digest (ws_next_ticket s).
Definition set_next_ticket (x : Z) s : Wpa2Supplicant :=
  mkWpa2Supplicant (ws_local s) (ws_peer s) (ws_phase s) (ws_pmk s) (ws_ptk s)
    (ws_supplicant_nonce s) (ws_authenticator_nonce s) (ws_rsn_ie_len s) (ws_rsn_ie s)
    (ws_message1_replay s) (ws_message1_digest s) (ws_completed_replay s)
    (ws_completed_message3_digest s) (ws_last_group_replay s) (ws_last_group_message1_digest s)
    (ws_pending_ticket s) (ws_pending_frame_digest s) x.
Definition set_completed (replay : option Z) (digest : option (list Z)) s : Wpa2Supplicant :=
  mkWpa2Supplicant (ws_local s) (ws_peer s) (ws_phase s) (ws_pmk s) (ws_ptk s)
    (ws_supplicant_nonce s) (ws_authenticator_nonce s) (ws_rsn_ie_len s) (ws_rsn_ie s)
    (ws_message1_replay s) (ws_message1_digest s) replay digest (ws_last_group_replay s)
    (ws_last_group_message1_digest s) (ws_pending_ticket s) (ws_pending_frame_digest s)
    (ws_next_ticket s).
Definition set_group (replay : option Z) (digest : option (list Z)) s : Wpa2Supplicant :=
  mkWpa2Supplicant (ws_local s) (ws_peer s) (ws_phase s) (ws_pmk s) (ws_ptk s)
    (ws_supplicant_nonce s) (ws_authenticator_nonce s) (ws_rsn_ie_len s) (ws_rsn_ie s)
    (ws_message1_replay s) (ws_message1_digest s) (ws_completed_replay s)
    (ws_completed_message3_digest s) replay digest (ws_pending_ticket s)
    (ws_pending_frame_digest s) (ws_next_ticket s).

Definition clear_transient_state s : Wpa2Supplicant :=
  mkWpa2Supplicant (ws_local s) (ws_peer s) (ws_phase s) (ws_pmk s) None (zeros 32) (zeros 32)
    (ws_rsn_ie_len s) (ws_rsn_ie s) None None None None None None None None (ws_next_ticket s).
(** The assignments of [fail]. *)
Definition failed s : Wpa2Supplicant := set_phase Wpa2Phase.Failed (clear_transient_state s).
End setters.

Definition is_zero_nonce (nonce : list Z) : bool := forallb (fun value => value =? 0) nonce.

Definition validate_supplicant_nonce (nonce : list Z) : res Wpa2Error.t unit :=
  if is_zero_nonce nonce then Err Wpa2Error.InvalidSupplicantNonce else Ok tt.

Definition Wpa2Supplicant_new (local peer supplicant_nonce pmk rsn_ie : list Z)
    : res Wpa2Error.t Wpa2Supplicant :=
  validate_supplicant_nonce supplicant_nonce;;
  validate_rsn_ie rsn_ie;;
  Ok (mkWpa2Supplicant local peer Wpa2Phase.AwaitingMessage1 pmk None supplicant_nonce (zeros 32)
        (len rsn_ie) (splice (zeros MAX_RSN_IE_LEN) 0 rsn_ie) None None None None None None None
        None 1).

Definition pending_message (group : bool) : EapolKeyMessage.t :=
  if group then EapolKeyMessage.GroupMessage1 else EapolKeyMessage.PairwiseMessage3.

Definition is_pairwise_handshake_message (message : EapolKeyMessage.t) : bool :=
  match message with
  | EapolKeyMessage.PairwiseMessage1 | EapolKeyMessage.PairwiseMessage3 => true
  | _ => false
  end.

Definition require_encrypted_key_data (frame : EapolKeyFrame) : res Wpa2Error.t unit :=
  if encrypted_key_data (ek_key_info frame) && negb (len (ek_key_data frame) =? 0)
  then Ok tt else Err Wpa2Error.MissingEncryptedKeyData.

Section supplicant.
Context `{Sha256} `{HmacSha1} `{Aes128}.
Local Notation "'MW' A" := (M Wpa2Supplicant Wpa2Error.t A) (at level 10, A at next level).

Definition fail {A} (error : Wpa2Error.t) : MW A := modify failed;; throw error.

(** [fail_on_wpa2_error!] *)
Definition fail_on {A} (r : res Wpa2Error.t A) : MW A :=
  match r with Ok a => mret a | Err e => fail e | Panic => lift Panic end.

(** [self.ptk.as_ref().ok_or(Wpa2Error::InvalidPhase)?] *)
Definition require_ptk : MW (list Z) :=
  s ← get; lift (ok_or (ws_ptk s) Wpa2Error.InvalidPhase).

Definition validate_message3_authenticator (frame : EapolKeyFrame) (ptk authenticator_nonce : list Z)
    : res Wpa2Error.t unit :=
  if negb (bool_decide (ek_nonce frame = authenticator_nonce))
  then Err Wpa2Error.InvalidAuthenticatorNonce
  else if negb (verify_mic frame ptk) then Err Wpa2Error.InvalidMic
  else Ok tt.

Definition restart_pairwise (supplicant_nonce : list Z) : MW unit :=
  lift (validate_supplicant_nonce supplicant_nonce);;
  s ← get;
  if is_some (ws_pending_ticket s) then throw Wpa2Error.Busy
  else
    modify clear_transient_state;;
    modify (set_supplicant_nonce supplicant_nonce);;
    modify (set_phase Wpa2Phase.AwaitingMessage1).

Definition validate_frame (frame : EapolKeyFrame) : MW EapolKeyMessage.t :=
  let version := descriptor_version (ek_key_info frame) in
  if negb (version =? u8 KEY_DESCRIPTOR_VERSION_HMAC_SHA1_AES)
  then fail (Wpa2Error.UnsupportedDescriptorVersion version)
  else
    let message := ek_message frame in
    if is_pairwise_handshake_message message && negb (key_length frame =? u16 CCMP_KEY_LEN)
    then fail (Wpa2Error.InvalidPairwiseKeyLength (key_length frame))
    else mret message.

(** [Some result] of the code is the early return of [on_eapol]. *)
Definition handle_pending_frame (frame : EapolKeyFrame) (message : EapolKeyMessage.t)
    : MW (option Wpa2Action.t) :=
  s ← get;
  match ws_pending_ticket s with
  | Some (_, replay, group) =>
      if negb (replay_counter frame =? replay) then throw Wpa2Error.Busy
      else if bool_decide (message = pending_message group)
              && bool_decide (ws_pending_frame_digest s = Some (ek_digest frame))
      then mret (Some Wpa2Action.None)
      else fail Wpa2Error.ConflictingRetransmission
  | None => mret None
  end.

Definition message2_action (frame : EapolKeyFrame) : MW Wpa2Action.t :=
  s ← get;
  ptk ← require_ptk;
  rsn_ie ← lift (expect (slice (ws_rsn_ie s) 0 (ws_rsn_ie_len s)));
  response ← lift (build_message2 (ws_peer s) (protocol_version frame) (key_length frame)
    (replay_counter frame) (ws_supplicant_nonce s) rsn_ie ptk);
  mret (Wpa2Action.Transmit response).

Definition handle_message1_after_completion (replay : Z) (nonce : list Z) : MW Wpa2Action.t :=
  s ← get;
  if bool_decide (ws_completed_replay s = Some replay)
     && bool_decide (ws_authenticator_nonce s = nonce)
  then fail Wpa2Error.ConflictingRetransmission
  else throw Wpa2Error.NewPairwiseHandshakeRequiresNonce.

Definition handle_repeated_message1 (frame : EapolKeyFrame) (previous : Z) (nonce digest : list Z)
    : MW Wpa2Action.t :=
  s ← get;
  if replay_counter frame <? previous then fail Wpa2Error.StaleReplayCounter
  else if previous <? replay_counter frame then throw Wpa2Error.NewPairwiseHandshakeRequiresNonce
  else if negb (bool_decide (ws_authenticator_nonce s = nonce))
          || negb (bool_decide (ws_message1_digest s = Some digest))
  then fail Wpa2Error.ConflictingRetransmission
  else message2_action frame.

Definition begin_message1 (frame : EapolKeyFrame) (replay : Z) (nonce digest : list Z)
    : MW Wpa2Action.t :=
  modify (fun s => set_message1 nonce replay digest
    (derive_ptk (ws_pmk s) (ws_peer s) (ws_local s) nonce (ws_supplicant_nonce s)) s);;
  modify (set_phase Wpa2Phase.AwaitingMessage3);;
  message2_action frame.

Definition on_message1 (frame : EapolKeyFrame) : MW Wpa2Action.t :=
  if negb (len (ek_key_data frame) =? 0) then fail Wpa2Error.UnsupportedMessage
  else
    let replay := replay_counter frame in
    let nonce := ek_nonce frame in
    let digest := ek_digest frame in
    if is_zero_nonce nonce then fail Wpa2Error.InvalidAuthenticatorNonce
    else
      s ← get;
      match ws_phase s with
      | Wpa2Phase.Complete => handle_message1_after_completion replay nonce
      | Wpa2Phase.AwaitingMessage1 | Wpa2Phase.AwaitingMessage3 =>
          match ws_message1_replay s with
          | Some previous => handle_repeated_message1 frame previous nonce digest
          | None => begin_message1 frame replay nonce digest
          end
      | _ => fail Wpa2Error.InvalidPhase
      end.

Definition start_key_install (replay : Z) (group : bool) (digest : list Z) : MW Z :=
  s ← get;
  let ticket := ws_next_ticket s in
  modify (set_next_ticket (Z.max (u32 (ticket + 1)) 1));;
  modify (set_pending (Some (ticket, replay, group)) (Some digest));;
  mret ticket.

Definition handle_completed_message3 (frame : EapolKeyFrame) (digest : list Z) : MW Wpa2Action.t :=
  s ← get;
  if negb (bool_decide (ws_completed_replay s = Some (replay_counter frame)))
  then fail Wpa2Error.StaleReplayCounter
  else if negb (bool_decide (ws_completed_message3_digest s = Some digest))
  then fail Wpa2Error.ConflictingRetransmission
  else
    ptk ← require_ptk;
    response ← lift (build_message4 (ws_peer s) (protocol_version frame) (key_length frame)
                       (replay_counter frame) ptk);
    mret (Wpa2Action.Transmit response).

Definition validate_new_message3 (frame : EapolKeyFrame) (s : Wpa2Supplicant)
    : res Wpa2Error.t unit :=
  if negb (bool_decide (ws_phase s = Wpa2Phase.AwaitingMessage3)) then Err Wpa2Error.InvalidPhase
  else
    message1_replay ← ok_or (ws_message1_replay s) Wpa2Error.InvalidPhase;
    if replay_counter frame <=? message1_replay then Err Wpa2Error.StaleReplayCounter
    else require_encrypted_key_data frame.

Definition on_message3 (frame : EapolKeyFrame) : MW Wpa2Action.t :=
  let digest := ek_digest frame in
  ptk ← require_ptk;
  s ← get;
  fail_on (validate_message3_authenticator frame ptk (ws_authenticator_nonce s));;
  let replay := replay_counter frame in
  if bool_decide (ws_phase s = Wpa2Phase.Complete) then handle_completed_message3 frame digest
  else
    fail_on (validate_new_message3 frame s);;
    group ← lift (group_key_install frame ptk);
    let pairwise := mkPairwiseKeyInstall (ws_peer s) (temporal_key ptk) in
    response ← lift (build_message4 (ws_peer s) (protocol_version frame) (key_length frame) replay ptk);
    ticket ← start_key_install replay false digest;
    modify (set_phase Wpa2Phase.InstallingKeys);;
    mret (Wpa2Action.InstallKeys (mkKeyInstallRequest ticket replay pairwise group response)).

Definition validate_new_group_message1 (frame : EapolKeyFrame) (s : Wpa2Supplicant)
    : res Wpa2Error.t unit :=
  let replay := replay_counter frame in
  if replay <=? default 0 (ws_completed_replay s) then Err Wpa2Error.StaleReplayCounter
  else
    ptk ← ok_or (ws_ptk s) Wpa2Error.InvalidPhase;
    if negb (verify_mic frame ptk) then Err Wpa2Error.InvalidMic
    else require_encrypted_key_data frame.

Definition handle_repeated_group_message1 (frame : EapolKeyFrame) (digest : list Z)
    : MW Wpa2Action.t :=
  s ← get;
  ptk ← require_ptk;
  if negb (verify_mic frame ptk) then fail Wpa2Error.InvalidMic
  else if negb (bool_decide (ws_last_group_message1_digest s = Some digest))
  then fail Wpa2Error.ConflictingRetransmission
  else
    response ← lift (build_group_message2 (ws_peer s) (protocol_version frame) (key_length frame)
                       (replay_counter frame) ptk);
    mret (Wpa2Action.Transmit response).

Definition on_group_message1 (frame : EapolKeyFrame) : MW Wpa2Action.t :=
  s ← get;
  if negb (bool_decide (ws_phase s = Wpa2Phase.Complete)) then fail Wpa2Error.InvalidPhase
  else
    let digest := ek_digest frame in
    let replay := replay_counter frame in
    if bool_decide (ws_last_group_replay s = Some replay)
    then handle_repeated_group_message1 frame digest
    else
      fail_on (validate_new_group_message1 frame s);;
      ptk ← require_ptk;
      group ← lift (group_key_install frame ptk);
      response ← lift (build_group_message2 (ws_peer s) (protocol_version frame) (key_length frame)
                         replay ptk);
      ticket ← start_key_install replay true digest;
      mret (Wpa2Action.InstallGroupKey (mkGroupKeyInstallRequest ticket replay group response)).

Definition dispatch_eapol (frame : EapolKeyFrame) (message : EapolKeyMessage.t) : MW Wpa2Action.t :=
  match message with
  | EapolKeyMessage.PairwiseMessage1 => on_message1 frame
  | EapolKeyMessage.PairwiseMessage3 => on_message3 frame
  | EapolKeyMessage.GroupMessage1 => on_group_message1 frame
  | _ => fail Wpa2Error.UnsupportedMessage
  end.

Definition on_eapol (peer bytes : list Z) : MW Wpa2Action.t :=
  s ← get;
  if negb (bool_decide (peer = ws_peer s)) then fail Wpa2Error.WrongPeer
  else
    frame ← lift (EapolKeyFrame_parse bytes);
    message ← validate_frame frame;
    pending ← handle_pending_frame frame message;
    match pending with
    | Some action => mret action
    | None => dispatch_eapol frame message
    end.

Definition accept_key_completion (ticket replay : Z) (group installed : bool) : MW (list Z) :=
  s ← get;
  if negb (bool_decide (ws_pending_ticket s = Some (ticket, replay, group)))
  then fail Wpa2Error.StaleCompletion
  else
    match ws_pending_frame_digest s with
    | None => fail Wpa2Error.StaleCompletion
    | Some digest =>
        modify (set_pending None None);;
        if negb installed then fail Wpa2Error.InstallFailed else mret digest
    end.

Definition complete_key_install (request : Wpa2KeyInstallRequest) (installed : bool)
    : MW EapolTxFrame :=
  digest ← accept_key_completion (ki_ticket request) (ki_replay_counter request) false installed;
  modify (set_completed (Some (ki_replay_counter request)) (Some digest));;
  modify (set_phase Wpa2Phase.Complete);;
  mret (ki_response request).

Definition complete_group_key_install (request : Wpa2GroupKeyInstallRequest) (installed : bool)
    : MW EapolTxFrame :=
  digest ← accept_key_completion (gi_ticket request) (gi_replay_counter request) true installed;
  modify (fun s => set_completed (Some (gi_replay_counter request)) (ws_completed_message3_digest s) s);;
  modify (set_group (Some (gi_replay_counter request)) (Some digest));;
  modify (set_phase Wpa2Phase.Complete);;
  mret (gi_response request).
End supplicant.

(** * Lemmas *)

(** ** Big-endian fields *)

Lemma len_to_be n v : len (to_be n v) = Z.of_nat n.
Proof. unfold to_be, len. by rewrite length_rev, length_to_le. Qed.
#[export] Hint Rewrite @len_to_be : len.

Lemma from_be_to_be n v : in_u (8 * Z.of_nat n) v -> from_be (to_be n v) = v.
Proof. intros Hv. unfold from_be, to_be. rewrite rev_involutive. by apply from_le_to_le_id. Qed.

Lemma to_be_bytes n v : bytes_ok (to_be n v).
Proof. unfold to_be, bytes_ok. apply Forall_rev, to_le_bytes. Qed.

Lemma from_be_bound l : bytes_ok l -> 0 <= from_be l < 2 ^ (8 * len l).
Proof.
  intros Hl. unfold from_be. assert (len l = len (rev l)) as -> by (unfold len; by rewrite length_rev).
  apply from_le_bound. by apply Forall_rev.
Qed.

(** The field at [a] of a list that has it there. *)
Lemma take_drop_mid {A} (l k r : list A) (a n : nat) :
  a = length l -> n = length k -> take n (drop a (l ++ k ++ r)) = k.
Proof. intros -> ->. by rewrite drop_app_length, take_app_length. Qed.

Lemma read_be16_take {E} l i :
  0 <= i -> i + 2 <= len l ->
  @read_be16 E l i = Ok (from_be (take 2 (drop (Z.to_nat i) l))).
Proof.
  intros Hi Hl. pose proof (slice_in l i (i + 2) ltac:(lia) ltac:(lia)) as Hs.
  replace (Z.to_nat (i + 2 - i)) with 2%nat in Hs by lia.
  set (s := take 2 (drop (Z.to_nat i) l)) in *.
  assert (len s = 2) as Hsl by (unfold s; rewrite len_take, len_drop; lia).
  unfold read_be16. destruct s as [|b0 [|b1 [|]]]; try (unfold len in Hsl; cbn in Hsl; lia).
  pose proof (index_slice (E:=E) l i (i + 2) _ 0 Hs) as H0.
  pose proof (index_slice (E:=E) l i (i + 2) _ 1 Hs) as H1.
  rewrite Z.add_0_r in H0. rewrite H0, H1 by (unfold len; cbn; lia). reflexivity.
Qed.

(** Writing at the end of what has been written. *)
Lemma splice_append d v a m :
  a = len d -> len v <= m -> splice (d ++ zeros m) a v = (d ++ v) ++ zeros (m - len v).
Proof.
  intros -> Hm. pose proof (len_nonneg v).
  assert (zeros m = zeros (len v) ++ zeros (m - len v)) as ->.
  { unfold zeros. rewrite <-replicate_add. f_equal. lia. }
  rewrite <-app_assoc. apply splice_mid.
  unfold zeros. rewrite length_replicate. unfold len. lia.
Qed.

(** ** Responses *)

(** A frame of the given fields; the checksum field as given. *)
Definition eapol_head (version key_info key_length replay : Z) (nonce : list Z) (data_len : Z)
    : list Z :=
  [version; EAPOL_PACKET_TYPE_KEY] ++ to_be 2 (95 + data_len) ++ [RSN_KEY_DESCRIPTOR_TYPE]
  ++ to_be 2 key_info ++ to_be 2 key_length ++ to_be 8 replay ++ nonce ++ zeros 32.
Definition eapol_bytes (version key_info key_length replay : Z) (nonce mic key_data : list Z)
    : list Z :=
  eapol_head version key_info key_length replay nonce (len key_data) ++ mic
  ++ to_be 2 (len key_data) ++ key_data.

(** The frame with its checksum. *)
Definition signed_eapol `{HmacSha1} (version key_info key_length replay : Z)
    (nonce key_data ptk : list Z) : list Z :=
  eapol_bytes version key_info key_length replay nonce
    (take 16 (hmac_sha1 (kck ptk)
       (eapol_bytes version key_info key_length replay nonce (zeros 16) key_data))) key_data.

Lemma len_eapol_head v ki kl r nonce n : len nonce = 32 -> len (eapol_head v ki kl r nonce n) = 81.
Proof. intros Hn. unfold eapol_head. len_solve. Qed.

Lemma len_eapol_bytes v ki kl r nonce mic data :
  len nonce = 32 -> len mic = 16 -> len (eapol_bytes v ki kl r nonce mic data) = 99 + len data.
Proof.
  intros Hn Hm. unfold eapol_bytes. rewrite !len_app, len_eapol_head by done. len_solve.
Qed.

Lemma eapol_bytes_ok v ki kl r nonce mic data :
  is_byte v -> bytes_ok nonce -> bytes_ok mic -> bytes_ok data ->
  bytes_ok (eapol_bytes v ki kl r nonce mic data).
Proof.
  intros Hv Hn Hm Hd.
  assert (forall l k, bytes_ok l -> bytes_ok k -> bytes_ok (l ++ k)) as Happ
    by (intros; by apply Forall_app_2).
  unfold eapol_bytes, eapol_head.
  repeat match goal with |- bytes_ok (_ ++ _) => apply Happ end;
    try apply to_be_bytes; try done; try (by apply bytes_okb_ok).
  constructor; [done|by apply bytes_okb_ok].
Qed.

Lemma len_mic `{HmacSha1} key data : len (take 16 (hmac_sha1 key data)) = 16.
Proof. rewrite len_take. pose proof (hmac_sha1_len key data). lia. Qed.

(** The assignments of [build_response] before the checksum. *)
Lemma response_fields v ki kl r nonce data :
  len nonce = 32 -> len data <= 413 ->
  splice (splice (splice (splice (splice (splice (splice (splice (splice (splice
    (zeros 512) 0 [v]) 1 [EAPOL_PACKET_TYPE_KEY]) 2 (to_be 2 (95 + len data)))
    4 [RSN_KEY_DESCRIPTOR_TYPE]) 5 (to_be 2 ki)) 7 (to_be 2 kl)) 9 (to_be 8 r)) 17 nonce)
    KEY_DATA_LENGTH_OFFSET (to_be 2 (len data))) KEY_DATA_OFFSET data
  = eapol_bytes v ki kl r nonce (zeros 16) data ++ zeros (413 - len data).
Proof.
  intros Hn Hd. pose proof (len_nonneg data) as Hpos.
  change (zeros 512) with ([] ++ zeros 512).
  rewrite (splice_append [] [v]) by len_solve. do 7 (rewrite splice_append by len_solve).
  match goal with |- splice (splice (?d ++ zeros ?m) _ _) _ _ = _ =>
    assert (zeros m = zeros 48 ++ zeros 415) as -> end.
  { unfold zeros. rewrite <-replicate_add. f_equal. len_solve. }
  rewrite app_assoc. do 2 (rewrite splice_append by (unfold KEY_DATA_LENGTH_OFFSET, KEY_DATA_OFFSET; len_solve)).
  unfold eapol_bytes, eapol_head. change (zeros 48) with (zeros 32 ++ zeros 16).
  rewrite <-!app_assoc. cbn [app]. repeat f_equal.
Qed.

Lemma build_response_spec `{HmacSha1} peer v ki kl r nonce data ptk :
  len nonce = 32 -> len data <= 413 ->
  exists f, build_response peer v ki kl r nonce data ptk = Ok f
    /\ tx_peer f = peer /\ tx_slice f = signed_eapol v ki kl r nonce data ptk.
Proof.
  intros Hn Hd. pose proof (len_nonneg data) as Hpos.
  unfold build_response, checked_add, USIZE_MAX, EAPOL_KEY_FIXED_BODY_LEN, EAPOL_HEADER_LEN,
    MAX_EAPOL_FRAME_LEN.
  rewrite (proj2 (Z.leb_le (95 + _) _)) by lia. cbn [ok_or mbind res_bind].
  rewrite (proj2 (Z.leb_le (4 + _) _)) by lia. cbn [ok_or mbind res_bind].
  rewrite (proj2 (Z.ltb_ge _ (4 + _))), (proj2 (Z.ltb_ge _ (len data))) by lia. cbn [orb].
  rewrite response_fields by done.
  eexists. split; [reflexivity|]. split; [reflexivity|]. unfold tx_slice. cbn [tx_len tx_bytes].
  set (body := eapol_bytes v ki kl r nonce (zeros 16) data).
  assert (len body = 99 + len data) as Hbl by (by apply len_eapol_bytes).
  replace (Z.to_nat (4 + (95 + len data))) with (length body) by (unfold len in *; lia).
  rewrite take_app_length. unfold signed_eapol. fold body.
  set (mic := take 16 (hmac_sha1 (kck ptk) body)).
  assert (len mic = 16) as Hmic by apply len_mic.
  assert (length mic = length (zeros 16)) as Hml
    by (unfold zeros; rewrite length_replicate; unfold len in Hmic; lia).
  assert (splice (body ++ zeros (413 - len data)) KEY_MIC_START mic
          = eapol_bytes v ki kl r nonce mic data ++ zeros (413 - len data)) as ->.
  { unfold body, eapol_bytes. rewrite <-!app_assoc.
    replace KEY_MIC_START with (len (eapol_head v ki kl r nonce (len data)))
      by (by rewrite len_eapol_head).
    by rewrite splice_mid. }
  replace (length body) with (length (eapol_bytes v ki kl r nonce mic data)).
  - by rewrite take_app_length.
  - pose proof (len_eapol_bytes v ki kl r nonce mic data Hn Hmic) as Hl. unfold len in Hl, Hbl. lia.
Qed.

(** ** Parsing *)

(** The two bytes at [i]. *)
Definition be16_at (bytes : list Z) (i : Z) : Z := from_be (take 2 (drop (Z.to_nat i) bytes)).

(** The frames the parser accepts. *)
Definition eapol_ok (bytes : list Z) : Prop :=
  99 <= len bytes <= 512
  /\ (nthZ bytes 0 = Some 1 \/ nthZ bytes 0 = Some 2)
  /\ nthZ bytes 1 = Some EAPOL_PACKET_TYPE_KEY
  /\ be16_at bytes 2 = len bytes - 4
  /\ nthZ bytes 4 = Some RSN_KEY_DESCRIPTOR_TYPE
  /\ be16_at bytes 97 = len bytes - 99.
Definition frame_of (bytes : list Z) : EapolKeyFrame :=
  mkEapolKeyFrame bytes (be16_at bytes 5) (drop 99 bytes).

Lemma be16_at_bound bytes i : bytes_ok bytes -> 0 <= be16_at bytes i < 65536.
Proof.
  intros Hb. unfold be16_at. pose proof (from_be_bound (take 2 (drop (Z.to_nat i) bytes))) as Hf.
  pose proof (len_nonneg (drop (Z.to_nat i) bytes)). rewrite len_take in Hf.
  assert (bytes_ok (take 2 (drop (Z.to_nat i) bytes))) as Ht by (by apply Forall_take, Forall_drop).
  specialize (Hf Ht). split; [apply Hf|]. eapply Z.lt_le_trans; [apply Hf|].
  change 65536 with (2 ^ 16). apply Z.pow_le_mono_r; lia.
Qed.

Lemma index_nthZ {E} l i :
  0 <= i < len l -> exists b, @index E l i = Ok b /\ nthZ l i = Some b.
Proof.
  intros Hi. destruct (nthZ_in l i Hi) as [b Hb]. exists b. unfold index. by rewrite Hb.
Qed.

Lemma eapol_parse_spec bytes :
  bytes_ok bytes ->
  match EapolKeyFrame_parse bytes with
  | Ok f => eapol_ok bytes /\ f = frame_of bytes
  | Err _ => ~ eapol_ok bytes
  | Panic => False
  end.
Proof.
  intros Hb. unfold EapolKeyFrame_parse, validate_eapol_size, validate_eapol_header,
    eapol_total_length, eapol_key_data_end, checked_add, USIZE_MAX, EAPOL_HEADER_LEN,
    EAPOL_KEY_FIXED_BODY_LEN.
  change EAPOL_KEY_MIN_LEN with 99. change MAX_EAPOL_FRAME_LEN with 512.
  change KEY_DATA_OFFSET with 99. change KEY_DATA_LENGTH_OFFSET with 97. unfold eapol_ok.
  destruct (len bytes <? 99) eqn:H1; cbn [mbind res_bind]; [intros []; lia|].
  destruct (512 <? len bytes) eqn:H2; cbn [mbind res_bind]; [intros []; lia|].
  destruct (@index_nthZ Wpa2Error.t bytes 0) as (v & -> & ->); [lia|].
  destruct (@index_nthZ Wpa2Error.t bytes 1) as (ty & -> & ->); [lia|].
  destruct (@index_nthZ Wpa2Error.t bytes 4) as (d & -> & ->); [lia|]. cbn [mbind res_bind].
  destruct ((v =? 1) || (v =? 2)) eqn:Hv; cbn [negb mbind res_bind].
  2: { apply orb_false_iff in Hv as [? ?]. intros (_ & [[= ?]|[= ?]] & _); lia. }
  destruct (ty =? EAPOL_PACKET_TYPE_KEY) eqn:Hty; cbn [negb mbind res_bind];
    [|intros (_ & _ & [= ?] & _); lia].
  destruct (d =? RSN_KEY_DESCRIPTOR_TYPE) eqn:Hd; cbn [negb mbind res_bind];
    [|intros (_ & _ & _ & _ & [= ?] & _); lia].
  rewrite !read_be16_take by lia. fold (be16_at bytes 2) (be16_at bytes 97) (be16_at bytes 5).
  cbn [mbind res_bind].
  pose proof (be16_at_bound bytes 2 Hb). pose proof (be16_at_bound bytes 97 Hb).
  rewrite !(proj2 (Z.leb_le (_ + _) _)) by lia. cbn [ok_or mbind res_bind].
  destruct (negb (4 + be16_at bytes 2 =? len bytes) || (be16_at bytes 2 <? 95)) eqn:Hl;
    cbn [mbind res_bind]; [intros (_ & _ & _ & ? & _ & ?); lia|].
  destruct (99 + be16_at bytes 97 =? 4 + be16_at bytes 2) eqn:Hk; cbn [negb];
    [|intros (_ & _ & _ & ? & _ & ?); lia].
  unfold subslice. rewrite slice_in by lia. cbn [expect mbind res_bind].
  split.
  - split; [lia|]. split; [|split_and!; try lia; f_equal; lia].
    apply orb_true_iff in Hv as [->%Z.eqb_eq| ->%Z.eqb_eq]; auto.
  - unfold frame_of. do 2 f_equal. apply take_ge. rewrite length_drop. unfold len in *. lia.
Qed.

Lemma eapol_parse_ok bytes :
  bytes_ok bytes -> eapol_ok bytes -> EapolKeyFrame_parse bytes = Ok (frame_of bytes).
Proof.
  intros Hb Hok. pose proof (eapol_parse_spec bytes Hb) as Hp.
  destruct (EapolKeyFrame_parse bytes) as [f|e|]; [|done..]. by destruct Hp as [_ ->].
Qed.

(** The fields of a frame built from its parts. *)
Lemma eapol_bytes_fields v ki kl r nonce mic data :
  v = 1 \/ v = 2 -> in_u 16 ki -> in_u 16 kl -> in_u 64 r -> len nonce = 32 -> len mic = 16 ->
  len data <= 413 ->
  let bytes := eapol_bytes v ki kl r nonce mic data in
  eapol_ok bytes /\ ek_key_info (frame_of bytes) = ki /\ ek_key_data (frame_of bytes) = data
  /\ protocol_version (frame_of bytes) = v /\ key_length (frame_of bytes) = kl
  /\ replay_counter (frame_of bytes) = r /\ ek_nonce (frame_of bytes) = nonce
  /\ ek_mic (frame_of bytes) = mic
  /\ take 81 bytes = eapol_head v ki kl r nonce (len data)
  /\ drop 97 bytes = to_be 2 (len data) ++ data.
Proof.
  intros Hv Hki Hkl Hr Hn Hm Hd bytes. pose proof (len_nonneg data) as Hpos.
  assert (len bytes = 99 + len data) as Hlen by (by apply len_eapol_bytes).
  pose proof (len_eapol_head v ki kl r nonce (len data) Hn) as Hhead.
  assert (length nonce = 32%nat) as Hn' by (by rewrite length_len, Hn).
  assert (length mic = 16%nat) as Hm' by (by rewrite length_len, Hm).
  assert (length (eapol_head v ki kl r nonce (len data)) = 81%nat) as Hh' by (by rewrite length_len, Hhead).
  assert (drop 81 bytes = mic ++ to_be 2 (len data) ++ data) as H81
    by (unfold bytes, eapol_bytes; by rewrite drop_app_length').
  assert (take 81 bytes = eapol_head v ki kl r nonce (len data)) as T81
    by (unfold bytes, eapol_bytes; by apply take_app_length').
  assert (drop 97 bytes = to_be 2 (len data) ++ data) as H97.
  { change 97%nat with (81 + 16)%nat. rewrite <-drop_drop, H81. by rewrite drop_app_length'. }
  assert (drop 99 bytes = data) as H99.
  { change 99%nat with (97 + 2)%nat. rewrite <-drop_drop, H97. by rewrite drop_app_length'. }
  assert (forall (pre k post : list Z) (a n : nat), bytes = pre ++ k ++ post -> a = length pre ->
            n = length k -> take n (drop a bytes) = k) as Hfield
    by (intros pre k post a n -> ? ?; by apply take_drop_mid).
  assert (bytes = [v; EAPOL_PACKET_TYPE_KEY] ++ to_be 2 (95 + len data) ++ [RSN_KEY_DESCRIPTOR_TYPE]
    ++ to_be 2 ki ++ to_be 2 kl ++ to_be 8 r ++ nonce
    ++ zeros 32 ++ mic ++ to_be 2 (len data) ++ data) as Hflat
    by (unfold bytes, eapol_bytes, eapol_head; by rewrite <-!app_assoc).
  set (n := len data) in *. clearbody bytes.
  set (pre := [v; EAPOL_PACKET_TYPE_KEY] ++ to_be 2 (95 + n) ++ [RSN_KEY_DESCRIPTOR_TYPE]).
  assert (take 2 (drop 2 bytes) = to_be 2 (95 + n)) as F2
    by (by apply (Hfield [v; EAPOL_PACKET_TYPE_KEY] _ _ _ _ Hflat)).
  assert (take 2 (drop 5 bytes) = to_be 2 ki) as F5 by (by apply (Hfield pre _ _ _ _ Hflat)).
  assert (take 2 (drop 7 bytes) = to_be 2 kl) as F7
    by (by apply (Hfield (pre ++ to_be 2 ki) _ _ _ _ Hflat)).
  assert (take 8 (drop 9 bytes) = to_be 8 r) as F9
    by (by apply (Hfield (pre ++ to_be 2 ki ++ to_be 2 kl) _ _ _ _ Hflat)).
  assert (take 32 (drop 17 bytes) = nonce) as F17
    by (by apply (Hfield (pre ++ to_be 2 ki ++ to_be 2 kl ++ to_be 8 r) _ _ _ _ Hflat)).
  assert (be16_at bytes 2 = 95 + n) as H2.
  { unfold be16_at. change (Z.to_nat 2) with 2%nat. rewrite F2. apply from_be_to_be. unfold in_u. lia. }
  assert (be16_at bytes 97 = n) as Hn97.
  { unfold be16_at. change (Z.to_nat 97) with 97%nat. rewrite H97.
    rewrite take_app_length' by reflexivity. apply from_be_to_be. unfold in_u. lia. }
  unfold protocol_version, key_length, replay_counter, ek_nonce, ek_mic, ek_slice.
  cbn [ek_key_info ek_key_data ek_bytes frame_of].
  change (Z.to_nat 7) with 7%nat. change (Z.to_nat 9) with 9%nat. change (Z.to_nat 17) with 17%nat.
  change (Z.to_nat KEY_MIC_START) with 81%nat. change (Z.to_nat (9 - 7)) with 2%nat.
  change (Z.to_nat (17 - 9)) with 8%nat. change (Z.to_nat (49 - 17)) with 32%nat.
  rewrite F7, F9, F17, H81.
  assert (nthZ bytes 0 = Some v /\ nthZ bytes 1 = Some EAPOL_PACKET_TYPE_KEY
          /\ nthZ bytes 4 = Some RSN_KEY_DESCRIPTOR_TYPE /\ nth 0 bytes 0 = v) as (N0 & N1 & N4 & N0')
    by (by rewrite Hflat).
  split_and!; try done; try (by apply from_be_to_be); try (by apply take_app_length').
  - split; [lia|]. split; [by destruct Hv as [<- | <-]; [left|right]|]. split; [done|].
    split; [lia|]. split; [done|lia].
  - unfold be16_at. change (Z.to_nat 5) with 5%nat. rewrite F5. by apply from_be_to_be.
Qed.

(** A signed frame verifies under its key. *)
Lemma verify_signed `{HmacSha1} v ki kl r nonce data ptk :
  v = 1 \/ v = 2 -> in_u 16 ki -> in_u 16 kl -> in_u 64 r -> len nonce = 32 -> len data <= 413 ->
  verify_mic (frame_of (signed_eapol v ki kl r nonce data ptk)) ptk = true.
Proof.
  intros. unfold signed_eapol.
  set (mic := take 16 (hmac_sha1 (kck ptk) (eapol_bytes v ki kl r nonce (zeros 16) data))).
  unfold verify_mic.
  destruct (eapol_bytes_fields v ki kl r nonce mic data) as
    (_ & _ & _ & _ & _ & _ & _ & -> & H81 & H97); try done; [apply len_mic|].
  cbn [ek_bytes frame_of]. change (Z.to_nat KEY_MIC_START) with 81%nat.
  change (Z.to_nat KEY_MIC_END) with 97%nat. rewrite H81, H97. by apply bool_decide_eq_true.
Qed.

(** ** Key wrapping

    RFC 3394 as a specification: the wrapping the authenticator performs. *)

Section wrap.
Context `{Aes128}.
Variable kek : list Z.
Hypothesis kek_len : len kek = 16.
Hypothesis kek_bytes : bytes_ok kek.

Definition wrap_step (n : Z) (a_out : list Z * list Z) (round_index : Z * Z) : list Z * list Z :=
  let '(a, out) := a_out in
  let '(round, index) := round_index in
  let start := (index - 1) * 8 in
  let block := aes128_encrypt kek (a ++ take 8 (drop (Z.to_nat start) out)) in
  (zip_with Z.lxor (take 8 block) (to_be 8 (n * round + index)), splice out start (drop 8 block)).

(** Rounds 0 to 5, each over blocks 1 to [n]. *)
Definition key_wrap (plain : list Z) : list Z :=
  let n := len plain / 8 in
  let '(a, out) := foldl (wrap_step n) (AES_KEY_WRAP_IV, plain) (rev (unwrap_rounds n)) in
  a ++ out.

(** An accumulator of 8 bytes and [n] blocks. *)
Definition blocks_ok (n : Z) (s : list Z * list Z) : Prop :=
  len s.1 = 8 /\ bytes_ok s.1 /\ len s.2 = 8 * n /\ bytes_ok s.2.

Lemma lxor_byte x y : is_byte x -> is_byte y -> is_byte (Z.lxor x y).
Proof.
  unfold is_byte. intros Hx Hy. assert (0 <= Z.lxor x y) by (apply Z.lxor_nonneg; lia).
  split; [done|]. destruct (Z.eq_dec (Z.lxor x y) 0) as [->|]; [lia|].
  change 256 with (2 ^ 8). apply Z.log2_lt_pow2; [lia|].
  pose proof (Z.log2_lxor x y ltac:(lia) ltac:(lia)).
  assert (forall z, 0 <= z < 256 -> Z.log2 z < 8) as Hl.
  { intros z Hz. destruct (Z.eq_dec z 0) as [->|]; [cbn; lia|]. apply Z.log2_lt_pow2; lia. }
  pose proof (Hl x Hx). pose proof (Hl y Hy). lia.
Qed.

Lemma zip_lxor_bytes l k : bytes_ok l -> bytes_ok k -> bytes_ok (zip_with Z.lxor l k).
Proof.
  intros Hl. revert k. induction Hl as [|x l Hx Hl IH]; intros k Hk; [by constructor|].
  destruct Hk as [|y k Hy Hk]; constructor; [by apply lxor_byte|by apply IH].
Qed.

Lemma zip_lxor_twice l k :
  length l = length k -> zip_with Z.lxor (zip_with Z.lxor l k) k = l.
Proof.
  revert k. induction l as [|x l IH]; intros [|y k] Hlen; try discriminate Hlen; [done|].
  cbn. rewrite IH by (by injection Hlen). f_equal. by rewrite Z.lxor_assoc, Z.lxor_nilpotent, Z.lxor_0_r.
Qed.

Lemma len_zip_lxor l k : len l = 8 -> len (zip_with Z.lxor l (to_be 8 k)) = 8.
Proof.
  intros Hl. unfold len in *. rewrite length_zip_with. pose proof (len_to_be 8 k) as Ht.
  unfold len in Ht. lia.
Qed.

(** Replacing a block, and putting it back. *)
Lemma block_split n i (out : list Z) :
  1 <= i <= n -> len out = 8 * n ->
  exists pre b post, out = pre ++ b ++ post /\ len pre = (i - 1) * 8 /\ len b = 8.
Proof.
  intros Hi Hl. set (k := Z.to_nat ((i - 1) * 8)).
  exists (take k out), (take 8 (drop k out)), (drop 8 (drop k out)).
  rewrite !take_drop. split; [done|]. rewrite !len_take, len_drop. unfold k. lia.
Qed.

Lemma take_block (pre b post : list Z) i :
  len pre = (i - 1) * 8 -> len b = 8 -> take 8 (drop (Z.to_nat ((i - 1) * 8)) (pre ++ b ++ post)) = b.
Proof. intros Hp Hb. apply take_drop_mid; [by rewrite length_len, Hp|by rewrite length_len, Hb]. Qed.

Lemma splice_block (pre b c post : list Z) i :
  len pre = (i - 1) * 8 -> len b = 8 -> len c = 8 ->
  splice (pre ++ b ++ post) ((i - 1) * 8) c = pre ++ c ++ post.
Proof. intros <- Hb Hc. apply splice_mid. by rewrite !length_len, Hb, Hc. Qed.

Lemma wrap_step_ok n s ri :
  1 <= ri.2 <= n -> blocks_ok n s -> blocks_ok n (wrap_step n s ri).
Proof.
  destruct s as [a out], ri as [r i]. intros Hi (Ha & Hab & Hl & Hb). cbn [fst snd] in *.
  destruct (block_split n i out Hi Hl) as (pre & b & post & -> & Hp & Hbl).
  unfold wrap_step. rewrite take_block by done.
  set (e := aes128_encrypt kek (a ++ b)).
  apply Forall_app in Hb as [Hpre [Hbb Hpost]%Forall_app].
  assert (len e = 16) as He by (apply aes128_encrypt_len; rewrite len_app; lia).
  assert (bytes_ok e) as Heb by (apply aes128_encrypt_bytes; [done|by apply Forall_app]).
  rewrite splice_block by (done || (rewrite len_drop; lia)).
  split_and!; cbn [fst snd].
  - apply len_zip_lxor. rewrite len_take. lia.
  - apply zip_lxor_bytes; [by apply Forall_take|apply to_be_bytes].
  - rewrite !len_app, len_drop in *. lia.
  - apply Forall_app. split; [done|]. apply Forall_app. split; [by apply Forall_drop|done].
Qed.

Lemma unwrap_step_ok n s ri :
  1 <= ri.2 <= n -> blocks_ok n s -> blocks_ok n (unwrap_step kek n s ri).
Proof.
  destruct s as [a out], ri as [r i]. intros Hi (Ha & Hab & Hl & Hb). cbn [fst snd] in *.
  destruct (block_split n i out Hi Hl) as (pre & b & post & -> & Hp & Hbl).
  unfold unwrap_step. rewrite take_block by done.
  set (e := aes128_decrypt kek _).
  apply Forall_app in Hb as [Hpre [Hbb Hpost]%Forall_app].
  assert (len e = 16) as He by (apply aes128_decrypt_len; rewrite len_app, len_zip_lxor; lia).
  assert (bytes_ok e) as Heb.
  { apply aes128_decrypt_bytes; [done|]. apply Forall_app. split; [|done].
    apply zip_lxor_bytes; [done|apply to_be_bytes]. }
  rewrite splice_block by (done || (rewrite len_drop; lia)).
  split_and!; cbn [fst snd].
  - rewrite len_take. lia.
  - by apply Forall_take.
  - rewrite !len_app, len_drop in *. lia.
  - apply Forall_app. split; [done|]. apply Forall_app. split; [by apply Forall_drop|done].
Qed.

Lemma unwrap_wrap_step n s ri :
  1 <= ri.2 <= n -> blocks_ok n s -> unwrap_step kek n (wrap_step n s ri) ri = s.
Proof.
  destruct s as [a out], ri as [r i]. intros Hi (Ha & Hab & Hl & Hb). cbn [fst snd] in *.
  destruct (block_split n i out Hi Hl) as (pre & b & post & -> & Hp & Hbl).
  apply Forall_app in Hb as [Hpre [Hbb Hpost]%Forall_app].
  unfold wrap_step, unwrap_step. rewrite take_block by done.
  set (e := aes128_encrypt kek (a ++ b)).
  assert (len e = 16) as He by (apply aes128_encrypt_len; rewrite len_app; lia).
  rewrite splice_block, take_block by (done || (rewrite len_drop; lia)).
  rewrite zip_lxor_twice by (rewrite !length_len, len_take, len_to_be, He; done).
  rewrite take_drop. assert (aes128_decrypt kek e = a ++ b) as ->
    by (apply aes128_decrypt_encrypt; [done|rewrite len_app; lia|by apply Forall_app]).
  rewrite take_app_length', drop_app_length' by (by rewrite length_len, Ha).
  by rewrite splice_block by (done || (rewrite len_drop; lia)).
Qed.

Lemma wrap_unwrap_step n s ri :
  1 <= ri.2 <= n -> blocks_ok n s -> wrap_step n (unwrap_step kek n s ri) ri = s.
Proof.
  destruct s as [a out], ri as [r i]. intros Hi (Ha & Hab & Hl & Hb). cbn [fst snd] in *.
  destruct (block_split n i out Hi Hl) as (pre & b & post & -> & Hp & Hbl).
  apply Forall_app in Hb as [Hpre [Hbb Hpost]%Forall_app].
  unfold wrap_step, unwrap_step. rewrite take_block by done.
  set (x := zip_with Z.lxor a (to_be 8 (n * r + i))).
  assert (len x = 8) as Hx by (by apply len_zip_lxor).
  assert (bytes_ok x) as Hxb by (apply zip_lxor_bytes; [done|apply to_be_bytes]).
  set (e := aes128_decrypt kek (x ++ b)).
  assert (len e = 16) as He by (apply aes128_decrypt_len; rewrite len_app; lia).
  rewrite splice_block, take_block by (done || (rewrite len_drop; lia)).
  rewrite take_drop. assert (aes128_encrypt kek e = x ++ b) as ->
    by (apply aes128_encrypt_decrypt; [done|rewrite len_app; lia|by apply Forall_app]).
  rewrite take_app_length', drop_app_length' by (by rewrite length_len, Hx).
  rewrite splice_block by (done || (rewrite len_drop; lia)).
  unfold x. rewrite zip_lxor_twice; [done|]. by rewrite !length_len, len_to_be, Ha.
Qed.

(** A list of steps undone in the opposite order. *)
Lemma folds_ok (f : list Z * list Z -> Z * Z -> list Z * list Z) n l s :
  (forall s ri, 1 <= ri.2 <= n -> blocks_ok n s -> blocks_ok n (f s ri)) ->
  Forall (fun ri => 1 <= ri.2 <= n) l -> blocks_ok n s -> blocks_ok n (foldl f s l).
Proof.
  intros Hf Hl. revert s. induction Hl as [|ri l Hri Hl IH]; intros s Hs; [done|].
  cbn [foldl]. by apply IH, Hf.
Qed.

Lemma folds_inverse (f g : list Z * list Z -> Z * Z -> list Z * list Z) n l s :
  (forall s ri, 1 <= ri.2 <= n -> blocks_ok n s -> blocks_ok n (f s ri)) ->
  (forall s ri, 1 <= ri.2 <= n -> blocks_ok n s -> g (f s ri) ri = s) ->
  Forall (fun ri => 1 <= ri.2 <= n) l -> blocks_ok n s -> foldl g (foldl f s (rev l)) l = s.
Proof.
  intros Hf Hgf Hl Hs. induction Hl as [|ri l Hri Hl IH]; [done|].
  cbn [rev foldl]. rewrite foldl_app. cbn [foldl]. rewrite Hgf; [exact IH|done|].
  apply folds_ok; [done|by apply Forall_rev|done].
Qed.

Lemma rounds_ok n : 0 <= n -> Forall (fun ri => 1 <= ri.2 <= n) (unwrap_rounds n).
Proof.
  intros Hn. apply list.Forall_forall. intros [r i] Hin. apply list_elem_of_In in Hin.
  unfold unwrap_rounds in Hin. apply in_flat_map in Hin as (r' & _ & Hin).
  apply in_map_iff in Hin as (i' & [= _ <-] & Hin). apply in_rev, in_map_iff in Hin.
  destruct Hin as (k & <- & Hk%in_seq). cbn. lia.
Qed.

(** What can be wrapped for a buffer [out]. *)
Definition wrappable (plain out : list Z) : Prop :=
  bytes_ok plain /\ 16 <= len plain <= len out /\ len plain mod 8 = 0.

Lemma iv_ok : len AES_KEY_WRAP_IV = 8 /\ bytes_ok AES_KEY_WRAP_IV.
Proof. split; [done|by apply bytes_okb_ok]. Qed.

Lemma wrap_blocks plain :
  bytes_ok plain -> len plain mod 8 = 0 ->
  blocks_ok (len plain / 8) (AES_KEY_WRAP_IV, plain).
Proof.
  intros Hb Hm. pose proof iv_ok as [? ?]. split_and!; try done. cbn [fst snd].
  Z.div_mod_to_equations; lia.
Qed.

Lemma unwrap_blocks_of_wrap plain :
  bytes_ok plain -> len plain mod 8 = 0 ->
  len (key_wrap plain) = 8 + len plain /\ bytes_ok (key_wrap plain)
  /\ unwrap_key_blocks kek (len plain / 8) (take 8 (key_wrap plain)) (drop 8 (key_wrap plain))
     = (AES_KEY_WRAP_IV, plain).
Proof.
  intros Hb Hm. set (n := len plain / 8).
  assert (0 <= n) as Hn by (pose proof (len_nonneg plain); unfold n; Z.div_mod_to_equations; lia).
  pose proof (wrap_blocks plain Hb Hm) as Hw. fold n in Hw.
  assert (Forall (fun ri => 1 <= ri.2 <= n) (rev (unwrap_rounds n))) as Hr
    by (by apply Forall_rev, rounds_ok).
  pose proof (folds_ok (wrap_step n) n _ _ (wrap_step_ok n) Hr Hw) as Hs.
  pose proof (folds_inverse (wrap_step n) (unwrap_step kek n) n _ _ (wrap_step_ok n)
    (unwrap_wrap_step n) (rounds_ok n Hn) Hw) as Hinv.
  unfold key_wrap, unwrap_key_blocks. fold n.
  destruct (foldl (wrap_step n) (AES_KEY_WRAP_IV, plain) (rev (unwrap_rounds n))) as [a out].
  destruct Hs as (Ha & Hab & Ho & Hob). cbn [fst snd] in *.
  rewrite take_app_length', drop_app_length' by (by rewrite length_len, Ha).
  split; [rewrite len_app, Ha, Ho; unfold n; Z.div_mod_to_equations; lia|].
  split; [by apply Forall_app_2|exact Hinv].
Qed.

Lemma wrap_of_unwrap n encrypted plain :
  bytes_ok encrypted -> len encrypted = 8 + 8 * n -> 0 <= n ->
  unwrap_key_blocks kek n (take 8 encrypted) (drop 8 encrypted) = (AES_KEY_WRAP_IV, plain) ->
  bytes_ok plain /\ len plain = 8 * n /\ encrypted = key_wrap plain.
Proof.
  intros Hb Hl Hn Hu.
  assert (blocks_ok n (take 8 encrypted, drop 8 encrypted)) as Hs.
  { split_and!; cbn; [rewrite len_take; lia|by apply Forall_take|rewrite len_drop; lia|by apply Forall_drop]. }
  pose proof (rounds_ok n Hn) as Hr.
  pose proof (folds_ok (unwrap_step kek n) n _ _ (unwrap_step_ok n) Hr Hs) as Hs'.
  pose proof (folds_inverse (unwrap_step kek n) (wrap_step n) n (rev (unwrap_rounds n)) _
    (unwrap_step_ok n) (wrap_unwrap_step n) ltac:(by apply Forall_rev) Hs) as Hinv.
  rewrite rev_involutive in Hinv. unfold unwrap_key_blocks in Hu. rewrite Hu in Hs', Hinv.
  destruct Hs' as (_ & _ & Hpl & Hpb). cbn [fst snd] in *.
  split; [done|]. split; [done|]. unfold key_wrap.
  replace (len plain / 8) with n by (rewrite Hpl, Z.mul_comm; symmetry; by apply Z.div_mul). rewrite Hinv. by rewrite take_drop.
Qed.

Lemma land_7 a : Z.land a 7 = a mod 8.
Proof. change 7 with (Z.ones 3). by rewrite Z.land_ones. Qed.

Lemma aes_key_unwrap_spec encrypted out :
  bytes_ok encrypted ->
  match aes_key_unwrap kek encrypted out with
  | (Ok n, out') =>
      exists plain, len plain = n /\ wrappable plain out /\ encrypted = key_wrap plain
        /\ out' = splice out 0 plain
  | (Err _, out') =>
      (forall plain, wrappable plain out -> encrypted <> key_wrap plain)
      /\ (out' = out \/ out' = splice out 0 (zeros (len encrypted - 8)))
  | (Panic, _) => False
  end.
Proof.
  intros Hb. unfold aes_key_unwrap, validate_wrapped_key_lengths. munfold. cbn [negb].
  rewrite land_7.
  destruct ((len encrypted <? 24) || negb (len encrypted mod 8 =? 0)) eqn:Hl; cbn [negb].
  { split; [|by left]. intros plain (Hpb & Hpl & Hpm) ->.
    destruct (unwrap_blocks_of_wrap plain Hpb Hpm) as [Hlen _]. rewrite Hlen in Hl.
    apply orb_true_iff in Hl as [Hl|Hl]; [lia|]. apply negb_true_iff, Z.eqb_neq in Hl.
    Z.div_mod_to_equations; lia. }
  destruct (len out <? len encrypted - 8) eqn:Ho.
  { split; [|by left]. intros plain (Hpb & Hpl & Hpm) ->.
    destruct (unwrap_blocks_of_wrap plain Hpb Hpm) as [Hlen _]. lia. }
  set (n := (len encrypted - 8) / 8).
  assert (len encrypted = 8 + 8 * n /\ 0 <= n) as [Hen Hn].
  { apply orb_false_iff in Hl as [Hl24%Z.ltb_ge Hl]. apply negb_false_iff, Z.eqb_eq in Hl.
    unfold n; Z.div_mod_to_equations; lia. }
  destruct (unwrap_key_blocks kek n (take 8 encrypted) (drop 8 encrypted)) as [a plain] eqn:Hu.
  case_bool_decide as Ha; cbn [negb].
  - subst a. destruct (wrap_of_unwrap n encrypted plain Hb Hen Hn Hu) as (Hpb & Hpl & He).
    exists plain. split; [lia|]. split; [|done]. split; [done|]. rewrite Hpl.
    rewrite Z.mul_comm, Z.mod_mul by done. lia.
  - split; [|by right]. intros p (Hpb & Hpl & Hpm) ->. apply Ha.
    destruct (unwrap_blocks_of_wrap p Hpb Hpm) as (Hlen & _ & Huw).
    replace (len p / 8) with n in Huw by (unfold n; f_equal; lia). rewrite Huw in Hu. by injection Hu.
Qed.

Lemma key_wrap_inj plain plain' out :
  wrappable plain out -> wrappable plain' out -> key_wrap plain = key_wrap plain' -> plain = plain'.
Proof.
  intros (Hb & _ & Hm) (Hb' & _ & Hm') He.
  destruct (unwrap_blocks_of_wrap plain Hb Hm) as (Hl & _ & Hu).
  destruct (unwrap_blocks_of_wrap plain' Hb' Hm') as (Hl' & _ & Hu').
  rewrite He in Hl, Hu. replace (len plain') with (len plain) in Hu' by lia.
  rewrite Hu in Hu'. by injection Hu'.
Qed.

Lemma aes_key_unwrap_wrapped plain out :
  wrappable plain out ->
  aes_key_unwrap kek (key_wrap plain) out = (Ok (len plain), splice out 0 plain).
Proof.
  intros Hw. pose proof Hw as (Hpb & _ & Hpm).
  destruct (unwrap_blocks_of_wrap plain Hpb Hpm) as (Hlen & Hwb & _).
  pose proof (aes_key_unwrap_spec (key_wrap plain) out Hwb) as Hs.
  destruct (aes_key_unwrap kek (key_wrap plain) out) as [[n|e|] out']; [| |done].
  - destruct Hs as (p & <- & Hp & He & ->). by rewrite (key_wrap_inj plain p out Hw Hp He).
  - destruct Hs as [Hs _]. by destruct (Hs plain Hw).
Qed.
End wrap.

(** ** Key derivation *)

Lemma bytes_leb_refl l : bytes_leb l l = true.
Proof. induction l as [|x l IH]; [done|]. cbn. rewrite IH, Z.eqb_refl. by destruct (x <? x). Qed.

Lemma bytes_leb_total l k : bytes_leb l k = false -> bytes_leb k l = true.
Proof.
  revert k. induction l as [|x l IH]; intros [|y k]; cbn; try done. intros Hf.
  apply orb_false_iff in Hf as [Hx Hf]. destruct (x =? y) eqn:Hxy; cbn in Hf.
  - apply Z.eqb_eq in Hxy as ->. rewrite Z.eqb_refl, (IH _ Hf). by destruct (y <? y).
  - apply orb_true_iff. left. lia.
Qed.

Lemma bytes_leb_antisym l k :
  length l = length k -> bytes_leb l k = true -> bytes_leb k l = true -> l = k.
Proof.
  revert k. induction l as [|x l IH]; intros [|y k] Hlen; try discriminate Hlen; [done|]. cbn.
  intros H1 H2. injection Hlen as Hlen.
  apply orb_true_iff in H1 as [H1|[->%Z.eqb_eq H1]%andb_true_iff];
  apply orb_true_iff in H2 as [H2|[E2%Z.eqb_eq H2]%andb_true_iff]; try lia. f_equal. auto.
Qed.

Lemma ordered_comm l k : length l = length k -> ordered l k = ordered k l.
Proof.
  intros Hlen. unfold ordered.
  destruct (bytes_leb l k) eqn:H1, (bytes_leb k l) eqn:H2; try done.
  - by rewrite (bytes_leb_antisym l k).
  - apply bytes_leb_total in H1. congruence.
Qed.

Lemma ordered_cases l k : ordered l k = (l, k) \/ ordered l k = (k, l).
Proof. unfold ordered. destruct (bytes_leb l k); auto. Qed.

(** The context as the standard writes it: the lesser address, the greater
    one, the lesser nonce, the greater one. *)
Definition prf_context (aa sa anonce snonce : list Z) : list Z :=
  (ordered aa sa).1 ++ (ordered aa sa).2 ++ (ordered anonce snonce).1 ++ (ordered anonce snonce).2.

Lemma ptk_context_eq aa sa an sn :
  len aa = 6 -> len sa = 6 -> len an = 32 -> len sn = 32 ->
  ptk_context aa sa an sn = prf_context aa sa an sn.
Proof.
  intros Haa Hsa Han Hsn. unfold ptk_context, prf_context.
  assert (len (ordered aa sa).1 = 6 /\ len (ordered aa sa).2 = 6) as [H1 H2]
    by (by destruct (ordered_cases aa sa) as [-> | ->]).
  assert (len (ordered an sn).1 = 32 /\ len (ordered an sn).2 = 32) as [H3 H4]
    by (by destruct (ordered_cases an sn) as [-> | ->]).
  destruct (ordered aa sa) as [a1 a2], (ordered an sn) as [n1 n2]. cbn [fst snd] in *.
  change (zeros 76) with ([] ++ zeros 76).
  do 4 (rewrite splice_append by len_solve). rewrite H1, H2, H3, H4.
  change (zeros (76 - 6 - 6 - 32 - 32)) with (@nil Z). cbn [app]. by rewrite app_nil_r, <-!app_assoc.
Qed.

Section prf.
Context `{HmacSha1}.
Variables pmk context : list Z.

(** One block of the pseudo-random function. *)
Definition prf_block (counter : Z) : list Z :=
  hmac_sha1 pmk (WPA2_PRF_LABEL ++ [0] ++ context ++ [counter]).

Lemma ptk_loop_step fuel d m c :
  0 < m ->
  ptk_loop (S fuel) pmk context (d ++ zeros m) (len d) c
  = let k := Z.min 20 m in
    ptk_loop fuel pmk context ((d ++ take (Z.to_nat k) (prf_block c)) ++ zeros (m - k)) (len d + k)
      (u8 (c + 1)).
Proof.
  intros Hm. cbn [ptk_loop]. rewrite len_app, len_zeros by lia.
  rewrite (proj2 (Z.ltb_lt _ _)) by lia. fold (prf_block c).
  assert (len (prf_block c) = 20) as Hb by apply hmac_sha1_len.
  replace (Z.min (len (prf_block c)) (len d + m - len d)) with (Z.min 20 m) by lia.
  assert (len (take (Z.to_nat (Z.min 20 m)) (prf_block c)) = Z.min 20 m) as Ht by (rewrite len_take; lia).
  by rewrite splice_append, Ht by lia.
Qed.

Lemma ptk_loop_end fuel d c : ptk_loop fuel pmk context d (len d) c = d.
Proof. destruct fuel; [done|]. cbn [ptk_loop]. by rewrite Z.ltb_irrefl. Qed.

Lemma ptk_loop_spec fuel :
  (3 <= fuel)%nat ->
  ptk_loop fuel pmk context (zeros WPA2_PTK_LEN) 0 0
  = take 48 (prf_block 0 ++ prf_block 1 ++ prf_block 2).
Proof.
  intros Hf. destruct fuel as [|[|[|fuel]]]; try lia.
  assert (forall c, length (prf_block c) = 20%nat) as Hb
    by (intros c; by rewrite length_len; unfold prf_block; rewrite hmac_sha1_len).
  change (ptk_loop (S (S (S fuel))) pmk context (zeros WPA2_PTK_LEN) 0 0)
    with (ptk_loop (S (S (S fuel))) pmk context ([] ++ zeros 48) (len (@nil Z)) 0).
  rewrite ptk_loop_step by lia. cbv zeta. change (Z.min 20 48) with 20.
  change (len [] + 20) with 20. change (u8 (0 + 1)) with 1. change (48 - 20) with 28.
  cbn [app]. rewrite (take_ge (prf_block 0)) by (rewrite Hb; lia).
  assert (20 = len (prf_block 0)) as -> by (unfold len; by rewrite Hb).
  rewrite ptk_loop_step by lia. cbv zeta. change (Z.min 20 28) with 20.
  change (u8 (1 + 1)) with 2. change (28 - 20) with 8.
  rewrite (take_ge (prf_block 1)) by (rewrite Hb; lia).
  assert (len (prf_block 0) + 20 = len (prf_block 0 ++ prf_block 1)) as ->
    by (rewrite len_app; unfold len; by rewrite !Hb).
  rewrite ptk_loop_step by lia. cbv zeta. change (Z.min 20 8) with 8.
  change (8 - 8) with 0. change (zeros 0) with (@nil Z). rewrite app_nil_r.
  set (d := (prf_block 0 ++ prf_block 1) ++ take (Z.to_nat 8) (prf_block 2)).
  assert (len (prf_block 0 ++ prf_block 1) + 8 = len d) as ->.
  { unfold d. rewrite !len_app, len_take. unfold len. rewrite !Hb. lia. }
  rewrite ptk_loop_end. unfold d. rewrite app_assoc.
  rewrite take_app_ge by (rewrite length_app, !Hb; lia). by rewrite length_app, !Hb.
Qed.
End prf.

Lemma derive_ptk_ok `{HmacSha1} pmk aa sa an sn :
  len (derive_ptk pmk aa sa an sn) = 48 /\ bytes_ok (derive_ptk pmk aa sa an sn).
Proof.
  unfold derive_ptk. rewrite ptk_loop_spec by (vm_compute; lia). split.
  - rewrite len_take, !len_app. unfold prf_block. rewrite !hmac_sha1_len. lia.
  - apply Forall_take. repeat apply Forall_app_2; apply hmac_sha1_bytes.
Qed.

Lemma kek_ok `{HmacSha1} ptk : len ptk = 48 -> bytes_ok ptk -> len (kek ptk) = 16 /\ bytes_ok (kek ptk).
Proof. intros Hl Hb. unfold kek. split; [rewrite len_take, len_drop; lia|by apply Forall_take, Forall_drop]. Qed.

(** ** Key data elements *)

(** A well-formed element that is not the group key. *)
Definition is_gtk (id : Z) (body : list Z) : bool :=
  (id =? 0xdd) && bool_decide (take 4 body = GTK_KDE_OUI_TYPE).
Definition kde_bytes (id : Z) (body : list Z) : list Z := id :: len body :: body.

(** The group key a list of key data elements carries: the first GTK element,
    after any number of others. *)
Inductive gtk_in : list Z -> GtkKde -> Prop :=
  | gtk_here flags key rest :
      Z.land flags 0xf8 = 0 -> len key = 16 ->
      gtk_in (kde_bytes 0xdd (GTK_KDE_OUI_TYPE ++ [flags; 0] ++ key) ++ rest)
        (mkGtkKde (Z.land flags 0x03) key)
  | gtk_later id body rest g :
      id <> 0 -> 0 < len body -> is_gtk id body = false -> gtk_in rest g ->
      gtk_in (kde_bytes id body ++ rest) g.

(** One element at the offset. *)
Lemma take_kde_spec pre l :
  match take_kde (pre ++ l) (len pre) with
  | (Ok (Some (id, body)), o) =>
      id <> 0 /\ 0 < len body
      /\ exists rest, l = kde_bytes id body ++ rest /\ o = len (pre ++ kde_bytes id body)
  | (Ok None, o) => o = len pre /\ (l = [] \/ (exists r, l = 0 :: r) \/ (exists i r, l = i :: 0 :: r))
  | (Err e, _) => e = Wpa2Error.MissingGroupKey
      /\ ((exists i, l = [i]) \/ (exists i n r, l = i :: n :: r /\ len r < n))
  | (Panic, _) => exists i n r, l = i :: n :: r /\ n < 0
  end.
Proof.
  unfold take_kde. munfold. rewrite len_app. pose proof (len_nonneg l).
  destruct l as [|id l].
  { rewrite len_nil, (proj2 (Z.leb_le _ _)) by lia. auto. }
  rewrite (proj2 (Z.leb_gt _ _)) by (rewrite len_cons; pose proof (len_nonneg l); lia).
  rewrite index_app. destruct (id =? 0) eqn:Hid; [split; [done|]; right; left; exists l; f_equal; lia|].
  replace (len pre + len (id :: l) - len pre) with (len (id :: l)) by lia.
  destruct l as [|n l]; [change (len [id] <? 2) with true; cbn; eauto|].
  rewrite (proj2 (Z.ltb_ge _ _)) by (rewrite !len_cons; pose proof (len_nonneg l); lia).
  assert (@index Wpa2Error.t (pre ++ id :: n :: l) (len pre + 1) = Ok n) as ->.
  { change (pre ++ id :: n :: l) with (pre ++ [id] ++ n :: l). rewrite app_assoc.
    apply index_app_at. by rewrite len_app. }
  destruct (n =? 0) eqn:Hn; [split; [done|]; right; right; exists id, l; repeat f_equal; lia|].
  rewrite !len_cons. destruct (_ <? n) eqn:Hl; [split; [done|]; right; exists id, n, l; split; [done|lia]|].
  destruct (Z_lt_le_dec n 0) as [Hneg|Hpos].
  { unfold subslice, slice. rewrite (proj2 (Z.leb_gt (len pre + 2) _)) by lia.
    rewrite andb_false_r. cbn. eauto. }
  unfold subslice. rewrite slice_in by (rewrite ?len_app, ?len_cons; pose proof (len_nonneg pre); lia).
  cbn [expect]. replace (Z.to_nat (len pre + 2 + n - (len pre + 2))) with (Z.to_nat n) by lia.
  replace (Z.to_nat (len pre + 2)) with (length (pre ++ [id; n])) by (rewrite length_app; unfold len; cbn; lia).
  change (pre ++ id :: n :: l) with (pre ++ [id; n] ++ l). rewrite app_assoc, drop_app_length.
  assert (len (take (Z.to_nat n) l) = n) as Ht by (rewrite len_take; lia).
  split; [lia|]. split; [lia|]. exists (drop (Z.to_nat n) l).
  unfold kde_bytes. rewrite Ht. split; [cbn; by rewrite take_drop|].
  rewrite len_app, !len_cons, Ht. lia.
Qed.

Lemma take_kde_at pre id body rest :
  id <> 0 -> 0 < len body ->
  take_kde (pre ++ kde_bytes id body ++ rest) (len pre)
  = (Ok (Some (id, body)), len (pre ++ kde_bytes id body)).
Proof.
  intros Hid Hb. pose proof (take_kde_spec pre (kde_bytes id body ++ rest)) as Hk.
  pose proof (len_nonneg rest).
  destruct (take_kde _ _) as [[[[id' body']|]|e|] o].
  - destruct Hk as (_ & _ & rest' & [= -> Hl He] & ->).
    assert (length body = length body') as Hlen by (unfold len in Hl; lia).
    by destruct (app_inj_1 _ _ _ _ Hlen He) as [-> _].
  - destruct Hk as (_ & [Hk|[(r & Hk)|(i & r & Hk)]]); unfold kde_bytes in Hk; cbn [app] in Hk;
      [discriminate Hk| |]; injection Hk; lia.
  - destruct Hk as (_ & [(i & Hk)|(i & n & r & Hk & Hl)]); unfold kde_bytes in Hk; cbn [app] in Hk;
      [discriminate Hk|]. injection Hk as _ <- <-. rewrite len_app in Hl. lia.
  - destruct Hk as (i & n & r & Hk & Hl). unfold kde_bytes in Hk. injection Hk. lia.
Qed.

Lemma parse_gtk_body_eq flags z key :
  parse_gtk_body (GTK_KDE_OUI_TYPE ++ flags :: z :: key)
  = if (len key =? 16) && (Z.land flags 0xf8 =? 0) && (z =? 0)
    then Ok (mkGtkKde (Z.land flags 0x03) key) else Err Wpa2Error.InvalidEncryptedKeyData.
Proof.
  unfold parse_gtk_body. set (body := GTK_KDE_OUI_TYPE ++ flags :: z :: key).
  assert (len body = 6 + len key) as Hl by 
    (unfold body; rewrite len_app, !len_cons; change (len GTK_KDE_OUI_TYPE) with 4; lia).
  rewrite Hl.
  assert (@index Wpa2Error.t body 4 = Ok flags /\ @index Wpa2Error.t body 5 = Ok z) as [-> ->]
    by done.
  assert (@subslice Wpa2Error.t body 6 (6 + len key) = Ok key) as ->
    by (by apply (subslice_suffix [0; 15; 172; 1; flags; z])).
  cbn [mbind res_bind].
  destruct (6 + len key =? 22) eqn:H1, (len key =? 16) eqn:H2; try lia; [|done].
  by destruct (Z.land flags 0xf8 =? 0), (z =? 0).
Qed.

Lemma parse_gtk_body_spec body g :
  take 4 body = GTK_KDE_OUI_TYPE ->
  parse_gtk_body body = Ok g <->
  exists flags key, body = GTK_KDE_OUI_TYPE ++ [flags; 0] ++ key /\ len key = 16
    /\ Z.land flags 0xf8 = 0 /\ g = mkGtkKde (Z.land flags 0x03) key.
Proof.
  intros Ht. rewrite <-(take_drop 4 body). rewrite Ht. set (r := drop 4 body). clearbody r.
  split.
  - destruct r as [|flags [|z key]]; [done..|]. rewrite parse_gtk_body_eq.
    destruct (len key =? 16) eqn:H1, (Z.land flags 0xf8 =? 0) eqn:H2, (z =? 0) eqn:H3; try done.
    intros [= <-]. exists flags, key. apply Z.eqb_eq in H3 as ->. split_and!; [done|lia|lia|done].
  - intros (flags & key & He & Hl & Hf & ->). apply app_inv_head in He as ->.
    cbn [app]. by rewrite parse_gtk_body_eq, Hl, Hf.
Qed.

Lemma is_gtk_true id body : is_gtk id body = true -> id = 0xdd /\ take 4 body = GTK_KDE_OUI_TYPE.
Proof. intros [? ?%bool_decide_eq_true]%andb_true_iff. split; [lia|done]. Qed.

Lemma gtk_loop_sound fuel pre l g o :
  parse_gtk_loop fuel (pre ++ l) (len pre) = (Ok g, o) -> gtk_in l g.
Proof.
  revert pre l. induction fuel as [|fuel IH]; intros pre l; [discriminate|].
  cbn [parse_gtk_loop]. pose proof (take_kde_spec pre l) as Hk. munfold.
  destruct (take_kde _ _) as [[[[id body]|]|e|] o']; try discriminate.
  destruct Hk as (Hid & Hb & rest & -> & ->).
  destruct ((id =? 0xdd) && _) eqn:Hg.
  - intros [= Hp _]. apply is_gtk_true in Hg as [-> Hg]. apply parse_gtk_body_spec in Hp; [|done].
    destruct Hp as (flags & key & -> & Hl & Hf & ->). by constructor.
  - rewrite app_assoc. intros Hl%IH. by constructor.
Qed.

Lemma gtk_loop_complete l g :
  gtk_in l g -> forall fuel pre, (length l < fuel)%nat ->
  (parse_gtk_loop fuel (pre ++ l) (len pre)).1 = Ok g.
Proof.
  induction 1 as [flags key rest Hf Hk|id body rest g Hid Hb Hg Hin IH]; intros [|fuel] pre Hfuel;
    try lia; cbn [parse_gtk_loop]; munfold.
  - rewrite take_kde_at by (done || rewrite !len_app; pose proof (len_nonneg key); cbn; lia).
    change ((0xdd =? 0xdd) && _) with true. cbn [fst]. apply parse_gtk_body_spec; [done|].
    by exists flags, key.
  - rewrite take_kde_at by done. unfold is_gtk in Hg. rewrite Hg, app_assoc. apply IH.
    unfold kde_bytes in Hfuel. cbn [app length] in Hfuel. rewrite length_app in Hfuel. lia.
Qed.

Lemma parse_gtk_body_no_panic body : parse_gtk_body body <> Panic.
Proof.
  unfold parse_gtk_body. destruct (len body =? 22) eqn:Hl; [|done]. apply Z.eqb_eq in Hl. cbn [negb].
  destruct (@index_in Wpa2Error.t body 4) as [flags ->]; [lia|].
  destruct (@index_in Wpa2Error.t body 5) as [z ->]; [lia|]. cbn [mbind res_bind].
  destruct (_ || _); [done|].
  destruct (@subslice_ok Wpa2Error.t body 6 (len body)) as (k & -> & _); [lia..|done].
Qed.

Lemma gtk_loop_no_panic fuel pre l :
  bytes_ok l -> (parse_gtk_loop fuel (pre ++ l) (len pre)).1 <> Panic.
Proof.
  revert pre l. induction fuel as [|fuel IH]; intros pre l Hl; [done|].
  cbn [parse_gtk_loop]. pose proof (take_kde_spec pre l) as Hk. munfold.
  destruct (take_kde _ _) as [[[[id body]|]|e|] o']; try done.
  - destruct Hk as (Hid & Hb & rest & -> & ->).
    destruct ((id =? 0xdd) && _); [apply parse_gtk_body_no_panic|].
    rewrite app_assoc. apply IH. by apply Forall_app in Hl as [_ Hl].
  - destruct Hk as (i & n & r & -> & Hn). apply Forall_cons_1 in Hl as [_ Hl].
    apply Forall_cons_1 in Hl as [[? _] _]. lia.
Qed.

Lemma parse_gtk_no_panic l : bytes_ok l -> parse_gtk_kde l <> Panic.
Proof. apply (gtk_loop_no_panic _ [] l). Qed.

Lemma parse_gtk_error l e :
  parse_gtk_kde l = Err e -> e = Wpa2Error.MissingGroupKey \/ e = Wpa2Error.InvalidEncryptedKeyData.
Proof.
  unfold parse_gtk_kde. change l with ([] ++ l) at 2. change 0 with (len (@nil Z)).
  generalize (S (length l)) as fuel, (@nil Z) as pre. intros fuel. revert l.
  induction fuel as [|fuel IH]; intros l pre; [intros [= <-]; by left|].
  cbn [parse_gtk_loop]. pose proof (take_kde_spec pre l) as Hk. munfold.
  destruct (take_kde _ _) as [[[[id body]|]|e'|] o']; try done.
  - destruct Hk as (Hid & Hb & rest & -> & ->).
    destruct ((id =? 0xdd) && _); [|rewrite app_assoc; apply IH].
    cbn [fst]. unfold parse_gtk_body. intros He. right.
    destruct (negb _); [by injection He|].
    destruct (index body 4) as [x| |] eqn:H4; [|by unfold index in H4; destruct (nthZ body 4)|done].
    destruct (index body 5) as [y| |] eqn:H5; [|by unfold index in H5; destruct (nthZ body 5)|done].
    cbn [mbind res_bind] in He. destruct (_ || _); [by injection He|].
    unfold subslice in He. by destruct (slice _ _ _).
  - intros [= <-]. by left.
  - destruct Hk as [-> _]. intros [= <-]. by left.
Qed.

Lemma parse_gtk_spec l g : parse_gtk_kde l = Ok g <-> gtk_in l g.
Proof.
  unfold parse_gtk_kde. split.
  - destruct (parse_gtk_loop _ l 0) as [r o] eqn:Hp. cbn [fst]. intros ->.
    by apply (gtk_loop_sound _ [] l g o) in Hp.
  - intros Hg. apply (gtk_loop_complete l g Hg _ []). lia.
Qed.

(** ** The RSN information element *)

(** The grammar: version 1, the CCMP group suite, a list of pairwise suites
    with CCMP, a list of key management suites with PSK, then nothing, or
    capabilities without management frame protection, or these and a zero
    count of PMKIDs. *)
Definition suite_list (suites : list (list Z)) : list Z := to_le 2 (len suites) ++ concat suites.
Definition suites_with (required : list Z) (suites : list (list Z)) : Prop :=
  Forall (fun suite => len suite = 4) suites /\ required ∈ suites /\ len suites < 65536.
Definition rsn_tail_ok (rest : list Z) : Prop :=
  rest = [] \/ exists capabilities, in_u 16 capabilities
    /\ has capabilities (Z.lor RSN_CAP_MFPR RSN_CAP_MFPC) = false
    /\ (rest = to_le 2 capabilities \/ rest = to_le 2 capabilities ++ [0; 0]).
Definition rsn_body_ok (body : list Z) : Prop :=
  exists pairwise akms rest,
    body = [1; 0] ++ RSN_CIPHER_CCMP_SUITE ++ suite_list pairwise ++ suite_list akms ++ rest
    /\ suites_with RSN_CIPHER_CCMP_SUITE pairwise /\ suites_with RSN_AKM_PSK_SUITE akms
    /\ rsn_tail_ok rest.
Definition rsn_ie_ok (rsn_ie : list Z) : Prop :=
  exists body, rsn_ie = 0x30 :: len body :: body /\ len body <= 254 /\ rsn_body_ok body.

Lemma take_bytes_eq pre l n :
  0 <= n <= 2 ^ 20 -> len (pre ++ l) <= 2 ^ 20 ->
  take_bytes (pre ++ l) n (len pre)
  = if n <=? len l then (Ok (take (Z.to_nat n) l), len (pre ++ take (Z.to_nat n) l))
    else (Err Wpa2Error.InvalidRsnInformationElement, len pre).
Proof.
  intros Hn Hl. unfold take_bytes, checked_add, USIZE_MAX. munfold.
  rewrite len_app in Hl. pose proof (len_nonneg l).
  rewrite (proj2 (Z.leb_le _ (2 ^ 32 - 1))) by lia. cbn [ok_or].
  destruct (n <=? len l) eqn:Hnl.
  - rewrite slice_in by (rewrite ?len_app; pose proof (len_nonneg pre); lia). cbn [ok_or].
    replace (Z.to_nat (len pre + n - len pre)) with (Z.to_nat n) by lia.
    replace (Z.to_nat (len pre)) with (length pre) by (unfold len; lia).
    rewrite drop_app_length, len_app, len_take. do 2 f_equal. lia.
  - unfold slice. rewrite len_app, (proj2 (Z.leb_gt (len pre + n) _)) by lia.
    by rewrite andb_false_r.
Qed.

Lemma take_u16_eq pre l :
  len (pre ++ l) <= 2 ^ 20 ->
  take_u16 (pre ++ l) (len pre)
  = match l with
    | b0 :: b1 :: r => (Ok (from_le [b0; b1]), len (pre ++ [b0; b1]))
    | _ => (Err Wpa2Error.InvalidRsnInformationElement, len pre)
    end.
Proof.
  intros Hl. unfold take_u16. munfold. rewrite take_bytes_eq by lia.
  destruct l as [|b0 [|b1 r]]; [done..|].
  rewrite (proj2 (Z.leb_le _ _)) by (rewrite !len_cons; pose proof (len_nonneg r); lia). done.
Qed.

Lemma chunks_concat (suites : list (list Z)) fuel :
  Forall (fun suite => len suite = 4) suites -> (length (concat suites) <= fuel)%nat ->
  chunks_fuel fuel 4 (concat suites) = suites.
Proof.
  intros Hs. revert fuel. induction Hs as [|s suites Hl Hs IH]; intros fuel Hf; [by destruct fuel|].
  destruct s as [|a [|b [|c [|d [|]]]]]; try (unfold len in Hl; cbn in Hl; lia).
  cbn in Hf. destruct fuel as [|fuel]; [lia|]. cbn. by rewrite !drop_0, IH by lia.
Qed.

Lemma has_suite_spec (suites : list (list Z)) required :
  Forall (fun suite => len suite = 4) suites -> has_suite (concat suites) required = true <-> required ∈ suites.
Proof.
  intros Hs. unfold has_suite, chunks. change (Z.to_nat 4) with 4%nat. rewrite chunks_concat by done.
  assert (List.filter (fun suite => len suite =? 4) suites = suites) as ->.
  { induction Hs as [|s suites Hl Hs IH]; [done|]. cbn. by rewrite Hl, IH. }
  rewrite existsb_exists, list_elem_of_In. split.
  - intros (s & Hin & ->%bool_decide_eq_true). done.
  - intros Hin. exists required. split; [done|]. by apply bool_decide_eq_true.
Qed.

Lemma split_suites c : forall v : list Z, len v = 4 * Z.of_nat c ->
  exists suites, v = concat suites /\ Forall (fun suite => len suite = 4) suites /\ len suites = Z.of_nat c.
Proof.
  induction c as [|c IH]; intros v Hv.
  - exists []. split; [by apply len_0_nil|]. split; [constructor|done].
  - destruct (IH (drop 4 v)) as (suites & Hd & Hs & Hl); [rewrite len_drop; lia|].
    exists (take 4 v :: suites). cbn [concat]. rewrite <-Hd, take_drop. split; [done|].
    split; [|rewrite len_cons; lia]. constructor; [rewrite len_take; lia|done].
Qed.

Lemma len_concat_suites (suites : list (list Z)) :
  Forall (fun suite => len suite = 4) suites -> len (concat suites) = 4 * len suites.
Proof.
  induction 1 as [|s suites Hl Hs IH]; [done|]. cbn [concat]. rewrite len_app, len_cons. lia.
Qed.

Lemma suite_list_inj required suites suites' r r' :
  suite_list suites ++ r = suite_list suites' ++ r' ->
  suites_with required suites -> suites_with required suites' -> concat suites = concat suites' /\ r = r'.
Proof.
  intros He (Hs & _ & Hl) (Hs' & _ & Hl'). unfold suite_list in He. rewrite <-!app_assoc in He.
  apply app_inj_1 in He as [He Hr]; [|by rewrite !length_to_le].
  apply (f_equal from_le) in He. pose proof (len_nonneg suites). pose proof (len_nonneg suites').
  rewrite !(from_le_to_le_id 2) in He by (unfold in_u; lia).
  pose proof (len_concat_suites suites Hs). pose proof (len_concat_suites suites' Hs').
  apply app_inj_1 in Hr; [done|]. unfold len in *. lia.
Qed.

(** The list reader: what it consumes is a list with the required suite. *)
Lemma suite_list_reads pre l required :
  bytes_ok l -> len (pre ++ l) <= 2 ^ 20 ->
  match take_required_suite_list (pre ++ l) required (len pre) with
  | (Ok _, o) => exists suites r, l = suite_list suites ++ r /\ suites_with required suites
      /\ o = len (pre ++ suite_list suites)
  | (Err _, _) => forall suites r, l = suite_list suites ++ r -> ~ suites_with required suites
  | (Panic, _) => False
  end.
Proof.
  intros Hb Hlen. unfold take_required_suite_list, take_nonzero_suite_count, take_suite_bytes. munfold.
  rewrite take_u16_eq by done.
  destruct l as [|b0 [|b1 r]];
    [intros s r Hs; apply (f_equal len) in Hs; unfold suite_list in Hs; exfalso; len_solve..|].
  apply Forall_cons_iff in Hb as [Hb0 [Hb1 Hr]%Forall_cons_iff].
  set (count := from_le [b0; b1]). set (pre' := pre ++ [b0; b1]).
  assert (to_le 2 count = [b0; b1]) as Hcount.
  { apply (to_le_from_le [b0; b1]). constructor; [done|]. constructor; [done|constructor]. }
  assert (0 <= count < 65536) as Hc by (unfold count, is_byte in *; cbn; lia).
  assert (forall suites k, b0 :: b1 :: r = suite_list suites ++ k -> suites_with required suites ->
            len suites = count /\ r = concat suites ++ k) as Hinv.
  { intros suites k He (Hs4 & Hin & Hsl). unfold suite_list in He.
    change (b0 :: b1 :: r) with ([b0; b1] ++ r) in He. rewrite <-Hcount, <-app_assoc in He.
    apply app_inj_1 in He as [He Hrk]; [|by rewrite !length_to_le].
    split; [|done]. apply (f_equal from_le) in He.
    rewrite !(from_le_to_le_id 2) in He by (unfold in_u; pose proof (len_nonneg suites); lia). done. }
  destruct (count =? 0) eqn:H0.
  { intros suites k He Hw. destruct (Hinv suites k He Hw) as [Hl _]. destruct Hw as (_ & Hin & _).
    destruct suites; [by inversion Hin|]. rewrite len_cons in Hl. pose proof (len_nonneg suites). lia. }
  unfold checked_mul, USIZE_MAX. rewrite (proj2 (Z.leb_le (count * 4) _)) by lia. cbn [ok_or].
  change (pre ++ b0 :: b1 :: r) with (pre ++ [b0; b1] ++ r) in *. rewrite app_assoc in *.
  fold pre' in Hlen |- *. rewrite take_bytes_eq by lia.
  destruct (count * 4 <=? len r) eqn:Hcr.
  - destruct (split_suites (Z.to_nat count) (take (Z.to_nat (count * 4)) r)) as (suites & Hv & Hs & Hsl);
      [rewrite len_take; lia|]. rewrite Hv.
    destruct (has_suite (concat suites) required) eqn:Hh; cbn [negb].
    + apply has_suite_spec in Hh; [|done]. exists suites, (drop (Z.to_nat (count * 4)) r).
      unfold suite_list. rewrite Hsl, Z2Nat.id, Hcount by lia.
      split; [|split; [split; [done|split; [done|lia]]|unfold pre'; by rewrite <-app_assoc]].
      by rewrite <-app_assoc, <-Hv, take_drop.
    + intros suites' k He Hw. destruct (Hinv suites' k He Hw) as [Hl Hrk].
      destruct Hw as (Hs' & Hin & _). apply has_suite_spec in Hin; [|done].
      assert (concat suites = concat suites') as Hcc; [|congruence].
      rewrite <-Hv, Hrk. pose proof (len_concat_suites suites' Hs') as Hlc.
      rewrite take_app_length'; [done|]. unfold len in *. lia.
  - intros suites k He Hw. destruct (Hinv suites k He Hw) as [Hl Hrk]. destruct Hw as (Hs & _).
    pose proof (len_concat_suites suites Hs) as Hlc. apply (f_equal len) in Hrk.
    rewrite len_app in Hrk. pose proof (len_nonneg k). lia.
Qed.

Lemma fixed_fields_read l :
  bytes_ok l -> len l <= 2 ^ 20 ->
  match validate_fixed_rsn_fields l 0 with
  | (Ok _, o) => exists r, l = ([1; 0] ++ RSN_CIPHER_CCMP_SUITE) ++ r
      /\ o = len ([1; 0] ++ RSN_CIPHER_CCMP_SUITE)
  | (Err _, _) => forall r, l <> ([1; 0] ++ RSN_CIPHER_CCMP_SUITE) ++ r
  | (Panic, _) => False
  end.
Proof.
  intros Hb Hlen. unfold validate_fixed_rsn_fields, take_suite. munfold.
  pose proof (take_u16_eq [] l) as H16. cbn [app] in H16. change (len []) with 0 in H16.
  rewrite H16 by done. destruct l as [|b0 [|b1 l]]; [by intros r Hr..|].
  apply Forall_cons_iff in Hb as [Hb0 [Hb1 _]%Forall_cons_iff]. unfold is_byte in *.
  cbn [from_le]. destruct (_ =? 1) eqn:Hv; cbn [negb].
  2: { intros r [= -> -> _]. cbn in Hv. discriminate Hv. }
  assert (b0 = 1 /\ b1 = 0) as [-> ->] by lia.
  change (1 :: 0 :: l) with ([1; 0] ++ l) in *. rewrite take_bytes_eq by lia.
  destruct (4 <=? len l) eqn:Hl.
  - case_bool_decide as Hs; cbn [negb].
    + exists (drop (Z.to_nat 4) l). rewrite <-Hs, <-app_assoc, take_drop. by rewrite len_app, Hs.
    + intros r Hr. apply Hs. rewrite <-app_assoc in Hr. by apply app_inv_head in Hr as ->.
  - intros r Hr. rewrite <-app_assoc in Hr. apply app_inv_head in Hr as ->.
    rewrite len_app in Hl. pose proof (len_nonneg r).
    change (len RSN_CIPHER_CCMP_SUITE) with 4 in Hl. lia.
Qed.

Lemma tail_reads pre l :
  bytes_ok l -> len (pre ++ l) <= 2 ^ 20 ->
  match validate_optional_rsn_fields (pre ++ l) (len pre) with
  | (Ok _, _) => rsn_tail_ok l
  | (Err _, _) => ~ rsn_tail_ok l
  | (Panic, _) => False
  end.
Proof.
  intros Hb Hlen. unfold validate_optional_rsn_fields, validate_rsn_capabilities,
    validate_optional_pmkid. munfold.
  assert (forall p k : list Z, (len p =? len (p ++ k)) = true -> k = []) as Hend.
  { intros p k Hp. rewrite len_app in Hp. apply len_0_nil. lia. }
  destruct (len pre =? len (pre ++ l)) eqn:H0; [left; by apply (Hend pre)|].
  rewrite take_u16_eq by done.
  assert (forall k, rsn_tail_ok k -> k = [] \/ exists b0 b1 r, k = b0 :: b1 :: r
            /\ has (from_le [b0; b1]) (Z.lor RSN_CAP_MFPR RSN_CAP_MFPC) = false
            /\ (r = [] \/ r = [0; 0])) as Hshape.
  { intros k [->|(c & Hc & Hh & Hk)]; [by left|]. right.
    assert (from_le [c mod 256; c / 256 mod 256] = c) as Hle by (by apply (from_le_to_le_id 2)).
    destruct Hk as [-> | ->]; eexists _, _, _; (split; [reflexivity|]); rewrite Hle; auto. }
  destruct l as [|b0 [|b1 l]];
    [intros [?|(? & ? & ? & ? & _)]%Hshape; [|done]; rewrite app_nil_r in H0; lia
    |intros [?|(? & ? & ? & ? & _)]%Hshape; done|].
  apply Forall_cons_iff in Hb as [Hb0 [Hb1 Hb]%Forall_cons_iff].
  set (c := from_le [b0; b1]) in *.
  assert (to_le 2 c = [b0; b1] /\ in_u 16 c) as [Hc Hcu].
  { split; [|unfold in_u, c, is_byte in *; cbn; lia].
    apply (to_le_from_le [b0; b1]). constructor; [done|]. constructor; [done|constructor]. }
  destruct (has c _) eqn:Hh.
  { intros [?|(x & y & r & [= <- <- <-] & Hx & _)]%Hshape; [done|]. unfold c in Hh. by rewrite Hx in Hh. }
  change (pre ++ b0 :: b1 :: l) with (pre ++ [b0; b1] ++ l) in *. rewrite app_assoc in *.
  destruct (len (pre ++ [b0; b1]) =? _) eqn:H1.
  { apply Hend in H1 as ->. right. exists c. rewrite Hc. auto. }
  rewrite take_u16_eq by done.
  assert (forall k, rsn_tail_ok (b0 :: b1 :: k) -> k = [] \/ k = [0; 0]) as Hrest.
  { intros k [?|(x & y & r & [= <- <- <-] & _ & Hr)]%Hshape; done. }
  destruct l as [|c0 [|c1 l]];
    [intros _; rewrite app_nil_r in H1; lia|by intros [|]%Hrest|].
  apply Forall_cons_iff in Hb as [Hc0 [Hc1 Hb]%Forall_cons_iff]. unfold is_byte in *.
  cbn [from_le]. destruct (_ =? 0) eqn:Hz; cbn [negb]; [|intros [|[= -> -> ->]]%Hrest; [done|by cbn in Hz]].
  assert (c0 = 0 /\ c1 = 0) as [-> ->] by lia.
  change ((pre ++ [b0; b1]) ++ 0 :: 0 :: l) with ((pre ++ [b0; b1]) ++ [0; 0] ++ l) in *.
  rewrite app_assoc in *.
  destruct (len ((pre ++ [b0; b1]) ++ [0; 0]) =? _) eqn:H2.
  - apply Hend in H2 as ->. right. exists c. rewrite Hc. auto.
  - intros [|[= ->]]%Hrest; [done|]. rewrite app_nil_r in H2. lia.
Qed.

Lemma rsn_body_spec rsn_ie :
  match rsn_body rsn_ie with
  | Ok body => rsn_ie = 0x30 :: len body :: body /\ 2 <= len body <= 254
  | Err _ => forall body, rsn_ie = 0x30 :: len body :: body -> ~ 2 <= len body <= 254
  | Panic => False
  end.
Proof.
  unfold rsn_body, MAX_RSN_IE_LEN.
  destruct ((4 <=? len rsn_ie) && (len rsn_ie <=? 256)) eqn:Hl; cbn [negb].
  2: { intros body -> Hb. rewrite !len_cons in Hl. lia. }
  destruct rsn_ie as [|id [|n body]]; try (cbn in Hl; discriminate Hl).
  assert (@index Wpa2Error.t (id :: n :: body) 0 = Ok id /\ @index Wpa2Error.t (id :: n :: body) 1 = Ok n)
    as [-> ->] by done.
  assert (@subslice Wpa2Error.t (id :: n :: body) 2 (len (id :: n :: body)) = Ok body) as ->
    by (apply (subslice_suffix [id; n]); [done|by rewrite !len_cons, len_nil; lia]).
  rewrite !len_cons in *. cbn [mbind res_bind].
  destruct (id =? 0x30) eqn:Hid, (n + 2 =? 1 + (1 + len body)) eqn:Hn; cbn [negb orb];
    try (intros b [= ? ? ->]; lia).
  split; [repeat f_equal; lia|lia].
Qed.

Lemma rsn_fields_read body :
  bytes_ok body -> len body <= 2 ^ 20 ->
  match (validate_fixed_rsn_fields body;;
         take_required_suite_list body RSN_CIPHER_CCMP_SUITE;;
         take_required_suite_list body RSN_AKM_PSK_SUITE;;
         validate_optional_rsn_fields body) 0 with
  | (Ok _, _) => rsn_body_ok body
  | (Err _, _) => ~ rsn_body_ok body
  | (Panic, _) => False
  end.
Proof.
  intros Hbb Hl. munfold. pose proof (fixed_fields_read body Hbb Hl) as Hf.
  destruct (validate_fixed_rsn_fields body 0) as [[u|e|] o]; [| |done].
  2: { intros (p & a & r & He & _). apply (Hf (suite_list p ++ suite_list a ++ r)). by rewrite <-app_assoc. }
  destruct Hf as (l & -> & ->). set (pre := [1; 0] ++ RSN_CIPHER_CCMP_SUITE) in *.
  apply Forall_app in Hbb as [_ Hlb].
  pose proof (suite_list_reads pre l RSN_CIPHER_CCMP_SUITE Hlb Hl) as Hp.
  assert (rsn_body_ok (pre ++ l) -> exists p a r, l = suite_list p ++ suite_list a ++ r
            /\ suites_with RSN_CIPHER_CCMP_SUITE p /\ suites_with RSN_AKM_PSK_SUITE a /\ rsn_tail_ok r) as Hinv.
  { intros (p & a & r & He & ? & ? & ?). exists p, a, r. split; [|done].
    apply (app_inv_head pre). rewrite He. unfold pre. by rewrite <-app_assoc. }
  destruct (take_required_suite_list _ _ _) as [[u'|e|] o]; [| |done].
  2: { intros (p & a & r & He & Hpw & _)%Hinv. by eapply Hp. }
  destruct Hp as (pairwise & l2 & -> & Hpw & ->). apply Forall_app in Hlb as [Hpb Hlb].
  rewrite app_assoc in Hl |- *. set (pre2 := pre ++ suite_list pairwise) in *.
  pose proof (suite_list_reads pre2 l2 RSN_AKM_PSK_SUITE Hlb Hl) as Ha.
  assert (rsn_body_ok (pre2 ++ l2) -> exists a r, l2 = suite_list a ++ r
            /\ suites_with RSN_AKM_PSK_SUITE a /\ rsn_tail_ok r) as Hinv2.
  { unfold pre2. rewrite <-app_assoc. intros (p & a & r & He & ? & ? & ?)%Hinv. exists a, r. split; [|done].
    by eapply suite_list_inj in He as [_ ->]. }
  destruct (take_required_suite_list _ _ _) as [[u''|e|] o]; [| |done].
  2: { intros (a & r & He & Haw & _)%Hinv2. by eapply Ha. }
  destruct Ha as (akms & rest & -> & Haw & ->). apply Forall_app in Hlb as [_ Hrb].
  rewrite app_assoc in Hl |- *. set (pre3 := pre2 ++ suite_list akms) in *.
  pose proof (tail_reads pre3 rest Hrb Hl) as Ht.
  destruct (validate_optional_rsn_fields _ _) as [[u3|e|] o]; [| |done].
  - exists pairwise, akms, rest. split; [|done]. unfold pre3, pre2, pre. by rewrite <-!app_assoc.
  - unfold pre3. rewrite <-app_assoc. intros (a & r & He & Haw' & Htl)%Hinv2. apply Ht.
    by eapply suite_list_inj in He as [_ ->].
Qed.

(** * Properties *)

(** C22: the parser of EAPOL-Key frames neither panics nor guesses.  It accepts exactly the frames of
    99 to 512 bytes with protocol version 1 or 2, packet type 3, descriptor type 2 and the two
    length fields (of the body and of the key data) equal to what was received; it then returns
    the key information field and all the bytes after the fixed part as key data. *)
Theorem eapol_parse_correct bytes :
  bytes_ok bytes ->
  (eapol_ok bytes -> EapolKeyFrame_parse bytes = Ok (frame_of bytes))
  /\ (~ eapol_ok bytes -> exists e, EapolKeyFrame_parse bytes = Err e).
Proof.
  intros Hb. split; [by apply eapol_parse_ok|]. intros Hno.
  pose proof (eapol_parse_spec bytes Hb) as Hp.
  destruct (EapolKeyFrame_parse bytes) as [f|e|]; [|eauto|done]. by destruct Hp.
Qed.

Lemma eapol_parse_correct_witness :
  bytes_ok (zeros 99)
  /\ (eapol_ok (zeros 99) -> EapolKeyFrame_parse (zeros 99) = Ok (frame_of (zeros 99)))
  /\ (~ eapol_ok (zeros 99) -> exists e, EapolKeyFrame_parse (zeros 99) = Err e).
Proof. split; [by apply bytes_okb_ok|apply eapol_parse_correct; by apply bytes_okb_ok]. Defined.

(** the three responses the supplicant builds survive the round trip.  The bytes sent as
    message 2, message 4 and group message 2 are accepted by the frame parser, are classified as
    the message they are, carry the key length, the replay counter, the nonce and the information
    element they were built from, and their checksum verifies under the key they were signed
    with. *)
Theorem response_round_trip `{HmacSha1} peer version key_length replay nonce rsn_ie ptk :
  version = 1 \/ version = 2 -> in_u 16 key_length -> in_u 64 replay -> len nonce = 32 ->
  bytes_ok nonce -> bytes_ok rsn_ie -> len rsn_ie <= MAX_RSN_IE_LEN ->
  let sent r message nonce key_data := exists response frame,
    r = Ok response /\ tx_peer response = peer
    /\ EapolKeyFrame_parse (tx_slice response) = Ok frame /\ ek_message frame = message
    /\ protocol_version frame = version /\ Wpa2.key_length frame = key_length
    /\ replay_counter frame = replay /\ ek_nonce frame = nonce /\ ek_key_data frame = key_data
    /\ verify_mic frame ptk = true in
  sent (build_message2 peer version key_length replay nonce rsn_ie ptk)
    EapolKeyMessage.PairwiseMessage2 nonce rsn_ie
  /\ sent (build_message4 peer version key_length replay ptk)
       EapolKeyMessage.PairwiseMessage4 (zeros 32) []
  /\ sent (build_group_message2 peer version key_length replay ptk)
       EapolKeyMessage.GroupMessage2 (zeros 32) [].
Proof.
  intros Hv Hkl Hr Hn Hnb Hib Hil sent. unfold MAX_RSN_IE_LEN in Hil.
  assert (forall ki message nonce data, in_u 16 ki -> classify ki = message -> len nonce = 32 ->
    bytes_ok nonce -> bytes_ok data -> len data <= 413 ->
    sent (build_response peer version ki key_length replay nonce data ptk) message nonce data) as Hs.
  { intros ki message n data Hki Hc Hnl Hnbs Hdb Hd.
    destruct (build_response_spec peer version ki key_length replay n data ptk Hnl Hd)
      as (f & Hf & Hp & Hsl).
    exists f, (frame_of (tx_slice f)). split; [done|]. split; [done|]. rewrite Hsl.
    pose proof (verify_signed version ki key_length replay n data ptk Hv Hki Hkl Hr Hnl Hd) as Hver.
    unfold signed_eapol in *.
    set (mic := take 16 _) in *. assert (len mic = 16) as Hm by apply len_mic.
    destruct (eapol_bytes_fields version ki key_length replay n mic data Hv Hki Hkl Hr Hnl Hm Hd)
      as (Hok & E1 & E2 & E3 & E4 & E5 & E6 & _).
    assert (bytes_ok (eapol_bytes version ki key_length replay n mic data)) as Hb.
    { apply eapol_bytes_ok; try done; [by destruct Hv as [-> | ->]|].
      apply Forall_take, hmac_sha1_bytes. }
    split; [by apply eapol_parse_ok|]. unfold ek_message. rewrite E1. split_and!; done. }
  split_and!; apply Hs; try done; try lia; try (by apply Forall_replicate); try (by constructor).
Qed.

(** The address, the nonces and the element of a concrete access point. *)
Definition witness_ap : list Z := [2; 0; 0; 0; 0; 1].
Definition witness_station : list Z := [2; 0; 0; 0; 0; 2].
Definition witness_anonce : list Z := replicate 32 0x11.
Definition witness_snonce : list Z := replicate 32 0x22.
Definition witness_pmk : list Z := replicate 32 0x33.
Definition witness_rsn_ie : list Z :=
  [0x30; 20; 1; 0; 0x00; 0x0f; 0xac; 0x04; 1; 0; 0x00; 0x0f; 0xac; 0x04; 1; 0; 0x00; 0x0f; 0xac; 0x02;
   0; 0].

Lemma response_round_trip_witness :
  exists response frame,
    build_message2 (H:=sum_hmac) witness_ap 2 16 7 witness_snonce witness_rsn_ie (zeros 48) = Ok response
    /\ EapolKeyFrame_parse (tx_slice response) = Ok frame
    /\ ek_message frame = EapolKeyMessage.PairwiseMessage2
    /\ verify_mic (H:=sum_hmac) frame (zeros 48) = true.
Proof.
  destruct (response_round_trip (H:=sum_hmac) witness_ap 2 16 7 witness_snonce witness_rsn_ie (zeros 48))
    as [(response & frame & E1 & _ & E2 & E3 & _ & _ & _ & _ & _ & E4) _];
    [by right|by unfold in_u|by unfold in_u|done|by apply bytes_okb_ok|by apply bytes_okb_ok|done|].
  exists response, frame. done.
Defined.

(** C20: the information element validator accepts exactly its grammar, and never panics: an RSN
    element of at most 256 bytes with version 1, the CCMP group suite, a list of pairwise suites
    that contains CCMP, a list of key management suites that contains PSK, and optionally
    capabilities without management frame protection, and optionally a zero count of PMKIDs. *)
Theorem validate_rsn_ie_correct rsn_ie :
  bytes_ok rsn_ie ->
  validate_rsn_ie rsn_ie <> Panic /\ (validate_rsn_ie rsn_ie = Ok tt <-> rsn_ie_ok rsn_ie).
Proof.
  intros Hb. pose proof (rsn_body_spec rsn_ie) as Hbody. unfold validate_rsn_ie.
  destruct (rsn_body rsn_ie) as [body|e|]; cbn [mbind res_bind]; [|split; [done|split; [done|]]|done].
  2: { intros (body & He & Hl & (p & a & r & Hbo & _)). exfalso. apply (Hbody body He).
       split; [|done]. rewrite Hbo. change (len [1; 0]) with 2. rewrite len_app.
       pose proof (len_nonneg (RSN_CIPHER_CCMP_SUITE ++ suite_list p ++ suite_list a ++ r)).
       change (len [1; 0]) with 2. lia. }
  destruct Hbody as [-> Hl].
  assert (bytes_ok body) as Hbb by (by apply Forall_cons_iff in Hb as [_ [_ Hb]%Forall_cons_iff]).
  assert (rsn_ie_ok (0x30 :: len body :: body) <-> rsn_body_ok body) as ->.
  { split; [by intros (b & [= _ <-] & _ & Hok)|]. intros Hok.
    exists body. split; [done|]. split; [lia|done]. }
  pose proof (rsn_fields_read body Hbb ltac:(lia)) as Hr.
  match type of Hr with match ?m with _ => _ end => destruct m as [[[]|e|] o] end;
    [done| |done]. split; [done|]. by split.
Qed.

Lemma validate_rsn_ie_correct_witness :
  bytes_ok witness_rsn_ie /\ validate_rsn_ie witness_rsn_ie <> Panic
  /\ (validate_rsn_ie witness_rsn_ie = Ok tt <-> rsn_ie_ok witness_rsn_ie)
  /\ validate_rsn_ie witness_rsn_ie = Ok tt.
Proof.
  split; [by apply bytes_okb_ok|].
  pose proof (validate_rsn_ie_correct witness_rsn_ie ltac:(by apply bytes_okb_ok)) as [H1 H2].
  split; [exact H1|]. split; [exact H2|]. reflexivity.
Defined.

(** C21: the search of the key data agrees with its specification.  It returns a group key exactly
    when the data is a sequence of well-formed elements, of which the first GTK element (22 bytes,
    clear reserved bits) carries that key; every element moves the offset, so the loop ends with
    its result however many elements precede the key, and no data makes it panic. *)
Theorem parse_gtk_correct key_data gtk :
  (parse_gtk_kde key_data = Ok gtk <-> gtk_in key_data gtk)
  /\ (bytes_ok key_data -> parse_gtk_kde key_data <> Panic).
Proof. split; [apply parse_gtk_spec|apply parse_gtk_no_panic]. Qed.

Lemma parse_gtk_correct_witness :
  parse_gtk_kde (kde_bytes 0x30 [1; 0] ++ kde_bytes 0xdd (GTK_KDE_OUI_TYPE ++ [1; 0] ++ replicate 16 9))
  = Ok (mkGtkKde 1 (replicate 16 9)).
Proof.
  apply parse_gtk_correct. apply gtk_later; [done|done|done|].
  rewrite <-(app_nil_r (kde_bytes 0xdd _)). change (mkGtkKde 1) with (mkGtkKde (Z.land 1 3)).
  by apply gtk_here.
Defined.

(** C17: the unwrapping of the key data implements RFC 3394.  It succeeds on every wrapping of at
    least two blocks that fit the buffer, leaving the wrapped bytes at the start of the buffer;
    any other input is an error and leaves the buffer as it was, or cleared where the plaintext
    would be; nothing panics. *)
Theorem aes_key_unwrap_correct `{Aes128} kek out :
  len kek = 16 -> bytes_ok kek ->
  (forall plain, wrappable plain out ->
     aes_key_unwrap kek (key_wrap kek plain) out = (Ok (len plain), splice out 0 plain))
  /\ (forall encrypted, bytes_ok encrypted ->
        (forall plain, wrappable plain out -> encrypted <> key_wrap kek plain) ->
        exists e, aes_key_unwrap kek encrypted out = (Err e, out)
          \/ aes_key_unwrap kek encrypted out
             = (Err e, splice out 0 (zeros (len encrypted - 8)))).
Proof.
  intros Hl Hb. split.
  - intros plain. by apply aes_key_unwrap_wrapped.
  - intros encrypted Hb' Hno.
    pose proof (aes_key_unwrap_spec kek Hl Hb encrypted out Hb') as Hs.
    destruct (aes_key_unwrap kek encrypted out) as [[n|e|] out']; [| |done].
    + destruct Hs as (p & _ & Hp & He & _). by destruct (Hno p Hp).
    + destruct Hs as [_ [-> | ->]]; exists e; [by left|by right].
Qed.

Lemma aes_key_unwrap_correct_witness :
  aes_key_unwrap (H:=null_cipher) (zeros 16) (key_wrap (H:=null_cipher) (zeros 16) (replicate 16 7))
    (zeros 20)
  = (Ok 16, splice (zeros 20) 0 (replicate 16 7)).
Proof.
  apply (aes_key_unwrap_correct (H:=null_cipher) (zeros 16) (zeros 20));
    [done|by apply bytes_okb_ok|]. split_and!; [by apply bytes_okb_ok|done..].
Defined.

(** C18: the key derivation is the PRF-384 of the standard.  The loop ends after three blocks (any
    fuel from there on gives the same key): the key is the first 48 bytes of the blocks of
    counters 0, 1 and 2 over the label, a zero byte, the ordered addresses and the ordered nonces;
    and the two parties derive the same key, whichever order each of them gives its own address
    and nonce in. *)
Theorem derive_ptk_correct `{HmacSha1} pmk aa sa anonce snonce :
  len aa = 6 -> len sa = 6 -> len anonce = 32 -> len snonce = 32 ->
  let block := prf_block pmk (prf_context aa sa anonce snonce) in
  let ptk := take 48 (block 0 ++ block 1 ++ block 2) in
  derive_ptk pmk aa sa anonce snonce = ptk
  /\ (forall fuel, (3 <= fuel)%nat ->
        ptk_loop fuel pmk (ptk_context aa sa anonce snonce) (zeros WPA2_PTK_LEN) 0 0 = ptk)
  /\ derive_ptk pmk sa aa snonce anonce = ptk.
Proof.
  intros Haa Hsa Han Hsn block ptk.
  assert (prf_context sa aa snonce anonce = prf_context aa sa anonce snonce) as Hsym.
  { unfold prf_context. rewrite (ordered_comm sa aa), (ordered_comm snonce anonce);
      [done|unfold len in *; lia..]. }
  unfold derive_ptk. split; [|split].
  - rewrite ptk_loop_spec, ptk_context_eq by (done || (vm_compute; lia)). done.
  - intros fuel Hf. rewrite ptk_loop_spec, ptk_context_eq by done. done.
  - rewrite ptk_loop_spec, ptk_context_eq, Hsym by (done || (vm_compute; lia)). done.
Qed.

Lemma derive_ptk_correct_witness :
  derive_ptk (H:=sum_hmac) witness_pmk witness_station witness_ap witness_snonce witness_anonce
  = derive_ptk (H:=sum_hmac) witness_pmk witness_ap witness_station witness_anonce witness_snonce.
Proof.
  destruct (derive_ptk_correct (H:=sum_hmac) witness_pmk witness_ap witness_station witness_anonce
    witness_snonce eq_refl eq_refl eq_refl eq_refl) as (-> & _ & ->). reflexivity.
Defined.
