(* ===== verification/Handshake.v ===== *)
(** * Handshake: the supplicant of wpa2.rs as a state machine

    The abstract rules of the four-way handshake and of the group rekey, the
    proof that the handlers of [Wpa2] implement them, and what follows for
    whole runs: no key is installed twice, every installed key was
    authenticated, and an honest access point is served. *)

From Stdlib Require Import Sorting.Sorted.
From S2P Require Import Prelude Crypto Codec Protocol Control Wpa2.

(** ** Types

    The ranges the Rust types give, kept by every operation. *)

Definition ptk_ok (ptk : list Z) : Prop := len ptk = 48 /\ bytes_ok ptk.
Record ws_ok (s : Wpa2Supplicant) : Prop := {
  ok_rsn_ie : len (ws_rsn_ie s) = MAX_RSN_IE_LEN /\ bytes_ok (ws_rsn_ie s);
  ok_rsn_ie_len : 0 <= ws_rsn_ie_len s <= MAX_RSN_IE_LEN;
  ok_supplicant_nonce : len (ws_supplicant_nonce s) = 32 /\ bytes_ok (ws_supplicant_nonce s);
  ok_authenticator_nonce : len (ws_authenticator_nonce s) = 32 /\ bytes_ok (ws_authenticator_nonce s);
  ok_ptk : forall ptk, ws_ptk s = Some ptk -> ptk_ok ptk;
  ok_message1 : forall replay, ws_message1_replay s = Some replay -> is_some (ws_ptk s) = true;
  ok_next_ticket : in_u 32 (ws_next_ticket s) /\ 0 < ws_next_ticket s }.

(** The information element of the supplicant. *)
Definition own_rsn_ie (s : Wpa2Supplicant) : list Z := take (Z.to_nat (ws_rsn_ie_len s)) (ws_rsn_ie s).

Section machine.
Context {sha : Sha256} {mac : HmacSha1} {aes : Aes128}.
Implicit Types s : Wpa2Supplicant.

(** ** The rules *)

(** [r] is the given frame, for the peer and signed with the key. *)
Definition response_is (r : EapolTxFrame) s (frame : EapolKeyFrame) (info : Z) (nonce data ptk : list Z)
    : Prop :=
  tx_peer r = ws_peer s
  /\ tx_slice r = signed_eapol (protocol_version frame) info (key_length frame) (replay_counter frame)
                    nonce data ptk.

(** [group] is the group key the frame carries, wrapped under the key. *)
Definition group_is (group : GroupKeyInstall) (frame : EapolKeyFrame) (ptk : list Z) : Prop :=
  exists plain gtk,
    ek_key_data frame = key_wrap (kek ptk) plain /\ gtk_in plain gtk
    /\ group = mkGroupKeyInstall (gtk_key_index gtk) 16 (gtk_key gtk ++ zeros 16)
                 (key_receive_sequence frame).

(** Errors that leave the supplicant as it was, and errors that close it. *)
Definition refusal (e : Wpa2Error.t) : bool :=
  match e with
  | Wpa2Error.FrameTooShort | Wpa2Error.FrameTooLarge | Wpa2Error.LengthMismatch
  | Wpa2Error.NotEapolKey | Wpa2Error.UnsupportedProtocolVersion _ | Wpa2Error.UnsupportedDescriptor
  | Wpa2Error.Busy | Wpa2Error.NewPairwiseHandshakeRequiresNonce | Wpa2Error.InvalidPhase
  | Wpa2Error.InvalidEncryptedKeyData | Wpa2Error.KeyUnwrapIntegrity | Wpa2Error.MissingGroupKey
  | Wpa2Error.OutputTooSmall => true
  | _ => false
  end.
Definition closing (e : Wpa2Error.t) : bool :=
  match e with
  | Wpa2Error.InvalidPhase => true
  | _ => negb (refusal e)
  end.

(** The pairwise key of a first message. *)
Definition message1_ptk s (frame : EapolKeyFrame) : list Z :=
  derive_ptk (ws_pmk s) (ws_peer s) (ws_local s) (ek_nonce frame) (ws_supplicant_nonce s).

(** The state after a key install has been requested. *)
Definition requested s (replay : Z) (group : bool) (digest : list Z) : Wpa2Supplicant :=
  set_pending (Some (ws_next_ticket s, replay, group)) (Some digest)
    (set_next_ticket (Z.max (u32 (ws_next_ticket s + 1)) 1) s).

Inductive eapol_rule s (bytes : list Z) : res Wpa2Error.t Wpa2Action.t -> Wpa2Supplicant -> Prop :=
  | rule_close e :
      closing e = true -> eapol_rule s bytes (Err e) (failed s)
  | rule_refuse e :
      refusal e = true -> eapol_rule s bytes (Err e) s
  | rule_duplicate :
      is_some (ws_pending_ticket s) = true -> ws_pending_frame_digest s = Some (sha256 bytes) ->
      eapol_rule s bytes (Ok Wpa2Action.None) s
  | rule_message1 r :
      eapol_ok bytes -> ek_message (frame_of bytes) = EapolKeyMessage.PairwiseMessage1 ->
      ws_pending_ticket s = None -> ws_message1_replay s = None ->
      ws_phase s = Wpa2Phase.AwaitingMessage1 \/ ws_phase s = Wpa2Phase.AwaitingMessage3 ->
      is_zero_nonce (ek_nonce (frame_of bytes)) = false ->
      response_is r s (frame_of bytes) MESSAGE2_INFO (ws_supplicant_nonce s) (own_rsn_ie s)
        (message1_ptk s (frame_of bytes)) ->
      eapol_rule s bytes (Ok (Wpa2Action.Transmit r))
        (set_phase Wpa2Phase.AwaitingMessage3
           (set_message1 (ek_nonce (frame_of bytes)) (replay_counter (frame_of bytes)) (sha256 bytes)
              (message1_ptk s (frame_of bytes)) s))
  | rule_message1_again r ptk :
      eapol_ok bytes -> ek_message (frame_of bytes) = EapolKeyMessage.PairwiseMessage1 ->
      ws_phase s = Wpa2Phase.AwaitingMessage1 \/ ws_phase s = Wpa2Phase.AwaitingMessage3 ->
      ws_message1_replay s = Some (replay_counter (frame_of bytes)) ->
      ws_message1_digest s = Some (sha256 bytes) -> ws_ptk s = Some ptk ->
      response_is r s (frame_of bytes) MESSAGE2_INFO (ws_supplicant_nonce s) (own_rsn_ie s) ptk ->
      eapol_rule s bytes (Ok (Wpa2Action.Transmit r)) s
  | rule_message3 r ptk replay1 group :
      eapol_ok bytes -> ek_message (frame_of bytes) = EapolKeyMessage.PairwiseMessage3 ->
      ws_pending_ticket s = None -> ws_phase s = Wpa2Phase.AwaitingMessage3 -> ws_ptk s = Some ptk ->
      ek_nonce (frame_of bytes) = ws_authenticator_nonce s -> verify_mic (frame_of bytes) ptk = true ->
      ws_message1_replay s = Some replay1 -> replay1 < replay_counter (frame_of bytes) ->
      encrypted_key_data (ek_key_info (frame_of bytes)) = true ->
      group_is group (frame_of bytes) ptk ->
      response_is r s (frame_of bytes) MESSAGE4_INFO (zeros 32) [] ptk ->
      eapol_rule s bytes
        (Ok (Wpa2Action.InstallKeys
               (mkKeyInstallRequest (ws_next_ticket s) (replay_counter (frame_of bytes))
                  (mkPairwiseKeyInstall (ws_peer s) (temporal_key ptk)) group r)))
        (set_phase Wpa2Phase.InstallingKeys
           (requested s (replay_counter (frame_of bytes)) false (sha256 bytes)))
  | rule_message3_again r ptk :
      eapol_ok bytes -> ek_message (frame_of bytes) = EapolKeyMessage.PairwiseMessage3 ->
      ws_phase s = Wpa2Phase.Complete -> ws_ptk s = Some ptk ->
      verify_mic (frame_of bytes) ptk = true ->
      ws_completed_replay s = Some (replay_counter (frame_of bytes)) ->
      ws_completed_message3_digest s = Some (sha256 bytes) ->
      response_is r s (frame_of bytes) MESSAGE4_INFO (zeros 32) [] ptk ->
      eapol_rule s bytes (Ok (Wpa2Action.Transmit r)) s
  | rule_group r ptk group :
      eapol_ok bytes -> ek_message (frame_of bytes) = EapolKeyMessage.GroupMessage1 ->
      ws_pending_ticket s = None -> ws_phase s = Wpa2Phase.Complete -> ws_ptk s = Some ptk ->
      verify_mic (frame_of bytes) ptk = true ->
      default 0 (ws_completed_replay s) < replay_counter (frame_of bytes) ->
      encrypted_key_data (ek_key_info (frame_of bytes)) = true ->
      group_is group (frame_of bytes) ptk ->
      response_is r s (frame_of bytes) GROUP2_INFO (zeros 32) [] ptk ->
      eapol_rule s bytes
        (Ok (Wpa2Action.InstallGroupKey
               (mkGroupKeyInstallRequest (ws_next_ticket s) (replay_counter (frame_of bytes)) group r)))
        (requested s (replay_counter (frame_of bytes)) true (sha256 bytes))
  | rule_group_again r ptk :
      eapol_ok bytes -> ek_message (frame_of bytes) = EapolKeyMessage.GroupMessage1 ->
      ws_phase s = Wpa2Phase.Complete -> ws_ptk s = Some ptk ->
      verify_mic (frame_of bytes) ptk = true ->
      ws_last_group_replay s = Some (replay_counter (frame_of bytes)) ->
      ws_last_group_message1_digest s = Some (sha256 bytes) ->
      response_is r s (frame_of bytes) GROUP2_INFO (zeros 32) [] ptk ->
      eapol_rule s bytes (Ok (Wpa2Action.Transmit r)) s.

(** ** The handlers implement the rules *)

(** The outcome of a computation, as a pair of its result and state. *)
Definition ruled s bytes (o : res Wpa2Error.t Wpa2Action.t * Wpa2Supplicant) : Prop :=
  eapol_rule s bytes o.1 o.2.

Lemma ruled_fail s bytes e : closing e = true -> ruled s bytes (fail (A:=Wpa2Action.t) e s).
Proof. apply (rule_close s bytes e). Qed.

Lemma ruled_throw s bytes e : refusal e = true -> ruled s bytes (throw (A:=Wpa2Action.t) e s).
Proof. apply (rule_refuse s bytes e). Qed.

Lemma ruled_fail_on {A} s bytes (r : res Wpa2Error.t A) (k : A -> M Wpa2Supplicant Wpa2Error.t Wpa2Action.t) :
  r <> Panic -> (forall e, r = Err e -> closing e = true) ->
  (forall a, r = Ok a -> ruled s bytes (k a s)) -> ruled s bytes ((fail_on r ≫= k) s).
Proof.
  intros Hp He Hk. destruct r as [a|e|]; cbn; [by apply Hk|by apply rule_close, He|done].
Qed.

Lemma ruled_fail_error {A} s bytes e (k : A -> M Wpa2Supplicant Wpa2Error.t Wpa2Action.t) :
  closing e = true -> ruled s bytes ((fail_on (Err e) ≫= k) s).
Proof. apply (rule_close s bytes e). Qed.

Lemma ruled_require_ptk s bytes (k : list Z -> M Wpa2Supplicant Wpa2Error.t Wpa2Action.t) :
  (forall ptk, ws_ptk s = Some ptk -> ruled s bytes (k ptk s)) ->
  ruled s bytes ((require_ptk ≫= k) s).
Proof.
  intros Hk. unfold require_ptk. munfold. destruct (ws_ptk s) as [ptk|]; [by apply Hk|].
  by apply rule_refuse.
Qed.

Lemma frame_ranges bytes :
  bytes_ok bytes -> eapol_ok bytes ->
  len (ek_nonce (frame_of bytes)) = 32 /\ bytes_ok (ek_nonce (frame_of bytes))
  /\ bytes_ok (ek_key_data (frame_of bytes)) /\ len (ek_key_data (frame_of bytes)) <= 413.
Proof.
  intros Hb (Hl & _). unfold ek_nonce, ek_slice. cbn [ek_bytes ek_key_data frame_of].
  rewrite len_take, !len_drop. split; [lia|]. split; [by apply Forall_take, Forall_drop|].
  split; [by apply Forall_drop|lia].
Qed.

Lemma own_rsn_ie_ok s :
  ws_ok s -> slice (ws_rsn_ie s) 0 (ws_rsn_ie_len s) = Some (own_rsn_ie s) /\ len (own_rsn_ie s) <= 413.
Proof.
  intros [[Hl _] Hn _ _ _ _ _]. unfold MAX_RSN_IE_LEN in *. rewrite slice_in by lia.
  unfold own_rsn_ie. rewrite Z.sub_0_r. split; [done|]. rewrite len_take. lia.
Qed.

Lemma message2_action_ok s frame ptk :
  ws_ok s -> ws_ptk s = Some ptk ->
  exists r, message2_action frame s = (Ok (Wpa2Action.Transmit r), s)
    /\ response_is r s frame MESSAGE2_INFO (ws_supplicant_nonce s) (own_rsn_ie s) ptk.
Proof.
  intros Hok Hptk. destruct (own_rsn_ie_ok s Hok) as [Hs Hl].
  destruct (build_response_spec (ws_peer s) (protocol_version frame) MESSAGE2_INFO (key_length frame)
    (replay_counter frame) (ws_supplicant_nonce s) (own_rsn_ie s) ptk) as (r & Hr & Hp & Hsl);
    [apply (ok_supplicant_nonce s Hok)|done|].
  exists r. unfold message2_action, require_ptk, build_message2. munfold.
  rewrite Hptk. cbn [ok_or]. rewrite Hs. cbn [expect]. rewrite Hr. done.
Qed.

Lemma group_key_install_ok bytes ptk :
  bytes_ok bytes -> eapol_ok bytes -> ptk_ok ptk ->
  match group_key_install (frame_of bytes) ptk with
  | Ok group => group_is group (frame_of bytes) ptk
  | Err e => refusal e = true
  | Panic => False
  end.
Proof.
  intros Hb Hok [Hpl Hpb]. destruct (kek_ok ptk Hpl Hpb) as [Hkl Hkb].
  destruct (frame_ranges bytes Hb Hok) as (_ & _ & Hdb & Hdl). unfold group_key_install.
  set (data := ek_key_data (frame_of bytes)) in *.
  pose proof (aes_key_unwrap_spec (kek ptk) Hkl Hkb data (zeros MAX_KEY_DATA_LEN) Hdb) as Hs.
  assert (forall e o, aes_key_unwrap (kek ptk) data (zeros MAX_KEY_DATA_LEN) = (Err e, o) ->
            refusal e = true) as He.
  { intros e o. unfold aes_key_unwrap, validate_wrapped_key_lengths. munfold.
    destruct (_ || _); [by intros [= <- _]|]. destruct (_ <? _); [by intros [= <- _]|].
    destruct (unwrap_key_blocks _ _ _ _) as [a p]. case_bool_decide; cbn [negb]; [done|].
    by intros [= <- _]. }
  destruct (aes_key_unwrap _ _ _) as [[n|e|] out]; [|by eapply He|done].
  destruct Hs as (plain & <- & (Hpbs & Hplen & _) & Hw & ->).
  assert (@subslice Wpa2Error.t (splice (zeros MAX_KEY_DATA_LEN) 0 plain) 0 (len plain) = Ok plain) as ->.
  { unfold splice. cbn [take Z.to_nat]. apply (subslice_app [] plain); [done|]. rewrite len_nil. lia. }
  cbn [mbind res_bind]. destruct (parse_gtk_kde plain) as [gtk|e|] eqn:Hg.
  - exists plain, gtk. apply parse_gtk_spec in Hg. split; [done|]. split; [done|].
    assert (len (gtk_key gtk) = 16) as Hk by (clear -Hg; by induction Hg).
    cbn [mbind res_bind]. rewrite Hk. f_equal. unfold splice. cbn [take Z.to_nat app].
    by rewrite (length_len (gtk_key gtk)), Hk.
  - cbn [mbind res_bind]. by apply parse_gtk_error in Hg as [-> | ->].
  - by apply parse_gtk_no_panic in Hg.
Qed.

#[local] Opaque derive_ptk ptk_loop build_response message2_action.

Section handlers.
Variables (s : Wpa2Supplicant) (bytes : list Z).
Hypothesis s_ok : ws_ok s.
Hypothesis bytes_are : bytes_ok bytes.
Hypothesis parsed : eapol_ok bytes.
Local Abbreviation frame := (frame_of bytes).

Lemma message1_ptk_ok : ptk_ok (message1_ptk s frame).
Proof. apply derive_ptk_ok. Qed.

Lemma message1_state_ok :
  ws_ok (set_phase Wpa2Phase.AwaitingMessage3
           (set_message1 (ek_nonce frame) (replay_counter frame) (sha256 bytes) (message1_ptk s frame) s)).
Proof.
  destruct s_ok. split; cbn; try done.
  - by destruct (frame_ranges bytes bytes_are parsed) as (? & ? & _).
  - intros ptk [= <-]. apply message1_ptk_ok.
Qed.

Lemma on_message1_ruled :
  ek_message frame = EapolKeyMessage.PairwiseMessage1 -> ws_pending_ticket s = None ->
  ruled s bytes (on_message1 frame s).
Proof.
  intros Hm Hpend. pose proof (ok_message1 s s_ok) as Hptk. unfold on_message1.
  destruct (negb (len (ek_key_data frame) =? 0)); [by apply ruled_fail|].
  destruct (is_zero_nonce (ek_nonce frame)) eqn:Hz; [by apply ruled_fail|]. munfold.
  assert (forall e, closing e = true ->
            (ws_phase s = Wpa2Phase.AwaitingMessage1 \/ ws_phase s = Wpa2Phase.AwaitingMessage3) ->
            ruled s bytes (match ws_message1_replay s with
              | Some previous => handle_repeated_message1 frame previous (ek_nonce frame) (ek_digest frame)
              | None => begin_message1 frame (replay_counter frame) (ek_nonce frame) (ek_digest frame)
              end s)) as Hw.
  { intros _ _ Hph. destruct (ws_message1_replay s) as [previous|] eqn:Hr.
    - unfold handle_repeated_message1. munfold.
      destruct (_ <? previous) eqn:H1; [by apply ruled_fail|].
      destruct (previous <? _) eqn:H2; [by apply ruled_throw|].
      case_bool_decide as Hn; cbn [negb orb]; [|by apply ruled_fail].
      case_bool_decide as Hd; cbn [negb]; [|by apply ruled_fail].
      destruct (ws_ptk s) as [ptk|] eqn:Hp; [|by specialize (Hptk _ eq_refl)].
      destruct (message2_action_ok s frame ptk s_ok Hp) as (r & -> & Hresp).
      apply (rule_message1_again s bytes r ptk); try done. rewrite Hr. f_equal. lia.
    - unfold begin_message1. munfold.
      destruct (message2_action_ok (set_phase Wpa2Phase.AwaitingMessage3
        (set_message1 (ek_nonce frame) (replay_counter frame) (sha256 bytes) (message1_ptk s frame) s))
        frame (message1_ptk s frame) message1_state_ok eq_refl) as (r & Hr' & Hresp).
      unfold ek_digest. cbn [ek_bytes frame_of]. unfold message1_ptk in Hr' at 1. rewrite Hr'.
      by apply rule_message1. }
  unfold ek_digest in *. cbn [ek_bytes frame_of] in *.
  destruct (ws_phase s); try (by apply ruled_fail).
  - apply (Hw Wpa2Error.InvalidPhase); auto.
  - apply (Hw Wpa2Error.InvalidPhase); auto.
  - unfold handle_message1_after_completion. munfold.
    destruct (_ && _); [by apply ruled_fail|by apply ruled_throw].
Qed.

Lemma build_response_ok info nonce data ptk :
  len nonce = 32 -> len data <= 413 ->
  exists r, build_response (ws_peer s) (protocol_version frame) info (key_length frame)
      (replay_counter frame) nonce data ptk = Ok r
    /\ response_is r s frame info nonce data ptk.
Proof.
  intros Hn Hd. destruct (build_response_spec (ws_peer s) (protocol_version frame) info
    (key_length frame) (replay_counter frame) nonce data ptk Hn Hd) as (r & Hr & Hp & Hs).
  exists r. done.
Qed.

Lemma start_key_install_eq replay group digest s' :
  start_key_install replay group digest s' = (Ok (ws_next_ticket s'), requested s' replay group digest).
Proof. reflexivity. Qed.

Lemma on_message3_ruled :
  ek_message frame = EapolKeyMessage.PairwiseMessage3 -> ws_pending_ticket s = None ->
  ruled s bytes (on_message3 frame s).
Proof.
  intros Hm Hpend. unfold on_message3. apply ruled_require_ptk. intros ptk Hptk.
  change (ruled s bytes ((fail_on (validate_message3_authenticator frame ptk (ws_authenticator_nonce s))
    ≫= fun _ => if bool_decide (ws_phase s = Wpa2Phase.Complete)
               then handle_completed_message3 frame (ek_digest frame) else
               fail_on (validate_new_message3 frame s);;
               group ← lift (group_key_install frame ptk);
               response ← lift (build_message4 (ws_peer s) (protocol_version frame) (key_length frame)
                                  (replay_counter frame) ptk);
               ticket ← start_key_install (replay_counter frame) false (ek_digest frame);
               modify (set_phase Wpa2Phase.InstallingKeys);;
               mret (Wpa2Action.InstallKeys (mkKeyInstallRequest ticket (replay_counter frame)
                 (mkPairwiseKeyInstall (ws_peer s) (temporal_key ptk)) group response))) s)).
  destruct (build_response_ok MESSAGE4_INFO (zeros 32) [] ptk eq_refl ltac:(done)) as (r & Hr & Hresp).
  unfold validate_message3_authenticator.
  destruct (bool_decide (ek_nonce frame = ws_authenticator_nonce s)) eqn:Hn; cbn [negb];
    [apply bool_decide_eq_true in Hn|by apply ruled_fail_error].
  destruct (verify_mic frame ptk) eqn:Hmic; cbn [negb]; [|by apply ruled_fail_error].
  apply ruled_fail_on; [done..|]. intros _ _. case_bool_decide as Hph.
  - unfold handle_completed_message3, require_ptk. munfold.
    case_bool_decide as Hc; cbn [negb]; [|by apply ruled_fail].
    case_bool_decide as Hd; cbn [negb]; [|by apply ruled_fail].
    rewrite Hptk. cbn [ok_or]. unfold build_message4. rewrite Hr.
    by apply (rule_message3_again s bytes r ptk).
  - unfold validate_new_message3.
    case_bool_decide as Hph3; cbn [negb]; [|by apply ruled_fail_error].
    destruct (ws_message1_replay s) as [replay1|] eqn:Hr1; cbn [ok_or mbind res_bind];
      [|by apply ruled_fail_error].
    destruct (_ <=? replay1) eqn:Hle; [by apply ruled_fail_error|].
    unfold require_encrypted_key_data.
    destruct (encrypted_key_data _ && _) eqn:He; [|by apply ruled_fail_error].
    apply andb_true_iff in He as [He _].
    apply ruled_fail_on; [done..|]. intros _ _. munfold.
    pose proof (group_key_install_ok bytes ptk bytes_are parsed (ok_ptk s s_ok ptk Hptk)) as Hg.
    destruct (group_key_install frame ptk) as [group|e|]; [|by apply rule_refuse|done].
    unfold build_message4. rewrite Hr, start_key_install_eq.
    apply (rule_message3 s bytes r ptk replay1 group); try done. lia.
Qed.

Lemma on_group_message1_ruled :
  ek_message frame = EapolKeyMessage.GroupMessage1 -> ws_pending_ticket s = None ->
  ruled s bytes (on_group_message1 frame s).
Proof.
  intros Hm Hpend. unfold on_group_message1.
  change (ruled s bytes ((if negb (bool_decide (ws_phase s = Wpa2Phase.Complete))
    then fail (A:=Wpa2Action.t) Wpa2Error.InvalidPhase
    else if bool_decide (ws_last_group_replay s = Some (replay_counter frame))
         then handle_repeated_group_message1 frame (ek_digest frame)
         else fail_on (validate_new_group_message1 frame s);;
              ptk ← require_ptk;
              group ← lift (group_key_install frame ptk);
              response ← lift (build_group_message2 (ws_peer s) (protocol_version frame)
                                 (key_length frame) (replay_counter frame) ptk);
              ticket ← start_key_install (replay_counter frame) true (ek_digest frame);
              mret (Wpa2Action.InstallGroupKey (mkGroupKeyInstallRequest ticket (replay_counter frame)
                group response))) s)).
  case_bool_decide as Hph; cbn [negb]; [|by apply ruled_fail]. case_bool_decide as Hlast.
  - unfold handle_repeated_group_message1.
    change (ruled s bytes ((require_ptk ≫= fun ptk =>
      if negb (verify_mic frame ptk) then fail Wpa2Error.InvalidMic
      else if negb (bool_decide (ws_last_group_message1_digest s = Some (ek_digest frame)))
      then fail Wpa2Error.ConflictingRetransmission
      else response ← lift (build_group_message2 (ws_peer s) (protocol_version frame) (key_length frame)
                              (replay_counter frame) ptk);
           mret (Wpa2Action.Transmit response)) s)).
    apply ruled_require_ptk. intros ptk Hptk.
    destruct (verify_mic frame ptk) eqn:Hmic; cbn [negb]; [|by apply ruled_fail].
    case_bool_decide as Hd; cbn [negb]; [|by apply ruled_fail].
    destruct (build_response_ok GROUP2_INFO (zeros 32) [] ptk eq_refl ltac:(done)) as (r & Hr & Hresp).
    munfold. unfold build_group_message2. rewrite Hr. by apply (rule_group_again s bytes r ptk).
  - unfold validate_new_group_message1.
    destruct (_ <=? default 0 (ws_completed_replay s)) eqn:Hle;
      [by apply ruled_fail_error|].
    destruct (ws_ptk s) as [ptk|] eqn:Hptk; cbn [ok_or mbind res_bind];
      [|by apply ruled_fail_error].
    destruct (verify_mic frame ptk) eqn:Hmic; cbn [negb]; [|by apply ruled_fail_error].
    unfold require_encrypted_key_data.
    destruct (encrypted_key_data _ && _) eqn:He; [|by apply ruled_fail_error].
    apply andb_true_iff in He as [He _].
    apply ruled_fail_on; [done..|]. intros _ _. unfold require_ptk. munfold. rewrite Hptk. cbn [ok_or].
    pose proof (group_key_install_ok bytes ptk bytes_are parsed (ok_ptk s s_ok ptk Hptk)) as Hg.
    destruct (group_key_install frame ptk) as [group|e|]; [|by apply rule_refuse|done].
    destruct (build_response_ok GROUP2_INFO (zeros 32) [] ptk eq_refl ltac:(done)) as (r & Hr & Hresp).
    unfold build_group_message2. rewrite Hr, start_key_install_eq.
    apply (rule_group s bytes r ptk group); try done. lia.
Qed.
End handlers.

Lemma parse_refusal bytes e : EapolKeyFrame_parse bytes = Err e -> refusal e = true.
Proof.
  unfold EapolKeyFrame_parse, validate_eapol_size, validate_eapol_header, eapol_total_length,
    eapol_key_data_end, checked_add, read_be16, index, subslice, expect, ok_or. munfold.
  intros Hp. repeat (case_in Hp; simplify_eq/=; try done).
Qed.

Lemma on_eapol_ruled s peer bytes :
  ws_ok s -> bytes_ok bytes -> ruled s bytes (on_eapol peer bytes s).
Proof.
  intros Hok Hb. unfold on_eapol. munfold.
  case_bool_decide as Hpeer; cbn [negb]; [|by apply ruled_fail].
  pose proof (eapol_parse_spec bytes Hb) as Hparse.
  destruct (EapolKeyFrame_parse bytes) as [f|e|] eqn:Hp;
    [|by apply rule_refuse, (parse_refusal bytes)|done].
  destruct Hparse as [Hpok ->]. unfold validate_frame.
  destruct (negb _); [by apply ruled_fail|]. destruct (_ && _); [by apply ruled_fail|].
  unfold handle_pending_frame. munfold.
  destruct (ws_pending_ticket s) as [[[ticket replay] group]|] eqn:Hpend.
  - destruct (negb _); [by apply ruled_throw|]. destruct (_ && _) eqn:Hd; [|by apply ruled_fail].
    apply andb_true_iff in Hd as [_ Hd%bool_decide_eq_true].
    unfold ruled. cbn [fst snd]. apply rule_duplicate; [by rewrite Hpend|done].
  - unfold dispatch_eapol. destruct (ek_message (frame_of bytes)) eqn:Hm; try (by apply ruled_fail).
    + by apply on_message1_ruled.
    + by apply on_message3_ruled.
    + by apply on_group_message1_ruled.
Qed.

(** ** Operations *)

(** A call of the owner of a supplicant, between two restarts. *)
Inductive ws_op : Type :=
  | OpEapol (peer bytes : list Z)
  | OpKeysInstalled (request : Wpa2KeyInstallRequest) (installed : bool)
  | OpGroupKeyInstalled (request : Wpa2GroupKeyInstallRequest) (installed : bool).

(** The bytes of a slice are bytes. *)
Definition op_ok (op : ws_op) : Prop :=
  match op with OpEapol _ bytes => bytes_ok bytes | _ => True end.

(** The responses that the completions return are shown as transmissions. *)
Definition ws_step (op : ws_op) : M Wpa2Supplicant Wpa2Error.t Wpa2Action.t :=
  match op with
  | OpEapol peer bytes => on_eapol peer bytes
  | OpKeysInstalled request installed =>
      frame ← complete_key_install request installed; mret (Wpa2Action.Transmit frame)
  | OpGroupKeyInstalled request installed =>
      frame ← complete_group_key_install request installed; mret (Wpa2Action.Transmit frame)
  end.

Inductive ws_rule s : ws_op -> res Wpa2Error.t Wpa2Action.t -> Wpa2Supplicant -> Prop :=
  | step_eapol bytes r s' :
      eapol_rule s bytes r s' -> ws_rule s (OpEapol (ws_peer s) bytes) r s'
  | step_close op e :
      closing e = true -> ws_rule s op (Err e) (failed s)
  | step_installed request digest :
      ws_pending_ticket s = Some (ki_ticket request, ki_replay_counter request, false) ->
      ws_pending_frame_digest s = Some digest ->
      ws_rule s (OpKeysInstalled request true) (Ok (Wpa2Action.Transmit (ki_response request)))
        (set_phase Wpa2Phase.Complete
           (set_completed (Some (ki_replay_counter request)) (Some digest) (set_pending None None s)))
  | step_group_installed request digest :
      ws_pending_ticket s = Some (gi_ticket request, gi_replay_counter request, true) ->
      ws_pending_frame_digest s = Some digest ->
      ws_rule s (OpGroupKeyInstalled request true) (Ok (Wpa2Action.Transmit (gi_response request)))
        (set_phase Wpa2Phase.Complete
           (set_group (Some (gi_replay_counter request)) (Some digest)
              (set_completed (Some (gi_replay_counter request)) (ws_completed_message3_digest s)
                 (set_pending None None s)))).

Lemma on_eapol_wrong_peer s peer bytes :
  peer <> ws_peer s -> on_eapol peer bytes s = (Err Wpa2Error.WrongPeer, failed s).
Proof.
  intros Hp. unfold on_eapol. munfold. by rewrite bool_decide_eq_false_2.
Qed.

Lemma ws_step_ruled s op :
  ws_ok s -> op_ok op -> ws_rule s op (ws_step op s).1 (ws_step op s).2.
Proof.
  intros Hok Hop. destruct op as [peer bytes|request installed|request installed]; cbn [ws_step].
  - destruct (decide (peer = ws_peer s)) as [->|Hp].
    + by apply step_eapol, on_eapol_ruled.
    + rewrite on_eapol_wrong_peer by done. by apply step_close.
  - unfold complete_key_install, accept_key_completion. munfold.
    case_bool_decide as Ht; cbn [negb]; [|by apply step_close].
    destruct (ws_pending_frame_digest s) as [digest|] eqn:Hd; [|by apply step_close].
    destruct installed; cbn [negb]; [|by apply (step_close s _ Wpa2Error.InstallFailed)].
    by apply step_installed.
  - unfold complete_group_key_install, accept_key_completion. munfold.
    case_bool_decide as Ht; cbn [negb]; [|by apply step_close].
    destruct (ws_pending_frame_digest s) as [digest|] eqn:Hd; [|by apply step_close].
    destruct installed; cbn [negb]; [|by apply (step_close s _ Wpa2Error.InstallFailed)].
    exact (step_group_installed s request digest Ht Hd).
Qed.

(** ** Types are kept *)

Lemma ws_ok_failed s : ws_ok s -> ws_ok (failed s).
Proof.
  intros []. assert (len (zeros 32) = 32 /\ bytes_ok (zeros 32)) as Hz
    by (split; [done|by apply bytes_okb_ok]). split; cbn; done.
Qed.

Lemma next_ticket_ok t : in_u 32 t -> in_u 32 (Z.max (u32 (t + 1)) 1) /\ 0 < Z.max (u32 (t + 1)) 1.
Proof. intros Ht. pose proof (Z.mod_pos_bound (t + 1) (2 ^ 32)). unfold in_u, u32. lia. Qed.

Lemma ws_rule_ok s op r s' : ws_ok s -> op_ok op -> ws_rule s op r s' -> ws_ok s'.
Proof.
  intros Hok Hop Hr. destruct Hr as [bytes r s' Hr| | |];
    [|by apply ws_ok_failed|destruct Hok; split; cbn; done..].
  destruct Hr; try done.
  - by apply ws_ok_failed.
  - by apply message1_state_ok.
  - pose proof (next_ticket_ok _ (proj1 (ok_next_ticket s Hok))). destruct Hok. by split; cbn.
  - pose proof (next_ticket_ok _ (proj1 (ok_next_ticket s Hok))). destruct Hok. by split; cbn.
Qed.

Lemma ws_new_ok local peer nonce pmk rsn_ie s :
  len nonce = 32 -> bytes_ok nonce -> bytes_ok rsn_ie ->
  Wpa2Supplicant_new local peer nonce pmk rsn_ie = Ok s -> ws_ok s.
Proof.
  intros Hn Hnb Hb Hnew. unfold Wpa2Supplicant_new in Hnew. res_inv.
  pose proof (rsn_body_spec rsn_ie) as Hs. unfold validate_rsn_ie in *. res_inv.
  match goal with Hb : rsn_body rsn_ie = Ok _ |- _ => rewrite Hb in Hs end.
  destruct Hs as [Hie Hl].
  assert (len rsn_ie <= 256) as Hl256 by (rewrite Hie, !len_cons; lia).
  assert (len (zeros 32) = 32 /\ bytes_ok (zeros 32)) as Hz by (split; [done|by apply bytes_okb_ok]).
  pose proof (len_nonneg rsn_ie).
  destruct (buf_ok_splice MAX_RSN_IE_LEN 0 (len rsn_ie) (zeros MAX_RSN_IE_LEN) rsn_ie) as [? ?];
    [by apply buf_ok_zeros|lia|unfold MAX_RSN_IE_LEN; lia|split; [lia|done]|].
  split; cbn; done.
Qed.

Lemma ws_restart_ok nonce s s' :
  ws_ok s -> len nonce = 32 -> bytes_ok nonce -> restart_pairwise nonce s = (Ok tt, s') -> ws_ok s'.
Proof.
  intros Hok Hn Hb Hr. unfold restart_pairwise in Hr. munfold.
  destruct (validate_supplicant_nonce nonce); try done.
  destruct (is_some (ws_pending_ticket s)); [done|]. injection Hr as <-.
  destruct (ws_ok_failed s Hok). split; cbn; done.
Qed.

(** ** Runs *)

(** A supplicant at the start of a handshake. *)
Inductive started : Wpa2Supplicant -> Prop :=
  | started_new local peer nonce pmk rsn_ie s :
      len nonce = 32 -> bytes_ok nonce -> bytes_ok rsn_ie ->
      Wpa2Supplicant_new local peer nonce pmk rsn_ie = Ok s -> started s
  | started_restart nonce s s' :
      ws_ok s -> len nonce = 32 -> bytes_ok nonce ->
      restart_pairwise nonce s = (Ok tt, s') -> started s'.

(** The calls made since, the actions returned, and the state reached; an
    error does not end the run. *)
Inductive ws_run s0 : list ws_op -> list Wpa2Action.t -> Wpa2Supplicant -> Prop :=
  | run_start : ws_run s0 [] [] s0
  | run_action ops actions s op action s' :
      ws_run s0 ops actions s -> op_ok op -> ws_step op s = (Ok action, s') ->
      ws_run s0 (ops ++ [op]) (actions ++ [action]) s'
  | run_error ops actions s op e s' :
      ws_run s0 ops actions s -> op_ok op -> ws_step op s = (Err e, s') ->
      ws_run s0 (ops ++ [op]) actions s'.

(** The key installations requested: is it a group rekey, and the counter. *)
Definition install_of (action : Wpa2Action.t) : option (bool * Z) :=
  match action with
  | Wpa2Action.InstallKeys request => Some (false, ki_replay_counter request)
  | Wpa2Action.InstallGroupKey request => Some (true, gi_replay_counter request)
  | _ => None
  end.
Definition installs (actions : list Wpa2Action.t) : list (bool * Z) := omap install_of actions.

(** [m1] is a first message received from the peer. *)
Definition is_message1 s0 (ops : list ws_op) (m1 : list Z) : Prop :=
  OpEapol (ws_peer s0) m1 ∈ ops /\ eapol_ok m1
  /\ ek_message (frame_of m1) = EapolKeyMessage.PairwiseMessage1.

(** The frame that asks for the installation of the key: received from the
    peer, signed with the key of [m1], its key data encrypted with it. *)
Definition asks s0 (ops : list ws_op) (m1 m : list Z) (message : EapolKeyMessage.t) (replay : Z)
    (group : GroupKeyInstall) : Prop :=
  OpEapol (ws_peer s0) m ∈ ops /\ eapol_ok m /\ ek_message (frame_of m) = message
  /\ verify_mic (frame_of m) (message1_ptk s0 (frame_of m1)) = true
  /\ encrypted_key_data (ek_key_info (frame_of m)) = true
  /\ replay_counter (frame_of m) = replay
  /\ group_is group (frame_of m) (message1_ptk s0 (frame_of m1)).

Definition authentic s0 (ops : list ws_op) (m1 : list Z) (action : Wpa2Action.t) : Prop :=
  match action with
  | Wpa2Action.InstallKeys request =>
      ki_pairwise request
        = mkPairwiseKeyInstall (ws_peer s0) (temporal_key (message1_ptk s0 (frame_of m1)))
      /\ exists m3, asks s0 ops m1 m3 EapolKeyMessage.PairwiseMessage3 (ki_replay_counter request)
                      (ki_group request)
           /\ ek_nonce (frame_of m3) = ek_nonce (frame_of m1)
           /\ replay_counter (frame_of m1) < replay_counter (frame_of m3)
  | Wpa2Action.InstallGroupKey request =>
      exists g1, asks s0 ops m1 g1 EapolKeyMessage.GroupMessage1 (gi_replay_counter request)
                   (gi_group request)
  | _ => True
  end.

(** ** The invariant of a run *)

(** The pairwise installation first, then group rekeys. *)
Definition pairwise_first (l : list (bool * Z)) : Prop :=
  l = [] \/ exists replay rekeys, l = (false, replay) :: rekeys /\ Forall (fun x => x.1 = true) rekeys.

Definition increasing (l : list (bool * Z)) : Prop := StronglySorted (fun x y => x.2 < y.2) l.
Definition all_below (n : Z) (l : list (bool * Z)) : Prop := Forall (fun x => x.2 <= n) l.

(** The state holds what [m1] gave it. *)
Definition keyed s0 (m1 : list Z) s : Prop :=
  ws_ptk s = Some (message1_ptk s0 (frame_of m1))
  /\ ws_authenticator_nonce s = ek_nonce (frame_of m1)
  /\ ws_message1_replay s = Some (replay_counter (frame_of m1)).

Definition phase_inv s0 (m1 : option (list Z)) (l : list (bool * Z)) s : Prop :=
  match ws_phase s with
  | Wpa2Phase.AwaitingMessage1 =>
      l = [] /\ m1 = None /\ ws_pending_ticket s = None /\ ws_message1_replay s = None
      /\ ws_supplicant_nonce s = ws_supplicant_nonce s0
  | Wpa2Phase.AwaitingMessage3 =>
      l = [] /\ ws_pending_ticket s = None /\ exists b, m1 = Some b /\ keyed s0 b s
  | Wpa2Phase.InstallingKeys =>
      exists b ticket replay, m1 = Some b /\ keyed s0 b s
        /\ ws_pending_ticket s = Some (ticket, replay, false) /\ l = [(false, replay)]
  | Wpa2Phase.Complete =>
      exists b completed, m1 = Some b /\ keyed s0 b s /\ l <> [] /\ ws_completed_replay s = Some completed
        /\ (ws_pending_ticket s = None /\ all_below completed l
            \/ exists ticket replay, ws_pending_ticket s = Some (ticket, replay, true) /\ all_below replay l)
  | Wpa2Phase.Failed => ws_pending_ticket s = None
  end.

Record hs_inv s0 (ops : list ws_op) (actions : list Wpa2Action.t) (m1 : option (list Z)) s : Prop := {
  hs_ok : ws_ok s;
  hs_same : ws_peer s = ws_peer s0 /\ ws_local s = ws_local s0 /\ ws_pmk s = ws_pmk s0;
  hs_message1 : forall b, m1 = Some b -> is_message1 s0 ops b /\ Forall (authentic s0 ops b) actions;
  hs_none : m1 = None -> installs actions = [];
  hs_increasing : increasing (installs actions);
  hs_pairwise : pairwise_first (installs actions);
  hs_phase : phase_inv s0 m1 (installs actions) s }.

Lemma installs_app l k : installs (l ++ k) = installs l ++ installs k.
Proof. unfold installs. apply omap_app. Qed.

Lemma increasing_snoc l x n : increasing l -> all_below n l -> n < x.2 -> increasing (l ++ [x]).
Proof.
  intros Hl Hb Hn. induction Hl as [|y l Hl IH Hy]; cbn; [repeat constructor|].
  apply Forall_cons_iff in Hb as [Hyb Hb]. constructor; [by apply IH|].
  apply Forall_app_2; [done|]. constructor; [lia|constructor].
Qed.

Lemma all_below_snoc l x n : all_below n l -> n < x.2 -> all_below x.2 (l ++ [x]).
Proof.
  intros Hb Hn. apply Forall_app_2.
  - eapply Forall_impl; [|exact Hb]. cbn. intros y Hy. lia.
  - constructor; [lia|constructor].
Qed.

Lemma is_message1_mono s0 ops op b : is_message1 s0 ops b -> is_message1 s0 (ops ++ [op]) b.
Proof. intros (Hin & ?). split; [|done]. apply elem_of_app. by left. Qed.

Lemma asks_mono s0 ops op m1 m k r g : asks s0 ops m1 m k r g -> asks s0 (ops ++ [op]) m1 m k r g.
Proof. intros (Hin & ?). split; [|done]. apply elem_of_app. by left. Qed.

Lemma authentic_mono s0 ops op b action : authentic s0 ops b action -> authentic s0 (ops ++ [op]) b action.
Proof.
  destruct action; cbn; try done.
  - intros (? & m3 & Ha & ?). split; [done|]. exists m3. split; [by apply asks_mono|done].
  - intros (g1 & Ha). exists g1. by apply asks_mono.
Qed.

Lemma started_spec s :
  started s ->
  ws_ok s /\ ws_phase s = Wpa2Phase.AwaitingMessage1 /\ ws_pending_ticket s = None
  /\ ws_message1_replay s = None /\ ws_last_group_replay s = None.
Proof.
  intros [local peer nonce pmk rsn_ie s0 Hn Hb Hie Hnew|nonce s0 s' Hok Hn Hb Hr].
  - split; [by eapply ws_new_ok|]. unfold Wpa2Supplicant_new in Hnew. by res_inv.
  - split; [by eapply ws_restart_ok|]. unfold restart_pairwise in Hr. munfold.
    destruct (validate_supplicant_nonce nonce); try done.
    destruct (is_some (ws_pending_ticket s0)); [done|]. by injection Hr as <-.
Qed.

Lemma hs_start s0 : started s0 -> hs_inv s0 [] [] None s0.
Proof.
  intros (Hok & Hph & Hp & Hr & _)%started_spec. split; try done.
  - constructor.
  - by left.
  - unfold phase_inv. by rewrite Hph.
Qed.

(** A step that asks for no installation. *)
Lemma hs_quiet s0 ops actions m1 s op r s' m1' :
  hs_inv s0 ops actions m1 s -> ws_ok s' ->
  ws_peer s' = ws_peer s /\ ws_local s' = ws_local s /\ ws_pmk s' = ws_pmk s ->
  installs r = [] -> (m1' = m1 \/ m1 = None /\ exists b, m1' = Some b /\ is_message1 s0 (ops ++ [op]) b) ->
  phase_inv s0 m1' (installs actions) s' ->
  hs_inv s0 (ops ++ [op]) (actions ++ r) m1' s'.
Proof.
  intros [Hok Hsame Hm1 Hnone Hinc Hpw Hph] Hok' Hsame' Hr Hm1' Hph'.
  assert (installs (actions ++ r) = installs actions) as Hi
    by (by rewrite installs_app, Hr, app_nil_r).
  assert (forall l b, installs l = [] -> Forall (authentic s0 (ops ++ [op]) b) l) as Hquiet.
  { intros l b. induction l as [|a l IH]; [by intros; constructor|].
    unfold installs. cbn. destruct a; cbn; try discriminate; intros Hl; (constructor; [done|by apply IH]). }
  split; rewrite ?Hi; try done.
  - destruct Hsame as (? & ? & ?), Hsame' as (? & ? & ?). split_and!; congruence.
  - intros b Hb. destruct Hm1' as [-> |(-> & b' & Hb' & Hmsg)].
    + destruct (Hm1 b Hb) as [Hmsg Ha]. split; [by apply is_message1_mono|].
      apply Forall_app_2; [|by apply Hquiet].
      eapply Forall_impl; [|exact Ha]. intros a. apply authentic_mono.
    + rewrite Hb in Hb'. injection Hb' as <-. split; [done|].
      apply Hquiet. by rewrite Hi, Hnone.
  - intros ->. destruct Hm1' as [<-|(_ & ? & ? & _)]; [by apply Hnone|done].
Qed.

(** A step that asks for an installation with a counter above all others. *)
Lemma hs_asked s0 ops actions b s op action x s' :
  hs_inv s0 ops actions (Some b) s -> ws_ok s' ->
  ws_peer s' = ws_peer s /\ ws_local s' = ws_local s /\ ws_pmk s' = ws_pmk s ->
  install_of action = Some x -> authentic s0 (ops ++ [op]) b action ->
  (exists n, all_below n (installs actions) /\ n < x.2) ->
  (installs actions = [] /\ x.1 = false \/ installs actions <> [] /\ x.1 = true) ->
  phase_inv s0 (Some b) (installs actions ++ [x]) s' ->
  hs_inv s0 (ops ++ [op]) (actions ++ [action]) (Some b) s'.
Proof.
  intros [Hok Hsame Hm1 Hnone Hinc Hpw Hph] Hok' Hsame' Hx Ha (n & Hn & Hnx) Hkind Hph'.
  assert (installs (actions ++ [action]) = installs actions ++ [x]) as Hi.
  { rewrite installs_app. unfold installs at 2. cbn. by rewrite Hx. }
  split; rewrite ?Hi; try done.
  - destruct Hsame as (? & ? & ?), Hsame' as (? & ? & ?). split_and!; congruence.
  - intros b' [= <-]. destruct (Hm1 b eq_refl) as [Hmsg Hall].
    split; [by apply is_message1_mono|]. apply Forall_app_2; [|by repeat constructor].
    eapply Forall_impl; [|exact Hall]. intros a. apply authentic_mono.
  - by eapply increasing_snoc.
  - right. destruct x as [k r], Hkind as [[He Hk]|[He Hk]]; cbn in Hk; subst k.
    + rewrite He. exists r, []. by split.
    + destruct Hpw as [|(r' & rekeys & -> & Hrk)]; [done|].
      exists r', (rekeys ++ [(true, r)]). split; [done|]. apply Forall_app_2; [done|by repeat constructor].
Qed.

Lemma message1_ptk_same s0 s frame :
  ws_peer s = ws_peer s0 /\ ws_local s = ws_local s0 /\ ws_pmk s = ws_pmk s0 ->
  ws_supplicant_nonce s = ws_supplicant_nonce s0 -> message1_ptk s frame = message1_ptk s0 frame.
Proof. intros (Hp & Hl & Hk) Hn. unfold message1_ptk. by rewrite Hp, Hl, Hk, Hn. Qed.

Lemma hs_eapol s0 ops actions m1 s bytes r s' :
  hs_inv s0 ops actions m1 s -> bytes_ok bytes -> eapol_rule s bytes r s' ->
  exists m1', hs_inv s0 (ops ++ [OpEapol (ws_peer s) bytes])
    (actions ++ match r with Ok action => [action] | _ => [] end) m1' s'.
Proof.
  intros Hinv Hb Hr. pose proof Hinv as [Hok Hsame Hm1 Hnone Hinc Hpw Hph].
  assert (ws_ok s') as Hok' by (eapply (ws_rule_ok s (OpEapol (ws_peer s) bytes)); [done|done|by constructor]).
  assert (OpEapol (ws_peer s0) bytes ∈ ops ++ [OpEapol (ws_peer s) bytes]) as Hin.
  { destruct Hsame as [-> _]. apply elem_of_app. right. by apply list_elem_of_singleton. }
  destruct Hr as [e He|e He|Hp Hd|r Hpo Hmsg Hpend Hrep Hphase Hz Hresp|r ptk Hpo Hmsg Hphase Hrep Hd Hptk Hresp
    |r ptk replay1 group Hpo Hmsg Hpend Hphase Hptk Hn Hmic Hr1 Hlt Henc Hg Hresp
    |r ptk Hpo Hmsg Hphase Hptk Hmic Hc Hd Hresp
    |r ptk group Hpo Hmsg Hpend Hphase Hptk Hmic Hlt Henc Hg Hresp
    |r ptk Hpo Hmsg Hphase Hptk Hmic Hc Hd Hresp].
  - exists m1. by apply (hs_quiet s0 ops actions m1 s _ []); try done; left.
  - exists m1. by apply (hs_quiet s0 ops actions m1 s _ []); try done; left.
  - exists m1. by apply (hs_quiet s0 ops actions m1 s _ [_]); try done; left.
  - assert (installs actions = [] /\ m1 = None /\ ws_supplicant_nonce s = ws_supplicant_nonce s0)
      as (Hi & -> & Hsn).
    { unfold phase_inv in Hph. destruct Hphase as [Hp|Hp]; rewrite Hp in Hph; [by destruct_and!|].
      destruct Hph as (_ & _ & b & _ & _ & _ & ?). congruence. }
    exists (Some bytes). apply (hs_quiet s0 ops actions None s _ [_]); try done.
    + right. split; [done|]. by exists bytes.
    + split; [done|]. split; [done|]. exists bytes. split; [done|]. split; [|done]. cbn. f_equal.
      by apply message1_ptk_same.
  - exists m1. by apply (hs_quiet s0 ops actions m1 s _ [_]); try done; left.
  - unfold phase_inv in Hph. rewrite Hphase in Hph.
    destruct Hph as (Hi & _ & b & -> & Hkey). pose proof Hkey as (Hbptk & Hban & Hbr).
    rewrite Hptk in Hbptk. injection Hbptk as ->. rewrite Hr1 in Hbr. injection Hbr as ->.
    exists (Some b). eapply (hs_asked s0 ops actions b s); try done.
    + split; [cbn; by destruct Hsame as [-> _]|]. exists bytes. split; [|split; [congruence|done]].
      split_and!; done.
    + rewrite Hi. exists (replay_counter (frame_of b)). split; [constructor|done].
    + by left.
    + rewrite Hi. exists b, (ws_next_ticket s), (replay_counter (frame_of bytes)). done.
  - exists m1. by apply (hs_quiet s0 ops actions m1 s _ [_]); try done; left.
  - pose proof Hph as Hph'. unfold phase_inv in Hph. rewrite Hphase in Hph.
    destruct Hph as (b & completed & -> & Hkey & Hne & Hcomp & [[_ Hbelow]|(t & r' & Ht & _)]); [|congruence].
    pose proof Hkey as (Hbptk & Hban & Hbr). rewrite Hptk in Hbptk. injection Hbptk as ->.
    rewrite Hcomp in Hlt. cbn in Hlt.
    exists (Some b). eapply (hs_asked s0 ops actions b s); try done.
    + exists bytes. split_and!; done.
    + exists completed. done.
    + by right.
    + unfold phase_inv. change (ws_phase (requested _ _ _ _)) with (ws_phase s). rewrite Hphase.
      exists b, completed. split; [done|]. split; [done|]. split; [by destruct (installs actions)|].
      split; [done|]. right. exists (ws_next_ticket s), (replay_counter (frame_of bytes)).
      split; [done|]. by apply (all_below_snoc _ (true, _) completed).
  - exists m1. by apply (hs_quiet s0 ops actions m1 s _ [_]); try done; left.
Qed.

Lemma hs_step s0 ops actions m1 s op r s' :
  hs_inv s0 ops actions m1 s -> op_ok op -> ws_rule s op r s' ->
  exists m1', hs_inv s0 (ops ++ [op]) (actions ++ match r with Ok action => [action] | _ => [] end) m1' s'.
Proof.
  intros Hinv Hop Hr. pose proof (ws_rule_ok s op r s' (hs_ok _ _ _ _ _ Hinv) Hop Hr) as Hok'.
  pose proof (hs_phase _ _ _ _ _ Hinv) as Hph. unfold phase_inv in Hph.
  destruct Hr as [bytes r s' Hr|op e He|request digest Hp Hd|request digest Hp Hd].
  - by eapply hs_eapol.
  - exists m1. by apply (hs_quiet s0 ops actions m1 s _ []); try done; left.
  - exists m1. apply (hs_quiet s0 ops actions m1 s _ [_]); try done; [by left|].
    destruct (ws_phase s); try (destruct_and?; congruence).
    + destruct Hph as (b & t & r & -> & Hkey & Ht & Hi). rewrite Hp in Ht. injection Ht as <- <-.
      exists b, (ki_replay_counter request). rewrite Hi. split_and!; try done.
      left. split; [done|]. constructor; [cbn; lia|constructor].
    + destruct Hph as (b & c & _ & _ & _ & _ & [[? _]|(t & r & Ht & _)]); congruence.
  - exists m1. apply (hs_quiet s0 ops actions m1 s _ [_]); try done; [by left|].
    destruct (ws_phase s); try (destruct_and?; congruence).
    + destruct Hph as (b & t & r & _ & _ & Ht & _). congruence.
    + destruct Hph as (b & c & -> & Hkey & Hne & _ & [[? _]|(t & r & Ht & Hbelow)]); [congruence|].
      rewrite Hp in Ht. injection Ht as <- <-.
      exists b, (gi_replay_counter request). split_and!; try done. by left.
Qed.

Lemma hs_run s0 ops actions s :
  started s0 -> ws_run s0 ops actions s -> exists m1, hs_inv s0 ops actions m1 s.
Proof.
  intros Hs Hr. induction Hr as [|ops actions s op action s' _ [m1 IH] Hop Hst|ops actions s op e s' _ [m1 IH] Hop Hst].
  - exists None. by apply hs_start.
  - pose proof (ws_step_ruled s op (hs_ok _ _ _ _ _ IH) Hop) as Hrule. rewrite Hst in Hrule.
    by apply (hs_step s0 ops actions m1 s op (Ok action)).
  - pose proof (ws_step_ruled s op (hs_ok _ _ _ _ _ IH) Hop) as Hrule. rewrite Hst in Hrule.
    rewrite <-(app_nil_r actions). by apply (hs_step s0 ops actions m1 s op (Err e)).
Qed.

(** ** An honest access point *)

Definition MESSAGE1_INFO : Z :=
  Z.lor (Z.lor KEY_DESCRIPTOR_VERSION_HMAC_SHA1_AES KEY_INFO_PAIRWISE) KEY_INFO_ACK.
Definition MESSAGE3_INFO : Z :=
  Z.lor (Z.lor (Z.lor (Z.lor MESSAGE1_INFO KEY_INFO_MIC) KEY_INFO_INSTALL) KEY_INFO_SECURE)
    KEY_INFO_ENCRYPTED.
Definition GROUP1_INFO : Z :=
  Z.lor (Z.lor (Z.lor (Z.lor KEY_DESCRIPTOR_VERSION_HMAC_SHA1_AES KEY_INFO_ACK) KEY_INFO_MIC)
    KEY_INFO_SECURE) KEY_INFO_ENCRYPTED.

(** The first message, and a message that carries the key data [plain]. *)
Definition ap_message1 (version replay : Z) (anonce : list Z) : list Z :=
  eapol_bytes version MESSAGE1_INFO CCMP_KEY_LEN replay anonce (zeros 16) [].
Definition ap_key_message (info version replay : Z) (nonce plain ptk : list Z) : list Z :=
  signed_eapol version info CCMP_KEY_LEN replay nonce (key_wrap (kek ptk) plain) ptk.

(** Key data that fits a frame and carries [gtk]. *)
Definition deliverable (plain : list Z) (gtk : GtkKde) : Prop :=
  bytes_ok plain /\ 16 <= len plain <= 400 /\ len plain mod 8 = 0 /\ gtk_in plain gtk.
Definition delivered (gtk : GtkKde) : GroupKeyInstall :=
  mkGroupKeyInstall (gtk_key_index gtk) 16 (gtk_key gtk ++ zeros 16) (zeros 8).

Lemma group_key_install_eq frame ptk plain gtk :
  ptk_ok ptk -> deliverable plain gtk -> ek_key_data frame = key_wrap (kek ptk) plain ->
  group_key_install frame ptk
  = Ok (mkGroupKeyInstall (gtk_key_index gtk) 16 (gtk_key gtk ++ zeros 16) (key_receive_sequence frame)).
Proof.
  intros [Hpl Hpb] (Hb & Hl & Hm & Hg) Hdata. destruct (kek_ok ptk Hpl Hpb) as [Hkl Hkb].
  assert (wrappable plain (zeros MAX_KEY_DATA_LEN)) as Hw.
  { split; [done|]. split; [|done]. change (len (zeros MAX_KEY_DATA_LEN)) with 413. lia. }
  unfold group_key_install. rewrite Hdata, aes_key_unwrap_wrapped by done.
  assert (@subslice Wpa2Error.t (splice (zeros MAX_KEY_DATA_LEN) 0 plain) 0 (len plain) = Ok plain) as ->.
  { unfold splice. cbn [take Z.to_nat]. apply (subslice_app [] plain); [done|]. rewrite len_nil. lia. }
  cbn [mbind res_bind]. rewrite (proj2 (parse_gtk_spec plain gtk) Hg). cbn [mbind res_bind].
  assert (len (gtk_key gtk) = 16) as Hk by (clear -Hg; by induction Hg).
  rewrite Hk. f_equal. unfold splice. cbn [take Z.to_nat app].
  by rewrite (length_len (gtk_key gtk)), Hk.
Qed.

(** The receive sequence counter is in the zero part of the header. *)
Lemma built_sequence version info kl replay nonce mic data :
  len nonce = 32 ->
  key_receive_sequence (frame_of (eapol_bytes version info kl replay nonce mic data)) = zeros 8.
Proof.
  intros Hn. unfold key_receive_sequence, ek_slice, eapol_bytes, eapol_head. cbn [ek_bytes frame_of].
  set (pre := [version; EAPOL_PACKET_TYPE_KEY] ++ to_be 2 (95 + len data) ++ [RSN_KEY_DESCRIPTOR_TYPE]
    ++ to_be 2 info ++ to_be 2 kl ++ to_be 8 replay ++ nonce ++ zeros 16).
  assert (length pre = 65%nat) as Hp.
  { unfold pre. rewrite length_len, !len_app, !len_to_be, Hn. reflexivity. }
  replace (([version; EAPOL_PACKET_TYPE_KEY] ++ to_be 2 (95 + len data) ++ [RSN_KEY_DESCRIPTOR_TYPE]
    ++ to_be 2 info ++ to_be 2 kl ++ to_be 8 replay ++ nonce ++ zeros 32) ++ mic
    ++ to_be 2 (len data) ++ data)
    with (pre ++ zeros 8 ++ (zeros 8 ++ mic ++ to_be 2 (len data) ++ data)).
  - by apply take_drop_mid.
  - unfold pre. change (zeros 32) with (zeros 16 ++ zeros 8 ++ zeros 8). by rewrite <-!app_assoc.
Qed.

Lemma ap_message1_spec version replay anonce :
  version = 1 \/ version = 2 -> in_u 64 replay -> len anonce = 32 -> bytes_ok anonce ->
  let m := ap_message1 version replay anonce in
  bytes_ok m /\ eapol_ok m /\ ek_key_info (frame_of m) = MESSAGE1_INFO /\ ek_key_data (frame_of m) = []
  /\ protocol_version (frame_of m) = version /\ key_length (frame_of m) = 16
  /\ replay_counter (frame_of m) = replay /\ ek_nonce (frame_of m) = anonce.
Proof.
  intros Hv Hr Hn Hb m.
  destruct (eapol_bytes_fields version MESSAGE1_INFO 16 replay anonce (zeros 16) [])
    as (? & ? & ? & ? & ? & ? & ? & _); try done.
  split_and!; try done. apply eapol_bytes_ok; try done; [by destruct Hv as [-> | ->]|by apply bytes_okb_ok..].
Qed.

Lemma ap_key_message_spec info version replay nonce plain gtk ptk :
  version = 1 \/ version = 2 -> in_u 16 info -> in_u 64 replay -> len nonce = 32 -> bytes_ok nonce ->
  ptk_ok ptk -> deliverable plain gtk ->
  let m := ap_key_message info version replay nonce plain ptk in
  bytes_ok m /\ eapol_ok m /\ ek_key_info (frame_of m) = info /\ len (ek_key_data (frame_of m)) <> 0
  /\ protocol_version (frame_of m) = version /\ key_length (frame_of m) = 16
  /\ replay_counter (frame_of m) = replay /\ ek_nonce (frame_of m) = nonce
  /\ verify_mic (frame_of m) ptk = true /\ group_key_install (frame_of m) ptk = Ok (delivered gtk).
Proof.
  intros Hv Hi Hr Hn Hb [Hpl Hpb] (Hplb & Hpll & Hplm & Hg) m.
  destruct (kek_ok ptk Hpl Hpb) as [Hkl Hkb].
  destruct (unwrap_blocks_of_wrap (kek ptk) Hkl Hkb plain Hplb Hplm) as (Hlen & Hwb & _).
  assert (len (key_wrap (kek ptk) plain) <= 413) as Hd by lia.
  pose proof (verify_signed version info 16 replay nonce _ ptk Hv Hi ltac:(done) Hr Hn Hd) as Hmic.
  fold CCMP_KEY_LEN in Hmic. fold (ap_key_message info version replay nonce plain ptk) in Hmic. fold m in Hmic.
  unfold ap_key_message, signed_eapol in m.
  set (mic := take 16 _) in m. assert (len mic = 16) as Hm by apply len_mic.
  destruct (eapol_bytes_fields version info 16 replay nonce mic (key_wrap (kek ptk) plain))
    as (? & ? & Hdata & ? & ? & ? & ? & _); try done.
  assert (group_key_install (frame_of m) ptk = Ok (delivered gtk)) as Hgrp.
  { rewrite (group_key_install_eq _ ptk plain gtk); [|done|done|exact Hdata]. unfold m.
    by rewrite built_sequence. }
  assert (len (ek_key_data (frame_of m)) <> 0) as Hne
    by (change (ek_key_data (frame_of m) = key_wrap (kek ptk) plain) in Hdata; rewrite Hdata; lia).
  split_and!; try done.
  apply eapol_bytes_ok; try done; [by destruct Hv as [-> | ->]|apply Forall_take, hmac_sha1_bytes].
Qed.

Lemma on_eapol_eq s bytes message :
  bytes_ok bytes -> eapol_ok bytes -> ws_pending_ticket s = None ->
  descriptor_version (ek_key_info (frame_of bytes)) = 2 -> key_length (frame_of bytes) = 16 ->
  ek_message (frame_of bytes) = message ->
  on_eapol (ws_peer s) bytes s = dispatch_eapol (frame_of bytes) message s.
Proof.
  intros Hb Hok Hp Hd Hk Hm. unfold on_eapol. munfold. rewrite bool_decide_eq_true_2 by done. cbn [negb].
  rewrite eapol_parse_ok by done. unfold validate_frame, handle_pending_frame.
  rewrite Hd, Hk, Hm. munfold. change (negb (16 =? u16 CCMP_KEY_LEN)) with false.
  rewrite andb_false_r. change (2 =? u8 KEY_DESCRIPTOR_VERSION_HMAC_SHA1_AES) with true.
  cbn [negb]. by rewrite Hp.
Qed.

Lemma honest_message1 s version replay anonce :
  ws_ok s -> ws_phase s = Wpa2Phase.AwaitingMessage1 -> ws_pending_ticket s = None ->
  ws_message1_replay s = None -> version = 1 \/ version = 2 -> in_u 64 replay ->
  len anonce = 32 -> bytes_ok anonce -> is_zero_nonce anonce = false ->
  let ptk := derive_ptk (ws_pmk s) (ws_peer s) (ws_local s) anonce (ws_supplicant_nonce s) in
  exists r s', on_eapol (ws_peer s) (ap_message1 version replay anonce) s = (Ok (Wpa2Action.Transmit r), s')
    /\ tx_peer r = ws_peer s
    /\ tx_slice r = signed_eapol version MESSAGE2_INFO 16 replay (ws_supplicant_nonce s) (own_rsn_ie s) ptk
    /\ s' = set_phase Wpa2Phase.AwaitingMessage3
              (set_message1 anonce replay (sha256 (ap_message1 version replay anonce)) ptk s).
Proof.
  intros Hok Hph Hp Hr Hv Hrep Hn Hb Hz ptk.
  destruct (ap_message1_spec version replay anonce) as (Hmb & Hmo & Hi & Hd & Hpv & Hkl & Hrc & Hno);
    [done..|]. set (m := ap_message1 version replay anonce) in *. clearbody m.
  rewrite (on_eapol_eq s m EapolKeyMessage.PairwiseMessage1);
    [|done|done|done|by rewrite Hi|done|unfold ek_message; by rewrite Hi].
  cbn [dispatch_eapol]. unfold on_message1. rewrite Hd, Hno, Hz, Hrc.
  change (negb (len [] =? 0)) with false. munfold. rewrite Hph, Hr. unfold begin_message1. munfold.
  destruct (message2_action_ok (set_phase Wpa2Phase.AwaitingMessage3
    (set_message1 anonce replay (ek_digest (frame_of m)) ptk s)) (frame_of m) ptk) as (r & Hact & Hpeer & Hresp).
  - pose proof (message1_state_ok s m Hok Hmb Hmo) as Hs. rewrite Hno, Hrc in Hs.
    unfold message1_ptk in Hs. by rewrite Hno in Hs.
  - done.
  - exists r. eexists. split; [exact Hact|]. split; [exact Hpeer|]. split; [|done].
    rewrite Hresp, Hpv, Hkl, Hrc. done.
Qed.

Lemma honest_message3 s version replay1 replay anonce plain gtk ptk :
  ws_ok s -> ws_phase s = Wpa2Phase.AwaitingMessage3 -> ws_pending_ticket s = None ->
  ws_message1_replay s = Some replay1 -> ws_ptk s = Some ptk -> ws_authenticator_nonce s = anonce ->
  version = 1 \/ version = 2 -> in_u 64 replay -> replay1 < replay -> deliverable plain gtk ->
  let m := ap_key_message MESSAGE3_INFO version replay anonce plain ptk in
  exists r s', on_eapol (ws_peer s) m s
      = (Ok (Wpa2Action.InstallKeys (mkKeyInstallRequest (ws_next_ticket s) replay
               (mkPairwiseKeyInstall (ws_peer s) (temporal_key ptk)) (delivered gtk) r)), s')
    /\ tx_peer r = ws_peer s
    /\ tx_slice r = signed_eapol version MESSAGE4_INFO 16 replay (zeros 32) [] ptk
    /\ s' = set_phase Wpa2Phase.InstallingKeys (requested s replay false (sha256 m)).
Proof.
  intros Hok Hph Hp Hr Hptk Han Hv Hrep Hlt Hdel m.
  pose proof (ok_ptk s Hok ptk Hptk) as Hpok. destruct (ok_authenticator_nonce s Hok) as [Hnl Hnb].
  rewrite Han in Hnl, Hnb.
  destruct (ap_key_message_spec MESSAGE3_INFO version replay anonce plain gtk ptk)
    as (Hmb & Hmo & Hi & Hd & Hpv & Hkl & Hrc & Hno & Hmic & Hg); [done..|].
  subst m. set (m := ap_key_message MESSAGE3_INFO version replay anonce plain ptk) in *. clearbody m.
  rewrite (on_eapol_eq s m EapolKeyMessage.PairwiseMessage3);
    [|done|done|done|by rewrite Hi|done|unfold ek_message; by rewrite Hi].
  cbn [dispatch_eapol]. unfold on_message3, require_ptk. munfold. rewrite Hptk. cbn [ok_or].
  unfold validate_message3_authenticator. rewrite Hno, Han, Hmic, bool_decide_eq_true_2 by done.
  cbn [negb fail_on]. munfold. rewrite Hph. cbn [negb].
  rewrite bool_decide_eq_false_2 by done. unfold validate_new_message3, require_encrypted_key_data.
  rewrite Hph, bool_decide_eq_true_2 by done. cbn [negb]. rewrite Hr. cbn [ok_or]. munfold.
  rewrite Hrc, (proj2 (Z.leb_gt _ _)) by done. rewrite Hi, (proj2 (Z.eqb_neq _ 0)) by done.
  change (encrypted_key_data MESSAGE3_INFO && negb false) with true. cbn [fail_on]. munfold.
  rewrite Hg. unfold build_message4. rewrite Hpv, Hkl.
  destruct (build_response_spec (ws_peer s) version MESSAGE4_INFO 16 replay (zeros 32) [] ptk)
    as (r & Hbr & Hpeer & Hsl); [done..|]. rewrite Hbr, start_key_install_eq.
  exists r. eexists. split; [reflexivity|]. done.
Qed.

Lemma install_completes s request digest :
  ws_pending_ticket s = Some (ki_ticket request, ki_replay_counter request, false) ->
  ws_pending_frame_digest s = Some digest ->
  complete_key_install request true s
  = (Ok (ki_response request),
     set_phase Wpa2Phase.Complete
       (set_completed (Some (ki_replay_counter request)) (Some digest) (set_pending None None s))).
Proof.
  intros Hp Hd. unfold complete_key_install, accept_key_completion. munfold.
  rewrite Hp, bool_decide_eq_true_2 by done. cbn [negb]. by rewrite Hd.
Qed.

Lemma honest_group s version replay nonce plain gtk ptk :
  ws_ok s -> ws_phase s = Wpa2Phase.Complete -> ws_pending_ticket s = None ->
  ws_last_group_replay s <> Some replay -> ws_ptk s = Some ptk ->
  default 0 (ws_completed_replay s) < replay ->
  version = 1 \/ version = 2 -> in_u 64 replay -> len nonce = 32 -> bytes_ok nonce ->
  deliverable plain gtk ->
  let m := ap_key_message GROUP1_INFO version replay nonce plain ptk in
  exists r s', on_eapol (ws_peer s) m s
      = (Ok (Wpa2Action.InstallGroupKey (mkGroupKeyInstallRequest (ws_next_ticket s) replay
               (delivered gtk) r)), s')
    /\ tx_slice r = signed_eapol version GROUP2_INFO 16 replay (zeros 32) [] ptk.
Proof.
  intros Hok Hph Hp Hlast Hptk Hlt Hv Hrep Hnl Hnb Hdel m.
  pose proof (ok_ptk s Hok ptk Hptk) as Hpok.
  destruct (ap_key_message_spec GROUP1_INFO version replay nonce plain gtk ptk)
    as (Hmb & Hmo & Hi & Hd & Hpv & Hkl & Hrc & Hno & Hmic & Hg); [done..|].
  subst m. set (m := ap_key_message GROUP1_INFO version replay nonce plain ptk) in *. clearbody m.
  rewrite (on_eapol_eq s m EapolKeyMessage.GroupMessage1);
    [|done|done|done|by rewrite Hi|done|unfold ek_message; by rewrite Hi].
  cbn [dispatch_eapol]. unfold on_group_message1, require_ptk. munfold.
  rewrite Hph, bool_decide_eq_true_2 by done. cbn [negb]. rewrite Hrc, bool_decide_eq_false_2 by done.
  unfold validate_new_group_message1, require_encrypted_key_data.
  rewrite Hrc, (proj2 (Z.leb_gt _ _)), Hptk by done. cbn [ok_or]. munfold. rewrite Hmic. cbn [negb].
  rewrite Hi, (proj2 (Z.eqb_neq _ 0)) by done.
  change (encrypted_key_data GROUP1_INFO && negb false) with true. cbn [fail_on]. munfold.
  rewrite Hptk. cbn [ok_or]. rewrite Hg. unfold build_group_message2. rewrite Hpv, Hkl.
  destruct (build_response_spec (ws_peer s) version GROUP2_INFO 16 replay (zeros 32) [] ptk)
    as (r & Hbr & Hpeer & Hsl); [done..|]. rewrite Hbr, start_key_install_eq.
  exists r. eexists. split; [reflexivity|done].
Qed.

(** * Properties *)

(** C1: no key is installed twice.  Since the last start or restart of a supplicant, whatever frames
    arrive, whatever completions are reported and whatever calls fail, the installations asked for
    have strictly increasing replay counters, and the pairwise key is asked for at most once,
    before every group key.  A retransmitted third message therefore never resets a key in use. *)
Theorem no_key_reinstallation s0 ops actions s :
  started s0 -> ws_run s0 ops actions s ->
  StronglySorted (fun x y => x.2 < y.2) (installs actions) /\ pairwise_first (installs actions).
Proof.
  intros Hs Hr. destruct (hs_run s0 ops actions s Hs Hr) as (m1 & Hinv).
  split; apply Hinv.
Qed.

(** C2: every key that is installed was authenticated.  In a run that asks for any installation, one
    first message of the configured peer fixes the pairwise key; every installation was asked for
    by a frame of that peer whose checksum verifies under that key and whose encrypted key data is
    the RFC 3394 wrapping of data that carries the group key; the pairwise key installed is the
    temporal part of that key, and the third message repeats the nonce of the first with a greater
    counter. *)
Theorem installed_keys_authentic s0 ops actions s :
  started s0 -> ws_run s0 ops actions s ->
  installs actions = []
  \/ exists m1, is_message1 s0 ops m1 /\ Forall (authentic s0 ops m1) actions.
Proof.
  intros Hs Hr. destruct (hs_run s0 ops actions s Hs Hr) as ([m1|] & Hinv).
  - right. exists m1. by apply (hs_message1 _ _ _ _ _ Hinv).
  - left. by apply (hs_none _ _ _ _ _ Hinv).
Qed.

(** C3: the handlers implement the rules of the handshake.  From a well-typed state every call takes
    one step of the abstract state machine: it returns an action only under the conditions of the
    rule (message kind, phase, counters, nonces, digests and a checksum that verifies), with the
    response the rule prescribes and the successor state of the rule, and otherwise an error that
    closes the supplicant or leaves it as it was; no call panics. *)
Theorem supplicant_implements_rules s op :
  ws_ok s -> op_ok op -> exists r s', ws_step op s = (r, s') /\ r <> Panic /\ ws_rule s op r s'.
Proof.
  intros Hok Hop. pose proof (ws_step_ruled s op Hok Hop) as Hr.
  destruct (ws_step op s) as [r s']. exists r, s'. split; [done|]. split; [|done].
  intros ->. cbn in Hr. inversion Hr as [bytes r Hs Hrule| | |]. inversion Hrule.
Qed.

(** C14: well-typed states stay well-typed.  The fields keep the widths and ranges of their Rust types
    (a 256-byte element buffer with a length inside it, 32-byte nonces, a 48-byte key, a non-zero
    32-bit ticket that wraps, a key whenever a first message was recorded): the constructor
    establishes this, and every frame, completion and restart keeps it, whatever its outcome. *)
Theorem supplicant_well_typed :
  (forall local peer nonce pmk rsn_ie s, len nonce = 32 -> bytes_ok nonce -> bytes_ok rsn_ie ->
     Wpa2Supplicant_new local peer nonce pmk rsn_ie = Ok s -> ws_ok s)
  /\ (forall s op, ws_ok s -> op_ok op -> ws_ok (ws_step op s).2)
  /\ (forall s nonce, ws_ok s -> len nonce = 32 -> bytes_ok nonce -> ws_ok (restart_pairwise nonce s).2).
Proof.
  split; [apply ws_new_ok|]. split.
  - intros s op Hok Hop. by eapply ws_rule_ok, ws_step_ruled.
  - intros s nonce Hok Hn Hb. destruct (restart_pairwise nonce s) as [[[]|e|] s'] eqn:Hr;
      [by eapply ws_restart_ok| |]; unfold restart_pairwise in Hr; munfold;
      unfold validate_supplicant_nonce in Hr;
      destruct (is_zero_nonce nonce), (is_some (ws_pending_ticket s)); by simplify_eq/=.
Qed.

(** The supplicant [s] after it closed: only its identity, its master key and
    its ticket counter are left. *)
Definition erased s s' : Prop :=
  ws_phase s' = Wpa2Phase.Failed /\ ws_ptk s' = None
  /\ ws_supplicant_nonce s' = zeros 32 /\ ws_authenticator_nonce s' = zeros 32
  /\ (ws_message1_replay s' = None /\ ws_message1_digest s' = None)
  /\ (ws_completed_replay s' = None /\ ws_completed_message3_digest s' = None)
  /\ (ws_last_group_replay s' = None /\ ws_last_group_message1_digest s' = None)
  /\ (ws_pending_ticket s' = None /\ ws_pending_frame_digest s' = None)
  /\ (ws_local s' = ws_local s /\ ws_peer s' = ws_peer s /\ ws_pmk s' = ws_pmk s
      /\ ws_rsn_ie_len s' = ws_rsn_ie_len s /\ ws_rsn_ie s' = ws_rsn_ie s
      /\ ws_next_ticket s' = ws_next_ticket s).

Lemma erased_failed s s' : erased s s' <-> s' = failed s.
Proof.
  split; [|intros ->; unfold erased; by split_and!].
  destruct s, s'. unfold erased. cbn. intros H. destruct_and? H. by subst.
Qed.

(** C15: errors close the supplicant or refuse the frame.  When a frame is answered with an error, either
    the error is a closing one, the key, the nonces and every pending request are erased and the
    phase is Failed, or the error is a refusal (a frame that does not parse, a request in progress, a
    first message that needs a new nonce, no key yet, or key data that cannot be unwrapped) and the
    state is exactly as before; and a closed supplicant answers every frame with an error and
    stays closed until it is restarted. *)
Theorem eapol_error_outcome s peer bytes :
  ws_ok s -> bytes_ok bytes ->
  (forall e s', on_eapol peer bytes s = (Err e, s') ->
     closing e = true /\ erased s s' \/ refusal e = true /\ s' = s)
  /\ exists e, forall s', erased s s' -> on_eapol peer bytes s' = (Err e, s').
Proof.
  intros Hok Hb. split.
  - intros e s' He. pose proof (on_eapol_ruled s peer bytes Hok Hb) as Hr. rewrite He in Hr.
    rewrite erased_failed. inversion Hr; subst; auto.
  - enough (exists e, on_eapol peer bytes (failed s) = (Err e, failed s)) as [e He]
      by (exists e; by intros s' ->%erased_failed).
    pose proof (on_eapol_ruled (failed s) peer bytes (ws_ok_failed s Hok) Hb) as Hr.
    destruct (on_eapol peer bytes (failed s)) as [r s']. unfold ruled in Hr. cbn [fst snd] in Hr.
    destruct Hr as [e He|e He|Hp|? ? ? ? ? [|]|? ? ? ? [|]| | | |]; try done; by exists e.
Qed.

(** C13: an honest access point is served.  From a started supplicant, the first message of the access
    point is answered with message 2, signed with the key both sides derive; the third message,
    with a greater counter, the same nonce and the wrapped group key, asks for the installation of
    exactly that pairwise and group key; the completion returns message 4 and the phase is Complete;
    and any later group message with a greater counter asks for the installation of its key. *)
Theorem honest_handshake s version replay1 replay3 anonce plain gtk :
  started s -> version = 1 \/ version = 2 -> in_u 64 replay1 -> in_u 64 replay3 -> replay1 < replay3 ->
  len anonce = 32 -> bytes_ok anonce -> is_zero_nonce anonce = false -> deliverable plain gtk ->
  let ptk := derive_ptk (ws_pmk s) (ws_peer s) (ws_local s) anonce (ws_supplicant_nonce s) in
  exists r2 s1 request s2 s3,
    on_eapol (ws_peer s) (ap_message1 version replay1 anonce) s = (Ok (Wpa2Action.Transmit r2), s1)
    /\ tx_slice r2 = signed_eapol version MESSAGE2_INFO 16 replay1 (ws_supplicant_nonce s) (own_rsn_ie s) ptk
    /\ on_eapol (ws_peer s) (ap_key_message MESSAGE3_INFO version replay3 anonce plain ptk) s1
       = (Ok (Wpa2Action.InstallKeys request), s2)
    /\ ki_pairwise request = mkPairwiseKeyInstall (ws_peer s) (temporal_key ptk)
    /\ ki_group request = delivered gtk
    /\ complete_key_install request true s2 = (Ok (ki_response request), s3)
    /\ tx_slice (ki_response request) = signed_eapol version MESSAGE4_INFO 16 replay3 (zeros 32) [] ptk
    /\ ws_phase s3 = Wpa2Phase.Complete
    /\ (forall replay plain' gtk', replay3 < replay -> in_u 64 replay -> deliverable plain' gtk' ->
          exists r s4, on_eapol (ws_peer s)
              (ap_key_message GROUP1_INFO version replay (zeros 32) plain' ptk) s3
            = (Ok (Wpa2Action.InstallGroupKey (mkGroupKeyInstallRequest (ws_next_ticket s3) replay
                     (delivered gtk') r)), s4)).
Proof.
  intros Hs Hv H1 H3 Hlt Hn Hb Hz Hdel ptk.
  destruct (started_spec s Hs) as (Hok & Hph & Hp & Hr & Hlast).
  destruct (honest_message1 s version replay1 anonce) as (r2 & s1 & E1 & _ & Hr2 & Hs1); [done..|].
  fold ptk in Hr2, Hs1.
  destruct (ap_message1_spec version replay1 anonce) as (Hmb & _); [done..|].
  assert (ws_ok s1) as Hok1.
  { pose proof (ws_step_ruled s (OpEapol (ws_peer s) (ap_message1 version replay1 anonce)) Hok Hmb) as Hr'.
    cbn [ws_step] in Hr'. rewrite E1 in Hr'. by eapply ws_rule_ok in Hr'. }
  destruct (honest_message3 s1 version replay1 replay3 anonce plain gtk ptk)
    as (r & s2 & E3 & _ & Hr4 & Hs2); try done; try (by rewrite Hs1).
  rewrite Hs1 in E3 at 1. cbn [ws_peer set_phase set_message1] in E3.
  set (request := mkKeyInstallRequest _ _ _ _ _) in E3.
  destruct (ap_key_message_spec MESSAGE3_INFO version replay3 anonce plain gtk ptk) as (Hmb3 & _);
    try done; [apply derive_ptk_ok|].
  assert (ws_ok s2) as Hok2.
  { pose proof (ws_step_ruled s1 (OpEapol (ws_peer s) (ap_key_message MESSAGE3_INFO version replay3
      anonce plain ptk)) Hok1 Hmb3) as Hr'. cbn [ws_step] in Hr'. rewrite E3 in Hr'.
    by eapply ws_rule_ok in Hr'. }
  pose proof (install_completes s2 request
    (sha256 (ap_key_message MESSAGE3_INFO version replay3 anonce plain ptk))) as Hc.
  exists r2, s1, request, s2. eexists. split; [done|]. split; [done|]. split; [done|].
  split; [by unfold request; rewrite Hs1|]. split; [done|].
  split; [apply Hc; by rewrite Hs2|]. split; [done|]. split; [done|].
  intros replay plain' gtk' Hltg Hg Hdel'.
  destruct (honest_group (set_phase Wpa2Phase.Complete (set_completed (Some replay3)
      (Some (sha256 (ap_key_message MESSAGE3_INFO version replay3 anonce plain ptk)))
      (set_pending None None s2))) version replay (zeros 32) plain' gtk' ptk)
    as (r' & s4 & E4 & _); try done; try (by rewrite Hs2, Hs1); try (by apply bytes_okb_ok).
  - destruct Hok2. split; cbn; done.
  - rewrite Hs2, Hs1. cbn. by rewrite Hlast.
  - exists r', s4. cbn [ws_peer set_phase set_completed set_pending] in E4.
    assert (ws_peer s2 = ws_peer s) as Hpe by (by rewrite Hs2, Hs1). rewrite Hpe in E4. exact E4.
Qed.
End machine.

(** ** A concrete handshake *)

#[local] Transparent derive_ptk ptk_loop build_response message2_action.
#[local] Existing Instances sum_sha256 sum_hmac null_cipher.

Definition witness_supplicant : Wpa2Supplicant :=
  mkWpa2Supplicant witness_station witness_ap Wpa2Phase.AwaitingMessage1 witness_pmk None witness_snonce
    (zeros 32) 22 (splice (zeros MAX_RSN_IE_LEN) 0 witness_rsn_ie) None None None None None None None
    None 1.
Definition witness_gtk : GtkKde := mkGtkKde 1 (replicate 16 0x77).
(** The element, the group key and padding, 48 bytes. *)
Definition witness_key_data : list Z :=
  witness_rsn_ie ++ kde_bytes 0xdd (GTK_KDE_OUI_TYPE ++ [1; 0] ++ replicate 16 0x77) ++ [0xdd; 0].

Lemma witness_started : started witness_supplicant.
Proof.
  apply (started_new witness_station witness_ap witness_snonce witness_pmk witness_rsn_ie);
    [done|by apply bytes_okb_ok|by apply bytes_okb_ok|reflexivity].
Qed.

Lemma witness_deliverable : deliverable witness_key_data witness_gtk.
Proof.
  split; [by apply bytes_okb_ok|]. split; [vm_compute; split; congruence|]. split; [reflexivity|].
  apply parse_gtk_spec. reflexivity.
Qed.

Definition witness_ptk : list Z :=
  derive_ptk witness_pmk witness_ap witness_station witness_anonce witness_snonce.
Definition witness_m1 : list Z := ap_message1 2 1 witness_anonce.
Definition witness_m3 : list Z := ap_key_message MESSAGE3_INFO 2 2 witness_anonce witness_key_data witness_ptk.

Lemma honest_handshake_witness :
  exists r2 s1 request s2 s3,
    on_eapol witness_ap witness_m1 witness_supplicant = (Ok (Wpa2Action.Transmit r2), s1)
    /\ on_eapol witness_ap witness_m3 s1 = (Ok (Wpa2Action.InstallKeys request), s2)
    /\ ki_group request = delivered witness_gtk
    /\ complete_key_install request true s2 = (Ok (ki_response request), s3)
    /\ ws_phase s3 = Wpa2Phase.Complete.
Proof.
  destruct (honest_handshake witness_supplicant 2 1 2 witness_anonce witness_key_data witness_gtk)
    as (r2 & s1 & request & s2 & s3 & E1 & _ & E3 & _ & Eg & Ec & _ & Eph & _);
    [apply witness_started|by right|done|done|done|done|by apply bytes_okb_ok|done|
     apply witness_deliverable|].
  exists r2, s1, request, s2, s3. split_and!; [exact E1|exact E3|exact Eg|exact Ec|exact Eph].
Defined.

(** The same messages as a run, up to the installation. *)
Lemma witness_run : exists actions s,
  ws_run witness_supplicant [OpEapol witness_ap witness_m1; OpEapol witness_ap witness_m3] actions s
  /\ installs actions = [(false, 2)].
Proof.
  destruct (started_spec _ witness_started) as (Hok & Hph & Hp & Hr & _).
  destruct (honest_message1 witness_supplicant 2 1 witness_anonce) as (r2 & s1 & E1 & _ & _ & Hs1);
    [done..|by right|done|done|by apply bytes_okb_ok|done|].
  destruct (ap_message1_spec 2 1 witness_anonce) as (Hmb & _);
    [by right|done|done|by apply bytes_okb_ok|].
  pose proof (ws_step_ruled witness_supplicant (OpEapol witness_ap witness_m1) Hok Hmb) as Hrule.
  cbn [ws_step] in Hrule. fold witness_m1 in E1. change (ws_peer witness_supplicant) with witness_ap in E1.
  rewrite E1 in Hrule. 
  pose proof (ws_rule_ok _ (OpEapol witness_ap witness_m1) _ _ Hok Hmb Hrule) as Hok1. cbn [snd] in Hok1.
  destruct (honest_message3 s1 2 1 2 witness_anonce witness_key_data witness_gtk witness_ptk)
    as (r & s2 & E3 & _ & _ & _); try done; try (by rewrite Hs1); [by right|apply witness_deliverable|].
  rewrite Hs1 in E3 at 1. change (ws_peer _) with witness_ap in E3 at 1. fold witness_m3 in E3.
  destruct (ap_key_message_spec MESSAGE3_INFO 2 2 witness_anonce witness_key_data witness_gtk witness_ptk)
    as (Hmb3 & _); try done; [by right|by apply bytes_okb_ok|apply derive_ptk_ok|apply witness_deliverable|].
  eexists _, s2. split.
  - apply (run_action witness_supplicant [OpEapol witness_ap witness_m1]
      [Wpa2Action.Transmit r2] s1 (OpEapol witness_ap witness_m3));
      [|exact Hmb3|exact E3].
    apply (run_action witness_supplicant [] [] witness_supplicant (OpEapol witness_ap witness_m1));
      [apply run_start|exact Hmb|exact E1].
  - reflexivity.
Qed.

Lemma no_key_reinstallation_witness : exists actions,
  installs actions = [(false, 2)]
  /\ StronglySorted (fun x y => x.2 < y.2) (installs actions) /\ pairwise_first (installs actions).
Proof.
  destruct witness_run as (actions & s & Hrun & Hi). exists actions. split; [exact Hi|].
  exact (no_key_reinstallation _ _ _ _ witness_started Hrun).
Defined.

Lemma installed_keys_authentic_witness : exists actions m1,
  installs actions = [(false, 2)]
  /\ Forall (authentic witness_supplicant
       [OpEapol witness_ap witness_m1; OpEapol witness_ap witness_m3] m1) actions.
Proof.
  destruct witness_run as (actions & s & Hrun & Hi). exists actions.
  destruct (installed_keys_authentic _ _ _ _ witness_started Hrun) as [Hn|(m1 & _ & Ha)].
  - rewrite Hi in Hn. discriminate Hn.
  - exists m1. split; [exact Hi|exact Ha].
Defined.

Lemma supplicant_implements_rules_witness :
  exists r s', ws_step (OpEapol witness_ap [2; 3; 0]) witness_supplicant = (r, s') /\ r <> Panic
    /\ ws_rule witness_supplicant (OpEapol witness_ap [2; 3; 0]) r s'.
Proof.
  apply supplicant_implements_rules; [|by apply bytes_okb_ok].
  apply (started_spec _ witness_started).
Defined.

Lemma supplicant_well_typed_witness :
  ws_ok (ws_step (OpEapol witness_ap [2; 3; 0]) witness_supplicant).2.
Proof.
  apply supplicant_well_typed; [|by apply bytes_okb_ok]. apply (started_spec _ witness_started).
Defined.

Lemma eapol_error_outcome_witness :
  on_eapol witness_station [2; 3; 0] witness_supplicant = (Err Wpa2Error.WrongPeer, failed witness_supplicant)
  /\ exists e, forall s', erased witness_supplicant s' -> on_eapol witness_ap [2; 3; 0] s' = (Err e, s').
Proof.
  destruct (eapol_error_outcome witness_supplicant witness_ap [2; 3; 0]) as [_ H];
    [apply (started_spec _ witness_started)|by apply bytes_okb_ok|].
  split; [reflexivity|exact H].
Defined.
