(* ===== verification/Wpa2Runtime.v ===== *)
(** * Wpa2Runtime: from the handshake to the radio (src/src/wpa2_runtime.rs)

    The coordinator feeds the supplicant with the frames of the access point
    and carries its actions to the driver: the pairwise key, the group key, the
    default key, message 4 and the authorization, in this order, with a
    deadline on every phase.  Its methods borrow the coordinator and the driver
    together; the state of a method is the pair of both. *)

From S2P Require Import Prelude Crypto Codec Protocol Control Bus Memory Device Data Station Runtime Wpa2 Handshake.

Definition EAPOL_ETHERNET_HEADER_LEN : Z := 14.
Definition MAX_EAPOL_ETHERNET_FRAME_LEN : Z := EAPOL_ETHERNET_HEADER_LEN + MAX_EAPOL_FRAME_LEN.
Definition PAE_GROUP_ADDRESS : list Z := [0x01; 0x80; 0xc2; 0x00; 0x00; 0x03].

Module EapolTransmitPurpose.
Inductive t : Type := Message2 | Message4 | GroupMessage2 | Retransmission.
#[global] Instance eq_dec : EqDecision t.
Proof. solve_decision. Defined.
End EapolTransmitPurpose.

Module Wpa2RuntimeState.
Inductive t : Type :=
  | AwaitingAuthenticator
  | AwaitingEapolTransmit (token : Z) (purpose : EapolTransmitPurpose.t)
  | AwaitingPairwiseKeyStatus
  | AwaitingGroupKeyStatus
  | AwaitingDefaultGroupKeyStatus
  | AwaitingAuthorizationStatus
  | AwaitingCarrier
  | AwaitingGroupRekeyStatus
  | AwaitingDefaultGroupRekeyStatus
  | Complete
  | Failed.
#[global] Instance eq_dec : EqDecision t.
Proof. solve_decision. Defined.
End Wpa2RuntimeState.

Record Wpa2Timeouts : Type := mkWpa2Timeouts {
  authenticator_ms : Z;
  eapol_transmit_ms : Z;
  firmware_command_ms : Z;
  carrier_ms : Z }.
Definition Wpa2Timeouts_DEFAULT : Wpa2Timeouts := mkWpa2Timeouts 5000 2000 5000 5000.

Module Wpa2Progress.
Inductive t : Type :=
  | NoChange
  | EapolSubmitted (token : Z) (purpose : EapolTransmitPurpose.t)
  | PairwiseKeySubmitted
  | GroupKeySubmitted
  | DefaultGroupKeySubmitted
  | AuthorizationSubmitted
  | AwaitingCarrier
  | Complete.
End Wpa2Progress.

Module Wpa2RuntimeError.
Inductive t (E : Type) : Type :=
  | Wpa2 (e : Wpa2Error.t)
  | Driver (e : DriverError.t E)
  | Station (e : StationError.t E)
  | FrameTooShort
  | FrameTooLarge
  | WrongDestination
  | WrongSource
  | WrongEtherType
  | UnexpectedState (state : Wpa2RuntimeState.t)
  | UnexpectedCommandStatus (expected : UmacCommand.t) (received : Z)
  | CommandRejected (command status : Z)
  | MissingInstallRequest
  | TransmitCompletionMismatch (expected received : Z)
  | TransmitFailed
  | Timeout (state : Wpa2RuntimeState.t).
Arguments Wpa2 {E} e.
Arguments Driver {E} e.
Arguments Station {E} e.
Arguments FrameTooShort {E}.
Arguments FrameTooLarge {E}.
Arguments WrongDestination {E}.
Arguments WrongSource {E}.
Arguments WrongEtherType {E}.
Arguments UnexpectedState {E} state.
Arguments UnexpectedCommandStatus {E} expected received.
Arguments CommandRejected {E} command status.
Arguments MissingInstallRequest {E}.
Arguments TransmitCompletionMismatch {E} expected received.
Arguments TransmitFailed {E}.
Arguments Timeout {E} state.
End Wpa2RuntimeError.

Module KeySubmission.
Inductive t : Type := Pairwise | InitialGroup | InitialDefaultGroup | RekeyGroup | RekeyDefaultGroup.
Definition is_default (k : t) : bool :=
  match k with InitialDefaultGroup | RekeyDefaultGroup => true | _ => false end.
Definition next_state (k : t) : Wpa2RuntimeState.t :=
  match k with
  | Pairwise => Wpa2RuntimeState.AwaitingPairwiseKeyStatus
  | InitialGroup => Wpa2RuntimeState.AwaitingGroupKeyStatus
  | InitialDefaultGroup => Wpa2RuntimeState.AwaitingDefaultGroupKeyStatus
  | RekeyGroup => Wpa2RuntimeState.AwaitingGroupRekeyStatus
  | RekeyDefaultGroup => Wpa2RuntimeState.AwaitingDefaultGroupRekeyStatus
  end.
Definition progress (k : t) : Wpa2Progress.t :=
  match k with
  | Pairwise => Wpa2Progress.PairwiseKeySubmitted
  | InitialGroup | RekeyGroup => Wpa2Progress.GroupKeySubmitted
  | InitialDefaultGroup | RekeyDefaultGroup => Wpa2Progress.DefaultGroupKeySubmitted
  end.
End KeySubmission.

Module KeyInstallCompletion.
Inductive t : Type := Initial | Rekey.
Definition transmit_purpose (k : t) : EapolTransmitPurpose.t :=
  match k with Initial => EapolTransmitPurpose.Message4 | Rekey => EapolTransmitPurpose.GroupMessage2 end.
End KeyInstallCompletion.

Record Wpa2Runtime : Type := mkWpa2Runtime {
  wr_supplicant : Wpa2Supplicant;
  wr_local : list Z;
  wr_wdev_id : Z;
  wr_state : Wpa2RuntimeState.t;
  wr_pairwise_install : option Wpa2KeyInstallRequest;
  wr_group_install : option Wpa2GroupKeyInstallRequest;
  wr_timeouts : Wpa2Timeouts;
  wr_remaining_ms : option Z;
  wr_last_input_digest : option (list Z);
  wr_frame : list Z }.

(** Assignments to single fields. *)
Section setters.
Implicit Types r : Wpa2Runtime.
Definition set_supplicant (x : Wpa2Supplicant) r : Wpa2Runtime :=
  mkWpa2Runtime x (wr_local r) (wr_wdev_id r) (wr_state r) (wr_pairwise_install r) (wr_group_install r)
    (wr_timeouts r) (wr_remaining_ms r) (wr_last_input_digest r) (wr_frame r).
Definition set_pairwise_install (x : option Wpa2KeyInstallRequest) r : Wpa2Runtime :=
  mkWpa2Runtime (wr_supplicant r) (wr_local r) (wr_wdev_id r) (wr_state r) x (wr_group_install r)
    (wr_timeouts r) (wr_remaining_ms r) (wr_last_input_digest r) (wr_frame r).
Definition set_group_install (x : option Wpa2GroupKeyInstallRequest) r : Wpa2Runtime :=
  mkWpa2Runtime (wr_supplicant r) (wr_local r) (wr_wdev_id r) (wr_state r) (wr_pairwise_install r) x
    (wr_timeouts r) (wr_remaining_ms r) (wr_last_input_digest r) (wr_frame r).
Definition set_wr_timeouts (x : Wpa2Timeouts) r : Wpa2Runtime :=
  mkWpa2Runtime (wr_supplicant r) (wr_local r) (wr_wdev_id r) (wr_state r) (wr_pairwise_install r)
    (wr_group_install r) x (wr_remaining_ms r) (wr_last_input_digest r) (wr_frame r).
Definition set_remaining_ms (x : option Z) r : Wpa2Runtime :=
  mkWpa2Runtime (wr_supplicant r) (wr_local r) (wr_wdev_id r) (wr_state r) (wr_pairwise_install r)
    (wr_group_install r) (wr_timeouts r) x (wr_last_input_digest r) (wr_frame r).
Definition set_wr_state (x : Wpa2RuntimeState.t) r : Wpa2Runtime :=
  mkWpa2Runtime (wr_supplicant r) (wr_local r) (wr_wdev_id r) x (wr_pairwise_install r)
    (wr_group_install r) (wr_timeouts r) (wr_remaining_ms r) (wr_last_input_digest r) (wr_frame r).
Definition set_last_input_digest (x : option (list Z)) r : Wpa2Runtime :=
  mkWpa2Runtime (wr_supplicant r) (wr_local r) (wr_wdev_id r) (wr_state r) (wr_pairwise_install r)
    (wr_group_install r) (wr_timeouts r) (wr_remaining_ms r) x (wr_frame r).
Definition set_frame (x : list Z) r : Wpa2Runtime :=
  mkWpa2Runtime (wr_supplicant r) (wr_local r) (wr_wdev_id r) (wr_state r) (wr_pairwise_install r)
    (wr_group_install r) (wr_timeouts r) (wr_remaining_ms r) (wr_last_input_digest r) x.

(** [value.max(1)], no deadline in the last two states. *)
Definition wpa2_timeout_for r (state : Wpa2RuntimeState.t) : option Z :=
  let t := wr_timeouts r in
  match state with
  | Wpa2RuntimeState.AwaitingAuthenticator => Some (Z.max (authenticator_ms t) 1)
  | Wpa2RuntimeState.AwaitingEapolTransmit _ _ => Some (Z.max (eapol_transmit_ms t) 1)
  | Wpa2RuntimeState.AwaitingPairwiseKeyStatus
  | Wpa2RuntimeState.AwaitingGroupKeyStatus
  | Wpa2RuntimeState.AwaitingDefaultGroupKeyStatus
  | Wpa2RuntimeState.AwaitingAuthorizationStatus
  | Wpa2RuntimeState.AwaitingGroupRekeyStatus
  | Wpa2RuntimeState.AwaitingDefaultGroupRekeyStatus => Some (Z.max (firmware_command_ms t) 1)
  | Wpa2RuntimeState.AwaitingCarrier => Some (Z.max (carrier_ms t) 1)
  | Wpa2RuntimeState.Complete | Wpa2RuntimeState.Failed => None
  end.
Definition wpa2_transition (state : Wpa2RuntimeState.t) r : Wpa2Runtime :=
  let r := set_wr_state state r in set_remaining_ms (wpa2_timeout_for r state) r.
Definition wpa2_set_timeouts (timeouts : Wpa2Timeouts) r : Wpa2Runtime :=
  let r := set_wr_timeouts timeouts r in set_remaining_ms (wpa2_timeout_for r (wr_state r)) r.
End setters.

Definition Wpa2Runtime_new (supplicant : Wpa2Supplicant) (wdev_id : Z) : Wpa2Runtime :=
  wpa2_transition Wpa2RuntimeState.AwaitingAuthenticator
    (mkWpa2Runtime supplicant (ws_local supplicant) wdev_id Wpa2RuntimeState.AwaitingAuthenticator
       None None Wpa2Timeouts_DEFAULT None None (zeros MAX_EAPOL_ETHERNET_FRAME_LEN)).

(** [Wpa2Runtime::restart_pairwise] *)
Definition wpa2_restart_pairwise (supplicant_nonce : list Z) : M Wpa2Runtime Wpa2Error.t unit :=
  zoom wr_supplicant set_supplicant (restart_pairwise supplicant_nonce);;
  modify (set_pairwise_install None);;
  modify (set_group_install None);;
  modify (set_last_input_digest None);;
  modify (wpa2_transition Wpa2RuntimeState.AwaitingAuthenticator).

Definition has_pending_radio_operation (r : Wpa2Runtime) : bool :=
  match wr_state r with
  | Wpa2RuntimeState.AwaitingEapolTransmit _ _
  | Wpa2RuntimeState.AwaitingPairwiseKeyStatus
  | Wpa2RuntimeState.AwaitingGroupKeyStatus
  | Wpa2RuntimeState.AwaitingDefaultGroupKeyStatus
  | Wpa2RuntimeState.AwaitingAuthorizationStatus
  | Wpa2RuntimeState.AwaitingGroupRekeyStatus
  | Wpa2RuntimeState.AwaitingDefaultGroupRekeyStatus => true
  | _ => false
  end.

Definition input_digest `{Sha256} (payload : list Z) : list Z := sha256 payload.

Definition eapol_response_purpose (was_complete : bool) : EapolTransmitPurpose.t :=
  if was_complete then EapolTransmitPurpose.Retransmission else EapolTransmitPurpose.Message2.

Definition command_status (event : ControlEvent.t) : option (Z * Z) :=
  match event with
  | ControlEvent.CommandStatus _ command status => Some (command, status)
  | _ => None
  end.

Section pure.
Context {E : Type}.
Local Abbreviation R := (res (Wpa2RuntimeError.t E)).

Definition validate_ethernet_size (frame : list Z) : R unit :=
  if len frame <? EAPOL_ETHERNET_HEADER_LEN then Err Wpa2RuntimeError.FrameTooShort
  else if MAX_EAPOL_ETHERNET_FRAME_LEN <? len frame then Err Wpa2RuntimeError.FrameTooLarge
  else Ok tt.

Definition validate_ethernet_header (r : Wpa2Runtime) (frame : list Z) : R unit :=
  destination ← subslice frame 0 6;
  if negb (bool_decide (destination = wr_local r))
     && negb (bool_decide (destination = PAE_GROUP_ADDRESS))
  then Err Wpa2RuntimeError.WrongDestination
  else
    source ← subslice frame 6 12;
    if negb (bool_decide (source = ws_peer (wr_supplicant r))) then Err Wpa2RuntimeError.WrongSource
    else
      ether_type ← read_be16 frame 12;
      if negb (ether_type =? EAPOL_ETHERTYPE) then Err Wpa2RuntimeError.WrongEtherType
      else Ok tt.

Definition validate_ethernet_frame (r : Wpa2Runtime) (frame : list Z) : R (list Z) :=
  validate_ethernet_size frame;;
  validate_ethernet_header r frame;;
  subslice frame EAPOL_ETHERNET_HEADER_LEN (len frame).

Definition pending_input (r : Wpa2Runtime) (digest : list Z) : R (option Wpa2Progress.t) :=
  if negb (has_pending_radio_operation r) then Ok None
  else if bool_decide (wr_last_input_digest r = Some digest) then Ok (Some Wpa2Progress.NoChange)
  else Err (Wpa2RuntimeError.UnexpectedState (wr_state r)).

Definition require_command (expected : UmacCommand.t) (received : Z) : R unit :=
  if received =? UmacCommand.to_u32 expected then Ok tt
  else Err (Wpa2RuntimeError.UnexpectedCommandStatus expected received).

Definition submission_key (r : Wpa2Runtime) (submission : KeySubmission.t) : R KeyConfig :=
  ok_or
    match submission with
    | KeySubmission.Pairwise =>
        (fun request => pairwise_key_config (ki_pairwise request)) <$> wr_pairwise_install r
    | KeySubmission.InitialGroup =>
        (fun request => group_key_config (ki_group request)) <$> wr_pairwise_install r
    | KeySubmission.InitialDefaultGroup =>
        (fun request => default_key_config (ki_group request)) <$> wr_pairwise_install r
    | KeySubmission.RekeyGroup =>
        (fun request => group_key_config (gi_group request)) <$> wr_group_install r
    | KeySubmission.RekeyDefaultGroup =>
        (fun request => default_key_config (gi_group request)) <$> wr_group_install r
    end Wpa2RuntimeError.MissingInstallRequest.

Definition completed_transmit (r : Wpa2Runtime) (event : TxDoneEventRef)
    : R (option EapolTransmitPurpose.t) :=
  match wr_state r with
  | Wpa2RuntimeState.AwaitingEapolTransmit token purpose =>
      if negb (token =? td_token event)
      then Err (Wpa2RuntimeError.TransmitCompletionMismatch token (td_token event))
      else if negb (len (td_statuses event) =? 1) || negb (all_succeeded event)
      then Err Wpa2RuntimeError.TransmitFailed
      else Ok (Some purpose)
  | _ => Ok None
  end.
End pure.

(** ** Methods *)

Section coordinator.
Context {W E : Type} `{BusOps W E} `{DelayOps W} {sha : Sha256} {mac : HmacSha1} {aes : Aes128}.
Variable TX : Z.
Local Notation "'MC' A" := (M (Wpa2Runtime * NativeDriver W) (Wpa2RuntimeError.t E) A)
  (at level 10, A at next level).

(** Calls on the two borrowed objects. *)
Definition on_runtime {F A} (m : M Wpa2Runtime F A) : M (Wpa2Runtime * NativeDriver W) F A :=
  zoom fst (fun r p => (r, p.2)) m.
Definition on_supplicant {F A} (m : M Wpa2Supplicant F A) : M (Wpa2Runtime * NativeDriver W) F A :=
  on_runtime (zoom wr_supplicant set_supplicant m).
Definition on_native {F A} (m : M (NativeDriver W) F A) : M (Wpa2Runtime * NativeDriver W) F A :=
  zoom snd (fun n p => (p.1, n)) m.
(** [driver.security_parts_mut()] *)
Definition on_security (m : M (StationController * Device W) (StationError.t E) unit) : MC unit :=
  mapM_err Wpa2RuntimeError.Station (on_native (on_nd_station m)).

(** [if let Some(request) = self.pairwise_install.take() { .. }] *)
Definition drop_pairwise_install : MC unit :=
  p ← get;
  match wr_pairwise_install p.1 with
  | Some request =>
      on_runtime (modify (set_pairwise_install None));;
      _ ← attempt (on_supplicant (complete_key_install request false));
      mret tt
  | None => mret tt
  end.
Definition drop_group_install : MC unit :=
  p ← get;
  match wr_group_install p.1 with
  | Some request =>
      on_runtime (modify (set_group_install None));;
      _ ← attempt (on_supplicant (complete_group_key_install request false));
      mret tt
  | None => mret tt
  end.

(** [Wpa2Runtime::fail] *)
Definition wpa2_fail {A} (error : Wpa2RuntimeError.t E) : MC A :=
  drop_pairwise_install;;
  drop_group_install;;
  on_runtime (modify (set_last_input_digest None));;
  on_native (modify enter_recovery);;
  on_runtime (modify (wpa2_transition Wpa2RuntimeState.Failed));;
  throw error.

(** [runtime_fail_on_error!], and the [match result] at the end of a method. *)
Definition or_fail {A} (m : MC A) : MC A :=
  result ← attempt m;
  match result with inl a => mret a | inr error => wpa2_fail error end.

Definition wpa2_advance_time (elapsed_ms : Z) : MC unit :=
  p ← get;
  match wr_remaining_ms p.1 with
  | None => mret tt
  | Some remaining =>
      if elapsed_ms <? remaining
      then on_runtime (modify (set_remaining_ms (Some (remaining - elapsed_ms))))
      else wpa2_fail (Wpa2RuntimeError.Timeout (wr_state p.1))
  end.

Definition submit_firmware_key (key : KeyConfig) (default : bool) : MC unit :=
  if default then on_security (set_key key) else on_security (key_command UmacCommand.NewKey key).

Definition submit_key (submission : KeySubmission.t) : MC Wpa2Progress.t :=
  p ← get;
  key ← lift (submission_key p.1 submission);
  submit_firmware_key key (KeySubmission.is_default submission);;
  on_runtime (modify (wpa2_transition (KeySubmission.next_state submission)));;
  mret (KeySubmission.progress submission).

(** The five writes of the frame buffer. *)
Definition ethernet_response (r : Wpa2Runtime) (response : EapolTxFrame) : list Z :=
  splice (splice (splice (splice (wr_frame r) 0 (tx_peer response)) 6 (wr_local r)) 12
    (to_be 2 EAPOL_ETHERTYPE)) 14 (tx_slice response).

Definition submit_eapol (response : EapolTxFrame) (purpose : EapolTransmitPurpose.t)
    : MC Wpa2Progress.t :=
  p ← get;
  n ← lift (ok_or (checked_add EAPOL_ETHERNET_HEADER_LEN (tx_len response))
              Wpa2RuntimeError.FrameTooLarge);
  if len (wr_frame p.1) <? n then throw Wpa2RuntimeError.FrameTooLarge
  else
    on_runtime (modify (fun r => set_frame (ethernet_response r response) r));;
    p ← get;
    frame ← lift (expect (slice (wr_frame p.1) 0 n));
    token ← mapM_err Wpa2RuntimeError.Driver
              (on_native (driver_transmit TX (wr_wdev_id p.1) frame 0));
    on_runtime (modify (wpa2_transition (Wpa2RuntimeState.AwaitingEapolTransmit token purpose)));;
    mret (Wpa2Progress.EapolSubmitted token purpose).

(** *** Frames of the access point *)

Definition begin_pairwise_install (request : Wpa2KeyInstallRequest) : MC Wpa2Progress.t :=
  p ← get;
  if negb (bool_decide (wr_state p.1 = Wpa2RuntimeState.AwaitingAuthenticator))
  then throw (Wpa2RuntimeError.UnexpectedState (wr_state p.1))
  else
    on_runtime (modify (set_pairwise_install (Some request)));;
    submit_key KeySubmission.Pairwise.

Definition begin_group_install (request : Wpa2GroupKeyInstallRequest) : MC Wpa2Progress.t :=
  p ← get;
  if negb (bool_decide (wr_state p.1 = Wpa2RuntimeState.Complete))
  then throw (Wpa2RuntimeError.UnexpectedState (wr_state p.1))
  else
    on_runtime (modify (set_group_install (Some request)));;
    submit_key KeySubmission.RekeyGroup.

Definition dispatch_wpa2_action (action : Wpa2Action.t) (was_complete : bool) : MC Wpa2Progress.t :=
  match action with
  | Wpa2Action.None => mret Wpa2Progress.NoChange
  | Wpa2Action.Transmit response => submit_eapol response (eapol_response_purpose was_complete)
  | Wpa2Action.InstallKeys request => begin_pairwise_install request
  | Wpa2Action.InstallGroupKey request => begin_group_install request
  end.

Definition on_ethernet_frame (frame : list Z) : MC Wpa2Progress.t :=
  p ← get;
  payload ← or_fail (lift (validate_ethernet_frame p.1 frame));
  let digest := input_digest payload in
  pending ← or_fail (lift (pending_input p.1 digest));
  match pending with
  | Some progress => mret progress
  | None =>
      let was_complete := bool_decide (ws_phase (wr_supplicant p.1) = Wpa2Phase.Complete) in
      let peer := ws_peer (wr_supplicant p.1) in
      action ← or_fail (mapM_err Wpa2RuntimeError.Wpa2 (on_supplicant (on_eapol peer payload)));
      on_runtime (modify (set_last_input_digest (Some digest)));;
      or_fail (dispatch_wpa2_action action was_complete)
  end.

(** *** Command status *)

Definition finish_key_install (completion : KeyInstallCompletion.t) : MC EapolTxFrame :=
  p ← get;
  match completion with
  | KeyInstallCompletion.Initial =>
      on_runtime (modify (set_pairwise_install None));;
      request ← lift (ok_or (wr_pairwise_install p.1) Wpa2RuntimeError.MissingInstallRequest);
      mapM_err Wpa2RuntimeError.Wpa2 (on_supplicant (complete_key_install request true))
  | KeyInstallCompletion.Rekey =>
      on_runtime (modify (set_group_install None));;
      request ← lift (ok_or (wr_group_install p.1) Wpa2RuntimeError.MissingInstallRequest);
      mapM_err Wpa2RuntimeError.Wpa2 (on_supplicant (complete_group_key_install request true))
  end.

(** [Wpa2Runtime::complete_key_install] *)
Definition wpa2_complete_key_install (command : Z) (completion : KeyInstallCompletion.t)
    : MC Wpa2Progress.t :=
  lift (require_command UmacCommand.SetKey command);;
  response ← finish_key_install completion;
  submit_eapol response (KeyInstallCompletion.transmit_purpose completion).

Definition advance_initial_key (command : Z) (submission : KeySubmission.t) : MC Wpa2Progress.t :=
  lift (require_command UmacCommand.NewKey command);;
  submit_key submission.

Definition handle_initial_key_status (command : Z) : MC Wpa2Progress.t :=
  p ← get;
  match wr_state p.1 with
  | Wpa2RuntimeState.AwaitingPairwiseKeyStatus =>
      advance_initial_key command KeySubmission.InitialGroup
  | Wpa2RuntimeState.AwaitingGroupKeyStatus =>
      advance_initial_key command KeySubmission.InitialDefaultGroup
  | Wpa2RuntimeState.AwaitingDefaultGroupKeyStatus =>
      wpa2_complete_key_install command KeyInstallCompletion.Initial
  | state => throw (Wpa2RuntimeError.UnexpectedState state)
  end.

Definition station_connected (p : Wpa2Runtime * NativeDriver W) : bool :=
  bool_decide (sc_state (nd_station p.2) = StationState.Connected).

Definition handle_authorization_status (command : Z) : MC Wpa2Progress.t :=
  lift (require_command UmacCommand.SetStation command);;
  p ← get;
  if station_connected p then
    on_runtime (modify (wpa2_transition Wpa2RuntimeState.Complete));;
    mret Wpa2Progress.Complete
  else
    on_runtime (modify (wpa2_transition Wpa2RuntimeState.AwaitingCarrier));;
    mret Wpa2Progress.AwaitingCarrier.

Definition advance_group_rekey (command : Z) : MC Wpa2Progress.t :=
  lift (require_command UmacCommand.NewKey command);;
  submit_key KeySubmission.RekeyDefaultGroup.

Definition handle_rekey_status (command : Z) : MC Wpa2Progress.t :=
  p ← get;
  match wr_state p.1 with
  | Wpa2RuntimeState.AwaitingGroupRekeyStatus => advance_group_rekey command
  | Wpa2RuntimeState.AwaitingDefaultGroupRekeyStatus =>
      wpa2_complete_key_install command KeyInstallCompletion.Rekey
  | state => throw (Wpa2RuntimeError.UnexpectedState state)
  end.

Definition dispatch_command_status (command : Z) : MC Wpa2Progress.t :=
  p ← get;
  match wr_state p.1 with
  | Wpa2RuntimeState.AwaitingPairwiseKeyStatus
  | Wpa2RuntimeState.AwaitingGroupKeyStatus
  | Wpa2RuntimeState.AwaitingDefaultGroupKeyStatus => handle_initial_key_status command
  | Wpa2RuntimeState.AwaitingAuthorizationStatus => handle_authorization_status command
  | Wpa2RuntimeState.AwaitingGroupRekeyStatus
  | Wpa2RuntimeState.AwaitingDefaultGroupRekeyStatus => handle_rekey_status command
  | state => throw (Wpa2RuntimeError.UnexpectedState state)
  end.

(** [Wpa2Runtime::refresh_carrier] has the same body. *)
Definition handle_non_command_event : MC Wpa2Progress.t :=
  p ← get;
  if station_connected p then
    on_runtime (modify (wpa2_transition Wpa2RuntimeState.Complete));;
    mret Wpa2Progress.Complete
  else mret Wpa2Progress.NoChange.
Definition refresh_carrier : MC Wpa2Progress.t := handle_non_command_event.

Definition on_control_event (event : ControlEvent.t) : MC Wpa2Progress.t :=
  match command_status event with
  | None => handle_non_command_event
  | Some (command, status) =>
      if negb (status =? 0) then wpa2_fail (Wpa2RuntimeError.CommandRejected command status)
      else or_fail (dispatch_command_status command)
  end.

(** *** Transmit completion *)

Definition authorize_after_message4 : MC Wpa2Progress.t :=
  on_security authorize;;
  on_runtime (modify (wpa2_transition Wpa2RuntimeState.AwaitingAuthorizationStatus));;
  mret Wpa2Progress.AuthorizationSubmitted.

(** [Wpa2Runtime::complete_group_rekey]; the station's method returns its new
    state. *)
Definition wpa2_complete_group_rekey : MC Wpa2Progress.t :=
  on_native (modify (fun n => set_station (complete_group_rekey (nd_station n)) n));;
  p ← get;
  if bool_decide (sc_state (nd_station p.2) = StationState.Fault)
  then throw (Wpa2RuntimeError.UnexpectedState (wr_state p.1))
  else
    on_runtime (modify (wpa2_transition Wpa2RuntimeState.Complete));;
    mret Wpa2Progress.Complete.

Definition dispatch_transmit_purpose (purpose : EapolTransmitPurpose.t) : MC Wpa2Progress.t :=
  match purpose with
  | EapolTransmitPurpose.Message2 =>
      on_runtime (modify (wpa2_transition Wpa2RuntimeState.AwaitingAuthenticator));;
      mret Wpa2Progress.NoChange
  | EapolTransmitPurpose.Message4 => authorize_after_message4
  | EapolTransmitPurpose.GroupMessage2 => wpa2_complete_group_rekey
  | EapolTransmitPurpose.Retransmission =>
      on_runtime (modify (wpa2_transition Wpa2RuntimeState.Complete));;
      mret Wpa2Progress.Complete
  end.

Definition on_transmit_done (event : TxDoneEventRef) : MC Wpa2Progress.t :=
  p ← get;
  purpose ← or_fail (lift (completed_transmit p.1 event));
  match purpose with
  | None => mret Wpa2Progress.NoChange
  | Some purpose => or_fail (dispatch_transmit_purpose purpose)
  end.
End coordinator.

(** * The coordinator as a state machine *)

(** The calls of the owner. *)
Inductive rt_op : Type :=
  | RtFrame (frame : list Z)
  | RtControl (event : ControlEvent.t)
  | RtTransmitDone (event : TxDoneEventRef)
  | RtRefreshCarrier
  | RtAdvance (elapsed_ms : Z).

Definition rt_run {W E} `{BusOps W E} `{DelayOps W} `{Sha256} `{HmacSha1} `{Aes128} (TX : Z) (op : rt_op)
    : M (Wpa2Runtime * NativeDriver W) (Wpa2RuntimeError.t E) Wpa2Progress.t :=
  match op with
  | RtFrame frame => on_ethernet_frame TX frame
  | RtControl event => on_control_event TX event
  | RtTransmitDone event => on_transmit_done event
  | RtRefreshCarrier => refresh_carrier
  | RtAdvance elapsed_ms => wpa2_advance_time elapsed_ms;; mret Wpa2Progress.NoChange
  end.

(** The firmware reports success of a command; the frame was sent. *)
Definition status_ok (event : ControlEvent.t) (command : UmacCommand.t) : Prop :=
  command_status event = Some (UmacCommand.to_u32 command, 0).
Definition delivered_once (event : TxDoneEventRef) (token : Z) : Prop :=
  td_token event = token /\ td_statuses event = [0].

(** The steps, from the state before to the progress reported and the state
    after; [connected] is about the station before the call. *)
Inductive rt_rule (connected : bool) :
    Wpa2RuntimeState.t -> rt_op -> Wpa2Progress.t -> Wpa2RuntimeState.t -> Prop :=
  | rt_quiet st op : rt_rule connected st op Wpa2Progress.NoChange st
  | rt_connected st op :
      connected = true ->
      op = RtRefreshCarrier \/ (exists event, op = RtControl event /\ command_status event = None) ->
      rt_rule connected st op Wpa2Progress.Complete Wpa2RuntimeState.Complete
  (* frames of the access point *)
  | rt_response st frame token was_complete :
      rt_rule connected st (RtFrame frame)
        (Wpa2Progress.EapolSubmitted token (eapol_response_purpose was_complete))
        (Wpa2RuntimeState.AwaitingEapolTransmit token (eapol_response_purpose was_complete))
  | rt_pairwise_key frame :
      rt_rule connected Wpa2RuntimeState.AwaitingAuthenticator (RtFrame frame)
        Wpa2Progress.PairwiseKeySubmitted Wpa2RuntimeState.AwaitingPairwiseKeyStatus
  | rt_rekey frame :
      rt_rule connected Wpa2RuntimeState.Complete (RtFrame frame)
        Wpa2Progress.GroupKeySubmitted Wpa2RuntimeState.AwaitingGroupRekeyStatus
  (* the first installation *)
  | rt_group_key event :
      status_ok event UmacCommand.NewKey ->
      rt_rule connected Wpa2RuntimeState.AwaitingPairwiseKeyStatus (RtControl event)
        Wpa2Progress.GroupKeySubmitted Wpa2RuntimeState.AwaitingGroupKeyStatus
  | rt_default_key event :
      status_ok event UmacCommand.NewKey ->
      rt_rule connected Wpa2RuntimeState.AwaitingGroupKeyStatus (RtControl event)
        Wpa2Progress.DefaultGroupKeySubmitted Wpa2RuntimeState.AwaitingDefaultGroupKeyStatus
  | rt_message4 event token :
      status_ok event UmacCommand.SetKey ->
      rt_rule connected Wpa2RuntimeState.AwaitingDefaultGroupKeyStatus (RtControl event)
        (Wpa2Progress.EapolSubmitted token EapolTransmitPurpose.Message4)
        (Wpa2RuntimeState.AwaitingEapolTransmit token EapolTransmitPurpose.Message4)
  | rt_authorize event token :
      delivered_once event token ->
      rt_rule connected (Wpa2RuntimeState.AwaitingEapolTransmit token EapolTransmitPurpose.Message4)
        (RtTransmitDone event)
        Wpa2Progress.AuthorizationSubmitted Wpa2RuntimeState.AwaitingAuthorizationStatus
  | rt_authorized event :
      status_ok event UmacCommand.SetStation -> connected = true ->
      rt_rule connected Wpa2RuntimeState.AwaitingAuthorizationStatus (RtControl event)
        Wpa2Progress.Complete Wpa2RuntimeState.Complete
  | rt_await_carrier event :
      status_ok event UmacCommand.SetStation -> connected = false ->
      rt_rule connected Wpa2RuntimeState.AwaitingAuthorizationStatus (RtControl event)
        Wpa2Progress.AwaitingCarrier Wpa2RuntimeState.AwaitingCarrier
  (* the group rekey *)
  | rt_rekey_default event :
      status_ok event UmacCommand.NewKey ->
      rt_rule connected Wpa2RuntimeState.AwaitingGroupRekeyStatus (RtControl event)
        Wpa2Progress.DefaultGroupKeySubmitted Wpa2RuntimeState.AwaitingDefaultGroupRekeyStatus
  | rt_rekey_message2 event token :
      status_ok event UmacCommand.SetKey ->
      rt_rule connected Wpa2RuntimeState.AwaitingDefaultGroupRekeyStatus (RtControl event)
        (Wpa2Progress.EapolSubmitted token EapolTransmitPurpose.GroupMessage2)
        (Wpa2RuntimeState.AwaitingEapolTransmit token EapolTransmitPurpose.GroupMessage2)
  (* completed transmissions *)
  | rt_message2_sent event token :
      delivered_once event token ->
      rt_rule connected (Wpa2RuntimeState.AwaitingEapolTransmit token EapolTransmitPurpose.Message2)
        (RtTransmitDone event) Wpa2Progress.NoChange Wpa2RuntimeState.AwaitingAuthenticator
  | rt_sent event token purpose :
      delivered_once event token ->
      purpose = EapolTransmitPurpose.GroupMessage2 \/ purpose = EapolTransmitPurpose.Retransmission ->
      rt_rule connected (Wpa2RuntimeState.AwaitingEapolTransmit token purpose) (RtTransmitDone event)
        Wpa2Progress.Complete Wpa2RuntimeState.Complete.

(** After a failure: nothing pending, no deadline, the driver in recovery
    without a connection. *)
Definition wpa2_closed {W} (p : Wpa2Runtime * NativeDriver W) : Prop :=
  wr_state p.1 = Wpa2RuntimeState.Failed /\ wr_pairwise_install p.1 = None /\ wr_group_install p.1 = None
  /\ wr_last_input_digest p.1 = None /\ wr_remaining_ms p.1 = None
  /\ nd_state p.2 = DriverState.Recovering /\ no_connection (nd_station p.2)
  /\ nd_configured_mac p.2 = None.

Section outcomes.
Context {W E : Type} `{BusOps W E} `{DelayOps W} {sha : Sha256} {mac : HmacSha1} {aes : Aes128}.
Variable TX : Z.
Implicit Types p : Wpa2Runtime * NativeDriver W.

Lemma accept_no_panic ticket replay group installed s :
  (accept_key_completion ticket replay group installed s).1 <> Panic.
Proof.
  unfold accept_key_completion. munfold. destruct (negb _); [done|].
  destruct (ws_pending_frame_digest s); [|done]. by destruct (negb _).
Qed.

Lemma complete_install_no_panic request installed s :
  (complete_key_install request installed s).1 <> Panic.
Proof.
  unfold complete_key_install. munfold. pose proof (accept_no_panic (ki_ticket request)
    (ki_replay_counter request) false installed s) as Hp.
  by destruct (accept_key_completion _ _ _ _ _) as [[]].
Qed.

Lemma complete_group_no_panic request installed s :
  (complete_group_key_install request installed s).1 <> Panic.
Proof.
  unfold complete_group_key_install. munfold. pose proof (accept_no_panic (gi_ticket request)
    (gi_replay_counter request) true installed s) as Hp.
  by destruct (accept_key_completion _ _ _ _ _) as [[]].
Qed.

Lemma drop_pairwise_spec p :
  exists r, drop_pairwise_install (E:=E) p = (Ok tt, (r, p.2)) /\ wr_pairwise_install r = None
    /\ wr_group_install r = wr_group_install p.1.
Proof.
  unfold drop_pairwise_install, on_supplicant, on_runtime. munfold.
  destruct (wr_pairwise_install p.1) as [request|] eqn:Hp; [|exists p.1; by destruct p].
  cbn [fst snd]. pose proof (complete_install_no_panic request false
    (wr_supplicant (set_pairwise_install None p.1))) as Hn.
  destruct (complete_key_install _ _ _) as [[f|e|] s]; [..|done];
    (eexists; split; [reflexivity|]; by split).
Qed.

Lemma drop_group_spec p :
  exists r, drop_group_install (E:=E) p = (Ok tt, (r, p.2)) /\ wr_group_install r = None
    /\ wr_pairwise_install r = wr_pairwise_install p.1.
Proof.
  unfold drop_group_install, on_supplicant, on_runtime. munfold.
  destruct (wr_group_install p.1) as [request|] eqn:Hp; [|exists p.1; by destruct p].
  cbn [fst snd]. pose proof (complete_group_no_panic request false
    (wr_supplicant (set_group_install None p.1))) as Hn.
  destruct (complete_group_key_install _ _ _) as [[f|e|] s]; [..|done];
    (eexists; split; [reflexivity|]; by split).
Qed.

Lemma wpa2_fail_spec {A} (e : Wpa2RuntimeError.t E) p :
  exists p', wpa2_fail (A:=A) e p = (Err e, p') /\ wpa2_closed p'.
Proof.
  unfold wpa2_fail. unfold mbind, M_bind.
  destruct (drop_pairwise_spec p) as (r1 & -> & Hp1 & _).
  destruct (drop_group_spec (r1, p.2)) as (r2 & -> & Hg2 & Hp2).
  unfold on_runtime, on_native. munfold. cbn [fst snd] in *. eexists. split; [reflexivity|].
  rewrite Hp1 in Hp2. unfold wpa2_closed. by split_and!.
Qed.

(** An outcome that is [Q] or closed. *)
Definition closes_or {A} (Q : A -> Wpa2Runtime * NativeDriver W -> Prop)
    (o : res (Wpa2RuntimeError.t E) A * (Wpa2Runtime * NativeDriver W)) : Prop :=
  match o with
  | (Ok a, p') => Q a p'
  | (Err _, p') => wpa2_closed p'
  | (Panic, _) => True
  end.
(** An outcome that is [Q] if it is a success. *)
Definition ok_or_not {A} (Q : A -> Wpa2Runtime * NativeDriver W -> Prop)
    (o : res (Wpa2RuntimeError.t E) A * (Wpa2Runtime * NativeDriver W)) : Prop :=
  match o with (Ok a, p') => Q a p' | _ => True end.

Lemma or_fail_closes {A} (m : M (Wpa2Runtime * NativeDriver W) (Wpa2RuntimeError.t E) A) Q p :
  ok_or_not Q (m p) -> closes_or Q (or_fail m p).
Proof.
  unfold or_fail, attempt, ok_or_not. munfold. destruct (m p) as [[a|e|] p']; [done| |done].
  intros _. destruct (wpa2_fail_spec (A:=A) e p') as (p'' & -> & Hc). done.
Qed.

Lemma call_closes_bind {A B} (m : M (Wpa2Runtime * NativeDriver W) (Wpa2RuntimeError.t E) A)
    (f : A -> M (Wpa2Runtime * NativeDriver W) (Wpa2RuntimeError.t E) B) Q' Q p :
  closes_or Q' (m p) -> (forall a p', Q' a p' -> closes_or Q (f a p')) -> closes_or Q ((m ≫= f) p).
Proof.
  intros Hm Hf. unfold mbind, M_bind, closes_or in *. destruct (m p) as [[a|e|] p']; [|done..].
  by apply Hf.
Qed.

Lemma okn_bind {A B} (m : M (Wpa2Runtime * NativeDriver W) (Wpa2RuntimeError.t E) A)
    (f : A -> M (Wpa2Runtime * NativeDriver W) (Wpa2RuntimeError.t E) B) Q' Q p :
  ok_or_not Q' (m p) -> (forall a p', Q' a p' -> ok_or_not Q (f a p')) -> ok_or_not Q ((m ≫= f) p).
Proof.
  intros Hm Hf. unfold mbind, M_bind, ok_or_not in *. destruct (m p) as [[a|e|] p']; [|done..].
  by apply Hf.
Qed.

Lemma okn_lift {A} (r : res (Wpa2RuntimeError.t E) A) p :
  ok_or_not (fun a p' => r = Ok a /\ p' = p) (lift r p).
Proof. by destruct r. Qed.

Lemma okn_any {A} (m : M (Wpa2Runtime * NativeDriver W) (Wpa2RuntimeError.t E) A) p :
  ok_or_not (fun _ _ => True) (m p).
Proof. unfold ok_or_not. by destruct (m p) as [[]]. Qed.

Lemma submit_key_state submission p :
  ok_or_not (fun progress p' => progress = KeySubmission.progress submission
               /\ wr_state p'.1 = KeySubmission.next_state submission)
    (submit_key (E:=E) submission p).
Proof.
  unfold submit_key. eapply okn_bind; [apply okn_any|]. intros q p1 _.
  eapply okn_bind; [apply okn_any|]. intros key p2 _.
  eapply okn_bind; [apply okn_any|]. by intros u p3 _.
Qed.

Lemma submit_eapol_state response purpose p :
  ok_or_not (fun progress p' => exists token, progress = Wpa2Progress.EapolSubmitted token purpose
               /\ wr_state p'.1 = Wpa2RuntimeState.AwaitingEapolTransmit token purpose)
    (submit_eapol (E:=E) TX response purpose p).
Proof.
  unfold submit_eapol. eapply okn_bind; [apply okn_any|]. intros q p1 _.
  eapply okn_bind; [apply okn_any|]. intros n p2 _. destruct (_ <? n); [done|].
  eapply okn_bind; [apply okn_any|]. intros u p3 _.
  eapply okn_bind; [apply okn_any|]. intros q' p4 _.
  eapply okn_bind; [apply okn_any|]. intros frame p5 _.
  eapply okn_bind; [apply okn_any|]. intros token p6 _. by exists token.
Qed.

Lemma require_command_ok expected received :
  require_command (E:=E) expected received = Ok tt -> received = UmacCommand.to_u32 expected.
Proof. unfold require_command. destruct (_ =? _) eqn:Hc; [lia|done]. Qed.

Lemma completed_transmit_ok r event purpose :
  completed_transmit (E:=E) r event = Ok (Some purpose) ->
  exists token, wr_state r = Wpa2RuntimeState.AwaitingEapolTransmit token purpose
    /\ delivered_once event token.
Proof.
  unfold completed_transmit. destruct (wr_state r) as [|token purpose'| | | | | | | | |]; try done.
  destruct (token =? td_token event) eqn:Ht; [|done]. cbn [negb].
  destruct (len (td_statuses event) =? 1) eqn:Hl; [|done]. cbn [negb orb].
  destruct (all_succeeded event) eqn:Ha; [|done]. cbn [negb]. intros [= <-]. exists token.
  split; [done|]. split; [lia|]. unfold all_succeeded in Ha. apply andb_true_iff in Ha as [_ Ha].
  destruct (td_statuses event) as [|x [|y l]];
    [done| |exfalso; rewrite !len_cons in Hl; pose proof (len_nonneg l); lia].
  cbn in Ha. apply andb_true_iff in Ha as [Hx _]. f_equal. lia.
Qed.

(** ** The outcome of every call *)

(** The rule from the state [st]. *)
Definition follows connected st op (progress : Wpa2Progress.t) p' : Prop :=
  rt_rule connected st op progress (wr_state p'.1).

Lemma dispatch_action_follows connected st frame action was_complete p :
  wr_state p.1 = st ->
  ok_or_not (follows connected st (RtFrame frame)) (dispatch_wpa2_action (E:=E) TX action was_complete p).
Proof.
  intros <-. destruct action as [|response|request|request]; cbn [dispatch_wpa2_action].
  - apply rt_quiet.
  - pose proof (submit_eapol_state response (eapol_response_purpose was_complete) p) as Hs.
    unfold ok_or_not, follows in *. destruct (submit_eapol _ _ _ _) as [[a|e|] p']; [|done..].
    destruct Hs as (token & -> & ->). apply rt_response.
  - unfold begin_pairwise_install. eapply okn_bind; [by apply (okn_lift (Ok p))|]. intros q p1 [[= <-] ->].
    destruct (negb _) eqn:Hs; [done|]. apply negb_false_iff, bool_decide_eq_true in Hs.
    eapply okn_bind; [apply okn_any|]. intros u p2 _.
    pose proof (submit_key_state KeySubmission.Pairwise p2) as Hk.
    unfold ok_or_not, follows in *. destruct (submit_key _ _) as [[a|e|] p']; [|done..].
    destruct Hk as [-> ->]. rewrite Hs. apply rt_pairwise_key.
  - unfold begin_group_install. eapply okn_bind; [by apply (okn_lift (Ok p))|]. intros q p1 [[= <-] ->].
    destruct (negb _) eqn:Hs; [done|]. apply negb_false_iff, bool_decide_eq_true in Hs.
    eapply okn_bind; [apply okn_any|]. intros u p2 _.
    pose proof (submit_key_state KeySubmission.RekeyGroup p2) as Hk.
    unfold ok_or_not, follows in *. destruct (submit_key _ _) as [[a|e|] p']; [|done..].
    destruct Hk as [-> ->]. rewrite Hs. apply rt_rekey.
Qed.

Lemma on_ethernet_frame_closes frame p :
  closes_or (follows (station_connected p) (wr_state p.1) (RtFrame frame))
    (on_ethernet_frame (E:=E) TX frame p).
Proof.
  unfold on_ethernet_frame. eapply call_closes_bind; [by instantiate (1 := fun q p' => q = p /\ p' = p)|].
  intros q p1 [-> ->]. eapply call_closes_bind; [apply or_fail_closes, okn_lift|]. intros payload p1 [_ ->].
  eapply call_closes_bind; [apply or_fail_closes, okn_lift|]. intros pending p1 [Hp ->].
  destruct pending as [progress|].
  - unfold pending_input in Hp. destruct (negb _); [done|]. case_bool_decide; [|done].
    injection Hp as <-. apply rt_quiet.
  - eapply call_closes_bind.
    { apply or_fail_closes. instantiate (1 := fun _ p' => wr_state p'.1 = wr_state p.1).
      unfold ok_or_not, mapM_err, on_supplicant, on_runtime, zoom.
      by destruct (on_eapol _ _ _) as [[]]. }
    intros action p2 Hp2. eapply call_closes_bind; [by instantiate (1 := fun _ p' => wr_state p'.1 = wr_state p.1)|].
    intros u p3 Hp3. apply or_fail_closes. by apply dispatch_action_follows.
Qed.

(** A computation that starts by looking at the state. *)
Lemma okn_get {B} (f : Wpa2Runtime * NativeDriver W -> M (Wpa2Runtime * NativeDriver W) (Wpa2RuntimeError.t E) B) Q p :
  ok_or_not Q (f p p) -> ok_or_not Q ((get ≫= f) p).
Proof. done. Qed.

Lemma status_step connected st event command submission p :
  wr_state p.1 = st -> status_ok event command ->
  (forall command', command' = command ->
   rt_rule connected st (RtControl event) (KeySubmission.progress submission)
     (KeySubmission.next_state submission)) ->
  ok_or_not (follows connected st (RtControl event)) (submit_key (E:=E) submission p).
Proof.
  intros Hst Hs Hr. pose proof (submit_key_state submission p) as Hk.
  unfold ok_or_not, follows in *. destruct (submit_key _ _) as [[a|e|] p']; [|done..].
  destruct Hk as [-> ->]. by apply (Hr command).
Qed.

Lemma complete_install_follows connected st event command completion p :
  command_status event = Some (command, 0) ->
  (forall token, status_ok event UmacCommand.SetKey ->
   rt_rule connected st (RtControl event)
     (Wpa2Progress.EapolSubmitted token (KeyInstallCompletion.transmit_purpose completion))
     (Wpa2RuntimeState.AwaitingEapolTransmit token (KeyInstallCompletion.transmit_purpose completion))) ->
  ok_or_not (follows connected st (RtControl event))
    (wpa2_complete_key_install (E:=E) TX command completion p).
Proof.
  intros Hc Hr. unfold wpa2_complete_key_install. eapply okn_bind; [apply okn_lift|].
  intros [] p1 [->%require_command_ok ->]. eapply okn_bind; [apply okn_any|]. intros response p2 _.
  pose proof (submit_eapol_state response (KeyInstallCompletion.transmit_purpose completion) p2) as Hs.
  unfold ok_or_not, follows in *. destruct (submit_eapol _ _ _ _) as [[a|e|] p']; [|done..].
  destruct Hs as (token & -> & ->). by apply Hr.
Qed.

Lemma dispatch_status_follows event command p :
  command_status event = Some (command, 0) ->
  ok_or_not (follows (station_connected p) (wr_state p.1) (RtControl event))
    (dispatch_command_status (E:=E) TX command p).
Proof.
  intros Hc. unfold dispatch_command_status. apply okn_get.
  assert (forall submission k, k = (lift (require_command (E:=E) UmacCommand.NewKey command);;
            submit_key submission) ->
          (status_ok event UmacCommand.NewKey ->
             rt_rule (station_connected p) (wr_state p.1) (RtControl event)
               (KeySubmission.progress submission) (KeySubmission.next_state submission)) ->
          ok_or_not (follows (station_connected p) (wr_state p.1) (RtControl event)) (k p)) as Hkey.
  { intros submission k -> Hr. eapply okn_bind; [apply okn_lift|].
    intros [] p1 [->%require_command_ok ->]. by eapply status_step; [|exact Hc|intros _ _; apply Hr]. }
  destruct (wr_state p.1) eqn:Hst; try done;
    unfold handle_initial_key_status, handle_rekey_status; try (apply okn_get; rewrite Hst).
  - eapply Hkey; [done|]. by constructor.
  - eapply Hkey; [done|]. by constructor.
  - apply complete_install_follows; [done|]. intros token Hs. by apply rt_message4.
  - unfold handle_authorization_status. eapply okn_bind; [apply okn_lift|].
    intros [] p1 [->%require_command_ok ->]. apply okn_get.
    destruct (station_connected p) eqn:Hcon; cbn; by constructor.
  - eapply Hkey; [done|]. by constructor.
  - apply complete_install_follows; [done|]. intros token Hs. by apply rt_rekey_message2.
Qed.

Lemma refresh_closes op p :
  op = RtRefreshCarrier \/ (exists event, op = RtControl event /\ command_status event = None) ->
  closes_or (follows (station_connected p) (wr_state p.1) op) (handle_non_command_event (E:=E) p).
Proof.
  intros Hop. unfold handle_non_command_event, on_runtime. munfold.
  destruct (station_connected p) eqn:Hc; [by apply rt_connected|apply rt_quiet].
Qed.

Lemma on_control_closes event p :
  closes_or (follows (station_connected p) (wr_state p.1) (RtControl event))
    (on_control_event (E:=E) TX event p).
Proof.
  unfold on_control_event. destruct (command_status event) as [[command status]|] eqn:Hc.
  - destruct (status =? 0) eqn:Hs; cbn [negb].
    + apply Z.eqb_eq in Hs as ->. by apply or_fail_closes, dispatch_status_follows.
    + destruct (wpa2_fail_spec (A:=Wpa2Progress.t) (Wpa2RuntimeError.CommandRejected command status) p)
        as (p' & -> & Hp). done.
  - apply refresh_closes. right. by exists event.
Qed.

Lemma on_transmit_done_closes event p :
  closes_or (follows (station_connected p) (wr_state p.1) (RtTransmitDone event))
    (on_transmit_done (E:=E) event p).
Proof.
  unfold on_transmit_done. eapply call_closes_bind; [by instantiate (1 := fun q p' => q = p /\ p' = p)|].
  intros q p1 [-> ->]. eapply call_closes_bind; [apply or_fail_closes, okn_lift|]. intros purpose p1 [Hp ->].
  destruct purpose as [purpose|]; [|apply rt_quiet].
  apply completed_transmit_ok in Hp as (token & Hst & Hd). rewrite Hst. apply or_fail_closes.
  destruct purpose; cbn [dispatch_transmit_purpose].
  - by apply rt_message2_sent.
  - unfold authorize_after_message4. eapply okn_bind; [apply okn_any|]. intros u p1 _.
    by apply rt_authorize.
  - unfold wpa2_complete_group_rekey. eapply okn_bind; [apply okn_any|]. intros u p1 _. apply okn_get.
    case_bool_decide; [done|]. apply rt_sent; [done|by left].
  - apply rt_sent; [done|by right].
Qed.

Lemma rt_run_closes op p :
  closes_or (follows (station_connected p) (wr_state p.1) op) (rt_run (E:=E) TX op p).
Proof.
  destruct op as [frame|event|event| |elapsed]; cbn [rt_run].
  - apply on_ethernet_frame_closes.
  - apply on_control_closes.
  - apply on_transmit_done_closes.
  - apply refresh_closes. by left.
  - unfold wpa2_advance_time, on_runtime. munfold.
    destruct (wr_remaining_ms p.1) as [remaining|]; [|apply rt_quiet].
    destruct (elapsed <? remaining); [apply rt_quiet|].
    destruct (wpa2_fail_spec (A:=unit) (Wpa2RuntimeError.Timeout (wr_state p.1)) p) as (p' & -> & Hp). done.
Qed.
End outcomes.

(** ** Deadlines *)

(** A deadline in every state that waits. *)
Definition waits (state : Wpa2RuntimeState.t) : bool :=
  match state with Wpa2RuntimeState.Complete | Wpa2RuntimeState.Failed => false | _ => true end.
Definition wr_deadline (r : Wpa2Runtime) : Prop :=
  if waits (wr_state r) then exists remaining, wr_remaining_ms r = Some remaining /\ 0 < remaining
  else wr_remaining_ms r = None.
Definition keeps_wr_deadline {W} (p p' : Wpa2Runtime * NativeDriver W) : Prop :=
  wr_deadline p.1 -> wr_deadline p'.1.
#[export] Instance keeps_wr_deadline_preorder {W} : PreOrder (@keeps_wr_deadline W).
Proof. split; unfold keeps_wr_deadline; [by intros p|]. auto. Qed.

Lemma transition_wr_deadline state r : wr_deadline (wpa2_transition state r).
Proof.
  unfold wr_deadline, wpa2_transition. cbn [wr_state wr_remaining_ms set_remaining_ms set_wr_state].
  destruct state; cbn [waits wpa2_timeout_for]; try done; (eexists; split; [reflexivity|lia]).
Qed.

Section deadlines.
Context {W E : Type} `{BusOps W E} `{DelayOps W} {sha : Sha256} {mac : HmacSha1} {aes : Aes128}.
Variable TX : Z.
Local Abbreviation keeps_dl := (keeps (@keeps_wr_deadline W)).

Lemma dl_runtime {F A} (m : M Wpa2Runtime F A) :
  (forall r, wr_deadline r -> wr_deadline (m r).2) -> keeps_dl (on_runtime m).
Proof. intros Hm. apply keeps_zoom. intros p Hp. cbn. by apply Hm. Qed.

Lemma dl_transition {F} state : keeps_dl (on_runtime (modify (E:=F) (wpa2_transition state))).
Proof. apply dl_runtime. intros r _. apply transition_wr_deadline. Qed.

Lemma dl_supplicant {F A} (m : M Wpa2Supplicant F A) : keeps_dl (on_supplicant m).
Proof.
  apply dl_runtime. intros r Hr. unfold zoom. by destruct (m (wr_supplicant r)).
Qed.

Lemma dl_native {F A} (m : M (NativeDriver W) F A) : keeps_dl (on_native m).
Proof. apply keeps_zoom. by intros p Hp. Qed.

Lemma dl_security m : keeps_dl (on_security (E:=E) m).
Proof. apply keeps_mapM_err, dl_native. Qed.

(** Assignments to the other fields. *)
Lemma dl_assign {F} (f : Wpa2Runtime -> Wpa2Runtime) :
  (forall r, wr_state (f r) = wr_state r /\ wr_remaining_ms (f r) = wr_remaining_ms r) ->
  keeps_dl (on_runtime (modify (E:=F) f)).
Proof.
  intros Hf. apply dl_runtime. intros r Hr. unfold wr_deadline in *. cbn.
  destruct (Hf r) as [-> ->]. done.
Qed.

Ltac dl_go :=
  repeat first
    [ progress cbv zeta
    | lazymatch goal with
      | |- keeps _ (_ ≫= _) => apply keeps_bind; [exact _| |intros ?]
      | |- keeps _ (mret _) => apply keeps_ret; exact _
      | |- keeps _ (throw _) => apply keeps_throw; exact _
      | |- keeps _ (lift _) => apply keeps_lift; exact _
      | |- keeps _ get => apply keeps_get; exact _
      | |- keeps _ (attempt _) => apply keeps_attempt
      | |- keeps _ (mapM_err _ _) => apply keeps_mapM_err
      | |- keeps _ (on_supplicant _) => apply dl_supplicant
      | |- keeps _ (on_native _) => apply dl_native
      | |- keeps _ (on_security _) => apply dl_security
      | |- keeps _ (on_runtime (modify (wpa2_transition _))) => apply dl_transition
      | |- keeps _ (on_runtime (modify _)) => apply dl_assign; by intros
      | |- keeps _ (match ?x with _ => _ end) => destruct x
      end ].

Lemma dl_fail {A} error : keeps_dl (wpa2_fail (A:=A) (E:=E) error).
Proof. unfold wpa2_fail, drop_pairwise_install, drop_group_install. dl_go. Qed.

Lemma dl_or_fail {A} (m : M (Wpa2Runtime * NativeDriver W) (Wpa2RuntimeError.t E) A) :
  keeps_dl m -> keeps_dl (or_fail m).
Proof. intros Hm. unfold or_fail. dl_go; [exact Hm|apply dl_fail]. Qed.

Lemma dl_submit_key submission : keeps_dl (submit_key (E:=E) submission).
Proof. unfold submit_key, submit_firmware_key. dl_go. Qed.

Lemma dl_submit_eapol response purpose : keeps_dl (submit_eapol (E:=E) TX response purpose).
Proof. unfold submit_eapol. dl_go. Qed.

Lemma dl_complete command completion : keeps_dl (wpa2_complete_key_install (E:=E) TX command completion).
Proof. unfold wpa2_complete_key_install, finish_key_install. dl_go; apply dl_submit_eapol. Qed.

Lemma dl_refresh : keeps_dl (handle_non_command_event (W:=W) (E:=E)).
Proof. unfold handle_non_command_event. dl_go. Qed.

Lemma dl_status command : keeps_dl (dispatch_command_status (E:=E) TX command).
Proof.
  unfold dispatch_command_status, handle_initial_key_status, handle_authorization_status,
    handle_rekey_status, advance_initial_key, advance_group_rekey.
  dl_go; first [apply dl_submit_key|apply dl_complete].
Qed.

Lemma dl_run op : keeps_dl (rt_run (E:=E) TX op).
Proof.
  destruct op as [frame|event|event| |elapsed]; cbn [rt_run].
  - unfold on_ethernet_frame. dl_go; apply dl_or_fail; dl_go.
    unfold dispatch_wpa2_action, begin_pairwise_install, begin_group_install.
    dl_go; first [apply dl_submit_key|apply dl_submit_eapol].
  - unfold on_control_event. dl_go; [apply dl_fail|apply dl_or_fail, dl_status|apply dl_refresh].
  - unfold on_transmit_done. dl_go; apply dl_or_fail; dl_go.
    unfold dispatch_transmit_purpose, authorize_after_message4, wpa2_complete_group_rekey. dl_go.
  - apply dl_refresh.
  - intros p Hp. unfold wpa2_advance_time, on_runtime. munfold.
    destruct (wr_remaining_ms p.1) as [remaining|] eqn:Hr; [|done].
    destruct (elapsed <? remaining) eqn:He.
    + cbn. unfold wr_deadline in *. cbn. destruct (waits (wr_state p.1)); [|congruence].
      eexists. split; [reflexivity|lia].
    + pose proof (dl_fail (A:=unit) (Wpa2RuntimeError.Timeout (wr_state p.1)) p Hp) as Hf.
      by destruct (wpa2_fail _ p) as [[]].
Qed.
End deadlines.

(** ** Runs

    A coordinator from its creation, through calls, new deadlines and restarts;
    the driver changes freely between the calls. *)
Inductive rt_reach {W E} `{BusOps W E} `{DelayOps W} `{Sha256} `{HmacSha1} `{Aes128} (TX : Z)
    : Wpa2Runtime -> Prop :=
  | reach_new supplicant wdev_id : rt_reach TX (Wpa2Runtime_new supplicant wdev_id)
  | reach_call r n op :
      rt_reach TX r -> rt_reach TX (rt_run (E:=E) TX op (r, n)).2.1
  | reach_timeouts r timeouts : rt_reach TX r -> rt_reach TX (wpa2_set_timeouts timeouts r)
  | reach_restart r nonce : rt_reach TX r -> rt_reach TX (wpa2_restart_pairwise nonce r).2.

(** The progress reported since the last start, and the state. *)
Inductive rt_trace {W E} `{BusOps W E} `{DelayOps W} `{Sha256} `{HmacSha1} `{Aes128} (TX : Z)
    : list Wpa2Progress.t -> Wpa2RuntimeState.t -> Prop :=
  | trace_start : rt_trace TX [] Wpa2RuntimeState.AwaitingAuthenticator
  | trace_call h st op p progress p' :
      rt_trace TX h st -> wr_state p.1 = st -> rt_run (E:=E) TX op p = (Ok progress, p') ->
      rt_trace TX (h ++ [progress]) (wr_state p'.1).

Section runs.
Context {W E : Type} `{BusOps W E} `{DelayOps W} {sha : Sha256} {mac : HmacSha1} {aes : Aes128}.
Variable TX : Z.

Lemma reach_deadline r : rt_reach (W:=W) (E:=E) TX r -> wr_deadline r.
Proof.
  induction 1 as [supplicant wdev_id|r n op _ IH|r timeouts _ IH|r nonce _ IH].
  - apply transition_wr_deadline.
  - by apply (dl_run TX op (r, n)).
  - unfold wr_deadline in *. unfold wpa2_set_timeouts. cbn [wr_state wr_remaining_ms set_remaining_ms set_wr_timeouts].
    destruct (wr_state r); cbn [waits wpa2_timeout_for] in *; try done; (eexists; split; [reflexivity|lia]).
  - unfold wpa2_restart_pairwise, zoom. munfold.
    destruct (restart_pairwise nonce (wr_supplicant r)) as [[u|e|] s]; [apply transition_wr_deadline|done..].
Qed.

(** What a trace contains when the state is reached. *)
Definition order (token : Z) : list Wpa2Progress.t :=
  [Wpa2Progress.PairwiseKeySubmitted; Wpa2Progress.GroupKeySubmitted;
   Wpa2Progress.DefaultGroupKeySubmitted; Wpa2Progress.EapolSubmitted token EapolTransmitPurpose.Message4;
   Wpa2Progress.AuthorizationSubmitted].
Definition order_at (h : list Wpa2Progress.t) (st : Wpa2RuntimeState.t) : Prop :=
  match st with
  | Wpa2RuntimeState.AwaitingPairwiseKeyStatus => forall token, sublist (take 1 (order token)) h
  | Wpa2RuntimeState.AwaitingGroupKeyStatus => forall token, sublist (take 2 (order token)) h
  | Wpa2RuntimeState.AwaitingDefaultGroupKeyStatus => forall token, sublist (take 3 (order token)) h
  | Wpa2RuntimeState.AwaitingEapolTransmit token EapolTransmitPurpose.Message4 =>
      sublist (take 4 (order token)) h
  | _ => True
  end.

Lemma sublist_snoc {A} (l h : list A) x : sublist l h -> sublist (l ++ [x]) (h ++ [x]).
Proof. intros Hl. by apply sublist_app. Qed.

Lemma sublist_more {A} (l h : list A) x : sublist l h -> sublist l (h ++ [x]).
Proof. intros Hl. by apply sublist_inserts_r. Qed.

Lemma order_more h st x : order_at h st -> order_at (h ++ [x]) st.
Proof.
  destruct st as [|token []| | | | | | | | |]; cbn; try done; intros Hh; try intros t;
    apply sublist_more; first [exact Hh|exact (Hh 0)].
Qed.

Lemma rule_order connected st op progress st' h :
  rt_rule connected st op progress st' -> order_at h st ->
  order_at (h ++ [progress]) st'
  /\ (progress = Wpa2Progress.AuthorizationSubmitted -> exists token, sublist (order token) (h ++ [progress])).
Proof.
  intros Hr Hh. destruct Hr; split; try done; try (by intros ?; discriminate).
  - by apply order_more.
  - by destruct was_complete.
  - intros token. cbn. apply (sublist_snoc []). apply sublist_nil_l.
  - intros token. apply (sublist_snoc (take 1 (order token))), Hh.
  - intros token. apply (sublist_snoc (take 2 (order token))), Hh.
  - apply (sublist_snoc (take 3 (order token))), Hh.
  - intros _. exists token. apply (sublist_snoc (take 4 (order token))), Hh.
Qed.

Lemma trace_order h st :
  rt_trace (W:=W) (E:=E) TX h st ->
  order_at h st /\ (Wpa2Progress.AuthorizationSubmitted ∈ h -> exists token, sublist (order token) h).
Proof.
  induction 1 as [|h st op p progress p' _ [IH1 IH2] Hst Hrun].
  - split; [done|]. by intros ?%elem_of_nil.
  - pose proof (rt_run_closes (E:=E) TX op p) as Hc. unfold closes_or in Hc. rewrite Hrun in Hc.
    unfold follows in Hc. rewrite Hst in Hc. destruct (rule_order _ _ _ _ _ h Hc IH1) as [Ho Ha].
    split; [done|]. intros [Hin|Hin]%elem_of_app.
    + destruct (IH2 Hin) as [token Ht]. exists token. by apply sublist_more.
    + apply list_elem_of_singleton in Hin. by apply Ha.
Qed.
End runs.

(** * Properties *)

(** C5: every call of the coordinator takes a step of its state machine or closes everything.  A call
    that succeeds follows one of the rules: each key is submitted only after the firmware reported
    success of the one before, message 4 only after the default key, the authorization only after
    message 4 was delivered, completion only when the station is connected or a response was
    delivered.  A call that fails, for whatever reason, leaves the coordinator Failed with no
    installation pending and no deadline, and the driver in recovery with the connection and the
    configuration gone. *)
Theorem coordinator_outcome {W E} `{BusOps W E} `{DelayOps W} `{Sha256} `{HmacSha1} `{Aes128} TX op
    (p : Wpa2Runtime * NativeDriver W) :
  match rt_run (E:=E) TX op p with
  | (Ok progress, p') => rt_rule (station_connected p) (wr_state p.1) op progress (wr_state p'.1)
  | (Err _, p') => wpa2_closed p'
  | (Panic, _) => True
  end.
Proof. apply rt_run_closes. Qed.

(** C4: the controlled port is authorized last.  Whenever the coordinator has submitted the
    authorization, it had reported before, in this order, the pairwise key, the group key, the
    default group key and the transmission of message 4, whatever else happened in between and
    however the driver changed between the calls. *)
Theorem authorization_in_order {W E} `{BusOps W E} `{DelayOps W} `{Sha256} `{HmacSha1} `{Aes128} TX h st :
  rt_trace (W:=W) (E:=E) TX h st -> Wpa2Progress.AuthorizationSubmitted ∈ h ->
  exists token, sublist (order token) h.
Proof. intros Ht. apply (trace_order TX h st Ht). Qed.

(** C16: the handshake cannot hang.  In every coordinator that was created, called, restarted or given
    new deadlines, a waiting state has a positive deadline; advancing the time by less only shortens
    it, and advancing by at least that much reports a timeout of that state and closes the
    coordinator and the driver. *)
Theorem coordinator_deadline_fires {W E} `{BusOps W E} `{DelayOps W} `{Sha256} `{HmacSha1} `{Aes128} TX r
    (n : NativeDriver W) :
  rt_reach (W:=W) (E:=E) TX r -> waits (wr_state r) = true ->
  exists remaining, wr_remaining_ms r = Some remaining /\ 0 < remaining
    /\ (forall elapsed, elapsed < remaining ->
          wpa2_advance_time (E:=E) elapsed (r, n)
          = (Ok tt, (set_remaining_ms (Some (remaining - elapsed)) r, n)))
    /\ (forall elapsed, remaining <= elapsed -> exists p',
          wpa2_advance_time (E:=E) elapsed (r, n) = (Err (Wpa2RuntimeError.Timeout (wr_state r)), p')
          /\ wpa2_closed p').
Proof.
  intros Hr Hw. pose proof (reach_deadline TX r Hr) as Hd. unfold wr_deadline in Hd. rewrite Hw in Hd.
  destruct Hd as (remaining & Hrem & Hpos). exists remaining. split; [done|]. split; [done|].
  unfold wpa2_advance_time, on_runtime. munfold. cbn [fst snd]. rewrite Hrem. split; intros elapsed He.
  - by rewrite (proj2 (Z.ltb_lt _ _)) by done.
  - rewrite (proj2 (Z.ltb_ge _ _)) by done.
    destruct (wpa2_fail_spec (E:=E) (A:=unit) (Wpa2RuntimeError.Timeout (wr_state r)) (r, n)) as (p' & -> & Hc).
    by exists p'.
Qed.

(** ** A concrete connection

    The messages of [Handshake] as Ethernet frames, on a driver whose station
    has associated; before a call the firmware may report a command. *)

#[local] Existing Instances sum_sha256 sum_hmac null_cipher.

Definition securing_driver : NativeDriver script :=
  set_station
    (set_carrier_on true (set_secure_connection true
       (set_peer (Some witness_ap) (set_state StationState.Securing (StationController_new 0 0 0)))))
    (set_device (ready_device (repeat (Some (to_le 4 0xb0001000)) 20))
       (set_driver_state DriverState.Ready (cold_driver []))).
Definition witness_ethernet (payload : list Z) : list Z :=
  witness_station ++ witness_ap ++ [0x88; 0x8e] ++ payload.
Definition reported (command : UmacCommand.t) : ControlEvent.t :=
  ControlEvent.CommandStatus (sample_header 0) (UmacCommand.to_u32 command) 0.
Definition connection_steps : list (option ControlEvent.t * rt_op) :=
  [(None, RtFrame (witness_ethernet witness_m1));
   (None, RtTransmitDone (mkTxDoneEventRef 0 [0]));
   (None, RtFrame (witness_ethernet witness_m3));
   (Some (reported UmacCommand.NewKey), RtControl (reported UmacCommand.NewKey));
   (Some (reported UmacCommand.NewKey), RtControl (reported UmacCommand.NewKey));
   (Some (reported UmacCommand.SetKey), RtControl (reported UmacCommand.SetKey));
   (None, RtTransmitDone (mkTxDoneEventRef 1 [0]));
   (Some (reported UmacCommand.SetStation), RtControl (reported UmacCommand.SetStation))].

(** The station handles the event first. *)
Definition station_sees (event : option ControlEvent.t) (n : NativeDriver script) : NativeDriver script :=
  match event with
  | Some event => set_station (handle_control_event (E:=unit) event (nd_station n)).2 n
  | None => n
  end.

Fixpoint connection_run (steps : list (option ControlEvent.t * rt_op)) (h : list Wpa2Progress.t)
    (p : Wpa2Runtime * NativeDriver script) : list Wpa2Progress.t * (Wpa2Runtime * NativeDriver script) :=
  match steps with
  | [] => (h, p)
  | (event, op) :: steps =>
      match rt_run (E:=unit) 2 op (p.1, station_sees event p.2) with
      | (Ok progress, p') => connection_run steps (h ++ [progress]) p'
      | _ => (h, p)
      end
  end.

Lemma connection_run_trace steps h p :
  rt_trace (W:=script) (E:=unit) 2 h (wr_state p.1) ->
  rt_trace (W:=script) (E:=unit) 2 (connection_run steps h p).1 (wr_state (connection_run steps h p).2.1).
Proof.
  revert h p. induction steps as [|[event op] steps IH]; intros h p Ht; [exact Ht|].
  cbn [connection_run]. destruct (rt_run 2 op _) as [[progress|e|] p'] eqn:Hrun; [|exact Ht..].
  apply IH. exact (trace_call 2 h _ op (p.1, station_sees event p.2) progress p' Ht eq_refl Hrun).
Qed.

Definition witness_connection : list Wpa2Progress.t * (Wpa2Runtime * NativeDriver script) :=
  connection_run connection_steps [] (Wpa2Runtime_new witness_supplicant 0, securing_driver).

Example witness_connection_ok :
  witness_connection.1
  = [Wpa2Progress.EapolSubmitted 0 EapolTransmitPurpose.Message2; Wpa2Progress.NoChange;
     Wpa2Progress.PairwiseKeySubmitted; Wpa2Progress.GroupKeySubmitted;
     Wpa2Progress.DefaultGroupKeySubmitted; Wpa2Progress.EapolSubmitted 1 EapolTransmitPurpose.Message4;
     Wpa2Progress.AuthorizationSubmitted; Wpa2Progress.Complete]
  /\ wr_state witness_connection.2.1 = Wpa2RuntimeState.Complete
  /\ controlled_port_open (nd_station witness_connection.2.2) = true.
Proof. by vm_compute. Qed.

Lemma authorization_in_order_witness :
  wr_state witness_connection.2.1 = Wpa2RuntimeState.Complete
  /\ exists token, sublist (order token) witness_connection.1.
Proof.
  split; [by vm_compute|].
  apply (authorization_in_order (W:=script) (E:=unit) 2 witness_connection.1 (wr_state witness_connection.2.1)).
  - apply connection_run_trace. apply trace_start.
  - destruct witness_connection_ok as [-> _]. do 6 right. left.
Defined.

Lemma coordinator_deadline_fires_witness : exists remaining,
  wr_remaining_ms (Wpa2Runtime_new witness_supplicant 0) = Some remaining /\ 0 < remaining
  /\ forall elapsed, remaining <= elapsed -> exists p',
       wpa2_advance_time (E:=unit) elapsed (Wpa2Runtime_new witness_supplicant 0, securing_driver)
       = (Err (Wpa2RuntimeError.Timeout Wpa2RuntimeState.AwaitingAuthenticator), p') /\ wpa2_closed p'.
Proof.
  destruct (coordinator_deadline_fires (W:=script) (E:=unit) 2 (Wpa2Runtime_new witness_supplicant 0)
    securing_driver) as (remaining & Hr & Hp & _ & Hf); [apply reach_new|reflexivity|].
  exists remaining. split; [exact Hr|]. split; [exact Hp|exact Hf].
Defined.
