(* ===== verification/Production.v ===== *)
(** * Production: the fail-closed station API (src/src/production.rs)

    [MissionCriticalDriver] wraps the native driver: it refuses commands outside
    [Ready] and starts over whenever an error leaves the ownership of a firmware
    resource uncertain.  [Wpa2StationDriver] joins it with the WPA2 coordinator
    and lets only the events reach the coordinator that it waits for. *)

From S2P Require Import Prelude Crypto Codec Protocol Control System Bus Memory Device Data Firmware Station Runtime Wpa2 Handshake Wpa2Runtime.

Module ProductionError.
Inductive t (E : Type) : Type :=
  | Driver (e : DriverError.t E)
  | Station (e : StationError.t E)
  | InvalidEthernetFrame
  | ControlledPortClosed (ether_type : Z).
Arguments Driver {E} e.
Arguments Station {E} e.
Arguments InvalidEthernetFrame {E}.
Arguments ControlledPortClosed {E} ether_type.
End ProductionError.

Module DriverOperation.
Inductive t : Type := Control | Event | Receive | Transmit | Watchdog.
End DriverOperation.

Module SecureReceive.
Inductive t : Type :=
  | Data (frame : ReceivedFrame)
  | Eapol (progress : Wpa2Progress.t).
End SecureReceive.

Module SecureProductionError.
Inductive t (E : Type) : Type :=
  | Production (e : ProductionError.t E)
  | Wpa2 (e : Wpa2RuntimeError.t E)
  | Supplicant (e : Wpa2Error.t).
Arguments Production {E} e.
Arguments Wpa2 {E} e.
Arguments Supplicant {E} e.
End SecureProductionError.

Record SecureDriverEvent : Type := mkSecureDriverEvent {
  sde_event : DriverEvent.t;
  sde_security : Wpa2Progress.t }.

Record MissionCriticalDriver (W : Type) : Type := mkMissionCriticalDriver {
  mcd_inner : NativeDriver W }.
Arguments mkMissionCriticalDriver {W}.
Arguments mcd_inner {W} m : rename.

(** The driver is borrowed mutably for as long as the coordinator lives, so it
    is a component of the state. *)
Record Wpa2StationDriver (W : Type) : Type := mkWpa2StationDriver {
  wsd_driver : MissionCriticalDriver W;
  wsd_security : Wpa2Runtime }.
Arguments mkWpa2StationDriver {W}.
Arguments wsd_driver {W} w : rename.
Arguments wsd_security {W} w : rename.

(** ** Which errors need recovery *)

Section classification.
Context {E F : Type}.

Definition device_error_requires_recovery (error : DeviceError.t E) : bool :=
  match error with
  | DeviceError.Rpu _ | DeviceError.NotInitialized | DeviceError.InvalidQueueMap
  | DeviceError.CommandDeliveryUncertain | DeviceError.RecoveryRequired
  | DeviceError.EventTooLarge _ _ => true
  | _ => false
  end.

Definition station_error_requires_recovery (error : StationError.t E) : bool :=
  match error with
  | StationError.Device error => device_error_requires_recovery error
  | StationError.Fault _ => true
  | StationError.Protocol _ | StationError.InvalidState _ _
  | StationError.InterfaceAlreadyCreated | StationError.InterfaceNotCreated => false
  end.

Definition input_protocol_error_requires_recovery (operation : DriverOperation.t) : bool :=
  match operation with
  | DriverOperation.Receive | DriverOperation.Event => true
  | _ => false
  end.

Definition data_error_requires_recovery (error : DataError.t E) (operation : DriverOperation.t)
    : bool :=
  match error with
  | DataError.Device error => device_error_requires_recovery error
  | DataError.Rpu _ | DataError.QueueOwnershipUncertain _ => true
  | DataError.ReceiveDescriptorBusy _ => true
  | DataError.Protocol _ => input_protocol_error_requires_recovery operation
  | DataError.NoTransmitToken | DataError.OutputTooSmall _ _ => false
  end.

(** [unreachable!] panics. *)
Definition simple_driver_error_requires_recovery (error : DriverError.t E)
    (operation : DriverOperation.t) : res F bool :=
  match error with
  | DriverError.DataProtocol _ | DriverError.Firmware _ | DriverError.Protocol _
  | DriverError.UnexpectedEventForState _ | DriverError.InvalidWatchdogStatus => Ok true
  | DriverError.WrongInterface _ _ => Ok (input_protocol_error_requires_recovery operation)
  | DriverError.InvalidState _ _ | DriverError.InvalidStationState _ _
  | DriverError.ConfigurationMismatch | DriverError.FrameTooShort
  | DriverError.ControlledPortClosed _ _ => Ok false
  | DriverError.Device _ | DriverError.Data _ | DriverError.Station _ => Panic
  end.

Definition driver_error_requires_recovery (error : DriverError.t E) (operation : DriverOperation.t)
    : res F bool :=
  match error with
  | DriverError.Device error => Ok (device_error_requires_recovery error)
  | DriverError.Data error => Ok (data_error_requires_recovery error operation)
  | DriverError.Station error => Ok (station_error_requires_recovery error)
  | other => simple_driver_error_requires_recovery other operation
  end.

Definition receive_error_requires_recovery (error : DriverError.t E) : res F bool :=
  driver_error_requires_recovery error DriverOperation.Receive.
End classification.

Definition production_ethernet_type {E} (frame : list Z) : res (ProductionError.t E) Z :=
  if len frame <? 14 then Err ProductionError.InvalidEthernetFrame
  else b12 ← index frame 12; b13 ← index frame 13; Ok (from_be [b12; b13]).

(** ** MissionCriticalDriver *)

Section accessors.
Context {W : Type}.
Implicit Types d : MissionCriticalDriver W.

Definition MissionCriticalDriver_new (RX TX : Z) (bus : W) (rx_buffer_size tx_buffer_size ifaceindex
    firmware_index wdev_id : Z) : res DataLayoutError.t (MissionCriticalDriver W) :=
  inner ← NativeDriver_new RX TX bus rx_buffer_size tx_buffer_size ifaceindex firmware_index wdev_id;
  Ok (mkMissionCriticalDriver inner).
Definition from_native (inner : NativeDriver W) : MissionCriticalDriver W :=
  mkMissionCriticalDriver inner.

Definition MissionCriticalDriver_state d : DriverState.t := nd_state (mcd_inner d).
Definition station_state d : StationState.t := sc_state (nd_station (mcd_inner d)).
Definition MissionCriticalDriver_controlled_port_open d : bool :=
  controlled_port_open (nd_station (mcd_inner d)).
Definition MissionCriticalDriver_into_inner d : W := dev_rpu (nd_device (mcd_inner d)).
Definition set_station_timeouts (timeouts : StationTimeouts) d : MissionCriticalDriver W :=
  mkMissionCriticalDriver
    (set_station (controller_set_timeouts timeouts (nd_station (mcd_inner d))) (mcd_inner d)).

Definition frame_allowed (ether_type : Z) d : bool :=
  let station := nd_station (mcd_inner d) in
  if controlled_port_open station then true
  else (ether_type =? EAPOL_ETHERTYPE) && eapol_required station.
End accessors.

Section production.
Context {W E P : Type} `{BusOps W E} `{DelayOps W} `{PlatformOps W P} {sha : Sha256}.
Variables RX TX : Z.
Local Notation "'MP' A" := (M (MissionCriticalDriver W) (ProductionError.t E) A)
  (at level 10, A at next level).
Local Notation "'MPB' A" := (M (MissionCriticalDriver W * list Z) (ProductionError.t E) A)
  (at level 10, A at next level).

(** [self.inner.m(..)], also with a buffer of the caller's. *)
Definition on_inner {F A} (m : M (NativeDriver W) F A) : M (MissionCriticalDriver W) F A :=
  zoom mcd_inner (fun n _ => mkMissionCriticalDriver n) m.
Definition on_inner_buffer {F A} (m : M (NativeDriver W * list Z) F A)
    : M (MissionCriticalDriver W * list Z) F A :=
  zoom (fun s => (mcd_inner s.1, s.2)) (fun nl _ => (mkMissionCriticalDriver nl.1, nl.2)) m.
(** [output[..n].fill(0)] and [output.fill(0)] *)
Definition wipe {S F} (n : Z) : M (S * list Z) F unit :=
  on_slice 0 n (modify (fun sl => (sl.1, zeros (len sl.2)))).
Definition wipe_all {S F} : M (S * list Z) F unit := modify (fun sl => (sl.1, zeros (len sl.2))).

Definition MissionCriticalDriver_set_fragment_limits (command_len event_len : Z)
    : M (MissionCriticalDriver W) FragmentLimitError unit :=
  on_inner (on_nd_device (set_fragment_limits command_len event_len)).

Definition MissionCriticalDriver_recover (trust : FirmwareBundle -> res FirmwareError.t unit)
    (bundle : FirmwareBundle) (config : SystemInitConfig)
    : M (MissionCriticalDriver W) (RecoveryError.t E P) FirmwareReport :=
  on_inner (recover RX TX trust bundle config).
Definition MissionCriticalDriver_wait_for_interrupt
    : M (MissionCriticalDriver W) (RecoveryError.t E P) unit := on_inner wait_for_interrupt.

Definition ensure_ready : MP unit :=
  d ← get;
  if bool_decide (MissionCriticalDriver_state d = DriverState.Ready) then mret tt
  else throw (ProductionError.Driver
                (DriverError.InvalidState (MissionCriticalDriver_state d) DriverState.Ready)).

Definition finish_station {A} (result : A + StationError.t E) : MP A :=
  match result with
  | inl value => mret value
  | inr error =>
      (if station_error_requires_recovery error then on_inner (modify enter_recovery) else mret tt);;
      throw (ProductionError.Station error)
  end.

Definition finish_driver {A} (result : A + DriverError.t E) (operation : DriverOperation.t) : MP A :=
  match result with
  | inl value => mret value
  | inr error =>
      recovery ← lift (driver_error_requires_recovery error operation);
      (if recovery : bool then on_inner (modify enter_recovery) else mret tt);;
      throw (ProductionError.Driver error)
  end.

(** The macro [run_station_command!]. *)
Definition run_station_command (m : M (StationController * Device W) (StationError.t E) unit)
    : MP unit :=
  ensure_ready;;
  result ← attempt (on_inner (on_nd_station m));
  finish_station result.

Definition MissionCriticalDriver_create_station_interface (mac_address interface_name : list Z)
    : MP unit := run_station_command (create_interface mac_address interface_name).
Definition MissionCriticalDriver_set_regulatory (country : list Z) (user_hint_type : Z) (force : bool)
    : MP unit := run_station_command (set_regulatory country user_hint_type force).
Definition MissionCriticalDriver_bring_up : MP unit := run_station_command bring_up.
Definition MissionCriticalDriver_bring_down : MP unit := run_station_command bring_down.
Definition MissionCriticalDriver_start_scan (request : ScanRequest) : MP unit :=
  run_station_command (station_start_scan request).
Definition MissionCriticalDriver_request_scan_results (reason : ScanReason.t) : MP unit :=
  run_station_command (request_scan_results reason).
Definition MissionCriticalDriver_authenticate (request : AuthenticationRequest) : MP unit :=
  run_station_command (authenticate request).
Definition MissionCriticalDriver_associate (request : AssociationRequest) : MP unit :=
  run_station_command (associate request).
Definition MissionCriticalDriver_set_power_save (state : PowerSaveState.t) : MP unit :=
  run_station_command (set_power_save state).
Definition MissionCriticalDriver_set_power_save_timeout (timeout_ms : Z) : MP unit :=
  run_station_command (set_power_save_timeout timeout_ms).
Definition MissionCriticalDriver_disconnect (reason_code : Z) : MP unit :=
  run_station_command (disconnect reason_code).

Definition MissionCriticalDriver_advance_time (elapsed_ms : Z) : MP unit :=
  result ← attempt (on_inner (driver_advance_time elapsed_ms));
  finish_driver result DriverOperation.Control.

Definition MissionCriticalDriver_poll_event (scratch_ptr : Z) : MPB (option DriverEvent.t) :=
  result ← attempt (on_inner_buffer (poll_event TX scratch_ptr));
  on_fst (finish_driver result DriverOperation.Event).

Definition finish_receive (result : ReceivedFrame + DriverError.t E) : MPB ReceivedFrame :=
  match result with
  | inl frame => mret frame
  | inr (DriverError.ControlledPortClosed _ ether_type) =>
      wipe_all;; throw (ProductionError.ControlledPortClosed ether_type)
  | inr error =>
      recovery ← lift (receive_error_requires_recovery error);
      (if recovery : bool then on_fst (on_inner (modify enter_recovery)) else mret tt);;
      throw (ProductionError.Driver error)
  end.

Definition enforce_received_frame (frame : ReceivedFrame) : MPB ReceivedFrame :=
  d ← gets fst;
  if frame_allowed (rf_ether_type frame) d then mret frame
  else
    wipe (rf_len frame);;
    throw (ProductionError.ControlledPortClosed (rf_ether_type frame)).

Definition MissionCriticalDriver_receive_packet (event : RxEventRef) (packet_index : Z)
    : MPB ReceivedFrame :=
  on_fst ensure_ready;;
  result ← attempt (on_inner_buffer (driver_receive_packet RX event packet_index));
  frame ← finish_receive result;
  enforce_received_frame frame.

Definition MissionCriticalDriver_transmit (wdev_id : Z) (frame : list Z) (dscp_tos : Z) : MP Z :=
  ensure_ready;;
  ether_type ← lift (production_ethernet_type frame);
  d ← get;
  if negb (frame_allowed ether_type d) then throw (ProductionError.ControlledPortClosed ether_type)
  else
    result ← attempt (on_inner (driver_transmit TX wdev_id frame dscp_tos));
    finish_driver result DriverOperation.Transmit.

Definition MissionCriticalDriver_watchdog_pending : MP bool :=
  result ← attempt (on_inner watchdog_pending);
  finish_driver result DriverOperation.Watchdog.

Definition MissionCriticalDriver_acknowledge_watchdog : MP unit :=
  result ← attempt (on_inner acknowledge_watchdog);
  finish_driver result DriverOperation.Watchdog.
End production.

(** ** Wpa2StationDriver *)

Definition expected_security_command (state : Wpa2RuntimeState.t) : option Z :=
  match state with
  | Wpa2RuntimeState.AwaitingPairwiseKeyStatus
  | Wpa2RuntimeState.AwaitingGroupKeyStatus
  | Wpa2RuntimeState.AwaitingGroupRekeyStatus => Some (UmacCommand.to_u32 UmacCommand.NewKey)
  | Wpa2RuntimeState.AwaitingDefaultGroupKeyStatus
  | Wpa2RuntimeState.AwaitingDefaultGroupRekeyStatus =>
      Some (UmacCommand.to_u32 UmacCommand.SetKey)
  | Wpa2RuntimeState.AwaitingAuthorizationStatus =>
      Some (UmacCommand.to_u32 UmacCommand.SetStation)
  | _ => None
  end.

Definition control_event_is_expected (state : Wpa2RuntimeState.t) (event : ControlEvent.t) : bool :=
  match event with
  | ControlEvent.CommandStatus _ command _ =>
      bool_decide (expected_security_command state = Some command)
  | _ => false
  end.

Definition transmit_done_is_expected (state : Wpa2RuntimeState.t) (event : TxDoneEventRef) : bool :=
  match state with
  | Wpa2RuntimeState.AwaitingEapolTransmit token _ => token =? td_token event
  | _ => false
  end.

Section secure.
Context {W E : Type} `{BusOps W E} `{DelayOps W} {sha : Sha256} {mac : HmacSha1} {aes : Aes128}.
Variables RX TX : Z.
Local Notation "'MW' A" := (M (Wpa2StationDriver W) (SecureProductionError.t E) A)
  (at level 10, A at next level).
Local Notation "'MWB' A" := (M (Wpa2StationDriver W * list Z) (SecureProductionError.t E) A)
  (at level 10, A at next level).

Definition Wpa2StationDriver_new (driver : MissionCriticalDriver W) (supplicant : Wpa2Supplicant)
    (wdev_id : Z) : Wpa2StationDriver W :=
  mkWpa2StationDriver driver (Wpa2Runtime_new supplicant wdev_id).
Definition Wpa2StationDriver_state (s : Wpa2StationDriver W) : DriverState.t :=
  MissionCriticalDriver_state (wsd_driver s).
Definition security_state (s : Wpa2StationDriver W) : Wpa2RuntimeState.t :=
  wr_state (wsd_security s).
Definition set_wpa2_timeouts (timeouts : Wpa2Timeouts) (s : Wpa2StationDriver W)
    : Wpa2StationDriver W :=
  mkWpa2StationDriver (wsd_driver s) (wpa2_set_timeouts timeouts (wsd_security s)).
(** [driver], [driver_mut] and [into_driver] *)
Definition into_driver (s : Wpa2StationDriver W) : MissionCriticalDriver W := wsd_driver s.

(** Calls on the fields: the driver, also with a buffer, and the coordinator,
    which borrows the inner driver. *)
Definition on_driver {F A} (m : M (MissionCriticalDriver W) F A) : M (Wpa2StationDriver W) F A :=
  zoom wsd_driver (fun d s => mkWpa2StationDriver d (wsd_security s)) m.
Definition on_driver_buffer {F A} (m : M (MissionCriticalDriver W * list Z) F A)
    : M (Wpa2StationDriver W * list Z) F A :=
  zoom (fun s => (wsd_driver s.1, s.2))
    (fun dl s => (mkWpa2StationDriver dl.1 (wsd_security s.1), dl.2)) m.
Definition security_view (s : Wpa2StationDriver W) : Wpa2Runtime * NativeDriver W :=
  (wsd_security s, mcd_inner (wsd_driver s)).
Definition on_coordinator {A} (m : M (Wpa2Runtime * NativeDriver W) (Wpa2RuntimeError.t E) A) : MW A :=
  mapM_err SecureProductionError.Wpa2
    (zoom security_view (fun p _ => mkWpa2StationDriver (mkMissionCriticalDriver p.2) p.1) m).

(** [Wpa2StationDriver::restart_pairwise] *)
Definition Wpa2StationDriver_restart_pairwise (supplicant_nonce : list Z) : MW unit :=
  mapM_err SecureProductionError.Supplicant
    (zoom wsd_security (fun r s => mkWpa2StationDriver (wsd_driver s) r)
       (wpa2_restart_pairwise supplicant_nonce)).

Definition Wpa2StationDriver_advance_time (elapsed_ms : Z) : MW unit :=
  mapM_err SecureProductionError.Production
    (on_driver (MissionCriticalDriver_advance_time elapsed_ms));;
  on_coordinator (wpa2_advance_time elapsed_ms).

Definition apply_control_event (control : ControlEvent.t) : MW Wpa2Progress.t :=
  s ← get;
  if negb (control_event_is_expected (wr_state (wsd_security s)) control)
  then mret Wpa2Progress.NoChange
  else on_coordinator (on_control_event TX control).

Definition apply_transmit_done (done : TxDoneEventRef) : MW Wpa2Progress.t :=
  s ← get;
  if negb (transmit_done_is_expected (wr_state (wsd_security s)) done)
  then mret Wpa2Progress.NoChange
  else on_coordinator (on_transmit_done done).

Definition apply_security_event (event : DriverEvent.t) : MW Wpa2Progress.t :=
  match event with
  | DriverEvent.Control control => apply_control_event control
  | DriverEvent.TransmitDone done => apply_transmit_done done
  | DriverEvent.Data _ => on_coordinator refresh_carrier
  | _ => mret Wpa2Progress.NoChange
  end.

Definition Wpa2StationDriver_poll_event (scratch_ptr : Z) : MWB (option SecureDriverEvent) :=
  o ← mapM_err SecureProductionError.Production
        (on_driver_buffer (MissionCriticalDriver_poll_event TX scratch_ptr));
  match o with
  | None => mret None
  | Some event =>
      security ← on_fst (apply_security_event event);
      mret (Some (mkSecureDriverEvent event security))
  end.

(** The coordinator reads [output[..frame.len]]; its result is returned after
    the frame is wiped. *)
Definition finish_received_packet (frame : ReceivedFrame) : MWB SecureReceive.t :=
  if negb (rf_ether_type frame =? EAPOL_ETHERTYPE) then mret (SecureReceive.Data frame)
  else
    output ← gets snd;
    payload ← lift (expect (slice output 0 (rf_len frame)));
    result ← attempt (on_fst (on_coordinator (on_ethernet_frame TX payload)));
    wipe (rf_len frame);;
    match result with
    | inl progress => mret (SecureReceive.Eapol progress)
    | inr error => throw error
    end.

Definition Wpa2StationDriver_receive_packet (event : RxEventRef) (packet_index : Z)
    : MWB SecureReceive.t :=
  frame ← mapM_err SecureProductionError.Production
            (on_driver_buffer (MissionCriticalDriver_receive_packet RX event packet_index));
  finish_received_packet frame.

Definition Wpa2StationDriver_transmit (wdev_id : Z) (frame : list Z) (dscp_tos : Z) : MW Z :=
  mapM_err SecureProductionError.Production
    (on_driver (MissionCriticalDriver_transmit TX wdev_id frame dscp_tos)).
End secure.

(** * Lemmas *)

(** ** Computations that keep a relation unless they ask for recovery

    [routed R R' ask m]: a value is returned in [R'], an error that does not
    [ask] for recovery in [R]. *)

Section routed.
Context {S E : Type} (R R' : S -> S -> Prop) `{!PreOrder R} `{!PreOrder R'} (ask : E -> bool).

Definition routed {A} (m : M S E A) : Prop := forall s,
  match m s with
  | (Ok _, s') => R' s s'
  | (Err e, s') => ask e = false -> R s s'
  | (Panic, _) => True
  end.

Hypothesis sub : forall s s', R s s' -> R' s s'.

Lemma routed_keeps {A} (m : M S E A) : keeps R m -> routed m.
Proof using sub. intros Hm s. specialize (Hm s). destruct (m s) as [[a|e|] s']; cbn in *; auto. Qed.

Lemma routed_throw {A} e : routed (throw (A:=A) e).
Proof using PreOrder0. intros s _. cbn. reflexivity. Qed.

Lemma routed_if {A} (c : bool) (m1 m2 : M S E A) :
  routed m1 -> routed m2 -> routed (if c then m1 else m2).
Proof. by destruct c. Qed.
End routed.
Arguments routed {S E} R R' ask {A} m.

Lemma routed_bind {S E} (R R' : S -> S -> Prop) `{!PreOrder R} `{!PreOrder R'} (ask : E -> bool) {A B}
    (m : M S E A) (f : A -> M S E B) :
  (forall s s', R s s' -> R' s s') ->
  routed R R ask m -> (forall a, routed R R' ask (f a)) -> routed R R' ask (m ≫= f).
Proof.
  intros Hsub Hm Hf s. specialize (Hm s). unfold mbind, M_bind.
  destruct (m s) as [[a|e|] s']; [|done..]. specialize (Hf a s').
  destruct (f a s') as [[b|e|] s'']; [|intros He|done].
  - transitivity s'; auto.
  - transitivity s'; auto.
Qed.

Lemma routed_bind_same {S E} (R : S -> S -> Prop) `{!PreOrder R} (ask : E -> bool) {A B}
    (m : M S E A) (f : A -> M S E B) :
  routed R R ask m -> (forall a, routed R R ask (f a)) -> routed R R ask (m ≫= f).
Proof. intros Hm Hf. by apply (routed_bind _ _ _). Qed.

Lemma routed_mapM_err {S E F} (R R' : S -> S -> Prop) (ask : F -> bool) (ask' : E -> bool) {A}
    (f : E -> F) (m : M S E A) :
  (forall e, ask (f e) = false -> ask' e = false) ->
  routed R R' ask' m -> routed R R' ask (mapM_err f m).
Proof.
  intros Hf Hm s. specialize (Hm s). unfold mapM_err.
  destruct (m s) as [[a|e|] s']; cbn in *; auto.
Qed.

Lemma routed_zoom {S T E} (R R' : S -> S -> Prop) (Q Q' : T -> T -> Prop) (ask : E -> bool) {A}
    (g : S -> T) (p : T -> S -> S) (m : M T E A) :
  (forall s t, Q (g s) t -> R s (p t s)) -> (forall s t, Q' (g s) t -> R' s (p t s)) ->
  routed Q Q' ask m -> routed R R' ask (zoom g p m).
Proof.
  intros H1 H2 Hm s. specialize (Hm (g s)). unfold zoom.
  destruct (m (g s)) as [[a|e|] t]; cbn in *; auto.
Qed.

(** A relation on a part of the state. *)
Definition via {S T} (f : S -> T) (R : T -> T -> Prop) (s s' : S) : Prop := R (f s) (f s').
#[export] Instance via_preorder {S T} (f : S -> T) R `{!PreOrder R} : PreOrder (via f R).
Proof. split; unfold via; [by intros s|]. intros s1 s2 s3 H1 H2. by transitivity (f s2). Qed.

Section via.
Context {S E : Type} (R : S -> S -> Prop) `{!PreOrder R}.

Lemma keeps_on_fst {A} (m : M S E A) : keeps R m -> keeps (via fst R) (on_fst m).
Proof. intros Hm [s l]. specialize (Hm s). unfold on_fst, via. by destruct (m s). Qed.

Lemma keeps_on_slice {A} a b (m : M (S * list Z) E A) :
  keeps (via fst R) m -> keeps (via fst R) (on_slice a b m).
Proof using PreOrder0.
  intros Hm [s l]. unfold on_slice. destruct (slice l a b) as [c|]; [|cbn; reflexivity].
  specialize (Hm (s, c)). unfold via in *. by destruct (m (s, c)) as [r [s' c']].
Qed.

Lemma keeps_with_local {A} init (m : M (S * list Z) E A) :
  keeps (via fst R) m -> keeps R (with_local init m).
Proof.
  intros Hm s. specialize (Hm (s, init)). unfold with_local, via in *.
  by destruct (m (s, init)) as [[a|e|] [s' l]].
Qed.
End via.

Lemma keeps_for_each {S E X} (R : S -> S -> Prop) `{!PreOrder R} (l : list X) (body : X -> M S E unit) :
  (forall x, keeps R (body x)) -> keeps R (for_each l body).
Proof.
  intros Hb. induction l as [|x l IH]; cbn [for_each]; [by apply keeps_ret|].
  apply keeps_bind; [done|apply Hb|]. by intros _.
Qed.

(** ** Certainty of delivery

    No operation but a command makes the ownership of a command buffer
    uncertain, and a command that does so asks for recovery. *)

Section sure.
Context {W E : Type} `{BusOps W E} `{DelayOps W}.

Definition sure (d d' : Device W) : Prop :=
  dev_recovery_required d = false -> dev_recovery_required d' = false.
#[export] Instance sure_preorder : PreOrder sure.
Proof. split; unfold sure; [by intros d|]. auto. Qed.

Lemma sure_modify {F} (f : Device W -> Device W) :
  (forall d, sure d (f d)) -> keeps sure (modify (E:=F) f).
Proof. apply keeps_modify. Qed.

Lemma sure_rpu {A} (m : M W (RpuError.t E) A) : keeps sure (rpu m).
Proof. apply keeps_zoom. intros d Hd. exact Hd. Qed.

Lemma sure_zoom_rpu {F A} (m : M W F A) : keeps sure (zoom dev_rpu set_rpu m).
Proof. apply keeps_zoom. intros d Hd. exact Hd. Qed.

Lemma sure_buffer {A} (m : M (W * list Z) (RpuError.t E) A) : keeps (via fst sure) (rpu_buffer m).
Proof. intros [d l]. unfold rpu_buffer, via, sure. by destruct (m (dev_rpu d, l)) as [r [w l']]. Qed.

Lemma sure_on_path {F A} (m : M DataPath F A) : keeps (via snd sure) (on_path (W:=W) m).
Proof. apply keeps_zoom. intros [p d] Hd. exact Hd. Qed.

Lemma sure_on_device {F A} (m : M (Device W) F A) :
  keeps sure m -> keeps (via snd sure) (on_device m).
Proof. intros Hm. apply keeps_zoom. intros [p d]. apply Hm. Qed.

Lemma sure_on_rpu {F A} (m : M W F A) : keeps (via snd sure) (on_rpu m).
Proof. apply sure_on_device, sure_zoom_rpu. Qed.
End sure.

(** Follows the structure of an operation. *)
Ltac sure_go :=
  repeat first
    [ progress cbv zeta
    | lazymatch goal with
      | |- keeps _ (_ ≫= _) => apply keeps_bind; [exact _| |intros ?]
      | |- keeps _ (mret _) => apply keeps_ret; exact _
      | |- keeps _ (throw _) => apply keeps_throw; exact _
      | |- keeps _ (lift _) => apply keeps_lift; exact _
      | |- keeps _ get => apply keeps_get; exact _
      | |- keeps _ (gets _) => apply keeps_gets; exact _
      | |- keeps _ (attempt _) => apply keeps_attempt
      | |- keeps _ (mapM_err _ _) => apply keeps_mapM_err
      | |- keeps _ (rpu _) => apply sure_rpu
      | |- keeps _ (rpu_buffer _) => apply sure_buffer
      | |- keeps _ (on_path _) => apply sure_on_path
      | |- keeps _ (Data.on_rpu _) => apply sure_on_rpu
      | |- keeps _ (on_device _) => apply sure_on_device
      | |- keeps _ (on_fst _) => apply keeps_on_fst
      | |- keeps _ (on_slice _ _ _) => apply keeps_on_slice; [exact _|]
      | |- keeps _ (with_local _ _) => apply keeps_with_local
      | |- keeps _ (for_each _ _) => apply keeps_for_each; [exact _|intros ?]
      | |- keeps _ (modify _) => apply sure_modify; intros ?; unfold sure; done
      | |- keeps _ (match ?x with _ => _ end) => destruct x
      end ].

Section sure_operations.
Context {W E : Type} `{BusOps W E} `{DelayOps W}.
Local Abbreviation ask := (device_error_requires_recovery (E:=E)).
Local Abbreviation surely := (keeps (@sure W)).

Lemma sure_enqueue queue value : surely (enqueue (E:=E) queue value).
Proof. unfold enqueue. sure_go. Qed.

Lemma sure_dequeue queue : surely (dequeue (E:=E) queue).
Proof. unfold dequeue. sure_go. Qed.

Lemma sure_trigger : surely (trigger_command (E:=E)).
Proof. unfold trigger_command. sure_go. Qed.

Lemma sure_initialize : surely (initialize_queues (E:=E)).
Proof. unfold initialize_queues. sure_go. Qed.

Lemma sure_operational : surely (ensure_operational (E:=E)).
Proof. unfold ensure_operational. sure_go. Qed.

Lemma sure_enable : surely (enable_interrupts (E:=E)).
Proof. unfold enable_interrupts. sure_go. apply sure_operational. Qed.

Lemma sure_release queues address resubmit :
  surely (release_and_acknowledge_event (E:=E) queues address resubmit).
Proof.
  unfold release_and_acknowledge_event, release_event_fragment, acknowledge_interrupt. sure_go.
  apply sure_enqueue.
Qed.

Lemma sure_new_event queues ptr : keeps (via fst sure) (read_new_event (W:=W) (E:=E) queues ptr).
Proof.
  unfold read_new_event, begin_new_event, read_event_header, validate_new_event,
    reject_oversized_event, read_initial_event_fragment, finish_new_event, parse_scratch.
  sure_go; first [apply sure_dequeue|apply sure_release].
Qed.

Lemma sure_drain fuel queues pending removed :
  keeps (via fst sure) (drain_loop (W:=W) (E:=E) fuel queues pending removed).
Proof.
  revert pending removed. induction fuel as [|fuel IH]; intros pending removed;
    cbn [drain_loop]; sure_go; [apply sure_dequeue| |apply IH].
  unfold consume_pending_fragment, release_event_fragment. sure_go. apply sure_enqueue.
Qed.

Lemma sure_read_event ptr : keeps (via fst sure) (try_read_event (W:=W) (E:=E) ptr).
Proof.
  unfold try_read_event, read_pending_or_next, continue_pending_event, drain_pending_fragments,
    acknowledge_removed_fragment, acknowledge_interrupt, finish_pending_event, parse_scratch.
  sure_go; first [apply sure_operational|apply sure_drain|apply sure_new_event].
Qed.

(** Commands. *)
Lemma uncertain_routed {A} : routed sure sure ask (mark_delivery_uncertain (W:=W) (A:=A)).
Proof. intros d Hd. discriminate. Qed.

Lemma attempt_routed {A B} (m : M (Device W) (DeviceError.t E) A) (f : A + _ -> M _ _ B) :
  surely m -> (forall x, routed sure sure ask (f x)) -> routed sure sure ask (attempt m ≫= f).
Proof.
  intros Hm Hf. apply routed_bind_same; [exact _| |done].
  apply routed_keeps; [by intros|]. by apply keeps_attempt.
Qed.

Lemma post_routed queues address fragment :
  routed sure sure ask (post_control_fragment (W:=W) queues address fragment).
Proof.
  unfold post_control_fragment.
  apply attempt_routed; [apply sure_rpu|intros [u|e]; [|apply uncertain_routed]].
  apply attempt_routed; [apply sure_enqueue|intros [u'|e]; [|apply uncertain_routed]].
  apply attempt_routed; [apply sure_trigger|intros [u''|e]; [|apply uncertain_routed]].
  apply routed_keeps; [by intros|]. sure_go.
Qed.

Lemma wait_routed queue attempts delay_ms posted :
  routed sure sure ask (wait_for_command_buffer (W:=W) queue attempts delay_ms posted).
Proof.
  induction attempts as [|n IH]; cbn [wait_for_command_buffer].
  - unfold command_wait_timeout. apply routed_if; [apply uncertain_routed|by apply (routed_throw _ _ _)].
  - apply attempt_routed; [apply sure_dequeue|intros [[v|]|e]; [| |apply uncertain_routed]].
    + apply routed_keeps; [by intros|]. sure_go.
    + apply routed_bind_same; [exact _| |done].
      apply routed_keeps; [by intros|]. apply sure_zoom_rpu.
Qed.

Lemma fragments_routed fragments queues attempts delay_ms posted :
  routed sure sure ask (send_fragments (W:=W) fragments queues attempts delay_ms posted).
Proof.
  revert posted. induction fragments as [|f l IH]; intros posted; cbn [send_fragments].
  - apply routed_keeps; [by intros|]. sure_go.
  - apply routed_bind_same; [exact _|apply wait_routed|intros a].
    apply routed_bind_same; [exact _|apply post_routed|intros _; apply IH].
Qed.

Lemma send_routed message : routed sure sure ask (send_control_reliable (W:=W) message).
Proof.
  unfold send_control_reliable, send_control_with_wait.
  apply routed_bind_same; [exact _| |intros queues].
  - apply routed_keeps; [by intros|]. unfold prepare_reliable_send. sure_go. apply sure_operational.
  - unfold send_fragments_with_wait. apply routed_bind_same; [exact _| |intros n].
    + apply routed_keeps; [by intros|]. sure_go.
    + apply routed_if; [|apply fragments_routed]. apply routed_keeps; [by intros|]. sure_go.
Qed.

(** The data path. *)
Lemma sure_post_rx RX descriptor pool :
  keeps (via snd sure) (post_rx (W:=W) (E:=E) RX descriptor pool).
Proof.
  unfold post_rx, rx_queue_context, prepare_rx_descriptor. sure_go. apply sure_enqueue.
Qed.

Lemma sure_post_all RX : keeps (via snd sure) (post_all_rx (W:=W) (E:=E) RX).
Proof. unfold post_all_rx. sure_go. apply sure_post_rx. Qed.

Lemma sure_transmit TX wdev_id frame dscp_tos :
  keeps (via snd sure) (transmit (W:=W) (E:=E) TX wdev_id frame dscp_tos).
Proof.
  unfold transmit, prepare_transmit, submit_transmit, write_packet, release_token,
    transmit_queue_context, deliver_transmit_command.
  sure_go; first [apply sure_enqueue|apply sure_trigger].
Qed.

Lemma sure_read_buffer p address :
  keeps (via fst (via snd sure)) (rpu_read_buffer (W:=W) (E:=E) p address).
Proof. intros [[q d] l]. unfold rpu_read_buffer, via, sure. by destruct (Memory.read p address (dev_rpu d, l)) as [r [w l']]. Qed.

Lemma sure_receive RX event i :
  keeps (via fst (via snd sure)) (receive_packet (W:=W) (E:=E) RX event i).
Proof.
  unfold receive_packet, ensure_receive_capacity, read_rx_or_repost.
  sure_go; try apply sure_post_rx; try apply sure_read_buffer.
  intros [s l]. unfold on_output, via, sure. by destruct (convert_to_ethernet _ _ l).
Qed.
End sure_operations.

(** ** Station commands

    A refused command that asks for no recovery changed nothing but the
    controller's message buffer. *)

Section commands_routed.
Context {W E : Type} `{BusOps W E} `{DelayOps W}.
Local Abbreviation CD := (StationController * Device W)%type.
Local Abbreviation ask := (station_error_requires_recovery (E:=E)).

Definition buffer_only (c c' : StationController) : Prop := exists buffer, c' = set_command buffer c.
#[export] Instance buffer_only_preorder : PreOrder buffer_only.
Proof.
  split; [intros c; exists (sc_command c); by destruct c|].
  intros c c' c'' [b ->] [b' ->]. by exists b'.
Qed.

Definition refused_command (s s' : CD) : Prop := buffer_only s.1 s'.1 /\ sure s.2 s'.2.
#[export] Instance refused_command_preorder : PreOrder refused_command.
Proof.
  split; [by intros s|]. intros s1 s2 s3 [H1 H2] [H3 H4]. split; by etransitivity.
Qed.
Definition sent_command : CD -> CD -> Prop := via snd sure.

Lemma refused_sent s s' : refused_command s s' -> sent_command s s'.
Proof. by intros []. Qed.

Lemma controller_quiet {A} (m : M StationController (StationError.t E) A) :
  (forall c, (m c).2 = c) -> keeps refused_command (on_controller (W:=W) m).
Proof.
  intros Hm. apply keeps_zoom. intros [c d]. cbn [fst snd]. rewrite Hm. reflexivity.
Qed.

Lemma submit_routed encode :
  routed refused_command refused_command ask (submit_station_command (W:=W) encode).
Proof.
  unfold submit_station_command. apply routed_bind_same; [exact _| |intros count].
  { apply routed_keeps; [by intros|]. apply keeps_zoom. intros [c d]. cbn [fst snd].
    unfold zoom, mapM_err. destruct (encode (sc_command c)) as [r b]. cbn [snd].
    split; cbn [fst snd]; [by exists b|reflexivity]. }
  apply routed_bind_same; [exact _|apply routed_keeps; [by intros|]; apply keeps_gets; exact _|intros c].
  apply routed_bind_same; [exact _|apply routed_keeps; [by intros|]; apply keeps_lift; exact _|intros m].
  unfold on_dev. apply (routed_zoom _ _ sure sure).
  - intros [c' d] t Ht. by split.
  - intros [c' d] t Ht. by split.
  - by apply (routed_mapM_err _ _ _ (device_error_requires_recovery (E:=E))), send_routed.
Qed.

(** The assignments after a submission. *)
Lemma assign_routed (m : M CD (StationError.t E) unit) :
  (forall s, m s = (Ok tt, (m s).2) /\ (m s).2.2 = s.2) -> routed refused_command sent_command ask m.
Proof.
  intros Hm s. destruct (Hm s) as [Hs Hd]. rewrite Hs. unfold sent_command, via. rewrite Hd. reflexivity.
Qed.

Lemma quiet_require required : forall c, (require (E:=E) required c).2 = c.
Proof. intros c. unfold require. munfold. by case_bool_decide. Qed.
Lemma quiet_require_one required others : forall c, (require_one_of (E:=E) required others c).2 = c.
Proof. intros c. unfold require_one_of. munfold. by destruct (existsb _ _). Qed.

Ltac command_go :=
  repeat first
    [ progress cbv zeta
    | lazymatch goal with
      | |- routed _ _ _ (on_controller (require _) ≫= _) =>
          apply (routed_bind _ _ _); [exact refused_sent
            |apply routed_keeps; [by intros|]; apply controller_quiet, quiet_require|intros ?]
      | |- routed _ _ _ (on_controller (require_one_of _ _) ≫= _) =>
          apply (routed_bind _ _ _); [exact refused_sent
            |apply routed_keeps; [by intros|]; apply controller_quiet, quiet_require_one|intros ?]
      | |- routed _ _ _ (gets _ ≫= _) =>
          apply (routed_bind _ _ _); [exact refused_sent
            |apply routed_keeps; [by intros|]; apply keeps_gets; exact _|intros ?]
      | |- routed _ _ _ (lift _ ≫= _) =>
          apply (routed_bind _ _ _); [exact refused_sent
            |apply routed_keeps; [by intros|]; apply keeps_lift; exact _|intros ?]
      | |- routed _ _ _ (mret _ ≫= _) =>
          apply (routed_bind _ _ _); [exact refused_sent
            |apply routed_keeps; [by intros|]; apply keeps_ret; exact _|intros ?]
      | |- routed _ _ _ ((_ ≫= _) ≫= _) =>
          apply (routed_bind _ _ _); [exact refused_sent
            |apply routed_keeps; [by intros|]; sure_go|intros ?]
      | |- routed _ _ _ (submit_station_command _ ≫= _) =>
          apply (routed_bind _ _ _); [exact refused_sent|apply submit_routed|intros ?]
      | |- routed _ _ _ (throw _) => apply (routed_throw _ _ _)
      | |- routed _ _ _ (if _ then _ else _) => apply routed_if
      | |- routed _ _ _ (await _ _) => apply assign_routed; intros []; by split
      | |- routed _ _ _ (on_controller (modify _) ≫= _) => apply assign_routed; intros []; by split
      end ].

Lemma create_routed mac name :
  routed refused_command sent_command ask (create_interface (W:=W) mac name).
Proof.
  unfold create_interface. command_go. intros [c d].
  unfold mbind at 1, M_bind at 1. unfold on_controller at 1, zoom at 1. cbn [fst snd].
  unfold claim_firmware_default_interface. munfold. destruct (negb _); cbn [fst snd].
  - assert (forall m b, routed refused_command sent_command ask
      (submit_station_command m;; await (W:=W) (E:=E) UmacCommand.NewInterface b)) as Hs
      by (intros; command_go).
    apply Hs.
  - unfold sent_command, via. reflexivity.
Qed.

Lemma associate_routed request :
  routed refused_command sent_command ask (associate (W:=W) request).
Proof.
  unfold associate. command_go. intros [c d] Hf. discriminate.
Qed.

Lemma command_routed op :
  is_command op = true -> routed refused_command sent_command ask (station_run (W:=W) op).
Proof.
  intros Hop. destruct op; try done; cbn [station_run].
  - apply create_routed.
  - unfold set_regulatory. command_go.
  - unfold bring_up. command_go.
  - unfold bring_down. command_go.
  - unfold station_start_scan. command_go.
  - unfold request_scan_results. command_go.
  - unfold authenticate. command_go.
  - apply associate_routed.
  - unfold key_command. command_go. destruct (key_type key); command_go.
  - unfold set_key. command_go.
  - unfold authorize. command_go.
  - unfold set_power_save, await_power_save. command_go.
  - unfold set_power_save_timeout, await_power_save. command_go.
  - unfold disconnect. command_go.
Qed.

End commands_routed.

(** ** The native driver *)

Section native.
Context {W : Type}.
Implicit Types n : NativeDriver W.

(** Nothing about the lifecycle or the connection changed. *)
Definition calm n n' : Prop :=
  nd_state n' = nd_state n /\ nd_ifaceindex n' = nd_ifaceindex n /\ nd_wdev_id n' = nd_wdev_id n
  /\ nd_configured_mac n' = nd_configured_mac n /\ buffer_only (nd_station n) (nd_station n')
  /\ sure (nd_device n) (nd_device n').
#[export] Instance calm_preorder : PreOrder calm.
Proof.
  split; [intros n; by split_and!|].
  intros n1 n2 n3 (?&?&?&?&?&?) (?&?&?&?&?&?). unfold calm. split_and!; by etransitivity.
Qed.

(** The lifecycle state stays, and no connection appears. *)
Definition steady n n' : Prop :=
  nd_state n' = nd_state n /\ (no_connection (nd_station n) -> no_connection (nd_station n'))
  /\ sure (nd_device n) (nd_device n').
#[export] Instance steady_preorder : PreOrder steady.
Proof.
  split; [intros n; by split_and!|].
  intros n1 n2 n3 (?&?&?) (?&?&?). unfold steady. split_and!; [by etransitivity|auto|by etransitivity].
Qed.

Lemma calm_steady n n' : calm n n' -> steady n n'.
Proof. intros (? & _ & _ & _ & [b Hb] & ?). split_and!; [done| |done]. by rewrite Hb. Qed.

Lemma same_control_calm n n' :
  same_control n n' -> sure (nd_device n) (nd_device n') -> calm n n'.
Proof.
  intros (Hc & Hs & Hw & Hi & Hm) Hd. unfold calm. rewrite Hc. by split_and!.
Qed.

(** The driver starts over. *)
Definition closed n : Prop :=
  nd_state n = DriverState.Recovering /\ sc_state (nd_station n) = StationState.Recovering
  /\ no_connection (nd_station n) /\ sc_interface_created (nd_station n) = false
  /\ nd_configured_mac n = None.

Lemma enter_recovery_closed n : closed (enter_recovery n).
Proof. by split_and!. Qed.

(** Outside [Ready] there is no connection, and while the firmware may be
    given commands none is in doubt. *)
Definition accounted n : Prop :=
  (nd_state n <> DriverState.Ready -> no_connection (nd_station n))
  /\ (nd_state n = DriverState.Ready \/ nd_state n = DriverState.WaitingForSystemInit ->
      dev_recovery_required (nd_device n) = false).

Lemma steady_accounted n n' : steady n n' -> accounted n -> accounted n'.
Proof. intros (Hs & Hc & Hd) [H1 H2]. split; rewrite Hs; auto. Qed.

Lemma closed_accounted n : closed n -> accounted n.
Proof. intros (Hs & _ & Hc & _). split; rewrite Hs; [done|]. by intros []. Qed.

Lemma calm_accounted n n' : calm n n' -> accounted n -> accounted n'.
Proof. intros Hc. by apply steady_accounted, calm_steady. Qed.
End native.

Section native_operations.
Context {W E P : Type} `{BusOps W E} `{DelayOps W} `{PlatformOps W P} {sha : Sha256}.
Variables RX TX : Z.
Implicit Types n : NativeDriver W.

(** The error [e] of [operation] asks for recovery. *)
Definition asks (operation : DriverOperation.t) (e : DriverError.t E) : bool :=
  match driver_error_requires_recovery (F:=unit) e operation with Ok b => b | _ => true end.

Lemma asks_spec {F} operation e :
  driver_error_requires_recovery (F:=F) e operation = Ok (asks operation e).
Proof. by destruct e. Qed.

Lemma calm_device {F A} (m : M (Device W) F A) : keeps sure m -> keeps calm (on_nd_device m).
Proof. intros Hm n. apply same_control_calm; [apply keeps_on_device|]. unfold on_nd_device, zoom.
  specialize (Hm (nd_device n)). by destruct (m (nd_device n)). Qed.

Lemma calm_rpu {F A} (m : M W F A) : keeps calm (on_nd_rpu m).
Proof. apply calm_device, sure_zoom_rpu. Qed.

Lemma calm_data {F A} (m : M (DataPath * Device W) F A) :
  keeps (via snd sure) m -> keeps calm (on_nd_data m).
Proof.
  intros Hm n. apply same_control_calm; [apply keeps_on_data|]. unfold on_nd_data, zoom.
  specialize (Hm (nd_data n, nd_device n)). by destruct (m _) as [r [p d]].
Qed.

Lemma calm_transmit wdev_id frame dscp_tos :
  keeps calm (driver_transmit (W:=W) (E:=E) TX wdev_id frame dscp_tos).
Proof.
  unfold driver_transmit, require_controlled_port. sure_go. apply calm_data, sure_transmit.
Qed.

(** A station command of the production driver, in [Ready]. *)
Lemma command_calm op n :
  is_command op = true ->
  match on_nd_station (station_run (E:=E) op) n with
  | (Ok _, n') => nd_state n' = nd_state n /\ sure (nd_device n) (nd_device n')
  | (Err e, n') => station_error_requires_recovery e = false -> calm n n'
  | (Panic, _) => True
  end.
Proof.
  intros Hop. pose proof (command_routed (E:=E) op Hop (nd_station n, nd_device n)) as Hr.
  unfold on_nd_station, zoom. destruct (station_run op _) as [[u|e|] [c d]]; [by split| |done].
  intros He. destruct (Hr He) as [Hc Hd]. by split_and!.
Qed.

Lemma advance_asks elapsed n :
  match driver_advance_time (E:=E) elapsed n with
  | (Ok _, n') => steady n n'
  | (Err e, n') => asks DriverOperation.Control e = true
  | (Panic, _) => True
  end.
Proof.
  unfold driver_advance_time. munfold. unfold advance_time. munfold.
  destruct (sc_remaining_ms (nd_station n)) as [remaining|]; [|by split_and!].
  destruct (elapsed <? remaining); [|done]. by split_and!.
Qed.

Lemma watchdog_asks n :
  match watchdog_pending (E:=E) n with
  | (Ok _, n') => calm n n'
  | (Err e, _) => asks DriverOperation.Watchdog e = true
  | (Panic, _) => True
  end.
Proof.
  unfold watchdog_pending. set (body := (value ← watchdog_read; _)).
  assert (routed calm calm (asks DriverOperation.Watchdog) body
          /\ forall e n n', body n = (Err e, n') -> asks DriverOperation.Watchdog e = true) as [Hb He].
  { split.
    - unfold body, watchdog_read. apply routed_keeps; [by intros|]. sure_go. apply calm_rpu.
    - intros e n1 n2. unfold body, watchdog_read, rpu_error. munfold.
      destruct (on_nd_rpu _ n1) as [[v|e'|] n3]; cbn [map_err]; [|by intros [= <- _]|done].
      by destruct (negb _). }
  assert (match loop 10 body n with
          | (Ok _, n') => calm n n'
          | (Err e, _) => asks DriverOperation.Watchdog e = true
          | (Panic, _) => True
          end) as Hl.
  { generalize 10%nat as k. intros k. revert n. induction k as [|k IH]; intros n; cbn [loop];
      [by split_and!|]. unfold mbind, M_bind.
    pose proof (Hb n) as Hn.
    destruct (body n) as [[[b|]|e|] n'] eqn:Hbody; [exact Hn| |by eapply He|done].
    specialize (IH n'). destruct (loop k body n') as [[o|e|] n'']; [|exact IH|done].
    by transitivity n'. }
  unfold mbind, M_bind. destruct (loop 10 body n) as [[[b|]|e|] n']; [exact Hl|done|exact Hl|done].
Qed.

Lemma acknowledge_asks n :
  match acknowledge_watchdog (E:=E) n with
  | (Ok _, n') => closed n'
  | (Err e, _) => asks DriverOperation.Watchdog e = true
  | (Panic, _) => True
  end.
Proof.
  unfold acknowledge_watchdog, rpu_error. munfold.
  destruct (on_nd_rpu _ n) as [[u|e|] n1]; cbn [map_err]; [|done..].
  destruct (on_nd_rpu _ n1) as [[u'|e|] n2]; cbn [map_err]; [|done..]. apply enter_recovery_closed.
Qed.

Lemma receive_calm event i n output :
  match driver_receive_packet (E:=E) RX event i (n, output) with
  | (Ok _, (n', _)) => calm n n'
  | (Err e, (n', _)) => asks DriverOperation.Receive e = false -> calm n n'
  | (Panic, _) => True
  end.
Proof.
  pose proof (sure_receive (W:=W) (E:=E) RX event i ((nd_data n, nd_device n), output)) as Hs.
  unfold driver_receive_packet. munfold.
  destruct (receive_packet RX event i _) as [[f|e|] [[p d] output']]; cbn [map_err]; [| |done].
  - unfold on_fst, validate_received_frame, require_controlled_port. munfold.
    cbn [nd_wdev_id set_device set_data]. destruct (negb _); [done|].
    by destruct (port_allows _ _); [|intros _]; apply same_control_calm.
  - intros _. by apply same_control_calm.
Qed.

(** Dispatching keeps the account, and its errors start over or change
    nothing. *)
Lemma dispatch_accounted message n :
  match dispatch_message (E:=E) TX message n with
  | (Ok _, n') => accounted n -> accounted n'
  | (Err e, n') => asks DriverOperation.Event e = false -> n' = n
  | (Panic, _) => True
  end.
Proof.
  assert (forall (k : M (NativeDriver W) (DriverError.t E) DriverEvent.t),
    (nd_state n = DriverState.Ready ->
     match k n with
     | (Ok _, n') => nd_state n' = nd_state n /\ nd_device n' = nd_device n
     | (Err e, n') => asks DriverOperation.Event e = true
     | (Panic, _) => True
     end) ->
    match (require_state DriverState.Ready;; k) n with
    | (Ok _, n') => accounted n -> accounted n'
    | (Err e, n') => asks DriverOperation.Event e = false -> n' = n
    | (Panic, _) => True
    end) as Hready.
  { intros k Hk. unfold require_state. munfold. case_bool_decide as Hr; [|done].
    specialize (Hk Hr). destruct (k n) as [[ev|e|] n']; [|congruence|done].
    destruct Hk as [Hs Hd]. intros [_ H2]. split; rewrite Hs; [done|]. by rewrite Hd. }
  assert (forall m ev,
    (forall e c, m (nd_station n) = (Err e, c) -> exists fault, e = StationError.Fault fault) ->
    match station_handler (W:=W) (E:=E) m ev n with
    | (Ok _, n') => nd_state n' = nd_state n /\ nd_device n' = nd_device n
    | (Err e, n') => asks DriverOperation.Event e = true
    | (Panic, _) => True
    end) as Hhandler.
  { intros m ev Hm. unfold station_handler. munfold.
    destruct (m (nd_station n)) as [[u|e|] c] eqn:Hc; [done| |done].
    destruct (Hm e c eq_refl) as [fault ->]. done. }
  unfold dispatch_message. destruct (message_type message).
  - unfold dispatch_system_message. munfold.
    destruct (parse_system_event message) as [ev|e|]; cbn [map_err]; [|done..].
    destruct ev; try done. case_bool_decide as Hs; [|done].
    intros [_ H2]. split; [done|]. intros _. cbn. apply H2. by right.
  - apply Hready. by intros Hr.
  - apply Hready. intros Hr. unfold dispatch_data_message. munfold.
    destruct (classify_data_event message) as [ev|e|]; cbn [map_err]; [|done..].
    destruct ev; try (apply Hhandler; intros e c Hc; match type of Hc with handle_data_event ?ev _ = _ =>
      pose proof (closes_data_event (E:=E) ev (nd_station n)) as Hcl end;
      rewrite Hc in Hcl; destruct Hcl as (f & -> & _); by exists f).
    + unfold dispatch_transmit_done. munfold.
      destruct (TxDoneEventRef_parse message) as [e|e|]; cbn [map_err]; [|done..].
      by destruct (complete_tx TX (td_token e) (nd_data n)) as [[u|e'|] p].
    + unfold dispatch_receive. munfold. by destruct (RxEventRef_parse message) as [e|e|].
  - apply Hready. intros Hr. unfold dispatch_control_message. munfold.
    destruct (parse_control_event message) as [ev|e|]; cbn [map_err]; [|done..].
    apply Hhandler. intros e c Hc. pose proof (handle_control_event_outcome (E:=E) ev (nd_station n)) as Ho.
    rewrite Hc in Ho. destruct Ho as (f & -> & _). by exists f.
Qed.

Lemma poll_accounted ptr n scratch :
  match poll_event (E:=E) TX ptr (n, scratch) with
  | (Ok _, (n', _)) => accounted n -> accounted n'
  | (Err e, (n', _)) => asks DriverOperation.Event e = false -> calm n n'
  | (Panic, _) => True
  end.
Proof.
  pose proof (sure_read_event (E:=E) ptr (nd_device n, scratch)) as Hs.
  unfold poll_event, read_event. munfold. cbn [fst snd].
  destruct (dev_recovery_required (nd_device n)); [done|].
  destruct (try_read_event ptr (nd_device n, scratch)) as [[[message|]|e|] [d scratch']];
    cbn [map_err]; [| | |done].
  - assert (calm n (set_device d n)) as Hd by (by apply same_control_calm).
    pose proof (dispatch_accounted message (set_device d n)) as Ho. unfold on_fst.
    destruct (dispatch_message TX message (set_device d n)) as [[ev|e|] n']; [| |done].
    + intros Hn. apply Ho. by apply (calm_accounted n).
    + intros He. by rewrite (Ho He).
  - apply calm_accounted. by apply same_control_calm.
  - intros _. by apply same_control_calm.
Qed.

(** Recovery, when it succeeds, starts from a queue state without doubt. *)
Lemma recover_sure trust bundle config n :
  match recover_boot (E:=E) (P:=P) RX TX trust bundle config n with
  | (Ok _, n') => dev_recovery_required (nd_device n') = false
  | _ => True
  end.
Proof.
  set (R n n' := sure (nd_device n) (nd_device n')).
  assert (PreOrder R) as HR by (split; unfold R; [by intros m|intros m1 m2 m3 ??; by etransitivity]).
  assert (forall F A (f : F -> DriverError.t E) (m : M (NativeDriver W) F A),
    keeps R m -> keeps R (driver_step (P:=P) f m)) as Hd by (intros; by apply keeps_mapM_err).
  assert (forall m : M W P unit, keeps R (platform_step (E:=E) m)) as Hp.
  { intros m. apply keeps_mapM_err. intros s. apply calm_rpu. }
  assert (forall F A (m : M (NativeDriver W) F A), keeps calm m -> keeps R m) as Hcalm
    by (intros F A m Hm s; apply Hm).
  unfold recover_boot. unfold mbind at 1, M_bind at 1.
  destruct (attempt _ n) as [[x|e|] n1]; [|done..].
  unfold mbind at 1, M_bind at 1. destruct (platform_step hard_reset n1) as [[u|e|] n2]; [|done..].
  unfold mbind at 1, M_bind at 1, modify at 1. cbv beta zeta iota.
  match goal with |- match ?m ?s with _ => _ end =>
    assert (routed R R (fun _ => true) m) as Hm; [|specialize (Hm s); destruct (m s) as [[r|e|] n3];
      [by apply Hm|done..]] end.
  repeat (apply (routed_bind_same _ _); [first
    [ apply routed_keeps; [by intros|]; first
      [ apply Hp | apply Hd, keeps_lift; exact _ | apply Hd, Hcalm, calm_rpu
      | apply Hd, Hcalm, calm_device, sure_initialize | apply Hd, Hcalm, calm_device, sure_enable
      | apply Hd, Hcalm, calm_data, sure_post_all | apply keeps_modify; intros s Hs; exact Hs ]
    | apply (routed_mapM_err _ _ _ (device_error_requires_recovery (E:=E))); [done|];
      apply (routed_zoom _ _ sure sure); [by intros ..|]; apply send_routed ]|intros ?]).
  apply routed_keeps; [by intros|]. apply keeps_ret; exact _.
Qed.

Lemma recover_accounted trust bundle config n :
  match recover (W:=W) (E:=E) (P:=P) RX TX trust bundle config n with
  | (Panic, _) => True
  | (_, n') => accounted n'
  end.
Proof.
  pose proof (recover_control (E:=E) (P:=P) RX TX trust bundle config n) as Hc.
  assert (forall m, match recover_steps (W:=W) (E:=E) (P:=P) RX TX trust bundle config m with
                    | (Ok _, m') => dev_recovery_required (nd_device m') = false | _ => True end) as Hs.
  { intros m. unfold recover_steps. unfold mbind at 1, M_bind at 1, get at 1.
    unfold mbind at 1, M_bind at 1. destruct (driver_step id _ m) as [[u|e|] m1]; [|done..].
    apply recover_sure. }
  unfold recover in *. munfold. revert Hc.
  match goal with |- context [recover_steps RX TX trust bundle config ?m] =>
    specialize (Hs m); destruct (recover_steps RX TX trust bundle config m) as [[r|e|] n1] end; [| |done].
  - intros (Hst & _ & _ & Hr & _). split; [intros _|]; [by rewrite Hst|by intros _].
  - intros (Hst & _ & _ & Hr & _). split; [intros _|]; [by rewrite Hst|by intros []].
Qed.
End native_operations.

(** ** Steps of the production driver *)

Inductive mcd_op : Type :=
  | McCreateInterface (mac_address interface_name : list Z)
  | McSetRegulatory (country : list Z) (user_hint_type : Z) (force : bool)
  | McBringUp
  | McBringDown
  | McStartScan (request : ScanRequest)
  | McRequestScanResults (reason : ScanReason.t)
  | McAuthenticate (request : AuthenticationRequest)
  | McAssociate (request : AssociationRequest)
  | McSetPowerSave (state : PowerSaveState.t)
  | McSetPowerSaveTimeout (timeout_ms : Z)
  | McDisconnect (reason_code : Z)
  | McAdvanceTime (elapsed_ms : Z)
  | McPollEvent (scratch_ptr : Z) (scratch : list Z)
  | McReceive (event : RxEventRef) (packet_index : Z) (output : list Z)
  | McTransmit (wdev_id : Z) (frame : list Z) (dscp_tos : Z)
  | McWatchdogPending
  | McAcknowledgeWatchdog.

Definition operation (op : mcd_op) : DriverOperation.t :=
  match op with
  | McPollEvent _ _ => DriverOperation.Event
  | McReceive _ _ _ => DriverOperation.Receive
  | McTransmit _ _ _ => DriverOperation.Transmit
  | McWatchdogPending | McAcknowledgeWatchdog => DriverOperation.Watchdog
  | _ => DriverOperation.Control
  end.

(** The value of an operation is dropped, a buffer is the caller's. *)
Definition dropping {S F A} (m : M S F A) : M S F unit := m;; mret tt.
Definition with_buffer {S F A} (m : M (S * list Z) F A) (l : list Z) : M S F unit :=
  with_local l m;; mret tt.

Definition mcd_run {W E} `{BusOps W E} `{DelayOps W} (RX TX : Z) (op : mcd_op)
    : M (MissionCriticalDriver W) (ProductionError.t E) unit :=
  match op with
  | McCreateInterface mac_address interface_name =>
      MissionCriticalDriver_create_station_interface mac_address interface_name
  | McSetRegulatory country user_hint_type force =>
      MissionCriticalDriver_set_regulatory country user_hint_type force
  | McBringUp => MissionCriticalDriver_bring_up
  | McBringDown => MissionCriticalDriver_bring_down
  | McStartScan request => MissionCriticalDriver_start_scan request
  | McRequestScanResults reason => MissionCriticalDriver_request_scan_results reason
  | McAuthenticate request => MissionCriticalDriver_authenticate request
  | McAssociate request => MissionCriticalDriver_associate request
  | McSetPowerSave state => MissionCriticalDriver_set_power_save state
  | McSetPowerSaveTimeout timeout_ms => MissionCriticalDriver_set_power_save_timeout timeout_ms
  | McDisconnect reason_code => MissionCriticalDriver_disconnect reason_code
  | McAdvanceTime elapsed_ms => MissionCriticalDriver_advance_time elapsed_ms
  | McPollEvent scratch_ptr scratch =>
      with_buffer (MissionCriticalDriver_poll_event TX scratch_ptr) scratch
  | McReceive event packet_index output =>
      with_buffer (MissionCriticalDriver_receive_packet RX event packet_index) output
  | McTransmit wdev_id frame dscp_tos =>
      dropping (MissionCriticalDriver_transmit TX wdev_id frame dscp_tos)
  | McWatchdogPending => dropping MissionCriticalDriver_watchdog_pending
  | McAcknowledgeWatchdog => MissionCriticalDriver_acknowledge_watchdog
  end.

(** ** Errors that leave something unaccounted for

    Stated apart from the code's own classification: for each kind of error, what
    is no longer known to the host after it. *)

Section unaccounted.
Context {E : Type}.

Inductive device_unaccounted : DeviceError.t E -> Prop :=
  (** A bus access failed: what the chip holds is not known. *)
  | bus_access_failed e : device_unaccounted (DeviceError.Rpu e)
  (** The queues of the firmware are not known, or their map makes no sense. *)
  | queues_unknown : device_unaccounted DeviceError.NotInitialized
  | queues_invalid : device_unaccounted DeviceError.InvalidQueueMap
  (** A command may have been handed over, now or earlier. *)
  | command_in_doubt : device_unaccounted DeviceError.CommandDeliveryUncertain
  | earlier_command_in_doubt : device_unaccounted DeviceError.RecoveryRequired
  (** An event did not fit and is lost. *)
  | event_lost declared capacity : device_unaccounted (DeviceError.EventTooLarge declared capacity).

Inductive station_unaccounted : StationError.t E -> Prop :=
  | station_by_device e : device_unaccounted e -> station_unaccounted (StationError.Device e)
  (** The connection failed. *)
  | station_failed fault : station_unaccounted (StationError.Fault fault).

(** The operation reads what the firmware wrote. *)
Inductive reads_firmware : DriverOperation.t -> Prop :=
  | reads_event : reads_firmware DriverOperation.Event
  | reads_packet : reads_firmware DriverOperation.Receive.

Inductive data_unaccounted (operation : DriverOperation.t) : DataError.t E -> Prop :=
  | data_by_device e : device_unaccounted e -> data_unaccounted operation (DataError.Device e)
  (** A bus access failed: a frame or a descriptor may be half written. *)
  | data_access_failed e : data_unaccounted operation (DataError.Rpu e)
  (** The firmware may or may not own the command. *)
  | ownership_unknown e : data_unaccounted operation (DataError.QueueOwnershipUncertain e)
  (** A descriptor to be given out is with the firmware already. *)
  | descriptor_given_twice i : data_unaccounted operation (DataError.ReceiveDescriptorBusy i)
  (** The firmware described its packet wrongly. *)
  | packet_malformed e :
      reads_firmware operation -> data_unaccounted operation (DataError.Protocol e).

Inductive driver_unaccounted (operation : DriverOperation.t) : DriverError.t E -> Prop :=
  | driver_by_device e : device_unaccounted e -> driver_unaccounted operation (DriverError.Device e)
  | driver_by_data e :
      data_unaccounted operation e -> driver_unaccounted operation (DriverError.Data e)
  | driver_by_station e : station_unaccounted e -> driver_unaccounted operation (DriverError.Station e)
  (** An event of the firmware is consumed but not understood. *)
  | data_event_malformed e : driver_unaccounted operation (DriverError.DataProtocol e)
  | event_malformed e : driver_unaccounted operation (DriverError.Protocol e)
  | event_unexpected state : driver_unaccounted operation (DriverError.UnexpectedEventForState state)
  (** The firmware did not come up, or its watchdog cannot be read. *)
  | firmware_failed e : driver_unaccounted operation (DriverError.Firmware e)
  | watchdog_unreadable : driver_unaccounted operation DriverError.InvalidWatchdogStatus
  (** The firmware sent something of another interface. *)
  | other_interface expected got :
      reads_firmware operation -> driver_unaccounted operation (DriverError.WrongInterface expected got).

Inductive unaccounted (operation : DriverOperation.t) : ProductionError.t E -> Prop :=
  | by_driver e : driver_unaccounted operation e -> unaccounted operation (ProductionError.Driver e)
  | by_station e : station_unaccounted e -> unaccounted operation (ProductionError.Station e).
End unaccounted.
#[local] Hint Constructors device_unaccounted station_unaccounted reads_firmware data_unaccounted
  driver_unaccounted unaccounted : core.

Section production_steps.
Context {W E : Type} `{BusOps W E} `{DelayOps W}.
Variables RX TX : Z.
Implicit Types d : MissionCriticalDriver W.

(** The error of an operation asks for recovery. *)
Definition recovers (operation : DriverOperation.t) (e : ProductionError.t E) : bool :=
  match e with
  | ProductionError.Driver e => asks operation e
  | ProductionError.Station e => station_error_requires_recovery e
  | ProductionError.InvalidEthernetFrame | ProductionError.ControlledPortClosed _ => false
  end.

Lemma device_recovers (e : DeviceError.t E) :
  device_error_requires_recovery e = true <-> device_unaccounted e.
Proof. by destruct e; split; auto; inversion 1. Qed.
Lemma station_recovers (e : StationError.t E) :
  station_error_requires_recovery e = true <-> station_unaccounted e.
Proof.
  destruct e; cbn; rewrite ?device_recovers; split; auto; by inversion 1.
Qed.
Lemma reads_firmware_spec operation :
  input_protocol_error_requires_recovery operation = true <-> reads_firmware operation.
Proof. by destruct operation; split; auto; inversion 1. Qed.
Lemma data_recovers operation (e : DataError.t E) :
  data_error_requires_recovery e operation = true <-> data_unaccounted operation e.
Proof.
  destruct e; cbn; rewrite ?device_recovers, ?reads_firmware_spec; split; auto; by inversion 1.
Qed.
Lemma driver_recovers operation (e : DriverError.t E) :
  asks operation e = true <-> driver_unaccounted operation e.
Proof.
  destruct e; cbn; rewrite ?device_recovers, ?station_recovers, ?data_recovers, ?reads_firmware_spec;
    split; auto; by inversion 1.
Qed.

(** The code starts over after exactly the errors of the specification. *)
Lemma recovers_spec operation (e : ProductionError.t E) :
  recovers operation e = true <-> unaccounted operation e.
Proof.
  destruct e; cbn; rewrite ?driver_recovers, ?station_recovers; split; auto; by inversion 1.
Qed.
Lemma recovers_not operation (e : ProductionError.t E) :
  recovers operation e = false <-> ~ unaccounted operation e.
Proof. rewrite <-recovers_spec. by destruct (recovers operation e). Qed.

(** A success ends in [Q]; an error starts over or is calm. *)
Definition outcome {A} operation (Q : NativeDriver W -> NativeDriver W -> Prop) d
    (r : res (ProductionError.t E) A * MissionCriticalDriver W) : Prop :=
  match r with
  | (Ok _, d') => Q (mcd_inner d) (mcd_inner d')
  | (Err e, d') =>
      if recovers operation e then closed (mcd_inner d') else calm (mcd_inner d) (mcd_inner d')
  | (Panic, _) => True
  end.

Definition keeps_account (n n' : NativeDriver W) : Prop := accounted n -> accounted n'.

(** The end of a failed operation. *)
Lemma recovery_outcome {A} operation Q d n' b (e : ProductionError.t E) :
  recovers operation e = b -> (b = false -> calm (mcd_inner d) n') ->
  outcome (A:=A) operation Q d
    (((if b then on_inner (modify enter_recovery) else mret tt);; throw e)
       (mkMissionCriticalDriver n')).
Proof.
  intros He Hc. destruct b; unfold on_inner, outcome; munfold; rewrite He;
    [apply enter_recovery_closed|by apply Hc].
Qed.

Lemma finish_driver_outcome {A} operation Q (m : M (NativeDriver W) (DriverError.t E) A) d :
  match m (mcd_inner d) with
  | (Ok _, n') => Q (mcd_inner d) n'
  | (Err e, n') => asks operation e = false -> calm (mcd_inner d) n'
  | (Panic, _) => True
  end ->
  outcome operation Q d
    ((result ← attempt (on_inner m); finish_driver (W:=W) result operation) d).
Proof.
  intros Hm. unfold on_inner. munfold. destruct (m (mcd_inner d)) as [[a|e|] n']; [exact Hm| |done].
  unfold finish_driver. unfold mbind at 1, M_bind at 1, lift. rewrite asks_spec.
  by apply recovery_outcome.
Qed.

Lemma ensure_ready_outcome {A} operation Q (k : M (MissionCriticalDriver W) (ProductionError.t E) A) d :
  (nd_state (mcd_inner d) = DriverState.Ready -> outcome operation Q d (k d)) ->
  outcome operation Q d ((ensure_ready (E:=E);; k) d).
Proof.
  intros Hk. unfold ensure_ready, MissionCriticalDriver_state. munfold.
  case_bool_decide as Hr; [by apply Hk|]. unfold outcome. cbn. reflexivity.
Qed.

Lemma command_outcome op d :
  is_command op = true ->
  outcome DriverOperation.Control keeps_account d
    (run_station_command (station_run (E:=E) op) d).
Proof.
  intros Hop. unfold run_station_command. apply ensure_ready_outcome. intros Hr.
  pose proof (command_calm (E:=E) op (mcd_inner d) Hop) as Hc.
  unfold on_inner. munfold. destruct (on_nd_station _ (mcd_inner d)) as [[u|e|] n']; [| |done].
  - destruct Hc as [Hs Hd]. intros [_ H2]. cbn [mcd_inner]. split; rewrite Hs, Hr; [done|].
    intros _. apply Hd, H2. by left.
  - by apply recovery_outcome.
Qed.

Lemma dropping_outcome {A} operation Q (m : M (MissionCriticalDriver W) (ProductionError.t E) A) d :
  outcome operation Q d (m d) -> outcome operation Q d (dropping m d).
Proof. unfold dropping. munfold. by destruct (m d) as [[]]. Qed.

(** Without the buffer. *)
Definition at_driver {A} (x : res (ProductionError.t E) A * (MissionCriticalDriver W * list Z))
    : res (ProductionError.t E) A * MissionCriticalDriver W := (x.1, x.2.1).

Lemma with_buffer_outcome {A} operation Q
    (m : M (MissionCriticalDriver W * list Z) (ProductionError.t E) A) l d :
  outcome operation Q d (at_driver (m (d, l))) -> outcome operation Q d (with_buffer m l d).
Proof. unfold with_buffer, with_local, at_driver. munfold. by destruct (m (d, l)) as [[] []]. Qed.

Lemma poll_outcome ptr l d :
  outcome DriverOperation.Event keeps_account d
    (at_driver (MissionCriticalDriver_poll_event (E:=E) TX ptr (d, l))).
Proof.
  pose proof (poll_accounted (E:=E) TX ptr (mcd_inner d) l) as Hp.
  unfold MissionCriticalDriver_poll_event, on_inner_buffer, at_driver. munfold. cbn [fst snd].
  destruct (poll_event TX ptr (mcd_inner d, l)) as [[o|e|] [n' l']]; [exact Hp| |done].
  unfold on_fst, finish_driver. unfold mbind at 1, M_bind at 1, lift. rewrite asks_spec.
  pose proof (recovery_outcome (A:=option DriverEvent.t) DriverOperation.Event keeps_account d n' _
    (ProductionError.Driver e) eq_refl Hp) as Ho. revert Ho. munfold.
  cbn [recovers fst snd]. by destruct (asks DriverOperation.Event e).
Qed.

(** The frame of a native reception is one the port allows, so the second
    check lets it through. *)
Lemma received_allowed event i n output f n' output' :
  driver_receive_packet (E:=E) RX event i (n, output) = (Ok f, (n', output')) ->
  port_allows (rf_ether_type f) (nd_station n) = true /\ nd_station n' = nd_station n
  /\ nd_wdev_id n = rx_wdev_id event.
Proof.
  unfold driver_receive_packet, on_fst, validate_received_frame, require_controlled_port. munfold.
  destruct (receive_packet RX event i _) as [[g|e|] [[p dv] l]]; cbn [map_err]; [|done..].
  cbn [nd_wdev_id nd_station set_device set_data].
  destruct (negb _) eqn:Hw; [done|]. destruct (port_allows _ _) eqn:Hp; [|done].
  intros [= <- <- <-]. cbn in Hp. split_and!; [done..|].
  apply negb_false_iff, Z.eqb_eq in Hw. by rewrite Hw.
Qed.

Lemma allowed_by_port ether_type d :
  port_allows ether_type (nd_station (mcd_inner d)) = true -> frame_allowed ether_type d = true.
Proof.
  unfold port_allows, frame_allowed. destruct (controlled_port_open _); [done|].
  by destruct (ether_type =? EAPOL_ETHERTYPE).
Qed.

Lemma receive_outcome event i output d :
  outcome DriverOperation.Receive calm d
    (at_driver (MissionCriticalDriver_receive_packet (E:=E) RX event i (d, output))).
Proof.
  pose proof (receive_calm (E:=E) RX event i (mcd_inner d) output) as Hc.
  unfold MissionCriticalDriver_receive_packet, on_inner_buffer, ensure_ready, on_fst at 1, at_driver.
  unfold MissionCriticalDriver_state. munfold. cbn [fst snd].
  case_bool_decide as Hr; [|unfold outcome; cbn; reflexivity].
  destruct (driver_receive_packet RX event i _) as [[f|e|] [n' l']] eqn:Hrec; [| |done].
  - destruct (received_allowed event i _ _ _ _ _ Hrec) as (Hp & Hst & _).
    cbn [finish_receive]. unfold enforce_received_frame. munfold. cbn [fst snd].
    rewrite allowed_by_port by (cbn [mcd_inner]; by rewrite Hst). exact Hc.
  - assert ((exists st ty, e = DriverError.ControlledPortClosed st ty)
      \/ finish_receive (W:=W) (inr e) (mkMissionCriticalDriver n', l')
         = let '(r, d') := ((if asks DriverOperation.Receive e then on_inner (modify enter_recovery)
                             else mret tt);; throw (ProductionError.Driver e)) (mkMissionCriticalDriver n') in
           (r, (d', l'))) as [(st & ty & ->)|Hf].
    { destruct e; try (by left; eexists _, _); right;
        unfold finish_receive, receive_error_requires_recovery; munfold; rewrite asks_spec;
        by match goal with |- context [asks _ ?e] => destruct (asks DriverOperation.Receive e) end. }
    { by apply Hc. }
    cbn [fst snd]. rewrite Hf.
    pose proof (recovery_outcome (A:=ReceivedFrame) DriverOperation.Receive calm d n' _
      (ProductionError.Driver e) eq_refl Hc) as Ho. revert Ho.
    munfold. cbn [recovers]. by destruct (asks DriverOperation.Receive e).
Qed.

Lemma transmit_outcome' wdev_id frame dscp_tos d :
  outcome DriverOperation.Transmit calm d
    (MissionCriticalDriver_transmit (E:=E) TX wdev_id frame dscp_tos d).
Proof.
  unfold MissionCriticalDriver_transmit. apply ensure_ready_outcome. intros Hr.
  unfold mbind at 1, M_bind at 1, lift.
  destruct (production_ethernet_type frame) as [ty|e|] eqn:Hty; [| |done].
  - unfold mbind at 1, M_bind at 1, get. destruct (negb _); [unfold outcome; cbn; reflexivity|].
    apply (finish_driver_outcome DriverOperation.Transmit calm).
    pose proof (calm_transmit (E:=E) TX wdev_id frame dscp_tos (mcd_inner d)) as Ht.
    by destruct (driver_transmit TX wdev_id frame dscp_tos (mcd_inner d)) as [[t|e|] n'].
  - unfold production_ethernet_type in Hty. destruct (len frame <? 14).
    + injection Hty as <-. unfold outcome. cbn. reflexivity.
    + unfold index in Hty. destruct (nthZ frame 12); [|done]. by destruct (nthZ frame 13).
Qed.

Lemma mcd_outcome op d :
  outcome (operation op) keeps_account d (mcd_run (E:=E) RX TX op d).
Proof.
  assert (forall A o (r : res (ProductionError.t E) A * MissionCriticalDriver W),
    outcome o calm d r -> outcome o keeps_account d r) as Hcalm.
  { intros A o [[a|e|] d'] Hc; [|done..]. exact (calm_accounted _ _ Hc). }
  destruct op; cbn [mcd_run operation].
  - by apply (command_outcome (OpCreateInterface mac_address interface_name)).
  - by apply (command_outcome (OpSetRegulatory country user_hint_type force)).
  - by apply (command_outcome OpBringUp).
  - by apply (command_outcome OpBringDown).
  - by apply (command_outcome (OpStartScan request)).
  - by apply (command_outcome (OpRequestScanResults reason)).
  - by apply (command_outcome (OpAuthenticate request)).
  - by apply (command_outcome (OpAssociate request)).
  - by apply (command_outcome (OpSetPowerSave state)).
  - by apply (command_outcome (OpSetPowerSaveTimeout timeout_ms)).
  - by apply (command_outcome (OpDisconnect reason_code)).
  - apply (finish_driver_outcome DriverOperation.Control keeps_account).
    pose proof (advance_asks (E:=E) elapsed_ms (mcd_inner d)) as Ha.
    destruct (driver_advance_time elapsed_ms (mcd_inner d)) as [[u|e|] n']; [|congruence|done].
    exact (steady_accounted _ _ Ha).
  - apply with_buffer_outcome, poll_outcome.
  - apply with_buffer_outcome, Hcalm, receive_outcome.
  - apply dropping_outcome, Hcalm, transmit_outcome'.
  - apply dropping_outcome, (finish_driver_outcome DriverOperation.Watchdog keeps_account).
    pose proof (watchdog_asks (E:=E) (mcd_inner d)) as Ha.
    destruct (watchdog_pending (mcd_inner d)) as [[b|e|] n']; [|congruence|done].
    exact (calm_accounted _ _ Ha).
  - apply (finish_driver_outcome DriverOperation.Watchdog keeps_account).
    pose proof (acknowledge_asks (E:=E) (mcd_inner d)) as Ha.
    destruct (acknowledge_watchdog (mcd_inner d)) as [[b|e|] n']; [|congruence|done].
    intros _. by apply closed_accounted.
Qed.
End production_steps.

(** ** What is left with the firmware *)

Section ownership.
Context {W E : Type} `{HL : BusLaws W E} `{!DelayOps W} `{!DelayLaws W E}.
Variables RX TX : Z.
Implicit Types d : MissionCriticalDriver W.

(** The data path is well formed, and the bus works within its settings. *)
Definition driver_wf d : Prop :=
  path_wf RX TX (nd_data (mcd_inner d)) /\ bus_inv (E:=E) (dev_rpu (nd_device (mcd_inner d))).

(** A packet to receive is one of a parsed event, into a buffer of bytes, and
    not an MPDU shorter than two bytes. *)
Definition op_wf (op : mcd_op) : Prop :=
  match op with
  | McReceive event i output =>
      (exists message, bytes_ok (payload message) /\ RxEventRef_parse message = Ok event)
      /\ 0 <= i /\ bytes_ok output
      /\ forall info, RxEventRef_packet event i = Ok info ->
           rp_payload_type info = RxPayloadType.Mpdu -> 2 <= rp_packet_len info
  | _ => True
  end.

(** After an error that is accounted for, every token and every descriptor is
    where it was. *)
Definition path_kept {A} operation d
    (r : res (ProductionError.t E) A * MissionCriticalDriver W) : Prop :=
  match r with
  | (Err e, d') => recovers operation e = false -> nd_data (mcd_inner d') = nd_data (mcd_inner d)
  | _ => True
  end.

Lemma dropping_path_kept {A} operation (m : M (MissionCriticalDriver W) (ProductionError.t E) A) d :
  path_kept operation d (m d) -> path_kept operation d (dropping m d).
Proof. unfold dropping. munfold. by destruct (m d) as [[]]. Qed.

Lemma ready_path_kept {A} operation (k : M (MissionCriticalDriver W) (ProductionError.t E) A) d :
  path_kept operation d (k d) -> path_kept operation d ((ensure_ready (E:=E);; k) d).
Proof.
  intros Hk. unfold ensure_ready, MissionCriticalDriver_state. munfold. by case_bool_decide.
Qed.

Lemma finish_path_kept {A} operation (m : M (NativeDriver W) (DriverError.t E) A) d :
  match m (mcd_inner d) with
  | (Err e, n') => asks operation e = false -> nd_data n' = nd_data (mcd_inner d)
  | _ => True
  end ->
  path_kept operation d
    ((result ← attempt (on_inner m); finish_driver (W:=W) result operation) d).
Proof.
  intros Hm. unfold on_inner. munfold. destruct (m (mcd_inner d)) as [[a|e|] n']; [done| |done].
  unfold finish_driver. unfold mbind at 1, M_bind at 1, lift. rewrite asks_spec.
  destruct (asks operation e) eqn:He; unfold on_inner, path_kept; munfold; cbn [recovers];
    rewrite He; [done|]. intros _. by apply Hm.
Qed.

Lemma command_path_kept op d :
  path_kept DriverOperation.Control d (run_station_command (station_run (E:=E) op) d).
Proof.
  unfold run_station_command. apply ready_path_kept. unfold on_inner, on_nd_station, zoom. munfold.
  destruct (station_run op _) as [[u|e|] [c' v']]; [done| |done].
  unfold path_kept, finish_station.
  destruct (station_error_requires_recovery e) eqn:He; unfold on_inner; munfold;
    cbn [recovers]; rewrite He; done.
Qed.

Lemma poll_path_kept ptr l d :
  path_kept DriverOperation.Event d
    (with_buffer (MissionCriticalDriver_poll_event (E:=E) TX ptr) l d).
Proof.
  unfold with_buffer, with_local, MissionCriticalDriver_poll_event, on_inner_buffer. munfold.
  cbn [fst snd].
  assert (match poll_event (E:=E) TX ptr (mcd_inner d, l) with
    | (Err e, (n', _)) =>
        asks DriverOperation.Event e = false -> nd_data n' = nd_data (mcd_inner d)
    | _ => True end) as Hp.
  { unfold poll_event, read_event. munfold. cbn [fst snd].
    destruct (dev_recovery_required (nd_device (mcd_inner d))); [done|].
    destruct (try_read_event ptr _) as [[[message|]|e|] [v l']]; cbn [map_err]; [|done..].
    pose proof (dispatch_accounted (E:=E) TX message (set_device v (mcd_inner d))) as Ho.
    unfold on_fst. destruct (dispatch_message TX message _) as [[ev|e|] n']; [done| |done].
    intros He. by rewrite (Ho He). }
  destruct (poll_event TX ptr (mcd_inner d, l)) as [[o|e|] [n' l']]; [done| |done].
  unfold on_fst, finish_driver. unfold mbind at 1, M_bind at 1, lift. rewrite asks_spec.
  destruct (asks DriverOperation.Event e) eqn:He; unfold on_inner, path_kept; munfold;
    cbn [recovers fst snd]; rewrite He; [done|]. intros _. by apply Hp.
Qed.
(** The end of a failed reception. *)
Lemma finish_receive_error (e : DriverError.t E) d l :
  let '(r, (d', _)) := finish_receive (W:=W) (inr e) (d, l) in
  exists e', r = Err e' /\ recovers DriverOperation.Receive e' = asks DriverOperation.Receive e
             /\ (asks DriverOperation.Receive e = false -> d' = d).
Proof.
  destruct (asks DriverOperation.Receive e) eqn:He.
  all: destruct e; unfold finish_receive, receive_error_requires_recovery, wipe_all, on_inner;
    munfold; try rewrite asks_spec, He; eexists; (split; [reflexivity|split; [try exact He; done|done]]).
Qed.

Lemma driver_receive_kept event i output d :
  driver_wf d -> op_wf (McReceive event i output) ->
  match driver_receive_packet (E:=E) RX event i (mcd_inner d, output) with
  | (Err e, (n', _)) =>
      asks DriverOperation.Receive e = false -> nd_data n' = nd_data (mcd_inner d)
  | _ => True
  end.
Proof.
  intros [Hwf Hb] ((message & Hm & Hp) & Hi & Ho & Hpt).
  pose proof (RxEventRef_parse_spec message Hm) as He. rewrite Hp in He.
  pose proof (rsafe_receive (E:=E) RX TX (len output) (nd_data (mcd_inner d))
    (view (nd_device (mcd_inner d))) event i Hwf He Hi Hpt
    (nd_data (mcd_inner d), nd_device (mcd_inner d), output)
    (conj (conj Hb (conj eq_refl eq_refl)) (conj eq_refl Ho))) as Hx.
  unfold driver_receive_packet, on_fst, validate_received_frame, require_controlled_port. munfold.
  destruct (receive_packet RX event i _) as [[f|e|] [[p v] l]]; cbn [map_err]; [| |done].
  - destruct Hx as [[_ [Hq _]] _]. cbn [fst snd] in Hq. subst p.
    cbn [nd_wdev_id nd_station set_device set_data].
    destruct (negb _); [done|]. by destruct (port_allows _ _).
  - destruct Hx as [[_ [[_ Hf] _]] _]. cbn [fst snd] in Hf. by destruct e as [[]| | | | | |].
Qed.

Lemma receive_path_kept event i output d :
  driver_wf d -> op_wf (McReceive event i output) ->
  path_kept DriverOperation.Receive d
    (with_buffer (MissionCriticalDriver_receive_packet (E:=E) RX event i) output d).
Proof.
  intros Hd Hop. pose proof (driver_receive_kept event i output d Hd Hop) as Hk.
  unfold with_buffer, with_local, MissionCriticalDriver_receive_packet, on_inner_buffer, ensure_ready,
    on_fst at 1, MissionCriticalDriver_state. munfold. cbn [fst snd].
  case_bool_decide; [|done].
  destruct (driver_receive_packet RX event i _) as [[f|e|] [n' l']] eqn:Hrec; [| |done].
  - destruct (received_allowed RX event i _ _ _ _ _ Hrec) as (Hp & Hst & _).
    cbn [finish_receive]. unfold enforce_received_frame. munfold. cbn [fst snd].
    by rewrite allowed_by_port by (cbn [mcd_inner]; by rewrite Hst).
  - cbn [fst snd]. pose proof (finish_receive_error e (mkMissionCriticalDriver n') l') as He.
    destruct (finish_receive (inr e) _) as [r [d' l'']]. destruct He as (e' & -> & Hr & Hd').
    unfold path_kept. rewrite Hr. intros Ha. rewrite (Hd' Ha). by apply Hk.
Qed.

Lemma transmit_path_kept wdev_id frame dscp_tos d :
  driver_wf d ->
  path_kept DriverOperation.Transmit d
    (dropping (MissionCriticalDriver_transmit (E:=E) TX wdev_id frame dscp_tos) d).
Proof.
  intros [Hwf Hb]. apply dropping_path_kept.
  unfold MissionCriticalDriver_transmit. apply ready_path_kept.
  unfold mbind at 1, M_bind at 1, lift.
  destruct (production_ethernet_type frame) as [ty|e|]; [|done..].
  unfold mbind at 1, M_bind at 1, get. destruct (negb _); [done|].
  apply finish_path_kept. unfold driver_transmit, require_controlled_port. munfold.
  destruct (negb _); [done|]. destruct (ethernet_type frame) as [[ty'|e|]|]; cbn [ok_or]; try done.
  destruct (port_allows _ _); [|done]. unfold on_nd_data, zoom.
  pose proof (psafe_transmit (E:=E) RX TX (nd_data (mcd_inner d)) (view (nd_device (mcd_inner d)))
    wdev_id frame dscp_tos Hwf (nd_data (mcd_inner d), nd_device (mcd_inner d))
    (conj Hb (conj eq_refl eq_refl))) as Hx.
  destruct (transmit TX wdev_id frame dscp_tos _) as [[t|e|] [p v]]; cbn [map_err]; [done| |done].
  destruct Hx as [_ [Hf _]]. cbn [fst snd] in Hf. destruct e as [[]| |[]| | | |]; cbn in Hf |- *; try done.
  all: by intros _; apply Hf.
Qed.

(** An error, by the specification of errors. *)
Lemma accounted_error op operation d (e : ProductionError.t E) d' :
  outcome (A:=unit) operation calm d (Err e, d') ->
  (driver_wf d -> op_wf op -> path_kept (A:=unit) operation d (Err e, d')) ->
  (unaccounted operation e -> closed (mcd_inner d'))
  /\ (~ unaccounted operation e ->
        calm (mcd_inner d) (mcd_inner d')
        /\ (driver_wf d -> op_wf op -> nd_data (mcd_inner d') = nd_data (mcd_inner d))).
Proof.
  intros Ho Hk. cbn in Ho, Hk. split.
  - intros Hu. apply recovers_spec in Hu. by rewrite Hu in Ho.
  - intros Hu. apply recovers_not in Hu. rewrite Hu in Ho. split; [exact Ho|]. intros Hd Hop.
    by apply Hk.
Qed.

Lemma mcd_path_kept op d :
  driver_wf d -> op_wf op -> path_kept (operation op) d (mcd_run (E:=E) RX TX op d).
Proof.
  intros Hd Hop. destruct op; cbn [mcd_run operation].
  - apply (command_path_kept (OpCreateInterface mac_address interface_name)).
  - apply (command_path_kept (OpSetRegulatory country user_hint_type force)).
  - apply (command_path_kept OpBringUp).
  - apply (command_path_kept OpBringDown).
  - apply (command_path_kept (OpStartScan request)).
  - apply (command_path_kept (OpRequestScanResults reason)).
  - apply (command_path_kept (OpAuthenticate request)).
  - apply (command_path_kept (OpAssociate request)).
  - apply (command_path_kept (OpSetPowerSave state)).
  - apply (command_path_kept (OpSetPowerSaveTimeout timeout_ms)).
  - apply (command_path_kept (OpDisconnect reason_code)).
  - apply finish_path_kept. pose proof (advance_asks (E:=E) elapsed_ms (mcd_inner d)) as Ha.
    by destruct (driver_advance_time elapsed_ms (mcd_inner d)) as [[u|e|] n']; [|congruence|].
  - by apply poll_path_kept.
  - by apply receive_path_kept.
  - by apply transmit_path_kept.
  - apply dropping_path_kept, finish_path_kept. pose proof (watchdog_asks (E:=E) (mcd_inner d)) as Ha.
    by destruct (watchdog_pending (mcd_inner d)) as [[b|e|] n']; [|congruence|].
  - apply finish_path_kept. pose proof (acknowledge_asks (E:=E) (mcd_inner d)) as Ha.
    by destruct (acknowledge_watchdog (mcd_inner d)) as [[b|e|] n']; [|congruence|].
Qed.
End ownership.

(** ** The coordinator under the production driver *)

Section coordinator.
Context {W E : Type} `{BusOps W E} `{DelayOps W} {sha : Sha256} {mac : HmacSha1} {aes : Aes128}.
Variable TX : Z.
Local Abbreviation PR := (Wpa2Runtime * NativeDriver W)%type.
Local Abbreviation ER := (Wpa2RuntimeError.t E).
Local Abbreviation held := (via snd (@steady W)).
(** A success leaves the driver steady. *)
Definition ok_steady {A} (m : M PR ER A) : Prop := routed held held (fun _ => true) m.

Lemma oks_keeps {A} (m : M PR ER A) : keeps held m -> ok_steady m.
Proof. intros Hm. apply routed_keeps; [by intros|exact Hm]. Qed.

Lemma oks_bind {A B} (m : M PR ER A) (f : A -> M PR ER B) :
  ok_steady m -> (forall a, ok_steady (f a)) -> ok_steady (m ≫= f).
Proof. intros Hm Hf. apply (routed_bind_same _ _); [exact Hm|exact Hf]. Qed.

Lemma held_runtime {F A} (m : M Wpa2Runtime F A) : keeps held (on_runtime m).
Proof. apply keeps_zoom. intros [r n]. unfold via. reflexivity. Qed.

Lemma held_native {F A} (m : M (NativeDriver W) F A) : keeps steady m -> keeps held (on_native m).
Proof. intros Hm. apply keeps_zoom. intros [r n]. apply Hm. Qed.

Lemma oks_fail {A} error : ok_steady (wpa2_fail (A:=A) error).
Proof. intros p. by destruct (wpa2_fail_spec (A:=A) error p) as (p' & -> & _). Qed.

Lemma oks_or_fail {A} (m : M PR ER A) : ok_steady m -> ok_steady (or_fail m).
Proof.
  intros Hm p. specialize (Hm p). unfold or_fail. munfold.
  destruct (m p) as [[a|e|] p']; [exact Hm| |done].
  by destruct (wpa2_fail_spec (A:=A) e p') as (p'' & -> & _).
Qed.

Lemma oks_security op :
  security_op op = true -> is_command op = true -> ok_steady (on_security (station_run op)).
Proof.
  intros Hs Hc [r n]. pose proof (command_calm (E:=E) op n Hc) as Ho.
  pose proof (security_no_connection (E:=E) op (nd_station n) (nd_device n) Hs) as Hn.
  unfold on_security, on_native, on_nd_station, zoom in *. munfold. cbn [fst snd] in *.
  destruct (station_run op (nd_station n, nd_device n)) as [[u|e|] [c d]]; [|done..].
  destruct Ho as [H1 H2]. by split_and!.
Qed.

Lemma steady_transmit wdev_id frame :
  keeps steady (driver_transmit (W:=W) (E:=E) TX wdev_id frame 0).
Proof. intros n. apply calm_steady, calm_transmit. Qed.

Lemma steady_group_rekey :
  keeps steady (modify (E:=E) (fun n : NativeDriver W => set_station (complete_group_rekey (nd_station n)) n)).
Proof.
  apply keeps_modify. intros n. split_and!; [done| |done]. intros Hc.
  by apply (security_no_connection (E:=E) OpCompleteGroupRekey (nd_station n) (nd_device n)).
Qed.

Ltac oks_go :=
  repeat first
    [ progress cbv zeta
    | lazymatch goal with
      | |- ok_steady (_ ≫= _) => apply oks_bind; [|intros ?]
      | |- ok_steady (or_fail _) => apply oks_or_fail
      | |- ok_steady (wpa2_fail _) => apply oks_fail
      | |- ok_steady (on_security (set_key ?k)) => by apply (oks_security (OpSetKey k))
      | |- ok_steady (on_security (key_command ?c ?k)) => by apply (oks_security (OpKeyCommand c k))
      | |- ok_steady (on_security authorize) => by apply (oks_security OpAuthorize)
      | |- ok_steady (on_runtime _) => apply oks_keeps, held_runtime
      | |- ok_steady (mapM_err _ (on_supplicant _)) => apply oks_keeps, keeps_mapM_err, held_runtime
      | |- ok_steady (mapM_err _ (on_native _)) =>
          apply oks_keeps, keeps_mapM_err, held_native, steady_transmit
      | |- ok_steady (on_native (modify _)) => apply oks_keeps, held_native, steady_group_rekey
      | |- ok_steady (mret _) => apply oks_keeps, keeps_ret; exact _
      | |- ok_steady (throw _) => apply oks_keeps, keeps_throw; exact _
      | |- ok_steady (lift _) => apply oks_keeps, keeps_lift; exact _
      | |- ok_steady get => apply oks_keeps, keeps_get; exact _
      | |- ok_steady (match ?x with _ => _ end) => destruct x
      end ].

Lemma oks_submit_key submission : ok_steady (submit_key submission).
Proof. unfold submit_key, submit_firmware_key. oks_go. Qed.

Lemma oks_submit_eapol response purpose : ok_steady (submit_eapol TX response purpose).
Proof. unfold submit_eapol. oks_go. Qed.

Lemma oks_complete command completion : ok_steady (wpa2_complete_key_install TX command completion).
Proof. unfold wpa2_complete_key_install, finish_key_install. oks_go; apply oks_submit_eapol. Qed.

Lemma oks_status command : ok_steady (dispatch_command_status TX command).
Proof.
  unfold dispatch_command_status, handle_initial_key_status, handle_authorization_status,
    handle_rekey_status, advance_initial_key, advance_group_rekey.
  oks_go; first [apply oks_submit_key|apply oks_complete].
Qed.

Lemma oks_refresh : ok_steady handle_non_command_event.
Proof. unfold handle_non_command_event. oks_go. Qed.

Lemma oks_run op : ok_steady (rt_run TX op).
Proof.
  destruct op as [frame|event|event| |elapsed]; cbn [rt_run].
  - unfold on_ethernet_frame. oks_go.
    unfold dispatch_wpa2_action, begin_pairwise_install, begin_group_install.
    oks_go; first [apply oks_submit_key|apply oks_submit_eapol].
  - unfold on_control_event. oks_go; first [apply oks_status|apply oks_refresh].
  - unfold on_transmit_done. oks_go.
    unfold dispatch_transmit_purpose, authorize_after_message4, wpa2_complete_group_rekey. oks_go.
  - apply oks_refresh.
  - unfold wpa2_advance_time. oks_go.
Qed.

Lemma coordinator_accounted op p :
  match rt_run (E:=E) TX op p with
  | (Panic, _) => True
  | (_, p') => keeps_account p.2 p'.2
  end.
Proof.
  pose proof (oks_run op p) as Hs. pose proof (rt_run_closes (E:=E) TX op p) as Hc.
  unfold closes_or in Hc. destruct (rt_run TX op p) as [[a|e|] p']; [| |done].
  - exact (steady_accounted _ _ Hs).
  - destruct Hc as (_ & _ & _ & _ & _ & Hr & Hn & _). intros _.
    split; rewrite Hr; [done|]. by intros [].
Qed.
End coordinator.

(** ** Steps of the integrated station *)

Inductive wsd_op : Type :=
  | WsAdvance (elapsed_ms : Z)
  | WsPoll (scratch_ptr : Z) (scratch : list Z)
  | WsReceive (event : RxEventRef) (packet_index : Z) (output : list Z)
  | WsTransmit (wdev_id : Z) (frame : list Z) (dscp_tos : Z).

(** The progress it reports, if any. *)
Definition wsd_run {W E} `{BusOps W E} `{DelayOps W} `{Sha256} `{HmacSha1} `{Aes128} (RX TX : Z)
    (op : wsd_op)
    : M (Wpa2StationDriver W) (SecureProductionError.t E) (option Wpa2Progress.t) :=
  match op with
  | WsAdvance elapsed_ms => Wpa2StationDriver_advance_time elapsed_ms;; mret None
  | WsPoll scratch_ptr scratch =>
      ol ← with_local scratch (Wpa2StationDriver_poll_event TX scratch_ptr);
      mret (sde_security <$> ol.1)
  | WsReceive event packet_index output =>
      rl ← with_local output (Wpa2StationDriver_receive_packet RX TX event packet_index);
      mret match rl.1 with SecureReceive.Eapol p => Some p | SecureReceive.Data _ => None end
  | WsTransmit wdev_id frame dscp_tos =>
      Wpa2StationDriver_transmit TX wdev_id frame dscp_tos;; mret None
  end.

(** The calls the station makes of a coordinator in the state [st]. *)
Inductive coordinator_call {W} (n : NativeDriver W) (st : Wpa2RuntimeState.t) : rt_op -> Prop :=
  | call_advance elapsed_ms : coordinator_call n st (RtAdvance elapsed_ms)
  | call_refresh : coordinator_call n st RtRefreshCarrier
  | call_control event :
      control_event_is_expected st event = true -> coordinator_call n st (RtControl event)
  | call_sent event :
      transmit_done_is_expected st event = true -> coordinator_call n st (RtTransmitDone event)
  | call_frame frame :
      nd_state n = DriverState.Ready -> eapol_required (nd_station n) = true ->
      coordinator_call n st (RtFrame frame).
Definition reported_progress (op : rt_op) (progress : Wpa2Progress.t) : option Wpa2Progress.t :=
  match op with RtAdvance _ => None | _ => Some progress end.

Section station.
Context {W E : Type} `{BusOps W E} `{DelayOps W} {sha : Sha256} {mac : HmacSha1} {aes : Aes128}.
Variables RX TX : Z.
Implicit Types s : Wpa2StationDriver W.

(** A step without the coordinator, or with one call of it from a driver that
    is still accounted for. *)
Definition station_step s
    (x : res (SecureProductionError.t E) (option Wpa2Progress.t) * Wpa2StationDriver W) : Prop :=
  match x with
  | (Panic, _) => True
  | (r, s') =>
      (wsd_security s' = wsd_security s
       /\ keeps_account (mcd_inner (wsd_driver s)) (mcd_inner (wsd_driver s'))
       /\ (r = Ok None \/ r = Ok (Some Wpa2Progress.NoChange)
           \/ exists e, r = Err (SecureProductionError.Production e)))
      \/ exists op n, coordinator_call n (security_state s) op
           /\ keeps_account (mcd_inner (wsd_driver s)) n
           /\ match rt_run (E:=E) TX op (wsd_security s, n) with
              | (Ok progress, p') =>
                  security_view s' = p' /\ r = Ok (reported_progress op progress)
              | (Err e, p') => security_view s' = p' /\ r = Err (SecureProductionError.Wpa2 e)
              | (Panic, _) => False
              end
  end.

Lemma outcome_account {A} o (d : MissionCriticalDriver W) (r : res (ProductionError.t E) A) d' :
  outcome o keeps_account d (r, d') -> r <> Panic -> keeps_account (mcd_inner d) (mcd_inner d').
Proof.
  intros Ho Hp. destruct r as [a|e|]; [exact Ho| |done]. unfold outcome in Ho.
  destruct (recovers o e); intros Ha; [by apply closed_accounted|exact (calm_accounted _ _ Ho Ha)].
Qed.

Lemma calm_outcome {A} o (d : MissionCriticalDriver W) (x : res (ProductionError.t E) A * MissionCriticalDriver W) :
  outcome o calm d x -> outcome o keeps_account d x.
Proof. destruct x as [[a|e|] d']; [|done..]. exact (calm_accounted _ _). Qed.

(** A call of the coordinator from the driver [d]. *)
Lemma call_step op s (d : MissionCriticalDriver W) (x : res (SecureProductionError.t E) (option Wpa2Progress.t) * Wpa2StationDriver W) :
  coordinator_call (mcd_inner d) (security_state s) op ->
  keeps_account (mcd_inner (wsd_driver s)) (mcd_inner d) ->
  (let '(r, s') := on_coordinator (rt_run (E:=E) TX op) (mkWpa2StationDriver d (wsd_security s)) in
   match r with Ok p => Ok (reported_progress op p) | Err e => Err e | Panic => Panic end = x.1
   /\ (x.1 <> Panic -> s' = x.2)) ->
  station_step s x.
Proof.
  intros Hcall Hd. unfold on_coordinator. munfold. unfold security_view at 1. cbn [wsd_security wsd_driver].
  destruct (rt_run TX op (wsd_security s, mcd_inner d)) as [[progress|e|] p'] eqn:Hrun;
    destruct x as [r s']; cbn [map_err fst snd]; intros [<- Hs]; [..|done];
    (right; exists op, (mcd_inner d); split; [exact Hcall|]; split; [exact Hd|]; rewrite Hrun;
     rewrite <-(Hs ltac:(done)); by destruct p').
Qed.

(** A step that ends in the driver. *)
Lemma driver_error_step {A} s o (r : res (ProductionError.t E) A) (d : MissionCriticalDriver W)
    (r' : res (SecureProductionError.t E) (option Wpa2Progress.t)) :
  outcome o keeps_account (wsd_driver s) (r, d) -> r <> Panic ->
  r' = Ok None \/ r' = Ok (Some Wpa2Progress.NoChange)
    \/ (exists e, r' = Err (SecureProductionError.Production e)) ->
  station_step s (r', mkWpa2StationDriver d (wsd_security s)).
Proof.
  intros Ho Hp Hr. pose proof (outcome_account o _ r d Ho Hp) as Ha.
  unfold station_step. destruct r'; [|..|done]; left; by split_and!.
Qed.

Lemma advance_step elapsed_ms s : station_step s (wsd_run (E:=E) RX TX (WsAdvance elapsed_ms) s).
Proof.
  pose proof (mcd_outcome (E:=E) RX TX (McAdvanceTime elapsed_ms) (wsd_driver s)) as Ho.
  cbn [mcd_run operation] in Ho.
  cbn [wsd_run]. unfold Wpa2StationDriver_advance_time, on_driver. munfold.
  destruct (MissionCriticalDriver_advance_time elapsed_ms (wsd_driver s)) as [[u|e|] d]; cbn [map_err];
    [| |done].
  - apply (call_step (RtAdvance elapsed_ms) s d); [constructor|exact Ho|].
    unfold on_coordinator. munfold. cbn [rt_run]. munfold.
    by destruct (wpa2_advance_time elapsed_ms _) as [[u'|e|] p'].
  - eapply driver_error_step; [exact Ho|done|]. right; right. by eexists.
Qed.

Lemma transmit_step wdev_id frame dscp_tos s :
  station_step s (wsd_run (E:=E) RX TX (WsTransmit wdev_id frame dscp_tos) s).
Proof.
  pose proof (calm_outcome _ _ _ (transmit_outcome' (E:=E) TX wdev_id frame dscp_tos (wsd_driver s))) as Ho.
  cbn [wsd_run]. unfold Wpa2StationDriver_transmit, on_driver. munfold.
  destruct (MissionCriticalDriver_transmit TX wdev_id frame dscp_tos (wsd_driver s)) as [[t|e|] d];
    cbn [map_err]; [| |done]; (eapply driver_error_step; [exact Ho|done|]); [by left|].
  right; right. by eexists.
Qed.

Lemma poll_step ptr scratch s : station_step s (wsd_run (E:=E) RX TX (WsPoll ptr scratch) s).
Proof.
  pose proof (poll_outcome (E:=E) TX ptr scratch (wsd_driver s)) as Ho.
  cbn [wsd_run]. unfold Wpa2StationDriver_poll_event, with_local, on_driver_buffer. munfold.
  unfold at_driver in Ho. cbn [fst snd] in *.
  destruct (MissionCriticalDriver_poll_event TX ptr (wsd_driver s, scratch)) as [[[event|]|e|] [d l]];
    cbn [map_err fst snd] in *; [| | |done].
  - destruct event as [ev|control|ev|done|ev|bytes]; cbn [apply_security_event].
    all: try (eapply driver_error_step; [exact Ho|done|]; by right; left).
    + unfold on_fst, apply_control_event. munfold. cbn [wsd_security].
      destruct (control_event_is_expected _ _) eqn:Hx; cbn [negb];
        [|eapply driver_error_step; [exact Ho|done|]; by right; left].
      apply (call_step (RtControl control) s d); [by constructor|exact Ho|].
      cbn [rt_run]. by destruct (on_coordinator _ _) as [[p|e|] s'].
    + unfold on_fst. apply (call_step RtRefreshCarrier s d); [by constructor|exact Ho|].
      cbn [rt_run]. by destruct (on_coordinator _ _) as [[p|e|] s'].
    + unfold on_fst, apply_transmit_done. munfold. cbn [wsd_security].
      destruct (transmit_done_is_expected _ _) eqn:Hx; cbn [negb];
        [|eapply driver_error_step; [exact Ho|done|]; by right; left].
      apply (call_step (RtTransmitDone done) s d); [by constructor|exact Ho|].
      cbn [rt_run]. by destruct (on_coordinator _ _) as [[p|e|] s'].
  - eapply driver_error_step; [exact Ho|done|]. by left.
  - eapply driver_error_step; [exact Ho|done|]. right; right. by eexists.
Qed.

(** What an accepted reception says of the driver. *)
Lemma production_received event i (d : MissionCriticalDriver W) output f d' output' :
  MissionCriticalDriver_receive_packet (E:=E) RX event i (d, output) = (Ok f, (d', output')) ->
  nd_state (mcd_inner d) = DriverState.Ready /\ nd_wdev_id (mcd_inner d) = rx_wdev_id event
  /\ port_allows (rf_ether_type f) (nd_station (mcd_inner d)) = true
  /\ nd_station (mcd_inner d') = nd_station (mcd_inner d)
  /\ nd_state (mcd_inner d') = nd_state (mcd_inner d).
Proof.
  pose proof (receive_outcome (E:=E) RX event i output d) as Ho.
  intros Hr. rewrite Hr in Ho. unfold at_driver, outcome in Ho. cbn [fst snd] in Ho.
  destruct Ho as (Hs & _). revert Hr.
  unfold MissionCriticalDriver_receive_packet, on_inner_buffer, ensure_ready, on_fst at 1.
  unfold MissionCriticalDriver_state. munfold. cbn [fst snd].
  case_bool_decide as Hr; [|done].
  destruct (driver_receive_packet RX event i _) as [[g|e|] [n' l']] eqn:Hrec; [| |done].
  - destruct (received_allowed RX event i _ _ _ _ _ Hrec) as (Hp & Hst & Hw).
    cbn [finish_receive]. unfold enforce_received_frame. munfold. cbn [fst snd].
    rewrite allowed_by_port by (cbn [mcd_inner]; by rewrite Hst).
    intros [= <- <- <-]. by split_and!.
  - unfold finish_receive, receive_error_requires_recovery. munfold. rewrite asks_spec.
    destruct e; try done; by destruct (asks _ _).
Qed.

Lemma receive_step event i output s :
  station_step s (wsd_run (E:=E) RX TX (WsReceive event i output) s).
Proof.
  pose proof (calm_outcome _ _ _ (receive_outcome (E:=E) RX event i output (wsd_driver s))) as Ho.
  pose proof (production_received event i (wsd_driver s) output) as Hr.
  cbn [wsd_run]. unfold Wpa2StationDriver_receive_packet, with_local, on_driver_buffer. munfold.
  unfold at_driver in Ho. cbn [fst snd] in *.
  destruct (MissionCriticalDriver_receive_packet RX event i (wsd_driver s, output)) as [[f|e|] [d l]];
    cbn [map_err fst snd] in *; [| |done].
  - destruct (Hr f d l eq_refl) as (Hrd & _ & Hp & Hst & Hs). unfold finish_received_packet.
    destruct (negb _) eqn:Ht; munfold; [eapply driver_error_step; [exact Ho|done|]; by left|].
    apply negb_false_iff in Ht. cbn [snd].
    destruct (slice l 0 (rf_len f)) as [payload|] eqn:Hsl; cbn [expect]; [|done].
    apply (call_step (RtFrame payload) s d); [|exact Ho|].
    { constructor; [congruence|]. rewrite Hst. unfold port_allows in Hp. by rewrite Ht in Hp. }
    unfold on_fst. cbn [rt_run].
    destruct (on_coordinator _ _) as [[p|e|] s']; [..|done];
      unfold wipe, on_slice; rewrite Hsl; munfold; cbn; done.
  - eapply driver_error_step; [exact Ho|done|]. right; right. by eexists.
Qed.

Lemma wsd_step op s : station_step s (wsd_run (E:=E) RX TX op s).
Proof.
  destruct op; [apply advance_step|apply poll_step|apply receive_step|apply transmit_step].
Qed.
End station.

(** ** Runs

    A production driver from its creation, through its operations and those of
    any integrated station that borrows it. *)

Inductive production_reach {W E P} `{BusOps W E} `{DelayOps W} `{PlatformOps W P} `{Sha256} `{HmacSha1}
    `{Aes128} (RX TX : Z) : MissionCriticalDriver W -> Prop :=
  | production_new bus rx tx ifaceindex firmware_index wdev_id d :
      MissionCriticalDriver_new RX TX bus rx tx ifaceindex firmware_index wdev_id = Ok d ->
      production_reach RX TX d
  | production_recover d trust bundle config r d' :
      production_reach RX TX d ->
      MissionCriticalDriver_recover (E:=E) (P:=P) RX TX trust bundle config d = (r, d') ->
      r <> Panic -> production_reach RX TX d'
  | production_interrupt d r d' :
      production_reach RX TX d ->
      MissionCriticalDriver_wait_for_interrupt (E:=E) (P:=P) d = (r, d') -> production_reach RX TX d'
  | production_timeouts d timeouts :
      production_reach RX TX d -> production_reach RX TX (set_station_timeouts timeouts d)
  | production_limits d command_len event_len :
      production_reach RX TX d ->
      production_reach RX TX (MissionCriticalDriver_set_fragment_limits command_len event_len d).2
  | production_step d op r d' :
      production_reach RX TX d -> mcd_run (E:=E) RX TX op d = (r, d') -> r <> Panic ->
      production_reach RX TX d'
  | production_station d security op r s' :
      production_reach RX TX d ->
      wsd_run (E:=E) RX TX op (mkWpa2StationDriver d security) = (r, s') -> r <> Panic ->
      production_reach RX TX (into_driver s').

Section runs.
Context {W E P : Type} `{BusOps W E} `{DelayOps W} `{PlatformOps W P} {sha : Sha256} {mac : HmacSha1}
  {aes : Aes128}.
Variables RX TX : Z.
Implicit Types d : MissionCriticalDriver W.

Lemma new_accounted bus rx tx ifaceindex firmware_index wdev_id d :
  MissionCriticalDriver_new RX TX bus rx tx ifaceindex firmware_index wdev_id = Ok d ->
  accounted (mcd_inner d).
Proof.
  unfold MissionCriticalDriver_new, NativeDriver_new. destruct (negb _); [done|].
  destruct (DataPath_new RX TX rx tx) as [p|e|]; [|done..]. intros [= <-]. by split.
Qed.

Lemma station_account op s r s' :
  wsd_run (E:=E) RX TX op s = (r, s') -> r <> Panic ->
  keeps_account (mcd_inner (wsd_driver s)) (mcd_inner (wsd_driver s')).
Proof.
  intros Hrun Hp. pose proof (wsd_step (E:=E) RX TX op s) as Hs. rewrite Hrun in Hs.
  assert (forall o n, keeps_account (mcd_inner (wsd_driver s)) n ->
    (match rt_run (E:=E) TX o (wsd_security s, n) with
     | (Panic, _) => False | (_, p') => security_view s' = p' end) ->
    keeps_account (mcd_inner (wsd_driver s)) (mcd_inner (wsd_driver s'))) as Hcall.
  { intros o n Hk Hv. pose proof (coordinator_accounted (E:=E) TX o (wsd_security s, n)) as Hc.
    destruct (rt_run TX o (wsd_security s, n)) as [[a|e|] p']; [..|done];
      subst p'; intros Ha; by apply Hc, Hk. }
  unfold station_step in Hs. destruct r as [o|e|]; [..|done];
    (destruct Hs as [(_ & Hk & _)|(op' & n & _ & Hk & Hv)]; [exact Hk|]; apply (Hcall op' n Hk);
     destruct (rt_run TX op' (wsd_security s, n)) as [[a|e'|] p']; by destruct Hv).
Qed.

Lemma reach_accounted d :
  production_reach (E:=E) (P:=P) RX TX d -> accounted (mcd_inner d).
Proof.
  induction 1 as [bus rx tx i f w d Hnew|d trust bundle config r d' _ IH Hr Hp|d r d' _ IH Hr
    |d timeouts _ IH|d c e _ IH|d op r d' _ IH Hr Hp|d security op r s' _ IH Hr Hp].
  - by eapply new_accounted.
  - pose proof (recover_accounted (E:=E) (P:=P) RX TX trust bundle config (mcd_inner d)) as Ha.
    unfold MissionCriticalDriver_recover, on_inner, zoom in Hr.
    destruct (recover RX TX trust bundle config (mcd_inner d)) as [r0 n'].
    injection Hr as <- <-. by destruct r0.
  - assert (keeps calm (wait_for_interrupt (W:=W) (E:=E) (P:=P))) as Hk by apply keeps_mapM_err, calm_rpu.
    specialize (Hk (mcd_inner d)). unfold MissionCriticalDriver_wait_for_interrupt, on_inner, zoom in Hr.
    destruct (wait_for_interrupt (mcd_inner d)) as [r0 n']. injection Hr as <- <-.
    by apply (calm_accounted _ _ Hk).
  - destruct IH as [H1' H2']. split; [exact H1'|exact H2'].
  - assert (keeps sure (set_fragment_limits (W:=W) c e)) as Hk by (unfold set_fragment_limits; sure_go).
    unfold MissionCriticalDriver_set_fragment_limits, on_inner, zoom.
    pose proof (calm_device _ Hk (mcd_inner d)) as Hc.
    destruct (on_nd_device _ (mcd_inner d)) as [r0 n']. by apply (calm_accounted _ _ Hc).
  - pose proof (mcd_outcome (E:=E) RX TX op d) as Ho. rewrite Hr in Ho.
    by apply (outcome_account _ _ _ _ Ho Hp).
  - by apply (station_account op (mkWpa2StationDriver d security) r s' Hr Hp).
Qed.

(** The steps on a given driver. *)
Lemma reach_recover trust bundle config d :
  production_reach (E:=E) (P:=P) RX TX d ->
  succeeded (MissionCriticalDriver_recover (E:=E) (P:=P) RX TX trust bundle config d).1 = true ->
  production_reach (E:=E) (P:=P) RX TX
    (MissionCriticalDriver_recover (E:=E) (P:=P) RX TX trust bundle config d).2.
Proof.
  destruct (MissionCriticalDriver_recover RX TX trust bundle config d) as [r d'] eqn:Hr.
  intros Hd Hs. eapply production_recover; [exact Hd|exact Hr|by destruct r].
Qed.

Lemma reach_step op d :
  production_reach (E:=E) (P:=P) RX TX d -> succeeded (mcd_run (E:=E) RX TX op d).1 = true ->
  production_reach (E:=E) (P:=P) RX TX (mcd_run (E:=E) RX TX op d).2.
Proof.
  destruct (mcd_run RX TX op d) as [r d'] eqn:Hr.
  intros Hd Hs. eapply production_step; [exact Hd|exact Hr|by destruct r].
Qed.
End runs.

(** ** Receptions of the station *)

Section receptions.
Context {W E : Type} `{BusOps W E} `{DelayOps W} {sha : Sha256} {mac : HmacSha1} {aes : Aes128}.
Variables RX TX : Z.

(** A frame the port refuses is wiped with the whole buffer. *)
Lemma production_refused event i (d : MissionCriticalDriver W) output ty d' output' :
  MissionCriticalDriver_receive_packet (E:=E) RX event i (d, output)
  = (Err (ProductionError.ControlledPortClosed ty), (d', output')) ->
  port_allows ty (nd_station (mcd_inner d)) = false /\ output' = zeros (len output').
Proof.
  unfold MissionCriticalDriver_receive_packet, on_inner_buffer, ensure_ready, on_fst at 1.
  unfold MissionCriticalDriver_state. munfold. cbn [fst snd].
  case_bool_decide as Hr; [|done].
  destruct (driver_receive_packet RX event i _) as [[g|e|] [n' l']] eqn:Hrec; [| |done].
  - destruct (received_allowed RX event i _ _ _ _ _ Hrec) as (Hp & Hst & Hw).
    cbn [finish_receive]. unfold enforce_received_frame. munfold. cbn [fst snd].
    rewrite allowed_by_port by (cbn [mcd_inner]; by rewrite Hst). done.
  - unfold finish_receive, receive_error_requires_recovery, wipe_all. munfold. rewrite asks_spec.
    destruct e; try (by destruct (asks _ _)). intros [= <- <- <-]. split.
    + revert Hrec. unfold driver_receive_packet, on_fst, validate_received_frame,
        require_controlled_port. munfold.
      destruct (receive_packet RX event i _) as [[f|e|] [[p dv] l]]; cbn [map_err]; [|done..].
      cbn [nd_wdev_id nd_station set_device set_data]. destruct (negb _); [done|].
      destruct (port_allows _ _) eqn:Hp; [done|]. by intros [= <- <- <- <-].
    + cbn [snd]. by rewrite len_zeros by apply len_nonneg.
Qed.

(** An EAPOL frame was received into the buffer, and its bytes, but none after
    it, are wiped. *)
Definition eapol_wiped event i (dl : MissionCriticalDriver W * list Z) (output' : list Z) : Prop :=
  exists f x, MissionCriticalDriver_receive_packet (E:=E) RX event i dl = (Ok f, x)
    /\ rf_ether_type f = EAPOL_ETHERTYPE /\ rf_len f <= len x.2
    /\ output' = zeros (rf_len f) ++ drop (Z.to_nat (rf_len f)) x.2.

Lemma wiped_prefix (l c : list Z) n :
  slice l 0 n = Some c ->
  n <= len l /\ splice l 0 (zeros (len c)) = zeros n ++ drop (Z.to_nat n) l.
Proof.
  intros Hs. pose proof (slice_len _ _ _ _ Hs) as Hc. destruct (slice_Some _ _ _ _ Hs) as (H1' & H2' & _).
  rewrite Hc, Z.sub_0_r. split; [lia|]. unfold splice.
  replace (Z.to_nat 0 + length (zeros n))%nat with (Z.to_nat n); [done|].
  unfold zeros. rewrite length_replicate. lia.
Qed.
End receptions.
Arguments eapol_wiped {W E _}.

(** * Properties *)


(** C6: in every run of a production driver, failed watchdog checks and the steps of any integrated
    WPA2 station included: outside [Ready] the controlled port is closed and no frame at all is
    allowed, and while the firmware may be given commands no delivery is in doubt.  A frame is
    transmitted only in [Ready] and when the port allows its type. *)
Theorem production_fails_closed {W E P} `{BusOps W E} `{DelayOps W} `{PlatformOps W P} `{Sha256}
    `{HmacSha1} `{Aes128} RX TX (d : MissionCriticalDriver W) :
  production_reach (E:=E) (P:=P) RX TX d ->
  (MissionCriticalDriver_state d <> DriverState.Ready ->
     MissionCriticalDriver_controlled_port_open d = false
     /\ forall ether_type, frame_allowed ether_type d = false)
  /\ (MissionCriticalDriver_state d = DriverState.Ready
      \/ MissionCriticalDriver_state d = DriverState.WaitingForSystemInit ->
      dev_recovery_required (nd_device (mcd_inner d)) = false)
  /\ forall wdev_id frame dscp_tos token d',
       MissionCriticalDriver_transmit (E:=E) TX wdev_id frame dscp_tos d = (Ok token, d') ->
       MissionCriticalDriver_state d = DriverState.Ready /\ wdev_id = nd_wdev_id (mcd_inner d)
       /\ exists ether_type, ethernet_type (E:=E) frame = Some (Ok ether_type)
                             /\ port_allows ether_type (nd_station (mcd_inner d)) = true.
Proof.
  intros Hr. destruct (reach_accounted RX TX d Hr) as [Hc Hd]. split_and!.
  - intros Hs. destruct (Hc Hs) as [Hsec Hau].
    unfold MissionCriticalDriver_controlled_port_open, frame_allowed, controlled_port_open, eapol_required.
    rewrite Hsec, Hau, andb_false_r. split; [done|]. intros ty. apply andb_false_r.
  - exact Hd.
  - intros wdev_id frame dscp_tos token d'. unfold MissionCriticalDriver_transmit, ensure_ready. munfold.
    case_bool_decide as Hs; [|done].
    destruct (production_ethernet_type frame) as [ty|e|]; [|done..]. destruct (negb (frame_allowed _ _)); [done|].
    unfold on_inner, driver_transmit, require_controlled_port. munfold.
    destruct (negb (wdev_id =? nd_wdev_id (mcd_inner d))) eqn:Hw.
    { unfold finish_driver. cbn. by intros ?. }
    apply negb_false_iff, Z.eqb_eq in Hw.
    destruct (ethernet_type frame) as [[ty'|e|]|] eqn:Hty; cbn [ok_or]; try done.
    + destruct (port_allows ty' _) eqn:Hp; [|done]. intros _. split_and!; [done..|by exists ty'].
    + unfold ethernet_type in Hty. destruct (_ <? _); [done|]. unfold index in Hty.
      destruct (nthZ frame 12); [|done]. by destruct (nthZ frame 13).
Qed.



(** ** A concrete boot through the production API *)

Definition init_done_bytes : list Z :=
  host_message_bytes HostMessageType.System false
    (system_event_bytes (SystemEventId.to_u32 SystemEventId.InitDone) []).
(** The answers of the bus: the boot, then the event that ends it. *)
Definition production_replies : list (option (list Z)) :=
  boot_replies ++ [Some (to_le 4 0xb0001000); Some (take 12 init_done_bytes); Some init_done_bytes].
Definition cold_production : MissionCriticalDriver script :=
  from_native (cold_driver production_replies).
Definition booted_production
    : res (RecoveryError.t unit unit) FirmwareReport * MissionCriticalDriver script :=
  @MissionCriticalDriver_recover script unit unit _ _ _ sum_sha256 8 2 witness_trust witness_bundle
    boot_config_8 cold_production.
Definition ready_production : res (ProductionError.t unit) unit * MissionCriticalDriver script :=
  mcd_run 8 2 (McPollEvent 0 (zeros 64)) booted_production.2.

Example ready_production_ok :
  succeeded booted_production.1 = true /\ succeeded ready_production.1 = true
  /\ MissionCriticalDriver_state ready_production.2 = DriverState.Ready.
Proof. by vm_compute. Qed.

(** The native driver creates an interface only with the address it was
    configured with; the production driver does not ask. *)
Theorem interface_address_unchecked :
  let mac := [2; 0; 0; 0; 0; 9] in
  nd_configured_mac (mcd_inner ready_production.2) = Some [2; 0; 0; 0; 0; 1]
  /\ (create_station_interface (E:=unit) 0 mac [] (mcd_inner ready_production.2)).1
     = Err DriverError.ConfigurationMismatch
  /\ (mcd_run (E:=unit) 8 2 (McCreateInterface mac []) ready_production.2).1 = Ok tt.
Proof. by vm_compute. Qed.

(** A buffer too small for the packet is no reason to start over. *)
Definition small_reception : mcd_op := McReceive (sample_rx_event 54 0) 0 (zeros 20).

Lemma ready_production_wf : driver_wf (E:=unit) 8 2 ready_production.2.
Proof.
  split; [|apply replies_okb_ok; by vm_compute].
  constructor; vm_compute; repeat split; congruence.
Qed.


(** The reception of the witness fails, for want of 34 bytes. *)
Example small_reception_refused :
  (mcd_run (E:=unit) 8 2 small_reception ready_production.2).1
  = Err (ProductionError.Driver (DriverError.Data (DataError.OutputTooSmall 54 20))).
Proof. by vm_compute. Qed.

Example production_fails_closed_witness :
  let d := ready_production.2 in
  MissionCriticalDriver_state d = DriverState.Ready
  /\ ((MissionCriticalDriver_state d <> DriverState.Ready ->
         MissionCriticalDriver_controlled_port_open d = false
         /\ forall ether_type, frame_allowed ether_type d = false)
      /\ (MissionCriticalDriver_state d = DriverState.Ready
          \/ MissionCriticalDriver_state d = DriverState.WaitingForSystemInit ->
          dev_recovery_required (nd_device (mcd_inner d)) = false)
      /\ forall wdev_id frame dscp_tos token d',
           MissionCriticalDriver_transmit (E:=unit) 2 wdev_id frame dscp_tos d = (Ok token, d') ->
           MissionCriticalDriver_state d = DriverState.Ready /\ wdev_id = nd_wdev_id (mcd_inner d)
           /\ exists ether_type, ethernet_type (E:=unit) frame = Some (Ok ether_type)
                                 /\ port_allows ether_type (nd_station (mcd_inner d)) = true).
Proof.
  split; [by vm_compute|].
  apply (@production_fails_closed script unit unit _ _ _ sum_sha256 sum_hmac null_cipher 8 2
    ready_production.2).
  unfold ready_production. apply reach_step; [|by vm_compute].
  unfold booted_production. apply reach_recover; [|by vm_compute].
  apply (production_new 8 2 (mkScript production_replies []) 1600 1600 0 0 0). reflexivity.
Defined.
