(* ===== verification/Embassy.v ===== *)
(** * Embassy: the network queue shared with embassy-net (src/src/embassy.rs)

    One receive slot and one transmit slot in static memory, claimed and
    released through atomic ownership states by any number of tasks without a
    lock.  A method is a program of atomic operations ([prog]); tasks take steps
    in any interleaving, here over one memory; the memory model of Rust is the
    subject of [EmbassyTasks].
    The wakers of embassy-sync are only notified; waking has no effect on the
    memory. *)

From stdpp Require Import relations.
From S2P Require Import Prelude Station Runtime Production.

Definition FREE : Z := 0.
Definition READY : Z := 1.
Definition CLIENT : Z := 2.
Definition PRODUCER : Z := 3.

Module QueueError.
Inductive t : Type := LinkDown | RxBusy | FrameTooLarge.
End QueueError.

Module TxOutcome.
Inductive t : Type := Submitted | WouldBlock | Dropped.
#[global] Instance eq_dec : EqDecision t.
Proof. solve_decision. Defined.
End TxOutcome.

(** [embassy_net_driver::LinkState] *)
Module LinkState.
Inductive t : Type := Down | Up.
#[global] Instance eq_dec : EqDecision t.
Proof. solve_decision. Defined.
End LinkState.

(** ** The shared memory *)

(** The atomics of a slot, and the two slots. *)
Inductive field : Type := State | Len | Epoch.
Inductive slot : Type := Rx | Tx.
#[global] Instance field_eq_dec : EqDecision field.
Proof. solve_decision. Defined.
#[global] Instance slot_eq_dec : EqDecision slot.
Proof. solve_decision. Defined.

Inductive waker : Type := RxWaker | TxSpaceWaker | TxReadyWaker | LinkWaker.

(** [rx_state], [rx_len], [rx_epoch] and [rx], and the same of [tx]. *)
Record Slot : Type := mkSlot { s_state : Z; s_len : Z; s_epoch : Z; s_buffer : list Z }.

Record NetworkState : Type := mkNetworkState {
  ns_link_up : bool;
  ns_link_epoch : Z;
  ns_rx : Slot;
  ns_tx : Slot }.

Definition get_slot (m : NetworkState) (s : slot) : Slot :=
  match s with Rx => ns_rx m | Tx => ns_tx m end.
Definition put_slot (m : NetworkState) (s : slot) (v : Slot) : NetworkState :=
  match s with
  | Rx => mkNetworkState (ns_link_up m) (ns_link_epoch m) v (ns_tx m)
  | Tx => mkNetworkState (ns_link_up m) (ns_link_epoch m) (ns_rx m) v
  end.
Definition get_field (v : Slot) (f : field) : Z :=
  match f with State => s_state v | Len => s_len v | Epoch => s_epoch v end.
Definition put_field (v : Slot) (f : field) (x : Z) : Slot :=
  match f with
  | State => mkSlot x (s_len v) (s_epoch v) (s_buffer v)
  | Len => mkSlot (s_state v) x (s_epoch v) (s_buffer v)
  | Epoch => mkSlot (s_state v) (s_len v) x (s_buffer v)
  end.
Definition put_buffer (v : Slot) (l : list Z) : Slot := mkSlot (s_state v) (s_len v) (s_epoch v) l.

Definition NetworkState_new (FRAME_SIZE : Z) : NetworkState :=
  let empty := mkSlot FREE 0 0 (zeros FRAME_SIZE) in mkNetworkState false 0 empty empty.

(** ** Programs of atomic operations *)

(** [core::sync::atomic::Ordering], as far as the queue uses it. *)
Inductive ordering : Type := Relaxed | Acquire | Release | AcqRel.

Inductive prog (A : Type) : Type :=
  | Ret (a : A)
  | LoadUp (o : ordering) (k : bool -> prog A)
  | SwapUp (up : bool) (o : ordering) (k : bool -> prog A)
  | LoadEpoch (o : ordering) (k : Z -> prog A)
  | AddEpoch (o : ordering) (k : prog A)
  | Load (s : slot) (f : field) (o : ordering) (k : Z -> prog A)
  | Store (s : slot) (f : field) (v : Z) (o : ordering) (k : prog A)
  | CompareExchange (s : slot) (current new : Z) (success failure : ordering) (k : bool -> prog A)
  | Read (s : slot) (n : Z) (k : list Z -> prog A)
  | Write (s : slot) (l : list Z) (k : prog A)
  | Wake (w : waker) (k : prog A)
  | Register (w : waker) (k : prog A)
  | WakeByRef (k : prog A)
  | Panicked.
Arguments Ret {A} a.
Arguments LoadUp {A} o k.
Arguments SwapUp {A} up o k.
Arguments LoadEpoch {A} o k.
Arguments AddEpoch {A} o k.
Arguments Load {A} s f o k.
Arguments Store {A} s f v o k.
Arguments CompareExchange {A} s current new success failure k.
Arguments Read {A} s n k.
Arguments Write {A} s l k.
Arguments Wake {A} w k.
Arguments Register {A} w k.
Arguments WakeByRef {A} k.
Arguments Panicked {A}.

#[export] Instance prog_ret : MRet prog := fun A a => Ret a.
#[export] Instance prog_bind : MBind prog := fun A B f =>
  fix bind (p : prog A) : prog B :=
    match p with
    | Ret a => f a
    | LoadUp o k => LoadUp o (fun v => bind (k v))
    | SwapUp up o k => SwapUp up o (fun v => bind (k v))
    | LoadEpoch o k => LoadEpoch o (fun v => bind (k v))
    | AddEpoch o k => AddEpoch o (bind k)
    | Load s fd o k => Load s fd o (fun v => bind (k v))
    | Store s fd v o k => Store s fd v o (bind k)
    | CompareExchange s current new success failure k =>
        CompareExchange s current new success failure (fun v => bind (k v))
    | Read s n k => Read s n (fun l => bind (k l))
    | Write s l k => Write s l (bind k)
    | Wake w k => Wake w (bind k)
    | Register w k => Register w (bind k)
    | WakeByRef k => WakeByRef (bind k)
    | Panicked => Panicked
    end.

(** [self.link_up.load(o)], [self.link_up.swap(up, o)], [self.link_epoch.load(o)]
    and [self.link_epoch.fetch_add(1, o)] *)
Definition load_up (o : ordering) : prog bool := LoadUp o Ret.
Definition swap_up (up : bool) (o : ordering) : prog bool := SwapUp up o Ret.
Definition load_epoch (o : ordering) : prog Z := LoadEpoch o Ret.
Definition add_epoch (o : ordering) : prog unit := AddEpoch o (Ret tt).
(** [self.rx_len.load(o)], [self.rx_len.store(v, o)] and the like *)
Definition load (s : slot) (f : field) (o : ordering) : prog Z := Load s f o Ret.
Definition store (s : slot) (f : field) (v : Z) (o : ordering) : prog unit := Store s f v o (Ret tt).
(** [self.rx_state.compare_exchange(current, new, success, failure).is_ok()] *)
Definition compare_exchange (s : slot) (current new : Z) (success failure : ordering) : prog bool :=
  CompareExchange s current new success failure Ret.
Definition wake (w : waker) : prog unit := Wake w (Ret tt).
Definition register (w : waker) : prog unit := Register w (Ret tt).
Definition wake_by_ref : prog unit := WakeByRef (Ret tt).
(** [&(&*self.tx.get())[..n]], and a closure on [&mut ..[..n]]: it may use the
    other slot meanwhile, returns a value and leaves its bytes behind; its
    accesses are not atomic. *)
Definition read_slice (s : slot) (n : Z) : prog (list Z) := Read s n Ret.
Definition write_slice (s : slot) (l : list Z) : prog unit := Write s l (Ret tt).
Definition with_slice {R} (s : slot) (n : Z) (f : list Z -> prog (R * list Z)) : prog R :=
  old ← read_slice s n;
  result ← f old;
  write_slice s result.2;;
  mret result.1.
(** [a && b], evaluated from the left. *)
Definition prog_and (a b : prog bool) : prog bool :=
  x ← a; if x : bool then b else mret false.

(** ** NetworkState *)

Section network.
Variable FRAME_SIZE : Z.

Definition NetworkState_link_state : prog LinkState.t :=
  up ← load_up Acquire;
  mret (if up : bool then LinkState.Up else LinkState.Down).

(** [for _ in 0..attempts] *)
Fixpoint active_epoch_loop (attempts : nat) : prog (option Z) :=
  match attempts with
  | O => mret None
  | Datatypes.S attempts =>
      first ← load_epoch Acquire;
      up ← load_up Acquire;
      if negb up then mret None
      else
        second ← load_epoch Acquire;
        if first =? second then mret (Some first) else active_epoch_loop attempts
  end.
Definition active_epoch : prog (option Z) := active_epoch_loop 3.

Definition epoch_is_active (epoch : Z) : prog bool :=
  prog_and (load_up Acquire) (current ← load_epoch Acquire; mret (current =? epoch)).

Definition release_rx : prog unit := store Rx Len 0 Relaxed;; store Rx State FREE Release.
Definition release_tx : prog unit := store Tx Len 0 Relaxed;; store Tx State FREE Release;; wake TxSpaceWaker.

Definition discard_ready_rx : prog unit :=
  claimed ← compare_exchange Rx READY PRODUCER AcqRel Acquire;
  if claimed : bool then release_rx else mret tt.
Definition discard_ready_tx : prog unit :=
  claimed ← compare_exchange Tx READY PRODUCER AcqRel Acquire;
  if claimed : bool then release_tx else mret tt.
Definition discard_ready_rx_epoch (epoch : Z) : prog unit :=
  current ← load Rx Epoch Acquire;
  if negb (current =? epoch) then mret tt
  else
    claimed ← compare_exchange Rx READY PRODUCER AcqRel Acquire;
    if claimed : bool then release_rx else mret tt.

Definition set_authorized_link (up : bool) : prog unit :=
  old ← swap_up up AcqRel;
  if eqb old up then mret tt
  else
    add_epoch AcqRel;;
    discard_ready_rx;;
    discard_ready_tx;;
    wake LinkWaker;;
    wake RxWaker;;
    wake TxSpaceWaker;;
    wake TxReadyWaker.

Definition confirm_reserved_tx (epoch : Z) : prog bool :=
  active ← epoch_is_active epoch;
  if active : bool then mret true else release_tx;; mret false.

Definition reserve_tx (epoch : Z) : prog bool :=
  active ← epoch_is_active epoch;
  if negb active then mret false
  else
    claimed ← compare_exchange Tx FREE CLIENT AcqRel Acquire;
    if negb claimed then mret false
    else
      store Tx Epoch epoch Release;;
      confirm_reserved_tx epoch.

Definition claimed_rx_is_current (epoch : Z) : prog bool :=
  prog_and (current ← load Rx Epoch Acquire; mret (current =? epoch)) (epoch_is_active epoch).

Definition confirm_claimed_rx (epoch : Z) : prog bool :=
  current ← claimed_rx_is_current epoch;
  if current : bool then mret true else release_rx;; mret false.

(** A READY slot of another epoch is discarded. *)
Definition claim_ready_rx (epoch : Z) : prog bool :=
  active ← epoch_is_active epoch;
  if negb active then mret false
  else
    stale ← prog_and (state ← load Rx State Acquire; mret (state =? READY))
                     (current ← load Rx Epoch Acquire; mret (negb (current =? epoch)));
    if stale : bool then discard_ready_rx;; mret false
    else compare_exchange Rx READY CLIENT AcqRel Acquire.

Definition restore_rx_after_tx_contention (epoch : Z) : prog unit :=
  current ← claimed_rx_is_current epoch;
  if current : bool then store Rx State READY Release;; wake RxWaker else release_rx.

Definition reserve_claimed_receive (epoch : Z) : prog bool :=
  confirmed ← confirm_claimed_rx epoch;
  if negb confirmed then mret false
  else
    reserved ← reserve_tx epoch;
    if reserved : bool then mret true
    else restore_rx_after_tx_contention epoch;; mret false.

Definition reserve_receive (epoch : Z) : prog bool :=
  claimed ← claim_ready_rx epoch;
  if negb claimed then mret false else reserve_claimed_receive epoch.

(** ** NetworkDriver: the side of embassy-net *)

Record RxToken : Type := mkRxToken { rt_epoch : Z }.
Record TxToken : Type := mkTxToken { tt_epoch : Z }.

Definition try_receive : prog (option (RxToken * TxToken)) :=
  o ← active_epoch;
  match o with
  | None => mret None
  | Some epoch =>
      reserved ← reserve_receive epoch;
      mret (if negb reserved then None else Some (mkRxToken epoch, mkTxToken epoch))
  end.

Definition try_transmit : prog (option TxToken) :=
  o ← active_epoch;
  match o with
  | None => mret None
  | Some epoch =>
      reserved ← reserve_tx epoch;
      mret (if negb reserved then None else Some (mkTxToken epoch))
  end.

Definition NetworkDriver_receive : prog (option (RxToken * TxToken)) :=
  tokens ← try_receive;
  match tokens with
  | Some tokens => mret (Some tokens)
  | None =>
      register LinkWaker;;
      register RxWaker;;
      register TxSpaceWaker;;
      try_receive
  end.

Definition NetworkDriver_transmit : prog (option TxToken) :=
  token ← try_transmit;
  match token with
  | Some token => mret (Some token)
  | None =>
      register LinkWaker;;
      register TxSpaceWaker;;
      try_transmit
  end.

Definition link_state_changed (first second : LinkState.t) : bool := negb (bool_decide (first = second)).

Definition NetworkDriver_link_state : prog LinkState.t :=
  first ← NetworkState_link_state;
  register LinkWaker;;
  second ← NetworkState_link_state;
  (if link_state_changed first second then wake_by_ref else mret tt);;
  mret second.

(** The fields of [Capabilities] that are set. *)
Record Capabilities : Type := mkCapabilities {
  max_transmission_unit : Z;
  max_burst_size : option Z }.
Definition capabilities : Capabilities := mkCapabilities FRAME_SIZE (Some 1).

(** [consume] and [drop] of the tokens. *)
Definition RxToken_consume {R} (token : RxToken) (f : list Z -> prog (R * list Z)) : prog R :=
  valid ← prog_and (epoch_is_active (rt_epoch token))
                   (current ← load Rx Epoch Acquire; mret (current =? rt_epoch token));
  n ← (if valid : bool then n ← load Rx Len Acquire; mret (Z.min n FRAME_SIZE) else mret 0);
  result ← with_slice Rx n f;
  release_rx;;
  mret result.
Definition RxToken_drop (token : RxToken) : prog unit := release_rx.

Definition TxToken_consume {R} (token : TxToken) (n : Z) (f : list Z -> prog (R * list Z))
    : prog R :=
  if negb (n <=? FRAME_SIZE) then Panicked
  else
    result ← with_slice Tx n f;
    current ← prog_and (epoch_is_active (tt_epoch token))
                       (current ← load Tx Epoch Acquire; mret (current =? tt_epoch token));
    (if current : bool
     then store Tx Len n Relaxed;; store Tx State READY Release;; wake TxReadyWaker
     else release_tx);;
    mret result.
Definition TxToken_drop (token : TxToken) : prog unit := release_tx.

(** ** NetworkRunner: the side of the driver *)

Definition sync_station_link (station : StationController) : prog unit :=
  set_authorized_link (controlled_port_open station).
(** [MissionCriticalDriver::sync_embassy_link] of production.rs *)
Definition sync_embassy_link {W} (d : MissionCriticalDriver W) : prog unit :=
  sync_station_link (nd_station (mcd_inner d)).
Definition NetworkRunner_link_state : prog LinkState.t := NetworkState_link_state.

Definition claim_rx_producer : prog (option QueueError.t) :=
  claimed ← compare_exchange Rx FREE PRODUCER AcqRel Acquire;
  mret (if claimed : bool then None else Some QueueError.RxBusy).

(** The error, if any. *)
Definition copy_and_publish_rx (epoch : Z) (frame : list Z) : prog (option QueueError.t) :=
  active ← epoch_is_active epoch;
  if negb active then release_rx;; mret (Some QueueError.LinkDown)
  else
    write_slice Rx frame;;
    store Rx Epoch epoch Relaxed;;
    store Rx Len (len frame) Relaxed;;
    store Rx State READY Release;;
    active ← epoch_is_active epoch;
    if negb active then discard_ready_rx_epoch epoch;; mret (Some QueueError.LinkDown)
    else wake RxWaker;; mret None.

Definition push_rx (frame : list Z) : prog (option QueueError.t) :=
  if FRAME_SIZE <? len frame then mret (Some QueueError.FrameTooLarge)
  else
    o ← active_epoch;
    match o with
    | None => mret (Some QueueError.LinkDown)
    | Some epoch =>
        busy ← claim_rx_producer;
        match busy with
        | Some error => mret (Some error)
        | None => copy_and_publish_rx epoch frame
        end
    end.

Record TxLease : Type := mkTxLease { tl_epoch : Z }.

Definition discard_stale_tx (epoch : Z) : prog bool :=
  state ← load Tx State Acquire;
  if negb (state =? READY) then mret false
  else
    current ← load Tx Epoch Acquire;
    if current =? epoch then mret false
    else discard_ready_tx;; mret true.

Definition claim_ready_tx : prog bool := compare_exchange Tx READY PRODUCER AcqRel Acquire.

Definition claimed_tx_is_current (epoch : Z) : prog bool :=
  prog_and (current ← load Tx Epoch Acquire; mret (current =? epoch)) (epoch_is_active epoch).

Definition take_tx : prog (option TxLease) :=
  o ← active_epoch;
  match o with
  | None => mret None
  | Some epoch =>
      stale ← discard_stale_tx epoch;
      if stale : bool then mret None
      else
        claimed ← claim_ready_tx;
        if negb claimed then mret None
        else
          current ← claimed_tx_is_current epoch;
          if negb current then release_tx;; mret None
          else mret (Some (mkTxLease epoch))
  end.

Definition tx_is_ready : prog bool :=
  o ← active_epoch;
  match o with
  | None => mret false
  | Some epoch =>
      prog_and (state ← load Tx State Acquire; mret (state =? READY))
               (current ← load Tx Epoch Acquire; mret (current =? epoch))
  end.

(** [true] is [Poll::Ready]. *)
Definition poll_tx_ready : prog bool :=
  ready ← tx_is_ready;
  if ready : bool then mret true
  else register TxReadyWaker;; tx_is_ready.

Definition register_tx_waker : prog unit :=
  register TxReadyWaker;;
  ready ← tx_is_ready;
  if ready : bool then wake_by_ref else mret tt.

(** [TxLease] *)
Definition is_current (lease : TxLease) : prog bool :=
  prog_and (epoch_is_active (tl_epoch lease))
           (current ← load Tx Epoch Acquire; mret (current =? tl_epoch lease)).

Definition as_slice (lease : TxLease) : prog (list Z) :=
  current ← is_current lease;
  n ← (if current : bool then n ← load Tx Len Acquire; mret (Z.min n FRAME_SIZE) else mret 0);
  read_slice Tx n.

Definition report (lease : TxLease) (outcome : TxOutcome.t) : prog unit :=
  retained ← (if bool_decide (outcome = TxOutcome.WouldBlock) then is_current lease else mret false);
  if retained : bool then store Tx State READY Release;; wake TxReadyWaker else release_tx.

Definition TxLease_drop (lease : TxLease) : prog unit :=
  current ← is_current lease;
  if current : bool then store Tx State READY Release;; wake TxReadyWaker else release_tx.
End network.

(** ** Execution *)

(** One atomic operation. *)
Definition prog_step {A} (p : prog A) (m : NetworkState) : option (prog A * NetworkState) :=
  match p with
  | Ret _ | Panicked => None
  | LoadUp _ k => Some (k (ns_link_up m), m)
  | SwapUp up _ k =>
      Some (k (ns_link_up m), mkNetworkState up (ns_link_epoch m) (ns_rx m) (ns_tx m))
  | LoadEpoch _ k => Some (k (ns_link_epoch m), m)
  | AddEpoch _ k =>
      Some (k, mkNetworkState (ns_link_up m) (u32 (ns_link_epoch m + 1)) (ns_rx m) (ns_tx m))
  | Load s f _ k => Some (k (get_field (get_slot m s) f), m)
  | Store s f v _ k => Some (k, put_slot m s (put_field (get_slot m s) f v))
  | CompareExchange s current new _ _ k =>
      if s_state (get_slot m s) =? current
      then Some (k true, put_slot m s (put_field (get_slot m s) State new))
      else Some (k false, m)
  | Read s n k =>
      match slice (s_buffer (get_slot m s)) 0 n with
      | Some l => Some (k l, m)
      | None => Some (Panicked, m)
      end
  | Write s l k =>
      match slice (s_buffer (get_slot m s)) 0 (len l) with
      | Some _ => Some (k, put_slot m s (put_buffer (get_slot m s) (splice (s_buffer (get_slot m s)) 0 l)))
      | None => Some (Panicked, m)
      end
  | Wake _ k | Register _ k | WakeByRef k => Some (k, m)
  end.

(** The tasks and the memory; a step of any task. *)
Definition tasks (A : Type) : Type := list (prog A) * NetworkState.
Inductive task_step {A} : tasks A -> tasks A -> Prop :=
  | task_runs ps m i p p' m' :
      ps !! i = Some p -> prog_step p m = Some (p', m') -> task_step (ps, m) (<[i := p']> ps, m').

(** A program alone. *)
Fixpoint run {A} (p : prog A) (m : NetworkState) : option A * NetworkState :=
  match p with
  | Ret a => (Some a, m)
  | Panicked => (None, m)
  | LoadUp _ k => run (k (ns_link_up m)) m
  | SwapUp up _ k => run (k (ns_link_up m)) (mkNetworkState up (ns_link_epoch m) (ns_rx m) (ns_tx m))
  | LoadEpoch _ k => run (k (ns_link_epoch m)) m
  | AddEpoch _ k => run k (mkNetworkState (ns_link_up m) (u32 (ns_link_epoch m + 1)) (ns_rx m) (ns_tx m))
  | Load s f _ k => run (k (get_field (get_slot m s) f)) m
  | Store s f v _ k => run k (put_slot m s (put_field (get_slot m s) f v))
  | CompareExchange s current new _ _ k =>
      if s_state (get_slot m s) =? current
      then run (k true) (put_slot m s (put_field (get_slot m s) State new))
      else run (k false) m
  | Read s n k =>
      match slice (s_buffer (get_slot m s)) 0 n with Some l => run (k l) m | None => (None, m) end
  | Write s l k =>
      match slice (s_buffer (get_slot m s)) 0 (len l) with
      | Some _ => run k (put_slot m s (put_buffer (get_slot m s) (splice (s_buffer (get_slot m s)) 0 l)))
      | None => (None, m)
      end
  | Wake _ k | Register _ k | WakeByRef k => run k m
  end.

(** ** Sessions

    What a task does with the queue, token by token. *)

Inductive event : Type :=
  | Delivered (frame : list Z)
  | Leased (frame : list Z).

(** A transmission fills [n] bytes; [None] drops the token or the lease. *)
Inductive session : Type :=
  | SPush (frame : list Z)
  | SSync (up : bool)
  | SReceive (keep : list Z -> list Z) (inside : bool) (reply : option (Z * (list Z -> list Z)))
  | SDropReceive
  | STransmit (n : Z) (fill : list Z -> list Z)
  | STake (outcome : option TxOutcome.t)
  | SPollTx
  | SRegisterTx
  | SLinkState.

Section sessions.
Variable FRAME_SIZE : Z.

Definition reply_prog (token : TxToken) (reply : option (Z * (list Z -> list Z))) : prog unit :=
  match reply with
  | None => TxToken_drop token
  | Some (n, fill) => TxToken_consume FRAME_SIZE token n (fun l => mret (tt, fill l))
  end.

(** [inside]: the reply is sent from inside the closure of the reception. *)
Definition session_prog (s : session) : prog (list event) :=
  match s with
  | SPush frame => push_rx FRAME_SIZE frame;; mret []
  | SSync up => set_authorized_link up;; mret []
  | SReceive keep inside reply =>
      tokens ← NetworkDriver_receive;
      match tokens with
      | None => mret []
      | Some (rx, tx) =>
          frame ← RxToken_consume FRAME_SIZE rx (fun l =>
                    (if inside : bool then reply_prog tx reply else mret tt);;
                    mret (l, keep l));
          (if inside : bool then mret tt else reply_prog tx reply);;
          mret [Delivered frame]
      end
  | SDropReceive =>
      tokens ← NetworkDriver_receive;
      match tokens with
      | None => mret []
      | Some (rx, tx) => TxToken_drop tx;; RxToken_drop rx;; mret []
      end
  | STransmit n fill =>
      token ← NetworkDriver_transmit;
      match token with
      | None => mret []
      | Some tx => TxToken_consume FRAME_SIZE tx n (fun l => mret (tt, fill l));; mret []
      end
  | STake outcome =>
      lease ← take_tx;
      match lease with
      | None => mret []
      | Some lease =>
          frame ← as_slice FRAME_SIZE lease;
          match outcome with Some o => report lease o | None => TxLease_drop lease end;;
          mret [Leased frame]
      end
  | SPollTx => poll_tx_ready;; mret []
  | SRegisterTx => register_tx_waker;; mret []
  | SLinkState => NetworkDriver_link_state;; mret []
  end.

(** A task runs its sessions one after the other. *)
Fixpoint task_prog (l : list session) : prog (list event) :=
  match l with
  | [] => mret []
  | s :: l =>
      events ← session_prog s;
      more ← task_prog l;
      mret (events ++ more)
  end.
End sessions.

(** * Lemmas *)

(** ** Runs without interference *)

Lemma run_bind {A B} (p : prog A) (f : A -> prog B) m :
  run (p ≫= f) m = match run p m with (Some a, m) => run (f a) m | (None, m) => (None, m) end.
Proof.
  change (p ≫= f) with (prog_bind A B f p).
  revert m. induction p; intros m; cbn [prog_bind run]; auto; case_match; auto.
Qed.

(** The slot once released. *)
Definition released (v : Slot) : Slot := mkSlot FREE 0 (s_epoch v) (s_buffer v).
Definition discarded (v : Slot) : Slot := if s_state v =? READY then released v else v.

Lemma run_epoch_is_active e m :
  run (epoch_is_active e) m = (Some (ns_link_up m && (ns_link_epoch m =? e)), m).
Proof. unfold epoch_is_active, prog_and. rewrite run_bind. cbn. by destruct (ns_link_up m). Qed.
Lemma run_active_epoch m :
  run active_epoch m = (Some (if ns_link_up m then Some (ns_link_epoch m) else None), m).
Proof. cbn. destruct (ns_link_up m); [|done]. cbn. by rewrite Z.eqb_refl. Qed.
Lemma run_discard_ready_rx m :
  run discard_ready_rx m = (Some tt, put_slot m Rx (discarded (ns_rx m))).
Proof. cbn. unfold discarded. destruct (_ =? READY); cbn; [done|by destruct m]. Qed.
Lemma run_discard_ready_tx m :
  run discard_ready_tx m = (Some tt, put_slot m Tx (discarded (ns_tx m))).
Proof. cbn. unfold discarded. destruct (_ =? READY); cbn; [done|by destruct m]. Qed.
Lemma run_set_authorized_link up m :
  run (set_authorized_link up) m =
    (Some tt, if eqb (ns_link_up m) up then m
              else mkNetworkState up (u32 (ns_link_epoch m + 1))
                     (discarded (ns_rx m)) (discarded (ns_tx m))).
Proof.
  unfold set_authorized_link. rewrite run_bind. cbn [swap_up run].
  destruct (eqb _ _) eqn:Heq; [apply eqb_prop in Heq; subst; by destruct m|].
  rewrite run_bind. cbn [add_epoch run]. rewrite run_bind, run_discard_ready_rx, run_bind.
  by rewrite run_discard_ready_tx.
Qed.
Lemma run_link m up :
  exists m', run (set_authorized_link up) m = (Some tt, m') /\ ns_link_up m' = up.
Proof.
  rewrite run_set_authorized_link. eexists. split; [done|].
  destruct (eqb _ _) eqn:Heq; [by apply eqb_prop in Heq|done].
Qed.
Lemma run_current s e m :
  run (prog_and (epoch_is_active e) (current ← load s Epoch Acquire; mret (current =? e))) m =
    (Some (ns_link_up m && (ns_link_epoch m =? e) && (s_epoch (get_slot m s) =? e)), m).
Proof.
  unfold prog_and at 1. rewrite run_bind, run_epoch_is_active. by destruct (_ && _).
Qed.
Lemma run_current' s e m :
  run (prog_and (current ← load s Epoch Acquire; mret (current =? e)) (epoch_is_active e)) m =
    (Some ((s_epoch (get_slot m s) =? e) && (ns_link_up m && (ns_link_epoch m =? e))), m).
Proof.
  unfold prog_and at 1. rewrite run_bind. cbn [run load mbind prog_bind mret prog_ret].
  destruct (_ =? e); [apply run_epoch_is_active|done].
Qed.

(** A token of an epoch that is over. *)
Lemma run_stale s e m : e <> ns_link_epoch m ->
  run (prog_and (epoch_is_active e) (current ← load s Epoch Acquire; mret (current =? e))) m = (Some false, m).
Proof.
  intros He. rewrite run_current. rewrite (proj2 (Z.eqb_neq _ _)) by done. by rewrite andb_false_r.
Qed.

Lemma run_reserve_tx m e : ns_link_up m = true -> ns_link_epoch m = e -> s_state (ns_tx m) = FREE ->
  run (reserve_tx e) m = (Some true, put_slot m Tx (mkSlot CLIENT (s_len (ns_tx m)) e (s_buffer (ns_tx m)))).
Proof.
  intros Hup <- Hfree. unfold reserve_tx. rewrite run_bind, run_epoch_is_active, Hup, Z.eqb_refl.
  cbn [andb negb]. rewrite run_bind. cbn [compare_exchange run get_slot]. rewrite Hfree. cbn [Z.eqb FREE negb].
  rewrite run_bind. cbn [store run]. unfold confirm_reserved_tx. rewrite run_bind, run_epoch_is_active.
  cbn. by rewrite Hup, Z.eqb_refl.
Qed.

Lemma slice_0 {A} (l : list A) n : 0 <= n <= len l -> slice l 0 n = Some (take (Z.to_nat n) l).
Proof.
  intros Hn. unfold slice. replace (_ && _) with true by lia. by rewrite Z.sub_0_r.
Qed.
Lemma take_splice_0 {A} (l v : list A) : take (length v) (splice l 0 v) = v.
Proof. apply (take_app_length v). Qed.
Lemma take_splice_min {A} (l v : list A) n :
  len v <= n -> take (Z.to_nat (len v `min` n)) (splice l 0 v) = v.
Proof.
  intros Hv. rewrite Z.min_l by done. unfold len. by rewrite Nat2Z.id, take_splice_0.
Qed.

Lemma run_with_slice {R} s n (g : list Z -> R) (f : list Z -> list Z) m :
  0 <= n <= len (s_buffer (get_slot m s)) -> (forall l, len (f l) = len l) ->
  let old := take (Z.to_nat n) (s_buffer (get_slot m s)) in
  run (with_slice s n (fun l => mret (g l, f l))) m =
    (Some (g old), put_slot m s (put_buffer (get_slot m s) (splice (s_buffer (get_slot m s)) 0 (f old)))).
Proof.
  intros Hn Hf old. unfold with_slice. rewrite run_bind. cbn [read_slice run].
  rewrite slice_0 by done. rewrite run_bind. cbn [mret prog_ret run]. rewrite run_bind.
  cbn [write_slice run fst snd]. rewrite slice_0; [done|]. rewrite Hf, len_take. lia.
Qed.

(** An idle queue of an authorized link. *)
Definition idle (FRAME_SIZE : Z) (m : NetworkState) : Prop :=
  ns_link_up m = true
  /\ forall s, s_state (get_slot m s) = FREE /\ len (s_buffer (get_slot m s)) = FRAME_SIZE.

(** Executes a program on a memory whose slots are known. *)
Ltac run_alone :=
  cbn; repeat (progress (rewrite ?Z.eqb_refl, ?slice_0, ?take_splice_min by (rewrite ?len_splice; lia)); cbn).

Lemma run_push_receive FRAME_SIZE m frame keep inside :
  idle FRAME_SIZE m -> len frame <= FRAME_SIZE -> len (keep frame) = len frame ->
  exists m', run (task_prog FRAME_SIZE [SPush frame; SReceive keep inside None]) m
             = (Some [Delivered frame], m') /\ idle FRAME_SIZE m'.
Proof.
  destruct m as [up e [st1 l1 e1 b1] [st2 l2 e2 b2]]. intros [Hup Hs] Hlen Hkeep.
  destruct (Hs Rx) as [H1 B1], (Hs Tx) as [H2 B2]. cbn in Hup, H1, H2, B1, B2. subst up st1 st2.
  pose proof (len_nonneg frame).
  cbn [task_prog session_prog]. unfold push_rx. rewrite (proj2 (Z.ltb_ge _ _)) by done. cbn.
  destruct inside; run_alone; (eexists; split; [done|]);
    (split; [done|]); intros []; (split; [done|]); cbn; by rewrite ?len_splice by (rewrite ?len_splice; lia).
Qed.

Lemma run_transmit_take FRAME_SIZE m n fill :
  idle FRAME_SIZE m -> 0 <= n <= FRAME_SIZE -> (forall l, len (fill l) = len l) ->
  exists old m', len old = n
    /\ run (task_prog FRAME_SIZE
              [STransmit n fill; STake (Some TxOutcome.WouldBlock); STake None;
               STake (Some TxOutcome.Submitted); STake None]) m
       = (Some [Leased (fill old); Leased (fill old); Leased (fill old)], m')
    /\ idle FRAME_SIZE m'.
Proof.
  destruct m as [up e [st1 l1 e1 b1] [st2 l2 e2 b2]]. intros [Hup Hs] Hn Hfill.
  destruct (Hs Rx) as [H1 B1], (Hs Tx) as [H2 B2]. cbn in Hup, H1, H2, B1, B2. subst up st1 st2.
  set (old := take (Z.to_nat n) b2). assert (Hold : len old = n) by (subst old; rewrite len_take; lia).
  assert (Hnew : len (fill old) = n) by by rewrite Hfill.
  exists old. cbn [task_prog session_prog]. unfold TxToken_consume, report.
  rewrite (proj2 (Z.leb_le _ _)) by lia.
  replace (bool_decide (TxOutcome.WouldBlock = _)) with true by done.
  replace (bool_decide (TxOutcome.Submitted = _)) with false by done.
  run_alone. fold old. clearbody old. subst n. rewrite Hfill in *. run_alone.
  assert (slice (splice b2 0 (fill old)) 0 (len old `min` FRAME_SIZE) = Some (fill old)) as ->.
  { rewrite <- (Hfill old), slice_0, take_splice_min; [done|..]; rewrite ?len_splice;
      rewrite ?Hfill; lia. }
  eexists. split; [done|]. split; [done|]. split; [done|].
  intros []; (split; [done|]); cbn; [done|]. by rewrite len_splice by (rewrite ?Hfill; lia).
Qed.

(** ** Schedules *)

(** The tasks, stepped in the order of a list. *)
Fixpoint schedule {A} (order : list nat) (t : tasks A) : option (tasks A) :=
  match order with
  | [] => Some t
  | i :: order =>
      match t.1 !! i with
      | Some p =>
          match prog_step p t.2 with
          | Some (p', m') => schedule order (<[i := p']> t.1, m')
          | None => None
          end
      | None => None
      end
  end.

Lemma schedule_runs {A} order (t t' : tasks A) : schedule order t = Some t' -> rtc task_step t t'.
Proof.
  revert t. induction order as [|i order IH]; intros [ps m] H; cbn in H; simplify_eq; [done|].
  repeat case_match; simplify_eq. eapply rtc_l; [|by apply IH]. by econstructor.
Qed.

(** * Properties *)

(** On an idle queue of an authorized link, a frame that fits is accepted
    and delivered unchanged, once; a frame that embassy-net fills is leased
    unchanged until the runner submits it, also after a reported WouldBlock and
    a dropped lease, and never after; the queue is idle again. *)
Theorem queue_round_trip FRAME_SIZE m frame keep inside n fill :
  idle FRAME_SIZE m -> len frame <= FRAME_SIZE -> len (keep frame) = len frame ->
  0 <= n <= FRAME_SIZE -> (forall l, len (fill l) = len l) ->
  (exists m', run (task_prog FRAME_SIZE [SPush frame; SReceive keep inside None]) m
              = (Some [Delivered frame], m') /\ idle FRAME_SIZE m')
  /\ exists old m', len old = n
    /\ run (task_prog FRAME_SIZE
              [STransmit n fill; STake (Some TxOutcome.WouldBlock); STake None;
               STake (Some TxOutcome.Submitted); STake None]) m
       = (Some [Leased (fill old); Leased (fill old); Leased (fill old)], m')
    /\ idle FRAME_SIZE m'.
Proof. intros. split; [by apply run_push_receive|by apply run_transmit_take]. Qed.

(** A link change discards the queued frames of both directions, leaves the
    slots that are claimed to their owners, and ends the epoch; a token or a
    lease of an epoch that is over sees an empty slice, queues nothing, and
    frees its slot whatever its owner does with it. *)
Theorem stale_tokens_released FRAME_SIZE m up e n fill outcome :
  ns_link_up m <> up -> e <> ns_link_epoch m -> 0 <= n <= len (s_buffer (ns_tx m)) ->
  n <= FRAME_SIZE -> (forall l, len (fill l) = len l) ->
  run (set_authorized_link up) m =
    (Some tt, mkNetworkState up (u32 (ns_link_epoch m + 1)) (discarded (ns_rx m)) (discarded (ns_tx m)))
  /\ run (RxToken_consume FRAME_SIZE (mkRxToken e) (fun l => mret (l, l))) m =
       (Some [], put_slot m Rx (released (ns_rx m)))
  /\ (exists buffer, run (TxToken_consume FRAME_SIZE (mkTxToken e) n (fun l => mret (tt, fill l))) m =
       (Some tt, put_slot m Tx (released (put_buffer (ns_tx m) buffer))))
  /\ run (as_slice FRAME_SIZE (mkTxLease e)) m = (Some [], m)
  /\ run (report (mkTxLease e) outcome) m = (Some tt, put_slot m Tx (released (ns_tx m)))
  /\ run (TxLease_drop (mkTxLease e)) m = (Some tt, put_slot m Tx (released (ns_tx m))).
Proof.
  intros Hup He Hn Hsize Hfill.
  split_and!.
  - rewrite run_set_authorized_link. destruct (eqb _ _) eqn:Heq; [by apply eqb_prop in Heq|done].
  - pose proof (len_nonneg (s_buffer (ns_rx m))). unfold RxToken_consume.
    rewrite run_bind, run_stale by done. rewrite run_bind. cbn [run mret prog_ret].
    rewrite run_bind, (run_with_slice Rx 0 (fun l => l) (fun l => l)) by done. cbn.
    unfold released. cbn. unfold splice. cbn. by rewrite drop_0.
  - unfold TxToken_consume. rewrite (proj2 (Z.leb_le _ _)) by done. cbn [negb].
    eexists. rewrite run_bind, (run_with_slice Tx n (fun _ => tt) fill) by done.
    rewrite run_bind, run_stale by done. done.
  - pose proof (len_nonneg (s_buffer (ns_tx m))). unfold as_slice, is_current.
    rewrite run_bind, run_stale by done. cbn. by rewrite slice_0.
  - unfold report, is_current. cbn [tl_epoch]. rewrite run_bind.
    destruct (bool_decide _); [by rewrite run_stale by done|done].
  - unfold TxLease_drop, is_current. rewrite run_bind, run_stale by done. done.
Qed.

(** C11: [sync_embassy_link] makes the link state of embassy-net the controlled
    port of the station; when the port is closed, embassy-net is given no token
    and the runner no lease, a received frame is refused, and nothing is ready. *)
Theorem embassy_link_follows_port {W} FRAME_SIZE (d : MissionCriticalDriver W) m frame :
  let port := controlled_port_open (nd_station (mcd_inner d)) in
  exists m', run (sync_embassy_link d) m = (Some tt, m')
    /\ run NetworkState_link_state m' = (Some (if port then LinkState.Up else LinkState.Down), m')
    /\ (port = false ->
        run NetworkDriver_receive m' = (Some None, m')
        /\ run NetworkDriver_transmit m' = (Some None, m')
        /\ run take_tx m' = (Some None, m')
        /\ run poll_tx_ready m' = (Some false, m')
        /\ run (push_rx FRAME_SIZE frame) m' =
             (Some (Some (if FRAME_SIZE <? len frame then QueueError.FrameTooLarge
                          else QueueError.LinkDown)), m')).
Proof.
  intros port. destruct (run_link m port) as (m' & Hrun & Hlink). exists m'.
  split; [exact Hrun|]. clearbody port. split; [cbn; by rewrite Hlink|]. intros ->.
  assert (Hactive : run active_epoch m' = (Some None, m')) by by rewrite run_active_epoch, Hlink.
  assert (Htry : run try_receive m' = (Some None, m')) by (unfold try_receive; by rewrite run_bind, Hactive).
  assert (Htx : run try_transmit m' = (Some None, m')) by (unfold try_transmit; by rewrite run_bind, Hactive).
  assert (Hready : run tx_is_ready m' = (Some false, m')) by (unfold tx_is_ready; by rewrite run_bind, Hactive).
  split_and!.
  - unfold NetworkDriver_receive. by rewrite run_bind, Htry.
  - unfold NetworkDriver_transmit. by rewrite run_bind, Htx.
  - unfold take_tx. by rewrite run_bind, Hactive.
  - unfold poll_tx_ready. by rewrite run_bind, Hready.
  - unfold push_rx. destruct (_ <? _); [done|]. by rewrite run_bind, Hactive.
Qed.

(** *** A wedged queue *)

(** A transmit slot published for an epoch that is over. *)
Definition wedged (FRAME_SIZE : Z) (m : NetworkState) : Prop :=
  ns_link_up m = true /\ s_state (ns_tx m) = READY /\ s_epoch (ns_tx m) <> ns_link_epoch m
  /\ len (s_buffer (ns_rx m)) = FRAME_SIZE.

(** No link change, and no [take_tx]. *)
Definition waits (x : session) : bool :=
  match x with SSync _ | STake _ => false | _ => true end.

Lemma wedged_rx FRAME_SIZE m v :
  wedged FRAME_SIZE m -> len (s_buffer v) = FRAME_SIZE -> wedged FRAME_SIZE (put_slot m Rx v).
Proof. by intros (? & ? & ? & ?) ?. Qed.

Lemma wedged_reserve_tx FRAME_SIZE m e :
  wedged FRAME_SIZE m -> run (reserve_tx e) m = (Some false, m).
Proof.
  intros (Hup & Hready & _). unfold reserve_tx. rewrite run_bind, run_epoch_is_active.
  destruct (_ && _); [|done]. cbn. by rewrite Hready.
Qed.

Lemma run_rx_is_stale e m :
  run (prog_and (state ← load Rx State Acquire; mret (state =? READY))
                (current ← load Rx Epoch Acquire; mret (negb (current =? e)))) m =
    (Some ((s_state (ns_rx m) =? READY) && negb (s_epoch (ns_rx m) =? e)), m).
Proof. unfold prog_and. rewrite run_bind. cbn. by destruct (_ =? READY). Qed.

Lemma wedged_receive FRAME_SIZE m e :
  wedged FRAME_SIZE m ->
  exists m', run (reserve_receive e) m = (Some false, m') /\ wedged FRAME_SIZE m'.
Proof.
  intros Hm. pose proof Hm as (_ & _ & _ & Hlen). unfold reserve_receive, claim_ready_rx.
  rewrite run_bind, run_bind, run_epoch_is_active. destruct (_ && _) eqn:Hactive; [|by exists m].
  cbn [negb]. rewrite run_bind, run_rx_is_stale.
  destruct (s_state (ns_rx m) =? READY) eqn:Hready; cycle 1.
  { cbn. rewrite Hready. by exists m. }
  destruct (s_epoch (ns_rx m) =? e) eqn:Hepoch; cbn [andb negb]; cycle 1.
  { rewrite run_bind, run_discard_ready_rx. eexists. split; [done|]. apply wedged_rx; [done|].
    unfold discarded. by rewrite Hready. }
  cbn [compare_exchange run get_slot]. rewrite Hready. cbn [run negb].
  set (m1 := put_slot m Rx _).
  assert (Hm1 : wedged FRAME_SIZE m1) by by apply wedged_rx.
  assert (Hcurrent : run (claimed_rx_is_current e) m1 = (Some true, m1)).
  { unfold claimed_rx_is_current. rewrite run_current'. cbn. by rewrite Hepoch, Hactive. }
  unfold reserve_claimed_receive, confirm_claimed_rx, restore_rx_after_tx_contention.
  rewrite run_bind, run_bind, Hcurrent. cbn [run mret prog_ret negb].
  rewrite run_bind, (wedged_reserve_tx FRAME_SIZE m1) by done. rewrite run_bind, run_bind, Hcurrent.
  eexists. split; [done|]. by apply wedged_rx.
Qed.

Lemma wedged_try_receive FRAME_SIZE m :
  wedged FRAME_SIZE m -> exists m', run try_receive m = (Some None, m') /\ wedged FRAME_SIZE m'.
Proof.
  intros Hm. unfold try_receive. rewrite run_bind, run_active_epoch. rewrite (proj1 Hm).
  destruct (wedged_receive FRAME_SIZE m (ns_link_epoch m) Hm) as (m' & Hrun & Hm').
  rewrite run_bind, Hrun. by exists m'.
Qed.

Lemma wedged_NetworkDriver_receive FRAME_SIZE m :
  wedged FRAME_SIZE m ->
  exists m', run NetworkDriver_receive m = (Some None, m') /\ wedged FRAME_SIZE m'.
Proof.
  intros Hm. unfold NetworkDriver_receive.
  destruct (wedged_try_receive _ _ Hm) as (m1 & Hrun & Hm1). rewrite run_bind, Hrun.
  destruct (wedged_try_receive _ _ Hm1) as (m2 & Hrun' & Hm2). by exists m2.
Qed.

Lemma wedged_NetworkDriver_transmit FRAME_SIZE m :
  wedged FRAME_SIZE m -> run NetworkDriver_transmit m = (Some None, m).
Proof.
  intros Hm. assert (Htry : run try_transmit m = (Some None, m)).
  { unfold try_transmit. rewrite run_bind, run_active_epoch, (proj1 Hm).
    by rewrite run_bind, (wedged_reserve_tx FRAME_SIZE). }
  unfold NetworkDriver_transmit. rewrite run_bind, Htry. exact Htry.
Qed.

Lemma wedged_tx_is_ready FRAME_SIZE m :
  wedged FRAME_SIZE m -> run tx_is_ready m = (Some false, m).
Proof.
  intros (Hup & Hready & He & _). unfold tx_is_ready. rewrite run_bind, run_active_epoch, Hup.
  cbn. rewrite Hready. cbn. by rewrite (proj2 (Z.eqb_neq _ _)).
Qed.

Lemma wedged_push_rx FRAME_SIZE m frame :
  wedged FRAME_SIZE m ->
  exists e m', run (push_rx FRAME_SIZE frame) m = (Some e, m') /\ wedged FRAME_SIZE m'.
Proof.
  intros Hm. pose proof Hm as (Hup & _ & _ & Hlen). pose proof (len_nonneg frame).
  unfold push_rx. destruct (FRAME_SIZE <? len frame) eqn:Hlong; [by do 2 eexists|].
  apply Z.ltb_ge in Hlong. rewrite run_bind, run_active_epoch, Hup. rewrite run_bind.
  cbn [claim_rx_producer compare_exchange run mbind prog_bind get_slot].
  destruct (_ =? FREE); cbn [run mret prog_ret]; [|by do 2 eexists].
  unfold copy_and_publish_rx. rewrite run_bind, run_epoch_is_active. cbn [put_slot ns_link_up ns_link_epoch].
  rewrite Hup, Z.eqb_refl. cbn [andb negb]. rewrite run_bind. cbn [write_slice run].
  rewrite slice_0 by (cbn; lia). rewrite run_bind. cbn [run store]. rewrite run_bind.
  cbn [run store]. rewrite run_bind. cbn [run store]. rewrite run_bind, run_epoch_is_active.
  cbn [put_slot ns_link_up ns_link_epoch]. rewrite Z.eqb_refl. do 2 eexists. split; [done|].
  split_and!; [done|apply Hm|apply Hm|]. cbn. by rewrite len_splice by lia.
Qed.

Lemma wedged_session FRAME_SIZE m x :
  wedged FRAME_SIZE m -> waits x = true ->
  exists m', run (session_prog FRAME_SIZE x) m = (Some [], m') /\ wedged FRAME_SIZE m'.
Proof.
  intros Hm Hx. destruct x; try done; cbn [session_prog]; rewrite run_bind.
  - destruct (wedged_push_rx FRAME_SIZE m frame Hm) as (e & m' & -> & Hm'). by exists m'.
  - destruct (wedged_NetworkDriver_receive _ _ Hm) as (m' & -> & Hm'). by exists m'.
  - destruct (wedged_NetworkDriver_receive _ _ Hm) as (m' & -> & Hm'). by exists m'.
  - rewrite (wedged_NetworkDriver_transmit _ _ Hm). by exists m.
  - unfold poll_tx_ready. rewrite run_bind, (wedged_tx_is_ready _ _ Hm), run_bind.
    cbn [register run]. rewrite (wedged_tx_is_ready _ _ Hm). by exists m.
  - unfold register_tx_waker. rewrite run_bind. cbn [register run].
    rewrite run_bind, (wedged_tx_is_ready _ _ Hm). by exists m.
  - unfold NetworkDriver_link_state. rewrite run_bind. cbn. by rewrite (proj1 Hm); exists m.
Qed.

Lemma wedged_task FRAME_SIZE m l :
  wedged FRAME_SIZE m -> forallb waits l = true ->
  exists m', run (task_prog FRAME_SIZE l) m = (Some [], m') /\ wedged FRAME_SIZE m'.
Proof.
  intros Hm. revert m Hm. induction l as [|x l IH]; intros m Hm Hl; [by exists m|].
  cbn in Hl. apply andb_prop in Hl as [Hx Hl]. cbn [task_prog]. rewrite run_bind.
  destruct (wedged_session _ _ _ Hm Hx) as (m1 & -> & Hm1). rewrite run_bind.
  destruct (IH m1 Hm1 Hl) as (m2 & -> & Hm2). by exists m2.
Qed.

(** A transmission during which the link goes down and up again. *)
Definition racing_sessions : list (list session) :=
  [[STransmit 1 (fun l => l)]; [SSync true; SSync false; SSync true]].
Definition racing_order : list nat :=
  replicate 8 1%nat ++ replicate 14 0%nat ++ replicate 16 1%nat ++ replicate 3 0%nat.

Definition racing_end : tasks (list event) :=
  ([Ret []; Ret []],
   mkNetworkState true 3 (mkSlot FREE 0 0 [0; 0]) (mkSlot READY 1 1 [0; 0])).

Lemma racing_runs :
  rtc task_step (map (task_prog 2) racing_sessions, NetworkState_new 2) racing_end.
Proof. apply (schedule_runs racing_order). vm_compute. reflexivity. Qed.

(** C30: the queue can be wedged.  There is an interleaving of one transmission
    with a link that goes down and up again (here with frames of two bytes: the
    transmission claims its slot before the link falls and publishes it after
    the link has come back) in which both tasks end and the transmit slot stays
    READY for an epoch that is over while the link is up.  And in every such
    state, for every frame size, any sessions that follow one after the other,
    without another link change or a [take_tx], all end and deliver nothing to
    embassy-net, and after them still: [poll_tx_ready] is pending and embassy-net
    is given no transmit token. *)
Theorem stale_publication_wedges_queue :
  (exists t, rtc task_step (map (task_prog 2) racing_sessions, NetworkState_new 2) t
     /\ t.1 = [Ret []; Ret []] /\ wedged 2 t.2)
  /\ forall FRAME_SIZE m l, wedged FRAME_SIZE m -> forallb waits l = true ->
       exists m', run (task_prog FRAME_SIZE l) m = (Some [], m') /\ wedged FRAME_SIZE m'
         /\ run poll_tx_ready m' = (Some false, m')
         /\ run NetworkDriver_transmit m' = (Some None, m').
Proof.
  split.
  - exists racing_end. split; [exact racing_runs|]. by split_and!.
  - intros FRAME_SIZE m l Hm Hl.
    destruct (wedged_task FRAME_SIZE m l Hm Hl) as (m' & Hrun & Hm').
    exists m'. split_and!; [exact Hrun|apply Hm'..| |].
    + unfold poll_tx_ready. rewrite run_bind, (wedged_tx_is_ready _ _ Hm'), run_bind.
      exact (wedged_tx_is_ready _ _ Hm').
    + by apply (wedged_NetworkDriver_transmit FRAME_SIZE).
Qed.

(** * Witnesses *)

Definition idle_queue : NetworkState :=
  mkNetworkState true 7 (mkSlot FREE 0 5 [0; 0; 0]) (mkSlot FREE 2 5 [1; 2; 3]).

Lemma queue_round_trip_witness :
  exists m', run (task_prog 3 [SPush [8; 9]; SReceive (fun l => l) true None]) idle_queue
             = (Some [Delivered [8; 9]], m') /\ idle 3 m'.
Proof.
  refine (proj1 (queue_round_trip 3 idle_queue [8; 9] (fun l => l) true 2 (fun l => l) _ _ _ _ _));
    [|done|done|lia|done].
  split; [done|]. intros []; done.
Defined.

Lemma stale_tokens_released_witness :
  run (RxToken_consume 3 (mkRxToken 6) (fun l => mret (l, l))) idle_queue
  = (Some [], put_slot idle_queue Rx (released (ns_rx idle_queue))).
Proof.
  refine (proj1 (proj2 (stale_tokens_released 3 idle_queue false 6 2 (fun l => l)
                          TxOutcome.WouldBlock _ _ _ _ _))); cbn; done.
Defined.

Lemma stale_publication_wedges_queue_witness :
  exists m', run (task_prog 2 [SPush [1]; SPollTx; SReceive (fun l => l) false None]) racing_end.2
             = (Some [], m') /\ wedged 2 m'
    /\ run poll_tx_ready m' = (Some false, m')
    /\ run NetworkDriver_transmit m' = (Some None, m').
Proof.
  apply (proj2 stale_publication_wedges_queue 2 racing_end.2); [by split_and!|reflexivity].
Defined.
