(* ===== verification/EmbassyTasks.v ===== *)
(** * EmbassyTasks: the queue of embassy.rs under the memory model of Rust

    The methods of [Embassy] are run by any number of tasks over a memory in
    which a load may return an old value: an atomic location holds every message
    that was stored to it, each with a timestamp and the view it releases, and a
    task has a view of the messages it must not read behind.  A read-modify-write
    takes the next timestamp after the message it reads; a release store passes
    the view of its task on, an acquire load takes it over, a relaxed access does
    neither.  The buffers are not atomic: an access that is not ordered after
    every earlier access of the same buffer is a data race, which is undefined
    behaviour and ends in [Panicked] here.  No load of the queue is relaxed, so
    that no store can be moved before an earlier load. *)

From stdpp Require Import relations gmap.
From S2P Require Import Prelude Embassy.

(** ** Views and messages *)

Inductive point : Type :=
  | UpPoint
  | EpochPoint
  | FieldPoint (s : slot) (f : field)
  | BufferPoint (s : slot).
#[global] Instance point_eq_dec : EqDecision point.
Proof. solve_decision. Defined.

Definition view : Type := point -> nat.
Definition view_le (V W : view) : Prop := forall p, (V p <= W p)%nat.
Definition bottom : view := fun _ => 0%nat.
Definition at_time (p : point) (t : nat) : view := fun q => if decide (q = p) then t else 0%nat.
Definition view_join (V W : view) : view := fun p => Nat.max (V p) (W p).

Record message : Type := mkMessage { m_value : Z; m_view : view }.

(** The messages of the atomics; the bytes of the buffers, and how often each
    was accessed. *)
Record weak : Type := mkWeak {
  w_messages : point -> gmap nat message;
  w_buffer : slot -> list Z;
  w_accesses : slot -> nat }.

Definition add_message (w : weak) (p : point) (t : nat) (msg : message) : weak :=
  mkWeak (fun q => if decide (q = p) then <[t := msg]> (w_messages w p) else w_messages w q)
         (w_buffer w) (w_accesses w).
Definition accessed (w : weak) (s : slot) (l : list Z) : weak :=
  mkWeak (w_messages w)
         (fun s' => if decide (s' = s) then l else w_buffer w s')
         (fun s' => if decide (s' = s) then Datatypes.S (w_accesses w s) else w_accesses w s').

Definition weak_new (FRAME_SIZE : Z) : weak :=
  mkWeak (fun _ => {[0%nat := mkMessage 0 bottom]}) (fun _ => zeros FRAME_SIZE) (fun _ => 0%nat).

Definition acquires (o : ordering) : bool :=
  match o with Acquire | AcqRel => true | _ => false end.
Definition releases (o : ordering) : bool :=
  match o with Release | AcqRel => true | _ => false end.

(** A load returns [x] and leaves the view [V']. *)
Inductive reads (w : weak) (V : view) (p : point) (o : ordering) : Z -> view -> Prop :=
  | reads_message t msg :
      w_messages w p !! t = Some msg -> (V p <= t)%nat ->
      reads w V p o (m_value msg)
        (view_join (view_join V (at_time p t)) (if acquires o then m_view msg else bottom)).

(** A store of [x]. *)
Inductive writes (w : weak) (V : view) (p : point) (o : ordering) (x : Z) : weak -> view -> Prop :=
  | writes_message t :
      (V p < t)%nat -> w_messages w p !! t = None ->
      writes w V p o x
        (add_message w p t
           (mkMessage x (if releases o then view_join V (at_time p t) else at_time p t)))
        (view_join V (at_time p t)).

(** A read-modify-write that finds [x] and leaves [y]. *)
Inductive updates (w : weak) (V : view) (p : point) (o : ordering) (x y : Z) : weak -> view -> Prop :=
  | updates_message t msg V' :
      w_messages w p !! t = Some msg -> m_value msg = x -> (V p <= t)%nat ->
      w_messages w p !! Datatypes.S t = None ->
      V' = view_join (view_join V (at_time p (Datatypes.S t)))
                     (if acquires o then m_view msg else bottom) ->
      updates w V p o x y
        (add_message w p (Datatypes.S t)
           (mkMessage y (view_join (m_view msg)
                           (if releases o then V' else at_time p (Datatypes.S t)))))
        V'.

(** An access to a buffer. *)
Definition ordered (w : weak) (V : view) (s : slot) : Prop :=
  (w_accesses w s <= V (BufferPoint s))%nat.
Definition after_access (w : weak) (V : view) (s : slot) : view :=
  view_join V (at_time (BufferPoint s) (Datatypes.S (w_accesses w s))).

Inductive weak_step {A} : prog A -> view -> weak -> prog A -> view -> weak -> Prop :=
  | step_load_up o k x V V' w :
      reads w V UpPoint o x V' -> weak_step (LoadUp o k) V w (k (negb (x =? 0))) V' w
  | step_swap_up up o k x V V' w w' :
      updates w V UpPoint o x (Z.b2z up) w' V' ->
      weak_step (SwapUp up o k) V w (k (negb (x =? 0))) V' w'
  | step_load_epoch o k x V V' w :
      reads w V EpochPoint o x V' -> weak_step (LoadEpoch o k) V w (k x) V' w
  | step_add_epoch o k x V V' w w' :
      updates w V EpochPoint o x (u32 (x + 1)) w' V' -> weak_step (AddEpoch o k) V w k V' w'
  | step_load s f o k x V V' w :
      reads w V (FieldPoint s f) o x V' -> weak_step (Load s f o k) V w (k x) V' w
  | step_store s f x o k V V' w w' :
      writes w V (FieldPoint s f) o x w' V' -> weak_step (Store s f x o k) V w k V' w'
  | step_exchange s current new success failure k V V' w w' :
      updates w V (FieldPoint s State) success current new w' V' ->
      weak_step (CompareExchange s current new success failure k) V w (k true) V' w'
  | step_exchange_fails s current new success failure k x V V' w :
      reads w V (FieldPoint s State) failure x V' -> x <> current ->
      weak_step (CompareExchange s current new success failure k) V w (k false) V' w
  | step_read s n k l V w :
      ordered w V s -> slice (w_buffer w s) 0 n = Some l ->
      weak_step (Read s n k) V w (k l) (after_access w V s) (accessed w s (w_buffer w s))
  | step_read_fails s n k V w :
      ~ ordered w V s \/ slice (w_buffer w s) 0 n = None -> weak_step (Read s n k) V w Panicked V w
  | step_write s l k old V w :
      ordered w V s -> slice (w_buffer w s) 0 (len l) = Some old ->
      weak_step (Write s l k) V w k (after_access w V s) (accessed w s (splice (w_buffer w s) 0 l))
  | step_write_fails s l k V w :
      ~ ordered w V s \/ slice (w_buffer w s) 0 (len l) = None ->
      weak_step (Write s l k) V w Panicked V w
  | step_wake wk k V w : weak_step (Wake wk k) V w k V w
  | step_register wk k V w : weak_step (Register wk k) V w k V w
  | step_wake_by_ref k V w : weak_step (WakeByRef k) V w k V w.

(** The tasks with their views; a step of any task. *)
Definition weak_tasks (A : Type) : Type := list (prog A * view) * weak.
Inductive weak_task_step {A} : weak_tasks A -> weak_tasks A -> Prop :=
  | weak_task_runs ps w i p V p' V' w' :
      ps !! i = Some (p, V) -> weak_step p V w p' V' w' ->
      weak_task_step (ps, w) (<[i := (p', V')]> ps, w').

Definition weak_start (FRAME_SIZE : Z) (ls : list (list session)) : weak_tasks (list event) :=
  (map (fun l => (task_prog FRAME_SIZE l, bottom)) ls, weak_new FRAME_SIZE).

(** ** Ownership

    A task owns a slot from the exchange that claims it to the store that
    releases it, and then knows its contents exactly, whatever the memory order
    lets the other tasks see.  [safe p o Q]: from the
    ownership [o], every run of [p], whatever the other tasks do to what it
    does not own, uses only what it owns, publishes only frames in [published]
    and ends in [Q]. *)

Record owned : Type := mkOwned { owned_rx : option Slot; owned_tx : option Slot }.
Definition nothing : owned := mkOwned None None.
Definition owns (o : owned) (s : slot) : option Slot :=
  match s with Rx => owned_rx o | Tx => owned_tx o end.
Definition with_owned (o : owned) (s : slot) (v : option Slot) : owned :=
  match s with Rx => mkOwned v (owned_tx o) | Tx => mkOwned (owned_rx o) v end.

Section safety.
Variable FRAME_SIZE : Z.
Hypothesis frame_size : 0 <= FRAME_SIZE.
(** The frames that may be published in a slot. *)
Variable published : slot -> list Z -> Prop.

Definition slot_wf (v : Slot) : Prop := len (s_buffer v) = FRAME_SIZE.
Definition publishable (s : slot) (v : Slot) : Prop :=
  0 <= s_len v <= FRAME_SIZE /\ published s (take (Z.to_nat (s_len v)) (s_buffer v)).

Fixpoint safe {A} (p : prog A) (o : owned) (Q : A -> owned -> Prop) : Prop :=
  match p with
  | Ret a => Q a o
  | Panicked => False
  | LoadUp _ k => forall up, safe (k up) o Q
  | SwapUp _ _ k => forall up, safe (k up) o Q
  | LoadEpoch _ k => forall epoch, safe (k epoch) o Q
  | AddEpoch _ k => safe k o Q
  | Load s f _ k =>
      match owns o s with
      | Some v => safe (k (get_field v f)) o Q
      | None => forall x, safe (k x) o Q
      end
  | Store s f x order k =>
      match owns o s with
      | None => False
      | Some v =>
          match f with
          | State => releases order = true /\ (x = FREE \/ x = READY /\ publishable s v)
                     /\ safe k (with_owned o s None) Q
          | _ => safe k (with_owned o s (Some (put_field v f x))) Q
          end
      end
  | CompareExchange s current new success _ k =>
      acquires success = true /\ owns o s = None /\ (current = FREE \/ current = READY) /\ (new = CLIENT \/ new = PRODUCER)
      /\ (forall v, slot_wf v -> (current = READY -> publishable s v) ->
            safe (k true) (with_owned o s (Some (put_field v State new))) Q)
      /\ safe (k false) o Q
  | Read s n k =>
      exists v, owns o s = Some v /\ 0 <= n <= FRAME_SIZE
                /\ safe (k (take (Z.to_nat n) (s_buffer v))) o Q
  | Write s l k =>
      exists v, owns o s = Some v /\ len l <= FRAME_SIZE
                /\ safe k (with_owned o s (Some (put_buffer v (splice (s_buffer v) 0 l)))) Q
  | Wake _ k | Register _ k | WakeByRef k => safe k o Q
  end.

Lemma prog_safe_mono {A} (p : prog A) o (Q Q' : A -> owned -> Prop) :
  safe p o Q -> (forall a o', Q a o' -> Q' a o') -> safe p o Q'.
Proof.
  intros Hp HQ. revert o Hp. induction p; intros own Hp; cbn [safe] in *; eauto.
  - destruct (owns own s); eauto.
  - destruct (owns own s); [|done]. destruct f; [|by eauto..]. destruct Hp as (? & ? & ?); eauto.
  - destruct Hp as (? & ? & ? & ? & ? & ?). split_and!; eauto.
  - destruct Hp as (v & ? & ? & ?). eauto.
  - destruct Hp as (v & ? & ? & ?). eauto.
Qed.

Lemma prog_safe_bind {A B} (p : prog A) (f : A -> prog B) o Q :
  safe p o (fun a o' => safe (f a) o' Q) -> safe (p ≫= f) o Q.
Proof.
  change (p ≫= f) with (prog_bind A B f p).
  revert o. induction p; intros own Hp; cbn [prog_bind safe] in *; eauto.
  - destruct (owns own s); eauto.
  - destruct (owns own s); [|done]. destruct f0; [|by eauto..]. destruct Hp as (? & ? & ?); eauto.
  - destruct Hp as (? & ? & ? & ? & ? & ?). split_and!; eauto.
  - destruct Hp as (v & ? & ? & ?). eauto.
  - destruct Hp as (v & ? & ? & ?). eauto.
Qed.

Lemma owns_with_owned o s v : owns (with_owned o s v) s = v.
Proof. by destruct s. Qed.
Lemma with_owned_owned o s v w : with_owned (with_owned o s v) s w = with_owned o s w.
Proof. by destruct s. Qed.
Lemma with_owned_none o s : owns o s = None -> with_owned o s None = o.
Proof. destruct o, s; cbn; by intros ->. Qed.

(** *** The operations of NetworkState *)

Lemma safe_epoch_is_active epoch o Q :
  (forall b, Q b o) -> safe (epoch_is_active epoch) o Q.
Proof. intros HQ. apply prog_safe_bind. cbn. by intros []; cbn. Qed.

Lemma safe_active_epoch o Q : (forall e, Q e o) -> safe active_epoch o Q.
Proof.
  intros HQ. unfold active_epoch. generalize 3%nat. intros n. induction n as [|n IH]; [apply HQ|].
  intros first []; [|apply HQ]. intros second. cbn. destruct (first =? second); [apply HQ|apply IH].
Qed.

Lemma safe_load_equal s f x o Q :
  (forall b, Q b o) -> safe (current ← load s f Acquire; mret (current =? x)) o Q.
Proof. intros HQ. cbn [safe mbind prog_bind load]. destruct (owns o s); intros; apply HQ. Qed.

Lemma safe_and a b o (Q : bool -> owned -> Prop) :
  (forall Q' : bool -> owned -> Prop, (forall x, Q' x o) -> safe a o Q') ->
  (forall Q' : bool -> owned -> Prop, (forall x, Q' x o) -> safe b o Q') ->
  (forall x, Q x o) -> safe (prog_and a b) o Q.
Proof. intros Ha Hb HQ. apply prog_safe_bind, Ha. intros []; [by apply Hb|apply HQ]. Qed.

Lemma safe_current s epoch o Q :
  (forall b, Q b o) ->
  safe (prog_and (current ← load s Epoch Acquire; mret (current =? epoch)) (epoch_is_active epoch)) o Q.
Proof.
  intros HQ. apply safe_and; [..|done]; intros ??;
    auto using safe_load_equal, safe_epoch_is_active.
Qed.

Lemma safe_current' s epoch o Q :
  (forall b, Q b o) ->
  safe (prog_and (epoch_is_active epoch) (current ← load s Epoch Acquire; mret (current =? epoch))) o Q.
Proof.
  intros HQ. apply safe_and; [..|done]; intros ??;
    auto using safe_load_equal, safe_epoch_is_active.
Qed.

Lemma safe_release_rx v o (Q : unit -> owned -> Prop) :
  owns o Rx = Some v -> Q tt (with_owned o Rx None) -> safe release_rx o Q.
Proof. intros Hv HQ. cbn in *. rewrite Hv. cbn. split_and!; [done|by left|done]. Qed.

Lemma safe_release_tx v o (Q : unit -> owned -> Prop) :
  owns o Tx = Some v -> Q tt (with_owned o Tx None) -> safe release_tx o Q.
Proof. intros Hv HQ. cbn in *. rewrite Hv. cbn. split_and!; [done|by left|done]. Qed.

(** A slot given back with the frame it holds. *)
Lemma safe_publish s v w o (Q : unit -> owned -> Prop) :
  owns o s = Some v -> publishable s v -> Q tt (with_owned o s None) ->
  safe (store s State READY Release;; wake w) o Q.
Proof. intros Hv Hp HQ. cbn [safe mbind prog_bind store]. rewrite Hv. split_and!; [done|by right|done]. Qed.

Lemma safe_discard_ready_rx o (Q : unit -> owned -> Prop) :
  owns o Rx = None -> Q tt o -> safe discard_ready_rx o Q.
Proof.
  intros Ho HQ. cbn. split_and!; [done|done|by right|by right|..]; [|done].
  intros v _ _. cbn. split_and!; [done|by left|]. by destruct o; cbn in *; subst.
Qed.

Lemma safe_discard_ready_tx o (Q : unit -> owned -> Prop) :
  owns o Tx = None -> Q tt o -> safe discard_ready_tx o Q.
Proof.
  intros Ho HQ. cbn. split_and!; [done|done|by right|by right|..]; [|done].
  intros v _ _. cbn. split_and!; [done|by left|]. by destruct o; cbn in *; subst.
Qed.

Lemma safe_discard_ready_rx_epoch epoch o (Q : unit -> owned -> Prop) :
  owns o Rx = None -> Q tt o -> safe (discard_ready_rx_epoch epoch) o Q.
Proof.
  intros Ho HQ. apply (prog_safe_bind (load Rx Epoch Acquire)). cbn [safe load]. rewrite Ho.
  intros current. destruct (current =? epoch); [|done]. by apply safe_discard_ready_rx.
Qed.

Lemma safe_set_authorized_link up o (Q : unit -> owned -> Prop) :
  owns o Rx = None -> owns o Tx = None -> Q tt o -> safe (set_authorized_link up) o Q.
Proof.
  intros Hr Ht HQ. apply (prog_safe_bind (swap_up up AcqRel)). intros old. cbn [safe].
  destruct (eqb old up); [done|]. apply (prog_safe_bind (add_epoch AcqRel)). cbn [safe add_epoch].
  apply prog_safe_bind, safe_discard_ready_rx; [done|]. by apply prog_safe_bind, safe_discard_ready_tx.
Qed.

Lemma safe_reserve_tx epoch o (Q : bool -> owned -> Prop) :
  owns o Tx = None -> (forall v, slot_wf v -> Q true (with_owned o Tx (Some v))) -> Q false o ->
  safe (reserve_tx epoch) o Q.
Proof.
  intros Ho Hsome Hnone. apply prog_safe_bind, safe_epoch_is_active. intros []; [|done].
  cbn [negb]. apply (prog_safe_bind (compare_exchange Tx FREE CLIENT AcqRel Acquire)). cbn [safe compare_exchange].
  split_and!; [done|done|by left|by left| |done]. intros v Hwf _. cbn [negb].
  apply (prog_safe_bind (store Tx Epoch epoch Release)). cbn [safe store]. rewrite owns_with_owned.
  rewrite with_owned_owned. apply prog_safe_bind, safe_epoch_is_active. intros []; [by apply Hsome|].
  apply prog_safe_bind. eapply safe_release_tx; [apply owns_with_owned|].
  by rewrite with_owned_owned, with_owned_none.
Qed.

Lemma safe_claim_ready_rx epoch o (Q : bool -> owned -> Prop) :
  owns o Rx = None ->
  (forall v, slot_wf v -> publishable Rx v -> Q true (with_owned o Rx (Some v))) -> Q false o ->
  safe (claim_ready_rx epoch) o Q.
Proof.
  intros Ho Hsome Hnone. apply prog_safe_bind, safe_epoch_is_active. intros []; [|done]. cbn [negb].
  apply prog_safe_bind, safe_and.
  - intros Q' HQ'. by apply safe_load_equal.
  - intros Q' HQ'. cbn [safe mbind prog_bind load]. rewrite Ho. intros; apply HQ'.
  - intros []; [by apply prog_safe_bind, safe_discard_ready_rx|].
    cbn [safe compare_exchange]. split_and!; [done|done|by right|by left| |done].
    intros v Hwf Hp. apply Hsome; [done|by apply Hp].
Qed.

Lemma safe_reserve_receive epoch (Q : bool -> owned -> Prop) :
  (forall v w, slot_wf v -> publishable Rx v -> slot_wf w -> Q true (mkOwned (Some v) (Some w))) ->
  Q false nothing -> safe (reserve_receive epoch) nothing Q.
Proof.
  intros Hsome Hnone. apply prog_safe_bind, safe_claim_ready_rx; [done| |done].
  intros v Hwf Hp. cbn [negb]. apply prog_safe_bind. apply prog_safe_bind, safe_current. intros [].
  - cbn [negb]. apply prog_safe_bind, safe_reserve_tx; [done|intros; by apply Hsome|].
    apply prog_safe_bind. apply prog_safe_bind, safe_current. intros [].
    + by eapply safe_publish.
    + by eapply safe_release_rx.
  - apply prog_safe_bind. by eapply safe_release_rx.
Qed.

(** *** The driver's operations *)

Lemma safe_NetworkDriver_receive (Q : option (RxToken * TxToken) -> owned -> Prop) :
  (forall v w t, slot_wf v -> publishable Rx v -> slot_wf w ->
     Q (Some t) (mkOwned (Some v) (Some w))) ->
  Q None nothing -> safe NetworkDriver_receive nothing Q.
Proof.
  intros Hsome Hnone.
  assert (Htry : forall Q' : option (RxToken * TxToken) -> owned -> Prop,
    (forall v w t, slot_wf v -> publishable Rx v -> slot_wf w ->
       Q' (Some t) (mkOwned (Some v) (Some w))) ->
    Q' None nothing -> safe try_receive nothing Q').
  { intros Q' Hs Hn. apply prog_safe_bind, safe_active_epoch. intros [epoch|]; [|done].
    apply prog_safe_bind, safe_reserve_receive; cbn; auto. }
  apply prog_safe_bind, Htry; [by auto|]. cbn [safe mbind prog_bind register]. by apply Htry.
Qed.

Lemma safe_NetworkDriver_transmit (Q : option TxToken -> owned -> Prop) :
  (forall w t, slot_wf w -> Q (Some t) (mkOwned None (Some w))) ->
  Q None nothing -> safe NetworkDriver_transmit nothing Q.
Proof.
  intros Hsome Hnone.
  assert (Htry : forall Q' : option TxToken -> owned -> Prop,
    (forall w t, slot_wf w -> Q' (Some t) (mkOwned None (Some w))) ->
    Q' None nothing -> safe try_transmit nothing Q').
  { intros Q' Hs Hn. apply prog_safe_bind, safe_active_epoch. intros [epoch|]; [|done].
    apply prog_safe_bind, safe_reserve_tx; cbn; auto. }
  apply prog_safe_bind, Htry; [by auto|]. cbn [safe mbind prog_bind register]. by apply Htry.
Qed.

Lemma safe_NetworkDriver_link_state o (Q : LinkState.t -> owned -> Prop) :
  (forall l, Q l o) -> safe NetworkDriver_link_state o Q.
Proof.
  intros HQ. cbn. intros []; cbn; intros []; cbn; apply HQ.
Qed.

(** *** The tokens *)

Lemma safe_with_slice {R} s n (f : list Z -> prog (R * list Z)) v o (Q : R -> owned -> Prop) :
  owns o s = Some v -> slot_wf v -> 0 <= n <= FRAME_SIZE ->
  safe (f (take (Z.to_nat n) (s_buffer v))) o (fun r o' =>
    owns o' s = Some v /\ len r.2 = n
    /\ Q r.1 (with_owned o' s (Some (put_buffer v (splice (s_buffer v) 0 r.2))))) ->
  safe (with_slice s n f) o Q.
Proof.
  intros Hv Hwf Hn Hf. unfold with_slice. apply (prog_safe_bind (read_slice s n)).
  exists v. split_and!; [done|lia|lia|]. apply prog_safe_bind. eapply prog_safe_mono; [exact Hf|].
  intros [r l] o' (Ho' & Hl & HQ). apply (prog_safe_bind (write_slice s l)).
  exists v. split_and!; [done|cbn in Hl; lia|exact HQ].
Qed.

Lemma safe_RxToken_consume {R} token (f : list Z -> prog (R * list Z)) v o (Q : R -> owned -> Prop) :
  owns o Rx = Some v -> slot_wf v -> publishable Rx v ->
  (forall l, l = [] \/ published Rx l ->
     safe (f l) o (fun r o' =>
       owns o' Rx = Some v /\ len r.2 = len l /\ Q r.1 (with_owned o' Rx None))) ->
  safe (RxToken_consume FRAME_SIZE token f) o Q.
Proof.
  intros Hv Hwf [Hlen Hp] Hf. unfold slot_wf in Hwf. apply prog_safe_bind, safe_current'. intros valid.
  assert (Hn : forall n, n = 0 \/ n = s_len v -> safe (with_slice Rx n f) o (fun r o' =>
    exists v', owns o' Rx = Some v' /\ Q r (with_owned o' Rx None))).
  { intros n Hn. assert (len (take (Z.to_nat n) (s_buffer v)) = n).
    { rewrite len_take, Hwf. lia. }
    eapply safe_with_slice; [done..|lia|]. eapply prog_safe_mono; [apply Hf|].
    { destruct Hn as [->| ->]; [by left|by right]. }
    intros r o' (Ho' & Hr & HQ). split_and!; [done|lia|].
    eexists. rewrite owns_with_owned, with_owned_owned. by split. }
  apply prog_safe_bind.
  destruct valid; [apply (prog_safe_bind (load Rx Len Acquire)); cbn [safe load]; rewrite Hv|];
    (apply prog_safe_bind; eapply prog_safe_mono; [apply Hn; cbn; lia|]);
    intros r o' (v' & Hv' & HQ); apply prog_safe_bind; by eapply safe_release_rx.
Qed.

Definition fill_ok (n : Z) (fill : list Z -> list Z) : Prop :=
  0 <= n <= FRAME_SIZE /\ (forall l, len (fill l) = len l)
  /\ forall l, len l = n -> published Tx (fill l).

Lemma safe_TxToken_consume token n fill w o (Q : unit -> owned -> Prop) :
  owns o Tx = Some w -> slot_wf w -> fill_ok n fill -> Q tt (with_owned o Tx None) ->
  safe (TxToken_consume FRAME_SIZE token n (fun l => mret (tt, fill l))) o Q.
Proof.
  intros Hw Hwf (Hn & Hfill & Hp) HQ. unfold slot_wf in Hwf. unfold TxToken_consume.
  rewrite (proj2 (Z.leb_le _ _)) by lia. cbn [negb]. set (old := take (Z.to_nat n) (s_buffer w)).
  assert (Hold : len old = n) by (subst old; rewrite len_take, Hwf; lia).
  apply prog_safe_bind. eapply safe_with_slice; [done..|lia|]. fold old. cbn [safe mret prog_ret fst snd].
  split_and!; [done|by rewrite Hfill|]. apply prog_safe_bind, safe_current'. intros []; apply prog_safe_bind.
  - apply (prog_safe_bind (store Tx Len n Relaxed)). cbn [safe store].
    change (owned_tx o) with (owns o Tx) in *. cbn [owns owned_tx].
    eapply safe_publish; [done|..|done]. split; [cbn; lia|]. cbn [put_field put_buffer s_len s_buffer].
    replace (Z.to_nat n) with (length (fill old)); [rewrite take_splice_0; by apply Hp|].
    specialize (Hfill old). unfold len in *. lia.
  - by eapply safe_release_tx.
Qed.

Lemma safe_reply token reply w o (Q : unit -> owned -> Prop) :
  owns o Tx = Some w -> slot_wf w ->
  (forall n fill, reply = Some (n, fill) -> fill_ok n fill) -> Q tt (with_owned o Tx None) ->
  safe (reply_prog FRAME_SIZE token reply) o Q.
Proof.
  intros Hw Hwf Hreply HQ. destruct reply as [[n fill]|].
  - eapply safe_TxToken_consume; eauto.
  - by eapply safe_release_tx.
Qed.

(** *** The runner's operations *)

Lemma safe_push_rx frame (Q : option QueueError.t -> owned -> Prop) :
  published Rx frame -> (forall e, Q e nothing) -> safe (push_rx FRAME_SIZE frame) nothing Q.
Proof.
  intros Hp HQ. unfold push_rx. destruct (FRAME_SIZE <? len frame) eqn:Hlen; [apply HQ|].
  apply Z.ltb_ge in Hlen. apply prog_safe_bind, safe_active_epoch. intros [epoch|]; [|apply HQ].
  apply prog_safe_bind. apply (prog_safe_bind (compare_exchange Rx FREE PRODUCER AcqRel Acquire)).
  split_and!; [done|done|by left|by right| |apply HQ]. intros v Hwf _. cbn [safe mret prog_ret]. unfold copy_and_publish_rx.
  apply prog_safe_bind, safe_epoch_is_active. intros []; cbn [negb].
  2:{ apply prog_safe_bind. eapply safe_release_rx; [done|apply HQ]. }
  apply (prog_safe_bind (write_slice Rx frame)). eexists. split_and!; [done|lia|]. cbn [safe].
  apply (prog_safe_bind (store Rx Epoch epoch Relaxed)). cbn [safe store owns with_owned owned_rx].
  apply (prog_safe_bind (store Rx Len (len frame) Relaxed)). cbn [safe store owns with_owned owned_rx].
  apply (prog_safe_bind (store Rx State READY Release)). cbn [safe store owns with_owned owned_rx].
  split; [done|]. split; [right; split; [done|]|].
  - unfold publishable. cbn. pose proof (len_nonneg frame). split; [lia|].
    unfold len at 1. rewrite Nat2Z.id. by rewrite take_splice_0.
  - apply prog_safe_bind, safe_epoch_is_active. intros []; cbn [negb]; [apply HQ|].
    apply prog_safe_bind, safe_discard_ready_rx_epoch; [done|apply HQ].
Qed.

Lemma safe_take_tx (Q : option TxLease -> owned -> Prop) :
  (forall v lease, slot_wf v -> publishable Tx v -> Q (Some lease) (mkOwned None (Some v))) ->
  Q None nothing -> safe take_tx nothing Q.
Proof.
  intros Hsome Hnone. apply prog_safe_bind, safe_active_epoch. intros [epoch|]; [|done].
  assert (Hclaim : safe (claimed ← claim_ready_tx;
        if negb claimed then mret None
        else
          current ← claimed_tx_is_current epoch;
          if negb current then release_tx;; mret None
          else mret (Some (mkTxLease epoch))) nothing Q).
  { apply (prog_safe_bind claim_ready_tx). split_and!; [done|done|by right|by right| |done].
    intros v Hwf Hp. apply prog_safe_bind, safe_current. intros []; cbn [negb].
    - apply Hsome; [done|by apply Hp].
    - apply prog_safe_bind. by eapply safe_release_tx. }
  apply prog_safe_bind, (prog_safe_bind (load Tx State Acquire)). intros state. cbn [safe].
  destruct (state =? READY); [|exact Hclaim]. apply (prog_safe_bind (load Tx Epoch Acquire)). intros current. cbn [safe].
  destruct (current =? epoch); [exact Hclaim|]. by apply prog_safe_bind, safe_discard_ready_tx.
Qed.

Lemma safe_as_slice lease v o (Q : list Z -> owned -> Prop) :
  owns o Tx = Some v -> slot_wf v -> publishable Tx v ->
  (forall l, l = [] \/ published Tx l -> Q l o) -> safe (as_slice FRAME_SIZE lease) o Q.
Proof.
  intros Hv Hwf [Hlen Hp] HQ. apply prog_safe_bind, safe_current'. intros valid.
  apply prog_safe_bind. destruct valid.
  - apply (prog_safe_bind (load Tx Len Acquire)). cbn [safe load]. rewrite Hv. exists v.
    split_and!; [done|cbn; lia..|]. apply HQ. right. cbn. by rewrite Z.min_l by lia.
  - exists v. split_and!; [done|lia|lia|]. apply HQ. by left.
Qed.

Lemma safe_report lease outcome v o (Q : unit -> owned -> Prop) :
  owns o Tx = Some v -> publishable Tx v -> Q tt (with_owned o Tx None) ->
  safe (report lease outcome) o Q.
Proof.
  intros Hv Hp HQ. apply prog_safe_bind.
  assert (Hend : forall b : bool, safe (if b then store Tx State READY Release;; wake TxReadyWaker
                                  else release_tx) o Q).
  { intros []; [by eapply safe_publish|by eapply safe_release_tx]. }
  destruct (bool_decide _); [|apply (Hend false)]. apply safe_current'. exact Hend.
Qed.

Lemma safe_TxLease_drop lease v o (Q : unit -> owned -> Prop) :
  owns o Tx = Some v -> publishable Tx v -> Q tt (with_owned o Tx None) ->
  safe (TxLease_drop lease) o Q.
Proof. exact (safe_report lease TxOutcome.WouldBlock v o Q). Qed.

Lemma safe_tx_is_ready o (Q : bool -> owned -> Prop) :
  (forall b, Q b o) -> safe tx_is_ready o Q.
Proof.
  intros HQ. apply prog_safe_bind, safe_active_epoch. intros [epoch|]; [|apply HQ].
  apply safe_and; [..|done]; intros Q' HQ'; by apply safe_load_equal.
Qed.

(** *** Sessions *)

(** What a session sends. *)
Definition sends (x : session) : option (Z * (list Z -> list Z)) :=
  match x with
  | STransmit n fill => Some (n, fill)
  | SReceive _ _ reply => reply
  | _ => None
  end.
Definition keeps (x : session) : option (list Z -> list Z) :=
  match x with SReceive keep _ _ => Some keep | _ => None end.

(** The closures return the slices they are given, filled. *)
Definition session_wf (x : session) : Prop :=
  (forall n fill, sends x = Some (n, fill) ->
     0 <= n <= FRAME_SIZE /\ forall l, len (fill l) = len l)
  /\ forall keep, keeps x = Some keep -> forall l, len (keep l) = len l.

(** [x] may put the frame [l] in the slot [s]. *)
Definition offers (x : session) (s : slot) (l : list Z) : Prop :=
  match s with
  | Rx => x = SPush l
  | Tx => exists n fill old, sends x = Some (n, fill) /\ len old = n /\ l = fill old
  end.

Definition event_ok (e : event) : Prop :=
  match e with
  | Delivered l => l = [] \/ published Rx l
  | Leased l => l = [] \/ published Tx l
  end.

Definition done_ok (es : list event) (o : owned) : Prop := o = nothing /\ Forall event_ok es.

Lemma done_nil : done_ok [] nothing.
Proof. by split. Qed.
Lemma done_one e : event_ok e -> done_ok [e] nothing.
Proof. intros He. split; [done|by apply list.Forall_singleton]. Qed.

Lemma safe_session x :
  session_wf x -> (forall s l, offers x s l -> published s l) ->
  safe (session_prog FRAME_SIZE x) nothing done_ok.
Proof.
  intros [Hsends Hkeeps] Hoffers.
  assert (Hfill : forall n fill, sends x = Some (n, fill) -> fill_ok n fill).
  { intros n fill Hx. destruct (Hsends _ _ Hx). split_and!; [lia|lia|done|].
    intros l Hl. apply (Hoffers Tx). by exists n, fill, l. }
  destruct x as [frame|up|keep inside reply| |n fill|outcome| | |]; apply prog_safe_bind.
  - apply safe_push_rx; [by apply (Hoffers Rx)|]. intros; apply done_nil.
  - by apply safe_set_authorized_link.
  - apply safe_NetworkDriver_receive; [|apply done_nil]. intros v w [rx tx] Hv Hp Hw.
    apply prog_safe_bind. eapply safe_RxToken_consume; [done..|]. intros l Hl.
    assert (Hend : forall o : owned, owned_tx o = None -> done_ok [Delivered l] (with_owned o Rx None)).
    { intros [] [= ->]. by apply done_one. }
    destruct inside; apply prog_safe_bind.
    + eapply safe_reply; [done..|]. split_and!; [done|by apply Hkeeps|]. by apply Hend.
    + split_and!; [done|by apply Hkeeps|]. apply prog_safe_bind.
      eapply safe_reply; [done..|]. by apply done_one.
  - apply safe_NetworkDriver_receive; [|apply done_nil]. intros v w [rx tx] Hv Hp Hw.
    apply prog_safe_bind. eapply safe_release_tx; [done|]. apply prog_safe_bind.
    eapply safe_release_rx; [done|apply done_nil].
  - apply safe_NetworkDriver_transmit; [|apply done_nil]. intros w tx Hw.
    apply prog_safe_bind. eapply safe_TxToken_consume; [done|done|by apply Hfill|apply done_nil].
  - apply safe_take_tx; [|apply done_nil]. intros v lease Hv Hp.
    apply prog_safe_bind. eapply safe_as_slice; [done..|]. intros l Hl. apply prog_safe_bind.
    destruct outcome; [eapply safe_report|eapply safe_TxLease_drop]; try done; by apply done_one.
  - apply prog_safe_bind, safe_tx_is_ready. intros []; [apply done_nil|].
    apply (prog_safe_bind (register TxReadyWaker)). apply safe_tx_is_ready. intros; apply done_nil.
  - apply (prog_safe_bind (register TxReadyWaker)). apply prog_safe_bind, safe_tx_is_ready.
    intros []; apply done_nil.
  - apply safe_NetworkDriver_link_state. intros; apply done_nil.
Qed.

Lemma safe_task l :
  Forall session_wf l -> (forall x s f, x ∈ l -> offers x s f -> published s f) ->
  safe (task_prog FRAME_SIZE l) nothing done_ok.
Proof.
  induction l as [|x l IH]; intros Hwf Hp; [apply done_nil|]. apply list.Forall_cons in Hwf as [Hx Hwf].
  apply prog_safe_bind. eapply prog_safe_mono; [apply safe_session; [done|]|].
  { intros s f Hf. apply (Hp x); [by left|done]. }
  intros es o [-> Hes]. apply prog_safe_bind. eapply prog_safe_mono; [apply IH; [done|]|].
  { intros y s f Hy. apply Hp. by right. }
  intros more o [-> Hmore]. split; [done|by apply list.Forall_app].
Qed.

(** *** Slots in the weak memory *)

Definition newest (w : weak) (p : point) (t : nat) (msg : message) : Prop :=
  w_messages w p !! t = Some msg /\ forall t', is_Some (w_messages w p !! t') -> (t' <= t)%nat.
Definition value_is (w : weak) (p : point) (x : Z) : Prop :=
  exists t msg, newest w p t msg /\ m_value msg = x.

(** The newest messages of a slot are [v]. *)
Definition holds (w : weak) (s : slot) (v : Slot) : Prop :=
  (forall f, value_is w (FieldPoint s f) (get_field v f)) /\ w_buffer w s = s_buffer v.
(** A view that is behind nothing in a slot. *)
Definition fresh (w : weak) (s : slot) (V : view) : Prop :=
  (forall f t, is_Some (w_messages w (FieldPoint s f) !! t) -> (t <= V (FieldPoint s f))%nat)
  /\ ordered w V s.
(** Of the messages that offer a slot, all but the newest have been claimed. *)
Definition spent (w : weak) (s : slot) : Prop :=
  forall t msg t', w_messages w (FieldPoint s State) !! t = Some msg ->
    m_value msg = FREE \/ m_value msg = READY ->
    is_Some (w_messages w (FieldPoint s State) !! t') -> (t < t')%nat ->
    is_Some (w_messages w (FieldPoint s State) !! Datatypes.S t).
(** The newest message passes on everything that was done to the slot. *)
Definition offered (w : weak) (s : slot) : Prop :=
  forall t msg, newest w (FieldPoint s State) t msg -> fresh w s (m_view msg).

Definition slot_state (w : weak) (s : slot) (v : Slot) : Prop :=
  holds w s v /\ slot_wf v /\ spent w s.

Definition same_slot (w w' : weak) (s : slot) : Prop :=
  (forall f, w_messages w' (FieldPoint s f) = w_messages w (FieldPoint s f))
  /\ w_buffer w' s = w_buffer w s /\ w_accesses w' s = w_accesses w s.

Lemma newest_inj w p t msg t' msg' : newest w p t msg -> newest w p t' msg' -> t = t' /\ msg = msg'.
Proof.
  intros [Ht Hmax] [Ht' Hmax']. assert (t = t') as ->.
  { apply Nat.le_antisymm; [apply Hmax'|apply Hmax]; eauto. }
  split; congruence.
Qed.

Lemma value_is_inj w p x y : value_is w p x -> value_is w p y -> x = y.
Proof.
  intros (t & msg & Ht & <-) (t' & msg' & Ht' & <-).
  by destruct (newest_inj _ _ _ _ _ _ Ht Ht') as [_ ->].
Qed.

Lemma view_join_l V W : view_le V (view_join V W).
Proof. intros p. unfold view_join. lia. Qed.
Lemma view_join_r V W : view_le W (view_join V W).
Proof. intros p. unfold view_join. lia. Qed.
Lemma view_le_refl V : view_le V V.
Proof. by intros p. Qed.
Lemma view_le_trans V W X : view_le V W -> view_le W X -> view_le V X.
Proof. intros H1 H2 p. specialize (H1 p). specialize (H2 p). lia. Qed.
#[local] Hint Resolve view_join_l view_join_r : core.
Lemma at_time_eq p t : at_time p t p = t.
Proof. unfold at_time. by destruct (decide (p = p)). Qed.

Lemma lookup_add_message w p t msg q t' :
  w_messages (add_message w p t msg) q !! t' =
    if decide (q = p /\ t' = t) then Some msg else w_messages w q !! t'.
Proof.
  cbn. destruct (decide (q = p)) as [->|Hq]; [|by rewrite decide_False by tauto].
  destruct (decide (t' = t)) as [->|Ht].
  - by rewrite lookup_insert_eq, decide_True.
  - rewrite lookup_insert_ne by done. by rewrite decide_False by tauto.
Qed.

Lemma fresh_mono w s V V' : fresh w s V -> view_le V V' -> fresh w s V'.
Proof.
  intros [Hf Ho] HV. split; [|unfold ordered in *; specialize (HV (BufferPoint s)); lia].
  intros f t Ht. specialize (Hf f t Ht). specialize (HV (FieldPoint s f)). lia.
Qed.

Lemma fresh_same w w' s V : same_slot w w' s -> fresh w s V -> fresh w' s V.
Proof.
  intros (Hm & _ & Ha) [Hf Ho]. split; [|unfold ordered in *; by rewrite Ha].
  intros f t. rewrite Hm. apply Hf.
Qed.

Lemma slot_state_same w w' s v : same_slot w w' s -> slot_state w s v -> slot_state w' s v.
Proof.
  intros (Hm & Hb & _) ([Hv Hbuf] & Hwf & Hspent).
  split; [split; [|by rewrite Hb]|split; [done|]].
  - intros f. unfold value_is, newest. rewrite Hm. apply Hv.
  - unfold spent. rewrite Hm. exact Hspent.
Qed.

Lemma offered_same w w' s : same_slot w w' s -> offered w s -> offered w' s.
Proof.
  intros Hsame Ho t msg Ht. apply (fresh_same w); [done|]. apply (Ho t).
  unfold newest in *. by rewrite <- (proj1 Hsame).
Qed.

Lemma same_slot_refl w s : same_slot w w s.
Proof. done. Qed.
Lemma same_slot_add w p t msg s :
  (forall f, p <> FieldPoint s f) -> same_slot w (add_message w p t msg) s.
Proof. intros Hp. split; [|done]. intros f. cbn. by rewrite decide_False by (intros <-; by eapply Hp). Qed.
Lemma same_slot_accessed w s l s' : s' <> s -> same_slot w (accessed w s l) s'.
Proof. intros Hs. split; [done|]. cbn. by rewrite !decide_False. Qed.

(** *** Loads, stores and updates of the task that is up to date *)

Lemma reads_grows w V p o x V' : reads w V p o x V' -> view_le V V'.
Proof. intros [t msg _ _]. eapply view_le_trans; apply view_join_l. Qed.
Lemma updates_grows w V p o x y w' V' : updates w V p o x y w' V' -> view_le V V'.
Proof. intros [t msg V1 _ _ _ _ ->]. eapply view_le_trans; apply view_join_l. Qed.

Lemma reads_newest w V s f o x y V' :
  fresh w s V -> value_is w (FieldPoint s f) x -> reads w V (FieldPoint s f) o y V' -> y = x.
Proof.
  intros [Hf _] (t & msg & [Ht Hmax] & <-) [t' msg' Ht' HV].
  assert (t = t') as ->; [|by simplify_eq].
  apply Nat.le_antisymm; [|apply Hmax; eauto]. specialize (Hf f t ltac:(eauto)). lia.
Qed.

(** The new message is the newest. *)
Lemma newest_add w p t msg :
  (forall t', is_Some (w_messages w p !! t') -> (t' <= t)%nat) -> newest (add_message w p t msg) p t msg.
Proof.
  intros Hmax. split; [by rewrite lookup_add_message, decide_True|].
  intros t'. rewrite lookup_add_message. case_decide; [lia|apply Hmax].
Qed.

Lemma value_is_add_ne w p t msg q x :
  q <> p -> value_is w q x -> value_is (add_message w p t msg) q x.
Proof.
  intros Hq (t' & msg' & [Ht' Hmax] & Hx). exists t', msg'. split; [|done]. split.
  - by rewrite lookup_add_message, decide_False by tauto.
  - intros t2. rewrite lookup_add_message, decide_False by tauto. apply Hmax.
Qed.

Lemma holds_add w s f t msg v :
  holds w s v -> (forall t', is_Some (w_messages w (FieldPoint s f) !! t') -> (t' <= t)%nat) ->
  holds (add_message w (FieldPoint s f) t msg) s (put_field v f (m_value msg)).
Proof.
  intros [Hv Hb] Hmax. split; [|by destruct f]. intros f'. destruct (decide (f' = f)) as [->|Hf].
  - replace (get_field (put_field v f (m_value msg)) f) with (m_value msg) by by destruct f.
    exists t, msg. split; [by apply newest_add|done].
  - replace (get_field (put_field v f (m_value msg)) f') with (get_field v f') by by destruct f, f'.
    apply value_is_add_ne; [congruence|apply Hv].
Qed.

Lemma fresh_add w s f t msg V :
  fresh w s V -> (t <= V (FieldPoint s f))%nat -> fresh (add_message w (FieldPoint s f) t msg) s V.
Proof.
  intros [Hf Ho] Ht. split; [|done]. intros f' t'. rewrite lookup_add_message.
  case_decide as Heq; [destruct Heq as [[= ->] ->]; done|apply Hf].
Qed.

Lemma spent_add_other w s f t msg : f <> State -> spent w s -> spent (add_message w (FieldPoint s f) t msg) s.
Proof.
  intros Hf Hs t1 msg1 t2. rewrite !lookup_add_message.
  rewrite !decide_False by (intros [[= <-] _]; done). apply Hs.
Qed.

(** A message of a claimed slot, or one after which nothing was offered. *)
Lemma spent_add_state w s t msg :
  spent w s -> (forall t', is_Some (w_messages w (FieldPoint s State) !! t') -> (t' < t)%nat) ->
  (forall t' msg', newest w (FieldPoint s State) t' msg' ->
     m_value msg' = FREE \/ m_value msg' = READY -> t = Datatypes.S t') ->
  (exists t' msg', newest w (FieldPoint s State) t' msg') ->
  spent (add_message w (FieldPoint s State) t msg) s.
Proof.
  intros Hs Hlt Hnew (tm & mm & Hm) t1 msg1 t2. rewrite !lookup_add_message.
  case_decide as H1; [destruct H1 as [_ ->]; intros [= ->]|intros Hmsg1];
    intros Hoffer; (case_decide as H2; [destruct H2 as [_ ->]; intros _|intros Ht2]); intros Hlt12.
  - lia.
  - specialize (Hlt t2 Ht2). lia.
  - destruct (decide (t1 = tm)) as [->|Hne].
    + assert (msg1 = mm) as -> by (destruct Hm; congruence). rewrite (Hnew tm mm Hm Hoffer).
      by rewrite decide_True.
    + case_decide; [done|]. eapply (Hs t1 msg1 tm); [done..|destruct Hm; eauto|].
      destruct Hm as [_ Hmax]. specialize (Hmax t1 ltac:(eauto)). lia.
  - case_decide; [done|]. by eapply Hs.
Qed.

(** *** One step *)

Definition is_offer (x : Z) : Prop := x = FREE \/ x = READY.
Definition is_claim (x : Z) : Prop := x = CLIENT \/ x = PRODUCER.
Lemma offer_not_claim x : is_offer x -> is_claim x -> False.
Proof. by intros [->| ->] [H|H]. Qed.

(** What a step does to one slot and to its ownership. *)
Inductive slot_move (s : slot) (w w' : weak) (V' : view) : option Slot -> option Slot -> Prop :=
  | slot_idle : same_slot w w' s -> slot_move s w w' V' None None
  | slot_claimed v v' :
      slot_state w s v -> is_offer (s_state v) -> is_claim (s_state v') ->
      slot_state w' s v' -> fresh w' s V' -> slot_move s w w' V' None (Some v')
  | slot_kept v v' :
      s_state v' = s_state v -> slot_state w' s v' -> fresh w' s V' ->
      slot_move s w w' V' (Some v) (Some v')
  | slot_released v v' :
      s_state v' = FREE \/ s_state v' = READY /\ publishable s v' -> slot_state w' s v' ->
      offered w' s -> slot_move s w w' V' (Some v) None.

(** What a task relies on: its slots are as it knows them and it is behind
    nothing in them; what is offered is well formed and passes everything on. *)
Definition slot_view (o : owned) (V : view) (w : weak) : Prop :=
  forall s, exists v, slot_state w s v
    /\ match owns o s with
       | Some v' => v' = v /\ fresh w s V /\ is_claim (s_state v)
       | None => (s_state v = READY -> publishable s v) /\ (is_offer (s_state v) -> offered w s)
       end.

Definition claims {A} (p : prog A) (s : slot) : Prop :=
  exists current new success failure k, p = CompareExchange s current new success failure k.

Lemma owns_with_owned_if o s v s' :
  owns (with_owned o s v) s' = if decide (s' = s) then v else owns o s'.
Proof. by destruct s, s'. Qed.

Definition moves (o : owned) (w : weak) (o' : owned) (w' : weak) (V' : view) : Prop :=
  forall s, slot_move s w w' V' (owns o s) (owns o' s).

(** A slot that a step leaves alone. *)
Lemma slot_move_same o V w w' V' s :
  slot_view o V w -> view_le V V' -> same_slot w w' s -> slot_move s w w' V' (owns o s) (owns o s).
Proof.
  intros Hview HV Hsame. destruct (Hview s) as (v & Hstate & Hs).
  destruct (owns o s) as [v'|]; [|by constructor]. destruct Hs as (-> & Hfresh & _).
  eapply slot_kept; [done|by eapply slot_state_same|].
  by eapply fresh_same, fresh_mono.
Qed.

Lemma moves_same o V w w' V' :
  slot_view o V w -> view_le V V' -> (forall s, same_slot w w' s) -> moves o w o w' V'.
Proof. intros Hview HV Hsame s. by eapply slot_move_same. Qed.

Lemma moves_one o V w w' V' s x :
  slot_view o V w -> view_le V V' -> (forall s', s' <> s -> same_slot w w' s') ->
  slot_move s w w' V' (owns o s) x -> moves o w (with_owned o s x) w' V'.
Proof.
  intros Hview HV Hsame Hmove s'. rewrite owns_with_owned_if.
  destruct (decide (s' = s)) as [->|Hs]; [done|]. eapply slot_move_same; eauto.
Qed.

Lemma same_slot_field w s f t msg s' : s' <> s -> same_slot w (add_message w (FieldPoint s f) t msg) s'.
Proof. intros Hs. apply same_slot_add. congruence. Qed.

(** A store of the owner. *)
Lemma slot_move_store s f x order v w V w' V' :
  slot_state w s v -> fresh w s V -> is_claim (s_state v) ->
  writes w V (FieldPoint s f) order x w' V' ->
  slot_state w' s (put_field v f x) /\ fresh w' s V' /\ (releases order = true -> f = State -> offered w' s).
Proof.
  intros (Hv & Hwf & Hspent) Hfresh Hclaim [t Ht Hnone].
  assert (Hlt : forall t', is_Some (w_messages w (FieldPoint s f) !! t') -> (t' < t)%nat).
  { intros t' Ht'. pose proof (proj1 Hfresh f t' Ht'). lia. }
  assert (Hfresh' : fresh (add_message w (FieldPoint s f) t
    (mkMessage x (if releases order then view_join V (at_time (FieldPoint s f) t)
                  else at_time (FieldPoint s f) t))) s (view_join V (at_time (FieldPoint s f) t))).
  { apply fresh_add; [by eapply fresh_mono|]. unfold view_join. rewrite at_time_eq. lia. }
  split_and!; [split; [|split]|done|].
  - eapply (holds_add w s f t (mkMessage x _)); [done|]. intros t' Ht'. apply Nat.lt_le_incl, Hlt, Ht'.
  - by destruct f.
  - destruct (decide (f = State)) as [->|Hf]; [|by apply spent_add_other].
    destruct (proj1 Hv State) as (tm & mm & Hm & Hmv). cbn in Hmv.
    apply spent_add_state; [done|done| |by eauto].
    intros t' msg' Hnew Hoffer. destruct (newest_inj _ _ _ _ _ _ Hm Hnew) as [_ ->].
    exfalso. eapply offer_not_claim; [exact Hoffer|]. by rewrite Hmv.
  - intros Hrel ->. intros t' msg' Hnew.
    assert (Hadd := newest_add w (FieldPoint s State) t
      (mkMessage x (if releases order then view_join V (at_time (FieldPoint s State) t)
                    else at_time (FieldPoint s State) t))).
    destruct (newest_inj _ _ _ _ _ _ Hnew (Hadd ltac:(intros t2 Ht2; apply Nat.lt_le_incl, Hlt, Ht2)))
      as [-> ->]. cbn. by rewrite Hrel in *.
Qed.

(** The exchange that claims a slot. *)
Lemma slot_move_claim s success current new v w V w' V' :
  slot_state w s v -> (is_offer (s_state v) -> offered w s) -> acquires success = true ->
  is_offer current -> is_claim new ->
  updates w V (FieldPoint s State) success current new w' V' ->
  s_state v = current /\ slot_state w' s (put_field v State new) /\ fresh w' s V'.
Proof.
  intros (Hv & Hwf & Hspent) Hoffered Hacq Hcurrent Hnew [t msg V1 Hmsg Hval HV Hnone HV1].
  assert (Hmax : newest w (FieldPoint s State) t msg).
  { split; [done|]. intros t' Ht'. destruct (decide (t < t')%nat) as [Hlt|]; [|lia].
    destruct (Hspent t msg t') as [? Hsome]; [done|by rewrite Hval|done|done|congruence]. }
  assert (Hcur : s_state v = current).
  { eapply value_is_inj; [apply (proj1 Hv State)|]. by exists t, msg. }
  assert (Hlt : forall t', is_Some (w_messages w (FieldPoint s State) !! t') -> (t' < S t)%nat).
  { intros t' Ht'. pose proof (proj2 Hmax t' Ht'). lia. }
  split; [done|]. split; [split; [|split]|].
  - eapply (holds_add w s State (S t) (mkMessage new _)); [done|].
    intros t' Ht'. apply Nat.lt_le_incl, Hlt, Ht'.
  - done.
  - apply spent_add_state; [done|done| |by eauto]. intros t' msg' Ht' _.
    by destruct (newest_inj _ _ _ _ _ _ Hmax Ht') as [-> _].
  - subst V1. rewrite Hacq. apply fresh_add.
    + eapply fresh_mono; [apply (Hoffered ltac:(by rewrite Hcur) t msg Hmax)|apply view_join_r].
    + unfold view_join at 1 2. rewrite at_time_eq. lia.
Qed.

(** An access of the owner to the buffer. *)
Lemma slot_move_access s v w V l :
  slot_state w s v -> fresh w s V -> len l = len (s_buffer v) ->
  slot_state (accessed w s l) s (put_buffer v l) /\ fresh (accessed w s l) s (after_access w V s).
Proof.
  intros ([Hv Hb] & Hwf & Hspent) [Hf Ho] Hl. split; [split; [split|split]|split].
  - intros f. replace (get_field (put_buffer v l) f) with (get_field v f) by by destruct f. apply Hv.
  - cbn. by rewrite decide_True.
  - unfold slot_wf in *. cbn. by rewrite Hl.
  - exact Hspent.
  - intros f t Ht. unfold after_access, view_join. specialize (Hf f t Ht). lia.
  - unfold ordered, after_access, view_join. cbn. rewrite decide_True by done. rewrite at_time_eq. lia.
Qed.

Lemma slice_0_inv {A} (l v : list A) n : slice l 0 n = Some v -> v = take (Z.to_nat n) l.
Proof.
  unfold slice. destruct (_ && _); [|done]. intros [= <-]. by rewrite Z.sub_0_r, drop_0.
Qed.

(** What remains of a safe program is safe with the ownership [o'] it has then. *)
Definition goes_to {A} (p p' : prog A) (o : owned) (w w' : weak) (V' : view)
    (Q : A -> owned -> Prop) : Prop :=
  exists o', safe p' o' Q /\ moves o w o' w' V'
             /\ forall s, ~ claims p s -> owns o s = None -> owns o' s = None.

Lemma goes_to_quiet {A} (p p' : prog A) o V w w' V' Q :
  slot_view o V w -> safe p' o Q -> view_le V V' -> (forall s, same_slot w w' s) ->
  goes_to p p' o w w' V' Q.
Proof. intros Hview Hp HV Hsame. exists o. split; [done|]. split; [by eapply moves_same|done]. Qed.

Lemma goes_to_reads {A} (p p' : prog A) o V w V' q x order Q :
  slot_view o V w -> safe p' o Q -> reads w V q order x V' -> goes_to p p' o w w V' Q.
Proof. intros Hview Hp Hr. eapply goes_to_quiet; [done|done|by eapply reads_grows|done]. Qed.

Lemma goes_to_updates {A} (p p' : prog A) o V w w' V' q x y order Q :
  slot_view o V w -> safe p' o Q -> (forall s f, q <> FieldPoint s f) ->
  updates w V q order x y w' V' -> goes_to p p' o w w' V' Q.
Proof.
  intros Hview Hp Hq Hu. eapply goes_to_quiet; [done|done|by eapply updates_grows|].
  intros s. destruct Hu. apply same_slot_add. intros f. apply Hq.
Qed.

Lemma goes_to_one {A} (p p' : prog A) o V w w' V' s x Q :
  slot_view o V w -> safe p' (with_owned o s x) Q -> (claims p s \/ owns o s <> None) ->
  view_le V V' -> (forall s', s' <> s -> same_slot w w' s') ->
  slot_move s w w' V' (owns o s) x -> goes_to p p' o w w' V' Q.
Proof.
  intros Hview Hp Hs HV Hother Hmove. exists (with_owned o s x). split; [done|]. split.
  - by eapply moves_one.
  - intros s' Hclaims Hs'. rewrite owns_with_owned_if. case_decide; [|done]. subst.
    by destruct Hs.
Qed.

(** A slot of the task. *)
Lemma slot_view_owned o V w s v :
  slot_view o V w -> owns o s = Some v -> slot_state w s v /\ fresh w s V /\ is_claim (s_state v).
Proof. intros Hview Hown. destruct (Hview s) as (v' & Hv & Hs). rewrite Hown in Hs.
  by destruct Hs as (-> & ? & ?).
Qed.

Lemma goes_to_load {A} (k : Z -> prog A) s f order o V w V' x Q :
  slot_view o V w -> safe (Load s f order k) o Q -> reads w V (FieldPoint s f) order x V' ->
  goes_to (Load s f order k) (k x) o w w V' Q.
Proof.
  intros Hview Hp Hr. eapply goes_to_reads; [done| |done]. cbn in Hp.
  destruct (owns o s) as [v|] eqn:Hown; [|done].
  destruct (slot_view_owned _ _ _ _ _ Hview Hown) as (Hv & Hfresh & _).
  by rewrite (reads_newest w V s f order (get_field v f) x V' Hfresh (proj1 (proj1 Hv) f) Hr).
Qed.

Lemma goes_to_store {A} (k : prog A) s f x order o V w w' V' Q :
  slot_view o V w -> safe (Store s f x order k) o Q -> writes w V (FieldPoint s f) order x w' V' ->
  goes_to (Store s f x order k) k o w w' V' Q.
Proof.
  intros Hview Hp Hw. cbn [safe] in Hp. destruct (owns o s) as [v|] eqn:Hown; [|done].
  destruct (slot_view_owned _ _ _ _ _ Hview Hown) as (Hv & Hfresh & Hclaim).
  destruct (slot_move_store s f x order v w V w' V' Hv Hfresh Hclaim Hw) as (Hv' & Hfresh' & Hoff).
  assert (Hgrow : view_le V V') by (destruct Hw; apply view_join_l).
  assert (Hother : forall s', s' <> s -> same_slot w w' s')
    by (intros s' ?; destruct Hw; by apply same_slot_field).
  destruct f; [destruct Hp as (Hrel & Hx & Hp)|..];
    (eapply goes_to_one; [done|exact Hp|right; congruence|done|done|]; rewrite Hown).
  - apply (slot_released _ _ _ _ v (put_field v State x)); [exact Hx|done|by apply Hoff].
  - by eapply slot_kept.
  - by eapply slot_kept.
Qed.

Lemma goes_to_exchange {A} (k : bool -> prog A) s current new success failure o V w w' V' Q :
  slot_view o V w -> safe (CompareExchange s current new success failure k) o Q ->
  updates w V (FieldPoint s State) success current new w' V' ->
  goes_to (CompareExchange s current new success failure k) (k true) o w w' V' Q.
Proof.
  intros Hview (Hacq & Ho & Hcurrent & Hnew & Htrue & _) Hu.
  destruct (Hview s) as (v & Hv & Hs). rewrite Ho in Hs. destruct Hs as [Hready Hoffered].
  destruct (slot_move_claim s success current new v w V w' V' Hv Hoffered Hacq Hcurrent Hnew Hu)
    as (Hcur & Hv' & Hfresh').
  eapply goes_to_one; [done| |left; red; eauto 6|by eapply updates_grows|..].
  - apply (Htrue v); [apply Hv|intros ->; by apply Hready].
  - intros s' ?. destruct Hu. by apply same_slot_field.
  - rewrite Ho. eapply slot_claimed; [exact Hv|by red; rewrite Hcur|done|done|done].
Qed.

(** The owner accesses the buffer in order and in range. *)
Lemma owner_accesses o V w s v n :
  slot_view o V w -> owns o s = Some v -> 0 <= n <= FRAME_SIZE ->
  w_buffer w s = s_buffer v /\ ordered w V s
  /\ slice (w_buffer w s) 0 n = Some (take (Z.to_nat n) (s_buffer v)).
Proof.
  intros Hview Hown Hn.
  destruct (slot_view_owned _ _ _ _ _ Hview Hown) as (([_ Hb] & Hwf & _) & Hfresh & _).
  unfold slot_wf in Hwf. split_and!; [done|apply Hfresh|]. rewrite Hb. apply slice_0. lia.
Qed.

Lemma goes_to_access {A} (p p' : prog A) s v l o V w Q :
  slot_view o V w -> owns o s = Some v -> len l = len (s_buffer v) ->
  safe p' (with_owned o s (Some (put_buffer v l))) Q ->
  goes_to p p' o w (accessed w s l) (after_access w V s) Q.
Proof.
  intros Hview Hown Hl Hp. destruct (slot_view_owned _ _ _ _ _ Hview Hown) as (Hv & Hfresh & _).
  destruct (slot_move_access s v w V l Hv Hfresh Hl) as [Hv' Hfresh'].
  eapply goes_to_one; [done|exact Hp|right; congruence|apply view_join_l|..].
  - intros. by apply same_slot_accessed.
  - rewrite Hown. by eapply slot_kept.
Qed.

Lemma goes_to_read {A} (k : list Z -> prog A) s n l o V w Q :
  slot_view o V w -> safe (Read s n k) o Q -> slice (w_buffer w s) 0 n = Some l ->
  goes_to (Read s n k) (k l) o w (accessed w s (w_buffer w s)) (after_access w V s) Q.
Proof.
  intros Hview (v & Hown & Hn & Hp) Hl.
  destruct (owner_accesses _ _ _ _ _ _ Hview Hown Hn) as (Hb & _ & Hslice).
  rewrite Hslice in Hl. injection Hl as <-. rewrite Hb.
  eapply goes_to_access; [done..|].
  replace (with_owned o s (Some (put_buffer v (s_buffer v)))) with o; [done|].
  destruct o, s, v; cbn in *; by subst.
Qed.

Lemma goes_to_write {A} (k : prog A) s l o V w Q :
  slot_view o V w -> safe (Write s l k) o Q ->
  goes_to (Write s l k) k o w (accessed w s (splice (w_buffer w s) 0 l)) (after_access w V s) Q.
Proof.
  intros Hview (v & Hown & Hn & Hp). pose proof (len_nonneg l).
  destruct (owner_accesses _ _ _ _ _ _ Hview Hown (conj H Hn)) as (Hb & _ & _).
  destruct (slot_view_owned _ _ _ _ _ Hview Hown) as ((_ & Hwf & _) & _). unfold slot_wf in Hwf.
  rewrite Hb. eapply goes_to_access; [done|done| |done]. by rewrite len_splice by lia.
Qed.

Lemma no_race o V w s v n :
  slot_view o V w -> owns o s = Some v -> 0 <= n <= FRAME_SIZE ->
  ~ ordered w V s \/ slice (w_buffer w s) 0 n = None -> False.
Proof.
  intros Hview Hown Hn Hbad.
  destruct (owner_accesses _ _ _ _ _ _ Hview Hown Hn) as (_ & Ho & Hslice).
  destruct Hbad as [Hbad|Hbad]; [done|congruence].
Qed.

Lemma weak_safe_step {A} (p p' : prog A) o V w V' w' Q :
  safe p o Q -> slot_view o V w -> weak_step p V w p' V' w' -> goes_to p p' o w w' V' Q.
Proof.
  intros Hp Hview Hstep. destruct Hstep.
  1,3: eapply goes_to_reads; [done|apply Hp|eassumption].
  1,2: eapply goes_to_updates; [done|apply Hp| |eassumption]; done.
  - by eapply goes_to_load.
  - by eapply goes_to_store.
  - by eapply goes_to_exchange.
  - by eapply goes_to_reads; [done|apply Hp|done].
  - by eapply goes_to_read.
  - destruct Hp as (v & Hown & Hn & _). exfalso. by eapply no_race.
  - by eapply goes_to_write.
  - destruct Hp as (v & Hown & Hn & _). pose proof (len_nonneg l). exfalso. by eapply no_race.
  - by apply (goes_to_quiet _ _ _ V); [..|apply view_le_refl|].
  - by apply (goes_to_quiet _ _ _ V); [..|apply view_le_refl|].
  - by apply (goes_to_quiet _ _ _ V); [..|apply view_le_refl|].
Qed.

(** *** The tasks together *)

(** At most one task owns a slot, and is behind nothing in it; the others find
    it claimed.  A slot without an owner is offered. *)
Inductive slot_owners (ps : list (prog (list event) * view)) (os : list owned) (w : weak)
    (s : slot) (v : Slot) : Prop :=
  | no_owner :
      (forall j o, os !! j = Some o -> owns o s = None) ->
      s_state v = FREE \/ s_state v = READY /\ publishable s v -> offered w s ->
      slot_owners ps os w s v
  | one_owner i o pV :
      os !! i = Some o -> ps !! i = Some pV -> owns o s = Some v -> is_claim (s_state v) ->
      fresh w s pV.2 -> (forall j o', os !! j = Some o' -> j <> i -> owns o' s = None) ->
      slot_owners ps os w s v.

Definition pool_ok (t : weak_tasks (list event)) (os : list owned) : Prop :=
  Forall2 (fun pV o => safe pV.1 o done_ok) t.1 os
  /\ forall s, exists v, slot_state t.2 s v /\ slot_owners t.1 os t.2 s v.

Lemma pool_view ps w os i o pV :
  pool_ok (ps, w) os -> os !! i = Some o -> ps !! i = Some pV -> slot_view o pV.2 w.
Proof.
  intros [_ Hs] Hi HpV s. destruct (Hs s) as (v & Hv & Hown). exists v. split; [done|].
  destruct Hown as [Hno Hoffer Hoffered|j o' pV' Hj Hj' Ho' Hclaim Hfresh Hothers].
  - rewrite (Hno i o Hi). split; [|done]. intros Heq.
    destruct Hoffer as [Hoffer|[_ ?]]; [by rewrite Hoffer in Heq|done].
  - destruct (decide (i = j)) as [->|Hij].
    + cbn in Hj'. simplify_eq. by rewrite Ho'.
    + rewrite (Hothers i o Hi Hij). split; intros Hx; exfalso;
        (eapply offer_not_claim; [|exact Hclaim]); [by right|done].
Qed.

Lemma lookup_insert_cases {A} (l : list A) i x j y :
  <[i := x]> l !! j = Some y -> j = i /\ y = x \/ j <> i /\ l !! j = Some y.
Proof. intros [(-> & -> & _)|[? ?]]%list_lookup_insert_Some; [by left|by right]. Qed.

(** The others own nothing of a slot that [i] owns. *)
Lemma others_own_nothing ps os w s v i o :
  slot_owners ps os w s v -> os !! i = Some o -> owns o s <> None ->
  forall j p, os !! j = Some p -> j <> i -> owns p s = None.
Proof.
  intros [Hno _ _|k q pV Hk _ _ _ _ Hothers] Hi Ho j p Hj Hji; [by eapply Hno|].
  apply (Hothers j p Hj). intros ->. by rewrite (Hothers i o Hi) in Ho.
Qed.

Lemma slot_owners_move ps os i o o' s v w w' p' V' :
  os !! i = Some o -> (i < length ps)%nat -> slot_state w s v -> slot_owners ps os w s v ->
  slot_move s w w' V' (owns o s) (owns o' s) ->
  exists v', slot_state w' s v' /\ slot_owners (<[i := (p', V')]> ps) (<[i := o']> os) w' s v'.
Proof.
  intros Hi Hlen Hv Hs Hmove. assert (Hlt : (i < length os)%nat) by by eapply lookup_lt_Some.
  pose proof (others_own_nothing _ _ _ _ _ _ _ Hs Hi) as Hrest.
  inversion Hmove as [Hsame Ho Ho'|v0 v1 Hv0 Hoffer Hclaim Hv1 Hfresh Ho Ho'
    |v0 v1 Heq Hv1 Hfresh Ho Ho'|v0 v1 Hrel Hv1 Hoffered Ho Ho'].
  - exists v. split; [by eapply slot_state_same|].
    destruct Hs as [Hno Hoffer Hoffered|k q pV Hk Hk' Hq Hclaim Hfresh Hothers].
    + apply no_owner; [|done|by eapply offered_same].
      intros j p [[-> ->]|[_ Hj]]%lookup_insert_cases; [done|by eapply Hno].
    + assert (k <> i) by (intros ->; simplify_eq; congruence).
      eapply (one_owner _ _ _ _ _ k); [by rewrite list_lookup_insert_ne..|done|done|
        by eapply fresh_same|].
      intros j p [[-> ->]|[_ Hj]]%lookup_insert_cases Hjk; [done|by eapply Hothers].
  - exists v1. split; [done|].
    eapply (one_owner _ _ _ _ _ i o'); [by apply list_lookup_insert_eq..|done|done|done|].
    intros j p [[-> ->]|[_ Hj]]%lookup_insert_cases Hji; [done|].
    destruct Hs as [Hno _ _|k q pV Hk _ Hq Hclaimed _ _]; [by eapply Hno|]. exfalso.
    apply (offer_not_claim (s_state v)); [|done].
    pose proof (value_is_inj _ _ _ _ (proj1 (proj1 Hv) State) (proj1 (proj1 Hv0) State)) as Heq.
    cbn in Heq. by rewrite Heq.
  - exists v1. split; [done|].
    eapply (one_owner _ _ _ _ _ i o'); [by apply list_lookup_insert_eq..|done| |done|].
    + rewrite Heq. destruct Hs as [Hno _ _|k q pV Hk _ Hq Hclaimed _ Hothers];
        [by rewrite (Hno i o Hi) in Ho|]. destruct (decide (i = k)) as [->|Hik]; [|by rewrite (Hothers i o Hi Hik) in Ho].
      simplify_eq. congruence.
    + intros j p [[-> ->]|[_ Hj]]%lookup_insert_cases Hji; [done|]. eapply Hrest; [congruence|done..].
  - exists v1. split; [done|]. apply no_owner; [|done|done].
    intros j p [[-> ->]|[Hji Hj]]%lookup_insert_cases; [done|]. eapply Hrest; [congruence|done..].
Qed.

(** One step of task [i]: the others keep what they own. *)
Lemma pool_step ps w os i p V p' V' w' :
  pool_ok (ps, w) os -> ps !! i = Some (p, V) -> weak_step p V w p' V' w' ->
  exists o o', os !! i = Some o /\ pool_ok (<[i := (p', V')]> ps, w') (<[i := o']> os)
    /\ forall s, ~ claims p s -> owns o s = None -> owns o' s = None.
Proof.
  intros Hok Hp Hstep. pose proof Hok as [Hsafe Hslots].
  destruct (Forall2_lookup_l _ _ _ _ _ Hsafe Hp) as (o & Ho & Hpo).
  destruct (weak_safe_step p p' o V w V' w' done_ok) as (o' & Hp' & Hmoves & Hclaims);
    [done|by apply (pool_view ps w os i o (p, V))|done|].
  exists o, o'. split; [done|]. split; [|done]. split.
  - by apply Forall2_insert.
  - intros s. destruct (Hslots s) as (v & Hv & Hs).
    eapply slot_owners_move; [done|by eapply lookup_lt_Some|done..|apply Hmoves].
Qed.

Lemma pool_steps t t' os : pool_ok t os -> rtc weak_task_step t t' -> exists os', pool_ok t' os'.
Proof.
  intros Hok Hrun. revert os Hok.
  induction Hrun as [t|t t1 t2 Hstep _ IH]; intros os Hok; [by exists os|].
  destruct Hstep as [ps w i p V p' V' w' Hp Hstep].
  destruct (pool_step ps w os i p V p' V' w') as (o & o' & _ & Hok' & _); [done..|]. by eapply IH.
Qed.

Lemma newest_new p : newest (weak_new FRAME_SIZE) p 0 (mkMessage 0 bottom).
Proof.
  split; [apply lookup_singleton_eq|]. intros t [msg Hmsg]. cbn in Hmsg.
  apply lookup_singleton_Some in Hmsg. lia.
Qed.

Lemma pool_start (ls : list (list session)) :
  Forall (fun l => safe (task_prog FRAME_SIZE l) nothing done_ok) ls ->
  pool_ok (weak_start FRAME_SIZE ls) (replicate (length ls) nothing).
Proof.
  intros Hls. split.
  - cbn. induction Hls; cbn; by constructor.
  - intros s. exists (mkSlot FREE 0 0 (zeros FRAME_SIZE)). split; [split; [split|split]|].
    + intros f. exists 0%nat, (mkMessage 0 bottom). split; [apply newest_new|by destruct f].
    + done.
    + by apply len_zeros.
    + intros t msg t' Ht _ [msg' Ht']. cbn in Ht, Ht'.
      apply lookup_singleton_Some in Ht, Ht'. lia.
    + apply no_owner; [|by left|].
      * intros j o [-> _]%lookup_replicate. by destruct s.
      * intros t msg Ht. destruct (newest_inj _ _ _ _ _ _ Ht (newest_new _)) as [-> ->].
        split; [|red; cbn; lia]. intros f t' Ht'. apply (newest_new (FieldPoint s f)), Ht'.
Qed.

(** *** Exclusive access *)

(** [p], running on alone, reads or writes the buffer of [s] before it claims
    that slot again. *)
Inductive will_access (s : slot) : prog (list event) -> view -> weak -> Prop :=
  | will_read n k V w : will_access s (Read s n k) V w
  | will_write l k V w : will_access s (Write s l k) V w
  | goes_on p p' V V' w w' :
      ~ claims p s -> weak_step p V w p' V' w' -> will_access s p' V' w' -> will_access s p V w.

Lemma accessor_owns s p V w ps os i :
  will_access s p V w -> pool_ok (ps, w) os -> ps !! i = Some (p, V) ->
  exists o, os !! i = Some o /\ owns o s <> None.
Proof.
  intros Haccess. revert ps os.
  induction Haccess as [n k V w|l k V w|p p' V V' w w' Hclaims Hstep _ IH]; intros ps os Hok Hp.
  1,2: destruct (Forall2_lookup_l _ _ _ _ _ (proj1 Hok) Hp) as (o & Ho & v & Hv & _);
    exists o; split; [done|]; by rewrite Hv.
  destruct (pool_step ps w os i p V p' V' w') as (o & o' & Ho & Hok' & Hkeep); [done..|].
  exists o. split; [done|]. intros Hnone.
  assert (i < length ps)%nat by by eapply lookup_lt_Some.
  assert (i < length os)%nat by by eapply lookup_lt_Some.
  destruct (IH _ _ Hok') as (o'' & Ho'' & Hsome); [by apply list_lookup_insert_eq|].
  rewrite list_lookup_insert_eq in Ho'' by done. simplify_eq. by rewrite Hkeep in Hsome.
Qed.

Lemma one_accessor s t os i j p V q W :
  pool_ok t os -> t.1 !! i = Some (p, V) -> t.1 !! j = Some (q, W) ->
  will_access s p V t.2 -> will_access s q W t.2 -> i = j.
Proof.
  destruct t as [ps w]. cbn. intros Hok Hp Hq Hip Hjq.
  destruct (accessor_owns s p V w ps os i) as (o & Ho & Hos); [done..|].
  destruct (accessor_owns s q W w ps os j) as (o' & Ho' & Hos'); [done..|].
  destruct (proj2 Hok s) as (v & Hv & Hs). destruct (decide (i = j)); [done|].
  by rewrite (others_own_nothing _ _ _ _ _ _ _ Hs Ho Hos j o') in Hos'.
Qed.

Lemma pool_result t os i p V :
  pool_ok t os -> t.1 !! i = Some (p, V) ->
  match p with Panicked => False | Ret es => Forall event_ok es | _ => True end.
Proof.
  intros Hok Hp. destruct (Forall2_lookup_l _ _ _ _ _ (proj1 Hok) Hp) as (o & Ho & Hpo).
  destruct p; try done. by destruct Hpo.
Qed.
End safety.

(** ** Progress *)

Definition atomic (p : point) : Prop := forall s, p <> BufferPoint s.

(** A view sees no message that was never stored. *)
Definition seen (w : weak) (V : view) : Prop :=
  forall p, atomic p -> exists t, is_Some (w_messages w p !! t) /\ (V p <= t)%nat.
Definition all_seen (w : weak) : Prop :=
  forall p t msg, w_messages w p !! t = Some msg -> seen w (m_view msg).
Definition grows (w w' : weak) : Prop :=
  forall p t, is_Some (w_messages w p !! t) -> is_Some (w_messages w' p !! t).

Lemma seen_grows w w' V : grows w w' -> seen w V -> seen w' V.
Proof. intros Hg HV p Hp. destruct (HV p Hp) as (t & Ht & Hle). eauto. Qed.
Lemma seen_join w V W : seen w V -> seen w W -> seen w (view_join V W).
Proof.
  intros HV HW p Hp. unfold view_join. destruct (HV p Hp) as (t & Ht & Hle), (HW p Hp) as (t' & Ht' & Hle').
  destruct (Nat.max_dec (V p) (W p)) as [-> | ->]; eauto.
Qed.
Lemma seen_bottom w V : seen w V -> seen w bottom.
Proof. intros HV p Hp. destruct (HV p Hp) as (t & Ht & _). exists t. split; [done|unfold bottom; lia]. Qed.
Lemma seen_at w V p t : seen w V -> is_Some (w_messages w p !! t) -> seen w (at_time p t).
Proof.
  intros HV Ht q Hq. unfold at_time. case_decide; [subst; eauto|]. by apply (seen_bottom w V).
Qed.
Lemma seen_if w V W (b : bool) : seen w V -> seen w W -> seen w (if b then V else W).
Proof. by destruct b. Qed.

Lemma grows_add w p t msg : grows w (add_message w p t msg).
Proof. intros q t' Ht. rewrite lookup_add_message. case_decide; [done|exact Ht]. Qed.
Lemma add_message_stored w p t msg : is_Some (w_messages (add_message w p t msg) p !! t).
Proof. by rewrite lookup_add_message, decide_True. Qed.

Lemma all_seen_add w p t msg :
  all_seen w -> seen (add_message w p t msg) (m_view msg) -> all_seen (add_message w p t msg).
Proof.
  intros Hall Hmsg q t' msg'. rewrite lookup_add_message. case_decide; [by intros [= <-]|].
  intros Hq. eapply seen_grows; [apply grows_add|by eapply Hall].
Qed.

Lemma reads_seen w V p o x V' : all_seen w -> seen w V -> reads w V p o x V' -> seen w V'.
Proof.
  intros Hall HV [t msg Ht Hle]. pose proof (seen_bottom w V HV).
  apply seen_join; [apply seen_join; [done|by eapply seen_at]|apply seen_if; [by eapply Hall|done]].
Qed.

Lemma writes_seen w V p o x w' V' :
  all_seen w -> seen w V -> writes w V p o x w' V' -> grows w w' /\ seen w' V' /\ all_seen w'.
Proof.
  intros Hall HV [t Hle Hnone]. split; [apply grows_add|].
  assert (HV' : forall msg, seen (add_message w p t msg) V)
    by (intros; eapply seen_grows; [apply grows_add|done]).
  assert (Hat : forall msg, seen (add_message w p t msg) (at_time p t))
    by (intros; eapply seen_at; [apply HV'|apply add_message_stored]).
  split; [by apply seen_join|]. apply all_seen_add; [done|]. cbn. apply seen_if; [|done]. by apply seen_join.
Qed.

Lemma updates_seen w V p o x y w' V' :
  all_seen w -> seen w V -> updates w V p o x y w' V' -> grows w w' /\ seen w' V' /\ all_seen w'.
Proof.
  intros Hall HV [t msg V1 Ht Hx Hle Hnone ->]. split; [apply grows_add|].
  assert (Hgrow : forall m W, seen w W -> seen (add_message w p (S t) m) W)
    by (intros; eapply seen_grows; [apply grows_add|done]).
  assert (Hat : forall m, seen (add_message w p (S t) m) (at_time p (S t)))
    by (intros; eapply seen_at; [by apply Hgrow|apply add_message_stored]).
  assert (HV' : forall m, seen (add_message w p (S t) m)
    (view_join (view_join V (at_time p (S t))) (if acquires o then m_view msg else bottom))).
  { intros m. apply seen_join; [apply seen_join; [by apply Hgrow|done]|].
    apply seen_if; apply Hgrow; [by eapply Hall|by eapply seen_bottom]. }
  split; [apply HV'|]. apply all_seen_add; [done|]. cbn. apply seen_join; [apply Hgrow; by eapply Hall|].
  by apply seen_if.
Qed.

(** An access to a buffer counts it in the view, not in the messages. *)
Lemma accessed_seen w V s l :
  all_seen w -> seen w V ->
  grows w (accessed w s l) /\ seen (accessed w s l) (after_access w V s) /\ all_seen (accessed w s l).
Proof.
  intros Hall HV. split; [by intros p|]. split; [|exact Hall]. intros p Hp.
  destruct (HV p Hp) as (t & Ht & Hle). exists t. split; [done|]. unfold after_access, view_join, at_time.
  rewrite decide_False by apply Hp. lia.
Qed.

Lemma weak_step_seen {A} (p p' : prog A) V w V' w' :
  weak_step p V w p' V' w' -> all_seen w -> seen w V -> grows w w' /\ seen w' V' /\ all_seen w'.
Proof.
  intros Hstep Hall HV.
  assert (Hread : forall q x o V1, reads w V q o x V1 -> grows w w /\ seen w V1 /\ all_seen w)
    by (intros; split_and!; [by intros ?|by eapply reads_seen|done]).
  destruct Hstep; eauto using writes_seen, updates_seen, accessed_seen; split_and!; try done; by intros ?.
Qed.

Definition pool_seen {A} (t : weak_tasks A) : Prop :=
  all_seen t.2 /\ forall i pV, t.1 !! i = Some pV -> seen t.2 pV.2.

Lemma pool_seen_step {A} (t t' : weak_tasks A) : pool_seen t -> weak_task_step t t' -> pool_seen t'.
Proof.
  intros Hseen Hrun. destruct Hrun as [ps w i p V p' V' w' Hp Hstep]. destruct Hseen as [Hall HV].
  destruct (weak_step_seen _ _ _ _ _ _ Hstep Hall (HV i _ Hp)) as (Hgrow & HV' & Hall').
  split; [done|]. intros j pV [[-> ->]|[_ Hj]]%lookup_insert_cases; [done|].
  eapply seen_grows; [done|by eapply HV].
Qed.

Lemma pool_seen_start FRAME_SIZE ls : pool_seen (weak_start FRAME_SIZE ls).
Proof.
  assert (Hbottom : seen (weak_new FRAME_SIZE) bottom).
  { intros p _. exists 0%nat. split; [|done]. cbn. rewrite lookup_singleton_eq. by eexists. }
  split.
  - intros p t msg Hmsg. cbn in Hmsg. by apply lookup_singleton_Some in Hmsg as [_ <-].
  - intros i pV Hi. cbn in Hi. rewrite list_lookup_fmap in Hi.
    by destruct (ls !! i); cbn in Hi; simplify_eq.
Qed.

Lemma newest_exists (m : gmap nat message) :
  m = ∅ \/ exists t msg, m !! t = Some msg /\ forall t', is_Some (m !! t') -> (t' <= t)%nat.
Proof.
  induction m as [|i x m Hi IH] using map_ind; [by left|right].
  destruct IH as [->|(t & msg & Ht & Hmax)].
  - exists i, x. split; [apply lookup_insert_eq|]. intros t' [y Hy].
    apply lookup_insert_Some in Hy as [[-> _]|[_ Hy]]; [done|by rewrite lookup_empty in Hy].
  - destruct (decide (i <= t)%nat) as [Hle|Hlt].
    + exists t, msg. split; [rewrite lookup_insert_ne; [done|congruence]|].
      intros t' [y Hy]. apply lookup_insert_Some in Hy as [[-> _]|[_ Hy]]; eauto.
    + exists i, x. split; [apply lookup_insert_eq|]. intros t' [y Hy].
      apply lookup_insert_Some in Hy as [[-> _]|[_ Hy]]; [done|]. specialize (Hmax t' ltac:(eauto)). lia.
Qed.

(** The newest message of a point can be read, written after and updated. *)
Lemma newest_seen w V p :
  seen w V -> atomic p -> exists t msg, newest w p t msg /\ (V p <= t)%nat.
Proof.
  intros HV Hp. destruct (HV p Hp) as (t & Ht & Hle).
  destruct (newest_exists (w_messages w p)) as [Hnone|(t' & msg & Ht' & Hmax)].
  - rewrite Hnone, lookup_empty in Ht. by destruct Ht.
  - exists t', msg. split; [done|]. specialize (Hmax t Ht). lia.
Qed.
Lemma newest_free w p t msg t' : newest w p t msg -> (t < t')%nat -> w_messages w p !! t' = None.
Proof.
  intros [_ Hmax] Hlt. destruct (_ !! t') eqn:Ht'; [|done]. specialize (Hmax t' ltac:(eauto)). lia.
Qed.

Lemma can_read w V p o : seen w V -> atomic p -> exists x V', reads w V p o x V'.
Proof.
  intros HV Hp. destruct (newest_seen _ _ _ HV Hp) as (t & msg & [Ht _] & Hle).
  do 2 eexists. by econstructor.
Qed.
Lemma can_write w V p o x : seen w V -> atomic p -> exists w' V', writes w V p o x w' V'.
Proof.
  intros HV Hp. destruct (newest_seen _ _ _ HV Hp) as (t & msg & Ht & Hle).
  do 2 eexists. apply (writes_message _ _ _ _ _ (S t)); [lia|]. eapply newest_free; [done|lia].
Qed.
Lemma can_update w V p : seen w V -> atomic p ->
  exists x, (forall o y, exists w' V', updates w V p o x y w' V') /\ forall o, exists V', reads w V p o x V'.
Proof.
  intros HV Hp. destruct (newest_seen _ _ _ HV Hp) as (t & msg & Ht & Hle).
  exists (m_value msg). split; [|intros o; eexists; econstructor; [apply Ht|done]].
  intros o y. do 2 eexists. eapply updates_message; [apply Ht|done|done| |done].
  eapply newest_free; [done|lia].
Qed.

Lemma can_step {A} (p : prog A) V w :
  seen w V -> match p with
              | Ret _ | Panicked => True
              | _ => exists p' V' w', weak_step p V w p' V' w'
              end.
Proof.
  intros HV. destruct p as [a|o k|up o k|o k|o k|s f o k|s f v o k|s current new success failure k
    |s n k|s l k|wk k|wk k|k|]; try done.
  - destruct (can_read w V UpPoint o HV) as (x & V' & Hx); [done|]. do 3 eexists. by econstructor.
  - destruct (can_update w V UpPoint HV) as (x & Hx & _); [done|].
    destruct (Hx o (Z.b2z up)) as (w' & V' & Hu). do 3 eexists. by econstructor.
  - destruct (can_read w V EpochPoint o HV) as (x & V' & Hx); [done|]. do 3 eexists. by econstructor.
  - destruct (can_update w V EpochPoint HV) as (x & Hx & _); [done|].
    destruct (Hx o (u32 (x + 1))) as (w' & V' & Hu). do 3 eexists. by econstructor.
  - destruct (can_read w V (FieldPoint s f) o HV) as (x & V' & Hx); [done|]. do 3 eexists. by econstructor.
  - destruct (can_write w V (FieldPoint s f) o v HV) as (w' & V' & Hx); [done|].
    do 3 eexists. by econstructor.
  - destruct (can_update w V (FieldPoint s State) HV) as (x & Hx & Hr); [done|].
    destruct (decide (x = current)) as [->|Hne].
    + destruct (Hx success new) as (w' & V' & Hu). do 3 eexists. by eapply step_exchange.
    + destruct (Hr failure) as (V' & Hf). do 3 eexists. by eapply step_exchange_fails.
  - destruct (decide (w_accesses w s <= V (BufferPoint s))%nat) as [Ho|Ho].
    + destruct (slice (w_buffer w s) 0 n) eqn:Hl; do 3 eexists;
        [by apply step_read|apply step_read_fails; by right].
    + do 3 eexists. apply step_read_fails. by left.
  - destruct (decide (w_accesses w s <= V (BufferPoint s))%nat) as [Ho|Ho].
    + destruct (slice (w_buffer w s) 0 (len l)) eqn:Hl; do 3 eexists;
        [by eapply step_write|apply step_write_fails; by right].
    + do 3 eexists. apply step_write_fails. by left.
  - do 3 eexists. constructor.
  - do 3 eexists. constructor.
  - do 3 eexists. constructor.
Qed.
(** ** Wait freedom *)

(** What one step can make of a program, whatever the memory holds. *)
Inductive successor {A} : prog A -> prog A -> Prop :=
  | succ_load_up o k up : successor (LoadUp o k) (k up)
  | succ_swap_up up o k old : successor (SwapUp up o k) (k old)
  | succ_load_epoch o k x : successor (LoadEpoch o k) (k x)
  | succ_add_epoch o k : successor (AddEpoch o k) k
  | succ_load s f o k x : successor (Load s f o k) (k x)
  | succ_store s f x o k : successor (Store s f x o k) k
  | succ_exchange s current new success failure k b :
      successor (CompareExchange s current new success failure k) (k b)
  | succ_read s n k l : successor (Read s n k) (k l)
  | succ_read_fails s n k : successor (Read s n k) Panicked
  | succ_write s l k : successor (Write s l k) k
  | succ_write_fails s l k : successor (Write s l k) Panicked
  | succ_wake wk k : successor (Wake wk k) k
  | succ_register wk k : successor (Register wk k) k
  | succ_wake_by_ref k : successor (WakeByRef k) k.

Lemma weak_step_successor {A} (p p' : prog A) V w V' w' : weak_step p V w p' V' w' -> successor p p'.
Proof. destruct 1; constructor. Qed.

(** Every run of [p] takes at most [n] steps, whatever the other tasks do to
    the memory between them. *)
Fixpoint within {A} (n : nat) (p : prog A) : Prop :=
  forall p', successor p p' -> match n with O => False | Datatypes.S n => within n p' end.

Lemma within_mono {A} n n' (p : prog A) : within n p -> (n <= n')%nat -> within n' p.
Proof.
  revert n' p. induction n as [|n IH]; intros [|n'] p Hp Hle p' Hstep;
    try lia; pose proof (Hp p' Hstep); [done..|]. apply IH; [done|lia].
Qed.

Lemma bind_successor {A B} (p : prog A) (f : A -> prog B) q :
  successor (p ≫= f) q ->
  (exists a, p = Ret a /\ successor (f a) q) \/ exists p', successor p p' /\ q = p' ≫= f.
Proof.
  destruct p; intros Hstep; [left; eauto|right..]; cbn in Hstep;
    inversion Hstep; subst; try (eexists; split; [constructor|]; done).
Qed.

Lemma within_ret {A} n (a : A) : within n (mret a : prog A).
Proof. destruct n; intros p' Hstep; inversion Hstep. Qed.

Lemma within_bind {A B} a n (p : prog A) (f : A -> prog B) :
  within a p -> (a <= n)%nat -> (forall x, within (n - a) (f x)) -> within n (p ≫= f).
Proof.
  intros Hp Hle Hf. remember (n - a)%nat as b eqn:Hb. apply (within_mono (a + b)); [|lia].
  clear n Hle Hb. revert p Hp. induction a as [|a IH]; intros p Hp.
  - cbn [Nat.add]. destruct b; intros q Hstep;
      (destruct (bind_successor _ _ _ Hstep) as [(x & -> & Hx)|(p' & Hp' & _)];
       [exact (Hf x _ Hx)|by destruct (Hp _ Hp')]).
  - intros q Hstep. fold (@within B).
    destruct (bind_successor _ _ _ Hstep) as [(x & -> & Hx)|(p' & Hp' & ->)].
    + pose proof (within_mono b (S (a + b)) (f x) (Hf x) ltac:(lia)) as Hw. exact (Hw _ Hx).
    + apply IH. exact (Hp _ Hp').
Qed.

(** An operation of one step. *)
Lemma within_one {A} (p : prog A) :
  (forall p', successor p p' -> forall q, ~ successor p' q) -> within 1 p.
Proof. intros Hp p' Hstep q Hq. by destruct (Hp _ Hstep _ Hq). Qed.

Create HintDb within.
Ltac within_one :=
  apply within_one; cbn; intros p' Hp' q Hq; inversion Hp'; subst; inversion Hq.
Lemma within_load_up o : within 1 (load_up o). Proof. within_one. Qed.
Lemma within_swap_up up o : within 1 (swap_up up o). Proof. within_one. Qed.
Lemma within_load_epoch o : within 1 (load_epoch o). Proof. within_one. Qed.
Lemma within_add_epoch o : within 1 (add_epoch o). Proof. within_one. Qed.
Lemma within_load s f o : within 1 (load s f o). Proof. within_one. Qed.
Lemma within_store s f v o : within 1 (store s f v o). Proof. within_one. Qed.
Lemma within_exchange s c v o o' : within 1 (compare_exchange s c v o o'). Proof. within_one. Qed.
Lemma within_wake w : within 1 (wake w). Proof. within_one. Qed.
Lemma within_register w : within 1 (register w). Proof. within_one. Qed.
Lemma within_wake_by_ref : within 1 wake_by_ref. Proof. within_one. Qed.
Lemma within_read s n : within 1 (read_slice s n). Proof. within_one. Qed.
Lemma within_write s l : within 1 (write_slice s l). Proof. within_one. Qed.
#[export] Hint Resolve within_ret within_load_up within_swap_up within_load_epoch within_add_epoch
  within_load within_store within_exchange within_wake within_register within_wake_by_ref
  within_read within_write : within.

(** Follows a program, one bound of the database per operation. *)
Ltac within_leaf := eapply within_mono; [solve [eauto with within]|lia].
Ltac within_auto :=
  repeat first
    [ progress intros
    | apply within_ret
    | match goal with
      | |- within _ (match ?x with _ => _ end) => destruct x
      | |- within _ (mbind _ (match ?x with _ => _ end)) => destruct x
      end
    | within_leaf
    | eapply within_bind; [solve [eauto with within]|lia|cbn [Nat.sub]] ].

Lemma within_and a b n k : within n a -> within k b -> within (n + k) (prog_and a b).
Proof.
  intros Ha Hb. unfold prog_and. eapply within_bind; [exact Ha|lia|].
  replace (n + k - n)%nat with k by lia. intros []; [done|apply within_ret].
Qed.
Lemma within_equal s f x : within 1 (current ← load s f Acquire; mret (current =? x)).
Proof. within_auto. Qed.
Lemma within_differs s f x : within 1 (current ← load s f Acquire; mret (negb (current =? x))).
Proof. within_auto. Qed.
Lemma within_epoch_is epoch : within 1 (current ← load_epoch Acquire; mret (current =? epoch)).
Proof. within_auto. Qed.
#[export] Hint Resolve within_and within_equal within_differs within_epoch_is : within.

Lemma within_epoch_is_active epoch : within 2 (epoch_is_active epoch).
Proof. apply (within_and _ _ 1 1); auto with within. Qed.
Lemma within_active_epoch : within 9 active_epoch.
Proof. unfold active_epoch. cbn [active_epoch_loop]. within_auto. Qed.
Lemma within_release_rx : within 2 release_rx.
Proof. unfold release_rx. within_auto. Qed.
Lemma within_release_tx : within 3 release_tx.
Proof. unfold release_tx. within_auto. Qed.
#[export] Hint Resolve within_epoch_is_active within_active_epoch within_release_rx
  within_release_tx : within.
Lemma within_discard_ready_rx : within 3 discard_ready_rx.
Proof. unfold discard_ready_rx. within_auto. Qed.
Lemma within_discard_ready_tx : within 4 discard_ready_tx.
Proof. unfold discard_ready_tx. within_auto. Qed.
Lemma within_discard_ready_rx_epoch epoch : within 4 (discard_ready_rx_epoch epoch).
Proof. unfold discard_ready_rx_epoch. within_auto. Qed.
#[export] Hint Resolve within_discard_ready_rx within_discard_ready_tx
  within_discard_ready_rx_epoch : within.
Lemma within_set_authorized_link up : within 13 (set_authorized_link up).
Proof. unfold set_authorized_link. within_auto. Qed.
Lemma within_reserve_tx epoch : within 9 (reserve_tx epoch).
Proof. unfold reserve_tx, confirm_reserved_tx. within_auto. Qed.
Lemma within_claim_ready_rx epoch : within 7 (claim_ready_rx epoch).
Proof. unfold claim_ready_rx. within_auto. Qed.
Lemma within_claimed_rx_is_current epoch : within 3 (claimed_rx_is_current epoch).
Proof. apply (within_and _ _ 1 2); auto with within. Qed.
Lemma within_claimed_tx_is_current epoch : within 3 (claimed_tx_is_current epoch).
Proof. apply (within_and _ _ 1 2); auto with within. Qed.
#[export] Hint Resolve within_set_authorized_link within_reserve_tx within_claim_ready_rx
  within_claimed_rx_is_current within_claimed_tx_is_current : within.
Lemma within_confirm_claimed_rx epoch : within 5 (confirm_claimed_rx epoch).
Proof. unfold confirm_claimed_rx. within_auto. Qed.
Lemma within_restore_rx epoch : within 5 (restore_rx_after_tx_contention epoch).
Proof. unfold restore_rx_after_tx_contention. within_auto. Qed.
#[export] Hint Resolve within_confirm_claimed_rx within_restore_rx : within.
Lemma within_reserve_receive epoch : within 26 (reserve_receive epoch).
Proof. unfold reserve_receive, reserve_claimed_receive. within_auto. Qed.
#[export] Hint Resolve within_reserve_receive : within.
Lemma within_try_receive : within 35 try_receive.
Proof. unfold try_receive. within_auto. Qed.
Lemma within_try_transmit : within 18 try_transmit.
Proof. unfold try_transmit. within_auto. Qed.
#[export] Hint Resolve within_try_receive within_try_transmit : within.
Lemma within_receive : within 73 NetworkDriver_receive.
Proof. unfold NetworkDriver_receive. within_auto. Qed.
Lemma within_transmit : within 38 NetworkDriver_transmit.
Proof. unfold NetworkDriver_transmit. within_auto. Qed.
Lemma within_state_link_state : within 1 NetworkState_link_state.
Proof. unfold NetworkState_link_state. within_auto. Qed.
#[export] Hint Resolve within_state_link_state : within.
Lemma within_link_state : within 4 NetworkDriver_link_state.
Proof. unfold NetworkDriver_link_state. within_auto. Qed.
Lemma within_with_slice {R} s n (f : list Z -> prog (R * list Z)) k :
  (forall l, within k (f l)) -> within (2 + k) (with_slice s n f).
Proof.
  intros Hf. unfold with_slice. eapply within_bind; [apply within_read|lia|]. intros l.
  eapply within_bind; [apply Hf|lia|].
  intros x. replace (2 + k - 1 - k)%nat with 1%nat by lia. within_auto.
Qed.
Lemma within_current s epoch :
  within 3 (prog_and (epoch_is_active epoch) (current ← load s Epoch Acquire; mret (current =? epoch))).
Proof. apply (within_and _ _ 2 1); auto with within. Qed.
#[export] Hint Resolve within_receive within_transmit within_link_state within_current : within.

Lemma within_RxToken_consume {R} FRAME_SIZE token (f : list Z -> prog (R * list Z)) k :
  (forall l, within k (f l)) -> within (8 + k) (RxToken_consume FRAME_SIZE token f).
Proof.
  intros Hf. unfold RxToken_consume. eapply within_bind; [apply within_current|lia|].
  intros valid. eapply (within_bind 1); [destruct valid; within_auto|lia|].
  intros n. eapply within_bind; [apply within_with_slice, Hf|lia|]. intros r.
  replace (8 + k - 3 - 1 - (2 + k))%nat with 2%nat by lia. within_auto.
Qed.
Lemma within_publish s w : within 2 (store s State READY Release;; wake w).
Proof. within_auto. Qed.
#[export] Hint Resolve within_publish : within.
Lemma within_publish_len s n w : within 3 (store s Len n Relaxed;; store s State READY Release;; wake w).
Proof. within_auto. Qed.
#[export] Hint Resolve within_publish_len : within.
Lemma within_TxToken_consume FRAME_SIZE token n (fill : list Z -> list Z) :
  within 8 (TxToken_consume FRAME_SIZE token n (fun l => mret (tt, fill l))).
Proof.
  unfold TxToken_consume. destruct (negb _); [intros ? Hstep; inversion Hstep|].
  eapply within_bind; [apply (within_with_slice _ _ _ 0); intros; apply within_ret|lia|].
  cbn [Nat.sub]. within_auto.
Qed.
Lemma within_RxToken_drop token : within 2 (RxToken_drop token).
Proof. apply within_release_rx. Qed.
Lemma within_TxToken_drop token : within 3 (TxToken_drop token).
Proof. apply within_release_tx. Qed.
#[export] Hint Resolve within_TxToken_consume within_RxToken_drop within_TxToken_drop : within.
Lemma within_reply FRAME_SIZE token reply : within 8 (reply_prog FRAME_SIZE token reply).
Proof. destruct reply as [[n fill]|]; unfold reply_prog; within_auto. Qed.
Lemma within_claim_rx_producer : within 1 claim_rx_producer.
Proof. unfold claim_rx_producer. within_auto. Qed.
Lemma within_copy_and_publish_rx epoch frame : within 12 (copy_and_publish_rx epoch frame).
Proof. unfold copy_and_publish_rx. within_auto. Qed.
Lemma within_discard_stale_tx epoch : within 6 (discard_stale_tx epoch).
Proof. unfold discard_stale_tx. within_auto. Qed.
Lemma within_claim_ready_tx : within 1 claim_ready_tx.
Proof. apply within_exchange. Qed.
#[export] Hint Resolve within_claim_rx_producer within_copy_and_publish_rx
  within_discard_stale_tx within_claim_ready_tx : within.
Lemma within_push_rx FRAME_SIZE frame : within 22 (push_rx FRAME_SIZE frame).
Proof. unfold push_rx. within_auto. Qed.
Lemma within_take_tx : within 22 take_tx.
Proof. unfold take_tx. within_auto. Qed.
Lemma within_tx_is_ready : within 11 tx_is_ready.
Proof. unfold tx_is_ready. within_auto. Qed.
Lemma within_is_current lease : within 3 (is_current lease).
Proof. apply within_current. Qed.
#[export] Hint Resolve within_reply within_push_rx within_take_tx within_tx_is_ready
  within_is_current : within.

Lemma within_as_slice FRAME_SIZE lease : within 5 (as_slice FRAME_SIZE lease).
Proof.
  unfold as_slice. eapply within_bind; [apply within_is_current|lia|]. intros current.
  eapply (within_bind 1); [destruct current; within_auto|lia|]. within_auto.
Qed.
Lemma within_report lease outcome : within 6 (report lease outcome).
Proof. unfold report. within_auto. Qed.
Lemma within_TxLease_drop lease : within 6 (TxLease_drop lease).
Proof. unfold TxLease_drop. within_auto. Qed.
#[export] Hint Resolve within_as_slice within_report within_TxLease_drop : within.

Lemma within_poll_tx_ready : within 23 poll_tx_ready.
Proof. unfold poll_tx_ready. within_auto. Qed.
Lemma within_register_tx_waker : within 13 register_tx_waker.
Proof. unfold register_tx_waker. within_auto. Qed.
#[export] Hint Resolve within_poll_tx_ready within_register_tx_waker : within.

Lemma within_session FRAME_SIZE x : within 89 (session_prog FRAME_SIZE x).
Proof.
  destruct x as [frame|up|keep inside reply| |n fill|outcome| | |]; cbn [session_prog];
    [within_auto|within_auto| |within_auto..].
  eapply within_bind; [apply within_receive|lia|]. cbn [Nat.sub].
  intros [[rx tx]|]; [|apply within_ret]. destruct inside.
  - eapply within_bind; [apply (within_RxToken_consume _ _ _ 8); within_auto|lia|within_auto].
  - eapply within_bind; [apply (within_RxToken_consume _ _ _ 0); within_auto|lia|within_auto].
Qed.

Lemma within_task FRAME_SIZE l : within (89 * length l) (task_prog FRAME_SIZE l).
Proof.
  induction l as [|x l IH]; [apply within_ret|]. cbn [task_prog length].
  eapply within_bind; [apply within_session|lia|]. intros es.
  eapply within_bind; [exact IH|lia|]. intros more. apply within_ret.
Qed.

(** The steps that all tasks have left. *)
Lemma within_pool_step {A} bs (ps : list (prog A * view)) i p V p' V' :
  Forall2 (fun b pV => within b pV.1) bs ps -> ps !! i = Some (p, V) -> successor p p' ->
  exists bs', Forall2 (fun b pV => within b pV.1) bs' (<[i := (p', V')]> ps)
              /\ sum_list bs = Datatypes.S (sum_list bs').
Proof.
  intros Hbs. revert i. induction Hbs as [|b q bs ps Hb Hbs IH]; intros i Hi Hstep; [done|].
  destruct i as [|i]; cbn in Hi |- *.
  - simplify_eq. destruct b as [|b]; pose proof (Hb _ Hstep) as Hb'; [done|].
    exists (b :: bs). split; [by constructor|done].
  - destruct (IH i Hi Hstep) as (bs' & Hbs' & Hsum). exists (b :: bs').
    split; [by constructor|cbn; lia].
Qed.

Lemma within_pool {A} n (t t' : weak_tasks A) bs :
  nsteps weak_task_step n t t' -> Forall2 (fun b pV => within b pV.1) bs t.1 -> (n <= sum_list bs)%nat.
Proof.
  intros Hrun. revert bs. induction Hrun as [t|n t t1 t2 Hstep _ IH]; intros bs Hbs; [lia|].
  destruct Hstep as [ps w i p V p' V' w' Hp Hstep].
  destruct (within_pool_step bs ps i p V p' V') as (bs' & Hbs' & Hsum);
    [done..|by eapply weak_step_successor|].
  specialize (IH bs' Hbs'). lia.
Qed.

Lemma within_start FRAME_SIZE ls :
  Forall2 (fun b pV => within b pV.1) (map (fun l => 89 * length l)%nat ls) (weak_start FRAME_SIZE ls).1.
Proof. cbn. induction ls; cbn; constructor; [apply within_task|done]. Qed.

Lemma sum_sessions (ls : list (list session)) :
  sum_list (map (fun l => 89 * length l)%nat ls) = (89 * length (concat ls))%nat.
Proof. induction ls; [done|]. cbn [map foldr sum_list_with concat id] in *. rewrite length_app. lia. Qed.


(** ** The interleavings of one memory are among the runs *)

(** The newest messages are the memory [m]. *)
Definition newest_are (w : weak) (m : NetworkState) : Prop :=
  value_is w UpPoint (Z.b2z (ns_link_up m)) /\ value_is w EpochPoint (ns_link_epoch m)
  /\ forall s, holds w s (get_slot m s).

Lemma get_put_slot m s v s' :
  get_slot (put_slot m s v) s' = if decide (s' = s) then v else get_slot m s'.
Proof. by destruct s, s'. Qed.

Lemma b2z_zero b : negb (Z.b2z b =? 0) = b.
Proof. by destruct b. Qed.

Lemma reads_value w V p o x :
  seen w V -> atomic p -> value_is w p x -> exists V', reads w V p o x V'.
Proof.
  intros HV Hp (t & msg & Ht & <-). destruct (newest_seen _ _ _ HV Hp) as (t' & msg' & Ht' & Hle).
  destruct (newest_inj _ _ _ _ _ _ Ht Ht') as [-> ->]. eexists. constructor; [apply Ht'|done].
Qed.

Lemma value_is_add w p t msg :
  (forall t', is_Some (w_messages w p !! t') -> (t' <= t)%nat) ->
  value_is (add_message w p t msg) p (m_value msg).
Proof. intros Hmax. exists t, msg. split; [by apply newest_add|done]. Qed.

(** The newest message updated, or a message written after it. *)
Lemma updates_value w V p o x y :
  seen w V -> atomic p -> value_is w p x ->
  exists t msg V', updates w V p o x y (add_message w p t msg) V' /\ m_value msg = y
    /\ forall t', is_Some (w_messages w p !! t') -> (t' <= t)%nat.
Proof.
  intros HV Hp (t & msg & Ht & <-). destruct (newest_seen _ _ _ HV Hp) as (t' & msg' & Ht' & Hle).
  destruct (newest_inj _ _ _ _ _ _ Ht Ht') as [-> ->].
  do 3 eexists. split; [eapply updates_message; [apply Ht'|done|done|eapply newest_free; [done|lia]|done]|].
  split; [done|]. intros t Hs. pose proof (proj2 Ht' t Hs). lia.
Qed.
Lemma writes_value w V p o x :
  seen w V -> atomic p ->
  exists t msg V', writes w V p o x (add_message w p t msg) V' /\ m_value msg = x
    /\ forall t', is_Some (w_messages w p !! t') -> (t' <= t)%nat.
Proof.
  intros HV Hp. destruct (newest_seen _ _ _ HV Hp) as (t' & msg' & Ht' & Hle).
  do 3 eexists. split; [apply (writes_message _ _ _ _ _ (S t')); [lia|eapply newest_free; [done|lia]]|].
  split; [done|]. intros t Hs. pose proof (proj2 Ht' t Hs). lia.
Qed.

Lemma newest_are_field w m s f t msg :
  newest_are w m -> (forall t', is_Some (w_messages w (FieldPoint s f) !! t') -> (t' <= t)%nat) ->
  newest_are (add_message w (FieldPoint s f) t msg)
             (put_slot m s (put_field (get_slot m s) f (m_value msg))).
Proof.
  intros (Hup & Hepoch & Hs) Hmax. split_and!.
  - replace (ns_link_up _) with (ns_link_up m) by by destruct s. by apply value_is_add_ne.
  - replace (ns_link_epoch _) with (ns_link_epoch m) by by destruct s. by apply value_is_add_ne.
  - intros s'. rewrite get_put_slot. destruct (decide (s' = s)) as [->|Hne]; [by apply holds_add|].
    split; [|apply Hs]. intros f'. apply value_is_add_ne; [congruence|apply Hs].
Qed.

Lemma newest_are_buffer w m s l :
  newest_are w m -> newest_are (accessed w s l) (put_slot m s (put_buffer (get_slot m s) l)).
Proof.
  intros (Hup & Hepoch & Hs). split_and!.
  - by replace (ns_link_up _) with (ns_link_up m) by by destruct s.
  - by replace (ns_link_epoch _) with (ns_link_epoch m) by by destruct s.
  - intros s'. rewrite get_put_slot. destruct (decide (s' = s)) as [->|Hne].
    + split; [|cbn; by rewrite decide_True]. intros f.
      replace (get_field (put_buffer _ l) f) with (get_field (get_slot m s) f) by by destruct f.
      apply (proj1 (Hs s) f).
    + split; [apply Hs|]. cbn. rewrite decide_False by done. apply Hs.
Qed.

(** A step of an interleaving that does not race is a step of the machine. *)
Lemma sc_step {A} (p p' : prog A) m m' w V :
  newest_are w m -> seen w V -> prog_step p m = Some (p', m') ->
  (forall s n k, p = Read s n k -> ordered w V s) -> (forall s l k, p = Write s l k -> ordered w V s) ->
  exists V' w', weak_step p V w p' V' w' /\ newest_are w' m'.
Proof.
  intros Hm HV Hstep Hr Hw. pose proof Hm as (Hup & Hepoch & Hs).
  destruct p as [a|o k|up o k|o k|o k|s f o k|s f v o k|s current new success failure k
    |s n k|s l k|wk k|wk k|k|]; cbn in Hstep; simplify_eq;
    try (by exists V, w; split; [constructor|]).
  - destruct (reads_value w V UpPoint o _ HV ltac:(done) Hup) as (V' & Hx).
    exists V', w. split; [|done]. rewrite <- (b2z_zero (ns_link_up m')). by constructor.
  - destruct (updates_value w V UpPoint o _ (Z.b2z up) HV ltac:(done) Hup) as (t & msg & V' & Hu & Hv & Hmax).
    exists V', (add_message w UpPoint t msg). split.
    + rewrite <- (b2z_zero (ns_link_up m)). by constructor.
    + split_and!; [cbn; rewrite <- Hv; by apply value_is_add|by apply value_is_add_ne|].
      intros s. split; [|apply (Hs s)]. intros f. apply value_is_add_ne; [done|apply (Hs s)].
  - destruct (reads_value w V EpochPoint o _ HV ltac:(done) Hepoch) as (V' & Hx).
    exists V', w. split; [by constructor|done].
  - destruct (updates_value w V EpochPoint o _ (u32 (ns_link_epoch m + 1)) HV ltac:(done) Hepoch)
      as (t & msg & V' & Hu & Hv & Hmax).
    exists V', (add_message w EpochPoint t msg). split; [by econstructor|].
    split_and!; [by apply value_is_add_ne|cbn; rewrite <- Hv; by apply value_is_add|].
    intros s. split; [|apply (Hs s)]. intros f. apply value_is_add_ne; [done|apply (Hs s)].
  - destruct (reads_value w V (FieldPoint s f) o _ HV ltac:(done) (proj1 (Hs s) f)) as (V' & Hx).
    exists V', w. split; [by constructor|done].
  - destruct (writes_value w V (FieldPoint s f) o v HV ltac:(done)) as (t & msg & V' & Hu & Hv & Hmax).
    exists V', (add_message w (FieldPoint s f) t msg). split; [by constructor|].
    rewrite <- Hv. by apply newest_are_field.
  - destruct (s_state (get_slot m s) =? current) eqn:Heq; simplify_eq.
    + apply Z.eqb_eq in Heq. subst current.
      destruct (updates_value w V (FieldPoint s State) success _ new HV ltac:(done) (proj1 (Hs s) State))
        as (t & msg & V' & Hu & Hv & Hmax).
      exists V', (add_message w (FieldPoint s State) t msg). split; [by constructor|].
      rewrite <- Hv. by apply newest_are_field.
    + apply Z.eqb_neq in Heq.
      destruct (reads_value w V (FieldPoint s State) failure _ HV ltac:(done) (proj1 (Hs s) State))
        as (V' & Hx).
      exists V', w. split; [by econstructor|done].
  - destruct (slice _ 0 n) eqn:Hl; simplify_eq.
    + exists (after_access w V s), (accessed w s (w_buffer w s)). split.
      * apply step_read; [by eapply Hr|]. by rewrite (proj2 (Hs s)).
      * replace m' with (put_slot m' s (put_buffer (get_slot m' s) (w_buffer w s))).
        { by apply newest_are_buffer. }
        rewrite (proj2 (Hs s)). destruct m' as [u e [] []], s; done.
    + exists V, w. split; [|done]. apply step_read_fails. right. by rewrite (proj2 (Hs s)).
  - destruct (slice _ 0 (len l)) eqn:Hl; simplify_eq.
    + exists (after_access w V s), (accessed w s (splice (w_buffer w s) 0 l)). split.
      * eapply step_write; [by eapply Hw|]. by rewrite (proj2 (Hs s)).
      * rewrite <- (proj2 (Hs s)). by apply newest_are_buffer.
    + exists V, w. split; [|done]. apply step_write_fails. right. by rewrite (proj2 (Hs s)).
Qed.

(** The frames that the sessions of the tasks put in a slot. *)
Definition queued (ls : list (list session)) (s : slot) (l : list Z) : Prop :=
  exists x, x ∈ concat ls /\ offers x s l.

Definition sessions_ok (FRAME_SIZE : Z) (ls : list (list session)) : Prop :=
  0 <= FRAME_SIZE /\ Forall (Forall (session_wf FRAME_SIZE)) ls.

Lemma sessions_pool_ok FRAME_SIZE ls :
  sessions_ok FRAME_SIZE ls ->
  pool_ok FRAME_SIZE (queued ls) (weak_start FRAME_SIZE ls) (replicate (length ls) nothing).
Proof.
  intros [Hsize Hwf]. apply pool_start; [done|]. apply list.Forall_forall. intros l Hl.
  rewrite list.Forall_forall in Hwf. apply safe_task; [done|by apply Hwf|].
  intros x s f Hx Hf. exists x. split; [|done]. apply list_elem_of_In, in_concat.
  exists l. by rewrite <- !list_elem_of_In.
Qed.

Lemma sessions_reached FRAME_SIZE ls t :
  sessions_ok FRAME_SIZE ls -> rtc weak_task_step (weak_start FRAME_SIZE ls) t ->
  (exists os, pool_ok FRAME_SIZE (queued ls) t os) /\ pool_seen t.
Proof.
  intros Hok Hrun. split; [by eapply pool_steps; [apply sessions_pool_ok|]|].
  revert t Hrun. apply rtc_ind_r; [apply pool_seen_start|]. intros t t' _ Hstep Ht.
  by eapply pool_seen_step.
Qed.

(** A task about to access a buffer is ordered after every access before. *)
Lemma accessor_ordered FRAME_SIZE published t os i p V s n :
  pool_ok FRAME_SIZE published t os -> t.1 !! i = Some (p, V) ->
  (exists k, p = Read s n k) \/ (exists l k, p = Write s l k) -> ordered t.2 V s.
Proof.
  destruct t as [ps w]. intros Hok Hp Haccess.
  destruct (Forall2_lookup_l _ _ _ _ _ (proj1 Hok) Hp) as (o & Ho & Hpo). cbn in Hpo.
  pose proof (pool_view _ _ _ _ _ _ _ _ Hok Ho Hp) as Hview.
  assert (exists v, owns o s = Some v) as (v & Hv)
    by (destruct Haccess as [(k & ->)|(l & k & ->)]; destruct Hpo as (v & Hv & _); eauto).
  destruct (slot_view_owned _ _ _ _ _ _ _ Hview Hv) as (_ & [_ Hord] & _). exact Hord.
Qed.

Lemma list_fmap_insert_fst {A B} (l : list (A * B)) i x y : map fst (<[i := (x, y)]> l) = <[i := x]> (map fst l).
Proof. apply (list_fmap_insert fst). Qed.

(** Every interleaving over one memory is, step by step, a run of the machine
    with the same programs. *)
Lemma interleaving_runs FRAME_SIZE ls t :
  sessions_ok FRAME_SIZE ls ->
  rtc task_step (map (task_prog FRAME_SIZE) ls, NetworkState_new FRAME_SIZE) t ->
  exists t', rtc weak_task_step (weak_start FRAME_SIZE ls) t' /\ map fst t'.1 = t.1 /\ newest_are t'.2 t.2.
Proof.
  intros Hok. revert t. apply rtc_ind_r; [|intros t t1 Hrun Hstep IH].
  { exists (weak_start FRAME_SIZE ls). split; [done|]. split; [cbn; by rewrite map_map|].
    split_and!; [exists 0%nat, (mkMessage 0 bottom); split; [apply newest_new|done]..|].
    intros s. split; [|by destruct s]. intros f. exists 0%nat, (mkMessage 0 bottom).
    split; [apply newest_new|by destruct s, f]. }
  destruct IH as ([ps w] & Hweak & Hps & Hnew).
  destruct (sessions_reached _ _ _ Hok Hweak) as [[os Hpool] [Hall Hseen]].
  destruct Hstep as [qs m i p p' m' Hp Hstep]. cbn in Hps, Hnew, Hall, Hseen. subst qs.
  assert (exists V, ps !! i = Some (p, V)) as (V & HV).
  { change (map fst ps) with (fst <$> ps) in Hp. rewrite list_lookup_fmap in Hp.
    destruct (ps !! i) as [[q V]|]; cbn in Hp; simplify_eq. eauto. }
  destruct (sc_step p p' m m' w V Hnew (Hseen i _ HV) Hstep) as (V' & w' & Hw & Hnew').
  - intros s n k ->. eapply (accessor_ordered _ _ (ps, w)); [done..|eauto].
  - intros s l k ->. eapply (accessor_ordered _ _ (ps, w) _ _ _ _ _ 0); [done..|eauto].
  - exists (<[i := (p', V')]> ps, w'). split; [|split; [apply list_fmap_insert_fst|done]].
    eapply rtc_r; [done|]. by econstructor.
Qed.

(** * Properties *)

(** C10: The network queue is safe under the memory model of Rust, with any
    number of tasks in any order: no operation panics and no two accesses of a
    buffer race, every unfinished task can take its next step, no two tasks are
    on the way to one buffer without claiming its slot first, and a finished
    task has been given only empty slices and whole frames that some task pushed
    (receptions) or filled (leases), none torn or mixed. *)
Theorem network_sessions_safe FRAME_SIZE ls t :
  sessions_ok FRAME_SIZE ls -> rtc weak_task_step (weak_start FRAME_SIZE ls) t ->
  (forall i p V, t.1 !! i = Some (p, V) ->
     match p with
     | Panicked => False
     | Ret es => Forall (event_ok (queued ls)) es
     | _ => exists p' V' w', weak_step p V t.2 p' V' w'
     end)
  /\ forall s i j p V q W, t.1 !! i = Some (p, V) -> t.1 !! j = Some (q, W) ->
       will_access s p V t.2 -> will_access s q W t.2 -> i = j.
Proof.
  intros Hok Hrun. destruct (sessions_reached _ _ _ Hok Hrun) as [[os Hpool] [_ Hseen]]. split.
  - intros i p V Hp. pose proof (pool_result _ _ _ _ _ _ _ Hpool Hp) as Hresult.
    pose proof (can_step p V t.2 (Hseen i _ Hp)) as Hstep. by destruct p.
  - intros s i j p V q W Hp Hq Hip Hjq. by eapply one_accessor.
Qed.

(** C19: The queue is wait free: whatever the order of the tasks and whatever
    each of them sees, tasks of [n] sessions in all take at most 89 [n] steps
    together, and when none can take another, every task has returned. *)
Theorem network_wait_free FRAME_SIZE ls n t :
  sessions_ok FRAME_SIZE ls -> nsteps weak_task_step n (weak_start FRAME_SIZE ls) t ->
  (n <= 89 * length (concat ls))%nat
  /\ ((forall t', ~ weak_task_step t t') ->
      forall i, (i < length ls)%nat -> exists es V, t.1 !! i = Some (Ret es, V)).
Proof.
  intros Hok Hrun. split.
  { rewrite <- sum_sessions. eapply within_pool; [done|]. apply within_start. }
  intros Hstuck i Hi.
  destruct (sessions_reached _ _ _ Hok (rtc_nsteps_2 _ _ _ Hrun)) as [[os Hpool] [_ Hseen]].
  assert (Hlen : length t.1 = length ls).
  { replace (length ls) with (length (weak_start FRAME_SIZE ls).1) by apply length_map.
    clear -Hrun. induction Hrun as [|n t t1 t2 Hstep _ IH]; [done|].
    rewrite IH. destruct Hstep. cbn. by rewrite length_insert. }
  destruct (lookup_lt_is_Some_2 t.1 i) as [[p V] Hp]; [lia|].
  pose proof (pool_result _ _ _ _ _ _ _ Hpool Hp) as Hresult.
  pose proof (can_step p V t.2 (Hseen i _ Hp)) as Hstep. destruct t as [ps w]. cbn in Hp, Hstep.
  destruct p; try done; [by do 2 eexists|..]; destruct Hstep as (p' & V' & w' & Hstep);
    by destruct (Hstuck _ (weak_task_runs ps w i _ V p' V' w' Hp Hstep)).
Qed.

(** * Witnesses *)

(** A frame is pushed, received and answered, and the reply is taken. *)
Definition exchange_sessions : list (list session) :=
  [[SSync true; SPush [7]; STake (Some TxOutcome.Submitted)];
   [SReceive (fun l => l) true (Some (1, map (fun _ => 9)))]].

Lemma exchange_sessions_ok : sessions_ok 2 exchange_sessions.
Proof.
  split; [lia|]. assert (Hmap : forall l : list Z, len (map (fun _ => 9) l) = len l)
    by (intros l; unfold len; by rewrite length_map).
  repeat constructor; try done; cbn in *; simplify_eq; [lia|lia|apply Hmap|].
  by intros keep [= <-].
Qed.

Lemma exchange_runs :
  exists t, rtc weak_task_step (weak_start 2 exchange_sessions) t
            /\ map fst t.1 = [Ret [Leased [9]]; Ret [Delivered [7]]].
Proof.
  destruct (interleaving_runs 2 exchange_sessions
    ([Ret [Leased [9]]; Ret [Delivered [7]]],
     mkNetworkState true 1 (mkSlot FREE 0 1 [7; 0]) (mkSlot FREE 0 1 [9; 0]))) as (t & Hrun & Ht & _).
  - exact exchange_sessions_ok.
  - apply (schedule_runs (replicate 21 0%nat ++ replicate 33 1%nat ++ replicate 17 0%nat)).
    vm_compute. reflexivity.
  - by exists t.
Qed.

Lemma network_sessions_safe_witness :
  exists t, rtc weak_task_step (weak_start 2 exchange_sessions) t
    /\ (exists V, t.1 !! 1%nat = Some (Ret [Delivered [7]], V))
    /\ Forall (event_ok (queued exchange_sessions)) [Delivered [7]].
Proof.
  destruct exchange_runs as ([[|p [|[q V] ps]] w] & Hrun & Ht); cbn in Ht; try discriminate Ht.
  injection Ht as Hp Hq _. subst q. eexists. split; [exact Hrun|]. split; [exists V; reflexivity|].
  exact (proj1 (network_sessions_safe 2 exchange_sessions _ exchange_sessions_ok Hrun)
           1%nat (Ret [Delivered [7]]) V eq_refl).
Defined.

Lemma network_wait_free_witness :
  exists n t, nsteps weak_task_step n (weak_start 2 exchange_sessions) t
    /\ map fst t.1 = [Ret [Leased [9]]; Ret [Delivered [7]]]
    /\ (n <= 89 * length (concat exchange_sessions))%nat.
Proof.
  destruct exchange_runs as (t & Hrun & Ht). destruct (rtc_nsteps_1 _ _ Hrun) as [n Hn].
  exists n, t. split; [exact Hn|]. split; [exact Ht|].
  exact (proj1 (network_wait_free 2 exchange_sessions n t exchange_sessions_ok Hn)).
Defined.
