(* ===== verification/TestSupport.v ===== *)
(** * TestSupport: assertions and fakes of the test suite (src/src/test_support.rs)

    Every [#[test]] of the crate is a proposition of the same name, translated
    line by line over the model, with a lemma that it holds.  [assert_eq!] is an
    equality, [assert!] of a boolean an equality with [true], [unwrap] and
    [matches!] a match, and a loop over a table a conjunction.  A panic anywhere
    in the test makes the proposition false.  [block_on] polls until a future is
    ready; the futures of the fakes are ready at once, so it is left out. *)

From Stdlib Require Ascii String.
From S2P Require Import Prelude Bus Memory.

Section assertions.
Context {E A : Type}.

(** [for x in l { P }] *)
Definition all_of (l : list A) (P : A -> Prop) : Prop :=
  foldr (fun x rest => P x /\ rest) True l.

(** [unwrap] and [unwrap_err], then the rest of the test. *)
Definition unwrap (r : res E A) (P : A -> Prop) : Prop :=
  match r with Ok a => P a | _ => False end.
Definition unwrap_err (r : res E A) (P : E -> Prop) : Prop :=
  match r with Err e => P e | _ => False end.
Definition unwrap_some (o : option A) (P : A -> Prop) : Prop :=
  match o with Some a => P a | None => False end.

Definition is_ok (r : res E A) : bool := match r with Ok _ => true | _ => false end.
Definition is_err (r : res E A) : bool := match r with Err _ => true | _ => false end.

(** A call, whose result and final state the rest of the test sees. *)
Definition call {S} (m : M S E A) (s : S) (P : res E A -> S -> Prop) : Prop :=
  let '(r, s') := m s in P r s'.

(** [should_panic], and a call that the test wraps in [catch_unwind]. *)
Definition panics (r : res E A) : Prop := match r with Panic => True | _ => False end.
End assertions.

Notation "'let?' x := r 'in' P" := (unwrap r (fun x => P))
  (at level 10, x pattern, r at level 100, P at level 200, only parsing).
Notation "'let!' x := o 'in' P" := (unwrap_some o (fun x => P))
  (at level 10, x pattern, o at level 100, P at level 200, only parsing).
Notation "'run' r , s := m 'on' t 'in' P" := (call m t (fun r s => P))
  (at level 10, r name, s pattern, m at level 100, t at level 100, P at level 200, only parsing).

(** [l.contains(&x)] *)
Definition contains {A} `{EqDecision A} (l : list A) (x : A) : bool :=
  existsb (fun y => bool_decide (y = x)) l.

(** [(0..n).map(|index| index as u8).collect()] *)
Fixpoint counting_from (count : nat) (index : Z) : list Z :=
  match count with
  | O => []
  | Datatypes.S count => u8 index :: counting_from count (index + 1)
  end.
Definition counting (n : Z) : list Z := counting_from (Z.to_nat n) 0.

(** An array after assignments [l[at..at + n].copy_from_slice(bytes)]. *)
Definition edited (l : list Z) (edits : list (Z * list Z)) : list Z :=
  foldl (fun l '(at_, bytes) => splice l at_ bytes) l edits.

(** A byte string literal. *)
Definition b (s : String.string) : list Z :=
  map (fun c => Z.of_N (Ascii.N_of_ascii c)) (String.list_ascii_of_string s).

(** A test passes by evaluation. *)
Ltac passes := vm_compute; repeat (split || exact I || reflexivity).
