(* ===== verification/Primitives.v ===== *)
(** * Primitives: the algorithms behind the cryptographic crates

    SHA-256 and SHA-1 (FIPS 180-4), HMAC (RFC 2104), PBKDF2 (RFC 8018) and
    AES-128 (FIPS 197), as the crates sha2, sha1, hmac, pbkdf2 and aes document
    them, with the published vectors.  They are instances of the classes of
    Crypto: the laws the driver relies on hold of the real algorithms.  The
    tests of the crate that fix a digest or a ciphertext run on them. *)

From Stdlib Require Import Strings.String Btauto.
From S2P Require Import Prelude Crypto TestSupport.
#[local] Open Scope Z_scope.

(** ** Words *)

Definition word32 (x : Z) : Z := Z.land x 0xffffffff.
Definition add32 (x y : Z) : Z := word32 (x + y).
Definition rotl (n x : Z) : Z := Z.lor (word32 (Z.shiftl x n)) (Z.shiftr x (32 - n)).
Definition rotr (n x : Z) : Z := rotl (32 - n) x.
Definition not32 (x : Z) : Z := Z.lxor x 0xffffffff.
Definition nth_word (i : nat) (w : list Z) : Z := nth i w 0.

(** The message, the bit 1, zeros and the length in bits: a multiple of 64 bytes. *)
Definition padded (message : list Z) : list Z :=
  message ++ [0x80] ++ zeros ((55 - len message) mod 64) ++ to_be 8 (8 * len message).
Definition message_blocks (message : list Z) : list (list Z) :=
  map (fun block => map from_be (chunks 4 block)) (chunks 64 (padded message)).

(** ** SHA-256 *)

(** The constants are the first 32 bits of the fractional parts of roots of the
    first primes: the cube roots of 64, and the square roots of 8. *)
Definition is_prime (p : Z) : bool :=
  forallb (fun d => negb (p mod d =? 0)) (seqZ 2 (p - 2)).
Definition primes_to (n : Z) : list Z := List.filter is_prime (seqZ 2 (n - 1)).

(** The largest number whose cube is at most [x], bit by bit. *)
Fixpoint cube_root_from (bits : nat) (root x : Z) : Z :=
  match bits with
  | O => root
  | Datatypes.S bits =>
      let next := root + 2 ^ Z.of_nat bits in
      cube_root_from bits (if next ^ 3 <=? x then next else root) x
  end.
Definition cube_root_bits (p : Z) : Z := word32 (cube_root_from 35 0 (p * 2 ^ 96)).
Definition square_root_bits (p : Z) : Z := word32 (Z.sqrt (p * 2 ^ 64)).

Definition sha256_constants : list Z := Eval vm_compute in map cube_root_bits (primes_to 311).

Record state256 : Type := mkState256 { s0 : Z; s1 : Z; s2 : Z; s3 : Z; s4 : Z; s5 : Z; s6 : Z; s7 : Z }.

Definition initial256 : state256 :=
  Eval vm_compute in
    match map square_root_bits (primes_to 19) with
    | [a; b; c; d; e; f; g; h] => mkState256 a b c d e f g h
    | _ => mkState256 0 0 0 0 0 0 0 0
    end.

Definition Ch (x y z : Z) : Z := Z.lxor (Z.land x y) (Z.land (not32 x) z).
Definition Maj (x y z : Z) : Z := Z.lxor (Z.lxor (Z.land x y) (Z.land x z)) (Z.land y z).
Definition xor3 (x y z : Z) : Z := Z.lxor (Z.lxor x y) z.

Definition round256 (s : state256) (k w : Z) : state256 :=
  let t1 := add32 (s7 s + xor3 (rotr 6 (s4 s)) (rotr 11 (s4 s)) (rotr 25 (s4 s)))
                  (Ch (s4 s) (s5 s) (s6 s) + k + w) in
  let t2 := xor3 (rotr 2 (s0 s)) (rotr 13 (s0 s)) (rotr 22 (s0 s)) + Maj (s0 s) (s1 s) (s2 s) in
  mkState256 (add32 t1 t2) (s0 s) (s1 s) (s2 s) (add32 (s3 s) t1) (s4 s) (s5 s) (s6 s).

(** The next word of the schedule, from the last sixteen. *)
Definition schedule256 (w : list Z) : Z :=
  let x := nth_word 1 w in
  let y := nth_word 14 w in
  add32 (nth_word 0 w + xor3 (rotr 7 x) (rotr 18 x) (Z.shiftr x 3))
        (nth_word 9 w + xor3 (rotr 17 y) (rotr 19 y) (Z.shiftr y 10)).

Fixpoint rounds256 (constants w : list Z) (s : state256) : state256 :=
  match constants with
  | [] => s
  | k :: constants =>
      rounds256 constants (tail w ++ [schedule256 w]) (round256 s k (nth_word 0 w))
  end.

Definition compress256 (s : state256) (block : list Z) : state256 :=
  let t := rounds256 sha256_constants block s in
  mkState256 (add32 (s0 s) (s0 t)) (add32 (s1 s) (s1 t)) (add32 (s2 s) (s2 t))
    (add32 (s3 s) (s3 t)) (add32 (s4 s) (s4 t)) (add32 (s5 s) (s5 t)) (add32 (s6 s) (s6 t))
    (add32 (s7 s) (s7 t)).

Definition digest256 (s : state256) : list Z :=
  concat (map (to_be 4) [s0 s; s1 s; s2 s; s3 s; s4 s; s5 s; s6 s; s7 s]).
Definition Sha256_digest (message : list Z) : list Z :=
  digest256 (foldl compress256 initial256 (message_blocks message)).

(** ** SHA-1 *)

Record state160 : Type := mkState160 { h0 : Z; h1 : Z; h2 : Z; h3 : Z; h4 : Z }.
Definition initial160 : state160 :=
  mkState160 0x67452301 0xefcdab89 0x98badcfe 0x10325476 0xc3d2e1f0.

Definition round160 (f : Z -> Z -> Z -> Z) (k w : Z) (s : state160) : state160 :=
  mkState160 (add32 (rotl 5 (h0 s) + f (h1 s) (h2 s) (h3 s)) (h4 s + k + w)) (h0 s)
    (rotl 30 (h1 s)) (h2 s) (h3 s).

Definition schedule160 (w : list Z) : Z :=
  rotl 1 (Z.lxor (xor3 (nth_word 13 w) (nth_word 8 w) (nth_word 2 w)) (nth_word 0 w)).

(** Twenty rounds of each of the four functions. *)
Fixpoint rounds160 (count : nat) (f : Z -> Z -> Z -> Z) (k : Z) (ws : list Z * state160)
    : list Z * state160 :=
  match count with
  | O => ws
  | Datatypes.S count =>
      let '(w, s) := ws in
      rounds160 count f k (tail w ++ [schedule160 w], round160 f k (nth_word 0 w) s)
  end.

Definition compress160 (s : state160) (block : list Z) : state160 :=
  let ws := rounds160 20 Ch 0x5a827999 (block, s) in
  let ws := rounds160 20 xor3 0x6ed9eba1 ws in
  let ws := rounds160 20 Maj 0x8f1bbcdc ws in
  let t := snd (rounds160 20 xor3 0xca62c1d6 ws) in
  mkState160 (add32 (h0 s) (h0 t)) (add32 (h1 s) (h1 t)) (add32 (h2 s) (h2 t))
    (add32 (h3 s) (h3 t)) (add32 (h4 s) (h4 t)).

Definition digest160 (s : state160) : list Z :=
  concat (map (to_be 4) [h0 s; h1 s; h2 s; h3 s; h4 s]).
Definition Sha1_digest (message : list Z) : list Z :=
  digest160 (foldl compress160 initial160 (message_blocks message)).

(** ** HMAC and PBKDF2 *)

Definition hmac_key (key : list Z) : list Z :=
  let key := if 64 <? len key then Sha1_digest key else key in
  key ++ zeros (64 - len key).
Definition HmacSha1_tag (key data : list Z) : list Z :=
  let key := hmac_key key in
  Sha1_digest (map (Z.lxor 0x5c) key ++ Sha1_digest (map (Z.lxor 0x36) key ++ data)).

Definition xor_bytes (x y : list Z) : list Z := zip_with Z.lxor x y.

(** [U_1 xor ... xor U_rounds], where [u] is the last [U] and [acc] the sum. *)
Fixpoint pbkdf2_rounds (rounds : nat) (password u acc : list Z) : list Z :=
  match rounds with
  | O => acc
  | Datatypes.S rounds =>
      let u := HmacSha1_tag password u in
      pbkdf2_rounds rounds password u (xor_bytes acc u)
  end.
Definition pbkdf2_block (password salt : list Z) (rounds : Z) (index : Z) : list Z :=
  let u := HmacSha1_tag password (salt ++ to_be 4 index) in
  pbkdf2_rounds (Z.to_nat rounds - 1) password u u.
Definition pbkdf2_bytes (password salt : list Z) (rounds n : Z) : list Z :=
  take (Z.to_nat n)
    (concat (map (pbkdf2_block password salt rounds) (seqZ 1 ((n + 19) / 20)))).

(** ** AES-128

    The state is the list of its sixteen bytes, column by column. *)

(** Multiplication by the polynomial x, and products in the field of 256
    elements. *)
Definition xtime (x : Z) : Z :=
  Z.lxor (Z.land (Z.shiftl x 1) 255) (if Z.testbit x 7 then 0x1b else 0).
Fixpoint field_mul (bits : nat) (x y : Z) : Z :=
  match bits with
  | O => 0
  | Datatypes.S bits =>
      Z.lxor (if Z.odd y then x else 0) (field_mul bits (xtime x) (Z.shiftr y 1))
  end.
(** [x] to the power 254, which is its inverse (0 for 0): the product of its
    powers 2, 4, 8, 16, 32, 64 and 128. *)
Fixpoint field_inverse (squares : nat) (x : Z) : Z :=
  match squares with
  | O => 1
  | Datatypes.S squares =>
      let x := field_mul 8 x x in field_mul 8 x (field_inverse squares x)
  end.
Definition rotl8 (n x : Z) : Z := Z.lor (u8 (Z.shiftl x n)) (Z.shiftr x (8 - n)).
(** The inverse, and an affine map over the bits. *)
Definition substitute (x : Z) : Z :=
  let y := field_inverse 7 x in
  foldl Z.lxor 0x63 [y; rotl8 1 y; rotl8 2 y; rotl8 3 y; rotl8 4 y].

Fixpoint table_index (y : Z) (l : list Z) : Z :=
  match l with [] => 0 | x :: l => if x =? y then 0 else 1 + table_index y l end.

Definition sbox : list Z := Eval vm_compute in map substitute (seqZ 0 256).
Definition inverse_sbox : list Z :=
  Eval vm_compute in map (fun y => table_index y sbox) (seqZ 0 256).
Definition sub_byte (table : list Z) (x : Z) : Z := nth (Z.to_nat x) table 0.
Definition sub_bytes (table : list Z) (s : list Z) : list Z := map (sub_byte table) s.

Definition permute (positions : list nat) (s : list Z) : list Z :=
  map (fun i => nth i s 0) positions.
Definition shift_rows : list Z -> list Z :=
  permute [0; 5; 10; 15; 4; 9; 14; 3; 8; 13; 2; 7; 12; 1; 6; 11]%nat.
Definition inverse_shift_rows : list Z -> list Z :=
  permute [0; 13; 10; 7; 4; 1; 14; 11; 8; 5; 2; 15; 12; 9; 6; 3]%nat.

(** Multiplication by the coefficients of MixColumns and its inverse. *)
Definition gmul3 (x : Z) : Z := Z.lxor (xtime x) x.
Definition gmul9 (x : Z) : Z := Z.lxor (xtime (xtime (xtime x))) x.
Definition gmul11 (x : Z) : Z := Z.lxor (xtime (xtime (xtime x))) (Z.lxor (xtime x) x).
Definition gmul13 (x : Z) : Z := Z.lxor (xtime (xtime (xtime x))) (Z.lxor (xtime (xtime x)) x).
Definition gmul14 (x : Z) : Z :=
  Z.lxor (xtime (xtime (xtime x))) (Z.lxor (xtime (xtime x)) (xtime x)).
Definition xor4 (a b c d : Z) : Z := Z.lxor (Z.lxor a b) (Z.lxor c d).

Fixpoint on_columns (f : Z -> Z -> Z -> Z -> list Z) (s : list Z) : list Z :=
  match s with
  | a :: b :: c :: d :: s => f a b c d ++ on_columns f s
  | _ => []
  end.
Definition mix_column (a b c d : Z) : list Z :=
  [xor4 (xtime a) (gmul3 b) c d; xor4 a (xtime b) (gmul3 c) d;
   xor4 a b (xtime c) (gmul3 d); xor4 (gmul3 a) b c (xtime d)].
Definition inverse_mix_column (a b c d : Z) : list Z :=
  [xor4 (gmul14 a) (gmul11 b) (gmul13 c) (gmul9 d); xor4 (gmul9 a) (gmul14 b) (gmul11 c) (gmul13 d);
   xor4 (gmul13 a) (gmul9 b) (gmul14 c) (gmul11 d); xor4 (gmul11 a) (gmul13 b) (gmul9 c) (gmul14 d)].

(** One step of the key expansion. *)
Definition next_round_key (key : list Z) (rcon : Z) : list Z :=
  let w i := take 4 (drop (4 * i) key) in
  let rotated := tail (w 3%nat) ++ take 1 (w 3%nat) in
  let n0 := xor_bytes (w 0%nat) (xor_bytes (sub_bytes sbox rotated) [rcon; 0; 0; 0]) in
  let n1 := xor_bytes (w 1%nat) n0 in
  let n2 := xor_bytes (w 2%nat) n1 in
  n0 ++ n1 ++ n2 ++ xor_bytes (w 3%nat) n2.
Fixpoint round_keys (key : list Z) (rcons : list Z) : list (list Z) :=
  match rcons with
  | [] => []
  | rcon :: rcons => let key := next_round_key key rcon in key :: round_keys key rcons
  end.
Definition rcons : list Z := [0x01; 0x02; 0x04; 0x08; 0x10; 0x20; 0x40; 0x80; 0x1b; 0x36].

(** The keys of the rounds after the first; the last round does not mix. *)
Fixpoint encrypt_rounds (keys : list (list Z)) (s : list Z) : list Z :=
  match keys with
  | [] => s
  | [key] => xor_bytes (shift_rows (sub_bytes sbox s)) key
  | key :: keys =>
      encrypt_rounds keys
        (xor_bytes (on_columns mix_column (shift_rows (sub_bytes sbox s))) key)
  end.
Fixpoint decrypt_rounds (keys : list (list Z)) (s : list Z) : list Z :=
  match keys with
  | [] => s
  | [key] => sub_bytes inverse_sbox (inverse_shift_rows (xor_bytes s key))
  | key :: keys =>
      sub_bytes inverse_sbox (inverse_shift_rows
        (on_columns inverse_mix_column (xor_bytes (decrypt_rounds keys s) key)))
  end.

(** Keys and blocks of the crate are arrays [[u8; 16]]; a list that is none is
    cut or padded to one. *)
Definition array16 (l : list Z) : list Z := map u8 (take 16 (l ++ zeros 16)).
Definition Aes128_encrypt (key block : list Z) : list Z :=
  let key := array16 key in
  encrypt_rounds (round_keys key rcons) (xor_bytes (array16 block) key).
Definition Aes128_decrypt (key block : list Z) : list Z :=
  let key := array16 key in
  xor_bytes (decrypt_rounds (round_keys key rcons) (array16 block)) key.

(** * The laws *)

(** ** Bytes *)

Lemma is_byte_land x : is_byte x <-> Z.land x 255 = x.
Proof.
  unfold is_byte. change 255 with (Z.ones 8). rewrite Z.land_ones by lia.
  split; intros H; [by apply Z.mod_small|].
  rewrite <-H. apply Z.mod_pos_bound. lia.
Qed.

Lemma lxor_land x y z : Z.land (Z.lxor x y) z = Z.lxor (Z.land x z) (Z.land y z).
Proof. apply Z.bits_inj'. intros n _. rewrite !Z.land_spec, !Z.lxor_spec, !Z.land_spec. btauto. Qed.

Lemma xor_of_bytes x y : is_byte x -> is_byte y -> is_byte (Z.lxor x y).
Proof. rewrite !is_byte_land, lxor_land. congruence. Qed.

Lemma xor_bytes_len x y : length x = length y -> length (xor_bytes x y) = length x.
Proof. intros H. unfold xor_bytes. rewrite length_zip_with. lia. Qed.

Lemma xor_bytes_bytes x y : bytes_ok x -> bytes_ok y -> bytes_ok (xor_bytes x y).
Proof.
  intros Hx. revert y. induction Hx as [|a x Ha _ IH]; intros [|c y] Hy; try by apply Forall_nil.
  inversion Hy; subst. apply Forall_cons_2; [by apply xor_of_bytes|by apply IH].
Qed.

Lemma xor_bytes_twice x y : (length x <= length y)%nat -> xor_bytes (xor_bytes x y) y = x.
Proof.
  revert y. induction x as [|a x IH]; intros [|c y] H; cbn in *; try done; [lia|].
  unfold xor_bytes in IH. rewrite IH by lia. f_equal.
  by rewrite Z.lxor_assoc, Z.lxor_nilpotent, Z.lxor_0_r.
Qed.

(** A property of all bytes is checked on each. *)
Lemma bytes_forall (P : Z -> bool) x :
  forallb P (seqZ 0 256) = true -> is_byte x -> P x = true.
Proof.
  rewrite forallb_forall. intros H Hx. apply H, list_elem_of_In, elem_of_seqZ. unfold is_byte in Hx.
  lia.
Qed.

(** ** Digests *)

Lemma be_bytes_ok n v : bytes_ok (to_be n v).
Proof. apply Forall_rev, to_le_bytes. Qed.

Lemma words_bytes ws : bytes_ok (concat (map (to_be 4) ws)).
Proof.
  induction ws as [|w ws IH]; [by apply Forall_nil|].
  cbn [map concat]. apply Forall_app_2; [apply be_bytes_ok|done].
Qed.

Definition real_sha256 : Sha256.
Proof.
  refine {| sha256 := Sha256_digest |}.
  - reflexivity.
  - intros message. apply words_bytes.
Defined.

Definition real_hmac : HmacSha1.
Proof.
  refine {| hmac_sha1 := HmacSha1_tag |}.
  - reflexivity.
  - intros key data. apply words_bytes.
Defined.

Lemma pbkdf2_rounds_len rounds password u acc :
  length acc = 20%nat -> length (pbkdf2_rounds rounds password u acc) = 20%nat.
Proof.
  revert u acc. induction rounds as [|rounds IH]; intros u acc H; [done|].
  apply IH. by rewrite xor_bytes_len.
Qed.

Lemma blocks_len password salt rounds l :
  length (concat (map (pbkdf2_block password salt rounds) l)) = (20 * length l)%nat.
Proof.
  induction l as [|i l IH]; [done|]. cbn [map concat]. rewrite length_app, IH.
  unfold pbkdf2_block. rewrite pbkdf2_rounds_len by done. cbn. lia.
Qed.

Definition real_pbkdf2 : Pbkdf2.
Proof.
  refine {| pbkdf2_hmac_sha1 := pbkdf2_bytes |}.
  intros password salt rounds n Hn. unfold pbkdf2_bytes, len.
  rewrite length_take, blocks_len, length_seqZ.
  pose proof (Z.div_mod (n + 19) 20). pose proof (Z.mod_pos_bound (n + 19) 20). lia.
Defined.

(** ** AES: every step has its inverse *)

Lemma sub_byte_inverse x : is_byte x -> sub_byte inverse_sbox (sub_byte sbox x) = x.
Proof.
  intros H. apply Z.eqb_eq.
  by apply (bytes_forall (fun x => sub_byte inverse_sbox (sub_byte sbox x) =? x)).
Qed.

Lemma inverse_sub_byte x : is_byte x -> sub_byte sbox (sub_byte inverse_sbox x) = x.
Proof.
  intros H. apply Z.eqb_eq.
  by apply (bytes_forall (fun x => sub_byte sbox (sub_byte inverse_sbox x) =? x)).
Qed.

Lemma nth_bytes i l : bytes_ok l -> is_byte (nth i l 0).
Proof.
  intros H. revert i. induction H as [|x l Hx _ IH]; intros [|i]; cbn; try done; by vm_compute.
Qed.

Lemma sub_bytes_bytes table s : bytes_ok table -> bytes_ok (sub_bytes table s).
Proof. intros H. apply Forall_map, Forall_true. intros x. by apply nth_bytes. Qed.

Lemma sbox_bytes : bytes_ok sbox /\ bytes_ok inverse_sbox.
Proof. split; by apply bytes_okb_ok. Qed.

Lemma permute_bytes positions s : bytes_ok s -> bytes_ok (permute positions s).
Proof. intros H. apply Forall_map, Forall_true. intros i. by apply nth_bytes. Qed.

Lemma sub_bytes_inverse s : bytes_ok s -> sub_bytes inverse_sbox (sub_bytes sbox s) = s.
Proof.
  intros H. unfold sub_bytes. induction H as [|x s Hx _ IH]; [done|].
  cbn [map]. f_equal; [by apply sub_byte_inverse|done].
Qed.

Lemma inverse_sub_bytes s : bytes_ok s -> sub_bytes sbox (sub_bytes inverse_sbox s) = s.
Proof.
  intros H. unfold sub_bytes. induction H as [|x s Hx _ IH]; [done|].
  cbn [map]. f_equal; [by apply inverse_sub_byte|done].
Qed.

(** A list of sixteen elements, by its elements. *)
Ltac sixteen s :=
  do 16 (destruct s as [|? s]; [done|]); destruct s; [|done].

Lemma shift_rows_inverse s : length s = 16%nat -> inverse_shift_rows (shift_rows s) = s.
Proof. intros H. by sixteen s. Qed.

Lemma inverse_shift_rows_inverse s : length s = 16%nat -> shift_rows (inverse_shift_rows s) = s.
Proof. intros H. by sixteen s. Qed.

(** ** MixColumns is linear *)

Lemma xtime_lxor x y : xtime (Z.lxor x y) = Z.lxor (xtime x) (xtime y).
Proof.
  unfold xtime. rewrite Z.shiftl_lxor, lxor_land, Z.lxor_spec. apply Z.bits_inj'. intros n _.
  rewrite !Z.lxor_spec. destruct (Z.testbit x 7), (Z.testbit y 7); cbn [xorb];
    rewrite ?Z.bits_0; btauto.
Qed.

Lemma xtime_byte x : is_byte x -> is_byte (xtime x).
Proof.
  intros H. apply is_byte_land, Z.eqb_eq.
  by apply (bytes_forall (fun x => Z.land (xtime x) 255 =? xtime x)).
Qed.

Create HintDb bytes.
Create HintDb linear.
#[local] Hint Resolve xor_of_bytes xtime_byte : bytes.
Lemma gmul3_byte x : is_byte x -> is_byte (gmul3 x).
Proof. unfold gmul3. auto with bytes. Qed.
Lemma gmul9_byte x : is_byte x -> is_byte (gmul9 x).
Proof. unfold gmul9. auto with bytes. Qed.
Lemma gmul11_byte x : is_byte x -> is_byte (gmul11 x).
Proof. unfold gmul11. auto 8 with bytes. Qed.
Lemma gmul13_byte x : is_byte x -> is_byte (gmul13 x).
Proof. unfold gmul13. auto 8 with bytes. Qed.
Lemma gmul14_byte x : is_byte x -> is_byte (gmul14 x).
Proof. unfold gmul14. auto 8 with bytes. Qed.
#[local] Hint Resolve gmul3_byte gmul9_byte gmul11_byte gmul13_byte gmul14_byte : bytes.

Lemma xor4_lxor a b c d a' b' c' d' :
  xor4 (Z.lxor a a') (Z.lxor b b') (Z.lxor c c') (Z.lxor d d')
    = Z.lxor (xor4 a b c d) (xor4 a' b' c' d').
Proof. apply Z.bits_inj'. intros n _. unfold xor4. rewrite !Z.lxor_spec. btauto. Qed.

Lemma xor4_transpose a b c d e f g h i j k l m n o p :
  xor4 (xor4 a b c d) (xor4 e f g h) (xor4 i j k l) (xor4 m n o p)
    = xor4 (xor4 a e i m) (xor4 b f j n) (xor4 c g k o) (xor4 d h l p).
Proof.
  apply Z.bits_inj'. intros q _. unfold xor4. rewrite !Z.lxor_spec.
  generalize (Z.testbit a q), (Z.testbit b q), (Z.testbit c q), (Z.testbit d q),
    (Z.testbit e q), (Z.testbit f q), (Z.testbit g q), (Z.testbit h q), (Z.testbit i q),
    (Z.testbit j q), (Z.testbit k q), (Z.testbit l q), (Z.testbit m q), (Z.testbit n q),
    (Z.testbit o q), (Z.testbit p q).
  intros. btauto.
Qed.

(** A function that distributes over the sum of four bytes. *)
Definition linear (f : Z -> Z) : Prop := forall x y, f (Z.lxor x y) = Z.lxor (f x) (f y).

Lemma linear_xtime : linear xtime.
Proof. exact xtime_lxor. Qed.
Lemma linear_id : linear (fun x => x).
Proof. done. Qed.
Lemma linear_sum f g : linear f -> linear g -> linear (fun x => Z.lxor (f x) (g x)).
Proof.
  intros Hf Hg x y. rewrite Hf, Hg. apply Z.bits_inj'. intros n _. rewrite !Z.lxor_spec. btauto.
Qed.
Lemma linear_compose f g : linear f -> linear g -> linear (fun x => f (g x)).
Proof. intros Hf Hg x y. by rewrite Hg, Hf. Qed.

#[local] Hint Resolve linear_xtime linear_id linear_sum linear_compose : linear.
Lemma linear_xtime3 : linear (fun x => xtime (xtime (xtime x))).
Proof. intros x y. by rewrite !xtime_lxor. Qed.
Lemma linear_xtime2 : linear (fun x => xtime (xtime x)).
Proof. intros x y. by rewrite !xtime_lxor. Qed.
#[local] Hint Resolve linear_xtime2 linear_xtime3 : linear.
Lemma linear_gmul3 : linear gmul3.
Proof. apply (linear_sum xtime (fun x => x)); auto with linear. Qed.
Lemma linear_gmul9 : linear gmul9.
Proof. apply (linear_sum (fun x => xtime (xtime (xtime x))) (fun x => x)); auto with linear. Qed.
Lemma linear_gmul11 : linear gmul11.
Proof.
  apply (linear_sum (fun x => xtime (xtime (xtime x))) (fun x => Z.lxor (xtime x) x));
    [auto with linear|]. apply (linear_sum xtime (fun x => x)); auto with linear.
Qed.
Lemma linear_gmul13 : linear gmul13.
Proof.
  apply (linear_sum (fun x => xtime (xtime (xtime x))) (fun x => Z.lxor (xtime (xtime x)) x));
    [auto with linear|]. apply (linear_sum (fun x => xtime (xtime x)) (fun x => x));
    auto with linear.
Qed.
Lemma linear_gmul14 : linear gmul14.
Proof.
  apply (linear_sum (fun x => xtime (xtime (xtime x))) (fun x => Z.lxor (xtime (xtime x)) (xtime x)));
    [auto with linear|]. apply (linear_sum (fun x => xtime (xtime x)) xtime); auto with linear.
Qed.

Lemma linear_xor4 f a b c d : linear f -> f (xor4 a b c d) = xor4 (f a) (f b) (f c) (f d).
Proof. intros H. unfold xor4. by rewrite !H. Qed.

(** ** InvMixColumns inverts MixColumns *)

Lemma byte_eq f g x :
  forallb (fun x => f x =? g x) (seqZ 0 256) = true -> is_byte x -> f x = g x.
Proof. intros H Hx. apply Z.eqb_eq. by apply (bytes_forall (fun x => f x =? g x)). Qed.

(** An equation about one byte, checked on all of them. *)
Ltac byte_eq x :=
  match goal with
  | |- ?l = ?r =>
      let f := eval pattern x in l in
      let g := eval pattern x in r in
      lazymatch f with
      | ?F _ => lazymatch g with ?G _ => apply (byte_eq F G x); [vm_compute; reflexivity|done] end
      end
  end.

Lemma xor4_pick a b c d x y z w v :
  a = x -> b = y -> c = z -> d = w -> xor4 x y z w = v -> xor4 a b c d = v.
Proof. by intros -> -> -> ->. Qed.

(** One byte of a column: the terms of the byte itself sum to it, the terms of
    each other byte to 0. *)
Ltac column_byte a b c d :=
  rewrite ?(linear_xor4 gmul9 _ _ _ _ linear_gmul9), ?(linear_xor4 gmul11 _ _ _ _ linear_gmul11),
    ?(linear_xor4 gmul13 _ _ _ _ linear_gmul13), ?(linear_xor4 gmul14 _ _ _ _ linear_gmul14),
    ?(linear_xor4 xtime _ _ _ _ linear_xtime), ?(linear_xor4 gmul3 _ _ _ _ linear_gmul3),
    xor4_transpose;
  first
    [ eapply (xor4_pick _ _ _ _ a 0 0 0);
      [byte_eq a|byte_eq b|byte_eq c|byte_eq d|by unfold xor4; rewrite ?Z.lxor_0_r]
    | eapply (xor4_pick _ _ _ _ 0 b 0 0);
      [byte_eq a|byte_eq b|byte_eq c|byte_eq d|by unfold xor4; rewrite ?Z.lxor_0_r]
    | eapply (xor4_pick _ _ _ _ 0 0 c 0);
      [byte_eq a|byte_eq b|byte_eq c|byte_eq d|by unfold xor4; rewrite ?Z.lxor_0_r]
    | eapply (xor4_pick _ _ _ _ 0 0 0 d);
      [byte_eq a|byte_eq b|byte_eq c|byte_eq d|by unfold xor4; rewrite ?Z.lxor_0_r] ].

Lemma mix_column_inverse a b c d rest :
  is_byte a -> is_byte b -> is_byte c -> is_byte d ->
  on_columns inverse_mix_column (mix_column a b c d ++ rest)
    = a :: b :: c :: d :: on_columns inverse_mix_column rest.
Proof.
  intros Ha Hb Hc Hd. unfold mix_column at 1. cbn [app on_columns].
  unfold inverse_mix_column at 1. cbn [app]. f_equal; [column_byte a b c d|].
  f_equal; [column_byte a b c d|]. f_equal; [column_byte a b c d|].
  f_equal. column_byte a b c d.
Qed.

Lemma inverse_mix_column_inverse a b c d rest :
  is_byte a -> is_byte b -> is_byte c -> is_byte d ->
  on_columns mix_column (inverse_mix_column a b c d ++ rest)
    = a :: b :: c :: d :: on_columns mix_column rest.
Proof.
  intros Ha Hb Hc Hd. unfold inverse_mix_column at 1. cbn [app on_columns].
  unfold mix_column at 1. cbn [app]. f_equal; [column_byte a b c d|].
  f_equal; [column_byte a b c d|]. f_equal; [column_byte a b c d|].
  f_equal. column_byte a b c d.
Qed.

Definition columns_ok (f : Z -> Z -> Z -> Z -> list Z) : Prop :=
  forall a b c d, is_byte a -> is_byte b -> is_byte c -> is_byte d ->
    bytes_ok (f a b c d) /\ length (f a b c d) = 4%nat.

Lemma xor4_byte a b c d :
  is_byte a -> is_byte b -> is_byte c -> is_byte d -> is_byte (xor4 a b c d).
Proof. unfold xor4. auto with bytes. Qed.
#[local] Hint Resolve xor4_byte : bytes.

Lemma mix_columns_ok : columns_ok mix_column.
Proof. intros a b c d Ha Hb Hc Hd. split; [|done]. repeat (constructor; [auto with bytes|]). constructor. Qed.
Lemma inverse_mix_columns_ok : columns_ok inverse_mix_column.
Proof. intros a b c d Ha Hb Hc Hd. split; [|done]. repeat (constructor; [auto with bytes|]). constructor. Qed.

(** Sixteen bytes. *)
Definition block_ok (s : list Z) : Prop := length s = 16%nat /\ bytes_ok s.

Lemma on_columns_bytes f s : columns_ok f -> bytes_ok s -> bytes_ok (on_columns f s).
Proof.
  intros Hf. revert s. fix IH 1. intros [|a [|b [|c [|d s]]]] H; try by apply Forall_nil.
  inversion H as [|? ? Ha H1]; subst. inversion H1 as [|? ? Hb H2]; subst.
  inversion H2 as [|? ? Hc H3]; subst. inversion H3 as [|? ? Hd H4]; subst.
  cbn [on_columns]. apply Forall_app_2; [by apply Hf|]. by apply IH.
Qed.

Lemma on_columns_len f s :
  columns_ok f -> block_ok s -> length (on_columns f s) = 16%nat.
Proof.
  intros Hf [Hl Hb]. sixteen s. cbn [on_columns]. rewrite !length_app.
  repeat match goal with H : bytes_ok (_ :: _) |- _ => inversion H; clear H; subst
                       | H : Forall _ (_ :: _) |- _ => inversion H; clear H; subst end.
  by rewrite !(fun a b c d Ha Hb Hc Hd => proj2 (Hf a b c d Ha Hb Hc Hd)).
Qed.

Lemma mix_columns_inverse s :
  block_ok s -> on_columns inverse_mix_column (on_columns mix_column s) = s.
Proof.
  intros [Hl Hb]. sixteen s.
  repeat match goal with H : bytes_ok (_ :: _) |- _ => inversion H; clear H; subst
                       | H : Forall _ (_ :: _) |- _ => inversion H; clear H; subst end.
  cbn [on_columns]. by rewrite !mix_column_inverse.
Qed.

Lemma inverse_mix_columns_inverse s :
  block_ok s -> on_columns mix_column (on_columns inverse_mix_column s) = s.
Proof.
  intros [Hl Hb]. sixteen s.
  repeat match goal with H : bytes_ok (_ :: _) |- _ => inversion H; clear H; subst
                       | H : Forall _ (_ :: _) |- _ => inversion H; clear H; subst end.
  cbn [on_columns]. by rewrite !inverse_mix_column_inverse.
Qed.

(** ** Blocks through the rounds *)

Lemma block_xor s k : block_ok s -> block_ok k -> block_ok (xor_bytes s k).
Proof.
  intros [Hs Hb] [Hk Hkb]. split; [rewrite xor_bytes_len; congruence|by apply xor_bytes_bytes].
Qed.
Lemma block_sub table s : bytes_ok table -> block_ok s -> block_ok (sub_bytes table s).
Proof.
  intros Ht [Hs _]. split; [by unfold sub_bytes; rewrite length_map|by apply sub_bytes_bytes].
Qed.
Lemma block_shift s : block_ok s -> block_ok (shift_rows s).
Proof. intros [_ Hb]. split; [done|by apply permute_bytes]. Qed.
Lemma block_inverse_shift s : block_ok s -> block_ok (inverse_shift_rows s).
Proof. intros [_ Hb]. split; [done|by apply permute_bytes]. Qed.
Lemma block_columns f s : columns_ok f -> block_ok s -> block_ok (on_columns f s).
Proof. intros Hf Hs. split; [by apply on_columns_len|by apply on_columns_bytes, Hs]. Qed.
#[local] Hint Resolve block_xor block_sub block_shift block_inverse_shift block_columns
  mix_columns_ok inverse_mix_columns_ok : bytes.
#[local] Hint Extern 1 (bytes_ok sbox) => apply sbox_bytes : bytes.
#[local] Hint Extern 1 (bytes_ok inverse_sbox) => apply sbox_bytes : bytes.

Lemma block_xor_twice s k : block_ok s -> block_ok k -> xor_bytes (xor_bytes s k) k = s.
Proof. intros [Hs _] [Hk _]. apply xor_bytes_twice. lia. Qed.

Lemma encrypt_block keys s :
  Forall block_ok keys -> block_ok s -> block_ok (encrypt_rounds keys s).
Proof.
  intros H. revert s. induction H as [|k [|k' keys] Hk _ IH]; intros s Hs; [done| |].
  - cbn [encrypt_rounds]. auto 10 with bytes.
  - change (block_ok (encrypt_rounds (k' :: keys)
      (xor_bytes (on_columns mix_column (shift_rows (sub_bytes sbox s))) k))). auto 10 with bytes.
Qed.

Lemma decrypt_block keys s :
  Forall block_ok keys -> block_ok s -> block_ok (decrypt_rounds keys s).
Proof.
  intros H Hs. induction H as [|k [|k' keys] Hk _ IH]; [done| |].
  - cbn [decrypt_rounds]. auto 10 with bytes.
  - change (block_ok (sub_bytes inverse_sbox (inverse_shift_rows (on_columns inverse_mix_column
      (xor_bytes (decrypt_rounds (k' :: keys) s) k))))). auto 10 with bytes.
Qed.

Lemma decrypt_encrypt_rounds keys s :
  Forall block_ok keys -> block_ok s -> decrypt_rounds keys (encrypt_rounds keys s) = s.
Proof.
  intros H. revert s. induction H as [|k [|k' keys] Hk Hks IH]; intros s Hs; [done| |].
  - cbn [encrypt_rounds decrypt_rounds].
    rewrite block_xor_twice by auto 10 with bytes.
    rewrite shift_rows_inverse by (apply block_sub; auto with bytes).
    apply sub_bytes_inverse, Hs.
  - change (sub_bytes inverse_sbox (inverse_shift_rows (on_columns inverse_mix_column
      (xor_bytes (decrypt_rounds (k' :: keys) (encrypt_rounds (k' :: keys)
        (xor_bytes (on_columns mix_column (shift_rows (sub_bytes sbox s))) k))) k))) = s).
    rewrite IH by auto 10 with bytes. rewrite block_xor_twice by auto 10 with bytes.
    rewrite mix_columns_inverse by auto 10 with bytes.
    rewrite shift_rows_inverse by (apply block_sub; auto with bytes).
    apply sub_bytes_inverse, Hs.
Qed.

Lemma encrypt_decrypt_rounds keys s :
  Forall block_ok keys -> block_ok s -> encrypt_rounds keys (decrypt_rounds keys s) = s.
Proof.
  intros H Hs. induction H as [|k [|k' keys] Hk Hks IH]; [done| |].
  - cbn [encrypt_rounds decrypt_rounds].
    rewrite inverse_sub_bytes by (apply block_inverse_shift; auto with bytes).
    rewrite inverse_shift_rows_inverse by (apply block_xor; auto with bytes).
    by apply block_xor_twice.
  - pose proof (decrypt_block (k' :: keys) s Hks Hs) as Hd.
    change (encrypt_rounds (k' :: keys) (xor_bytes (on_columns mix_column (shift_rows
      (sub_bytes sbox (sub_bytes inverse_sbox (inverse_shift_rows (on_columns inverse_mix_column
        (xor_bytes (decrypt_rounds (k' :: keys) s) k))))))) k) = s).
    rewrite inverse_sub_bytes by (apply block_inverse_shift; auto 10 with bytes).
    rewrite inverse_shift_rows_inverse by (apply block_columns; auto 10 with bytes).
    rewrite inverse_mix_columns_inverse by auto 10 with bytes.
    by rewrite block_xor_twice.
Qed.

(** ** Round keys *)

Lemma block_next k rcon : block_ok k -> is_byte rcon -> block_ok (next_round_key k rcon).
Proof.
  intros [Hl Hb] Hr. split.
  - by sixteen k.
  - unfold next_round_key.
    assert (forall i, bytes_ok (take 4 (drop (4 * i) k))) as Hw
      by (intros i; by apply Forall_take, Forall_drop).
    assert (bytes_ok [rcon; 0; 0; 0]) as Hrc
      by (repeat (constructor; [done || by vm_compute|]); constructor).
    assert (bytes_ok (sub_bytes sbox (tail (take 4 (drop (4 * 3) k))
                        ++ take 1 (take 4 (drop (4 * 3) k))))) as Hs
      by (apply sub_bytes_bytes, sbox_bytes).
    repeat (apply Forall_app_2); repeat apply xor_bytes_bytes; auto.
Qed.

Lemma block_round_keys k rs : block_ok k -> bytes_ok rs -> Forall block_ok (round_keys k rs).
Proof.
  intros Hk H. revert k Hk. induction H as [|r rs Hr _ IH]; intros k Hk; [by apply Forall_nil|].
  cbn [round_keys]. apply Forall_cons_2; [|apply IH]; by apply block_next.
Qed.

Lemma rcons_bytes : bytes_ok rcons.
Proof. by apply bytes_okb_ok. Qed.

Lemma array16_block l : block_ok (array16 l).
Proof.
  split.
  - unfold array16, zeros. rewrite length_map, length_take, length_app, length_replicate. lia.
  - apply Forall_map, Forall_true. intros x. apply Z.mod_pos_bound. lia.
Qed.

Lemma array16_id l : len l = 16 -> bytes_ok l -> array16 l = l.
Proof.
  intros Hl Hb. unfold array16. rewrite take_app_length' by (unfold len in Hl; lia).
  clear Hl. induction Hb as [|x l Hx _ IH]; [done|]. cbn [map]. rewrite IH. f_equal.
  by apply Z.mod_small.
Qed.

Lemma block_encrypt key block : block_ok (Aes128_encrypt key block).
Proof.
  pose proof (array16_block key). pose proof (array16_block block).
  apply encrypt_block; [apply block_round_keys, rcons_bytes; done|by apply block_xor].
Qed.

Lemma block_decrypt key block : block_ok (Aes128_decrypt key block).
Proof.
  pose proof (array16_block key). pose proof (array16_block block).
  apply block_xor; [|done]. apply decrypt_block; [apply block_round_keys, rcons_bytes|]; done.
Qed.

Lemma block_len s : block_ok s -> len s = 16.
Proof. intros [H _]. unfold len. lia. Qed.

Lemma Aes128_decrypt_encrypt key block :
  len block = 16 -> bytes_ok block -> Aes128_decrypt key (Aes128_encrypt key block) = block.
Proof.
  intros Hl Hb. pose proof (block_encrypt key block) as He. pose proof (array16_block key) as Hk.
  unfold Aes128_decrypt. rewrite (array16_id (Aes128_encrypt key block)) by (apply block_len || apply He; done).
  unfold Aes128_encrypt. rewrite (array16_id block) by done.
  assert (block_ok block) as Hblock by (split; [unfold len in Hl; lia|done]).
  rewrite decrypt_encrypt_rounds; [by apply block_xor_twice| |by apply block_xor].
  apply block_round_keys, rcons_bytes. done.
Qed.

Lemma Aes128_encrypt_decrypt key block :
  len block = 16 -> bytes_ok block -> Aes128_encrypt key (Aes128_decrypt key block) = block.
Proof.
  intros Hl Hb. pose proof (block_decrypt key block) as Hd. pose proof (array16_block key) as Hk.
  unfold Aes128_encrypt. rewrite (array16_id (Aes128_decrypt key block)) by (apply block_len || apply Hd; done).
  unfold Aes128_decrypt. rewrite (array16_id block) by done.
  assert (block_ok block) as Hblock by (split; [unfold len in Hl; lia|done]).
  assert (Forall block_ok (round_keys (array16 key) rcons)) as Hkeys
    by (apply block_round_keys, rcons_bytes; done).
  rewrite block_xor_twice by (done || by apply decrypt_block).
  by apply encrypt_decrypt_rounds.
Qed.

Definition real_aes : Aes128.
Proof.
  refine {| aes128_decrypt := Aes128_decrypt; aes128_encrypt := Aes128_encrypt |}; intros.
  - apply block_len, block_decrypt.
  - apply block_decrypt.
  - apply block_len, block_encrypt.
  - apply block_encrypt.
  - by apply Aes128_decrypt_encrypt.
  - by apply Aes128_encrypt_decrypt.
Defined.

(** ** The published vectors *)

(** FIPS 180-4, "abc". *)
Example sha256_vector :
  from_be (Sha256_digest (b "abc"))
    = 0xba7816bf8f01cfea414140de5dae2223b00361a396177a9cb410ff61f20015ad.
Proof. by vm_compute. Qed.
Example sha1_vector :
  from_be (Sha1_digest (b "abc")) = 0xa9993e364706816aba3e25717850c26c9cd0d89d.
Proof. by vm_compute. Qed.

(** RFC 2202, test case 2 of HMAC-SHA1. *)
Example hmac_vector :
  from_be (HmacSha1_tag (b "Jefe") (b "what do ya want for nothing?"))
    = 0xeffcdf6ae5eb2fa2d27416d5f184df9c259a7c79.
Proof. by vm_compute. Qed.

(** RFC 6070, two rounds. *)
Example pbkdf2_vector :
  from_be (pbkdf2_bytes (b "password") (b "salt") 2 20)
    = 0xea6c014dc72d6f8ccd1ed92ace1d41f0d8de8957.
Proof. by vm_compute. Qed.

(** FIPS 197, appendix C.1. *)
Example aes_vector :
  from_be (Aes128_encrypt (seqZ 0 16) (map (Z.mul 17) (seqZ 0 16)))
    = 0x69c4e0d86a7b0430d8cdb78070b4c55a.
Proof. by vm_compute. Qed.
