(* ===== verification/CodecTests.v ===== *)
(** * CodecTests: the tests of codec.rs and system.rs *)

From S2P Require Import Prelude Codec Protocol System TestSupport.

(** ** codec.rs *)

Definition fixed_u32_writes_exact_values_and_zero_padding : Prop :=
  run r, writer := Writer.fixed_u32 [0x01020304] 3 on Writer.new (replicate 16 0xaa) in
  let bytes := Writer.bytes_of writer in
  r = Ok tt /\
  Writer.len writer = 12 /\
  slice bytes 0 4 = Some [4; 3; 2; 1] /\
  slice bytes 4 12 = Some (zeros 8) /\
  slice bytes 12 16 = Some (replicate 4 0xaa).

Definition integer_readers_honor_nonzero_offsets_and_little_endian_order : Prop :=
  let bytes := [0xaa; 1; 2; 3; 4; 5; 6; 7; 8; 0xbb] in
  @read_u16 unit bytes 1 = Ok 0x0201 /\
  @read_u32 unit bytes 1 = Ok 0x04030201 /\
  @read_i32 unit bytes 1 = Ok 0x04030201 /\
  @read_u64 unit bytes 1 = Ok 0x0807060504030201.

(** ** system.rs *)

Definition system_message (message_type : HostMessageType.t) (payload : list Z) : HostMessageRef :=
  mkHostMessageRef false message_type payload.

Definition system_payload (id : Z) (body trailing : list Z) : list Z :=
  let declared := SYSTEM_HEADER_LEN + len body in
  to_le 4 id ++ to_le 4 (u32 declared) ++ body ++ trailing.

Definition parses_every_known_event_shape_and_preserves_unknown_ids : Prop :=
  all_of
    [(0, [0x10; 0x11], SystemEvent.PowerData [0x10; 0x11]);
     (1, [], SystemEvent.InitDone);
     (2, [0x20], SystemEvent.Statistics [0x20]);
     (3, [], SystemEvent.DeinitDone);
     (12, [0x30], SystemEvent.Other 12 [0x30])]
    (fun '(id, body, expected) =>
       let bytes := system_payload id body [0xaa; 0xbb] in
       parse_system_event (system_message HostMessageType.System bytes) = Ok expected).

Definition rejects_wrong_message_type_and_every_invalid_length_boundary : Prop :=
  let valid := system_payload 1 [] [] in
  parse_system_event (system_message HostMessageType.Umac valid)
    = Err ProtocolError.WrongMessageType /\
  (let! short := slice valid 0 7 in
   parse_system_event (system_message HostMessageType.System short)
     = Err ProtocolError.InvalidLength) /\
  let below_header := splice valid 4 (to_le 4 7) in
  parse_system_event (system_message HostMessageType.System below_header)
    = Err ProtocolError.InvalidLength /\
  let beyond_payload := splice valid 4 (to_le 4 9) in
  parse_system_event (system_message HostMessageType.System beyond_payload)
    = Err ProtocolError.InvalidLength.

Definition empty_events_reject_a_body : Prop :=
  all_of [1; 3] (fun id =>
    let bytes := system_payload id [0xff] [] in
    parse_system_event (system_message HostMessageType.System bytes)
      = Err ProtocolError.InvalidLength).

(** ** The tests hold *)

Lemma fixed_u32_writes_exact_values_and_zero_padding_passes : fixed_u32_writes_exact_values_and_zero_padding.
Proof. passes. Qed.
Lemma integer_readers_honor_nonzero_offsets_and_little_endian_order_passes : integer_readers_honor_nonzero_offsets_and_little_endian_order.
Proof. passes. Qed.
Lemma parses_every_known_event_shape_and_preserves_unknown_ids_passes : parses_every_known_event_shape_and_preserves_unknown_ids.
Proof. passes. Qed.
Lemma rejects_wrong_message_type_and_every_invalid_length_boundary_passes : rejects_wrong_message_type_and_every_invalid_length_boundary.
Proof. passes. Qed.
Lemma empty_events_reject_a_body_passes : empty_events_reject_a_body.
Proof. passes. Qed.
