(* ===== verification/BusTests.v ===== *)
(** * BusTests: the tests of bus.rs, on a fake SPI device *)

From S2P Require Import Prelude Bus TestSupport.

(** ** The fake: frames sent, and the responses still to give *)

Record FakeSpi : Type := mkFakeSpi {
  sent : list (list Z);
  responses : list (list Z) }.

Definition FakeSpi_default : FakeSpi := mkFakeSpi [] [].
Definition with_responses (responses : list (list Z)) : FakeSpi := mkFakeSpi [] responses.

(** [Operation::Write]; the error type is [Infallible]. *)
Definition FakeSpi_write (bytes : list Z) : M FakeSpi Empty_set unit :=
  modify (fun s => mkFakeSpi (sent s ++ [bytes]) (responses s)).

(** [Operation::TransferInPlace] *)
Definition FakeSpi_transfer_in_place : M (FakeSpi * list Z) Empty_set unit := fun '(s, bytes) =>
  let s := mkFakeSpi (sent s ++ [bytes]) (responses s) in
  match responses s with
  | [] => (Panic, (s, bytes))
  | response :: rest =>
      let s := mkFakeSpi (sent s) rest in
      if len response =? len bytes then (Ok tt, (s, response)) else (Panic, (s, bytes))
  end.

#[export] Instance FakeSpi_device : SpiDevice FakeSpi Empty_set := {
  spi_write := FakeSpi_write;
  spi_transfer_in_place := FakeSpi_transfer_in_place }.

Definition read_response (payload : list Z) (latency_words : Z) : list Z :=
  zeros (READ_HEADER_LEN + latency_words * 4) ++ payload.

(** ** The tests *)

Definition nordic_defaults_are_exact : Prop :=
  address_mask NORDIC_DEFAULT = 0x800000 /\
  slave_latency_words NORDIC_DEFAULT = 0 /\
  nordic_memory_map_latency NORDIC_DEFAULT = false /\
  nordic_memory_map_latency NORDIC_MEMORY_MAP = true.

Definition nordic_memory_map_latency_matches_the_pinned_bus_shim : Prop :=
  let config := NORDIC_MEMORY_MAP in
  all_of
    [(0x000000, 1); (0x008fff, 1); (0x009000, 2); (0x03ffff, 2); (0x040000, 1);
     (0x07ffff, 1); (0x080000, 2); (0x092000, 2); (0x092001, 0); (0x0bffff, 0);
     (0x0c0000, 0); (0x0f0fff, 0); (0x0f1000, 0); (0x100000, 1); (0x134000, 1);
     (0x134001, 0); (0x140000, 1); (0x14c000, 1); (0x180000, 1); (0x190000, 1);
     (0x200000, 1); (0x261800, 1); (0x280000, 1); (0x2a4000, 1); (0x300000, 1);
     (0x338000, 1); (0x338001, 0); (0xffffff, 0);
     (Z.lor INCREMENTING_ADDRESS_MASK 0x009000, 2)]
    (fun '(address, latency) => read_latency_words config address = latency).

Definition invalid_latency_is_rejected : Prop :=
  (let! config := SpiConfig_new 0x800000 8 in
   address_mask config = 0x800000 /\
   slave_latency_words config = 8 /\
   nordic_memory_map_latency config = false) /\
  SpiConfig_new 0x800000 9 = None /\
  SpiConfig_new 0x01000000 0 = None.

Definition status_register_frames_are_exact : Prop :=
  let status_response := splice (zeros 6) 1 [0xa5] in
  let transport := SpiTransport_new (with_responses [status_response]) in
  run r, transport := SpiTransport_read_status OPCODE_READ_STATUS_1 on transport in
  r = Ok 0xa5 /\
  run r, transport := SpiTransport_write_status OPCODE_WRITE_STATUS_2 0x5a on transport in
  r = Ok tt /\
  config transport = NORDIC_DEFAULT /\
  len (sent (spi transport)) = 2 /\
  nthZ (sent (spi transport)) 0 = Some [OPCODE_READ_STATUS_1; 0; 0; 0; 0; 0] /\
  nthZ (sent (spi transport)) 1 = Some [OPCODE_WRITE_STATUS_2; 0x5a] /\
  responses (spi transport) = [].

Definition incrementing_reads_use_exact_headers_and_chunk_boundaries : Prop :=
  let first_payload := counting MAX_SPI_DATA_LEN in
  let second_payload := [0xde; 0xad] in
  let spi_ := with_responses [read_response first_payload 0; read_response second_payload 0] in
  let output := zeros (MAX_SPI_DATA_LEN + len second_payload) in
  run r, end_ := SpiTransport_read 0x123456 on (SpiTransport_new spi_, output) in
  let '(transport, output) := end_ in
  r = Ok tt /\
  slice output 0 MAX_SPI_DATA_LEN = Some first_payload /\
  slice output MAX_SPI_DATA_LEN (len output) = Some second_payload /\
  match sent (spi transport) with
  | [first; second] =>
      slice first 0 5 = Some [OPCODE_FAST_READ; 0x92; 0x34; 0x56; 0] /\
      len first = READ_HEADER_LEN + MAX_SPI_DATA_LEN /\
      (let! payload := slice first READ_HEADER_LEN (len first) in
       forallb (Z.eqb 0xff) payload = true) /\
      slice second 0 5 = Some [OPCODE_FAST_READ; 0x92; 0x44; 0x56; 0] /\
      len second = READ_HEADER_LEN + 2 /\
      slice second READ_HEADER_LEN (len second) = Some [0xff; 0xff]
  | _ => False
  end.

Definition memory_map_reads_clock_latency_for_each_nonincrementing_word : Prop :=
  let spi_ := with_responses [read_response [1; 2; 3; 4] 2; read_response [5; 6] 2] in
  let transport := SpiTransport_with_config spi_ NORDIC_MEMORY_MAP in
  run r, end_ := SpiTransport_read 0x009000 on (transport, zeros 6) in
  let '(transport, output) := end_ in
  r = Ok tt /\
  output = [1; 2; 3; 4; 5; 6] /\
  match sent (spi transport) with
  | [first; second] =>
      slice first 0 5 = Some [OPCODE_FAST_READ; 0x00; 0x90; 0x00; 0] /\
      len first = READ_HEADER_LEN + 8 + 4 /\
      (let! latency := slice first READ_HEADER_LEN (READ_HEADER_LEN + 8) in
       forallb (Z.eqb 0) latency = true) /\
      slice first (READ_HEADER_LEN + 8) (len first) = Some (replicate 4 0xff) /\
      slice second 0 5 = Some [OPCODE_FAST_READ; 0x00; 0x90; 0x04; 0] /\
      len second = READ_HEADER_LEN + 8 + 2
  | _ => False
  end.

Definition fixed_maximum_latency_keeps_one_incrementing_word_transfer : Prop :=
  let payload := replicate (Z.to_nat HIGH_LATENCY_READ_WORD_LEN) 0x5a in
  let! config := SpiConfig_new INCREMENTING_ADDRESS_MASK (u8 MAX_SLAVE_LATENCY_WORDS) in
  let spi_ := with_responses [read_response payload MAX_SLAVE_LATENCY_WORDS] in
  let transport := SpiTransport_with_config spi_ config in
  run r, end_ := SpiTransport_read 0x123456 on (transport, zeros HIGH_LATENCY_READ_WORD_LEN) in
  let '(transport, output) := end_ in
  r = Ok tt /\
  output = payload /\
  match sent (spi transport) with
  | [first] =>
      slice first 0 5 = Some [OPCODE_FAST_READ; 0x92; 0x34; 0x56; 0] /\
      len first = READ_HEADER_LEN + MAX_SLAVE_LATENCY_BYTES + HIGH_LATENCY_READ_WORD_LEN /\
      (let! latency := slice first READ_HEADER_LEN (READ_HEADER_LEN + MAX_SLAVE_LATENCY_BYTES) in
       forallb (Z.eqb 0) latency = true) /\
      (let! data := slice first (READ_HEADER_LEN + MAX_SLAVE_LATENCY_BYTES) (len first) in
       forallb (Z.eqb 0xff) data = true)
  | _ => False
  end.

Definition writes_use_exact_headers_and_chunk_boundaries : Prop :=
  let data := counting MAX_SPI_DATA_LEN ++ [0xde; 0xad] in
  run r, transport := SpiTransport_write 0x123456 data on SpiTransport_new FakeSpi_default in
  r = Ok tt /\
  match sent (spi transport) with
  | [first; second] =>
      slice first 0 4 = Some [OPCODE_WRITE; 0x92; 0x34; 0x56] /\
      slice first 4 (len first) = slice data 0 MAX_SPI_DATA_LEN /\
      slice second 0 4 = Some [OPCODE_WRITE; 0x92; 0x44; 0x56] /\
      slice second 4 (len second) = Some [0xde; 0xad]
  | _ => False
  end.

Definition empty_transfers_do_not_touch_spi : Prop :=
  run r, end_ := SpiTransport_read 0x1234 on (SpiTransport_new FakeSpi_default, []) in
  let '(transport, _) := end_ in
  r = Ok tt /\
  run r, transport := SpiTransport_write 0x1234 [] on transport in
  r = Ok tt /\
  sent (spi transport) = [].

(** Of the alignment of the buffer, the model has its length only. *)
Definition spi_io_buffer_is_word_aligned : Prop :=
  SPI_IO_BUFFER_LEN = READ_HEADER_LEN + MAX_SLAVE_LATENCY_WORDS * 4 + MAX_SPI_DATA_LEN.

(** ** The tests hold *)

Lemma nordic_defaults_are_exact_passes : nordic_defaults_are_exact.
Proof. passes. Qed.
Lemma nordic_memory_map_latency_matches_the_pinned_bus_shim_passes : nordic_memory_map_latency_matches_the_pinned_bus_shim.
Proof. passes. Qed.
Lemma invalid_latency_is_rejected_passes : invalid_latency_is_rejected.
Proof. passes. Qed.
Lemma status_register_frames_are_exact_passes : status_register_frames_are_exact.
Proof. passes. Qed.
Lemma incrementing_reads_use_exact_headers_and_chunk_boundaries_passes : incrementing_reads_use_exact_headers_and_chunk_boundaries.
Proof. passes. Qed.
Lemma memory_map_reads_clock_latency_for_each_nonincrementing_word_passes : memory_map_reads_clock_latency_for_each_nonincrementing_word.
Proof. passes. Qed.
Lemma fixed_maximum_latency_keeps_one_incrementing_word_transfer_passes : fixed_maximum_latency_keeps_one_incrementing_word_transfer.
Proof. passes. Qed.
Lemma writes_use_exact_headers_and_chunk_boundaries_passes : writes_use_exact_headers_and_chunk_boundaries.
Proof. passes. Qed.
Lemma empty_transfers_do_not_touch_spi_passes : empty_transfers_do_not_touch_spi.
Proof. passes. Qed.
Lemma spi_io_buffer_is_word_aligned_passes : spi_io_buffer_is_word_aligned.
Proof. passes. Qed.
