(* ===== verification/MemoryTests.v ===== *)
(** * MemoryTests: the tests of memory.rs, on a fake bus *)

From S2P Require Import Prelude Bus Memory TestSupport.

(** ** The fake bus

    Status registers and reads answer from queues, other reads from a table of
    registers; every access is recorded.  The delay that the test lends to a
    call is part of the same state, as the operations take both. *)

Record TestBus : Type := mkTestBus {
  status_1 : list Z;
  status_2 : list Z;
  status_writes : list (Z * Z);
  read_responses : list (list Z);
  register_values : list (Z * Z);
  reads : list (Z * Z);
  writes : list (Z * list Z);
  delays : Z }.

Definition TestBus_default : TestBus := mkTestBus [] [] [] [] [] [] [] 0.

(** [queue.pop_front().unwrap_or(0)] *)
Definition TestBus_read_status (opcode : Z) : M TestBus unit Z := fun b =>
  if opcode =? OPCODE_READ_STATUS_1
  then (Ok (default 0 (head (status_1 b))),
        mkTestBus (tail (status_1 b)) (status_2 b) (status_writes b) (read_responses b)
          (register_values b) (reads b) (writes b) (delays b))
  else (Ok (default 0 (head (status_2 b))),
        mkTestBus (status_1 b) (tail (status_2 b)) (status_writes b) (read_responses b)
          (register_values b) (reads b) (writes b) (delays b)).

Definition TestBus_write_status (opcode value : Z) : M TestBus unit unit :=
  modify (fun b => mkTestBus (status_1 b) (status_2 b) (status_writes b ++ [(opcode, value)])
    (read_responses b) (register_values b) (reads b) (writes b) (delays b)).

Definition TestBus_read (address : Z) : M (TestBus * list Z) unit unit := fun '(b, data) =>
  let read_logged responses := mkTestBus (status_1 b) (status_2 b) (status_writes b) responses
    (register_values b) (reads b ++ [(address, len data)]) (writes b) (delays b) in
  match read_responses b with
  | response :: rest =>
      if len response =? len data then (Ok tt, (read_logged rest, response))
      else (Panic, (read_logged rest, data))
  | [] =>
      let value :=
        default 0 (snd <$> find (fun cv => cv.1 =? address) (register_values b)) in
      match slice (to_le 4 value) 0 (len data) with
      | Some bytes => (Ok tt, (read_logged [], bytes))
      | None => (Panic, (read_logged [], data))
      end
  end.

Definition TestBus_write (address : Z) (data : list Z) : M TestBus unit unit :=
  modify (fun b => mkTestBus (status_1 b) (status_2 b) (status_writes b) (read_responses b)
    (register_values b) (reads b) (writes b ++ [(address, data)]) (delays b)).

(** [CountingDelay::delay_ns]: a delay of a few milliseconds is one call of it. *)
Definition CountingDelay_delay (b : TestBus) : TestBus :=
  mkTestBus (status_1 b) (status_2 b) (status_writes b) (read_responses b)
    (register_values b) (reads b) (writes b) (delays b + 1).

#[export] Instance TestBus_bus : BusOps TestBus unit := {
  bus_read_status := TestBus_read_status;
  bus_write_status := TestBus_write_status;
  bus_read := TestBus_read;
  bus_write := TestBus_write }.
#[export] Instance CountingDelay : DelayOps TestBus := { delay_ms _ := CountingDelay_delay }.

Definition with_status (status_1 status_2 : list Z) : TestBus :=
  mkTestBus status_1 status_2 [] [] [] [] [] 0.
Definition with_reads (responses : list (list Z)) : TestBus :=
  mkTestBus [] [] [] responses [] [] [] 0.
Definition with_registers (values : list (Z * Z)) : TestBus :=
  mkTestBus [] [] [] [] values [] [] 0.

(** ** The tests *)

Definition bus_chunks_match_the_pinned_nordic_loader : Prop :=
  MAX_BUS_CHUNK = 4096 /\ Z.land MAX_BUS_CHUNK 3 = 0.

Definition maps_all_public_regions : Prop :=
  all_of
    [(RPU_ADDR_SBUS_START, RPU_ADDR_SBUS_END, HOST_SBUS_BASE);
     (RPU_ADDR_PBUS_START, RPU_ADDR_PBUS_END, HOST_PBUS_BASE);
     (RPU_ADDR_GRAM_START, RPU_ADDR_GRAM_END, HOST_GRAM_BASE);
     (RPU_ADDR_PKTRAM_START, RPU_ADDR_PKTRAM_END, HOST_PKTRAM_BASE)]
    (fun '(start, end_, base) =>
       host_offset Processor.Lmac start = Ok (base + Z.land start RPU_ADDR_MASK_OFFSET) /\
       host_offset Processor.Umac end_ = Ok (base + Z.land end_ RPU_ADDR_MASK_OFFSET)) /\
  all_of
    [(Processor.Lmac, RPU_ADDR_LMAC_ROM_START, RPU_ADDR_LMAC_ROM_END, HOST_LMAC_DIRECT_BASE);
     (Processor.Lmac, RPU_ADDR_LMAC_RET_START, RPU_ADDR_LMAC_RET_END, HOST_LMAC_DIRECT_BASE);
     (Processor.Lmac, RPU_ADDR_LMAC_SCRATCH_START, RPU_ADDR_LMAC_SCRATCH_END,
      HOST_LMAC_DIRECT_BASE);
     (Processor.Umac, RPU_ADDR_UMAC_ROM_START, RPU_ADDR_UMAC_ROM_END, HOST_UMAC_DIRECT_BASE);
     (Processor.Umac, RPU_ADDR_UMAC_RET_START, RPU_ADDR_UMAC_RET_END, HOST_UMAC_DIRECT_BASE);
     (Processor.Umac, RPU_ADDR_UMAC_SCRATCH_START, RPU_ADDR_UMAC_SCRATCH_END,
      HOST_UMAC_DIRECT_BASE)]
    (fun '(processor, start, end_, base) =>
       host_offset processor start = Ok (base + Z.land start RPU_ADDR_MASK_OFFSET) /\
       host_offset processor end_ = Ok (base + Z.land end_ RPU_ADDR_MASK_OFFSET)).

Definition processor_local_ranges_do_not_alias : Prop :=
  is_err (host_offset Processor.Lmac 0x80100000) = true /\
  is_err (host_offset Processor.Umac 0x80070000) = true /\
  host_offset Processor.Lmac 0 = Err (AddressError.Unsupported 0) /\
  Processor.control_register Processor.Lmac = RPU_REG_MIPS_MCU_CONTROL /\
  Processor.control_register Processor.Umac = RPU_REG_MIPS_MCU2_CONTROL /\
  Processor.wait_register Processor.Lmac = RPU_REG_MIPS_MCU_WAIT_STATUS /\
  Processor.wait_register Processor.Umac = RPU_REG_MIPS_MCU2_WAIT_STATUS /\
  Processor.indirect_control_register Processor.Lmac = RPU_REG_MIPS_MCU_SYS_CORE_MEM_CTRL /\
  Processor.indirect_control_register Processor.Umac = RPU_REG_MIPS_MCU2_SYS_CORE_MEM_CTRL /\
  Processor.indirect_data_register Processor.Lmac = RPU_REG_MIPS_MCU_SYS_CORE_MEM_WDATA /\
  Processor.indirect_data_register Processor.Umac = RPU_REG_MIPS_MCU2_SYS_CORE_MEM_WDATA.

Definition wake_and_firmware_ready_poll_exact_status_bits : Prop :=
  (run r, rpu := wake 3 on with_status [0; RPU_AWAKE; RPU_READY] [0; RPU_WAKE_REQUEST] in
   is_ok r = true /\
   delays rpu = 2 /\
   run r, rpu := firmware_ready on rpu in
   r = Ok true /\
   status_writes rpu = [(OPCODE_WRITE_STATUS_2, RPU_WAKE_REQUEST)]) /\
  (run r, rpu := wake 2 on TestBus_default in
   r = Err RpuError.Timeout /\ delays rpu = 2) /\
  (run r, rpu := wake 2 on with_status [] [RPU_WAKE_REQUEST] in
   r = Err RpuError.Timeout /\ delays rpu = 2).

Definition reads_and_writes_chunked_words_and_zero_padded_tails : Prop :=
  let first := counting MAX_BUS_CHUNK in
  let second := [0x10; 0x20; 0x30; 0x40] in
  let bus := with_reads [first; second; [0xaa; 0xbb; 0xcc; 0xdd]] in
  let output := zeros (MAX_BUS_CHUNK + 7) in
  run r, end_ := read Processor.Lmac RPU_ADDR_LMAC_RET_START on (bus, output) in
  let '(rpu, output) := end_ in
  is_ok r = true /\
  slice output 0 MAX_BUS_CHUNK = Some first /\
  slice output MAX_BUS_CHUNK (MAX_BUS_CHUNK + 4) = Some second /\
  slice output (MAX_BUS_CHUNK + 4) (len output) = Some [0xaa; 0xbb; 0xcc] /\
  let expected_base :=
    HOST_LMAC_DIRECT_BASE + Z.land RPU_ADDR_LMAC_RET_START RPU_ADDR_MASK_OFFSET in
  reads rpu =
    [(expected_base, MAX_BUS_CHUNK); (expected_base + MAX_BUS_CHUNK, 4);
     (expected_base + MAX_BUS_CHUNK + 4, 4)] /\
  let input := first ++ [1; 2; 3; 4; 0x11; 0x22; 0x33] in
  run r, rpu := write Processor.Lmac RPU_ADDR_LMAC_RET_START input on rpu in
  is_ok r = true /\
  len (writes rpu) = 3 /\
  (let! chunk := slice input 0 MAX_BUS_CHUNK in
   nthZ (writes rpu) 0 = Some (expected_base, chunk)) /\
  nthZ (writes rpu) 1 = Some (expected_base + MAX_BUS_CHUNK, [1; 2; 3; 4]) /\
  nthZ (writes rpu) 2 = Some (expected_base + MAX_BUS_CHUNK + 4, [0x11; 0x22; 0x33; 0]).

Definition memory_access_rejects_alignment_and_region_crossings : Prop :=
  let rpu := TestBus_default in
  run r, end_ := read Processor.Lmac (RPU_ADDR_LMAC_RET_START + 1) on (rpu, zeros 4) in
  let '(rpu, _) := end_ in
  r = Err RpuError.Unaligned /\
  run r, rpu := write Processor.Lmac (RPU_ADDR_LMAC_RET_END - 3) (zeros 8) on rpu in
  match r with Err (RpuError.Address (AddressError.Unsupported _)) => True | _ => False end /\
  run r, end_ := read Processor.Lmac 0 on (rpu, []) in
  let '(rpu, _) := end_ in
  r = Err (RpuError.Address (AddressError.Unsupported 0)) /\
  run r, end_ := read Processor.Lmac RPU_ADDR_LMAC_RET_START on (rpu, []) in
  let '(rpu, _) := end_ in
  is_ok r = true /\
  run r, rpu := write Processor.Lmac RPU_ADDR_LMAC_RET_START [] on rpu in
  is_ok r = true /\
  align4 0 = Some 0 /\
  align4 1 = Some 4 /\
  align4 4 = Some 4 /\
  align4 USIZE_MAX = None /\
  @checked_range unit Processor.Lmac RPU_ADDR_LMAC_RET_START USIZE_MAX
    = Err (RpuError.Address AddressError.Range) /\
  let discontinuous_start := RPU_ADDR_SBUS_END - 3 in
  let discontinuous_len := RPU_ADDR_PBUS_START - discontinuous_start + 1 in
  @checked_range unit Processor.Lmac discontinuous_start discontinuous_len
    = Err (RpuError.Address AddressError.Range).

Definition word_register_and_indirect_accesses_are_exact : Prop :=
  let rpu := with_reads [to_le 4 0x12345678] in
  run r, rpu := read_u32 Processor.Lmac RPU_ADDR_LMAC_RET_START on rpu in
  r = Ok 0x12345678 /\
  run r, rpu := write_u32 Processor.Lmac RPU_ADDR_LMAC_RET_START 0xaabbccdd on rpu in
  is_ok r = true /\
  run r, rpu := enable_clocks on rpu in
  is_ok r = true /\
  run r, rpu := write_indirect Processor.Lmac (Z.lor RPU_MCU_CORE_INDIRECT_BASE 4)
                  [1; 0; 0; 0; 2; 0; 0; 0] on rpu in
  is_ok r = true /\
  contains (writes rpu)
    (HOST_LMAC_DIRECT_BASE + Z.land RPU_ADDR_LMAC_RET_START RPU_ADDR_MASK_OFFSET,
     to_le 4 0xaabbccdd) = true /\
  contains (writes rpu)
    (HOST_PBUS_BASE + Z.land RPU_REG_CLOCK_ENABLE RPU_ADDR_MASK_OFFSET,
     to_le 4 RPU_CLOCK_ENABLE) = true /\
  contains (writes rpu)
    (HOST_SBUS_BASE + Z.land RPU_REG_MIPS_MCU_SYS_CORE_MEM_CTRL RPU_ADDR_MASK_OFFSET,
     to_le 4 1) = true /\
  let data_port :=
    HOST_SBUS_BASE + Z.land RPU_REG_MIPS_MCU_SYS_CORE_MEM_WDATA RPU_ADDR_MASK_OFFSET in
  contains (writes rpu) (data_port, to_le 4 1) = true /\
  contains (writes rpu) (data_port, to_le 4 2) = true /\
  all_of
    [(0x80000000, zeros 4); (Z.lor RPU_MCU_CORE_INDIRECT_BASE 1, zeros 4);
     (RPU_MCU_CORE_INDIRECT_BASE, zeros 3)]
    (fun '(address, data) =>
       run r, _ := write_indirect Processor.Lmac address data on TestBus_default in
       r = Err RpuError.Unaligned).

Definition processor_reset_and_register_poll_are_bounded : Prop :=
  let? control := host_offset Processor.Lmac RPU_REG_MIPS_MCU_CONTROL in
  let? wait := host_offset Processor.Lmac RPU_REG_MIPS_MCU_WAIT_STATUS in
  (run r, rpu := reset_processor Processor.Lmac on with_registers [(control, 0); (wait, 1)] in
   is_ok r = true /\ delays rpu = 0) /\
  run r, rpu := poll_register RPU_REG_MIPS_MCU_CONTROL 1 0 2 7 on with_registers [(control, 5)] in
  r = Err (RpuError.PollTimeout RPU_REG_MIPS_MCU_CONTROL 1 0 5) /\
  delays rpu = 2.

(** ** The tests hold *)

Lemma bus_chunks_match_the_pinned_nordic_loader_passes : bus_chunks_match_the_pinned_nordic_loader.
Proof. passes. Qed.
Lemma maps_all_public_regions_passes : maps_all_public_regions.
Proof. passes. Qed.
Lemma processor_local_ranges_do_not_alias_passes : processor_local_ranges_do_not_alias.
Proof. passes. Qed.
Lemma wake_and_firmware_ready_poll_exact_status_bits_passes : wake_and_firmware_ready_poll_exact_status_bits.
Proof. passes. Qed.
Lemma reads_and_writes_chunked_words_and_zero_padded_tails_passes : reads_and_writes_chunked_words_and_zero_padded_tails.
Proof. passes. Qed.
Lemma memory_access_rejects_alignment_and_region_crossings_passes : memory_access_rejects_alignment_and_region_crossings.
Proof. passes. Qed.
Lemma word_register_and_indirect_accesses_are_exact_passes : word_register_and_indirect_accesses_are_exact.
Proof. passes. Qed.
Lemma processor_reset_and_register_poll_are_bounded_passes : processor_reset_and_register_poll_are_bounded.
Proof. passes. Qed.
