(* ===== verification/ProtocolTests.v ===== *)
(** * ProtocolTests: the tests of protocol.rs *)

From Stdlib Require Import Strings.String.
From S2P Require Import Prelude Codec Protocol TestSupport.
#[local] Open Scope string_scope.
#[local] Open Scope Z_scope.

(** The configuration with other values of the fields that the tests assign. *)
Definition with_fields (config : SystemInitConfig) (wdev_id : Z) (mac_address : list Z)
    (rx_pools : list RxPoolConfig) (data : DataConfig) : SystemInitConfig := {|
  cfg_wdev_id := wdev_id;
  cfg_sleep_enable := cfg_sleep_enable config;
  cfg_hardware_bringup_time := cfg_hardware_bringup_time config;
  cfg_software_bringup_time := cfg_software_bringup_time config;
  cfg_beacon_timeout := cfg_beacon_timeout config;
  cfg_calibrate_sleep_clock := cfg_calibrate_sleep_clock config;
  cfg_phy_calibration_bitmap := cfg_phy_calibration_bitmap config;
  cfg_mac_address := mac_address;
  cfg_rf_params := cfg_rf_params config;
  cfg_rf_params_valid := cfg_rf_params_valid config;
  cfg_rx_pools := rx_pools;
  cfg_data := data;
  cfg_temperature_battery := cfg_temperature_battery config;
  cfg_tcp_ip_checksum_offload := cfg_tcp_ip_checksum_offload config;
  cfg_country_code := cfg_country_code config;
  cfg_operating_band := cfg_operating_band config;
  cfg_management_buffer_offload := cfg_management_buffer_offload config;
  cfg_feature_flags := cfg_feature_flags config;
  cfg_disable_beamforming := cfg_disable_beamforming config;
  cfg_disconnect_timeout := cfg_disconnect_timeout config;
  cfg_power_save_exit_strategy := cfg_power_save_exit_strategy config;
  cfg_watchdog_timer := cfg_watchdog_timer config;
  cfg_keep_alive_enabled := cfg_keep_alive_enabled config;
  cfg_keep_alive_period_s := cfg_keep_alive_period_s config;
  cfg_display_scan_bss_limit := cfg_display_scan_bss_limit config;
  cfg_disable_coexistence_priority_window_for_scan :=
    cfg_disable_coexistence_priority_window_for_scan config;
  cfg_raw_scan_enabled := cfg_raw_scan_enabled config;
  cfg_max_ps_poll_fail_count := cfg_max_ps_poll_fail_count config;
  cfg_stbc_enabled_in_ht := cfg_stbc_enabled_in_ht config;
  cfg_dynamic_bandwidth_signalling := cfg_dynamic_bandwidth_signalling config;
  cfg_dynamic_energy_detection := cfg_dynamic_energy_detection config;
  cfg_bluetooth_slot_time_ms := cfg_bluetooth_slot_time_ms config;
  cfg_bluetooth_coexistence_disabled := cfg_bluetooth_coexistence_disabled config;
  cfg_abort_scan_on_bss_limit := cfg_abort_scan_on_bss_limit config |}.

(** [config.rx_pools = rx_pools; config.data = data] *)
Definition with_resources (config : SystemInitConfig) (rx_pools : list RxPoolConfig)
    (data : DataConfig) : SystemInitConfig :=
  with_fields config (cfg_wdev_id config) (cfg_mac_address config) rx_pools data.

Definition with_reorder_buffer_size (data : DataConfig) (size : Z) : DataConfig :=
  mkDataConfig (rate_protection_type data) (aggregation data) (wmm data)
    (max_tx_aggregation_sessions data) (max_rx_aggregation_sessions data)
    (max_tx_aggregation data) size (max_rx_ampdu_size data).
Definition with_max_rx_ampdu_size (data : DataConfig) (size : Z) : DataConfig :=
  mkDataConfig (rate_protection_type data) (aggregation data) (wmm data)
    (max_tx_aggregation_sessions data) (max_rx_aggregation_sessions data)
    (max_tx_aggregation data) (reorder_buffer_size data) size.

(** [usize::BITS > u32::BITS] is false on the target of the crate, and the
    assertion under it is left out. *)
Definition host_message_round_trip_and_length_boundaries : Prop :=
  run r, bytes := encode_host_message HostMessageType.Umac true [1; 2; 3; 4] on zeros 32 in
  let? len := r in
  len = 16 /\
  let! prefix := slice bytes 0 len in
  let? parsed := parse_host_message prefix in
  message_type parsed = HostMessageType.Umac /\
  resubmit parsed = true /\
  payload parsed = [1; 2; 3; 4] /\
  all_of
    [HostMessageType.System; HostMessageType.Supplicant; HostMessageType.Data;
     HostMessageType.Umac]
    (fun type =>
       run r, bytes := encode_host_message type false [] on bytes in
       let? len := r in
       let! prefix := slice bytes 0 len in
       let? parsed := parse_host_message prefix in
       message_type parsed = type /\ resubmit parsed = false) /\
  validated_host_message_len (HOST_MESSAGE_HEADER_LEN - 1) 0 = Err ProtocolError.BufferTooSmall /\
  validated_host_message_len USIZE_MAX USIZE_MAX = Err ProtocolError.InvalidLength /\
  (let! short := slice bytes 0 (HOST_MESSAGE_HEADER_LEN - 1) in
   parse_host_message short = Err ProtocolError.InvalidLength) /\
  let invalid := splice (zeros HOST_MESSAGE_HEADER_LEN) 0 (to_le 4 (HOST_MESSAGE_HEADER_LEN - 1)) in
  parse_host_message invalid = Err ProtocolError.InvalidLength /\
  let invalid := splice invalid 0 (to_le 4 (HOST_MESSAGE_HEADER_LEN + 1)) in
  parse_host_message invalid = Err ProtocolError.InvalidLength /\
  let invalid := splice invalid 0 (to_le 4 HOST_MESSAGE_HEADER_LEN) in
  let invalid := splice invalid 8 (to_le 4 4) in
  parse_host_message invalid = Err (ProtocolError.InvalidValue 4).

Definition hpqm_layout_is_exact : Prop :=
  let bytes := concat (map (to_le 4) (seqZ 0 (HPQM_INFO_LEN / 4))) in
  (let? hpqm := HpqmInfo_parse bytes in
   event_busy hpqm = mkHpq 0 1 /\
   dequeue_address (command_available hpqm) = 7 /\
   dequeue_address <$> nthZ (rx_buffer_busy hpqm) 2 = Some 13) /\
  (let! short := slice bytes 0 (HPQM_INFO_LEN - 1) in
   HpqmInfo_parse short = Err ProtocolError.InvalidLength).

Definition system_init_defaults_and_wire_image_are_exact : Prop :=
  let config := SystemInitConfig_new [2; 0; 0; 0; 0; 1] (zeros RF_PARAMS_LEN) in
  cfg_data config = DataConfig_default /\
  cfg_temperature_battery config = TemperatureBatteryConfig_default /\
  cfg_rf_params_valid config = true /\
  buffer_size <$> nthZ (cfg_rx_pools config) 0 = Some 1600 /\
  buffer_count <$> nthZ (cfg_rx_pools config) 0 = Some 8 /\
  nthZ (cfg_rx_pools config) 1 = Some RxPoolConfig_default /\
  nthZ (cfg_rx_pools config) 2 = Some RxPoolConfig_default /\
  cfg_tcp_ip_checksum_offload config = false /\
  cfg_management_buffer_offload config = true /\
  cfg_disable_beamforming config = false /\
  cfg_keep_alive_enabled config = false /\
  cfg_raw_scan_enabled config = false /\
  cfg_abort_scan_on_bss_limit config = false /\
  monitor_period_us (cfg_temperature_battery config) = 1024 * 1024 /\
  run r, bytes := encode_system_init config on zeros (SYSTEM_INIT_LEN + HOST_MESSAGE_HEADER_LEN) in
  let? len := r in
  len = SYSTEM_INIT_LEN + HOST_MESSAGE_HEADER_LEN /\
  @read_u32 unit bytes 0 = Ok len /\
  @read_u32 unit bytes HOST_MESSAGE_HEADER_LEN = Ok 0 /\
  @read_u32 unit bytes (HOST_MESSAGE_HEADER_LEN + 4) = Ok SYSTEM_INIT_LEN /\
  @read_u32 unit bytes (HOST_MESSAGE_HEADER_LEN + 28) = Ok 1 /\
  nthZ bytes (HOST_MESSAGE_HEADER_LEN + 309) = Some 1 /\
  let? parsed := parse_host_message bytes in
  message_type parsed = HostMessageType.System /\
  resubmit parsed = false.

Definition system_init_rejects_each_resource_limit_independently : Prop :=
  let out := zeros (SYSTEM_INIT_LEN + HOST_MESSAGE_HEADER_LEN) in
  let config := SystemInitConfig_new (zeros 6) (zeros RF_PARAMS_LEN) in
  (let pools := mkRxPoolConfig 65535 3 :: tail (cfg_rx_pools config) in
   run r, _ := encode_system_init (with_resources config pools (cfg_data config)) on out in
   r = Err ProtocolError.LimitExceeded) /\
  all_of [0; 65] (fun reorder_size =>
    let data := with_reorder_buffer_size (cfg_data config) reorder_size in
    run r, _ := encode_system_init (with_resources config (cfg_rx_pools config) data) on out in
    r = Err ProtocolError.LimitExceeded) /\
  all_of [-1; 4] (fun ampdu_size =>
    let data := with_max_rx_ampdu_size (cfg_data config) ampdu_size in
    run r, _ := encode_system_init (with_resources config (cfg_rx_pools config) data) on out in
    r = Err ProtocolError.LimitExceeded).

Definition umac_header_and_interface_id_encodings_are_exact : Prop :=
  MAX_UMAC_INNER_LEN = MAX_CONTROL_MESSAGE_LEN - HOST_MESSAGE_HEADER_LEN /\
  MAX_SCAN_BODY_LEN = MAX_UMAC_INNER_LEN - UMAC_HEADER_LEN /\
  let ids := mkInterfaceIds (Some (-3)) (Some 5) (Some 0x0102030405060708) in
  valid_mask ids = 7 /\
  valid_mask InterfaceIds_default = 0 /\
  run r, bytes := encode_umac_command UmacCommand.SetInterface ids [0xaa] on zeros 128 in
  let? len := r in
  (let! prefix := slice bytes 0 len in
   let? outer := parse_host_message prefix in
   message_type outer = HostMessageType.Umac /\
   resubmit outer = false /\
   (let? header := UmacHeader_parse (payload outer) in
    command_event header = UmacCommand.to_u32 UmacCommand.SetInterface /\
    valid_ids header = 7 /\
    ifaceindex header = -3 /\
    wiphy_index header = 5 /\
    wdev_id header = 0x0102030405060708) /\
   slice (payload outer) UMAC_HEADER_LEN (Prelude.len (payload outer)) = Some [0xaa] /\
   (let! short := slice (payload outer) 0 (UMAC_HEADER_LEN - 1) in
    UmacHeader_parse short = Err ProtocolError.InvalidLength)) /\
  let oversized := zeros (MAX_UMAC_INNER_LEN - UMAC_HEADER_LEN + 1) in
  run r, _ := encode_umac_command UmacCommand.SetInterface ids oversized on bytes in
  r = Err ProtocolError.LimitExceeded.

Definition new_interface_and_deauthentication_bodies_are_exact : Prop :=
  let mac := [2; 1; 2; 3; 4; 5] in
  run r, bytes := encode_new_interface 9 InterfaceType.Station mac (b "wlan0") on zeros 128 in
  let? len := r in
  (let! prefix := slice bytes 0 len in
   let? outer := parse_host_message prefix in
   let? header := UmacHeader_parse (payload outer) in
   command_event header = UmacCommand.to_u32 UmacCommand.NewInterface /\
   wdev_id header = 9 /\
   let! body := slice (payload outer) UMAC_HEADER_LEN (Prelude.len (payload outer)) in
   @read_u32 unit body 0 = Ok 14 /\
   @read_i32 unit body 4 = Ok (InterfaceType.to_i32 InterfaceType.Station) /\
   slice body 16 22 = Some mac /\
   slice body 22 27 = Some (b "wlan0") /\
   (let! rest := slice body 27 (Prelude.len body) in forallb (Z.eqb 0) rest = true)) /\
  (run r, _ := encode_new_interface 9 InterfaceType.Station mac (zeros 17) on bytes in
   r = Err ProtocolError.LimitExceeded) /\
  let bssid := [6; 7; 8; 9; 10; 11] in
  run r, bytes := encode_deauthenticate 9 bssid 7 true on bytes in
  let? len := r in
  let! prefix := slice bytes 0 len in
  let? outer := parse_host_message prefix in
  let? header := UmacHeader_parse (payload outer) in
  command_event header = UmacCommand.to_u32 UmacCommand.Deauthenticate /\
  let! body := slice (payload outer) UMAC_HEADER_LEN (Prelude.len (payload outer)) in
  @read_u32 unit body 0 = Ok 1 /\
  @read_u16 unit body 4 = Ok 1 /\
  @read_u16 unit body 6 = Ok 7 /\
  slice body 8 (Prelude.len body) = Some bssid.

(** The four requests the encoder refuses. *)
Definition invalid_scans : list ScanRequest :=
  let d := all_bands in
  let request ssids ssid_count ies frequencies :=
    mkScanRequest (scan_reason d) (scan_passive d) ssids ssid_count (scan_bands d) (scan_no_cck d)
      ies (scan_mac_address d) (scan_active_dwell_ms d) (scan_passive_dwell_ms d)
      (scan_skip_local_admin_macs d) frequencies in
  [request (scan_ssids d) 3 [] [];
   request (scan_ssids d) 0 [] (zeros (MAX_SCAN_FREQUENCIES + 1));
   request (scan_ssids d) 0 (zeros (MAX_SCAN_IE_LEN + 1)) [];
   request [zeros (MAX_SSID_LEN + 1); []] 1 [] []].

Definition scan_encoder_writes_every_option_and_checks_each_limit : Prop :=
  let defaults := all_bands in
  scan_passive defaults = false /\
  scan_no_cck defaults = false /\
  scan_skip_local_admin_macs defaults = false /\
  let request :=
    mkScanRequest ScanReason.Connect true [b "one"; b "two"] 1 1 true [0xdd; 1; 0xaa]
      [2; 3; 4; 5; 6; 7] 11 22 true [2412; 2437] in
  run r, bytes := encode_scan 7 request on zeros MAX_CONTROL_MESSAGE_LEN in
  let? len := r in
  len = HOST_MESSAGE_HEADER_LEN + UMAC_HEADER_LEN + 490 + 8 /\
  @read_u32 unit bytes (HOST_MESSAGE_HEADER_LEN + 16) = Ok 1 /\
  @read_i32 unit bytes (HOST_MESSAGE_HEADER_LEN + 20) = Ok 0 /\
  @read_u64 unit bytes (HOST_MESSAGE_HEADER_LEN + 28) = Ok 7 /\
  (let! body := slice bytes (HOST_MESSAGE_HEADER_LEN + UMAC_HEADER_LEN) len in
   @read_i32 unit body 0 = Ok (ScanReason.to_i32 ScanReason.Connect) /\
   @read_u16 unit body 4 = Ok 1 /\
   nthZ body 6 = Some 1 /\
   nthZ body 7 = Some 3 /\
   slice body 8 11 = Some (b "one") /\
   nthZ body 40 = Some 0 /\
   nthZ body 73 = Some 1 /\
   nthZ body 74 = Some 1 /\
   @read_u16 unit body 75 = Ok 3 /\
   slice body 77 80 = Some [0xdd; 1; 0xaa] /\
   slice body 477 483 = Some [2; 3; 4; 5; 6; 7] /\
   @read_u16 unit body 483 = Ok 11 /\
   @read_u16 unit body 485 = Ok 22 /\
   @read_u16 unit body 487 = Ok 2 /\
   nthZ body 489 = Some 1 /\
   @read_u32 unit body 490 = Ok 2412 /\
   @read_u32 unit body 494 = Ok 2437) /\
  all_of invalid_scans (fun invalid =>
    run r, _ := encode_scan 7 invalid on bytes in r = Err ProtocolError.LimitExceeded).

Definition data_header_checks_its_exact_boundary : Prop :=
  let bytes := [1; 0; 0; 0; 8; 0; 0; 0] in
  DataHeader_parse bytes = Ok (mkDataHeader 1 8) /\
  let! short := slice bytes 0 7 in
  DataHeader_parse short = Err ProtocolError.InvalidLength.

(** ** The tests hold *)

Lemma host_message_round_trip_and_length_boundaries_passes : host_message_round_trip_and_length_boundaries.
Proof. passes. Qed.
Lemma hpqm_layout_is_exact_passes : hpqm_layout_is_exact.
Proof. passes. Qed.
Lemma system_init_defaults_and_wire_image_are_exact_passes : system_init_defaults_and_wire_image_are_exact.
Proof. passes. Qed.
Lemma system_init_rejects_each_resource_limit_independently_passes : system_init_rejects_each_resource_limit_independently.
Proof. passes. Qed.
Lemma umac_header_and_interface_id_encodings_are_exact_passes : umac_header_and_interface_id_encodings_are_exact.
Proof. passes. Qed.
Lemma new_interface_and_deauthentication_bodies_are_exact_passes : new_interface_and_deauthentication_bodies_are_exact.
Proof. passes. Qed.
Lemma scan_encoder_writes_every_option_and_checks_each_limit_passes : scan_encoder_writes_every_option_and_checks_each_limit.
Proof. passes. Qed.
Lemma data_header_checks_its_exact_boundary_passes : data_header_checks_its_exact_boundary.
Proof. passes. Qed.
