(* ===== verification/ControlTests.v ===== *)
(** * ControlTests: the tests of control.rs *)

From Stdlib Require Import Strings.String.
From S2P Require Import Prelude Codec Protocol Control TestSupport.
#[local] Open Scope Z_scope.

#[local] Abbreviation u16_at := (@read_u16 unit).
#[local] Abbreviation u32_at := (@read_u32 unit).
#[local] Abbreviation u64_at := (@read_u64 unit).
#[local] Abbreviation i32_at := (@read_i32 unit).

(** The bitwise or of several flags. *)
Definition flags (l : list Z) : Z := foldr Z.lor 0 l.

(** ** Helpers *)

Definition event_payload (event : Z) (body : list Z) : list Z :=
  splice (zeros UMAC_HEADER_LEN) 8 (to_le 4 event) ++ body.

Definition event_message (payload : list Z) : HostMessageRef :=
  mkHostMessageRef false HostMessageType.Umac payload.

Definition umac_event (event : UmacEvent.t) (body : list Z) : HostMessageRef :=
  event_message (event_payload (UmacEvent.to_u32 event) body).

(** [&bytes[HOST_HEADER_LEN + UMAC_HEADER_LEN..len]] *)
Definition command_body (bytes : list Z) (len : Z) : option (list Z) :=
  slice bytes (HOST_HEADER_LEN + UMAC_HEADER_LEN) len.

(** ** Encoders *)

Definition auth_and_assoc_lengths_match_the_packed_abi : Prop :=
  let auth :=
    mkAuthenticationRequest 2412 [1; 2; 3; 4; 5; 6] (b "test") AuthenticationType.OpenSystem false
      [] [] None BssContext_default in
  run r, bytes := encode_authenticate 1 auth on zeros MAX_STATION_MESSAGE_LEN in
  r = Ok AUTH_MESSAGE_LEN /\
  u32_at bytes (HOST_HEADER_LEN + 16) = Ok INDEX_WDEV_VALID /\
  i32_at bytes (HOST_HEADER_LEN + 20) = Ok 0 /\
  u64_at bytes (HOST_HEADER_LEN + 28) = Ok 1 /\
  u32_at bytes (HOST_HEADER_LEN + UMAC_HEADER_LEN)
    = Ok (Z.lor AUTH_FREQUENCY_VALID AUTH_SSID_VALID) /\
  let assoc := mkAssociationRequest 2412 [1; 2; 3; 4; 5; 6] (b "test") None 0 None 0 in
  run r, _ := encode_associate 1 assoc on bytes in
  r = Ok ASSOC_MESSAGE_LEN.

Definition complete_authentication_body_is_exact : Prop :=
  let key :=
    mkKeyConfig RSN_CIPHER_CCMP_128 KeyType.Pairwise 2 (replicate 16 0x55) [1; 2; 3] 9 in
  let request :=
    mkAuthenticationRequest 2437 [1; 2; 3; 4; 5; 6] (b "secure") AuthenticationType.Sae true
      [0xdd; 1; 0xaa] [7; 8] (Some key)
      (mkBssContext 2 (-55) true [0x30; 0] 0x1234 100 0x0102030405060708) in
  run r, bytes := encode_authenticate 5 request on zeros MAX_STATION_MESSAGE_LEN in
  let? len := r in
  len = AUTH_MESSAGE_LEN /\
  let! body := command_body bytes len in
  u32_at body 0
    = Ok (flags [AUTH_FREQUENCY_VALID; AUTH_SSID_VALID; AUTH_KEY_INFO_VALID; AUTH_SAE_VALID]) /\
  u32_at body 4 = Ok 2437 /\
  u16_at body 8 = Ok AUTH_LOCAL_STATE_CHANGE /\
  i32_at body 10 = Ok (AuthenticationType.to_i32 AuthenticationType.Sae) /\
  u32_at body 14 = Ok 31 /\
  u32_at body 18 = Ok RSN_CIPHER_CCMP_128 /\
  u16_at body 22 = Ok 9 /\
  nthZ body 548 = Some 2 /\
  nthZ body 549 = Some 6 /\
  slice body 550 556 = Some (b "secure") /\
  u16_at body 582 = Ok 3 /\
  slice body 584 587 = Some [0xdd; 1; 0xaa] /\
  i32_at body 984 = Ok 2 /\
  slice body 988 990 = Some [7; 8] /\
  slice body 1244 1250 = Some [1; 2; 3; 4; 5; 6] /\
  i32_at body 1250 = Ok 2 /\
  i32_at body 1254 = Ok (-55) /\
  i32_at body 1258 = Ok 1 /\
  u16_at body 1664 = Ok 0x1234 /\
  u16_at body 1666 = Ok 100 /\
  u64_at body 1668 = Ok 0x0102030405060708.

Definition authentication_rejects_each_fixed_capacity_limit : Prop :=
  let bytes := zeros MAX_STATION_MESSAGE_LEN in
  let oversized_ssid := zeros 33 in
  let oversized_ie := zeros (MAX_IE_LEN + 1) in
  let oversized_sae := zeros (MAX_SAE_LEN + 1) in
  let oversized_key := zeros (MAX_KEY_LEN + 1) in
  let oversized_sequence := zeros (MAX_KEY_SEQUENCE_LEN + 1) in
  let invalid_keys :=
    [KeyConfig_pairwise RSN_CIPHER_CCMP_128 0 oversized_key;
     mkKeyConfig RSN_CIPHER_CCMP_128 KeyType.Pairwise 0 (zeros 16) oversized_sequence 0;
     mkKeyConfig RSN_CIPHER_CCMP_128 KeyType.Pairwise 4 (zeros 16) [] 0] in
  let base ssid information_elements sae_data key bss_information_elements :=
    mkAuthenticationRequest 2412 (zeros 6) ssid AuthenticationType.OpenSystem false
      information_elements sae_data key (mkBssContext 0 0 false bss_information_elements 0 0 0) in
  all_of
    [base oversized_ssid [] [] None []; base (b "ok") oversized_ie [] None [];
     base (b "ok") [] [] None oversized_ie; base (b "ok") [] oversized_sae None []]
    (fun request =>
       run r, _ := encode_authenticate 1 request on bytes in
       r = Err ProtocolError.LimitExceeded) /\
  all_of invalid_keys (fun key =>
    run r, _ := encode_authenticate 1 (base (b "ok") [] [] (Some key) []) on bytes in
    r = Err ProtocolError.LimitExceeded).

(** The five securities that the last loop of the next test refuses. *)
Definition invalid_securities : list AssociationSecurity :=
  let oversized_ie := zeros (MAX_IE_LEN + 1) in
  let too_many_pairwise := zeros (MAX_PAIRWISE_CIPHERS + 1) in
  let too_many_akm := zeros (MAX_AKM_SUITES + 1) in
  [mkAssociationSecurity [] 0 [1] MfpMode.Disabled [];
   mkAssociationSecurity too_many_pairwise 0 [1] MfpMode.Disabled [];
   mkAssociationSecurity [1] 0 [] MfpMode.Disabled [];
   mkAssociationSecurity [1] 0 too_many_akm MfpMode.Disabled [];
   mkAssociationSecurity [1] 0 [1] MfpMode.Disabled oversized_ie].

Definition secure_association_body_and_limits_are_exact : Prop :=
  let security :=
    mkAssociationSecurity [RSN_CIPHER_CCMP_128; RSN_CIPHER_GCMP_128] RSN_CIPHER_CCMP_128
      [RSN_AKM_PSK] MfpMode.Required [0x30; 0] in
  let previous := [6; 5; 4; 3; 2; 1] in
  let request :=
    mkAssociationRequest 2462 [1; 2; 3; 4; 5; 6] (b "secure") (Some security) 9 (Some previous)
      30 in
  run r, bytes := encode_associate 7 request on zeros MAX_STATION_MESSAGE_LEN in
  let? len := r in
  len = ASSOC_MESSAGE_LEN /\
  (let! body := command_body bytes len in
   u32_at body 0 = Ok ASSOC_PREVIOUS_BSSID_VALID /\
   u32_at body 4 = Ok (flags
     [CONNECT_MAC_VALID; CONNECT_FREQUENCY_VALID; CONNECT_BG_SCAN_VALID; CONNECT_SSID_VALID;
      CONNECT_WPA_IE_VALID; CONNECT_WPA_VERSIONS_VALID; CONNECT_PAIRWISE_VALID;
      CONNECT_GROUP_VALID; CONNECT_AKM_VALID; CONNECT_MFP_VALID;
      CONNECT_CONTROL_PORT_ETHERTYPE_VALID; CONNECT_CONTROL_PORT_NO_ENCRYPT_VALID;
      CONNECT_PREVIOUS_BSSID_VALID; CONNECT_SECURITY_VALID]) /\
   u32_at body 8 = Ok 2462 /\
   u32_at body 16 = Ok WPA_VERSION_2 /\
   i32_at body 20 = Ok 2 /\
   u32_at body 24 = Ok RSN_CIPHER_CCMP_128 /\
   u32_at body 28 = Ok RSN_CIPHER_GCMP_128 /\
   u32_at body 52 = Ok RSN_CIPHER_CCMP_128 /\
   u32_at body 56 = Ok 1 /\
   u32_at body 60 = Ok RSN_AKM_PSK /\
   i32_at body 68 = Ok (MfpMode.to_i32 MfpMode.Required) /\
   u16_at body 76 = Ok 9 /\
   slice body 78 84 = Some [1; 2; 3; 4; 5; 6] /\
   nthZ body 90 = Some 6 /\
   slice body 91 97 = Some (b "secure") /\
   u16_at body 123 = Ok 2 /\
   u16_at body 1555 = Ok EAPOL_ETHERTYPE /\
   slice body 1559 1565 = Some previous /\
   u16_at body 1565 = Ok 30 /\
   slice body 1567 1573 = Some previous) /\
  all_of invalid_securities (fun security =>
    let request := mkAssociationRequest 2412 (zeros 6) (b "ok") (Some security) 0 None 0 in
    run r, _ := encode_associate 1 request on bytes in
    r = Err ProtocolError.LimitExceeded).

Definition key_length_matches_the_packed_abi : Prop :=
  let key := KeyConfig_pairwise RSN_CIPHER_CCMP_128 0 (replicate 16 0x55) in
  run r, bytes := encode_key_command 1 UmacCommand.NewKey (Some [1; 2; 3; 4; 5; 6]) key
                  on zeros MAX_STATION_MESSAGE_LEN in
  r = Ok KEY_MESSAGE_LEN /\
  let body := HOST_HEADER_LEN + UMAC_HEADER_LEN in
  u32_at bytes body = Ok KEY_MAC_VALID /\
  u32_at bytes (body + 4)
    = Ok (flags [KEY_DATA_VALID; KEY_TYPE_VALID; KEY_INDEX_VALID; KEY_CIPHER_VALID]) /\
  let group :=
    mkKeyConfig RSN_CIPHER_CCMP_128 KeyType.Group 1 (replicate 16 0x66) (zeros 8) (bit 4) in
  run r, bytes := encode_key_command 1 UmacCommand.NewKey None group on bytes in
  is_ok r = true /\
  u32_at bytes body = Ok 0 /\
  u32_at bytes (body + 4)
    = Ok (flags [KEY_DATA_VALID; KEY_TYPE_VALID; KEY_INDEX_VALID; KEY_SEQUENCE_VALID;
                 KEY_CIPHER_VALID]) /\
  u16_at bytes (body + 12) = Ok (bit 4) /\
  let default_group := mkKeyConfig 0 KeyType.Group 1 [] [] (Z.lor (bit 0) (bit 4)) in
  run r, bytes := encode_set_key 1 default_group on bytes in
  is_ok r = true /\
  u32_at bytes body = Ok KEY_INDEX_VALID /\
  u16_at bytes (body + 8) = Ok 0x11 /\
  run r, bytes := encode_key_command 1 UmacCommand.DeleteKey None default_group on bytes in
  is_ok r = true /\
  run r, _ := encode_key_command 1 UmacCommand.SetKey None default_group on bytes in
  r = Err (ProtocolError.InvalidValue (UmacCommand.to_u32 UmacCommand.SetKey)).

(** ** Events *)

Definition command_status_is_parsed : Prop :=
  let payload := zeros (UMAC_HEADER_LEN + 8) in
  let payload := splice payload 8 (to_le 4 (UmacEvent.to_u32 UmacEvent.CommandStatus)) in
  let payload := splice payload UMAC_HEADER_LEN
                   (to_le 4 (UmacCommand.to_u32 UmacCommand.Associate)) in
  let payload := splice payload (UMAC_HEADER_LEN + 4) (to_le 4 7) in
  let message := zeros (HOST_HEADER_LEN + UMAC_HEADER_LEN + 8) in
  run r, message := encode_host_message HostMessageType.Umac false payload on message in
  let? len := r in
  let! prefix := slice message 0 len in
  let? parsed := parse_host_message prefix in
  let? event := parse_control_event parsed in
  match event with ControlEvent.CommandStatus _ 3 7 => True | _ => False end.

(** An MLME body with a frame of four bytes and two information elements. *)
Definition mlme_body : list Z :=
  edited (zeros (MLME_FIXED_BODY_LEN + 2))
    [(0, to_le 4 0x11); (4, to_le 4 2412); (8, to_le 4 (-42)); (12, to_le 4 0x22);
     (16, to_le 8 0x0102030405060708); (24, to_le 4 4); (28, [1; 2; 3; 4]);
     (428, [6; 5; 4; 3; 2; 1]); (435, to_le 4 2); (439, [0x30; 0])].

(** A scan result with two information elements and one of the beacon. *)
Definition scan_body : list Z :=
  edited (zeros (SCAN_RESULT_FIXED_BODY_LEN + 3))
    [(0, to_le 4 1); (8, to_le 4 2437); (12, to_le 4 2); (16, to_le 4 9); (24, to_le 4 (-3));
     (44, to_le 2 100); (46, to_le 2 0x1234); (48, to_le 4 2); (52, to_le 4 (-5500));
     (56, [1; 2; 3; 4; 5; 6]); (62, to_le 4 2); (66, to_le 4 1); (70, [0x30; 0; 0xdd])].

Definition every_control_event_variant_and_length_boundary_is_parsed : Prop :=
  match parse_control_event (umac_event UmacEvent.ScanDone [0xff; 0xff; 0xff; 0xff; 2; 0; 0; 0])
  with Ok (ControlEvent.ScanDone _ (-1) 2) => True | _ => False end /\
  parse_control_event (umac_event UmacEvent.ScanDone (zeros 7)) = Err ProtocolError.InvalidLength /\
  all_of
    [(UmacEvent.Authenticate, 0); (UmacEvent.Associate, 1); (UmacEvent.Deauthenticate, 2);
     (UmacEvent.Disassociate, 3)]
    (fun '(event, expected) =>
       let? parsed := parse_control_event (umac_event event mlme_body) in
       let! value :=
         match parsed with
         | ControlEvent.Authentication value => if expected =? 0 then Some value else None
         | ControlEvent.Association value => if expected =? 1 then Some value else None
         | ControlEvent.Deauthentication value => if expected =? 2 then Some value else None
         | ControlEvent.Disassociation value => if expected =? 3 then Some value else None
         | _ => None
         end in
       mlme_frequency_mhz value = 2412 /\
       mlme_signal_dbm value = -42 /\
       mlme_frame value = [1; 2; 3; 4] /\
       mlme_bssid value = [6; 5; 4; 3; 2; 1] /\
       mlme_request_information_elements value = [0x30; 0]) /\
  match parse_control_event (umac_event UmacEvent.ScanResult scan_body) with
  | Ok (ControlEvent.ScanResult result) =>
      sr_frequency_mhz result = 2437 /\
      sr_signal result = -55 /\
      sr_information_elements result = [0x30; 0] /\
      sr_beacon_information_elements result = [0xdd]
  | _ => False
  end /\
  normalized_scan_signal 1 (-44) = -44 /\
  match parse_control_event (umac_event UmacEvent.InterfaceFlagsStatus (to_le 4 (-7))) with
  | Ok (ControlEvent.InterfaceState _ (-7)) => True | _ => False end /\
  match parse_control_event
          (event_message (event_payload EVENT_REGULATORY_CHANGE (zeros 7 ++ b "US"))) with
  | Ok (ControlEvent.RegulatoryChange _ country) => country = b "US" | _ => False end /\
  match parse_control_event (event_message (event_payload 999 [1; 2])) with
  | Ok (ControlEvent.Other _ body) => body = [1; 2] | _ => False end /\
  match parse_control_event (umac_event UmacEvent.Connect [3; 4]) with
  | Ok (ControlEvent.Other _ body) => body = [3; 4] | _ => False end /\
  all_of
    [(UmacEvent.to_u32 UmacEvent.CommandStatus, zeros 7);
     (UmacEvent.to_u32 UmacEvent.InterfaceFlagsStatus, zeros 3);
     (EVENT_REGULATORY_CHANGE, zeros 8)]
    (fun '(event, body) =>
       parse_control_event (event_message (event_payload event body))
         = Err ProtocolError.InvalidLength).

Definition mlme_and_scan_variable_lengths_are_fail_closed : Prop :=
  let header := mkUmacHeader 0 0 0 0 0 0 0 0 in
  parse_mlme header (zeros (MLME_FIXED_BODY_LEN - 1)) = Err ProtocolError.InvalidLength /\
  all_of [-1; 401] (fun frame_len =>
    let body := splice (zeros MLME_FIXED_BODY_LEN) 24 (to_le 4 frame_len) in
    parse_mlme header body = Err ProtocolError.InvalidLength) /\
  (let missing_request_ie := splice (zeros MLME_FIXED_BODY_LEN) 435 (to_le 4 1) in
   parse_mlme header missing_request_ie = Err ProtocolError.InvalidLength) /\
  parse_scan_result header (zeros (SCAN_RESULT_FIXED_BODY_LEN - 1))
    = Err ProtocolError.InvalidLength /\
  (let missing_ies := splice (zeros SCAN_RESULT_FIXED_BODY_LEN) 62 (to_le 4 1) in
   parse_scan_result header missing_ies = Err ProtocolError.InvalidLength) /\
  (let missing_beacon := splice (zeros SCAN_RESULT_FIXED_BODY_LEN) 66 (to_le 4 1) in
   parse_scan_result header missing_beacon = Err ProtocolError.InvalidLength).

(** ** Small commands *)

Definition small_control_commands_and_station_authorization_are_exact : Prop :=
  let body := HOST_HEADER_LEN + UMAC_HEADER_LEN in
  run r, out := encode_interface_state 3 true (-2) on zeros MAX_STATION_MESSAGE_LEN in
  is_ok r = true /\
  i32_at out body = Ok 1 /\
  nthZ out (body + 4) = Some (u8 (-2)) /\
  run r, out := encode_interface_state 3 false 2 on out in
  is_ok r = true /\
  i32_at out body = Ok 0 /\
  run r, out := encode_power_save 3 PowerSaveState.Enabled on out in
  is_ok r = true /\
  i32_at out body = Ok 1 /\
  run r, out := encode_power_save_timeout 3 (-10) on out in
  is_ok r = true /\
  i32_at out body = Ok (-10) /\
  let peer := [1; 2; 3; 4; 5; 6] in
  run r, out := encode_station_authorized 3 peer true on out in
  is_ok r = true /\
  u32_at out body = Ok SET_STATION_FLAGS_VALID /\
  u32_at out (body + 264) = Ok STATION_FLAG_AUTHORIZED /\
  u32_at out (body + 268) = Ok STATION_FLAG_AUTHORIZED /\
  slice out (body + 784) (body + 790) = Some peer /\
  run r, out := encode_station_authorized 3 peer false on out in
  is_ok r = true /\
  u32_at out (body + 268) = Ok 0 /\
  validated_station_message_len 0 0 = Err ProtocolError.BufferTooSmall /\
  validated_station_message_len USIZE_MAX USIZE_MAX = Err ProtocolError.InvalidLength /\
  validated_station_message_len USIZE_MAX MAX_STATION_MESSAGE_LEN
    = Err ProtocolError.BufferTooSmall /\
  run r, _ := encode_umac UmacCommand.SetPowerSave (Some 1) 1 (mret tt) on out in
  r = Err ProtocolError.InvalidLength.

Definition world_regulatory_domain_is_accepted : Prop :=
  run r, out := encode_set_regulatory 0 (b "00") 0 false on zeros 128 in
  is_ok r = true /\
  u32_at out (HOST_HEADER_LEN + 16) = Ok 0 /\
  run r, out := encode_set_regulatory 0 (b "US") 7 true on out in
  is_ok r = true /\
  let body := HOST_HEADER_LEN + UMAC_HEADER_LEN in
  u32_at out body = Ok 7 /\
  u32_at out (body + 4) = Ok 7 /\
  slice out (body + 8) (body + 10) = Some (b "US") /\
  (run r, _ := encode_set_regulatory 0 (b "0A") 0 false on out in
   match r with Err (ProtocolError.InvalidValue _) => True | _ => False end) /\
  run r, _ := encode_set_regulatory 0 (b "A0") 0 false on out in
  match r with Err (ProtocolError.InvalidValue _) => True | _ => False end.

(** ** The tests hold *)

Lemma auth_and_assoc_lengths_match_the_packed_abi_passes : auth_and_assoc_lengths_match_the_packed_abi.
Proof. passes. Qed.
Lemma complete_authentication_body_is_exact_passes : complete_authentication_body_is_exact.
Proof. passes. Qed.
Lemma authentication_rejects_each_fixed_capacity_limit_passes : authentication_rejects_each_fixed_capacity_limit.
Proof. passes. Qed.
Lemma secure_association_body_and_limits_are_exact_passes : secure_association_body_and_limits_are_exact.
Proof. passes. Qed.
Lemma key_length_matches_the_packed_abi_passes : key_length_matches_the_packed_abi.
Proof. passes. Qed.
Lemma command_status_is_parsed_passes : command_status_is_parsed.
Proof. passes. Qed.
Lemma every_control_event_variant_and_length_boundary_is_parsed_passes : every_control_event_variant_and_length_boundary_is_parsed.
Proof. passes. Qed.
Lemma mlme_and_scan_variable_lengths_are_fail_closed_passes : mlme_and_scan_variable_lengths_are_fail_closed.
Proof. passes. Qed.
Lemma small_control_commands_and_station_authorization_are_exact_passes : small_control_commands_and_station_authorization_are_exact.
Proof. passes. Qed.
Lemma world_regulatory_domain_is_accepted_passes : world_regulatory_domain_is_accepted.
Proof. passes. Qed.
