(* ===== verification/DeviceTests.v ===== *)
(** * DeviceTests: the tests of device.rs, on a scripted bus *)

From S2P Require Import Prelude Codec Protocol Control Bus Memory Device TestSupport.

(** ** The scripted bus

    Reads answer from a script that may hold errors, writes are recorded, and
    one of them may fail.  The count of the delays is in the same state; a test
    that shares a delay between devices sums their counts. *)

Module TestBusError.
Inductive t : Type := Read | Write.
End TestBusError.

Record ScriptedBus : Type := mkScriptedBus {
  sb_reads : list (list Z + TestBusError.t);
  sb_writes : list (Z * list Z);
  sb_fail_write_at : option Z;
  sb_write_attempts : Z;
  sb_delays : Z }.

Definition ScriptedBus_default : ScriptedBus := mkScriptedBus [] [] None 0 0.
Definition ScriptedBus_with_reads (reads : list (list Z)) : ScriptedBus :=
  mkScriptedBus (map inl reads) [] None 0 0.

Definition ScriptedBus_read : M (ScriptedBus * list Z) TestBusError.t unit := fun '(bus, data) =>
  let rest := mkScriptedBus (tail (sb_reads bus)) (sb_writes bus) (sb_fail_write_at bus)
                (sb_write_attempts bus) (sb_delays bus) in
  match head (sb_reads bus) with
  | Some (inl response) =>
      if len response =? len data then (Ok tt, (rest, response)) else (Panic, (rest, data))
  | Some (inr error) => (Err error, (rest, data))
  | None => (Ok tt, (bus, zeros (len data)))
  end.

Definition ScriptedBus_write (address : Z) (data : list Z) : M ScriptedBus TestBusError.t unit :=
  fun bus =>
  let attempt := sb_write_attempts bus in
  let bus := mkScriptedBus (sb_reads bus) (sb_writes bus) (sb_fail_write_at bus) (attempt + 1)
               (sb_delays bus) in
  if bool_decide (sb_fail_write_at bus = Some attempt) then (Err TestBusError.Write, bus)
  else (Ok tt, mkScriptedBus (sb_reads bus) (sb_writes bus ++ [(address, data)])
                 (sb_fail_write_at bus) (sb_write_attempts bus) (sb_delays bus)).

Definition ScriptedBus_delay (bus : ScriptedBus) : ScriptedBus :=
  mkScriptedBus (sb_reads bus) (sb_writes bus) (sb_fail_write_at bus) (sb_write_attempts bus)
    (sb_delays bus + 1).

#[export] Instance ScriptedBus_ops : BusOps ScriptedBus TestBusError.t := {
  bus_read_status _ := mret 0;
  bus_write_status _ _ := mret tt;
  bus_read _ := ScriptedBus_read;
  bus_write := ScriptedBus_write }.
#[export] Instance ScriptedBus_delays : DelayOps ScriptedBus :=
  { delay_ms _ := ScriptedBus_delay }.

(** ** Helpers *)

Definition word (value : Z) : list Z := to_le 4 value.

Definition valid_queues : HpqmInfo :=
  mkHpqmInfo (mkHpq 0xa4006004 0xa4006000) (mkHpq 0xa4006014 0xa4006010)
    (mkHpq 0xa4006024 0xa4006020) (mkHpq 0xa4007004 0xa4007000)
    [mkHpq 0xa4006034 0xa4006030; mkHpq 0xa4006044 0xa4006040; mkHpq 0xa4006054 0xa4006050].

Definition queue_bytes (queues : HpqmInfo) : list Z :=
  let all := [event_busy queues; event_available queues; command_busy queues;
              command_available queues] ++ rx_buffer_busy queues in
  concat (map (fun queue => to_le 4 (enqueue_address queue) ++ to_le 4 (dequeue_address queue)) all).

(** [Device::initialize_for_test] *)
Definition Device_initialize_for_test {W} (queues : HpqmInfo) (rx_command_base : Z)
    (d : Device W) : Device W :=
  set_queue_state (Some queues) rx_command_base RPU_MEM_TX_CMD_BASE d.

Definition test_device {W} (bus : W) : Device W :=
  Device_initialize_for_test valid_queues 0xb0002000 (Device_new bus).

(** [unwrap] of the encoder is the empty message here, which no test sends. *)
Definition system_message_bytes (payload : list Z) (resubmit : bool) : list Z :=
  let bytes := zeros (HOST_MESSAGE_HEADER_LEN + len payload) in
  match encode_host_message HostMessageType.System resubmit payload bytes with
  | (Ok len, bytes) => take (Z.to_nat len) bytes
  | _ => []
  end.

(** [device.set_fragment_limits(..).unwrap()] *)
Definition with_fragment_limits {W} (command_len event_len : Z) (d : Device W)
    (P : Device W -> Prop) : Prop :=
  run r, d := set_fragment_limits command_len event_len on d in r = Ok tt /\ P d.

(** The words among the writes of a bus, and whether a word was written. *)
Definition written_values (bus : ScriptedBus) : list Z :=
  map (fun w => from_le w.2) (filter (fun w => len w.2 = 4) (sb_writes bus)).
Definition wrote (bus : ScriptedBus) (value : Z) : bool :=
  existsb (fun w => bool_decide (w.2 = word value)) (sb_writes bus).

(** A call that is lent a buffer at an address. *)
Definition read_event (d : Device ScriptedBus) (scratch_address : Z) (scratch : list Z)
    (P : res (DeviceError.t TestBusError.t) (option HostMessageRef) ->
         Device ScriptedBus -> list Z -> Prop) : Prop :=
  run r, end_ := try_read_event scratch_address on (d, scratch) in
  let '(d, scratch) := end_ in P r d scratch.

(** ** Initialization and interrupts *)

Definition initializes_exact_queue_map_and_command_bases : Prop :=
  let queues := valid_queues in
  (let bus := ScriptedBus_with_reads [queue_bytes queues; word 0xb0002000] in
   run r, device := initialize_queues on Device_new bus in
   r = Ok queues /\
   dev_queues device = Some queues /\
   rx_command_base device = Some 0xb0002000 /\
   tx_command_base device = Some RPU_MEM_TX_CMD_BASE /\
   dev_recovery_required device = false) /\
  all_of [0; 0xaaaaaaaa] (fun invalid_base =>
    let bus := ScriptedBus_with_reads [queue_bytes queues; word invalid_base] in
    run r, _ := initialize_queues on Device_new bus in
    r = Err DeviceError.InvalidQueueMap) /\
  let invalid :=
    mkHpqmInfo (event_busy queues) (event_available queues)
      (mkHpq 0 (dequeue_address (command_busy queues))) (command_available queues)
      (rx_buffer_busy queues) in
  run r, _ := initialize_queues on Device_new (ScriptedBus_with_reads [queue_bytes invalid]) in
  r = Err DeviceError.InvalidQueueMap.

Definition interrupt_registers_are_enabled_disabled_and_acknowledged_exactly : Prop :=
  let root := 0x12345678 in
  let bus := ScriptedBus_with_reads [word root; word (Z.lor root RPU_INTERRUPT_ROOT_BIT)] in
  run r, device := enable_interrupts on test_device bus in
  r = Ok tt /\
  run r, device := disable_interrupts on device in
  r = Ok tt /\
  run r, device := acknowledge_interrupt on device in
  r = Ok tt /\
  let values := written_values (dev_rpu device) in
  contains values (Z.lor root RPU_INTERRUPT_ROOT_BIT) = true /\
  contains values (Z.ldiff root RPU_INTERRUPT_ROOT_BIT) = true /\
  contains values RPU_INTERRUPT_MCU_BIT = true /\
  contains values 0 = true /\
  let blocked := set_recovery_required true (test_device ScriptedBus_default) in
  run r, _ := enable_interrupts on blocked in
  r = Err DeviceError.RecoveryRequired.

(** ** Commands *)

Definition single_fragment_control_distinguishes_empty_and_uncertain_queues : Prop :=
  let command_address := 0xb0005000 in
  let command := system_message_bytes [1; 2] false in
  (run r, device := send_control command
                    on test_device (ScriptedBus_with_reads [word command_address]) in
   r = Ok tt /\
   dev_command_counter device = RPU_COMMAND_COUNTER_START + 1 /\
   dev_recovery_required device = false) /\
  (run r, empty := send_control command on test_device (ScriptedBus_with_reads [word 0]) in
   r = Err DeviceError.CommandQueueEmpty /\
   dev_recovery_required empty = false) /\
  (run r, corrupt := send_control command
                     on test_device (ScriptedBus_with_reads [word 0xaaaaaaaa]) in
   r = Err DeviceError.CommandDeliveryUncertain /\
   dev_recovery_required corrupt = true) /\
  with_fragment_limits HOST_MESSAGE_HEADER_LEN DEFAULT_EVENT_FRAGMENT_LEN
    (test_device ScriptedBus_default) (fun fragmented =>
    run r, _ := send_control command on fragmented in
    r = Err DeviceError.CommandNeedsWait).

Definition reliable_control_waits_fragments_and_marks_partial_timeout_uncertain : Prop :=
  let command := system_message_bytes [1; 2; 3; 4; 5; 6; 7; 8] false in
  (run r, zero_attempts := send_control_with_wait command 0 7
                           on test_device ScriptedBus_default in
   r = Err DeviceError.CommandQueueTimeout /\
   run r, timeout := send_control_with_wait command 2 7
                     on test_device (ScriptedBus_with_reads [word 0; word 0]) in
   r = Err DeviceError.CommandQueueTimeout /\
   sb_delays (dev_rpu zero_attempts) + sb_delays (dev_rpu timeout) = 2 /\
   dev_recovery_required timeout = false) /\
  let first := 0xb0005000 in
  let second := 0xb0005100 in
  with_fragment_limits HOST_MESSAGE_HEADER_LEN DEFAULT_EVENT_FRAGMENT_LEN
    (test_device (ScriptedBus_with_reads [word first; word second])) (fun success =>
    run r, success := send_control_with_wait command 2 7 on success in
    r = Ok tt /\
    dev_command_counter success = RPU_COMMAND_COUNTER_START + 2 /\
    dev_recovery_required success = false) /\
  with_fragment_limits HOST_MESSAGE_HEADER_LEN DEFAULT_EVENT_FRAGMENT_LEN
    (test_device (ScriptedBus_with_reads [word first; word 0; word 0])) (fun partial =>
    run r, partial := send_control_with_wait command 2 7 on partial in
    r = Err DeviceError.CommandDeliveryUncertain /\
    dev_recovery_required partial = true).

Definition control_bus_failures_after_dequeue_require_recovery : Prop :=
  let command := system_message_bytes [1; 2] false in
  (let bus := mkScriptedBus [inl (word 0xb0005000)] [] (Some 1) 0 0 in
   run r, device := send_control command on test_device bus in
   r = Err DeviceError.CommandDeliveryUncertain /\
   dev_recovery_required device = true) /\
  let bus := mkScriptedBus [inr TestBusError.Read] [] None 0 0 in
  run r, device := send_control command on test_device bus in
  r = Err DeviceError.CommandDeliveryUncertain /\
  dev_recovery_required device = true.

(** ** Events *)

Definition complete_and_missing_events_follow_the_queue_contract : Prop :=
  let event_address := 0xb0005000 in
  let event := system_message_bytes [9; 8; 7; 6] true in
  let! header := slice event 0 HOST_MESSAGE_HEADER_LEN in
  let bus := ScriptedBus_with_reads [word event_address; header; event] in
  read_event (test_device bus) 1 (zeros 64) (fun r device scratch =>
    (let? event := r in let! received := event in
     payload received = [9; 8; 7; 6] /\ resubmit received = true) /\
    dev_pending_event device = None /\
    let bus := dev_rpu device in
    contains (written_values bus) event_address = true /\
    contains (written_values bus) RPU_INTERRUPT_MCU_BIT = true /\
    (let? release_address :=
       host_offset Processor.Umac (enqueue_address (event_available valid_queues)) in
     contains (sb_writes bus) (release_address, word event_address) = true) /\
    read_event (test_device (ScriptedBus_with_reads [word 0])) 1 scratch (fun r _ _ =>
      r = Ok None)).

Definition malformed_and_oversized_events_are_released_and_bounded : Prop :=
  let event_address := 0xb0005000 in
  let short_header := splice (zeros HOST_MESSAGE_HEADER_LEN) 0
                        (to_le 4 (HOST_MESSAGE_HEADER_LEN - 1) ++ to_le 4 1) in
  read_event (test_device (ScriptedBus_with_reads [word event_address; short_header])) 1 (zeros 64)
    (fun r _ _ => r = Err (DeviceError.Protocol ProtocolError.InvalidLength)) /\
  let event := system_message_bytes (replicate 8 1) false in
  let! header := slice event 0 HOST_MESSAGE_HEADER_LEN in
  read_event (test_device (ScriptedBus_with_reads [word event_address; header])) 1
    (zeros (HOST_MESSAGE_HEADER_LEN + 2))
    (fun r oversized _ =>
       r = Err (DeviceError.EventTooLarge (len event) (HOST_MESSAGE_HEADER_LEN + 2)) /\
       dev_pending_event oversized = None).

Definition fragmented_events_resume_wait_reject_changed_buffers_and_discard : Prop :=
  let first_address := 0xb0005000 in
  let second_address := 0xb0005100 in
  let event := system_message_bytes [1; 2; 3; 4; 5; 6; 7; 8] true in
  let first_count := HOST_MESSAGE_HEADER_LEN in
  let! header := slice event 0 first_count in
  let! rest := slice event first_count (len event) in
  with_fragment_limits DEFAULT_CONTROL_FRAGMENT_LEN first_count
    (test_device (ScriptedBus_with_reads
       [word first_address; header; header; word 0; word second_address; rest])) (fun device =>
    read_event device 1 (zeros 64) (fun r device scratch =>
      r = Ok None /\
      read_event device 1 scratch (fun r device scratch =>
        r = Ok None /\
        read_event device 1 scratch (fun r _ _ =>
          let? event := r in let! received := event in
          payload received = [1; 2; 3; 4; 5; 6; 7; 8])))) /\
  with_fragment_limits DEFAULT_CONTROL_FRAGMENT_LEN first_count
    (test_device (ScriptedBus_with_reads [word first_address; header; header])) (fun changed =>
    read_event changed 1 (zeros 64) (fun r changed _ =>
      is_ok r = true /\
      read_event changed 2 (zeros 64) (fun r changed _ =>
        r = Err DeviceError.EventBufferChanged /\
        pe_discard <$> dev_pending_event changed = Some true))).

Definition oversized_fragmented_event_is_discarded_before_the_next_queue_read : Prop :=
  let first_address := 0xb0005000 in
  let second_address := 0xb0005100 in
  let event := system_message_bytes (replicate 20 1) true in
  let fragment_len := 16 in
  let! header := slice event 0 HOST_MESSAGE_HEADER_LEN in
  with_fragment_limits DEFAULT_CONTROL_FRAGMENT_LEN fragment_len
    (test_device (ScriptedBus_with_reads
       [word first_address; header; word second_address; word 0])) (fun device =>
    let scratch := zeros 20 in
    let capacity := len scratch in
    read_event device 1 scratch (fun r device scratch =>
      r = Err (DeviceError.EventTooLarge (len event) capacity) /\
      pe_discard <$> dev_pending_event device = Some true /\
      read_event device 1 scratch (fun r device _ =>
        r = Ok None /\
        dev_pending_event device = None))).

Definition pending_fragment_acknowledgement_tracks_actual_queue_removal : Prop :=
  let event := system_message_bytes [1; 2; 3; 4] false in
  let! header := slice event 0 HOST_MESSAGE_HEADER_LEN in
  let! rest := slice event HOST_MESSAGE_HEADER_LEN (len event) in
  let scratch := splice (zeros 32) 0 header in
  let pending := mkPendingEvent (len event) HOST_MESSAGE_HEADER_LEN false 1 false in
  read_event
    (set_pending_event (Some pending) (test_device (ScriptedBus_with_reads [word 0]))) 1 scratch
    (fun r waiting scratch =>
       r = Ok None /\
       sb_writes (dev_rpu waiting) = [] /\
       let event_address := 0xb0005100 in
       read_event
         (set_pending_event (Some pending)
            (test_device (ScriptedBus_with_reads [word event_address; rest]))) 1 scratch
         (fun r completing _ =>
            (let? event := r in is_some event = true) /\
            wrote (dev_rpu completing) event_address = true /\
            wrote (dev_rpu completing) RPU_INTERRUPT_MCU_BIT = true)).

(** ** Boundaries *)

Definition constructor_discard_and_system_init_boundaries_are_exact : Prop :=
  let fresh := Device_new ScriptedBus_default in
  dev_recovery_required fresh = false /\
  (discard_pending_event fresh).1 = false /\
  let config := SystemInitConfig_new [2; 0; 0; 0; 0; 1] (zeros RF_PARAMS_LEN) in
  run r, _ := send_system_init config on test_device ScriptedBus_default in
  r = Err DeviceError.CommandQueueEmpty.

Definition queue_validation_rejects_zero_unaligned_and_sentinel_addresses : Prop :=
  let valid := valid_queues in
  queue_map_is_valid valid = true /\
  let with_event_busy address :=
    mkHpqmInfo (mkHpq address (dequeue_address (event_busy valid))) (event_available valid)
      (command_busy valid) (command_available valid) (rx_buffer_busy valid) in
  queue_map_is_valid (with_event_busy 0) = false /\
  queue_map_is_valid (with_event_busy 5) = false /\
  queue_map_is_valid (with_event_busy 0xaaaaaaaa) = false.

Definition complete_message_length_is_checked : Prop :=
  run r, bytes := encode_host_message HostMessageType.System false [1; 2] on zeros 32 in
  let? count := r in
  (let! prefix := slice bytes 0 count in
   is_ok (@validate_complete_message unit prefix) = true) /\
  (let! prefix := slice bytes 0 (count - 1) in
   is_err (@validate_complete_message unit prefix) = true) /\
  is_err (@validate_complete_message unit (zeros (HOST_MESSAGE_HEADER_LEN - 1))) = true /\
  let too_large := zeros (MAX_STATION_MESSAGE_LEN + 1) in
  let too_large := splice too_large 0 (to_le 4 (len too_large)) in
  is_err (@validate_complete_message unit too_large) = true.

Definition fragment_limits_match_the_pinned_nordic_interface : Prop :=
  run r, device := set_fragment_limits DEFAULT_CONTROL_FRAGMENT_LEN MAX_EVENT_FRAGMENT_LEN
                   on Device_new tt in
  is_ok r = true /\
  run r, device := set_fragment_limits (DEFAULT_CONTROL_FRAGMENT_LEN + 1) MAX_EVENT_FRAGMENT_LEN
                   on device in
  is_err r = true /\
  run r, _ := set_fragment_limits DEFAULT_CONTROL_FRAGMENT_LEN (MAX_EVENT_FRAGMENT_LEN + 1)
              on device in
  is_err r = true.

Definition pending_event_can_be_changed_to_discard : Prop :=
  let device := set_pending_event (Some (mkPendingEvent 2000 1000 true 1 false)) (Device_new tt) in
  let '(discarded, device) := discard_pending_event device in
  discarded = true /\
  pe_discard <$> dev_pending_event device = Some true.

Definition reset_clears_recovery_and_queue_state : Prop :=
  let device := set_recovery_required true (Device_new tt) in
  let device :=
    mkDevice (dev_rpu device) (dev_queues device) (dev_rx_command_base device)
      RPU_MEM_TX_CMD_BASE (dev_command_counter device) (dev_command_fragment_len device)
      (dev_event_fragment_len device) (dev_pending_event device)
      (dev_recovery_required device) in
  let device := reset_queue_state device in
  dev_recovery_required device = false /\
  tx_command_base device = None.

Definition tx_command_area_is_a_fixed_address : Prop := RPU_MEM_TX_CMD_BASE = 0xb00000b8.

(** ** The tests hold *)

Lemma initializes_exact_queue_map_and_command_bases_passes : initializes_exact_queue_map_and_command_bases.
Proof. passes. Qed.
Lemma interrupt_registers_are_enabled_disabled_and_acknowledged_exactly_passes : interrupt_registers_are_enabled_disabled_and_acknowledged_exactly.
Proof. passes. Qed.
Lemma single_fragment_control_distinguishes_empty_and_uncertain_queues_passes : single_fragment_control_distinguishes_empty_and_uncertain_queues.
Proof. passes. Qed.
Lemma reliable_control_waits_fragments_and_marks_partial_timeout_uncertain_passes : reliable_control_waits_fragments_and_marks_partial_timeout_uncertain.
Proof. passes. Qed.
Lemma control_bus_failures_after_dequeue_require_recovery_passes : control_bus_failures_after_dequeue_require_recovery.
Proof. passes. Qed.
Lemma complete_and_missing_events_follow_the_queue_contract_passes : complete_and_missing_events_follow_the_queue_contract.
Proof. passes. Qed.
Lemma malformed_and_oversized_events_are_released_and_bounded_passes : malformed_and_oversized_events_are_released_and_bounded.
Proof. passes. Qed.
Lemma fragmented_events_resume_wait_reject_changed_buffers_and_discard_passes : fragmented_events_resume_wait_reject_changed_buffers_and_discard.
Proof. passes. Qed.
Lemma oversized_fragmented_event_is_discarded_before_the_next_queue_read_passes : oversized_fragmented_event_is_discarded_before_the_next_queue_read.
Proof. passes. Qed.
Lemma pending_fragment_acknowledgement_tracks_actual_queue_removal_passes : pending_fragment_acknowledgement_tracks_actual_queue_removal.
Proof. passes. Qed.
Lemma constructor_discard_and_system_init_boundaries_are_exact_passes : constructor_discard_and_system_init_boundaries_are_exact.
Proof. passes. Qed.
Lemma queue_validation_rejects_zero_unaligned_and_sentinel_addresses_passes : queue_validation_rejects_zero_unaligned_and_sentinel_addresses.
Proof. passes. Qed.
Lemma complete_message_length_is_checked_passes : complete_message_length_is_checked.
Proof. passes. Qed.
Lemma fragment_limits_match_the_pinned_nordic_interface_passes : fragment_limits_match_the_pinned_nordic_interface.
Proof. passes. Qed.
Lemma pending_event_can_be_changed_to_discard_passes : pending_event_can_be_changed_to_discard.
Proof. passes. Qed.
Lemma reset_clears_recovery_and_queue_state_passes : reset_clears_recovery_and_queue_state.
Proof. passes. Qed.
Lemma tx_command_area_is_a_fixed_address_passes : tx_command_area_is_a_fixed_address.
Proof. passes. Qed.
