(* ===== verification/DataTests.v ===== *)
(** * DataTests: the tests of data.rs, on two fake buses *)

From S2P Require Import Prelude Codec Protocol Bus Memory Device Data TestSupport.

(** ** Fakes

    [TestBus] answers reads from a queue, then with zeros, and records every
    access; [FailingBus] fails its reads or one of its writes. *)

Record DataTestBus : Type := mkDataTestBus {
  tb_read_responses : list (list Z);
  tb_reads : list (Z * Z);
  tb_writes : list (Z * list Z) }.

Definition DataTestBus_default : DataTestBus := mkDataTestBus [] [] [].

Definition DataTestBus_read (address : Z) : M (DataTestBus * list Z) unit unit :=
  fun '(bus, data) =>
  let response := default (zeros (len data)) (head (tb_read_responses bus)) in
  let bus := mkDataTestBus (tail (tb_read_responses bus))
               (tb_reads bus ++ [(address, len data)]) (tb_writes bus) in
  if len response =? len data then (Ok tt, (bus, response)) else (Panic, (bus, data)).

Definition DataTestBus_write (address : Z) (data : list Z) : M DataTestBus unit unit :=
  modify (fun bus => mkDataTestBus (tb_read_responses bus) (tb_reads bus)
                       (tb_writes bus ++ [(address, data)])).

#[export] Instance DataTestBus_ops : BusOps DataTestBus unit := {
  bus_read_status _ := mret 0;
  bus_write_status _ _ := mret tt;
  bus_read := DataTestBus_read;
  bus_write := DataTestBus_write }.

Module FailingBusError.
Inductive t : Type := Read | Write.
End FailingBusError.

Record FailingBus : Type := mkFailingBus {
  fail_read : bool;
  fail_write_at : option Z;
  write_attempts : Z }.

Definition FailingBus_read : M (FailingBus * list Z) FailingBusError.t unit := fun '(bus, data) =>
  if fail_read bus then (Err FailingBusError.Read, (bus, data))
  else (Ok tt, (bus, zeros (len data))).

Definition FailingBus_write : M FailingBus FailingBusError.t unit := fun bus =>
  let attempt := write_attempts bus in
  let bus := mkFailingBus (fail_read bus) (fail_write_at bus) (attempt + 1) in
  if bool_decide (fail_write_at bus = Some attempt) then (Err FailingBusError.Write, bus)
  else (Ok tt, bus).

#[export] Instance FailingBus_ops : BusOps FailingBus FailingBusError.t := {
  bus_read_status _ := mret 0;
  bus_write_status _ _ := mret tt;
  bus_read _ := FailingBus_read;
  bus_write _ _ := FailingBus_write }.

(** ** Helpers *)

Definition data_queues : HpqmInfo :=
  mkHpqmInfo (mkHpq 0xa4006004 0xa4006000) (mkHpq 0xa4006014 0xa4006010)
    (mkHpq 0xa4006024 0xa4006020) (mkHpq 0xa4007004 0xa4007000)
    [mkHpq 0xa4006034 0xa4006030; mkHpq 0xa4006044 0xa4006040; mkHpq 0xa4006054 0xa4006050].

(** [device.initialize_for_test(queues(), 0xb000_2000)], for both buses *)
Definition data_device {W} (bus : W) : Device W :=
  set_queue_state (Some data_queues) 0xb0002000 RPU_MEM_TX_CMD_BASE (Device_new bus).

Definition data_message (payload : list Z) : HostMessageRef :=
  mkHostMessageRef false HostMessageType.Data payload.

(** [payload_type as u8] *)
Definition RxPayloadType_to_u8 (x : RxPayloadType.t) : Z :=
  match x with
  | RxPayloadType.Mpdu => 0 | RxPayloadType.MsduWithMac => 1 | RxPayloadType.Msdu => 2
  end.

Definition rx_event_payload (descriptor packet_len payload_type : Z) : list Z :=
  let payload := zeros (RX_EVENT_FIXED_LEN + RX_INFO_LEN) in
  edited payload
    [(0, to_le 4 (DataCommand.to_u32 DataCommand.ReceiveBuffer)); (4, to_le 4 (len payload));
     (13, [1]); (15, [24]); (16, to_le 2 2412); (18, to_le 2 (-42));
     (RX_EVENT_FIXED_LEN, to_le 2 descriptor); (RX_EVENT_FIXED_LEN + 2, to_le 2 packet_len);
     (RX_EVENT_FIXED_LEN + 4, [payload_type])].

Definition ethernet_frame (n : Z) : list Z :=
  edited (zeros n) [(0, [1; 2; 3; 4; 5; 6]); (6, [7; 8; 9; 10; 11; 12]); (12, to_be 2 0x0800)].

(** [path.f(&mut device, ..)] *)
Definition on_pair {W E A} (m : M (DataPath * Device W) (DataError.t E) A)
    (path : DataPath) (device : Device W)
    (P : res (DataError.t E) A -> DataPath -> Device W -> Prop) : Prop :=
  let '(r, (path, device)) := m (path, device) in P r path device.

(** [path.receive_packet(&mut device, &event, 0, &mut output)] *)
Definition receive {W E} `{BusOps W E} (RX : Z) (event : RxEventRef) (path : DataPath)
    (device : Device W) (output : list Z)
    (P : res (DataError.t E) ReceivedFrame -> DataPath -> Device W -> list Z -> Prop) : Prop :=
  let '(r, ((path, device), output)) := receive_packet RX event 0 ((path, device), output) in
  P r path device output.

(** ** Layout *)

Definition packet_ram_layout_does_not_overlap : Prop :=
  let? layout := DataPath_new 8 4 1600 1514 in
  dp_rx_buffer_size layout = 1600 /\
  dp_tx_buffer_size layout = 1514 /\
  rx_slot_address 8 layout 8 = None /\
  tx_slot_address 4 layout 4 = None /\
  (let! last := tx_slot_address 4 layout 3 in
   let tx_end := last + u32 (dp_tx_stride layout) in
   (tx_end <=? dp_rx_base layout) = true) /\
  (let! last := rx_slot_address 8 layout 7 in
   last + u32 (dp_rx_stride layout) = RPU_MEM_PACKET_END + 1).

Definition tx_command_slots_stop_before_packet_data : Prop :=
  MAX_TX_TOKENS = 137 /\
  is_ok (DataPath_new 137 137 1 ETHERNET_HEADER_LEN) = true /\
  DataPath_new 1 138 1 ETHERNET_HEADER_LEN = Err DataLayoutError.InvalidCapacity /\
  DataPath_new 0 1 1 ETHERNET_HEADER_LEN = Err DataLayoutError.InvalidCapacity /\
  DataPath_new 1 0 1 ETHERNET_HEADER_LEN = Err DataLayoutError.InvalidCapacity /\
  DataPath_new 65536 1 1 ETHERNET_HEADER_LEN = Err DataLayoutError.InvalidCapacity /\
  all_of
    [(0, ETHERNET_HEADER_LEN); (1, ETHERNET_HEADER_LEN - 1); (65535 + 1, ETHERNET_HEADER_LEN);
     (1, 65535 + 1)]
    (fun '(rx_size, tx_size) =>
       DataPath_new 1 1 rx_size tx_size = Err DataLayoutError.InvalidCapacity) /\
  DataPath_new 137 137 65535 65535 = Err DataLayoutError.PacketRamExhausted /\
  layout_strides USIZE_MAX 14 = Err DataLayoutError.InvalidCapacity /\
  validated_layout_bytes 2 1 USIZE_MAX 1 = Err DataLayoutError.PacketRamExhausted.

Definition reset_releases_local_ownership_after_rpu_reset : Prop :=
  let? layout := DataPath_new 2 2 1600 1514 in
  let layout := set_tx_in_flight [true; true] layout in
  let layout := set_rx_posted [true; true] layout in
  let layout := set_next_tx 1 layout in
  let layout := reset_after_rpu_reset 2 2 layout in
  dp_tx_in_flight layout = [false; false] /\
  dp_rx_posted layout = [false; false] /\
  dp_next_tx layout = 0.

Definition layout_alignment_and_slot_offsets_are_exact : Prop :=
  map data_align4 [1; 2; 3; 4; 5] = [4; 4; 4; 4; 8] /\
  let? path := DataPath_new 2 3 33 65 in
  rx_slot_address 2 path 1 = Some (dp_rx_base path + u32 (dp_rx_stride path)) /\
  tx_slot_address 3 path 2 = Some (RPU_MEM_PACKET_BASE + 2 * u32 (dp_tx_stride path)).

(** ** Events *)

Definition tx_command_has_exact_packed_layout : Prop :=
  let frame := edited (zeros ETHERNET_HEADER_LEN)
    [(0, [1; 2; 3; 4; 5; 6]); (6, [7; 8; 9; 10; 11; 12]); (12, to_be 2 0x0800)] in
  let? command := @encode_tx_command unit 0 2 frame 7 0x5000 in
  @Codec.read_u32 unit command 0 = Ok TX_COMMAND_TOTAL_LEN /\
  @Codec.read_u32 unit command 12 = Ok (DataCommand.to_u32 DataCommand.TransmitBuffer) /\
  nthZ command 20 = Some 0 /\
  nthZ command 21 = Some 2 /\
  @Codec.read_u16 unit command 40 = Ok 0x0800 /\
  @Codec.read_u16 unit command 53 = Ok ETHERNET_HEADER_LEN /\
  @Codec.read_u32 unit command 55 = Ok 0x5000 /\
  nthZ command 52 = Some 1.

(** A transmit-done payload: declared length, token, status count, statuses. *)
Definition tx_done_payload (declared token status_count : Z) (statuses : list Z) : list Z :=
  edited (zeros (TX_DONE_FIXED_LEN + len statuses))
    [(0, to_le 4 (DataCommand.to_u32 DataCommand.TransmitDone)); (4, to_le 4 declared);
     (8, [token]); (9, [status_count]); (TX_DONE_FIXED_LEN, statuses)].

Definition rx_and_tx_event_parsers_reject_every_invalid_boundary : Prop :=
  all_of [0; 1; 2] (fun value =>
    let? payload_type := RxPayloadType.from_u8 value in
    RxPayloadType_to_u8 payload_type = value) /\
  RxPayloadType.from_u8 3 = Err (DataProtocolError.InvalidRxPayloadType 3) /\
  let payload := rx_event_payload 7 100 (RxPayloadType_to_u8 RxPayloadType.Msdu) in
  (let? event := RxEventRef_parse (data_message payload) in
   rx_packet_count event = 1 /\
   RxEventRef_packet event 0 = Ok (mkRxPacketInfo 7 100 RxPayloadType.Msdu) /\
   RxEventRef_packet event 1 = Err DataProtocolError.InvalidPacketIndex) /\
  (let two_packets := zeros (RX_EVENT_FIXED_LEN + 2 * RX_INFO_LEN) in
   let second := RX_EVENT_FIXED_LEN + RX_INFO_LEN in
   let two_packets := edited two_packets
     [(0, to_le 4 (DataCommand.to_u32 DataCommand.ReceiveBuffer));
      (4, to_le 4 (len two_packets)); (13, [2]); (second, to_le 2 9);
      (second + 2, to_le 2 321);
      (second + 4, [RxPayloadType_to_u8 RxPayloadType.MsduWithMac])] in
   let? event := RxEventRef_parse (data_message two_packets) in
   RxEventRef_packet event 1 = Ok (mkRxPacketInfo 9 321 RxPayloadType.MsduWithMac)) /\
  (let invalid_type := splice payload (RX_EVENT_FIXED_LEN + 4) [3] in
   let? event := RxEventRef_parse (data_message invalid_type) in
   RxEventRef_packet event 0 = Err (DataProtocolError.InvalidRxPayloadType 3)) /\
  RxEventRef_parse (mkHostMessageRef false HostMessageType.System payload)
    = Err DataProtocolError.WrongMessageType /\
  (let! short := slice payload 0 (RX_EVENT_FIXED_LEN - 1) in
   RxEventRef_parse (data_message short) = Err DataProtocolError.InvalidLength) /\
  (let wrong_command := splice payload 0 (to_le 4 99) in
   RxEventRef_parse (data_message wrong_command) = Err (DataProtocolError.InvalidCommand 99)) /\
  all_of [RX_EVENT_FIXED_LEN - 1; len payload + 1; RX_EVENT_FIXED_LEN] (fun declared =>
    let invalid := splice payload 4 (to_le 4 declared) in
    RxEventRef_parse (data_message invalid) = Err DataProtocolError.InvalidLength) /\
  (let tx := tx_done_payload (TX_DONE_FIXED_LEN + 2) 4 2 [0; 0] in
   let? event := TxDoneEventRef_parse (data_message tx) in all_succeeded event = true) /\
  (let tx := tx_done_payload (TX_DONE_FIXED_LEN + 2) 4 2 [1; 0] in
   let? event := TxDoneEventRef_parse (data_message tx) in all_succeeded event = false) /\
  (let tx := tx_done_payload TX_DONE_FIXED_LEN 4 0 [1; 0] in
   let? event := TxDoneEventRef_parse (data_message tx) in all_succeeded event = false) /\
  (let tx := tx_done_payload (TX_DONE_FIXED_LEN + 1) 4 0 [1; 0] in
   TxDoneEventRef_parse (data_message tx) = Err DataProtocolError.InvalidLength).

Definition classifies_every_data_event_and_rejects_bad_headers : Prop :=
  classify_data_event (data_message (tx_done_payload (TX_DONE_FIXED_LEN + 1) 3 1 [0]))
    = Ok (DataEvent.TransmitDone 3 1) /\
  all_of
    [(DataCommand.to_u32 DataCommand.ReceiveBuffer, DataEvent.Receive); (99, DataEvent.Other 99)]
    (fun '(command, expected) =>
       let payload := edited (zeros 8) [(0, to_le 4 command); (4, to_le 4 8)] in
       classify_data_event (data_message payload) = Ok expected) /\
  all_of
    [(DataCommand.to_u32 DataCommand.CarrierOn, DataEvent.CarrierOn 7);
     (DataCommand.to_u32 DataCommand.CarrierOff, DataEvent.CarrierOff 7)]
    (fun '(command, expected) =>
       let payload :=
         edited (zeros 12) [(0, to_le 4 command); (4, to_le 4 12); (8, to_le 4 7)] in
       classify_data_event (data_message payload) = Ok expected /\
       let payload := splice payload 4 (to_le 4 8) in
       classify_data_event (data_message payload) = Err DataProtocolError.InvalidLength) /\
  classify_data_event (mkHostMessageRef false HostMessageType.System (zeros 8))
    = Err DataProtocolError.WrongMessageType /\
  classify_data_event (data_message (zeros 7)) = Err DataProtocolError.InvalidLength /\
  all_of [7; 9] (fun declared =>
    let payload := splice (zeros 8) 4 (to_le 4 declared) in
    classify_data_event (data_message payload) = Err DataProtocolError.InvalidLength).

Definition classifies_data_message : Prop :=
  let payload := edited (zeros 12)
    [(0, to_le 4 (DataCommand.to_u32 DataCommand.CarrierOn)); (4, to_le 4 12); (8, to_le 4 1)] in
  run r, message := encode_host_message HostMessageType.Data true payload on zeros 32 in
  let? len := r in
  let! prefix := slice message 0 len in
  let? parsed := parse_host_message prefix in
  classify_data_event parsed = Ok (DataEvent.CarrierOn 1).

Definition tx_done_status_array_is_validated : Prop :=
  let payload := tx_done_payload (TX_DONE_FIXED_LEN + 1) 3 1 [0] in
  run r, message := encode_host_message HostMessageType.Data true payload on zeros 64 in
  let? len := r in
  let! prefix := slice message 0 len in
  let? parsed := parse_host_message prefix in
  let? event := TxDoneEventRef_parse parsed in
  td_token event = 3 /\
  all_succeeded event = true.

(** ** Conversion *)

Definition converts_from_ds_mpdu_to_ethernet : Prop :=
  let frame := edited (zeros 64)
    [(0, to_le 2 0x0208); (4, replicate 6 1); (10, replicate 6 2); (16, replicate 6 3);
     (24, [0xaa; 0xaa; 3; 0; 0; 0; 0x08; 0x00]); (32, [9; 8; 7; 6])] in
  let! raw := slice frame 0 36 in
  run r, raw := convert_mpdu 24 on raw in
  let frame := splice frame 0 raw in
  r = Ok 18 /\
  slice frame 0 6 = Some (replicate 6 1) /\
  slice frame 6 12 = Some (replicate 6 3) /\
  slice frame 12 14 = Some [0x08; 0x00] /\
  slice frame 14 18 = Some [9; 8; 7; 6].

Definition converts_four_address_mpdu_to_ethernet : Prop :=
  let frame := edited (zeros 64)
    [(0, to_le 2 0x0308); (4, replicate 6 1); (10, replicate 6 2); (16, replicate 6 3);
     (24, replicate 6 4); (30, [0xaa; 0xaa; 3; 0; 0; 0; 0x08; 0x00]); (38, [9; 8; 7; 6])] in
  let! raw := slice frame 0 42 in
  run r, raw := convert_mpdu 30 on raw in
  let frame := splice frame 0 raw in
  r = Ok 18 /\
  slice frame 0 6 = Some (replicate 6 3) /\
  slice frame 6 12 = Some (replicate 6 4) /\
  slice frame 12 14 = Some [0x08; 0x00] /\
  slice frame 14 18 = Some [9; 8; 7; 6].

Definition converts_all_address_modes_and_msdu_payloads : Prop :=
  all_of
    [(0x0000, replicate 6 1, replicate 6 2); (0x0100, replicate 6 3, replicate 6 2);
     (0x0200, replicate 6 1, replicate 6 3)]
    (fun '(flags, destination, source) =>
       let frame := edited (zeros 40)
         [(0, to_le 2 flags); (4, replicate 6 1); (10, replicate 6 2); (16, replicate 6 3);
          (24, [0xaa; 0xaa; 3; 0; 0; 0; 0x08; 0x06]); (32, [9; 8])] in
       let! raw := slice frame 0 34 in
       run r, raw := convert_to_ethernet RxPayloadType.Mpdu 24 on raw in
       let frame := splice frame 0 raw in
       r = Ok 16 /\
       slice frame 0 6 = Some destination /\
       slice frame 6 12 = Some source /\
       slice frame 12 14 = Some [0x08; 0x06]) /\
  all_of
    [(RxPayloadType.Msdu, 0, 0); (RxPayloadType.MsduWithMac, 4, 4)]
    (fun '(payload_type, mac_header_len, amsdu) =>
       let llc := amsdu + 14 in
       let frame := edited (zeros 40)
         [(amsdu, replicate 6 1); (amsdu + 6, replicate 6 2);
          (llc, [0xaa; 0xaa; 3; 0; 0; 0; 0x08; 0x00]); (llc + 8, [7; 6])] in
       let raw_len := llc + 10 in
       let! raw := slice frame 0 raw_len in
       run r, raw := convert_to_ethernet payload_type mac_header_len on raw in
       let frame := splice frame 0 raw in
       r = Ok 16 /\
       slice frame 0 6 = Some (replicate 6 1) /\
       slice frame 6 12 = Some (replicate 6 2) /\
       slice frame 14 16 = Some [7; 6]) /\
  llc_skip 0x80f3 = 8 /\
  llc_skip 0x8137 = 8 /\
  llc_skip 0x0600 = 8 /\
  llc_skip 0x05ff = 2.

Definition conversion_rejects_every_short_or_expanding_frame : Prop :=
  (convert_mpdu 23 (zeros 30)).1 = Err DataProtocolError.FrameTooShort /\
  (convert_mpdu 24 (zeros 25)).1 = Err DataProtocolError.FrameTooShort /\
  ieee80211_addresses (zeros 23) 0 = Err DataProtocolError.FrameTooShort /\
  ieee80211_addresses (zeros 29) 0x0300 = Err DataProtocolError.FrameTooShort /\
  (convert_msdu 0 (zeros 15)).1 = Err DataProtocolError.FrameTooShort /\
  (convert_msdu 4 (zeros 17)).1 = Err DataProtocolError.FrameTooShort /\
  llc_ether_type (zeros 8) USIZE_MAX = Err DataProtocolError.InvalidLength /\
  llc_ether_type (zeros 7) 0 = Err DataProtocolError.FrameTooShort /\
  (rebuild_ethernet 11 (zeros 6) (zeros 6) 0 (zeros 10)).1
    = Err DataProtocolError.FrameTooShort /\
  (rebuild_ethernet 2 (zeros 6) (zeros 6) 0 (zeros 20)).1 = Err DataProtocolError.FrameTooLarge.

(** ** Receive *)

Definition posts_receives_and_reposts_an_rx_descriptor : Prop :=
  let raw := edited (zeros 36)
    [(0, to_le 2 0x0208); (4, replicate 6 1); (10, replicate 6 2); (16, replicate 6 3);
     (24, [0xaa; 0xaa; 3; 0; 0; 0; 0x08; 0x00]); (32, [9; 8; 7; 6])] in
  let bus := mkDataTestBus [raw] [] [] in
  let? path := DataPath_new 2 2 1600 1514 in
  on_pair (post_all_rx 2) path (data_device bus) (fun r path device =>
    is_ok r = true /\
    dp_rx_posted path = [true; true] /\
    let payload :=
      rx_event_payload 0 (u16 (len raw)) (RxPayloadType_to_u8 RxPayloadType.Mpdu) in
    let? event := RxEventRef_parse (data_message payload) in
    receive 2 event path device (zeros 64) (fun r path device output =>
      r = Ok (mkReceivedFrame 18 0x0800 0 (-42) 2412) /\
      slice output 0 6 = Some (replicate 6 1) /\
      slice output 6 12 = Some (replicate 6 3) /\
      nthZ (dp_rx_posted path) 0 = Some true /\
      on_pair (post_rx 2 0 0) path device (fun r path device =>
        r = Err (DataError.ReceiveDescriptorBusy 0) /\
        on_pair (post_rx 2 2 0) path device (fun r path device =>
          r = Err (DataError.Protocol (DataProtocolError.InvalidDescriptor 2)) /\
          let path := set_rx_posted (set_flag (dp_rx_posted path) 1 false) path in
          on_pair (post_rx 2 1 3) path device (fun r path device =>
            r = Err (DataError.Protocol (DataProtocolError.InvalidDescriptor 1)) /\
            let! slot := rx_slot_address 2 path 0 in
            let? offset := host_offset Processor.Lmac (slot + RX_BUFFER_HEADROOM) in
            tb_reads (dev_rpu device) = [(offset, len raw)]))))).

Definition rx_descriptor_offsets_and_addresses_are_exact : Prop :=
  let payload := rx_event_payload 1 16 (RxPayloadType_to_u8 RxPayloadType.Msdu) in
  let? event := RxEventRef_parse (data_message payload) in
  let? path := DataPath_new 1 1 64 64 in
  (run r, _ := @take_rx_descriptor 1 unit event 0 on path in
   r = Err (DataError.Protocol (DataProtocolError.InvalidDescriptor 1))) /\
  let slot := RPU_MEM_PACKET_BASE + 0x100 in
  let command_base := 0xb0002000 in
  on_pair (prepare_rx_descriptor slot command_base 2) path (data_device DataTestBus_default)
    (fun r _ device =>
       r = Ok (command_base + 2 * RX_COMMAND_SLOT_SIZE) /\
       let expected_dma :=
         to_le 4 (Z.land (slot + RX_BUFFER_HEADROOM) RPU_ADDR_MASK_OFFSET) in
       contains (map snd (tb_writes (dev_rpu device))) expected_dma = true).

Definition receive_capacity_errors_repost_the_descriptor : Prop :=
  let payload := rx_event_payload 0 36 (RxPayloadType_to_u8 RxPayloadType.Mpdu) in
  let? event := RxEventRef_parse (data_message payload) in
  let? path := DataPath_new 1 1 32 64 in
  on_pair (post_all_rx 1) path (data_device DataTestBus_default) (fun r path device =>
    r = Ok tt /\
    receive 1 event path device (zeros 64) (fun r path device _ =>
      r = Err (DataError.Protocol DataProtocolError.FrameTooLarge) /\
      nthZ (dp_rx_posted path) 0 = Some true /\
      let? path := DataPath_new 1 1 64 64 in
      on_pair (post_all_rx 1) path device (fun r path device =>
        r = Ok tt /\
        receive 1 event path device (zeros 20) (fun r path _ _ =>
          r = Err (DataError.OutputTooSmall 36 20) /\
          nthZ (dp_rx_posted path) 0 = Some true)))).

Definition receive_read_failure_reposts_the_descriptor : Prop :=
  let? path := DataPath_new 1 1 64 64 in
  on_pair (post_all_rx 1) path (data_device (mkFailingBus true None 0)) (fun r path device =>
    r = Ok tt /\
    let payload := rx_event_payload 0 32 (RxPayloadType_to_u8 RxPayloadType.Mpdu) in
    let? event := RxEventRef_parse (data_message payload) in
    receive 1 event path device (zeros 64) (fun r path _ _ =>
      r = Err (DataError.Rpu (RpuError.Bus FailingBusError.Read)) /\
      dp_rx_posted path = [true])).

(** ** Transmit *)

(** The command word of a written message; false where the write is too short
    for [read_u32]. *)
Definition writes_command (data : list Z) : bool :=
  match @Codec.read_u32 unit data HOST_MESSAGE_HEADER_LEN with
  | Ok value => value =? DataCommand.to_u32 DataCommand.TransmitBuffer
  | _ => false
  end.

(** What [any] looks for among the writes after four transmissions. *)
Definition transmitted_writes (path : DataPath) (frame : list Z) (writes : list (Z * list Z))
    : Prop :=
  let! head := slice frame 0 12 in
  let! rest := slice frame 12 15 in
  let tail := rest ++ [0] in
  contains (map snd writes) head = true /\
  contains (map snd writes) tail = true /\
  (let! slot := tx_slot_address 2 path 0 in
   let? tail_address := host_offset Processor.Umac (slot + Z.ldiff (len frame) 3) in
   contains writes (tail_address, tail) = true) /\
  existsb (fun w => (len w.2 =? Z.ldiff TX_COMMAND_TOTAL_LEN 3) && writes_command w.2) writes
    = true /\
  (let command_queue_host :=
     Z.land (enqueue_address (command_busy data_queues)) RPU_ADDR_MASK_OFFSET in
   contains (map fst writes) command_queue_host = true) /\
  (let? second_command :=
     host_offset Processor.Umac (RPU_MEM_TX_CMD_BASE + TX_COMMAND_SLOT_SIZE) in
   existsb (fun w => (w.1 =? second_command) && writes_command w.2) writes = true).

Definition transmit_cycles_tokens_and_writes_tail_command_and_trigger : Prop :=
  let frame := ethernet_frame 15 in
  let? path := DataPath_new 1 2 64 64 in
  on_pair (transmit 2 4 frame 7) path (data_device DataTestBus_default) (fun r path device =>
    r = Ok 0 /\
    dp_next_tx path = 1 /\
    on_pair (transmit 2 4 frame 7) path device (fun r path device =>
      r = Ok 1 /\
      dp_next_tx path = 0 /\
      on_pair (transmit 2 4 frame 7) path device (fun r path device =>
        r = Err DataError.NoTransmitToken /\
        run r, path := complete_tx 2 0 on path in
        r = Ok tt /\
        on_pair (transmit 2 4 frame 7) path device (fun r path device =>
          r = Ok 0 /\
          dp_next_tx path = 1 /\
          run r, path := complete_tx 2 2 on path in
          r = Err (DataProtocolError.InvalidDescriptor 2) /\
          run r, path := complete_tx 2 1 on path in
          r = Ok tt /\
          run r, path := complete_tx 2 1 on path in
          r = Err (DataProtocolError.InvalidDescriptor 1) /\
          transmitted_writes path frame (tb_writes (dev_rpu device)))))).

Definition transmit_validation_does_not_consume_tokens : Prop :=
  let? path := DataPath_new 1 1 64 14 in
  on_pair (transmit 1 0 (zeros 13) 0) path (data_device DataTestBus_default)
    (fun r path device =>
       r = Err (DataError.Protocol DataProtocolError.FrameTooShort) /\
       on_pair (transmit 1 0 (zeros 15) 0) path device (fun r path _ =>
         r = Err (DataError.Protocol DataProtocolError.FrameTooLarge) /\
         dp_tx_in_flight path = [false] /\
         on_pair (post_rx 1 0 0) path (Device_new DataTestBus_default) (fun r _ _ =>
           r = Err (DataError.Device DeviceError.NotInitialized)))).

Definition packet_and_command_write_failures_release_the_reserved_token : Prop :=
  let frame := ethernet_frame 16 in
  let? path := DataPath_new 1 1 64 64 in
  on_pair (transmit 1 0 frame 0) path (data_device (mkFailingBus false (Some 0) 0))
    (fun r path _ =>
       r = Err (DataError.Rpu (RpuError.Bus FailingBusError.Write)) /\
       dp_tx_in_flight path = [false] /\
       on_pair (transmit 1 0 frame 0) path (data_device (mkFailingBus false (Some 1) 0))
         (fun r path _ =>
            r = Err (DataError.Rpu (RpuError.Bus FailingBusError.Write)) /\
            dp_tx_in_flight path = [false])).

(** ** The tests hold *)

Lemma packet_ram_layout_does_not_overlap_passes : packet_ram_layout_does_not_overlap.
Proof. passes. Qed.
Lemma tx_command_slots_stop_before_packet_data_passes : tx_command_slots_stop_before_packet_data.
Proof. passes. Qed.
Lemma reset_releases_local_ownership_after_rpu_reset_passes : reset_releases_local_ownership_after_rpu_reset.
Proof. passes. Qed.
Lemma layout_alignment_and_slot_offsets_are_exact_passes : layout_alignment_and_slot_offsets_are_exact.
Proof. passes. Qed.
Lemma tx_command_has_exact_packed_layout_passes : tx_command_has_exact_packed_layout.
Proof. passes. Qed.
Lemma rx_and_tx_event_parsers_reject_every_invalid_boundary_passes : rx_and_tx_event_parsers_reject_every_invalid_boundary.
Proof. passes. Qed.
Lemma classifies_every_data_event_and_rejects_bad_headers_passes : classifies_every_data_event_and_rejects_bad_headers.
Proof. passes. Qed.
Lemma classifies_data_message_passes : classifies_data_message.
Proof. passes. Qed.
Lemma tx_done_status_array_is_validated_passes : tx_done_status_array_is_validated.
Proof. passes. Qed.
Lemma converts_from_ds_mpdu_to_ethernet_passes : converts_from_ds_mpdu_to_ethernet.
Proof. passes. Qed.
Lemma converts_four_address_mpdu_to_ethernet_passes : converts_four_address_mpdu_to_ethernet.
Proof. passes. Qed.
Lemma converts_all_address_modes_and_msdu_payloads_passes : converts_all_address_modes_and_msdu_payloads.
Proof. passes. Qed.
Lemma conversion_rejects_every_short_or_expanding_frame_passes : conversion_rejects_every_short_or_expanding_frame.
Proof. passes. Qed.
Lemma posts_receives_and_reposts_an_rx_descriptor_passes : posts_receives_and_reposts_an_rx_descriptor.
Proof. passes. Qed.
Lemma rx_descriptor_offsets_and_addresses_are_exact_passes : rx_descriptor_offsets_and_addresses_are_exact.
Proof. passes. Qed.
Lemma receive_capacity_errors_repost_the_descriptor_passes : receive_capacity_errors_repost_the_descriptor.
Proof. passes. Qed.
Lemma receive_read_failure_reposts_the_descriptor_passes : receive_read_failure_reposts_the_descriptor.
Proof. passes. Qed.
Lemma transmit_cycles_tokens_and_writes_tail_command_and_trigger_passes : transmit_cycles_tokens_and_writes_tail_command_and_trigger.
Proof. passes. Qed.
Lemma transmit_validation_does_not_consume_tokens_passes : transmit_validation_does_not_consume_tokens.
Proof. passes. Qed.
Lemma packet_and_command_write_failures_release_the_reserved_token_passes : packet_and_command_write_failures_release_the_reserved_token.
Proof. passes. Qed.
