(* ===== verification/FirmwareTests.v ===== *)
(** * FirmwareTests: the tests of firmware.rs, with SHA-256 itself *)

From S2P Require Import Prelude Crypto Codec Protocol Bus Memory Firmware TestSupport Primitives.

#[local] Existing Instance real_sha256.

(** ** The fake bus

    The processors wait where they should, and the boot signatures read as the
    test asks; writes are recorded.  The calls of the delay are counted in the
    same state. *)

Record FirmwareBus : Type := mkFirmwareBus {
  fw_writes : list (Z * list Z);
  boot_ready : bool;
  fw_delay_calls : Z }.

Definition FirmwareBus_read (address : Z) : M (FirmwareBus * list Z) unit unit := fun '(bus, data) =>
  let answer :=
    lmac_wait ← host_offset Processor.Lmac RPU_REG_MIPS_MCU_WAIT_STATUS;
    umac_wait ← host_offset Processor.Lmac RPU_REG_MIPS_MCU2_WAIT_STATUS;
    lmac_signature ← host_offset Processor.Lmac RPU_MEM_LMAC_BOOT_SIG;
    umac_signature ← host_offset Processor.Umac RPU_MEM_UMAC_BOOT_SIG;
    let value :=
      if (address =? lmac_wait) || (address =? umac_wait) then 1
      else if boot_ready bus && ((address =? lmac_signature) || (address =? umac_signature))
      then BOOT_SIGNATURE
      else 0 in
    expect (slice (to_le 4 value) 0 (len data)) in
  match answer with
  | Ok bytes => (Ok tt, (bus, bytes))
  | _ => (Panic, (bus, data))
  end.

Definition FirmwareBus_write (address : Z) (data : list Z) : M FirmwareBus unit unit :=
  modify (fun bus =>
    mkFirmwareBus (fw_writes bus ++ [(address, data)]) (boot_ready bus) (fw_delay_calls bus)).

#[export] Instance FirmwareBus_ops : BusOps FirmwareBus unit := {
  bus_read_status _ := mret 0;
  bus_write_status _ _ := mret tt;
  bus_read := FirmwareBus_read;
  bus_write := FirmwareBus_write }.
#[export] Instance FirmwareBus_delay : DelayOps FirmwareBus := {
  delay_ms _ bus := mkFirmwareBus (fw_writes bus) (boot_ready bus) (fw_delay_calls bus + 1) }.

(** Four images of one byte, whose byte is the kind. *)
Definition test_bundle_bytes : list Z :=
  let payload :=
    concat (map (fun kind => to_le 4 kind ++ to_le 4 1 ++ [kind]) [0; 1; 2; 3]) in
  to_le 4 PATCH_SIGNATURE ++ to_le 4 PATCH_IMAGE_COUNT ++ to_le 4 PINNED_PATCH_VERSION
  ++ to_le 4 FEATURE_SYSTEM_MODE ++ to_le 4 (len payload) ++ sha256 payload ++ payload.

(** ** Parsing and verification *)

Definition parses_and_verifies_all_images : Prop :=
  let bytes := test_bundle_bytes in
  let? bundle := FirmwareBundle_parse bytes in
  verify_hash bundle = Ok tt /\
  fb_bytes bundle = bytes /\
  fh_version (fb_header bundle) = PINNED_PATCH_VERSION /\
  all_of
    [(ImageKind.UmacPrimary, 0, (Processor.Umac, RPU_MEM_UMAC_PATCH_BIMG));
     (ImageKind.UmacSecondary, 1, (Processor.Umac, RPU_MEM_UMAC_PATCH_BIN));
     (ImageKind.LmacPrimary, 2, (Processor.Lmac, RPU_MEM_LMAC_PATCH_BIMG));
     (ImageKind.LmacSecondary, 3, (Processor.Lmac, RPU_MEM_LMAC_PATCH_BIN))]
    (fun '(kind, expected, destination) =>
       (let? image := image bundle kind in fi_data image = [expected]) /\
       ImageKind.destination kind = destination /\
       ImageKind.from_u32 (ImageKind.to_u32 kind) = Ok kind) /\
  ImageKind.from_u32 4 = Err (FirmwareError.InvalidImageType 4).

Definition rejects_every_fixed_header_mismatch : Prop :=
  (let! short := slice test_bundle_bytes 0 (PATCH_HEADER_LEN - 1) in
   FirmwareBundle_parse short = Err FirmwareError.TruncatedHeader) /\
  all_of
    [(0, 0, FirmwareError.BadSignature 0); (4, 3, FirmwareError.BadImageCount 3);
     (8, 0, FirmwareError.IncompatibleVersion 0);
     (12, FEATURE_SYSTEM_WITH_RAW, FirmwareError.IncompatibleFeatures FEATURE_SYSTEM_WITH_RAW)]
    (fun '(offset, replacement, expected) =>
       let bytes := splice test_bundle_bytes offset (to_le 4 replacement) in
       FirmwareBundle_parse bytes = Err expected).

Definition rejects_truncated_repeated_and_trailing_images : Prop :=
  let bundle_bytes := test_bundle_bytes in
  (let! short_header := slice bundle_bytes 0 (PATCH_HEADER_LEN + IMAGE_HEADER_LEN - 1) in
   let payload_len := len short_header - PATCH_HEADER_LEN in
   let short_header := splice short_header 16 (to_le 4 payload_len) in
   FirmwareBundle_parse short_header = Err FirmwareError.TruncatedImage) /\
  (let short_body := splice bundle_bytes (PATCH_HEADER_LEN + 4) (to_le 4 (2 ^ 32 - 1)) in
   FirmwareBundle_parse short_body = Err FirmwareError.TruncatedImage) /\
  (let repeated := splice bundle_bytes (PATCH_HEADER_LEN + 9) (to_le 4 0) in
   FirmwareBundle_parse repeated = Err (FirmwareError.InvalidImageType 0)) /\
  (let trailing := bundle_bytes ++ [0xaa] in
   let payload_len := len trailing - PATCH_HEADER_LEN in
   let trailing := splice trailing 16 (to_le 4 payload_len) in
   FirmwareBundle_parse trailing = Err FirmwareError.LengthMismatch).

Definition detects_modified_payload : Prop :=
  let at_ := PATCH_HEADER_LEN + IMAGE_HEADER_LEN in
  let! byte := nthZ test_bundle_bytes at_ in
  let bytes := splice test_bundle_bytes at_ [Z.lxor byte 0x80] in
  let? bundle := FirmwareBundle_parse bytes in
  verify_hash bundle = Err FirmwareError.HashMismatch.

Definition externally_pinned_digest_accepts_exact_file : Prop :=
  let? bundle := FirmwareBundle_parse test_bundle_bytes in
  PinnedFirmwareSha256_verify (full_sha256 bundle) bundle = Ok tt.

Definition rejects_a_raw_mode_bundle : Prop :=
  let bytes := splice test_bundle_bytes 12 (to_le 4 FEATURE_SYSTEM_WITH_RAW) in
  FirmwareBundle_parse bytes = Err (FirmwareError.IncompatibleFeatures FEATURE_SYSTEM_WITH_RAW).

Definition rejects_bytes_after_the_declared_payload : Prop :=
  let original := test_bundle_bytes in
  let bytes := splice (zeros (PATCH_HEADER_LEN + 4 * IMAGE_HEADER_LEN + 5)) 0 original in
  FirmwareBundle_parse bytes = Err FirmwareError.LengthMismatch.

Definition external_digest_covers_header_not_only_payload : Prop :=
  let original := test_bundle_bytes in
  let? original_bundle := FirmwareBundle_parse original in
  let policy := PinnedFirmwareSha256_verify (full_sha256 original_bundle) in
  let substituted := splice original 12 (to_le 4 FEATURE_SYSTEM_WITH_RAW) in
  FirmwareBundle_parse substituted
    = Err (FirmwareError.IncompatibleFeatures FEATURE_SYSTEM_WITH_RAW) /\
  policy original_bundle = Ok tt.

(** ** Loading *)

Definition loads_images_and_programs_both_exact_boot_configs : Prop :=
  ProcessorOperation.stage ProcessorOperation.Reset Processor.Lmac
    = LoadStage.Reset Processor.Lmac /\
  ProcessorOperation.stage ProcessorOperation.Boot Processor.Umac
    = LoadStage.Boot Processor.Umac /\
  let? bundle := FirmwareBundle_parse test_bundle_bytes in
  let trust := PinnedFirmwareSha256_verify (full_sha256 bundle) in
  run r, bus := load trust bundle on mkFirmwareBus [] true 0 in
  r = Ok (mkFirmwareReport PINNED_PATCH_VERSION FEATURE_SYSTEM_MODE) /\
  fw_delay_calls bus = 0 /\
  all_of
    [(Processor.Umac, RPU_MEM_UMAC_PATCH_BIMG, 0); (Processor.Umac, RPU_MEM_UMAC_PATCH_BIN, 1);
     (Processor.Lmac, RPU_MEM_LMAC_PATCH_BIMG, 2); (Processor.Lmac, RPU_MEM_LMAC_PATCH_BIN, 3)]
    (fun '(processor, address, expected) =>
       let? host := host_offset processor address in
       contains (fw_writes bus) (host, [expected; 0; 0; 0]) = true) /\
  all_of
    [(RPU_REG_UCC_SLEEP_CTRL_DATA_0, 0x0000bbc0); (RPU_REG_UCC_SLEEP_CTRL_DATA_1, 0x0001b800)]
    (fun '(address, expected) =>
       let? host := host_offset Processor.Lmac address in
       contains (fw_writes bus) (host, to_le 4 expected) = true).

Definition boot_signature_wait_is_bounded : Prop :=
  run r, bus := boot_processor Processor.Lmac on mkFirmwareBus [] false 0 in
  r = Err RpuError.Timeout /\
  fw_delay_calls bus = 100.

(** ** The tests hold *)

Lemma parses_and_verifies_all_images_passes : parses_and_verifies_all_images.
Proof. passes. Qed.
Lemma rejects_every_fixed_header_mismatch_passes : rejects_every_fixed_header_mismatch.
Proof. passes. Qed.
Lemma rejects_truncated_repeated_and_trailing_images_passes : rejects_truncated_repeated_and_trailing_images.
Proof. passes. Qed.
Lemma detects_modified_payload_passes : detects_modified_payload.
Proof. passes. Qed.
Lemma externally_pinned_digest_accepts_exact_file_passes : externally_pinned_digest_accepts_exact_file.
Proof. passes. Qed.
Lemma rejects_a_raw_mode_bundle_passes : rejects_a_raw_mode_bundle.
Proof. passes. Qed.
Lemma rejects_bytes_after_the_declared_payload_passes : rejects_bytes_after_the_declared_payload.
Proof. passes. Qed.
Lemma external_digest_covers_header_not_only_payload_passes : external_digest_covers_header_not_only_payload.
Proof. passes. Qed.
Lemma loads_images_and_programs_both_exact_boot_configs_passes : loads_images_and_programs_both_exact_boot_configs.
Proof. passes. Qed.
Lemma boot_signature_wait_is_bounded_passes : boot_signature_wait_is_bounded.
Proof. passes. Qed.
