(* ===== verification/StationTests.v ===== *)
(** * StationTests: the tests of station.rs

    Most of them set the fields of a controller and call one handler; the
    commands run on the empty bus and a device without queues. *)

From Stdlib Require Import Strings.String.
From S2P Require Import Prelude Codec Protocol Control Bus Memory Device Data Station TestSupport.
#[local] Open Scope Z_scope.

(** ** Helpers *)

Definition event_header (command_event : Z) : UmacHeader :=
  mkUmacHeader 0 1 command_event 0 (Z.lor ID_IFACE_VALID ID_WDEV_VALID) 1 0 7.

Definition station_1_0_7 : StationController := StationController_new 1 0 7.

(** [StationController::prepare_security_for_test] *)
Definition prepare_security_for_test (peer : list Z) (c : StationController) : StationController :=
  let c := set_interface_created true c in
  let c := transition StationState.Securing c in
  let c := set_last_fault None c in
  let c := set_peer (Some peer) c in
  let c := set_secure_connection true c in
  let c := set_controlled_port_authorized false c in
  let c := set_carrier_on false c in
  let c := set_pending_command None c in
  set_pending_return_state None c.

(** [StationController::prepare_connected_for_test] *)
Definition prepare_connected_for_test (peer : list Z) (c : StationController) : StationController :=
  let c := prepare_security_for_test peer c in
  let c := set_controlled_port_authorized true c in
  let c := set_carrier_on true c in
  transition StationState.Connected c.

(** A handler on a controller, with [()] for the error of the bus. *)
Definition handle {A} (m : M StationController (StationError.t unit) A) (c : StationController)
    (P : res (StationError.t unit) A -> StationController -> Prop) : Prop :=
  let '(r, c) := m c in P r c.

(** A command on a controller and a device without queues. *)
Definition command {A} (m : M (StationController * Device unit) (StationError.t unit) A)
    (c : StationController) (P : res (StationError.t unit) A -> Prop) : Prop :=
  P (m (c, Device_new tt)).1.

(** [matches!(r, Err(StationError::Fault(pattern)))] *)
Definition faults {A} (r : res (StationError.t unit) A) (P : StationFault.t -> Prop) : Prop :=
  match r with Err (StationError.Fault fault) => P fault | _ => False end.
Definition rejected_with {A} (r : res (StationError.t unit) A) (status : Z) : Prop :=
  faults r (fun fault =>
    match fault with StationFault.CommandRejected _ s => s = status | _ => False end).

Definition empty_mlme (header : UmacHeader) : MlmeEvent :=
  mkMlmeEvent header 0 0 0 0 0 (zeros 6) [] [].

(** ** Interface and connection *)

Definition interface_creation_requires_the_firmware_event : Prop :=
  let station := set_state StationState.InterfaceCreatePending station_1_0_7 in
  let station := set_pending_command (Some UmacCommand.NewInterface) station in
  handle (handle_control_event
            (ControlEvent.CommandStatus (event_header (UmacEvent.to_u32 UmacEvent.CommandStatus))
               (UmacCommand.to_u32 UmacCommand.NewInterface) 0)) station (fun r station =>
    r = Ok tt /\
    sc_interface_created station = false /\
    sc_state station = StationState.InterfaceCreatePending /\
    handle (handle_control_event
              (ControlEvent.Other (event_header (UmacEvent.to_u32 UmacEvent.NewInterface)) []))
      station (fun r station =>
      r = Ok tt /\
      sc_interface_created station = true /\
      sc_state station = StationState.Down)).

Definition firmware_default_interface_is_claimed_without_a_command : Prop :=
  handle claim_firmware_default_interface (StationController_new 1 0 0) (fun r station =>
    r = Ok true /\
    sc_interface_created station = true /\
    sc_state station = StationState.Down /\
    sc_pending_command station = None) /\
  handle claim_firmware_default_interface (StationController_new 2 1 1) (fun r _ =>
    r = Ok false).

Definition secure_connection_needs_authorization_and_carrier : Prop :=
  let peer := [1; 2; 3; 4; 5; 6] in
  let station := set_interface_created true station_1_0_7 in
  let station := set_state StationState.Associating station in
  let station := set_peer (Some peer) station in
  let station := set_secure_connection true station in
  let frame := edited (zeros 30) [(16, peer); (26, to_le 2 0)] in
  let event :=
    mkMlmeEvent (event_header (UmacCommand.to_u32 UmacCommand.Associate)) MLME_FRAME_VALID 2412
      (-40) 0 0 peer frame [] in
  handle (handle_control_event (ControlEvent.Association event)) station (fun r station =>
    r = Ok tt /\
    sc_state station = StationState.Securing /\
    handle (handle_data_event (DataEvent.CarrierOn 7)) station (fun r station =>
      r = Ok tt /\
      sc_state station = StationState.Securing /\
      let station := set_state StationState.Authorizing station in
      let station := set_pending_command (Some UmacCommand.SetStation) station in
      handle (handle_control_event
                (ControlEvent.CommandStatus
                   (event_header (UmacEvent.to_u32 UmacEvent.CommandStatus))
                   (UmacCommand.to_u32 UmacCommand.SetStation) 0)) station (fun r station =>
        r = Ok tt /\
        sc_state station = StationState.Connected /\
        controlled_port_open station = true))).

Definition authentication_peer_comes_from_the_management_frame : Prop :=
  let peer := [1; 2; 3; 4; 5; 6] in
  let station := set_state StationState.Authenticating station_1_0_7 in
  let station := set_pending_command (Some UmacCommand.Authenticate) station in
  let station := set_peer (Some peer) station in
  let frame := edited (zeros 30) [(10, peer); (28, to_le 2 0)] in
  let event :=
    mkMlmeEvent (event_header (UmacEvent.to_u32 UmacEvent.Authenticate)) MLME_FRAME_VALID 2412
      (-40) 0 0 (zeros 6) frame [] in
  handle (handle_control_event (ControlEvent.Authentication event)) station (fun r station =>
    r = Ok tt /\
    sc_state station = StationState.Authenticated).

Definition command_failure_is_fail_closed : Prop :=
  let station := set_state StationState.Authenticating station_1_0_7 in
  let station := set_pending_command (Some UmacCommand.Authenticate) station in
  handle (handle_control_event
            (ControlEvent.CommandStatus (event_header (UmacEvent.to_u32 UmacEvent.CommandStatus))
               (UmacCommand.to_u32 UmacCommand.Authenticate) 5)) station (fun r station =>
    is_err r = true /\
    sc_state station = StationState.Fault).

Definition event_for_another_interface_is_rejected : Prop :=
  let station := set_state StationState.Authenticating station_1_0_7 in
  let station := set_pending_command (Some UmacCommand.Authenticate) station in
  let other :=
    mkUmacHeader 0 1 (UmacEvent.to_u32 UmacEvent.CommandStatus) 0
      (Z.lor ID_IFACE_VALID ID_WDEV_VALID) 2 0 7 in
  handle (handle_control_event
            (ControlEvent.CommandStatus other (UmacCommand.to_u32 UmacCommand.Authenticate) 0))
    station (fun r station =>
    is_err r = true /\
    sc_last_fault station
      = Some (StationFault.InterfaceMismatch (Z.lor ID_IFACE_VALID ID_WDEV_VALID) 1 2 7 7)).

(** ** Deadlines *)

Definition pending_station_state_has_a_bounded_deadline : Prop :=
  let station := transition StationState.Authenticating station_1_0_7 in
  sc_remaining_ms station = Some 5000 /\
  run r, station := advance_time 4999 on station in
  r = Ok tt /\
  run r, station := advance_time 1 on station in
  r = Err (StationFault.Timeout StationState.Authenticating) /\
  sc_state station = StationState.Fault.

Definition association_allows_bounded_access_point_reconnect_delay : Prop :=
  let station := transition StationState.Associating station_1_0_7 in
  sc_remaining_ms station = Some 20000 /\
  run r, station := advance_time 19999 on station in
  r = Ok tt /\
  run r, station := advance_time 1 on station in
  r = Err (StationFault.Timeout StationState.Associating) /\
  sc_state station = StationState.Fault.

Definition every_pending_state_has_its_exact_timeout : Prop :=
  let station := station_1_0_7 in
  all_of
    [(StationState.Down, None); (StationState.InterfaceCreatePending, Some 5000);
     (StationState.Idle, None); (StationState.RegulatoryPending, Some 5000);
     (StationState.InterfaceUpPending, Some 5000); (StationState.Scanning, Some 30000);
     (StationState.ScanComplete, Some 10000); (StationState.ReadingScanResults, Some 10000);
     (StationState.Authenticating, Some 5000); (StationState.Authenticated, Some 10000);
     (StationState.Associating, Some 20000); (StationState.Securing, Some 10000);
     (StationState.Authorizing, Some 5000); (StationState.AwaitingCarrier, Some 5000);
     (StationState.Connected, None); (StationState.PowerSavePending, Some 5000);
     (StationState.Disconnecting, Some 5000); (StationState.InterfaceDownPending, Some 5000);
     (StationState.Recovering, None); (StationState.Fault, None)]
    (fun '(state, expected) => timeout_for station state = expected) /\
  let d := StationTimeouts_DEFAULT in
  let zero :=
    mkStationTimeouts (regulatory_ms d) (interface_ms d) 0 (scan_complete_ms d)
      (scan_results_ms d) (authentication_ms d) (authenticated_ms d) (association_ms d)
      (key_exchange_ms d) (authorization_ms d) (carrier_ms d) (power_save_ms d)
      (disconnect_ms d) in
  timeout_for (controller_set_timeouts zero station) StationState.Scanning = Some 1.

(** ** Links and rekeying *)

Definition connected_secure_station_accepts_group_rekey_eapol : Prop :=
  let station := set_interface_created true station_1_0_7 in
  let station := set_peer (Some [1; 2; 3; 4; 5; 6]) station in
  let station := set_secure_connection true station in
  let station := set_controlled_port_authorized true station in
  let station := set_carrier_on true station in
  let station := transition StationState.Connected station in
  eapol_required station = true.

Definition group_rekey_restores_only_an_authorized_secure_link : Prop :=
  let peer := [1; 2; 3; 4; 5; 6] in
  let connected := prepare_connected_for_test peer station_1_0_7 in
  let connected := transition StationState.Securing connected in
  sc_state (complete_group_rekey connected) = StationState.Connected /\
  let waiting := prepare_connected_for_test peer station_1_0_7 in
  let waiting := set_carrier_on false waiting in
  let waiting := transition StationState.Securing waiting in
  sc_state (complete_group_rekey waiting) = StationState.AwaitingCarrier /\
  let rejected := prepare_security_for_test peer station_1_0_7 in
  let rejected := complete_group_rekey rejected in
  sc_state rejected = StationState.Fault /\
  sc_last_fault rejected = Some StationFault.UnexpectedEvent.

Definition new_station_starts_fail_closed_and_link_predicates_require_every_input : Prop :=
  let station := station_1_0_7 in
  sc_state station = StationState.Down /\
  sc_interface_created station = false /\
  sc_peer station = None /\
  sc_secure_connection station = false /\
  sc_controlled_port_authorized station = false /\
  sc_carrier_on station = false /\
  controlled_port_open station = false /\
  eapol_required station = false /\
  let station := set_state StationState.Connected station in
  let station := set_controlled_port_authorized true station in
  let station := set_carrier_on true station in
  controlled_port_open station = true /\
  let station := set_controlled_port_authorized false station in
  controlled_port_open station = false /\
  let station := set_controlled_port_authorized true station in
  let station := set_carrier_on false station in
  controlled_port_open station = false /\
  let station := set_carrier_on true station in
  let station := set_state StationState.AwaitingCarrier station in
  controlled_port_open station = false /\
  let station := set_secure_connection false station in
  let station := set_state StationState.Securing station in
  eapol_required station = false /\
  let station := set_secure_connection true station in
  all_of
    [StationState.Securing; StationState.Authorizing; StationState.AwaitingCarrier;
     StationState.Connected]
    (fun state => eapol_required (set_state state station) = true) /\
  eapol_required (set_state StationState.Idle station) = false.

Definition recovery_clears_every_firmware_owned_link_flag : Prop :=
  let peer := [1; 2; 3; 4; 5; 6] in
  let station := set_interface_created true station_1_0_7 in
  let station := prepare_connected_for_test peer station in
  let station := set_pending_command (Some UmacCommand.SetPowerSave) station in
  let station := set_pending_return_state (Some StationState.Connected) station in
  let station := begin_recovery station in
  sc_state station = StationState.Recovering /\
  sc_interface_created station = false /\
  sc_peer station = None /\
  sc_secure_connection station = false /\
  sc_controlled_port_authorized station = false /\
  sc_carrier_on station = false /\
  sc_pending_command station = None /\
  sc_pending_return_state station = None /\
  let station := set_interface_created true station in
  let station := prepare_connected_for_test peer station in
  let station := set_last_fault (Some StationFault.CarrierLost) station in
  let station := recovery_complete station in
  sc_state station = StationState.Down /\
  sc_interface_created station = false /\
  sc_peer station = None /\
  sc_secure_connection station = false /\
  sc_controlled_port_authorized station = false /\
  sc_carrier_on station = false /\
  sc_last_fault station = None.

(** ** Handlers *)

Definition interface_state_events_cover_up_down_rejection_and_wrong_state : Prop :=
  (let up := set_state StationState.InterfaceUpPending station_1_0_7 in
   let up := set_pending_command (Some UmacCommand.SetInterfaceFlags) up in
   handle (handle_interface_state 0) up (fun r up =>
     r = Ok tt /\
     sc_state up = StationState.Idle /\
     sc_pending_command up = None)) /\
  (let down := prepare_connected_for_test (replicate 6 1) station_1_0_7 in
   let down := set_state StationState.InterfaceDownPending down in
   handle (handle_interface_state 0) down (fun r down =>
     r = Ok tt /\
     sc_state down = StationState.Down /\
     sc_peer down = None /\
     sc_interface_created down = true)) /\
  handle (handle_interface_state (-2)) (set_state StationState.InterfaceUpPending station_1_0_7)
    (fun r _ => r = Err (StationError.Fault (StationFault.CommandRejected
       (UmacCommand.to_u32 UmacCommand.SetInterfaceFlags) 0xfffffffe))) /\
  handle (handle_interface_state 0) station_1_0_7
    (fun r _ => r = Err (StationError.Fault StationFault.UnexpectedEvent)) /\
  let routed := set_state StationState.InterfaceUpPending station_1_0_7 in
  handle (handle_status_control_event (ControlEvent.InterfaceState
            (event_header (UmacEvent.to_u32 UmacEvent.InterfaceFlagsStatus)) 0)) routed
    (fun r routed =>
       r = Ok tt /\
       sc_state routed = StationState.Idle /\
       let routed := set_state StationState.RegulatoryPending routed in
       let routed := set_pending_return_state (Some StationState.Idle) routed in
       handle (handle_status_control_event
                 (ControlEvent.RegulatoryChange (event_header 289) (b "US"))) routed
         (fun r routed =>
            r = Ok tt /\
            sc_state routed = StationState.Idle /\
            handle (handle_status_control_event (ControlEvent.ScanDone
                      (event_header (UmacEvent.to_u32 UmacEvent.ScanDone)) 0 0)) routed
              (fun r _ => is_err r = true))).

Definition scan_handlers_cover_completion_rejection_streaming_and_routing : Prop :=
  (let station := set_state StationState.Scanning station_1_0_7 in
   let station := set_pending_command (Some UmacCommand.TriggerScan) station in
   handle (handle_scan_done 0) station (fun r station =>
     r = Ok tt /\
     sc_state station = StationState.ScanComplete)) /\
  handle (handle_scan_done 5) (set_state StationState.Scanning station_1_0_7)
    (fun r _ => rejected_with r 5) /\
  handle (handle_scan_done 0) station_1_0_7
    (fun r _ => r = Err (StationError.Fault StationFault.UnexpectedEvent)) /\
  (let results := set_state StationState.ReadingScanResults station_1_0_7 in
   let results := set_pending_command (Some UmacCommand.GetScanResults) results in
   handle (handle_scan_result 1) results (fun r results =>
     r = Ok tt /\
     sc_state results = StationState.ReadingScanResults /\
     handle (handle_scan_result 0) results (fun r results =>
       r = Ok tt /\
       sc_state results = StationState.Idle /\
       sc_pending_command results = None))) /\
  handle (handle_scan_control_event
            (ControlEvent.ScanDone (event_header (UmacEvent.to_u32 UmacEvent.ScanDone)) 0 0))
    (set_state StationState.Scanning station_1_0_7) (fun r _ => r = Ok tt) /\
  handle (handle_scan_control_event (ControlEvent.Other (event_header 0) [])) station_1_0_7
    (fun r _ => is_err r = true).

Definition disconnect_events_are_idempotent_and_validate_the_peer_frame : Prop :=
  let empty := empty_mlme (event_header (UmacEvent.to_u32 UmacEvent.Deauthenticate)) in
  handle (handle_disconnect_event empty) station_1_0_7 (fun r station =>
    r = Ok tt /\
    let peer := [1; 2; 3; 4; 5; 6] in
    let frame := splice (zeros 16) 10 peer in
    let event := mkMlmeEvent (mlme_header empty) MLME_FRAME_VALID 0 0 0 0 (zeros 6) frame [] in
    let station := prepare_connected_for_test peer station in
    handle (handle_disconnect_event event) station (fun r station =>
      r = Ok tt /\
      sc_state station = StationState.Idle /\
      sc_peer station = None /\
      let station := prepare_connected_for_test peer station in
      handle (handle_disconnect_event empty) station (fun r station =>
        is_err r = true /\
        sc_state station = StationState.Fault))).

Definition interface_creation_events_reject_errors_and_allow_one_duplicate : Prop :=
  let new_interface := event_header (UmacEvent.to_u32 UmacEvent.NewInterface) in
  let failed :=
    mkUmacHeader 0 1 (command_event new_interface) (-3) (valid_ids new_interface) 1 0 7 in
  handle (handle_interface_created failed) station_1_0_7
    (fun r _ => rejected_with r 0xfffffffd) /\
  handle (handle_interface_created new_interface) (set_interface_created true station_1_0_7)
    (fun r _ => is_ok r = true) /\
  handle (handle_interface_created new_interface) station_1_0_7
    (fun r _ => r = Err (StationError.Fault StationFault.UnexpectedEvent)).

Definition successful_command_statuses_apply_only_the_matching_transition : Prop :=
  all_of [UmacCommand.NewKey; UmacCommand.DeleteKey; UmacCommand.SetKey] (fun command =>
    handle (apply_successful_command (UmacCommand.to_u32 command))
      (set_state StationState.Connected station_1_0_7) (fun _ station =>
      sc_state station = StationState.Securing)) /\
  (let authorized := set_state StationState.Authorizing station_1_0_7 in
   let authorized := set_carrier_on true authorized in
   handle (apply_successful_command (UmacCommand.to_u32 UmacCommand.SetStation)) authorized
     (fun _ authorized =>
        sc_controlled_port_authorized authorized = true /\
        sc_state authorized = StationState.Connected)) /\
  all_of [UmacCommand.SetPowerSave; UmacCommand.SetPowerSaveTimeout] (fun command =>
    let station := set_state StationState.PowerSavePending station_1_0_7 in
    let station := set_pending_return_state (Some StationState.Connected) station in
    handle (apply_successful_command (UmacCommand.to_u32 command)) station (fun _ station =>
      sc_state station = StationState.Connected /\
      sc_pending_return_state station = None)) /\
  handle (apply_successful_command (UmacCommand.to_u32 UmacCommand.GetWiphy)) station_1_0_7
    (fun _ unchanged => sc_state unchanged = StationState.Down).

Definition carrier_off_is_safe_before_connection_and_fails_closed_after_connection : Prop :=
  (let idle := set_state StationState.Idle station_1_0_7 in
   let idle := set_carrier_on true idle in
   handle (handle_carrier_off 7) idle (fun r idle =>
     r = Ok tt /\
     sc_carrier_on idle = false /\
     sc_state idle = StationState.Idle)) /\
  let connected := prepare_connected_for_test (replicate 6 1) station_1_0_7 in
  handle (handle_carrier_off 7) connected (fun r connected =>
    r = Err (StationError.Fault StationFault.CarrierLost) /\
    sc_state connected = StationState.Fault /\
    controlled_port_open connected = false).

(** ** Commands *)

Definition key_commands_distinguish_group_and_peer_requirements_before_io : Prop :=
  let group := mkKeyConfig 0x000fac04 KeyType.Group 1 (replicate 16 0x11) [] 0 in
  let pairwise := mkKeyConfig 0x000fac04 KeyType.Pairwise 1 (replicate 16 0x11) [] 0 in
  let station := set_state StationState.Securing station_1_0_7 in
  command (key_command UmacCommand.NewKey group) station
    (fun r => r = Err (StationError.Device DeviceError.NotInitialized)) /\
  command (key_command UmacCommand.NewKey pairwise) station
    (fun r => r = Err (StationError.Fault StationFault.PeerMismatch)) /\
  command (key_command UmacCommand.NewKey pairwise) (set_peer (Some (replicate 6 1)) station)
    (fun r => r = Err (StationError.Device DeviceError.NotInitialized)).

Definition association_rejects_a_request_for_any_peer_other_than_authenticated_peer : Prop :=
  let authenticated_peer := [1; 2; 3; 4; 5; 6] in
  let request := mkAssociationRequest 2412 [6; 5; 4; 3; 2; 1] (b "test") None 0 None 0 in
  let station := set_state StationState.Authenticated station_1_0_7 in
  let station := set_peer (Some authenticated_peer) station in
  command (associate request) station
    (fun r => r = Err (StationError.Fault StationFault.PeerMismatch)).

Definition power_save_timeout_rejects_negative_values_but_encodes_zero : Prop :=
  let station := set_state StationState.Idle station_1_0_7 in
  command (set_power_save_timeout (-1)) station
    (fun r => r = Err (StationError.Protocol (ProtocolError.InvalidValue (2 ^ 32 - 1)))) /\
  command (set_power_save_timeout 0) station
    (fun r => r = Err (StationError.Device DeviceError.NotInitialized)).

(** ** Exact predicates *)

Definition interface_creation_and_default_status_require_the_complete_predicate : Prop :=
  let new_interface := UmacCommand.to_u32 UmacCommand.NewInterface in
  let created := event_header (UmacEvent.to_u32 UmacEvent.NewInterface) in
  handle (handle_interface_created created)
    (set_pending_command (Some UmacCommand.NewInterface) station_1_0_7)
    (fun r _ => r = Err (StationError.Fault StationFault.UnexpectedEvent)) /\
  handle (handle_interface_created created)
    (set_state StationState.InterfaceCreatePending station_1_0_7)
    (fun r _ => r = Err (StationError.Fault StationFault.UnexpectedEvent)) /\
  all_of
    [(new_interface, true, None, true);
     (UmacCommand.to_u32 UmacCommand.GetWiphy, true, None, false);
     (new_interface, false, None, false);
     (new_interface, true, Some UmacCommand.SetPowerSave, false)]
    (fun '(command, created, pending, expected) =>
       let station := set_interface_created created station_1_0_7 in
       let station := set_pending_command pending station in
       is_default_interface_status station command = expected) /\
  handle (handle_command_status new_interface 0) (set_interface_created true station_1_0_7)
    (fun r default =>
       is_ok r = true /\
       handle (handle_command_status new_interface 9) default (fun r _ =>
         r = Err (StationError.Fault (StationFault.CommandRejected new_interface 9)))).

Definition successful_status_transition_requires_both_command_and_state : Prop :=
  handle (apply_successful_command (UmacCommand.to_u32 UmacCommand.SetStation))
    (set_state StationState.Securing station_1_0_7) (fun _ wrong_authorize_state =>
    sc_state wrong_authorize_state = StationState.Securing /\
    sc_controlled_port_authorized wrong_authorize_state = false) /\
  handle (apply_successful_command (UmacCommand.to_u32 UmacCommand.SetPowerSave))
    (set_pending_return_state (Some StationState.Idle)
       (set_state StationState.Connected station_1_0_7)) (fun _ wrong_power_state =>
    sc_state wrong_power_state = StationState.Connected /\
    sc_pending_return_state wrong_power_state = Some StationState.Idle) /\
  handle (apply_successful_command (UmacCommand.to_u32 UmacCommand.SetStation))
    (set_pending_return_state (Some StationState.Idle)
       (set_state StationState.PowerSavePending station_1_0_7)) (fun _ wrong_power_command =>
    sc_state wrong_power_command = StationState.PowerSavePending /\
    sc_pending_return_state wrong_power_command = Some StationState.Idle).

(** A header with the given validity mask and identifiers. *)
Definition identified (valid_ids ifaceindex wdev_id : Z) : UmacHeader :=
  mkUmacHeader 0 1 0 0 valid_ids ifaceindex 0 wdev_id.

Definition header_identifiers_are_checked_only_when_valid_and_match_exactly : Prop :=
  handle (check_header (identified 0 99 99)) station_1_0_7 (fun r station =>
    is_ok r = true /\
    handle (check_header (identified (Z.lor ID_IFACE_VALID ID_WDEV_VALID) 1 7)) station
      (fun r station =>
         is_ok r = true /\
         handle (check_header (identified ID_IFACE_VALID 1 99)) station (fun r station =>
           is_ok r = true /\
           handle (check_header (identified ID_WDEV_VALID 1 99)) station (fun r _ =>
             faults r (fun fault =>
               match fault with
               | StationFault.InterfaceMismatch _ _ _ expected_wdev_id actual_wdev_id =>
                   expected_wdev_id = 7 /\ actual_wdev_id = 99
               | _ => False
               end))))).

Definition mlme_status_honors_timeout_header_validity_and_exact_frame_offsets : Prop :=
  let status event := @mlme_status unit event 4 in
  let header := event_header 0 in
  let ignored_frame := [0; 0; 0; 0; 0x34; 0x12] in
  status (mkMlmeEvent header 0 0 0 MLME_TIMED_OUT 0 (zeros 6) [] [])
    = Err (StationError.Fault StationFault.MlmeTimeout) /\
  (let rejected_header := mkUmacHeader 0 1 0 (-3) (valid_ids header) 1 0 7 in
   status (empty_mlme rejected_header) = Ok 0xfffd) /\
  status (mkMlmeEvent header 0 0 0 0 0 (zeros 6) ignored_frame []) = Ok 0 /\
  status (mkMlmeEvent header MLME_FRAME_VALID 0 0 0 0 (zeros 6) ignored_frame []) = Ok 0x1234 /\
  let! short := slice ignored_frame 0 5 in
  status (mkMlmeEvent header MLME_FRAME_VALID 0 0 0 0 (zeros 6) short [])
    = Err (StationError.Fault StationFault.UnexpectedEvent).

(** ** The tests hold *)

Lemma interface_creation_requires_the_firmware_event_passes : interface_creation_requires_the_firmware_event.
Proof. passes. Qed.
Lemma firmware_default_interface_is_claimed_without_a_command_passes : firmware_default_interface_is_claimed_without_a_command.
Proof. passes. Qed.
Lemma secure_connection_needs_authorization_and_carrier_passes : secure_connection_needs_authorization_and_carrier.
Proof. passes. Qed.
Lemma authentication_peer_comes_from_the_management_frame_passes : authentication_peer_comes_from_the_management_frame.
Proof. passes. Qed.
Lemma command_failure_is_fail_closed_passes : command_failure_is_fail_closed.
Proof. passes. Qed.
Lemma event_for_another_interface_is_rejected_passes : event_for_another_interface_is_rejected.
Proof. passes. Qed.
Lemma pending_station_state_has_a_bounded_deadline_passes : pending_station_state_has_a_bounded_deadline.
Proof. passes. Qed.
Lemma association_allows_bounded_access_point_reconnect_delay_passes : association_allows_bounded_access_point_reconnect_delay.
Proof. passes. Qed.
Lemma every_pending_state_has_its_exact_timeout_passes : every_pending_state_has_its_exact_timeout.
Proof. passes. Qed.
Lemma connected_secure_station_accepts_group_rekey_eapol_passes : connected_secure_station_accepts_group_rekey_eapol.
Proof. passes. Qed.
Lemma group_rekey_restores_only_an_authorized_secure_link_passes : group_rekey_restores_only_an_authorized_secure_link.
Proof. passes. Qed.
Lemma new_station_starts_fail_closed_and_link_predicates_require_every_input_passes : new_station_starts_fail_closed_and_link_predicates_require_every_input.
Proof. passes. Qed.
Lemma recovery_clears_every_firmware_owned_link_flag_passes : recovery_clears_every_firmware_owned_link_flag.
Proof. passes. Qed.
Lemma interface_state_events_cover_up_down_rejection_and_wrong_state_passes : interface_state_events_cover_up_down_rejection_and_wrong_state.
Proof. passes. Qed.
Lemma scan_handlers_cover_completion_rejection_streaming_and_routing_passes : scan_handlers_cover_completion_rejection_streaming_and_routing.
Proof. passes. Qed.
Lemma disconnect_events_are_idempotent_and_validate_the_peer_frame_passes : disconnect_events_are_idempotent_and_validate_the_peer_frame.
Proof. passes. Qed.
Lemma interface_creation_events_reject_errors_and_allow_one_duplicate_passes : interface_creation_events_reject_errors_and_allow_one_duplicate.
Proof. passes. Qed.
Lemma successful_command_statuses_apply_only_the_matching_transition_passes : successful_command_statuses_apply_only_the_matching_transition.
Proof. passes. Qed.
Lemma carrier_off_is_safe_before_connection_and_fails_closed_after_connection_passes : carrier_off_is_safe_before_connection_and_fails_closed_after_connection.
Proof. passes. Qed.
Lemma key_commands_distinguish_group_and_peer_requirements_before_io_passes : key_commands_distinguish_group_and_peer_requirements_before_io.
Proof. passes. Qed.
Lemma association_rejects_a_request_for_any_peer_other_than_authenticated_peer_passes : association_rejects_a_request_for_any_peer_other_than_authenticated_peer.
Proof. passes. Qed.
Lemma power_save_timeout_rejects_negative_values_but_encodes_zero_passes : power_save_timeout_rejects_negative_values_but_encodes_zero.
Proof. passes. Qed.
Lemma interface_creation_and_default_status_require_the_complete_predicate_passes : interface_creation_and_default_status_require_the_complete_predicate.
Proof. passes. Qed.
Lemma successful_status_transition_requires_both_command_and_state_passes : successful_status_transition_requires_both_command_and_state.
Proof. passes. Qed.
Lemma header_identifiers_are_checked_only_when_valid_and_match_exactly_passes : header_identifiers_are_checked_only_when_valid_and_match_exactly.
Proof. passes. Qed.
Lemma mlme_status_honors_timeout_header_validity_and_exact_frame_offsets_passes : mlme_status_honors_timeout_header_validity_and_exact_frame_offsets.
Proof. passes. Qed.
