(* ===== verification/RuntimeTests.v ===== *)
(** * RuntimeTests: the tests of runtime.rs *)

From Stdlib Require Import Strings.String.
From S2P Require Import Prelude Crypto Codec Protocol Control System Bus Memory Device Data Firmware Station Runtime TestSupport Primitives ProtocolTests FirmwareTests StationTests.
#[local] Open Scope Z_scope.

#[local] Existing Instance real_sha256.

Definition MAC : list Z := [2; 0; 0; 0; 0; 1].

(** ** The fake bus and platform, as one state *)

Record RuntimeBus : Type := mkRuntimeBus {
  rb_reads : list Z;
  rb_writes : list (Z * list Z);
  fail_hard_reset : bool;
  hard_reset_calls : Z }.

Definition RuntimeBus_default : RuntimeBus := mkRuntimeBus [] [] false 0.

Definition RuntimeBus_read : M (RuntimeBus * list Z) unit unit := fun '(bus, data) =>
  let value := to_le 4 (default 0 (head (rb_reads bus))) in
  let bus :=
    mkRuntimeBus (tail (rb_reads bus)) (rb_writes bus) (fail_hard_reset bus)
      (hard_reset_calls bus) in
  match slice value 0 (len data) with
  | Some bytes => (Ok tt, (bus, bytes))
  | None => (Panic, (bus, data))
  end.

Definition RuntimeBus_write (address : Z) (data : list Z) : M RuntimeBus unit unit :=
  modify (fun bus => mkRuntimeBus (rb_reads bus) (rb_writes bus ++ [(address, data)])
                       (fail_hard_reset bus) (hard_reset_calls bus)).

Definition TestPlatform_hard_reset : M RuntimeBus unit unit := fun bus =>
  let bus := mkRuntimeBus (rb_reads bus) (rb_writes bus) (fail_hard_reset bus)
               (hard_reset_calls bus + 1) in
  if fail_hard_reset bus then (Err tt, bus) else (Ok tt, bus).

#[export] Instance RuntimeBus_ops : BusOps RuntimeBus unit := {
  bus_read_status _ := mret 0;
  bus_write_status _ _ := mret tt;
  bus_read _ := RuntimeBus_read;
  bus_write := RuntimeBus_write }.
#[export] Instance NoDelay : DelayOps RuntimeBus := { delay_ms _ bus := bus }.
#[export] Instance TestPlatform : PlatformOps RuntimeBus unit := {
  hard_reset := TestPlatform_hard_reset;
  prepare_wake_bus := mret tt;
  prepare_data_bus := mret tt;
  platform_wait_for_interrupt := mret tt }.

(** ** Helpers *)

(** [make_driver] and [test_bus_driver], and the rest of the test. *)
Definition make_driver {W} (bus : W) (P : NativeDriver W -> Prop) : Prop :=
  let? driver := NativeDriver_new 1 1 bus 64 64 1 0 0 in P driver.

Definition valid_config : SystemInitConfig :=
  let config := SystemInitConfig_new MAC (zeros RF_PARAMS_LEN) in
  with_resources config (mkRxPoolConfig 64 1 :: tail (cfg_rx_pools config)) (cfg_data config).

Definition host_message (message_type : HostMessageType.t) (payload : list Z) : HostMessageRef :=
  mkHostMessageRef false message_type payload.

Definition data_payload (n command : Z) : list Z :=
  edited (zeros n) [(0, to_le 4 command); (4, to_le 4 n)].

Definition received (ether_type : Z) : ReceivedFrame := mkReceivedFrame 14 ether_type 0 (-40) 2412.

(** A call on the driver, over the bus of the state. *)
Definition drive {W A} (m : M (NativeDriver W) (DriverError.t unit) A) (driver : NativeDriver W)
    (P : res (DriverError.t unit) A -> NativeDriver W -> Prop) : Prop :=
  let '(r, driver) := m driver in P r driver.

Definition dispatch (message_type : HostMessageType.t) (payload : list Z)
    (driver : NativeDriver unit)
    (P : res (DriverError.t unit) DriverEvent.t -> NativeDriver unit -> Prop) : Prop :=
  drive (dispatch_message 1 (host_message message_type payload)) driver P.

(** The payload of a system event without body. *)
Definition system_event_payload (id : Z) : list Z :=
  edited (zeros SYSTEM_HEADER_LEN) [(0, to_le 4 id); (4, to_le 4 SYSTEM_HEADER_LEN)].

(** ** Dispatch *)

Definition init_done_moves_runtime_to_ready : Prop :=
  make_driver tt (fun driver =>
    let driver := set_driver_state DriverState.WaitingForSystemInit driver in
    let payload := system_event_payload (SystemEventId.to_u32 SystemEventId.InitDone) in
    run r, bytes := encode_host_message HostMessageType.System true payload on zeros 32 in
    let? len := r in
    let! prefix := slice bytes 0 len in
    let? message := parse_host_message prefix in
    drive (dispatch_message 1 message) driver (fun r driver =>
      is_ok r = true /\
      nd_state driver = DriverState.Ready /\
      sc_state (nd_station driver) = StationState.Down)).

Definition system_events_are_state_checked_and_other_events_are_preserved : Prop :=
  make_driver tt (fun driver =>
    let payload := system_event_payload (SystemEventId.to_u32 SystemEventId.DeinitDone) in
    dispatch HostMessageType.System payload driver (fun r driver =>
      r = Err (DriverError.UnexpectedEventForState DriverState.Cold) /\
      nd_state driver = DriverState.Recovering)) /\
  make_driver tt (fun driver =>
    dispatch HostMessageType.System (system_event_payload 999) driver (fun r driver =>
      match r with Ok (DriverEvent.System (SystemEvent.Other 999 _)) => True | _ => False end /\
      nd_state driver = DriverState.Cold)).

Definition control_data_and_supplicant_dispatch_cover_success_and_fail_closed_paths : Prop :=
  make_driver tt (fun driver =>
    let supplicant := [1; 2; 3] in
    dispatch HostMessageType.Supplicant supplicant driver (fun r driver =>
      match r with Err (DriverError.InvalidState _ _) => True | _ => False end /\
      let driver := set_driver_state DriverState.Ready driver in
      dispatch HostMessageType.Supplicant supplicant driver (fun r driver =>
        r = Ok (DriverEvent.Supplicant [1; 2; 3]) /\
        dispatch HostMessageType.Umac (zeros UMAC_HEADER_LEN) driver (fun r driver =>
          match r with
          | Ok (DriverEvent.Control (ControlEvent.Other _ _)) => True | _ => False end /\
          dispatch HostMessageType.Data (data_payload 8 99) driver (fun r driver =>
            r = Ok (DriverEvent.Data (DataEvent.Other 99)) /\
            dispatch HostMessageType.Data (data_payload 24 3) driver (fun r driver =>
              match r with Ok (DriverEvent.Receive _) => True | _ => False end /\
              let done_ := splice (data_payload 23 2) 9 [1] in
              dispatch HostMessageType.Data done_ driver (fun r driver =>
                match r with Err (DriverError.DataProtocol _) => True | _ => False end /\
                let mismatched_carrier := splice (data_payload 12 4) 8 (to_le 4 1) in
                dispatch HostMessageType.Data mismatched_carrier driver (fun r driver =>
                  match r with
                  | Err (DriverError.Station (StationError.Fault _)) => True | _ => False end /\
                  nd_state driver = DriverState.Recovering)))))))).

(** ** Frames *)

Definition receive_policy_checks_interface_and_controlled_port_after_data_copy : Prop :=
  make_driver tt (fun driver =>
    let event_bytes := data_payload 24 3 in
    let? event := RxEventRef_parse (host_message HostMessageType.Data event_bytes) in
    drive (validate_received_frame event (received 0x0800)) driver (fun r driver =>
      match r with Err (DriverError.ControlledPortClosed _ 0x0800) => True | _ => False end /\
      let driver := set_station (prepare_security_for_test MAC (nd_station driver)) driver in
      drive (validate_received_frame event (received EAPOL_ETHERTYPE)) driver (fun r driver =>
        r = Ok (received EAPOL_ETHERTYPE) /\
        let wrong_interface := splice (data_payload 24 3) 12 [1] in
        let? event := RxEventRef_parse (host_message HostMessageType.Data wrong_interface) in
        drive (validate_received_frame event (received EAPOL_ETHERTYPE)) driver (fun r driver =>
          r = Err (DriverError.WrongInterface 0 1) /\
          nd_state driver = DriverState.Recovering)))).

Definition transmit_rejects_wrong_interface_short_frames_and_closed_port : Prop :=
  make_driver tt (fun driver =>
    drive (driver_transmit 1 1 (zeros 14) 0) driver (fun r driver =>
      r = Err (DriverError.WrongInterface 0 1) /\
      drive (driver_transmit 1 0 (zeros 13) 0) driver (fun r driver =>
        r = Err DriverError.FrameTooShort /\
        drive (driver_transmit 1 0 (zeros 14) 0) driver (fun r _ =>
          match r with Err (DriverError.ControlledPortClosed _ _) => True | _ => False end)))) /\
  @ethernet_type unit (zeros 13) = None /\
  @ethernet_type unit (splice (zeros 14) 12 (to_be 2 0x0800)) = Some (Ok 0x0800).

Definition controlled_port_blocks_normal_data_before_connection : Prop :=
  make_driver tt (fun driver =>
    drive (require_controlled_port 0x0800) driver (fun r _ =>
      r = Err (DriverError.ControlledPortClosed StationState.Down 0x0800))).

Definition controlled_port_allows_eapol_during_key_exchange : Prop :=
  make_driver tt (fun driver =>
    let station := prepare_security_for_test [1; 2; 3; 4; 5; 6] (nd_station driver) in
    let driver := set_station station driver in
    drive (require_controlled_port EAPOL_ETHERTYPE) driver (fun r driver =>
      is_ok r = true /\
      drive (require_controlled_port 0x0800) driver (fun r _ => is_err r = true))).

(** ** Configuration and recovery *)

Definition station_interface_configuration_requires_ready_exact_identity : Prop :=
  make_driver tt (fun driver =>
    drive (create_station_interface 1 MAC (b "wlan0")) driver (fun r driver =>
      match r with Err (DriverError.InvalidState _ _) => True | _ => False end /\
      let driver := set_driver_state DriverState.Ready driver in
      let driver := set_configured_mac (Some MAC) driver in
      drive (create_station_interface 2 MAC (b "wlan0")) driver (fun r driver =>
        r = Err DriverError.ConfigurationMismatch /\
        drive (create_station_interface 1 (replicate 6 4) (b "wlan0")) driver (fun r driver =>
          r = Err DriverError.ConfigurationMismatch /\
          drive (create_station_interface 1 MAC (b "wlan0")) driver (fun r _ =>
            is_ok r = true))))).

Definition system_configuration_checks_each_runtime_identity_boundary : Prop :=
  make_driver tt (fun driver =>
    SYSTEM_INIT_MESSAGE_LEN = SYSTEM_INIT_LEN + HOST_MESSAGE_HEADER_LEN /\
    let valid := valid_config in
    is_ok (@validate_system_config unit unit 1 valid driver) = true /\
    let identity wdev_id mac := with_fields valid wdev_id mac (cfg_rx_pools valid) (cfg_data valid) in
    let pools l := with_resources valid l (cfg_data valid) in
    let empty := RxPoolConfig_default in
    all_of
      [identity 1 MAC; identity 0 (zeros 6); identity 0 (replicate 6 0xff);
       identity 0 [3; 0; 0; 0; 0; 1];
       pools [mkRxPoolConfig 65 1; empty; empty]; pools [mkRxPoolConfig 64 2; empty; empty];
       pools [mkRxPoolConfig 64 1; mkRxPoolConfig 1 0; empty];
       pools [mkRxPoolConfig 64 1; empty; mkRxPoolConfig 0 1]]
      (fun invalid =>
         @validate_system_config unit unit 1 invalid driver
           = Err DriverError.ConfigurationMismatch)).

(** [AllowFirmware::verify] *)
Definition AllowFirmware (_ : FirmwareBundle) : res FirmwareError.t unit := Ok tt.

(** [driver.recover(&mut platform, &mut delay, &bundle, &AllowFirmware, &config)] *)
Definition recovering (bundle : FirmwareBundle) (config : SystemInitConfig)
    (driver : NativeDriver RuntimeBus)
    (P : res (RecoveryError.t unit unit) FirmwareReport -> NativeDriver RuntimeBus -> Prop) : Prop :=
  let '(r, driver) := recover 1 1 AllowFirmware bundle config driver in P r driver.

Definition recovery_validation_and_platform_failures_end_in_fault : Prop :=
  let? bundle := FirmwareBundle_parse test_bundle_bytes in
  make_driver RuntimeBus_default (fun driver =>
    let invalid := SystemInitConfig_new MAC (zeros RF_PARAMS_LEN) in
    recovering bundle invalid driver (fun r driver =>
      r = Err (RecoveryError.Driver DriverError.ConfigurationMismatch) /\
      nd_state driver = DriverState.Fault /\
      hard_reset_calls (dev_rpu (nd_device driver)) = 0)) /\
  make_driver (mkRuntimeBus [] [] true 0) (fun driver =>
    recovering bundle valid_config driver (fun r driver =>
      r = Err (RecoveryError.Platform tt) /\
      nd_state driver = DriverState.Fault /\
      hard_reset_calls (dev_rpu (nd_device driver)) = 1)).

Definition watchdog_sentinel_rule_and_acknowledgement_are_exact : Prop :=
  make_driver (mkRuntimeBus [0xaaaaaaaa; RPU_WATCHDOG_BIT; 0] [] false 0) (fun driver =>
    drive watchdog_pending driver (fun r driver =>
      r = Ok true /\
      drive watchdog_pending driver (fun r driver =>
        r = Ok false /\
        drive acknowledge_watchdog driver (fun r driver =>
          is_ok r = true /\
          nd_state driver = DriverState.Recovering /\
          map snd (rb_writes (dev_rpu (nd_device driver)))
            = [to_le 4 RPU_WATCHDOG_BIT; to_le 4 RPU_WATCHDOG_RELOAD])))) /\
  make_driver (mkRuntimeBus (replicate 10 0xaaaaaaaa) [] false 0) (fun driver =>
    drive watchdog_pending driver (fun r driver =>
      r = Err DriverError.InvalidWatchdogStatus /\
      nd_state driver = DriverState.Fault)).

(** ** The tests hold *)

Lemma init_done_moves_runtime_to_ready_passes : init_done_moves_runtime_to_ready.
Proof. passes. Qed.
Lemma system_events_are_state_checked_and_other_events_are_preserved_passes : system_events_are_state_checked_and_other_events_are_preserved.
Proof. passes. Qed.
Lemma control_data_and_supplicant_dispatch_cover_success_and_fail_closed_paths_passes : control_data_and_supplicant_dispatch_cover_success_and_fail_closed_paths.
Proof. passes. Qed.
Lemma receive_policy_checks_interface_and_controlled_port_after_data_copy_passes : receive_policy_checks_interface_and_controlled_port_after_data_copy.
Proof. passes. Qed.
Lemma transmit_rejects_wrong_interface_short_frames_and_closed_port_passes : transmit_rejects_wrong_interface_short_frames_and_closed_port.
Proof. passes. Qed.
Lemma controlled_port_blocks_normal_data_before_connection_passes : controlled_port_blocks_normal_data_before_connection.
Proof. passes. Qed.
Lemma controlled_port_allows_eapol_during_key_exchange_passes : controlled_port_allows_eapol_during_key_exchange.
Proof. passes. Qed.
Lemma station_interface_configuration_requires_ready_exact_identity_passes : station_interface_configuration_requires_ready_exact_identity.
Proof. passes. Qed.
Lemma system_configuration_checks_each_runtime_identity_boundary_passes : system_configuration_checks_each_runtime_identity_boundary.
Proof. passes. Qed.
Lemma recovery_validation_and_platform_failures_end_in_fault_passes : recovery_validation_and_platform_failures_end_in_fault.
Proof. passes. Qed.
Lemma watchdog_sentinel_rule_and_acknowledgement_are_exact_passes : watchdog_sentinel_rule_and_acknowledgement_are_exact.
Proof. passes. Qed.
