(* ===== verification/Wpa2Tests.v ===== *)
(** * Wpa2Tests: the tests of wpa2.rs

    Over the primitives of [Primitives].  [derives_known_ieee_pmk] runs 16384
    HMACs (4096 iterations for each of two blocks) and is left out. *)

From Stdlib Require Import Strings.String.
From S2P Require Import Prelude Crypto Control Wpa2 TestSupport Primitives.
#[local] Open Scope Z_scope.

#[local] Existing Instances real_sha256 real_hmac real_pbkdf2 real_aes.

Definition LOCAL : list Z := [0x02; 0; 0; 0; 0; 1].
Definition PEER : list Z := [0x02; 0; 0; 0; 0; 2].
Definition SNONCE : list Z := replicate 32 0x11.
Definition ANONCE : list Z := replicate 32 0x22.
Definition RSN_IE : list Z :=
  [0x30; 20; 1; 0; 0; 0x0f; 0xac; 4; 1; 0; 0; 0x0f; 0xac; 4; 1; 0; 0; 0x0f; 0xac; 2; 0; 0].

(** ** Helpers *)

Definition PMK : list Z := replicate 32 0x33.

Definition flags (l : list Z) : Z := foldr Z.lor 0 l.

Definition build_authenticator_frame (key_info replay : Z) (nonce key_data : list Z)
    (ptk : option (list Z)) : list Z :=
  let body_len := EAPOL_KEY_FIXED_BODY_LEN + len key_data in
  let total := EAPOL_HEADER_LEN + body_len in
  let bytes :=
    edited (zeros total)
      [(0, [2]); (1, [EAPOL_PACKET_TYPE_KEY]); (2, to_be 2 body_len);
       (4, [RSN_KEY_DESCRIPTOR_TYPE]); (5, to_be 2 key_info); (7, to_be 2 CCMP_KEY_LEN);
       (9, to_be 8 replay); (17, nonce); (KEY_DATA_LENGTH_OFFSET, to_be 2 (len key_data));
       (KEY_DATA_OFFSET, key_data)] in
  match ptk with
  | Some ptk => splice bytes KEY_MIC_START (take 16 (hmac_sha1 (kck ptk) bytes))
  | None => bytes
  end.

Definition new_supplicant : res Wpa2Error.t Wpa2Supplicant :=
  Wpa2Supplicant_new LOCAL PEER SNONCE PMK RSN_IE.

Definition pairwise_message1 (replay : Z) (nonce : list Z) : list Z :=
  build_authenticator_frame
    (flags [KEY_DESCRIPTOR_VERSION_HMAC_SHA1_AES; KEY_INFO_PAIRWISE; KEY_INFO_ACK])
    replay nonce [] None.

(** The blocks of the wrapped key, and the accumulator. *)
Definition aes_key_wrap_step (kek : list Z) (n : Z) (a_output : list Z * list Z)
    (round_index : Z * Z) : list Z * list Z :=
  let '(a, output) := a_output in
  let '(round, index) := round_index in
  let start := 8 + (index - 1) * 8 in
  let block := a ++ take 8 (drop (Z.to_nat start) output) in
  let block := aes128_encrypt kek block in
  let t_bytes := to_be 8 (n * round + index) in
  (zip_with Z.lxor (take 8 block) t_bytes, splice output start (drop 8 block)).
Definition aes_key_wrap_for_test (kek plain : list Z) : list Z :=
  let n := len plain / 8 in
  let '(a, output) :=
    foldl (aes_key_wrap_step kek n) (AES_KEY_WRAP_IV, splice (zeros 32) 8 plain)
      (flat_map (fun round => map (fun index => (round, index)) (map (Z.add 1) (counting n)))
         [0; 1; 2; 3; 4; 5]) in
  splice output 0 a.

Definition gtk_key_data (gtk : list Z) : list Z :=
  edited (zeros 24) [(0, [0xdd]); (1, [22]); (2, GTK_KDE_OUI_TYPE); (6, [1]); (8, gtk)].

(** [supplicant.ptk.as_ref().unwrap()] *)
Definition ptk_of (supplicant : Wpa2Supplicant) : list Z := default [] (ws_ptk supplicant).

Definition encrypted_gtk (supplicant : Wpa2Supplicant) (gtk : list Z) : list Z :=
  aes_key_wrap_for_test (kek (ptk_of supplicant)) (gtk_key_data gtk).

Definition pairwise_message3 (supplicant : Wpa2Supplicant) (encrypted : list Z) : list Z :=
  build_authenticator_frame
    (flags [KEY_DESCRIPTOR_VERSION_HMAC_SHA1_AES; KEY_INFO_PAIRWISE; KEY_INFO_INSTALL;
            KEY_INFO_ACK; KEY_INFO_MIC; KEY_INFO_SECURE; KEY_INFO_ENCRYPTED])
    2 ANONCE encrypted (ws_ptk supplicant).

Definition group_message1 (supplicant : Wpa2Supplicant) (replay : Z) (gtk : list Z) : list Z :=
  build_authenticator_frame
    (flags [KEY_DESCRIPTOR_VERSION_HMAC_SHA1_AES; KEY_INFO_ACK; KEY_INFO_MIC; KEY_INFO_SECURE;
            KEY_INFO_ENCRYPTED])
    replay (zeros 32) (encrypted_gtk supplicant gtk) (ws_ptk supplicant).

(** [supplicant.on_eapol(PEER, frame).unwrap()], and the supplicant. *)
Definition answered (frame : list Z) (supplicant : Wpa2Supplicant)
    : res Wpa2Error.t (Wpa2Action.t * Wpa2Supplicant) :=
  let '(action, supplicant) := on_eapol PEER frame supplicant in
  action ← action; Ok (action, supplicant).

Definition complete_pairwise_handshake : res Wpa2Error.t Wpa2Supplicant :=
  supplicant ← new_supplicant;
  '(_, supplicant) ← answered (pairwise_message1 1 ANONCE) supplicant;
  let message3 := pairwise_message3 supplicant (encrypted_gtk supplicant (replicate 16 0x44)) in
  '(action, supplicant) ← answered message3 supplicant;
  match action with
  | Wpa2Action.InstallKeys request =>
      if negb (ki_replay_counter request =? 2) then Panic
      else
        let '(response, supplicant) := complete_key_install request true supplicant in
        _ ← response; Ok supplicant
  | _ => Panic
  end.

(** Its value, which the tests below share. *)
Definition completed_supplicant : res Wpa2Error.t Wpa2Supplicant :=
  Eval vm_compute in complete_pairwise_handshake.
Lemma complete_pairwise_handshake_eq : complete_pairwise_handshake = completed_supplicant.
Proof. vm_compute. reflexivity. Qed.

(** [matches!(action, Ok(Wpa2Action::Transmit(_)))] *)
Definition transmits (action : res Wpa2Error.t Wpa2Action.t) : bool :=
  match action with Ok (Wpa2Action.Transmit _) => true | _ => false end.

(** The call fails with [error]; the rest of the test sees the supplicant. *)
Definition rejects (frame : list Z) (error : Wpa2Error.t) (supplicant : Wpa2Supplicant)
    (P : Wpa2Supplicant -> Prop) : Prop :=
  run action, supplicant := on_eapol PEER frame on supplicant in
  action = Err error /\ P supplicant.
Definition done_ (s : Wpa2Supplicant) : Prop := True.

(** The message of a frame that was sent. *)
Definition sent_message (frame : EapolTxFrame) (message : EapolKeyMessage.t) : Prop :=
  let? parsed := EapolKeyFrame_parse (tx_slice frame) in ek_message parsed = message.

(** ** Keys *)

Definition rejects_an_rsn_profile_without_ccmp : Prop :=
  let rsn := edited RSN_IE [(7, [2])] in
  Wpa2Supplicant_new LOCAL PEER SNONCE (replicate 32 1) rsn
  = Err Wpa2Error.InvalidRsnInformationElement.

Definition unwraps_rfc3394_vector : Prop :=
  let kek := counting 16 in
  let encrypted :=
    [0x1f; 0xa6; 0x8b; 0x0a; 0x81; 0x12; 0xb4; 0x47; 0xae; 0xf3; 0x4b; 0xd8; 0xfb; 0x5a; 0x7b; 0x82;
     0x9d; 0x3e; 0x86; 0x23; 0x71; 0xd2; 0xcf; 0xe5] in
  aes_key_unwrap kek encrypted (zeros 16) =
  (Ok 16, [0x00; 0x11; 0x22; 0x33; 0x44; 0x55; 0x66; 0x77; 0x88; 0x99; 0xaa; 0xbb; 0xcc; 0xdd; 0xee;
           0xff]).

(** ** The pairwise handshake *)

Definition completes_pairwise_handshake_and_accepts_exact_retransmission : Prop :=
  let? supplicant := new_supplicant in
  run action, supplicant := on_eapol PEER (pairwise_message1 1 ANONCE) on supplicant in
  match action with
  | Ok (Wpa2Action.Transmit message2) =>
      sent_message message2 EapolKeyMessage.PairwiseMessage2 /\
      let gtk := replicate 16 0x44 in
      let encrypted := aes_key_wrap_for_test (kek (ptk_of supplicant)) (gtk_key_data gtk) in
      let message3 := pairwise_message3 supplicant encrypted in
      run action, supplicant := on_eapol PEER message3 on supplicant in
      match action with
      | Ok (Wpa2Action.InstallKeys request) =>
          run action, supplicant := on_eapol PEER message3 on supplicant in
          action = Ok Wpa2Action.None /\
          len (key_bytes (pairwise_key_config (ki_pairwise request))) = 16 /\
          key_bytes (group_key_config (ki_group request)) = gtk /\
          len (key_sequence (group_key_config (ki_group request))) = 6 /\
          run message4, supplicant := complete_key_install request true on supplicant in
          (let? message4 := message4 in
           sent_message message4 EapolKeyMessage.PairwiseMessage4) /\
          ws_phase supplicant = Wpa2Phase.Complete /\
          run action, supplicant := on_eapol PEER message3 on supplicant in
          transmits action = true /\
          let stale :=
            build_authenticator_frame
              (flags [KEY_DESCRIPTOR_VERSION_HMAC_SHA1_AES; KEY_INFO_ACK; KEY_INFO_MIC;
                      KEY_INFO_SECURE])
              1 (zeros 32) encrypted (Some (ptk_of supplicant)) in
          rejects stale Wpa2Error.StaleReplayCounter supplicant done_
      | _ => False
      end
  | _ => False
  end.

Definition rejects_unsupported_protocol_version : Prop :=
  let? supplicant := new_supplicant in
  let message1 := edited (pairwise_message1 1 ANONCE) [(0, [3])] in
  rejects message1 (Wpa2Error.UnsupportedProtocolVersion 3) supplicant done_.

Definition rejects_invalid_pairwise_key_length : Prop :=
  let? supplicant := new_supplicant in
  let message1 := edited (pairwise_message1 1 ANONCE) [(7, to_be 2 32)] in
  rejects message1 (Wpa2Error.InvalidPairwiseKeyLength 32) supplicant (fun supplicant =>
    ws_phase supplicant = Wpa2Phase.Failed).

Definition rejects_wrong_peer_and_clears_the_handshake : Prop :=
  let? supplicant := new_supplicant in
  run action, supplicant :=
    on_eapol (replicate 6 9) (pairwise_message1 1 ANONCE) on supplicant in
  action = Err Wpa2Error.WrongPeer /\
  ws_phase supplicant = Wpa2Phase.Failed /\
  ws_supplicant_nonce supplicant = zeros 32.

(** The tables of the test, in the order of the flags: ack, mic, install and
    secure, from bit 0. *)
Definition pairwise_messages : list EapolKeyMessage.t :=
  [EapolKeyMessage.Other; EapolKeyMessage.PairwiseMessage1; EapolKeyMessage.PairwiseMessage2;
   EapolKeyMessage.Other; EapolKeyMessage.Other; EapolKeyMessage.Other; EapolKeyMessage.Other;
   EapolKeyMessage.Other; EapolKeyMessage.Other; EapolKeyMessage.Other;
   EapolKeyMessage.PairwiseMessage4; EapolKeyMessage.Other; EapolKeyMessage.Other;
   EapolKeyMessage.Other; EapolKeyMessage.Other; EapolKeyMessage.PairwiseMessage3].
Definition group_messages : list EapolKeyMessage.t :=
  replicate 10 EapolKeyMessage.Other
  ++ [EapolKeyMessage.GroupMessage2; EapolKeyMessage.GroupMessage1; EapolKeyMessage.Other;
      EapolKeyMessage.Other; EapolKeyMessage.Other; EapolKeyMessage.GroupMessage1].

Definition flag_bits (flags : Z) : Z :=
  Z.lor (Z.lor (Z.lor (Z.land flags 1 * KEY_INFO_ACK)
                      (Z.land (Z.shiftr flags 1) 1 * KEY_INFO_MIC))
               (Z.land (Z.shiftr flags 2) 1 * KEY_INFO_INSTALL))
        (Z.land (Z.shiftr flags 3) 1 * KEY_INFO_SECURE).

Definition classifies_every_pairwise_and_group_key_flag_shape : Prop :=
  all_of (counting 16) (fun flags =>
    let bits := flag_bits flags in
    Some (classify (Z.lor bits KEY_INFO_PAIRWISE)) = pairwise_messages !! Z.to_nat flags /\
    Some (classify bits) = group_messages !! Z.to_nat flags) /\
  all_of [KEY_INFO_ERROR; KEY_INFO_REQUEST; KEY_INFO_SMK] (fun rejected =>
    classify (Z.lor (Z.lor rejected KEY_INFO_PAIRWISE) KEY_INFO_ACK) = EapolKeyMessage.Other).

Definition eapol_parser_rejects_each_header_and_length_boundary : Prop :=
  let valid := pairwise_message1 1 ANONCE in
  let? parsed := EapolKeyFrame_parse valid in
  protocol_version parsed = 2 /\
  replay_counter parsed = 1 /\
  ek_nonce parsed = ANONCE /\
  ek_key_data parsed = [] /\
  EapolKeyFrame_parse (take (Z.to_nat (EAPOL_KEY_MIN_LEN - 1)) valid) = Err Wpa2Error.FrameTooShort /\
  EapolKeyFrame_parse (zeros (MAX_EAPOL_FRAME_LEN + 1)) = Err Wpa2Error.FrameTooLarge /\
  all_of [(0, 3, Wpa2Error.UnsupportedProtocolVersion 3); (1, 0, Wpa2Error.NotEapolKey);
          (4, 1, Wpa2Error.UnsupportedDescriptor)] (fun '(offset, value, expected) =>
    EapolKeyFrame_parse (edited valid [(offset, [value])]) = Err expected) /\
  let version_one := edited valid [(0, [1])] in
  (let? parsed := EapolKeyFrame_parse version_one in protocol_version parsed = 1) /\
  let wrong_total := edited valid [(2, to_be 2 96)] in
  EapolKeyFrame_parse wrong_total = Err Wpa2Error.LengthMismatch /\
  let short_body := edited (take (Z.to_nat (EAPOL_KEY_MIN_LEN - 1)) valid) [(2, to_be 2 94)] in
  EapolKeyFrame_parse short_body = Err Wpa2Error.FrameTooShort /\
  let wrong_key_data := edited valid [(KEY_DATA_LENGTH_OFFSET, to_be 2 1)] in
  EapolKeyFrame_parse wrong_key_data = Err Wpa2Error.LengthMismatch.

(** A new supplicant that has answered [message1]. *)
Definition after_message1 (message1 : list Z) (P : Wpa2Supplicant -> Prop) : Prop :=
  let? supplicant := new_supplicant in
  run action, supplicant := on_eapol PEER message1 on supplicant in
  is_ok action = true /\ P supplicant.

Definition message1_replay_restart_and_completed_handshake_rules_are_exact : Prop :=
  let message1 := pairwise_message1 5 ANONCE in
  (let? supplicant := new_supplicant in
   run action, supplicant := on_eapol PEER message1 on supplicant in
   transmits action = true /\
   run action, supplicant := on_eapol PEER message1 on supplicant in
   transmits action = true) /\
  after_message1 message1 (fun stale =>
    rejects (pairwise_message1 4 ANONCE) Wpa2Error.StaleReplayCounter stale done_) /\
  after_message1 message1 (fun fresh_nonce_required =>
    rejects (pairwise_message1 6 ANONCE) Wpa2Error.NewPairwiseHandshakeRequiresNonce
      fresh_nonce_required (fun s => ws_phase s = Wpa2Phase.AwaitingMessage3)) /\
  after_message1 message1 (fun conflicting =>
    rejects (pairwise_message1 5 (replicate 32 0x23)) Wpa2Error.ConflictingRetransmission
      conflicting done_) /\
  after_message1 message1 (fun restarted =>
    run restart, restarted := restart_pairwise (replicate 32 0x55) on restarted in
    is_ok restart = true /\
    ws_phase restarted = Wpa2Phase.AwaitingMessage1 /\
    ws_supplicant_nonce restarted = replicate 32 0x55 /\
    ws_authenticator_nonce restarted = zeros 32 /\
    ws_ptk restarted = None /\
    ws_message1_replay restarted = None /\
    fst (restart_pairwise (zeros 32) restarted) = Err Wpa2Error.InvalidSupplicantNonce) /\
  (let? completed := complete_pairwise_handshake in
    let same_session := pairwise_message1 2 ANONCE in
    rejects same_session Wpa2Error.ConflictingRetransmission completed done_) /\
  (let? completed := complete_pairwise_handshake in
    rejects (pairwise_message1 3 (replicate 32 0x24)) Wpa2Error.NewPairwiseHandshakeRequiresNonce
      completed (fun completed => ws_phase completed = Wpa2Phase.Complete)).

Definition message1_rejects_payload_zero_nonce_invalid_phase_and_busy_restart : Prop :=
  let? supplicant := new_supplicant in
  let with_payload :=
    build_authenticator_frame
      (flags [KEY_DESCRIPTOR_VERSION_HMAC_SHA1_AES; KEY_INFO_PAIRWISE; KEY_INFO_ACK])
      1 ANONCE [1] None in
  rejects with_payload Wpa2Error.UnsupportedMessage supplicant done_ /\
  rejects (pairwise_message1 1 (zeros 32)) Wpa2Error.InvalidAuthenticatorNonce supplicant done_ /\
  rejects (pairwise_message1 1 ANONCE) Wpa2Error.InvalidPhase
    (set_phase Wpa2Phase.InstallingKeys supplicant) done_ /\
  let busy := set_pending (Some (1, 2, false)) (ws_pending_frame_digest supplicant) supplicant in
  run restart, busy := restart_pairwise (replicate 32 0x55) on busy in
  restart = Err Wpa2Error.Busy /\
  ws_supplicant_nonce busy = SNONCE.

(** ** Group keys *)

Definition group_rekey_installs_completes_and_retransmits_exactly : Prop :=
  (let? supplicant := complete_pairwise_handshake in
    let group_message1 := group_message1 supplicant 3 (replicate 16 0x66) in
    run action, supplicant := on_eapol PEER group_message1 on supplicant in
    match action with
    | Ok (Wpa2Action.InstallGroupKey request) =>
        gi_replay_counter request = 3 /\
        gk_key_index (gi_group request) = 1 /\
        key_bytes (group_key_config (gi_group request)) = replicate 16 0x66 /\
        let default := default_key_config (gi_group request) in
        key_index default = 1 /\
        key_flags default = Z.lor NRF_WIFI_KEY_DEFAULT NRF_WIFI_KEY_DEFAULT_TYPE_MULTICAST /\
        run action, supplicant := on_eapol PEER group_message1 on supplicant in
        action = Ok Wpa2Action.None /\
        run response, supplicant := complete_group_key_install request true on supplicant in
        (let? response := response in
         tx_peer response = PEER /\
         tx_len response = EAPOL_KEY_MIN_LEN /\
         negb (tx_len response =? 0) = true /\
         sent_message response EapolKeyMessage.GroupMessage2) /\
        run action, supplicant := on_eapol PEER group_message1 on supplicant in
        transmits action = true
    | _ => False
    end).

(** The group install of message 1 is requested. *)
Definition group_install (supplicant : Wpa2Supplicant)
    (P : Wpa2GroupKeyInstallRequest -> Wpa2Supplicant -> Prop) : Prop :=
  let frame := group_message1 supplicant 3 (replicate 16 0x66) in
  run action, supplicant := on_eapol PEER frame on supplicant in
  match action with Ok (Wpa2Action.InstallGroupKey request) => P request supplicant | _ => False end.

Definition group_rekey_rejects_invalid_phase_mic_payload_replay_and_completion : Prop :=
  (let? completed := complete_pairwise_handshake in
    let valid := group_message1 completed 3 (replicate 16 0x66) in
    let? wrong_phase := new_supplicant in
    rejects valid Wpa2Error.InvalidPhase wrong_phase done_) /\
  (let? bad_mic := complete_pairwise_handshake in
    let corrupted := group_message1 bad_mic 3 (replicate 16 0x66) in
    let! byte := corrupted !! Z.to_nat KEY_MIC_START in
    let corrupted := edited corrupted [(KEY_MIC_START, [Z.lxor byte 1])] in
    rejects corrupted Wpa2Error.InvalidMic bad_mic done_) /\
  (let? missing_data := complete_pairwise_handshake in
    let no_data :=
      build_authenticator_frame
        (flags [KEY_DESCRIPTOR_VERSION_HMAC_SHA1_AES; KEY_INFO_ACK; KEY_INFO_MIC; KEY_INFO_SECURE])
        3 (zeros 32) [] (ws_ptk missing_data) in
    rejects no_data Wpa2Error.MissingEncryptedKeyData missing_data done_) /\
  (let? stale := complete_pairwise_handshake in
    let stale_frame := group_message1 stale 2 (replicate 16 0x66) in
    rejects stale_frame Wpa2Error.StaleReplayCounter stale done_) /\
  (let? install_failed := complete_pairwise_handshake in
    group_install install_failed (fun request install_failed =>
      fst (complete_group_key_install request false install_failed) = Err Wpa2Error.InstallFailed)) /\
  (let? stale_completion := complete_pairwise_handshake in
    group_install stale_completion (fun request stale_completion =>
      let request :=
        mkGroupKeyInstallRequest (u32 (gi_ticket request + 1)) (gi_replay_counter request)
          (gi_group request) (gi_response request) in
      fst (complete_group_key_install request true stale_completion)
      = Err Wpa2Error.StaleCompletion)).

(** ** Boundaries *)

(** The elements the test rejects. *)
Definition invalid_rsn_ies : list (list Z) :=
  [[]; zeros (MAX_RSN_IE_LEN + 1); edited RSN_IE [(0, [0x31])]; edited RSN_IE [(1, [19])];
   edited RSN_IE [(2, [2])]; edited RSN_IE [(7, [2])]; edited RSN_IE [(8, to_le 2 0)];
   edited RSN_IE [(13, [2])]; edited RSN_IE [(14, to_le 2 0)]; edited RSN_IE [(19, [1])]].

Definition gtk_kde_aes_and_rsn_boundaries_are_fail_closed : Prop :=
  all_of [[]; [0]; [1]; [1; 0]; [1; 2; 0]] (fun bytes =>
    parse_gtk_kde bytes = Err Wpa2Error.MissingGroupKey) /\
  all_of [[0x00; 0x0f; 0xac; 0x01; 1];
          [0x00; 0x0f; 0xac; 0x01; 0xf9] ++ zeros 17;
          [0x00; 0x0f; 0xac; 0x01; 1; 1] ++ zeros 16] (fun body =>
    parse_gtk_body body = Err Wpa2Error.InvalidEncryptedKeyData) /\
  let kek := zeros 16 in
  fst (aes_key_unwrap kek (zeros 16) (zeros 32)) = Err Wpa2Error.InvalidEncryptedKeyData /\
  fst (aes_key_unwrap kek (zeros 25) (zeros 32)) = Err Wpa2Error.InvalidEncryptedKeyData /\
  fst (aes_key_unwrap kek (zeros 24) (zeros 15)) = Err Wpa2Error.OutputTooSmall /\
  aes_key_unwrap kek (zeros 24) (replicate 16 0x55) = (Err Wpa2Error.KeyUnwrapIntegrity, zeros 16) /\
  all_of invalid_rsn_ies (fun invalid =>
    validate_rsn_ie invalid = Err Wpa2Error.InvalidRsnInformationElement) /\
  let no_optional := edited (take 20 RSN_IE) [(1, [18])] in
  validate_rsn_ie no_optional = Ok tt /\
  let protected_ := edited RSN_IE [(20, to_le 2 RSN_CAP_MFPC)] in
  validate_rsn_ie protected_ = Err Wpa2Error.UnsupportedRsnCapabilities /\
  let no_pmkids := edited (RSN_IE ++ to_le 2 0) [(1, [22])] in
  validate_rsn_ie no_pmkids = Ok tt /\
  let no_pmkids := edited (no_pmkids ++ [1]) [(1, [23])] in
  validate_rsn_ie no_pmkids = Err Wpa2Error.UnsupportedRsnCapabilities /\
  let one_pmkid := edited (RSN_IE ++ to_le 2 1) [(1, [22])] in
  validate_rsn_ie one_pmkid = Err Wpa2Error.UnsupportedRsnCapabilities.

Definition public_key_views_and_derivation_input_boundaries_are_exact : Prop :=
  MAX_KEY_DATA_LEN = 413 /\
  Pmk_derive (b "short") (b "ssid") = Err Wpa2Error.InvalidPassphraseLength /\
  Pmk_derive (replicate 64 120) (b "ssid") = Err Wpa2Error.InvalidPassphraseLength /\
  Pmk_derive (b "password") [] = Err Wpa2Error.InvalidSsidLength /\
  Pmk_derive (b "password") (replicate 33 120) = Err Wpa2Error.InvalidSsidLength /\
  (let? supplicant := new_supplicant in
   ws_local supplicant = LOCAL /\ ws_peer supplicant = PEER) /\
  let pairwise := mkPairwiseKeyInstall PEER (replicate 16 0x77) in
  pk_peer pairwise = PEER /\
  key_bytes (pairwise_key_config pairwise) = replicate 16 0x77 /\
  let ptk := derive_ptk PMK PEER LOCAL ANONCE SNONCE in
  bool_decide (ptk = zeros WPA2_PTK_LEN) = false /\
  let lower := replicate 4 1 in
  let higher := replicate 4 2 in
  ordered lower higher = (lower, higher) /\
  ordered lower lower = (lower, lower).

Definition compound_retransmission_predicates_require_every_matching_field : Prop :=
  let bytes := pairwise_message1 1 ANONCE in
  let? frame := EapolKeyFrame_parse bytes in
  let? supplicant := new_supplicant in
  let wrong_message := set_pending (Some (1, 1, false)) (Some (ek_digest frame)) supplicant in
  fst (handle_pending_frame frame EapolKeyMessage.GroupMessage1 wrong_message)
    = Err Wpa2Error.ConflictingRetransmission /\
  let wrong_digest := set_pending (Some (1, 1, false)) (Some (zeros 32)) supplicant in
  fst (handle_pending_frame frame EapolKeyMessage.PairwiseMessage3 wrong_digest)
    = Err Wpa2Error.ConflictingRetransmission /\
  after_message1 bytes (fun replay =>
    let changed_digest := edited bytes [(49, [1])] in
    rejects changed_digest Wpa2Error.ConflictingRetransmission replay done_) /\
  (let? same_replay_only := complete_pairwise_handshake in
    rejects (pairwise_message1 2 (replicate 32 0x24)) Wpa2Error.NewPairwiseHandshakeRequiresNonce
      same_replay_only done_) /\
  (let? same_nonce_only := complete_pairwise_handshake in
    rejects (pairwise_message1 3 ANONCE) Wpa2Error.NewPairwiseHandshakeRequiresNonce
      same_nonce_only done_).

Definition compound_frame_guards_reject_each_independent_bad_input : Prop :=
  let encrypted_empty :=
    build_authenticator_frame (flags [KEY_DESCRIPTOR_VERSION_HMAC_SHA1_AES; KEY_INFO_ENCRYPTED])
      1 (zeros 32) [] None in
  (let? frame := EapolKeyFrame_parse encrypted_empty in
   require_encrypted_key_data frame = Err Wpa2Error.MissingEncryptedKeyData) /\
  let plain_nonempty :=
    build_authenticator_frame KEY_DESCRIPTOR_VERSION_HMAC_SHA1_AES 1 (zeros 32) [1] None in
  (let? frame := EapolKeyFrame_parse plain_nonempty in
   require_encrypted_key_data frame = Err Wpa2Error.MissingEncryptedKeyData) /\
  let valid := pairwise_message1 1 ANONCE in
  let short_body := edited (take (Z.to_nat (EAPOL_KEY_MIN_LEN - 1)) valid) [(2, to_be 2 94)] in
  eapol_total_length short_body = Err Wpa2Error.LengthMismatch /\
  let gtk_body := edited (zeros 22) [(0, GTK_KDE_OUI_TYPE); (4, [1]); (6, replicate 16 0x66)] in
  let wrong_element := [1; 22] ++ gtk_body in
  parse_gtk_kde wrong_element = Err Wpa2Error.MissingGroupKey /\
  let wrong_oui := [0xdd; 22] ++ edited gtk_body [(0, [1])] in
  parse_gtk_kde wrong_oui = Err Wpa2Error.MissingGroupKey /\
  parse_gtk_kde [1; 1; 9; 2] = Err Wpa2Error.MissingGroupKey /\
  let ptk := zeros WPA2_PTK_LEN in
  let oversized := zeros (MAX_KEY_DATA_LEN + 1) in
  build_response PEER 2 0 0 0 (zeros 32) oversized ptk = Err Wpa2Error.FrameTooLarge.


(** ** The tests hold *)

Ltac passes_connected := rewrite !complete_pairwise_handshake_eq; passes.

Lemma rejects_an_rsn_profile_without_ccmp_passes : rejects_an_rsn_profile_without_ccmp.
Proof. passes. Qed.
Lemma unwraps_rfc3394_vector_passes : unwraps_rfc3394_vector.
Proof. passes. Qed.
Lemma completes_pairwise_handshake_and_accepts_exact_retransmission_passes : completes_pairwise_handshake_and_accepts_exact_retransmission.
Proof. passes. Qed.
Lemma rejects_unsupported_protocol_version_passes : rejects_unsupported_protocol_version.
Proof. passes. Qed.
Lemma rejects_invalid_pairwise_key_length_passes : rejects_invalid_pairwise_key_length.
Proof. passes. Qed.
Lemma rejects_wrong_peer_and_clears_the_handshake_passes : rejects_wrong_peer_and_clears_the_handshake.
Proof. passes. Qed.
Lemma classifies_every_pairwise_and_group_key_flag_shape_passes : classifies_every_pairwise_and_group_key_flag_shape.
Proof. passes. Qed.
Lemma eapol_parser_rejects_each_header_and_length_boundary_passes : eapol_parser_rejects_each_header_and_length_boundary.
Proof. passes. Qed.
Lemma message1_replay_restart_and_completed_handshake_rules_are_exact_passes : message1_replay_restart_and_completed_handshake_rules_are_exact.
Proof. unfold message1_replay_restart_and_completed_handshake_rules_are_exact. passes_connected. Qed.
Lemma message1_rejects_payload_zero_nonce_invalid_phase_and_busy_restart_passes : message1_rejects_payload_zero_nonce_invalid_phase_and_busy_restart.
Proof. passes. Qed.
Lemma group_rekey_installs_completes_and_retransmits_exactly_passes : group_rekey_installs_completes_and_retransmits_exactly.
Proof. unfold group_rekey_installs_completes_and_retransmits_exactly. passes_connected. Qed.
Lemma group_rekey_rejects_invalid_phase_mic_payload_replay_and_completion_passes : group_rekey_rejects_invalid_phase_mic_payload_replay_and_completion.
Proof. unfold group_rekey_rejects_invalid_phase_mic_payload_replay_and_completion. passes_connected. Qed.
Lemma gtk_kde_aes_and_rsn_boundaries_are_fail_closed_passes : gtk_kde_aes_and_rsn_boundaries_are_fail_closed.
Proof. passes. Qed.
Lemma public_key_views_and_derivation_input_boundaries_are_exact_passes : public_key_views_and_derivation_input_boundaries_are_exact.
Proof. passes. Qed.
Lemma compound_retransmission_predicates_require_every_matching_field_passes : compound_retransmission_predicates_require_every_matching_field.
Proof. unfold compound_retransmission_predicates_require_every_matching_field. passes_connected. Qed.
Lemma compound_frame_guards_reject_each_independent_bad_input_passes : compound_frame_guards_reject_each_independent_bad_input.
Proof. passes. Qed.
