(* ===== verification/EmbassyTests.v ===== *)
(** * EmbassyTests: the tests of embassy.rs

    A test is itself a program of the queue's operations and assertions, run
    alone on a new queue; a failed assertion panics.  The hardware address of
    the queue is a constant that no operation of the model reads: the
    assertions on it are left out. *)

From S2P Require Import Prelude TestSupport Embassy.

(** [assert!(b)], [assert_eq!(x, y)], [o.unwrap()] and [drop] of a value
    without destructor. *)
Definition assert (b : bool) : prog unit := if b then mret tt else Panicked.
Definition assert_eq {A} `{EqDecision A} (x y : A) : prog unit := assert (bool_decide (x = y)).
Definition some {A} (o : option A) : prog A := match o with Some a => mret a | None => Panicked end.
Definition accepted (error : option QueueError.t) : prog unit :=
  match error with None => mret tt | Some _ => Panicked end.

#[global] Instance queue_error_eq_dec : EqDecision QueueError.t.
Proof. solve_decision. Defined.

(** [assert_eq!(state.rx_state.load(Acquire), v)] and the like. *)
Definition assert_field (s : slot) (f : field) (v : Z) : prog unit :=
  x ← load s f Acquire; assert_eq x v.

(** The test on [NetworkState::<FRAME_SIZE>::new]. *)
Definition succeeds (FRAME_SIZE : Z) (test : prog unit) : Prop :=
  (Embassy.run test (NetworkState_new FRAME_SIZE)).1 = Some tt.

Definition open_link : prog Z :=
  set_authorized_link true;;
  epoch ← active_epoch;
  some epoch.

(** [consume] with a closure that only reads, and one that only writes. *)
Definition consume_rx (FRAME_SIZE : Z) (rx : RxToken) : prog (list Z) :=
  RxToken_consume FRAME_SIZE rx (fun frame => mret (frame, frame)).
Definition consume_tx (FRAME_SIZE : Z) (tx : TxToken) (bytes : list Z) : prog unit :=
  TxToken_consume FRAME_SIZE tx (len bytes) (fun _ => mret (tt, bytes)).

Definition stale_of (epoch : Z) : Z := u32 (epoch + 1).

(** A frame of [n] bytes of [epoch] in a slot, ready. *)
Definition ready_frame (s : slot) (epoch n : Z) : prog unit :=
  store s Epoch epoch Relaxed;;
  store s Len n Relaxed;;
  store s State READY Release.

Definition embassy_driver_exposes_metadata_and_moves_rx_and_tx_tokens : Prop :=
  succeeds 64 (
    state ← NetworkDriver_link_state;
    assert_eq state LinkState.Down;;
    assert (max_transmission_unit (capabilities 64) =? 64);;
    assert_eq (max_burst_size (capabilities 64)) (Some 1);;
    rx ← NetworkDriver_receive;
    assert (negb (bool_decide (is_Some rx)));;
    tx ← NetworkDriver_transmit;
    assert (negb (bool_decide (is_Some tx)));;
    open_link;;
    error ← push_rx 64 [1; 2; 3];
    accepted error;;
    tokens ← NetworkDriver_receive;
    '(rx, tx) ← some tokens;
    frame ← consume_rx 64 rx;
    assert_eq frame [1; 2; 3];;
    consume_tx 64 tx [4; 5; 6; 7];;
    lease ← take_tx;
    lease ← some lease;
    frame ← as_slice 64 lease;
    assert_eq frame [4; 5; 6; 7];;
    report lease TxOutcome.Submitted;;
    assert_field Rx State FREE;;
    assert_field Tx State FREE).

Definition receive_restores_rx_when_the_companion_tx_slot_is_busy : Prop :=
  succeeds 16 (
    epoch ← open_link;
    error ← push_rx 16 [1];
    accepted error;;
    reserved ← reserve_tx epoch;
    assert reserved;;
    tokens ← NetworkDriver_receive;
    assert (negb (bool_decide (is_Some tokens)));;
    assert_field Rx State READY;;
    release_tx;;
    tokens ← NetworkDriver_receive;
    '(rx, tx) ← some tokens;
    frame ← consume_rx 16 rx;
    assert_eq (head frame) (Some 1);;
    TxToken_drop tx).

Definition stale_rx_state_and_tokens_are_fail_closed : Prop :=
  succeeds 16 (
    epoch ← open_link;
    ready_frame Rx (u32 (epoch - 1)) 1;;
    reserved ← reserve_receive epoch;
    assert (negb reserved);;
    assert_field Rx State FREE;;
    reserved ← reserve_receive (stale_of epoch);
    assert (negb reserved);;
    error ← push_rx 16 [9];
    accepted error;;
    reserved ← reserve_receive epoch;
    assert reserved;;
    let token := mkRxToken epoch in
    set_authorized_link false;;
    frame ← consume_rx 16 token;
    assert_eq frame [];;
    assert_field Rx State FREE).

Definition rx_epoch_discard_only_releases_the_matching_ready_slot : Prop :=
  succeeds 8 (
    epoch ← open_link;
    ready_frame Rx epoch 3;;
    discard_ready_rx_epoch (stale_of epoch);;
    assert_field Rx State READY;;
    discard_ready_rx_epoch epoch;;
    assert_field Rx State FREE;;
    assert_field Rx Len 0).

Definition direct_tx_token_and_runner_cover_ready_would_block_and_stale_states : Prop :=
  succeeds 16 (
    epoch ← open_link;
    token ← NetworkDriver_transmit;
    token ← some token;
    consume_tx 16 token [7; 8; 9];;
    lease ← take_tx;
    lease ← some lease;
    report lease TxOutcome.WouldBlock;;
    lease ← take_tx;
    lease ← some lease;
    frame ← as_slice 16 lease;
    assert_eq frame [7; 8; 9];;
    TxLease_drop lease;;
    lease ← take_tx;
    lease ← some lease;
    TxLease_drop lease;;
    lease ← take_tx;
    lease ← some lease;
    report lease TxOutcome.Submitted;;
    store Tx Epoch (u32 (epoch - 1)) Relaxed;;
    store Tx State READY Release;;
    lease ← take_tx;
    assert (negb (bool_decide (is_Some lease)));;
    assert_field Tx State FREE;;
    lease ← take_tx;
    assert (negb (bool_decide (is_Some lease)))).

Definition link_epoch_changes_only_on_real_transitions_and_purges_ready_rx : Prop :=
  succeeds 8 (
    epoch ← open_link;
    set_authorized_link true;;
    active ← active_epoch;
    assert_eq active (Some epoch);;
    error ← push_rx 8 [1];
    accepted error;;
    set_authorized_link false;;
    state ← NetworkState_link_state;
    assert_eq state LinkState.Down;;
    assert_field Rx State FREE;;
    active ← active_epoch;
    assert_eq active None).

Definition reservation_race_checks_release_stale_atomic_ownership : Prop :=
  succeeds 8 (
    epoch ← open_link;
    let stale := stale_of epoch in
    reserved ← reserve_tx stale;
    assert (negb reserved);;
    store Tx State CLIENT Release;;
    store Tx Len 4 Relaxed;;
    confirmed ← confirm_reserved_tx stale;
    assert (negb confirmed);;
    assert_field Tx State FREE;;
    assert_field Tx Len 0;;
    claimed ← claim_ready_rx stale;
    assert (negb claimed);;
    store Rx State READY Release;;
    store Rx Epoch stale Relaxed;;
    claimed ← claim_ready_rx epoch;
    assert (negb claimed);;
    assert_field Rx State FREE;;
    store Rx State CLIENT Release;;
    store Rx Epoch epoch Relaxed;;
    current ← claimed_rx_is_current epoch;
    assert current;;
    current ← claimed_rx_is_current stale;
    assert (negb current);;
    confirmed ← confirm_claimed_rx stale;
    assert (negb confirmed);;
    assert_field Rx State FREE;;
    store Rx State CLIENT Release;;
    store Rx Epoch stale Relaxed;;
    current ← claimed_rx_is_current stale;
    assert (negb current);;
    reserved ← reserve_claimed_receive stale;
    assert (negb reserved);;
    assert_field Rx State FREE;;
    assert (negb (link_state_changed LinkState.Up LinkState.Up));;
    assert (link_state_changed LinkState.Up LinkState.Down)).

Definition dropping_unconsumed_embassy_tokens_releases_each_slot : Prop :=
  succeeds 8 (
    open_link;;
    error ← push_rx 8 [1];
    accepted error;;
    tokens ← NetworkDriver_receive;
    '(rx, tx) ← some tokens;
    RxToken_drop rx;;
    assert_field Rx State FREE;;
    assert_field Tx State CLIENT;;
    TxToken_drop tx;;
    assert_field Tx State FREE;;
    tx ← NetworkDriver_transmit;
    tx ← some tx;
    assert_field Tx State CLIENT;;
    TxToken_drop tx;;
    assert_field Tx State FREE).

Definition runner_stale_and_ready_helpers_require_both_epoch_conditions : Prop :=
  succeeds 8 (
    epoch ← open_link;
    let stale := stale_of epoch in
    discarded ← discard_stale_tx epoch;
    assert (negb discarded);;
    store Tx State READY Release;;
    store Tx Epoch epoch Relaxed;;
    discarded ← discard_stale_tx epoch;
    assert (negb discarded);;
    ready ← tx_is_ready;
    assert ready;;
    current ← claimed_tx_is_current epoch;
    assert current;;
    current ← claimed_tx_is_current stale;
    assert (negb current);;
    store Tx Epoch stale Relaxed;;
    ready ← tx_is_ready;
    assert (negb ready);;
    discarded ← discard_stale_tx epoch;
    assert discarded;;
    assert_field Tx State FREE;;
    set_authorized_link false;;
    ready ← tx_is_ready;
    assert (negb ready);;
    store Tx State PRODUCER Release;;
    store Tx Epoch epoch Relaxed;;
    current ← claimed_tx_is_current epoch;
    assert (negb current)).

Definition pending_poll_and_registered_waker_do_not_claim_tx : Prop :=
  succeeds 8 (
    open_link;;
    ready ← poll_tx_ready;
    assert (negb ready);;
    register_tx_waker;;
    assert_field Tx State FREE).

Definition runner_rx_queue_is_bounded : Prop :=
  succeeds 64 (
    open_link;;
    error ← push_rx 64 [1; 2; 3];
    accepted error;;
    error ← push_rx 64 [4];
    assert_eq error (Some QueueError.RxBusy)).

Definition closed_link_rejects_rx : Prop :=
  succeeds 8 (
    error ← push_rx 8 [1];
    assert_eq error (Some QueueError.LinkDown)).

Definition oversized_rx_is_rejected : Prop :=
  succeeds 8 (
    error ← push_rx 8 (zeros 9);
    assert_eq error (Some QueueError.FrameTooLarge)).

Definition link_down_purges_a_queued_tx_frame : Prop :=
  succeeds 8 (
    epoch ← open_link;
    ready_frame Tx epoch 1;;
    set_authorized_link false;;
    assert_field Tx State FREE;;
    assert_field Tx Len 0).

Definition stale_tx_token_cannot_publish_after_link_loss : Prop :=
  succeeds 8 (
    epoch ← open_link;
    reserved ← reserve_tx epoch;
    assert reserved;;
    let token := mkTxToken epoch in
    set_authorized_link false;;
    consume_tx 8 token [7];;
    assert_field Tx State FREE;;
    assert_field Tx Len 0).

Definition reporting_tx_consumes_and_releases_the_lease : Prop :=
  succeeds 8 (
    epoch ← open_link;
    ready_frame Tx epoch 1;;
    lease ← take_tx;
    lease ← some lease;
    frame ← as_slice 8 lease;
    assert_eq frame [0];;
    report lease TxOutcome.Dropped;;
    assert_field Tx State FREE).

Definition polling_tx_ready_does_not_consume_the_frame : Prop :=
  succeeds 8 (
    epoch ← open_link;
    store Tx Epoch epoch Relaxed;;
    store Tx Len 3 Relaxed;;
    write_slice Tx [1; 2; 3];;
    store Tx State READY Release;;
    ready ← poll_tx_ready;
    assert ready;;
    lease ← take_tx;
    lease ← some lease;
    frame ← as_slice 8 lease;
    assert_eq frame [1; 2; 3];;
    report lease TxOutcome.Submitted).

Definition stale_lease_cannot_return_a_frame_after_reconnect : Prop :=
  succeeds 8 (
    epoch ← open_link;
    ready_frame Tx epoch 1;;
    lease ← take_tx;
    lease ← some lease;
    set_authorized_link false;;
    set_authorized_link true;;
    frame ← as_slice 8 lease;
    assert_eq frame [];;
    report lease TxOutcome.WouldBlock;;
    assert_field Tx State FREE).

(** ** The tests hold *)

Lemma embassy_driver_exposes_metadata_and_moves_rx_and_tx_tokens_passes : embassy_driver_exposes_metadata_and_moves_rx_and_tx_tokens.
Proof. passes. Qed.
Lemma receive_restores_rx_when_the_companion_tx_slot_is_busy_passes : receive_restores_rx_when_the_companion_tx_slot_is_busy.
Proof. passes. Qed.
Lemma stale_rx_state_and_tokens_are_fail_closed_passes : stale_rx_state_and_tokens_are_fail_closed.
Proof. passes. Qed.
Lemma rx_epoch_discard_only_releases_the_matching_ready_slot_passes : rx_epoch_discard_only_releases_the_matching_ready_slot.
Proof. passes. Qed.
Lemma direct_tx_token_and_runner_cover_ready_would_block_and_stale_states_passes : direct_tx_token_and_runner_cover_ready_would_block_and_stale_states.
Proof. passes. Qed.
Lemma link_epoch_changes_only_on_real_transitions_and_purges_ready_rx_passes : link_epoch_changes_only_on_real_transitions_and_purges_ready_rx.
Proof. passes. Qed.
Lemma reservation_race_checks_release_stale_atomic_ownership_passes : reservation_race_checks_release_stale_atomic_ownership.
Proof. passes. Qed.
Lemma dropping_unconsumed_embassy_tokens_releases_each_slot_passes : dropping_unconsumed_embassy_tokens_releases_each_slot.
Proof. passes. Qed.
Lemma runner_stale_and_ready_helpers_require_both_epoch_conditions_passes : runner_stale_and_ready_helpers_require_both_epoch_conditions.
Proof. passes. Qed.
Lemma pending_poll_and_registered_waker_do_not_claim_tx_passes : pending_poll_and_registered_waker_do_not_claim_tx.
Proof. passes. Qed.
Lemma runner_rx_queue_is_bounded_passes : runner_rx_queue_is_bounded.
Proof. passes. Qed.
Lemma closed_link_rejects_rx_passes : closed_link_rejects_rx.
Proof. passes. Qed.
Lemma oversized_rx_is_rejected_passes : oversized_rx_is_rejected.
Proof. passes. Qed.
Lemma link_down_purges_a_queued_tx_frame_passes : link_down_purges_a_queued_tx_frame.
Proof. passes. Qed.
Lemma stale_tx_token_cannot_publish_after_link_loss_passes : stale_tx_token_cannot_publish_after_link_loss.
Proof. passes. Qed.
Lemma reporting_tx_consumes_and_releases_the_lease_passes : reporting_tx_consumes_and_releases_the_lease.
Proof. passes. Qed.
Lemma polling_tx_ready_does_not_consume_the_frame_passes : polling_tx_ready_does_not_consume_the_frame.
Proof. passes. Qed.
Lemma stale_lease_cannot_return_a_frame_after_reconnect_passes : stale_lease_cannot_return_a_frame_after_reconnect.
Proof. passes. Qed.
