(* ===== verification/Wpa2RuntimeTests.v ===== *)
(** * Wpa2RuntimeTests: the tests of wpa2_runtime.rs

    Over the primitives of [Primitives]; the frames of the access point are
    built as in [Wpa2Tests]. *)

From Stdlib Require Import Strings.String.
From S2P Require Import Prelude Crypto Protocol Control Bus Device Data Station Runtime Wpa2 Wpa2Runtime TestSupport Primitives DeviceTests StationTests Wpa2Tests.
#[local] Open Scope Z_scope.

#[local] Existing Instances real_sha256 real_hmac real_pbkdf2 real_aes.

Definition GTK : list Z := replicate 16 0x44.
Definition COMMAND_BUFFER : Z := 0xb0001000.
Definition COMMAND_BUFFER_HOST : Z := 0x000c1000.
Definition COMMAND_AVAILABLE_DEQUEUE : Z := 0xa4007000.

(** ** The fake bus: the commands that were written to the command buffer *)

Definition Wpa2Bus : Type := list Z.

Definition Wpa2Bus_read : M (Wpa2Bus * list Z) unit unit := fun '(commands, data) =>
  let data := zeros (len data) in
  let data := if len data =? 4 then to_le 4 COMMAND_BUFFER else data in
  (Ok tt, (commands, data)).

Definition Wpa2Bus_write (address : Z) (data : list Z) : M Wpa2Bus unit unit := fun commands =>
  let word at_ := from_le (take 4 (drop at_ data)) in
  if (address =? COMMAND_BUFFER_HOST) && (24 <=? len data) && (word 8%nat =? 3)
  then (Ok tt, commands ++ [word 20%nat])
  else (Ok tt, commands).

#[local] Instance Wpa2Bus_ops : BusOps Wpa2Bus unit := {
  bus_read_status _ := mret 0;
  bus_write_status _ _ := mret tt;
  bus_read _ := Wpa2Bus_read;
  bus_write := Wpa2Bus_write }.
#[local] Instance Wpa2Delay : DelayOps Wpa2Bus := { delay_ms _ commands := commands }.

(** ** Helpers *)

Definition wpa2_queues : HpqmInfo :=
  mkHpqmInfo (mkHpq 0xa4006004 0xa4006000) (mkHpq 0xa4006014 0xa4006010)
    (mkHpq 0xa4006024 0xa4006020) (mkHpq 0xa4007004 COMMAND_AVAILABLE_DEQUEUE)
    [mkHpq 0xa4006034 0xa4006030; mkHpq 0xa4006044 0xa4006040; mkHpq 0xa4006054 0xa4006050].

(** [NativeDriver<TestBus, 1, 2>] *)
Definition TX_COUNT : Z := 2.
Definition driver : res DataLayoutError.t (NativeDriver Wpa2Bus) :=
  driver ← NativeDriver_new 1 TX_COUNT [] 64 600 1 0 0;
  let driver := set_device (Device_initialize_for_test wpa2_queues 0xb7001000 (nd_device driver)) driver in
  Ok (set_station (prepare_security_for_test PEER (nd_station driver)) driver).

Definition status_header (command_event : Z) : UmacHeader := mkUmacHeader 0 1 command_event 0 0 1 0 0.
Definition status_event (command : UmacCommand.t) (status : Z) : ControlEvent.t :=
  ControlEvent.CommandStatus (status_header 292) (UmacCommand.to_u32 command) status.

(** [ethernet_eapol] is the same function on four bytes. *)
Definition ethernet_frame (payload : list Z) : list Z :=
  edited (zeros (EAPOL_ETHERNET_HEADER_LEN + len payload))
    [(0, LOCAL); (6, PEER); (12, to_be 2 EAPOL_ETHERTYPE); (14, payload)].

(** [derive_ptk] of the test: the addresses and the nonces in their order, and
    three blocks of 20 bytes, cut to 48. *)
Definition expected_ptk : list Z :=
  let context := edited (zeros 76) [(0, LOCAL); (6, PEER); (12, SNONCE); (44, ANONCE)] in
  take 48 (flat_map (fun counter =>
    hmac_sha1 (replicate 32 0x33) (b "Pairwise key expansion" ++ [0] ++ context ++ [counter]))
    (counting 3)).

Definition ap_frame (info : list Z) (replay : Z) (nonce key_data : list Z) (ptk : option (list Z))
    : list Z :=
  build_authenticator_frame (flags (KEY_DESCRIPTOR_VERSION_HMAC_SHA1_AES :: info)) replay nonce
    key_data ptk.
Definition wrapped_gtk (ptk gtk : list Z) : list Z :=
  aes_key_wrap_for_test (kek ptk) (gtk_key_data gtk).

Definition ap_pairwise_message1 : list Z := ap_frame [KEY_INFO_PAIRWISE; KEY_INFO_ACK] 1 ANONCE [] None.
Definition ap_pairwise_message3 (ptk : list Z) : list Z :=
  ap_frame [KEY_INFO_PAIRWISE; KEY_INFO_INSTALL; KEY_INFO_ACK; KEY_INFO_MIC; KEY_INFO_SECURE;
            KEY_INFO_ENCRYPTED] 2 ANONCE (wrapped_gtk ptk GTK) (Some ptk).
Definition ap_group_message1 (ptk : list Z) : list Z :=
  ap_frame [KEY_INFO_ACK; KEY_INFO_MIC; KEY_INFO_SECURE; KEY_INFO_ENCRYPTED] 3 (zeros 32)
    (wrapped_gtk ptk (replicate 16 0x55)) (Some ptk).

Abbreviation world := (Wpa2Runtime * NativeDriver Wpa2Bus)%type.
Abbreviation runtime_error := (Wpa2RuntimeError.t unit).

(** A new coordinator and a driver that is securing a connection. *)
Definition with_runtime (P : Wpa2Runtime -> NativeDriver Wpa2Bus -> Prop) : Prop :=
  let? supplicant := new_supplicant in
  let? driver := driver in
  P (Wpa2Runtime_new supplicant 0) driver.

(** A call on both. *)
Definition step {A} (m : M world runtime_error A) (runtime : Wpa2Runtime)
    (driver : NativeDriver Wpa2Bus)
    (P : res runtime_error A -> Wpa2Runtime -> NativeDriver Wpa2Bus -> Prop) : Prop :=
  let '(r, (runtime, driver)) := m (runtime, driver) in P r runtime driver.

Definition recovering (driver : NativeDriver Wpa2Bus) : bool :=
  bool_decide (nd_state driver = DriverState.Recovering).

(** ** Failures *)

Definition malformed_eapol_forces_driver_recovery : Prop :=
  with_runtime (fun runtime driver =>
    step (on_ethernet_frame TX_COUNT (zeros 8)) runtime driver (fun result runtime driver =>
      result = Err Wpa2RuntimeError.FrameTooShort /\
      wr_state runtime = Wpa2RuntimeState.Failed /\
      nd_state driver = DriverState.Recovering)).

Definition exact_pending_retransmission_is_ignored_without_extending_the_deadline : Prop :=
  with_runtime (fun runtime driver =>
    let payload := [2; 3; 0; 0] in
    let frame := ethernet_frame payload in
    let runtime := set_wr_state Wpa2RuntimeState.AwaitingPairwiseKeyStatus runtime in
    let runtime := set_remaining_ms (Some 123) runtime in
    let runtime := set_last_input_digest (Some (input_digest payload)) runtime in
    step (on_ethernet_frame TX_COUNT frame) runtime driver (fun progress runtime driver =>
      progress = Ok Wpa2Progress.NoChange /\
      wr_state runtime = Wpa2RuntimeState.AwaitingPairwiseKeyStatus /\
      wr_remaining_ms runtime = Some 123 /\
      recovering driver = false)).

Definition conflicting_frame_during_pending_operation_forces_recovery : Prop :=
  with_runtime (fun runtime driver =>
    let payload := [2; 3; 0; 0] in
    let conflicting := [2; 3; 0; 1] in
    let frame := ethernet_frame conflicting in
    let runtime := set_wr_state Wpa2RuntimeState.AwaitingPairwiseKeyStatus runtime in
    let runtime := set_last_input_digest (Some (input_digest payload)) runtime in
    step (on_ethernet_frame TX_COUNT frame) runtime driver (fun result runtime driver =>
      result = Err (Wpa2RuntimeError.UnexpectedState Wpa2RuntimeState.AwaitingPairwiseKeyStatus) /\
      wr_state runtime = Wpa2RuntimeState.Failed /\
      nd_state driver = DriverState.Recovering)).

Definition command_mismatch_forces_driver_recovery : Prop :=
  with_runtime (fun runtime driver =>
    let runtime := set_wr_state Wpa2RuntimeState.AwaitingPairwiseKeyStatus runtime in
    step (on_control_event TX_COUNT (status_event UmacCommand.SetKey 0)) runtime driver
      (fun result runtime driver =>
        match result with Err (Wpa2RuntimeError.UnexpectedCommandStatus _ _) => True | _ => False end /\
        wr_state runtime = Wpa2RuntimeState.Failed /\
        nd_state driver = DriverState.Recovering)).

Definition rejected_command_forces_driver_recovery : Prop :=
  with_runtime (fun runtime driver =>
    let runtime := set_wr_state Wpa2RuntimeState.AwaitingPairwiseKeyStatus runtime in
    step (on_control_event TX_COUNT (status_event UmacCommand.NewKey 7)) runtime driver
      (fun result runtime driver =>
        match result with Err (Wpa2RuntimeError.CommandRejected _ 7) => True | _ => False end /\
        nd_state driver = DriverState.Recovering)).

Definition awaiting_message4 (runtime : Wpa2Runtime) : Wpa2Runtime :=
  set_wr_state (Wpa2RuntimeState.AwaitingEapolTransmit 2 EapolTransmitPurpose.Message4) runtime.

Definition mismatched_tx_token_forces_driver_recovery : Prop :=
  with_runtime (fun runtime driver =>
    step (on_transmit_done (mkTxDoneEventRef 3 [0])) (awaiting_message4 runtime) driver
      (fun result runtime driver =>
        match result with
        | Err (Wpa2RuntimeError.TransmitCompletionMismatch _ _) => True | _ => False end /\
        nd_state driver = DriverState.Recovering)).

Definition failed_message4_tx_forces_driver_recovery : Prop :=
  with_runtime (fun runtime driver =>
    step (on_transmit_done (mkTxDoneEventRef 2 [1])) (awaiting_message4 runtime) driver
      (fun result runtime driver =>
        result = Err Wpa2RuntimeError.TransmitFailed /\
        nd_state driver = DriverState.Recovering)).

(** ** The transactions *)

(** A frame of the access point, with the progress it must make. *)
Definition receives (payload : list Z) (runtime : Wpa2Runtime) (driver : NativeDriver Wpa2Bus)
    (P : Wpa2Progress.t -> Wpa2Runtime -> NativeDriver Wpa2Bus -> Prop) : Prop :=
  step (on_ethernet_frame TX_COUNT (ethernet_frame payload)) runtime driver
    (fun progress runtime driver => let? progress := progress in P progress runtime driver).

(** [unwrap] of a handler of the station, which takes [()] for the error. *)
Definition station_handles (m : M StationController (StationError.t unit) unit)
    (driver : NativeDriver Wpa2Bus) (P : NativeDriver Wpa2Bus -> Prop) : Prop :=
  let '(r, station) := m (nd_station driver) in
  is_ok r = true /\ P (set_station station driver).

Definition acknowledge (command : UmacCommand.t) (runtime : Wpa2Runtime)
    (driver : NativeDriver Wpa2Bus)
    (P : Wpa2Progress.t -> Wpa2Runtime -> NativeDriver Wpa2Bus -> Prop) : Prop :=
  let event := status_event command 0 in
  station_handles (handle_control_event event) driver (fun driver =>
    step (on_control_event TX_COUNT event) runtime driver (fun progress runtime driver =>
      let? progress := progress in P progress runtime driver)).

Definition complete_transmit (token : Z) (runtime : Wpa2Runtime) (driver : NativeDriver Wpa2Bus)
    (P : Wpa2Progress.t -> Wpa2Runtime -> NativeDriver Wpa2Bus -> Prop) : Prop :=
  let '(completed, data) := complete_tx TX_COUNT token (nd_data driver) in
  is_ok completed = true /\
  step (on_transmit_done (mkTxDoneEventRef token [0])) runtime (set_data data driver)
    (fun progress runtime driver => let? progress := progress in P progress runtime driver).

Definition NEW_KEY : Z := UmacCommand.to_u32 UmacCommand.NewKey.
Definition SET_KEY : Z := UmacCommand.to_u32 UmacCommand.SetKey.
Definition SET_STATION : Z := UmacCommand.to_u32 UmacCommand.SetStation.

Definition complete_pairwise_and_group_rekey_transactions_are_ordered : Prop :=
  let ptk := expected_ptk in
  let message1 := ap_pairwise_message1 in
  let message3 := ap_pairwise_message3 ptk in
  with_runtime (fun runtime driver =>
  receives message1 runtime driver (fun progress runtime driver =>
  match progress with
  | Wpa2Progress.EapolSubmitted token purpose =>
    purpose = EapolTransmitPurpose.Message2 /\
    wr_state runtime = Wpa2RuntimeState.AwaitingEapolTransmit token purpose /\
    complete_transmit token runtime driver (fun progress runtime driver =>
    progress = Wpa2Progress.NoChange /\
    wr_state runtime = Wpa2RuntimeState.AwaitingAuthenticator /\
    receives message3 runtime driver (fun progress runtime driver =>
    progress = Wpa2Progress.PairwiseKeySubmitted /\
    acknowledge UmacCommand.NewKey runtime driver (fun progress runtime driver =>
    progress = Wpa2Progress.GroupKeySubmitted /\
    acknowledge UmacCommand.NewKey runtime driver (fun progress runtime driver =>
    progress = Wpa2Progress.DefaultGroupKeySubmitted /\
    acknowledge UmacCommand.SetKey runtime driver (fun message4 runtime driver =>
    match message4 with
    | Wpa2Progress.EapolSubmitted token purpose =>
      purpose = EapolTransmitPurpose.Message4 /\
      ws_phase (wr_supplicant runtime) = Wpa2Phase.Complete /\
      complete_transmit token runtime driver (fun progress runtime driver =>
      progress = Wpa2Progress.AuthorizationSubmitted /\
      acknowledge UmacCommand.SetStation runtime driver (fun progress runtime driver =>
      progress = Wpa2Progress.AwaitingCarrier /\
      station_handles (handle_data_event (DataEvent.CarrierOn 0)) driver (fun driver =>
      step refresh_carrier runtime driver (fun progress runtime driver =>
      progress = Ok Wpa2Progress.Complete /\
      receives message3 runtime driver (fun retransmission runtime driver =>
      match retransmission with
      | Wpa2Progress.EapolSubmitted token purpose =>
        purpose = EapolTransmitPurpose.Retransmission /\
        complete_transmit token runtime driver (fun progress runtime driver =>
        progress = Wpa2Progress.Complete /\
        receives (ap_group_message1 ptk) runtime driver (fun progress runtime driver =>
        progress = Wpa2Progress.GroupKeySubmitted /\
        acknowledge UmacCommand.NewKey runtime driver (fun progress runtime driver =>
        progress = Wpa2Progress.DefaultGroupKeySubmitted /\
        acknowledge UmacCommand.SetKey runtime driver (fun group_message2 runtime driver =>
        match group_message2 with
        | Wpa2Progress.EapolSubmitted token purpose =>
          purpose = EapolTransmitPurpose.GroupMessage2 /\
          complete_transmit token runtime driver (fun progress runtime driver =>
          progress = Wpa2Progress.Complete /\
          wr_state runtime = Wpa2RuntimeState.Complete /\
          sc_state (nd_station driver) = StationState.Connected /\
          dev_rpu (nd_device driver) = [NEW_KEY; NEW_KEY; SET_KEY; SET_STATION; NEW_KEY; SET_KEY])
        | _ => False
        end))))
      | _ => False
      end)))))
    | _ => False
    end)))))
  | _ => False
  end)).

(** ** Helpers of the coordinator *)

Definition key_submission_metadata_and_missing_request_paths_are_exact : Prop :=
  with_runtime (fun runtime _ =>
    all_of
      [(KeySubmission.Pairwise, false, Wpa2RuntimeState.AwaitingPairwiseKeyStatus,
        Wpa2Progress.PairwiseKeySubmitted);
       (KeySubmission.InitialGroup, false, Wpa2RuntimeState.AwaitingGroupKeyStatus,
        Wpa2Progress.GroupKeySubmitted);
       (KeySubmission.InitialDefaultGroup, true, Wpa2RuntimeState.AwaitingDefaultGroupKeyStatus,
        Wpa2Progress.DefaultGroupKeySubmitted);
       (KeySubmission.RekeyGroup, false, Wpa2RuntimeState.AwaitingGroupRekeyStatus,
        Wpa2Progress.GroupKeySubmitted);
       (KeySubmission.RekeyDefaultGroup, true, Wpa2RuntimeState.AwaitingDefaultGroupRekeyStatus,
        Wpa2Progress.DefaultGroupKeySubmitted)]
      (fun '(submission, default, state, progress) =>
        KeySubmission.is_default submission = default /\
        KeySubmission.next_state submission = state /\
        KeySubmission.progress submission = progress /\
        @submission_key unit runtime submission = Err Wpa2RuntimeError.MissingInstallRequest)).

Definition non_command_events_complete_only_after_station_connection : Prop :=
  with_runtime (fun runtime driver =>
    let runtime := set_wr_state Wpa2RuntimeState.AwaitingCarrier runtime in
    let event := ControlEvent.Other (status_header 999) [] in
    step (on_control_event TX_COUNT event) runtime driver (fun progress runtime driver =>
      progress = Ok Wpa2Progress.NoChange /\
      wr_state runtime = Wpa2RuntimeState.AwaitingCarrier /\
      let driver := set_station (prepare_connected_for_test PEER (nd_station driver)) driver in
      step (on_control_event TX_COUNT event) runtime driver (fun progress runtime _ =>
        progress = Ok Wpa2Progress.Complete /\
        wr_state runtime = Wpa2RuntimeState.Complete))).

(** A supplicant that was asked to install the pairwise keys. *)
Definition pairwise_install (P : Wpa2KeyInstallRequest -> Wpa2Supplicant -> Prop) : Prop :=
  let ptk := expected_ptk in
  after_message1 ap_pairwise_message1 (fun supplicant =>
    run action, supplicant := on_eapol PEER (ap_pairwise_message3 ptk) on supplicant in
    match action with Ok (Wpa2Action.InstallKeys request) => P request supplicant | _ => False end).

Definition failure_rejects_pending_pairwise_and_group_install_transactions : Prop :=
  with_runtime (fun runtime driver =>
    pairwise_install (fun request supplicant =>
      let pairwise := set_pairwise_install (Some request) (set_supplicant supplicant runtime) in
      step (A := unit) (wpa2_fail Wpa2RuntimeError.FrameTooShort) pairwise driver
        (fun result pairwise _ =>
          result = Err Wpa2RuntimeError.FrameTooShort /\
          ws_phase (wr_supplicant pairwise) = Wpa2Phase.Failed)) /\
    pairwise_install (fun request supplicant =>
      run response, supplicant := complete_key_install request true on supplicant in
      is_ok response = true /\
      run action, supplicant := on_eapol PEER (ap_group_message1 expected_ptk) on supplicant in
      match action with
      | Ok (Wpa2Action.InstallGroupKey request) =>
          let group := set_group_install (Some request) (set_supplicant supplicant runtime) in
          step (A := unit) (wpa2_fail Wpa2RuntimeError.FrameTooLarge) group driver
            (fun result group _ =>
              result = Err Wpa2RuntimeError.FrameTooLarge /\
              ws_phase (wr_supplicant group) = Wpa2Phase.Failed)
      | _ => False
      end)).

Definition restart_pairwise_clears_runtime_input_and_rejects_a_busy_handshake : Prop :=
  with_runtime (fun runtime _ =>
    let runtime := set_wr_state Wpa2RuntimeState.Failed runtime in
    let runtime := set_last_input_digest (Some (replicate 32 9)) runtime in
    run restart, runtime := wpa2_restart_pairwise SNONCE on runtime in
    restart = Ok tt /\
    wr_state runtime = Wpa2RuntimeState.AwaitingAuthenticator /\
    wr_last_input_digest runtime = None /\
    run action, supplicant := on_eapol PEER ap_pairwise_message1 on wr_supplicant runtime in
    is_ok action = true /\
    run action, supplicant := on_eapol PEER (ap_pairwise_message3 expected_ptk) on supplicant in
    match action with Ok (Wpa2Action.InstallKeys _) => True | _ => False end /\
    fst (wpa2_restart_pairwise (replicate 32 0x88) (set_supplicant supplicant runtime))
      = Err Wpa2Error.Busy).

Definition runtime_deadlines_cover_every_state_and_clamp_zero : Prop :=
  with_runtime (fun runtime driver =>
    let runtime := wpa2_set_timeouts (mkWpa2Timeouts 11 22 33 0) runtime in
    wr_remaining_ms runtime = Some 11 /\
    all_of
      [(Wpa2RuntimeState.AwaitingAuthenticator, Some 11);
       (Wpa2RuntimeState.AwaitingEapolTransmit 9 EapolTransmitPurpose.Message2, Some 22);
       (Wpa2RuntimeState.AwaitingPairwiseKeyStatus, Some 33);
       (Wpa2RuntimeState.AwaitingGroupKeyStatus, Some 33);
       (Wpa2RuntimeState.AwaitingDefaultGroupKeyStatus, Some 33);
       (Wpa2RuntimeState.AwaitingAuthorizationStatus, Some 33);
       (Wpa2RuntimeState.AwaitingCarrier, Some 1);
       (Wpa2RuntimeState.AwaitingGroupRekeyStatus, Some 33);
       (Wpa2RuntimeState.AwaitingDefaultGroupRekeyStatus, Some 33);
       (Wpa2RuntimeState.Complete, None);
       (Wpa2RuntimeState.Failed, None)]
      (fun '(state, expected) => wpa2_timeout_for runtime state = expected) /\
    let runtime := set_remaining_ms None runtime in
    step (wpa2_advance_time 99) runtime driver (fun r runtime driver =>
      is_ok r = true /\
      let runtime := set_remaining_ms (Some 10) runtime in
      step (wpa2_advance_time 4) runtime driver (fun r runtime _ =>
        is_ok r = true /\
        wr_remaining_ms runtime = Some 6))).

Definition ethernet_validation_checks_all_boundaries_and_header_fields : Prop :=
  with_runtime (fun runtime _ =>
    let validate := @validate_ethernet_frame unit runtime in
    let valid := ethernet_frame [] in
    let flip at_ := edited valid [(Z.of_nat at_, [Z.lxor (nth at_ valid 0) 1])] in
    validate valid = Ok [] /\
    validate (flip 0%nat) = Err Wpa2RuntimeError.WrongDestination /\
    is_ok (validate (edited valid [(0, PAE_GROUP_ADDRESS)])) = true /\
    validate (flip 6%nat) = Err Wpa2RuntimeError.WrongSource /\
    validate (flip 13%nat) = Err Wpa2RuntimeError.WrongEtherType /\
    validate (zeros (EAPOL_ETHERNET_HEADER_LEN - 1)) = Err Wpa2RuntimeError.FrameTooShort /\
    validate (zeros (MAX_EAPOL_ETHERNET_FRAME_LEN + 1)) = Err Wpa2RuntimeError.FrameTooLarge).

Definition authorization_starts_only_after_message4_tx_success : Prop :=
  with_runtime (fun runtime driver =>
    dev_rpu (nd_device driver) = [] /\
    step (on_transmit_done (mkTxDoneEventRef 2 [0])) (awaiting_message4 runtime) driver
      (fun progress runtime driver =>
        progress = Ok Wpa2Progress.AuthorizationSubmitted /\
        wr_state runtime = Wpa2RuntimeState.AwaitingAuthorizationStatus /\
        sc_state (nd_station driver) = StationState.Authorizing /\
        dev_rpu (nd_device driver) = [SET_STATION] /\
        RPU_MEM_TX_CMD_BASE = 0xb00000b8 /\
        RSN_CIPHER_CCMP_128 = 0x000fac04)).

Definition wpa2_phase_timeout_forces_runtime_recovery : Prop :=
  with_runtime (fun runtime driver =>
    wr_remaining_ms runtime = Some 5000 /\
    step (wpa2_advance_time 5000) runtime driver (fun r runtime driver =>
      r = Err (Wpa2RuntimeError.Timeout Wpa2RuntimeState.AwaitingAuthenticator) /\
      wr_state runtime = Wpa2RuntimeState.Failed /\
      nd_state driver = DriverState.Recovering)).

(** ** The tests hold *)

Lemma malformed_eapol_forces_driver_recovery_passes : malformed_eapol_forces_driver_recovery.
Proof. passes. Qed.
Lemma exact_pending_retransmission_is_ignored_without_extending_the_deadline_passes : exact_pending_retransmission_is_ignored_without_extending_the_deadline.
Proof. passes. Qed.
Lemma conflicting_frame_during_pending_operation_forces_recovery_passes : conflicting_frame_during_pending_operation_forces_recovery.
Proof. passes. Qed.
Lemma command_mismatch_forces_driver_recovery_passes : command_mismatch_forces_driver_recovery.
Proof. passes. Qed.
Lemma rejected_command_forces_driver_recovery_passes : rejected_command_forces_driver_recovery.
Proof. passes. Qed.
Lemma mismatched_tx_token_forces_driver_recovery_passes : mismatched_tx_token_forces_driver_recovery.
Proof. passes. Qed.
Lemma failed_message4_tx_forces_driver_recovery_passes : failed_message4_tx_forces_driver_recovery.
Proof. passes. Qed.
Lemma complete_pairwise_and_group_rekey_transactions_are_ordered_passes : complete_pairwise_and_group_rekey_transactions_are_ordered.
Proof. passes. Qed.
Lemma key_submission_metadata_and_missing_request_paths_are_exact_passes : key_submission_metadata_and_missing_request_paths_are_exact.
Proof. passes. Qed.
Lemma non_command_events_complete_only_after_station_connection_passes : non_command_events_complete_only_after_station_connection.
Proof. passes. Qed.
Lemma failure_rejects_pending_pairwise_and_group_install_transactions_passes : failure_rejects_pending_pairwise_and_group_install_transactions.
Proof. passes. Qed.
Lemma restart_pairwise_clears_runtime_input_and_rejects_a_busy_handshake_passes : restart_pairwise_clears_runtime_input_and_rejects_a_busy_handshake.
Proof. passes. Qed.
Lemma runtime_deadlines_cover_every_state_and_clamp_zero_passes : runtime_deadlines_cover_every_state_and_clamp_zero.
Proof. passes. Qed.
Lemma ethernet_validation_checks_all_boundaries_and_header_fields_passes : ethernet_validation_checks_all_boundaries_and_header_fields.
Proof. passes. Qed.
Lemma authorization_starts_only_after_message4_tx_success_passes : authorization_starts_only_after_message4_tx_success.
Proof. passes. Qed.
Lemma wpa2_phase_timeout_forces_runtime_recovery_passes : wpa2_phase_timeout_forces_runtime_recovery.
Proof. passes. Qed.
