(* ===== verification/ProductionTests.v ===== *)
(** * ProductionTests: the tests of production.rs *)

From Stdlib Require Import Strings.String.
From S2P Require Import Prelude Crypto Codec Protocol Control System Bus Memory Device Data Firmware Station Runtime Wpa2 Wpa2Runtime Production TestSupport Primitives StationTests.
#[local] Open Scope Z_scope.

#[local] Existing Instances real_sha256 real_hmac real_pbkdf2 real_aes.

(** ** The fake bus, and helpers *)

Inductive NullBus : Type := null_bus.

#[local] Instance NullBus_ops : BusOps NullBus unit := {
  bus_read_status _ := mret 0;
  bus_write_status _ _ := mret tt;
  bus_read _ := modify (fun '(bus, data) => (bus, zeros (len data)));
  bus_write _ _ := mret tt }.
#[local] Instance NullDelay : DelayOps NullBus := { delay_ms _ bus := bus }.

Abbreviation mission := (MissionCriticalDriver NullBus).
Abbreviation production_error := (ProductionError.t unit).

(** [driver()] and [ready_driver()], and the rest of the test. *)
Definition with_driver (P : mission -> Prop) : Prop :=
  let? driver := MissionCriticalDriver_new 1 1 null_bus 64 64 1 0 0 in P driver.
Definition ready_driver (P : mission -> Prop) : Prop :=
  with_driver (fun driver =>
    P (mkMissionCriticalDriver (set_driver_state DriverState.Ready (mcd_inner driver)))).

(** [driver.inner.station_mut().m(..)] *)
Definition on_station (f : StationController -> StationController) (driver : mission) : mission :=
  mkMissionCriticalDriver (set_station (f (nd_station (mcd_inner driver))) (mcd_inner driver)).

Definition received_frame (ether_type : Z) : ReceivedFrame :=
  mkReceivedFrame 14 ether_type 0 (-40) 2412.
Definition umac_header : UmacHeader := mkUmacHeader 0 1 0 0 0 1 0 0.

Definition rx_event_payload : list Z :=
  edited (zeros 37)
    [(0, to_le 4 (DataCommand.to_u32 DataCommand.ReceiveBuffer)); (4, to_le 4 37); (13, [1]);
     (15, [24])].

Definition SECURE_RSN_IE : list Z :=
  [0x30; 20; 1; 0; 0; 0x0f; 0xac; 4; 1; 0; 0; 0x0f; 0xac; 4; 1; 0; 0; 0x0f; 0xac; 2; 0; 0].
Definition secure_driver (driver : mission) (P : Wpa2StationDriver NullBus -> Prop) : Prop :=
  let? supplicant :=
    Wpa2Supplicant_new [2; 0; 0; 0; 0; 1] [2; 0; 0; 0; 0; 2] (replicate 32 0x11)
      (replicate 32 0x33) SECURE_RSN_IE in
  P (Wpa2StationDriver_new driver supplicant 0).

Definition invalid_state {A} (r : res production_error A) : Prop :=
  match r with
  | Err (ProductionError.Driver (DriverError.InvalidState _ _)) => True
  | _ => False
  end.

(** ** The fail-closed driver *)

Definition mission_driver_is_fail_closed_until_ready_and_validates_ethernet_first : Prop :=
  with_driver (fun cold =>
    MissionCriticalDriver_state cold = DriverState.Cold /\
    MissionCriticalDriver_controlled_port_open cold = false /\
    invalid_state (fst (MissionCriticalDriver_transmit 1 0 (zeros 14) 0 cold)) /\
    let payload := rx_event_payload in
    let? event := RxEventRef_parse (mkHostMessageRef false HostMessageType.Data payload) in
    invalid_state (fst (MissionCriticalDriver_receive_packet 1 event 0 (cold, zeros 64)))) /\
  ready_driver (fun ready =>
    fst (MissionCriticalDriver_transmit 1 0 (zeros 13) 0 ready)
      = Err ProductionError.InvalidEthernetFrame /\
    let ipv4 := edited (zeros 14) [(12, to_be 2 0x0800)] in
    fst (MissionCriticalDriver_transmit 1 0 ipv4 0 ready)
      = Err (ProductionError.ControlledPortClosed 0x0800)).

Definition receive_result_normalization_wipes_closed_port_frames_and_recovers_faults : Prop :=
  ready_driver (fun driver =>
    let output := replicate 32 7 in
    run r, (driver, output) :=
      finish_receive (E := unit) (inr (DriverError.ControlledPortClosed StationState.Down 0x0800))
      on (driver, output) in
    r = Err (ProductionError.ControlledPortClosed 0x0800) /\
    output = zeros 32 /\
    MissionCriticalDriver_state driver = DriverState.Ready /\
    let output := replicate 32 7 in
    run r, (driver, output) :=
      finish_receive (E := unit) (inr (DriverError.Data (DataError.OutputTooSmall 64 32)))
      on (driver, output) in
    match r with
    | Err (ProductionError.Driver (DriverError.Data (DataError.OutputTooSmall _ _))) => True
    | _ => False
    end /\
    MissionCriticalDriver_state driver = DriverState.Ready /\
    run r, (driver, output) :=
      finish_receive (E := unit) (inr (DriverError.DataProtocol DataProtocolError.InvalidLength))
      on (driver, output) in
    match r with
    | Err (ProductionError.Driver (DriverError.DataProtocol _)) => True
    | _ => False
    end /\
    MissionCriticalDriver_state driver = DriverState.Recovering).

Definition received_frame_policy_allows_only_the_active_controlled_port : Prop :=
  ready_driver (fun driver =>
    let output := replicate 32 9 in
    frame_allowed EAPOL_ETHERTYPE driver = false /\
    run r, (driver, output) := enforce_received_frame (E := unit) (received_frame 0x0800)
      on (driver, output) in
    r = Err (ProductionError.ControlledPortClosed 0x0800) /\
    take 14 output = zeros 14 /\
    let driver := on_station (prepare_security_for_test [1; 2; 3; 4; 5; 6]) driver in
    frame_allowed EAPOL_ETHERTYPE driver = true /\
    frame_allowed 0x0800 driver = false /\
    run r, (driver, output) := enforce_received_frame (E := unit) (received_frame EAPOL_ETHERTYPE)
      on (driver, output) in
    is_ok r = true /\
    let driver := on_station (prepare_connected_for_test [1; 2; 3; 4; 5; 6]) driver in
    frame_allowed 0x0800 driver = true /\
    is_ok (fst (enforce_received_frame (E := unit) (received_frame 0x0800) (driver, output))) = true).

Definition finish_helpers_enter_recovery_only_for_hardware_and_station_faults : Prop :=
  ready_driver (fun driver =>
    run r, driver := finish_station (E := unit) (inl 7) on driver in
    r = Ok 7 /\
    run r, driver :=
      finish_station (A := unit) (E := unit) (inr (StationError.Protocol ProtocolError.LimitExceeded))
      on driver in
    match r with
    | Err (ProductionError.Station (StationError.Protocol _)) => True | _ => False end /\
    MissionCriticalDriver_state driver = DriverState.Ready /\
    run r, driver :=
      finish_station (A := unit) (E := unit) (inr (StationError.Fault StationFault.UnexpectedEvent))
      on driver in
    match r with Err (ProductionError.Station (StationError.Fault _)) => True | _ => False end /\
    MissionCriticalDriver_state driver = DriverState.Recovering) /\
  ready_driver (fun driver =>
    run r, driver := finish_driver (E := unit) (inl 9) DriverOperation.Control on driver in
    r = Ok 9 /\
    run r, driver :=
      finish_driver (A := unit) (E := unit) (inr DriverError.FrameTooShort) DriverOperation.Transmit
      on driver in
    r = Err (ProductionError.Driver DriverError.FrameTooShort) /\
    MissionCriticalDriver_state driver = DriverState.Ready /\
    run r, driver :=
      finish_driver (A := unit) (E := unit) (inr DriverError.InvalidWatchdogStatus)
        DriverOperation.Watchdog
      on driver in
    r = Err (ProductionError.Driver DriverError.InvalidWatchdogStatus) /\
    MissionCriticalDriver_state driver = DriverState.Recovering).

(** ** The recovery policy *)

Abbreviation device_recovers := (@device_error_requires_recovery unit).
Abbreviation data_recovers := (@data_error_requires_recovery unit).

Definition all_recovery_policy_categories_are_explicit : Prop :=
  all_of
    [DeviceError.Rpu RpuError.Timeout; DeviceError.NotInitialized; DeviceError.InvalidQueueMap;
     DeviceError.CommandDeliveryUncertain; DeviceError.RecoveryRequired;
     DeviceError.EventTooLarge 2 1]
    (fun error => device_recovers error = true) /\
  all_of
    [DeviceError.Protocol ProtocolError.InvalidLength; DeviceError.CommandQueueEmpty;
     DeviceError.CommandNeedsWait; DeviceError.CommandQueueTimeout; DeviceError.EventBufferChanged]
    (fun error => device_recovers error = false) /\
  data_recovers (DataError.Rpu RpuError.Timeout) DriverOperation.Transmit = true /\
  data_recovers (DataError.Device DeviceError.NotInitialized) DriverOperation.Control = true /\
  data_recovers (DataError.QueueOwnershipUncertain DeviceError.CommandDeliveryUncertain)
    DriverOperation.Transmit = true /\
  data_recovers (DataError.ReceiveDescriptorBusy 1) DriverOperation.Receive = true /\
  data_recovers (DataError.Protocol DataProtocolError.InvalidLength) DriverOperation.Event = true /\
  data_recovers (DataError.Protocol DataProtocolError.InvalidLength) DriverOperation.Transmit
    = false /\
  data_recovers DataError.NoTransmitToken DriverOperation.Transmit = false /\
  data_recovers (DataError.OutputTooSmall 2 1) DriverOperation.Receive = false.

Definition simple_driver_error_policy_distinguishes_input_context : Prop :=
  let recovers := @simple_driver_error_requires_recovery unit unit in
  recovers (DriverError.DataProtocol DataProtocolError.InvalidLength) DriverOperation.Control
    = Ok true /\
  recovers (DriverError.Protocol ProtocolError.InvalidLength) DriverOperation.Control = Ok true /\
  recovers (DriverError.Firmware (LoadError.Firmware FirmwareError.TruncatedHeader))
    DriverOperation.Control = Ok true /\
  let wrong := DriverError.WrongInterface 0 1 in
  recovers wrong DriverOperation.Receive = Ok true /\
  recovers wrong DriverOperation.Transmit = Ok false /\
  recovers (DriverError.UnexpectedEventForState DriverState.Ready) DriverOperation.Event = Ok true /\
  recovers DriverError.ConfigurationMismatch DriverOperation.Control = Ok false.

Definition expected_wpa2_commands_and_transmit_tokens_are_state_specific : Prop :=
  all_of
    [Wpa2RuntimeState.AwaitingPairwiseKeyStatus; Wpa2RuntimeState.AwaitingGroupKeyStatus;
     Wpa2RuntimeState.AwaitingGroupRekeyStatus]
    (fun state =>
      expected_security_command state = Some (UmacCommand.to_u32 UmacCommand.NewKey)) /\
  all_of
    [Wpa2RuntimeState.AwaitingDefaultGroupKeyStatus;
     Wpa2RuntimeState.AwaitingDefaultGroupRekeyStatus]
    (fun state =>
      expected_security_command state = Some (UmacCommand.to_u32 UmacCommand.SetKey)) /\
  expected_security_command Wpa2RuntimeState.AwaitingAuthorizationStatus
    = Some (UmacCommand.to_u32 UmacCommand.SetStation) /\
  expected_security_command Wpa2RuntimeState.AwaitingAuthenticator = None /\
  let status := ControlEvent.CommandStatus umac_header (UmacCommand.to_u32 UmacCommand.NewKey) 0 in
  control_event_is_expected Wpa2RuntimeState.AwaitingPairwiseKeyStatus status = true /\
  control_event_is_expected Wpa2RuntimeState.AwaitingAuthorizationStatus status = false /\
  control_event_is_expected Wpa2RuntimeState.AwaitingPairwiseKeyStatus
    (ControlEvent.InterfaceState umac_header 0) = false /\
  let done_ := mkTxDoneEventRef 7 [0] in
  let awaiting token := Wpa2RuntimeState.AwaitingEapolTransmit token EapolTransmitPurpose.Message2 in
  transmit_done_is_expected (awaiting 7) done_ = true /\
  transmit_done_is_expected (awaiting 8) done_ = false.

(** ** The secured driver *)

Definition secure_event_routing_ignores_unexpected_events_fail_closed : Prop :=
  with_driver (fun driver =>
  secure_driver driver (fun secure =>
    run r, secure := apply_security_event 1 (DriverEvent.System SystemEvent.InitDone) on secure in
    r = Ok Wpa2Progress.NoChange /\
    run r, secure :=
      apply_security_event 1 (DriverEvent.Control (ControlEvent.InterfaceState umac_header 0))
      on secure in
    r = Ok Wpa2Progress.NoChange /\
    run r, secure := apply_security_event 1 (DriverEvent.TransmitDone (mkTxDoneEventRef 7 [0]))
      on secure in
    r = Ok Wpa2Progress.NoChange /\
    run r, secure := apply_security_event 1 (DriverEvent.Data (DataEvent.CarrierOn 0)) on secure in
    r = Ok Wpa2Progress.NoChange /\
    fst (Wpa2StationDriver_poll_event 1 0 (secure, zeros 64))
      = Err (SecureProductionError.Production
               (ProductionError.Driver (DriverError.Device DeviceError.NotInitialized))))).

Definition secure_receive_classifies_data_and_wipes_rejected_eapol : Prop :=
  with_driver (fun driver =>
  secure_driver driver (fun secure =>
    let output := replicate 32 9 in
    run r, (secure, output) := finish_received_packet 1 (received_frame 0x0800)
      on (secure, output) in
    r = Ok (SecureReceive.Data (received_frame 0x0800)) /\
    output = replicate 32 9 /\
    run r, (secure, output) := finish_received_packet 1 (received_frame EAPOL_ETHERTYPE)
      on (secure, output) in
    match r with Err (SecureProductionError.Wpa2 _) => True | _ => False end /\
    take 14 output = zeros 14 /\
    Wpa2StationDriver_state secure = DriverState.Recovering)).

Definition secure_deadlines_advance_and_expire_fail_closed : Prop :=
  with_driver (fun driver =>
  secure_driver driver (fun secure =>
    run r, secure := Wpa2StationDriver_advance_time (E := unit) 1 on secure in
    is_ok r = true /\
    wr_remaining_ms (wsd_security secure) = Some 4999 /\
    run r, secure := Wpa2StationDriver_advance_time (E := unit) 4999 on secure in
    r = Err (SecureProductionError.Wpa2
               (Wpa2RuntimeError.Timeout Wpa2RuntimeState.AwaitingAuthenticator)) /\
    Wpa2StationDriver_state secure = DriverState.Recovering /\
    security_state secure = Wpa2RuntimeState.Failed)).

(** ** Helpers of the driver *)

Definition short_ethernet_frame_is_rejected : Prop :=
  @production_ethernet_type unit (zeros 13) = Err ProductionError.InvalidEthernetFrame.

Definition ethernet_type_is_big_endian : Prop :=
  let frame := edited (zeros 14) [(12, to_be 2 EAPOL_ETHERTYPE)] in
  @production_ethernet_type unit frame = Ok EAPOL_ETHERTYPE.

Definition caller_buffer_error_does_not_require_hardware_recovery : Prop :=
  let error := DriverError.Data (DataError.OutputTooSmall 64 32) in
  @receive_error_requires_recovery unit unit error = Ok false.

Definition uncertain_queue_ownership_requires_recovery : Prop :=
  let error :=
    DriverError.Data (DataError.QueueOwnershipUncertain DeviceError.CommandDeliveryUncertain) in
  @driver_error_requires_recovery unit unit error DriverOperation.Transmit = Ok true.

Definition malformed_firmware_data_requires_recovery : Prop :=
  let error := DriverError.DataProtocol DataProtocolError.InvalidLength in
  @driver_error_requires_recovery unit unit error DriverOperation.Event = Ok true.

Definition invalid_state_is_not_a_hardware_recovery_reason : Prop :=
  let error := DriverError.InvalidState DriverState.Cold DriverState.Ready in
  @driver_error_requires_recovery unit unit error DriverOperation.Control = Ok false.

Definition station_fault_requires_recovery : Prop :=
  let error := StationError.Fault StationFault.UnexpectedEvent in
  @station_error_requires_recovery unit error = true.

Definition protocol_input_error_does_not_require_hardware_recovery : Prop :=
  let error := StationError.Protocol ProtocolError.LimitExceeded in
  @station_error_requires_recovery unit error = false.

(** ** The tests hold *)

Lemma mission_driver_is_fail_closed_until_ready_and_validates_ethernet_first_passes : mission_driver_is_fail_closed_until_ready_and_validates_ethernet_first.
Proof. passes. Qed.
Lemma receive_result_normalization_wipes_closed_port_frames_and_recovers_faults_passes : receive_result_normalization_wipes_closed_port_frames_and_recovers_faults.
Proof. passes. Qed.
Lemma received_frame_policy_allows_only_the_active_controlled_port_passes : received_frame_policy_allows_only_the_active_controlled_port.
Proof. passes. Qed.
Lemma finish_helpers_enter_recovery_only_for_hardware_and_station_faults_passes : finish_helpers_enter_recovery_only_for_hardware_and_station_faults.
Proof. passes. Qed.
Lemma all_recovery_policy_categories_are_explicit_passes : all_recovery_policy_categories_are_explicit.
Proof. passes. Qed.
Lemma simple_driver_error_policy_distinguishes_input_context_passes : simple_driver_error_policy_distinguishes_input_context.
Proof. passes. Qed.
Lemma expected_wpa2_commands_and_transmit_tokens_are_state_specific_passes : expected_wpa2_commands_and_transmit_tokens_are_state_specific.
Proof. passes. Qed.
Lemma secure_event_routing_ignores_unexpected_events_fail_closed_passes : secure_event_routing_ignores_unexpected_events_fail_closed.
Proof. passes. Qed.
Lemma secure_receive_classifies_data_and_wipes_rejected_eapol_passes : secure_receive_classifies_data_and_wipes_rejected_eapol.
Proof. passes. Qed.
Lemma secure_deadlines_advance_and_expire_fail_closed_passes : secure_deadlines_advance_and_expire_fail_closed.
Proof. passes. Qed.
Lemma short_ethernet_frame_is_rejected_passes : short_ethernet_frame_is_rejected.
Proof. passes. Qed.
Lemma ethernet_type_is_big_endian_passes : ethernet_type_is_big_endian.
Proof. passes. Qed.
Lemma caller_buffer_error_does_not_require_hardware_recovery_passes : caller_buffer_error_does_not_require_hardware_recovery.
Proof. passes. Qed.
Lemma uncertain_queue_ownership_requires_recovery_passes : uncertain_queue_ownership_requires_recovery.
Proof. passes. Qed.
Lemma malformed_firmware_data_requires_recovery_passes : malformed_firmware_data_requires_recovery.
Proof. passes. Qed.
Lemma invalid_state_is_not_a_hardware_recovery_reason_passes : invalid_state_is_not_a_hardware_recovery_reason.
Proof. passes. Qed.
Lemma station_fault_requires_recovery_passes : station_fault_requires_recovery.
Proof. passes. Qed.
Lemma protocol_input_error_does_not_require_hardware_recovery_passes : protocol_input_error_does_not_require_hardware_recovery.
Proof. passes. Qed.
